(* ===== verification/_CoqProject ===== *)
-Q . S2P
Prelude.v
LibString.v
FileSystem.v
Console.v
I8259.v
Keyboard.v
Paging.v
Rtc.v
Printf.v
Idt.v
Machine.v
State.v
Terminal.v
Desks.v
Frame.v
FileOps.v
SysCall.v
Process.v
Scheduler.v
Family.v
System.v
Files.v
Calls.v
Os.v
Boot.v
Startup.v
Kernel.v
Stubs.v
Start.v
Gates.v
Interleave.v
Typed.v
SelfTests.v
User.v
Programs.v
Clients.v
SysErr.v
Grep.v
UserKernel.v
KernelExec.v
OnKernel.v
Sigtest.v
Preempt.v
Pingpong.v
Preempted.v
Typing.v
Blink.v
Fish.v
Aquarium.v
Emulate.v
