(* ===== verification/Prelude.v ===== *)
(** * UnixLite: a verification of the kernel and the programs under src/

    UnixLite is a small 32-bit x86 kernel: a text console, a keyboard with a line
    editor, three switchable terminals, a read-only file system in a boot module,
    a real-time clock with a rate per process, paging, ten system calls, up to six
    processes and a round-robin scheduler driven by the timer interrupt.

    ** How the parts interact

    An interrupt enters the kernel through the descriptor table ([Idt.v]) and one of
    the assembly entries ([Stubs.v]), which calls a C function.  The
    keyboard's goes to [keyboard_handler] ([Terminal.v]): the scan code becomes a
    character ([Keyboard.v]), the line of the shown terminal and its display
    ([Console.v]) change, or another terminal is shown.  The timer's goes to
    [pit_handler] ([Scheduler.v]), which goes on with the process of the next
    terminal; the clock's to [rtc_handler] ([Rtc.v]), which releases the processes
    that wait for their next period.  A system call works on the descriptors of the
    running process ([SysCall.v]) through a table of operations ([FileOps.v]) onto
    the terminal driver ([Terminal.v]), the clock, or the file system
    ([FileSystem.v]); or it starts or ends a program ([Process.v]).  [State.v]
    is the record of the whole state these share.

    ** Files

    - [Prelude.v]: machine integers with their wrap-around written out, arrays as
      lists with a checked access ([aget], [aset]; [None] is an access out of
      range), [splice] and [slice], loops ([for_range], and [iterate] with fuel),
      record update, hint databases and tactics.
    - [LibString.v]: the string and memory routines of lib.c.  [cstring] says that
      an object holds a terminated string.
    - [FileSystem.v]: file_system.c over the bytes of the image.  [represents img F]
      relates an image to an abstract file system; [fsck] decides well-formedness.
    - [Console.v]: putc, put_key, remc, clear_screen and the cursors of lib.c.  A
      display is refined to a teletype, [tty]: an unbounded tape of cells, a
      position, and the first row in the window.
    - [I8259.v], [Keyboard.v], [Paging.v], [Rtc.v]: i8259.c, the scan codes and the
      line buffer of keyboard.c, paging.c with the other updates of the tables,
      rtc.c.
    - [Printf.v]: printf and puts of lib.c over any character output (a typeclass
      the console implements).
    - [Idt.v]: the descriptor table and the exception banner of idt.c.
    - [Machine.v]: the processor, as far as the assembly needs it: instructions,
      interrupts through the gates, the stack switch, iret, words in memory.
    - [Stubs.v]: the entries of exception.S, keyboard_link.S, rtc_link.S, pit_link.S
      and system_call_link.S, and the programs' calls of ece391syscall.S, as lists
      of instructions, each proved with one lemma per stretch of code.
    - [Start.v]: boot.S and the descriptors of x86_desc.S.
    - [Gates.v]: the theorems about the two, with a concrete linked kernel.
    - [State.v]: the kernel's record; process control blocks.
    - [Terminal.v]: keyboard_handler, terminal_switch and terminal.c.
    - [Desks.v]: the specification of the terminals, three independent desks, and
      the simulation [implements].
    - [FileOps.v], [SysCall.v]: the operation tables and the descriptor calls.
    - [Process.v]: sys_execute, sys_halt, halt_helper, handle_exception.
    - [Scheduler.v]: pit.c and processes.c.
    - [Frame.v]: what the terminals' operations leave alone: the processes.
    - [Family.v]: the process tables as three stacks, one per terminal.
    - [System.v]: the whole kernel.  [machine] is the specification's state (desks,
      stacks of processes, a clock), [spec_step] what each event does to it,
      [run_sys] the code's entry point for the event, [models] the relation.
    - [Files.v]: what a process has open, as a specification: a [stream] per
      descriptor, with the relation [fds_are] to the descriptor table.
    - [Calls.v]: what a program may do with a system call, [call], and what the
      kernel's calls do on the caller's files, clock and directory ([owned]).
    - [Os.v]: the whole with the system calls in it.  [os] is [machine] with
      everybody's open files and clock rates, [next] what an event or a call does
      to it, [run_os] the code, [serves] the relation.
    - [Boot.v], [Startup.v]: entry() of kernel.c with multiboot.h and the segment
      descriptors; the states from power on to three running shells.
    - [Kernel.v]: the theorems about the whole, before any calls.
    - [Interleave.v]: the theorems about any sequence of events and calls: what
      others do leaves a program alone, a read that waits gets its line.
    - [SelfTests.v]: the kernel's own tests, tests.c.
    - [Typed.v]: what every history keeps of the kernel's tables, as a type.
    - [User.v]: the user side of the system calls, a typeclass [Syscalls]; the
      support library ece391support.c; a program's [session] and the promises
      [FileLaws] it may rely on.
    - [Programs.v]: the programs of syscalls/ over any [Syscalls].
    - [Clients.v]: what they do, proved from [FileLaws].
    - [SysErr.v]: syserr, the programs' own tests of the calls' errors; the tests pass
      on any calls that keep [FileLaws] and [RefusalLaws].
    - [Grep.v]: grep, its buffer of partial lines and its search.
    - [UserKernel.v]: the kernel keeps [FileLaws]: its calls implement [Syscalls]
      and [runs] relates its state to a session.
    - [KernelExec.v]: execute for the caller, [ExecCall]: the kernel's sys_execute,
      the program started (its behaviour a parameter), and sys_halt; the laws
      [ExecLaws] are proved of it.
    - [OnKernel.v]: the programs on the kernel, alone.
    - [Sigtest.v]: sigtest, which asks for signals that the kernel does not have.
    - [Preempt.v]: the calls of a program with turns of the other terminals, clock
      ticks and keys before each of them, [preempted_calls], and before each byte it
      stores in the mapped page of video memory, [preempted_screen]; they keep
      [FileLaws], [RefusalLaws], [ClockLaws], [VideoLaws] and [ScreenLaws] ([lives]).
    - [Pingpong.v]: the endless animation pingpong.
    - [Preempted.v]: cat and pingpong on the kernel, preempted.
    - [Typing.v]: hello and syserr on the kernel, preempted, with somebody typing the
      line they wait for ([typist] of [Preempt.v]).
    - [Blink.v]: blink.S and the allocator of fish.c: the blinking characters, over any
      memory with byte stores ([Screen]) against a reference that draws on a [Canvas].
    - [Fish.v]: the program fish over any calls and memory that keep the laws.
    - [Aquarium.v]: fish on the kernel, preempted; its stores are events of the
      kernel's displays ([Poke] of [Desks.v]).
    - [Emulate.v]: ece391emulate.c, the programs' calls on a Linux host, over a class
      [Libc] of what the host offers, compared with the kernel's calls.

    ** What the state is

    Every operation is a function from the state to [option] of its results:
    [None] is what C leaves undefined, an access outside an array.  That a function
    returns [Some] is part of every theorem that has it in its conclusion.  Ways of
    leaving a function other than returning are data: [outcome] and [pit_outcome].
    The interrupt flag is a field; the theorems about the terminal driver take the
    interrupts that arrive while it polls as an argument.

    ** What the theorems show

    The whole: booting leads to three shells in a state of [serves], with nothing
    open; from such a state any sequence of events (keys, output, stores in the mapped
    page of video memory, clock and timer interrupts, programs started and ended,
    exceptions) and of system calls of whichever program has the processor, with
    arguments as [call_ok] says, runs without a fault and answers as the
    specification says; the process tables stay consistent and well typed; what
    happens on the other terminals leaves a program's processes, files and clock
    as they are; a read of the keyboard gets the line that the user has typed when
    it ends, whatever was done meanwhile.  The
    terminals: keys, output and stores in the mapped page on the kernel's state
    implement three independent desks, for any sequence of events; a read returns the line typed at
    the reader's own desk.  The scheduler: a tick saves and restores exactly, is
    invisible on the desks, and comes round in three.  Processes: execute starts
    exactly the named program, halt returns from the call that started it, a base
    shell restarts.  Files: read_data, read_dentry_by_name and the descriptor calls
    against the abstract file system.  The clock: a read waits for one period.  The
    console, the line editor, printf, the page tables, the interrupt masks, the
    descriptor table and the string routines: against their specifications.  The
    user programs: cat prints its file, ls the directory, counter its numbers, and
    the shell runs the commands typed and reports the ones that do not exist, grep the
    lines with its pattern, and syserr passes all its tests, from the calls down to
    the cells of the display; cat, pingpong, fish, hello and syserr do so too when the
    other terminals' programs run between their calls, and while they wait for a
    line that somebody types.  fish's blinking characters, a
    list linked through an array, do what the same commands do on a list, and keep
    their time.  Under the C code: an interrupt leaves the interrupted program's
    registers, flags, segments and stack as they were; a program's call gets to the
    C function of its number with its three arguments and comes back with the
    answer of the C model's [sys_call] and what the function has stored in the
    program's buffers; the stubs of the exceptions with an error
    code lose it; the boot code gets to entry() with the loader's two words.  The
    emulation on Linux gives programs the same arguments and the same directory as
    the kernel, with the differences that the theorems state.  sigtest ends in the
    page fault it provokes.  Of the kernel's own tests, which its launch_tests has
    as comments only, it is shown what they would say.

    ** Bounds and fuel

    [for_range] recurses on the number of rounds.  [iterate] takes fuel; each use
    passes a bound on the rounds the loop makes (the length of the buffer, the
    number of digits, the number of table entries) and the theorems prove that the
    loop ends within it.  The loops that wait for an interrupt take the interrupts,
    or the number of clock ticks, as their bound; theorems say how many are enough.

    ** Not modelled

    The image tools, which come without source; the macros of debug.h, which nothing
    uses; lidt, whose table is the only one there is. C code and assembly meet in
    [comes_back]: what a C function does to the processor's registers and memory is
    a parameter of [Stubs.v], of which it is only asked that a function that comes
    back has left its own kernel stack above its arguments as it was, and, for a
    system call, its caller's return address; the rest of memory, the program's
    buffers included, is its own to change. Compiled C code is not modelled. The processor's
    memory in [Machine.v] is a map of words at multiples of 4, without paging, and
    its segments are taken as the flat ones that [Start.v] proves them to be. Of the
    emulation's host only what the C library documents is assumed.
    A program's memory is its own data in the models of the programs; of what the
    kernel stores there the words behind pointers are results of the calls, and of the
    addresses above the program's page only the page of video memory is in the state:
    a store elsewhere there is a page fault, [None] ([State.store_video]), of the
    kernel's own store for vidmap, too ([SysCall.store_pointer]).
    Interrupts come between the calls of a program and while a call waits, not in the
    middle of one: the kernel's code between them is taken as one step.  The shell,
    whose command's program is a parameter of [KernelExec.v], grep, ls, counter and
    sigtest are proved on the kernel alone ([OnKernel.v], [Sigtest.v]), not between
    others' turns. *)
From stdpp Require Import base option list numbers.
From Stdlib Require Import ZArith Lia.

Open Scope Z_scope.

(** ** Machine integers

    A [w]-bit C integer is the [Z] it denotes; every operation of the source
    that can leave the range is followed by the wrap-around written out. *)

Definition u32 (z : Z) : Z := z mod 4294967296.
Definition u8 (z : Z) : Z := z mod 256.
Definition s32 (z : Z) : Z := (z + 2147483648) mod 4294967296 - 2147483648.
Definition s8 (z : Z) : Z := (z + 128) mod 256 - 128.

Definition is_u32 (z : Z) : Prop := 0 <= z < 4294967296.
Definition is_s32 (z : Z) : Prop := -2147483648 <= z < 2147483648.
Definition is_byte (z : Z) : Prop := 0 <= z < 256.

Lemma u32_small z : is_u32 z -> u32 z = z.
Proof. unfold is_u32, u32. intros. apply Z.mod_small. lia. Qed.

Lemma u32_range z : is_u32 (u32 z).
Proof. unfold is_u32, u32. apply Z.mod_pos_bound. lia. Qed.

Lemma u8_small z : is_byte z -> u8 z = z.
Proof. unfold is_byte, u8. intros. apply Z.mod_small. lia. Qed.

Lemma u8_range z : is_byte (u8 z).
Proof. unfold is_byte, u8. apply Z.mod_pos_bound. lia. Qed.

Lemma s32_small z : is_s32 z -> s32 z = z.
Proof. unfold is_s32, s32. intros. rewrite Z.mod_small; lia. Qed.

Lemma s8_inj a b : is_byte a -> is_byte b -> s8 a = s8 b -> a = b.
Proof.
  unfold is_byte, s8. intros.
  assert ((a + 128) mod 256 = (b + 128) mod 256) as E by lia.
  pose proof (Z.div_mod (a + 128) 256). pose proof (Z.div_mod (b + 128) 256).
  pose proof (Z.mod_pos_bound (a + 128) 256). pose proof (Z.mod_pos_bound (b + 128) 256).
  lia.
Qed.

Lemma s8_zero a : is_byte a -> s8 a = 0 <-> a = 0.
Proof.
  intros Ha. split; [|intros ->; reflexivity].
  intros H. apply s8_inj; [done|unfold is_byte; lia|]. rewrite H. reflexivity.
Qed.

(** ** Arrays

    A C array (or the object a pointer points into) is a list; an access
    outside it is undefined behaviour (or a page fault) and is [None]. *)

Abbreviation len l := (Z.of_nat (length l)).

Definition aget {A} (l : list A) (i : Z) : option A :=
  if i <? 0 then None else l !! Z.to_nat i.

Definition aset {A} (l : list A) (i : Z) (v : A) : option (list A) :=
  if (0 <=? i) && (i <? len l) then Some (<[Z.to_nat i := v]> l) else None.

Arguments aget : simpl never.
Arguments aset : simpl never.
Arguments u32 : simpl never.
Arguments s32 : simpl never.
Arguments u8 : simpl never.
Arguments s8 : simpl never.

Declare Scope c_scope.
Delimit Scope c_scope with c.
Notation "l .[ i ]" := (aget l i) (at level 1, left associativity, format "l .[ i ]") : c_scope.
Notation "l .[ i := v ]" := (aset l i v)
  (at level 1, left associativity, format "l .[ i  :=  v ]") : c_scope.
Open Scope c_scope.

Section arrays.
Context {A : Type}.
Implicit Types (l : list A) (i j : Z) (v : A).

Lemma aget_nat l (n : nat) : l.[Z.of_nat n] = l !! n.
Proof. unfold aget. destruct (Z.ltb_spec (Z.of_nat n) 0); [lia|]. by rewrite Nat2Z.id. Qed.

Lemma aget_range l i v : l.[i] = Some v -> 0 <= i < len l.
Proof.
  unfold aget. destruct (Z.ltb_spec i 0); [done|]. intros Hl%lookup_lt_Some. lia.
Qed.

Lemma aget_is_Some l i : 0 <= i < len l -> exists v, l.[i] = Some v.
Proof.
  intros H. unfold aget. destruct (Z.ltb_spec i 0); [lia|].
  apply lookup_lt_is_Some_2. lia.
Qed.

Lemma aget_None l i : ~ (0 <= i < len l) -> l.[i] = None.
Proof.
  intros H. destruct (l.[i]) eqn:E; [|done]. by apply aget_range in E.
Qed.

Lemma aset_Some l i v : 0 <= i < len l -> l.[i := v] = Some (<[Z.to_nat i := v]> l).
Proof.
  intros H. unfold aset.
  destruct (Z.leb_spec 0 i); [|lia]. destruct (Z.ltb_spec i (len l)); [done|lia].
Qed.

Lemma aset_inv l i v l' :
  l.[i := v] = Some l' -> 0 <= i < len l /\ l' = <[Z.to_nat i := v]> l.
Proof.
  unfold aset. destruct (Z.leb_spec 0 i), (Z.ltb_spec i (len l)); simpl; try done.
  intros [= <-]. split; [lia|done].
Qed.

Lemma aset_None l i v : ~ (0 <= i < len l) -> l.[i := v] = None.
Proof.
  intros H. destruct (l.[i := v]) eqn:E; [|done]. by apply aset_inv in E as [??].
Qed.

Lemma aset_length l i v l' : l.[i := v] = Some l' -> length l' = length l.
Proof. intros [_ ->]%aset_inv. apply length_insert. Qed.

Lemma aget_insert_eq l i v : 0 <= i < len l -> (<[Z.to_nat i := v]> l).[i] = Some v.
Proof.
  intros H. unfold aget. destruct (Z.ltb_spec i 0); [lia|].
  apply list_lookup_insert_eq. lia.
Qed.

Lemma aget_insert_ne l i j v :
  0 <= i -> i <> j -> (<[Z.to_nat i := v]> l).[j] = l.[j].
Proof.
  intros H Hne. unfold aget. destruct (Z.ltb_spec j 0); [done|].
  apply list_lookup_insert_ne. lia.
Qed.

Lemma aget_aset_eq l i v l' : l.[i := v] = Some l' -> l'.[i] = Some v.
Proof. intros [H ->]%aset_inv. by apply aget_insert_eq. Qed.

Lemma aget_aset_ne l i j v l' : l.[i := v] = Some l' -> i <> j -> l'.[j] = l.[j].
Proof. intros [H ->]%aset_inv Hne. apply aget_insert_ne; [lia|done]. Qed.

Lemma aset_same l i v : l.[i] = Some v -> l.[i := v] = Some l.
Proof.
  intros H. pose proof (aget_range _ _ _ H) as Hr. rewrite aset_Some by done. f_equal.
  apply list_insert_id. by rewrite <- aget_nat, Z2Nat.id by lia.
Qed.

(** Two arrays of one length that agree at every index are equal. *)
Lemma aget_ext l1 l2 :
  length l1 = length l2 ->
  (forall i, 0 <= i < len l1 -> l1.[i] = l2.[i]) -> l1 = l2.
Proof.
  intros Hl H. apply list_eq_same_length with (n := length l1); [done|done|].
  intros i x y Hi Hx Hy. specialize (H (Z.of_nat i) ltac:(lia)).
  rewrite !aget_nat in H. congruence.
Qed.

Lemma aget_app_l l1 l2 i : i < len l1 -> (l1 ++ l2).[i] = l1.[i].
Proof.
  intros H. unfold aget. destruct (Z.ltb_spec i 0); [done|]. apply lookup_app_l. lia.
Qed.

Lemma aget_app_r l1 l2 i : len l1 <= i -> (l1 ++ l2).[i] = l2.[i - len l1].
Proof.
  intros H. unfold aget. destruct (Z.ltb_spec i 0), (Z.ltb_spec (i - len l1) 0); try lia.
  rewrite lookup_app_r by lia. f_equal. lia.
Qed.

Lemma aget_take l i (n : nat) : i < Z.of_nat n -> (take n l).[i] = l.[i].
Proof.
  intros H. unfold aget. destruct (Z.ltb_spec i 0); [done|]. apply lookup_take_lt. lia.
Qed.

Lemma aget_drop l i (n : nat) : 0 <= i -> (drop n l).[i] = l.[Z.of_nat n + i].
Proof.
  intros H. unfold aget.
  destruct (Z.ltb_spec i 0), (Z.ltb_spec (Z.of_nat n + i) 0); try lia.
  rewrite lookup_drop. f_equal. lia.
Qed.

Lemma aget_replicate (n : nat) v i : 0 <= i < Z.of_nat n -> (replicate n v).[i] = Some v.
Proof.
  intros H. unfold aget. destruct (Z.ltb_spec i 0); [lia|].
  apply lookup_replicate_2. lia.
Qed.

Lemma aget_Forall (P : A -> Prop) l i v : Forall P l -> l.[i] = Some v -> P v.
Proof.
  unfold aget. destruct (Z.ltb_spec i 0); [done|]. intros HF Hv.
  eapply Forall_lookup_1; eauto.
Qed.

Lemma aset_Forall (P : A -> Prop) l i v l' :
  Forall P l -> P v -> l.[i := v] = Some l' -> Forall P l'.
Proof. intros HF Hv [_ ->]%aset_inv. by apply Forall_insert. Qed.
End arrays.

(** [slice l i n] is the [n] elements from index [i] on; [splice l i xs] is [l]
    with [xs] written over it from index [i] on. *)
Definition slice {A} (l : list A) (i n : Z) : list A :=
  take (Z.to_nat n) (drop (Z.to_nat i) l).

Definition splice {A} (l : list A) (i : Z) (xs : list A) : list A :=
  take (Z.to_nat i) l ++ xs ++ drop (Z.to_nat i + length xs) l.

Arguments slice : simpl never.
Arguments splice : simpl never.

Section slices.
Context {A : Type}.
Implicit Types (l xs : list A) (i j n : Z).

Lemma length_slice l i n :
  0 <= i -> 0 <= n -> i + n <= len l -> length (slice l i n) = Z.to_nat n.
Proof. intros. unfold slice. rewrite length_take, length_drop. lia. Qed.

Lemma aget_slice l i n j : 0 <= i -> 0 <= j < n -> (slice l i n).[j] = l.[i + j].
Proof.
  intros. unfold slice. rewrite aget_take, aget_drop by lia. f_equal. lia.
Qed.

Lemma length_splice l i xs :
  0 <= i -> i + len xs <= len l -> length (splice l i xs) = length l.
Proof.
  intros. unfold splice. rewrite !length_app, length_take, length_drop. lia.
Qed.

Lemma aget_splice_in l i xs j :
  0 <= i -> i + len xs <= len l -> i <= j < i + len xs ->
  (splice l i xs).[j] = xs.[j - i].
Proof.
  intros. unfold splice.
  rewrite aget_app_r by (rewrite length_take; lia).
  rewrite aget_app_l by (rewrite length_take; lia).
  f_equal. rewrite length_take. lia.
Qed.

Lemma aget_splice_out l i xs j :
  0 <= i -> i + len xs <= len l -> j < i \/ i + len xs <= j ->
  (splice l i xs).[j] = l.[j].
Proof.
  intros Hi Hl [Hj|Hj]; unfold splice.
  - rewrite aget_app_l by (rewrite length_take; lia). apply aget_take. lia.
  - rewrite !aget_app_r by (rewrite length_take; lia).
    rewrite length_take, aget_drop by lia. f_equal. lia.
Qed.

(** A write inside (outside) a slice seen through the slice. *)
Lemma slice_aset_in l i n j (v : A) l' :
  0 <= i -> i + n <= len l -> i <= j < i + n -> l.[j := v] = Some l' ->
  (slice l i n).[j - i := v] = Some (slice l' i n).
Proof.
  intros Hi Hn Hj E. pose proof (aset_length _ _ _ _ E) as Hlen.
  rewrite aset_Some by (rewrite length_slice; lia). f_equal.
  apply aget_ext.
  { rewrite length_insert, !length_slice; lia. }
  intros k Hk. rewrite length_insert, length_slice in Hk by lia.
  rewrite (aget_slice l') by lia. apply aset_inv in E as [_ ->].
  destruct (decide (k = j - i)) as [->|Hne].
  - rewrite aget_insert_eq by (rewrite length_slice; lia).
    symmetry. replace (i + (j - i)) with j by lia. apply aget_insert_eq. lia.
  - rewrite !aget_insert_ne by lia. apply aget_slice; lia.
Qed.

Lemma slice_aset_out l i n j (v : A) l' :
  0 <= i -> 0 <= n -> j < i \/ i + n <= j -> l.[j := v] = Some l' ->
  slice l' i n = slice l i n.
Proof.
  intros Hi Hn Hj [Hr ->]%aset_inv. unfold slice.
  destruct Hj.
  - rewrite drop_insert_lt by lia. done.
  - rewrite !take_drop_commute, take_insert_ge by lia. done.
Qed.

Lemma splice_cons l i v xs l' :
  l.[i := v] = Some l' -> splice l' (i + 1) xs = splice l i (v :: xs).
Proof.
  intros [Hi ->]%aset_inv. unfold splice.
  replace (Z.to_nat (i + 1)) with (S (Z.to_nat i)) by lia.
  rewrite (take_S_r _ _ v) by (apply list_lookup_insert_eq; lia).
  rewrite take_insert_ge by lia. rewrite <- app_assoc. simpl. do 2 f_equal.
  f_equal. rewrite drop_insert_lt by lia. f_equal. lia.
Qed.

Lemma splice_nil l i : splice l i [] = l.
Proof. unfold splice. simpl. rewrite Nat.add_0_r. apply take_drop. Qed.

Lemma splice_one l i v : 0 <= i < len l -> splice l i [v] = <[Z.to_nat i := v]> l.
Proof.
  intros H. pose proof (aset_Some l i v H) as E.
  by rewrite <- (splice_cons _ _ _ _ _ E), splice_nil.
Qed.

Lemma splice_app l i xs ys :
  0 <= i -> i + len xs <= len l ->
  splice (splice l i xs) (i + len xs) ys = splice l i (xs ++ ys).
Proof.
  revert l i. induction xs as [|x xs IH]; intros l i Hi Hl; simpl in *.
  { rewrite splice_nil. by rewrite Z.add_0_r. }
  destruct (aget_is_Some l i) as [y Hy]; [lia|].
  pose proof (aset_Some l i x ltac:(lia)) as E.
  rewrite <- !(splice_cons _ _ _ _ _ E), <- IH.
  - f_equal. lia.
  - lia.
  - rewrite (aset_length _ _ _ _ E). lia.
Qed.
Lemma slice_app l i n m :
  0 <= i -> 0 <= n -> 0 <= m -> slice l i (n + m) = slice l i n ++ slice l (i + n) m.
Proof.
  intros. unfold slice. replace (Z.to_nat (n + m)) with (Z.to_nat n + Z.to_nat m)%nat by lia.
  rewrite <- (take_take_drop _ (Z.to_nat n)), drop_drop. do 3 f_equal. lia.
Qed.

Lemma slice_splice_same l i xs n :
  0 <= i -> i + n <= len l -> n = len xs -> slice (splice l i xs) i n = xs.
Proof.
  intros Hi Hl ->. apply aget_ext.
  { rewrite length_slice by (rewrite ?length_splice; lia). lia. }
  rewrite length_slice by (rewrite ?length_splice; lia). intros j Hj.
  rewrite aget_slice, aget_splice_in by lia. f_equal. lia.
Qed.

Lemma slice_splice_apart l i xs j n :
  0 <= i -> i + len xs <= len l -> 0 <= j -> 0 <= n -> j + n <= len l ->
  j + n <= i \/ i + len xs <= j -> slice (splice l i xs) j n = slice l j n.
Proof.
  intros Hi Hl Hj Hn Hjn Hap. apply aget_ext.
  { rewrite !length_slice by (rewrite ?length_splice; lia). lia. }
  rewrite length_slice by (rewrite ?length_splice; lia). intros k Hk.
  rewrite !aget_slice by lia. apply aget_splice_out; lia.
Qed.

Lemma slice_splice_0 l xs n : n = len xs -> slice (splice l 0 xs) 0 n = xs.
Proof.
  intros ->. unfold slice, splice. simpl. rewrite drop_0, Nat2Z.id. apply take_app_length.
Qed.
End slices.

Lemma aget_cons {A} (x : A) (l : list A) i : (x :: l).[i] = if i =? 0 then Some x else l.[i - 1].
Proof.
  unfold aget. destruct (Z.ltb_spec i 0), (Z.eqb_spec i 0), (Z.ltb_spec (i - 1) 0); try done; try lia.
  - by subst i.
  - replace (Z.to_nat i) with (S (Z.to_nat (i - 1))) by lia. done.
Qed.

Lemma aget_fmap {A B} (f : A -> B) (l : list A) i : (f <$> l).[i] = f <$> l.[i].
Proof. unfold aget. destruct (i <? 0); [done|]. apply list_lookup_fmap. Qed.

Lemma take_snoc {A} (l : list A) i c : 0 <= i -> l.[i] = Some c ->
  take (Z.to_nat (i + 1)) l = take (Z.to_nat i) l ++ [c].
Proof.
  intros Hi E. replace (Z.to_nat (i + 1)) with (S (Z.to_nat i)) by lia.
  apply take_S_r. rewrite <- aget_nat, Z2Nat.id by lia. done.
Qed.

Create HintDb arrays discriminated.
Create Rewrite HintDb lens.
#[export] Hint Resolve aget_insert_eq u32_range u8_range : arrays.
#[export] Hint Extern 1 (is_byte _) => (unfold is_byte; lia) : arrays.
#[export] Hint Extern 1 (is_u32 _) => (unfold is_u32; lia) : arrays.
#[export] Hint Rewrite @length_insert @length_app @length_take @length_drop @length_replicate
  : lens.

(** ** Loops

    [for_up n i body s] runs [body i s], ..., [body (i+n-1) s] in order: the C
    loop [for (k = i; k < i+n; k++)].  [iterate fuel step s] is the C loop
    [while (1)]: one round either goes on with a new state or leaves the loop
    with a result.  Running out of fuel is [None], as a fault is, so a theorem
    that gives [Some] says that the loop ends and that no access faults. *)

Fixpoint for_up {S} (n : nat) (i : Z) (body : Z -> S -> option S) (s : S) : option S :=
  match n with
  | O => Some s
  | Datatypes.S n' => s' ← body i s; for_up n' (i + 1) body s'
  end.

Definition for_range {S} (lo hi : Z) (body : Z -> S -> option S) (s : S) : option S :=
  for_up (Z.to_nat (hi - lo)) lo body s.

Inductive flow (S R : Type) : Type :=
| Next (s : S)
| Done (r : R).
Arguments Next {S R} s.
Arguments Done {S R} r.

Fixpoint iterate {S R} (fuel : nat) (step : S -> option (flow S R)) (s : S) : option R :=
  match fuel with
  | O => None
  | Datatypes.S fuel' =>
      o ← step s;
      match o with Next s' => iterate fuel' step s' | Done r => Some r end
  end.

Section loops.
Context {S : Type}.

Lemma iterate_S {R} fuel (step : S -> option (flow S R)) s :
  iterate (Datatypes.S fuel) step s =
    o ← step s; match o with Next s' => iterate fuel step s' | Done r => Some r end.
Proof. reflexivity. Qed.

Lemma for_up_S n i (body : Z -> S -> option S) s :
  for_up (Datatypes.S n) i body s = s' ← body i s; for_up n (i + 1) body s'.
Proof. reflexivity. Qed.

Lemma for_up_ind (P : Z -> S -> Prop) (body : Z -> S -> option S) (n : nat) :
  forall i s,
  P i s ->
  (forall k s, i <= k < i + Z.of_nat n -> P k s ->
     exists s', body k s = Some s' /\ P (k + 1) s') ->
  exists s', for_up n i body s = Some s' /\ P (i + Z.of_nat n) s'.
Proof.
  induction n as [|n IH]; intros i s Hs Hb; simpl.
  - exists s. split; [done|]. by rewrite Z.add_0_r.
  - destruct (Hb i s ltac:(lia) Hs) as (s1 & -> & Hs1). simpl.
    destruct (IH (i + 1) s1 Hs1) as (s2 & -> & Hs2).
    { intros. apply Hb; [lia|done]. }
    exists s2. split; [done|]. replace (i + Z.of_nat (Datatypes.S n))
      with (i + 1 + Z.of_nat n) by lia. done.
Qed.

Lemma for_range_ind (P : Z -> S -> Prop) (body : Z -> S -> option S) lo hi s :
  lo <= hi ->
  P lo s ->
  (forall k s, lo <= k < hi -> P k s -> exists s', body k s = Some s' /\ P (k + 1) s') ->
  exists s', for_range lo hi body s = Some s' /\ P hi s'.
Proof.
  intros Hle Hs Hb. unfold for_range.
  destruct (for_up_ind P body (Z.to_nat (hi - lo)) lo s Hs) as (s' & E & H).
  { intros. apply Hb; [lia|done]. }
  exists s'. split; [done|]. replace hi with (lo + Z.of_nat (Z.to_nat (hi - lo))) by lia. done.
Qed.

Lemma for_up_app (n m : nat) (body : Z -> S -> option S) : forall i s,
  for_up (n + m) i body s = s' ← for_up n i body s; for_up m (i + Z.of_nat n) body s'.
Proof.
  induction n as [|n IH]; intros i s; simpl.
  - by rewrite Z.add_0_r.
  - destruct (body i s); simpl; [|done]. rewrite IH.
    replace (i + 1 + Z.of_nat n) with (i + Z.of_nat (Datatypes.S n)) by lia. done.
Qed.

Context {R : Type}.

(** Total correctness of a loop: an invariant and a measure that bounds the
    number of rounds left. *)
Lemma iterate_ind (P : S -> Prop) (Q : R -> Prop) (m : S -> nat)
    (step : S -> option (flow S R)) (fuel : nat) :
  (forall s, P s -> exists o, step s = Some o /\
     match o with Next s' => P s' /\ (m s' < m s)%nat | Done r => Q r end) ->
  forall s, P s -> (m s < fuel)%nat -> exists r, iterate fuel step s = Some r /\ Q r.
Proof.
  intros Hstep. induction fuel as [|fuel IH]; intros s Hs Hm; [lia|]. simpl.
  destruct (Hstep s Hs) as ([s'|r] & -> & Ho); simpl; [|eauto].
  destruct Ho as [Hs' Hlt]. apply IH; [done|lia].
Qed.

(** The same loop. *)
Lemma iterate_ext (step1 step2 : S -> option (flow S R)) fuel : forall s,
  (forall s, step1 s = step2 s) -> iterate fuel step1 s = iterate fuel step2 s.
Proof.
  induction fuel as [|fuel IH]; intros s H; [done|]. simpl. rewrite H.
  destruct (step2 s) as [ [s'|r]|]; simpl; [by apply IH|done..].
Qed.

(** More fuel never changes a result. *)
Lemma iterate_mono (step : S -> option (flow S R)) (f1 f2 : nat) : forall s r,
  (f1 <= f2)%nat -> iterate f1 step s = Some r -> iterate f2 step s = Some r.
Proof.
  revert f2. induction f1 as [|f1 IH]; intros [|f2] s r Hle; simpl; try done; try lia.
  destruct (step s) as [[s'|r']|]; simpl; try done. apply IH. lia.
Qed.
End loops.

Arguments iterate : simpl never.
Arguments for_up : simpl never.

(** A loop that stores [f i] at every index [i] of a range. *)
Lemma for_range_fill {A} (f : Z -> A) (l : list A) lo hi :
  0 <= lo <= hi -> hi <= len l ->
  exists l', for_range lo hi (fun i l => l.[i := f i]) l = Some l' /\ length l' = length l /\
    forall j, l'.[j] = if (lo <=? j) && (j <? hi) then Some (f j) else l.[j].
Proof.
  intros Hlo Hhi.
  destruct (for_range_ind (fun i l' => length l' = length l /\
      forall j, l'.[j] = if (lo <=? j) && (j <? i) then Some (f j) else l.[j])
    (fun i l => l.[i := f i]) lo hi l) as (l' & E & Hl & H); [lia| | |by exists l'].
  - split; [done|]. intros j. destruct (Z.leb_spec lo j), (Z.ltb_spec j lo); try done; lia.
  - intros i l1 Hi [Hl1 H1]. rewrite aset_Some by lia. eexists; split; [done|].
    split; [by rewrite length_insert|]. intros j. destruct (Z.eq_dec i j) as [<-|Hne].
    + rewrite aget_insert_eq by lia. destruct (Z.leb_spec lo i), (Z.ltb_spec i (i + 1)); try done; lia.
    + rewrite aget_insert_ne, H1 by lia.
      destruct (Z.leb_spec lo j), (Z.ltb_spec j i), (Z.ltb_spec j (i + 1)); try done; lia.
Qed.

(** ** Record update: [r <| f := v |>] and [r <| f ::= g |>]

    A record type declares how it is rebuilt from its fields (an [EtaExpand]
    instance); the update function of a field is read off that term. *)

Class EtaExpand (R : Type) := eta_expand : R -> R.

Class FieldUpdate {R E : Type} (proj : R -> E) := update_field : (E -> E) -> R -> R.
Arguments update_field {R E} proj {_} / _ _.

Ltac solve_field_update proj :=
  lazymatch type of proj with
  | ?R -> _ =>
      let inst := constr:(ltac:(typeclasses eauto) : EtaExpand R) in
      let e := eval hnf in inst in
      lazymatch eval pattern proj in e with
      | ?rebuild _ =>
          let t := eval cbv beta in (fun g => rebuild (fun r => g (proj r))) in exact t
      end
  end.

#[export] Hint Extern 1 (FieldUpdate ?proj) => solve_field_update proj : typeclass_instances.

Notation "r <| f := v |>" := (update_field f (fun _ => v) r)
  (at level 1, left associativity, f constr at level 0, v constr at level 200,
   format "r  <| f  :=  v |>") : c_scope.
Notation "r <| f ::= g |>" := (update_field f g r)
  (at level 1, left associativity, f constr at level 0, g constr at level 200,
   format "r  <| f  ::=  g |>") : c_scope.

(** ** Tactics *)

(** Case analysis on the option or pair a bind in a hypothesis waits for. *)
Ltac bind_inv H :=
  repeat first
    [ progress simpl in H
    | match type of H with
      | mbind _ ?e = Some _ => let E := fresh "E" in destruct e eqn:E; [|discriminate H]
      | Some _ = Some _ => injection H as H
      end ].

(** Take a step of an option computation in the goal whose head is known. *)
Ltac step_by lem := rewrite lem; simpl.
