(* ===== verification/LibString.v ===== *)
(** The string and memory routines of [src/code/lib.c]: [strlen], [strncmp],
    [strcpy], [strncpy], [strrev], [itoa], [memset], [memset_word],
    [memset_dword], [memcpy], [memmove].

    A pointer is an object (a list of bytes 0..255) and an index into it; the
    [int8_t] view of a byte is [s8].  The assembly routines work on a memory
    whose first byte has the address [base]. *)
From stdpp Require Import base option list numbers.
From Stdlib Require Import ZArith Lia.
From S2P Require Import Prelude.

(** ** Strings *)

(** while (s[len] != 0) len++ *)
Definition strlen (s : list Z) (p : Z) : option Z :=
  iterate (S (length s))
    (fun n => c ← s.[p + n]; Some (if c =? 0 then Done n else Next (n + 1))) 0.

Definition strncmp (s1 : list Z) (p1 : Z) (s2 : list Z) (p2 : Z) (n : Z) : option Z :=
  iterate (S (Z.to_nat n))
    (fun i =>
       if i <? n then
         a ← s1.[p1 + i];
         b ← s2.[p2 + i];
         if negb (s8 a =? s8 b) || (s8 a =? 0)
         then Some (Done (s8 a - s8 b))
         else Some (Next (i + 1))
       else Some (Done 0)) 0.

Definition strcpy (dest : list Z) (d : Z) (src : list Z) (p : Z) : option (list Z) :=
  iterate (S (length src))
    (fun '(i, dest) =>
       c ← src.[p + i];
       if negb (c =? 0)
       then dest' ← dest.[d + i := c]; Some (Next (i + 1, dest'))
       else dest' ← dest.[d + i := 0]; Some (Done dest')) (0, dest).

(** The copying loop tests [src[i]] before [i < n]. *)
Definition strncpy (dest : list Z) (d : Z) (src : list Z) (p : Z) (n : Z)
    : option (list Z) :=
  '(i, dest) ← iterate (S (Z.to_nat n))
    (fun '(i, dest) =>
       c ← src.[p + i];
       if negb (c =? 0) && (i <? n)
       then dest' ← dest.[d + i := c]; Some (Next (i + 1, dest'))
       else Some (Done (i, dest))) (0, dest);
  for_range i n (fun i dest => dest.[d + i := 0]) dest.

Definition strrev (s : list Z) (p : Z) : option (list Z) :=
  n ← strlen s p;
  iterate (S (length s))
    (fun '(s, beg, end_) =>
       if beg <? end_ then
         tmp ← s.[p + end_];
         b ← s.[p + beg];
         s ← s.[p + end_ := b];
         s ← s.[p + beg := tmp];
         Some (Next (s, beg + 1, end_ - 1))
       else Some (Done s)) (s, 0, n - 1).

(** static int8_t lookup[] = "0123456789ABCDEFGHIJKLMNOPQRSTUVWXYZ" *)
Definition itoa_lookup : list Z :=
  [48; 49; 50; 51; 52; 53; 54; 55; 56; 57; 65; 66; 67; 68; 69; 70; 71; 72; 73; 74;
   75; 76; 77; 78; 79; 80; 81; 82; 83; 84; 85; 86; 87; 88; 89; 90; 0].

Definition itoa (value : Z) (buf : list Z) (p : Z) (radix : Z) : option (list Z) :=
  if value =? 0 then
    buf ← buf.[p := 48];
    buf.[p + 1 := 0]
  else
    '(buf, newbuf) ← iterate 33
      (fun '(buf, newbuf, newval) =>
         if 0 <? newval then
           c ← itoa_lookup.[newval mod radix];
           buf ← buf.[newbuf := c];
           Some (Next (buf, newbuf + 1, newval / radix))
         else Some (Done (buf, newbuf))) (buf, p, value);
    buf ← buf.[newbuf := 0];
    strrev buf p.

(** ** What the string routines compute *)

Definition is_char (c : Z) : Prop := 0 < c < 256.

(** [str] is the NUL-terminated string at index [p] of [s]. *)
Definition cstring (s : list Z) (p : Z) (str : list Z) : Prop :=
  0 <= p /\ Forall is_char str /\ s.[p + len str] = Some 0 /\
  (forall i, 0 <= i < len str -> s.[p + i] = str.[i]).

(** [str] is the string at index [p] of [s] cut after [n] characters: a field
    of [n] bytes that is NUL-padded, or full and without a terminator. *)
Definition bounded_string (s : list Z) (p n : Z) (str : list Z) : Prop :=
  0 <= p /\ Forall is_char str /\ len str <= n /\
  (len str < n -> s.[p + len str] = Some 0) /\
  (forall i, 0 <= i < len str -> s.[p + i] = str.[i]).

Lemma cstring_bounded s p n str :
  cstring s p str -> len str <= n -> bounded_string s p n str.
Proof. intros (Hp & Hc & Hz & Hi) Hn. by repeat split. Qed.

Lemma cstring_length s p str : cstring s p str -> p + len str < len s.
Proof. intros (Hp & Hc & Hz & Hi). apply aget_range in Hz. lia. Qed.

Lemma cstring_intro str rest : Forall is_char str -> cstring (str ++ 0 :: rest) 0 str.
Proof.
  intros H. split_and!; [lia|done|by rewrite Z.add_0_l, aget_app_r, Z.sub_diag by lia|].
  intros i Hi. rewrite Z.add_0_l. apply aget_app_l. lia.
Qed.

(** The store of the final NUL after a copied word. *)
Lemma end_word (buf u : list Z) i :
  i = len u -> len u < len buf -> (splice buf 0 u).[i := 0] = Some (splice buf 0 (u ++ [0])).
Proof.
  intros -> Hu. rewrite aset_Some by (rewrite length_splice; lia). f_equal.
  rewrite <- splice_one by (rewrite length_splice; lia).
  by rewrite <- (Z.add_0_l (len u)), splice_app by lia.
Qed.

(** A copy of a string, and its NUL, into a buffer. *)
Lemma copy_string (src buf arg : list Z) :
  cstring src 0 arg -> len arg < len buf ->
  (l ← for_range 0 (len arg) (fun i l => c ← src.[i]; l.[i := c]) buf; l.[len arg := 0]) =
    Some (splice buf 0 (arg ++ [0])).
Proof.
  intros (_ & _ & _ & Hi) Hl.
  destruct (for_range_ind (fun i l => l = splice buf 0 (take (Z.to_nat i) arg))
    (fun i l => c ← src.[i]; l.[i := c]) 0 (len arg) buf) as (l & -> & ->).
  - lia.
  - symmetry. apply splice_nil.
  - intros i l Hir ->. specialize (Hi i Hir). rewrite Z.add_0_l in Hi. rewrite Hi.
    destruct (aget_is_Some arg i) as [c Ec]; [lia|]. rewrite Ec. cbn [mbind option_bind].
    assert (len (take (Z.to_nat i) arg) = i) as Hlen by (rewrite length_take; lia).
    rewrite aset_Some by (rewrite length_splice; lia). eexists; split; [done|].
    rewrite take_snoc with (c := c) by (done || lia).
    rewrite <- (splice_app buf 0) by lia. rewrite Hlen, Z.add_0_l. symmetry. apply splice_one.
    rewrite length_splice; lia.
  - cbn [mbind option_bind]. rewrite take_ge by lia. by rewrite end_word by lia.
Qed.

Lemma cstring_drop s p str k :
  cstring s p str -> 0 <= k <= len str -> cstring s (p + k) (drop (Z.to_nat k) str).
Proof.
  intros (Hp & Hc & Hz & Hi) Hk. split_and!; [lia|by apply Forall_drop| |].
  - rewrite length_drop. replace (p + k + _) with (p + len str) by lia. done.
  - intros i Hir. rewrite length_drop in Hir. rewrite aget_drop, <- Z.add_assoc by lia.
    rewrite Hi by lia. f_equal. lia.
Qed.

(** A store that leaves the string alone. *)
Lemma cstring_apart s p str q v s' :
  cstring s p str -> s.[q := v] = Some s' -> q < p \/ p + len str < q -> cstring s' p str.
Proof.
  intros (Hp & Hc & Hz & Hi) E Hq. split_and!; [done|done| |].
  - rewrite (aget_aset_ne _ _ _ _ _ E) by lia. done.
  - intros i Hr. rewrite (aget_aset_ne _ _ _ _ _ E) by lia. by apply Hi.
Qed.

(** A NUL stored in the string cuts it. *)
Lemma cstring_cut s p str i s' :
  cstring s p str -> 0 <= i <= len str -> s.[p + i := 0] = Some s' -> cstring s' p (take (Z.to_nat i) str).
Proof.
  intros (Hp & Hc & Hz & Hi) Hr E. assert (len (take (Z.to_nat i) str) = i) as El by (rewrite length_take; lia).
  split_and!; [done|by apply Forall_take| |]; rewrite El.
  - by apply (aget_aset_eq _ _ _ _ E).
  - intros j Hj. rewrite (aget_aset_ne _ _ _ _ _ E), aget_take by lia. apply Hi. lia.
Qed.

Lemma cstring_char s p str i :
  cstring s p str -> 0 <= i < len str -> exists c, s.[p + i] = Some c /\ is_char c.
Proof.
  intros (Hp & Hc & Hz & Hs) Hi. destruct (aget_is_Some str i Hi) as [c Hic].
  exists c. rewrite Hs by done. split; [done|]. eapply aget_Forall; eauto.
Qed.

(** [strlen] finds the first NUL, wherever the object's other bytes put it. *)
Lemma strlen_first_zero s p z :
  0 <= p -> 0 <= z -> s.[p + z] = Some 0 ->
  exists r, strlen s p = Some r /\ 0 <= r <= z /\ s.[p + r] = Some 0 /\
    forall j, 0 <= j < r -> s.[p + j] <> Some 0.
Proof.
  intros Hp Hz Hs0. pose proof (aget_range _ _ _ Hs0) as Hr.
  apply (iterate_ind (fun n => 0 <= n <= z /\ forall j, 0 <= j < n -> s.[p + j] <> Some 0)
    (fun r => 0 <= r <= z /\ s.[p + r] = Some 0 /\ forall j, 0 <= j < r -> s.[p + j] <> Some 0)
    (fun n => Z.to_nat (z - n))); [|split; lia|simpl; lia].
  intros n [Hn Hj]. destruct (aget_is_Some s (p + n)) as [c Hc]; [lia|].
  rewrite Hc. simpl. destruct (Z.eqb_spec c 0) as [->|Hne].
  - eexists; split; [done|]. done.
  - eexists; split; [done|]. simpl.
    assert (n <> z) by congruence. split; [|lia]. split; [lia|].
    intros j Hjn. destruct (Z.eq_dec j n) as [->|]; [congruence|apply Hj; lia].
Qed.

Lemma strlen_cstring s p str : cstring s p str -> strlen s p = Some (len str).
Proof.
  intros Hs. pose proof Hs as (Hp & Hc & Hz & Hi).
  destruct (iterate_ind (fun n => 0 <= n <= len str) (fun r => r = len str)
    (fun n => Z.to_nat (len str - n))
    (fun n => c ← s.[p + n]; Some (if c =? 0 then Done n else Next (n + 1)))
    (Datatypes.S (length s))) with (s := 0) as (r & E & ->); [|lia| |exact E].
  - intros n Hn. destruct (Z.eq_dec n (len str)) as [->|Hne].
    + rewrite Hz. simpl. eexists; split; [done|]. done.
    + destruct (cstring_char s p str n Hs) as (c & -> & Hch); [lia|].
      simpl. unfold is_char in Hch. destruct (Z.eqb_spec c 0); [lia|].
      eexists; split; [done|]. simpl. lia.
  - pose proof (cstring_length _ _ _ Hs). lia.
Qed.

Section strncmp.
Context (s1 : list Z) (p1 : Z) (a : list Z) (s2 : list Z) (p2 : Z) (b : list Z) (n : Z).
Context (Ha : bounded_string s1 p1 n a) (Hb : bounded_string s2 p2 n b).

(** The character of a bounded string at [i], the terminator included. *)
Lemma bounded_char s p str i :
  bounded_string s p n str -> 0 <= i < n -> i <= len str ->
  exists c, s.[p + i] = Some c /\ is_byte c /\
    (c = 0 <-> i = len str) /\ (i < len str -> str.[i] = Some c).
Proof.
  intros (Hp & Hc & Hl & Hz & Hi) Hn Hle.
  destruct (Z.eq_dec i (len str)) as [->|Hne].
  - exists 0. rewrite Hz by lia. unfold is_byte.
    split_and!; try done; try lia.
  - destruct (aget_is_Some str i) as [c Hic]; [lia|].
    exists c. rewrite Hi by lia.
    pose proof (aget_Forall _ _ _ _ Hc Hic) as Hch.
    unfold is_char in Hch. unfold is_byte. split_and!; try done; try lia.
Qed.

Definition strncmp_inv (i : Z) : Prop :=
  0 <= i <= n /\ i <= len a /\ i <= len b /\
  forall j, 0 <= j < i -> a.[j] = b.[j].

(** [strncmp] compares for equality: it ends, and returns 0 exactly when the
    two strings, cut after [n] characters, are the same. *)
Lemma strncmp_eq : 0 <= n -> exists r, strncmp s1 p1 s2 p2 n = Some r /\ (r = 0 <-> a = b).
Proof.
  intros Hn. apply (iterate_ind strncmp_inv (fun r => r = 0 <-> a = b) (fun i => Z.to_nat (n - i)));
    [|unfold strncmp_inv; split_and!; lia|simpl; lia].
  intros i (Hi & Hia & Hib & Hj).
  destruct (Z.ltb_spec i n) as [Hlt|Hge].
  - destruct (bounded_char s1 p1 a i Ha) as (ca & -> & Hba & Hza & Hna); [lia|lia|].
    destruct (bounded_char s2 p2 b i Hb) as (cb & -> & Hbb & Hzb & Hnb); [lia|lia|].
    simpl. destruct (Z.eqb_spec (s8 ca) (s8 cb)) as [E|E]; simpl.
    + assert (cb = ca) as -> by (apply s8_inj; done).
      destruct (Z.eqb_spec (s8 ca) 0) as [Z0|Z0]; eexists; (split; [done|]); simpl.
      * apply (s8_zero ca Hba) in Z0. subst ca.
        assert (i = len a) as -> by tauto. assert (len a = len b) by tauto.
        split; [intros _|lia]. apply aget_ext; [lia|]. intros. apply Hj. lia.
      * rewrite (s8_zero ca Hba) in Z0.
        split; [|lia]. unfold strncmp_inv. split_and!; try lia.
        intros j Hj'. destruct (Z.eq_dec j i) as [->|]; [|apply Hj; lia].
        rewrite Hna, Hnb by lia. done.
    + eexists; split; [done|]. simpl. split; [lia|]. intros ->. exfalso. apply E.
      destruct (Z.eq_dec i (len b)).
      * assert (ca = 0) as -> by tauto. assert (cb = 0) as -> by tauto. done.
      * specialize (Hna ltac:(lia)). specialize (Hnb ltac:(lia)). congruence.
  - eexists; split; [done|]. simpl. split; [intros _|done].
    destruct Ha as (_ & _ & ? & _), Hb as (_ & _ & ? & _).
    apply aget_ext; [lia|]. intros. apply Hj. lia.
Qed.
End strncmp.

(** ** Copying *)

(** [strcpy] writes the string and its terminator and nothing else. *)
Lemma strcpy_cstring dest d src p str :
  cstring src p str -> 0 <= d -> d + len str < len dest ->
  strcpy dest d src p = Some (splice dest d (str ++ [0])).
Proof.
  intros Hs Hd Hcap. pose proof Hs as (Hp & Hc & Hz & Hi).
  pose proof (cstring_length _ _ _ Hs) as Hlen.
  destruct (iterate_ind
    (fun '(i, b) => 0 <= i <= len str /\ b = splice dest d (take (Z.to_nat i) str))
    (fun r => r = splice dest d (str ++ [0]))
    (fun '(i, _) => Z.to_nat (len str - i))
    (fun '(i, dest) =>
       c ← src.[p + i];
       if negb (c =? 0)
       then dest' ← dest.[d + i := c]; Some (Next (i + 1, dest'))
       else dest' ← dest.[d + i := 0]; Some (Done dest'))
    (Datatypes.S (length src))) with (s := (0, dest)) as (r & E & ->); [| | |exact E].
  - intros [i b] [Hil ->].
    assert (len (take (Z.to_nat i) str) = i) as Ht by (rewrite length_take; lia).
    assert (forall c, (splice dest d (take (Z.to_nat i) str)).[d + i := c] =
              Some (splice dest d (take (Z.to_nat i) str ++ [c]))) as Hw.
    { intros c. rewrite aset_Some by (rewrite length_splice; lia). f_equal.
      rewrite <- splice_app by lia. rewrite Ht.
      by rewrite splice_one by (rewrite length_splice; lia). }
    destruct (Z.eq_dec i (len str)) as [->|Hne].
    + rewrite Hz. simpl. rewrite Hw. simpl. eexists; split; [done|]. simpl.
      by rewrite Nat2Z.id, firstn_all.
    + destruct (aget_is_Some str i) as [c Hic]; [lia|].
      rewrite Hi, Hic by lia. simpl.
      pose proof (aget_Forall _ _ _ _ Hc Hic) as Hch. unfold is_char in Hch.
      destruct (Z.eqb_spec c 0); [lia|]. simpl. rewrite Hw. simpl.
      eexists; split; [done|]. split; [|lia]. split; [lia|].
      f_equal. replace (Z.to_nat (i + 1)) with (S (Z.to_nat i)) by lia.
      symmetry. apply take_S_r. unfold aget in Hic. by destruct (i <? 0).
  - split; [lia|]. change (take (Z.to_nat 0) str) with (@nil Z). by rewrite splice_nil.
  - simpl. lia.
Qed.

Definition rev_inv (s0 : list Z) (p n : Z) : list Z * Z * Z -> Prop := fun '(s, b, e) =>
  length s = length s0 /\ 0 <= b /\ e = n - 1 - b /\ b <= e + 2 /\
  forall j, 0 <= j < len s0 ->
    s.[j] = if (p <=? j) && (j <? p + n) && ((j - p <? b) || (e <? j - p))
            then s0.[p + (n - 1 - (j - p))] else s0.[j].

Lemma rev_step s0 p n s b e :
  0 <= p -> p + n <= len s0 -> rev_inv s0 p n (s, b, e) -> b < e ->
  exists s', (tmp ← s.[p + e]; c ← s.[p + b]; s ← s.[p + e := c]; s.[p + b := tmp]) = Some s'
    /\ rev_inv s0 p n (s', b + 1, e - 1).
Proof.
  intros Hp Hn (Hl & Hb & He & Hbe & Hj) Hlt.
  destruct (aget_is_Some s (p + e)) as [x Hx]; [lia|].
  destruct (aget_is_Some s (p + b)) as [y Hy]; [lia|].
  rewrite Hx, Hy. simpl.
  rewrite aset_Some by lia. simpl.
  rewrite aset_Some by (rewrite length_insert; lia). eexists; split; [done|].
  rewrite Hj in Hx, Hy by lia. unfold rev_inv.
  split_and!; try lia; [by rewrite !length_insert|].
  intros j Hjl.
  destruct (Z.eq_dec j (p + b)) as [->|Hb'];
    [|destruct (Z.eq_dec j (p + e)) as [->|He']].
  - rewrite aget_insert_eq by (rewrite length_insert; lia). symmetry.
    repeat case_match; try lia.
    all: rewrite <- Hx; f_equal; lia.
  - rewrite aget_insert_ne, aget_insert_eq by lia. symmetry.
    repeat case_match; try lia.
    all: rewrite <- Hy; f_equal; lia.
  - rewrite !aget_insert_ne, Hj by lia. repeat case_match; try done; lia.
Qed.

(** [strrev] reverses the string in place. *)
Lemma strrev_cstring s p str :
  cstring s p str -> strrev s p = Some (splice s p (reverse str)).
Proof.
  intros Hs. pose proof Hs as (Hp & _ & _ & Hi). pose proof (cstring_length _ _ _ Hs) as Hlen.
  unfold strrev. rewrite (strlen_cstring _ _ _ Hs). simpl.
  assert (Hmain : forall st, rev_inv s p (len str) st ->
    (let '(s', b, e) := st in (Z.to_nat (e + 1 - b) < S (length s))%nat) ->
    exists r, iterate (S (length s)) (fun '(s, beg, end_) =>
       if beg <? end_ then
         tmp ← s.[p + end_]; b ← s.[p + beg]; s ← s.[p + end_ := b];
         s ← s.[p + beg := tmp]; Some (Next (s, beg + 1, end_ - 1))
       else Some (Done s)) st = Some r /\ r = splice s p (reverse str)).
  { intros st Hst Hm.
    apply (iterate_ind (rev_inv s p (len str)) _ (fun '(_, b, e) => Z.to_nat (e + 1 - b)));
      [|done|by destruct st as [[? ?] ?]].
    intros [[s1 b] e] Hst1. destruct (Z.ltb_spec b e) as [Hlt|Hge].
    - destruct (rev_step s p (len str) s1 b e) as (s2 & E & Hs2); [lia|lia|done|done|].
      destruct (s1.[p + e]) as [x|]; simpl in *; [|done].
      destruct (s1.[p + b]) as [y|]; simpl in *; [|done].
      destruct (s1.[p + e := y]) as [s3|]; simpl in *; [|done].
      rewrite E. simpl. eexists; split; [done|]. split; [done|simpl; lia].
    - eexists; split; [done|]. simpl.
      destruct Hst1 as (Hl & Hb & He & Hbe & Hj). apply aget_ext.
      { rewrite length_splice by (rewrite ?length_reverse; lia). lia. }
      intros j Hjl. rewrite Hj by lia.
      destruct (decide (p <= j < p + len str)) as [Hin|Hout].
      + rewrite aget_splice_in by (rewrite ?length_reverse; lia).
        assert ((reverse str).[j - p] = s.[p + (len str - 1 - (j - p))]) as ->.
        { rewrite Hi by lia. unfold aget.
          destruct (Z.ltb_spec (j - p) 0), (Z.ltb_spec (len str - 1 - (j - p)) 0); try lia.
          rewrite reverse_lookup by lia. f_equal. lia. }
        repeat case_match; try lia; try done. f_equal. lia.
      + rewrite aget_splice_out by (rewrite ?length_reverse; lia).
        repeat case_match; try lia; done. }
  destruct (Hmain (s, 0, len str - 1)) as (r & E & ->); [|simpl; lia|exact E].
  unfold rev_inv. split_and!; try lia. intros j Hj. repeat case_match; try done; lia.
Qed.

(** ** Numbers *)

(** The numeral of a number, and the number of a numeral. *)
Definition digit_char (d : Z) : Z := if d <? 10 then 48 + d else 55 + d.
Definition char_digit (c : Z) : Z := if c <? 58 then c - 48 else c - 55.

Fixpoint digits (fuel : nat) (radix v : Z) : list Z :=
  match fuel with
  | O => []
  | Datatypes.S fuel' =>
      if 0 <? v then digit_char (v mod radix) :: digits fuel' radix (v / radix) else []
  end.

Definition numeral (radix v : Z) : list Z :=
  if v =? 0 then [48] else reverse (digits 32 radix v).

Definition parse_numeral (radix : Z) (ds : list Z) : Z :=
  foldl (fun acc c => acc * radix + char_digit c) 0 ds.

Lemma itoa_lookup_char d : 0 <= d < 36 -> itoa_lookup.[d] = Some (digit_char d).
Proof.
  intros H.
  assert (forallb (fun n => bool_decide (itoa_lookup.[Z.of_nat n] = Some (digit_char (Z.of_nat n))))
    (seq 0 36) = true) as Hall by (vm_compute; reflexivity).
  rewrite forallb_forall in Hall.
  specialize (Hall (Z.to_nat d)). rewrite bool_decide_eq_true in Hall.
  rewrite Z2Nat.id in Hall by lia. apply Hall, in_seq. lia.
Qed.

Lemma digit_char_is_char d : 0 <= d < 36 -> is_char (digit_char d).
Proof. unfold is_char, digit_char. intros. case_match; lia. Qed.

Lemma char_digit_char d : 0 <= d < 36 -> char_digit (digit_char d) = d.
Proof. unfold char_digit, digit_char. intros. repeat case_match; lia. Qed.

Section digits.
Context (radix : Z) (Hradix : 2 <= radix <= 36).

Lemma digits_chars fuel : forall v, Forall is_char (digits fuel radix v).
Proof.
  induction fuel as [|fuel IH]; intros v; simpl; [constructor|].
  case_match; constructor; [|apply IH].
  apply digit_char_is_char. pose proof (Z.mod_pos_bound v radix). lia.
Qed.

Lemma length_digits fuel : forall v, (length (digits fuel radix v) <= fuel)%nat.
Proof.
  induction fuel as [|fuel IH]; intros v; simpl; [lia|].
  case_match; simpl; [specialize (IH (v / radix))|]; lia.
Qed.

Lemma length_digits_bound fuel : forall v (k : nat),
  0 <= v < radix ^ Z.of_nat k -> (length (digits fuel radix v) <= k)%nat.
Proof.
  induction fuel as [|fuel IH]; intros v k Hv; simpl; [lia|].
  destruct (Z.ltb_spec 0 v); [|simpl; lia]. destruct k as [|k].
  { change (radix ^ Z.of_nat 0) with 1 in Hv. lia. }
  simpl. apply le_n_S, IH. rewrite Nat2Z.inj_succ, Z.pow_succ_r in Hv by lia.
  split; [apply Z.div_pos; lia|]. apply Z.div_lt_upper_bound; lia.
Qed.

(** A step of the division loop leaves a quotient that fits the fuel left. *)
Lemma quotient_fits (fuel : nat) v :
  0 < v -> v < 2 ^ Z.of_nat (S fuel) -> 0 <= v / radix < 2 ^ Z.of_nat fuel.
Proof.
  intros Hv Hlt. rewrite Nat2Z.inj_succ, Z.pow_succ_r in Hlt by lia.
  split; [apply Z.div_pos; lia|]. apply Z.div_lt_upper_bound; [lia|].
  pose proof (Z.pow_pos_nonneg 2 (Z.of_nat fuel)). nia.
Qed.

Lemma parse_reverse_digits (fuel : nat) : forall v,
  0 <= v < 2 ^ Z.of_nat fuel -> parse_numeral radix (reverse (digits fuel radix v)) = v.
Proof.
  induction fuel as [|fuel IH]; intros v Hv; simpl.
  { change (2 ^ Z.of_nat 0) with 1 in Hv. unfold parse_numeral. simpl. lia. }
  destruct (Z.ltb_spec 0 v) as [Hpos|Hneg].
  - rewrite reverse_cons. unfold parse_numeral in *. rewrite foldl_app. simpl.
    rewrite IH by (apply quotient_fits; lia).
    pose proof (Z.mod_pos_bound v radix). rewrite char_digit_char by lia.
    pose proof (Z.div_mod v radix). lia.
  - unfold parse_numeral. simpl. lia.
Qed.

(** The division loop writes the digits, least significant first. *)
Lemma itoa_loop (fuel : nat) : forall buf nb v,
  0 <= v < 2 ^ Z.of_nat fuel -> 0 <= nb -> nb + Z.of_nat fuel <= len buf ->
  iterate (S fuel) (fun '(buf, newbuf, newval) =>
       if 0 <? newval then
         c ← itoa_lookup.[newval mod radix];
         buf ← buf.[newbuf := c];
         Some (Next (buf, newbuf + 1, newval / radix))
       else Some (Done (buf, newbuf))) (buf, nb, v)
  = Some (splice buf nb (digits fuel radix v), nb + len (digits fuel radix v)).
Proof.
  induction fuel as [|fuel IH]; intros buf nb v Hv Hnb Hcap.
  { change (2 ^ Z.of_nat 0) with 1 in Hv. assert (v = 0) as -> by lia.
    rewrite iterate_S. simpl. by rewrite splice_nil, Z.add_0_r. }
  rewrite iterate_S. destruct (Z.ltb_spec 0 v) as [Hpos|Hneg].
  - pose proof (Z.mod_pos_bound v radix). rewrite itoa_lookup_char by lia. cbn [mbind option_bind].
    pose proof (aset_Some buf nb (digit_char (v mod radix)) ltac:(lia)) as E.
    rewrite E. cbn [mbind option_bind].
    pose proof (quotient_fits fuel v ltac:(lia) ltac:(lia)).
    rewrite IH; [|lia|lia|rewrite length_insert; lia].
    simpl. destruct (Z.ltb_spec 0 v); [|lia]. rewrite (splice_cons _ _ _ _ _ E). simpl.
    do 2 f_equal. lia.
  - simpl. destruct (Z.ltb_spec 0 v); [lia|]. by rewrite splice_nil, Z.add_0_r.
Qed.
End digits.

Lemma numeral_chars radix v : 2 <= radix <= 36 -> Forall is_char (numeral radix v).
Proof.
  intros. unfold numeral. case_match.
  - repeat constructor.
  - apply Forall_reverse. by apply digits_chars.
Qed.

Lemma length_numeral radix v : 2 <= radix <= 36 -> (length (numeral radix v) <= 32)%nat.
Proof.
  intros. unfold numeral. case_match; [simpl; lia|].
  rewrite length_reverse. by apply length_digits.
Qed.

Lemma parse_numeral_numeral radix v :
  2 <= radix <= 36 -> is_u32 v -> parse_numeral radix (numeral radix v) = v.
Proof.
  intros Hr Hv. unfold numeral. destruct (Z.eqb_spec v 0) as [->|]; [reflexivity|].
  apply (parse_reverse_digits radix Hr 32). unfold is_u32 in Hv. lia.
Qed.

(** [itoa] writes the numeral and its terminator at [p]; the reversal works on
    what the loop has written. *)
Lemma itoa_splice v buf p radix :
  is_u32 v -> 2 <= radix <= 36 -> 0 <= p -> p + 33 <= len buf ->
  exists buf', itoa v buf p radix = Some buf' /\ length buf' = length buf /\
    cstring buf' p (numeral radix v) /\
    forall j, 0 <= j < len buf -> j < p \/ p + 33 <= j -> buf'.[j] = buf.[j].
Proof.
  intros Hv Hr Hp Hcap. unfold itoa, numeral. destruct (Z.eqb_spec v 0) as [->|Hnz].
  - rewrite !aset_Some by lia. cbn [mbind option_bind].
    rewrite !aset_Some by (rewrite ?length_insert; lia).
    eexists; split; [done|]. rewrite !length_insert. split; [done|]. split.
    + split_and!; [lia|repeat constructor| |].
      * change (len [48]) with 1. apply aget_insert_eq. rewrite length_insert. lia.
      * change (len [48]) with 1. intros i Hi. assert (i = 0) as -> by lia.
        rewrite Z.add_0_r, aget_insert_ne, aget_insert_eq by lia. done.
    + intros j Hj Hout. rewrite !aget_insert_ne by lia. done.
  - set (ds := digits 32 radix v).
    pose proof (length_digits radix 32 v) as Hlen. fold ds in Hlen.
    rewrite (itoa_loop radix Hr 32); [|unfold is_u32 in Hv; lia|lia|lia].
    fold ds. cbn [mbind option_bind].
    rewrite aset_Some by (rewrite length_splice; lia). cbn [mbind option_bind].
    assert (Hcs : cstring (splice buf p (ds ++ [0])) p ds).
    { split_and!; [lia|by apply digits_chars| |].
      - rewrite aget_splice_in by (rewrite ?length_app; simpl; lia).
        rewrite aget_app_r by lia. replace (p + len ds - p - len ds) with 0 by lia. done.
      - intros i Hi. rewrite aget_splice_in by (rewrite ?length_app; simpl; lia).
        rewrite aget_app_l by lia. f_equal. lia. }
    rewrite <- splice_one by (rewrite length_splice; lia). rewrite splice_app by lia.
    rewrite (strrev_cstring _ _ _ Hcs).
    assert (length (splice buf p (ds ++ [0])) = length buf) as Hl1.
    { apply length_splice; [lia|]. rewrite length_app. simpl. lia. }
    eexists; split; [done|].
    split; [rewrite length_splice by (rewrite ?length_reverse; lia); done|]. split.
    + split_and!; [lia|apply Forall_reverse; by apply digits_chars| |].
      * rewrite aget_splice_out by (rewrite ?length_reverse; lia).
        rewrite length_reverse. apply Hcs.
      * intros i Hi. rewrite length_reverse in Hi.
        rewrite aget_splice_in by (rewrite ?length_reverse; lia). f_equal. lia.
    + intros j Hj Hout. rewrite aget_splice_out by (rewrite ?length_reverse; lia).
      apply aget_splice_out; rewrite ?length_app; simpl; lia.
Qed.

(** ** The assembly routines

    [mem] is the memory whose first byte has the address [base]; the alignment
    tests are on absolute addresses, as in the assembly. *)

Section memory.
Context (base : Z).

Definition ldb (mem : list Z) (a : Z) : option Z := mem.[a - base].
Definition stb (mem : list Z) (a v : Z) : option (list Z) := mem.[a - base := v].

(** movb (%esi), %al; movb %al, (%edi) *)
Definition movb (mem : list Z) (edi esi : Z) : option (list Z) :=
  al ← ldb mem esi; stb mem edi al.

(** One round of rep movsl: four bytes are read, then written. *)
Definition movsl (mem : list Z) (edi esi : Z) : option (list Z) :=
  b0 ← ldb mem esi; b1 ← ldb mem (esi + 1); b2 ← ldb mem (esi + 2); b3 ← ldb mem (esi + 3);
  mem ← stb mem edi b0; mem ← stb mem (edi + 1) b1; mem ← stb mem (edi + 2) b2;
  stb mem (edi + 3) b3.

(** One round of rep stosl with the dword [eax]. *)
Definition stosl (mem : list Z) (edi eax : Z) : option (list Z) :=
  mem ← stb mem edi (Z.land eax 255);
  mem ← stb mem (edi + 1) (Z.land (Z.shiftr eax 8) 255);
  mem ← stb mem (edi + 2) (Z.land (Z.shiftr eax 16) 255);
  stb mem (edi + 3) (Z.land (Z.shiftr eax 24) 255).

(** One round of rep stosw with the word [ax]. *)
Definition stosw (mem : list Z) (edi eax : Z) : option (list Z) :=
  mem ← stb mem edi (Z.land eax 255);
  stb mem (edi + 1) (Z.land (Z.shiftr eax 8) 255).

Definition memcpy (mem : list Z) (dest src n : Z) : option (list Z) :=
  (* .memcpy_top: bytes until %edi is a multiple of four or %ecx is 0 *)
  '(mem, edi, esi, ecx) ← iterate 5
    (fun '(mem, edi, esi, ecx) =>
       if ecx =? 0 then Some (Done (mem, edi, esi, ecx))
       else if Z.land edi 3 =? 0 then Some (Done (mem, edi, esi, ecx))
       else mem ← movb mem edi esi; Some (Next (mem, edi + 1, esi + 1, ecx - 1)))
    (mem, dest, src, n);
  (* .memcpy_aligned: %ecx / 4 dwords *)
  let edx := Z.land ecx 3 in
  mem ← for_range 0 (Z.shiftr ecx 2)
    (fun k mem => movsl mem (edi + 4 * k) (esi + 4 * k)) mem;
  let edi := edi + 4 * Z.shiftr ecx 2 in
  let esi := esi + 4 * Z.shiftr ecx 2 in
  (* .memcpy_bottom: the last %edx bytes *)
  for_range 0 edx (fun k mem => movb mem (edi + k) (esi + k)) mem.

Definition memset (mem : list Z) (s c n : Z) : option (list Z) :=
  let c := Z.land c 255 in
  let eax := Z.lor (Z.lor (Z.lor (Z.shiftl c 24) (Z.shiftl c 16)) (Z.shiftl c 8)) c in
  '(mem, edi, ecx) ← iterate 5
    (fun '(mem, edi, ecx) =>
       if ecx =? 0 then Some (Done (mem, edi, ecx))
       else if Z.land edi 3 =? 0 then Some (Done (mem, edi, ecx))
       else mem ← stb mem edi (Z.land eax 255); Some (Next (mem, edi + 1, ecx - 1)))
    (mem, s, n);
  let edx := Z.land ecx 3 in
  mem ← for_range 0 (Z.shiftr ecx 2) (fun k mem => stosl mem (edi + 4 * k) eax) mem;
  let edi := edi + 4 * Z.shiftr ecx 2 in
  for_range 0 edx (fun k mem => stb mem (edi + k) (Z.land eax 255)) mem.

Definition memset_word (mem : list Z) (s c n : Z) : option (list Z) :=
  for_range 0 n (fun k mem => stosw mem (s + 2 * k) c) mem.

Definition memset_dword (mem : list Z) (s c n : Z) : option (list Z) :=
  for_range 0 n (fun k mem => stosl mem (s + 4 * k) c) mem.

(** The second component is the direction flag the routine leaves: [cld]
    clears it and the backward copy sets it with [std]. *)
Definition memmove (mem : list Z) (dest src n : Z) : option (list Z * bool) :=
  if dest <=? src then
    mem ← for_range 0 n (fun k mem => movb mem (dest + k) (src + k)) mem;
    Some (mem, false)
  else
    mem ← for_range 0 n (fun k mem => movb mem (dest + n - 1 - k) (src + n - 1 - k)) mem;
    Some (mem, true).
End memory.

(** ** The assembly routines are the byte-by-byte ones *)

Section memory_spec.
Context (base : Z) (mem0 : list Z) (d s n : Z).
Context (Hd : base <= d /\ d + n <= base + len mem0).
Context (Hs : base <= s /\ s + n <= base + len mem0).
Context (Hn : 0 <= n).

(** What the memory is when the first [k] bytes have been copied. *)
Definition copied (k : Z) (m : list Z) : Prop :=
  length m = length mem0 /\
  forall j, base <= j < base + len mem0 ->
    m.[j - base] = if (d <=? j) && (j <? d + k) then mem0.[s + (j - d) - base]
                   else mem0.[j - base].

Lemma copied_splice m : copied n m -> m = splice mem0 (d - base) (slice mem0 (s - base) n).
Proof.
  intros [Hl Hj].
  assert (len (slice mem0 (s - base) n) = n) as Hls by (rewrite length_slice; lia).
  apply aget_ext; [rewrite length_splice by lia; lia|].
  intros i Hi. specialize (Hj (i + base) ltac:(lia)).
  replace (i + base - base) with i in Hj by lia. rewrite Hj.
  destruct (decide (d <= i + base < d + n)).
  - rewrite aget_splice_in by lia. rewrite aget_slice by lia.
    repeat case_match; try lia. f_equal. lia.
  - rewrite aget_splice_out by lia. repeat case_match; try done; lia.
Qed.

Lemma copied_0 : copied 0 mem0.
Proof. split; [done|]. intros. repeat case_match; try done; lia. Qed.

(** A write of the next byte. *)
Lemma copied_write k m v :
  copied k m -> 0 <= k < n -> mem0.[s + k - base] = Some v ->
  exists m', stb base m (d + k) v = Some m' /\ copied (k + 1) m'.
Proof.
  intros [Hl Hj] Hk Hv. unfold stb. rewrite aset_Some by lia.
  eexists; split; [done|]. split; [by rewrite length_insert|].
  intros j Hjr. destruct (Z.eq_dec j (d + k)) as [->|Hne].
  - rewrite aget_insert_eq by lia. repeat case_match; try lia.
    rewrite <- Hv. f_equal. lia.
  - rewrite aget_insert_ne, Hj by lia. repeat case_match; try done; lia.
Qed.

(** The source bytes that are still to be copied are those of the start,
    when the destination is below the source or apart from it. *)
Context (Hov : d <= s \/ s + n <= d).

Lemma copied_read k m i :
  copied k m -> 0 <= k <= i -> i < n ->
  exists v, ldb base m (s + i) = Some v /\ mem0.[s + i - base] = Some v.
Proof.
  intros [Hl Hj] Hk Hi. unfold ldb. rewrite Hj by lia.
  destruct (aget_is_Some mem0 (s + i - base)) as [v Hv]; [lia|].
  exists v. split; [|done]. repeat case_match; try done; lia.
Qed.

Lemma copied_movb k m :
  copied k m -> 0 <= k < n ->
  exists m', movb base m (d + k) (s + k) = Some m' /\ copied (k + 1) m'.
Proof.
  intros Hc Hk. destruct (copied_read k m k Hc) as (v & Hr & Hv); [lia|lia|].
  destruct (copied_write k m v Hc Hk Hv) as (m' & Hw & Hc').
  exists m'. split; [|done]. unfold movb. by rewrite Hr.
Qed.

Lemma copied_movsl k m :
  copied k m -> 0 <= k -> k + 4 <= n ->
  exists m', movsl base m (d + k) (s + k) = Some m' /\ copied (k + 4) m'.
Proof.
  intros Hc Hk Hk4.
  destruct (copied_read k m k Hc) as (v0 & Hr0 & Hv0); [lia|lia|].
  destruct (copied_read k m (k + 1) Hc) as (v1 & Hr1 & Hv1); [lia|lia|].
  destruct (copied_read k m (k + 2) Hc) as (v2 & Hr2 & Hv2); [lia|lia|].
  destruct (copied_read k m (k + 3) Hc) as (v3 & Hr3 & Hv3); [lia|lia|].
  destruct (copied_write k m v0 Hc) as (m1 & Hw0 & Hc1); [lia|done|].
  destruct (copied_write (k + 1) m1 v1 Hc1) as (m2 & Hw1 & Hc2); [lia|done|].
  destruct (copied_write (k + 1 + 1) m2 v2 Hc2) as (m3 & Hw2 & Hc3);
    [lia|by replace (k + 1 + 1) with (k + 2) by lia|].
  destruct (copied_write (k + 1 + 1 + 1) m3 v3 Hc3) as (m4 & Hw3 & Hc4);
    [lia|by replace (k + 1 + 1 + 1) with (k + 3) by lia|].
  exists m4. split; [|by replace (k + 4) with (k + 1 + 1 + 1 + 1) by lia].
  unfold movsl. rewrite Hr0. simpl.
  replace (s + k + 1) with (s + (k + 1)) by lia. rewrite Hr1. simpl.
  replace (s + k + 2) with (s + (k + 2)) by lia. rewrite Hr2. simpl.
  replace (s + k + 3) with (s + (k + 3)) by lia. rewrite Hr3. simpl.
  rewrite Hw0. simpl.
  replace (d + k + 1) with (d + (k + 1)) by lia. rewrite Hw1. simpl.
  replace (d + k + 2) with (d + (k + 1 + 1)) by lia. rewrite Hw2. simpl.
  replace (d + k + 3) with (d + (k + 1 + 1 + 1)) by lia. exact Hw3.
Qed.
End memory_spec.

Lemma land_3 a : Z.land a 3 = a mod 4.
Proof. exact (Z.land_ones a 2 ltac:(lia)). Qed.

Lemma shiftr_2 a : Z.shiftr a 2 = a / 4.
Proof. exact (Z.shiftr_div_pow2 a 2 ltac:(lia)). Qed.

(** Rounds left before [edi] is a multiple of four. *)
Definition misaligned (edi : Z) : nat := Z.to_nat ((- edi) mod 4).

Lemma misaligned_step edi : Z.land edi 3 <> 0 -> (misaligned (edi + 1) < misaligned edi)%nat.
Proof.
  rewrite land_3. unfold misaligned. intros H.
  Z.to_euclidean_division_equations. lia.
Qed.

Lemma misaligned_lt edi : (misaligned edi < 5)%nat.
Proof. unfold misaligned. pose proof (Z.mod_pos_bound (- edi) 4). lia. Qed.

(** The words from the byte [k] on, and the bytes that are left. *)
Lemma copied_rest base mem d s n k m :
  base <= d /\ d + n <= base + len mem -> base <= s /\ s + n <= base + len mem -> 0 <= n -> d <= s \/ s + n <= d ->
  copied base mem d s k m -> 0 <= k <= n ->
  (m ← for_range 0 ((n - k) / 4) (fun i m => movsl base m (d + k + 4 * i) (s + k + 4 * i)) m;
   for_range 0 ((n - k) mod 4)
     (fun i m => movb base m (d + k + 4 * ((n - k) / 4) + i) (s + k + 4 * ((n - k) / 4) + i)) m) =
  Some (splice mem (d - base) (slice mem (s - base) n)).
Proof.
  intros Hd Hs Hn Hov Hc Hk. set (q := (n - k) / 4).
  assert (n - k = 4 * q + (n - k) mod 4) as Hq by (apply Z.div_mod; lia).
  pose proof (Z.mod_pos_bound (n - k) 4). assert (0 <= q) by (apply Z.div_pos; lia).
  destruct (for_range_ind (fun i m => copied base mem d s (k + 4 * i) m)
    (fun i m => movsl base m (d + k + 4 * i) (s + k + 4 * i)) 0 q m)
    as (m1 & E1 & Hc1); [lia|by rewrite Z.mul_0_r, Z.add_0_r| |].
  { intros i m' Hi Hc'. replace (k + 4 * (i + 1)) with (k + 4 * i + 4) by lia.
    rewrite <- (Z.add_assoc d), <- (Z.add_assoc s). apply (copied_movsl base mem d s n); solve [done|lia]. }
  rewrite E1. cbn [mbind option_bind].
  destruct (for_range_ind (fun i m => copied base mem d s (k + 4 * q + i) m)
    (fun i m => movb base m (d + k + 4 * q + i) (s + k + 4 * q + i)) 0 ((n - k) mod 4) m1)
    as (m2 & E2 & Hc2); [lia|by rewrite Z.add_0_r| |].
  { intros i m' Hi Hc'. rewrite Z.add_assoc.
    replace (d + k + 4 * q + i) with (d + (k + 4 * q + i)) by lia.
    replace (s + k + 4 * q + i) with (s + (k + 4 * q + i)) by lia.
    apply (copied_movb base mem d s n); solve [done|lia]. }
  rewrite E2. f_equal. apply copied_splice; [done|done|done|]. by replace n with (k + 4 * q + (n - k) mod 4) at 1 by lia.
Qed.

(** The copy in three parts, an alignment prologue, dwords and a tail, is the
    byte-by-byte copy, wherever the objects are aligned and when the
    destination starts below the source or is apart from it. *)
Lemma memcpy_splice base mem d s n :
  base <= d /\ d + n <= base + len mem -> base <= s /\ s + n <= base + len mem ->
  0 <= n -> d <= s \/ s + n <= d ->
  memcpy base mem d s n = Some (splice mem (d - base) (slice mem (s - base) n)).
Proof.
  intros Hd Hs Hn Hov. unfold memcpy.
  destruct (iterate_ind
    (fun '(m, edi, esi, ecx) => exists k, 0 <= k <= n /\ edi = d + k /\ esi = s + k /\
       ecx = n - k /\ copied base mem d s k m)
    (fun '(m, edi, esi, ecx) => exists k, 0 <= k <= n /\ edi = d + k /\ esi = s + k /\
       ecx = n - k /\ copied base mem d s k m)
    (fun '(_, edi, _, _) => misaligned edi)
    (fun '(mem, edi, esi, ecx) =>
       if ecx =? 0 then Some (Done (mem, edi, esi, ecx))
       else if Z.land edi 3 =? 0 then Some (Done (mem, edi, esi, ecx))
       else mem ← movb base mem edi esi; Some (Next (mem, edi + 1, esi + 1, ecx - 1)))
    5%nat) with (s := (mem, d, s, n)) as ([[[m edi] esi] ecx] & E & (k & Hk & -> & -> & -> & Hc)).
  - intros [[[m edi] esi] ecx] (k & Hk & -> & -> & -> & Hc).
    destruct (Z.eqb_spec (n - k) 0); [eexists; split; [done|]; simpl; eauto 10|].
    destruct (Z.eqb_spec (Z.land (d + k) 3) 0); [eexists; split; [done|]; simpl; eauto 10|].
    destruct (copied_movb base mem d s n Hd Hs Hov k m Hc) as (m' & Hm & Hc'); [lia|].
    rewrite Hm. simpl. eexists; split; [done|]. split.
    + exists (k + 1). repeat split; try lia; apply Hc'.
    + by apply misaligned_step.
  - exists 0. repeat split; try lia. intros. repeat case_match; try done; lia.
  - apply misaligned_lt.
  - rewrite E. simpl. rewrite land_3, shiftr_2. by apply (copied_rest base mem d s n).
Qed.

(** Copying down from the last byte: what the memory is when the last [k]
    bytes have been copied. *)
Definition copied_back (base : Z) (mem : list Z) (d s n k : Z) (m : list Z) : Prop :=
  length m = length mem /\
  forall j, base <= j < base + len mem ->
    m.[j - base] = if (d + n - k <=? j) && (j <? d + n) then mem.[s + (j - d) - base]
                   else mem.[j - base].

Lemma memmove_splice base mem d s n :
  base <= d /\ d + n <= base + len mem -> base <= s /\ s + n <= base + len mem -> 0 <= n ->
  memmove base mem d s n =
    Some (splice mem (d - base) (slice mem (s - base) n), bool_decide (s < d)).
Proof.
  intros Hd Hs Hn. unfold memmove. destruct (Z.leb_spec d s) as [Hle|Hgt].
  - destruct (for_range_ind (copied base mem d s)
      (fun k m => movb base m (d + k) (s + k)) 0 n mem) as (m & E & Hc);
      [lia|by apply copied_0| |].
    { intros k m Hk Hc. apply (copied_movb base mem d s n); solve [done|lia]. }
    rewrite E. simpl. rewrite bool_decide_eq_false_2 by lia.
    by rewrite <- (copied_splice base mem d s n Hd Hs Hn m Hc).
  - destruct (for_range_ind (copied_back base mem d s n)
      (fun k m => movb base m (d + n - 1 - k) (s + n - 1 - k)) 0 n mem) as (m & E & Hl & Hj).
    + lia.
    + split; [done|]. intros. repeat case_match; try done; lia.
    + intros k m Hk [Hl Hj]. unfold movb, ldb, stb. rewrite Hj by lia.
      destruct (aget_is_Some mem (s + n - 1 - k - base)) as [v Hv]; [lia|].
      replace ((d + n - k <=? s + n - 1 - k) && (s + n - 1 - k <? d + n)) with false
        by (symmetry; apply andb_false_iff; left; lia).
      rewrite Hv. simpl. rewrite aset_Some by lia. eexists; split; [done|].
      split; [by rewrite length_insert|]. intros j Hjr.
      destruct (Z.eq_dec j (d + n - 1 - k)) as [->|Hne].
      * rewrite aget_insert_eq by lia. repeat case_match; try lia.
        rewrite <- Hv. f_equal. lia.
      * rewrite aget_insert_ne, Hj by lia. repeat case_match; try done; lia.
    + rewrite E. simpl. rewrite bool_decide_eq_true_2 by lia. do 2 f_equal.
      apply (copied_splice base mem d s n Hd Hs Hn). split; [done|].
      intros j Hjr. rewrite Hj by done. repeat case_match; try done; lia.
Qed.

(** ** Filling *)

Definition memset_pattern (c : Z) : Z :=
  Z.lor (Z.lor (Z.lor (Z.shiftl c 24) (Z.shiftl c 16)) (Z.shiftl c 8)) c.

(** Every byte of the dword stored by [memset] is the byte asked for. *)
Lemma memset_pattern_bytes c :
  is_byte c ->
  Z.land (memset_pattern c) 255 = c /\
  Z.land (Z.shiftr (memset_pattern c) 8) 255 = c /\
  Z.land (Z.shiftr (memset_pattern c) 16) 255 = c /\
  Z.land (Z.shiftr (memset_pattern c) 24) 255 = c.
Proof.
  intros Hc.
  assert (forallb (fun i => let c := Z.of_nat i in
    bool_decide (Z.land (memset_pattern c) 255 = c) &&
    bool_decide (Z.land (Z.shiftr (memset_pattern c) 8) 255 = c) &&
    bool_decide (Z.land (Z.shiftr (memset_pattern c) 16) 255 = c) &&
    bool_decide (Z.land (Z.shiftr (memset_pattern c) 24) 255 = c)) (seq 0 256) = true) as Hall
    by (vm_compute; reflexivity).
  rewrite forallb_forall in Hall. unfold is_byte in Hc.
  specialize (Hall (Z.to_nat c) ltac:(apply in_seq; lia)).
  rewrite Z2Nat.id in Hall by lia. rewrite !andb_true_iff, !bool_decide_eq_true in Hall. tauto.
Qed.

Section fill.
Context (base : Z) (mem0 : list Z) (s n c : Z).
Context (Hs : base <= s /\ s + n <= base + len mem0) (Hn : 0 <= n).

Definition filled (k : Z) (m : list Z) : Prop :=
  length m = length mem0 /\
  forall j, base <= j < base + len mem0 ->
    m.[j - base] = if (s <=? j) && (j <? s + k) then Some c else mem0.[j - base].

Lemma filled_0 : filled 0 mem0.
Proof. split; [done|]. intros. repeat case_match; try done; lia. Qed.

Lemma filled_splice m :
  filled n m -> m = splice mem0 (s - base) (replicate (Z.to_nat n) c).
Proof.
  intros [Hl Hj].
  assert (len (replicate (Z.to_nat n) c) = n) as Hls by (rewrite length_replicate; lia).
  apply aget_ext; [rewrite length_splice by lia; lia|].
  intros i Hi. specialize (Hj (i + base) ltac:(lia)).
  replace (i + base - base) with i in Hj by lia. rewrite Hj.
  destruct (decide (s <= i + base < s + n)).
  - rewrite aget_splice_in by lia. rewrite aget_replicate by lia.
    repeat case_match; try done; lia.
  - rewrite aget_splice_out by lia. repeat case_match; try done; lia.
Qed.

Lemma filled_stb k m :
  filled k m -> 0 <= k < n -> exists m', stb base m (s + k) c = Some m' /\ filled (k + 1) m'.
Proof.
  intros [Hl Hj] Hk. unfold stb. rewrite aset_Some by lia.
  eexists; split; [done|]. split; [by rewrite length_insert|].
  intros j Hjr. destruct (Z.eq_dec j (s + k)) as [->|Hne].
  - rewrite aget_insert_eq by lia. repeat case_match; try done; lia.
  - rewrite aget_insert_ne, Hj by lia. repeat case_match; try done; lia.
Qed.

Lemma filled_stosl k m :
  is_byte c -> filled k m -> 0 <= k -> k + 4 <= n ->
  exists m', stosl base m (s + k) (memset_pattern c) = Some m' /\ filled (k + 4) m'.
Proof.
  intros Hb Hf Hk Hk4. destruct (memset_pattern_bytes c Hb) as (E0 & E1 & E2 & E3).
  unfold stosl. rewrite E0, E1, E2, E3.
  destruct (filled_stb k m Hf) as (m1 & -> & Hf1); [lia|]. simpl.
  rewrite <- !Z.add_assoc.
  destruct (filled_stb (k + 1) m1 Hf1) as (m2 & -> & Hf2); [lia|]. simpl.
  replace (k + 2) with (k + 1 + 1) by lia.
  destruct (filled_stb (k + 1 + 1) m2 Hf2) as (m3 & -> & Hf3); [lia|]. simpl.
  replace (k + 3) with (k + 1 + 1 + 1) by lia.
  destruct (filled_stb (k + 1 + 1 + 1) m3 Hf3) as (m4 & -> & Hf4); [lia|].
  exists m4. split; [done|]. by replace (k + 4) with (k + 1 + 1 + 1 + 1) by lia.
Qed.
(** The words from the byte [k] on, and the bytes that are left. *)
Lemma filled_rest k m : is_byte c -> filled k m -> 0 <= k <= n ->
  (m ← for_range 0 ((n - k) / 4) (fun i m => stosl base m (s + k + 4 * i) (memset_pattern c)) m;
   for_range 0 ((n - k) mod 4) (fun i m => stb base m (s + k + 4 * ((n - k) / 4) + i) c) m) =
  Some (splice mem0 (s - base) (replicate (Z.to_nat n) c)).
Proof.
  intros Hb Hc Hk. set (q := (n - k) / 4).
  assert (n - k = 4 * q + (n - k) mod 4) as Hq by (apply Z.div_mod; lia).
  pose proof (Z.mod_pos_bound (n - k) 4). assert (0 <= q) by (apply Z.div_pos; lia).
  destruct (for_range_ind (fun i m => filled (k + 4 * i) m)
    (fun i m => stosl base m (s + k + 4 * i) (memset_pattern c)) 0 q m)
    as (m1 & E1 & Hc1); [lia|by rewrite Z.mul_0_r, Z.add_0_r| |].
  { intros i m' Hi Hc'. replace (k + 4 * (i + 1)) with (k + 4 * i + 4) by lia.
    rewrite <- (Z.add_assoc s). apply filled_stosl; solve [done|lia]. }
  rewrite E1. cbn [mbind option_bind].
  destruct (for_range_ind (fun i m => filled (k + 4 * q + i) m)
    (fun i m => stb base m (s + k + 4 * q + i) c) 0 ((n - k) mod 4) m1)
    as (m2 & E2 & Hc2); [lia|by rewrite Z.add_0_r| |].
  { intros i m' Hi Hc'. rewrite Z.add_assoc.
    replace (s + k + 4 * q + i) with (s + (k + 4 * q + i)) by lia. apply filled_stb; solve [done|lia]. }
  rewrite E2. f_equal. apply filled_splice. by replace n with (k + 4 * q + (n - k) mod 4) by lia.
Qed.
End fill.

Lemma memset_splice base mem s c n :
  base <= s /\ s + n <= base + len mem -> 0 <= n ->
  memset base mem s c n =
    Some (splice mem (s - base) (replicate (Z.to_nat n) (Z.land c 255))).
Proof.
  intros Hs Hn. unfold memset. set (b := Z.land c 255).
  assert (is_byte b) as Hb.
  { unfold is_byte, b. pose proof (Z.land_ones c 8 ltac:(lia)) as E.
    change (Z.ones 8) with 255 in E. rewrite E. apply Z.mod_pos_bound. lia. }
  fold (memset_pattern b). destruct (memset_pattern_bytes b Hb) as (E0 & _). rewrite E0.
  destruct (iterate_ind
    (fun '(m, edi, ecx) => exists k, 0 <= k <= n /\ edi = s + k /\ ecx = n - k /\
       filled base mem s b k m)
    (fun '(m, edi, ecx) => exists k, 0 <= k <= n /\ edi = s + k /\ ecx = n - k /\
       filled base mem s b k m)
    (fun '(_, edi, _) => misaligned edi)
    (fun '(mem, edi, ecx) =>
       if ecx =? 0 then Some (Done (mem, edi, ecx))
       else if Z.land edi 3 =? 0 then Some (Done (mem, edi, ecx))
       else mem ← stb base mem edi b; Some (Next (mem, edi + 1, ecx - 1)))
    5%nat) with (s := (mem, s, n)) as ([[m edi] ecx] & E & (k & Hk & -> & -> & Hc)).
  - intros [[m edi] ecx] (k & Hk & -> & -> & Hc).
    destruct (Z.eqb_spec (n - k) 0); [eexists; split; [done|]; simpl; eauto 10|].
    destruct (Z.eqb_spec (Z.land (s + k) 3) 0); [eexists; split; [done|]; simpl; eauto 10|].
    destruct (filled_stb base mem s n b Hs k m Hc) as (m' & Hm & Hc'); [lia|].
    rewrite Hm. simpl. eexists; split; [done|]. split.
    + exists (k + 1). repeat split; try lia; apply Hc'.
    + by apply misaligned_step.
  - exists 0. repeat split; try lia. intros. repeat case_match; try done; lia.
  - apply misaligned_lt.
  - rewrite E. simpl. rewrite land_3, shiftr_2. by apply (filled_rest base mem s n b).
Qed.

(** ** Properties *)

(** [itoa] prints every 32-bit value in every radix from 2 to 36 into a
    buffer of 33 bytes, ends, leaves the rest of the object alone, and what it
    prints reads back as the value. *)
Theorem itoa_roundtrip v buf p radix :
  is_u32 v -> 2 <= radix <= 36 -> 0 <= p -> p + 33 <= len buf ->
  exists buf' str, itoa v buf p radix = Some buf' /\ cstring buf' p str /\
    len str <= 32 /\ parse_numeral radix str = v /\
    (forall j, 0 <= j < len buf -> j < p \/ p + 33 <= j -> buf'.[j] = buf.[j]).
Proof.
  intros Hv Hr Hp Hcap. destruct (itoa_splice v buf p radix) as (buf' & E & _ & Hs & Hf); try done.
  exists buf', (numeral radix v). split_and!; try done.
  - pose proof (length_numeral radix v Hr). lia.
  - by apply parse_numeral_numeral.
Qed.

Lemma itoa_roundtrip_witness :
  exists buf' str, itoa 4027449378 (replicate 40 0) 3 16 = Some buf' /\ cstring buf' 3 str /\
    len str <= 32 /\ parse_numeral 16 str = 4027449378 /\
    (forall j, 0 <= j < 40 -> j < 3 \/ 3 + 33 <= j -> buf'.[j] = (replicate 40 0).[j]).
Proof. apply (itoa_roundtrip 4027449378 (replicate 40 0) 3 16); [done|lia|lia|simpl; lia]. Defined.

(** The assembly [memcpy], with its alignment prologue, its dword loop and
    its tail, does what the one-byte loop does, for every alignment and every
    length, when the destination is below the source or apart from it; both
    write the source bytes and nothing else. *)
Theorem memcpy_bytewise base mem d s n :
  base <= d /\ d + n <= base + len mem -> base <= s /\ s + n <= base + len mem ->
  0 <= n -> d <= s \/ s + n <= d ->
  memcpy base mem d s n = for_range 0 n (fun k m => movb base m (d + k) (s + k)) mem /\
  memcpy base mem d s n = Some (splice mem (d - base) (slice mem (s - base) n)).
Proof.
  intros Hd Hs Hn Hov. rewrite memcpy_splice by done. split; [|done].
  destruct (for_range_ind (copied base mem d s)
    (fun k m => movb base m (d + k) (s + k)) 0 n mem) as (m & E & Hc); [lia|by apply copied_0| |].
  - intros k m Hk Hc. by apply (copied_movb base mem d s n).
  - rewrite E. f_equal. symmetry. by apply (copied_splice base mem d s n).
Qed.

Lemma memcpy_bytewise_witness :
  let mem := [1; 2; 3; 4; 5; 6; 7; 8; 9; 10; 11; 12] in
  memcpy 1001 mem 1002 1004 7 =
    for_range 0 7 (fun k m => movb 1001 m (1002 + k) (1004 + k)) mem /\
  memcpy 1001 mem 1002 1004 7 = Some (splice mem 1 (slice mem 3 7)).
Proof.
  intros mem. apply (memcpy_bytewise 1001 mem 1002 1004 7); simpl; lia.
Defined.

(** [memmove] copies between objects that overlap in any way; it leaves the
    direction flag set exactly when it copied backwards. *)
Theorem memmove_overlap base mem d s n :
  base <= d /\ d + n <= base + len mem -> base <= s /\ s + n <= base + len mem -> 0 <= n ->
  memmove base mem d s n =
    Some (splice mem (d - base) (slice mem (s - base) n), bool_decide (s < d)).
Proof. intros. by apply memmove_splice. Qed.

Lemma memmove_overlap_witness :
  let mem := [1; 2; 3; 4; 5; 6; 7; 8] in
  memmove 1001 mem 1004 1002 4 = Some (splice mem 3 (slice mem 1 4), true).
Proof. intros mem. apply (memmove_overlap 1001 mem 1004 1002 4); simpl; lia. Defined.
