(* ===== verification/FileSystem.v ===== *)
(** The read-only file system of [src/code/file_system.c].

    The image GRUB loads is one list of bytes, [img]; its first byte is at
    [fs_addr], and every offset the code adds to [fs_addr] is an index into it.
    Block 0 is the boot block, then come the inode blocks, then the data
    blocks.  [represents] says which abstract file system (directory entries
    and file contents) an image stands for; [read_dentry_by_name],
    [read_dentry_by_index] and [read_data] are proved against it.  [fsck]
    decides [represents]. *)
From stdpp Require Import base option list numbers.
From Stdlib Require Import ZArith Lia.
From S2P Require Import Prelude LibString.

Definition BLOCK_SIZE : Z := 4096.
Definition MAX_DIR_ENTRIES : Z := 63.
Definition MAX_STR_LENGTH : Z := 32.

Record dentry_t := mkDentry {
  file_name : list Z;      (* 32 bytes *)
  file_type : Z;
  inode_num : Z;
  reserved : list Z;       (* 24 bytes *)
}.

Definition null_dentry : dentry_t := mkDentry (replicate 32 0) 0 0 (replicate 24 0).

(** A little-endian 32-bit load. *)
Definition ld32 (img : list Z) (a : Z) : option Z :=
  b0 ← img.[a]; b1 ← img.[a + 1]; b2 ← img.[a + 2]; b3 ← img.[a + 3];
  Some (b0 + 256 * b1 + 65536 * b2 + 16777216 * b3).

Definition ldbytes (img : list Z) (a n : Z) : option (list Z) :=
  if (0 <=? a) && (a + n <=? len img) then Some (slice img a n) else None.

(** boot_block->num_dir_entries, ->num_inodes *)
Definition num_dir_entries (img : list Z) : option Z := ld32 img 0.
Definition num_inodes (img : list Z) : option Z := ld32 img 4.
Definition num_data_blocks (img : list Z) : option Z := ld32 img 8.

(** The index of boot_block->dir_entries + index. *)
Definition dir_entry_addr (index : Z) : Z := 64 + 64 * index.

(** The structure copy *dentry = *(boot_block->dir_entries + index). *)
Definition load_dentry (img : list Z) (index : Z) : option dentry_t :=
  let a := dir_entry_addr index in
  name ← ldbytes img a 32;
  ftype ← ld32 img (a + 32);
  inode ← ld32 img (a + 36);
  res ← ldbytes img (a + 40) 24;
  Some (mkDentry name ftype inode res).

(** The result is the return value and the out-parameter. *)
Definition read_dentry_by_index (img : list Z) (index : Z) (dentry : dentry_t)
    : option (Z * dentry_t) :=
  n ← num_dir_entries img;
  if (n <=? index) || (index <? 0) then Some (-1, dentry)
  else d ← load_dentry img index; Some (0, d).

Definition read_dentry_by_name (img : list Z) (fname : list Z) (dentry : dentry_t)
    : option (Z * dentry_t) :=
  fname_len ← strlen fname 0;
  if (MAX_STR_LENGTH <? fname_len) || (fname_len <=? 0) then Some (-1, dentry)
  else
    n ← num_dir_entries img;
    iterate (S (Z.to_nat n))
      (fun i =>
         if i <? n then
           entry_len ← strlen img (dir_entry_addr i);
           let search_str_len := if MAX_STR_LENGTH <? entry_len then MAX_STR_LENGTH else entry_len in
           let str_len := if fname_len <? search_str_len then search_str_len else fname_len in
           cmp ← strncmp fname 0 img (dir_entry_addr i) str_len;
           if cmp =? 0 then
             '(_, d) ← read_dentry_by_index img i dentry;
             Some (Done (0, d))
           else Some (Next (i + 1))
         else Some (Done (-1, dentry))) 0.

(** The index of (inode_t* )(fs_addr + (inode + 1) * BLOCK_SIZE). *)
Definition inode_addr (inode : Z) : Z := u32 ((inode + 1) * BLOCK_SIZE).

(** The index of the data block that cur_inode->data_blocks[k] names. *)
Definition dblock_addr (img : list Z) (cur_inode k : Z) : option Z :=
  n ← num_inodes img;
  cur_dblock_index ← ld32 img (cur_inode + 4 + 4 * k);
  Some (u32 ((1 + n + cur_dblock_index) * BLOCK_SIZE)).

Definition read_data (img : list Z) (inode offset : Z) (buf : list Z) (length_ : Z)
    : option (Z * list Z) :=
  n ← num_inodes img;
  if n <=? inode then Some (-1, buf)
  else if length_ <? 0 then Some (-1, buf)
  else
    let cur_inode := inode_addr inode in
    file_length ← ld32 img cur_inode;
    if file_length <? offset then Some (-1, buf)
    else
      cur_dblock ← dblock_addr img cur_inode (offset / BLOCK_SIZE);
      iterate (S (Z.to_nat (Z.min length_ file_length)))
        (fun '(i, cur_dblock, buf) =>
           if (i <? length_) && (u32 (i + offset) <? file_length) then
             cur_dblock ←
               (if u32 (i + offset) mod BLOCK_SIZE =? 0
                then dblock_addr img cur_inode (u32 (i + offset) / BLOCK_SIZE)
                else Some cur_dblock);
             c ← img.[cur_dblock + u32 (i + offset) mod BLOCK_SIZE];
             buf ← buf.[i := c];
             Some (Next (i + 1, cur_dblock, buf))
           else Some (Done (s32 i, buf))) (0, cur_dblock, buf).

(** ** Abstract file systems *)

Record aentry := mkEntry { a_name : list Z; a_type : Z; a_inode : Z }.
Record afs := mkFs { a_entries : list aentry; a_files : list (list Z) }.

#[export] Instance aentry_eq_dec : EqDecision aentry.
Proof. solve_decision. Defined.
#[export] Instance afs_eq_dec : EqDecision afs.
Proof. solve_decision. Defined.

(** Entry [i] of the boot block stands for [e]. *)
Definition entry_at (img : list Z) (i : Z) (e : aentry) : Prop :=
  bounded_string img (dir_entry_addr i) MAX_STR_LENGTH (a_name e) /\
  0 <= a_type e < 16777216 /\
  ld32 img (dir_entry_addr i + 32) = Some (a_type e) /\
  ld32 img (dir_entry_addr i + 36) = Some (a_inode e).

(** Byte [j] of the file of inode [k] is where the inode's block list says. *)
Definition byte_at (img : list Z) (nino k j c : Z) : Prop :=
  exists idx, ld32 img ((k + 1) * BLOCK_SIZE + 4 + 4 * (j / BLOCK_SIZE)) = Some idx /\
    (1 + nino + idx) * BLOCK_SIZE < 4294967296 /\ 0 <= idx /\
    img.[(1 + nino + idx) * BLOCK_SIZE + j mod BLOCK_SIZE] = Some c.

Definition file_at (img : list Z) (nino k : Z) (c : list Z) : Prop :=
  len c <= 1023 * BLOCK_SIZE /\
  ld32 img ((k + 1) * BLOCK_SIZE) = Some (len c) /\
  (k + 2) * BLOCK_SIZE + 4 <= len img /\
  forall j b, c.[j] = Some b -> byte_at img nino k j b.

Record represents (img : list Z) (F : afs) : Prop := {
  rep_bytes : Forall is_byte img;
  rep_size : len img <= 4294967296;
  rep_boot : BLOCK_SIZE <= len img;
  rep_num_entries : num_dir_entries img = Some (len (a_entries F));
  rep_entries_max : len (a_entries F) <= MAX_DIR_ENTRIES;
  rep_num_inodes : num_inodes img = Some (len (a_files F));
  rep_entry : forall i e, (a_entries F).[i] = Some e -> entry_at img i e;
  rep_file : forall k c, (a_files F).[k] = Some c -> file_at img (len (a_files F)) k c;
}.

(** ** Lemmas *)

Lemma ld32_bytes img a w :
  Forall is_byte img -> ld32 img a = Some w ->
  exists b0 b1 b2 b3, img.[a] = Some b0 /\ img.[a + 1] = Some b1 /\ img.[a + 2] = Some b2 /\
    img.[a + 3] = Some b3 /\ is_byte b0 /\ is_byte b1 /\ is_byte b2 /\ is_byte b3 /\
    w = b0 + 256 * b1 + 65536 * b2 + 16777216 * b3.
Proof.
  unfold ld32. intros HF H. bind_inv H. exists z, z0, z1, z2.
  split_and!; try done; by eapply (aget_Forall is_byte img).
Qed.

Lemma ld32_range img a w :
  Forall is_byte img -> ld32 img a = Some w -> is_u32 w /\ 0 <= a /\ a + 4 <= len img.
Proof.
  intros HF H. destruct (ld32_bytes _ _ _ HF H)
    as (b0 & b1 & b2 & b3 & H0%aget_range & _ & _ & H3%aget_range & Hb0 & Hb1 & Hb2 & Hb3 & ->).
  unfold is_byte, is_u32 in *. lia.
Qed.

Lemma ld32_is_Some img a : 0 <= a -> a + 4 <= len img -> exists w, ld32 img a = Some w.
Proof.
  intros Ha Hl. unfold ld32.
  destruct (aget_is_Some img a) as [? ->]; [lia|].
  destruct (aget_is_Some img (a + 1)) as [? ->]; [lia|].
  destruct (aget_is_Some img (a + 2)) as [? ->]; [lia|].
  destruct (aget_is_Some img (a + 3)) as [? ->]; [lia|]. simpl. eauto.
Qed.

Lemma ldbytes_slice img a n :
  0 <= a -> a + n <= len img -> ldbytes img a n = Some (slice img a n).
Proof.
  intros. unfold ldbytes. destruct (Z.leb_spec 0 a), (Z.leb_spec (a + n) (len img)); try lia.
  done.
Qed.

Section represented.
Context (img : list Z) (F : afs) (HR : represents img F).

Local Notation entries := (a_entries F).
Local Notation files := (a_files F).

Lemma entry_in_boot_block i e : entries.[i] = Some e -> 0 <= i < 63 /\ dir_entry_addr i + 64 <= len img.
Proof.
  intros H%aget_range. pose proof (rep_entries_max _ _ HR) as Hm.
  pose proof (rep_boot _ _ HR). unfold MAX_DIR_ENTRIES, dir_entry_addr, BLOCK_SIZE in *. lia.
Qed.

(** The byte after a full name is inside the entry: the file type's most
    significant byte is 0, so [strlen] stops before the next entry. *)
Lemma strlen_entry i e :
  entries.[i] = Some e ->
  exists r, strlen img (dir_entry_addr i) = Some r /\
    (if 32 <? r then 32 else r) = len (a_name e).
Proof.
  intros H. destruct (entry_in_boot_block i e H) as [Hi Hl].
  destruct (rep_entry _ _ HR i e H) as ((Hp & Hc & Hn & Hz & Hs) & Ht & Ht' & _).
  destruct (ld32_bytes _ _ _ (rep_bytes _ _ HR) Ht')
    as (b0 & b1 & b2 & b3 & _ & _ & _ & H3 & Hb0 & Hb1 & Hb2 & Hb3 & E).
  assert (b3 = 0) as -> by (unfold is_byte in *; lia).
  replace (dir_entry_addr i + 32 + 3) with (dir_entry_addr i + 35) in H3 by lia.
  destruct (strlen_first_zero img (dir_entry_addr i) 35) as (r & Hr & Hr35 & Hr0 & Hrj);
    [lia|lia|done|]. exists r. split; [done|]. unfold MAX_STR_LENGTH in *.
  assert (len (a_name e) <= r) as Hge.
  { destruct (Z_lt_dec r (len (a_name e))) as [Hlt|]; [|lia].
    destruct (aget_is_Some (a_name e) r) as [c Hcr]; [lia|].
    rewrite Hs in Hr0 by lia. assert (c = 0) as -> by congruence.
    pose proof (aget_Forall _ _ _ _ Hc Hcr) as Hbad. unfold is_char in Hbad. lia. }
  destruct (Z.eq_dec (len (a_name e)) 32) as [E32|Hne].
  - destruct (Z.ltb_spec 32 r); lia.
  - assert (r <= len (a_name e)).
    { destruct (Z_lt_dec (len (a_name e)) r); [|lia].
      exfalso. apply (Hrj (len (a_name e))); [lia|]. apply Hz. lia. }
    destruct (Z.ltb_spec 32 r); lia.
Qed.

Lemma load_dentry_entry i e :
  entries.[i] = Some e ->
  exists d, load_dentry img i = Some d /\ file_type d = a_type e /\
    inode_num d = a_inode e /\ bounded_string (file_name d) 0 MAX_STR_LENGTH (a_name e) /\
    length (file_name d) = 32%nat.
Proof.
  intros H. destruct (entry_in_boot_block i e H) as [Hi Hl].
  destruct (rep_entry _ _ HR i e H) as ((Hp & Hc & Hn & Hz & Hs) & Ht & Ht' & Hin).
  unfold load_dentry. unfold dir_entry_addr, MAX_STR_LENGTH in *.
  rewrite ldbytes_slice by lia. cbn [mbind option_bind].
  rewrite Ht'. cbn [mbind option_bind]. rewrite Hin. cbn [mbind option_bind].
  rewrite ldbytes_slice by lia. cbn [mbind option_bind].
  eexists; split; [done|]. cbn [file_type inode_num file_name].
  split_and!; try done.
  - split_and!; try done; try lia.
    + intros Hlt. rewrite aget_slice by lia. apply Hz. lia.
    + intros j Hj. rewrite aget_slice by lia. apply Hs. lia.
  - rewrite length_slice by lia. done.
Qed.

Lemma read_dentry_by_index_entry i e d0 :
  entries.[i] = Some e ->
  exists d, read_dentry_by_index img i d0 = Some (0, d) /\ load_dentry img i = Some d.
Proof.
  intros H. destruct (load_dentry_entry i e H) as (d & Hd & _).
  unfold read_dentry_by_index. rewrite (rep_num_entries _ _ HR). simpl.
  pose proof (aget_range _ _ _ H).
  destruct (Z.leb_spec (len entries) i), (Z.ltb_spec i 0); try lia. simpl.
  rewrite Hd. simpl. eauto.
Qed.

Lemma read_dentry_by_index_out i d0 :
  entries.[i] = None -> read_dentry_by_index img i d0 = Some (-1, d0).
Proof.
  intros H. unfold read_dentry_by_index. rewrite (rep_num_entries _ _ HR). simpl.
  destruct (Z.leb_spec (len entries) i), (Z.ltb_spec i 0); try done.
  destruct (aget_is_Some entries i) as [? E]; [lia|]. congruence.
Qed.

(** ** Lookup by name *)

(** What the scan of the entries returns from index [i] on. *)
Definition find_from (nm : list Z) (i : Z) : option Z :=
  match list_find (fun e => a_name e = nm) (drop (Z.to_nat i) entries) with
  | Some (k, _) => Some (i + Z.of_nat k)
  | None => None
  end.

Lemma find_from_hit nm i e : entries.[i] = Some e -> a_name e = nm -> find_from nm i = Some i.
Proof.
  intros H Hn. pose proof (aget_range _ _ _ H) as Hi.
  unfold find_from. assert (drop (Z.to_nat i) entries = e :: drop (S (Z.to_nat i)) entries) as ->.
  { apply drop_S. rewrite <- aget_nat. by rewrite Z2Nat.id by lia. }
  simpl. rewrite decide_True by done. simpl. f_equal. lia.
Qed.

Lemma find_from_miss nm i e :
  entries.[i] = Some e -> a_name e <> nm -> find_from nm i = find_from nm (i + 1).
Proof.
  intros H Hn. pose proof (aget_range _ _ _ H) as Hi.
  unfold find_from. assert (drop (Z.to_nat i) entries = e :: drop (S (Z.to_nat i)) entries) as ->.
  { apply drop_S. rewrite <- aget_nat. by rewrite Z2Nat.id by lia. }
  replace (Z.to_nat (i + 1)) with (S (Z.to_nat i)) by lia.
  simpl. rewrite decide_False by done.
  destruct (list_find _ _) as [[k e']|]; simpl; [|done]. f_equal. lia.
Qed.

Lemma find_from_end nm i : len entries <= i -> find_from nm i = None.
Proof. intros H. unfold find_from. by rewrite drop_ge by lia. Qed.

(** The comparison of one round: the requested name and the name of entry
    [i], compared over the longer of the two, are the same name or not. *)
Lemma entry_compare fname nm i e :
  cstring fname 0 nm -> 0 < len nm <= 32 -> entries.[i] = Some e ->
  exists r, strncmp fname 0 img (dir_entry_addr i)
    (if len nm <? len (a_name e) then len (a_name e) else len nm) = Some r /\
    (r = 0 <-> nm = a_name e).
Proof.
  intros Hf Hnm H. destruct (rep_entry _ _ HR i e H) as ((Hp & Hc & Hn & Hz & Hs) & _).
  unfold MAX_STR_LENGTH in *. apply strncmp_eq.
  - apply cstring_bounded; [done|]. destruct (Z.ltb_spec (len nm) (len (a_name e))); lia.
  - destruct (Z.ltb_spec (len nm) (len (a_name e))); split_and!; try done; try lia.
    intros. apply Hz. lia.
  - destruct (Z.ltb_spec (len nm) (len (a_name e))); lia.
Qed.

Definition name_result (nm : list Z) (d0 : dentry_t) (i : Z) (r : Z * dentry_t) : Prop :=
  match find_from nm i with
  | Some k => fst r = 0 /\ load_dentry img k = Some (snd r)
  | None => r = (-1, d0)
  end.

Lemma name_loop fname nm d0 :
  cstring fname 0 nm -> 0 < len nm <= 32 ->
  exists r, iterate (S (length entries))
    (fun i =>
       if i <? len entries then
         entry_len ← strlen img (dir_entry_addr i);
         let search_str_len := if MAX_STR_LENGTH <? entry_len then MAX_STR_LENGTH else entry_len in
         let str_len := if len nm <? search_str_len then search_str_len else len nm in
         cmp ← strncmp fname 0 img (dir_entry_addr i) str_len;
         if cmp =? 0 then
           '(_, d) ← read_dentry_by_index img i d0;
           Some (Done (0, d))
         else Some (Next (i + 1))
       else Some (Done (-1, d0))) 0 = Some r /\ name_result nm d0 0 r.
Proof.
  intros Hf Hnm.
  apply (iterate_ind (fun i => 0 <= i <= len entries /\ find_from nm 0 = find_from nm i)
    (name_result nm d0 0) (fun i => Z.to_nat (len entries - i))); [|split; [lia|done]|simpl; lia].
  intros i [Hi Hfind]. destruct (Z.ltb_spec i (len entries)) as [Hlt|Hge].
  - destruct (aget_is_Some entries i) as [e He]; [lia|].
    destruct (strlen_entry i e He) as (r & -> & Hr). simpl. unfold MAX_STR_LENGTH.
    rewrite Hr. destruct (entry_compare fname nm i e Hf Hnm He) as (c & -> & Hcmp). simpl.
    destruct (Z.eqb_spec c 0) as [->|Hne].
    + destruct (read_dentry_by_index_entry i e d0 He) as (d & -> & Hd). simpl.
      eexists; split; [done|]. simpl. unfold name_result.
      rewrite Hfind, (find_from_hit nm i e He) by (symmetry; by apply Hcmp). done.
    + eexists; split; [done|]. simpl. split; [|lia]. split; [lia|].
      rewrite Hfind. apply (find_from_miss nm i e He). intros E. apply Hne, Hcmp. done.
  - eexists; split; [done|]. simpl. unfold name_result.
    rewrite Hfind, find_from_end by lia. done.
Qed.

Lemma read_dentry_by_name_result fname nm d0 :
  cstring fname 0 nm ->
  exists r, read_dentry_by_name img fname d0 = Some r /\
    if decide (0 < len nm <= 32) then name_result nm d0 0 r else r = (-1, d0).
Proof.
  intros Hf. unfold read_dentry_by_name. rewrite (strlen_cstring _ _ _ Hf). simpl.
  unfold MAX_STR_LENGTH at 1.
  destruct (decide (0 < len nm <= 32)) as [Hnm|Hnm].
  - destruct (Z.ltb_spec 32 (len nm)), (Z.leb_spec (len nm) 0); try lia. simpl.
    rewrite (rep_num_entries _ _ HR). simpl. rewrite Nat2Z.id.
    by apply name_loop.
  - destruct (Z.ltb_spec 32 (len nm)), (Z.leb_spec (len nm) 0); simpl; try lia; eauto.
Qed.

Lemma find_from_0 nm :
  find_from nm 0 = (fun '(k, _) => Z.of_nat k) <$> list_find (fun e => a_name e = nm) entries.
Proof.
  unfold find_from. change (drop (Z.to_nat 0) entries) with entries.
  by destruct (list_find _ _) as [[k e]|].
Qed.

(** ** File contents *)

Lemma inode_addr_file k c :
  files.[k] = Some c -> inode_addr k = (k + 1) * BLOCK_SIZE /\
    ld32 img (inode_addr k) = Some (len c).
Proof.
  intros H. destruct (rep_file _ _ HR k c H) as (Hl & Hw & Hsz & _).
  pose proof (aget_range _ _ _ H). pose proof (rep_size _ _ HR).
  assert (inode_addr k = (k + 1) * BLOCK_SIZE) as E.
  { unfold inode_addr. apply u32_small. unfold is_u32, BLOCK_SIZE in *. lia. }
  by rewrite E.
Qed.

(** The block address the code computes for position [j] holds byte [j]. *)
Lemma dblock_addr_byte k c j x :
  files.[k] = Some c -> c.[j] = Some x ->
  exists blk, dblock_addr img (inode_addr k) (j / BLOCK_SIZE) = Some blk /\
    img.[blk + j mod BLOCK_SIZE] = Some x.
Proof.
  intros Hk Hj. destruct (rep_file _ _ HR k c Hk) as (_ & _ & _ & Hb).
  destruct (Hb j x Hj) as (idx & Hidx & Hlt & Hpos & Hx).
  destruct (inode_addr_file k c Hk) as [E _].
  unfold dblock_addr. rewrite (rep_num_inodes _ _ HR). simpl. rewrite E, Hidx. simpl.
  eexists; split; [done|]. rewrite u32_small; [done|]. unfold is_u32, BLOCK_SIZE in *. lia.
Qed.

Lemma dblock_addr_is_Some k c j :
  files.[k] = Some c -> 0 <= j <= len c ->
  exists blk, dblock_addr img (inode_addr k) (j / BLOCK_SIZE) = Some blk.
Proof.
  intros Hk Hj. destruct (rep_file _ _ HR k c Hk) as (Hmax & _ & Hsz & _).
  destruct (inode_addr_file k c Hk) as [E _]. pose proof (aget_range _ _ _ Hk).
  unfold dblock_addr. rewrite (rep_num_inodes _ _ HR). simpl. rewrite E.
  assert (0 <= j / BLOCK_SIZE <= 1023).
  { unfold BLOCK_SIZE in *. Z.to_euclidean_division_equations. lia. }
  destruct (ld32_is_Some img ((k + 1) * BLOCK_SIZE + 4 + 4 * (j / BLOCK_SIZE))) as [w ->];
    [unfold BLOCK_SIZE in *; lia|unfold BLOCK_SIZE in *; lia|]. simpl. eauto.
Qed.

(** The state of the copying loop: [i] bytes are in the buffer, and inside a
    block the current block is the one of the next byte. *)
Definition reader_inv (k : Z) (c : list Z) (offset m : Z) (buf : list Z)
    : Z * Z * list Z -> Prop := fun '(i, blk, b) =>
  0 <= i <= m /\ b = splice buf 0 (slice c offset i) /\
  ((offset + i) mod BLOCK_SIZE <> 0 ->
     dblock_addr img (inode_addr k) ((offset + i) / BLOCK_SIZE) = Some blk).

Lemma same_block j : (j + 1) mod BLOCK_SIZE <> 0 -> (j + 1) / BLOCK_SIZE = j / BLOCK_SIZE.
Proof. unfold BLOCK_SIZE. intros. Z.to_euclidean_division_equations. lia. Qed.

(** One more byte in the buffer. *)
Lemma reader_store (c : list Z) offset m (buf : list Z) i x :
  0 <= offset -> offset + m <= len c -> m <= len buf -> 0 <= i < m ->
  c.[offset + i] = Some x ->
  (splice buf 0 (slice c offset i)).[i := x] = Some (splice buf 0 (slice c offset (i + 1))).
Proof.
  intros Ho Hm Hb Hi Hx.
  assert (len (slice c offset i) = i) as Hl by (rewrite length_slice; lia).
  rewrite aset_Some by (rewrite length_splice by lia; lia). f_equal.
  rewrite <- splice_one by (rewrite length_splice by lia; lia).
  assert (slice c offset (i + 1) = slice c offset i ++ [x]) as ->.
  { unfold slice. replace (Z.to_nat (i + 1)) with (S (Z.to_nat i)) by lia.
    apply take_S_r. rewrite lookup_drop. unfold aget in Hx.
    destruct (Z.ltb_spec (offset + i) 0); [lia|]. rewrite <- Hx. f_equal. lia. }
  rewrite <- splice_app by lia. f_equal. lia.
Qed.

Lemma read_data_file k c offset (buf : list Z) length_ :
  files.[k] = Some c -> 0 <= offset -> 0 <= length_ ->
  Z.min length_ (len c - offset) <= len buf ->
  read_data img k offset buf length_ =
    if len c <? offset then Some (-1, buf)
    else let m := Z.min length_ (len c - offset) in
         Some (m, splice buf 0 (slice c offset m)).
Proof.
  intros Hk Ho Hlen Hcap. destruct (inode_addr_file k c Hk) as [E Hw].
  pose proof (aget_range _ _ _ Hk) as Hkr.
  unfold read_data. rewrite (rep_num_inodes _ _ HR). cbn [mbind option_bind].
  destruct (Z.leb_spec (len files) k); [lia|]. destruct (Z.ltb_spec length_ 0); [lia|].
  rewrite Hw. cbn [mbind option_bind]. destruct (Z.ltb_spec (len c) offset) as [Hoff|Hoff]; [done|].
  destruct (rep_file _ _ HR k c Hk) as (Hmax & _ & _ & _).
  destruct (dblock_addr_is_Some k c offset Hk) as [blk0 Hblk0]; [lia|].
  rewrite Hblk0. cbn [mbind option_bind]. set (m := Z.min length_ (len c - offset)).
  assert (forall i, 0 <= i <= m -> u32 (i + offset) = offset + i) as Hu.
  { intros i Hi. rewrite Z.add_comm. apply u32_small. unfold is_u32, BLOCK_SIZE in *. lia. }
  match goal with |- iterate ?f ?st _ = _ =>
    destruct (iterate_ind (reader_inv k c offset m buf)
      (fun r => r = (m, splice buf 0 (slice c offset m)))
      (fun '(i, _, _) => Z.to_nat (m - i)) st f) with (s := (0, blk0, buf)) as (r & Hr & ->)
  end; [|split_and!; [lia|lia| |by rewrite Z.add_0_r];
      change (slice c offset 0) with (@nil Z); by rewrite splice_nil|simpl; lia|exact Hr].
  intros [[i blk] b] (Hi & -> & Hblk). rewrite Hu by lia.
  destruct (Z.ltb_spec i length_), (Z.ltb_spec (offset + i) (len c)); simpl.
  - destruct (aget_is_Some c (offset + i)) as [x Hx]; [lia|].
    destruct (dblock_addr_byte k c (offset + i) x Hk Hx) as (b' & Hb' & Himg).
    assert ((if (offset + i) mod BLOCK_SIZE =? 0
             then dblock_addr img (inode_addr k) ((offset + i) / BLOCK_SIZE)
             else Some blk) = Some b') as ->.
    { destruct (Z.eqb_spec ((offset + i) mod BLOCK_SIZE) 0); [done|]. rewrite <- Hb'. symmetry. auto. }
    simpl. rewrite Himg. simpl. rewrite (reader_store c offset m) by (done || lia). simpl.
    eexists; split; [done|]. split; [|simpl; lia]. split_and!; [lia|lia|done|].
    intros Hm. rewrite Z.add_assoc in *. by rewrite same_block.
  - eexists; split; [done|]. simpl. assert (i = m) as -> by lia.
    rewrite s32_small by (unfold is_s32, BLOCK_SIZE in *; lia). done.
  - eexists; split; [done|]. simpl. assert (i = m) as -> by lia.
    rewrite s32_small by (unfold is_s32, BLOCK_SIZE in *; lia). done.
  - eexists; split; [done|]. simpl. assert (i = m) as -> by lia.
    rewrite s32_small by (unfold is_s32, BLOCK_SIZE in *; lia). done.
Qed.

Lemma read_data_no_inode k offset buf length_ :
  len files <= k -> read_data img k offset buf length_ = Some (-1, buf).
Proof.
  intros Hk. unfold read_data. rewrite (rep_num_inodes _ _ HR). simpl.
  destruct (Z.leb_spec (len files) k); [done|lia].
Qed.
End represented.

(** The entry a name finds. *)
Definition find_entry (F : afs) (nm : list Z) : option aentry :=
  if decide (0 < len nm <= MAX_STR_LENGTH)
  then snd <$> list_find (fun e => a_name e = nm) (a_entries F) else None.

Lemma read_dentry_by_name_find img F fname nm d0 :
  represents img F -> cstring fname 0 nm ->
  match find_entry F nm with
  | Some e => exists d, read_dentry_by_name img fname d0 = Some (0, d) /\
      file_type d = a_type e /\ inode_num d = a_inode e
  | None => read_dentry_by_name img fname d0 = Some (-1, d0)
  end.
Proof.
  intros HR Hf. destruct (read_dentry_by_name_result img F HR fname nm d0 Hf) as (r & -> & Hr).
  unfold name_result in Hr. rewrite find_from_0 in Hr. unfold find_entry, MAX_STR_LENGTH.
  destruct (list_find _ _) as [ [k e]|] eqn:E; simpl in Hr; case_decide; try congruence.
  simpl. apply list_find_Some in E as (Hk & Hnm & _). rewrite <- aget_nat in Hk.
  destruct (load_dentry_entry img F HR _ e Hk) as (d & Hd & Ht & Hin & _).
  destruct r as [r0 d']. simpl in Hr. destruct Hr as [-> Hld]. exists d'.
  assert (d' = d) as -> by congruence. done.
Qed.

(** ** A decision procedure for [represents] *)

Definition check_string (img : list Z) (p : Z) (str : list Z) : bool :=
  (0 <=? p) && (p + 32 <=? len img) && (len str <=? 32) &&
  forallb (fun c => (0 <? c) && (c <? 256)) str &&
  bool_decide (slice img p (len str) = str) &&
  (negb (len str <? 32) || bool_decide (img.[p + len str] = Some 0)).

Definition check_entry (img : list Z) (i : Z) (e : aentry) : bool :=
  check_string img (dir_entry_addr i) (a_name e) &&
  (0 <=? a_type e) && (a_type e <? 16777216) &&
  bool_decide (ld32 img (dir_entry_addr i + 32) = Some (a_type e)) &&
  bool_decide (ld32 img (dir_entry_addr i + 36) = Some (a_inode e)).

Definition check_all {A} (check : Z -> A -> bool) (l : list A) : bool :=
  forallb (fun '(j, x) => check (Z.of_nat j) x) (zip (seq 0 (length l)) l).

Definition check_byte (img : list Z) (nino k j c : Z) : bool :=
  match ld32 img ((k + 1) * BLOCK_SIZE + 4 + 4 * (j / BLOCK_SIZE)) with
  | Some idx =>
      ((1 + nino + idx) * BLOCK_SIZE <? 4294967296) && (0 <=? idx) &&
      bool_decide (img.[(1 + nino + idx) * BLOCK_SIZE + j mod BLOCK_SIZE] = Some c)
  | None => false
  end.

Definition check_file (img : list Z) (nino k : Z) (c : list Z) : bool :=
  (len c <=? 1023 * BLOCK_SIZE) &&
  bool_decide (ld32 img ((k + 1) * BLOCK_SIZE) = Some (len c)) &&
  ((k + 2) * BLOCK_SIZE + 4 <=? len img) &&
  check_all (check_byte img nino k) c.

Definition fsck (img : list Z) (F : afs) : bool :=
  forallb (fun c => (0 <=? c) && (c <? 256)) img &&
  (len img <=? 4294967296) && (BLOCK_SIZE <=? len img) &&
  bool_decide (num_dir_entries img = Some (len (a_entries F))) &&
  (len (a_entries F) <=? MAX_DIR_ENTRIES) &&
  bool_decide (num_inodes img = Some (len (a_files F))) &&
  check_all (check_entry img) (a_entries F) &&
  check_all (check_file img (len (a_files F))) (a_files F).

Lemma check_all_sound {A} (check : Z -> A -> bool) (l : list A) i x :
  check_all check l = true -> l.[i] = Some x -> check i x = true.
Proof.
  unfold check_all. rewrite forallb_forall. intros H Hi.
  pose proof (aget_range _ _ _ Hi).
  assert (In (Z.to_nat i, x) (zip (seq 0 (length l)) l)) as Hin.
  { apply list_elem_of_In, list_elem_of_lookup. exists (Z.to_nat i).
    rewrite lookup_zip_with, lookup_seq_lt by lia. simpl.
    unfold aget in Hi. destruct (Z.ltb_spec i 0); [lia|]. by rewrite Hi. }
  specialize (H _ Hin). simpl in H. by rewrite Z2Nat.id in H by lia.
Qed.

Ltac split_checks H :=
  rewrite ?andb_true_iff, ?orb_true_iff, ?negb_true_iff, ?bool_decide_eq_true, ?Z.leb_le, ?Z.ltb_lt,
    ?Z.ltb_ge in H.

Lemma check_string_sound img p str : check_string img p str = true -> bounded_string img p 32 str.
Proof.
  unfold check_string. intros H. split_checks H.
  destruct H as (((((Hp & Hl) & Hn) & Hc) & Hs) & Hz). split_and!; try done.
  - apply Forall_forall. intros c Hin. rewrite forallb_forall in Hc.
    specialize (Hc c ltac:(first [done | by apply list_elem_of_In])). split_checks Hc. done.
  - intros Hlt. destruct Hz; [lia|done].
  - intros i Hi. rewrite <- (aget_slice img p (len str) i) by lia. by rewrite Hs.
Qed.

Lemma check_file_sound img nino k c : check_file img nino k c = true -> file_at img nino k c.
Proof.
  unfold check_file. intros H. split_checks H. destruct H as (((Hl & Hw) & Hsz) & Hb).
  split_and!; try done. intros j b Hj.
  pose proof (check_all_sound (check_byte img nino k) c j b Hb Hj) as Hck.
  unfold check_byte in Hck. destruct (ld32 img (_ + _ + _)) as [idx|] eqn:E; [|done].
  split_checks Hck. destruct Hck as [[? ?] ?]. exists idx. by split_and!.
Qed.

Lemma fsck_sound img F : fsck img F = true -> represents img F.
Proof.
  unfold fsck. intros H. split_checks H.
  destruct H as (((((((Hb & Hmax) & Hmin) & Hne) & Hm) & Hni) & He) & Hf). split; try done.
  - apply Forall_forall. intros c Hin. rewrite forallb_forall in Hb.
    specialize (Hb c ltac:(first [done | by apply list_elem_of_In])). split_checks Hb. unfold is_byte. lia.
  - intros i e Hi. pose proof (check_all_sound _ _ i e He Hi) as Hck.
    unfold check_entry in Hck. split_checks Hck.
    destruct Hck as ((((Hs & ?) & ?) & ?) & ?). apply check_string_sound in Hs.
    by split_and!.
  - intros k c Hk. apply check_file_sound. by apply (check_all_sound _ _ k c Hf).
Qed.

(** ** A small image *)

Definition le32 (w : Z) : list Z :=
  [w mod 256; w / 256 mod 256; w / 65536 mod 256; w / 16777216 mod 256].

Definition pad (n : nat) (l : list Z) : list Z := take n (l ++ replicate n 0).

(** One data block per file, in the order of the inodes. *)
Definition mkfs (F : afs) : list Z :=
  let entry e := pad 32 (a_name e) ++ le32 (a_type e) ++ le32 (a_inode e) ++ replicate 24 0 in
  let inode k (c : list Z) := pad 4096 (le32 (len c) ++ le32 k) in
  let boot := le32 (len (a_entries F)) ++ le32 (len (a_files F)) ++ le32 (len (a_files F))
              ++ replicate 52 0 ++ concat (entry <$> a_entries F) in
  pad 4096 boot ++ concat (imap (fun k c => inode (Z.of_nat k) c) (a_files F))
    ++ concat (pad 4096 <$> a_files F).

(** ".", "shell", "rtc", "frame0", and again as "frame0.txt", "frame1.txt"; the shell's entry point is 0x08048054. *)
Definition sample_fs : afs :=
  mkFs [mkEntry [46] 1 0; mkEntry [115; 104; 101; 108; 108] 2 0; mkEntry [114; 116; 99] 0 0;
        mkEntry [102; 114; 97; 109; 101; 48] 2 1;
        mkEntry [102; 114; 97; 109; 101; 48; 46; 116; 120; 116] 2 1; mkEntry [102; 114; 97; 109; 101; 49; 46; 116; 120; 116] 2 2]
       [[127; 69; 76; 70; 1; 1; 1; 0; 0; 0; 0; 0; 0; 0; 0; 0; 2; 0; 3; 0; 1; 0; 0; 0;
         84; 128; 4; 8; 52; 0; 0; 0];
        [47; 92; 95; 47; 92; 10; 62; 32; 60; 10]; [45; 32; 45; 32; 45; 10; 10; 95]].

Definition sample_img : list Z := mkfs sample_fs.

Lemma sample_represents : represents sample_img sample_fs.
Proof. apply fsck_sound. vm_compute. reflexivity. Qed.

(** ** Properties *)

(** C26: on an image that represents a file system, [read_data] ends, never
    leaves the image or the buffer, and copies exactly the bytes of the file
    from [offset] on that fit [length_]; past the end of the file it fails, and
    an inode number out of range is refused. *)
Theorem read_data_correct img F inode offset (buf : list Z) length_ :
  represents img F -> 0 <= inode -> 0 <= offset -> 0 <= length_ <= len buf ->
  read_data img inode offset buf length_ =
    match (a_files F).[inode] with
    | None => Some (-1, buf)
    | Some c =>
        if len c <? offset then Some (-1, buf)
        else let m := Z.min length_ (len c - offset) in
             Some (m, splice buf 0 (slice c offset m))
    end.
Proof.
  intros HR Hi Ho Hl. destruct ((a_files F).[inode]) as [c|] eqn:E.
  - apply (read_data_file img F HR); try done; lia.
  - apply (read_data_no_inode img F HR).
    destruct (Z_le_gt_dec (len (a_files F)) inode) as [|Hlt]; [done|].
    destruct (aget_is_Some (a_files F) inode) as [? E']; [lia|congruence].
Qed.

Lemma read_data_correct_witness :
  read_data sample_img 1 3 (replicate 6 0) 6 = Some (6, [47; 92; 10; 62; 32; 60]).
Proof. refine (read_data_correct _ _ _ _ _ _ sample_represents _ _ _); simpl; lia. Defined.

(** C33: [read_dentry_by_name] ends and finds the first directory entry whose
    name is the one asked for, full 32-character names included; it copies that
    entry out and returns 0.  For any other name, the empty one and those of
    more than 32 characters included, it returns -1 and leaves the
    out-parameter alone. *)
Theorem read_dentry_by_name_correct img F fname nm d0 :
  represents img F -> cstring fname 0 nm ->
  match list_find (fun e => a_name e = nm) (a_entries F) with
  | Some (k, e) =>
      if decide (0 < len nm <= MAX_STR_LENGTH) then
        exists d, read_dentry_by_name img fname d0 = Some (0, d) /\
          file_type d = a_type e /\ inode_num d = a_inode e /\
          bounded_string (file_name d) 0 MAX_STR_LENGTH nm
      else read_dentry_by_name img fname d0 = Some (-1, d0)
  | None => read_dentry_by_name img fname d0 = Some (-1, d0)
  end.
Proof.
  intros HR Hf. destruct (read_dentry_by_name_result img F HR fname nm d0 Hf) as (r & -> & Hr).
  unfold name_result in Hr. rewrite find_from_0 in Hr. unfold MAX_STR_LENGTH.
  destruct (list_find _ _) as [[k e]|] eqn:E; simpl in Hr; [|case_decide; congruence].
  case_decide; [|congruence].
  apply list_find_Some in E as (Hk & Hnm & _). rewrite <- aget_nat in Hk.
  destruct (load_dentry_entry img F HR _ e Hk) as (d & Hd & Ht & Hin & Hs & _).
  destruct r as [r0 d']. simpl in Hr. destruct Hr as [-> Hld]. exists d'.
  assert (d' = d) as -> by congruence. split_and!; try done; by rewrite <- Hnm.
Qed.

Lemma read_dentry_by_name_correct_witness :
  exists d, read_dentry_by_name sample_img [114; 116; 99; 0] null_dentry = Some (0, d) /\
    file_type d = 0 /\ inode_num d = 0 /\
    bounded_string (file_name d) 0 MAX_STR_LENGTH [114; 116; 99].
Proof.
  refine (read_dentry_by_name_correct sample_img sample_fs _ [114; 116; 99] _
    sample_represents _).
  split_and!; [lia|repeat constructor|reflexivity|].
  intros i Hi. change (len [114; 116; 99]) with 3 in Hi.
  assert (i = 0 \/ i = 1 \/ i = 2) as [-> | [-> | ->] ] by lia; reflexivity.
Defined.

(** consecutive reads compose: reading [m] bytes and then [n] bytes from
    the new position gives the bytes that one read of [m + n] gives. *)
Theorem read_data_append img F inode offset c (buf1 buf2 : list Z) m n :
  represents img F -> (a_files F).[inode] = Some c -> 0 <= offset <= len c ->
  0 <= m <= len buf1 -> 0 <= n <= len buf2 ->
  exists r1 r2 b1 b2 b,
    read_data img inode offset buf1 m = Some (r1, b1) /\
    read_data img inode (offset + r1) buf2 n = Some (r2, b2) /\
    read_data img inode offset (buf1 ++ buf2) (m + n)
      = Some (r1 + r2, b) /\
    slice b 0 (r1 + r2) = slice b1 0 r1 ++ slice b2 0 r2.
Proof.
  intros HR Hc Ho Hm Hn. pose proof (aget_range _ _ _ Hc) as Hi.
  set (r1 := Z.min m (len c - offset)). set (r2 := Z.min n (len c - (offset + r1))).
  exists r1, r2. do 3 eexists.
  rewrite !(read_data_file img F HR inode c) by (rewrite ?length_app; done || lia).
  destruct (Z.ltb_spec (len c) offset), (Z.ltb_spec (len c) (offset + r1)); try lia.
  split; [done|]. split; [done|]. split.
  - cbv zeta. replace (Z.min (m + n) (len c - offset)) with (r1 + r2) by lia. done.
  - fold r1 r2. rewrite !slice_splice_0 by (rewrite ?length_slice, ?length_app; lia).
    apply slice_app; lia.
Qed.

Lemma read_data_append_witness :
  exists r1 r2 b1 b2 b,
    read_data sample_img 1 2 (replicate 5 0) 5 = Some (r1, b1) /\
    read_data sample_img 1 (2 + r1) (replicate 4 0) 4 = Some (r2, b2) /\
    read_data sample_img 1 2 (replicate 5 0 ++ replicate 4 0) (5 + 4)
      = Some (r1 + r2, b) /\
    slice b 0 (r1 + r2) = slice b1 0 r1 ++ slice b2 0 r2.
Proof.
  refine (read_data_append _ _ 1 2 [47; 92; 95; 47; 92; 10; 62; 32; 60; 10] _ _ _ _
    sample_represents eq_refl _ _ _); simpl; lia.
Defined.
