(* ===== verification/Console.v ===== *)
(** The text console of [src/code/lib.c]: [clear], [clear_screen],
    [set_vidmem_page], [putc], [put_key], [put_cursor], [check_cursor],
    [shift_screen], [remc], [rem_cursor], and the terminal records of
    [src/code/processes.h] they move the cursors of.

    Video memory is the sixteen kilobytes from 0xB8000 on: the screen and one
    backing page per terminal.  The console is refined to a teletype: an
    unbounded tape of cells, a position on it and the first row in the window. *)
From stdpp Require Import base option list numbers.
From Stdlib Require Import ZArith Lia.
From S2P Require Import Prelude LibString.

Definition VIDEO : Z := 753664.        (* 0xB8000 *)
Definition TERM_1_VID : Z := 757760.   (* 0xB9000 *)
Definition TERM_2_VID : Z := 761856.   (* 0xBA000 *)
Definition TERM_3_VID : Z := 765952.   (* 0xBB000 *)
Definition NUM_COLS : Z := 80.
Definition NUM_ROWS : Z := 25.
Definition ATTRIB : Z := 7.
Definition NUM_TERMS : Z := 3.
Definition CMD_LINE_LEN : Z := 128.
Definition PAGE_BYTES : Z := 4096.

Record term_t := mkTerm {
  cursor_x : Z;
  cursor_y : Z;
  base_pid : Z;
  active_pid : Z;
  vidmem_idx : Z;
  terminal_buf : list Z;   (* CMD_LINE_LEN bytes *)
  buf_idx : Z;
}.

#[export] Instance eta_term : EtaExpand term_t := fun t =>
  mkTerm (cursor_x t) (cursor_y t) (base_pid t) (active_pid t) (vidmem_idx t)
    (terminal_buf t) (buf_idx t).

(** [vmem] holds the bytes 0xB8000..0xBBFFF; [video_mem] is the address of the
    page [putc] draws on; [intr] is the processor's interrupt flag. *)
Record console := mkConsole {
  vmem : list Z;
  video_mem : Z;
  terminals : list term_t;
  ts : Z;
  ta : Z;
  intr : bool;
}.

#[export] Instance eta_console : EtaExpand console := fun c =>
  mkConsole (vmem c) (video_mem c) (terminals c) (ts c) (ta c) (intr c).

Definition vid_mem_pages : list Z := [VIDEO; TERM_1_VID; TERM_2_VID; TERM_3_VID].

(** The two byte stores that draw [c] in the cell [k] of the page at [vid]. *)
Definition put_cell (vid k c : Z) (vm : list Z) : option (list Z) :=
  vm ← stb VIDEO vm (vid + Z.shiftl k 1) c;
  stb VIDEO vm (vid + Z.shiftl k 1 + 1) ATTRIB.

Definition copy_cell (vid k k' : Z) (vm : list Z) : option (list Z) :=
  vm ← movb VIDEO vm (vid + Z.shiftl k 1) (vid + Z.shiftl k' 1);
  movb VIDEO vm (vid + Z.shiftl k 1 + 1) (vid + Z.shiftl k' 1 + 1).

Definition upd_term (con : console) (t : Z) (f : term_t -> term_t) : option console :=
  T ← (terminals con).[t];
  l ← (terminals con).[t := f T];
  Some (con <| terminals := l |>).

Definition clear (con : console) : option console :=
  vm ← for_range 0 (NUM_ROWS * NUM_COLS) (fun i vm => put_cell VIDEO i 32 vm) (vmem con);
  Some (con <| vmem := vm |>).

Definition clear_screen (con : console) : option console :=
  con ← clear con;
  upd_term con (ts con) (fun T => T <| cursor_x := 0 |> <| cursor_y := 0 |>).

Definition set_vidmem_page (index : Z) (con : console) : option console :=
  p ← vid_mem_pages.[index]; Some (con <| video_mem := p |>).

Definition shift_screen (vid : Z) (vm : list Z) : option (list Z) :=
  vm ← for_range 1 NUM_ROWS (fun j vm =>
         for_range 0 NUM_COLS (fun i vm =>
           copy_cell vid (NUM_COLS * (j - 1) + i) (NUM_COLS * j + i) vm) vm) vm;
  for_range 0 NUM_COLS (fun i vm => put_cell vid (NUM_COLS * (NUM_ROWS - 1) + i) 32 vm) vm.

(** The common body of [putc] and [put_key] on the page at [vid], the cursor at
    column [x] of row [y]: the new page and the new cursor. *)
Definition draw (vid c : Z) (vm : list Z) (x y : Z) : option (list Z * Z * Z) :=
  '(vm, x, y) ←
    (if (c =? 10) || (c =? 13) then Some (vm, 0, y + 1)
     else
       vm ← put_cell vid (NUM_COLS * y + x) c vm;
       let x := x + 1 in
       '(vm, x) ←
         (if (y =? NUM_ROWS - 1) && (NUM_COLS <=? x)
          then vm ← shift_screen vid vm; Some (vm, 0)
          else Some (vm, x));
       let y := Z.rem (y + Z.quot x NUM_COLS) NUM_ROWS in
       let x := Z.rem x NUM_COLS in
       Some (vm, x, y));
  if NUM_ROWS <=? y then vm ← shift_screen vid vm; Some (vm, x, NUM_ROWS - 1)
  else Some (vm, x, y).

Definition put_at (vid t c : Z) (con : console) : option console :=
  T ← (terminals con).[t];
  '(vm, x, y) ← draw vid c (vmem con) (cursor_x T) (cursor_y T);
  upd_term (con <| vmem := vm |>) t (fun T => T <| cursor_x := x |> <| cursor_y := y |>).

Definition putc (c : Z) (con : console) : option console :=
  con ← put_at (video_mem con) (ta con) c (con <| intr := false |>);
  Some (con <| intr := true |>).

Definition put_key (c : Z) (con : console) : option console :=
  put_at VIDEO (ts con) c con.

(** A store of [c] in the cell under the cursor of the shown terminal. *)
Definition put_under_cursor (c : Z) (con : console) : option console :=
  T ← (terminals con).[ts con];
  vm ← put_cell VIDEO (NUM_COLS * cursor_y T + cursor_x T) c (vmem con);
  Some (con <| vmem := vm |>).

Definition put_cursor : console -> option console := put_under_cursor 95.
Definition rem_cursor : console -> option console := put_under_cursor 32.

Definition check_cursor (con : console) : option console :=
  T ← (terminals con).[ts con];
  vm ← for_range (cursor_x T) (cursor_x T + 2)
         (fun i vm => put_cell VIDEO (NUM_COLS * cursor_y T + i) 32 vm) (vmem con);
  Some (con <| vmem := vm |>).

Definition remc (con : console) : option console :=
  T ← (terminals con).[ts con];
  if (cursor_y T =? 0) && (cursor_x T =? 0) then Some con
  else
    con ← upd_term con (ts con)
      (fun T => if cursor_x T =? 0
                then T <| cursor_y := cursor_y T - 1 |> <| cursor_x := NUM_COLS - 1 |>
                else T <| cursor_x := cursor_x T - 1 |>);
    put_under_cursor 32 con.

(** Every character of the page plus one, modulo 256. *)
Definition test_interrupts (con : console) : option console :=
  vm ← for_range 0 (NUM_ROWS * NUM_COLS) (fun i vm =>
         c ← ldb VIDEO vm (video_mem con + Z.shiftl i 1);
         stb VIDEO vm (video_mem con + Z.shiftl i 1) (u8 (c + 1))) (vmem con);
  Some (con <| vmem := vm |>).

(** ** Pages *)

Definition is_page (vid : Z) : Prop := exists n, 0 <= n <= 3 /\ vid = VIDEO + PAGE_BYTES * n.

(** The cells of a page, as a function of the cell's index. *)
Definition cells_are (vm : list Z) (vid : Z) (f : Z -> Z * Z) : Prop :=
  forall k, 0 <= k < NUM_ROWS * NUM_COLS ->
    vm.[vid - VIDEO + 2 * k] = Some (f k).1 /\ vm.[vid - VIDEO + 2 * k + 1] = Some (f k).2.

(** [vm'] differs from [vm] on the page [vid] only. *)
Definition same_outside (vid : Z) (vm vm' : list Z) : Prop :=
  length vm' = length vm /\
  forall a, a < vid - VIDEO \/ vid - VIDEO + PAGE_BYTES <= a -> vm'.[a] = vm.[a].

Definition blank : Z * Z := (32, ATTRIB).

Definition write_cells (f : Z -> Z * Z) (k : Z) (c : Z) : Z -> Z * Z :=
  fun i => if i =? k then (c, ATTRIB) else f i.

Definition scroll_cells (f : Z -> Z * Z) : Z -> Z * Z :=
  fun i => if i <? NUM_COLS * (NUM_ROWS - 1) then f (i + NUM_COLS) else blank.

Lemma same_outside_refl vid vm : same_outside vid vm vm.
Proof. done. Qed.

Lemma same_outside_trans vid vm1 vm2 vm3 :
  same_outside vid vm1 vm2 -> same_outside vid vm2 vm3 -> same_outside vid vm1 vm3.
Proof. intros [Hl1 H1] [Hl2 H2]. split; [lia|]. intros a Ha. by rewrite H2, H1. Qed.

#[export] Instance same_outside_preorder vid : PreOrder (same_outside vid).
Proof. split; [intros ?; apply same_outside_refl|intros ???; apply same_outside_trans]. Qed.

Lemma cells_are_ext vm vid f g :
  (forall k, 0 <= k < NUM_ROWS * NUM_COLS -> f k = g k) -> cells_are vm vid f -> cells_are vm vid g.
Proof. intros E H k Hk. rewrite <- E by done. by apply H. Qed.

Lemma shiftl_1 k : Z.shiftl k 1 = 2 * k.
Proof. rewrite Z.shiftl_mul_pow2 by lia. lia. Qed.

(** ** Lemmas *)

Section page.
Context (vid : Z) (Hvid : is_page vid).

Definition vm_ok (vm : list Z) : Prop := len vm = 4 * PAGE_BYTES.

(** Two consecutive byte stores in the page. *)
Lemma store_pair vm k a b :
  vm_ok vm -> 0 <= k < 2048 ->
  exists vm', (vm ← stb VIDEO vm (vid + 2 * k) a; stb VIDEO vm (vid + 2 * k + 1) b) = Some vm' /\
    same_outside vid vm vm' /\ vm_ok vm' /\
    vm'.[vid - VIDEO + 2 * k] = Some a /\ vm'.[vid - VIDEO + 2 * k + 1] = Some b /\
    (forall i, i <> vid - VIDEO + 2 * k -> i <> vid - VIDEO + 2 * k + 1 -> vm'.[i] = vm.[i]).
Proof.
  intros Hl Hk. destruct Hvid as (n & Hn & ->). unfold vm_ok, PAGE_BYTES in *.
  unfold stb. rewrite aset_Some by lia. cbn [mbind option_bind].
  rewrite aset_Some by (rewrite length_insert; lia). eexists; split; [done|].
  unfold same_outside, PAGE_BYTES. rewrite !length_insert. split_and!; try lia.
  - intros i Hi. by rewrite !aget_insert_ne by lia.
  - rewrite aget_insert_ne by lia. replace (VIDEO + 4096 * n - VIDEO + 2 * k)
      with (VIDEO + 4096 * n + 2 * k - VIDEO) by lia. apply aget_insert_eq. lia.
  - replace (VIDEO + 4096 * n - VIDEO + 2 * k + 1)
      with (VIDEO + 4096 * n + 2 * k + 1 - VIDEO) by lia.
    apply aget_insert_eq. rewrite length_insert. lia.
  - intros i Hi Hi'. by rewrite !aget_insert_ne by lia.
Qed.

Lemma put_cell_other vm k c :
  vm_ok vm -> 0 <= k < 2048 ->
  exists vm', put_cell vid k c vm = Some vm' /\ same_outside vid vm vm' /\ vm_ok vm' /\
    forall f, cells_are vm vid f -> cells_are vm' vid (write_cells f k c).
Proof.
  intros Hl Hk. unfold put_cell. rewrite shiftl_1.
  destruct (store_pair vm k c ATTRIB Hl Hk) as (vm' & -> & Hs & Hl' & H0 & H1 & Ho).
  exists vm'. split_and!; try done; try apply Hs. intros f Hf i Hi. unfold write_cells.
  destruct (Z.eqb_spec i k) as [->|Hne]; [done|]. rewrite !Ho by lia. by apply Hf.
Qed.

Lemma copy_cell_spec vm k k' f :
  vm_ok vm -> 0 <= k < k' -> k' < NUM_ROWS * NUM_COLS -> cells_are vm vid f ->
  exists vm', copy_cell vid k k' vm = Some vm' /\ same_outside vid vm vm' /\ vm_ok vm' /\
    cells_are vm' vid (fun i => if i =? k then f k' else f i).
Proof.
  intros Hl Hk Hk' Hf. unfold NUM_ROWS, NUM_COLS in *.
  destruct (Hf k' ltac:(unfold NUM_ROWS, NUM_COLS; lia)) as [Hc Ha].
  destruct (store_pair vm k (f k').1 (f k').2 Hl) as (vm' & E & Hs & Hl' & H0 & H1 & Ho); [lia|].
  exists vm'. split_and!; try done; try apply Hs.
  - assert (ldb VIDEO vm (vid + 2 * k') = Some (f k').1) as Hld.
    { unfold ldb. rewrite <- Hc. f_equal. lia. }
    unfold copy_cell, movb. rewrite !shiftl_1, Hld. cbn [mbind option_bind].
    destruct (stb VIDEO vm (vid + 2 * k) (f k').1) as [vm1|] eqn:E1; [|done].
    cbn [mbind option_bind] in *. unfold ldb, stb in *.
    rewrite (aget_aset_ne _ _ _ _ _ E1) by lia.
    replace (vid + 2 * k' + 1 - VIDEO) with (vid - VIDEO + 2 * k' + 1) by lia.
    rewrite Ha. exact E.
  - intros i Hi. destruct (Z.eqb_spec i k) as [->|Hne]; [done|]. rewrite !Ho by lia. by apply Hf.
Qed.

(** Row [j] moves up one row. *)
Lemma shift_row vm f j :
  vm_ok vm -> 1 <= j < NUM_ROWS ->
  cells_are vm vid (fun i => if i <? NUM_COLS * (j - 1) then f (i + NUM_COLS) else f i) ->
  exists vm', for_range 0 NUM_COLS (fun i vm =>
      copy_cell vid (NUM_COLS * (j - 1) + i) (NUM_COLS * j + i) vm) vm = Some vm' /\
    same_outside vid vm vm' /\ vm_ok vm' /\
    cells_are vm' vid (fun i => if i <? NUM_COLS * j then f (i + NUM_COLS) else f i).
Proof.
  intros Hl Hj Hf. unfold NUM_ROWS in Hj.
  destruct (for_range_ind (fun i v => same_outside vid vm v /\ vm_ok v /\
      cells_are v vid (fun q => if q <? NUM_COLS * (j - 1) + i then f (q + NUM_COLS) else f q))
    (fun i vm => copy_cell vid (NUM_COLS * (j - 1) + i) (NUM_COLS * j + i) vm) 0 NUM_COLS vm)
    as (vm' & E & Hs & Hl' & Hc).
  - unfold NUM_COLS. lia.
  - rewrite Z.add_0_r. done.
  - intros i v Hi (Hs & Hlv & Hc). unfold NUM_COLS in *.
    destruct (copy_cell_spec v (80 * (j - 1) + i) (80 * j + i) _ Hlv ltac:(lia)
      ltac:(unfold NUM_ROWS, NUM_COLS; lia) Hc) as (v' & Ev & Hs' & Hlv' & Hc').
    exists v'. split_and!; try done; [by etransitivity; eauto|]. 
    eapply cells_are_ext; [|exact Hc']. intros q Hq. cbv beta.
    repeat case_match; try lia; try done. f_equal. lia.
  - exists vm'. split_and!; try done; try apply Hs.
    eapply cells_are_ext; [|exact Hc]. intros q Hq. cbv beta.
    replace (NUM_COLS * (j - 1) + NUM_COLS) with (NUM_COLS * j) by (unfold NUM_COLS; lia). done.
Qed.

(** Drawing spaces over the cells from [lo] to [hi]. *)
Lemma put_spaces vm f lo (g : Z -> Z) n :
  vm_ok vm -> 0 <= lo -> lo + n <= 2048 -> 0 <= n -> cells_are vm vid f ->
  (forall i, g i = lo + i) ->
  exists vm', for_range 0 n (fun i vm => put_cell vid (g i) 32 vm) vm = Some vm' /\
    same_outside vid vm vm' /\ vm_ok vm' /\
    cells_are vm' vid (fun q => if (lo <=? q) && (q <? lo + n) then blank else f q).
Proof.
  intros Hl Hlo Hn Hn0 Hf Hg.
  destruct (for_range_ind (fun i v => same_outside vid vm v /\ vm_ok v /\
      cells_are v vid (fun q => if (lo <=? q) && (q <? lo + i) then blank else f q))
    (fun i vm => put_cell vid (g i) 32 vm) 0 n vm) as (vm' & E & Hs & Hl' & Hc).
  - done.
  - split_and!; try done. eapply cells_are_ext; [|exact Hf]. intros q Hq.
    repeat case_match; try done; lia.
  - intros i v Hi (Hs & Hlv & Hc). rewrite Hg.
    destruct (put_cell_other v (lo + i) 32 Hlv) as (v' & Ev & Hs' & Hlv' & Hc'); [lia|].
    exists v'. split_and!; try done; [by etransitivity; eauto|].
    eapply cells_are_ext; [|exact (Hc' _ Hc)]. intros q Hq. unfold write_cells, blank.
    repeat case_match; try lia; done.
  - by exists vm'.
Qed.

Lemma shift_screen_spec vm f :
  vm_ok vm -> cells_are vm vid f ->
  exists vm', shift_screen vid vm = Some vm' /\ same_outside vid vm vm' /\ vm_ok vm' /\
    cells_are vm' vid (scroll_cells f).
Proof.
  intros Hl Hf. unfold shift_screen.
  destruct (for_range_ind (fun j v => same_outside vid vm v /\ vm_ok v /\
      cells_are v vid (fun q => if q <? NUM_COLS * (j - 1) then f (q + NUM_COLS) else f q))
    (fun j vm => for_range 0 NUM_COLS (fun i vm =>
       copy_cell vid (NUM_COLS * (j - 1) + i) (NUM_COLS * j + i) vm) vm) 1 NUM_ROWS vm)
    as (vm1 & E & Hs & Hl1 & Hc).
  - unfold NUM_ROWS. lia.
  - split_and!; try done. eapply cells_are_ext; [|exact Hf]. intros q Hq.
    case_match; [lia|done].
  - intros j v Hj (Hs & Hlv & Hc). destruct (shift_row v f j Hlv Hj Hc) as (v' & Ev & Hs' & Hlv' & Hc').
    exists v'. split_and!; try done; [by etransitivity; eauto|].
    by replace (j + 1 - 1) with j by lia.
  - rewrite E. cbn [mbind option_bind].
    destruct (put_spaces vm1 _ (NUM_COLS * (NUM_ROWS - 1))
      (fun i => NUM_COLS * (NUM_ROWS - 1) + i) NUM_COLS Hl1 ltac:(done) ltac:(done) ltac:(done)
      Hc ltac:(done)) as (vm2 & E2 & Hs2 & Hl2 & Hc2).
    exists vm2. split_and!; try done; [by etransitivity; eauto|].
    eapply cells_are_ext; [|exact Hc2]. intros q Hq. unfold scroll_cells, NUM_COLS, NUM_ROWS in *.
    repeat case_match; try lia; done.
Qed.
End page.

(** ** The teletype *)

Record tty := mkTty { tape : Z -> Z * Z; pos : Z; top : Z }.

Definition tty_put (c : Z) (s : tty) : tty :=
  let '(f, p) :=
    if (c =? 10) || (c =? 13) then (tape s, NUM_COLS * (pos s / NUM_COLS + 1))
    else (write_cells (tape s) (pos s) c, pos s + 1) in
  mkTty f p (Z.max (top s) (p / NUM_COLS - (NUM_ROWS - 1))).

(** A byte stored in the page: the character or the attribute of a cell in the
    window; what is behind the last row is not shown. *)
Definition tty_poke (off c : Z) (s : tty) : tty :=
  if off <? 2 * NUM_COLS * NUM_ROWS then
    mkTty (fun i => if i =? NUM_COLS * top s + off / 2
                    then (if off mod 2 =? 0 then (c, (tape s i).2) else ((tape s i).1, c)) else tape s i)
      (pos s) (top s)
  else s.

(** The page and the cursor are the window of 25 rows from row [top s] on, and
    what is below the window is still blank. *)
Definition page_shows (s : tty) (vid : Z) (vm : list Z) (x y : Z) : Prop :=
  NUM_COLS * top s <= pos s < NUM_COLS * (top s + NUM_ROWS) /\
  (forall i, NUM_COLS * (top s + NUM_ROWS) <= i -> tape s i = blank) /\
  cells_are vm vid (fun k => tape s (NUM_COLS * top s + k)) /\
  x = pos s mod NUM_COLS /\ y = pos s / NUM_COLS - top s.

Lemma page_shows_range s vid vm x y : page_shows s vid vm x y -> 0 <= x < 80 /\ 0 <= y < 25.
Proof.
  unfold page_shows, NUM_COLS, NUM_ROWS. intros (Hp & _ & _ & -> & ->).
  Z.to_euclidean_division_equations. lia.
Qed.

(** Every page with a cursor on it is the window of some teletype. *)
Lemma page_shows_exists vid vm x y :
  is_page vid -> vm_ok vm -> 0 <= x < 80 -> 0 <= y < 25 -> exists s, page_shows s vid vm x y /\ top s = 0.
Proof.
  intros (n & Hn & ->) Hl Hx Hy. unfold vm_ok, PAGE_BYTES in *.
  set (byte a := default 0 (vm.[a])).
  exists (mkTty (fun i => if i <? 2000 then (byte (4096 * n + 2 * i), byte (4096 * n + 2 * i + 1))
                          else blank) (80 * y + x) 0).
  unfold page_shows. cbn [tape pos top]. unfold NUM_COLS, NUM_ROWS. split_and!; try done; try lia.
  - intros i Hi. destruct (Z.ltb_spec i 2000); [lia|done].
  - intros k Hk. unfold NUM_COLS, NUM_ROWS in Hk. unfold byte.
    replace (VIDEO + 4096 * n - VIDEO) with (4096 * n) by lia.
    replace (80 * 0 + k) with k by lia. destruct (Z.ltb_spec k 2000); [|lia]. cbn [fst snd].
    destruct (aget_is_Some vm (4096 * n + 2 * k)) as [? ->]; [lia|].
    destruct (aget_is_Some vm (4096 * n + 2 * k + 1)) as [? ->]; [lia|]. done.
  - Z.to_euclidean_division_equations. lia.
  - Z.to_euclidean_division_equations. lia.
Qed.

(** A byte store in the page. *)
Lemma poke_shows s vid vm x y off c :
  is_page vid -> vm_ok vm -> 0 <= off < PAGE_BYTES -> page_shows s vid vm x y ->
  exists vm', stb VIDEO vm (vid + off) c = Some vm' /\ same_outside vid vm vm' /\ vm_ok vm' /\
    page_shows (tty_poke off c s) vid vm' x y.
Proof.
  intros (n & Hn & ->) Hl Hoff Hs. unfold vm_ok, PAGE_BYTES in *. unfold stb.
  assert (0 <= VIDEO + 4096 * n + off - VIDEO < len vm) as Hin by lia. rewrite aset_Some by done.
  eexists; split; [done|]. split_and!.
  - split; [by rewrite length_insert|]. unfold PAGE_BYTES. intros a Ha. by rewrite aget_insert_ne by lia.
  - by rewrite length_insert.
  - destruct Hs as (Hp & Hb & Hf & Hx & Hy). unfold tty_poke.
    assert (forall k, 0 <= k < 2000 -> off <> 2 * k -> off <> 2 * k + 1 ->
      (<[Z.to_nat (VIDEO + 4096 * n + off - VIDEO) := c]> vm).[VIDEO + 4096 * n - VIDEO + 2 * k] =
        Some (tape s (NUM_COLS * top s + k)).1 /\
      (<[Z.to_nat (VIDEO + 4096 * n + off - VIDEO) := c]> vm).[VIDEO + 4096 * n - VIDEO + 2 * k + 1] =
        Some (tape s (NUM_COLS * top s + k)).2) as Hother.
    { intros k Hk H0 H1. rewrite !aget_insert_ne by lia. by apply Hf. }
    destruct (Z.ltb_spec off (2 * NUM_COLS * NUM_ROWS)) as [Hlt|Hge]; unfold NUM_COLS, NUM_ROWS in *.
    + unfold page_shows, NUM_COLS, NUM_ROWS. cbn [tape pos top].
      split; [done|]. split; [|split; [|done] ].
      * intros i Hi. rewrite (proj2 (Z.eqb_neq i _)) by (Z.to_euclidean_division_equations; lia). by apply Hb.
      * intros k Hk. unfold NUM_COLS, NUM_ROWS in *. pose proof (Z.div_mod off 2). pose proof (Z.mod_pos_bound off 2).
        destruct (Z.eqb_spec (80 * top s + k) (80 * top s + off / 2)) as [E|E]; [|apply Hother; lia].
        destruct (Hf k ltac:(unfold NUM_COLS, NUM_ROWS; lia)) as [Hc Ha].
        destruct (Z.eqb_spec (off mod 2) 0) as [E2|E2]; cbn [fst snd].
        -- replace (VIDEO + 4096 * n - VIDEO + 2 * k) with (VIDEO + 4096 * n + off - VIDEO) by lia.
           rewrite aget_insert_eq by lia. split; [done|]. rewrite aget_insert_ne by lia. rewrite <- Ha. f_equal. lia.
        -- rewrite aget_insert_ne by lia. split; [done|].
           replace (VIDEO + 4096 * n - VIDEO + 2 * k + 1) with (VIDEO + 4096 * n + off - VIDEO) by lia.
           by rewrite aget_insert_eq by lia.
    + split; [done|]. split; [done|]. split; [|done]. intros k Hk. unfold NUM_COLS, NUM_ROWS in *. apply Hother; lia.
Qed.

(** Scrolling the page moves the window down one row. *)
Lemma scroll_shows s vid vm vm' :
  (forall i, NUM_COLS * (top s + NUM_ROWS) <= i -> tape s i = blank) ->
  cells_are vm' vid (scroll_cells (fun k => tape s (NUM_COLS * top s + k))) ->
  cells_are vm vid (fun k => tape s (NUM_COLS * top s + k)) ->
  cells_are vm' vid (fun k => tape s (NUM_COLS * (top s + 1) + k)).
Proof.
  intros Hb Hs _. eapply cells_are_ext; [|exact Hs]. intros k Hk.
  unfold scroll_cells, NUM_COLS, NUM_ROWS in *. case_match.
  - f_equal. lia.
  - symmetry. apply Hb. lia.
Qed.

Lemma tape_window vid vm vm' s k c :
  cells_are vm vid (fun k => tape s (NUM_COLS * top s + k)) ->
  (forall f, cells_are vm vid f -> cells_are vm' vid (write_cells f k c)) ->
  NUM_COLS * top s + k = pos s ->
  cells_are vm' vid (fun k => write_cells (tape s) (pos s) c (NUM_COLS * top s + k)).
Proof.
  intros Hf Hw Hk. eapply cells_are_ext; [|exact (Hw _ Hf)]. intros i Hi. unfold write_cells.
  repeat case_match; try lia; done.
Qed.

Lemma draw_newline vid c vm x y s :
  is_page vid -> vm_ok vm -> page_shows s vid vm x y -> (c =? 10) || (c =? 13) = true ->
  exists vm' x' y', draw vid c vm x y = Some (vm', x', y') /\ same_outside vid vm vm' /\
    vm_ok vm' /\ page_shows (tty_put c s) vid vm' x' y'.
Proof.
  intros Hv Hl Hs Hc. pose proof (page_shows_range _ _ _ _ _ Hs) as [Hx Hy].
  destruct Hs as (Hp & Hb & Hf & Hxe & Hye). unfold draw, tty_put. rewrite Hc.
  cbn [mbind option_bind].
  assert (pos s = 80 * (top s + y) + x) as Hpos
    by (unfold NUM_COLS in *; Z.to_euclidean_division_equations; lia).
  assert (pos s / NUM_COLS = top s + y) as Hd by lia.
  assert (NUM_COLS * (top s + y + 1) / NUM_COLS = top s + y + 1) as Hd'
    by (unfold NUM_COLS; Z.to_euclidean_division_equations; lia).
  assert ((NUM_COLS * (top s + y + 1)) mod NUM_COLS = 0) as Hm'
    by (unfold NUM_COLS; Z.to_euclidean_division_equations; lia).
  destruct (Z.leb_spec NUM_ROWS (y + 1)) as [Hge|Hlt].
  - destruct (shift_screen_spec vid Hv vm _ Hl Hf) as (vm' & -> & Hs' & Hl' & Hc').
    cbn [mbind option_bind]. do 3 eexists. split_and!; try done; try apply Hs'.
    unfold NUM_ROWS in *. assert (y = 24) as -> by lia.
    unfold page_shows. cbn [tape pos top]. rewrite Hd, Hd', Hm'.
    replace (Z.max (top s) (top s + 24 + 1 - (25 - 1))) with (top s + 1) by lia.
    unfold NUM_ROWS. split_and!; try (unfold NUM_COLS; lia); try done.
    + intros i Hi. apply Hb. unfold NUM_COLS in *. lia.
    + by apply (scroll_shows s vid vm vm').
  - do 3 eexists. split_and!; try done. unfold NUM_ROWS in *.
    unfold page_shows. cbn [tape pos top]. rewrite Hd, Hd', Hm'.
    replace (Z.max (top s) (top s + y + 1 - (25 - 1))) with (top s) by lia.
    unfold NUM_ROWS, NUM_COLS in *. split_and!; try lia; try done.
Qed.

(** The window after the cursor has moved on to column [x] of row [y]: where it was,
    or further down with the cursor in its last row. *)
Lemma moved_shows f p t t' vid vm x y :
  0 <= x < 80 -> 0 <= y < 25 -> p = 80 * (t' + y) + x -> t = t' \/ (t < t' /\ y = 24) ->
  (forall i, NUM_COLS * (t' + NUM_ROWS) <= i -> f i = blank) -> cells_are vm vid (fun k => f (NUM_COLS * t' + k)) ->
  page_shows (mkTty f p (Z.max t (p / NUM_COLS - (NUM_ROWS - 1)))) vid vm x y.
Proof.
  intros Hx Hy Hp Ht Hb Hc. unfold NUM_COLS, NUM_ROWS in *.
  assert (p / 80 = t' + y /\ p mod 80 = x) as [Hd Hm] by (Z.to_euclidean_division_equations; lia).
  assert (Z.max t (p / 80 - (25 - 1)) = t') as -> by lia. unfold page_shows, NUM_COLS, NUM_ROWS. cbn [tape pos top].
  split_and!; done || lia.
Qed.

Lemma draw_char vid c vm x y s :
  is_page vid -> vm_ok vm -> page_shows s vid vm x y -> (c =? 10) || (c =? 13) = false ->
  exists vm' x' y', draw vid c vm x y = Some (vm', x', y') /\ same_outside vid vm vm' /\
    vm_ok vm' /\ page_shows (tty_put c s) vid vm' x' y'.
Proof.
  intros Hv Hl Hs Hc. pose proof (page_shows_range _ _ _ _ _ Hs) as [Hx Hy].
  destruct Hs as (Hp & Hb & Hf & Hxe & Hye). unfold draw, tty_put. rewrite Hc.
  assert (pos s = 80 * (top s + y) + x) as Hpos
    by (unfold NUM_COLS in *; Z.to_euclidean_division_equations; lia).
  destruct (put_cell_other vid Hv vm (NUM_COLS * y + x) c Hl)
    as (vm1 & -> & Hs1 & Hl1 & Hw1); [unfold NUM_COLS; lia|].
  cbn [mbind option_bind].
  pose proof (tape_window vid vm vm1 s _ c Hf Hw1 ltac:(unfold NUM_COLS; lia)) as Hf1.
  set (s1 := mkTty (write_cells (tape s) (pos s) c) (pos s) (top s)).
  assert (Hb1 : forall i, NUM_COLS * (top s + NUM_ROWS) <= i -> tape s1 i = blank).
  { intros i Hi. cbn [tape s1]. unfold write_cells. unfold NUM_COLS, NUM_ROWS in *.
    case_match; [lia|]. by apply Hb. }
  destruct (Z.eq_dec x 79) as [->|Hx79]; [destruct (Z.eq_dec y 24) as [->|Hy24]|].
  - cbn -[shift_screen Z.add Z.mul Z.div].
    destruct (shift_screen_spec vid Hv vm1 _ Hl1 Hf1) as (vm2 & -> & Hs2 & Hl2 & Hc2).
    cbn -[Z.add Z.mul Z.div Z.max]. do 3 eexists. split_and!; [done|by etransitivity; eauto|done|].
    change (Z.rem (24 + Z.quot 0 NUM_COLS) NUM_ROWS) with 24. change (Z.rem 0 NUM_COLS) with 0.
    apply (moved_shows _ _ _ (top s + 1)); try lia; [|exact (scroll_shows s1 vid vm1 vm2 Hb1 Hc2 Hf1)].
    intros i Hi. apply Hb1. cbn [top s1]. unfold NUM_COLS in *. lia.
  - replace (y =? NUM_ROWS - 1) with false by (symmetry; apply Z.eqb_neq; unfold NUM_ROWS; lia).
    cbn [andb mbind option_bind]. change (Z.quot (79 + 1) NUM_COLS) with 1.
    change (Z.rem (79 + 1) NUM_COLS) with 0.
    rewrite (Z.rem_small (y + 1)) by (unfold NUM_ROWS; lia).
    destruct (Z.leb_spec NUM_ROWS (y + 1)) as [?|_]; [unfold NUM_ROWS in *; lia|].
    do 3 eexists. split_and!; [done|apply Hs1|done|]. apply (moved_shows _ _ _ (top s)); try lia; [exact Hb1|exact Hf1].
  - replace (NUM_COLS <=? x + 1) with false by (symmetry; apply Z.leb_gt; unfold NUM_COLS; lia).
    rewrite andb_false_r. cbn [mbind option_bind].
    rewrite (Z.quot_small (x + 1)), (Z.rem_small (x + 1)) by (unfold NUM_COLS; lia).
    rewrite Z.add_0_r, (Z.rem_small y) by (unfold NUM_ROWS; lia).
    destruct (Z.leb_spec NUM_ROWS y) as [?|_]; [unfold NUM_ROWS in *; lia|].
    do 3 eexists. split_and!; [done|apply Hs1|done|]. apply (moved_shows _ _ _ (top s)); try lia; [exact Hb1|exact Hf1].
Qed.

Lemma draw_spec vid c vm x y s :
  is_page vid -> vm_ok vm -> page_shows s vid vm x y ->
  exists vm' x' y', draw vid c vm x y = Some (vm', x', y') /\ same_outside vid vm vm' /\
    vm_ok vm' /\ page_shows (tty_put c s) vid vm' x' y'.
Proof.
  intros Hv Hl Hs. destruct ((c =? 10) || (c =? 13)) eqn:Hc;
    eauto using draw_newline, draw_char.
Qed.

(** Rubbing out the last character, drawing under the cursor, clearing. *)
Definition tty_rub (s : tty) : tty :=
  if pos s =? NUM_COLS * top s then s
  else mkTty (write_cells (tape s) (pos s - 1) 32) (pos s - 1) (top s).

Definition tty_mark (c : Z) (s : tty) : tty :=
  mkTty (write_cells (tape s) (pos s) c) (pos s) (top s).

Definition tty_unmark (s : tty) : tty :=
  mkTty (write_cells (write_cells (tape s) (pos s) 32) (pos s + 1) 32) (pos s) (top s).

Definition tty_clear : tty := mkTty (fun _ => blank) 0 0.

(** The operations other components call on the console. *)
Inductive console_op :=
| Putc (c : Z)
| PutKey (c : Z)
| PutCursor
| RemCursor
| CheckCursor
| Remc
| ClearScreen.

Definition run_op (o : console_op) : console -> option console :=
  match o with
  | Putc c => putc c
  | PutKey c => put_key c
  | PutCursor => put_cursor
  | RemCursor => rem_cursor
  | CheckCursor => check_cursor
  | Remc => remc
  | ClearScreen => clear_screen
  end.

Definition tty_op (o : console_op) (s : tty) : tty :=
  match o with
  | Putc c | PutKey c => tty_put c s
  | PutCursor => tty_mark 95 s
  | RemCursor => tty_mark 32 s
  | CheckCursor => tty_unmark s
  | Remc => tty_rub s
  | ClearScreen => tty_clear
  end.

(** [Putc] draws for the running terminal, every other operation for the one
    on the screen. *)
Definition op_page (o : console_op) (con : console) : Z :=
  match o with Putc _ => video_mem con | _ => VIDEO end.
Definition op_term (o : console_op) (con : console) : Z :=
  match o with Putc _ => ta con | _ => ts con end.

Fixpoint run_ops (os : list console_op) (con : console) : option console :=
  match os with
  | [] => Some con
  | o :: os => con ← run_op o con; run_ops os con
  end.

(** ** The invariant of the console *)

Definition term_ok (T : term_t) : Prop :=
  0 <= cursor_x T < NUM_COLS /\ 0 <= cursor_y T < NUM_ROWS.

Record wf_console (con : console) : Prop := {
  wf_vmem : vm_ok (vmem con);
  wf_video_mem : is_page (video_mem con);
  wf_terminals : len (terminals con) = NUM_TERMS;
  wf_cursors : Forall term_ok (terminals con);
  wf_ts : 0 <= ts con < NUM_TERMS;
  wf_ta : 0 <= ta con < NUM_TERMS;
}.

Definition shows (con : console) (vid t : Z) (s : tty) : Prop :=
  exists T, (terminals con).[t] = Some T /\
    page_shows s vid (vmem con) (cursor_x T) (cursor_y T).

(** Nothing changed but the page [vid] and the cursor of terminal [t]. *)
Definition touches (vid t : Z) (con con' : console) : Prop :=
  same_outside vid (vmem con) (vmem con') /\
  (exists T x y, (terminals con).[t] = Some T /\
     (terminals con).[t := T <| cursor_x := x |> <| cursor_y := y |>] = Some (terminals con')) /\
  video_mem con' = video_mem con /\ ts con' = ts con /\ ta con' = ta con.

Lemma is_page_VIDEO : is_page VIDEO.
Proof. exists 0. unfold VIDEO, PAGE_BYTES. lia. Qed.

Lemma term_exists con t : wf_console con -> 0 <= t < NUM_TERMS ->
  exists T, (terminals con).[t] = Some T /\ term_ok T.
Proof.
  intros W Ht. destruct (aget_is_Some (terminals con) t) as [T HT];
    [rewrite (wf_terminals _ W); lia|].
  exists T. split; [done|]. eapply aget_Forall; [apply (wf_cursors _ W)|done].
Qed.

Lemma shows_exists con vid t :
  wf_console con -> is_page vid -> 0 <= t < NUM_TERMS -> exists s, shows con vid t s.
Proof.
  intros W Hv Ht. destruct (term_exists con t W Ht) as (T & HT & Hx & Hy).
  unfold NUM_COLS, NUM_ROWS in *.
  destruct (page_shows_exists vid (vmem con) (cursor_x T) (cursor_y T) Hv (wf_vmem _ W) Hx Hy)
    as (s & Hs & _). exists s, T. done.
Qed.

(** How every operation is proved: the new page and cursor show the new
    teletype, and the rest of the console is the old one. *)
Lemma touch con t T vm' x y vid s :
  wf_console con -> (terminals con).[t] = Some T ->
  same_outside vid (vmem con) vm' -> page_shows s vid vm' x y ->
  exists con', upd_term (con <| vmem := vm' |>) t (fun T => T <| cursor_x := x |> <| cursor_y := y |>)
      = Some con' /\
    wf_console con' /\ touches vid t con con' /\ shows con' vid t s.
Proof.
  intros W HT Hso Hs. pose proof (aget_range _ _ _ HT) as Hr.
  pose proof (page_shows_range _ _ _ _ _ Hs) as Hxy.
  unfold upd_term. cbn [terminals vmem update_field]. rewrite HT. cbn [mbind option_bind].
  pose proof (aset_Some (terminals con) t (T <| cursor_x := x |> <| cursor_y := y |>) Hr) as E.
  unfold update_field in *. rewrite E. cbn [mbind option_bind].
  eexists; split; [done|]. split_and!.
  - destruct W. split; cbn; try done.
    + unfold vm_ok in *. destruct Hso as [-> _]. done.
    + by rewrite length_insert.
    + apply Forall_insert; [done|]. unfold term_ok, NUM_COLS, NUM_ROWS. cbn. lia.
  - split_and!; try done. by exists T, x, y.
  - eexists. cbn [terminals]. split; [by apply aget_insert_eq|]. done.
Qed.

Lemma touch_page con t T vm' vid s :
  wf_console con -> (terminals con).[t] = Some T ->
  same_outside vid (vmem con) vm' -> page_shows s vid vm' (cursor_x T) (cursor_y T) ->
  wf_console (con <| vmem := vm' |>) /\ touches vid t con (con <| vmem := vm' |>) /\
  shows (con <| vmem := vm' |>) vid t s.
Proof.
  intros W HT Hso Hs. pose proof (aget_range _ _ _ HT) as Hr. split_and!.
  - destruct W. split; cbn; try done. unfold vm_ok in *. destruct Hso as [-> _]. done.
  - split_and!; try done. exists T, (cursor_x T), (cursor_y T). split; [done|].
    rewrite aset_Some by done. f_equal. cbn. apply list_insert_id.
    rewrite <- aget_nat, Z2Nat.id by lia. rewrite HT. by destruct T.
  - by exists T.
Qed.

Lemma mark_shows s vid vm x y c :
  is_page vid -> vm_ok vm -> page_shows s vid vm x y ->
  exists vm', put_cell vid (NUM_COLS * y + x) c vm = Some vm' /\ same_outside vid vm vm' /\
    vm_ok vm' /\ page_shows (tty_mark c s) vid vm' x y.
Proof.
  intros Hv Hl Hs. pose proof (page_shows_range _ _ _ _ _ Hs) as [Hx Hy].
  destruct Hs as (Hp & Hb & Hf & Hxe & Hye).
  destruct (put_cell_other vid Hv vm (NUM_COLS * y + x) c Hl)
    as (vm1 & -> & Hs1 & Hl1 & Hw1); [unfold NUM_COLS; lia|].
  assert (NUM_COLS * top s + (NUM_COLS * y + x) = pos s) as Hpos
    by (unfold NUM_COLS in *; Z.to_euclidean_division_equations; lia).
  exists vm1. split_and!; try done; try apply Hs1.
  unfold page_shows, tty_mark. cbn [tape pos top]. split_and!; try done; try lia.
  - intros i Hi. unfold write_cells. case_match; [lia|]. by apply Hb.
  - by apply (tape_window vid vm vm1 s _ c Hf Hw1).
Qed.

Lemma put_at_spec con vid t c s :
  wf_console con -> is_page vid -> shows con vid t s ->
  exists con', put_at vid t c con = Some con' /\
    wf_console con' /\ touches vid t con con' /\ shows con' vid t (tty_put c s).
Proof.
  intros W Hv (T & HT & Hs). unfold put_at. rewrite HT. cbn [mbind option_bind].
  destruct (draw_spec vid c (vmem con) _ _ s Hv (wf_vmem _ W) Hs) as (vm' & x' & y' & -> & Hso & _ & Hs').
  cbn [mbind option_bind]. by apply (touch con t T vm' x' y' vid).
Qed.

Lemma put_under_cursor_spec con c s :
  wf_console con -> shows con VIDEO (ts con) s ->
  exists con', put_under_cursor c con = Some con' /\
    wf_console con' /\ touches VIDEO (ts con) con con' /\ shows con' VIDEO (ts con) (tty_mark c s).
Proof.
  intros W (T & HT & Hs). unfold put_under_cursor. rewrite HT. cbn [mbind option_bind].
  destruct (mark_shows s VIDEO (vmem con) _ _ c is_page_VIDEO (wf_vmem _ W) Hs)
    as (vm' & -> & Hso & _ & Hs'). cbn [mbind option_bind].
  eexists; split; [done|]. by apply (touch_page con (ts con) T).
Qed.

Lemma check_cursor_spec con s :
  wf_console con -> shows con VIDEO (ts con) s ->
  exists con', check_cursor con = Some con' /\
    wf_console con' /\ touches VIDEO (ts con) con con' /\ shows con' VIDEO (ts con) (tty_unmark s).
Proof.
  intros W (T & HT & Hs). unfold check_cursor. rewrite HT. cbn [mbind option_bind].
  pose proof (page_shows_range _ _ _ _ _ Hs) as [Hx Hy].
  destruct Hs as (Hp & Hb & Hf & Hxe & Hye).
  set (x := cursor_x T) in *. set (y := cursor_y T) in *.
  assert (for_range x (x + 2) (fun i vm => put_cell VIDEO (NUM_COLS * y + i) 32 vm) (vmem con) =
    for_range 0 2 (fun i vm => put_cell VIDEO (NUM_COLS * y + (x + i)) 32 vm) (vmem con)) as ->.
  { unfold for_range. replace (x + 2 - x) with 2 by lia. change (Z.to_nat (2 - 0)) with 2%nat.
    change (Z.to_nat 2) with 2%nat. rewrite !for_up_S. by rewrite Z.add_0_r. }
  destruct (put_spaces VIDEO is_page_VIDEO (vmem con) _ (NUM_COLS * y + x)
    (fun i => NUM_COLS * y + (x + i)) 2 (wf_vmem _ W)
    ltac:(unfold NUM_COLS; lia) ltac:(unfold NUM_COLS; lia) ltac:(lia) Hf ltac:(intros; cbv beta; lia))
    as (vm' & -> & Hso & _ & Hc). cbn [mbind option_bind].
  eexists; split; [done|]. apply (touch_page con (ts con) T); try done.
  assert (NUM_COLS * top s + (NUM_COLS * y + x) = pos s) as Hpos
    by (unfold NUM_COLS in *; Z.to_euclidean_division_equations; lia).
  unfold page_shows, tty_unmark. cbn [tape pos top]. split_and!; try done; try lia.
  - intros i Hi. unfold write_cells. repeat case_match; try done. by apply Hb.
  - eapply cells_are_ext; [|exact Hc]. intros k Hk. unfold write_cells.
    repeat case_match; try done; lia.
Qed.

(** The cursor one cell back. *)
Lemma rub_cursor s vid vm T :
  page_shows s vid vm (cursor_x T) (cursor_y T) -> (cursor_y T =? 0) && (cursor_x T =? 0) = false ->
  let T' := if cursor_x T =? 0
            then T <| cursor_y := cursor_y T - 1 |> <| cursor_x := NUM_COLS - 1 |>
            else T <| cursor_x := cursor_x T - 1 |> in
  page_shows (mkTty (tape s) (pos s - 1) (top s)) vid vm (cursor_x T') (cursor_y T') /\
  T' = T <| cursor_x := cursor_x T' |> <| cursor_y := cursor_y T' |> /\
  pos s <> NUM_COLS * top s.
Proof.
  intros Hs Hne. pose proof (page_shows_range _ _ _ _ _ Hs) as [Hx Hy].
  destruct Hs as (Hp & Hb & Hf & Hxe & Hye). unfold NUM_COLS, NUM_ROWS in *.
  assert (pos s = 80 * (top s + cursor_y T) + cursor_x T) as Hpos
    by (Z.to_euclidean_division_equations; lia).
  apply andb_false_iff in Hne. rewrite !Z.eqb_neq in Hne. cbv zeta. split_and!; [| |lia].
  - unfold page_shows, NUM_COLS, NUM_ROWS. cbn [tape pos top].
    split_and!; try done; try lia; destruct (Z.eqb_spec (cursor_x T) 0); cbn;
      Z.to_euclidean_division_equations; lia.
  - by destruct (Z.eqb_spec (cursor_x T) 0).
Qed.

Lemma remc_spec con s :
  wf_console con -> shows con VIDEO (ts con) s ->
  exists con', remc con = Some con' /\
    wf_console con' /\ touches VIDEO (ts con) con con' /\ shows con' VIDEO (ts con) (tty_rub s).
Proof.
  intros W (T & HT & Hs). unfold remc. rewrite HT. cbn [mbind option_bind].
  unfold tty_rub. destruct ((cursor_y T =? 0) && (cursor_x T =? 0)) eqn:E0.
  - apply andb_true_iff in E0 as [Hy%Z.eqb_eq Hx%Z.eqb_eq].
    assert (pos s = NUM_COLS * top s) as Hpos.
    { destruct Hs as (Hp & _ & _ & ? & ?). unfold NUM_COLS, NUM_ROWS in *.
      Z.to_euclidean_division_equations. lia. }
    rewrite Hpos, Z.eqb_refl. exists con. split; [done|].
    assert (con = con <| vmem := vmem con |>) as E by (by destruct con). rewrite E at 1 3 4.
    by apply (touch_page con (ts con) T).
  - destruct (rub_cursor s VIDEO (vmem con) T Hs E0) as (Hs' & HT' & Hpos).
    rewrite (proj2 (Z.eqb_neq _ _) Hpos).
    set (T' := if cursor_x T =? 0 then _ else _) in *.
    destruct (mark_shows _ VIDEO (vmem con) _ _ 32 is_page_VIDEO (wf_vmem _ W) Hs')
      as (vm' & Hpc & Hso & _ & Hs'').
    destruct (touch con (ts con) T vm' (cursor_x T') (cursor_y T') VIDEO _ W HT Hso Hs'')
      as (con' & E & H). exists con'. split; [|exact H]. clear H.
    unfold upd_term in *. cbn [terminals vmem update_field ts] in *.
    rewrite HT in *. cbn [mbind option_bind] in *. fold T'. rewrite HT' at 1.
    pose proof (aget_range _ _ _ HT) as Hr. rewrite aset_Some in * by done.
    cbn [mbind option_bind] in *. unfold put_under_cursor. cbn [terminals ts vmem update_field].
    rewrite aget_insert_eq by done. cbn [mbind option_bind]. unfold update_field in *.
    cbn [cursor_x cursor_y] in *. rewrite Hpc. cbn [mbind option_bind]. rewrite <- E. done.
Qed.

Lemma blank_shows s vid vm vm' x y :
  page_shows s vid vm x y -> cells_are vm' vid (fun _ => blank) ->
  page_shows tty_clear vid vm' 0 0.
Proof.
  intros Hs Hc. unfold page_shows, tty_clear. cbn [tape pos top].
  unfold NUM_COLS, NUM_ROWS. split_and!; try done; lia.
Qed.

Lemma clear_screen_spec con s :
  wf_console con -> shows con VIDEO (ts con) s ->
  exists con', clear_screen con = Some con' /\
    wf_console con' /\ touches VIDEO (ts con) con con' /\ shows con' VIDEO (ts con) tty_clear.
Proof.
  intros W (T & HT & Hs). unfold clear_screen, clear.
  pose proof Hs as (_ & _ & Hf & _).
  destruct (put_spaces VIDEO is_page_VIDEO (vmem con) _ 0 (fun i => i) (NUM_ROWS * NUM_COLS)
    (wf_vmem _ W) ltac:(lia) ltac:(unfold NUM_COLS, NUM_ROWS; lia)
    ltac:(unfold NUM_COLS, NUM_ROWS; lia) Hf ltac:(intros; cbv beta; lia))
    as (vm' & -> & Hso & _ & Hc). cbn [mbind option_bind].
  apply (touch con (ts con) T vm' 0 0 VIDEO); try done.
  eapply blank_shows; [done|]. eapply cells_are_ext; [|exact Hc]. intros k Hk. cbv beta.
  repeat case_match; try done; lia.
Qed.

(** [test_interrupts] steps the characters of the page [putc] draws on and leaves the
    attributes and everything else. *)
Lemma test_interrupts_spec con f :
  is_page (video_mem con) -> len (vmem con) = 4 * PAGE_BYTES -> cells_are (vmem con) (video_mem con) f ->
  exists vm, test_interrupts con = Some (con <| vmem := vm |>) /\ same_outside (video_mem con) (vmem con) vm /\
    cells_are vm (video_mem con) (fun k => (u8 ((f k).1 + 1), (f k).2)).
Proof.
  intros (n & Hn & Hv) Hl Hf. unfold test_interrupts, PAGE_BYTES, NUM_ROWS, NUM_COLS in *.
  destruct (for_range_ind (fun i vm => same_outside (video_mem con) (vmem con) vm /\
      cells_are vm (video_mem con) (fun k => if k <? i then (u8 ((f k).1 + 1), (f k).2) else f k))
    (fun i vm => c ← ldb VIDEO vm (video_mem con + Z.shiftl i 1);
       stb VIDEO vm (video_mem con + Z.shiftl i 1) (u8 (c + 1))) 0 (25 * 80) (vmem con)) as (vm & -> & Hs & Hc).
  - lia.
  - split; [apply same_outside_refl|]. eapply cells_are_ext; [|exact Hf]. intros k Hk. by rewrite (proj2 (Z.ltb_ge k 0)) by lia.
  - intros i vm Hi [ [Hlen Ho] Hc]. rewrite shiftl_1. unfold ldb, stb.
    replace (video_mem con + 2 * i - VIDEO) with (video_mem con - VIDEO + 2 * i) by lia.
    destruct (Hc i Hi) as [-> _]. rewrite Z.ltb_irrefl. cbn [mbind option_bind].
    rewrite aset_Some by lia. eexists. split; [reflexivity|]. split; [split|].
    + by rewrite length_insert.
    + intros a Ha. unfold PAGE_BYTES in Ha. rewrite aget_insert_ne by lia. by apply Ho.
    + intros k Hk. destruct (Hc k Hk) as [Hc1 Hc2]. rewrite (aget_insert_ne _ _ (video_mem con - VIDEO + 2 * k + 1)) by lia.
      rewrite Hc2. destruct (Z.eq_dec k i) as [->|Hne].
      * rewrite aget_insert_eq by lia. by rewrite Z.ltb_irrefl, (proj2 (Z.ltb_lt i (i + 1))) by lia.
      * rewrite aget_insert_ne, Hc1 by lia. destruct (Z.ltb_spec k i), (Z.ltb_spec k (i + 1)); try lia; done.
  - exists vm. split; [done|]. split; [done|]. eapply cells_are_ext; [|exact Hc]. intros k Hk. cbn beta.
    by rewrite (proj2 (Z.ltb_lt _ _)) by (unfold NUM_ROWS, NUM_COLS in Hk; lia).
Qed.

Lemma touches_intr vid t con con' b :
  touches vid t (con <| intr := b |>) con' -> touches vid t con (con' <| intr := true |>).
Proof. by destruct con. Qed.

(** Every operation does to the page it draws on what its teletype operation
    says, and touches nothing else. *)
Lemma run_op_spec con o s :
  wf_console con -> shows con (op_page o con) (op_term o con) s ->
  exists con', run_op o con = Some con' /\ wf_console con' /\
    touches (op_page o con) (op_term o con) con con' /\
    shows con' (op_page o con) (op_term o con) (tty_op o s).
Proof.
  intros W Hs. destruct o; cbn [run_op op_page op_term tty_op] in *.
  - unfold putc. destruct (put_at_spec (con <| intr := false |>) (video_mem con) (ta con) c s)
      as (con' & E & W' & Ht & Hs'); [by destruct W; split|apply (wf_video_mem _ W)|done|].
    cbn [video_mem ta update_field] in E |- *. unfold update_field in E |- *. cbn [video_mem ta].
    rewrite E. cbn [mbind option_bind]. eexists; split; [done|]. split_and!.
    + by destruct W'; split.
    + by apply touches_intr in Ht.
    + done.
  - apply put_at_spec; try done. apply is_page_VIDEO.
  - by apply put_under_cursor_spec.
  - by apply put_under_cursor_spec.
  - by apply check_cursor_spec.
  - by apply remc_spec.
  - by apply clear_screen_spec with (s := s).
Qed.

Lemma shows_untouched con con' vid t vid' t' s' :
  is_page vid -> is_page vid' -> vid <> vid' -> t <> t' ->
  touches vid t con con' -> shows con vid' t' s' -> shows con' vid' t' s'.
Proof.
  intros (n & Hn & ->) (n' & Hn' & ->) Hne Htne ((_ & Hso) & (T & x & y & _ & HT') & _)
    (T' & HT2 & Hs).
  exists T'. rewrite (aget_aset_ne _ _ _ _ _ HT') by done. split; [done|].
  destruct Hs as (Hp & Hb & Hf & Hxe & Hye). split_and!; try done; try lia.
  intros k Hk. unfold NUM_COLS, NUM_ROWS, PAGE_BYTES in *. rewrite !Hso by lia. by apply Hf.
Qed.

Lemma touches_terms vid t con con' :
  touches vid t con con' ->
  video_mem con' = video_mem con /\ ts con' = ts con /\ ta con' = ta con.
Proof. by intros (_ & _ & ?). Qed.

Definition is_putc (o : console_op) : bool := match o with Putc _ => true | _ => false end.

(** The operations on one of the two displays, in their order. *)
Definition tty_ops (p : console_op -> bool) (os : list console_op) (s : tty) : tty :=
  foldl (fun s o => tty_op o s) s (filter (fun o => p o = true) os).

(** The running terminal is not on the screen and draws on its own page. *)
Definition background (con : console) : Prop := ts con <> ta con /\ video_mem con <> VIDEO.

(** The running terminal is on the screen and draws there. *)
Definition foreground (con : console) : Prop := ts con = ta con /\ video_mem con = VIDEO.

(** A cleared console of three terminals, [tsh] on the screen and [tac] running. *)
Definition sample_console (vid tsh tac : Z) : console :=
  mkConsole (replicate (Z.to_nat 16384) 0) vid (replicate 3 (mkTerm 7 1 0 0 0 (replicate 128 0) 0)) tsh tac true.

Lemma sample_console_wf vid tsh tac :
  is_page vid -> 0 <= tsh < 3 -> 0 <= tac < 3 -> wf_console (sample_console vid tsh tac).
Proof.
  intros Hv Hs Ha. split; [|done|done| |done|done].
  - unfold vm_ok, PAGE_BYTES, sample_console, vmem. rewrite length_replicate. lia.
  - cbn. repeat constructor; unfold NUM_COLS, NUM_ROWS; cbn; lia.
Qed.

Lemma shows_tape con vid t s f :
  (forall i, f i = tape s i) -> shows con vid t s -> shows con vid t (mkTty f (pos s) (top s)).
Proof.
  intros E (T & HT & Hp & Hb & Hf & Hx & Hy). exists T. split; [done|].
  unfold page_shows. cbn [tape pos top]. split_and!; try done; try lia.
  - intros i Hi. rewrite E. by apply Hb.
  - eapply cells_are_ext; [|exact Hf]. intros k Hk. by rewrite E.
Qed.

Lemma run_ops_app os1 os2 con :
  run_ops (os1 ++ os2) con = con ← run_ops os1 con; run_ops os2 con.
Proof.
  revert con. induction os1 as [|o os1 IH]; intros con; [done|]. cbn [app run_ops].
  destruct (run_op o con); [apply IH|done].
Qed.

Lemma run_ops_background os : forall con k p,
  wf_console con -> background con ->
  shows con VIDEO (ts con) k -> shows con (video_mem con) (ta con) p ->
  exists con', run_ops os con = Some con' /\ wf_console con' /\ background con' /\
    shows con' VIDEO (ts con) (tty_ops (fun o => negb (is_putc o)) os k) /\
    shows con' (video_mem con) (ta con) (tty_ops is_putc os p).
Proof.
  induction os as [|o os IH]; intros con k p W [Ht Hv] Hk Hp; [by exists con|].
  assert (exists con1, run_op o con = Some con1 /\ wf_console con1 /\
    touches (op_page o con) (op_term o con) con con1 /\
    shows con1 VIDEO (ts con) (if is_putc o then k else tty_op o k) /\
    shows con1 (video_mem con) (ta con) (if is_putc o then tty_op o p else p))
    as (con1 & E & W1 & Htch & Hk1 & Hp1).
  { pose proof (shows_untouched con) as Hu. pose proof (wf_video_mem _ W). pose proof is_page_VIDEO.
    destruct (is_putc o) eqn:Eo.
    - destruct o; try done. destruct (run_op_spec con (Putc c) p W Hp) as (con1 & E & W1 & Htch & Hs).
      exists con1. split_and!; try done. by apply (Hu con1 (video_mem con) (ta con)).
    - assert (op_page o con = VIDEO /\ op_term o con = ts con) as [Ep Et] by (by destruct o).
      rewrite Ep, Et. destruct (run_op_spec con o k W) as (con1 & E & W1 & Htch & Hs);
        rewrite Ep, Et in *; [done|].
      exists con1. split_and!; try done. apply (Hu con1 VIDEO (ts con)); congruence. }
  destruct (touches_terms _ _ _ _ Htch) as (Ev & Ets & Eta).
  cbn [run_ops]. rewrite E. cbn [mbind option_bind].
  rewrite <- Ets, <- Eta in Ht. rewrite <- Ev in Hv. rewrite <- Ets in Hk1.
  rewrite <- Ev, <- Eta in Hp1.
  destruct (IH con1 _ _ W1 (conj Ht Hv) Hk1 Hp1) as (con' & E' & W' & Hb & Hk' & Hp').
  rewrite Ets in Hk'. rewrite Ev, Eta in Hp'.
  exists con'. split_and!; try done.
  - unfold tty_ops in *. rewrite filter_cons. by destruct (is_putc o).
  - unfold tty_ops in *. rewrite filter_cons. by destruct (is_putc o).
Qed.

Lemma run_ops_foreground os : forall con s,
  wf_console con -> foreground con -> shows con VIDEO (ts con) s ->
  exists con', run_ops os con = Some con' /\ wf_console con' /\ foreground con' /\
    shows con' VIDEO (ts con) (foldl (fun s o => tty_op o s) s os).
Proof.
  induction os as [|o os IH]; intros con s W [Ht Hv] Hs; [by exists con|].
  assert (op_page o con = VIDEO /\ op_term o con = ts con) as [Ep Et] by (by destruct o).
  destruct (run_op_spec con o s W) as (con1 & E & W1 & Htch & Hs1); rewrite Ep, Et in *; [done|].
  destruct (touches_terms _ _ _ _ Htch) as (Ev & Ets & Eta).
  cbn [run_ops]. rewrite E. cbn [mbind option_bind]. rewrite <- Ets in Hs1.
  destruct (IH con1 (tty_op o s) W1) as (con' & E' & W' & Hf & Hs'); try done.
  { split; congruence. }
  exists con'. rewrite Ets in Hs'. done.
Qed.

(** ** Properties *)

(** C28: the console is two independent teletypes while the running terminal is
    in the background: however a program's output ([putc]) and the keyboard's
    echo and editing are interleaved, no operation faults, the invariant holds,
    the screen shows exactly what the keyboard's operations typed and the
    backing page exactly what the program printed, each in its order. *)
Theorem background_displays_independent os con k p :
  wf_console con -> background con ->
  shows con VIDEO (ts con) k -> shows con (video_mem con) (ta con) p ->
  exists con', run_ops os con = Some con' /\ wf_console con' /\ background con' /\
    shows con' VIDEO (ts con) (tty_ops (fun o => negb (is_putc o)) os k) /\
    shows con' (video_mem con) (ta con) (tty_ops is_putc os p).
Proof. apply run_ops_background. Qed.

Lemma background_displays_independent_witness :
  let con := sample_console TERM_2_VID 0 1 in
  exists k p con', shows con VIDEO 0 k /\ shows con TERM_2_VID 1 p /\
    run_ops [Putc 65; PutKey 108; Putc 10; Remc] con = Some con' /\
    shows con' VIDEO 0 (tty_rub (tty_put 108 k)) /\
    shows con' TERM_2_VID 1 (tty_put 10 (tty_put 65 p)).
Proof.
  intros con. assert (is_page TERM_2_VID) as Hv by (exists 2; unfold TERM_2_VID, VIDEO, PAGE_BYTES; lia).
  assert (wf_console con) as W by (apply sample_console_wf; [done|lia|lia]).
  destruct (shows_exists con VIDEO 0 W is_page_VIDEO) as [k Hk]; [unfold NUM_TERMS; lia|].
  destruct (shows_exists con TERM_2_VID 1 W Hv) as [p Hp]; [unfold NUM_TERMS; lia|].
  destruct (background_displays_independent [Putc 65; PutKey 108; Putc 10; Remc] con k p)
    as (con' & E & _ & _ & Hk' & Hp'); [exact W|split; discriminate|exact Hk|exact Hp|].
  exists k, p, con'. exact (conj Hk (conj Hp (conj E (conj Hk' Hp')))).
Defined.

(** While the running terminal is the one on the screen, output, echo and
    editing all go to one teletype, in the order in which they happen. *)
Theorem foreground_display_serial os con s :
  wf_console con -> foreground con -> shows con VIDEO (ts con) s ->
  exists con', run_ops os con = Some con' /\ wf_console con' /\ foreground con' /\
    shows con' VIDEO (ts con) (foldl (fun s o => tty_op o s) s os).
Proof. apply run_ops_foreground. Qed.

Lemma foreground_display_serial_witness :
  let con := sample_console VIDEO 1 1 in
  exists s con', shows con VIDEO 1 s /\ run_ops [Putc 65; PutKey 108; CheckCursor] con = Some con' /\
    shows con' VIDEO 1 (tty_unmark (tty_put 108 (tty_put 65 s))).
Proof.
  intros con. assert (wf_console con) as W
    by (apply sample_console_wf; [apply is_page_VIDEO|lia|lia]).
  destruct (shows_exists con VIDEO 1 W is_page_VIDEO) as [s Hs]; [unfold NUM_TERMS; lia|].
  destruct (foreground_display_serial [Putc 65; PutKey 108; CheckCursor] con s)
    as (con' & E & _ & _ & Hs'); [exact W|split; reflexivity|exact Hs|].
  exists s, con'. exact (conj Hs (conj E Hs')).
Defined.

(** rubbing out a typed character undoes it, at the end of a row and after
    a scroll too: the cursor's position on the tape is the old one and every
    cell holds what it held, when the cell under the cursor was blank. *)
Theorem remc_undoes_put_key con s c :
  wf_console con -> shows con VIDEO (ts con) s -> tape s (pos s) = blank ->
  c <> 10 -> c <> 13 ->
  exists con1 con2, put_key c con = Some con1 /\ remc con1 = Some con2 /\ wf_console con2 /\
    shows con2 VIDEO (ts con) (mkTty (tape s) (pos s) (top (tty_put c s))).
Proof.
  intros W Hs Hbl Hc Hc'.
  destruct (run_op_spec con (PutKey c) s W Hs) as (con1 & E1 & W1 & Ht1 & Hs1).
  destruct (touches_terms _ _ _ _ Ht1) as (_ & Ets & _).
  cbn [op_page op_term run_op tty_op] in *. rewrite <- Ets in Hs1.
  destruct (run_op_spec con1 Remc _ W1 Hs1) as (con2 & E2 & W2 & Ht2 & Hs2).
  exists con1, con2. split_and!; try done. cbn [op_page op_term run_op tty_op] in *.
  destruct Hs as (T & _ & Hp & _). rewrite Ets in Hs2. unfold tty_rub, tty_put in Hs2.
  destruct (Z.eqb_spec c 10), (Z.eqb_spec c 13); try done. cbn [orb] in Hs2.
  cbn [tape pos top] in Hs2.
  destruct (Z.eqb_spec (pos s + 1)
    (NUM_COLS * Z.max (top s) ((pos s + 1) / NUM_COLS - (NUM_ROWS - 1)))) as [Eq|_].
  { exfalso. unfold NUM_COLS, NUM_ROWS in *. Z.to_euclidean_division_equations. lia. }
  unfold tty_put. replace (c =? 10) with false by (symmetry; by apply Z.eqb_neq).
  replace (c =? 13) with false by (symmetry; by apply Z.eqb_neq). cbn [orb top].
  apply (shows_tape _ _ _ _ (tape s)) in Hs2; cbn [tape pos top] in *.
  - by rewrite Z.add_simpl_r in Hs2.
  - intros i. unfold write_cells. rewrite Z.add_simpl_r.
    destruct (Z.eqb_spec i (pos s)) as [->|]; done.
Qed.

Lemma remc_undoes_put_key_witness :
  exists con0 con1 con2, clear_screen (sample_console VIDEO 0 0) = Some con0 /\
    put_key 108 con0 = Some con1 /\ remc con1 = Some con2 /\
    shows con2 VIDEO (ts con0) (mkTty (fun _ => blank) 0 (top (tty_put 108 tty_clear))).
Proof.
  assert (wf_console (sample_console VIDEO 0 0)) as W
    by (apply sample_console_wf; [apply is_page_VIDEO|lia|lia]).
  destruct (shows_exists (sample_console VIDEO 0 0) VIDEO 0 W is_page_VIDEO) as [s Hs];
    [unfold NUM_TERMS; lia|].
  destruct (clear_screen_spec (sample_console VIDEO 0 0) s W Hs) as (con0 & E0 & W0 & Ht0 & Hs0).
  destruct (touches_terms _ _ _ _ Ht0) as (_ & Ets & _). rewrite <- Ets in Hs0.
  destruct (remc_undoes_put_key con0 tty_clear 108 W0 Hs0 eq_refl) as (con1 & con2 & E1 & E2 & _ & H2);
    [discriminate|discriminate|].
  exists con0, con1, con2. exact (conj E0 (conj E1 (conj E2 H2))).
Defined.
