(* ===== verification/I8259.v ===== *)
(** The interrupt controllers: [src/code/i8259.c].

    Port output is a trace, oldest write first: a pair of the port and the byte.
    The masks of the two controllers are the shadow copies the driver keeps; the
    invariant says that they are what was last written to the mask registers. *)
From stdpp Require Import base option list numbers.
From Stdlib Require Import ZArith Lia.
From S2P Require Import Prelude.

Definition MASTER_8259_PORT : Z := 32.
Definition SLAVE_8259_PORT : Z := 160.
Definition MASTER_8259_DATA_PORT : Z := 33.
Definition SLAVE_8259_DATA_PORT : Z := 161.
Definition MASK_ALL : Z := 255.
Definition PIC_IRQ_NUM : Z := 8.
Definition ICW1 : Z := 17.
Definition ICW2_MASTER : Z := 32.
Definition ICW2_SLAVE : Z := 40.
Definition ICW3_MASTER : Z := 4.
Definition ICW3_SLAVE : Z := 2.
Definition ICW4 : Z := 1.
Definition EOI : Z := 96.

Record pic := mkPic {
  master_mask : Z;
  slave_mask : Z;
  ports : list (Z * Z);
}.

#[export] Instance eta_pic : EtaExpand pic := fun p => mkPic (master_mask p) (slave_mask p) (ports p).

Definition pic_reset : pic := mkPic MASK_ALL MASK_ALL [].

Definition outb (data port : Z) (p : pic) : pic := p <| ports ::= fun l => l ++ [(port, u8 data)] |>.

Definition enable_irq (irq_num : Z) (p : pic) : pic :=
  if PIC_IRQ_NUM * 2 <=? irq_num then p
  else if irq_num <? PIC_IRQ_NUM then
    let mask := u8 (Z.lnot (Z.shiftl 1 irq_num)) in
    let p := p <| master_mask := Z.land (master_mask p) mask |> in
    outb (master_mask p) MASTER_8259_DATA_PORT p
  else
    let mask := u8 (Z.lnot (Z.shiftl 1 (irq_num - PIC_IRQ_NUM))) in
    let p := p <| slave_mask := Z.land (slave_mask p) mask |> in
    outb (slave_mask p) SLAVE_8259_DATA_PORT p.

Definition disable_irq (irq_num : Z) (p : pic) : pic :=
  if PIC_IRQ_NUM * 2 <=? irq_num then p
  else if irq_num <? PIC_IRQ_NUM then
    let mask := u8 (Z.shiftl 1 irq_num) in
    let p := p <| master_mask := Z.lor (master_mask p) mask |> in
    outb (master_mask p) MASTER_8259_DATA_PORT p
  else
    let mask := u8 (Z.shiftl 1 (irq_num - PIC_IRQ_NUM)) in
    let p := p <| slave_mask := Z.lor (slave_mask p) mask |> in
    outb (slave_mask p) SLAVE_8259_DATA_PORT p.

Definition send_eoi (irq_num : Z) (p : pic) : pic :=
  if PIC_IRQ_NUM * 2 <=? irq_num then p
  else if PIC_IRQ_NUM <=? irq_num then
    let pic2_irq := u8 (irq_num - PIC_IRQ_NUM) in
    let pic1_irq := ICW3_SLAVE in
    let p := outb (Z.lor EOI pic2_irq) SLAVE_8259_PORT p in
    outb (Z.lor EOI pic1_irq) MASTER_8259_PORT p
  else outb (Z.lor EOI irq_num) MASTER_8259_PORT p.

Definition i8259_init (p : pic) : pic :=
  let p := outb ICW1 MASTER_8259_PORT p in
  let p := outb ICW2_MASTER MASTER_8259_DATA_PORT p in
  let p := outb ICW3_MASTER MASTER_8259_DATA_PORT p in
  let p := outb ICW4 MASTER_8259_DATA_PORT p in
  let p := outb ICW1 SLAVE_8259_PORT p in
  let p := outb ICW2_SLAVE SLAVE_8259_DATA_PORT p in
  let p := outb ICW3_SLAVE SLAVE_8259_DATA_PORT p in
  let p := outb ICW4 SLAVE_8259_DATA_PORT p in
  let p := outb MASK_ALL MASTER_8259_DATA_PORT p in
  let p := outb MASK_ALL SLAVE_8259_DATA_PORT p in
  enable_irq ICW3_SLAVE p.

(** [delete_cursor] of lib.c: the VGA registers X3D4 and X3D5. *)
Definition delete_cursor (p : pic) : pic := outb 32 981 (outb 10 980 p).

(** ** Which lines are open *)

(** Line [n] of the sixteen is unmasked. *)
Definition irq_enabled (p : pic) (n : Z) : bool :=
  negb (if n <? PIC_IRQ_NUM then Z.testbit (master_mask p) n
        else Z.testbit (slave_mask p) (n - PIC_IRQ_NUM)).

(** The last byte written to a port. *)
Definition last_out (l : list (Z * Z)) (port : Z) : option Z :=
  foldl (fun acc '(q, b) => if q =? port then Some b else acc) None l.

Arguments last_out : simpl never.

Inductive pic_op := Enable (n : Z) | Disable (n : Z) | SendEoi (n : Z).

Definition run_pic (o : pic_op) (p : pic) : pic :=
  match o with
  | Enable n => enable_irq n p
  | Disable n => disable_irq n p
  | SendEoi n => send_eoi n p
  end.

(** The lines that a sequence of operations leaves open. *)
Definition enabled_step (o : pic_op) (f : Z -> bool) : Z -> bool :=
  match o with
  | Enable n => fun m => (m =? n) || f m
  | Disable n => fun m => negb (m =? n) && f m
  | SendEoi _ => f
  end.

Record wf_pic (p : pic) : Prop := {
  wf_master : is_byte (master_mask p);
  wf_slave : is_byte (slave_mask p);
  wf_shadow_m : last_out (ports p) MASTER_8259_DATA_PORT = Some (master_mask p);
  wf_shadow_s : last_out (ports p) SLAVE_8259_DATA_PORT = Some (slave_mask p);
}.

Lemma last_out_snoc l q b port :
  last_out (l ++ [(q, b)]) port = if q =? port then Some b else last_out l port.
Proof. unfold last_out. by rewrite foldl_app. Qed.

(** Facts about bytes and bits, by running through the finitely many cases. *)
Definition bits : list Z := [0; 1; 2; 3; 4; 5; 6; 7].

Lemma in_bits n : 0 <= n < 8 -> In n bits.
Proof. intros. cbn. lia. Qed.

Lemma byte_cases (f : Z -> bool) b :
  is_byte b -> forallb (fun n => f (Z.of_nat n)) (seq 0 256) = true -> f b = true.
Proof.
  intros Hb H. rewrite forallb_forall in H. unfold is_byte in Hb.
  rewrite <- (Z2Nat.id b) by lia. apply H, in_seq. lia.
Qed.

Lemma mask_bit (op : Z -> Z -> Z) (want : bool -> bool) b n m :
  (forallb (fun i => forallb (fun n => forallb (fun m =>
     let b := Z.of_nat i in
     (0 <=? op b n) && (op b n <? 256) &&
     eqb (Z.testbit (op b n) m) (if m =? n then want true else Z.testbit b m))
       bits) bits) (seq 0 256)) = true ->
  is_byte b -> 0 <= n < 8 -> 0 <= m < 8 ->
  is_byte (op b n) /\ Z.testbit (op b n) m = if m =? n then want true else Z.testbit b m.
Proof.
  intros H Hb Hn Hm.
  pose proof (byte_cases (fun b => forallb (fun n => forallb (fun m =>
     (0 <=? op b n) && (op b n <? 256) &&
     eqb (Z.testbit (op b n) m) (if m =? n then want true else Z.testbit b m)) bits) bits)
     b Hb H) as H1. cbv beta in H1.
  rewrite forallb_forall in H1. specialize (H1 n (in_bits n Hn)).
  rewrite forallb_forall in H1. specialize (H1 m (in_bits m Hm)).
  rewrite !andb_true_iff, eqb_true_iff in H1. unfold is_byte. destruct H1 as [[? ?] ?].
  split; [lia|done].
Qed.

Definition unmask (b n : Z) : Z := Z.land b (u8 (Z.lnot (Z.shiftl 1 n))).
Definition mask (b n : Z) : Z := Z.lor b (u8 (Z.shiftl 1 n)).

Lemma unmask_bit b n m :
  is_byte b -> 0 <= n < 8 -> 0 <= m < 8 ->
  is_byte (unmask b n) /\ Z.testbit (unmask b n) m = if m =? n then false else Z.testbit b m.
Proof. apply (mask_bit unmask (fun _ => false)). vm_compute. reflexivity. Qed.

Lemma mask_set_bit b n m :
  is_byte b -> 0 <= n < 8 -> 0 <= m < 8 ->
  is_byte (mask b n) /\ Z.testbit (mask b n) m = if m =? n then true else Z.testbit b m.
Proof. apply (mask_bit mask (fun _ => true)). vm_compute. reflexivity. Qed.

Lemma u8_mask b n : is_byte b -> 0 <= n < 8 -> u8 (unmask b n) = unmask b n /\ u8 (mask b n) = mask b n.
Proof.
  intros Hb Hn. split; apply u8_small; [apply (unmask_bit b n 0)|apply (mask_set_bit b n 0)];
    done || lia.
Qed.

(** A write to the mask register of one controller, the line being its own. *)
Lemma set_master p b n (v : bool) :
  wf_pic p -> is_byte b -> 0 <= n < 8 ->
  (forall m, 0 <= m < 8 -> Z.testbit b m = if m =? n then v else Z.testbit (master_mask p) m) ->
  let p' := outb b MASTER_8259_DATA_PORT (p <| master_mask := b |>) in
  wf_pic p' /\ forall m, 0 <= m < 16 -> irq_enabled p' m = if m =? n then negb v else irq_enabled p m.
Proof.
  intros [Hm Hs HM HS] Hb Hn Hbit. cbv zeta. split.
  - split; cbn; try done.
    + by rewrite last_out_snoc, u8_small.
    + by rewrite last_out_snoc.
  - intros m Hm16. unfold irq_enabled, PIC_IRQ_NUM. cbn.
    destruct (Z.ltb_spec m 8).
    + rewrite Hbit by lia. by destruct (m =? n).
    + destruct (Z.eqb_spec m n); [lia|done].
Qed.

Lemma set_slave p b n (v : bool) :
  wf_pic p -> is_byte b -> 0 <= n < 8 ->
  (forall m, 0 <= m < 8 -> Z.testbit b m = if m =? n then v else Z.testbit (slave_mask p) m) ->
  let p' := outb b SLAVE_8259_DATA_PORT (p <| slave_mask := b |>) in
  wf_pic p' /\
  forall m, 0 <= m < 16 -> irq_enabled p' m = if m =? n + 8 then negb v else irq_enabled p m.
Proof.
  intros [Hm Hs HM HS] Hb Hn Hbit. cbv zeta. split.
  - split; cbn; try done.
    + by rewrite last_out_snoc.
    + by rewrite last_out_snoc, u8_small.
  - intros m Hm16. unfold irq_enabled, PIC_IRQ_NUM. cbn.
    destruct (Z.ltb_spec m 8).
    + destruct (Z.eqb_spec m (n + 8)); [lia|done].
    + rewrite Hbit by lia. destruct (Z.eqb_spec (m - 8) n), (Z.eqb_spec m (n + 8)); try lia; done.
Qed.

Lemma run_pic_step o p :
  wf_pic p -> (match o with Enable n | Disable n | SendEoi n => 0 <= n end) ->
  wf_pic (run_pic o p) /\
  forall m, 0 <= m < 16 -> irq_enabled (run_pic o p) m = enabled_step o (irq_enabled p) m.
Proof.
  intros W Hn. destruct o as [n|n|n]; cbn [run_pic enabled_step].
  - unfold enable_irq, PIC_IRQ_NUM. destruct (Z.leb_spec (8 * 2) n).
    { split; [done|]. intros m Hm. destruct (Z.eqb_spec m n); [lia|done]. }
    destruct (Z.ltb_spec n 8).
    + destruct (set_master p (unmask (master_mask p) n) n false W) as [W' He]; [|lia| |].
      * apply (unmask_bit _ n 0); [apply W|lia|lia].
      * intros m Hm. apply unmask_bit; [apply W|lia|lia].
      * split; [exact W'|]. intros m Hm. etransitivity; [exact (He m Hm)|]. by destruct (m =? n).
    + destruct (set_slave p (unmask (slave_mask p) (n - 8)) (n - 8) false W) as [W' He]; [|lia| |].
      * apply (unmask_bit _ (n - 8) 0); [apply W|lia|lia].
      * intros m Hm. apply unmask_bit; [apply W|lia|lia].
      * split; [exact W'|]. intros m Hm. etransitivity; [exact (He m Hm)|].
        rewrite Z.sub_add. by destruct (m =? n).
  - unfold disable_irq, PIC_IRQ_NUM. destruct (Z.leb_spec (8 * 2) n).
    { split; [done|]. intros m Hm. destruct (Z.eqb_spec m n); [lia|done]. }
    destruct (Z.ltb_spec n 8).
    + destruct (set_master p (mask (master_mask p) n) n true W) as [W' He]; [|lia| |].
      * apply (mask_set_bit _ n 0); [apply W|lia|lia].
      * intros m Hm. apply mask_set_bit; [apply W|lia|lia].
      * split; [exact W'|]. intros m Hm. etransitivity; [exact (He m Hm)|]. by destruct (m =? n).
    + destruct (set_slave p (mask (slave_mask p) (n - 8)) (n - 8) true W) as [W' He]; [|lia| |].
      * apply (mask_set_bit _ (n - 8) 0); [apply W|lia|lia].
      * intros m Hm. apply mask_set_bit; [apply W|lia|lia].
      * split; [exact W'|]. intros m Hm. etransitivity; [exact (He m Hm)|].
        rewrite Z.sub_add. by destruct (m =? n).
  - unfold send_eoi. destruct W as [Hm Hs HM HS].
    repeat case_match; (split; [split; cbn; rewrite ?last_out_snoc; done|done]).
Qed.

Lemma i8259_init_wf :
  wf_pic (i8259_init pic_reset) /\
  forall m, 0 <= m < 16 -> irq_enabled (i8259_init pic_reset) m = (m =? 2).
Proof.
  split; [split; vm_compute; (done || (split; done || congruence))|].
  intros m Hm. assert (forallb (fun n => eqb (irq_enabled (i8259_init pic_reset) (Z.of_nat n))
    (Z.of_nat n =? 2)) (seq 0 16) = true) as H by (vm_compute; reflexivity).
  rewrite forallb_forall in H. specialize (H (Z.to_nat m) ltac:(apply in_seq; lia)).
  rewrite Z2Nat.id in H by lia. by apply eqb_true_iff.
Qed.

Lemma run_pics_step os :
  Forall (fun o => match o with Enable n | Disable n | SendEoi n => 0 <= n end) os ->
  forall p f, wf_pic p -> (forall m, 0 <= m < 16 -> irq_enabled p m = f m) ->
  wf_pic (foldl (fun p o => run_pic o p) p os) /\
  forall m, 0 <= m < 16 ->
    irq_enabled (foldl (fun p o => run_pic o p) p os) m = foldl (fun f o => enabled_step o f) f os m.
Proof.
  induction 1 as [|o os Ho Hos IH]; intros p f W He; cbn [foldl]; [done|].
  destruct (run_pic_step o p W Ho) as [W' Hs]. apply (IH _ _ W').
  intros m Hm. rewrite Hs by done. destruct o; cbn; by rewrite ?He.
Qed.

(** ** Properties *)

(** After the start-up sequence only the cascade line is open, and from
    then on any sequence of [enable_irq], [disable_irq] and [send_eoi] opens
    and closes exactly the lines it names, numbers out of range being ignored;
    the shadow masks are always the last bytes the mask registers were sent. *)
Theorem irq_lines_follow_calls os :
  Forall (fun o => match o with Enable n | Disable n | SendEoi n => 0 <= n end) os ->
  let p := foldl (fun p o => run_pic o p) (i8259_init pic_reset) os in
  (forall m, 0 <= m < 16 ->
     irq_enabled p m = foldl (fun f o => enabled_step o f) (fun m => m =? ICW3_SLAVE) os m) /\
  last_out (ports p) MASTER_8259_DATA_PORT = Some (master_mask p) /\
  last_out (ports p) SLAVE_8259_DATA_PORT = Some (slave_mask p).
Proof.
  intros Hos. destruct i8259_init_wf as [W He].
  destruct (run_pics_step os Hos _ _ W He) as [W' He']. split; [exact He'|split; apply W'].
Qed.

Lemma irq_lines_follow_calls_witness :
  let p := foldl (fun p o => run_pic o p) (i8259_init pic_reset) [Enable 0; Enable 1; Enable 8; SendEoi 8] in
  (forall m, 0 <= m < 16 ->
     irq_enabled p m = foldl (fun f o => enabled_step o f) (fun m => m =? ICW3_SLAVE)
       [Enable 0; Enable 1; Enable 8; SendEoi 8] m) /\
  last_out (ports p) MASTER_8259_DATA_PORT = Some (master_mask p) /\
  last_out (ports p) SLAVE_8259_DATA_PORT = Some (slave_mask p).
Proof. apply (irq_lines_follow_calls [Enable 0; Enable 1; Enable 8; SendEoi 8]). repeat constructor; lia. Defined.
