(* ===== verification/Keyboard.v ===== *)
(** The keyboard driver of [src/code/keyboard.c], without the terminal switch:
    the scan code tables of [get_key] and the line buffer.

    [get_key] is a switch over the modifiers and, inside, a switch over the scan
    code; each inner switch is a table from scan codes to what its case does. *)
From stdpp Require Import base option list numbers.
From Stdlib Require Import ZArith Lia Ascii.
From S2P Require Import Prelude.

Definition KEY_BUF_SIZE : Z := 128.
Definition F1 : Z := 1.
Definition F2 : Z := 2.
Definition F3 : Z := 3.
Definition TAB_SPACE : Z := 4.

Record kbd := mkKbd {
  tab : Z;
  caps : Z;
  l_shift : Z;
  r_shift : Z;
  ctrl : Z;
  alt : Z;
  backspace : Z;
  function : Z;
  keyboard_buf : list Z;   (* KEY_BUF_SIZE bytes *)
  key_idx : Z;
}.

#[export] Instance eta_kbd : EtaExpand kbd := fun k =>
  mkKbd (tab k) (caps k) (l_shift k) (r_shift k) (ctrl k) (alt k) (backspace k) (function k)
    (keyboard_buf k) (key_idx k).

Definition kbd_reset : kbd := mkKbd 0 0 0 0 0 0 0 0 (replicate 128 0) 0.

(** The flags the handler looks at. *)
Inductive flag := Tab | LShift | RShift | Ctrl | Alt | Backspace | Function.

(** What a case of the switch does: return a character, or set a flag and
    return 0, or toggle caps lock and return 0. *)
Inductive key_action := KChar (c : Z) | KSet (f : flag) (v : Z) | KCaps.

Definition set_flag (f : flag) (v : Z) (k : kbd) : kbd :=
  match f with
  | Tab => k <| tab := v |>
  | LShift => k <| l_shift := v |>
  | RShift => k <| r_shift := v |>
  | Ctrl => k <| ctrl := v |>
  | Alt => k <| alt := v |>
  | Backspace => k <| backspace := v |>
  | Function => k <| function := v |>
  end.

Definition run_action (a : key_action) (k : kbd) : Z * kbd :=
  match a with
  | KChar c => (c, k)
  | KSet f v => (0, set_flag f v k)
  | KCaps => (0, k <| caps := Z.lxor (caps k) 1 |>)
  end.

Definition key (c : ascii) : key_action := KChar (Z.of_N (N_of_ascii c)).

(** case 0: no caps lock, no shift. *)
Definition case_lower : list (Z * key_action) :=
  [(0x29, key "`"); (0x02, key "1"); (0x03, key "2"); (0x04, key "3"); (0x05, key "4");
   (0x06, key "5"); (0x07, key "6"); (0x08, key "7"); (0x09, key "8"); (0x0A, key "9");
   (0x0B, key "0"); (0x0C, key "-"); (0x0D, key "="); (0x0E, KSet Backspace 1);
   (0x8E, KSet Backspace 0); (0x0F, KSet Tab 1); (0x8F, KSet Tab 0); (0x10, key "q");
   (0x11, key "w"); (0x12, key "e"); (0x13, key "r"); (0x14, key "t"); (0x15, key "y");
   (0x16, key "u"); (0x17, key "i"); (0x18, key "o"); (0x19, key "p"); (0x1A, key "[");
   (0x1B, key "]"); (0x2B, KChar 92); (0x3A, KCaps); (0x1E, key "a"); (0x1F, key "s");
   (0x20, key "d"); (0x21, key "f"); (0x22, key "g"); (0x23, key "h"); (0x24, key "j");
   (0x25, key "k"); (0x26, key "l"); (0x27, key ";"); (0x28, KChar 39); (0x1C, KChar 10);
   (0x2A, KSet LShift 1); (0xAA, KSet LShift 0); (0x2C, key "z"); (0x2D, key "x");
   (0x2E, key "c"); (0x2F, key "v"); (0x30, key "b"); (0x31, key "n"); (0x32, key "m");
   (0x33, key ","); (0x34, key "."); (0x35, key "/"); (0x36, KSet RShift 1);
   (0xB6, KSet RShift 0); (0x1D, KSet Ctrl 1); (0x9D, KSet Ctrl 0); (0x38, KSet Alt 1);
   (0xB8, KSet Alt 0); (0x39, key " "); (0x3B, KSet Function F1); (0x3C, KSet Function F2);
   (0x3D, KSet Function F3); (0xBB, KSet Function 0); (0xBC, KSet Function 0);
   (0xBD, KSet Function 0)].

(** case 1: shift held. *)
Definition case_shift : list (Z * key_action) :=
  [(0x29, key "~"); (0x02, key "!"); (0x03, key "@"); (0x04, key "#"); (0x05, key "$");
   (0x06, key "%"); (0x07, key "^"); (0x08, key "&"); (0x09, key "*"); (0x0A, key "(");
   (0x0B, key ")"); (0x0C, key "_"); (0x0D, key "+"); (0x0E, KSet Backspace 1);
   (0x8E, KSet Backspace 0); (0x0F, KSet Tab 1); (0x8F, KSet Tab 0); (0x10, key "Q");
   (0x11, key "W"); (0x12, key "E"); (0x13, key "R"); (0x14, key "T"); (0x15, key "Y");
   (0x16, key "U"); (0x17, key "I"); (0x18, key "O"); (0x19, key "P"); (0x1A, key "{");
   (0x1B, key "}"); (0x2B, key "|"); (0x3A, KCaps); (0x1E, key "A"); (0x1F, key "S");
   (0x20, key "D"); (0x21, key "F"); (0x22, key "G"); (0x23, key "H"); (0x24, key "J");
   (0x25, key "K"); (0x26, key "L"); (0x27, key ":"); (0x28, KChar 34); (0x1C, KChar 10);
   (0x2A, KSet LShift 1); (0xAA, KSet LShift 0); (0x2C, key "Z"); (0x2D, key "X");
   (0x2E, key "C"); (0x2F, key "V"); (0x30, key "B"); (0x31, key "N"); (0x32, key "M");
   (0x33, key "<"); (0x34, key ">"); (0x35, key "?"); (0x36, KSet RShift 1);
   (0xB6, KSet RShift 0); (0x1D, KSet Ctrl 1); (0x9D, KSet Ctrl 0); (0x38, KSet Alt 1);
   (0xB8, KSet Alt 0); (0x39, key " "); (0x3B, KSet Function F1); (0x3C, KSet Function F2);
   (0x3D, KSet Function F3); (0xBB, KSet Function 0); (0xBC, KSet Function 0);
   (0xBD, KSet Function 0)].

(** case 2: caps lock on. *)
Definition case_caps : list (Z * key_action) :=
  [(0x29, key "`"); (0x02, key "1"); (0x03, key "2"); (0x04, key "3"); (0x05, key "4");
   (0x06, key "5"); (0x07, key "6"); (0x08, key "7"); (0x09, key "8"); (0x0A, key "9");
   (0x0B, key "0"); (0x0C, key "-"); (0x0D, key "="); (0x0E, KSet Backspace 1);
   (0x8E, KSet Backspace 0); (0x0F, KSet Tab 1); (0x8F, KSet Tab 0); (0x10, key "Q");
   (0x11, key "W"); (0x12, key "E"); (0x13, key "R"); (0x14, key "T"); (0x15, key "Y");
   (0x16, key "U"); (0x17, key "I"); (0x18, key "O"); (0x19, key "P"); (0x1A, key "{");
   (0x1B, key "}"); (0x2B, key "|"); (0x3A, KCaps); (0x1E, key "A"); (0x1F, key "S");
   (0x20, key "D"); (0x21, key "F"); (0x22, key "G"); (0x23, key "H"); (0x24, key "J");
   (0x25, key "K"); (0x26, key "L"); (0x27, key ":"); (0x28, KChar 34); (0x1C, KChar 10);
   (0x2A, KSet LShift 1); (0xAA, KSet LShift 0); (0x2C, key "Z"); (0x2D, key "X");
   (0x2E, key "C"); (0x2F, key "V"); (0x30, key "B"); (0x31, key "N"); (0x32, key "M");
   (0x33, key "<"); (0x34, key ">"); (0x35, key "?"); (0x36, KSet RShift 1);
   (0xB6, KSet RShift 0); (0x1D, KSet Ctrl 1); (0x9D, KSet Ctrl 0); (0x38, KSet Alt 1);
   (0xB8, KSet Alt 0); (0x39, key " "); (0x3B, KSet Function F1); (0x3C, KSet Function F2);
   (0x3D, KSet Function F3); (0xBB, KSet Function 0); (0xBC, KSet Function 0);
   (0xBD, KSet Function 0)].

(** case 3: caps lock on and shift held. *)
Definition case_caps_shift : list (Z * key_action) :=
  [(0x29, key "~"); (0x02, key "!"); (0x03, key "@"); (0x04, key "#"); (0x05, key "$");
   (0x06, key "%"); (0x07, key "^"); (0x08, key "&"); (0x09, key "*"); (0x0A, key "(");
   (0x0B, key ")"); (0x0C, key "_"); (0x0D, key "+"); (0x0E, KSet Backspace 1);
   (0x8E, KSet Backspace 0); (0x0F, KSet Tab 1); (0x8F, KSet Tab 0); (0x10, key "q");
   (0x11, key "w"); (0x12, key "e"); (0x13, key "r"); (0x14, key "t"); (0x15, key "y");
   (0x16, key "u"); (0x17, key "i"); (0x18, key "o"); (0x19, key "p"); (0x1A, key "[");
   (0x1B, key "]"); (0x2B, KChar 92); (0x3A, KCaps); (0x1E, key "a"); (0x1F, key "s");
   (0x20, key "d"); (0x21, key "f"); (0x22, key "g"); (0x23, key "h"); (0x24, key "j");
   (0x25, key "k"); (0x26, key "l"); (0x27, key ";"); (0x28, KChar 39); (0x1C, KChar 10);
   (0x2A, KSet LShift 1); (0xAA, KSet LShift 0); (0x2C, key "z"); (0x2D, key "x");
   (0x2E, key "c"); (0x2F, key "v"); (0x30, key "b"); (0x31, key "n"); (0x32, key "m");
   (0x33, key ","); (0x34, key "."); (0x35, key "/"); (0x36, KSet RShift 1);
   (0xB6, KSet RShift 0); (0x1D, KSet Ctrl 1); (0x9D, KSet Ctrl 0); (0x38, KSet Alt 1);
   (0xB8, KSet Alt 0); (0x39, key " "); (0x3B, KSet Function F1); (0x3C, KSet Function F2);
   (0x3D, KSet Function F3); (0xBB, KSet Function 0); (0xBC, KSet Function 0);
   (0xBD, KSet Function 0)].

Fixpoint key_lookup (code : Z) (t : list (Z * key_action)) : key_action :=
  match t with
  | [] => KChar 0
  | (c, a) :: t => if code =? c then a else key_lookup code t
  end.

Definition get_key (keypress : Z) (k : kbd) : Z * kbd :=
  let shift := if negb (l_shift k =? 0) || negb (r_shift k =? 0) then 1 else 0 in
  match Z.shiftl (caps k) 1 + shift with
  | 0 => run_action (key_lookup keypress case_lower) k
  | 1 => run_action (key_lookup keypress case_shift) k
  | 2 => run_action (key_lookup keypress case_caps) k
  | 3 => run_action (key_lookup keypress case_caps_shift) k
  | _ => (0, k)
  end.

(** ** The line buffer

    The functions get the buffer and the index by reference; both come back. *)

Definition write_char (buf : list Z) (idx c : Z) : option (Z * list Z * Z) :=
  if (idx =? KEY_BUF_SIZE - 1) && negb (c =? 10) then Some (-1, buf, idx)
  else if KEY_BUF_SIZE <=? idx then Some (-1, buf, idx)
  else buf ← buf.[idx := c]; Some (0, buf, u32 (idx + 1)).

Definition delete_char (buf : list Z) (idx : Z) : option (Z * list Z * Z) :=
  if idx <=? 0 then Some (-1, buf, idx)
  else
    let idx := u32 (idx - 1) in
    buf ← buf.[idx := 0]; Some (0, buf, idx).

Definition clear_keyboard_buf (buf : list Z) : option (Z * list Z * Z) :=
  buf ← for_range 0 KEY_BUF_SIZE (fun i buf => buf.[i := 0]) buf;
  Some (0, buf, 0).

(** The callers that pass [keyboard_buf] and [&key_idx]. *)
Definition on_line (f : list Z -> Z -> option (Z * list Z * Z)) (k : kbd) : option (Z * kbd) :=
  '(r, buf, idx) ← f (keyboard_buf k) (key_idx k);
  Some (r, k <| keyboard_buf := buf |> <| key_idx := idx |>).

Definition key_write (c : Z) : kbd -> option (Z * kbd) := on_line (fun buf idx => write_char buf idx c).
Definition key_delete : kbd -> option (Z * kbd) := on_line delete_char.
Definition clear_keyboard_buf_caller : kbd -> option (Z * kbd) :=
  on_line (fun buf _ => clear_keyboard_buf buf).

(** ** The layout *)

#[export] Instance flag_eq_dec : EqDecision flag.
Proof. solve_decision. Defined.
#[export] Instance key_action_eq_dec : EqDecision key_action.
Proof. solve_decision. Defined.

(** The thirteen keys of the digit row. *)
Definition digit_row (code : Z) : bool := (code =? 0x29) || ((2 <=? code) && (code <=? 13)).

(** The table whose entry a key has: shift alone decides on the digit row, and
    shift or caps lock, but not both, everywhere else. *)
Definition layout (code : Z) (caps shift : bool) : key_action :=
  key_lookup code (if (if digit_row code then shift else xorb caps shift)
                   then case_shift else case_lower).

Definition is_flag (z : Z) : Prop := z = 0 \/ z = 1.

Record flags_ok (k : kbd) : Prop := {
  ok_tab : is_flag (tab k);
  ok_caps : is_flag (caps k);
  ok_l_shift : is_flag (l_shift k);
  ok_r_shift : is_flag (r_shift k);
  ok_ctrl : is_flag (ctrl k);
  ok_alt : is_flag (alt k);
  ok_backspace : is_flag (backspace k);
  ok_function : 0 <= function k <= 3;
}.

(** What an action may do to the flags and which characters there are. *)
Definition action_ok (a : key_action) : bool :=
  match a with
  | KChar c => (c =? 0) || (c =? 10) || ((32 <=? c) && (c <=? 126))
  | KSet Function v => (0 <=? v) && (v <=? 3)
  | KSet _ v => (v =? 0) || (v =? 1)
  | KCaps => true
  end.

Lemma key_lookup_Forall (P : key_action -> Prop) code t :
  P (KChar 0) -> Forall (fun e => P e.2) t -> P (key_lookup code t).
Proof. intros H0. induction 1 as [|[c a] t Ha Ht IH]; cbn; [done|]. by case_match. Qed.

Lemma layout_ok code c s : action_ok (layout code c s) = true.
Proof.
  unfold layout. apply (key_lookup_Forall (fun a => action_ok a = true)); [done|].
  destruct (if digit_row code then s else xorb c s); repeat (constructor; [reflexivity|]); constructor.
Qed.

Lemma tables_layout code :
  0 <= code < 256 ->
  key_lookup code case_lower = layout code false false /\
  key_lookup code case_shift = layout code false true /\
  key_lookup code case_caps = layout code true false /\
  key_lookup code case_caps_shift = layout code true true.
Proof.
  intros Hc.
  assert (forallb (fun n => let code := Z.of_nat n in
    bool_decide (key_lookup code case_lower = layout code false false) &&
    bool_decide (key_lookup code case_shift = layout code false true) &&
    bool_decide (key_lookup code case_caps = layout code true false) &&
    bool_decide (key_lookup code case_caps_shift = layout code true true)) (seq 0 256) = true) as H
    by (vm_compute; reflexivity).
  rewrite forallb_forall in H. specialize (H (Z.to_nat code) ltac:(apply in_seq; lia)).
  rewrite Z2Nat.id in H by lia. rewrite !andb_true_iff, !bool_decide_eq_true in H. tauto.
Qed.

(** The modifiers as the switch sees them. *)
Definition shifted (k : kbd) : bool := negb (l_shift k =? 0) || negb (r_shift k =? 0).

Lemma get_key_action code k :
  0 <= code < 256 -> flags_ok k ->
  get_key code k = run_action (layout code (caps k =? 1) (shifted k)) k.
Proof.
  intros Hc W. destruct (tables_layout code Hc) as (H0 & H1 & H2 & H3).
  unfold get_key. fold (shifted k). destruct (ok_caps k W) as [-> | ->], (shifted k);
    cbn -[key_lookup layout case_lower case_shift case_caps case_caps_shift];
    by rewrite ?H0, ?H1, ?H2, ?H3.
Qed.

Lemma run_action_flags a k : action_ok a = true -> flags_ok k -> flags_ok (run_action a k).2.
Proof.
  intros Ha [? ? ? ? ? ? ? ?]. unfold is_flag in *. destruct a as [c|f v|]; cbn.
  - by split.
  - destruct f; cbn in Ha; split; cbn; unfold is_flag; try done; lia.
  - split; cbn; try done. unfold is_flag. destruct ok_caps0 as [-> | ->]; cbn; auto.
Qed.

Lemma run_action_char a k :
  action_ok a = true ->
  (run_action a k).1 = 0 \/ (run_action a k).1 = 10 \/ 32 <= (run_action a k).1 <= 126.
Proof. destruct a; cbn; lia. Qed.

Lemma run_action_line a k :
  keyboard_buf (run_action a k).2 = keyboard_buf k /\ key_idx (run_action a k).2 = key_idx k.
Proof. by destruct a as [|[]|]. Qed.

(** ** The line *)

Definition is_key (c : Z) : Prop := 0 < c < 256.

(** The buffer holds [line], padded with zeros.  A line may itself have zeros in
    it: no key types one, but the end of a program can leave some. *)
Definition line_is (buf : list Z) (idx : Z) (line : list Z) : Prop :=
  Forall is_byte line /\ len line <= KEY_BUF_SIZE /\ idx = len line /\
  buf = line ++ replicate (Z.to_nat (KEY_BUF_SIZE - len line)) 0.

(** Typing a character: the last place is kept for the newline. *)
Definition type_char (c : Z) (line : list Z) : Z * list Z :=
  if (len line <? KEY_BUF_SIZE - 1) || ((len line =? KEY_BUF_SIZE - 1) && (c =? 10))
  then (0, line ++ [c]) else (-1, line).

Definition rub_char (line : list Z) : Z * list Z :=
  match line with [] => (-1, []) | _ => (0, removelast line) end.

Lemma replicate_cons {A} (n : Z) (x : A) :
  0 < n -> replicate (Z.to_nat n) x = x :: replicate (Z.to_nat (n - 1)) x.
Proof. intros. replace (Z.to_nat n) with (S (Z.to_nat (n - 1))) by lia. done. Qed.

Lemma aset_mid (l r : list Z) x v i : i = len l -> (l ++ x :: r).[i := v] = Some (l ++ v :: r).
Proof.
  intros ->. rewrite aset_Some by (rewrite length_app; simpl; lia).
  rewrite Nat2Z.id. f_equal. rewrite insert_app_r_alt by lia. by rewrite Nat.sub_diag.
Qed.

Lemma write_char_line buf idx c line :
  is_key c -> line_is buf idx line ->
  exists buf' idx', write_char buf idx c = Some ((type_char c line).1, buf', idx') /\
    line_is buf' idx' (type_char c line).2.
Proof.
  intros Hc (Hk & Hl & -> & ->). unfold write_char, type_char, KEY_BUF_SIZE in *.
  destruct (Z.ltb_spec (len line) (128 - 1)), (Z.eqb_spec (len line) (128 - 1)); try lia; cbn [orb andb].
  - destruct (Z.leb_spec 128 (len line)); [lia|]. rewrite replicate_cons by lia.
    rewrite aset_mid by done. cbn [mbind option_bind]. do 2 eexists; split; [done|].
    cbn [snd]. split_and!.
    + apply Forall_app; split; [done|]. apply Forall_singleton. unfold is_byte, is_key in *. lia.
    + rewrite length_app. cbn. unfold KEY_BUF_SIZE. lia.
    + rewrite length_app. cbn. rewrite u32_small by (unfold is_u32; lia). lia.
    + rewrite length_app, <- app_assoc. cbn. unfold KEY_BUF_SIZE. do 3 f_equal. lia.
  - destruct (Z.eqb_spec c 10) as [->|]; cbn [negb fst snd].
    + destruct (Z.leb_spec 128 (len line)); [lia|]. rewrite replicate_cons by lia.
      rewrite aset_mid by done. cbn [mbind option_bind]. do 2 eexists; split; [done|]. split_and!.
      * apply Forall_app; split; [done|]. apply Forall_singleton. unfold is_byte, is_key in *. lia.
      * rewrite length_app. cbn. unfold KEY_BUF_SIZE. lia.
      * rewrite length_app. cbn. rewrite u32_small by (unfold is_u32; lia). lia.
      * rewrite length_app, <- app_assoc. cbn. unfold KEY_BUF_SIZE. do 3 f_equal. lia.
    + do 2 eexists; split; [done|]. by split_and!.
  - destruct (Z.leb_spec 128 (len line)); [|lia]. do 2 eexists; split; [done|]. by split_and!.
Qed.

Lemma rub_char_snoc line c : rub_char (line ++ [c]) = (0, line).
Proof.
  unfold rub_char. destruct (line ++ [c]) as [|a l] eqn:E; [by destruct line|].
  by rewrite <- E, removelast_last.
Qed.

Lemma delete_char_line buf idx line :
  line_is buf idx line ->
  exists buf' idx', delete_char buf idx = Some ((rub_char line).1, buf', idx') /\
    line_is buf' idx' (rub_char line).2.
Proof.
  intros (Hk & Hl & -> & ->). unfold delete_char.
  destruct line as [|c0 line0] using rev_ind; [do 2 eexists; split; [done|]; by split_and!|].
  clear IHline0. rewrite rub_char_snoc, length_app in *. cbn [length fst snd] in *.
  unfold KEY_BUF_SIZE in *. destruct (Z.leb_spec (Z.of_nat (length line0 + 1)) 0); [lia|].
  rewrite u32_small by (unfold is_u32; lia).
  rewrite <- app_assoc. cbn [app]. rewrite aset_mid by lia. cbn [mbind option_bind].
  do 2 eexists; split; [done|]. unfold line_is, KEY_BUF_SIZE. split_and!; try lia.
  - by apply Forall_app in Hk as [? _].
  - f_equal. rewrite (replicate_cons (128 - len line0)) by lia. do 3 f_equal. lia.
Qed.

Lemma clear_line buf idx line :
  line_is buf idx line ->
  exists buf', clear_keyboard_buf buf = Some (0, buf', 0) /\ line_is buf' 0 [].
Proof.
  intros (Hk & Hl & -> & ->). set (b0 := line ++ _).
  assert (len b0 = 128) as Hb0.
  { unfold b0. rewrite length_app, length_replicate. unfold KEY_BUF_SIZE in *. lia. }
  unfold clear_keyboard_buf. destruct (for_range_ind
    (fun i (b : list Z) => b = replicate (Z.to_nat i) 0 ++ drop (Z.to_nat i) b0)
    (fun i buf => buf.[i := 0]) 0 KEY_BUF_SIZE b0) as (b' & -> & ->).
  - unfold KEY_BUF_SIZE. lia.
  - done.
  - intros i b Hi ->. unfold KEY_BUF_SIZE in Hi.
    destruct (drop (Z.to_nat i) b0) as [|x r] eqn:E.
    { apply (f_equal length) in E. rewrite length_drop in E. cbn in E. lia. }
    rewrite aset_mid by (rewrite length_replicate; lia). eexists; split; [done|].
    replace (Z.to_nat (i + 1)) with (S (Z.to_nat i)) by lia.
    rewrite replicate_S_end, <- app_assoc. cbn. do 2 f_equal.
    change (S (Z.to_nat i)) with (1 + Z.to_nat i)%nat. rewrite Nat.add_comm.
    rewrite <- drop_drop, E. done.
  - cbn [mbind option_bind]. eexists; split; [done|]. unfold KEY_BUF_SIZE.
    split_and!; try done. rewrite drop_ge by lia. by rewrite app_nil_r.
Qed.

(** ** Editing a line *)

Inductive edit := Type_ (c : Z) | Rub | Clear.

Definition run_edit (e : edit) (k : kbd) : option (Z * kbd) :=
  match e with
  | Type_ c => key_write c k
  | Rub => key_delete k
  | Clear => clear_keyboard_buf_caller k
  end.

Definition edit_line (e : edit) (line : list Z) : Z * list Z :=
  match e with
  | Type_ c => type_char c line
  | Rub => rub_char line
  | Clear => (0, [])
  end.

Definition edit_ok (e : edit) : Prop := match e with Type_ c => is_key c | _ => True end.

(** The buffer of [k] holds [line]. *)
Definition has_line (k : kbd) (line : list Z) : Prop := line_is (keyboard_buf k) (key_idx k) line.

Lemma run_edit_line e k line :
  edit_ok e -> has_line k line ->
  exists k', run_edit e k = Some ((edit_line e line).1, k') /\ has_line k' (edit_line e line).2 /\
    (flags_ok k -> flags_ok k').
Proof.
  unfold has_line. intros Ho Hl. destruct e as [c| |]; cbn [run_edit edit_line].
  - destruct (write_char_line _ _ c line Ho Hl) as (buf & idx & E & H).
    unfold key_write, on_line. rewrite E. cbn [mbind option_bind].
    eexists; split; [done|]. split; [done|]. by intros []; split.
  - destruct (delete_char_line _ _ line Hl) as (buf & idx & E & H).
    unfold key_delete, on_line. rewrite E. cbn [mbind option_bind].
    eexists; split; [done|]. split; [done|]. by intros []; split.
  - destruct (clear_line _ _ line Hl) as (buf & E & H).
    unfold clear_keyboard_buf_caller, on_line. rewrite E. cbn [mbind option_bind].
    eexists; split; [done|]. split; [done|]. by intros []; split.
Qed.

Fixpoint run_edits (es : list edit) (k : kbd) : option (list Z * kbd) :=
  match es with
  | [] => Some ([], k)
  | e :: es => '(r, k) ← run_edit e k; '(rs, k) ← run_edits es k; Some (r :: rs, k)
  end.

Fixpoint edit_lines (es : list edit) (line : list Z) : list Z * list Z :=
  match es with
  | [] => ([], line)
  | e :: es =>
      let '(r, line) := edit_line e line in
      let '(rs, line) := edit_lines es line in (r :: rs, line)
  end.

Lemma has_line_reset : has_line kbd_reset [].
Proof. split_and!; done. Qed.

Lemma kbd_reset_flags : flags_ok kbd_reset.
Proof. split; unfold is_flag; cbn; auto. lia. Qed.

(** ** Properties *)

(** C30: the keyboard buffer is a line editor: any sequence of characters typed,
    rubbed out and cleared ends without leaving the 128-byte buffer, leaves the
    line it stands for in the buffer with zeros behind it and the index at its
    end, and returns the editor's results: a full line refuses characters, and
    its last place only takes a newline. *)
Theorem line_editor es : forall k line,
  Forall edit_ok es -> has_line k line ->
  exists k', run_edits es k = Some ((edit_lines es line).1, k') /\
    has_line k' (edit_lines es line).2.
Proof.
  induction es as [|e es IH]; intros k line Hes Hl; [by exists k|].
  apply Forall_cons_1 in Hes as [He Hes].
  destruct (run_edit_line e k line He Hl) as (k1 & E1 & H1 & _).
  cbn [run_edits edit_lines]. rewrite E1. cbn [mbind option_bind].
  destruct (edit_line e line) as [r line1]. cbn [fst snd] in *.
  destruct (IH k1 line1 Hes H1) as (k2 & E2 & H2). rewrite E2. cbn [mbind option_bind].
  destruct (edit_lines es line1) as [rs line2]. by exists k2.
Qed.

Lemma line_editor_witness :
  exists k', run_edits [Type_ 108; Type_ 120; Rub; Type_ 115; Type_ 10] kbd_reset
      = Some ([0; 0; 0; 0; 0], k') /\ has_line k' [108; 115; 10].
Proof.
  refine (line_editor [Type_ 108; Type_ 120; Rub; Type_ 115; Type_ 10] kbd_reset [] _ has_line_reset).
  repeat constructor; unfold is_key; lia.
Defined.

(** [get_key] decodes every scan code with the keyboard layout: shift alone
    chooses the character of a key of the digit row, shift or caps lock but not
    both that of every other key, the keys that are no characters do the same
    whatever the modifiers are, the flags stay flags, the line is not touched,
    and every character is 0, a newline or printable. *)
Theorem get_key_layout code k :
  0 <= code < 256 -> flags_ok k ->
  get_key code k = run_action (layout code (caps k =? 1) (shifted k)) k /\
  flags_ok (get_key code k).2 /\ keyboard_buf (get_key code k).2 = keyboard_buf k /\
  key_idx (get_key code k).2 = key_idx k /\
  ((get_key code k).1 = 0 \/ (get_key code k).1 = 10 \/ 32 <= (get_key code k).1 <= 126).
Proof.
  intros Hc W. rewrite (get_key_action code k Hc W).
  pose proof (layout_ok code (caps k =? 1) (shifted k)) as Ha.
  pose proof (run_action_flags _ k Ha W). pose proof (run_action_char _ k Ha).
  pose proof (run_action_line (layout code (caps k =? 1) (shifted k)) k). tauto.
Qed.

Lemma get_key_layout_witness :
  let k := kbd_reset <| caps := 1 |> in
  (get_key 0x1E k).1 = 65 /\ (get_key 0x02 k).1 = 49 /\ (get_key 0x33 k).1 = 60.
Proof.
  intros k. assert (flags_ok k) as W by (split; unfold is_flag; cbn; auto; lia).
  pose proof (get_key_layout 0x1E k ltac:(lia) W) as (H1 & _).
  pose proof (get_key_layout 0x02 k ltac:(lia) W) as (H2 & _).
  pose proof (get_key_layout 0x33 k ltac:(lia) W) as (H3 & _).
  split_and!; [exact (f_equal fst H1)|exact (f_equal fst H2)|exact (f_equal fst H3)].
Defined.
