(* ===== verification/Paging.v ===== *)
(** The page tables: [src/code/paging.c], the entries of [src/code/x86_desc.h],
    and the updates of the program page and of the user's video page that the
    system calls, the scheduler and the terminal switch make.

    [translate] is the two-level page walk of the architecture; it is the
    specification the tables are proved against. *)
From stdpp Require Import base option list numbers.
From Stdlib Require Import ZArith Lia.
From S2P Require Import Prelude.

Definition NUM_PD : Z := 1024.
Definition NUM_PT : Z := 1024.
Definition VID_MEM_INDEX : Z := 0xB8.
Definition TERMINAL_ONE_VIDMEM_IDX : Z := 0xB9.
Definition TERMINAL_TWO_VIDMEM_IDX : Z := 0xBA.
Definition TERMINAL_THREE_VIDMEM_IDX : Z := 0xBB.
Definition PROGRAM_IMG_IDX : Z := 32.
Definition OFFSET_10 : Z := 10.
Definition OFFSET_12 : Z := 12.

(** pde_t and pte_t: the same eleven fields, [e_ps] being [ps] or [pat]. *)
Record entry := mkEntry {
  e_p : Z;
  e_rw : Z;
  e_us : Z;
  e_pwt : Z;
  e_pcd : Z;
  e_a : Z;
  e_d : Z;
  e_ps : Z;
  e_g : Z;
  e_avl : Z;
  e_addr : Z;    (* 20 bits *)
}.

#[export] Instance eta_entry : EtaExpand entry := fun e =>
  mkEntry (e_p e) (e_rw e) (e_us e) (e_pwt e) (e_pcd e) (e_a e) (e_d e) (e_ps e) (e_g e)
    (e_avl e) (e_addr e).

(** The tables before [paging_init]: static storage is zero. *)
Definition zero_entry : entry := mkEntry 0 0 0 0 0 0 0 0 0 0 0.

Record paging := mkPaging { pd : list entry; pt : list entry; pt_user : list entry }.

#[export] Instance eta_paging : EtaExpand paging := fun P =>
  mkPaging (pd P) (pt P) (pt_user P).

Definition paging_zero : paging :=
  mkPaging (replicate 1024 zero_entry) (replicate 1024 zero_entry) (replicate 1024 zero_entry).

(** A store to the 20-bit address field. *)
Definition u20 (z : Z) : Z := z mod 1048576.

(** The assignments to every field of an entry in turn: present, read/write,
    user, page size, global and address; the other fields are 0. *)
Definition make_entry (p_ us_ ps_ g_ addr_ : Z) : entry :=
  mkEntry p_ 1 us_ 0 0 0 0 ps_ g_ 0 (u20 addr_).

Definition upd_entry (l : list entry) (i : Z) (f : entry -> entry) : option (list entry) :=
  e ← l.[i]; l.[i := f e].

Section paging_c.
Context (pt_addr pt_user_addr : Z).

Definition paging_init (P : paging) : option paging :=
  d ← (pd P).[0 := make_entry 1 0 0 0 (Z.shiftr pt_addr OFFSET_12)];
  d ← d.[1 := make_entry 1 0 1 1 (Z.shiftl 1 OFFSET_10)];
  t ← (pt P).[VID_MEM_INDEX := make_entry 1 0 0 0 VID_MEM_INDEX];
  t ← t.[TERMINAL_ONE_VIDMEM_IDX := make_entry 1 0 0 0 TERMINAL_ONE_VIDMEM_IDX];
  t ← t.[TERMINAL_TWO_VIDMEM_IDX := make_entry 1 0 0 0 TERMINAL_TWO_VIDMEM_IDX];
  t ← t.[TERMINAL_THREE_VIDMEM_IDX := make_entry 1 0 0 0 TERMINAL_THREE_VIDMEM_IDX];
  d ← for_range 2 NUM_PD (fun i d => d.[i := make_entry 0 0 1 0 (Z.shiftl i OFFSET_10)]) d;
  d ← upd_entry d PROGRAM_IMG_IDX (fun e => e <| e_p := 1 |> <| e_ps := 1 |> <| e_us := 1 |>);
  d ← d.[PROGRAM_IMG_IDX + 1 := make_entry 1 1 0 0 (Z.shiftr pt_user_addr OFFSET_12)];
  u ← (pt_user P).[VID_MEM_INDEX := make_entry 1 1 0 0 VID_MEM_INDEX];
  (* for (i = 0; i < NUM_PT && i != VID_MEM_INDEX; i++) *)
  t ← for_range 0 VID_MEM_INDEX (fun i t => t.[i := make_entry 0 0 0 0 i]) t;
  Some (mkPaging d t u).
End paging_c.

(** pd[PROGRAM_IMG_IDX].p = 1; pd[PROGRAM_IMG_IDX].addr = (pid+2) << OFFSET_10 *)
Definition map_program (pid : Z) (P : paging) : option paging :=
  d ← upd_entry (pd P) PROGRAM_IMG_IDX
    (fun e => e <| e_p := 1 |> <| e_addr := u20 (Z.shiftl (pid + 2) OFFSET_10) |>);
  Some (P <| pd := d |>).

(** pt_user[VID_MEM_INDEX].addr_31_12 = idx *)
Definition map_user_video (idx : Z) (P : paging) : option paging :=
  u ← upd_entry (pt_user P) VID_MEM_INDEX (fun e => e <| e_addr := u20 idx |>);
  Some (P <| pt_user := u |>).

(** pt_user[VID_MEM_INDEX].p = 1 *)
Definition present_user_video (P : paging) : option paging :=
  u ← upd_entry (pt_user P) VID_MEM_INDEX (fun e => e <| e_p := 1 |>);
  Some (P <| pt_user := u |>).

(** The return type is unsigned: -1 is 0xFFFFFFFF. *)
Definition init_user_page (pid : Z) (P : paging) : option (Z * paging) :=
  if 1 <? pid then Some (u32 (-1), P)
  else
    e ← (pd P).[pid + 2];
    if e_p e =? 1 then Some (u32 (-1), P)
    else
      d ← (pd P).[pid + 2 := make_entry 1 1 1 0 (Z.shiftl (pid + 2) OFFSET_10)];
      Some (0, P <| pd := d |>).

Definition close_user_page (pid : Z) (P : paging) : option (Z * paging) :=
  if 1 <? pid then Some (u32 (-1), P)
  else
    d ← (pd P).[pid + 2 := make_entry 0 1 1 0 (Z.shiftl (pid + 2) OFFSET_10)];
    Some (0, P <| pd := d |>).

(** ** The page walk *)

Section walk.
Context (pt_addr pt_user_addr : Z).

(** The page table whose frame an entry of the directory names. *)
Definition table_of (P : paging) (frame : Z) : option (list entry) :=
  if frame =? Z.shiftr pt_addr 12 then Some (pt P)
  else if frame =? Z.shiftr pt_user_addr 12 then Some (pt_user P)
  else None.

Definition allowed (user : bool) (e : entry) : bool :=
  (e_p e =? 1) && (negb user || (e_us e =? 1)).

(** The physical address of [va], or [None] for a page fault. *)
Definition translate (P : paging) (user : bool) (va : Z) : option Z :=
  e ← (pd P).[va / 4194304];
  if negb (allowed user e) then None
  else if e_ps e =? 1 then Some (e_addr e / 1024 * 4194304 + va mod 4194304)
  else
    t ← table_of P (e_addr e);
    e ← t.[va / 4096 mod 1024];
    if negb (allowed user e) then None
    else Some (e_addr e * 4096 + va mod 4096).

(** The tables at work: the program page is mapped to the four megabytes from
    [prog] on and the user's video page to frame [vid]. *)
Definition pd_entry (prog i : Z) : entry :=
  if i =? 0 then make_entry 1 0 0 0 (Z.shiftr pt_addr 12)
  else if i =? 1 then make_entry 1 0 1 1 1024
  else if i =? 32 then make_entry 1 1 1 0 (prog / 4096)
  else if i =? 33 then make_entry 1 1 0 0 (Z.shiftr pt_user_addr 12)
  else make_entry 0 0 1 0 (i * 1024).

Definition pt_entry (i : Z) : entry :=
  if i <? 184 then make_entry 0 0 0 0 i
  else if i <? 188 then make_entry 1 0 0 0 i
  else zero_entry.

Definition pt_user_entry (vid i : Z) : entry :=
  if i =? 184 then make_entry 1 1 0 0 vid else zero_entry.

Record tables_are (P : paging) (prog vid : Z) : Prop := {
  are_pd : forall i, 0 <= i < 1024 -> (pd P).[i] = Some (pd_entry prog i);
  are_pt : forall i, 0 <= i < 1024 -> (pt P).[i] = Some (pt_entry i);
  are_pt_user : forall i, 0 <= i < 1024 -> (pt_user P).[i] = Some (pt_user_entry vid i);
}.

(** The address map those tables stand for. *)
Definition KERNEL_BASE : Z := 4194304.
Definition USER_BASE : Z := 134217728.
Definition PAGE_4MB : Z := 4194304.

Definition address_map (prog vid : Z) (user : bool) (va : Z) : option Z :=
  if (753664 <=? va) && (va <? 753664 + 16384) then if user then None else Some va
  else if (KERNEL_BASE <=? va) && (va <? KERNEL_BASE + PAGE_4MB) then
    if user then None else Some va
  else if (USER_BASE <=? va) && (va <? USER_BASE + PAGE_4MB) then Some (prog + (va - USER_BASE))
  else if (USER_BASE + PAGE_4MB + 753664 <=? va) && (va <? USER_BASE + PAGE_4MB + 753664 + 4096)
  then Some (vid * 4096 + va mod 4096)
  else None.
End walk.

(** ** Lemmas *)

(** A table of 1024 entries, as a function of the index. *)
Definition tabulates (l : list entry) (f : Z -> entry) : Prop :=
  len l = 1024 /\ forall i, 0 <= i < 1024 -> l.[i] = Some (f i).

Definition put_entry (f : Z -> entry) (i : Z) (e : entry) : Z -> entry :=
  fun j => if j =? i then e else f j.

Lemma tabulates_ext l f g :
  (forall i, 0 <= i < 1024 -> f i = g i) -> tabulates l f -> tabulates l g.
Proof. intros E [Hl H]. split; [done|]. intros i Hi. by rewrite <- E, H. Qed.

Lemma tabulates_zero : tabulates (replicate 1024 zero_entry) (fun _ => zero_entry).
Proof.
  split; [by rewrite length_replicate|]. intros i Hi. apply aget_replicate. lia.
Qed.

Lemma tabulates_aset l f i e :
  tabulates l f -> 0 <= i < 1024 ->
  exists l', l.[i := e] = Some l' /\ tabulates l' (put_entry f i e).
Proof.
  intros [Hl H] Hi. rewrite aset_Some by lia. eexists; split; [done|].
  split; [by rewrite length_insert|]. intros j Hj. unfold put_entry.
  destruct (Z.eqb_spec j i) as [->|Hne]; [apply aget_insert_eq; lia|].
  rewrite aget_insert_ne by lia. by apply H.
Qed.

Lemma tabulates_upd l f i g :
  tabulates l f -> 0 <= i < 1024 ->
  exists l', upd_entry l i g = Some l' /\ tabulates l' (put_entry f i (g (f i))).
Proof.
  intros Hl Hi. unfold upd_entry. rewrite (proj2 Hl i Hi). cbn [mbind option_bind].
  by apply tabulates_aset.
Qed.

Lemma tabulates_fill l f g lo hi :
  tabulates l f -> 0 <= lo <= hi -> hi <= 1024 ->
  exists l', for_range lo hi (fun i l => l.[i := g i]) l = Some l' /\
    tabulates l' (fun j => if (lo <=? j) && (j <? hi) then g j else f j).
Proof.
  intros [Hl H] Hlo Hhi. destruct (for_range_fill g l lo hi Hlo) as (l' & -> & Hl' & H'); [lia|].
  exists l'. split; [done|]. split; [lia|]. intros i Hi. rewrite H'.
  destruct ((lo <=? i) && (i <? hi)); [done|by apply H].
Qed.

Section map.
Context (pt_addr pt_user_addr : Z).

(** Where the linker puts the two page tables: at different frames. *)
Record tables_placed : Prop := {
  placed_pt : 0 <= pt_addr < 4294967296;
  placed_pt_user : 0 <= pt_user_addr < 4294967296;
  placed_apart : Z.shiftr pt_addr 12 <> Z.shiftr pt_user_addr 12;
}.

Lemma tables_are_tabulates P prog vid :
  tables_are pt_addr pt_user_addr P prog vid <->
  (forall i, 0 <= i < 1024 -> (pd P).[i] = Some (pd_entry pt_addr pt_user_addr prog i)) /\
  (forall i, 0 <= i < 1024 -> (pt P).[i] = Some (pt_entry i)) /\
  (forall i, 0 <= i < 1024 -> (pt_user P).[i] = Some (pt_user_entry vid i)).
Proof. split; [by intros [? ? ?]|]. intros (? & ? & ?). by split. Qed.

Lemma paging_init_tables :
  exists P, paging_init pt_addr pt_user_addr paging_zero = Some P /\
    tables_are pt_addr pt_user_addr P USER_BASE VID_MEM_INDEX /\
    len (pd P) = 1024 /\ len (pt P) = 1024 /\ len (pt_user P) = 1024.
Proof.
  unfold paging_init, paging_zero, VID_MEM_INDEX, TERMINAL_ONE_VIDMEM_IDX, TERMINAL_TWO_VIDMEM_IDX,
    TERMINAL_THREE_VIDMEM_IDX, PROGRAM_IMG_IDX, NUM_PD. cbn [pd pt pt_user].
  destruct (tabulates_aset _ _ 0 (make_entry 1 0 0 0 (Z.shiftr pt_addr OFFSET_12)) tabulates_zero)
    as (d0 & -> & Hd0); [lia|]. cbn [mbind option_bind].
  destruct (tabulates_aset _ _ 1 (make_entry 1 0 1 1 (Z.shiftl 1 OFFSET_10)) Hd0)
    as (d1 & -> & Hd1); [lia|]. cbn [mbind option_bind].
  destruct (tabulates_aset _ _ 0xB8 (make_entry 1 0 0 0 0xB8) tabulates_zero)
    as (t0 & -> & Ht0); [lia|]. cbn [mbind option_bind].
  destruct (tabulates_aset _ _ 0xB9 (make_entry 1 0 0 0 0xB9) Ht0) as (t1 & -> & Ht1); [lia|].
  cbn [mbind option_bind].
  destruct (tabulates_aset _ _ 0xBA (make_entry 1 0 0 0 0xBA) Ht1) as (t2 & -> & Ht2); [lia|].
  cbn [mbind option_bind].
  destruct (tabulates_aset _ _ 0xBB (make_entry 1 0 0 0 0xBB) Ht2) as (t3 & -> & Ht3); [lia|].
  cbn [mbind option_bind].
  destruct (tabulates_fill _ _ (fun i => make_entry 0 0 1 0 (Z.shiftl i OFFSET_10)) 2 1024 Hd1)
    as (d2 & E2 & Hd2); [lia|lia|]. rewrite E2. cbn [mbind option_bind].
  destruct (tabulates_upd _ _ 32 (fun e => e <| e_p := 1 |> <| e_ps := 1 |> <| e_us := 1 |>) Hd2)
    as (d3 & E3 & Hd3); [lia|]. rewrite E3. cbn [mbind option_bind].
  destruct (tabulates_aset _ _ (32 + 1) (make_entry 1 1 0 0 (Z.shiftr pt_user_addr OFFSET_12)) Hd3)
    as (d4 & -> & Hd4); [lia|]. cbn [mbind option_bind].
  destruct (tabulates_aset _ _ 0xB8 (make_entry 1 1 0 0 0xB8) tabulates_zero)
    as (u & -> & Hu); [lia|]. cbn [mbind option_bind].
  destruct (tabulates_fill _ _ (fun i => make_entry 0 0 0 0 i) 0 0xB8 Ht3)
    as (t4 & E4 & Ht4); [lia|lia|]. rewrite E4. cbn [mbind option_bind].
  eexists; split; [done|]. cbn [pd pt pt_user]. split; [|split_and!; [apply Hd4|apply Ht4|apply Hu]].
  apply tables_are_tabulates. split_and!; cbn [pd pt pt_user]; intros i Hi.
  - rewrite (proj2 Hd4 i Hi). f_equal. unfold put_entry, pd_entry.
    destruct (Z.eqb_spec i (32 + 1)), (Z.eqb_spec i 32), (Z.eqb_spec i 1), (Z.eqb_spec i 0),
      (Z.eqb_spec i 33); subst; try lia; try done.
    replace ((2 <=? i) && (i <? 1024)) with true by (symmetry; apply andb_true_iff; lia).
    unfold OFFSET_10. by rewrite Z.shiftl_mul_pow2 by lia.
  - rewrite (proj2 Ht4 i Hi). f_equal. unfold put_entry, pt_entry.
    destruct (Z.ltb_spec i 184), (Z.leb_spec 0 i); try lia; cbn [andb]; [done|].
    destruct (Z.ltb_spec i 188).
    + destruct (Z.eqb_spec i 187), (Z.eqb_spec i 186), (Z.eqb_spec i 185), (Z.eqb_spec i 184);
        subst; try lia; done.
    + destruct (Z.eqb_spec i 187), (Z.eqb_spec i 186), (Z.eqb_spec i 185), (Z.eqb_spec i 184);
        subst; try lia; done.
  - rewrite (proj2 Hu i Hi). done.
Qed.

Lemma frame_range a : 0 <= a < 4294967296 -> u20 (Z.shiftr a 12) = Z.shiftr a 12.
Proof.
  intros Ha. unfold u20. rewrite Z.shiftr_div_pow2 by lia. change (2 ^ 12) with 4096.
  apply Z.mod_small. Z.to_euclidean_division_equations. lia.
Qed.

Context (Hplaced : tables_placed).

Lemma walk_low P prog vid user va :
  tables_are pt_addr pt_user_addr P prog vid -> 0 <= va < 4194304 ->
  translate pt_addr pt_user_addr P user va = address_map prog vid user va.
Proof.
  intros [Hd Ht _] Hva. unfold translate, address_map, KERNEL_BASE, USER_BASE, PAGE_4MB.
  assert (va / 4194304 = 0) as -> by (Z.to_euclidean_division_equations; lia).
  rewrite Hd by lia. cbn [mbind option_bind].
  change (pd_entry pt_addr pt_user_addr prog 0) with (make_entry 1 0 0 0 (Z.shiftr pt_addr 12)).
  unfold allowed, make_entry. cbn [e_p e_us e_ps e_addr].
  rewrite frame_range by apply Hplaced. unfold table_of. rewrite (Z.eqb_refl (Z.shiftr pt_addr 12)).
  replace ((4194304 <=? va) && (va <? 4194304 + 4194304)) with false by lia.
  replace ((134217728 <=? va) && (va <? 134217728 + 4194304)) with false by lia.
  replace ((134217728 + 4194304 + 753664 <=? va) && (va <? 134217728 + 4194304 + 753664 + 4096))
    with false by lia.
  destruct user; cbn [negb orb andb Z.eqb Pos.eqb]; [by destruct (_ && _)|]. cbn [mbind option_bind].
  assert (0 <= va / 4096 < 1024) as Hj by (Z.to_euclidean_division_equations; lia).
  rewrite (Z.mod_small (va / 4096)) by lia. rewrite Ht by lia. cbn [mbind option_bind].
  unfold pt_entry. destruct (Z.ltb_spec (va / 4096) 184); [|destruct (Z.ltb_spec (va / 4096) 188)].
  - replace ((753664 <=? va) && (va <? 753664 + 16384)) with false; [done|].
    symmetry. apply andb_false_iff. Z.to_euclidean_division_equations. lia.
  - cbn [e_p e_us e_addr make_entry andb orb negb Z.eqb Pos.eqb].
    replace ((753664 <=? va) && (va <? 753664 + 16384)) with true
      by (symmetry; apply andb_true_iff; Z.to_euclidean_division_equations; lia).
    f_equal. unfold u20. rewrite Z.mod_small by lia. pose proof (Z.div_mod va 4096). lia.
  - replace ((753664 <=? va) && (va <? 753664 + 16384)) with false; [done|].
    symmetry. apply andb_false_iff. Z.to_euclidean_division_equations. lia.
Qed.

Lemma walk_user_video P prog vid user va :
  tables_are pt_addr pt_user_addr P prog vid -> 0 <= vid < 1048576 ->
  138412032 <= va < 142606336 ->
  translate pt_addr pt_user_addr P user va = address_map prog vid user va.
Proof.
  intros [Hd _ Hu] Hvid Hva. unfold translate, address_map, KERNEL_BASE, USER_BASE, PAGE_4MB.
  assert (va / 4194304 = 33) as -> by (Z.to_euclidean_division_equations; lia).
  rewrite Hd by lia. cbn [mbind option_bind].
  change (pd_entry pt_addr pt_user_addr prog 33) with (make_entry 1 1 0 0 (Z.shiftr pt_user_addr 12)).
  unfold allowed, make_entry. cbn [e_p e_us e_ps e_addr].
  rewrite frame_range by apply Hplaced. unfold table_of.
  destruct (Z.eqb_spec (Z.shiftr pt_user_addr 12) (Z.shiftr pt_addr 12)) as [E|_];
    [by destruct (placed_apart Hplaced)|]. rewrite (Z.eqb_refl (Z.shiftr pt_user_addr 12)).
  replace ((753664 <=? va) && (va <? 753664 + 16384)) with false by lia.
  replace ((4194304 <=? va) && (va <? 4194304 + 4194304)) with false by lia.
  replace ((134217728 <=? va) && (va <? 134217728 + 4194304)) with false by lia.
  rewrite orb_true_r. cbn [andb negb Z.eqb Pos.eqb mbind option_bind].
  pose proof (Z.mod_pos_bound (va / 4096) 1024).
  rewrite Hu by lia. cbn [mbind option_bind]. unfold pt_user_entry.
  destruct (Z.eqb_spec (va / 4096 mod 1024) 184) as [E|E].
  - cbn [e_p e_us e_addr make_entry]. rewrite orb_true_r. cbn [andb negb Z.eqb Pos.eqb].
    replace ((134217728 + 4194304 + 753664 <=? va) && (va <? 134217728 + 4194304 + 753664 + 4096))
      with true by (symmetry; apply andb_true_iff; Z.to_euclidean_division_equations; lia).
    unfold u20. by rewrite Z.mod_small.
  - cbn [e_p zero_entry]. cbn [andb negb Z.eqb].
    replace ((134217728 + 4194304 + 753664 <=? va) && (va <? 134217728 + 4194304 + 753664 + 4096))
      with false; [done|].
    symmetry. apply andb_false_iff. Z.to_euclidean_division_equations. lia.
Qed.

Lemma walk_large P prog vid user va :
  tables_are pt_addr pt_user_addr P prog vid -> 0 <= prog < 4294967296 -> prog mod 4194304 = 0 ->
  4194304 <= va < 138412032 \/ 142606336 <= va < 4294967296 ->
  translate pt_addr pt_user_addr P user va = address_map prog vid user va.
Proof.
  intros [Hd _ _] Hprog Hmod Hva. unfold translate, address_map, KERNEL_BASE, USER_BASE, PAGE_4MB.
  assert (0 <= va / 4194304 < 1024) as Hi by (Z.to_euclidean_division_equations; lia).
  assert (va / 4194304 <> 0 /\ va / 4194304 <> 33) as [Hi0 Hi33]
    by (Z.to_euclidean_division_equations; lia).
  rewrite Hd by lia. cbn [mbind option_bind]. unfold pd_entry.
  replace ((753664 <=? va) && (va <? 753664 + 16384)) with false by lia.
  replace ((134217728 + 4194304 + 753664 <=? va) && (va <? 134217728 + 4194304 + 753664 + 4096))
    with false by lia.
  rewrite (proj2 (Z.eqb_neq _ _) Hi0), (proj2 (Z.eqb_neq _ _) Hi33).
  pose proof (Z.div_mod va 4194304) as Hdm. pose proof (Z.mod_pos_bound va 4194304).
  destruct (Z.eqb_spec (va / 4194304) 1) as [E1|E1]; [|destruct (Z.eqb_spec (va / 4194304) 32) as [E2|E2]].
  - replace ((4194304 <=? va) && (va <? 4194304 + 4194304)) with true by lia.
    unfold allowed. cbn [e_p e_us e_ps e_addr make_entry]. change (u20 1024) with 1024.
    destruct user; cbn [negb orb andb Z.eqb Pos.eqb]; [done|]. f_equal.
    change (1024 / 1024) with 1. lia.
  - replace ((4194304 <=? va) && (va <? 4194304 + 4194304)) with false by lia.
    replace ((134217728 <=? va) && (va <? 134217728 + 4194304)) with true by lia.
    unfold allowed. cbn [e_p e_us e_ps e_addr make_entry]. rewrite orb_true_r.
    cbn [negb orb andb Z.eqb Pos.eqb]. f_equal. unfold u20.
    rewrite (Z.mod_small (prog / 4096)) by (Z.to_euclidean_division_equations; lia).
    rewrite Z.div_div by lia. change (4096 * 1024) with 4194304.
    pose proof (Z.div_mod prog 4194304). lia.
  - replace ((4194304 <=? va) && (va <? 4194304 + 4194304)) with false by lia.
    replace ((134217728 <=? va) && (va <? 134217728 + 4194304)) with false by lia.
    unfold allowed. cbn [e_p make_entry]. done.
Qed.

(** The page walk over the tables at work is the address map. *)
Lemma translate_map P prog vid user va :
  tables_are pt_addr pt_user_addr P prog vid ->
  0 <= prog < 4294967296 -> prog mod 4194304 = 0 -> 0 <= vid < 1048576 -> 0 <= va < 4294967296 ->
  translate pt_addr pt_user_addr P user va = address_map prog vid user va.
Proof.
  intros HT Hprog Hmod Hvid Hva.
  destruct (Z_lt_dec va 4194304); [apply walk_low; [done|lia]|].
  destruct (decide (138412032 <= va < 142606336)).
  - by apply walk_user_video.
  - apply walk_large; try done. lia.
Qed.

Lemma map_program_tables P prog vid pid :
  tables_are pt_addr pt_user_addr P prog vid -> 0 <= pid < 1022 -> len (pd P) = 1024 ->
  exists P', map_program pid P = Some P' /\
    tables_are pt_addr pt_user_addr P' ((pid + 2) * PAGE_4MB) vid /\ len (pd P') = 1024 /\
    pt P' = pt P /\ pt_user P' = pt_user P.
Proof.
  intros [Hd Ht Hu] Hpid Hl.
  destruct (tabulates_upd (pd P) _ 32
    (fun e => e <| e_p := 1 |> <| e_addr := u20 (Z.shiftl (pid + 2) OFFSET_10) |>)
    (conj Hl Hd)) as (d & E & Hl' & Hd'); [lia|].
  unfold map_program, PROGRAM_IMG_IDX. rewrite E. cbn [mbind option_bind].
  eexists; split; [done|]. split; [|done]. split; cbn; try done.
  intros i Hi. rewrite Hd' by done. f_equal. unfold put_entry.
  destruct (Z.eqb_spec i 32) as [->|Hne].
  - cbn. unfold make_entry. f_equal. unfold OFFSET_10, PAGE_4MB. f_equal.
    rewrite Z.shiftl_mul_pow2 by lia. change (2 ^ 10) with 1024.
    Z.to_euclidean_division_equations. lia.
  - unfold pd_entry. by rewrite (proj2 (Z.eqb_neq _ _) Hne).
Qed.

Lemma map_user_video_tables P prog vid idx :
  tables_are pt_addr pt_user_addr P prog vid -> len (pt_user P) = 1024 ->
  exists P', map_user_video idx P = Some P' /\ tables_are pt_addr pt_user_addr P' prog idx /\
    len (pt_user P') = 1024 /\ pd P' = pd P /\ pt P' = pt P.
Proof.
  intros [Hd Ht Hu] Hl.
  destruct (tabulates_upd (pt_user P) _ 184 (fun e => e <| e_addr := u20 idx |>)
    (conj Hl Hu)) as (u & E & Hl' & Hu'); [lia|].
  unfold map_user_video, VID_MEM_INDEX. rewrite E. cbn [mbind option_bind].
  eexists; split; [done|]. split; [|done]. split; cbn; try done.
  intros i Hi. rewrite Hu' by done. f_equal. unfold put_entry.
  destruct (Z.eqb_spec i 184) as [->|Hne]; [done|].
  unfold pt_user_entry. by rewrite (proj2 (Z.eqb_neq _ _) Hne).
Qed.
End map.

(** ** The updates made while the kernel runs *)

Inductive page_op := Program (pid : Z) | UserVideo (idx : Z) | PresentVideo.

Definition run_page_op (o : page_op) (P : paging) : option paging :=
  match o with
  | Program pid => map_program pid P
  | UserVideo idx => map_user_video idx P
  | PresentVideo => present_user_video P
  end.

Fixpoint run_page_ops (os : list page_op) (P : paging) : option paging :=
  match os with
  | [] => Some P
  | o :: os => P ← run_page_op o P; run_page_ops os P
  end.

Definition page_op_ok (o : page_op) : Prop :=
  match o with
  | Program pid => 0 <= pid < 1022
  | UserVideo idx => 0 <= idx < 1048576
  | PresentVideo => True
  end.

(** The program page and the video frame after an update. *)
Definition page_view (o : page_op) (v : Z * Z) : Z * Z :=
  match o with
  | Program pid => ((pid + 2) * PAGE_4MB, v.2)
  | UserVideo idx => (v.1, idx)
  | PresentVideo => v
  end.

Record paging_ok (pt_addr pt_user_addr : Z) (P : paging) (v : Z * Z) : Prop := {
  pg_tables : tables_are pt_addr pt_user_addr P v.1 v.2;
  pg_pd : len (pd P) = 1024;
  pg_pt_user : len (pt_user P) = 1024;
  pg_prog : 0 <= v.1 < 4294967296 /\ v.1 mod 4194304 = 0;
  pg_vid : 0 <= v.2 < 1048576;
}.

Section running.
Context (pt_addr pt_user_addr : Z) (Hplaced : tables_placed pt_addr pt_user_addr).

Lemma present_user_video_tables P prog vid :
  tables_are pt_addr pt_user_addr P prog vid -> len (pt_user P) = 1024 ->
  exists P', present_user_video P = Some P' /\ tables_are pt_addr pt_user_addr P' prog vid /\
    len (pt_user P') = 1024 /\ pd P' = pd P /\ pt P' = pt P.
Proof.
  intros [Hd Ht Hu] Hl.
  destruct (tabulates_upd (pt_user P) _ 184 (fun e => e <| e_p := 1 |>)
    (conj Hl Hu)) as (u & E & Hl' & Hu'); [lia|].
  unfold present_user_video, VID_MEM_INDEX. rewrite E. cbn [mbind option_bind].
  eexists; split; [done|]. split; [|done]. split; cbn; try done.
  intros i Hi. rewrite Hu' by done. f_equal. unfold put_entry.
  destruct (Z.eqb_spec i 184) as [->|Hne]; done.
Qed.

Lemma run_page_op_ok o P v :
  page_op_ok o -> paging_ok pt_addr pt_user_addr P v ->
  exists P', run_page_op o P = Some P' /\ paging_ok pt_addr pt_user_addr P' (page_view o v).
Proof.
  intros Ho [HT Hl Hlu [Hp Hm] Hv]. destruct o as [pid|idx|]; cbn [run_page_op page_view page_op_ok] in *.
  - destruct (map_program_tables pt_addr pt_user_addr P _ _ pid HT Ho Hl) as (P' & E & HT' & Hl' & _ & Eu).
    exists P'. split; [done|]. split; try done; [by rewrite Eu|]. cbn [fst snd]. unfold PAGE_4MB.
    split; [lia|]. apply Z.mod_mul. lia.
  - destruct (map_user_video_tables pt_addr pt_user_addr P _ _ idx HT Hlu) as (P' & E & HT' & Hl' & Ed & _).
    exists P'. split; [done|]. split; try done. by rewrite Ed.
  - destruct (present_user_video_tables P _ _ HT Hlu) as (P' & E & HT' & Hl' & Ed & _).
    exists P'. split; [done|]. split; try done. by rewrite Ed.
Qed.

Lemma paging_init_ok :
  exists P, paging_init pt_addr pt_user_addr paging_zero = Some P /\
    paging_ok pt_addr pt_user_addr P (USER_BASE, VID_MEM_INDEX).
Proof.
  destruct (paging_init_tables pt_addr pt_user_addr) as (P & E & HT & Hl & _ & Hu).
  exists P. split; [exact E|]. split; [exact HT|exact Hl|exact Hu| |]; cbn; unfold USER_BASE, VID_MEM_INDEX; [|lia].
  split; [lia|reflexivity].
Qed.

Lemma run_page_ops_ok os : forall P v,
  Forall page_op_ok os -> paging_ok pt_addr pt_user_addr P v ->
  exists P', run_page_ops os P = Some P' /\
    paging_ok pt_addr pt_user_addr P' (foldl (fun v o => page_view o v) v os).
Proof.
  induction os as [|o os IH]; intros P v Hos HP; [by exists P|].
  apply Forall_cons_1 in Hos as [Ho Hos].
  destruct (run_page_op_ok o P v Ho HP) as (P1 & E & H1).
  cbn [run_page_ops foldl]. rewrite E. cbn [mbind option_bind]. by apply IH.
Qed.
End running.

(** ** Properties *)

(** C29: from the zeroed tables, [paging_init] and any sequence of the page
    updates the kernel makes end without leaving a table, and the page walk,
    for every 32-bit address in both modes, is the intended map: video memory
    and the kernel's four megabytes map to themselves for the kernel only, the
    program page to the last program mapped, the user's video page to the last
    frame chosen, and every other address faults. *)
Theorem page_walk_is_address_map pt_addr pt_user_addr os user va :
  tables_placed pt_addr pt_user_addr -> Forall page_op_ok os -> 0 <= va < 4294967296 ->
  exists P0 P, paging_init pt_addr pt_user_addr paging_zero = Some P0 /\
    run_page_ops os P0 = Some P /\
    let v := foldl (fun v o => page_view o v) (USER_BASE, VID_MEM_INDEX) os in
    translate pt_addr pt_user_addr P user va = address_map v.1 v.2 user va.
Proof.
  intros Hpl Hos Hva. destruct (paging_init_ok pt_addr pt_user_addr) as (P0 & E0 & H0).
  destruct (run_page_ops_ok pt_addr pt_user_addr os P0 _ Hos H0) as (P & E & [HT _ _ [Hp Hm] Hv]).
  exists P0, P. split; [exact E0|]. split; [exact E|]. cbv zeta. by apply translate_map.
Qed.

Lemma page_walk_is_address_map_witness :
  exists P0 P, paging_init 0x410000 0x411000 paging_zero = Some P0 /\
    run_page_ops [Program 3; UserVideo 0xBA] P0 = Some P /\
    translate 0x410000 0x411000 P true 0x8048000 = Some 0x1448000.
Proof.
  refine (page_walk_is_address_map 0x410000 0x411000 [Program 3; UserVideo 0xBA] true 0x8048000 _ _ _).
  - split; [lia|lia|discriminate].
  - repeat constructor; cbn; lia.
  - lia.
Defined.

(** C39: a program in user mode reaches its own four megabytes and the one page of
    video memory it is given, the frame the tables name for it, and nothing else:
    never the kernel, never another page of video memory, and never the memory of a
    program with another process number, whatever addresses the two use. *)
Theorem user_memory_isolated pt_addr pt_user_addr P v pid1 pid2 va1 va2 pa1 pa2 :
  tables_placed pt_addr pt_user_addr -> paging_ok pt_addr pt_user_addr P v ->
  0 <= pid1 < 1022 -> 0 <= pid2 < 1022 -> pid1 <> pid2 -> 184 <= v.2 < 188 ->
  0 <= va1 < 4294967296 -> 0 <= va2 < 4294967296 ->
  exists P1 P2, map_program pid1 P = Some P1 /\ map_program pid2 P = Some P2 /\
    (translate pt_addr pt_user_addr P1 true va1 = Some pa1 ->
     translate pt_addr pt_user_addr P2 true va2 = Some pa2 ->
     (v.2 * 4096 <= pa1 < (v.2 + 1) * 4096 \/ (pid1 + 2) * PAGE_4MB <= pa1 < (pid1 + 3) * PAGE_4MB) /\
     (pa1 = pa2 -> v.2 * 4096 <= pa1 < (v.2 + 1) * 4096)).
Proof.
  intros Hpl HP H1 H2 Hne Hvid Hva1 Hva2.
  destruct (run_page_op_ok pt_addr pt_user_addr (Program pid1) P v H1 HP) as (P1 & E1 & [HT1 _ _ [Hp1 Hm1] Hv1]).
  destruct (run_page_op_ok pt_addr pt_user_addr (Program pid2) P v H2 HP) as (P2 & E2 & [HT2 _ _ [Hp2 Hm2] Hv2]).
  exists P1, P2. split; [done|]. split; [done|]. cbn [page_view fst snd] in *.
  rewrite (translate_map _ _ Hpl _ _ _ _ _ HT1), (translate_map _ _ Hpl _ _ _ _ _ HT2) by done.
  unfold address_map, KERNEL_BASE, USER_BASE, PAGE_4MB in *. intros T1 T2.
  assert (forall pid va pa, 0 <= pid ->
    (if (753664 <=? va) && (va <? 753664 + 16384) then None
     else if (4194304 <=? va) && (va <? 4194304 + 4194304) then None
     else if (134217728 <=? va) && (va <? 134217728 + 4194304)
     then Some ((pid + 2) * 4194304 + (va - 134217728))
     else if (134217728 + 4194304 + 753664 <=? va) && (va <? 134217728 + 4194304 + 753664 + 4096)
     then Some (v.2 * 4096 + va mod 4096) else None) = Some pa ->
    v.2 * 4096 <= pa < (v.2 + 1) * 4096 \/ (pid + 2) * 4194304 <= pa < (pid + 3) * 4194304) as Hrange.
  { intros pid va pa Hpid. pose proof (Z.mod_pos_bound va 4096).
    repeat case_match; try discriminate; intros [= <-]; lia. }
  apply Hrange in T1; [|lia]. apply Hrange in T2; [|lia]. split; [done|]. intros <-. lia.
Qed.

Lemma user_memory_isolated_witness :
  exists P v P1 P2, paging_ok 0x410000 0x411000 P v /\
    map_program 0 P = Some P1 /\ map_program 1 P = Some P2 /\
    (translate 0x410000 0x411000 P1 true 0x8048000 = Some 0x848000 ->
     translate 0x410000 0x411000 P2 true 0x8048000 = Some 0xC48000 ->
     (v.2 * 4096 <= 0x848000 < (v.2 + 1) * 4096 \/ (0 + 2) * PAGE_4MB <= 0x848000 < (0 + 3) * PAGE_4MB) /\
     (0x848000 = 0xC48000 -> v.2 * 4096 <= 0x848000 < (v.2 + 1) * 4096)).
Proof.
  destruct (paging_init_ok 0x410000 0x411000) as (P & E & H).
  destruct (user_memory_isolated 0x410000 0x411000 P (USER_BASE, VID_MEM_INDEX) 0 1
    0x8048000 0x8048000 0x848000 0xC48000) as (P1 & P2 & E1 & E2 & H12); try lia.
  - split; [lia|lia|discriminate].
  - exact H.
  - cbn. unfold VID_MEM_INDEX. lia.
  - exists P, (USER_BASE, VID_MEM_INDEX), P1, P2. exact (conj H (conj E1 (conj E2 H12))).
Defined.
