(* ===== verification/Rtc.v ===== *)
(** The real-time clock: [src/code/rtc.c].

    The device always interrupts at 1024 Hz; a process sees a virtual rate.
    [rtc_handler] counts the interrupts per terminal and clears a terminal's
    wait flag when the count is a multiple of 1024 over the rate of the process
    that runs there; [rtc_read] sets the flag and spins until it is cleared. *)
From stdpp Require Import base option list numbers.
From Stdlib Require Import ZArith Lia.
From S2P Require Import Prelude LibString FileSystem Console I8259.

Definition MAX_PID : Z := 6.
Definition RTC_IRQ : Z := 8.
Definition REG_A : Z := 0x8A.
Definition REG_B : Z := 0x8B.
Definition REG_C : Z := 0x0C.
Definition NMI : Z := 0x70.
Definition RW : Z := 0x71.
Definition MAX_VIR_FREQ : Z := 1024.
Definition MIN_VIR_FREQ : Z := 2.
Definition MIN_VIR_RATE : Z := 6.

Record rtc_t := mkRtc {
  rtc_wait : Z;
  count_rtc : Z;
  process_rtc : list Z;          (* MAX_PID rates *)
  terminal_rtc_count : list Z;   (* NUM_TERMS counters *)
  terminal_rtc_wait : list Z;    (* NUM_TERMS flags *)
}.

#[export] Instance eta_rtc : EtaExpand rtc_t := fun r =>
  mkRtc (rtc_wait r) (count_rtc r) (process_rtc r) (terminal_rtc_count r) (terminal_rtc_wait r).

Definition rtc_reset : rtc_t := mkRtc 0 1 (replicate 6 0) [0; 0; 0] [0; 0; 0].

(** [prev_b] and [prev_a] are the bytes the device's registers B and A hold. *)
Definition rtc_init (prev_b prev_a : Z) (r : rtc_t) (p : pic) : option (rtc_t * pic) :=
  let p := outb REG_B NMI p in
  let p := outb REG_B NMI p in
  let p := outb (Z.lor prev_b 0x40) RW p in
  let p := enable_irq RTC_IRQ p in
  let p := outb REG_A NMI p in
  let p := outb REG_A NMI p in
  let p := outb (Z.lor (Z.land prev_a 0xF0) MIN_VIR_RATE) RW p in
  l ← for_range 0 MAX_PID (fun i l => l.[i := MAX_VIR_FREQ]) (process_rtc r);
  Some (r <| process_rtc := l |>, p).

(** One round of the loop over the terminals; [pids] are their active_pid
    fields.  A division by zero faults. *)
Definition count_terminal (pids : list Z) (i : Z) (r : rtc_t) : option rtc_t :=
  cur_pid ← pids.[i];
  cur_freq ← (process_rtc r).[cur_pid];
  c ← (terminal_rtc_count r).[i];
  let c := s32 (c + 1) in
  counts ← (terminal_rtc_count r).[i := c];
  let r := r <| terminal_rtc_count := counts |> in
  if (cur_freq =? 0) || (Z.quot MAX_VIR_FREQ cur_freq =? 0) then None
  else if Z.rem c (Z.quot MAX_VIR_FREQ cur_freq) =? 0 then
    waits ← (terminal_rtc_wait r).[i := 0];
    Some (r <| terminal_rtc_wait := waits |>)
  else Some r.

Definition rtc_handler (con : console) (p : pic) (r : rtc_t) : option (console * pic * rtc_t) :=
  let con := con <| intr := false |> in
  let r := r <| count_rtc := s32 (count_rtc r + 1) |> in
  r ← for_range 0 NUM_TERMS (fun i r => count_terminal (active_pid <$> terminals con) i r) r;
  con ← (if Z.rem (count_rtc r) MAX_VIR_FREQ =? 0 then put_cursor con else Some con);
  con ← (if (Z.rem (count_rtc r) (Z.quot MAX_VIR_FREQ 2) =? 0) &&
            negb (Z.rem (count_rtc r) MAX_VIR_FREQ =? 0)
         then rem_cursor con else Some con);
  let p := outb REG_C NMI p in
  let p := send_eoi RTC_IRQ p in
  Some (con <| intr := true |>, p, r).

Definition rtc_open (cur_pid : Z) (r : rtc_t) : option (Z * rtc_t) :=
  l ← (process_rtc r).[cur_pid := MIN_VIR_FREQ]; Some (0, r <| process_rtc := l |>).

Definition rtc_close (cur_pid : Z) (r : rtc_t) : option (Z * rtc_t) :=
  l ← (process_rtc r).[cur_pid := MAX_VIR_FREQ]; Some (0, r <| process_rtc := l |>).

(** [cli] and [sti] around the body come back with the flag. *)
Definition rtc_write (cur_pid : Z) (buf : list Z) (rate : Z) (intr0 : bool) (r : rtc_t)
    : option (Z * bool * rtc_t) :=
  w ← ld32 buf 0;
  let freq := s32 w in
  if (freq <? MIN_VIR_FREQ) || (MAX_VIR_FREQ <? freq) then Some (-1, false, r)
  else
    l ← (process_rtc r).[cur_pid := freq];
    Some (0, true, r <| process_rtc := l |>).

Definition set_rtc_wait (r : rtc_t) : rtc_t := r <| rtc_wait := 0 |>.

(** The first statement of [rtc_read] for the active terminal [t]. *)
Definition rtc_read_start (t : Z) (r : rtc_t) : option rtc_t :=
  l ← (terminal_rtc_wait r).[t := 1]; Some (r <| terminal_rtc_wait := l |>).

(** [rtc_read]: the loop only tests the flag, so between two changes of it the
    clock interrupts; a round of the model is one interrupt.  [fuel] bounds the
    number of interrupts. *)
Definition rtc_read (fuel : nat) (t : Z) (con : console) (p : pic) (r : rtc_t)
    : option (Z * (console * pic * rtc_t)) :=
  r ← rtc_read_start t r;
  iterate fuel (fun '(con, p, r) =>
    w ← (terminal_rtc_wait r).[t];
    if w =? 1 then s ← rtc_handler con p r; Some (Next s)
    else Some (Done (0, (con, p, r)))) (con, p, r).

(** ** The invariant *)

Definition rate_ok (f : Z) : Prop := MIN_VIR_FREQ <= f <= MAX_VIR_FREQ.

#[export] Instance rate_ok_dec f : Decision (rate_ok f).
Proof. unfold rate_ok. apply _. Defined.

Record wf_rtc (r : rtc_t) : Prop := {
  wf_rates_len : len (process_rtc r) = MAX_PID;
  wf_rates : Forall rate_ok (process_rtc r);
  wf_counts : len (terminal_rtc_count r) = NUM_TERMS;
  wf_waits : len (terminal_rtc_wait r) = NUM_TERMS;
}.

Definition pids_ok (pids : list Z) : Prop :=
  len pids = NUM_TERMS /\ Forall (fun p => 0 <= p < MAX_PID) pids.

(** At most the rates differ. *)
Definition same_clock (r r' : rtc_t) : Prop := r' = (r <| process_rtc := process_rtc r' |>).

#[export] Instance same_clock_preorder : PreOrder same_clock.
Proof.
  unfold same_clock. split; [by intros []|]. intros r1 r2 r3 -> ->. by destruct r1.
Qed.

Lemma same_clock_count r r' : same_clock r r' -> count_rtc r' = count_rtc r /\
  terminal_rtc_count r' = terminal_rtc_count r /\ terminal_rtc_wait r' = terminal_rtc_wait r.
Proof. by intros ->. Qed.

(** The number of clock interrupts between two of a process of rate [f]. *)
Definition period (f : Z) : Z := MAX_VIR_FREQ / f.

Lemma period_range f : rate_ok f -> 1 <= period f <= 512.
Proof.
  unfold rate_ok, period, MIN_VIR_FREQ, MAX_VIR_FREQ. intros. Z.to_euclidean_division_equations. nia.
Qed.

(** The rate of the process on terminal [i]. *)
Definition rate_of (pids : list Z) (r : rtc_t) (i : Z) : option Z :=
  p ← pids.[i]; (process_rtc r).[p].

Lemma count_terminal_spec pids i r :
  wf_rtc r -> pids_ok pids -> 0 <= i < NUM_TERMS ->
  exists f c r', rate_of pids r i = Some f /\ rate_ok f /\ (terminal_rtc_count r).[i] = Some c /\
    count_terminal pids i r = Some r' /\ wf_rtc r' /\ process_rtc r' = process_rtc r /\
    count_rtc r' = count_rtc r /\
    (terminal_rtc_count r').[i] = Some (s32 (c + 1)) /\
    (terminal_rtc_wait r').[i] =
      (if Z.rem (s32 (c + 1)) (period f) =? 0 then Some 0 else (terminal_rtc_wait r).[i]) /\
    (forall j, j <> i -> (terminal_rtc_count r').[j] = (terminal_rtc_count r).[j] /\
       (terminal_rtc_wait r').[j] = (terminal_rtc_wait r).[j]).
Proof.
  intros [Hrl Hr Hc Hw] [Hpl Hp] Hi.
  destruct (aget_is_Some pids i) as [pid Epid]; [lia|].
  pose proof (aget_Forall _ _ _ _ Hp Epid) as Hpid. cbv beta in Hpid.
  destruct (aget_is_Some (process_rtc r) pid) as [f Ef]; [lia|].
  pose proof (aget_Forall _ _ _ _ Hr Ef) as Hf.
  destruct (aget_is_Some (terminal_rtc_count r) i) as [c Ec]; [lia|].
  pose proof (period_range f Hf) as Hper.
  assert (Z.quot MAX_VIR_FREQ f = period f) as Hq.
  { unfold period. apply Z.quot_div_nonneg; [done|]. clear -Hf. unfold rate_ok, MIN_VIR_FREQ in Hf. lia. }
  unfold rate_of, count_terminal. rewrite Epid. cbn [mbind option_bind]. rewrite Ef.
  cbn [mbind option_bind]. rewrite Ec. cbn [mbind option_bind].
  rewrite aset_Some by lia. cbn [mbind option_bind]. rewrite Hq.
  replace ((f =? 0) || (period f =? 0)) with false
    by (unfold rate_ok, MIN_VIR_FREQ in Hf; symmetry; apply orb_false_iff; split; apply Z.eqb_neq; lia).
  exists f, c. destruct (Z.eqb_spec (Z.rem (s32 (c + 1)) (period f)) 0).
  - unfold update_field. cbn [terminal_rtc_wait]. rewrite aset_Some by lia. cbn [mbind option_bind].
    eexists. split_and!; try done.
    + split; cbn; rewrite ?length_insert; done.
    + cbn. apply aget_insert_eq. lia.
    + cbn. apply aget_insert_eq. lia.
    + intros j Hj. cbn. by rewrite !aget_insert_ne by lia.
  - eexists. split_and!; try done.
    + split; cbn; rewrite ?length_insert; done.
    + cbn. apply aget_insert_eq. lia.
    + intros j Hj. cbn. by rewrite !aget_insert_ne by lia.
Qed.

(** What one interrupt does to the counter and the flag of terminal [i]. *)
Definition ticked (pids : list Z) (r r' : rtc_t) (i : Z) : Prop :=
  exists f c, rate_of pids r i = Some f /\ rate_ok f /\ (terminal_rtc_count r).[i] = Some c /\
    (terminal_rtc_count r').[i] = Some (s32 (c + 1)) /\
    (terminal_rtc_wait r').[i] =
      (if Z.rem (s32 (c + 1)) (period f) =? 0 then Some 0 else (terminal_rtc_wait r).[i]).

Lemma count_terminals pids r :
  wf_rtc r -> pids_ok pids ->
  exists r', for_range 0 NUM_TERMS (fun i r => count_terminal pids i r) r = Some r' /\
    wf_rtc r' /\ process_rtc r' = process_rtc r /\ count_rtc r' = count_rtc r /\
    forall i, 0 <= i < NUM_TERMS -> ticked pids r r' i.
Proof.
  intros W Hp.
  destruct (for_range_ind (fun k r' => wf_rtc r' /\ process_rtc r' = process_rtc r /\
      count_rtc r' = count_rtc r /\ (forall i, 0 <= i < k -> ticked pids r r' i) /\
      (forall i, k <= i -> (terminal_rtc_count r').[i] = (terminal_rtc_count r).[i] /\
         (terminal_rtc_wait r').[i] = (terminal_rtc_wait r).[i]))
    (fun i r => count_terminal pids i r) 0 NUM_TERMS r)
    as (r' & E & W' & Hpr & Hcr & Ht & _).
  - unfold NUM_TERMS. lia.
  - split_and!; try done. lia.
  - intros k r1 Hk (W1 & Hpr & Hcr & Ht & Hrest).
    destruct (count_terminal_spec pids k r1 W1 Hp Hk)
      as (f & c & r2 & Hf & Hfo & Hc & E & W2 & Hpr2 & Hcr2 & Hc2 & Hw2 & Ho).
    exists r2. destruct (Hrest k ltac:(lia)) as [Hck Hwk]. split_and!; try congruence.
    + intros i Hi. destruct (Z.eq_dec i k) as [->|Hne].
      * exists f, c. unfold rate_of in *. rewrite <- Hpr, <- Hck, <- Hwk. done.
      * destruct (Ht i ltac:(lia)) as (f' & c' & ? & ? & ? & Hc' & Hw').
        destruct (Ho i Hne) as [Eo Ew]. exists f', c'. rewrite Eo, Ew. done.
    + intros i Hi. destruct (Ho i ltac:(lia)) as [-> ->]. apply Hrest. lia.
  - by exists r'.
Qed.

Lemma touches_pids vid t con con' :
  touches vid t con con' -> active_pid <$> terminals con' = active_pid <$> terminals con.
Proof.
  intros (_ & (T & x & y & HT & [Hr HT']%aset_inv) & _). rewrite HT'.
  rewrite list_fmap_insert. cbn. apply list_insert_id. rewrite list_lookup_fmap.
  rewrite <- aget_nat, Z2Nat.id, HT by lia. done.
Qed.

(** The console after an interrupt: at most the cursor was drawn or rubbed. *)
Definition con_same (con con' : console) : Prop :=
  wf_console con' /\ video_mem con' = video_mem con /\ ts con' = ts con /\ ta con' = ta con /\
  active_pid <$> terminals con' = active_pid <$> terminals con.

Lemma con_same_op con o :
  wf_console con -> o = PutCursor \/ o = RemCursor ->
  exists con', run_op o con = Some con' /\ con_same con con'.
Proof.
  intros W Ho.
  assert (op_page o con = VIDEO /\ op_term o con = ts con) as [Ep Et] by (by destruct Ho as [-> | ->]).
  destruct (shows_exists con VIDEO (ts con) W is_page_VIDEO (wf_ts _ W)) as [s Hs].
  rewrite <- Ep, <- Et in Hs. destruct (run_op_spec con o s W Hs) as (con' & E & W' & Ht & _).
  exists con'. split; [done|]. destruct (touches_terms _ _ _ _ Ht) as (? & ? & ?).
  split_and!; try done. by apply touches_pids in Ht.
Qed.

Lemma con_same_trans c1 c2 c3 : con_same c1 c2 -> con_same c2 c3 -> con_same c1 c3.
Proof. intros (_ & ? & ? & ? & ?) (? & ? & ? & ? & ?). split_and!; congruence. Qed.

Lemma con_same_intr con con' b1 b2 :
  con_same (con <| intr := b1 |>) con' -> con_same con (con' <| intr := b2 |>).
Proof. intros ([] & ? & ? & ? & ?). split_and!; done. Qed.

Lemma rtc_handler_spec con p r :
  wf_console con -> wf_rtc r -> pids_ok (active_pid <$> terminals con) ->
  exists con' p' r', rtc_handler con p r = Some (con', p', r') /\ con_same con con' /\ wf_rtc r' /\
    process_rtc r' = process_rtc r /\
    forall i, 0 <= i < NUM_TERMS -> ticked (active_pid <$> terminals con) r r' i.
Proof.
  intros W Wr Hp. unfold rtc_handler.
  set (con0 := con <| intr := false |>).
  assert (wf_console con0) as W0 by (destruct W; by split).
  set (r0 := r <| count_rtc := s32 (count_rtc r + 1) |>).
  assert (wf_rtc r0) as Wr0 by (destruct Wr; by split).
  destruct (count_terminals (active_pid <$> terminals con0) r0 Wr0 Hp)
    as (r1 & -> & W1 & Hpr & Hcr & Ht). cbn [mbind option_bind].
  assert (forall (b : bool) o c, wf_console c -> o = PutCursor \/ o = RemCursor ->
    exists c', (if b then run_op o c else Some c) = Some c' /\ con_same c c') as Hcur.
  { intros b o c Wc Ho. destruct b; [by apply con_same_op|]. exists c. by split_and!. }
  destruct (Hcur (Z.rem (count_rtc r1) MAX_VIR_FREQ =? 0) PutCursor con0 W0) as (c1 & E1 & H1); [auto|].
  cbn [run_op] in E1. rewrite E1. cbn [mbind option_bind].
  destruct (Hcur ((Z.rem (count_rtc r1) (Z.quot MAX_VIR_FREQ 2) =? 0) &&
    negb (Z.rem (count_rtc r1) MAX_VIR_FREQ =? 0)) RemCursor c1) as (c2 & E2 & H2); [apply H1|auto|].
  cbn [run_op] in E2. rewrite E2. cbn [mbind option_bind].
  do 3 eexists. split; [done|]. split_and!; try done.
  eapply con_same_intr. eapply con_same_trans; eauto.
Qed.

(** ** Waiting for the clock *)

(** The number of interrupts from count [c] to the next multiple of [n]. *)
Definition until_next (c n : Z) : Z := n * (c / n + 1) - c.

Lemma until_next_range c n : 1 <= n -> 1 <= until_next c n <= n.
Proof.
  intros. unfold until_next. pose proof (Z.div_mod c n ltac:(lia)).
  pose proof (Z.mod_pos_bound c n ltac:(lia)). nia.
Qed.

Lemma until_next_multiple c n k :
  1 <= n -> 0 <= c -> 0 < k <= until_next c n -> (Z.rem (c + k) n = 0 <-> k = until_next c n).
Proof.
  intros Hn Hc Hk. rewrite Z.rem_mod_nonneg; [|lia|lia]. unfold until_next in *.
  pose proof (Z.div_mod c n ltac:(lia)). pose proof (Z.mod_pos_bound c n ltac:(lia)). split.
  - intros Hm. apply Z.mod_divide in Hm as [q Hq]; [|lia].
    assert (c / n < q) by nia. assert (q <= c / n + 1) by nia.
    assert (q = c / n + 1) as -> by lia. lia.
  - intros ->. replace (c + _) with ((c / n + 1) * n) by lia. apply Z.mod_mul. lia.
Qed.

Definition waiting (t n c k : Z) (r : rtc_t) : Prop :=
  0 <= k <= until_next c n /\ (terminal_rtc_count r).[t] = Some (c + k) /\
  (terminal_rtc_wait r).[t] = Some (if k =? until_next c n then 0 else 1).

(** A clock interrupt that the waiting process sees. *)
Lemma waiting_tick con cn pn r rr t f c k :
  let n := period f in
  con_same con cn -> wf_rtc rr -> process_rtc rr = process_rtc r -> pids_ok (active_pid <$> terminals con) ->
  0 <= t < NUM_TERMS -> rate_of (active_pid <$> terminals con) r t = Some f -> 0 < n -> 0 <= c -> c + n < 2147483648 ->
  waiting t n c k rr -> k <> until_next c n ->
  exists cn' pn' rr', rtc_handler cn pn rr = Some (cn', pn', rr') /\ con_same con cn' /\ wf_rtc rr' /\
    process_rtc rr' = process_rtc r /\ waiting t n c (k + 1) rr'.
Proof.
  intros n Hcs Wrr Hpr Hp Ht Hf Hn Hc0 Hcap (Hk & Hcnt & Hwait) Hne. pose proof (until_next_range c n ltac:(lia)) as Hu.
  pose proof Hcs as (Wc & Hvm & Hts & Hta & Hpids). rewrite <- Hpids in Hp, Hf.
  destruct (rtc_handler_spec cn pn rr Wc Wrr Hp) as (cn' & pn' & rr' & -> & Hcs' & Wrr' & Hpr' & Htick).
  exists cn', pn', rr'. split; [done|]. destruct (Htick t Ht) as (f' & c' & Hf' & _ & Hc' & Hc2 & Hw2).
  unfold rate_of in Hf, Hf'. rewrite Hpr, Hf in Hf'. injection Hf' as <-. fold n in Hw2.
  assert (c' = c + k) as -> by congruence. clear Hc'. rewrite s32_small in Hc2, Hw2 by (unfold is_s32; lia).
  split_and!; [by eapply con_same_trans|done|congruence|]. split_and!; try lia.
  - rewrite Hc2. f_equal. lia.
  - rewrite Hw2, Hwait, (proj2 (Z.eqb_neq _ _) Hne), <- Z.add_assoc.
    pose proof (until_next_multiple c n (k + 1) ltac:(lia) Hc0 ltac:(lia)) as Hm.
    destruct (Z.eqb_spec (Z.rem (c + (k + 1)) n) 0), (Z.eqb_spec (k + 1) (until_next c n)); tauto.
Qed.

(** ** Properties *)

(** C32: [rtc_read] returns 0, and exactly at the first clock interrupt at which
    the terminal's counter is a multiple of 1024 over the process's rate, so
    after at most that many interrupts, from wherever in the period the counter
    stands, as long as it is not negative and does not wrap around 2^31 before that;
    the handler
    faults nowhere on the way, and neither the rates nor who is on the screen
    or running change. *)
Theorem rtc_read_waits_one_period t con p r f c :
  wf_console con -> wf_rtc r -> pids_ok (active_pid <$> terminals con) -> 0 <= t < NUM_TERMS ->
  rate_of (active_pid <$> terminals con) r t = Some f ->
  (terminal_rtc_count r).[t] = Some c -> 0 <= c -> c + period f < 2147483648 ->
  exists k con' p' r',
    rtc_read (S (S (Z.to_nat (period f)))) t con p r = Some (0, (con', p', r')) /\
    1 <= k <= period f /\ (terminal_rtc_count r').[t] = Some (c + k) /\
    (c + k) mod period f = 0 /\ (forall j, 0 < j < k -> (c + j) mod period f <> 0) /\
    con_same con con' /\ wf_rtc r' /\ process_rtc r' = process_rtc r.
Proof.
  intros W Wr Hp Ht Hf Hc Hc0 Hcap.
  assert (rate_ok f) as Hfo.
  { unfold rate_of in Hf. destruct (_.[t]); [|done]. by apply (aget_Forall _ _ _ _ (wf_rates r Wr) Hf). }
  pose proof (period_range f Hfo) as Hper. set (n := period f) in *.
  pose proof (until_next_range c n ltac:(lia)) as Hu.
  unfold rtc_read, rtc_read_start. rewrite aset_Some by (rewrite (wf_waits r Wr); done).
  cbn [mbind option_bind]. set (r1 := r <| terminal_rtc_wait := _ |>).
  match goal with |- context [iterate ?fuel ?step ?st] => destruct (iterate_ind
    (fun '(cn, _, rr) => con_same con cn /\ wf_rtc rr /\ process_rtc rr = process_rtc r /\
       exists k, waiting t n c k rr)
    (fun '(res, (cn, _, rr)) => res = 0 /\ con_same con cn /\ wf_rtc rr /\
       process_rtc rr = process_rtc r /\ waiting t n c (until_next c n) rr)
    (fun '(_, _, rr) => S (Z.to_nat (c + until_next c n - default 0 ((terminal_rtc_count rr).[t]))))
    step fuel) with (s := st) as ([res [[cn pn] rr]] & E & -> & Hcs & Wrr & Hpr & _ & Hcnt & _) end.
  - intros [[cn pn] rr] (Hcs & Wrr & Hpr & k & Hk & Hcnt & Hwait). rewrite Hwait.
    cbn [mbind option_bind]. destruct (Z.eqb_spec k (until_next c n)) as [->|Hne]; cbn [Z.eqb Pos.eqb].
    + eexists; split; [done|]. cbv beta iota zeta. split_and!; try done; try lia.
      unfold waiting. rewrite Z.eqb_refl in *. split_and!; try done; lia.
    + destruct (waiting_tick con cn pn r rr t f c k Hcs Wrr Hpr Hp Ht Hf ltac:(lia) Hc0 Hcap) as
        (cn' & pn' & rr' & -> & Hcs' & Wrr' & Hpr' & Hw').
      { unfold waiting. fold n. rewrite (proj2 (Z.eqb_neq _ _) Hne). split_and!; done || lia. }
      { exact Hne. }
      cbn [mbind option_bind]. eexists; split; [done|]. cbv beta iota zeta.
      pose proof Hw' as (Hk' & Hc2 & _). split; [split_and!; [done|done|done|by exists (k + 1)]|].
      rewrite Hc2, Hcnt. cbn -[Z.add Z.sub Z.to_nat]. lia.
  - split_and!; try done; [by unfold r1; destruct Wr; split; cbn; rewrite ?length_insert|].
    exists 0. split_and!; try lia.
    + cbn. rewrite Hc. f_equal. lia.
    + pose proof (wf_waits r Wr). unfold r1, update_field. cbn [terminal_rtc_wait].
      rewrite aget_insert_eq by lia.
      destruct (Z.eqb_spec 0 (until_next c n)); [lia|done].
  - cbn. rewrite Hc. cbn. lia.
  - exists (until_next c n), cn, pn, rr. split_and!; try done; try lia.
    + rewrite <- Z.rem_mod_nonneg by lia. by apply until_next_multiple; try lia.
    + intros j Hj Hm. rewrite <- Z.rem_mod_nonneg in Hm by lia.
      apply until_next_multiple in Hm; lia.
Qed.

(** A clock whose processes run at 1024, 512 and 2 Hz. *)
Definition sample_rtc : rtc_t := mkRtc 0 1 [512; 1024; 2; 1024; 1024; 1024] [7; 7; 7] [0; 0; 0].

Lemma sample_rtc_wf : wf_rtc sample_rtc.
Proof. split; try done. repeat constructor; unfold MIN_VIR_FREQ, MAX_VIR_FREQ; lia. Qed.

Lemma sample_pids tsh tac : pids_ok (active_pid <$> terminals (sample_console VIDEO tsh tac)).
Proof. split; [done|]. cbn. repeat constructor; unfold MAX_PID; lia. Qed.

Lemma rtc_read_waits_one_period_witness :
  exists k con' p' r',
    rtc_read 4 1 (sample_console VIDEO 0 1) pic_reset sample_rtc = Some (0, (con', p', r')) /\
    1 <= k <= 2 /\ (terminal_rtc_count r').[1] = Some (7 + k) /\ (7 + k) mod 2 = 0.
Proof.
  assert (wf_console (sample_console VIDEO 0 1)) as W
    by (apply sample_console_wf; [apply is_page_VIDEO|lia|lia]).
  destruct (rtc_read_waits_one_period 1 (sample_console VIDEO 0 1) pic_reset sample_rtc 512 7
    W sample_rtc_wf (sample_pids 0 1)) as (k & con' & p' & r' & E & Hk & Hc & Hm & _);
    [unfold NUM_TERMS; lia|reflexivity|reflexivity|lia|reflexivity|].
  exists k, con', p', r'. exact (conj E (conj Hk (conj Hc Hm))).
Defined.

(** [rtc_write] takes the rate from the caller's four bytes as a signed
    number and accepts exactly the rates from 2 to 1024: it sets the rate of
    the calling process and of no other, returns 0 and enables interrupts;
    any other rate is refused with -1 and changes nothing.  The rates of all
    processes stay between 2 and 1024, so the handler never divides by 0. *)
Theorem rtc_write_range cur_pid buf rate intr0 r w :
  wf_rtc r -> 0 <= cur_pid < MAX_PID -> ld32 buf 0 = Some w ->
  exists r', wf_rtc r' /\
    (if decide (rate_ok (s32 w))
     then rtc_write cur_pid buf rate intr0 r = Some (0, true, r') /\
          (process_rtc r').[cur_pid] = Some (s32 w) /\
          (forall q, q <> cur_pid -> (process_rtc r').[q] = (process_rtc r).[q])
     else rtc_write cur_pid buf rate intr0 r = Some (-1, false, r) /\ r' = r).
Proof.
  intros W Hp Hw. unfold rtc_write. rewrite Hw. cbn [mbind option_bind].
  destruct (decide (rate_ok (s32 w))) as [Hr|Hr].
  - unfold rate_ok in Hr. replace ((s32 w <? MIN_VIR_FREQ) || (MAX_VIR_FREQ <? s32 w)) with false by lia.
    pose proof (wf_rates_len r W). rewrite aset_Some by lia. cbn [mbind option_bind].
    eexists. split_and!; [|done| |].
    + destruct W. split; cbn -[Z.of_nat]; rewrite ?length_insert; try done. by apply Forall_insert.
    + unfold update_field. cbn [process_rtc]. apply aget_insert_eq. lia.
    + intros q Hq. unfold update_field. cbn [process_rtc]. apply aget_insert_ne; lia.
  - exists r. split_and!; try done. unfold rate_ok in Hr.
    replace ((s32 w <? MIN_VIR_FREQ) || (MAX_VIR_FREQ <? s32 w)) with true by lia. done.
Qed.

Lemma rtc_write_range_witness :
  exists r', wf_rtc r' /\ rtc_write 2 [32; 0; 0; 0] 4 true sample_rtc = Some (0, true, r') /\
    (process_rtc r').[2] = Some 32 /\
    (forall q, q <> 2 -> (process_rtc r').[q] = (process_rtc sample_rtc).[q]).
Proof.
  refine (rtc_write_range 2 [32; 0; 0; 0] 4 true sample_rtc 32 sample_rtc_wf _ _).
  - unfold MAX_PID. lia.
  - reflexivity.
Defined.
