(* ===== verification/Printf.v ===== *)
(** [printf] and [puts] of [src/code/lib.c], over any character output.

    [Output] is what the formatter needs of the console: a [putc] on some state.
    The formatter is proved once, against the interface; the console is one
    instance.  A variadic argument is a stack word or a pointer to a string. *)
From stdpp Require Import base option list numbers.
From Stdlib Require Import ZArith Lia.
From S2P Require Import Prelude LibString Console.

Class Output (S : Type) := out_char : Z -> S -> option S.

#[export] Instance console_output : Output console := putc.

Inductive arg := Word (w : Z) | Pointer (obj : list Z) (p : Z).

Section printf.
Context {S : Type} `{Output S}.

(** The bytes of the uninitialised [conv_buf] of the conversions. *)
Context (junk : list Z).

Definition puts (s : list Z) (p : Z) (st : S) : option (Z * S) :=
  iterate (Datatypes.S (length s))
    (fun '(index, st) =>
       c ← s.[p + index];
       if c =? 0 then Some (Done (index, st))
       else st ← out_char c st; Some (Next (index + 1, st))) (0, st).

Definition print_hex (w : Z) (st : S) : option S :=
  conv_buf ← itoa w (take 64 junk) 0 16; '(_, st) ← puts conv_buf 0 st; Some st.

(** %#x: the number at conv_buf[8], zeros in front of it up to eight digits. *)
Definition print_hex_alternate (w : Z) (st : S) : option S :=
  conv_buf ← itoa w (take 64 junk) 8 16;
  starting_index ← strlen conv_buf 8;
  conv_buf ← for_range starting_index 8 (fun i conv_buf => conv_buf.[i := 48]) conv_buf;
  '(_, st) ← puts conv_buf starting_index st; Some st.

Definition print_unsigned (w : Z) (st : S) : option S :=
  conv_buf ← itoa w (take 36 junk) 0 10; '(_, st) ← puts conv_buf 0 st; Some st.

Definition print_signed (w : Z) (st : S) : option S :=
  let value := s32 w in
  conv_buf ←
    (if value <? 0 then
       conv_buf ← (take 36 junk).[0 := 45]; itoa (u32 (- value)) conv_buf 1 10
     else itoa value (take 36 junk) 0 10);
  '(_, st) ← puts conv_buf 0 st; Some st.

Definition next_word (args : list arg) : option (Z * list arg) :=
  match args with Word w :: args => Some (w, args) | _ => None end.

Definition next_pointer (args : list arg) : option (list Z * Z * list arg) :=
  match args with Pointer obj p :: args => Some (obj, p, args) | _ => None end.

(** The switch on the conversion specifier: '#' goes back to it, the others
    leave it with the index they are at, the arguments left and the state. *)
Definition format_char_switch (format : list Z) (args : list arg) (st : S) :
    Z * Z -> option (flow (Z * Z) (Z * list arg * S)) := fun '(buf, alternate) =>
  c ← format.[buf];
  if c =? 37 then st ← out_char 37 st; Some (Done (buf, args, st))
  else if c =? 35 then Some (Next (buf + 1, 1))
  else if c =? 120 then
    '(w, args) ← next_word args;
    st ← (if alternate =? 0 then print_hex w st else print_hex_alternate w st);
    Some (Done (buf, args, st))
  else if c =? 117 then
    '(w, args) ← next_word args; st ← print_unsigned w st; Some (Done (buf, args, st))
  else if c =? 100 then
    '(w, args) ← next_word args; st ← print_signed w st; Some (Done (buf, args, st))
  else if c =? 99 then
    '(w, args) ← next_word args; st ← out_char (u8 w) st; Some (Done (buf, args, st))
  else if c =? 115 then
    '(obj, p, args) ← next_pointer args; '(_, st) ← puts obj p st;
    Some (Done (buf, args, st))
  else Some (Done (buf, args, st)).

Definition conversion (format : list Z) (buf : Z) (args : list arg) (st : S)
    : option (Z * list arg * S) :=
  iterate (Datatypes.S (length format)) (format_char_switch format args st) (buf, 0).

(** One round of [while ( *buf != 0)]. *)
Definition format_step (format : list Z) :
    Z * list arg * S -> option (flow (Z * list arg * S) (Z * S)) := fun '(buf, args, st) =>
  c ← format.[buf];
  if c =? 0 then Some (Done (buf, st))
  else
    '(buf, args, st) ←
      (if c =? 37 then conversion format (buf + 1) args st
       else st ← out_char c st; Some (buf, args, st));
    Some (Next (buf + 1, args, st)).

Definition printf (format : list Z) (args : list arg) (st : S) : option (Z * S) :=
  iterate (Datatypes.S (length format)) (format_step format) (0, args, st).

(** ** The rendering *)

(** Abstract arguments: a 32-bit number, or the characters of a string. *)
Inductive value := Number (w : Z) | Text (str : list Z).

Definition arg_is (a : arg) (v : value) : Prop :=
  match a, v with
  | Word w, Number w' => w = w' /\ is_u32 w
  | Pointer obj p, Text str => cstring obj p str
  | _, _ => False
  end.

Definition render_hex (alternate : bool) (w : Z) : list Z :=
  let n := numeral 16 w in
  if alternate then replicate (8 - length n) 48 ++ n else n.

Definition render_signed (w : Z) : list Z :=
  if s32 w <? 0 then 45 :: numeral 10 (u32 (- s32 w)) else numeral 10 (s32 w).

(** What a format string and its arguments print; the mode is [Some alternate]
    after a '%'.  [None]: an argument is missing or of the wrong kind, or the
    string ends inside a conversion. *)
Fixpoint render (format : list Z) (mode : option bool) (vs : list value) : option (list Z) :=
  match format, mode with
  | [], None => Some []
  | [], Some _ => None
  | c :: rest, None =>
      if c =? 37 then render rest (Some false) vs
      else out ← render rest None vs; Some (c :: out)
  | c :: rest, Some alternate =>
      if c =? 37 then out ← render rest None vs; Some (37 :: out)
      else if c =? 35 then render rest (Some true) vs
      else if c =? 120 then
        match vs with
        | Number w :: vs => out ← render rest None vs; Some (render_hex alternate w ++ out)
        | _ => None
        end
      else if c =? 117 then
        match vs with
        | Number w :: vs => out ← render rest None vs; Some (numeral 10 w ++ out)
        | _ => None
        end
      else if c =? 100 then
        match vs with
        | Number w :: vs => out ← render rest None vs; Some (render_signed w ++ out)
        | _ => None
        end
      else if c =? 99 then
        match vs with
        | Number w :: vs => out ← render rest None vs; Some (u8 w :: out)
        | _ => None
        end
      else if c =? 115 then
        match vs with
        | Text str :: vs => out ← render rest None vs; Some (str ++ out)
        | _ => None
        end
      else render rest None vs
  end.

Fixpoint emit (out : list Z) (st : S) : option S :=
  match out with [] => Some st | c :: out => st ← out_char c st; emit out st end.

(** ** Lemmas *)

Lemma emit_app o1 o2 st : emit (o1 ++ o2) st = st ← emit o1 st; emit o2 st.
Proof.
  revert st. induction o1 as [|c o1 IH]; intros st; [done|]. cbn [app emit].
  destruct (out_char c st); [apply IH|done].
Qed.

Lemma puts_emit s p str st :
  cstring s p str -> puts s p st = st ← emit str st; Some (len str, st).
Proof.
  intros Hs. pose proof (cstring_length _ _ _ Hs) as Hlen. pose proof Hs as (Hp & _).
  unfold puts.
  assert (forall rest fuel i st, 0 <= i -> i + len rest = len str ->
    (forall k, 0 <= k < len rest -> str.[i + k] = rest.[k]) -> (length rest < fuel)%nat ->
    iterate fuel (fun '(index, st) =>
       c ← s.[p + index];
       if c =? 0 then Some (Done (index, st))
       else st ← out_char c st; Some (Next (index + 1, st))) (i, st)
    = st ← emit rest st; Some (len str, st)) as Hloop.
  { induction rest as [|c rest IH]; intros [|fuel] i st0 Hi Hl Hr Hf; try (cbn in Hf; lia);
      rewrite iterate_S.
    - destruct Hs as (_ & _ & Hz & _). cbn in Hl. replace (p + i) with (p + len str) by lia.
      rewrite Hz. cbn. do 2 f_equal. lia.
    - cbn [length] in *. destruct (cstring_char s p str i Hs) as (c' & Hc' & Hch); [lia|].
      pose proof Hs as (_ & _ & _ & Hsi). pose proof (Hsi i ltac:(lia)) as E.
      specialize (Hr 0 ltac:(lia)) as H0. rewrite Z.add_0_r in H0.
      change ((c :: rest).[0]) with (Some c) in H0. rewrite Hc' in E. rewrite Hc'.
      cbn [mbind option_bind]. assert (c' = c) as -> by congruence.
      unfold is_char in Hch. destruct (Z.eqb_spec c 0); [lia|]. cbn [emit].
      destruct (out_char c st0) as [st1|]; cbn [mbind option_bind]; [|done].
      apply IH; try lia. intros k Hk. replace (i + 1 + k) with (i + (k + 1)) by lia.
      rewrite Hr by lia. unfold aget. destruct (Z.ltb_spec (k + 1) 0), (Z.ltb_spec k 0); try lia.
      by replace (Z.to_nat (k + 1)) with (Datatypes.S (Z.to_nat k)) by lia. }
  apply (Hloop str); try lia. intros k Hk. by rewrite Z.add_0_l.
Qed.

Context (Hjunk : length junk = 64%nat).

Lemma print_number (conv : option (list Z)) p n st :
  (exists b, conv = Some b /\ cstring b p n) ->
  (conv_buf ← conv; '(_, st) ← puts conv_buf p st; Some st) = emit n st.
Proof.
  intros (b & -> & Hb). cbn [mbind option_bind]. rewrite (puts_emit _ _ _ _ Hb).
  destruct (emit n st); done.
Qed.

Lemma print_hex_emit w st : is_u32 w -> print_hex w st = emit (render_hex false w) st.
Proof.
  intros Hw. apply print_number.
  destruct (itoa_splice w (take 64 junk) 0 16) as (b & E & _ & Hc & _);
    [done|lia|lia|rewrite length_take; lia|]. by exists b.
Qed.

Lemma print_unsigned_emit w st : is_u32 w -> print_unsigned w st = emit (numeral 10 w) st.
Proof.
  intros Hw. apply print_number.
  destruct (itoa_splice w (take 36 junk) 0 10) as (b & E & _ & Hc & _);
    [done|lia|lia|rewrite length_take; lia|]. by exists b.
Qed.

Lemma print_signed_emit w st : is_u32 w -> print_signed w st = emit (render_signed w) st.
Proof.
  intros Hw. apply print_number. unfold render_signed.
  assert (is_s32 (s32 w)) as Hs.
  { unfold is_s32, s32. pose proof (Z.mod_pos_bound (w + 2147483648) 4294967296). lia. }
  unfold is_s32 in Hs. destruct (Z.ltb_spec (s32 w) 0).
  - rewrite aset_Some by (rewrite length_take; lia). cbn [mbind option_bind].
    destruct (itoa_splice (u32 (- s32 w)) (<[Z.to_nat 0 := 45]> (take 36 junk)) 1 10)
      as (b & E & Hl & (_ & Hd & Hz & Hi) & Hf);
      [apply u32_range|lia|lia|rewrite length_insert, length_take; lia|].
    exists b. split; [done|].
    assert (len (<[Z.to_nat 0 := 45]> (take 36 junk)) = 36) as Hl36
      by (rewrite length_insert, length_take; lia).
    split_and!; [lia| | |].
    + constructor; [unfold is_char; lia|done].
    + cbn [length]. rewrite <- Hz. f_equal. lia.
    + cbn [length]. intros i Hi'. destruct (Z.eq_dec i 0) as [->|Hne].
      * rewrite Hf by lia. apply aget_insert_eq. rewrite length_take. lia.
      * replace (0 + i) with (1 + (i - 1)) by lia. rewrite Hi by lia.
        unfold aget. destruct (Z.ltb_spec (i - 1) 0), (Z.ltb_spec i 0); try lia.
        by replace (Z.to_nat i) with (Datatypes.S (Z.to_nat (i - 1))) by lia.
  - destruct (itoa_splice (s32 w) (take 36 junk) 0 10) as (b & E & _ & Hc & _);
      [unfold is_u32; lia|lia|lia|rewrite length_take; lia|]. by exists b.
Qed.

Lemma length_hex w : is_u32 w -> (length (numeral 16 w) <= 8)%nat.
Proof.
  intros Hw. unfold numeral. case_match; [cbn; lia|]. rewrite length_reverse.
  apply length_digits_bound; [lia|]. unfold is_u32 in Hw. change (16 ^ Z.of_nat 8) with 4294967296. lia.
Qed.

Lemma print_hex_alternate_emit w st :
  is_u32 w -> print_hex_alternate w st = emit (render_hex true w) st.
Proof.
  intros Hw. unfold print_hex_alternate, render_hex. pose proof (length_hex w Hw) as Hl8.
  destruct (itoa_splice w (take 64 junk) 8 16) as (b & -> & Hl & Hc & _);
    [done|lia|lia|rewrite length_take; lia|]. cbn [mbind option_bind].
  rewrite (strlen_cstring _ _ _ Hc). cbn [mbind option_bind].
  assert (len b = 64) as Hlb by (rewrite Hl, length_take; lia).
  destruct (for_range_fill (fun _ => 48) b (len (numeral 16 w)) 8) as (b' & -> & Hl' & Hb');
    [lia|lia|]. cbn [mbind option_bind].
  rewrite (puts_emit b' _ (replicate (8 - length (numeral 16 w)) 48 ++ numeral 16 w)).
  { by destruct (emit _ st). }
  destruct Hc as (_ & Hd & Hz & Hi).
  assert (len (replicate (8 - length (numeral 16 w)) 48) = 8 - len (numeral 16 w)) as Hlr
    by (rewrite length_replicate; lia).
  split_and!; [lia| | |].
  - apply Forall_app. split; [|done]. apply Forall_replicate. unfold is_char. lia.
  - rewrite length_app, Nat2Z.inj_add, Hlr. rewrite Hb'.
    replace (len (numeral 16 w) + (8 - len (numeral 16 w) + len (numeral 16 w)))
      with (8 + len (numeral 16 w)) by lia.
    replace ((len (numeral 16 w) <=? 8 + len (numeral 16 w)) && (8 + len (numeral 16 w) <? 8))
      with false by lia. done.
  - rewrite length_app, Nat2Z.inj_add, Hlr. intros i Hi'. rewrite Hb'.
    destruct (Z_lt_dec i (8 - len (numeral 16 w))).
    + replace ((len (numeral 16 w) <=? len (numeral 16 w) + i) && (len (numeral 16 w) + i <? 8))
        with true by lia.
      rewrite aget_app_l by lia. symmetry. apply aget_replicate. lia.
    + replace ((len (numeral 16 w) <=? len (numeral 16 w) + i) && (len (numeral 16 w) + i <? 8))
        with false by lia.
      rewrite aget_app_r by lia. rewrite Hlr, <- Hi by lia. f_equal. lia.
Qed.

(** The format string from index [pos] on is [rest]. *)
Definition format_at (format : list Z) (pos : Z) (rest : list Z) : Prop := cstring format pos rest.

Lemma format_head format pos c rest :
  format_at format pos (c :: rest) ->
  format.[pos] = Some c /\ is_char c /\ format_at format (pos + 1) rest.
Proof.
  intros (Hp & Hc & Hz & Hi). split_and!.
  - specialize (Hi 0 ltac:(cbn; lia)). by rewrite Z.add_0_r in Hi.
  - by apply Forall_cons_1 in Hc as [? _].
  - split_and!; [lia|by apply Forall_cons_1 in Hc as [_ ?]| |].
    + rewrite <- Hz. f_equal. cbn [length]. lia.
    + intros i Hi'. replace (pos + 1 + i) with (pos + (i + 1)) by lia.
      rewrite Hi by (cbn [length]; lia). unfold aget.
      destruct (Z.ltb_spec (i + 1) 0), (Z.ltb_spec i 0); try lia.
      by replace (Z.to_nat (i + 1)) with (Datatypes.S (Z.to_nat i)) by lia.
Qed.

Lemma next_word_value args vs w vs' :
  Forall2 arg_is args vs -> vs = Number w :: vs' ->
  exists args', next_word args = Some (w, args') /\ Forall2 arg_is args' vs' /\ is_u32 w.
Proof.
  intros HF ->. inversion HF as [|a v args' vs0 Ha HF' E1 E2]. subst.
  destruct a as [w0|]; cbn in Ha; [|done]. destruct Ha as [-> Hw]. by exists args'.
Qed.

Lemma next_pointer_value args vs str vs' :
  Forall2 arg_is args vs -> vs = Text str :: vs' ->
  exists obj p args', next_pointer args = Some (obj, p, args') /\ Forall2 arg_is args' vs' /\
    cstring obj p str.
Proof.
  intros HF ->. inversion HF as [|a v args' vs0 Ha HF' E1 E2]. subst.
  destruct a as [|obj p]; cbn in Ha; [done|]. by exists obj, p, args'.
Qed.

(** The switch prints [now] and stops at [last]; [later] is what the rest of
    the format prints. *)
Record switched (format rest out : list Z) (buf : Z) (now later : list Z) (last : Z)
    (rest' : list Z) (args' : list arg) (vs' : list value) : Prop := {
  sw_out : out = now ++ later;
  sw_at : format_at format (last + 1) rest';
  sw_shorter : (length rest' < length rest)%nat;
  sw_end : last + 1 + len rest' = buf + len rest;
  sw_args : Forall2 arg_is args' vs';
  sw_render : render rest' None vs' = Some later;
}.

(** A specifier at [buf] that ends the switch. *)
Lemma switched_here format buf c rest now later args' vs' :
  format_at format buf (c :: rest) -> Forall2 arg_is args' vs' -> render rest None vs' = Some later ->
  switched format (c :: rest) (now ++ later) buf now later buf rest args' vs'.
Proof.
  intros Hf Ha Hr. split; try done; [by apply format_head in Hf as (_ & _ & ?)|cbn; lia|cbn; lia].
Qed.

(** The value of the next conversion is a number. *)
Local Ltac number_next vs rest Ha Hr :=
  destruct vs as [|[w|] vs0]; try done; destruct (render rest None vs0) as [later|] eqn:E; [|done];
  injection Hr as <-; destruct (next_word_value _ _ w vs0 Ha eq_refl) as (args' & -> & Ha' & Hw).

Lemma conversion_loop format args vs st : Forall2 arg_is args vs ->
  forall rest fuel buf alternate out,
  format_at format buf rest -> (length rest < fuel)%nat ->
  render rest (Some alternate) vs = Some out ->
  exists now later last rest' args' vs',
    switched format rest out buf now later last rest' args' vs' /\
    iterate fuel (format_char_switch format args st) (buf, if alternate then 1 else 0)
      = st ← emit now st; Some (last, args', st).
Proof.
  intros Ha. induction rest as [|c rest IH]; intros [|fuel] buf alternate out Hf Hfuel Hr;
    try (cbn in Hfuel; lia); [done|].
  destruct (format_head _ _ _ _ Hf) as (Hc & _ & Hf'). rewrite iterate_S.
  unfold format_char_switch at 2. cbv beta iota. rewrite Hc. cbn [mbind option_bind].
  cbn [render] in Hr.
  destruct (c =? 37).
  { destruct (render rest None vs) as [later|] eqn:E; [|done]. injection Hr as <-.
    exists [37], later, buf, rest, args, vs.
    split; [by apply (switched_here format buf c rest [37])|].
    cbn [emit]. by destruct (out_char 37 st). }
  destruct (c =? 35).
  { destruct (IH fuel (buf + 1) true out Hf') as (now & later & last & rest' & args' & vs' & [] & E);
      [cbn in Hfuel; lia|done|].
    exists now, later, last, rest', args', vs'. split; [|exact E]. split; try done; cbn [length]; lia. }
  destruct (c =? 120).
  { number_next vs rest Ha Hr.
    exists (render_hex alternate w), later, buf, rest, args', vs0. split; [by apply switched_here|].
    cbn [mbind option_bind]. destruct alternate; cbn [Z.eqb].
    - rewrite print_hex_alternate_emit by done. by destruct (emit _ st).
    - rewrite print_hex_emit by done. by destruct (emit _ st). }
  destruct (c =? 117).
  { number_next vs rest Ha Hr.
    exists (numeral 10 w), later, buf, rest, args', vs0. split; [by apply switched_here|].
    cbn [mbind option_bind]. rewrite print_unsigned_emit by done. by destruct (emit _ st). }
  destruct (c =? 100).
  { number_next vs rest Ha Hr.
    exists (render_signed w), later, buf, rest, args', vs0. split; [by apply switched_here|].
    cbn [mbind option_bind]. rewrite print_signed_emit by done. by destruct (emit _ st). }
  destruct (c =? 99).
  { number_next vs rest Ha Hr.
    exists [u8 w], later, buf, rest, args', vs0.
    split; [by apply (switched_here format buf c rest [u8 w])|].
    cbn [mbind option_bind emit]. by destruct (out_char _ st). }
  destruct (c =? 115).
  { destruct vs as [|[|str] vs0]; try done. destruct (render rest None vs0) as [later|] eqn:E; [|done].
    injection Hr as <-.
    destruct (next_pointer_value _ _ str vs0 Ha eq_refl) as (obj & p & args' & -> & Ha' & Hs).
    exists str, later, buf, rest, args', vs0. split; [by apply switched_here|].
    cbn [mbind option_bind]. rewrite (puts_emit _ _ _ _ Hs). by destruct (emit _ st). }
  exists [], out, buf, rest, args, vs. split; [by apply (switched_here format buf c rest [])|done].
Qed.

Lemma printf_loop format : forall (n : nat) rest fuel buf args vs st out,
  (length rest < n)%nat -> format_at format buf rest -> (length rest < fuel)%nat ->
  Forall2 arg_is args vs -> render rest None vs = Some out ->
  iterate fuel (format_step format) (buf, args, st) = st ← emit out st; Some (buf + len rest, st).
Proof.
  induction n as [|n IH]; intros rest [|fuel] buf args vs st out Hn Hf Hfuel Ha Hr; try lia.
  rewrite iterate_S. unfold format_step at 2. cbv beta iota. destruct rest as [|c rest].
  - destruct Hf as (_ & _ & Hz & _). change (len []) with 0 in *. rewrite Z.add_0_r in *.
    rewrite Hz. cbn in *. injection Hr as <-. done.
  - destruct (format_head _ _ _ _ Hf) as (Hc & Hch & Hf'). rewrite Hc. cbn [mbind option_bind].
    unfold is_char in Hch. destruct (Z.eqb_spec c 0); [lia|]. cbn [render length] in *.
    destruct (c =? 37).
    + destruct (conversion_loop format args vs st Ha rest (Datatypes.S (length format)) (buf + 1)
        false out Hf') as (now & later & last & rest' & args' & vs' & [-> Hat Hsh Hend Ha' Hr'] & E).
      { pose proof (cstring_length _ _ _ Hf'). destruct Hf' as (? & _). lia. }
      { done. }
      unfold conversion. rewrite E, emit_app.
      destruct (emit now st) as [st1|]; cbn [mbind option_bind]; [|done].
      rewrite (IH rest' fuel _ _ vs' _ later) by (done || lia).
      destruct (emit later st1); cbn [mbind option_bind]; [|done]. do 2 f_equal. lia.
    + destruct (render rest None vs) as [out0|] eqn:E; [|done]. injection Hr as <-. cbn [emit].
      destruct (out_char c st) as [st1|]; cbn [mbind option_bind]; [|done].
      rewrite (IH rest fuel _ _ vs _ out0) by (done || lia).
      destruct (emit out0 st1); cbn [mbind option_bind]; [|done]. do 2 f_equal. lia.
Qed.

Lemma printf_emit format str args vs out st :
  cstring format 0 str -> Forall2 arg_is args vs -> render str None vs = Some out ->
  printf format args st = st ← emit out st; Some (len str, st).
Proof.
  intros Hf Ha Hr. unfold printf. pose proof (cstring_length _ _ _ Hf).
  by rewrite (printf_loop format (Datatypes.S (length str)) str _ 0 args vs st out) by (done || lia).
Qed.

(** ** Properties *)

(** C31: [printf] with arguments that fit its format prints the rendering of the
    format, character by character in order, through whatever output it is
    given, and returns the format's length: every conversion (%%, %x, %#x with
    its eight digits, %u, %d with the most negative number, %c, %s) is covered,
    the loops end and no buffer overflows, whatever the stack held before. *)
Theorem printf_renders format str args vs out st :
  cstring format 0 str -> Forall2 arg_is args vs -> render str None vs = Some out ->
  printf format args st = st ← emit out st; Some (len str, st).
Proof. apply printf_emit. Qed.
End printf.

(** Output that only records the characters. *)
#[local] Instance log_output : Output (list Z) := fun c log => Some (log ++ [c]).

(** "0x%#x:%d" *)
Lemma printf_renders_witness :
  printf (replicate 64 170) [48; 120; 37; 35; 120; 58; 37; 100; 0] [Word 48879; Word 4294967254] []
  = Some (8, [48; 120; 48; 48; 48; 48; 66; 69; 69; 70; 58; 45; 52; 50]).
Proof.
  refine (printf_renders (replicate 64 170) eq_refl [48; 120; 37; 35; 120; 58; 37; 100; 0]
    [48; 120; 37; 35; 120; 58; 37; 100] [Word 48879; Word 4294967254]
    [Number 48879; Number 4294967254] [48; 120; 48; 48; 48; 48; 66; 69; 69; 70; 58; 45; 52; 50] []
    _ _ _).
  - split_and!; [lia|repeat constructor|reflexivity|].
    intros i Hi. cbn [length] in Hi.
    assert (i = 0 \/ i = 1 \/ i = 2 \/ i = 3 \/ i = 4 \/ i = 5 \/ i = 6 \/ i = 7) as Hcase by lia.
    repeat destruct Hcase as [-> | Hcase]; subst; reflexivity.
  - repeat constructor; unfold is_u32; lia.
  - reflexivity.
Defined.
