(* ===== verification/Idt.v ===== *)
(** The interrupt descriptor table and the exception banner: [src/code/idt.c],
    with the entry layout and SET_IDT_ENTRY of [src/code/x86_desc.h]. *)
From stdpp Require Import base option list numbers.
From Stdlib Require Import ZArith Lia Ascii String.
From S2P Require Import Prelude LibString Console Printf.

Definition KERNEL_CS : Z := 16.
Definition NUM_VEC : Z := 256.
Definition NUM_EXCEPTIONS : Z := 32.
Definition SYSCALL_VEC_NUM : Z := 0x80.
Definition INTEL_RESERVED : Z := 0x0F.
Definition KEYBOARD_VEC_NUM : Z := 0x21.
Definition RTC_VEC_NUM : Z := 0x28.
Definition PIT_VEC_NUM : Z := 0x20.
Definition NO_ERR_CODE : Z := -1.
Definition EXCEPTION_HALT : Z := 256.

Record idt_desc_t := mkGate {
  offset_15_00 : Z;
  seg_selector : Z;
  reserved4 : Z;
  reserved3 : Z;
  reserved2 : Z;
  reserved1 : Z;
  size : Z;
  reserved0 : Z;
  dpl : Z;
  present : Z;
  offset_31_16 : Z;
}.

#[export] Instance eta_gate : EtaExpand idt_desc_t := fun g =>
  mkGate (offset_15_00 g) (seg_selector g) (reserved4 g) (reserved3 g) (reserved2 g) (reserved1 g)
    (size g) (reserved0 g) (dpl g) (present g) (offset_31_16 g).

Definition zero_gate : idt_desc_t := mkGate 0 0 0 0 0 0 0 0 0 0 0.

(** The entry points the table names. *)
Inductive handler :=
| divide_error | single_step | nmi | breakpoint | overflow | bound_range_exceeded
| invalid_opcode | dna | double_fault | coproc | invalid_tss | snp | ssf | gen_prot
| page_fault | math_fault | align_check | machine_check | floatp_excep
| keyboard | rtc | pit | sys_call.

(** The SET_IDT_ENTRY calls, in order. *)
Definition handler_table : list (Z * handler) :=
  [(0, divide_error); (1, single_step); (2, nmi); (3, breakpoint); (4, overflow);
   (5, bound_range_exceeded); (6, invalid_opcode); (7, dna); (8, double_fault); (9, coproc);
   (10, invalid_tss); (11, snp); (12, ssf); (13, gen_prot); (14, page_fault);
   (16, math_fault); (17, align_check); (18, machine_check); (19, floatp_excep);
   (KEYBOARD_VEC_NUM, keyboard); (RTC_VEC_NUM, rtc); (PIT_VEC_NUM, pit);
   (SYSCALL_VEC_NUM, sys_call)].

(** The fields the loop sets for vector [i]; the offset is not touched. *)
Definition init_gate (i : Z) (g : idt_desc_t) : idt_desc_t := {|
  offset_15_00 := offset_15_00 g;
  seg_selector := KERNEL_CS;
  reserved4 := 0;
  reserved3 := if NUM_EXCEPTIONS <=? i then 1 else 0;
  reserved2 := 1;
  reserved1 := 1;
  size := 1;
  reserved0 := 0;
  dpl := if i =? SYSCALL_VEC_NUM then 3 else 0;
  present := if ((i <? NUM_EXCEPTIONS) || (i =? SYSCALL_VEC_NUM) || (i =? KEYBOARD_VEC_NUM) ||
                 (i =? RTC_VEC_NUM) || (i =? PIT_VEC_NUM)) && negb (i =? INTEL_RESERVED)
             then 1 else 0;
  offset_31_16 := offset_31_16 g;
|}.

(** SET_IDT_ENTRY(str, handler) *)
Definition set_idt_entry (a : Z) (g : idt_desc_t) : idt_desc_t :=
  g <| offset_31_16 := Z.shiftr (Z.land a 0xFFFF0000) 16 |>
    <| offset_15_00 := Z.land a 0xFFFF |>.

Definition upd_gate (l : list idt_desc_t) (i : Z) (f : idt_desc_t -> idt_desc_t)
    : option (list idt_desc_t) :=
  g ← l.[i]; l.[i := f g].

Section idt.
(** Where the linker puts each entry point. *)
Context (addr : handler -> Z).

Definition initialize_idt (idt : list idt_desc_t) : option (list idt_desc_t) :=
  idt ← for_range 0 NUM_VEC (fun i idt => upd_gate idt i (init_gate i)) idt;
  foldl (fun acc '(v, h) => idt ← acc; upd_gate idt v (set_idt_entry (addr h))) (Some idt)
    handler_table.

(** ** What the processor does with the table *)

(** The handler of a vector, as the calls assign them. *)
Fixpoint assigned (t : list (Z * handler)) (v : Z) : option handler :=
  match t with
  | [] => None
  | (w, h) :: t => if v =? w then Some h else assigned t v
  end.

(** The address a gate sends the processor to. *)
Definition gate_target (g : idt_desc_t) : Z := offset_31_16 g * 65536 + offset_15_00 g.

(** The gate of vector [v] once the table is set up. *)
Definition gate_of (v : Z) : idt_desc_t :=
  let g := init_gate v zero_gate in
  match assigned handler_table v with Some h => set_idt_entry (addr h) g | None => g end.

Lemma land_hi a : is_u32 a -> Z.shiftr (Z.land a 0xFFFF0000) 16 = a / 65536.
Proof.
  intros Ha. rewrite Z.shiftr_land. change (Z.shiftr 0xFFFF0000 16) with (Z.ones 16).
  rewrite Z.land_ones, Z.shiftr_div_pow2 by lia. change (2 ^ 16) with 65536.
  unfold is_u32 in Ha. apply Z.mod_small. Z.to_euclidean_division_equations. lia.
Qed.

Lemma land_lo a : Z.land a 0xFFFF = a mod 65536.
Proof. change 0xFFFF with (Z.ones 16). rewrite Z.land_ones by lia. done. Qed.

Lemma set_idt_entry_target a g : is_u32 a -> gate_target (set_idt_entry a g) = a.
Proof.
  intros Ha. unfold gate_target, set_idt_entry, update_field. cbn [offset_31_16 offset_15_00].
  rewrite land_hi, land_lo by done. pose proof (Z.div_mod a 65536). lia.
Qed.

(** A table that holds [f i] at every vector [i]. *)
Definition gates_are (l : list idt_desc_t) (f : Z -> idt_desc_t) : Prop :=
  len l = 256 /\ forall i, 0 <= i < 256 -> l.[i] = Some (f i).

Lemma upd_gate_are l f i u :
  gates_are l f -> 0 <= i < 256 ->
  exists l', upd_gate l i u = Some l' /\ gates_are l' (fun j => if j =? i then u (f i) else f j).
Proof.
  intros [Hl Hf] Hi. unfold upd_gate. rewrite Hf by done. cbn [mbind option_bind].
  rewrite aset_Some by lia. eexists; split; [done|]. split; [by rewrite length_insert|].
  intros j Hj. destruct (Z.eqb_spec j i) as [->|Hne]; [apply aget_insert_eq; lia|].
  rewrite aget_insert_ne by lia. by apply Hf.
Qed.

Lemma init_loop l :
  gates_are l (fun _ => zero_gate) ->
  exists l', for_range 0 NUM_VEC (fun i idt => upd_gate idt i (init_gate i)) l = Some l' /\
    gates_are l' (fun i => init_gate i zero_gate).
Proof.
  intros Hl. destruct (for_range_ind (fun k l =>
      gates_are l (fun i => if i <? k then init_gate i zero_gate else zero_gate))
    (fun i idt => upd_gate idt i (init_gate i)) 0 NUM_VEC l) as (l' & E & H).
  - unfold NUM_VEC. lia.
  - destruct Hl as [Hl Hf]. split; [done|]. intros i Hi. destruct (Z.ltb_spec i 0); [lia|by apply Hf].
  - intros k l0 Hk Hl0. unfold NUM_VEC in Hk.
    destruct (upd_gate_are l0 _ k (init_gate k) Hl0 Hk) as (l1 & E & Hl1 & Hf1).
    exists l1. split; [done|]. split; [done|]. intros i Hi. rewrite Hf1 by done. f_equal.
    destruct (Z.eqb_spec i k) as [Eik|].
    + subst i. destruct (Z.ltb_spec k k), (Z.ltb_spec k (k + 1)); try lia; done.
    + destruct (Z.ltb_spec i k), (Z.ltb_spec i (k + 1)); try lia; done.
  - exists l'. split; [done|]. destruct H as [Hl' Hf']. split; [done|].
    intros i Hi. rewrite Hf' by done. unfold NUM_VEC. destruct (Z.ltb_spec i 256); [done|lia].
Qed.

Lemma set_handlers t : forall l f,
  gates_are l f -> Forall (fun e => 0 <= e.1 < 256) t -> NoDup (t.*1) ->
  exists l', foldl (fun acc '(v, h) => idt ← acc; upd_gate idt v (set_idt_entry (addr h))) (Some l) t
      = Some l' /\
    gates_are l' (fun i => match assigned t i with
                           | Some h => set_idt_entry (addr h) (f i) | None => f i end).
Proof.
  induction t as [|[v h] t IH]; intros l f Hl Ht Hnd; cbn [foldl assigned]; [by exists l|].
  apply Forall_cons_1 in Ht as [Hv Ht]. cbn in Hv. cbn [fmap list_fmap] in Hnd. inversion_clear Hnd as [|? ? Hnin Hnd'].
  destruct (upd_gate_are l f v (set_idt_entry (addr h)) Hl Hv) as (l1 & E & Hl1).
  cbn [mbind option_bind]. rewrite E.
  destruct (IH l1 _ Hl1 Ht Hnd') as (l2 & E2 & Hl2 & Hf2). exists l2. split; [done|].
  split; [done|]. intros i Hi. rewrite Hf2 by done. destruct (Z.eqb_spec i v) as [->|Hne]; [|done].
  destruct (assigned t v) as [h'|] eqn:Ea; [|done]. exfalso. apply Hnin.
  clear -Ea. induction t as [|[w k] t IH]; cbn in *; [done|]. apply elem_of_cons.
  destruct (Z.eqb_spec v w); auto.
Qed.

Lemma initialize_idt_gates :
  exists l, initialize_idt (replicate 256 zero_gate) = Some l /\ gates_are l gate_of.
Proof.
  unfold initialize_idt. destruct (init_loop (replicate 256 zero_gate)) as (l1 & -> & H1).
  { split; [by rewrite length_replicate|]. intros i Hi. apply aget_replicate. lia. }
  cbn [mbind option_bind]. destruct (set_handlers handler_table l1 _ H1) as (l2 & E & H2).
  - apply (bool_decide_unpack _). vm_compute. exact I.
  - apply (bool_decide_unpack _). vm_compute. exact I.
  - exists l2. split; [exact E|]. exact H2.
Qed.

Lemma present_iff v :
  0 <= v < 256 ->
  present (init_gate v zero_gate) = 1 <-> is_Some (assigned handler_table v) \/ 20 <= v < 32.
Proof.
  intros Hv.
  assert (forallb (fun n => let v := Z.of_nat n in
    Bool.eqb (present (init_gate v zero_gate) =? 1)
      (bool_decide (is_Some (assigned handler_table v)) || ((20 <=? v) && (v <? 32)))) (seq 0 256) = true)
    as H by (vm_compute; reflexivity).
  rewrite forallb_forall in H. specialize (H (Z.to_nat v) ltac:(apply in_seq; lia)).
  rewrite Z2Nat.id in H by lia. apply Bool.eqb_prop in H.
  rewrite <- Z.eqb_eq, H, orb_true_iff, andb_true_iff, bool_decide_eq_true, Z.leb_le, Z.ltb_lt.
  done.
Qed.

(** ** Properties *)

(** C36: [initialize_idt] ends and never leaves the table.  The gate of every
    vector the kernel handles, and of no other except the exception vectors 20
    to 31, is present; a handled vector leads to its handler's address; a
    program in user mode may raise only the system call by software; and the
    gates of the exceptions are interrupt gates, those of the devices and of the
    system call trap gates. *)
Theorem idt_dispatch :
  (forall h, is_u32 (addr h)) ->
  exists l, initialize_idt (replicate 256 zero_gate) = Some l /\ len l = 256 /\
    forall v, 0 <= v < 256 -> exists g, l.[v] = Some g /\ seg_selector g = KERNEL_CS /\
      (present g = 1 <-> is_Some (assigned handler_table v) \/ 20 <= v < 32) /\
      (forall h, assigned handler_table v = Some h -> gate_target g = addr h) /\
      (dpl g = 3 <-> v = SYSCALL_VEC_NUM) /\
      (reserved3 g = 1 <-> 32 <= v).
Proof.
  intros Haddr. destruct initialize_idt_gates as (l & E & Hl & Hf).
  exists l. split; [done|]. split; [done|]. intros v Hv. exists (gate_of v). split; [by apply Hf|].
  assert (forall {A} (p : idt_desc_t -> A), (forall a g, p (set_idt_entry a g) = p g) ->
    p (gate_of v) = p (init_gate v zero_gate)) as Hp.
  { intros A p Hset. unfold gate_of. destruct (assigned handler_table v); [apply Hset|done]. }
  rewrite (Hp _ seg_selector), (Hp _ present), (Hp _ dpl), (Hp _ reserved3) by reflexivity.
  split; [reflexivity|]. split; [|split; [|split]].
  - by apply present_iff.
  - intros h Eh. unfold gate_of. rewrite Eh. apply set_idt_entry_target, Haddr.
  - unfold init_gate. cbn [dpl].
    destruct (Z.eqb_spec v SYSCALL_VEC_NUM); split; lia.
  - unfold init_gate. cbn [reserved3].
    destruct (Z.leb_spec NUM_EXCEPTIONS v); unfold NUM_EXCEPTIONS in *; split; lia.
Qed.
End idt.

(** Entry points 4096 bytes apart. *)
Definition sample_addr (h : handler) : Z :=
  4194304 + 4096 * match h with
                   | keyboard => 33 | rtc => 40 | pit => 32 | sys_call => 128 | page_fault => 14
                   | _ => 0 end.

Lemma idt_dispatch_witness :
  exists l, initialize_idt sample_addr (replicate 256 zero_gate) = Some l /\ len l = 256 /\
    exists g, l.[0x80] = Some g /\ present g = 1 /\ gate_target g = 4718592 /\ dpl g = 3.
Proof.
  destruct (idt_dispatch sample_addr) as (l & E & Hl & H).
  { intros h. unfold is_u32, sample_addr. destruct h; lia. }
  exists l. split; [exact E|]. split; [exact Hl|].
  destruct (H 0x80 ltac:(lia)) as (g & Hg & _ & Hp & Ht & Hd & _).
  exists g. split_and!; [exact Hg|apply Hp; left; eexists; reflexivity| |by apply Hd].
  exact (Ht sys_call eq_refl).
Defined.

(** ** The exception banner *)

Definition bytes (s : string) : list Z := (fun c => Z.of_N (N_of_ascii c)) <$> list_ascii_of_string s.

Definition exception_messages : list (list Z) := bytes <$>
  ["Division Error"; "Debug Exception"; "Non-Maskable Interrupt"; "Breakpoint Exception";
   "Overflow"; "Bounds Range Exceeded"; "Invalid Opcode"; "Device Not Available";
   "Double Fault"; "Coprocessor Segment Overrun"; "Invalid TSS"; "Segment Not Present";
   "Stack Fault"; "General Protection Fault"; "Page Fault"; "Reserved";
   "x87 Floating-Point Exception"; "Alignment Check"; "Machine Check";
   "SIMD Floating-Point Exception"]%string.

Definition banner_format : list Z :=
  bytes "EXCEPTION DETECTED      Exception: %s" ++ [10; 10].
Definition banner_format_code : list Z :=
  bytes "EXCEPTION DETECTED      Exception: %s - Error Code: 0x%x" ++ [10].

(** [handle_exception] up to the call of [halt_helper]; [err_code] is unsigned,
    so that NO_ERR_CODE is compared as 0xFFFFFFFF. *)
Definition exception_banner (junk : list Z) (id err_code : Z) (con : console) : option console :=
  con ← clear_screen (con <| intr := false |>);
  msg ← exception_messages.[id];
  '(_, con) ←
    (if err_code =? u32 NO_ERR_CODE
     then printf junk (banner_format ++ [0]) [Pointer (msg ++ [0]) 0] con
     else printf junk (banner_format_code ++ [0]) [Pointer (msg ++ [0]) 0; Word err_code] con);
  Some con.

(** The text of the banner. *)
Definition banner_text (msg : list Z) (err_code : Z) : list Z :=
  bytes "EXCEPTION DETECTED      Exception: " ++ msg ++
  (if err_code =? u32 NO_ERR_CODE then [10; 10]
   else bytes " - Error Code: 0x" ++ numeral 16 err_code ++ [10]).

Lemma Forall_is_char (l : list Z) :
  forallb (fun c => (0 <? c) && (c <? 256)) l = true -> Forall is_char l.
Proof.
  induction l as [|c l IH]; cbn; intros H; constructor; rewrite !andb_true_iff in H.
  - unfold is_char. destruct H; lia.
  - apply IH, H.
Qed.

Lemma message_chars id msg : exception_messages.[id] = Some msg -> Forall is_char msg.
Proof.
  apply aget_Forall. unfold exception_messages. cbn [fmap list_fmap].
  repeat (constructor; [apply Forall_is_char; vm_compute; reflexivity|]). constructor.
Qed.

Lemma render_plain str rest vs :
  forallb (fun c => negb (c =? 37)) str = true ->
  render (str ++ rest) None vs = out ← render rest None vs; Some (str ++ out).
Proof.
  intros H. induction str as [|c str IH]; cbn [app]; [by destruct (render rest None vs)|].
  cbn in H. apply andb_true_iff in H as [Hc H]. cbn [render]. destruct (c =? 37); [done|].
  rewrite IH by done. by destruct (render rest None vs).
Qed.

(** Printing on the console is a sequence of [putc]s. *)
Lemma emit_console out con : emit out con = run_ops (Putc <$> out) con.
Proof.
  revert con. induction out as [|c out IH]; intros con; [done|]. cbn [emit fmap list_fmap run_ops].
  unfold out_char, console_output. cbn [run_op]. destruct (putc c con); [apply IH|done].
Qed.

Lemma exception_printf junk msg err_code con :
  Datatypes.length junk = 64%nat -> Forall is_char msg -> is_u32 err_code ->
  (if err_code =? u32 NO_ERR_CODE
   then printf junk (banner_format ++ [0]) [Pointer (msg ++ [0]) 0] con
   else printf junk (banner_format_code ++ [0]) [Pointer (msg ++ [0]) 0; Word err_code] con)
  = con ← run_ops (Putc <$> banner_text msg err_code) con;
    Some (if err_code =? u32 NO_ERR_CODE then len banner_format else len banner_format_code, con).
Proof.
  intros Hj Hm He. rewrite <- emit_console. unfold banner_text. destruct (err_code =? u32 NO_ERR_CODE).
  - apply (printf_emit junk Hj _ _ _ [Text msg]).
    + apply (fun H => cstring_intro _ [] H), Forall_is_char. vm_compute. reflexivity.
    + constructor; [exact (cstring_intro msg [] Hm)|constructor].
    + reflexivity.
  - apply (printf_emit junk Hj _ _ _ [Text msg; Number err_code]).
    + apply (fun H => cstring_intro _ [] H), Forall_is_char. vm_compute. reflexivity.
    + constructor; [exact (cstring_intro msg [] Hm)|constructor; [exact (conj eq_refl He)|constructor] ].
    + reflexivity.
Qed.

Definition tty_print (text : list Z) (s : tty) : tty := foldl (fun s c => tty_put c s) s text.

Lemma tty_ops_putc (text : list Z) s : foldl (fun s o => tty_op o s) s (Putc <$> text) = tty_print text s.
Proof. revert s. induction text as [|c text IH]; intros s; [done|]. apply IH. Qed.

Lemma filter_putc (text : list Z) : filter (fun o => is_putc o = true) (Putc <$> text) = Putc <$> text.
Proof. induction text as [|c text IH]; [done|]. cbn [fmap list_fmap]. rewrite filter_cons. cbn. by rewrite IH. Qed.

Lemma filter_not_putc (text : list Z) : filter (fun o => negb (is_putc o) = true) (Putc <$> text) = [].
Proof. induction text as [|c text IH]; [done|]. cbn [fmap list_fmap]. rewrite filter_cons. cbn. by rewrite IH. Qed.

Lemma exception_banner_ops junk id msg err_code con con' :
  Datatypes.length junk = 64%nat -> exception_messages.[id] = Some msg -> is_u32 err_code ->
  run_ops (ClearScreen :: (Putc <$> banner_text msg err_code)) (con <| intr := false |>) = Some con' ->
  exception_banner junk id err_code con = Some con'.
Proof.
  intros Hj Hmsg He. unfold exception_banner. cbn [run_ops run_op].
  destruct (clear_screen (con <| intr := false |>)) as [con1|]; cbn [mbind option_bind]; [|done].
  rewrite Hmsg. cbn [mbind option_bind].
  rewrite exception_printf by (done || by eapply message_chars). intros ->. done.
Qed.

(** An exception in the running program clears the screen of the shown
    terminal and prints the exception's message, with the error code when there
    is one, for every exception number with a message: on that screen when the
    program is in the foreground.  When it is in the background the message
    goes to the program's own page, below what it had printed, and the screen
    of the other terminal is cleared all the same. *)
Theorem exception_banner_placement junk id msg err_code con p :
  Datatypes.length junk = 64%nat -> exception_messages.[id] = Some msg -> is_u32 err_code ->
  wf_console con -> shows con (video_mem con) (ta con) p ->
  (foreground con -> exists con', exception_banner junk id err_code con = Some con' /\
     wf_console con' /\ shows con' VIDEO (ts con) (tty_print (banner_text msg err_code) tty_clear)) /\
  (background con -> exists con', exception_banner junk id err_code con = Some con' /\
     wf_console con' /\ shows con' VIDEO (ts con) tty_clear /\
     shows con' (video_mem con) (ta con) (tty_print (banner_text msg err_code) p)).
Proof.
  intros Hj Hmsg He W Hp.
  assert (wf_console (con <| intr := false |>)) as W0 by (destruct W; by split).
  split; intros Hmode.
  - destruct Hmode as [Ht Hv]. rewrite Hv, <- Ht in Hp.
    destruct (run_ops_foreground (ClearScreen :: (Putc <$> banner_text msg err_code))
      (con <| intr := false |>) p W0 (conj Ht Hv) Hp) as (con' & E & W' & _ & Hs).
    exists con'. split; [by eapply exception_banner_ops|]. split; [done|].
    cbn [foldl tty_op] in Hs. by rewrite tty_ops_putc in Hs.
  - destruct (shows_exists con VIDEO (ts con) W is_page_VIDEO (wf_ts _ W)) as [k Hk].
    destruct (run_ops_background (ClearScreen :: (Putc <$> banner_text msg err_code))
      (con <| intr := false |>) k p W0 Hmode Hk Hp) as (con' & E & W' & _ & Hs & Hs').
    exists con'. split; [by eapply exception_banner_ops|]. split; [done|].
    unfold tty_ops in Hs, Hs'. rewrite filter_cons in Hs, Hs'. cbn [is_putc negb] in Hs, Hs'.
    rewrite decide_True in Hs by done. rewrite decide_False in Hs' by done.
    rewrite filter_not_putc in Hs. rewrite filter_putc, tty_ops_putc in Hs'. done.
Qed.

Lemma exception_banner_placement_witness :
  exists p con', shows (sample_console TERM_2_VID 0 1) TERM_2_VID 1 p /\
    exception_banner (replicate 64 0) 14 0 (sample_console TERM_2_VID 0 1) = Some con' /\
    shows con' VIDEO 0 tty_clear /\
    shows con' TERM_2_VID 1 (tty_print (banner_text (bytes "Page Fault") 0) p).
Proof.
  assert (is_page TERM_2_VID) as Hv by (exists 2; unfold TERM_2_VID, VIDEO, PAGE_BYTES; lia).
  assert (wf_console (sample_console TERM_2_VID 0 1)) as W by (apply sample_console_wf; [done|lia|lia]).
  destruct (shows_exists (sample_console TERM_2_VID 0 1) TERM_2_VID 1 W Hv) as [p Hp];
    [unfold NUM_TERMS; lia|].
  destruct (exception_banner_placement (replicate 64 0) 14 (bytes "Page Fault") 0
    (sample_console TERM_2_VID 0 1) p eq_refl eq_refl ltac:(unfold is_u32; lia) W Hp) as [_ H].
  destruct H as (con' & E & _ & H1 & H2); [split; discriminate|].
  exists p, con'. exact (conj Hp (conj E (conj H1 H2))).
Defined.
