(* ===== verification/Machine.v ===== *)
(** The processor, as far as the kernel's assembly uses it: the registers of a
    32-bit x86, the stack, the delivery of interrupts through the descriptor table
    and the return from them.

    The stack is a map from addresses to words; the pushes and pops of the code are
    word-aligned, other accesses are not modelled ([None]).  The addresses of
    instructions are consecutive: the lengths of their encodings play no part.  A
    function of the kernel's C code is one instruction, [Body]: what it does to the
    processor is a parameter, and what is known of it is the calling convention. *)
From stdpp Require Import base option list numbers gmap.
From Stdlib Require Import ZArith Lia.
From S2P Require Import Prelude LibString Console Printf Idt.

(** ** Registers *)

Inductive reg := EAX | ECX | EDX | EBX | ESP | EBP | ESI | EDI.

#[export] Instance reg_eq_dec : EqDecision reg.
Proof. solve_decision. Defined.

(** The registers but the stack pointer. *)
Record regs := mkRegs {
  r_eax : Z; r_ecx : Z; r_edx : Z; r_ebx : Z; r_ebp : Z; r_esi : Z; r_edi : Z;
}.

#[export] Instance eta_regs : EtaExpand regs := fun r =>
  mkRegs (r_eax r) (r_ecx r) (r_edx r) (r_ebx r) (r_ebp r) (r_esi r) (r_edi r).

Lemma regs_eta r : mkRegs (r_eax r) (r_ecx r) (r_edx r) (r_ebx r) (r_ebp r) (r_esi r) (r_edi r) = r.
Proof. by destruct r. Qed.

Inductive sreg := DS | ES | FS | GS | SS.

(** The data segment registers. *)
Record sregs := mkSregs { r_ds : Z; r_es : Z; r_fs : Z; r_gs : Z }.

#[export] Instance eta_sregs : EtaExpand sregs := fun r => mkSregs (r_ds r) (r_es r) (r_fs r) (r_gs r).

Record cpu := mkCpu {
  gpr : regs;
  sp : Z;              (* ESP *)
  eip : Z;
  eflags : Z;
  cs : Z;
  ss : Z;
  dsegs : sregs;
  gdtr : Z;
  mem : gmap Z Z;
}.

#[export] Instance eta_cpu : EtaExpand cpu := fun c =>
  mkCpu (gpr c) (sp c) (eip c) (eflags c) (cs c) (ss c) (dsegs c) (gdtr c) (mem c).

Definition get_reg (r : reg) (c : cpu) : Z :=
  match r with
  | EAX => r_eax (gpr c) | ECX => r_ecx (gpr c) | EDX => r_edx (gpr c) | EBX => r_ebx (gpr c)
  | ESP => sp c | EBP => r_ebp (gpr c) | ESI => r_esi (gpr c) | EDI => r_edi (gpr c)
  end.

Definition set_reg (r : reg) (v : Z) (c : cpu) : cpu :=
  match r with
  | EAX => c <| gpr ::= fun g => g <| r_eax := v |> |>
  | ECX => c <| gpr ::= fun g => g <| r_ecx := v |> |>
  | EDX => c <| gpr ::= fun g => g <| r_edx := v |> |>
  | EBX => c <| gpr ::= fun g => g <| r_ebx := v |> |>
  | ESP => c <| sp := v |>
  | EBP => c <| gpr ::= fun g => g <| r_ebp := v |> |>
  | ESI => c <| gpr ::= fun g => g <| r_esi := v |> |>
  | EDI => c <| gpr ::= fun g => g <| r_edi := v |> |>
  end.

Definition set_seg (s : sreg) (v : Z) (c : cpu) : cpu :=
  match s with
  | DS => c <| dsegs ::= fun d => d <| r_ds := v |> |>
  | ES => c <| dsegs ::= fun d => d <| r_es := v |> |>
  | FS => c <| dsegs ::= fun d => d <| r_fs := v |> |>
  | GS => c <| dsegs ::= fun d => d <| r_gs := v |> |>
  | SS => c <| ss := v |>
  end.

(** The requestor's privilege in a selector; that of CS is the current one. *)
Definition rpl (selector : Z) : Z := Z.land selector 3.

Lemma rpl_range selector : 0 <= rpl selector <= 3.
Proof.
  change (0 <= Z.land selector (Z.ones 2) <= 3). rewrite Z.land_ones by done. change (2 ^ 2) with 4.
  pose proof (Z.mod_pos_bound selector 4 eq_refl). lia.
Qed.

(** ** Flags *)

Definition CF_BIT : Z := 0.
Definition PF_BIT : Z := 2.
Definition AF_BIT : Z := 4.
Definition ZF_BIT : Z := 6.
Definition SF_BIT : Z := 7.
Definition TF_BIT : Z := 8.
Definition IF_BIT : Z := 9.
Definition OF_BIT : Z := 11.
Definition NT_BIT : Z := 14.
Definition RF_BIT : Z := 16.
Definition VM_BIT : Z := 17.

Definition set_flag (n : Z) (b : bool) (fl : Z) : Z := if b then Z.setbit fl n else Z.clearbit fl n.

Definition even_parity (r : Z) : bool := negb (foldr (fun n b => xorb (Z.testbit r n) b) false (seqZ 0 8)).

(** The flags of an addition or subtraction: the unsigned, signed and low-nibble
    results out of range, and the word itself. *)
Definition arith_flags (cf of_ af : bool) (r fl : Z) : Z :=
  set_flag CF_BIT cf (set_flag PF_BIT (even_parity r) (set_flag AF_BIT af
    (set_flag ZF_BIT (r =? 0) (set_flag SF_BIT (2147483648 <=? r) (set_flag OF_BIT of_ fl))))).

Definition in_s32 (z : Z) : bool := (-2147483648 <=? z) && (z <? 2147483648).

Definition cmp_flags (a b fl : Z) : Z :=
  arith_flags (a <? b) (negb (in_s32 (s32 a - s32 b))) (a mod 16 <? b mod 16) (u32 (a - b)) fl.

Definition add_flags (a b fl : Z) : Z :=
  arith_flags (4294967296 <=? a + b) (negb (in_s32 (s32 a + s32 b))) (16 <=? a mod 16 + b mod 16) (u32 (a + b)) fl.

(** The conditions of jg and jl. *)
Definition greater (fl : Z) : bool := negb (Z.testbit fl ZF_BIT) && Bool.eqb (Z.testbit fl SF_BIT) (Z.testbit fl OF_BIT).
Definition less (fl : Z) : bool := negb (Bool.eqb (Z.testbit fl SF_BIT) (Z.testbit fl OF_BIT)).

(** ** The stack *)

Definition load (a : Z) (m : gmap Z Z) : option Z := if a mod 4 =? 0 then m !! a else None.
Definition store (a v : Z) (m : gmap Z Z) : option (gmap Z Z) := if a mod 4 =? 0 then Some (<[a := v]> m) else None.

Definition push (v : Z) (c : cpu) : option cpu :=
  m ← store (u32 (sp c - 4)) v (mem c); Some (c <| sp := u32 (sp c - 4) |> <| mem := m |>).

Definition pop (c : cpu) : option (Z * cpu) :=
  v ← load (sp c) (mem c); Some (v, c <| sp := u32 (sp c + 4) |>).

Fixpoint push_all (vs : list Z) (c : cpu) : option cpu :=
  match vs with [] => Some c | v :: vs => c ← push v c; push_all vs c end.

Fixpoint pop_all (n : nat) (c : cpu) : option (list Z * cpu) :=
  match n with O => Some ([], c) | S n => '(v, c) ← pop c; '(vs, c) ← pop_all n c; Some (v :: vs, c) end.

(** ** Instructions *)

Inductive operand := Imm (v : Z) | Reg (r : reg).

(** Jumps and calls name their target by its address; [CallTable base index] is
    [call *jump_table(base,index,4)]; [Body] is a function of the C code. *)
Inductive instr (F : Type) :=
| Pushl (o : operand) | Popl (r : reg)
| Pushal | Popal | Pushfl | Popfl
| Movl (o : operand) (r : reg) | Loadl (disp : Z) (base r : reg)
| Addl (v : Z) (r : reg) | Cmpl (v : Z) (r : reg)
| Jg (a : Z) | Jl (a : Z) | Jmp (a : Z)
| Call (a : Z) | CallTable (base index : reg) | Ret
| Int (v : Z) | Iret
| Cli | Lgdt (a : Z) | Ljmp (selector a : Z) | Movw (v : Z) (r : reg) | MovSeg (r : reg) (s : sreg) | Hlt
| Body (f : F).
Arguments Pushl {F}. Arguments Popl {F}. Arguments Pushal {F}. Arguments Popal {F}.
Arguments Pushfl {F}. Arguments Popfl {F}. Arguments Movl {F}. Arguments Loadl {F}.
Arguments Addl {F}. Arguments Cmpl {F}. Arguments Jg {F}. Arguments Jl {F}. Arguments Jmp {F}.
Arguments Call {F}. Arguments CallTable {F}. Arguments Ret {F}. Arguments Int {F}. Arguments Iret {F}.
Arguments Cli {F}. Arguments Lgdt {F}. Arguments Ljmp {F}. Arguments Movw {F}. Arguments MovSeg {F}.
Arguments Hlt {F}. Arguments Body {F}.

Definition value (o : operand) (c : cpu) : Z := match o with Imm v => u32 v | Reg r => get_reg r c end.

Section machine.
(** The C functions and the state they work on; where the linker puts the code and
    the jump table; the descriptor table and the stack of the task state segment. *)
Context {F K : Type} (body : F -> cpu -> K -> option (cpu * K)).
Context (text : Z -> option (instr F)) (table : list Z) (idt : list idt_desc_t) (ss0 : Z) (esp0 : K -> Z).

(** An interrupt: the gate's privilege is checked for the software's; from user
    mode the stack is changed to the task's; an interrupt gate turns off interrupts. *)
Definition interrupt (soft : bool) (v : Z) (err : option Z) (c : cpu) (k : K) : option cpu :=
  g ← idt.[v];
  if negb (present g =? 1) then None
  else if soft && (dpl g <? rpl (cs c)) then None
  else
    c1 ← (if rpl (cs c) =? rpl (seg_selector g) then Some c
          else push_all [ss c; sp c] (c <| ss := ss0 |> <| sp := esp0 k |>));
    c2 ← push_all ([eflags c; cs c; eip c] ++ option_list err) c1;
    let fl := set_flag TF_BIT false (set_flag NT_BIT false (set_flag RF_BIT false (set_flag VM_BIT false (eflags c)))) in
    Some (c2 <| cs := seg_selector g |> <| eip := gate_target g |>
             <| eflags := if reserved3 g =? 0 then set_flag IF_BIT false fl else fl |>).

Definition iret (c : cpu) : option cpu :=
  '(a, c) ← pop c; '(s, c) ← pop c; '(fl, c) ← pop c;
  let c' := c <| eip := a |> <| cs := s |> <| eflags := fl |> in
  if rpl s =? rpl (cs c) then Some c'
  else '(p, c') ← pop c'; '(t, c') ← pop c'; Some (c' <| sp := p |> <| ss := t |>).

Definition step (st : cpu * K) : option (cpu * K) :=
  let '(c0, k) := st in
  i ← text (eip c0);
  let c := c0 <| eip ::= Z.succ |> in
  match i with
  | Pushl o => c ← push (value o c) c; Some (c, k)
  | Popl r => '(v, c) ← pop c; Some (set_reg r v c, k)
  | Pushal =>
      c ← push_all [get_reg EAX c; get_reg ECX c; get_reg EDX c; get_reg EBX c; get_reg ESP c; get_reg EBP c; get_reg ESI c; get_reg EDI c] c;
      Some (c, k)
  | Popal =>
      '(vs, c) ← pop_all 8 c;
      match vs with
      | [di; si; bp; _; b; d; cx; a] => Some (c <| gpr := mkRegs a cx d b bp si di |>, k)
      | _ => None
      end
  | Pushfl => c ← push (set_flag VM_BIT false (set_flag RF_BIT false (eflags c))) c; Some (c, k)
  | Popfl => '(v, c) ← pop c; Some (c <| eflags := v |>, k)
  | Movl o r => Some (set_reg r (value o c) c, k)
  | Loadl disp base r => v ← load (u32 (get_reg base c + disp)) (mem c); Some (set_reg r v c, k)
  | Addl v r => Some (set_reg r (u32 (get_reg r c + v)) (c <| eflags ::= add_flags (get_reg r c) (u32 v) |>), k)
  | Cmpl v r => Some (c <| eflags ::= cmp_flags (get_reg r c) (u32 v) |>, k)
  | Jg a => Some (if greater (eflags c) then c <| eip := a |> else c, k)
  | Jl a => Some (if less (eflags c) then c <| eip := a |> else c, k)
  | Jmp a => Some (c <| eip := a |>, k)
  | Call a => c1 ← push (eip c) c; Some (c1 <| eip := a |>, k)
  | CallTable base index =>
      let off := u32 (get_reg base c + 4 * get_reg index c) in
      if off mod 4 =? 0 then a ← table.[off / 4]; c1 ← push (eip c) c; Some (c1 <| eip := a |>, k) else None
  | Ret => '(a, c) ← pop c; Some (c <| eip := a |>, k)
  | Int v => c ← interrupt true v None c k; Some (c, k)
  | Iret => c ← iret c; Some (c, k)
  | Cli => Some (c <| eflags ::= set_flag IF_BIT false |>, k)
  | Lgdt a => Some (c <| gdtr := a |>, k)
  | Ljmp s a => Some (c <| cs := s |> <| eip := a |>, k)
  | Movw v r => Some (set_reg r (get_reg r c / 65536 * 65536 + v mod 65536) c, k)
  | MovSeg r s => Some (set_seg s (get_reg r c mod 65536) c, k)
  | Hlt => Some (c0, k)
  | Body f => body f c0 k
  end.

(** [n] instructions. *)
Fixpoint run (n : nat) (st : cpu * K) : option (cpu * K) :=
  match n with O => Some st | S n => st ← step st; run n st end.

Definition reaches (st st' : cpu * K) : Prop := exists n, run n st = Some st'.
End machine.

(** ** Stacks *)

(** The stack pointer [p] is [ws] words below [s]; from [s] upward the memory is
    that of [m0]. *)
Definition frame (s : Z) (ws : list Z) (m0 : gmap Z Z) (p : Z) (m : gmap Z Z) : Prop :=
  s mod 4 = 0 /\ s < 4294967296 /\ p = s - 4 * len ws /\ 0 <= p /\
  (forall i w, ws !! i = Some w -> m !! (p + 4 * Z.of_nat i) = Some w) /\
  forall a, s <= a -> m !! a = m0 !! a.

Lemma frame_nil s m : s mod 4 = 0 -> 0 <= s < 4294967296 -> frame s [] m s m.
Proof. intros. split_and!; cbn; try lia; done. Qed.

Lemma aligned_word p q n : q mod 4 = 0 -> p = q - 4 * n -> (p mod 4 =? 0) = true.
Proof.
  intros H ->. apply Z.eqb_eq. rewrite <- H. replace (q - 4 * n) with (q + - n * 4) by lia. apply Z_mod_plus_full.
Qed.

Lemma push_ok s ws m0 c v :
  frame s ws m0 (sp c) (mem c) -> 4 * (len ws + 1) <= s ->
  exists p m, push v c = Some (c <| sp := p |> <| mem := m |>) /\ frame s (v :: ws) m0 p m.
Proof.
  intros (Ha & Hs & Hp & H0 & Hw & Hm) Hroom. unfold push, store.
  rewrite u32_small by (unfold is_u32; lia).
  rewrite (aligned_word _ s (len ws + 1) Ha) by lia. cbn [mbind option_bind].
  eexists _, _. split; [reflexivity|]. split_and!; [done|done|cbn [length]; lia|lia| |].
  - intros [|i] w E; cbn in E.
    + injection E as ->. rewrite Z.mul_0_r, Z.add_0_r. apply lookup_insert_eq.
    + rewrite lookup_insert_ne by lia. rewrite <- (Hw _ _ E). f_equal. lia.
  - intros a Hge. rewrite lookup_insert_ne by lia. by apply Hm.
Qed.

Lemma pop_ok s w ws m0 c :
  frame s (w :: ws) m0 (sp c) (mem c) ->
  exists p, pop c = Some (w, c <| sp := p |>) /\ frame s ws m0 p (mem c).
Proof.
  intros (Ha & Hs & Hp & H0 & Hw & Hm). unfold pop, load. cbn [length] in Hp.
  rewrite (aligned_word _ s (len ws + 1) Ha) by lia.
  assert (mem c !! sp c = Some w) as E by (rewrite <- (Hw 0%nat w eq_refl); f_equal; lia). rewrite E. cbn [mbind option_bind].
  eexists. split; [reflexivity|]. split; [done|]. split; [done|]. split_and!; [|apply Z.mod_pos_bound; lia| |done].
  - rewrite u32_small by (unfold is_u32; lia). lia.
  - intros i v Ev. rewrite <- (Hw (S i) v Ev). f_equal. rewrite u32_small by (unfold is_u32; lia). lia.
Qed.

Lemma peek_ok s ws m0 p m i w d :
  frame s ws m0 p m -> ws !! i = Some w -> d = 4 * Z.of_nat i -> load (u32 (p + d)) m = Some w.
Proof.
  intros (Ha & Hs & Hp & H0 & Hw & Hm) E ->. pose proof (lookup_lt_Some _ _ _ E). unfold load.
  rewrite u32_small by (unfold is_u32; lia).
  rewrite (aligned_word _ s (len ws - Z.of_nat i) Ha) by lia. by apply Hw.
Qed.

Lemma push_all_ok vs : forall s ws m0 c,
  frame s ws m0 (sp c) (mem c) -> 4 * (len ws + len vs) <= s ->
  exists p m, push_all vs c = Some (c <| sp := p |> <| mem := m |>) /\ frame s (rev vs ++ ws) m0 p m.
Proof.
  induction vs as [|v vs IH]; intros s ws m0 c HF Hroom; cbn [push_all length rev] in *.
  - exists (sp c), (mem c). split; [by destruct c|done].
  - destruct (push_ok s ws m0 c v HF ltac:(lia)) as (p & m & -> & HF1). cbn [mbind option_bind].
    set (c1 := c <| sp := p |> <| mem := m |>). destruct (IH s (v :: ws) m0 c1 HF1 ltac:(cbn [length]; lia)) as (p2 & m2 & -> & HF2).
    exists p2, m2. split; [done|]. by rewrite <- app_assoc.
Qed.

Lemma pop_all_ok vs : forall s ws m0 c,
  frame s (vs ++ ws) m0 (sp c) (mem c) ->
  exists p, pop_all (length vs) c = Some (vs, c <| sp := p |>) /\ frame s ws m0 p (mem c).
Proof.
  induction vs as [|v vs IH]; intros s ws m0 c HF; cbn [pop_all length].
  - exists (sp c). split; [by destruct c|done].
  - destruct (pop_ok s v (vs ++ ws) m0 c HF) as (p & -> & HF1). cbn [mbind option_bind].
    set (c1 := c <| sp := p |>). destruct (IH s ws m0 c1 HF1) as (p2 & -> & HF2). cbn [mbind option_bind].
    exists p2. by split.
Qed.

Lemma frame_sp s ws m0 p m : frame s ws m0 p m -> p = s - 4 * len ws.
Proof. by intros (_ & _ & ? & _). Qed.

Lemma frame_above s ws m0 p m a : frame s ws m0 p m -> s <= a -> m !! a = m0 !! a.
Proof. intros (_ & _ & _ & _ & _ & H). apply H. Qed.

(** The stack alone. *)
Lemma frame_own s ws m0 p m : frame s ws m0 p m -> frame s ws m p m.
Proof. intros (Ha & Hs & Hp & H0 & Hw & _). by split_and!. Qed.

(** Two memories with the same stack agree on it and above. *)
Lemma frame_same s ws m0 p m m' x :
  frame s ws m0 p m -> frame s ws m0 p m' -> p <= x -> x mod 4 = 0 -> m !! x = m' !! x.
Proof.
  intros (Ha & _ & Hp & _ & Hw & Hm) (_ & _ & _ & _ & Hw' & Hm') Hx Hx4.
  destruct (Z.le_gt_cases s x) as [Hge|Hlt]; [by rewrite Hm, Hm'|].
  assert (x = p + 4 * Z.of_nat (Z.to_nat ((x - p) / 4))) as E by (Z.to_euclidean_division_equations; lia).
  destruct (lookup_lt_is_Some_2 ws (Z.to_nat ((x - p) / 4))) as (w & Ew).
  { clear -Hx Hlt Hp. Z.to_euclidean_division_equations. lia. }
  rewrite E. by rewrite (Hw _ _ Ew), (Hw' _ _ Ew).
Qed.

(** Arguments taken off by adding to the stack pointer. *)
Lemma frame_drop s xs ws m0 p m : frame s (xs ++ ws) m0 p m -> frame s ws m0 (u32 (p + 4 * len xs)) m.
Proof.
  intros (Ha & Hs & Hp & H0 & Hw & Hm). rewrite length_app in Hp. rewrite u32_small by (unfold is_u32; lia).
  split_and!; try done; try lia. intros i w E. rewrite <- (Hw (length xs + i)%nat w); [f_equal; lia|].
  by rewrite lookup_app_r, Nat.add_comm, Nat.add_sub by lia.
Qed.

(** A stack above [e] is as it was when the memory from [e] on is. *)
Lemma frame_kept s ws m0 p m m' e :
  frame s ws m0 p m -> e <= p -> (forall a, e <= a -> m' !! a = m !! a) -> frame s ws m0 p m'.
Proof.
  intros (Ha & Hs & Hp & H0 & Hw & Hm) He H. split_and!; try done.
  - intros i w E. rewrite H by lia. by apply Hw.
  - intros a Hge. rewrite H by lia. by apply Hm.
Qed.

(** ** Comparisons *)

Lemma set_flag_eq n b fl : 0 <= n -> Z.testbit (set_flag n b fl) n = b.
Proof. intros Hn. destruct b; [by apply Z.setbit_eq|apply Z.clearbit_eq]. Qed.

Lemma set_flag_ne n m b fl : 0 <= n -> n <> m -> Z.testbit (set_flag n b fl) m = Z.testbit fl m.
Proof. intros Hn Hne. destruct b; [by apply Z.setbit_neq|by apply Z.clearbit_neq]. Qed.

Section cmp.
Context (a b fl : Z) (Ha : is_u32 a) (Hb : is_u32 b).

Lemma cmp_zero : Z.testbit (cmp_flags a b fl) ZF_BIT = (a =? b).
Proof using Ha Hb.
  unfold cmp_flags, arith_flags. do 3 rewrite (set_flag_ne _ ZF_BIT) by done. rewrite set_flag_eq by done.
  unfold is_u32, u32 in *. destruct (Z.eqb_spec a b) as [->|Hne]; [by rewrite Z.sub_diag|].
  apply Z.eqb_neq. intros E. apply Z.mod_divide in E as [q E]; lia.
Qed.

Lemma cmp_sign : Z.testbit (cmp_flags a b fl) SF_BIT = (2147483648 <=? u32 (a - b)).
Proof using. unfold cmp_flags, arith_flags. do 4 rewrite (set_flag_ne _ SF_BIT) by done. by apply set_flag_eq. Qed.

Lemma cmp_overflow : Z.testbit (cmp_flags a b fl) OF_BIT = negb (in_s32 (s32 a - s32 b)).
Proof using. unfold cmp_flags, arith_flags. do 5 rewrite (set_flag_ne _ OF_BIT) by done. by apply set_flag_eq. Qed.

Lemma cmp_signs : Bool.eqb (Z.testbit (cmp_flags a b fl) SF_BIT) (Z.testbit (cmp_flags a b fl) OF_BIT) = (s32 b <=? s32 a).
Proof using Ha Hb.
  rewrite cmp_sign, cmp_overflow. unfold is_u32, u32, s32, in_s32 in *.
  Z.to_euclidean_division_equations.
  repeat match goal with |- context [?x <=? ?y] => destruct (Z.leb_spec x y)
    | |- context [?x <? ?y] => destruct (Z.ltb_spec x y) end; cbn; lia.
Qed.

(** jg and jl compare as the signed numbers do. *)
Lemma jump_less : less (cmp_flags a b fl) = (s32 a <? s32 b).
Proof using Ha Hb. unfold less. rewrite cmp_signs. destruct (Z.leb_spec (s32 b) (s32 a)), (Z.ltb_spec (s32 a) (s32 b)); done || lia. Qed.

Lemma jump_greater : greater (cmp_flags a b fl) = (s32 b <? s32 a).
Proof using Ha Hb.
  unfold greater. rewrite cmp_signs, cmp_zero. unfold is_u32, s32 in *.
  destruct (Z.eqb_spec a b) as [->|]; [by rewrite Z.ltb_irrefl|]. cbn.
  destruct (Z.leb_spec ((b + 2147483648) mod 4294967296 - 2147483648) ((a + 2147483648) mod 4294967296 - 2147483648)),
    (Z.ltb_spec ((b + 2147483648) mod 4294967296 - 2147483648) ((a + 2147483648) mod 4294967296 - 2147483648)); try done; try lia.
  Z.to_euclidean_division_equations. lia.
Qed.
End cmp.

(** ** Execution *)

Section execution.
Context {F K : Type} (body : F -> cpu -> K -> option (cpu * K)).
Context (text : Z -> option (instr F)) (table : list Z) (idt : list idt_desc_t) (ss0 : Z) (esp0 : K -> Z).
Local Notation step := (step body text table idt ss0 esp0).
Local Notation reaches := (reaches body text table idt ss0 esp0).

Lemma reaches_refl st : reaches st st.
Proof. by exists 0%nat. Qed.

Lemma reaches_step st st1 st2 : step st = Some st1 -> reaches st1 st2 -> reaches st st2.
Proof. intros E [n Hn]. exists (S n). cbn [run]. by rewrite E. Qed.

Lemma reaches_trans st st1 st2 : reaches st st1 -> reaches st1 st2 -> reaches st st2.
Proof.
  intros [n Hn] H2. revert st Hn. induction n as [|n IH]; intros st Hn; cbn [run] in Hn; [by injection Hn as ->|].
  destruct (step st) as [st'|] eqn:E; [|done]. eapply reaches_step; [exact E|]. by apply IH.
Qed.

(** The code [l] is placed from [base] on. *)
Definition code_at (base : Z) (l : list (instr F)) : Prop :=
  forall i ins, l !! i = Some ins -> text (base + Z.of_nat i) = Some ins.

Lemma fetch base l pc (i : nat) ins : code_at base l -> l !! i = Some ins -> pc = base + Z.of_nat i -> text pc = Some ins.
Proof. intros H E ->. by apply H. Qed.

(** What a C function [f] called with [args] on a stack whose top is [top] does,
    whatever it leaves in the other registers and in the rest of memory: the result
    is in EAX, the words between its arguments and the top are as they were, so are
    those at the addresses in [keep], and it goes back to its return address. *)
Definition comes_back (top : Z) (keep : Z -> Prop) (f : F) (args : list Z) (k : K) (v : Z) (k' : K) : Prop :=
  forall c ret ws m0, frame top (ret :: args ++ ws) m0 (sp c) (mem c) ->
  exists g fl p m args',
    body f c k = Some (c <| gpr := g |> <| sp := p |> <| eip := ret |> <| eflags := fl |> <| mem := m |>, k') /\
    r_eax g = v /\ length args' = length args /\ frame top (args' ++ ws) m p m /\
    forall a, keep a -> m !! a = mem c !! a.

(** [m] is what [f] has left of a memory that was [m0] from [top] on. *)
Definition left_by (top : Z) (keep : Z -> Prop) (m0 : gmap Z Z) (f : F) (args : list Z) (k k' : K) (m : gmap Z Z) : Prop :=
  exists c c' ret ws, frame top (ret :: args ++ ws) m0 (sp c) (mem c) /\ body f c k = Some (c', k') /\ mem c' = m /\
    forall a, keep a -> m !! a = mem c !! a.

Lemma left_by_kept top keep m0 f args k k' m a : left_by top keep m0 f args k k' m -> keep a -> top <= a -> m !! a = m0 !! a.
Proof using. intros (c & c' & ret & ws & HF & _ & _ & Hk) Ha Ht. rewrite (Hk a Ha). by eapply frame_above. Qed.

(** The machine gets to a state with [Q]. *)
Definition ends (st : cpu * K) (Q : cpu * K -> Prop) : Prop := exists st', reaches st st' /\ Q st'.

Lemma ends_now (st : cpu * K) (Q : cpu * K -> Prop) : Q st -> ends st Q.
Proof. intros H. exists st. split; [apply reaches_refl|done]. Qed.

Lemma ends_step st st1 Q : step st = Some st1 -> ends st1 Q -> ends st Q.
Proof. intros E (st' & H & HQ). exists st'. split; [by eapply reaches_step|done]. Qed.

Lemma ends_bind st Q R : ends st Q -> (forall st', Q st' -> ends st' R) -> ends st R.
Proof.
  intros (st1 & H1 & HQ) HR. destruct (HR st1 HQ) as (st2 & H2 & HR2). exists st2. split; [|done].
  by eapply reaches_trans.
Qed.

Lemma body_step f a c k st : text a = Some (Body f) -> eip c = a -> body f c k = Some st -> step (c, k) = Some st.
Proof. intros Ea Hc Eb. cbn [Machine.step]. rewrite Hc, Ea. exact Eb. Qed.

Section instructions.
Context (base : Z) (l : list (instr F)) (i : nat) (Hat : code_at base l) (Q : cpu * K -> Prop).
Context (c : cpu) (k : K) (Hpc : eip c = base + Z.of_nat i).
Context (s : Z) (ws : list Z) (m0 : gmap Z Z).

Lemma ends_plain ins st : l !! i = Some ins ->
  (text (eip c) = Some ins -> step (c, k) = Some st) -> ends st Q -> ends (c, k) Q.
Proof using Hat Hpc. intros E Hs. apply ends_step, Hs. by eapply fetch. Qed.

Lemma ends_push o : l !! i = Some (Pushl o) ->
  frame s ws m0 (sp c) (mem c) -> 4 * (len ws + 1) <= s ->
  (forall p m, frame s (value o c :: ws) m0 p m -> ends (c <| eip ::= Z.succ |> <| sp := p |> <| mem := m |>, k) Q) ->
  ends (c, k) Q.
Proof using Hat Hpc.
  intros E HF Hroom HQ. set (c1 := c <| eip ::= Z.succ |>).
  destruct (push_ok s ws m0 c1 (value o c) HF Hroom) as (p & m & Ep & HF1).
  eapply ends_plain; [exact E| |exact (HQ p m HF1)]. intros Et. cbn [Machine.step]. rewrite Et. cbn [mbind option_bind].
  replace (value o _) with (value o c) by (by destruct o as [|[]]). fold c1. by rewrite Ep.
Qed.

Lemma ends_pop w r : l !! i = Some (Popl r) ->
  frame s (w :: ws) m0 (sp c) (mem c) ->
  (forall p, frame s ws m0 p (mem c) -> ends (set_reg r w (c <| eip ::= Z.succ |> <| sp := p |>), k) Q) ->
  ends (c, k) Q.
Proof using Hat Hpc.
  intros E HF HQ. set (c1 := c <| eip ::= Z.succ |>).
  destruct (pop_ok s w ws m0 c1 HF) as (p & Ep & HF1).
  eapply ends_plain; [exact E| |exact (HQ p HF1)]. intros Et. cbn [Machine.step]. rewrite Et. cbn [mbind option_bind].
  fold c1. by rewrite Ep.
Qed.

Lemma ends_pushal : l !! i = Some Pushal ->
  frame s ws m0 (sp c) (mem c) -> 4 * (len ws + 8) <= s ->
  (forall p m, frame s ([get_reg EDI c; get_reg ESI c; get_reg EBP c; sp c; get_reg EBX c; get_reg EDX c;
                         get_reg ECX c; get_reg EAX c] ++ ws) m0 p m ->
     ends (c <| eip ::= Z.succ |> <| sp := p |> <| mem := m |>, k) Q) ->
  ends (c, k) Q.
Proof using Hat Hpc.
  intros E HF Hroom HQ. set (c1 := c <| eip ::= Z.succ |>).
  destruct (push_all_ok [get_reg EAX c1; get_reg ECX c1; get_reg EDX c1; get_reg EBX c1; get_reg ESP c1; get_reg EBP c1;
    get_reg ESI c1; get_reg EDI c1] s ws m0 c1 HF Hroom) as (p & m & Ep & HF1).
  eapply ends_plain; [exact E| |exact (HQ p m HF1)]. intros Et. cbn [Machine.step]. rewrite Et. cbn [mbind option_bind].
  fold c1. by rewrite Ep.
Qed.

Lemma ends_popal di si bp x b d cx a : l !! i = Some Popal ->
  frame s ([di; si; bp; x; b; d; cx; a] ++ ws) m0 (sp c) (mem c) ->
  (forall p, frame s ws m0 p (mem c) ->
     ends (c <| eip ::= Z.succ |> <| sp := p |> <| gpr := mkRegs a cx d b bp si di |>, k) Q) ->
  ends (c, k) Q.
Proof using Hat Hpc.
  intros E HF HQ. set (c1 := c <| eip ::= Z.succ |>).
  destruct (pop_all_ok [di; si; bp; x; b; d; cx; a] s ws m0 c1 HF) as (p & Ep & HF1).
  eapply ends_plain; [exact E| |exact (HQ p HF1)]. intros Et. cbn [Machine.step]. rewrite Et. cbn [mbind option_bind].
  fold c1. cbn [length] in Ep. by rewrite Ep.
Qed.

Lemma ends_pushfl : l !! i = Some Pushfl ->
  frame s ws m0 (sp c) (mem c) -> 4 * (len ws + 1) <= s ->
  (forall p m fl, frame s (fl :: ws) m0 p m -> ends (c <| eip ::= Z.succ |> <| sp := p |> <| mem := m |>, k) Q) ->
  ends (c, k) Q.
Proof using Hat Hpc.
  intros E HF Hroom HQ. set (c1 := c <| eip ::= Z.succ |>).
  destruct (push_ok s ws m0 c1 (set_flag VM_BIT false (set_flag RF_BIT false (eflags c1))) HF Hroom) as (p & m & Ep & HF1).
  eapply ends_plain; [exact E| |exact (HQ p m _ HF1)]. intros Et. cbn [Machine.step]. rewrite Et. cbn [mbind option_bind].
  fold c1. by rewrite Ep.
Qed.

Lemma ends_popfl w : l !! i = Some Popfl ->
  frame s (w :: ws) m0 (sp c) (mem c) ->
  (forall p, frame s ws m0 p (mem c) -> ends (c <| eip ::= Z.succ |> <| sp := p |> <| eflags := w |>, k) Q) ->
  ends (c, k) Q.
Proof using Hat Hpc.
  intros E HF HQ. set (c1 := c <| eip ::= Z.succ |>).
  destruct (pop_ok s w ws m0 c1 HF) as (p & Ep & HF1).
  eapply ends_plain; [exact E| |exact (HQ p HF1)]. intros Et. cbn [Machine.step]. rewrite Et. cbn [mbind option_bind].
  fold c1. by rewrite Ep.
Qed.

Lemma ends_load disp r w (j : nat) : l !! i = Some (Loadl disp ESP r) ->
  frame s ws m0 (sp c) (mem c) -> ws !! j = Some w -> disp = 4 * Z.of_nat j ->
  ends (set_reg r w (c <| eip ::= Z.succ |>), k) Q -> ends (c, k) Q.
Proof using Hat Hpc.
  intros E HF Ew Hj HQ. eapply ends_plain; [exact E| |exact HQ]. intros Et. cbn [Machine.step]. rewrite Et.
  pose proof (peek_ok _ _ _ _ _ _ _ _ HF Ew Hj) as Ep. set (c1 := c <| eip ::= Z.succ |>).
  change (load (u32 (get_reg ESP c1 + disp)) (mem c1) = Some w) in Ep. cbn [mbind option_bind]. fold c1. by rewrite Ep.
Qed.

Lemma ends_ret w : l !! i = Some Ret -> frame s (w :: ws) m0 (sp c) (mem c) ->
  (forall p, frame s ws m0 p (mem c) -> ends (c <| sp := p |> <| eip := w |>, k) Q) -> ends (c, k) Q.
Proof using Hat Hpc.
  intros E HF HQ. set (c1 := c <| eip ::= Z.succ |>).
  destruct (pop_ok s w ws m0 c1 HF) as (p & Ep & HF1).
  eapply ends_plain; [exact E| |exact (HQ p HF1)]. intros Et. cbn [Machine.step]. rewrite Et. cbn [mbind option_bind].
  fold c1. by rewrite Ep.
Qed.

(** To the first instruction of what is called. *)
Lemma ends_to a : l !! i = Some (Call a) -> frame s ws m0 (sp c) (mem c) -> 4 * (len ws + 1) <= s ->
  (forall p m, frame s (eip c + 1 :: ws) m0 p m -> ends (c <| sp := p |> <| mem := m |> <| eip := a |>, k) Q) ->
  ends (c, k) Q.
Proof using Hat Hpc.
  intros E HF Hroom HQ. set (c1 := c <| eip ::= Z.succ |>).
  destruct (push_ok s ws m0 c1 (eip c1) HF Hroom) as (p & m & Ep & HF1).
  eapply ends_plain; [exact E| |exact (HQ p m HF1)]. intros Et. cbn [Machine.step]. rewrite Et. cbn [mbind option_bind].
  fold c1. by rewrite Ep.
Qed.

Lemma ends_mov_seg r t v : l !! i = Some (MovSeg r t) -> get_reg r c mod 65536 = v ->
  ends (set_seg t v (c <| eip ::= Z.succ |>), k) Q -> ends (c, k) Q.
Proof using Hat Hpc.
  intros E <- HQ. eapply ends_plain; [exact E| |exact HQ]. intros Et. cbn [Machine.step]. rewrite Et.
  by destruct r.
Qed.

Lemma ends_addl v : l !! i = Some (Addl v ESP) ->
  (forall fl, ends (c <| eip ::= Z.succ |> <| sp := u32 (sp c + v) |> <| eflags := fl |>, k) Q) -> ends (c, k) Q.
Proof using Hat Hpc.
  intros E HQ. eapply ends_plain; [exact E| |exact (HQ (add_flags (sp c) (u32 v) (eflags c)))].
  intros Et. cbn [Machine.step]. rewrite Et. reflexivity.
Qed.

(** A call of a C function that comes back. *)
Lemma ends_call keep a f args v k' : l !! i = Some (Call a) -> text a = Some (Body f) -> comes_back s keep f args k v k' ->
  frame s (args ++ ws) m0 (sp c) (mem c) -> 4 * (len (args ++ ws) + 1) <= s ->
  (forall g fl p m args', r_eax g = v -> length args' = length args -> frame s (args' ++ ws) m p m ->
     left_by s keep m0 f args k k' m ->
     ends (c <| gpr := g |> <| sp := p |> <| eip ::= Z.succ |> <| eflags := fl |> <| mem := m |>, k') Q) ->
  ends (c, k) Q.
Proof using Hat Hpc.
  intros E Ea Hf HF Hroom HQ. set (c1 := c <| eip ::= Z.succ |>).
  destruct (push_ok s (args ++ ws) m0 c1 (eip c1) HF Hroom) as (p & m & Ep & HF1).
  set (c2 := c1 <| sp := p |> <| mem := m |> <| eip := a |>).
  destruct (Hf c2 (eip c1) ws m0 HF1) as (g & fl & p' & m' & args' & Eb & Hv & Hl & HF2 & Hkeep).
  eapply ends_plain; [exact E| |].
  - intros Et. cbn [Machine.step]. rewrite Et. cbn [mbind option_bind]. fold c1. rewrite Ep. reflexivity.
  - apply (ends_step (c2, k) _ Q (body_step f a c2 k _ Ea eq_refl Eb)). apply (HQ g fl p' m' args' Hv Hl HF2).
    eexists c2, _, (eip c1), ws. split; [exact HF1|]. split; [exact Eb|]. by split.
Qed.

(** The same through the jump table. *)
Lemma ends_call_table keep x y a f args v k' : l !! i = Some (CallTable x y) ->
  let off := u32 (get_reg x c + 4 * get_reg y c) in
  off mod 4 = 0 -> table.[off / 4] = Some a -> text a = Some (Body f) -> comes_back s keep f args k v k' ->
  frame s (args ++ ws) m0 (sp c) (mem c) -> 4 * (len (args ++ ws) + 1) <= s ->
  (forall g fl p m args', r_eax g = v -> length args' = length args -> frame s (args' ++ ws) m p m ->
     left_by s keep m0 f args k k' m ->
     ends (c <| gpr := g |> <| sp := p |> <| eip ::= Z.succ |> <| eflags := fl |> <| mem := m |>, k') Q) ->
  ends (c, k) Q.
Proof using Hat Hpc.
  intros E off Hoff Ht Ea Hf HF Hroom HQ. set (c1 := c <| eip ::= Z.succ |>).
  destruct (push_ok s (args ++ ws) m0 c1 (eip c1) HF Hroom) as (p & m & Ep & HF1).
  set (c2 := c1 <| sp := p |> <| mem := m |> <| eip := a |>).
  destruct (Hf c2 (eip c1) ws m0 HF1) as (g & fl & p' & m' & args' & Eb & Hv & Hl & HF2 & Hkeep).
  eapply ends_plain; [exact E| |].
  - intros Et. cbn [Machine.step]. rewrite Et. cbn [mbind option_bind]. fold c1.
    replace (u32 (get_reg x c1 + 4 * get_reg y c1)) with off by (by destruct x, y).
    rewrite (proj2 (Z.eqb_eq _ _) Hoff), Ht. cbn [mbind option_bind]. rewrite Ep. reflexivity.
  - apply (ends_step (c2, k) _ Q (body_step f a c2 k _ Ea eq_refl Eb)). apply (HQ g fl p' m' args' Hv Hl HF2).
    eexists c2, _, (eip c1), ws. split; [exact HF1|]. split; [exact Eb|]. by split.
Qed.
End instructions.

Lemma ends_imms base l Q k s m0 vs : forall (i : nat) c ws, code_at base l -> eip c = base + Z.of_nat i ->
  (forall j v, vs !! j = Some v -> l !! (i + j)%nat = Some (Pushl (Imm v))) ->
  frame s ws m0 (sp c) (mem c) -> 4 * (len ws + len vs) <= s ->
  (forall p m, frame s (rev (u32 <$> vs) ++ ws) m0 p m ->
     ends (c <| eip := base + Z.of_nat (i + length vs) |> <| sp := p |> <| mem := m |>, k) Q) ->
  ends (c, k) Q.
Proof.
  induction vs as [|v vs IH]; intros i c ws Hat Hpc Hl HF Hroom HQ; cbn [length rev fmap list_fmap] in *.
  - specialize (HQ _ _ HF). rewrite Nat.add_0_r, <- Hpc in HQ. by destruct c.
  - eapply (ends_push base l i Hat Q c k Hpc s ws m0 (Imm v)); [by rewrite <- (Hl 0%nat v eq_refl), Nat.add_0_r|done|lia|].
    intros p m HF1. set (c1 := c <| eip ::= Z.succ |> <| sp := p |> <| mem := m |>).
    apply (IH (S i) c1 (u32 v :: ws) Hat); [cbn; lia| |exact HF1|cbn [length]; lia|].
    + intros j w Ew. rewrite <- (Hl (S j) w Ew). f_equal. lia.
    + intros p2 m2 HF2. rewrite <- app_assoc in HQ. specialize (HQ p2 m2 HF2).
      by replace (i + S (length vs))%nat with (S i + length vs)%nat in HQ by lia.
Qed.

(** ** Interrupts *)

(** The kernel's stack at an interrupt of [c], and what is put there first. *)
Definition kernel_top (c : cpu) (k : K) : Z := if rpl (cs c) =? 0 then sp c else esp0 k.
Definition user_words (c : cpu) : list Z := if rpl (cs c) =? 0 then [] else [sp c; ss c].

Definition masked (g : idt_desc_t) (fl : Z) : Z :=
  let fl := set_flag TF_BIT false (set_flag NT_BIT false (set_flag RF_BIT false (set_flag VM_BIT false fl))) in
  if reserved3 g =? 0 then set_flag IF_BIT false fl else fl.

(** There is room for [n] words. *)
Definition has_stack (n : Z) (c : cpu) (k : K) : Prop :=
  kernel_top c k mod 4 = 0 /\ 4 * n <= kernel_top c k < 4294967296.

Lemma has_stack_le n n' c k : n <= n' -> has_stack n' c k -> has_stack n c k.
Proof using. intros ? (? & ? & ?). split; [done|lia]. Qed.

Lemma interrupt_ok soft v err g c k :
  idt.[v] = Some g -> present g = 1 -> (soft = true -> rpl (cs c) <= dpl g) -> rpl (seg_selector g) = 0 ->
  has_stack 6 c k ->
  exists p m, interrupt idt ss0 esp0 soft v err c k =
      Some (c <| cs := seg_selector g |> <| ss := if rpl (cs c) =? 0 then ss c else ss0 |> <| eip := gate_target g |>
              <| eflags := masked g (eflags c) |> <| sp := p |> <| mem := m |>) /\
    frame (kernel_top c k) (option_list err ++ [eip c; cs c; eflags c] ++ user_words c) (mem c) p m.
Proof.
  intros Eg Hp Hsoft Hsel (Ha & Hroom & Hmax). unfold interrupt. rewrite Eg. cbn [mbind option_bind].
  rewrite Hp, Hsel. change (negb (1 =? 1)) with false. cbn [negb].
  assert (soft && (dpl g <? rpl (cs c)) = false) as -> by (destruct soft; [specialize (Hsoft eq_refl); cbn; lia|done]).
  unfold kernel_top, user_words in *. destruct (rpl (cs c) =? 0).
  - cbn [mbind option_bind]. destruct (push_all_ok ([eflags c; cs c; eip c] ++ option_list err) (sp c) [] (mem c) c
      (frame_nil _ _ Ha ltac:(lia))) as (p & m & -> & HF); [destruct err; cbn; lia|].
    cbn [mbind option_bind]. exists p, m. split; [by destruct c|by destruct err].
  - set (c1 := c <| ss := ss0 |> <| sp := esp0 k |>).
    destruct (push_all_ok [ss c; sp c] (esp0 k) [] (mem c) c1 (frame_nil _ _ Ha ltac:(lia))) as (p1 & m1 & -> & HF1); [cbn; lia|].
    cbn [mbind option_bind]. set (c2 := c1 <| sp := p1 |> <| mem := m1 |>).
    destruct (push_all_ok ([eflags c; cs c; eip c] ++ option_list err) (esp0 k) ([sp c; ss c] ++ []) (mem c) c2 HF1)
      as (p & m & -> & HF); [destruct err; cbn; lia|].
    cbn [mbind option_bind]. exists p, m. split; [by destruct c|by destruct err].
Qed.

(** The return restores the interrupted state, all but what is below the stack. *)
Lemma iret_ok c0 c k m0 :
  frame (kernel_top c0 k) ([eip c0; cs c0; eflags c0] ++ user_words c0) m0 (sp c) (mem c) ->
  gpr c = gpr c0 -> dsegs c = dsegs c0 -> gdtr c = gdtr c0 -> rpl (cs c) = 0 ->
  (rpl (cs c0) = 0 -> ss c = ss c0) ->
  iret c = Some (c0 <| mem := mem c |>).
Proof.
  intros HF Hg Hd Hgd Hcs Hss. unfold iret, kernel_top, user_words in *. cbn [app] in HF.
  destruct (pop_ok _ _ _ _ _ HF) as (p1 & -> & HF1). cbn [mbind option_bind]. set (c1 := c <| sp := p1 |>).
  destruct (pop_ok _ _ _ _ c1 HF1) as (p2 & -> & HF2). cbn [mbind option_bind]. set (c2 := c1 <| sp := p2 |>).
  destruct (pop_ok _ _ _ _ c2 HF2) as (p3 & -> & HF3). cbn [mbind option_bind]. set (c3 := c2 <| sp := p3 |>).
  change (cs c3) with (cs c). rewrite Hcs. destruct (Z.eqb_spec (rpl (cs c0)) 0) as [H0|H0].
  - apply frame_sp in HF3. cbn in HF3. rewrite Z.sub_0_r in HF3. specialize (Hss H0). subst c3 c2 c1.
    destruct c, c0. cbn in *. by subst.
  - set (c4 := c3 <| eip := eip c0 |> <| cs := cs c0 |> <| eflags := eflags c0 |>).
    destruct (pop_ok _ _ _ _ c4 HF3) as (p4 & -> & HF4). cbn [mbind option_bind]. set (c5 := c4 <| sp := p4 |>).
    destruct (pop_ok _ _ _ _ c5 HF4) as (p5 & -> & HF5). cbn [mbind option_bind].
    subst c5 c4 c3 c2 c1. destruct c, c0. cbn in *. by subst.
Qed.
End execution.
