(* ===== verification/State.v ===== *)
(** The state of the whole kernel: the records of the components, the process
    control blocks and the globals of [src/code/system_call.c],
    [src/code/processes.h], [src/code/directory.c] and [src/code/pit.c]. *)
From stdpp Require Import base option list numbers.
From Stdlib Require Import ZArith Lia.
From S2P Require Import Prelude LibString FileSystem Console I8259 Keyboard Paging Rtc.

Definition NUM_MAX_FILES : Z := 8.
Definition FILE_STR_LEN : Z := 128.
Definition CONST_8MB : Z := 0x800000.
Definition CONST_8KB : Z := 0x2000.
Definition CONST_4MB : Z := 0x400000.
Definition CONST_4KB : Z := 0x1000.

(** The tables of file operations: what file_op_table_ptr points to. *)
Inductive f_op_t :=
| file_opt | dir_opt | rtc_opt | terminal_opt | stdin_opt | stdout_opt | null_opt
| NULL_table.

#[export] Instance f_op_t_eq_dec : EqDecision f_op_t.
Proof. solve_decision. Defined.

Record fd_t := mkFd {
  file_op_table_ptr : f_op_t;
  fd_inode_num : Z;
  file_pos : Z;
  flags : Z;
}.

#[export] Instance eta_fd : EtaExpand fd_t := fun f =>
  mkFd (file_op_table_ptr f) (fd_inode_num f) (file_pos f) (flags f).

Record pcb_t := mkPcb {
  file_descriptor_table : list fd_t;   (* NUM_MAX_FILES entries *)
  parent_pid : Z;
  ebp : Z;
  esp : Z;
  cur_ebp : Z;
  cur_esp : Z;
  eflag : Z;
  cmd_args : list Z;                   (* CMD_LINE_LEN bytes *)
}.

#[export] Instance eta_pcb : EtaExpand pcb_t := fun b =>
  mkPcb (file_descriptor_table b) (parent_pid b) (ebp b) (esp b) (cur_ebp b) (cur_esp b)
    (eflag b) (cmd_args b).

(** [pcbs] holds the control block of process number [i] at index [i]: the block
    at CONST_8MB - (i+1) * CONST_8KB.  Process number -1 has none (that address
    is the first one above the kernel's page).  [prog_mem] holds, per process
    number, the bytes of its program page from 0x8048000 on. *)
Record kernel := mkKernel {
  k_con : console;
  k_kbd : kbd;
  k_pic : pic;
  k_pag : paging;
  k_rtc : rtc_t;
  k_img : list Z;
  read_index : Z;
  pcbs : list pcb_t;
  pid_array : list Z;
  cur_pid : Z;
  prev_pid : Z;
  prog_mem : list (list Z);
  tss_esp0 : Z;
  terminal_init : Z;
  term_init_done : Z;
}.

#[export] Instance eta_kernel : EtaExpand kernel := fun k =>
  mkKernel (k_con k) (k_kbd k) (k_pic k) (k_pag k) (k_rtc k) (k_img k) (read_index k) (pcbs k)
    (pid_array k) (cur_pid k) (prev_pid k) (prog_mem k) (tss_esp0 k) (terminal_init k)
    (term_init_done k).

(** The control block of a process, and its update. *)
Definition get_pcb (pid : Z) (k : kernel) : option pcb_t := (pcbs k).[pid].

Definition upd_pcb (pid : Z) (f : pcb_t -> pcb_t) (k : kernel) : option kernel :=
  b ← (pcbs k).[pid]; l ← (pcbs k).[pid := f b]; Some (k <| pcbs := l |>).

(** The parts other components work on. *)
Definition on_con (f : console -> option console) (k : kernel) : option kernel :=
  c ← f (k_con k); Some (k <| k_con := c |>).

Definition on_kbd {R} (f : kbd -> option (R * kbd)) (k : kernel) : option (R * kernel) :=
  '(r, b) ← f (k_kbd k); Some (r, k <| k_kbd := b |>).

Definition on_pag (f : paging -> option paging) (k : kernel) : option kernel :=
  p ← f (k_pag k); Some (k <| k_pag := p |>).

Definition on_rtc {R} (f : rtc_t -> option (R * rtc_t)) (k : kernel) : option (R * kernel) :=
  '(r, c) ← f (k_rtc k); Some (r, k <| k_rtc := c |>).

(** cli, sti *)
Definition cli (k : kernel) : kernel := k <| k_con ::= fun c => c <| intr := false |> |>.
Definition sti (k : kernel) : kernel := k <| k_con ::= fun c => c <| intr := true |> |>.

Definition eoi (irq : Z) (k : kernel) : kernel := k <| k_pic ::= send_eoi irq |>.

(** The page of video memory in the address space of a program. *)
Definition USER_VIDEO : Z := 0x84B8000.

(** A store of the byte [c] at [va], an address of the four megabytes above the
    program's page, which [pt_user] maps to video memory; [None] is a page fault.  The
    entry is the last step of the page walk ([Desks.user_page_walk]). *)
Definition store_video (user : bool) (va c : Z) (k : kernel) : option kernel :=
  e ← (pt_user (k_pag k)).[va / 4096 mod 1024];
  if negb (allowed user e) then None
  else on_con (fun con =>
    vm ← stb VIDEO (vmem con) (e_addr e * 4096 + va mod 4096) c; Some (con <| vmem := vm |>)) k.

(** A kernel between two interrupts, for the examples. *)
Definition sample_kernel (con : console) (P : paging) : kernel :=
  mkKernel con kbd_reset (i8259_init pic_reset) P rtc_reset [] 0 [] [] 0 0 [] 0 4 1.
