(* ===== verification/Terminal.v ===== *)
(** The terminals: the terminal switch and the keyboard interrupt of
    [src/code/keyboard.c] and the terminal driver of [src/code/terminal.c]. *)
From stdpp Require Import base option list numbers.
From Stdlib Require Import ZArith Lia.
From S2P Require Import Prelude LibString Console I8259 Keyboard Paging State.

Definition TERM1 : Z := 0.
Definition TERM2 : Z := 1.
Definition TERM3 : Z := 2.
Definition IRQ1 : Z := 1.

(** [d[i] = s[i]] for i from 0 to KEY_BUF_SIZE - 1. *)
Definition copy_line (d s : list Z) : option (list Z) :=
  for_range 0 KEY_BUF_SIZE (fun i d => c ← s.[i]; d.[i := c]) d.

(** The backing page of a terminal, chosen by ts or by the function key. *)
Definition backing_page (t : Z) : Z :=
  if t =? TERM1 then Z.shiftl TERMINAL_ONE_VIDMEM_IDX OFFSET_12
  else if t =? TERM2 then Z.shiftl TERMINAL_TWO_VIDMEM_IDX OFFSET_12
  else Z.shiftl TERMINAL_THREE_VIDMEM_IDX OFFSET_12.

(** The keyboard's line goes to the old terminal, the new one's line comes. *)
Definition swap_lines (prev_ts new_ts : Z) (k : kernel) : option kernel :=
  T ← (terminals (k_con k)).[prev_ts];
  b ← copy_line (terminal_buf T) (keyboard_buf (k_kbd k));
  k ← on_con (fun c => upd_term c prev_ts (fun T =>
        T <| terminal_buf := b |> <| buf_idx := s32 (key_idx (k_kbd k)) |>)) k;
  T ← (terminals (k_con k)).[new_ts];
  b ← copy_line (keyboard_buf (k_kbd k)) (terminal_buf T);
  Some (k <| k_kbd ::= fun kb => kb <| keyboard_buf := b |> <| key_idx := u32 (buf_idx T) |> |>).

(** Where [putc] draws and what the user's video page maps, after a change of
    the shown or of the running terminal. *)
Definition retarget_video (k : kernel) : option kernel :=
  let c := k_con k in
  if ts c =? ta c then
    k ← on_con (set_vidmem_page 0) k;
    on_pag (map_user_video VID_MEM_INDEX) k
  else
    k ← on_con (set_vidmem_page (ta c + 1)) k;
    on_pag (map_user_video (VID_MEM_INDEX + ta c + 1)) k.

Definition terminal_switch (function : Z) (k : kernel) : option (Z * kernel) :=
  let k := cli k in
  let vid_mem := Z.shiftl VID_MEM_INDEX OFFSET_12 in
  let prev_ts := ts (k_con k) in
  let prev_vid_addr := backing_page prev_ts in
  let new_ts := if function =? F1 then TERM1 else if function =? F2 then TERM2
                else if function =? F3 then TERM3 else prev_ts in
  let vid_addr := backing_page new_ts in
  let k := k <| k_con ::= fun c => c <| ts := new_ts |> |> in
  if prev_ts =? new_ts then Some (-1, k)
  else
    k ← swap_lines prev_ts new_ts k;
    k ← on_con (fun c => vm ← memcpy VIDEO (vmem c) prev_vid_addr vid_mem CONST_4KB;
                         vm ← memcpy VIDEO vm vid_mem vid_addr CONST_4KB;
                         Some (c <| vmem := vm |>)) k;
    k ← (if negb (term_init_done k =? 0) then retarget_video k else Some k);
    Some (0, sti k).

Definition alt_helper (ascii : Z) (k : kernel) : option (Z * kernel) :=
  let f := function (k_kbd k) in
  if (f <? F1) || (F3 <? f) then Some (-1, k) else terminal_switch f k.

Definition ctrl_helper (c : Z) (k : kernel) : option (Z * kernel) :=
  if (c =? 108) || (c =? 76) then
    k ← on_con clear_screen k;
    '(_, k) ← on_kbd clear_keyboard_buf_caller k;
    Some (0, k)
  else if c =? 0 then Some (0, k)
  else
    '(_, k) ← on_kbd (key_write c) k;
    k ← on_con (put_key c) k;
    Some (0, k).

(** The tab loop: at most TAB_SPACE spaces, until the line is full. *)
Definition tab_spaces (k : kernel) : option kernel :=
  iterate 5 (fun '(i, k) =>
    if i <? TAB_SPACE then
      '(r, k) ← on_kbd (key_write 32) k;
      if r =? 0 then k ← on_con (put_key 32) k; Some (Next (i + 1, k))
      else Some (Done k)
    else Some (Done k)) (0, k).

(** [keypress] is the scan code the data port delivers. *)
Definition keyboard_handler (keypress : Z) (k : kernel) : option kernel :=
  let k := cli k in
  '(ascii, k) ← on_kbd (fun kb => Some (get_key keypress kb)) k;
  k ←
    (if ctrl (k_kbd k) =? 1 then '(_, k) ← ctrl_helper ascii k; Some k
     else if negb (ascii =? 0) then
       '(success, k) ← on_kbd (key_write ascii) k;
       if success =? 0 then
         k ← (if ascii =? 10 then on_con check_cursor k else Some k);
         on_con (put_key ascii) k
       else Some k
     else if backspace (k_kbd k) =? 1 then
       '(r, k) ← on_kbd key_delete k;
       if r =? 0 then k ← on_con remc k; on_con check_cursor k else Some k
     else if tab (k_kbd k) =? 1 then tab_spaces k
     else if alt (k_kbd k) =? 1 then
       let k := eoi IRQ1 k in
       '(_, k) ← alt_helper ascii k; Some k
     else Some k);
  Some (sti (eoi IRQ1 k)).

(** ** The terminal driver *)

Definition terminal_open (k : kernel) : option (Z * kernel) := Some (0, k).
Definition terminal_close (k : kernel) : option (Z * kernel) := Some (0, k).

(** One look at the line: is there a newline in it, with the reader's terminal
    on the screen?  The loop stops at the first NUL. *)
Definition done_typing (k : kernel) : option bool :=
  let temp := keyboard_buf (k_kbd k) in
  found ← iterate (S (Z.to_nat KEY_BUF_SIZE))
    (fun i =>
       if i <? KEY_BUF_SIZE then
         c ← temp.[i];
         if c =? 0 then Some (Done false)
         else if c =? 10 then Some (Done true) else Some (Next (i + 1))
       else Some (Done false)) 0;
  Some (found && (ts (k_con k) =? ta (k_con k))).

(** An interrupt, as the change of state it makes. *)
Definition interrupt : Type := kernel -> option kernel.

Definition run_interrupts (irqs : list interrupt) (k : kernel) : option kernel :=
  foldl (fun acc i => k ← acc; i k) (Some k) irqs.

(** The polling loop: interrupts are enabled between two looks, and while the
    line is not there a look only follows an interrupt with news.  The result
    holds the interrupts that have not happened yet. *)
Definition terminal_read_poll (irqs : list interrupt) (k : kernel) : option (kernel * list interrupt) :=
  iterate (S (length irqs))
    (fun '(k, irqs) =>
       d ← done_typing k;
       if (d : bool) then Some (Done (sti k, irqs))
       else match irqs with i :: irqs => k ← i (sti k); Some (Next (k, irqs)) | [] => None end) (k, irqs).

(** The copy once the line is there. *)
Definition terminal_read_copy (buf : list Z) (nbytes : Z) (k : kernel)
    : option (Z * list Z * kernel) :=
  let temp := keyboard_buf (k_kbd k) in
  '(idx, buf) ← iterate (S (Z.to_nat nbytes))
    (fun '(idx, buf) =>
       c ← temp.[idx];
       if negb (c =? 10) && (idx <? nbytes)
       then buf ← buf.[idx := c]; Some (Next (idx + 1, buf))
       else Some (Done (idx, buf))) (0, buf);
  c ← temp.[idx];
  buf ← buf.[idx := c];
  '(_, k) ← on_kbd clear_keyboard_buf_caller (cli k);
  Some (idx + 1, buf, sti k).

(** [terminal_read]: [irqs] are the interrupts while the loop polls and [late]
    those that slip in between the last look and the copy. *)
Definition terminal_read (irqs late : list interrupt) (buf : option (list Z)) (nbytes : Z) (k : kernel)
    : option (Z * option (list Z) * kernel) :=
  match buf with
  | None => Some (-1, None, k)
  | Some b =>
      if nbytes <? 0 then Some (-1, buf, k)
      else
        '(k, _) ← terminal_read_poll irqs k;
        k ← run_interrupts late k;
        '(n, b, k) ← terminal_read_copy b nbytes k;
        Some (n, Some b, k)
  end.

(** [terminal_write]: [buf] is [None] for a NULL pointer. *)
Definition terminal_write (buf : option (list Z)) (nbytes : Z) (k : kernel) : option (Z * kernel) :=
  match buf with
  | None => Some (-1, k)
  | Some buf =>
      if nbytes <? 0 then Some (-1, k)
      else
        k ← for_range 0 nbytes (fun idx k => c ← buf.[idx]; on_con (putc c) k) k;
        Some (nbytes, k)
  end.

(** ** Views of a terminal *)

(** The page a terminal is on: the screen when it is shown. *)
Definition page_of (t shown : Z) : Z := if t =? shown then VIDEO else backing_page t.

(** The bytes of a terminal's page, and its input line with its length. *)
Definition term_page (k : kernel) (t : Z) : list Z :=
  slice (vmem (k_con k)) (page_of t (ts (k_con k)) - VIDEO) PAGE_BYTES.

Definition term_line (k : kernel) (t : Z) : option (list Z * Z) :=
  if t =? ts (k_con k) then Some (keyboard_buf (k_kbd k), key_idx (k_kbd k))
  else T ← (terminals (k_con k)).[t]; Some (terminal_buf T, buf_idx T).

Definition term_cursor (k : kernel) (t : Z) : option (Z * Z * Z) :=
  T ← (terminals (k_con k)).[t]; Some (cursor_x T, cursor_y T, active_pid T).

(** The keys held down, without the line. *)
Definition keys_of (b : kbd) : kbd := b <| keyboard_buf := [] |> <| key_idx := 0 |>.

Definition line_sized (buf : list Z) (idx : Z) : Prop := len buf = KEY_BUF_SIZE /\ 0 <= idx <= KEY_BUF_SIZE.

(** The terminals' part of the kernel's invariant. *)
Record wf_terms (k : kernel) : Prop := {
  wt_con : wf_console (k_con k);
  wt_flags : flags_ok (k_kbd k);
  wt_line : line_sized (keyboard_buf (k_kbd k)) (key_idx (k_kbd k));
  wt_lines : Forall (fun T => line_sized (terminal_buf T) (buf_idx T)) (terminals (k_con k));
}.

(** The running terminal's output goes to its own page, and its program's
    window on video memory is that page too. *)
Definition targets_ok (pt_addr pt_user_addr : Z) (k : kernel) (prog : Z) : Prop :=
  video_mem (k_con k) = page_of (ta (k_con k)) (ts (k_con k)) /\
  paging_ok pt_addr pt_user_addr (k_pag k) (prog, video_mem (k_con k) / PAGE_BYTES).

(** Nothing but the console, the keyboard and the page tables changed. *)
Definition same_rest (k k' : kernel) : Prop :=
  k' = mkKernel (k_con k') (k_kbd k') (k_pic k) (k_pag k') (k_rtc k) (k_img k) (read_index k)
         (pcbs k) (pid_array k) (cur_pid k) (prev_pid k) (prog_mem k) (tss_esp0 k)
         (terminal_init k) (term_init_done k).

Lemma backing_page_eq t : 0 <= t < NUM_TERMS -> backing_page t = VIDEO + PAGE_BYTES * (t + 1).
Proof.
  unfold NUM_TERMS. intros H. assert (t = 0 \/ t = 1 \/ t = 2) as [-> | [-> | ->] ] by lia; reflexivity.
Qed.

Lemma copy_line_eq d s : len d = KEY_BUF_SIZE -> len s = KEY_BUF_SIZE -> copy_line d s = Some s.
Proof.
  intros Hd Hs. unfold copy_line. unfold KEY_BUF_SIZE in *.
  destruct (for_range_ind (fun i l => len l = 128 /\ forall j, 0 <= j < 128 ->
      l.[j] = if j <? i then s.[j] else d.[j])
    (fun i d => c ← s.[i]; d.[i := c]) 0 128 d) as (l & -> & Hl & H).
  - lia.
  - split; [done|]. intros j Hj. destruct (Z.ltb_spec j 0); [lia|done].
  - intros i l Hi [Hl H]. destruct (aget_is_Some s i) as [c Hc]; [lia|]. rewrite Hc.
    cbn [mbind option_bind]. rewrite aset_Some by lia. eexists; split; [done|].
    split; [by rewrite length_insert|]. intros j Hj. destruct (Z.eq_dec i j) as [<-|Hne].
    + rewrite aget_insert_eq by lia. destruct (Z.ltb_spec i (i + 1)); [done|lia].
    + rewrite aget_insert_ne, H by lia.
      destruct (Z.ltb_spec j i), (Z.ltb_spec j (i + 1)); try done; lia.
  - f_equal. apply aget_ext; [lia|]. intros j Hj. rewrite H by lia.
    destruct (Z.ltb_spec j 128); [done|lia].
Qed.

Section switch.
Context (k : kernel) (W : wf_terms k).

Lemma term_of t : 0 <= t < NUM_TERMS ->
  exists T, (terminals (k_con k)).[t] = Some T /\ term_ok T /\ line_sized (terminal_buf T) (buf_idx T).
Proof.
  intros Ht. destruct (term_exists (k_con k) t (wt_con k W) Ht) as (T & HT & Hok).
  exists T. split_and!; try done. by apply (aget_Forall _ _ _ _ (wt_lines k W) HT).
Qed.
End switch.

(** The state after the lines are swapped. *)
Definition lines_swapped (p n : Z) (Tp Tn : term_t) (k : kernel) : kernel :=
  let stored := Tp <| terminal_buf := keyboard_buf (k_kbd k) |> <| buf_idx := key_idx (k_kbd k) |> in
  let line := (k_kbd k) <| keyboard_buf := terminal_buf Tn |> <| key_idx := buf_idx Tn |> in
  k <| k_con ::= fun c => c <| terminals := <[Z.to_nat p := stored]> (terminals c) |> |>
    <| k_kbd := line |>.

Lemma swap_lines_eq k p n Tp Tn :
  line_sized (keyboard_buf (k_kbd k)) (key_idx (k_kbd k)) ->
  (terminals (k_con k)).[p] = Some Tp -> line_sized (terminal_buf Tp) (buf_idx Tp) ->
  (terminals (k_con k)).[n] = Some Tn -> line_sized (terminal_buf Tn) (buf_idx Tn) -> p <> n ->
  swap_lines p n k = Some (lines_swapped p n Tp Tn k).
Proof.
  intros [Hb Hi] HTp [Hbp Hip] HTn [Hbn Hin] Hne. pose proof (aget_range _ _ _ HTp) as Hp.
  unfold swap_lines. rewrite HTp. cbn [mbind option_bind].
  rewrite copy_line_eq by done. cbn [mbind option_bind].
  unfold on_con, upd_term. rewrite HTp. cbn [mbind option_bind].
  rewrite aset_Some by done. cbn [mbind option_bind].
  destruct k as [con kb pic pag rtc img ri pb pa cp pp pm te ti td]. destruct con, kb. cbn in *.
  rewrite aget_insert_ne, HTn by lia. cbn [mbind option_bind].
  rewrite copy_line_eq by done. cbn.
  rewrite s32_small by (unfold is_s32, KEY_BUF_SIZE in *; lia).
  by rewrite u32_small by (unfold is_u32, KEY_BUF_SIZE in *; lia).
Qed.

(** The two page copies: [p]'s screen goes to its backing page and [n]'s comes. *)
Lemma swap_pages vm p n :
  vm_ok vm -> 0 <= p < NUM_TERMS -> 0 <= n < NUM_TERMS -> p <> n ->
  exists vm',
    (vm ← memcpy VIDEO vm (backing_page p) VIDEO CONST_4KB;
     memcpy VIDEO vm VIDEO (backing_page n) CONST_4KB) = Some vm' /\ vm_ok vm' /\
    forall t, 0 <= t < NUM_TERMS ->
      slice vm' (page_of t n - VIDEO) PAGE_BYTES = slice vm (page_of t p - VIDEO) PAGE_BYTES.
Proof.
  intros Hvm Hp Hn Hne. unfold vm_ok, PAGE_BYTES in Hvm. rewrite !backing_page_eq by done.
  unfold NUM_TERMS, PAGE_BYTES, CONST_4KB in *.
  rewrite memcpy_splice by (unfold VIDEO; lia). cbn [mbind option_bind].
  set (s0 := slice vm (VIDEO - VIDEO) 4096).
  assert (len s0 = 4096) as Hs0 by (unfold s0; rewrite length_slice; lia).
  set (vm1 := splice vm _ s0). assert (length vm1 = length vm) as Hl1 by (apply length_splice; lia).
  rewrite memcpy_splice by (unfold VIDEO; lia).
  set (s1 := slice vm1 (VIDEO + 4096 * (n + 1) - VIDEO) 4096).
  assert (len s1 = 4096) as Hs1 by (unfold s1; rewrite length_slice; lia).
  eexists; split; [reflexivity|]. split; [unfold vm_ok, PAGE_BYTES; rewrite length_splice; lia|].
  intros t Ht. unfold page_of. replace (VIDEO - VIDEO) with 0 in * by lia.
  destruct (Z.eqb_spec t n) as [->|Htn].
  - rewrite (proj2 (Z.eqb_neq n p)) by lia. replace (VIDEO - VIDEO) with 0 by lia.
    rewrite slice_splice_same by lia. rewrite backing_page_eq by done. unfold PAGE_BYTES.
    apply slice_splice_apart; lia.
  - rewrite backing_page_eq by done. unfold PAGE_BYTES.
    rewrite slice_splice_apart by lia. destruct (Z.eqb_spec t p) as [->|Htp].
    + replace (VIDEO - VIDEO) with 0 by lia. fold s0. unfold vm1. by rewrite slice_splice_same by lia.
    + apply slice_splice_apart; lia.
Qed.

Lemma page_of_is_page t shown : 0 <= t < NUM_TERMS -> is_page (page_of t shown).
Proof.
  intros Ht. unfold page_of. destruct (Z.eqb_spec t shown); [apply is_page_VIDEO|].
  exists (t + 1). unfold NUM_TERMS in *. split; [lia|]. by apply backing_page_eq.
Qed.

(** Swapping the lines, with [n] the shown terminal now, keeps every line. *)
Lemma lines_swapped_ok k n Tp Tn :
  let p := ts (k_con k) in
  let k1 := k <| k_con ::= fun c => c <| ts := n |> |> in
  wf_terms k -> 0 <= n < NUM_TERMS -> p <> n ->
  (terminals (k_con k)).[p] = Some Tp -> (terminals (k_con k)).[n] = Some Tn ->
  wf_terms (lines_swapped p n Tp Tn k1) /\
  forall t, 0 <= t < NUM_TERMS ->
    term_line (lines_swapped p n Tp Tn k1) t = term_line k t /\
    term_cursor (lines_swapped p n Tp Tn k1) t = term_cursor k t.
Proof.
  intros p k1 [[Hvm Hvid HT Hcur Hts Hta] Hfl Hline Hlines] Hn Hne Ep En. unfold NUM_TERMS in *.
  pose proof (aget_range _ _ _ Ep) as Hp. subst p k1.
  destruct k as [con kb pic pag rtc img ri pb pa cp pp pm te ti td]. destruct con, kb.
  unfold lines_swapped. cbn in *.
  split.
  - split; cbn; try done.
    + split; cbn; try done; [by rewrite length_insert|]. apply Forall_insert; [done|].
      by destruct Tp; apply (aget_Forall _ _ _ _ Hcur Ep).
    + by destruct Hfl.
    + apply (aget_Forall _ _ _ _ Hlines En).
    + apply Forall_insert; [done|]. exact Hline.
  - intros t Ht. unfold term_line, term_cursor. cbn.
    destruct (Z.eqb_spec t n) as [->|Htn]; [|destruct (Z.eqb_spec t ts) as [->|Htp] ].
    + rewrite (proj2 (Z.eqb_neq n ts)) by lia. by rewrite aget_insert_ne, En by lia.
    + by rewrite aget_insert_eq, Ep by lia.
    + by rewrite aget_insert_ne by lia.
Qed.

Section video.
Context (pt_addr pt_user_addr : Z).

(** The retargeting re-establishes [targets_ok] from any pair of targets. *)
Lemma retarget_video_ok k prog vid :
  0 <= ta (k_con k) < NUM_TERMS -> paging_ok pt_addr pt_user_addr (k_pag k) (prog, vid) ->
  exists P', let c' := (k_con k) <| video_mem := page_of (ta (k_con k)) (ts (k_con k)) |> in
    retarget_video k = Some (k <| k_con := c' |> <| k_pag := P' |>) /\
    targets_ok pt_addr pt_user_addr (k <| k_con := c' |> <| k_pag := P' |>) prog.
Proof.
  intros Hta HP. unfold retarget_video, page_of. rewrite (Z.eqb_sym (ts _)).
  destruct k as [con kb pic pag rtc img ri pb pa cp pp pm te ti td].
  destruct con as [vm vp T s a i]. cbn in Hta, HP.
  assert (a = 0 \/ a = 1 \/ a = 2) as Ha by (unfold NUM_TERMS in *; lia).
  unfold targets_ok, page_of. cbn -[backing_page map_user_video vid_mem_pages].
  destruct (Z.eqb_spec a s) as [E|E].
  - destruct (run_page_op_ok pt_addr pt_user_addr (UserVideo VID_MEM_INDEX) pag (prog, vid))
      as (P' & EP & H); [unfold VID_MEM_INDEX; cbn; lia|done|].
    exists P'. unfold on_con, on_pag, set_vidmem_page.
    change (vid_mem_pages.[0]) with (Some VIDEO). cbn -[map_user_video VID_MEM_INDEX].
    cbn -[map_user_video VID_MEM_INDEX] in EP. rewrite EP. split; [reflexivity|split; [reflexivity|exact H] ].
  - destruct (run_page_op_ok pt_addr pt_user_addr (UserVideo (VID_MEM_INDEX + a + 1)) pag (prog, vid))
      as (P' & EP & H); [unfold VID_MEM_INDEX; cbn; lia|done|].
    exists P'. unfold on_con, on_pag, set_vidmem_page.
    cbn -[map_user_video VID_MEM_INDEX Z.add] in EP.
    destruct Ha as [-> | [-> | ->] ];
      [change (vid_mem_pages.[0 + 1]) with (Some TERM_1_VID)
      |change (vid_mem_pages.[1 + 1]) with (Some TERM_2_VID)
      |change (vid_mem_pages.[2 + 1]) with (Some TERM_3_VID)];
      cbn -[map_user_video VID_MEM_INDEX Z.add]; rewrite EP;
      (split; [reflexivity|split; [reflexivity|exact H] ]).
Qed.

Lemma terminal_switch_ok f k prog vid :
  wf_terms k -> paging_ok pt_addr pt_user_addr (k_pag k) (prog, vid) ->
  F1 <= f <= F3 -> f - 1 <> ts (k_con k) ->
  exists k', terminal_switch f k = Some (0, k') /\ wf_terms k' /\ same_rest k k' /\
    ts (k_con k') = f - 1 /\ ta (k_con k') = ta (k_con k) /\ intr (k_con k') = true /\
    keys_of (k_kbd k') = keys_of (k_kbd k) /\
    (forall t, 0 <= t < NUM_TERMS -> term_page k' t = term_page k t /\
       term_line k' t = term_line k t /\ term_cursor k' t = term_cursor k t) /\
    (if term_init_done k =? 0
     then video_mem (k_con k') = video_mem (k_con k) /\ k_pag k' = k_pag k
     else targets_ok pt_addr pt_user_addr k' prog).
Proof.
  intros W HP Hf Hne. unfold F1, F3 in Hf.
  pose proof (wf_ts _ (wt_con k W)) as Hts.
  destruct (term_of k W _ Hts) as (Tp & Ep & Okp & Lp).
  destruct (term_of k W (f - 1)) as (Tn & En & Okn & Ln); [unfold NUM_TERMS; lia|].
  unfold terminal_switch.
  assert ((if f =? F1 then TERM1 else if f =? F2 then TERM2 else if f =? F3 then TERM3
           else ts (k_con (cli k))) = f - 1) as Hnew
    by (unfold F1, F2, F3; assert (f = 1 \/ f = 2 \/ f = 3) as [-> | [-> | ->] ] by lia; reflexivity).
  rewrite Hnew. clear Hnew. set (k0 := cli k). set (k1 := k0 <| k_con ::= _ |>).
  change (ts (k_con k0)) with (ts (k_con k)).
  rewrite (proj2 (Z.eqb_neq (ts (k_con k)) (f - 1))) by lia.
  assert (wf_terms k0) as W0 by (by destruct W as [ [] ? ? ?]).
  destruct (lines_swapped_ok k0 (f - 1) Tp Tn W0) as [W2 HL]; [unfold NUM_TERMS; lia|done..|].
  change (ts (k_con k0)) with (ts (k_con k)) in W2, HL.
  rewrite (swap_lines_eq k1 _ _ Tp Tn) by (done || apply W). cbn [mbind option_bind].
  set (k2 := lines_swapped (ts (k_con k)) (f - 1) Tp Tn k1) in *.
  destruct (swap_pages (vmem (k_con k)) (ts (k_con k)) (f - 1)) as (vm & Evm & Hvm & Hpages);
    [apply W|done|unfold NUM_TERMS; lia|done|].
  destruct (memcpy VIDEO (vmem (k_con k)) (backing_page (ts (k_con k))) VIDEO CONST_4KB)
    as [vma|] eqn:E1; [|done]. cbn [mbind option_bind] in Evm.
  unfold on_con at 1. change (vmem (k_con k2)) with (vmem (k_con k)).
  change (Z.shiftl VID_MEM_INDEX OFFSET_12) with VIDEO. rewrite E1. cbn [mbind option_bind].
  rewrite Evm. cbn [mbind option_bind]. set (k3 := k2 <| k_con := _ |>).
  assert (wf_terms k3) as W3 by (by destruct W2 as [ [] ? ? ?]).
  assert (forall t, 0 <= t < NUM_TERMS -> term_page k3 t = term_page k t /\
       term_line k3 t = term_line k t /\ term_cursor k3 t = term_cursor k t) as Hviews.
  { intros t Ht. destruct (HL t Ht) as [HL1 HL2]. split; [exact (Hpages t Ht)|by split]. }
  change (term_init_done k3) with (term_init_done k).
  destruct (Z.eqb_spec (term_init_done k) 0) as [Ei|Ei]; cbn [negb].
  - exists (sti k3). split; [done|]. split; [by destruct W3 as [ [] ? ? ?]|].
    by split_and!.
  - destruct (retarget_video_ok k3 prog vid) as (P' & ER & HT);
      [apply W3|exact HP|]. cbv zeta in ER, HT. rewrite ER. cbn [mbind option_bind].
    set (k4 := _ <| k_pag := P' |>) in *. exists (sti k4). split; [done|]. split.
    { destruct W3 as [ [] ? ? ?]. split; try done. split; try done. apply page_of_is_page. apply W. }
    destruct HT as [HT1 HT2]. by split_and!.
Qed.
End video.
