(* ===== verification/Desks.v ===== *)
(** The specification of the terminals, three independent desks, and the proof
    that the keyboard interrupt, the terminal switch and the output of the running
    program implement it.

    A desk is an input line and a teletype.  A key press acts on the desk that is
    shown, the running program's output and what it stores in the page of video memory
    that is mapped for it go to its own desk, and Alt with a function key shows another
    desk; which of them is on the screen changes no
    desk's line and no desk's display. *)
From stdpp Require Import base option list numbers.
From Stdlib Require Import ZArith Lia List.
From S2P Require Import Prelude LibString Console I8259 Keyboard Paging State Terminal.

Record desk := mkDesk { d_line : list Z; d_tty : tty }.

Record desks := mkDesks {
  ds_keys : kbd;         (* the keys held down; the line is not looked at *)
  ds_shown : Z;
  ds_running : Z;
  ds_of : Z -> desk;
}.

Definition upd_desk (t : Z) (f : desk -> desk) (S : desks) : desks :=
  mkDesks (ds_keys S) (ds_shown S) (ds_running S)
    (fun i => if i =? t then f (ds_of S i) else ds_of S i).

Definition on_tty (f : tty -> tty) (d : desk) : desk := mkDesk (d_line d) (f (d_tty d)).

Lemma desk_eta d : mkDesk (d_line d) (d_tty d) = d.
Proof. by destruct d. Qed.

(** Typing a character with its echo: nothing happens when the line is full. *)
Definition type_echo (c : Z) (d : desk) : desk :=
  match type_char c (d_line d) with
  | (0, l) => mkDesk l (tty_put c (if c =? 10 then tty_unmark (d_tty d) else d_tty d))
  | _ => d
  end.

Fixpoint type_spaces (n : nat) (d : desk) : desk :=
  match n with O => d | S n => type_spaces n (type_echo 32 d) end.

Definition rub_echo (d : desk) : desk :=
  match rub_char (d_line d) with
  | (0, l) => mkDesk l (tty_unmark (tty_rub (d_tty d)))
  | _ => d
  end.

(** With Control down: L clears the desk, another character is echoed even when
    the line is full. *)
Definition ctrl_echo (c : Z) (d : desk) : desk :=
  if (c =? 108) || (c =? 76) then mkDesk [] tty_clear
  else if c =? 0 then d
  else mkDesk (type_char c (d_line d)).2 (tty_put c (d_tty d)).

(** The key that asks for another desk, if it is one. *)
Definition asks_switch (c : Z) (keys : kbd) : bool :=
  negb (ctrl keys =? 1) && (c =? 0) && negb (backspace keys =? 1) && negb (tab keys =? 1) &&
  (alt keys =? 1) && (F1 <=? function keys) && (function keys <=? F3).

Definition key_echo (c : Z) (keys : kbd) : desk -> desk :=
  if ctrl keys =? 1 then ctrl_echo c
  else if negb (c =? 0) then type_echo c
  else if backspace keys =? 1 then rub_echo
  else if tab keys =? 1 then type_spaces 4
  else id.

(** What happens: a scan code arrives, or the running program prints, or it stores a
    byte in the page of video memory that vidmap maps for it. *)
Inductive event := Key (code : Z) | Out (c : Z) | Poke (off c : Z).

Definition step_desks (e : event) (S : desks) : desks :=
  match e with
  | Out c => upd_desk (ds_running S) (on_tty (tty_put c)) S
  | Poke off c => upd_desk (ds_running S) (on_tty (tty_poke off c)) S
  | Key code =>
      let '(c, keys) := get_key code (ds_keys S) in
      if asks_switch c keys then mkDesks keys (function keys - 1) (ds_running S) (ds_of S)
      else upd_desk (ds_shown S) (key_echo c keys) (mkDesks keys (ds_shown S) (ds_running S) (ds_of S))
  end.

Definition run_event (e : event) (k : kernel) : option kernel :=
  match e with
  | Key code => keyboard_handler code k
  | Out c => on_con (putc c) k
  | Poke off c => store_video true (USER_VIDEO + off) c k
  end.

Fixpoint run_events (es : list event) (k : kernel) : option kernel :=
  match es with [] => Some k | e :: es => k ← run_event e k; run_events es k end.

Definition event_ok (e : event) : Prop :=
  match e with
  | Key code => 0 <= code < 256
  | Out c => is_byte c
  | Poke off c => 0 <= off < PAGE_BYTES /\ is_byte c
  end.

(** Two specification states are the same when every desk is. *)
#[export] Instance desks_equiv : Equiv desks := fun S S' =>
  ds_keys S = ds_keys S' /\ ds_shown S = ds_shown S' /\ ds_running S = ds_running S' /\
  forall t, ds_of S t = ds_of S' t.

#[export] Instance desks_equivalence : Equivalence (equiv (A := desks)).
Proof.
  split; [by intros S|by intros S S' (? & ? & ? & ?)|].
  intros S1 S2 S3 (? & ? & ? & H) (? & ? & ? & H'). split_and!; congruence.
Qed.

#[export] Instance upd_desk_proper t f : Proper (equiv ==> equiv) (upd_desk t f).
Proof. intros S S' (? & ? & ? & H). split_and!; try done. intros i. cbn. by rewrite H. Qed.

Lemma upd_desk_compose t f g S : upd_desk t f (upd_desk t g S) ≡ upd_desk t (fun d => f (g d)) S.
Proof. split_and!; try done. intros i. cbn. by destruct (i =? t). Qed.

Lemma upd_desk_ext t f g S : f (ds_of S t) = g (ds_of S t) -> upd_desk t f S ≡ upd_desk t g S.
Proof. intros H. split_and!; try done. intros i. cbn. by destruct (Z.eqb_spec i t) as [->|]. Qed.

Lemma upd_desk_id t f S : f (ds_of S t) = ds_of S t -> upd_desk t f S ≡ S.
Proof. intros H. split_and!; try done. intros i. cbn. by destruct (Z.eqb_spec i t) as [->|]. Qed.

(** ** Reading a line *)

(** A newline in front of the first zero. *)
Fixpoint has_newline (l : list Z) : bool :=
  match l with [] => false | c :: l => negb (c =? 0) && ((c =? 10) || has_newline l) end.

Fixpoint until_newline (l : list Z) : list Z :=
  match l with [] => [] | c :: l => if c =? 10 then [] else c :: until_newline l end.

(** The reader's desk is shown and its line is finished. *)
Definition line_ready (S : desks) : bool :=
  has_newline (d_line (ds_of S (ds_shown S))) && (ds_shown S =? ds_running S).

(** The state in which a reader stops waiting, and the events still to come. *)
Fixpoint until_ready (es : list event) (S : desks) : option (desks * list event) :=
  if line_ready S then Some (S, es)
  else match es with [] => None | e :: es => until_ready es (step_desks e S) end.

Lemma until_ready_at n es : forall S,
  forallb (fun i => negb (line_ready (foldl (fun S e => step_desks e S) S (take i es)))) (seq 0 n) = true ->
  line_ready (foldl (fun S e => step_desks e S) S (take n es)) = true -> (n <= length es)%nat ->
  until_ready es S = Some (foldl (fun S e => step_desks e S) S (take n es), drop n es).
Proof.
  revert es. induction n as [|n IH]; intros es S Hf Hr Hn.
  - rewrite take_0 in Hr |- *. rewrite drop_0. cbn [foldl] in *.
    destruct es; cbn [until_ready]; by rewrite Hr.
  - destruct es as [|e es]; cbn [length] in Hn; [lia|]. cbn [seq forallb] in Hf.
    apply andb_true_iff in Hf as [H0 Hf]. apply negb_true_iff in H0. cbn [take foldl] in H0.
    cbn [until_ready]. rewrite H0. cbn [take drop foldl] in *. apply IH; [|done|lia].
    rewrite forallb_forall in Hf |- *. intros i Hi. apply in_seq in Hi.
    apply (Hf (Datatypes.S i)). apply in_seq. lia.
Qed.

(** What a read of [nbytes] takes from a line: the part before the newline, or
    [nbytes] of it, and one byte more. *)
Definition taken (l : list Z) (nbytes : Z) : list Z :=
  take (Z.to_nat (Z.min (len (until_newline l)) nbytes) + 1) l.

Definition clear_line_of (d : desk) : desk := mkDesk [] (d_tty d).

Lemma line_is_get buf idx line i :
  line_is buf idx line -> 0 <= i < KEY_BUF_SIZE ->
  buf.[i] = if i <? len line then line.[i] else Some 0.
Proof.
  intros (_ & Hl & _ & ->) Hi. destruct (Z.ltb_spec i (len line)).
  - by rewrite aget_app_l.
  - rewrite aget_app_r by lia. apply aget_replicate. unfold KEY_BUF_SIZE in *. lia.
Qed.

Lemma done_typing_line k line :
  has_line (k_kbd k) line ->
  done_typing k = Some (has_newline line && (ts (k_con k) =? ta (k_con k))).
Proof.
  intros HL. unfold done_typing. pose proof HL as (Hk & Hl & _ & _).
  match goal with |- context [iterate _ ?b _] => set (body := b) end.
  assert (forall n i rest, drop (Z.to_nat i) line = rest -> 0 <= i <= len line ->
    (Z.to_nat (KEY_BUF_SIZE - i) < n)%nat -> iterate n body i = Some (has_newline rest)) as H.
  { induction n as [|n IH]; intros i rest Hr Hi Hn; [lia|]. rewrite iterate_S.
    unfold body at 2. destruct (Z.ltb_spec i KEY_BUF_SIZE) as [Hlt|Hge].
    - rewrite (line_is_get _ _ _ _ HL) by lia. destruct (Z.ltb_spec i (len line)) as [Hil|Hil].
      + destruct (aget_is_Some line i) as [c Ec]; [lia|]. rewrite Ec. cbn [mbind option_bind].
        assert (rest = c :: drop (Z.to_nat (i + 1)) line) as ->.
        { rewrite <- Hr. replace (Z.to_nat (i + 1)) with (S (Z.to_nat i)) by lia.
          apply drop_S. rewrite <- aget_nat, Z2Nat.id by lia. done. }
        cbn [has_newline]. destruct (Z.eqb_spec c 0) as [->|Hc]; [done|].
        destruct (c =? 10); cbn [mbind option_bind negb andb orb]; [done|]. apply IH; [done|lia..].
      + cbn [mbind option_bind Z.eqb]. rewrite <- Hr, drop_ge by lia. done.
    - rewrite <- Hr, drop_ge by (unfold KEY_BUF_SIZE in *; lia). done. }
  rewrite (H _ 0 line); [done|done|lia|unfold KEY_BUF_SIZE; lia].
Qed.

Lemma until_newline_before l i : 0 <= i < len (until_newline l) -> exists c, l.[i] = Some c /\ c <> 10.
Proof.
  revert i. induction l as [|c l IH]; intros i Hi; cbn [until_newline length] in Hi; [cbn in Hi; lia|].
  destruct (Z.eqb_spec c 10) as [Ec|Ec]; cbn [length] in Hi; [lia|]. rewrite aget_cons.
  destruct (Z.eqb_spec i 0); [by exists c|]. apply IH. lia.
Qed.

Lemma until_newline_at l : has_newline l = true -> l.[len (until_newline l)] = Some 10.
Proof.
  induction l as [|c l IH]; [done|]. cbn [has_newline until_newline].
  destruct (Z.eqb_spec c 10) as [->|Ec]; [done|]. cbn [orb length]. intros [_ H]%andb_true_iff.
  rewrite aget_cons. rewrite (proj2 (Z.eqb_neq _ 0)) by lia.
  replace (Z.of_nat (S (length (until_newline l))) - 1) with (len (until_newline l)) by lia. by apply IH.
Qed.

(** The copy loop fills the buffer with the bytes before the newline. *)
Lemma copy_loop (temp b line : list Z) nbytes :
  (forall i, 0 <= i < len line -> temp.[i] = line.[i]) ->
  has_newline line = true -> 0 <= nbytes ->
  let m := Z.min (len (until_newline line)) nbytes in
  m <= len b ->
  iterate (S (Z.to_nat nbytes)) (fun '(idx, buf) =>
      c ← temp.[idx];
      if negb (c =? 10) && (idx <? nbytes)
      then buf ← buf.[idx := c]; Some (Next (idx + 1, buf))
      else Some (Done (idx, buf))) (0, b) = Some (m, splice b 0 (take (Z.to_nat m) line)).
Proof.
  intros Ht Hnl Hn m Hb. pose proof (until_newline_at _ Hnl) as Hat.
  pose proof (aget_range _ _ _ Hat) as Hlt.
  destruct (iterate_ind
    (fun '(idx, buf) => 0 <= idx <= m /\ buf = splice b 0 (take (Z.to_nat idx) line))
    (fun r => r = (m, splice b 0 (take (Z.to_nat m) line))) (fun '(idx, _) => Z.to_nat (nbytes - idx))
    (fun '(idx, buf) =>
      c ← temp.[idx];
      if negb (c =? 10) && (idx <? nbytes)
      then buf ← buf.[idx := c]; Some (Next (idx + 1, buf))
      else Some (Done (idx, buf))) (S (Z.to_nat nbytes))) with (s := (0, b)) as (r & -> & ->); [|split; [lia|symmetry; apply splice_nil]|lia|done].
  intros [idx buf] [Hi ->]. rewrite Ht by lia.
  destruct (Z.eq_dec idx m) as [->|Hne].
  - destruct (aget_is_Some line m) as [c Ec]; [lia|]. rewrite Ec. cbn [mbind option_bind].
    replace (negb (c =? 10) && (m <? nbytes)) with false; [by eexists|].
    destruct (Z.ltb_spec m nbytes); [|by rewrite andb_false_r].
    assert (m = len (until_newline line)) as Em by lia. rewrite Em, Hat in Ec. by injection Ec as <-.
  - destruct (until_newline_before line idx) as (c & Ec & Hc); [lia|]. rewrite Ec. cbn [mbind option_bind].
    rewrite (proj2 (Z.eqb_neq c 10)), (proj2 (Z.ltb_lt idx nbytes)) by (done || lia). cbn [negb andb].
    assert (len (take (Z.to_nat idx) line) = idx) as Hlen by (rewrite length_take; lia).
    rewrite aset_Some by (rewrite length_splice; lia). cbn [mbind option_bind].
    eexists; split; [done|]. split; [|lia]. split; [lia|].
    rewrite take_snoc with (c := c) by (done || lia).
    rewrite <- (splice_app b 0) by lia. rewrite Hlen, Z.add_0_l. symmetry. apply splice_one.
    rewrite length_splice; lia.
Qed.

Lemma run_interrupts_events es : forall k, run_interrupts (map run_event es) k = run_events es k.
Proof.
  unfold run_interrupts. assert (forall es, foldl (fun acc i => k ← acc; i k) None (map run_event es) = None)
    as HN by (clear; induction es; done).
  induction es as [|e es IH]; intros k; [done|]. cbn [map foldl run_events mbind option_bind].
  destruct (run_event e k); [apply IH|apply HN].
Qed.

Definition cursor_of (T : term_t) : Z * Z := (cursor_x T, cursor_y T).

Section desks.
Context (pt_addr pt_user_addr prog : Z).

(** Terminal [t] of the kernel is the desk [d]. *)
Definition desk_is (k : kernel) (t : Z) (d : desk) : Prop :=
  (exists buf idx, term_line k t = Some (buf, idx) /\ line_is buf idx (d_line d)) /\
  shows (k_con k) (page_of t (ts (k_con k))) t (d_tty d).

Record implements (k : kernel) (S : desks) : Prop := {
  im_wf : wf_terms k;
  im_targets : targets_ok pt_addr pt_user_addr k prog;
  im_init : term_init_done k <> 0;
  im_keys : keys_of (k_kbd k) = ds_keys S;
  im_shown : ts (k_con k) = ds_shown S;
  im_running : ta (k_con k) = ds_running S;
  im_desks : forall t, 0 <= t < NUM_TERMS -> desk_is k t (ds_of S t);
}.

#[export] Instance implements_proper k : Proper (equiv ==> iff) (implements k).
Proof.
  intros S S' (Ek & Es & Er & Ed). split; intros [W HT Hi Hk Hs Hr HD]; split; try congruence;
    intros t Ht; (rewrite <- Ed || rewrite Ed); by apply HD.
Qed.

(** The interrupt flag and the interrupt controller are not part of it. *)
Lemma implements_cli k S : implements k S -> implements (cli k) S.
Proof. by intros [ [ [] ] ]. Qed.

Lemma implements_sti k S : implements k S -> implements (sti k) S.
Proof. by intros [ [ [] ] ]. Qed.

Lemma implements_eoi k S irq : implements k S -> implements (eoi irq k) S.
Proof. by intros [ [ [] ] ]. Qed.

Lemma page_of_inj t t' shown :
  0 <= t < NUM_TERMS -> 0 <= t' < NUM_TERMS -> page_of t shown = page_of t' shown -> t = t'.
Proof.
  intros Ht Ht'. unfold page_of. rewrite !backing_page_eq by done. unfold PAGE_BYTES, VIDEO.
  destruct (Z.eqb_spec t shown), (Z.eqb_spec t' shown); unfold NUM_TERMS in *; lia.
Qed.

(** Drawing leaves every stored line alone. *)
Lemma touches_lines vid t con con' i :
  touches vid t con con' ->
  (fun T => (terminal_buf T, buf_idx T)) <$> (terminals con').[i] =
  (fun T => (terminal_buf T, buf_idx T)) <$> (terminals con).[i].
Proof.
  intros (_ & (T & x & y & HT & E) & _). destruct (decide (t = i)) as [<-|Hne].
  - by rewrite (aget_aset_eq _ _ _ _ E), HT.
  - by rewrite (aget_aset_ne _ _ _ _ _ E).
Qed.

Lemma touches_sized vid t con con' :
  touches vid t con con' ->
  Forall (fun T => line_sized (terminal_buf T) (buf_idx T)) (terminals con) ->
  Forall (fun T => line_sized (terminal_buf T) (buf_idx T)) (terminals con').
Proof.
  intros (_ & (T & x & y & HT & E) & _) H. eapply aset_Forall; [exact H| |exact E].
  exact (aget_Forall _ _ _ _ H HT).
Qed.

Lemma op_page_target k S o :
  implements k S ->
  0 <= op_term o (k_con k) < NUM_TERMS /\
  op_page o (k_con k) = page_of (op_term o (k_con k)) (ts (k_con k)).
Proof.
  intros I. pose proof (im_wf _ _ I) as [ [_ _ _ _ Hts Hta] _ _ _].
  destruct (im_targets _ _ I) as [Hv _].
  destruct o; cbn [op_term op_page]; (split; [done|]); try done; unfold page_of; by rewrite Z.eqb_refl.
Qed.

(** A change of one terminal's page and cursor is one of its desk's display. *)
Lemma on_con_touches k S f t s con' :
  implements k S -> 0 <= t < NUM_TERMS -> f (k_con k) = Some con' -> wf_console con' ->
  touches (page_of t (ts (k_con k))) t (k_con k) con' -> shows con' (page_of t (ts (k_con k))) t s ->
  exists k', on_con f k = Some k' /\
    implements k' (upd_desk t (on_tty (fun _ => s)) S) /\ k_kbd k' = k_kbd k /\
    ts (k_con k') = ts (k_con k).
Proof.
  intros [W HT Hi Hk Hs Hr HD] Ht E W' Htch Hd'. destruct (touches_terms _ _ _ _ Htch) as (Ev & Es & Ea).
  unfold on_con. rewrite E. cbn [mbind option_bind]. eexists; split; [done|].
  split; [|by destruct k].
  split; cbn [ds_keys ds_shown ds_running ds_of upd_desk]; try done.
  - destruct W as [_ ? ? Hl]. split; try done. exact (touches_sized _ _ _ _ Htch Hl).
  - destruct HT as [HT1 HT2]. unfold targets_ok. cbn. by rewrite Ev, Es, Ea.
  - cbn. by rewrite Es.
  - cbn. by rewrite Ea.
  - intros i Hit. destruct (HD i Hit) as [ (buf & idx & Hl & Hline) Hsh].
    unfold desk_is. cbn [k_con update_field]. unfold update_field. cbn [k_con]. rewrite Es. split.
    + exists buf, idx. split; [|by destruct (i =? t)]. revert Hl. unfold term_line. cbn [k_con k_kbd].
      rewrite Es. destruct (i =? ts (k_con k)); [done|].
      pose proof (touches_lines _ _ _ _ i Htch) as HL.
      destruct ((terminals con').[i]), ((terminals (k_con k)).[i]); cbn in HL |- *; congruence.
    + destruct (Z.eqb_spec i t) as [->|Hne]; [done|].
      eapply shows_untouched; [..|exact Htch|exact Hsh]; try done.
      * by apply page_of_is_page.
      * by apply page_of_is_page.
      * intros Heq. apply Hne. symmetry. by eapply page_of_inj.
Qed.

(** A console operation acts on one desk's display. *)
Lemma on_con_op k S o :
  implements k S ->
  exists k', on_con (run_op o) k = Some k' /\
    implements k' (upd_desk (op_term o (k_con k)) (on_tty (tty_op o)) S) /\ k_kbd k' = k_kbd k /\
    ts (k_con k') = ts (k_con k).
Proof.
  intros I. destruct (op_page_target k S o I) as [Ht Hpg].
  destruct (im_desks _ _ I _ Ht) as [_ Hd]. rewrite <- Hpg in Hd.
  destruct (run_op_spec (k_con k) o _ (wt_con k (im_wf _ _ I)) Hd) as (con' & E & W' & Htch & Hd').
  rewrite Hpg in Htch, Hd'. destruct (on_con_touches k S (run_op o) _ _ _ I Ht E W' Htch Hd') as (k' & Ek & I' & Hk).
  exists k'. split; [exact Ek|]. split; [|exact Hk]. rewrite upd_desk_ext; [exact I'|done].
Qed.

(** The user's walk to an address above the program's page: the entry of [pt_user]
    alone decides. *)
Lemma user_page_walk k user va :
  tables_placed pt_addr pt_user_addr -> (exists S, implements k S) -> 0x8400000 <= va < 0x8800000 ->
  translate pt_addr pt_user_addr (k_pag k) user va =
    (e ← (pt_user (k_pag k)).[va / 4096 mod 1024];
     if negb (allowed user e) then None else Some (e_addr e * 4096 + va mod 4096)).
Proof.
  intros [_ Hu Hne] [S I] Hva. destruct (im_targets _ _ I) as [_ [ [Hd _ _] _ _ _ _] ]. unfold translate.
  assert (va / 4194304 = 33) as -> by (Z.to_euclidean_division_equations; lia).
  rewrite Hd by lia. unfold pd_entry. cbn [Z.eqb Pos.eqb mbind option_bind].
  replace (allowed user _) with true by (by destruct user). cbn [negb make_entry e_ps e_addr Z.eqb].
  rewrite frame_range by done. unfold table_of. by rewrite (proj2 (Z.eqb_neq _ _)), Z.eqb_refl by done.
Qed.

(** The running program's store in the page mapped for it is one in its desk's
    display. *)
Lemma store_video_desk k S off c :
  implements k S -> 0 <= off < PAGE_BYTES ->
  exists k', store_video true (USER_VIDEO + off) c k = Some k' /\
    implements k' (upd_desk (ds_running S) (on_tty (tty_poke off c)) S) /\ k_kbd k' = k_kbd k /\
    ts (k_con k') = ts (k_con k).
Proof.
  intros I Hoff. pose proof (im_targets _ _ I) as [Hv HP].
  pose proof (im_wf _ _ I) as [Wc _ _ _]. pose proof Wc as [Hvm _ Hlen Hcur _ Hta].
  pose proof (page_of_is_page _ (ts (k_con k)) Hta) as Hpage. pose proof Hpage as (n & Hn & Hpg).
  destruct (im_desks _ _ I _ Hta) as [_ (T & HT & Hsh)].
  destruct (poke_shows _ _ _ _ _ off c Hpage Hvm Hoff Hsh) as (vm' & E & Hso & Hvm' & Hsh').
  unfold store_video. destruct HP as [ [_ _ Hu] _ _ _ _]. unfold USER_VIDEO, PAGE_BYTES in *.
  assert ((0x84B8000 + off) / 4096 mod 1024 = 184 /\ (0x84B8000 + off) mod 4096 = off) as [-> ->]
    by (Z.to_euclidean_division_equations; lia).
  rewrite Hu by lia. unfold pt_user_entry. cbn [Z.eqb Pos.eqb mbind option_bind make_entry e_addr snd].
  unfold u20. rewrite (Z.mod_small _ 1048576) by (rewrite Hv, Hpg; unfold VIDEO; Z.to_euclidean_division_equations; lia).
  change (allowed true _) with true. cbn [negb]. rewrite Hv, Hpg.
  assert ((VIDEO + 4096 * n) / 4096 * 4096 + off = VIDEO + 4096 * n + off) as ->
    by (unfold VIDEO; Z.to_euclidean_division_equations; lia). rewrite <- Hpg.
  rewrite <- (im_running _ _ I).
  destruct (on_con_touches k S (fun con => vm ← stb VIDEO (vmem con) (page_of (ta (k_con k)) (ts (k_con k)) + off) c;
      Some (con <| vmem := vm |>)) (ta (k_con k)) (tty_poke off c (d_tty (ds_of S (ta (k_con k)))))
      ((k_con k) <| vmem := vm' |>) I Hta) as (k' & Ek & I' & Hk).
  - by rewrite E.
  - destruct Wc. by split.
  - split; [exact Hso|]. split; [|done]. exists T, (cursor_x T), (cursor_y T). split; [done|].
    by destruct T; apply aset_same.
  - by exists T.
  - exists k'. split; [exact Ek|]. split; [|exact Hk]. rewrite upd_desk_ext; [exact I'|done].
Qed.

Lemma line_is_sized buf idx line : line_is buf idx line -> line_sized buf idx.
Proof.
  intros (_ & Hl & -> & ->). unfold line_sized, KEY_BUF_SIZE in *.
  rewrite length_app, length_replicate. lia.
Qed.

Lemma on_line_keys f b r b' : on_line f b = Some (r, b') -> keys_of b' = keys_of b.
Proof.
  unfold on_line. intros H. destruct (f (keyboard_buf b) (key_idx b)) as [ [ [r0 buf] idx]|]; [|done].
  cbn in H. by injection H as <- <-.
Qed.

Lemma run_edit_keys e b r b' : run_edit e b = Some (r, b') -> keys_of b' = keys_of b.
Proof. destruct e; apply on_line_keys. Qed.

Lemma desk_line k S : implements k S -> has_line (k_kbd k) (d_line (ds_of S (ds_shown S))).
Proof.
  intros I. pose proof (wf_ts _ (wt_con _ (im_wf _ _ I))) as Hts.
  pose proof (im_shown _ _ I) as Es.
  destruct (im_desks _ _ I _ Hts) as [ (buf & idx & Hl & H) _]. unfold term_line in Hl.
  rewrite Z.eqb_refl in Hl. injection Hl as <- <-. by rewrite Es in H.
Qed.

(** An edit of the keyboard's line acts on the shown desk's line. *)
Lemma on_kbd_edit k S e :
  implements k S -> edit_ok e ->
  exists k', on_kbd (run_edit e) k = Some ((edit_line e (d_line (ds_of S (ds_shown S)))).1, k') /\
    implements k' (upd_desk (ds_shown S) (fun d => mkDesk (edit_line e (d_line d)).2 (d_tty d)) S) /\
    k_con k' = k_con k.
Proof.
  intros I He. destruct (run_edit_line e _ _ He (desk_line k S I)) as (b' & E & Hb & Hf).
  pose proof (run_edit_keys _ _ _ _ E) as Ek.
  unfold on_kbd. rewrite E. cbn [mbind option_bind]. eexists; split; [done|]. split; [|by destruct k].
  destruct I as [ [Wc Wf Wl Wls] HT Hi Hk Hs Hr HD].
  split; cbn [ds_keys ds_shown ds_running ds_of upd_desk]; try done.
  - split; try done; [by apply Hf|]. cbn. by eapply line_is_sized.
  - cbn. by rewrite Ek.
  - intros i Hit. destruct (HD i Hit) as [ (buf & idx & Hl & Hline) Hsh].
    split; [|by destruct (i =? ds_shown S)].
    unfold term_line in *. cbn [k_con k_kbd update_field] in *. unfold update_field. cbn [k_con k_kbd].
    rewrite Hs in *. destruct (Z.eqb_spec i (ds_shown S)) as [->|Hne].
    + do 2 eexists; split; [done|]. exact Hb.
    + by exists buf, idx.
Qed.

(** Taking the key press changes the keys held down only. *)
Lemma get_key_keys code b :
  0 <= code < 256 -> flags_ok b ->
  get_key code (keys_of b) = ((get_key code b).1, keys_of (get_key code b).2).
Proof.
  intros Hc Hf. rewrite !get_key_action by (done || by destruct Hf).
  change (caps (keys_of b)) with (caps b). change (shifted (keys_of b)) with (shifted b).
  by destruct (layout code (caps b =? 1) (shifted b)) as [| [] |].
Qed.

Definition set_keys (keys : kbd) (S : desks) : desks :=
  mkDesks keys (ds_shown S) (ds_running S) (ds_of S).

Lemma get_key_implements k S code :
  implements k S -> 0 <= code < 256 ->
  exists k', on_kbd (fun b => Some (get_key code b)) k = Some ((get_key code (ds_keys S)).1, k') /\
    implements k' (set_keys (get_key code (ds_keys S)).2 S) /\
    keys_of (k_kbd k') = (get_key code (ds_keys S)).2 /\
    ((get_key code (ds_keys S)).1 = 0 \/ is_key (get_key code (ds_keys S)).1).
Proof.
  intros I Hc. destruct I as [ [Wc Wf Wl Wls] HT Hi Hk Hs Hr HD].
  rewrite <- Hk, get_key_keys by done. cbn [fst snd].
  pose proof (get_key_action code _ Hc Wf) as Ea.
  pose proof (layout_ok code (caps (k_kbd k) =? 1) (shifted (k_kbd k))) as Hok.
  pose proof (run_action_flags _ _ Hok Wf) as Hf'.
  destruct (run_action_line (layout code (caps (k_kbd k) =? 1) (shifted (k_kbd k))) (k_kbd k)) as [Eb Ei].
  pose proof (run_action_char _ (k_kbd k) Hok) as Hch.
  rewrite <- Ea in *. unfold on_kbd. destruct (get_key code (k_kbd k)) as [c b'] eqn:E.
  cbn [mbind option_bind fst snd] in *. eexists; split; [done|]. split_and!; [|done|unfold is_key; lia].
  split; try done.
  - split; try done. by rewrite <- Eb, <- Ei in Wl.
  - intros i Hit. destruct (HD i Hit) as [ (buf & idx & Hl & Hline) Hsh]. split; [|done].
    exists buf, idx. split; [|done]. unfold term_line in *. cbn. by rewrite Eb, Ei.
Qed.

(** A drawing operation on the shown desk. *)
Lemma on_con_shown k S o :
  implements k S -> is_putc o = false ->
  exists k', on_con (run_op o) k = Some k' /\
    implements k' (upd_desk (ds_shown S) (on_tty (tty_op o)) S).
Proof.
  intros I Ho. destruct (on_con_op k S o I) as (k' & E & I' & _ & _). exists k'. split; [done|].
  rewrite <- (im_shown _ _ I). by destruct o.
Qed.

Lemma type_echo_ok k S c :
  implements k S -> is_key c ->
  exists k',
    ('(success, k) ← on_kbd (key_write c) k;
     if success =? 0 then
       k ← (if c =? 10 then on_con check_cursor k else Some k);
       on_con (put_key c) k
     else Some k) = Some k' /\
    implements k' (upd_desk (ds_shown S) (type_echo c) S).
Proof.
  intros I Hc. destruct (on_kbd_edit k S (Type_ c) I Hc) as (k1 & E1 & I1 & _).
  change (run_edit (Type_ c)) with (key_write c) in E1. cbn [edit_line] in *.
  rewrite E1. cbn [mbind option_bind].
  set (line := d_line (ds_of S (ds_shown S))) in *.
  destruct (Z.eqb_spec (type_char c line).1 0) as [E0|E0].
  - assert (exists k2, (if c =? 10 then on_con check_cursor k1 else Some k1) = Some k2 /\
      implements k2 (upd_desk (ds_shown S) (on_tty (fun s => if c =? 10 then tty_unmark s else s))
        (upd_desk (ds_shown S) (fun d => mkDesk (type_char c (d_line d)).2 (d_tty d)) S))) as (k2 & E2 & I2).
    { destruct (c =? 10); [by apply (on_con_shown k1 _ CheckCursor I1)|]. exists k1. split; [done|].
      rewrite (upd_desk_id _ (on_tty (fun s => s)) (upd_desk _ _ _)); [exact I1|]. apply desk_eta. }
    rewrite E2. cbn [mbind option_bind].
    destruct (on_con_shown k2 _ (PutKey c) I2) as (k3 & E3 & I3); [done|]. cbn [run_op] in E3.
    exists k3. split; [done|]. cbn [ds_shown upd_desk] in I3. revert I3.
    rewrite !upd_desk_compose. apply implements_proper. apply upd_desk_ext. unfold type_echo, on_tty.
    cbn [d_line d_tty]. fold line. destruct (type_char c line) as [r l]. cbn in E0 |- *. by subst r.
  - exists k1. split; [done|]. revert I1. apply implements_proper. apply upd_desk_ext.
    unfold type_echo. fold line. revert E0. unfold type_char. case_match; [done|]. intros _. cbn.
    symmetry. apply desk_eta.
Qed.

Lemma type_spaces_full n d : (type_char 32 (d_line d)).1 <> 0 -> type_spaces n d = d.
Proof.
  intros H. assert (type_echo 32 d = d) as E.
  { unfold type_echo. revert H. unfold type_char. by case_match. }
  induction n as [|n IH]; [done|]. cbn [type_spaces]. by rewrite E.
Qed.

(** The tab loop: its fuel is one round more than there are spaces to type. *)
Lemma tab_spaces_ok k S :
  implements k S ->
  exists k', tab_spaces k = Some k' /\ implements k' (upd_desk (ds_shown S) (type_spaces 4) S).
Proof.
  intros I. unfold tab_spaces.
  match goal with |- context [iterate 5 ?b _] => set (body := b) end.
  assert (forall n i k S, i = TAB_SPACE - Z.of_nat n -> implements k S ->
    exists k', iterate (Datatypes.S n) body (i, k) = Some k' /\
      implements k' (upd_desk (ds_shown S) (type_spaces n) S)) as H;
    [clear k S I|by apply (H 4%nat)].
  unfold TAB_SPACE in *. induction n as [|n IH]; intros i k S Hi I; rewrite iterate_S; unfold body at 2;
    unfold TAB_SPACE; cbn [mbind option_bind].
  - rewrite (proj2 (Z.ltb_ge i 4)) by lia. exists k. split; [done|]. by rewrite upd_desk_id.
  - rewrite (proj2 (Z.ltb_lt i 4)) by lia.
    destruct (type_echo_ok k S 32 I) as (k' & E & I'); [done|].
    destruct (on_kbd_edit k S (Type_ 32) I) as (k1 & E1 & _); [done|].
    change (run_edit (Type_ 32)) with (key_write 32) in E1. cbn [edit_line] in E1.
    rewrite E1 in E |- *. cbn [mbind option_bind Z.eqb Pos.eqb] in E |- *.
    destruct (Z.eqb_spec (type_char 32 (d_line (ds_of S (ds_shown S)))).1 0) as [E0|E0].
    + rewrite E. cbn [mbind option_bind]. destruct (IH (i + 1) k' _ ltac:(lia) I') as (k2 & E2 & I2).
      exists k2. split; [exact E2|]. revert I2. cbn [ds_shown upd_desk]. rewrite upd_desk_compose. done.
    + injection E as ->. exists k'. split; [done|]. revert I'. apply implements_proper, upd_desk_ext.
      rewrite type_spaces_full by done. unfold type_echo. revert E0. unfold type_char. by case_match.
Qed.

Lemma rub_echo_ok k S :
  implements k S ->
  exists k',
    ('(r, k) ← on_kbd key_delete k;
     if r =? 0 then k ← on_con remc k; on_con check_cursor k else Some k) = Some k' /\
    implements k' (upd_desk (ds_shown S) rub_echo S).
Proof.
  intros I. destruct (on_kbd_edit k S Rub I) as (k1 & E1 & I1 & _); [done|].
  change (run_edit Rub) with key_delete in E1. cbn [edit_line] in *. rewrite E1. cbn [mbind option_bind].
  unfold rub_echo. destruct (Z.eqb_spec (rub_char (d_line (ds_of S (ds_shown S)))).1 0) as [E0|E0].
  - destruct (on_con_shown k1 _ Remc I1) as (k2 & E2 & I2); [done|]. cbn [run_op] in E2.
    rewrite E2. cbn [mbind option_bind].
    destruct (on_con_shown k2 _ CheckCursor I2) as (k3 & E3 & I3); [done|]. cbn [run_op] in E3.
    exists k3. split; [exact E3|]. revert I3. cbn [ds_shown upd_desk]. rewrite !upd_desk_compose.
    apply implements_proper, upd_desk_ext. unfold on_tty. cbn [d_line d_tty].
    destruct (rub_char (d_line (ds_of S (ds_shown S)))) as [r l]. cbn in E0 |- *. by subst r.
  - exists k1. split; [done|]. revert I1. apply implements_proper, upd_desk_ext.
    destruct (d_line (ds_of S (ds_shown S))) eqn:El; [|done]. cbn. symmetry. rewrite <- El. apply desk_eta.
Qed.

Lemma ctrl_helper_ok k S c :
  implements k S -> c = 0 \/ is_key c ->
  exists k', ctrl_helper c k = Some (0, k') /\ implements k' (upd_desk (ds_shown S) (ctrl_echo c) S).
Proof.
  intros I Hc. unfold ctrl_helper, ctrl_echo. destruct ((c =? 108) || (c =? 76)).
  - destruct (on_con_shown k S ClearScreen I) as (k1 & E1 & I1); [done|]. cbn [run_op] in E1.
    rewrite E1. cbn [mbind option_bind].
    destruct (on_kbd_edit k1 _ Clear I1) as (k2 & E2 & I2 & _); [done|].
    change (run_edit Clear) with clear_keyboard_buf_caller in E2.
    rewrite E2. cbn [mbind option_bind]. exists k2. split; [done|]. revert I2.
    cbn [ds_shown upd_desk]. rewrite !upd_desk_compose. by apply implements_proper, upd_desk_ext.
  - destruct (Z.eqb_spec c 0) as [Ec|Ec].
    + exists k. split; [done|]. by rewrite upd_desk_id.
    + destruct (on_kbd_edit k S (Type_ c) I) as (k1 & E1 & I1 & _); [by destruct Hc|].
      change (run_edit (Type_ c)) with (key_write c) in E1. rewrite E1. cbn [mbind option_bind].
      destruct (on_con_shown k1 _ (PutKey c) I1) as (k2 & E2 & I2); [done|]. cbn [run_op] in E2.
      rewrite E2. exists k2. split; [done|]. revert I2.
      cbn [ds_shown upd_desk]. rewrite !upd_desk_compose. by apply implements_proper, upd_desk_ext.
Qed.

(** A page that is copied whole shows the same teletype. *)
Lemma shows_moved k k' t s :
  0 <= t < NUM_TERMS -> 0 <= ts (k_con k) < NUM_TERMS -> 0 <= ts (k_con k') < NUM_TERMS ->
  term_page k' t = term_page k t ->
  cursor_of <$> (terminals (k_con k')).[t] = cursor_of <$> (terminals (k_con k)).[t] ->
  shows (k_con k) (page_of t (ts (k_con k))) t s -> shows (k_con k') (page_of t (ts (k_con k'))) t s.
Proof.
  intros Ht Hs Hs' Hp Hc (T & HT & Hr & Hb & Hcells & Hx & Hy). rewrite HT in Hc.
  destruct ((terminals (k_con k')).[t]) as [T'|] eqn:ET'; [|done].
  injection Hc as Ex Ey. exists T'. split; [done|]. rewrite Ex, Ey. split_and!; try done; try lia.
  destruct (page_of_is_page t (ts (k_con k)) Ht) as (n & Hn & En).
  destruct (page_of_is_page t (ts (k_con k')) Ht) as (n' & Hn' & En').
  unfold term_page in Hp. rewrite En, En' in *. unfold cells_are, NUM_ROWS, NUM_COLS, PAGE_BYTES in *.
  intros i Hi. destruct (Hcells i Hi) as [H1 H2].
  assert (forall j, 0 <= j < 4096 -> (vmem (k_con k')).[VIDEO + 4096 * n' - VIDEO + j] =
    (vmem (k_con k)).[VIDEO + 4096 * n - VIDEO + j]) as Hj.
  { intros j Hj. rewrite <- !(aget_slice _ _ 4096) by lia. by rewrite Hp. }
  rewrite <- Z.add_assoc in H2 |- *. rewrite !Hj by lia. done.
Qed.

Lemma term_cursor_of k k' t : term_cursor k' t = term_cursor k t ->
  cursor_of <$> (terminals (k_con k')).[t] = cursor_of <$> (terminals (k_con k)).[t].
Proof.
  unfold term_cursor. destruct ((terminals (k_con k')).[t]), ((terminals (k_con k)).[t]); cbn; try done.
  intros [= E1 E2 _]. unfold cursor_of. by rewrite E1, E2.
Qed.

Lemma terminal_switch_implements k S f :
  implements k S -> F1 <= f <= F3 ->
  exists r k', terminal_switch f k = Some (r, k') /\
    implements k' (mkDesks (ds_keys S) (f - 1) (ds_running S) (ds_of S)).
Proof.
  intros I Hf. pose proof (im_wf _ _ I) as W. pose proof (im_targets _ _ I) as [HT1 HT2].
  destruct (decide (f - 1 = ts (k_con k))) as [Ef|Ef].
  - exists (-1), (cli k). split.
    + unfold terminal_switch, F1, F2, F3, TERM1, TERM2, TERM3 in *.
      change (ts (k_con (cli k))) with (ts (k_con k)).
      assert ((if f =? 1 then 0 else if f =? 2 then 1 else if f =? 3 then 2 else ts (k_con k)) = ts (k_con k)) as ->
        by (rewrite <- Ef; repeat case_match; lia).
      rewrite Z.eqb_refl. by destruct k as [ [] ].
    + rewrite Ef, (im_shown _ _ I). apply implements_cli. by destruct S.
  - destruct (terminal_switch_ok pt_addr pt_user_addr f k _ _ W HT2 Hf Ef)
      as (k' & E & W' & Hrest & Es & Ea & _ & Ekeys & Hv & HT).
    exists 0, k'. split; [done|]. pose proof (im_init _ _ I) as Hi.
    rewrite (proj2 (Z.eqb_neq _ _) Hi) in HT.
    split; cbn [ds_keys ds_shown ds_running ds_of]; try done.
    + rewrite Hrest. done.
    + rewrite Ekeys. apply I.
    + rewrite Ea. apply I.
    + intros t Ht. destruct (Hv t Ht) as (Hp & Hl & Hc%term_cursor_of). destruct (im_desks _ _ I t Ht) as [HL HS].
      split; [by rewrite Hl|]. eapply shows_moved; [..|exact HS]; try done; [apply W|apply W'].
Qed.

Lemma asks_switch_spec c keys :
  asks_switch c keys = true ->
  (ctrl keys =? 1) = false /\ (c =? 0) = true /\ (backspace keys =? 1) = false /\
  (tab keys =? 1) = false /\ (alt keys =? 1) = true /\ F1 <= function keys <= F3.
Proof.
  unfold asks_switch. intros H. repeat (apply andb_true_iff in H as [H ?]).
  rewrite !negb_true_iff in *. split_and!; try done; lia.
Qed.

(** The body of the interrupt, after the key is taken. *)
Lemma keyboard_handler_implements k S code :
  implements k S -> 0 <= code < 256 ->
  exists k', keyboard_handler code k = Some k' /\ implements k' (step_desks (Key code) S).
Proof.
  intros I Hc. apply implements_cli in I.
  destruct (get_key_implements (cli k) S code I Hc) as (k1 & E1 & I1 & Ek & Hch).
  unfold keyboard_handler. rewrite E1. cbn [mbind option_bind step_desks].
  destruct (get_key code (ds_keys S)) as [c keys]. cbn [fst snd] in *.
  set (body := if ctrl (k_kbd k1) =? 1 then _ else _).
  assert (exists k2, body = Some k2 /\ implements k2
    (if asks_switch c keys then mkDesks keys (function keys - 1) (ds_running S) (ds_of S)
     else upd_desk (ds_shown S) (key_echo c keys) (mkDesks keys (ds_shown S) (ds_running S) (ds_of S))))
    as (k2 & E2 & I2).
  2:{ rewrite E2. cbn [mbind option_bind]. eexists; split; [done|]. by apply implements_sti, implements_eoi. }
  fold (set_keys keys S). unfold body. clear body E1 I.
  change (ctrl (k_kbd k1)) with (ctrl (keys_of (k_kbd k1))).
  change (backspace (k_kbd k1)) with (backspace (keys_of (k_kbd k1))).
  change (tab (k_kbd k1)) with (tab (keys_of (k_kbd k1))).
  change (alt (k_kbd k1)) with (alt (keys_of (k_kbd k1))).
  rewrite Ek. change (ds_shown S) with (ds_shown (set_keys keys S)). destruct (asks_switch c keys) eqn:Esw.
  - destruct (asks_switch_spec _ _ Esw) as (-> & -> & -> & -> & -> & Hf). cbn [negb].
    unfold alt_helper. change (function (k_kbd (eoi IRQ1 k1))) with (function (keys_of (k_kbd k1))).
    rewrite Ek. replace ((function keys <? F1) || (F3 <? function keys)) with false by lia.
    apply (implements_eoi _ _ IRQ1) in I1.
    destruct (terminal_switch_implements _ _ _ I1 Hf) as (r & k2 & E2 & I2).
    rewrite E2. cbn [mbind option_bind]. by exists k2.
  - unfold key_echo. destruct (ctrl keys =? 1) eqn:Ec.
    { destruct (ctrl_helper_ok k1 _ c I1) as (k2 & E2 & I2); [tauto|].
      rewrite E2. by exists k2. }
    destruct (Z.eqb_spec c 0) as [Ec0|Ec0]; cbn [negb]; [|apply type_echo_ok; [done|by destruct Hch] ].
    destruct (backspace keys =? 1) eqn:Eb; [by apply rub_echo_ok|].
    destruct (tab keys =? 1) eqn:Et; [by apply tab_spaces_ok|].
    assert (implements k1 (upd_desk (ds_shown (set_keys keys S)) id (set_keys keys S))) as I2
      by (by rewrite upd_desk_id).
    destruct (alt keys =? 1) eqn:Ea; [|by exists k1].
    unfold alt_helper. change (function (k_kbd (eoi IRQ1 k1))) with (function (keys_of (k_kbd k1))).
    rewrite Ek. assert ((function keys <? F1) || (F3 <? function keys) = true) as ->.
    { revert Esw. unfold asks_switch. rewrite Ec, Eb, Et, Ea, Ec0. cbn. lia. }
    cbn [mbind option_bind]. exists (eoi IRQ1 k1). split; [done|]. by apply implements_eoi.
Qed.

Lemma run_event_implements k S e :
  implements k S -> event_ok e ->
  exists k', run_event e k = Some k' /\ implements k' (step_desks e S).
Proof.
  intros I He. destruct e as [code|c|off c]; [by apply keyboard_handler_implements| |].
  2: { destruct (store_video_desk k S off c I (proj1 He)) as (k' & E & I' & _). by exists k'. }
  destruct (on_con_op k S (Putc c) I) as (k' & E & I' & _). exists k'. split; [exact E|].
  cbn [step_desks]. rewrite <- (im_running _ _ I). exact I'.
Qed.

Lemma run_events_implements es : forall k S,
  implements k S -> Forall event_ok es ->
  exists k', run_events es k = Some k' /\ implements k' (foldl (fun S e => step_desks e S) S es).
Proof.
  induction es as [|e es IH]; intros k S I Hes; [by exists k|].
  apply Forall_cons_1 in Hes as [He Hes].
  destruct (run_event_implements k S e I He) as (k1 & E1 & I1).
  cbn [run_events foldl]. rewrite E1. by apply IH.
Qed.

Lemma terminal_read_poll_ready es : forall k S S' es',
  implements k S -> Forall event_ok es -> until_ready es S = Some (S', es') ->
  exists k', terminal_read_poll (map run_event es) k = Some (k', map run_event es') /\ implements k' S'.
Proof.
  unfold terminal_read_poll.
  match goal with |- context [iterate _ ?b _] => set (body := b) end.
  assert (forall n k S S' es', (length es < n)%nat ->
    implements k S -> Forall event_ok es -> until_ready es S = Some (S', es') ->
    exists k', iterate n body (k, map run_event es) = Some (k', map run_event es') /\ implements k' S') as H;
    [|intros k S S' es' I Hes E; apply (H _ k S S' es'); try done; rewrite length_map; lia].
  induction es as [|e es IH]; intros [|n] k S S' es' Hn I Hes E; cbn [length] in Hn; try lia;
    rewrite iterate_S; unfold body at 2; cbn [map until_ready] in *;
    rewrite (done_typing_line k _ (desk_line k S I)), (im_shown _ _ I), (im_running _ _ I);
    cbn [mbind option_bind]; fold (line_ready S);
    (destruct (line_ready S); [injection E as <- <-; exists (sti k); split; [done|by apply implements_sti]|]); [done|].
  apply Forall_cons_1 in Hes as [He Hes].
  destruct (run_event_implements (sti k) S e (implements_sti _ _ I) He) as (k1 & E1 & I1).
  rewrite E1. cbn [mbind option_bind]. by apply (IH n k1 (step_desks e S) S' es'); [lia|..].
Qed.

Lemma terminal_read_copy_line b nbytes k S :
  implements k S -> has_newline (d_line (ds_of S (ds_shown S))) = true -> 0 <= nbytes ->
  let t := taken (d_line (ds_of S (ds_shown S))) nbytes in
  len t <= len b ->
  exists k', terminal_read_copy b nbytes k = Some (len t, splice b 0 t, k') /\
    implements k' (upd_desk (ds_shown S) clear_line_of S).
Proof.
  intros I Hnl Hn t Hb. pose proof (desk_line k S I) as HL. set (line := d_line _) in *.
  pose proof HL as (_ & Hlen & _ & _). pose proof (until_newline_at _ Hnl) as Hat.
  pose proof (aget_range _ _ _ Hat) as Hlt. set (m := Z.min (len (until_newline line)) nbytes) in *.
  assert (len t = m + 1) as Et by (unfold t, taken; rewrite length_take; fold m; lia).
  assert (forall i, 0 <= i < len line -> (keyboard_buf (k_kbd k)).[i] = line.[i]) as Hget.
  { intros i Hi. rewrite (line_is_get _ _ _ i HL) by lia. by rewrite (proj2 (Z.ltb_lt i _)) by lia. }
  unfold terminal_read_copy. rewrite (copy_loop _ b line nbytes) by (done || (fold m; lia)).
  cbn [mbind option_bind]. fold m. destruct (aget_is_Some line m) as [c Ec]; [lia|].
  rewrite Hget, Ec by lia. cbn [mbind option_bind].
  assert (len (take (Z.to_nat m) line) = m) as Hm by (rewrite length_take; lia).
  rewrite aset_Some by (rewrite length_splice; lia). cbn [mbind option_bind].
  destruct (on_kbd_edit (cli k) S Clear (implements_cli _ _ I)) as (k1 & E1 & I1 & _); [done|].
  change (run_edit Clear) with clear_keyboard_buf_caller in E1. rewrite E1. cbn [mbind option_bind].
  exists (sti k1). split.
  - rewrite Et. do 3 f_equal. rewrite <- splice_one by (rewrite length_splice; lia).
    rewrite <- Hm at 2. rewrite <- (Z.add_0_l (len _)), splice_app by lia. f_equal.
    rewrite <- take_snoc by (done || lia). unfold t, taken. fold m. f_equal. lia.
  - by apply implements_sti.
Qed.

Lemma run_events_out buf : forall k S,
  implements k S -> Forall is_byte buf ->
  exists k', run_events (map Out buf) k = Some k' /\
    implements k' (upd_desk (ds_running S) (on_tty (fun s => foldl (fun s c => tty_put c s) s buf)) S).
Proof.
  intros k S I Hb. destruct (run_events_implements (map Out buf) k S I) as (k' & E & I').
  { apply Forall_map. exact Hb. }
  exists k'. split; [done|]. revert I'. apply implements_proper. clear k k' E I Hb.
  induction buf as [|c buf IH] in S |- *; cbn [map foldl]; [by rewrite upd_desk_id; [|apply desk_eta]|].
  rewrite <- IH. cbn [step_desks ds_running upd_desk]. by rewrite upd_desk_compose.
Qed.

(** A write is its bytes' output, one after the other. *)
Lemma terminal_write_events buf n k :
  0 <= n <= len buf ->
  terminal_write (Some buf) n k = (k ← run_events (map Out (take (Z.to_nat n) buf)) k; Some (n, k)).
Proof.
  intros Hn. unfold terminal_write. rewrite (proj2 (Z.ltb_ge n 0)) by lia. f_equal.
  unfold for_range. rewrite Z.sub_0_r.
  assert (forall m pre l k, buf = pre ++ l -> (m <= length l)%nat ->
    for_up m (len pre) (fun idx k => c ← buf.[idx]; on_con (putc c) k) k =
    run_events (map Out (take m l)) k) as H.
  { clear. induction m as [|m IH]; intros pre l k E Hm; [done|]. rewrite for_up_S.
    destruct l as [|c l]; cbn [length] in Hm; [lia|].
    rewrite E at 1. rewrite aget_app_r, Z.sub_diag by lia. cbn [take map run_events mbind option_bind].
    change ((c :: l).[0]) with (Some c). cbn [mbind option_bind].
    change (run_event (Out c) k) with (on_con (putc c) k).
    destruct (on_con (putc c) k) as [k1|]; [|done]. cbn [mbind option_bind].
    rewrite <- (IH (pre ++ [c])); [|by rewrite <- app_assoc|lia]. f_equal. rewrite length_app. cbn. lia. }
  apply (H _ [] buf); [done|lia].
Qed.

Lemma terminal_write_ok buf n k S :
  implements k S -> 0 <= n <= len buf -> Forall is_byte (take (Z.to_nat n) buf) ->
  exists k', terminal_write (Some buf) n k = Some (n, k') /\
    implements k' (foldl (fun S c => step_desks (Out c) S) S (take (Z.to_nat n) buf)).
Proof.
  intros I Hn Hb. rewrite terminal_write_events by done.
  destruct (run_events_implements (map Out (take (Z.to_nat n) buf)) k S I) as (k' & -> & I').
  { by apply Forall_map. }
  exists k'. split; [done|].
  rewrite <- (foldl_fmap (fun S e => step_desks e S) S (take (Z.to_nat n) buf) Out). exact I'.
Qed.

Lemma terminal_read_ready k S es late S1 rest b nbytes :
  implements k S -> Forall event_ok es -> Forall event_ok late ->
  until_ready es S = Some (S1, rest) -> 0 <= nbytes ->
  let S2 := foldl (fun S e => step_desks e S) S1 late in
  let line := d_line (ds_of S2 (ds_shown S2)) in
  has_newline line = true -> len (taken line nbytes) <= len b ->
  exists k', terminal_read (map run_event es) (map run_event late) (Some b) nbytes k =
      Some (len (taken line nbytes), Some (splice b 0 (taken line nbytes)), k') /\
    implements k' (upd_desk (ds_shown S2) clear_line_of S2).
Proof.
  intros I Hes Hlate Hr Hn S2 line Hnl Hb. unfold terminal_read.
  rewrite (proj2 (Z.ltb_ge nbytes 0)) by lia.
  destruct (terminal_read_poll_ready es k S S1 rest I Hes Hr) as (k1 & E1 & I1).
  rewrite E1. cbn [mbind option_bind].
  destruct (run_events_implements late k1 S1 I1 Hlate) as (k2 & E2 & I2).
  rewrite run_interrupts_events, E2. cbn [mbind option_bind].
  destruct (terminal_read_copy_line b nbytes k2 S2 I2 Hnl Hn Hb) as (k3 & E3 & I3).
  fold line in E3. rewrite E3. cbn [mbind option_bind]. by exists k3.
Qed.
End desks.

(** A state with the same pages, cursors, lines and keys, wherever it shows them,
    is the same desks; the targets are a matter of its own. *)
Lemma implements_moved A B prog prog' k k' S :
  implements A B prog k S -> wf_terms k' -> targets_ok A B k' prog' -> term_init_done k' <> 0 ->
  keys_of (k_kbd k') = keys_of (k_kbd k) ->
  (forall t, 0 <= t < NUM_TERMS -> term_page k' t = term_page k t /\ term_line k' t = term_line k t /\
    cursor_of <$> (terminals (k_con k')).[t] = cursor_of <$> (terminals (k_con k)).[t]) ->
  implements A B prog' k' (mkDesks (ds_keys S) (ts (k_con k')) (ta (k_con k')) (ds_of S)).
Proof.
  intros [W HT Hi Hk Hs Hr HD] W' HT' Hi' Hk' Hv. split; cbn [ds_keys ds_shown ds_running ds_of]; try done.
  - by rewrite Hk'.
  - intros t Ht. destruct (Hv t Ht) as (Hp & Hl & Hc). destruct (HD t Ht) as [HL HS].
    split; [by rewrite Hl|]. eapply shows_moved; [..|exact HS]; try done; [apply W|apply W'].
Qed.

(** Three empty desks, the first shown and the second running. *)
Definition sample_state (s0 s1 s2 : tty) : desks :=
  mkDesks (keys_of kbd_reset) 0 1
    (fun t => mkDesk [] (if t =? 0 then s0 else if t =? 1 then s1 else s2)).

Lemma sample_desks :
  exists P s0 s1 s2, implements 0x410000 0x412000 USER_BASE
    (sample_kernel (sample_console TERM_2_VID 0 1) P) (sample_state s0 s1 s2).
Proof.
  set (con := sample_console TERM_2_VID 0 1).
  assert (wf_console con) as W.
  { apply sample_console_wf; [|lia|lia]. exists 2. unfold TERM_2_VID, VIDEO, PAGE_BYTES. lia. }
  destruct (paging_init_ok 0x410000 0x412000) as (P0 & _ & HP0).
  destruct (run_page_op_ok _ _ (UserVideo 0xBA) P0 _ ltac:(cbn; lia) HP0) as (P & _ & HP).
  assert (forall t, 0 <= t < NUM_TERMS -> exists s, shows con (page_of t 0) t s) as Hs.
  { intros t Ht. apply shows_exists; [exact W|by apply page_of_is_page|exact Ht]. }
  unfold NUM_TERMS in Hs.
  destruct (Hs 0 ltac:(lia)) as [s0 H0], (Hs 1 ltac:(lia)) as [s1 H1], (Hs 2 ltac:(lia)) as [s2 H2].
  exists P, s0, s1, s2.
  assert (line_is (replicate 128 0) 0 []) as HL by (split_and!; done).
  split; [|split; [reflexivity|exact HP]|discriminate|reflexivity|reflexivity|reflexivity|].
  - split; [exact W|exact kbd_reset_flags|by split; [reflexivity|]|].
    apply (Forall_replicate _ 3). by split; [reflexivity|].
  - unfold NUM_TERMS. intros t Ht.
    assert (t = 0 \/ t = 1 \/ t = 2) as [-> | [-> | ->] ] by lia;
      (split; [exists (replicate 128 0), 0; split; [reflexivity|exact HL]|]); [exact H0|exact H1|exact H2].
Qed.

(** [l], then Alt-F2, then [s] and Enter. *)
Definition sample_keys : list event :=
  [Key 0x26; Key 0x38; Key 0x3C; Key 0xBC; Key 0xB8; Key 0x1F; Key 0x1C].

Lemma sample_typed s0 s1 s2 :
  exists S1, until_ready sample_keys (sample_state s0 s1 s2) = Some (S1, []) /\
    d_line (ds_of S1 (ds_shown S1)) = [115; 10].
Proof.
  eexists. split.
  - apply (until_ready_at 7); [vm_compute; reflexivity|vm_compute; reflexivity|cbn; lia].
  - vm_compute. reflexivity.
Qed.

(** ** Properties *)

(** C21: the kernel's terminals are three independent desks.  From any state
    that implements three desks, any interleaving of scan codes of the keyboard,
    bytes printed by the running program and bytes it stores in the page of video
    memory mapped for it runs without a fault and ends in a state that implements
    the desks the specification says: typing, rubbing out, tabs and Ctrl-L act on
    the shown desk's line and display only, output and stores act on the running
    program's desk only, and Alt with F1, F2 or F3 changes which
    desk is shown and nothing on any desk, although the kernel has one keyboard
    buffer and one screen and moves lines and pages between them. *)
Theorem terminals_are_desks A B prog k S es :
  implements A B prog k S -> Forall event_ok es ->
  exists k', run_events es k = Some k' /\
    implements A B prog k' (foldl (fun S e => step_desks e S) S es).
Proof. intros I Hes. by apply run_events_implements. Qed.

(** Typing l, then Alt-F2 while the program prints, then s: the l is on the
    first desk and the s on the second. *)
Lemma terminals_are_desks_witness :
  let es := [Key 0x26; Key 0x38; Out 65; Key 0x3C; Key 0xBC; Key 0xB8; Key 0x1F] in
  exists P k' S', run_events es (sample_kernel (sample_console TERM_2_VID 0 1) P) = Some k' /\
    implements 0x410000 0x412000 USER_BASE k' S' /\
    ds_shown S' = 1 /\ d_line (ds_of S' 0) = [108] /\ d_line (ds_of S' 1) = [115].
Proof.
  intros es. destruct sample_desks as (P & s0 & s1 & s2 & I).
  destruct (terminals_are_desks _ _ _ _ _ es I) as (k' & E & I').
  { repeat constructor; cbn; unfold is_byte; lia. }
  exists P, k', (foldl (fun S e => step_desks e S) (sample_state s0 s1 s2) es).
  split; [exact E|]. split; [exact I'|]. clear. vm_compute. split; [reflexivity|split; reflexivity].
Defined.

(** A read from a terminal returns the reader's line.  The reader waits,
    however long, until the line of the desk that is shown holds a newline and
    that desk is its own; it then gets the bytes before the newline, [nbytes] of
    them at most, and one byte more (the newline, or the byte after the first
    [nbytes]), the count says so, the rest of its buffer is as before, and the
    line is empty again.  [late] are events between the last look at the line
    and the copy. *)
Theorem terminal_read_line A B prog k S es late S1 rest b nbytes :
  implements A B prog k S -> Forall event_ok es -> Forall event_ok late ->
  until_ready es S = Some (S1, rest) -> 0 <= nbytes ->
  let S2 := foldl (fun S e => step_desks e S) S1 late in
  let line := d_line (ds_of S2 (ds_shown S2)) in
  has_newline line = true -> len (taken line nbytes) <= len b ->
  exists k', terminal_read (map run_event es) (map run_event late) (Some b) nbytes k =
      Some (len (taken line nbytes), Some (splice b 0 (taken line nbytes)), k') /\
    implements A B prog k' (upd_desk (ds_shown S2) clear_line_of S2).
Proof. apply terminal_read_ready. Qed.

(** The second terminal's program reads while [l] is typed on the first desk and
    then [s] and a newline on the second. *)
Lemma terminal_read_line_witness :
  exists P k', terminal_read (map run_event sample_keys) [] (Some [0; 0; 0; 0]) 4
    (sample_kernel (sample_console TERM_2_VID 0 1) P) = Some (2, Some [115; 10; 0; 0], k').
Proof.
  destruct sample_desks as (P & s0 & s1 & s2 & I). exists P.
  destruct (sample_typed s0 s1 s2) as (S1 & Er & EL).
  destruct (terminal_read_line _ _ _ _ _ sample_keys [] S1 [] [0; 0; 0; 0] 4 I) as (k' & E & _).
  - repeat constructor; cbn; lia.
  - constructor.
  - exact Er.
  - lia.
  - cbn [foldl]. by rewrite EL.
  - cbn [foldl]. rewrite EL. vm_compute. discriminate.
  - exists k'. cbn [foldl] in E. rewrite EL in E. exact E.
Defined.

(** A write to a terminal prints every byte, newlines and NULs included, on
    the running program's own desk, whichever desk is on the screen, and returns
    the count; no line and no other display changes. *)
Theorem terminal_write_prints A B prog k S buf :
  implements A B prog k S -> Forall is_byte buf ->
  exists k', terminal_write (Some buf) (len buf) k = Some (len buf, k') /\
    implements A B prog k'
      (upd_desk (ds_running S) (on_tty (fun s => foldl (fun s c => tty_put c s) s buf)) S).
Proof.
  intros I Hb. rewrite terminal_write_events, Nat2Z.id, firstn_all by lia.
  destruct (run_events_out A B prog buf k S I Hb) as (k' & E & I').
  rewrite E. by exists k'.
Qed.

Lemma terminal_write_prints_witness :
  exists P k' S S', implements 0x410000 0x412000 USER_BASE
      (sample_kernel (sample_console TERM_2_VID 0 1) P) S /\
    terminal_write (Some [72; 105; 10]) 3 (sample_kernel (sample_console TERM_2_VID 0 1) P) = Some (3, k') /\
    implements 0x410000 0x412000 USER_BASE k' S' /\ ds_of S' 0 = ds_of S 0 /\
    d_tty (ds_of S' 1) = tty_put 10 (tty_put 105 (tty_put 72 (d_tty (ds_of S 1)))).
Proof.
  destruct sample_desks as (P & s0 & s1 & s2 & I).
  destruct (terminal_write_prints _ _ _ _ _ [72; 105; 10] I) as (k' & E & I').
  { repeat constructor; unfold is_byte; lia. }
  do 4 eexists. exact (conj I (conj E (conj I' (conj eq_refl eq_refl)))).
Defined.
