(* ===== verification/Frame.v ===== *)
(** What the keyboard interrupt, the output of a program and the clock leave
    alone: the processes.  [view_of] is the part of the state that is about
    processes; the lemmas say that the terminals' operations keep it, whatever
    state they start from. *)
From stdpp Require Import base option list numbers.
From Stdlib Require Import ZArith Lia.
From S2P Require Import Prelude LibString FileSystem Console I8259 Keyboard Paging Rtc State Terminal Desks.

Record view := mkView {
  v_rtc : rtc_t;
  v_img : list Z;
  v_index : Z;
  v_pcbs : list pcb_t;
  v_pids : list Z;
  v_cur : Z;
  v_prev : Z;
  v_mem : list (list Z);
  v_esp0 : Z;
  v_init : Z;
  v_done : Z;
  v_ta : Z;
  v_active : list Z;
}.

Definition view_of (k : kernel) : view :=
  mkView (k_rtc k) (k_img k) (read_index k) (pcbs k) (pid_array k) (cur_pid k) (prev_pid k)
    (prog_mem k) (tss_esp0 k) (terminal_init k) (term_init_done k) (ta (k_con k))
    (active_pid <$> terminals (k_con k)).

Definition same_view (k k' : kernel) : Prop := view_of k' = view_of k.

#[export] Instance same_view_preorder : PreOrder same_view.
Proof. split; [done|]. intros k1 k2 k3 H H'. unfold same_view in *. congruence. Qed.

(** The console's part of it. *)
Definition con_view (c : console) : Z * list Z := (ta c, active_pid <$> terminals c).

Definition keeps (f : console -> option console) : Prop :=
  forall c c', f c = Some c' -> con_view c' = con_view c.

Create HintDb frame discriminated.

(** Taking apart an equation [(x ← e; ...) = Some _]. *)
Ltac unbind H :=
  repeat lazymatch type of H with
  | mbind _ ?e = Some _ =>
      let E := fresh "E" in
      destruct e as [?|] eqn:E; [|discriminate H]; cbn [mbind option_bind] in H
  | (let '(_, _) := ?p in _) = Some _ => destruct p
  end.

Lemma upd_term_view c c' t f :
  (forall T, active_pid (f T) = active_pid T) -> upd_term c t f = Some c' -> con_view c' = con_view c.
Proof.
  intros Hf H. unfold upd_term in H. unbind H. injection H as <-.
  unfold con_view. cbn. f_equal. apply aset_inv in E0 as [Hr ->].
  rewrite list_fmap_insert. apply list_insert_id. rewrite list_lookup_fmap, Hf.
  rewrite <- aget_nat, Z2Nat.id by lia. by rewrite E.
Qed.

Lemma put_under_cursor_keeps ch : keeps (put_under_cursor ch).
Proof. intros c c' H. unfold put_under_cursor in H. unbind H. by injection H as <-. Qed.

Lemma put_at_keeps vid t ch : keeps (put_at vid t ch).
Proof.
  intros c c' H. unfold put_at in H. unbind H.
  by apply upd_term_view in H.
Qed.

Lemma putc_keeps ch : keeps (putc ch).
Proof.
  intros c c' H. unfold putc in H. unbind H. injection H as <-.
  apply put_at_keeps in E. exact E.
Qed.

Lemma put_key_keeps ch : keeps (put_key ch).
Proof. intros c c'. unfold put_key. apply put_at_keeps. Qed.

Lemma check_cursor_keeps : keeps check_cursor.
Proof. intros c c' H. unfold check_cursor in H. unbind H. by injection H as <-. Qed.

Lemma clear_screen_keeps : keeps clear_screen.
Proof.
  intros c c' H. unfold clear_screen, clear in H. unbind H. unbind E. injection E as <-.
  by apply upd_term_view in H.
Qed.

Lemma remc_keeps : keeps remc.
Proof.
  intros c c' H. unfold remc in H. unbind H. case_match; [by injection H as <-|]. unbind H.
  rewrite (put_under_cursor_keeps _ _ _ H).
  apply upd_term_view in E0; [done|]. intros T. by case_match.
Qed.

Lemma set_vidmem_page_keeps i : keeps (set_vidmem_page i).
Proof. intros c c' H. unfold set_vidmem_page in H. unbind H. by injection H as <-. Qed.

#[export] Hint Resolve put_under_cursor_keeps put_at_keeps putc_keeps put_key_keeps check_cursor_keeps
  clear_screen_keeps remc_keeps set_vidmem_page_keeps : frame.

Lemma on_con_view f k k' : keeps f -> on_con f k = Some k' -> same_view k k'.
Proof.
  intros Hf H. unfold on_con in H. unbind H. injection H as <-. apply Hf in E. unfold con_view in E.
  injection E as Eta Eact. unfold same_view, view_of. cbn. by rewrite Eta, Eact.
Qed.

Lemma on_kbd_view {R} (f : kbd -> option (R * kbd)) k r k' : on_kbd f k = Some (r, k') -> same_view k k'.
Proof. intros H. unfold on_kbd in H. unbind H. by injection H as <- <-. Qed.

Lemma on_pag_view f k k' : on_pag f k = Some k' -> same_view k k'.
Proof. intros H. unfold on_pag in H. unbind H. by injection H as <-. Qed.

#[export] Hint Resolve on_con_view on_kbd_view on_pag_view : frame.

Lemma retarget_video_view k k' : retarget_video k = Some k' -> same_view k k'.
Proof.
  intros H. unfold retarget_video in H. case_match; unbind H; (etransitivity; [|by eapply on_pag_view]);
    eauto with frame.
Qed.

Lemma swap_lines_view p n k k' : swap_lines p n k = Some k' -> same_view k k'.
Proof.
  intros H. unfold swap_lines in H. unbind H. injection H as <-.
  apply on_con_view in E1; [exact E1|]. intros c c'. by apply upd_term_view.
Qed.

Lemma terminal_switch_view f k r k' : terminal_switch f k = Some (r, k') -> same_view k k'.
Proof.
  intros H. unfold terminal_switch in H. case_match; [by injection H as <- <-|]. unbind H.
  injection H as <- <-. change (same_view k k2).
  transitivity k0; [by apply (swap_lines_view _ _ _ _ E)|]. transitivity k1.
  - eapply on_con_view; [|exact E0]. intros c c' Hc. unbind Hc. by injection Hc as <-.
  - case_match; [by apply retarget_video_view|by injection E1 as <-].
Qed.

Lemma ctrl_helper_view c k r k' : ctrl_helper c k = Some (r, k') -> same_view k k'.
Proof.
  intros H. unfold ctrl_helper in H. case_match; [|case_match; [by injection H as <- <-|] ]; unbind H;
    injection H as <- <-; (etransitivity; eauto with frame).
Qed.

Lemma tab_spaces_view k k' : tab_spaces k = Some k' -> same_view k k'.
Proof.
  unfold tab_spaces. match goal with |- context [iterate _ ?b _] => set (body := b) end.
  assert (forall n i k, iterate n body (i, k) = Some k' -> same_view k k') as H; [|apply H].
  induction n as [|n IH]; intros i k0 H; [done|]. rewrite iterate_S in H. unfold body at 2 in H.
  destruct (i <? TAB_SPACE); cbn [mbind option_bind] in H; [|by injection H as <-].
  destruct (on_kbd (key_write 32) k0) as [ [r k1]|] eqn:E; [|discriminate H].
  cbn [mbind option_bind] in H. transitivity k1; [eauto with frame|].
  destruct (r =? 0); [|cbn [mbind option_bind] in H; by injection H as <-].
  destruct (on_con (put_key 32) k1) as [k2|] eqn:E2; [|discriminate H]. cbn [mbind option_bind] in H.
  transitivity k2; [eauto with frame|]. by eapply IH.
Qed.

(** The keyboard interrupt. *)
Lemma keyboard_handler_view code k k' : keyboard_handler code k = Some k' -> same_view k k'.
Proof.
  intros H. unfold keyboard_handler in H. unbind H. injection H as <-. change (same_view k k1).
  transitivity k0; [by apply on_kbd_view in E|]. clear E.
  case_match; [unbind E0; injection E0 as <-; by eapply ctrl_helper_view|].
  case_match.
  { unbind E0. case_match; [|injection E0 as <-; eauto with frame]. unbind E0.
    transitivity k2; [eauto with frame|]. transitivity k3; [|eauto with frame].
    case_match; [eauto with frame|by injection E1 as <-]. }
  case_match.
  { unbind E0. case_match; [|injection E0 as <-; eauto with frame]. unbind E0.
    transitivity k2; [eauto with frame|]. etransitivity; eauto with frame. }
  case_match; [by apply tab_spaces_view|].
  case_match; [|by injection E0 as <-]. unbind E0. injection E0 as <-.
  unfold alt_helper in E. case_match; [by injection E as <- <-|].
  by apply terminal_switch_view in E.
Qed.

Lemma store_video_view user va c k k' : store_video user va c k = Some k' -> same_view k k'.
Proof. unfold store_video. intros H. unbind H. case_match; [done|].
  eapply on_con_view; [|exact H]. intros c0 c0' Hc. unbind Hc. by injection Hc as <-.
Qed.

Lemma run_event_view e k k' : run_event e k = Some k' -> same_view k k'.
Proof. destruct e; cbn [run_event]; [apply keyboard_handler_view|eauto with frame|apply store_video_view]. Qed.

Lemma run_events_view es : forall k k', run_events es k = Some k' -> same_view k k'.
Proof.
  induction es as [|e es IH]; intros k k' H; [by injection H as <-|]. cbn [run_events] in H. unbind H.
  etransitivity; [by eapply run_event_view|]. by apply IH.
Qed.

(** A read of the keyboard, however many keys come while it waits. *)
Lemma terminal_read_poll_view es : forall k r,
  terminal_read_poll (map run_event es) k = Some r -> same_view k r.1.
Proof.
  unfold terminal_read_poll.
  match goal with |- context [iterate _ ?b _] => set (body := b) end.
  assert (forall n es k r, iterate n body (k, map run_event es) = Some r -> same_view k r.1) as H;
    [|intros k r; apply H].
  induction n as [|n IH]; intros es' k r H; [done|]. rewrite iterate_S in H. unfold body at 2 in H.
  destruct (done_typing k) as [ [] |]; cbn [mbind option_bind] in H; [by injection H as <-| |done].
  destruct es' as [|e es']; cbn [map] in H; [done|].
  destruct (run_event e (sti k)) as [k1|] eqn:E; cbn [mbind option_bind] in H; [|done].
  apply run_event_view in E. transitivity k1; [exact E|]. by eapply IH.
Qed.

Lemma terminal_read_view es late buf n k r b k' :
  terminal_read (map run_event es) (map run_event late) buf n k = Some (r, b, k') -> same_view k k'.
Proof.
  unfold terminal_read. intros H. destruct buf as [b0|]; [|by injection H as <- <- <-].
  destruct (n <? 0); [by injection H as <- <- <-|]. unbind H. injection H as <- <- <-.
  apply terminal_read_poll_view in E. rewrite run_interrupts_events in E0. apply run_events_view in E0.
  unfold terminal_read_copy in E1. unbind E1. injection E1 as <- <- <-. apply on_kbd_view in E5.
  cbn [fst] in E. etransitivity; [exact E|]. etransitivity; [exact E0|]. exact E5.
Qed.

Lemma terminal_write_view buf n k r k' :
  0 <= n <= len buf -> terminal_write (Some buf) n k = Some (r, k') -> same_view k k'.
Proof.
  intros Hn. rewrite terminal_write_events by done. intros H. unbind H. injection H as <- <-.
  by eapply run_events_view.
Qed.
