(* ===== verification/FileOps.v ===== *)
(** The file operations behind a descriptor: [src/code/file.c],
    [src/code/directory.c] and the operation tables that [process_init] of
    [src/code/processes.c] fills. *)
From stdpp Require Import base option list numbers.
From Stdlib Require Import ZArith Lia.
From S2P Require Import Prelude LibString FileSystem Console Keyboard Paging Rtc State Terminal.

Definition MAX_NAME_LENGTH : Z := 32.

(** What an operation that blocks waits for: the interrupts that come while the
    keyboard is polled, those between the last look and the copy, and a bound on
    the number of clock interrupts. *)
Record world := mkWorld { w_irqs : list interrupt; w_late : list interrupt; w_ticks : nat }.

Definition dir_open (dir_name : list Z) (k : kernel) : option (Z * kernel) :=
  let k := k <| read_index := 0 |> in
  '(r, _) ← read_dentry_by_name (k_img k) dir_name null_dentry; Some (r, k).

Definition dir_close (k : kernel) : option (Z * kernel) := Some (0, k <| read_index := 0 |>).

Definition dir_write (k : kernel) : option (Z * kernel) := Some (-1, k).

(** [dentry0] is the uninitialised local structure. *)
Definition dir_read (dentry0 : dentry_t) (buf : list Z) (nbytes : Z) (k : kernel)
    : option (Z * list Z * kernel) :=
  '(r, dentry) ← read_dentry_by_index (k_img k) (read_index k) dentry0;
  if r =? -1 then Some (0, buf, k)
  else
    buf ← for_range 0 MAX_NAME_LENGTH (fun i buf => c ← (file_name dentry).[i]; buf.[i := c]) buf;
    buf ← buf.[MAX_NAME_LENGTH := 0];
    n ← strlen buf 0;
    Some (n, buf, k <| read_index := u32 (read_index k + 1) |>).

(** [dentry_ptr] is a global pointer that is never set: a store through it faults. *)
Definition file_open (file_name : list Z) (k : kernel) : option (Z * kernel) :=
  '(r, _) ← read_dentry_by_name (k_img k) file_name null_dentry;
  if r =? 0 then None else Some (r, k).

Definition file_close (k : kernel) : option (Z * kernel) := Some (0, k).

Definition file_write (k : kernel) : option (Z * kernel) := Some (-1, k).

(** The return value of [read_data] is unsigned and comes back as signed. *)
Definition file_read (fd : fd_t) (buf : list Z) (count : Z) (k : kernel)
    : option (Z * list Z * kernel) :=
  if count <? 0 then Some (-1, buf, k)
  else '(r, buf) ← read_data (k_img k) (fd_inode_num fd) (file_pos fd) buf count; Some (r, buf, k).

Definition invalid_open_close (k : kernel) : option (Z * kernel) := Some (-1, k).
Definition invalid_read_write (k : kernel) : option (Z * kernel) := Some (-1, k).

(** [rtc_read], [rtc_write] on the kernel's state. *)
Definition rtc_read_op (w : world) (k : kernel) : option (Z * kernel) :=
  '(r, (c, p, rt)) ← rtc_read (w_ticks w) (ta (k_con k)) (k_con k) (k_pic k) (k_rtc k);
  Some (r, k <| k_con := c |> <| k_pic := p |> <| k_rtc := rt |>).

Definition rtc_write_op (buf : list Z) (rate : Z) (k : kernel) : option (Z * kernel) :=
  '(r, b, rt) ← rtc_write (cur_pid k) buf rate (intr (k_con k)) (k_rtc k);
  Some (r, k <| k_rtc := rt |> <| k_con ::= fun c => c <| intr := b |> |>).

(** ** The operation tables

    A call through a table; [None] for a NULL table, a NULL buffer where the
    operation uses it, and the other faults. *)

Definition fop_open (t : f_op_t) (name : list Z) (k : kernel) : option (Z * kernel) :=
  match t with
  | file_opt => file_open name k
  | dir_opt => dir_open name k
  | rtc_opt => on_rtc (rtc_open (cur_pid k)) k
  | terminal_opt | stdin_opt | stdout_opt => terminal_open k
  | null_opt => invalid_open_close k
  | NULL_table => None
  end.

Definition fop_close (t : f_op_t) (k : kernel) : option (Z * kernel) :=
  match t with
  | file_opt => file_close k
  | dir_opt => dir_close k
  | rtc_opt => on_rtc (rtc_close (cur_pid k)) k
  | terminal_opt | stdin_opt | stdout_opt => terminal_close k
  | null_opt => invalid_open_close k
  | NULL_table => None
  end.

Definition fop_read (w : world) (t : f_op_t) (fd : fd_t) (buf : option (list Z)) (nbytes : Z) (k : kernel)
    : option (Z * option (list Z) * kernel) :=
  match t with
  | file_opt => b ← buf; '(r, b, k) ← file_read fd b nbytes k; Some (r, Some b, k)
  | dir_opt => b ← buf; '(r, b, k) ← dir_read null_dentry b nbytes k; Some (r, Some b, k)
  | rtc_opt => '(r, k) ← rtc_read_op w k; Some (r, buf, k)
  | terminal_opt | stdin_opt => terminal_read (w_irqs w) (w_late w) buf nbytes k
  | stdout_opt | null_opt => '(r, k) ← invalid_read_write k; Some (r, buf, k)
  | NULL_table => None
  end.

Definition fop_write (t : f_op_t) (buf : option (list Z)) (nbytes : Z) (k : kernel) : option (Z * kernel) :=
  match t with
  | file_opt => file_write k
  | dir_opt => dir_write k
  | rtc_opt => b ← buf; rtc_write_op b nbytes k
  | terminal_opt | stdout_opt => terminal_write buf nbytes k
  | stdin_opt | null_opt => invalid_read_write k
  | NULL_table => None
  end.

(** ** Lemmas *)

(** The name copied out of an entry: the name, a NUL, the rest of the 33 bytes. *)
Lemma copy_name (buf nm : list Z) :
  len nm = 32 -> 33 <= len buf ->
  exists buf', for_range 0 MAX_NAME_LENGTH (fun i buf => c ← nm.[i]; buf.[i := c]) buf = Some buf' /\
    length buf' = length buf /\
    forall j, buf'.[j] = if (0 <=? j) && (j <? 32) then nm.[j] else buf.[j].
Proof.
  intros Hn Hb. unfold MAX_NAME_LENGTH.
  destruct (for_range_ind (fun i l => length l = length buf /\
      forall j, l.[j] = if (0 <=? j) && (j <? i) then nm.[j] else buf.[j])
    (fun i buf => c ← nm.[i]; buf.[i := c]) 0 32 buf) as (l & E & Hl & H).
  - lia.
  - split; [done|]. intros j. destruct (Z.leb_spec 0 j), (Z.ltb_spec j 0); try done; lia.
  - intros i l Hi [Hl H]. destruct (aget_is_Some nm i) as [c Ec]; [lia|]. rewrite Ec.
    cbn [mbind option_bind]. rewrite aset_Some by lia. eexists; split; [done|].
    split; [by rewrite length_insert|]. intros j. destruct (Z.eq_dec i j) as [<-|Hne].
    + rewrite aget_insert_eq by lia. by replace ((0 <=? i) && (i <? i + 1)) with true by lia.
    + rewrite aget_insert_ne, H by lia.
      destruct (Z.leb_spec 0 j), (Z.ltb_spec j i), (Z.ltb_spec j (i + 1)); try done; lia.
  - by exists l.
Qed.

Lemma dir_read_spec F d0 buf nbytes k :
  represents (k_img k) F -> 0 <= read_index k < 4294967295 -> 33 <= len buf ->
  match (a_entries F).[read_index k] with
  | Some e => exists buf', dir_read d0 buf nbytes k =
        Some (len (a_name e), buf', k <| read_index := read_index k + 1 |>) /\
      cstring buf' 0 (a_name e) /\ length buf' = length buf /\
      forall j, 33 <= j -> buf'.[j] = buf.[j]
  | None => dir_read d0 buf nbytes k = Some (0, buf, k)
  end.
Proof.
  intros HR Hi Hb. destruct ((a_entries F).[read_index k]) as [e|] eqn:Ee; unfold dir_read.
  - destruct (read_dentry_by_index_entry _ _ HR _ _ d0 Ee) as (d & Ed & Eld).
    destruct (load_dentry_entry _ _ HR _ _ Ee) as (d' & Eld' & _ & _ & (Hp & Hc & Hn & Hz & Hs) & Hl).
    assert (d' = d) as -> by congruence. rewrite Ed. cbn [mbind option_bind Z.eqb].
    destruct (copy_name buf (file_name d)) as (b1 & -> & Hl1 & H1); [lia|done|].
    cbn [mbind option_bind]. unfold MAX_NAME_LENGTH, MAX_STR_LENGTH in *.
    rewrite aset_Some by lia. cbn [mbind option_bind].
    assert (cstring (<[Z.to_nat 32 := 0]> b1) 0 (a_name e)) as HS.
    { split_and!; try done.
      - rewrite Z.add_0_l in Hz |- *. destruct (Z.eq_dec (len (a_name e)) 32) as [->|Hne]; [apply aget_insert_eq; lia|].
        rewrite aget_insert_ne, H1 by lia.
        replace ((0 <=? len (a_name e)) && (len (a_name e) <? 32)) with true by lia. apply Hz. lia.
      - intros i Hin. rewrite aget_insert_ne, H1 by lia. rewrite <- (Hs i Hin), Z.add_0_l.
        replace ((0 <=? i) && (i <? 32)) with true by lia. done. }
    rewrite (strlen_cstring _ _ _ HS). cbn [mbind option_bind].
    rewrite u32_small by (unfold is_u32; lia). eexists; split; [done|]. split; [done|].
    split; [by rewrite length_insert|]. intros j Hj. rewrite aget_insert_ne, H1 by lia.
    destruct (Z.leb_spec 0 j), (Z.ltb_spec j 32); try done; lia.
  - by rewrite (read_dentry_by_index_out _ _ HR _ d0 Ee).
Qed.
