(* ===== verification/SysCall.v ===== *)
(** The system calls on descriptors, arguments and video memory:
    [src/code/system_call.c] from [sys_read] to [sys_sigreturn]. *)
From stdpp Require Import base option list numbers.
From Stdlib Require Import ZArith Lia.
From S2P Require Import Prelude LibString FileSystem Console Keyboard Paging Rtc State Terminal FileOps.

Definition MIN_FD_INDEX : Z := 2.
Definition MAX_FD_INDEX : Z := 7.
Definition PROGRAM_VIR_ADDR : Z := 0x8000000.
Definition PAGE_SIZE_4MB : Z := 0x400000.

(** file_descriptor_table + fd.  The bound the calls check lets fd = 8 through:
    the table's ninth entry is the four words behind the table, with [cur_ebp]
    in the place of the flags and [parent_pid] in the place of the pointer to
    the operations; a call through that pointer faults, as through NULL. *)
Definition fd_of (b : pcb_t) (fd : Z) : option fd_t :=
  if fd =? NUM_MAX_FILES then Some (mkFd NULL_table (ebp b) (esp b) (cur_ebp b))
  else (file_descriptor_table b).[fd].

Definition upd_fd (pid fd : Z) (f : fd_t -> fd_t) (k : kernel) : option kernel :=
  b ← get_pcb pid k;
  e ← (file_descriptor_table b).[fd];
  l ← (file_descriptor_table b).[fd := f e];
  upd_pcb pid (fun b => b <| file_descriptor_table := l |>) k.

Definition sys_read (w : world) (fd : Z) (buf : option (list Z)) (nbytes : Z) (k : kernel)
    : option (Z * option (list Z) * kernel) :=
  if (fd <? 0) || (NUM_MAX_FILES <? fd) then Some (-1, buf, k)
  else
    let pid := cur_pid k in
    b ← get_pcb pid k;
    cur_fd ← fd_of b fd;
    if flags cur_fd =? 0 then Some (-1, buf, k)
    else
      '(bytes_read, buf, k) ← fop_read w (file_op_table_ptr cur_fd) cur_fd buf nbytes k;
      k ← upd_fd pid fd (fun e => e <| file_pos ::= fun p => u32 (p + bytes_read) |>) k;
      Some (bytes_read, buf, k).

Definition sys_write (fd : Z) (buf : option (list Z)) (nbytes : Z) (k : kernel) : option (Z * kernel) :=
  if (fd <? 0) || (NUM_MAX_FILES <? fd) then Some (-1, k)
  else
    b ← get_pcb (cur_pid k) k;
    cur_fd ← fd_of b fd;
    if flags cur_fd =? 0 then Some (-1, k)
    else fop_write (file_op_table_ptr cur_fd) buf nbytes k.

(** The first descriptor from MIN_FD_INDEX on that is free, or NUM_MAX_FILES. *)
Definition find_fd (table : list fd_t) : option Z :=
  iterate 7 (fun fd =>
    if fd <? NUM_MAX_FILES then
      e ← table.[fd]; Some (if flags e =? 0 then Done fd else Next (fd + 1))
    else Some (Done fd)) MIN_FD_INDEX.

(** [dentry0] is the uninitialised local structure. *)
Definition sys_open (dentry0 : dentry_t) (filename : list Z) (k : kernel) : option (Z * kernel) :=
  '(read, d) ← read_dentry_by_name (k_img k) filename dentry0;
  if read =? -1 then Some (-1, k)
  else
    let pid := cur_pid k in
    b ← get_pcb pid k;
    fd ← find_fd (file_descriptor_table b);
    if NUM_MAX_FILES <=? fd then Some (-1, k)
    else
      let fill t := upd_fd pid fd (fun _ => mkFd t (inode_num d) 0 1) in
      if file_type d =? 0 then
        k ← fill rtc_opt k; '(_, k) ← fop_open rtc_opt filename k; Some (fd, k)
      else if file_type d =? 1 then k ← fill dir_opt k; Some (fd, k)
      else if file_type d =? 2 then k ← fill file_opt k; Some (fd, k)
      else Some (fd, k).

(** inode_num and file_pos are unsigned: -1 is 0xFFFFFFFF. *)
Definition closed_fd : fd_t := mkFd null_opt (u32 (-1)) (u32 (-1)) 0.

Definition sys_close (fd : Z) (k : kernel) : option (Z * kernel) :=
  if (fd <? MIN_FD_INDEX) || (MAX_FD_INDEX <? fd) then Some (-1, k)
  else
    let pid := cur_pid k in
    b ← get_pcb pid k;
    cur_fd ← fd_of b fd;
    if flags cur_fd =? 0 then Some (-1, k)
    else
      '(_, k) ← fop_close (file_op_table_ptr cur_fd) k;
      k ← upd_fd pid fd (fun _ => closed_fd) k;
      Some (0, k).

Definition sys_getargs (buf : list Z) (nbytes : Z) (k : kernel) : option (Z * list Z * kernel) :=
  b ← get_pcb (cur_pid k) k;
  arg_strlen ← strlen (cmd_args b) 0;
  if (arg_strlen =? 0) || (nbytes - 1 <? arg_strlen) then Some (-1, buf, k)
  else
    buf ← for_range 0 arg_strlen (fun i buf => c ← (cmd_args b).[i]; buf.[i := c]) buf;
    buf ← buf.[arg_strlen := 0];
    Some (0, buf, k).

(** The four bytes the kernel stores at [p]: in the program's page, which is the
    caller's own memory, or above it, in the page of video memory that is mapped
    there; [None] is the page fault of any other address. *)
Definition store_pointer (p w : Z) (k : kernel) : option kernel :=
  for_range 0 4 (fun i k =>
    if p + i <? PROGRAM_VIR_ADDR + CONST_4MB then Some k
    else store_video false (p + i) (u8 (Z.shiftr w (8 * i))) k) k.

(** [screen_start] is the address passed; the second component is the word
    stored at it. *)
Definition sys_vidmap (screen_start : Z) (k : kernel) : option (Z * option Z * kernel) :=
  e ← (pt_user (k_pag k)).[VID_MEM_INDEX];
  if (e_p e =? 0) || (screen_start =? 0) then Some (-1, None, k)
  else if (screen_start <? PROGRAM_VIR_ADDR) || (PROGRAM_VIR_ADDR + CONST_8MB <=? screen_start)
  then Some (-1, None, k)
  else
    let w := u32 ((PROGRAM_IMG_IDX + 1) * PAGE_SIZE_4MB + Z.shiftl VID_MEM_INDEX OFFSET_12) in
    k ← store_pointer screen_start w k;
    Some (0, Some w, k).

Definition sys_sethandler (signum handler_address : Z) (k : kernel) : Z * kernel := (-1, k).
Definition sys_sigreturn (k : kernel) : Z * kernel := (-1, k).

(** The entry point of int 0x80: the number is in EAX, a signed comparison; [entry] is
    the call that the jump table has for a number, on what the registers hold. *)
Definition SYS_MAX : Z := 10.

Definition sys_call (entry : Z -> kernel -> option (Z * kernel)) (eax : Z) (k : kernel) : option (Z * kernel) :=
  if SYS_MAX <? eax then Some (-1, k)
  else if eax <? 1 then Some (-1, k)
  else entry eax k.

(** ** Lemmas *)

(** A descriptor table: eight entries, the flags 0 or 1. *)
Definition wf_fds (l : list fd_t) : Prop :=
  len l = NUM_MAX_FILES /\ Forall (fun e => flags e = 0 \/ flags e = 1) l.

(** The table of the running process. *)
Definition cur_fds (k : kernel) : option (list fd_t) :=
  b ← get_pcb (cur_pid k) k; Some (file_descriptor_table b).

Definition set_fds (l : list fd_t) (k : kernel) : option kernel :=
  upd_pcb (cur_pid k) (fun b => b <| file_descriptor_table := l |>) k.

Lemma cur_fds_pcb k l :
  cur_fds k = Some l -> exists b, get_pcb (cur_pid k) k = Some b /\ file_descriptor_table b = l.
Proof. unfold cur_fds. intros H. bind_inv H. by exists p. Qed.

Lemma set_fds_ok k l l' :
  cur_fds k = Some l ->
  exists k', set_fds l' k = Some k' /\ cur_fds k' = Some l' /\ cur_pid k' = cur_pid k /\
    k' = k <| pcbs := pcbs k' |> /\
    forall q, q <> cur_pid k -> get_pcb q k' = get_pcb q k.
Proof.
  intros H. destruct (cur_fds_pcb _ _ H) as (b & Eb & _). unfold set_fds, upd_pcb, get_pcb in *.
  rewrite Eb. cbn [mbind option_bind]. rewrite aset_Some by (by eapply aget_range).
  cbn [mbind option_bind]. eexists; split; [done|]. pose proof (aget_range _ _ _ Eb) as Hr.
  split_and!; try done.
  - unfold cur_fds, get_pcb. cbn. by rewrite aget_insert_eq by done.
  - intros q Hq. cbn. by rewrite aget_insert_ne by lia.
Qed.

Lemma upd_fd_ok k l fd e f :
  cur_fds k = Some l -> l.[fd] = Some e ->
  exists k', upd_fd (cur_pid k) fd f k = Some k' /\
    cur_fds k' = Some (<[Z.to_nat fd := f e]> l) /\ k' = k <| pcbs := pcbs k' |> /\
    forall q, q <> cur_pid k -> get_pcb q k' = get_pcb q k.
Proof.
  intros H He. destruct (cur_fds_pcb _ _ H) as (b & Eb & El).
  destruct (set_fds_ok k l (<[Z.to_nat fd := f e]> l) H) as (k' & E & H1 & _ & H2 & H3).
  exists k'. unfold upd_fd. rewrite Eb. cbn [mbind option_bind]. rewrite El, He. cbn [mbind option_bind].
  rewrite aset_Some by (by eapply aget_range). cbn [mbind option_bind]. by split_and!.
Qed.

Lemma fd_of_table b fd : fd <> NUM_MAX_FILES -> fd_of b fd = (file_descriptor_table b).[fd].
Proof. intros H. unfold fd_of. by rewrite (proj2 (Z.eqb_neq _ _) H). Qed.

(** [fd] is the first free descriptor of the table, or there is none and it is 8. *)
Definition first_free (l : list fd_t) (fd : Z) : Prop :=
  MIN_FD_INDEX <= fd <= NUM_MAX_FILES /\
  (forall j e, MIN_FD_INDEX <= j < fd -> l.[j] = Some e -> flags e <> 0) /\
  (fd < NUM_MAX_FILES -> exists e, l.[fd] = Some e /\ flags e = 0).

Lemma find_fd_spec l : len l = NUM_MAX_FILES -> exists fd, find_fd l = Some fd /\ first_free l fd.
Proof.
  intros Hl. unfold find_fd, NUM_MAX_FILES, MIN_FD_INDEX in *.
  apply (iterate_ind
    (fun i => 2 <= i <= 8 /\ forall j e, 2 <= j < i -> l.[j] = Some e -> flags e <> 0)
    (first_free l) (fun i => Z.to_nat (8 - i))); [|split; [lia|intros; lia]|cbn; lia].
  intros i [Hi Hj]. unfold NUM_MAX_FILES. destruct (Z.ltb_spec i 8) as [Hlt|Hge].
  - destruct (aget_is_Some l i) as [e Ee]; [lia|]. rewrite Ee. cbn [mbind option_bind].
    eexists; split; [done|]. destruct (Z.eqb_spec (flags e) 0) as [E0|E0].
    + split; [unfold MIN_FD_INDEX, NUM_MAX_FILES; lia|]. split; [done|]. by exists e.
    + split; [|lia]. split; [lia|]. intros j e' Hj' Ee'. destruct (Z.eq_dec j i) as [->|Hne].
      * by assert (e' = e) as -> by congruence.
      * apply (Hj j); [lia|done].
  - eexists; split; [done|]. split; [unfold MIN_FD_INDEX, NUM_MAX_FILES; lia|].
    split; [|unfold NUM_MAX_FILES; lia]. intros j e Hj'. apply Hj. unfold MIN_FD_INDEX in *. lia.
Qed.

Lemma first_free_unique l fd fd' :
  len l = NUM_MAX_FILES -> first_free l fd -> first_free l fd' -> fd = fd'.
Proof.
  intros Hl. assert (forall a b, first_free l a -> first_free l b -> a <= b) as H.
  { intros a b (Ha & Ha1 & _) (Hb & _ & Hb2). destruct (Z_lt_dec b a) as [Hlt|]; [|lia].
    destruct Hb2 as (e & Ee & Hf); [lia|]. exfalso. by apply (Ha1 b e); [lia|..]. }
  intros H1 H2. apply Z.le_antisymm; by apply H.
Qed.

(** What opening a directory entry puts in the table. *)
Definition opened (ftype inode : Z) : option fd_t :=
  if ftype =? 0 then Some (mkFd rtc_opt inode 0 1)
  else if ftype =? 1 then Some (mkFd dir_opt inode 0 1)
  else if ftype =? 2 then Some (mkFd file_opt inode 0 1) else None.

(** Only the running process's control block and its clock rate may differ. *)
Definition only_process (k k' : kernel) : Prop :=
  k' = k <| pcbs := pcbs k' |> <| k_rtc := k_rtc k' |> /\
  (forall q, q <> cur_pid k -> get_pcb q k' = get_pcb q k) /\
  (forall q, q <> cur_pid k -> (process_rtc (k_rtc k')).[q] = (process_rtc (k_rtc k)).[q]).

Lemma only_pcbs k k' :
  k' = k <| pcbs := pcbs k' |> -> (forall q, q <> cur_pid k -> get_pcb q k' = get_pcb q k) ->
  only_process k k'.
Proof. intros E H. split_and!; [|done|]; [by rewrite E; destruct k|intros q _; by rewrite E]. Qed.

(** The change of rate that opening and closing the clock makes. *)
Lemma set_rate k k' f :
  0 <= cur_pid k < len (process_rtc (k_rtc k)) -> only_process k k' -> k_rtc k' = k_rtc k ->
  exists k2, (r ← on_rtc (fun r => l ← (process_rtc r).[cur_pid k := f];
      Some (0, r <| process_rtc := l |>)) k'; Some r.2) = Some k2 /\
    only_process k k2 /\ cur_fds k2 = cur_fds k' /\ (process_rtc (k_rtc k2)).[cur_pid k] = Some f.
Proof.
  intros Hr (E & Hq & _) Ert. unfold on_rtc. rewrite Ert, aset_Some by done. cbn [mbind option_bind snd].
  eexists; split; [done|]. split_and!; cbn.
  - split_and!; [by rewrite E|done|]. intros q Hne. cbn. by rewrite aget_insert_ne by lia.
  - done.
  - by apply aget_insert_eq.
Qed.

(** A read through a descriptor of a regular file. *)
Lemma sys_read_file_eq w k F l fd e c b nbytes :
  represents (k_img k) F -> cur_fds k = Some l -> l.[fd] = Some e -> fd < NUM_MAX_FILES ->
  flags e <> 0 -> file_op_table_ptr e = file_opt -> (a_files F).[fd_inode_num e] = Some c ->
  0 <= file_pos e <= len c -> 0 <= nbytes <= len b ->
  let m := Z.min nbytes (len c - file_pos e) in
  exists k', sys_read w fd (Some b) nbytes k = Some (m, Some (splice b 0 (slice c (file_pos e) m)), k') /\
    cur_fds k' = Some (<[Z.to_nat fd := e <| file_pos := file_pos e + m |>]> l) /\
    k' = k <| pcbs := pcbs k' |> /\ forall q, q <> cur_pid k -> get_pcb q k' = get_pcb q k.
Proof.
  intros HR Hfds He Hfd Hfl Ht Hc Hp Hn m. pose proof (aget_range _ _ _ He) as Hr.
  unfold sys_read. replace ((fd <? 0) || (NUM_MAX_FILES <? fd)) with false by lia.
  destruct (cur_fds_pcb _ _ Hfds) as (b0 & Eb & El). rewrite Eb. cbn [mbind option_bind].
  rewrite fd_of_table, El, He by lia. cbn [mbind option_bind]. rewrite (proj2 (Z.eqb_neq _ 0) Hfl), Ht.
  unfold fop_read, file_read. cbn [mbind option_bind]. rewrite (proj2 (Z.ltb_ge nbytes 0)) by lia.
  rewrite (read_data_file _ F HR _ c) by (done || lia). rewrite (proj2 (Z.ltb_ge (len c) _)) by lia.
  cbn [mbind option_bind]. fold m.
  assert (u32 (file_pos e + m) = file_pos e + m) as Hu.
  { destruct (rep_file _ _ HR _ _ Hc) as [Hmax _]. apply u32_small.
    unfold is_u32, BLOCK_SIZE in *. lia. }
  destruct (upd_fd_ok k l fd e (fun e => e <| file_pos ::= fun p => u32 (p + m) |>) Hfds He)
    as (k' & -> & Hc' & Hk & Hq). cbn [mbind option_bind]. exists k'. split; [done|].
  split; [|done]. rewrite Hc'. cbn. by rewrite Hu.
Qed.

(** The loop of a program that reads a descriptor to its end in pieces of
    [nbytes] bytes; the result is the pieces it got. *)
Fixpoint drain (fuel : nat) (w : world) (fd : Z) (b : list Z) (nbytes : Z) (k : kernel)
    : option (list (list Z) * kernel) :=
  match fuel with
  | O => None
  | S fuel =>
      '(r, b, k) ← sys_read w fd (Some b) nbytes k;
      b ← b;
      if r <=? 0 then Some ([], k)
      else '(rest, k) ← drain fuel w fd b nbytes k; Some (slice b 0 r :: rest, k)
  end.

Lemma drain_file w F fd nbytes c fuel : forall k l e b,
  represents (k_img k) F -> cur_fds k = Some l -> l.[fd] = Some e -> fd < NUM_MAX_FILES ->
  flags e <> 0 -> file_op_table_ptr e = file_opt -> (a_files F).[fd_inode_num e] = Some c ->
  0 <= file_pos e <= len c -> 0 < nbytes <= len b ->
  (Z.to_nat (len c - file_pos e) < fuel)%nat ->
  exists ps k', drain fuel w fd b nbytes k = Some (ps, k') /\
    concat ps = slice c (file_pos e) (len c - file_pos e) /\
    cur_fds k' = Some (<[Z.to_nat fd := e <| file_pos := len c |>]> l) /\
    k' = k <| pcbs := pcbs k' |> /\ forall q, q <> cur_pid k -> get_pcb q k' = get_pcb q k.
Proof.
  induction fuel as [|fuel IH]; intros k l e b HR Hfds He Hfd Hfl Ht Hc Hp Hn Hfuel; [lia|].
  cbn [drain]. destruct (sys_read_file_eq w k F l fd e c b nbytes) as (k1 & -> & Hc1 & Hk1 & Hq1);
    try done; [lia|]. cbn [mbind option_bind]. set (m := Z.min nbytes (len c - file_pos e)) in *.
  destruct (Z.leb_spec m 0) as [Hm|Hm].
  - assert (m = 0) as Em by lia. assert (file_pos e = len c) as Ep by lia.
    exists [], k1. rewrite Em, Z.add_0_r, Ep in Hc1. rewrite Ep, Z.sub_diag. by split_and!.
  - pose proof (aget_range _ _ _ He) as Hfr.
    assert (length (splice b 0 (slice c (file_pos e) m)) = length b) as Hlb
      by (apply length_splice; rewrite ?length_slice; lia).
    destruct (IH k1 (<[Z.to_nat fd := e <| file_pos := file_pos e + m |>]> l) (e <| file_pos := file_pos e + m |>) (splice b 0 (slice c (file_pos e) m)))
      as (ps & k2 & E2 & Eps & Hc2 & Hk2 & Hq2); cbn; try done; try lia.
    { by rewrite Hk1. }
    { by apply aget_insert_eq. }
    cbn in E2. rewrite E2. cbn [mbind option_bind]. do 2 eexists. split; [done|]. split.
    + cbn [concat]. rewrite Eps. cbn [file_pos update_field]. unfold update_field. cbn [file_pos].
      rewrite slice_splice_0 by (rewrite length_slice; lia). rewrite <- slice_app by lia. f_equal. lia.
    + cbn in Hc2. rewrite list_insert_insert_eq in Hc2. split; [done|]. split; [by rewrite Hk2, Hk1|].
      intros q Hq. rewrite Hq2, Hq1; [done|done|]. by rewrite Hk1.
Qed.

(** Descriptors that are refused. *)
Definition bad_fd (l : list fd_t) (fd : Z) : Prop :=
  fd < 0 \/ NUM_MAX_FILES < fd \/ exists e, l.[fd] = Some e /\ flags e = 0.

Lemma bad_fd_refused w k b fd buf nbytes :
  get_pcb (cur_pid k) k = Some b -> len (file_descriptor_table b) = NUM_MAX_FILES ->
  bad_fd (file_descriptor_table b) fd ->
  sys_read w fd buf nbytes k = Some (-1, buf, k) /\ sys_write fd buf nbytes k = Some (-1, k) /\
  sys_close fd k = Some (-1, k).
Proof.
  intros Eb Hl Hbad. unfold sys_read, sys_write, sys_close. rewrite Eb. cbn [mbind option_bind].
  unfold bad_fd, NUM_MAX_FILES, MIN_FD_INDEX, MAX_FD_INDEX in *. destruct Hbad as [Hfd|[Hfd|(e & Ee & Hf)] ].
  - by replace ((fd <? 0) || (8 <? fd)) with true by lia;
      replace ((fd <? 2) || (7 <? fd)) with true by lia.
  - by replace ((fd <? 0) || (8 <? fd)) with true by lia;
      replace ((fd <? 2) || (7 <? fd)) with true by lia.
  - pose proof (aget_range _ _ _ Ee). replace ((fd <? 0) || (8 <? fd)) with false by lia.
    rewrite fd_of_table, Ee by (unfold NUM_MAX_FILES; lia). cbn [mbind option_bind].
    rewrite Hf. cbn [Z.eqb]. split; [done|]. split; [done|]. by case_match.
Qed.

(** A read through a descriptor of the directory. *)
Lemma sys_read_dir_eq w k F l fd e b nbytes :
  represents (k_img k) F -> cur_fds k = Some l -> l.[fd] = Some e -> fd < NUM_MAX_FILES ->
  flags e <> 0 -> file_op_table_ptr e = dir_opt -> 0 <= read_index k < 4294967295 -> 33 <= len b ->
  exists r b' k' n p, sys_read w fd (Some b) nbytes k = Some (r, Some b', k') /\ length b' = length b /\
    match (a_entries F).[read_index k] with
    | Some x => r = len (a_name x) /\ cstring b' 0 (a_name x) /\ n = read_index k + 1
    | None => r = 0 /\ b' = b /\ n = read_index k
    end /\
    cur_fds k' = Some (<[Z.to_nat fd := e <| file_pos := p |>]> l) /\
    k' = k <| pcbs := pcbs k' |> <| read_index := n |> /\
    forall q, q <> cur_pid k -> get_pcb q k' = get_pcb q k.
Proof.
  intros HR Hfds He Hfd Hfl Ht Hi Hb. pose proof (aget_range _ _ _ He) as Hr.
  unfold sys_read. replace ((fd <? 0) || (NUM_MAX_FILES <? fd)) with false by lia.
  destruct (cur_fds_pcb _ _ Hfds) as (b0 & Eb & El). rewrite Eb. cbn [mbind option_bind].
  rewrite fd_of_table, El, He by lia. cbn [mbind option_bind]. rewrite (proj2 (Z.eqb_neq _ 0) Hfl), Ht.
  unfold fop_read. cbn [mbind option_bind].
  pose proof (dir_read_spec F null_dentry b nbytes k HR Hi Hb) as Hdir.
  destruct ((a_entries F).[read_index k]) as [x|].
  - destruct Hdir as (b' & -> & Hc & Hl & _). cbn [mbind option_bind].
    set (k1 := k <| read_index := read_index k + 1 |>).
    destruct (upd_fd_ok k1 l fd e (fun e => e <| file_pos ::= fun p => u32 (p + len (a_name x)) |>) Hfds He)
      as (k' & E & Hc' & Hk & Hq). change (cur_pid k1) with (cur_pid k) in E. rewrite E.
    cbn [mbind option_bind]. do 5 eexists. split; [done|]. split; [done|]. split; [by split_and!|].
    split; [exact Hc'|]. split; [by rewrite Hk|exact Hq].
  - rewrite Hdir. cbn [mbind option_bind].
    destruct (upd_fd_ok k l fd e (fun e => e <| file_pos ::= fun p => u32 (p + 0) |>) Hfds He)
      as (k' & E & Hc' & Hk & Hq). rewrite E. cbn [mbind option_bind].
    do 5 eexists. split; [done|]. split; [done|]. split; [by split_and!|].
    split; [exact Hc'|]. split; [by rewrite Hk; destruct k|exact Hq].
Qed.

Lemma cstring_slice b nm : cstring b 0 nm -> slice b 0 (len nm) = nm.
Proof.
  intros H. pose proof (cstring_length _ _ _ H). destruct H as (_ & _ & _ & Hi).
  apply aget_ext; [rewrite length_slice; lia|]. rewrite length_slice by lia. intros i Hir.
  rewrite aget_slice by lia. apply Hi. lia.
Qed.

Lemma drain_dir w F fd nbytes fuel : forall k l e b,
  represents (k_img k) F -> Forall (fun x => a_name x <> []) (a_entries F) ->
  cur_fds k = Some l -> l.[fd] = Some e -> fd < NUM_MAX_FILES ->
  flags e <> 0 -> file_op_table_ptr e = dir_opt -> 33 <= len b ->
  0 <= read_index k <= len (a_entries F) ->
  (Z.to_nat (len (a_entries F) - read_index k) < fuel)%nat ->
  exists k' p, drain fuel w fd b nbytes k =
      Some (a_name <$> drop (Z.to_nat (read_index k)) (a_entries F), k') /\
    cur_fds k' = Some (<[Z.to_nat fd := e <| file_pos := p |>]> l) /\
    k' = k <| pcbs := pcbs k' |> <| read_index := len (a_entries F) |> /\
    forall q, q <> cur_pid k -> get_pcb q k' = get_pcb q k.
Proof.
  induction fuel as [|fuel IH]; intros k l e b HR Hne Hfds He Hfd Hfl Ht Hb Hi Hfuel; [lia|].
  pose proof (rep_entries_max _ _ HR) as Hmax. unfold MAX_DIR_ENTRIES in Hmax.
  cbn [drain]. destruct (sys_read_dir_eq w k F l fd e b nbytes HR Hfds He Hfd Hfl Ht)
    as (r & b1 & k1 & n & p & -> & Hl1 & Hm & Hc1 & Hk1 & Hq1); [lia|done|]. cbn [mbind option_bind].
  destruct ((a_entries F).[read_index k]) as [x|] eqn:Ex.
  - destruct Hm as (-> & Hcs & ->). pose proof (aget_Forall _ _ _ _ Hne Ex) as Hx. cbv beta in Hx.
    pose proof (aget_range _ _ _ Ex) as Hr. pose proof (aget_range _ _ _ He) as Hfr.
    assert (0 < len (a_name x)) by (destruct (a_name x); [done|cbn; lia]).
    rewrite (proj2 (Z.leb_gt (len (a_name x)) 0)) by lia.
    destruct (IH k1 (<[Z.to_nat fd := e <| file_pos := p |>]> l) (e <| file_pos := p |>) b1)
      as (k2 & p2 & E2 & Hc2 & Hk2 & Hq2); try done.
    { by rewrite Hk1. }
    { by apply aget_insert_eq. }
    { by rewrite Hl1. }
    { rewrite Hk1. cbn. lia. }
    { rewrite Hk1. cbn. lia. }
    rewrite E2. cbn [mbind option_bind]. exists k2, p2. split.
    + do 2 f_equal. rewrite (cstring_slice _ _ Hcs). rewrite Hk1.
      cbn [read_index update_field]. unfold update_field. cbn [read_index].
      replace (Z.to_nat (read_index k + 1)) with (S (Z.to_nat (read_index k))) by lia.
      rewrite (drop_S (a_entries F) x (Z.to_nat (read_index k))); [done|].
      rewrite <- aget_nat, Z2Nat.id by lia. done.
    + rewrite list_insert_insert_eq in Hc2. split; [done|]. split; [by rewrite Hk2, Hk1|].
      intros q Hq. rewrite Hq2, Hq1; [done|done|]. by rewrite Hk1.
  - destruct Hm as (-> & -> & ->). cbn [Z.leb Z.compare].
    assert (read_index k = len (a_entries F)) as Ei.
    { destruct (Z.eq_dec (read_index k) (len (a_entries F))) as [|Hneq]; [done|].
      destruct (aget_is_Some (a_entries F) (read_index k)) as [? E]; [lia|congruence]. }
    exists k1, p. split; [|by rewrite <- Ei]. rewrite drop_ge by lia. done.
Qed.

(** What closing an operation table leaves behind besides the entry. *)
Definition close_index (t : f_op_t) (k : kernel) : kernel :=
  match t with dir_opt => k <| read_index := 0 |> | _ => k end.

Lemma sys_close_open k l fd e :
  cur_fds k = Some l -> l.[fd] = Some e -> MIN_FD_INDEX <= fd <= MAX_FD_INDEX ->
  0 <= cur_pid k < len (process_rtc (k_rtc k)) ->
  flags e <> 0 -> file_op_table_ptr e <> NULL_table ->
  exists k', sys_close fd k = Some (0, k') /\
    cur_fds k' = Some (<[Z.to_nat fd := closed_fd]> l) /\
    only_process (close_index (file_op_table_ptr e) k) k' /\
    (process_rtc (k_rtc k')).[cur_pid k] =
      (if decide (file_op_table_ptr e = rtc_opt) then Some MAX_VIR_FREQ
       else (process_rtc (k_rtc k)).[cur_pid k]) /\
    (file_op_table_ptr e <> rtc_opt -> k_rtc k' = k_rtc k).
Proof.
  intros Hfds He Hfd Hrtc Hfl Ht. unfold sys_close.
  replace ((fd <? MIN_FD_INDEX) || (MAX_FD_INDEX <? fd)) with false by lia.
  destruct (cur_fds_pcb _ _ Hfds) as (b0 & Eb & El). rewrite Eb. cbn [mbind option_bind].
  rewrite fd_of_table, El, He by (unfold NUM_MAX_FILES, MAX_FD_INDEX in *; lia). cbn [mbind option_bind].
  rewrite (proj2 (Z.eqb_neq _ 0) Hfl).
  assert (exists r k1, fop_close (file_op_table_ptr e) k = Some (r, k1) /\ cur_fds k1 = Some l /\
    cur_pid k1 = cur_pid k /\ only_process (close_index (file_op_table_ptr e) k) k1 /\
    (process_rtc (k_rtc k1)).[cur_pid k] =
      (if decide (file_op_table_ptr e = rtc_opt) then Some MAX_VIR_FREQ
       else (process_rtc (k_rtc k)).[cur_pid k]) /\
    (file_op_table_ptr e <> rtc_opt -> k_rtc k1 = k_rtc k))
    as (r & k1 & -> & Hc1 & Ep & Ho & Hrate & Hsame).
  { destruct (file_op_table_ptr e); cbn [fop_close close_index decide]; try done;
      try (exists 0, k; split_and!; [done..|split_and!; [by destruct k|done|done]|done|done]);
      try (exists (-1), k; split_and!; [done..|split_and!; [by destruct k|done|done]|done|done]).
    - exists 0, (k <| read_index := 0 |>). by split_and!.
    - destruct (set_rate k k MAX_VIR_FREQ Hrtc) as (k2 & E2 & Ho2 & Hc2 & Hf2);
        [split_and!; [by destruct k|done|done]|done|].
      unfold rtc_close. destruct (on_rtc _ k) as [ [r k3]|]; [|done].
      cbn [mbind option_bind snd] in E2. injection E2 as ->. exists r, k2.
      split; [done|]. rewrite Hc2. split; [done|]. destruct Ho2 as (Eo & ? & ?). split; [by rewrite Eo|].
      split; [done|]. split; [exact Hf2|done]. }
  cbn [mbind option_bind]. rewrite <- Ep.
  destruct (upd_fd_ok k1 l fd e (fun _ => closed_fd) Hc1 He) as (k2 & -> & Hc2 & Hk2 & Hq2).
  cbn [mbind option_bind]. exists k2. split; [done|]. split; [done|].
  destruct Ho as (Eo & Ho1 & Ho2).
  assert (cur_pid (close_index (file_op_table_ptr e) k) = cur_pid k) as Ec
    by (by destruct (file_op_table_ptr e)).
  rewrite Ec in Ho1, Ho2. split; [|split; [by rewrite Ep, Hk2|intros Hn; rewrite Hk2; by apply Hsame] ].
  split_and!; rewrite ?Ec.
  - rewrite Hk2, Eo. by destruct k, (file_op_table_ptr e).
  - intros q Hq. rewrite Hq2 by congruence. by apply Ho1.
  - intros q Hq. rewrite Hk2. by apply Ho2.
Qed.

(** [sys_open] on every branch. *)
Lemma sys_open_spec k F l d0 filename nm :
  represents (k_img k) F -> cstring filename 0 nm ->
  cur_fds k = Some l -> len l = NUM_MAX_FILES -> 0 <= cur_pid k < len (process_rtc (k_rtc k)) ->
  exists fd, first_free l fd /\
    match find_entry F nm with
    | None => sys_open d0 filename k = Some (-1, k)
    | Some e =>
        if decide (fd = NUM_MAX_FILES) then sys_open d0 filename k = Some (-1, k)
        else match opened (a_type e) (a_inode e) with
             | None => sys_open d0 filename k = Some (fd, k)
             | Some f => exists k', sys_open d0 filename k = Some (fd, k') /\
                 cur_fds k' = Some (<[Z.to_nat fd := f]> l) /\ only_process k k' /\
                 (process_rtc (k_rtc k')).[cur_pid k] =
                   (if a_type e =? 0 then Some MIN_VIR_FREQ else (process_rtc (k_rtc k)).[cur_pid k]) /\
                 (a_type e <> 0 -> k_rtc k' = k_rtc k)
             end
    end.
Proof.
  intros HR Hnm Hfds Hl Hrtc. destruct (find_fd_spec l Hl) as (fd & Efd & Hfree). exists fd.
  split; [done|]. pose proof (read_dentry_by_name_find _ _ _ _ d0 HR Hnm) as Hname. unfold sys_open.
  destruct (find_entry F nm) as [e|]; [|by rewrite Hname].
  destruct Hname as (d & -> & Et & Ei). cbn [mbind option_bind Z.eqb].
  destruct (cur_fds_pcb _ _ Hfds) as (b & Eb & El). rewrite Eb. cbn [mbind option_bind].
  rewrite El, Efd. cbn [mbind option_bind]. destruct Hfree as (Hr & _ & Hf).
  destruct (decide (fd = NUM_MAX_FILES)) as [->|Hne]; [done|].
  rewrite (proj2 (Z.leb_gt NUM_MAX_FILES fd)) by lia. destruct Hf as (e0 & Ee0 & _); [lia|].
  assert (forall t, exists k', upd_fd (cur_pid k) fd (fun _ => mkFd t (inode_num d) 0 1) k = Some k' /\
    cur_fds k' = Some (<[Z.to_nat fd := mkFd t (inode_num d) 0 1]> l) /\
    only_process k k' /\ k_rtc k' = k_rtc k /\ cur_pid k' = cur_pid k) as Hfill.
  { intros t. destruct (upd_fd_ok k l fd e0 (fun _ => mkFd t (inode_num d) 0 1) Hfds Ee0)
      as (k' & E & Hc & Hk & Hq). exists k'. split; [done|]. split; [done|].
    split; [by apply only_pcbs|]. by rewrite Hk. }
  rewrite Et, <- Ei. unfold opened.
  destruct (Z.eqb_spec (a_type e) 0) as [E0|E0]; [|destruct (a_type e =? 1); [|destruct (a_type e =? 2)] ].
  - destruct (Hfill rtc_opt) as (k1 & -> & Hc & Ho & Ek & Ep). cbn [mbind option_bind].
    destruct (set_rate k k1 MIN_VIR_FREQ Hrtc Ho Ek) as (k2 & E2 & Ho2 & Hc2 & Hf2).
    unfold fop_open, rtc_open. rewrite Ep. destruct (on_rtc _ k1) as [ [r k3]|]; [|done].
    cbn [mbind option_bind snd] in *. injection E2 as ->. exists k2. rewrite Hc2. by split_and!.
  - destruct (Hfill dir_opt) as (k1 & -> & Hc & Ho & Ek & Ep). cbn [mbind option_bind].
    exists k1. by rewrite Ek.
  - destruct (Hfill file_opt) as (k1 & -> & Hc & Ho & Ek & Ep). cbn [mbind option_bind].
    exists k1. by rewrite Ek.
  - done.
Qed.

Lemma sys_getargs_eq k b arg buf nbytes :
  get_pcb (cur_pid k) k = Some b -> cstring (cmd_args b) 0 arg -> nbytes <= len buf ->
  sys_getargs buf nbytes k =
    if decide (arg <> [] /\ len arg < nbytes)
    then Some (0, splice buf 0 (arg ++ [0]), k) else Some (-1, buf, k).
Proof.
  intros Eb Hc Hn. unfold sys_getargs. rewrite Eb. cbn [mbind option_bind].
  rewrite (strlen_cstring _ _ _ Hc). cbn [mbind option_bind].
  destruct (Z.eqb_spec (len arg) 0) as [E0|E0]; cbn [orb].
  { rewrite decide_False; [done|]. intros [Hne _]. by destruct arg. }
  destruct (Z.ltb_spec (nbytes - 1) (len arg)) as [Hlt|Hge]; [rewrite decide_False; [done|lia]|].
  rewrite decide_True by (split; [by intros ->|lia]).
  assert (len arg < len buf) as Hl by lia. pose proof (copy_string _ buf arg Hc Hl) as Hcopy.
  destruct (for_range 0 (len arg) _ buf) as [l|]; [|done]. cbn [mbind option_bind] in *.
  by rewrite Hcopy.
Qed.

(** ** Properties *)

(** [sys_open] on every branch.  A name that is not in the directory, empty
    or longer than 32 characters is refused; so is any name when the six
    descriptors 2 to 7 are taken.  Otherwise the result is the lowest free
    descriptor, and the clock, the directory or a regular file is put there at
    position 0, the clock's rate of the caller becoming 2; an entry of another
    type gets the number although nothing is put in the table.  No other
    process's table, rate or any other part of the kernel changes. *)
Theorem sys_open_correct k F l d0 filename nm :
  represents (k_img k) F -> cstring filename 0 nm ->
  cur_fds k = Some l -> len l = NUM_MAX_FILES -> 0 <= cur_pid k < len (process_rtc (k_rtc k)) ->
  exists fd, first_free l fd /\
    match find_entry F nm with
    | None => sys_open d0 filename k = Some (-1, k)
    | Some e =>
        if decide (fd = NUM_MAX_FILES) then sys_open d0 filename k = Some (-1, k)
        else match opened (a_type e) (a_inode e) with
             | None => sys_open d0 filename k = Some (fd, k)
             | Some f => exists k', sys_open d0 filename k = Some (fd, k') /\
                 cur_fds k' = Some (<[Z.to_nat fd := f]> l) /\ only_process k k' /\
                 (process_rtc (k_rtc k')).[cur_pid k] =
                   (if a_type e =? 0 then Some MIN_VIR_FREQ else (process_rtc (k_rtc k)).[cur_pid k]) /\
                 (a_type e <> 0 -> k_rtc k' = k_rtc k)
             end
    end.
Proof. apply sys_open_spec. Qed.

(** A process number 0 with the standard descriptors, on the sample file system;
    its argument is "frame0". *)
Definition sample_fds : list fd_t :=
  [mkFd stdin_opt 0 0 1; mkFd stdout_opt 0 0 1; closed_fd; closed_fd; closed_fd; closed_fd;
   closed_fd; closed_fd].

Definition sample_user : kernel :=
  mkKernel (mkConsole [] VIDEO [] 0 0 true) kbd_reset (I8259.i8259_init I8259.pic_reset)
    (mkPaging [] [] (replicate 185 (make_entry 1 1 0 0 0xB8)))
    sample_rtc sample_img 0
    [mkPcb sample_fds (-1) 0 0 0 0 0 [102; 114; 97; 109; 101; 48; 0; 0]] [1; 0; 0; 0; 0; 0] 0 (-1) [] 0 4 1.

Definition no_world : world := mkWorld [] [] 0.

(** rtc takes the first free descriptor. *)
Lemma sys_open_correct_witness :
  exists k', sys_open null_dentry [114; 116; 99; 0] sample_user = Some (2, k') /\
    cur_fds k' = Some (<[2%nat := mkFd rtc_opt 0 0 1]> sample_fds) /\ only_process sample_user k'.
Proof.
  destruct (sys_open_correct sample_user sample_fs sample_fds null_dentry [114; 116; 99; 0] [114; 116; 99])
    as (fd & Hfree & H); [exact sample_represents| |reflexivity|reflexivity|cbn; lia|].
  { apply ((cstring_intro [114; 116; 99] [])). repeat constructor. }
  assert (fd = 2) as ->.
  { apply (first_free_unique sample_fds); [reflexivity|done|]. unfold first_free, MIN_FD_INDEX, NUM_MAX_FILES.
    split; [lia|]. split; [lia|]. intros _. by exists closed_fd. }
  cbn in H. destruct H as (k' & E & Hc & Ho & _). exists k'. exact (conj E (conj Hc Ho)).
Defined.

(** C27: reading a file through the system calls gives the file.  Opening a
    regular file, reading the descriptor in pieces of any positive size until a
    read returns 0, and closing it, never fails or faults; the pieces put
    together are exactly the file's bytes; afterwards the table is the old one
    (the entry that was used is marked free again) and no other process and no
    other part of the kernel is any different. *)
Theorem open_drain_close w k F l d0 filename nm e c b nbytes fd :
  represents (k_img k) F -> cstring filename 0 nm ->
  cur_fds k = Some l -> len l = NUM_MAX_FILES -> 0 <= cur_pid k < len (process_rtc (k_rtc k)) ->
  find_entry F nm = Some e -> a_type e = 2 -> (a_files F).[a_inode e] = Some c ->
  first_free l fd -> fd < NUM_MAX_FILES -> 0 < nbytes <= len b ->
  exists k1 ps k2 k3, sys_open d0 filename k = Some (fd, k1) /\
    drain (S (length c)) w fd b nbytes k1 = Some (ps, k2) /\ concat ps = c /\
    sys_close fd k2 = Some (0, k3) /\
    cur_fds k3 = Some (<[Z.to_nat fd := closed_fd]> l) /\ k3 = k <| pcbs := pcbs k3 |> /\
    forall q, q <> cur_pid k -> get_pcb q k3 = get_pcb q k.
Proof.
  intros HR Hnm Hfds Hl Hrtc Hfind Ht Hc Hfree Hfd Hn.
  destruct (sys_open_spec k F l d0 filename nm HR Hnm Hfds Hl Hrtc) as (fd' & Hfree' & H).
  assert (fd' = fd) as -> by (by eapply first_free_unique). rewrite Hfind in H.
  rewrite decide_False in H by lia. unfold opened in H. rewrite Ht in H. cbn [Z.eqb Pos.eqb] in H.
  destruct H as (k1 & E1 & Hc1 & (Ek1 & Hq1 & _) & _ & Ert). destruct Hfree as (Hr & _ & _).
  unfold MIN_FD_INDEX, MAX_FD_INDEX, NUM_MAX_FILES in *.
  specialize (Ert ltac:(discriminate)).
  set (l1 := <[Z.to_nat fd := _]> l) in Hc1.
  destruct (drain_file w F fd nbytes c (S (length c)) k1 l1 (mkFd file_opt (a_inode e) 0 1) b)
    as (ps & k2 & E2 & Eps & Hc2 & Hk2 & Hq2); try done.
  { by rewrite Ek1. }
  { apply aget_insert_eq. lia. }
  { cbn. lia. }
  { cbn. lia. }
  cbn in Eps. rewrite Z.sub_0_r in Eps. unfold l1 in Hc2. rewrite list_insert_insert_eq in Hc2.
  set (l2 := <[Z.to_nat fd := _]> l) in Hc2.
  destruct (sys_close_open k2 l2 fd (mkFd file_opt (a_inode e) (len c) 1) Hc2)
    as (k3 & E3 & Hc3 & (Ek3 & Hq3 & _) & _ & Ert3); try done.
  { apply aget_insert_eq. lia. }
    { unfold MIN_FD_INDEX, MAX_FD_INDEX. lia. }
    { rewrite Hk2, Ek1. cbn. by rewrite Ert. }
  exists k1, ps, k2, k3. unfold l2 in Hc3. rewrite list_insert_insert_eq in Hc3. cbn in Ek3.
  split_and!; try done.
  - rewrite Eps. unfold slice. cbn. by rewrite drop_0, Nat2Z.id, firstn_all.
  - rewrite Ek3, Ert3, Hk2, Ek1, Ert by discriminate. by destruct k.
  - intros q Hq. assert (cur_pid k1 = cur_pid k) as P1 by (by rewrite Ek1).
    assert (cur_pid k2 = cur_pid k) as P2 by (by rewrite Hk2). cbn in Hq3.
    by rewrite Hq3, Hq2, Hq1 by congruence.
Qed.

(** frame0 in pieces of four bytes. *)
Lemma open_drain_close_witness :
  exists k1 ps k2 k3, sys_open null_dentry [102; 114; 97; 109; 101; 48; 0] sample_user = Some (2, k1) /\
    drain 11 no_world 2 [0; 0; 0; 0] 4 k1 = Some (ps, k2) /\
    concat ps = [47; 92; 95; 47; 92; 10; 62; 32; 60; 10] /\ sys_close 2 k2 = Some (0, k3).
Proof.
  destruct (open_drain_close no_world sample_user sample_fs sample_fds null_dentry
    [102; 114; 97; 109; 101; 48; 0] [102; 114; 97; 109; 101; 48] (FileSystem.mkEntry [102; 114; 97; 109; 101; 48] 2 1)
    [47; 92; 95; 47; 92; 10; 62; 32; 60; 10] [0; 0; 0; 0] 4 2)
    as (k1 & ps & k2 & k3 & E1 & E2 & Ec & E3 & _).
  - exact sample_represents.
  - apply (cstring_intro [102; 114; 97; 109; 101; 48] []). repeat constructor.
  - reflexivity.
  - reflexivity.
  - cbn; lia.
  - vm_compute. reflexivity.
  - reflexivity.
  - reflexivity.
  - split; [unfold MIN_FD_INDEX, NUM_MAX_FILES; lia|]. split; [unfold MIN_FD_INDEX; lia|].
    intros _. by exists closed_fd.
  - unfold NUM_MAX_FILES. lia.
  - cbn. lia.
  - exists k1, ps, k2, k3. exact (conj E1 (conj E2 (conj Ec E3))).
Defined.

(** Reading the directory through a descriptor lists it: the reads return
    the entries' names in the order of the boot block, one name each, full
    32-character names included, from the kernel's one directory position on,
    until a read returns 0 after the last; the buffer needs 33 bytes whatever
    size is asked for, and every name must be non-empty for the loop to get to
    the end. *)
Theorem directory_listing w k F l fd e b nbytes :
  represents (k_img k) F -> Forall (fun x => a_name x <> []) (a_entries F) ->
  cur_fds k = Some l -> l.[fd] = Some e -> fd < NUM_MAX_FILES ->
  flags e <> 0 -> file_op_table_ptr e = dir_opt -> 33 <= len b ->
  0 <= read_index k <= len (a_entries F) ->
  exists k', drain (S (length (a_entries F))) w fd b nbytes k =
      Some (a_name <$> drop (Z.to_nat (read_index k)) (a_entries F), k') /\
    read_index k' = len (a_entries F) /\
    forall q, q <> cur_pid k -> get_pcb q k' = get_pcb q k.
Proof.
  intros HR Hne Hfds He Hfd Hfl Ht Hb Hi.
  destruct (drain_dir w F fd nbytes (S (length (a_entries F))) k l e b) as (k' & p & E & _ & Ek & Hq);
    try done; [lia|].
  exists k'. split; [done|]. by rewrite Ek.
Qed.

(** The directory is open on descriptor 2. *)
Definition sample_user_dir : kernel :=
  sample_user <| pcbs :=
    [mkPcb (<[2%nat := mkFd dir_opt 0 0 1]> sample_fds) (-1) 0 0 0 0 0 (replicate 128 0)] |>.

Lemma directory_listing_witness :
  exists k', drain 7 no_world 2 (replicate 33 0) 32 sample_user_dir = Some (a_name <$> a_entries sample_fs, k') /\
    read_index k' = 6.
Proof.
  destruct (directory_listing no_world sample_user_dir sample_fs
    (<[2%nat := mkFd dir_opt 0 0 1]> sample_fds) 2 (mkFd dir_opt 0 0 1) (replicate 33 0) 32)
    as (k' & E' & Ex & _).
  - exact sample_represents.
  - repeat constructor; discriminate.
  - reflexivity.
  - reflexivity.
  - unfold NUM_MAX_FILES. lia.
  - discriminate.
  - reflexivity.
  - cbn. lia.
  - cbn. lia.
  - exists k'. exact (conj E' Ex).
Defined.

(** Descriptors that are not open are refused by every call, with -1 and
    nothing changed: a negative one, one above the table and one whose entry is
    free; [sys_close] refuses 0 and 1 too.  The number 8, just past the table,
    passes the check of [sys_read] and [sys_write]: unless the word [cur_ebp]
    behind the table is 0 the kernel faults on it. *)
Theorem closed_descriptors_refused w k b fd buf nbytes :
  get_pcb (cur_pid k) k = Some b -> len (file_descriptor_table b) = NUM_MAX_FILES ->
  (bad_fd (file_descriptor_table b) fd ->
     sys_read w fd buf nbytes k = Some (-1, buf, k) /\ sys_write fd buf nbytes k = Some (-1, k) /\
     sys_close fd k = Some (-1, k)) /\
  (fd = 0 \/ fd = 1 -> sys_close fd k = Some (-1, k)) /\
  (fd = NUM_MAX_FILES -> sys_close fd k = Some (-1, k) /\
     if cur_ebp b =? 0 then sys_read w fd buf nbytes k = Some (-1, buf, k) /\
                            sys_write fd buf nbytes k = Some (-1, k)
     else sys_read w fd buf nbytes k = None /\ sys_write fd buf nbytes k = None).
Proof.
  intros Eb Hl. split; [by apply bad_fd_refused|]. split; [intros [-> | ->]; done|].
  intros ->. split; [done|]. unfold sys_read, sys_write, fd_of, NUM_MAX_FILES. rewrite Eb. cbn.
  by destruct (cur_ebp b =? 0).
Qed.

Lemma closed_descriptors_refused_witness :
  sys_read no_world 5 (Some [1; 2]) 2 sample_user = Some (-1, Some [1; 2], sample_user) /\
  sys_close 1 sample_user = Some (-1, sample_user).
Proof.
  destruct (cur_fds_pcb sample_user sample_fds eq_refl) as (b & Eb & El).
  destruct (closed_descriptors_refused no_world sample_user b 5 (Some [1; 2]) 2 Eb) as (H & _);
    [by rewrite El|].
  destruct (closed_descriptors_refused no_world sample_user b 1 (Some [1; 2]) 2 Eb) as (_ & H' & _);
    [by rewrite El|].
  split; [|apply H'; by right]. apply H. right. right. rewrite El. exists closed_fd. by split.
Defined.

(** [sys_getargs] gives the program its argument string or refuses: it
    returns -1 and writes nothing when there is no argument or when the buffer
    does not hold the string and its NUL, and else it returns 0 with exactly the
    string and its NUL in front of the buffer's old bytes. *)
Theorem sys_getargs_correct k b arg buf nbytes :
  get_pcb (cur_pid k) k = Some b -> cstring (cmd_args b) 0 arg -> nbytes <= len buf ->
  sys_getargs buf nbytes k =
    if decide (arg <> [] /\ len arg < nbytes)
    then Some (0, splice buf 0 (arg ++ [0]), k) else Some (-1, buf, k).
Proof. apply sys_getargs_eq. Qed.

Lemma sys_getargs_correct_witness :
  sys_getargs (replicate 10 9) 10 sample_user =
    Some (0, [102; 114; 97; 109; 101; 48; 0; 9; 9; 9], sample_user) /\
  sys_getargs (replicate 6 9) 6 sample_user = Some (-1, replicate 6 9, sample_user).
Proof.
  split; refine (sys_getargs_correct sample_user _ [102; 114; 97; 109; 101; 48] _ _ eq_refl _ _);
    try (apply (cstring_intro [102; 114; 97; 109; 101; 48] [0]); repeat constructor); cbn; lia.
Defined.
