(* ===== verification/Process.v ===== *)
(** Processes: [sys_execute], [sys_halt] and [halt_helper] of
    [src/code/system_call.c] and [handle_exception] of [src/code/idt.c].

    Control leaves these functions in three ways, the [outcome]s: they return a
    value, they [iret] to a user program, or they return from an older frame of
    [sys_execute], the one whose [ebp] the halting process's block holds. *)
From stdpp Require Import base option list numbers.
From Stdlib Require Import ZArith Lia.
From S2P Require Import Prelude LibString FileSystem Console Keyboard Paging Rtc State Terminal Desks FileOps SysCall Idt.

Definition ELF_SIZE : Z := 4.
Definition ELF0 : Z := 0x7F.
Definition ELF1 : Z := 0x45.
Definition ELF2 : Z := 0x4C.
Definition ELF3 : Z := 0x46.
Definition FUNNY_NUMBER : Z := 69.
Definition OFFSET_24 : Z := 24.
Definition EXCEPTION_HALT : Z := 256.

Inductive outcome :=
| Returned (v : Z)
| ToUser (eip esp : Z)
| ResumeAt (frame_ebp eax : Z).

(** What a call of [sys_execute] finds on the stack: its uninitialised arrays and
    structure, and the values of %esp and %ebp. *)
Record frame := mkFrame {
  st_f_cmd : list Z;      (* FILE_STR_LEN + 1 bytes *)
  st_cmd_args : list Z;   (* CMD_LINE_LEN bytes *)
  st_elf : list Z;        (* ELF_SIZE bytes *)
  st_dentry : dentry_t;
  st_esp : Z;
  st_ebp : Z;
}.

(** ** The command line *)

Definition skip_spaces (command : list Z) : option Z :=
  iterate (S (length command))
    (fun f_idx => c ← command.[f_idx];
       Some (if (c =? 32) && negb (c =? 0) then Next (f_idx + 1) else Done f_idx)) 0.

(** The copy loops: at most [max] characters, up to the end of the command or to
    a character that [stop]s; the number copied, the position and the buffer. *)
Definition copy_word (stop : Z -> bool) (max command_len : Z) (command : list Z) (f_idx : Z) (buf : list Z)
    : option (Z * Z * list Z) :=
  iterate (S (Z.to_nat max))
    (fun '(i, f_idx, buf) =>
       if (i <? max) && (f_idx <? command_len) then
         c ← command.[f_idx];
         if stop c then Some (Done (i, f_idx, buf))
         else buf ← buf.[i := c]; Some (Next (i + 1, f_idx + 1, buf))
       else Some (Done (i, f_idx, buf))) (0, f_idx, buf).

(** The file name and the arguments, each in its buffer. *)
Definition parse_command (command f_cmd cmd_args : list Z) : option (list Z * list Z) :=
  command_len ← strlen command 0;
  f_idx ← skip_spaces command;
  '(i, f_idx, f_cmd) ← copy_word (fun c => (c =? 32) || (c =? 10) || (c =? 0)) FILE_STR_LEN command_len
                         command f_idx f_cmd;
  f_cmd ← f_cmd.[i := 0];
  '(i, _, cmd_args) ← copy_word (fun c => c =? 0) CMD_LINE_LEN command_len command (f_idx + 1) cmd_args;
  cmd_args ← cmd_args.[i := 0];
  Some (f_cmd, cmd_args).

(** ** Starting a program *)

(** The first free process number, or MAX_PID. *)
Definition find_pid (pids : list Z) : option Z :=
  iterate 7 (fun i =>
    if i <? MAX_PID then p ← pids.[i]; Some (if p =? 0 then Done i else Next (i + 1))
    else Some (Done i)) 0.

(** The allocation: whether it succeeded, and the state. *)
Definition alloc_pid (k : kernel) : option (bool * kernel) :=
  i ← find_pid (pid_array k);
  let k := k <| prev_pid := cur_pid k |> in
  k ← (if i <? MAX_PID then l ← (pid_array k).[i := 1]; Some (k <| cur_pid := i |> <| pid_array := l |>)
       else Some k);
  let k := if cur_pid k <=? 2 then k <| prev_pid := -1 |> else k in
  Some (negb (i =? MAX_PID), k).

Definition is_elf (elf : list Z) : option bool :=
  b0 ← elf.[0]; b1 ← elf.[1]; b2 ← elf.[2]; b3 ← elf.[3];
  Some ((b0 =? ELF0) && (b1 =? ELF1) && (b2 =? ELF2) && (b3 =? ELF3)).

(** The program page of the process, and the image read into it. *)
Definition load_program (inode : Z) (k : kernel) : option kernel :=
  let pid := cur_pid k in
  k ← on_pag (map_program pid) k;
  k ← on_pag present_user_video k;
  nbytes ← ld32 (k_img k) (inode_addr inode);
  mem ← (prog_mem k).[pid];
  '(_, mem) ← read_data (k_img k) inode 0 mem nbytes;
  m ← (prog_mem k).[pid := mem];
  Some (k <| prog_mem := m |>).

(** One round of the loop that fills the descriptor table. *)
Definition init_fd (i : Z) : fd_t :=
  if i =? 0 then mkFd stdin_opt 0 0 1
  else if i =? 1 then mkFd stdout_opt 0 0 1
  else mkFd null_opt (u32 (-1)) (u32 (-1)) 0.

Definition top_of_stack (pid : Z) : Z := u32 (CONST_8MB - pid * CONST_8KB - 4).

Definition init_pcb (args : list Z) (st : frame) (k : kernel) : option kernel :=
  let pid := cur_pid k in
  b ← get_pcb pid k;
  fds ← for_range 0 NUM_MAX_FILES (fun i l => l.[i := init_fd i]) (file_descriptor_table b);
  n ← strlen args 0;
  a ← for_range 0 n (fun i l => c ← args.[i]; l.[i := c]) (cmd_args b);
  a ← a.[n := 0];
  upd_pcb pid (fun b => mkPcb fds (prev_pid k) (st_ebp st) (st_esp st) (top_of_stack pid)
    (top_of_stack pid) (eflag b) a) k.

Definition sys_execute (command : list Z) (st : frame) (k : kernel) : option (outcome * kernel) :=
  let k := cli k in
  '(f_cmd, args) ← parse_command command (st_f_cmd st) (st_cmd_args st);
  let active_term := ta (k_con k) in
  '(r, d) ← read_dentry_by_name (k_img k) f_cmd (st_dentry st);
  if r =? -1 then Some (Returned (-1), k)
  else
    '(n, elf) ← read_data (k_img k) (inode_num d) 0 (st_elf st) ELF_SIZE;
    if negb (n =? ELF_SIZE) then Some (Returned (-1), k)
    else
      ok ← is_elf elf;
      if negb (ok : bool) then Some (Returned (-1), k)
      else
        '(found, k) ← alloc_pid k;
        if negb (found : bool) then Some (Returned FUNNY_NUMBER, k)
        else
          k ← load_program (inode_num d) k;
          k ← init_pcb args st k;
          k ← on_con (fun c => upd_term c active_term (fun T => T <| active_pid := cur_pid k |>)) k;
          let k := k <| tss_esp0 := top_of_stack (cur_pid k) |> in
          mem ← (prog_mem k).[cur_pid k];
          user_eip ← ld32 mem OFFSET_24;
          let user_esp := PROGRAM_VIR_ADDR + CONST_4MB - 4 in
          Some (ToUser user_eip user_esp, sti k).

(** ** Ending a program *)

Definition shell_name : list Z := [115; 104; 101; 108; 108; 0].

(** The loop over the descriptors from MIN_FD_INDEX on. *)
Definition close_all (k : kernel) : option kernel :=
  for_range MIN_FD_INDEX NUM_MAX_FILES (fun i k => '(_, k) ← sys_close i k; Some k) k.

(** terminals[t].active_pid = pid, and the terminal's stored line cleared. *)
Definition leave_terminal (t pid : Z) (k : kernel) : option kernel :=
  k ← on_con (fun c => upd_term c t (fun T => T <| active_pid := pid |>)) k;
  on_con (fun c =>
    T ← (terminals c).[t];
    buf ← for_range 0 FILE_STR_LEN (fun i l => l.[i := 0]) (terminal_buf T);
    upd_term c t (fun T => T <| terminal_buf := buf |>)) k.

(** [st] is the frame of the shell that a base shell's end starts. *)
Definition halt_helper (status : Z) (st : frame) (k : kernel) : option (outcome * kernel) :=
  let k := cli k in
  let active_term := ta (k_con k) in
  let pid := cur_pid k in
  l ← (pid_array k).[pid := 0];
  let k := k <| pid_array := l |> in
  b ← get_pcb pid k;
  if parent_pid b =? -1 then
    let k := k <| cur_pid := -1 |> <| prev_pid := -1 |> in
    '(o, k) ← sys_execute shell_name st k;
    Some (match o with Returned _ => Returned (-1) | _ => o end, k)
  else
    parent_pcb ← get_pcb (parent_pid b) k;
    let k := k <| prev_pid := parent_pid parent_pcb |> in
    k ← on_pag (map_program (parent_pid b)) k;
    k ← upd_fd pid 0 (fun _ => mkFd NULL_table 0 0 0) k;
    k ← upd_fd pid 1 (fun _ => mkFd NULL_table 0 0 0) k;
    k ← close_all k;
    let k := k <| cur_pid := parent_pid b |> in
    k ← leave_terminal active_term (cur_pid k) k;
    k ← (if ts (k_con k) =? active_term
         then '(_, k) ← on_kbd clear_keyboard_buf_caller k; Some k else Some k);
    let k := k <| tss_esp0 := top_of_stack (cur_pid k) |> in
    Some (ResumeAt (ebp b) status, sti k).

Definition sys_halt (status : Z) (st : frame) (k : kernel) : option (outcome * kernel) :=
  '(o, k) ← halt_helper (u8 status) st k;
  Some (match o with Returned _ => Returned 0 | _ => o end, k).

(** [junk] is what [printf] finds in its local buffer. *)
Definition handle_exception (junk : list Z) (id err_code : Z) (st : frame) (k : kernel)
    : option (outcome * kernel) :=
  k ← on_con (exception_banner junk id err_code) (cli k);
  halt_helper EXCEPTION_HALT st k.

Definition get_cur_pid (k : kernel) : Z := cur_pid k.
Definition set_cur_pid (pid : Z) (k : kernel) : kernel := k <| cur_pid := pid |>.
Definition set_prev_pid (pid : Z) (k : kernel) : kernel := k <| prev_pid := pid |>.

(** ** The command line, as strings *)

Fixpoint until (stop : Z -> bool) (l : list Z) : list Z :=
  match l with [] => [] | c :: l => if stop c then [] else c :: until stop l end.

Fixpoint drop_spaces (l : list Z) : list Z :=
  match l with c :: l' => if c =? 32 then drop_spaces l' else l | [] => [] end.

Definition is_sep (c : Z) : bool := (c =? 32) || (c =? 10) || (c =? 0).

(** The program's name: what is in front of the first blank or newline, cut after
    128 characters; the arguments: what is behind that character. *)
Definition command_name (s : list Z) : list Z :=
  take (Z.to_nat FILE_STR_LEN) (until is_sep (drop_spaces s)).
Definition command_args (s : list Z) : list Z :=
  drop (length (command_name s) + 1) (drop_spaces s).

Lemma until_prefix stop l i : 0 <= i < len (until stop l) ->
  exists c, l.[i] = Some c /\ (until stop l).[i] = Some c /\ stop c = false.
Proof.
  revert i. induction l as [|c l IH]; intros i Hi; cbn [until length] in Hi |- *; [cbn in Hi; lia|].
  destruct (stop c) eqn:Ec; cbn [length] in Hi; [lia|]. rewrite !aget_cons.
  destruct (Z.eqb_spec i 0); [by exists c|]. apply IH. lia.
Qed.

Lemma until_end stop l c : l.[len (until stop l)] = Some c -> stop c = true.
Proof.
  induction l as [|d l IH]; [done|]. cbn [until]. destruct (stop d) eqn:Ed; cbn [length].
  - rewrite aget_cons. cbn. intros [= <-]. done.
  - rewrite aget_cons. rewrite (proj2 (Z.eqb_neq _ 0)) by lia.
    replace (Z.of_nat (S (length (until stop l))) - 1) with (len (until stop l)) by lia. exact IH.
Qed.

Lemma until_length stop l : len (until stop l) <= len l.
Proof. induction l as [|c l IH]; cbn; [lia|]. destruct (stop c); cbn; lia. Qed.

Lemma drop_spaces_drop l : exists n, drop_spaces l = drop n l /\ (n <= length l)%nat /\
  (forall i, 0 <= i < Z.of_nat n -> l.[i] = Some 32) /\
  (forall c, l.[Z.of_nat n] = Some c -> c <> 32).
Proof.
  induction l as [|c l (n & E & Hn & Hsp & Hns)].
  - exists 0%nat. split_and!; try done; lia.
  - cbn [drop_spaces]. destruct (Z.eqb_spec c 32) as [->|Hc].
    + exists (S n). split; [done|]. cbn [length]. split; [lia|]. split.
      * intros i Hi. rewrite aget_cons. destruct (Z.eqb_spec i 0); [done|]. apply Hsp. lia.
      * intros c. rewrite aget_cons, (proj2 (Z.eqb_neq _ 0)) by lia.
        replace (Z.of_nat (S n) - 1) with (Z.of_nat n) by lia. apply Hns.
    + exists 0%nat. split_and!; try done; [cbn; lia|lia|]. intros d. rewrite aget_cons. cbn. by intros [= <-].
Qed.

Section command.
Context (command s : list Z) (Hs : cstring command 0 s).

Lemma command_get i : 0 <= i <= len s ->
  command.[i] = if i <? len s then s.[i] else Some 0.
Proof.
  intros Hi. destruct Hs as (_ & _ & Hz & Hc). destruct (Z.ltb_spec i (len s)).
  - rewrite <- Hc by lia. by rewrite Z.add_0_l.
  - rewrite <- Hz. f_equal. lia.
Qed.

Lemma command_char i c : s.[i] = Some c -> 0 < c < 256.
Proof. intros H. destruct Hs as (_ & Hch & _). exact (aget_Forall _ _ _ _ Hch H). Qed.

Lemma skip_spaces_spec n :
  (n <= length s)%nat -> (forall i, 0 <= i < Z.of_nat n -> s.[i] = Some 32) ->
  (forall c, s.[Z.of_nat n] = Some c -> c <> 32) ->
  skip_spaces command = Some (Z.of_nat n).
Proof.
  intros Hn Hsp Hns. pose proof (cstring_length _ _ _ Hs) as Hl.
  destruct (iterate_ind (fun i => 0 <= i <= Z.of_nat n) (fun r => r = Z.of_nat n)
    (fun i => Z.to_nat (Z.of_nat n - i))
    (fun f_idx => c ← command.[f_idx];
       Some (if (c =? 32) && negb (c =? 0) then Next (f_idx + 1) else Done f_idx))
    (S (length command))) with (s := 0) as (r & E & ->); [|lia|lia|exact E].
  intros i Hi. rewrite command_get by lia.
  destruct (Z.eq_dec i (Z.of_nat n)) as [->|Hne].
  - destruct (Z.ltb_spec (Z.of_nat n) (len s)) as [Hlt|Hge].
    + destruct (aget_is_Some s (Z.of_nat n)) as [c Ec]; [lia|]. rewrite Ec. cbn [mbind option_bind].
      rewrite (proj2 (Z.eqb_neq c 32)) by (by apply Hns). by eexists.
    + by eexists.
  - rewrite (proj2 (Z.ltb_lt i (len s))), Hsp by lia. cbn. eexists; split; [done|]. cbn. lia.
Qed.

(** A copy loop copies what is in front of the first stop. *)
Lemma copy_word_spec stop max f0 buf :
  0 <= f0 -> 0 <= max ->
  let u := take (Z.to_nat max) (until stop (drop (Z.to_nat f0) s)) in
  len u <= len buf ->
  copy_word stop max (len s) command f0 buf = Some (len u, f0 + len u, splice buf 0 u).
Proof.
  intros Hf Hmax u Hu. set (v := until stop (drop (Z.to_nat f0) s)) in *.
  assert (len u = Z.min max (len v)) as Elen by (unfold u; rewrite length_take; lia).
  pose proof (until_length stop (drop (Z.to_nat f0) s)) as Hv. fold v in Hv. rewrite length_drop in Hv.
  destruct (iterate_ind
    (fun '(i, f, b) => 0 <= i <= len u /\ f = f0 + i /\ b = splice buf 0 (take (Z.to_nat i) u))
    (fun r => r = (len u, f0 + len u, splice buf 0 u))
    (fun '(i, _, _) => Z.to_nat (max - i))
    (fun '(i, f_idx, buf) =>
       if (i <? max) && (f_idx <? len s) then
         c ← command.[f_idx];
         if stop c then Some (Done (i, f_idx, buf))
         else buf ← buf.[i := c]; Some (Next (i + 1, f_idx + 1, buf))
       else Some (Done (i, f_idx, buf))) (S (Z.to_nat max))) with (s := (0, f0, buf)) as (r & E & ->);
    [|split_and!; [lia|lia|lia|symmetry; apply splice_nil]|lia|exact E].
  intros [ [i f] b] (Hi & -> & ->).
  assert (i = len u -> (i, f0 + i, splice buf 0 (take (Z.to_nat i) u)) = (len u, f0 + len u, splice buf 0 u))
    as Hend by (intros ->; by rewrite (take_ge u) by lia).
  destruct (Z.eq_dec i (len u)) as [Ei|Hne].
  - destruct (Z.ltb_spec i max) as [Hlt|]; cbn [andb]; [|exact (ex_intro _ _ (conj eq_refl (Hend Ei)))].
    destruct (Z.ltb_spec (f0 + i) (len s)) as [Hlt'|]; [|exact (ex_intro _ _ (conj eq_refl (Hend Ei)))].
    rewrite command_get, (proj2 (Z.ltb_lt _ (len s))) by lia.
    destruct (aget_is_Some s (f0 + i)) as [c Ec]; [lia|]. rewrite Ec. cbn [mbind option_bind].
    assert (stop c = true) as ->; [|exact (ex_intro _ _ (conj eq_refl (Hend Ei)))].
    apply (until_end stop (drop (Z.to_nat f0) s)). fold v. rewrite aget_drop by lia.
    rewrite <- Ec. f_equal. lia.
  - destruct (until_prefix stop (drop (Z.to_nat f0) s) i) as (c & Ec & Ev & Hst); [fold v; lia|].
    fold v in Ev. rewrite aget_drop in Ec by lia. replace (Z.of_nat (Z.to_nat f0) + i) with (f0 + i) in Ec by lia.
    pose proof (aget_range _ _ _ Ec) as Hr.
    replace ((i <? max) && (f0 + i <? len s)) with true by lia.
    rewrite command_get, (proj2 (Z.ltb_lt _ (len s))), Ec by lia. cbn [mbind option_bind]. rewrite Hst.
    assert (len (take (Z.to_nat i) u) = i) as Hlen by (rewrite length_take; lia).
    rewrite aset_Some by (rewrite length_splice; lia). cbn [mbind option_bind].
    eexists; split; [done|]. cbn. split; [|lia]. split_and!; [lia|lia|lia|].
    rewrite take_snoc with (c := c); [|lia|unfold u; rewrite aget_take by lia; done].
    rewrite <- (splice_app buf 0) by lia. rewrite Hlen, Z.add_0_l. symmetry. apply splice_one.
    rewrite length_splice; lia.
Qed.

Lemma until_none stop l : Forall (fun c => stop c = false) l -> until stop l = l.
Proof. induction 1 as [|c l Hc _ IH]; cbn; [done|]. by rewrite Hc, IH. Qed.

(** The parser: the name and the arguments with a NUL behind each; arguments of
    128 characters or more are written past the end of their buffer. *)
Lemma parse_command_spec f_cmd cmd_args :
  len f_cmd = FILE_STR_LEN + 1 -> len cmd_args = CMD_LINE_LEN ->
  parse_command command f_cmd cmd_args =
    if decide (len (command_args s) < CMD_LINE_LEN)
    then Some (splice f_cmd 0 (command_name s ++ [0]), splice cmd_args 0 (command_args s ++ [0]))
    else None.
Proof.
  intros Hf Ha. unfold parse_command. rewrite (strlen_cstring _ _ _ Hs). cbn [mbind option_bind].
  destruct (drop_spaces_drop s) as (n & En & Hn & Hsp & Hns).
  rewrite (skip_spaces_spec n Hn Hsp Hns). cbn [mbind option_bind].
  unfold command_args. set (w := command_name s) in *.
  assert (take (Z.to_nat FILE_STR_LEN) (until is_sep (drop (Z.to_nat (Z.of_nat n)) s)) = w) as Ew
    by (unfold w, command_name; by rewrite Nat2Z.id, En).
  assert (len w <= FILE_STR_LEN) as Hw by (rewrite <- Ew, length_take; unfold FILE_STR_LEN; lia).
  change (fun c => (c =? 32) || (c =? 10) || (c =? 0)) with is_sep.
  rewrite (copy_word_spec is_sep FILE_STR_LEN (Z.of_nat n) f_cmd), Ew
    by (rewrite ?Ew; unfold FILE_STR_LEN in *; lia).
  cbn [mbind option_bind]. rewrite end_word by lia. cbn [mbind option_bind].
  set (a := drop (length w + 1) (drop_spaces s)) in *.
  assert (until (fun c => c =? 0) (drop (Z.to_nat (Z.of_nat n + len w + 1)) s) = a) as Ea.
  { replace (Z.to_nat (Z.of_nat n + len w + 1)) with (n + (length w + 1))%nat by lia.
    rewrite <- drop_drop, <- En. apply until_none. unfold a. rewrite En, drop_drop. apply Forall_drop.
    destruct Hs as (_ & Hch & _). eapply Forall_impl; [|exact Hch]. cbn. intros c Hc. unfold is_char in Hc. lia. }
  rewrite (copy_word_spec (fun c => c =? 0) CMD_LINE_LEN (Z.of_nat n + len w + 1) cmd_args), Ea
    by (rewrite ?Ea, ?length_take; unfold CMD_LINE_LEN in *; lia).
  cbn [mbind option_bind]. unfold CMD_LINE_LEN in *. case_decide.
  - rewrite take_ge by lia. by rewrite end_word by lia.
  - rewrite aset_None; [done|]. rewrite length_splice by (rewrite ?length_take; lia).
    rewrite length_take. lia.
Qed.
End command.

(** ** Lemmas *)

Definition first_pid (pids : list Z) (i : Z) : Prop :=
  0 <= i <= MAX_PID /\ (forall j p, 0 <= j < i -> pids.[j] = Some p -> p <> 0) /\
  (i < MAX_PID -> pids.[i] = Some 0).

Lemma find_pid_spec pids : len pids = MAX_PID -> exists i, find_pid pids = Some i /\ first_pid pids i.
Proof.
  intros Hl. unfold find_pid, first_pid, MAX_PID in *.
  apply (iterate_ind
    (fun i => 0 <= i <= 6 /\ forall j p, 0 <= j < i -> pids.[j] = Some p -> p <> 0)
    (first_pid pids) (fun i => Z.to_nat (6 - i))); [|split; [lia|intros; lia]|cbn; lia].
  intros i [Hi Hj]. destruct (Z.ltb_spec i 6) as [Hlt|Hge].
  - destruct (aget_is_Some pids i) as [p Ep]; [lia|]. rewrite Ep. cbn [mbind option_bind].
    eexists; split; [done|]. destruct (Z.eqb_spec p 0) as [->|E0]; [unfold first_pid, MAX_PID; split_and!; try done; lia|].
    split; [|lia]. split; [lia|]. intros j q Hj' Eq. destruct (Z.eq_dec j i) as [->|Hne].
    + by assert (q = p) as -> by congruence.
    + apply (Hj j); [lia|done].
  - eexists; split; [done|]. unfold first_pid, MAX_PID. split_and!; try done; lia.
Qed.

(** The program a name stands for: its inode and its bytes. *)
Definition executable (F : afs) (nm : list Z) : option (Z * list Z) :=
  e ← find_entry F nm;
  c ← (a_files F).[a_inode e];
  if decide (take 4 c = [ELF0; ELF1; ELF2; ELF3]) then Some (a_inode e, c) else None.

Record frame_ok (st : frame) : Prop := {
  fr_f_cmd : len (st_f_cmd st) = FILE_STR_LEN + 1;
  fr_args : len (st_cmd_args st) = CMD_LINE_LEN;
  fr_elf : len (st_elf st) = ELF_SIZE;
}.

Lemma cstring_splice buf (u : list Z) :
  Forall is_char u -> len u < len buf -> cstring (splice buf 0 (u ++ [0])) 0 u.
Proof.
  intros Hu Hl. assert (len (u ++ [0]) = len u + 1) as E by (rewrite length_app; cbn; lia).
  split_and!; [lia|done| |].
  - rewrite aget_splice_in by lia. rewrite aget_app_r by lia.
    by replace (0 + len u - 0 - len u) with 0 by lia.
  - intros i Hi. rewrite aget_splice_in by lia. rewrite aget_app_l by lia. f_equal. lia.
Qed.

Lemma drop_spaces_chars s : Forall is_char s -> Forall is_char (drop_spaces s).
Proof. intros H. destruct (drop_spaces_drop s) as (n & -> & _). by apply Forall_drop. Qed.

Lemma until_Forall {P : Z -> Prop} stop l : Forall P l -> Forall P (until stop l).
Proof. induction 1 as [|c l Hc _ IH]; cbn; [done|]. destruct (stop c); by constructor. Qed.

Lemma command_name_chars s : Forall is_char s -> Forall is_char (command_name s).
Proof. intros H. apply Forall_take, until_Forall. by apply drop_spaces_chars. Qed.

Lemma command_args_chars s : Forall is_char s -> Forall is_char (command_args s).
Proof. intros H. by apply Forall_drop, drop_spaces_chars. Qed.

Lemma find_entry_inode img F nm e : represents img F -> find_entry F nm = Some e -> 0 <= a_inode e.
Proof.
  intros HR H. unfold find_entry in H. case_decide; [|done].
  destruct (list_find _ _) as [ [i e']|] eqn:E; [|done]. cbn in H. injection H as ->.
  apply list_find_Some in E as (Hi & _). rewrite <- aget_nat in Hi.
  destruct (rep_entry _ _ HR _ _ Hi) as (_ & _ & _ & Hin).
  destruct (ld32_range _ _ _ (rep_bytes _ _ HR) Hin) as [Hr _]. unfold is_u32 in Hr. lia.
Qed.

(** The ELF check, on the four bytes that were read. *)
Lemma is_elf_spec elf c :
  len elf = 4 -> 4 <= len c ->
  is_elf (splice elf 0 (slice c 0 4)) = Some (bool_decide (take 4 c = [ELF0; ELF1; ELF2; ELF3])).
Proof.
  intros He Hc. destruct c as [|a [|b [|x [|d c] ] ] ]; cbn in Hc; try lia.
  destruct elf as [|e0 [|e1 [|e2 [|e3 [|e4 elf] ] ] ] ]; cbn in He; try lia.
  change (slice (a :: b :: x :: d :: c) 0 4) with [a; b; x; d].
  change (splice [e0; e1; e2; e3] 0 [a; b; x; d]) with [a; b; x; d].
  change (take 4 (a :: b :: x :: d :: c)) with [a; b; x; d].
  unfold is_elf. change ([a; b; x; d].[0]) with (Some a). change ([a; b; x; d].[1]) with (Some b).
  change ([a; b; x; d].[2]) with (Some x). change ([a; b; x; d].[3]) with (Some d).
  cbn [mbind option_bind]. f_equal.
  destruct (Z.eqb_spec a ELF0) as [->|Ha]; [|symmetry; apply bool_decide_eq_false_2; congruence].
  destruct (Z.eqb_spec b ELF1) as [->|Hb]; [|symmetry; apply bool_decide_eq_false_2; congruence].
  destruct (Z.eqb_spec x ELF2) as [->|Hx]; [|symmetry; apply bool_decide_eq_false_2; congruence].
  destruct (Z.eqb_spec d ELF3) as [->|Hd]; [|symmetry; apply bool_decide_eq_false_2; congruence].
  symmetry. by apply bool_decide_eq_true_2.
Qed.

(** The part of [sys_execute] behind the checks. *)
Definition start (ino : Z) (args : list Z) (st : frame) (k : kernel) : option (outcome * kernel) :=
  let active_term := ta (k_con k) in
  '(found, k) ← alloc_pid k;
  if negb (found : bool) then Some (Returned FUNNY_NUMBER, k)
  else
    k ← load_program ino k;
    k ← init_pcb args st k;
    k ← on_con (fun c => upd_term c active_term (fun T => T <| active_pid := cur_pid k |>)) k;
    let k := k <| tss_esp0 := top_of_stack (cur_pid k) |> in
    mem ← (prog_mem k).[cur_pid k];
    user_eip ← ld32 mem OFFSET_24;
    let user_esp := PROGRAM_VIR_ADDR + CONST_4MB - 4 in
    Some (ToUser user_eip user_esp, sti k).

Lemma sys_execute_checked k F command s st :
  represents (k_img k) F -> cstring command 0 s -> frame_ok st ->
  len (command_args s) < CMD_LINE_LEN ->
  sys_execute command st k =
    match executable F (command_name s) with
    | None => Some (Returned (-1), cli k)
    | Some (ino, c) => start ino (splice (st_cmd_args st) 0 (command_args s ++ [0])) st (cli k)
    end.
Proof.
  intros HR Hs [Hf Ha He] Hargs. unfold sys_execute.
  rewrite (parse_command_spec command s Hs) by done. rewrite decide_True by done. cbn [mbind option_bind].
  change (k_img (cli k)) with (k_img k). destruct Hs as (_ & Hch & _).
  assert (len (command_name s) <= FILE_STR_LEN) as Hw
    by (unfold command_name, FILE_STR_LEN; rewrite length_take; lia).
  assert (cstring (splice (st_f_cmd st) 0 (command_name s ++ [0])) 0 (command_name s)) as Hnm
    by (apply cstring_splice; [by apply command_name_chars|lia]).
  pose proof (read_dentry_by_name_find _ _ _ _ (st_dentry st) HR Hnm) as Hfind. unfold executable.
  destruct (find_entry F (command_name s)) as [e|] eqn:Ee; [|by rewrite Hfind].
  destruct Hfind as (d & -> & _ & Ei). cbn [mbind option_bind Z.eqb]. rewrite Ei.
  pose proof (find_entry_inode _ _ _ _ HR Ee) as Hino. unfold ELF_SIZE in *.
  destruct ((a_files F).[a_inode e]) as [c|] eqn:Ec; cbn [mbind option_bind].
  - rewrite (read_data_file _ F HR _ c) by (done || lia). rewrite (proj2 (Z.ltb_ge (len c) 0)) by lia.
    cbv zeta. cbn [mbind option_bind]. rewrite Z.sub_0_r.
    destruct (Z.eqb_spec (Z.min 4 (len c)) 4) as [E4|E4]; cbn [negb].
    + rewrite E4, is_elf_spec by lia. cbn [mbind option_bind].
      case_decide as Hm; [rewrite bool_decide_eq_true_2 by done|rewrite bool_decide_eq_false_2 by done]; done.
    + rewrite decide_False; [done|]. intros Hm. apply (f_equal length) in Hm. rewrite length_take in Hm.
      cbn [length] in Hm. lia.
  - rewrite (read_data_no_inode _ F HR); [done|].
    destruct (Z_le_gt_dec (len (a_files F)) (a_inode e)) as [|Hlt]; [done|].
    destruct (aget_is_Some (a_files F) (a_inode e)) as [? E']; [lia|congruence].
Qed.

(** The shape of the process tables. *)
Record wf_procs (k : kernel) : Prop := {
  wp_pids : len (pid_array k) = MAX_PID;
  wp_pcbs : len (pcbs k) = MAX_PID;
  wp_mem : len (prog_mem k) = MAX_PID;
  wp_pcb : Forall (fun b => len (file_descriptor_table b) = NUM_MAX_FILES /\
                            len (cmd_args b) = CMD_LINE_LEN) (pcbs k);
  wp_ta : 0 <= ta (k_con k) < NUM_TERMS;
  wp_terms : len (terminals (k_con k)) = NUM_TERMS;
}.

(** The state after a process number is taken. *)
Definition with_pid (i : Z) (k : kernel) : kernel :=
  k <| prev_pid := if i <=? 2 then -1 else cur_pid k |>
    <| cur_pid := i |> <| pid_array := <[Z.to_nat i := 1]> (pid_array k) |>.

Lemma alloc_pid_free k i :
  len (pid_array k) = MAX_PID -> first_pid (pid_array k) i -> i < MAX_PID ->
  alloc_pid k = Some (true, with_pid i k).
Proof.
  intros Hl Hi Hlt. unfold alloc_pid.
  destruct (find_pid_spec _ Hl) as (j & -> & Hj). cbn [mbind option_bind].
  assert (j = i) as ->.
  { destruct Hi as (Hi & Hi1 & Hi2), Hj as (Hj & Hj1 & Hj2).
    destruct (Z.lt_trichotomy i j) as [H|[H|H] ]; [|done|].
    - exfalso. by apply (Hj1 i 0); [lia|apply Hi2|].
    - exfalso. by apply (Hi1 j 0); [lia|apply Hj2; lia|]. }
  destruct Hi as (Hi & _). rewrite (proj2 (Z.ltb_lt i MAX_PID)) by lia.
  destruct k as [con kb pic pag rtc img ri pb pa cp pp pm te ti td]. cbn in *.
  rewrite aset_Some by lia. cbn. rewrite (proj2 (Z.eqb_neq i MAX_PID)) by lia.
  unfold with_pid. cbn. by destruct (i <=? 2).
Qed.

Lemma alloc_pid_full k :
  len (pid_array k) = MAX_PID -> first_pid (pid_array k) MAX_PID ->
  alloc_pid k = Some (false, k <| prev_pid := if cur_pid k <=? 2 then -1 else cur_pid k |>).
Proof.
  intros Hl Hi. unfold alloc_pid.
  destruct (find_pid_spec _ Hl) as (j & -> & Hj). cbn [mbind option_bind].
  assert (j = MAX_PID) as ->.
  { destruct Hi as (_ & Hi1 & _), Hj as (Hj & _ & Hj2).
    destruct (Z.eq_dec j MAX_PID) as [|Hne]; [done|]. exfalso.
    by apply (Hi1 j 0); [lia|apply Hj2; lia|]. }
  rewrite (proj2 (Z.ltb_ge MAX_PID MAX_PID)) by lia.
  destruct k as [con kb pic pag rtc img ri pb pa cp pp pm te ti td]. cbn.
  by destruct (cp <=? 2).
Qed.

Definition init_fds : list fd_t := init_fd <$> [0; 1; 2; 3; 4; 5; 6; 7].

Lemma init_fds_loop l : len l = NUM_MAX_FILES ->
  for_range 0 NUM_MAX_FILES (fun i l => l.[i := init_fd i]) l = Some init_fds.
Proof.
  unfold NUM_MAX_FILES. intros Hl.
  destruct (for_range_fill init_fd l 0 8) as (l' & -> & Hl' & H); [lia|lia|]. f_equal.
  apply aget_ext; [rewrite Hl'; cbn; lia|]. intros i Hi. rewrite H.
  replace ((0 <=? i) && (i <? 8)) with true by lia.
  assert (i = 0 \/ i = 1 \/ i = 2 \/ i = 3 \/ i = 4 \/ i = 5 \/ i = 6 \/ i = 7)
    as [-> | [-> | [-> | [-> | [-> | [-> | [-> | ->] ] ] ] ] ] ] by lia; reflexivity.
Qed.

(** The control block of a new process. *)
Definition new_pcb (b : pcb_t) (parent pid : Z) (st : frame) (arg : list Z) : pcb_t :=
  mkPcb init_fds parent (st_ebp st) (st_esp st) (top_of_stack pid) (top_of_stack pid) (eflag b)
    (splice (cmd_args b) 0 (arg ++ [0])).

Lemma init_pcb_eq k args arg st b :
  get_pcb (cur_pid k) k = Some b -> len (file_descriptor_table b) = NUM_MAX_FILES ->
  cstring args 0 arg -> len arg < len (cmd_args b) ->
  init_pcb args st k = Some (k <| pcbs := <[Z.to_nat (cur_pid k) :=
    new_pcb b (prev_pid k) (cur_pid k) st arg]> (pcbs k) |>).
Proof.
  intros Eb Hl Ha Hal. unfold init_pcb. rewrite Eb. cbn [mbind option_bind].
  rewrite init_fds_loop by done. cbn [mbind option_bind].
  rewrite (strlen_cstring _ _ _ Ha). cbn [mbind option_bind].
  pose proof (copy_string args (cmd_args b) arg Ha Hal) as Hcopy.
  destruct (for_range 0 (len arg) _ (cmd_args b)) as [l|]; [|done]. cbn [mbind option_bind] in *.
  rewrite Hcopy. cbn [mbind option_bind]. unfold upd_pcb, get_pcb in *. rewrite Eb. cbn [mbind option_bind].
  by rewrite aset_Some by (by eapply aget_range).
Qed.

Section load.
Context (pt_addr pt_user_addr : Z).

Lemma load_program_eq k F ino c m v :
  represents (k_img k) F -> (a_files F).[ino] = Some c ->
  (prog_mem k).[cur_pid k] = Some m -> len c <= len m ->
  paging_ok pt_addr pt_user_addr (k_pag k) v -> 0 <= cur_pid k < 1022 ->
  exists P', load_program ino k =
      Some (k <| k_pag := P' |> <| prog_mem := <[Z.to_nat (cur_pid k) := splice m 0 c]> (prog_mem k) |>) /\
    paging_ok pt_addr pt_user_addr P' ((cur_pid k + 2) * PAGE_4MB, v.2).
Proof.
  intros HR Hc Hm Hl HP Hpid. unfold load_program.
  destruct (run_page_op_ok pt_addr pt_user_addr (Program (cur_pid k)) _ _ Hpid HP) as (P1 & E1 & HP1).
  destruct (run_page_op_ok pt_addr pt_user_addr PresentVideo _ _ I HP1) as (P2 & E2 & HP2).
  cbn [run_page_op page_view fst snd] in *. exists P2. split; [|done].
  unfold on_pag. rewrite E1. cbn [mbind option_bind].
  destruct k as [con kb pic pag rtc img ri pb pa cp pp pm te ti td]. cbn in *.
  rewrite E2. cbn -[read_data ld32].
  destruct (inode_addr_file img F HR ino c Hc) as [_ Hw]. rewrite Hw. cbn -[read_data].
  rewrite Hm. cbn -[read_data]. rewrite (read_data_file img F HR ino c) by (done || lia).
  rewrite (proj2 (Z.ltb_ge (len c) 0)) by lia. cbv zeta. cbn [mbind option_bind].
  assert (slice c 0 (Z.min (len c) (len c - 0)) = c) as ->.
  { rewrite Z.sub_0_r, Z.min_id. unfold slice. cbn. by rewrite drop_0, Nat2Z.id, take_ge. }
  by rewrite aset_Some by (by eapply aget_range).
Qed.
End load.

(** What a started program finds: process [i] of terminal [t] with image [c] and
    argument [arg], started from the state [k]. *)
Record started (pt_addr pt_user_addr : Z) (k k' : kernel) (st : frame) (i : Z) (c arg : list Z)
    (vid : Z) : Prop := {
  sd_cur : cur_pid k' = i;
  sd_prev : prev_pid k' = if i <=? 2 then -1 else cur_pid k;
  sd_pids : pid_array k' = <[Z.to_nat i := 1]> (pid_array k);
  sd_paging : paging_ok pt_addr pt_user_addr (k_pag k') ((i + 2) * PAGE_4MB, vid);
  sd_image : exists m, (prog_mem k).[i] = Some m /\ (prog_mem k').[i] = Some (splice m 0 c);
  sd_pcb : exists b, get_pcb i k = Some b /\
    get_pcb i k' = Some (new_pcb b (if i <=? 2 then -1 else cur_pid k) i st arg);
  sd_others : forall j, j <> i -> get_pcb j k' = get_pcb j k /\ (prog_mem k').[j] = (prog_mem k).[j];
  sd_term : exists T, (terminals (k_con k)).[ta (k_con k)] = Some T /\
    terminals (k_con k') = <[Z.to_nat (ta (k_con k)) := T <| active_pid := i |>]> (terminals (k_con k));
  sd_esp0 : tss_esp0 k' = top_of_stack i;
  sd_intr : intr (k_con k') = true;
  sd_rest : k_kbd k' = k_kbd k /\ k_pic k' = k_pic k /\ k_rtc k' = k_rtc k /\ k_img k' = k_img k /\
    read_index k' = read_index k /\ vmem (k_con k') = vmem (k_con k) /\
    video_mem (k_con k') = video_mem (k_con k) /\ ts (k_con k') = ts (k_con k) /\
    ta (k_con k') = ta (k_con k) /\ terminal_init k' = terminal_init k /\
    term_init_done k' = term_init_done k;
  sd_wf : wf_procs k';
}.

Section start.
Context (pt_addr pt_user_addr : Z).

Lemma start_ok k F ino c args arg st i m entry v :
  represents (k_img k) F -> (a_files F).[ino] = Some c -> ld32 c OFFSET_24 = Some entry ->
  cstring args 0 arg -> len arg < CMD_LINE_LEN -> wf_procs k ->
  paging_ok pt_addr pt_user_addr (k_pag k) v ->
  first_pid (pid_array k) i -> i < MAX_PID -> (prog_mem k).[i] = Some m -> len c <= len m ->
  exists k', start ino args st k = Some (ToUser entry (PROGRAM_VIR_ADDR + CONST_4MB - 4), k') /\
    started pt_addr pt_user_addr k k' st i c arg v.2.
Proof.
  intros HR Hc Hentry Ha Hal [Wp Wb Wm Wf Wta Wt] HP Hi Hlt Em Hl.
  pose proof (proj1 Hi) as Hi0. unfold start. rewrite (alloc_pid_free k i Wp Hi Hlt).
  cbn [mbind option_bind negb]. set (k1 := with_pid i k).
  destruct (load_program_eq pt_addr pt_user_addr k1 F ino c m v HR Hc Em Hl HP) as (P' & E & HP');
    [cbn; unfold MAX_PID in *; lia|].
  rewrite E. cbn [mbind option_bind]. set (k2 := _ <| prog_mem := _ |>).
  destruct (aget_is_Some (pcbs k) i) as [b Eb]; [lia|].
  destruct (aget_Forall _ _ _ _ Wf Eb) as [Hfds Hargs].
  rewrite (init_pcb_eq k2 args arg st b) by (done || (rewrite Hargs; done)). cbn [mbind option_bind].
  destruct (aget_is_Some (terminals (k_con k)) (ta (k_con k))) as [T ET]; [lia|].
  set (k3 := k2 <| pcbs := _ |>). unfold on_con at 1, upd_term.
  change (terminals (k_con k3)) with (terminals (k_con k)).
  rewrite ET. cbn [mbind option_bind]. rewrite aset_Some by (by eapply aget_range).
  cbn [mbind option_bind]. set (k4 := _ <| tss_esp0 := _ |>).
  assert ((prog_mem k4).[cur_pid k4] = Some (splice m 0 c)) as Emem.
  { apply (aget_insert_eq (prog_mem k) i). by eapply aget_range. }
  rewrite Emem. cbn [mbind option_bind].
  assert (ld32 (splice m 0 c) OFFSET_24 = Some entry) as Een.
  { revert Hentry. unfold ld32, OFFSET_24. intros H.
    assert (28 <= len c) as Hlc.
    { destruct (c.[24]), (c.[24 + 1]), (c.[24 + 2]), (c.[24 + 3]) eqn:E3; try done.
      apply aget_range in E3. lia. }
    rewrite !aget_splice_in by lia. by rewrite !Z.sub_0_r. }
  rewrite Een. cbn [mbind option_bind]. eexists; split; [done|].
  split; try done.
  - exists m. split; [done|exact Emem].
  - exists b. split; [done|]. unfold get_pcb. exact (aget_insert_eq (pcbs k) i _ (aget_range _ _ _ Eb)).
  - intros j Hj. split; [exact (aget_insert_ne (pcbs k) i j _ (proj1 Hi0) (not_eq_sym Hj))|
      exact (aget_insert_ne (prog_mem k) i j _ (proj1 Hi0) (not_eq_sym Hj))].
  - by exists T.
  - split; cbn; rewrite ?length_insert; try done. apply Forall_insert; [done|]. cbn.
    split; [done|]. rewrite length_splice; [done|lia|].
    rewrite length_app, Hargs. unfold CMD_LINE_LEN in *. cbn. lia.
Qed.
End start.

(** ** Closing everything *)

(** An open descriptor has its operations. *)
Definition fd_ok (e : fd_t) : Prop := flags e <> 0 -> file_op_table_ptr e <> NULL_table.

(** The running process's block, its clock rate and the directory position are
    all that closing descriptors changes. *)
Definition only_closes (k k' : kernel) : Prop :=
  k' = k <| pcbs := pcbs k' |> <| k_rtc := k_rtc k' |> <| read_index := read_index k' |> /\
  (forall q, q <> cur_pid k -> get_pcb q k' = get_pcb q k) /\
  (forall q, q <> cur_pid k -> (process_rtc (k_rtc k')).[q] = (process_rtc (k_rtc k)).[q]) /\
  (wf_rtc (k_rtc k) -> wf_rtc (k_rtc k')) /\ same_clock (k_rtc k) (k_rtc k') /\
  (forall b, get_pcb (cur_pid k) k = Some b -> exists b', get_pcb (cur_pid k) k' = Some b' /\
     b' = b <| file_descriptor_table := file_descriptor_table b' |>).

Lemma only_closes_refl k : only_closes k k.
Proof. split_and!; try done; [by destruct k|]. intros b Eb. exists b. split; [done|]. by destruct b. Qed.

Lemma only_closes_pid k k' : only_closes k k' -> cur_pid k' = cur_pid k.
Proof. intros (E & _). by rewrite E. Qed.

Lemma only_closes_trans k1 k2 k3 : only_closes k1 k2 -> only_closes k2 k3 -> only_closes k1 k3.
Proof.
  intros (E1 & Q1 & R1 & W1 & C1 & B1) (E2 & Q2 & R2 & W2 & C2 & B2).
  assert (cur_pid k2 = cur_pid k1) as Ep by (by rewrite E1).
  rewrite Ep in *. split_and!.
  - rewrite E2, E1. by destruct k1.
  - intros q Hq. by rewrite Q2, Q1.
  - intros q Hq. by rewrite R2, R1.
  - auto.
  - by transitivity (k_rtc k2).
  - intros b Eb. destruct (B1 b Eb) as (b1 & Eb1 & H1). destruct (B2 b1 Eb1) as (b2 & Eb2 & H2).
    exists b2. split; [done|]. rewrite H2, H1. by destruct b.
Qed.

Lemma upd_fd_block pid fd f k k' b :
  upd_fd pid fd f k = Some k' -> get_pcb pid k = Some b ->
  exists b', get_pcb pid k' = Some b' /\ b' = b <| file_descriptor_table := file_descriptor_table b' |>.
Proof.
  intros H Eb. unfold upd_fd, upd_pcb, get_pcb in *. rewrite Eb in H. cbn [mbind option_bind] in H.
  destruct ((file_descriptor_table b).[fd]); [|done]. cbn [mbind option_bind] in H.
  destruct ((file_descriptor_table b).[fd := _]) as [l|]; [|done]. cbn [mbind option_bind] in H.
  rewrite aset_Some in H by (by eapply aget_range). cbn [mbind option_bind] in H.
  injection H as <-. eexists. split; [apply aget_insert_eq; by eapply aget_range|]. by destruct b.
Qed.

Lemma fop_close_pcbs t k r k' : fop_close t k = Some (r, k') -> pcbs k' = pcbs k /\ cur_pid k' = cur_pid k.
Proof.
  destruct t; cbn [fop_close]; unfold file_close, dir_close, terminal_close, invalid_open_close, on_rtc;
    try (by intros [= <- <-]).
  intros H. destruct (rtc_close (cur_pid k) (k_rtc k)) as [ [r0 c]|]; [|done]. by injection H as <- <-.
Qed.

Lemma sys_close_block fd k r k' b :
  sys_close fd k = Some (r, k') -> get_pcb (cur_pid k) k = Some b ->
  exists b', get_pcb (cur_pid k) k' = Some b' /\
    b' = b <| file_descriptor_table := file_descriptor_table b' |>.
Proof.
  intros H Eb. unfold sys_close in H.
  assert (get_pcb (cur_pid k) k = Some b /\ b = b <| file_descriptor_table := file_descriptor_table b |>)
    as Hsame by (split; [done|by destruct b]).
  case_match; [injection H as <- <-; by exists b|]. rewrite Eb in H. cbn [mbind option_bind] in H.
  destruct (fd_of b fd) as [e|]; [|done]. cbn [mbind option_bind] in H.
  case_match; [injection H as <- <-; by exists b|].
  destruct (fop_close _ k) as [ [r0 k1]|] eqn:Ec; [|done]. cbn [mbind option_bind] in H.
  destruct (fop_close_pcbs _ _ _ _ Ec) as [Epc Ep].
  destruct (upd_fd _ fd _ k1) as [k2|] eqn:Eu; [|done]. cbn [mbind option_bind] in H.
  injection H as <- <-. eapply upd_fd_block; [exact Eu|]. unfold get_pcb in *. by rewrite Epc.
Qed.

Lemma upd_fd_rtc pid fd f k k' : upd_fd pid fd f k = Some k' -> k_rtc k' = k_rtc k.
Proof.
  unfold upd_fd, upd_pcb. intros H. destruct (get_pcb pid k) as [b|]; [|discriminate H].
  cbn [mbind option_bind] in H. destruct ((file_descriptor_table b).[fd]); [|discriminate H].
  cbn [mbind option_bind] in H. destruct ((file_descriptor_table b).[fd := _]); [|discriminate H].
  cbn [mbind option_bind] in H. destruct ((pcbs k).[pid]) as [b0|]; [|discriminate H].
  cbn [mbind option_bind] in H. destruct ((pcbs k).[pid := _]); [|discriminate H].
  by injection H as <-.
Qed.

Lemma fop_close_rates t k r k' :
  fop_close t k = Some (r, k') -> length (process_rtc (k_rtc k')) = length (process_rtc (k_rtc k)).
Proof.
  destruct t; cbn [fop_close]; unfold file_close, dir_close, terminal_close, invalid_open_close, on_rtc,
    rtc_close; try (by intros [= <- <-]).
  intros H. destruct ((process_rtc (k_rtc k)).[cur_pid k := MAX_VIR_FREQ]) as [l|] eqn:E; [|discriminate H].
  injection H as <- <-. by eapply aset_length.
Qed.

Lemma sys_close_rates fd k r k' :
  sys_close fd k = Some (r, k') ->
  length (process_rtc (k_rtc k')) = length (process_rtc (k_rtc k)).
Proof.
  unfold sys_close. intros H. case_match; [by injection H as <- <-|].
  destruct (get_pcb _ k) as [b|]; [|done]. cbn [mbind option_bind] in H.
  destruct (fd_of b fd) as [e|]; [|done]. cbn [mbind option_bind] in H.
  case_match; [by injection H as <- <-|].
  destruct (fop_close _ k) as [ [r0 k1]|] eqn:Ec; [|done]. cbn [mbind option_bind] in H.
  destruct (upd_fd _ fd _ k1) as [k2|] eqn:Eu; [|done]. cbn [mbind option_bind] in H.
  injection H as <- <-. rewrite (upd_fd_rtc _ _ _ _ _ Eu). by eapply fop_close_rates.
Qed.

Lemma fop_close_wf_rtc t k r k' :
  fop_close t k = Some (r, k') ->
  (wf_rtc (k_rtc k) -> wf_rtc (k_rtc k')) /\ same_clock (k_rtc k) (k_rtc k').
Proof.
  destruct t; cbn [fop_close]; unfold file_close, dir_close, terminal_close, invalid_open_close, on_rtc,
    rtc_close; try (by intros [= <- <-]).
  intros H. destruct ((process_rtc (k_rtc k)).[cur_pid k := MAX_VIR_FREQ]) as [l|] eqn:E; [|discriminate H].
  injection H as <- <-. split; [|done]. intros [Wl Wr Wc Ww].
  split; cbn; try done; [by rewrite (aset_length _ _ _ _ E)|].
  eapply aset_Forall; [exact Wr| |exact E]. unfold rate_ok, MIN_VIR_FREQ, MAX_VIR_FREQ. lia.
Qed.

Lemma sys_close_wf_rtc fd k r k' :
  sys_close fd k = Some (r, k') ->
  (wf_rtc (k_rtc k) -> wf_rtc (k_rtc k')) /\ same_clock (k_rtc k) (k_rtc k').
Proof.
  unfold sys_close. intros H. case_match; [by injection H as <- <-|].
  destruct (get_pcb _ k) as [b|]; [|done]. cbn [mbind option_bind] in H.
  destruct (fd_of b fd) as [e|]; [|done]. cbn [mbind option_bind] in H.
  case_match; [by injection H as <- <-|].
  destruct (fop_close _ k) as [ [r0 k1]|] eqn:Ec; [|done]. cbn [mbind option_bind] in H.
  destruct (upd_fd _ fd _ k1) as [k2|] eqn:Eu; [|done]. cbn [mbind option_bind] in H.
  injection H as <- <-. rewrite (upd_fd_rtc _ _ _ _ _ Eu). by eapply fop_close_wf_rtc.
Qed.

(** An open descriptor of a kind, and what closing it does to the directory
    position and the caller's clock rate. *)
Definition is_open (t : f_op_t) (e : fd_t) : bool := negb (flags e =? 0) && bool_decide (file_op_table_ptr e = t).
Definition any_open (t : f_op_t) (l : list fd_t) : bool := existsb (is_open t) l.

Definition closes (dir rtc : bool) (k k' : kernel) : Prop :=
  read_index k' = (if dir then 0 else read_index k) /\
  (process_rtc (k_rtc k')).[cur_pid k] =
    (if rtc then Some MAX_VIR_FREQ else (process_rtc (k_rtc k)).[cur_pid k]).

Lemma closes_trans d r d' r' k1 k2 k3 : cur_pid k2 = cur_pid k1 ->
  closes d r k1 k2 -> closes d' r' k2 k3 -> closes (d || d') (r || r') k1 k3.
Proof.
  intros E [Hi Hr] [Hi' Hr']. unfold closes in *. rewrite E in *. rewrite Hi', Hr', Hi, Hr.
  by destruct d, d', r, r'.
Qed.

(** One round of the closing loop. *)
Lemma close_one k l fd :
  cur_fds k = Some l -> len l = NUM_MAX_FILES -> Forall fd_ok l ->
  0 <= cur_pid k < len (process_rtc (k_rtc k)) -> MIN_FD_INDEX <= fd <= MAX_FD_INDEX ->
  exists r k' l', sys_close fd k = Some (r, k') /\ cur_fds k' = Some l' /\ len l' = NUM_MAX_FILES /\
    Forall fd_ok l' /\ len (process_rtc (k_rtc k')) = len (process_rtc (k_rtc k)) /\
    (exists e, l'.[fd] = Some e /\ flags e = 0) /\ (forall j, j <> fd -> l'.[j] = l.[j]) /\
    (exists e, l.[fd] = Some e /\ closes (is_open dir_opt e) (is_open rtc_opt e) k k') /\ only_closes k k'.
Proof.
  intros Hf Hl Hok Hrtc Hfd. unfold NUM_MAX_FILES, MIN_FD_INDEX, MAX_FD_INDEX in *.
  destruct (aget_is_Some l fd) as [e He]; [lia|].
  destruct (cur_fds_pcb _ _ Hf) as (b & Eb & El).
  destruct (Z.eq_dec (flags e) 0) as [E0|E0].
  - exists (-1), k, l. split_and!; try done;
      [|by exists e|exists e; unfold is_open; by rewrite E0|apply only_closes_refl].
    unfold sys_close, MIN_FD_INDEX, MAX_FD_INDEX.
    replace ((fd <? 2) || (7 <? fd)) with false by lia. rewrite Eb. cbn [mbind option_bind].
    rewrite fd_of_table, El, He by (unfold NUM_MAX_FILES; lia). cbn [mbind option_bind]. by rewrite E0.
  - pose proof (aget_Forall _ _ _ _ Hok He) as Ht. specialize (Ht E0).
    destruct (sys_close_open k l fd e Hf He Hfd Hrtc E0 Ht) as (k' & E & Hc & Ho & Hrate & Hs).
    destruct (sys_close_block _ _ _ _ _ E Eb) as (b' & Eb' & Hb').
    exists 0, k', (<[Z.to_nat fd := closed_fd]> l).
    destruct Ho as (Ek & Hq & Hr).
    assert (cur_pid (close_index (file_op_table_ptr e) k) = cur_pid k /\
      k_rtc (close_index (file_op_table_ptr e) k) = k_rtc k /\
      pcbs (close_index (file_op_table_ptr e) k) = pcbs k) as (E1 & E2 & E3)
      by (by destruct (file_op_table_ptr e)).
    rewrite E1 in Hq, Hr. rewrite E2 in Hr. unfold get_pcb in Hq at 2. rewrite E3 in Hq.
    split_and!; try done.
    + by rewrite length_insert.
    + apply Forall_insert; [done|]. by intros H.
    + by rewrite (sys_close_rates _ _ _ _ E).
    + exists closed_fd. split; [apply aget_insert_eq; lia|done].
    + intros j Hj. apply aget_insert_ne; lia.
    + exists e. split; [done|]. unfold closes, is_open. rewrite (proj2 (Z.eqb_neq _ _) E0). cbn [negb andb].
      split; [rewrite Ek; by destruct (file_op_table_ptr e)|].
      rewrite Hrate. by repeat case_decide || case_bool_decide.
    + split_and!; try done.
      * rewrite Ek. by destruct k, (file_op_table_ptr e).
      * exact (proj1 (sys_close_wf_rtc _ _ _ _ E)).
      * exact (proj2 (sys_close_wf_rtc _ _ _ _ E)).
      * intros b0 Eb0. assert (b0 = b) as -> by congruence. by exists b'.
Qed.

(** The loop leaves every descriptor from 2 on closed. *)
Lemma close_all_ok k l :
  cur_fds k = Some l -> len l = NUM_MAX_FILES -> Forall fd_ok l ->
  0 <= cur_pid k < len (process_rtc (k_rtc k)) ->
  exists k' l', close_all k = Some k' /\ cur_fds k' = Some l' /\ len l' = NUM_MAX_FILES /\
    (forall j, MIN_FD_INDEX <= j < NUM_MAX_FILES -> exists e, l'.[j] = Some e /\ flags e = 0) /\
    (forall j, j < MIN_FD_INDEX -> l'.[j] = l.[j]) /\
    closes (any_open dir_opt (drop 2 l)) (any_open rtc_opt (drop 2 l)) k k' /\ only_closes k k'.
Proof.
  intros Hf Hl Hok Hrtc. unfold close_all.
  destruct (for_range_ind
    (fun i k' => exists l', cur_fds k' = Some l' /\ len l' = NUM_MAX_FILES /\ Forall fd_ok l' /\
       len (process_rtc (k_rtc k')) = len (process_rtc (k_rtc k)) /\
       (forall j, MIN_FD_INDEX <= j < i -> exists e, l'.[j] = Some e /\ flags e = 0) /\
       (forall j, j < MIN_FD_INDEX \/ i <= j -> l'.[j] = l.[j]) /\
       (let done := take (Z.to_nat (i - 2)) (drop 2 l) in
        closes (any_open dir_opt done) (any_open rtc_opt done) k k') /\ only_closes k k')
    (fun i k => '(_, k) ← sys_close i k; Some k) MIN_FD_INDEX NUM_MAX_FILES k)
    as (k' & E & l' & Hf' & Hl' & _ & _ & Hj & Hlow & Hcl & Ho).
  - unfold MIN_FD_INDEX, NUM_MAX_FILES. lia.
  - exists l. split_and!; try done; [lia|apply only_closes_refl].
  - intros i k1 Hi (l1 & Hf1 & Hl1 & Hok1 & Hr1 & Hj1 & Hlow1 & Hcl1 & Ho1).
    assert (cur_pid k1 = cur_pid k) as Ep by (by apply only_closes_pid).
    destruct (close_one k1 l1 i Hf1 Hl1 Hok1) as (r & k2 & l2 & E2 & Hf2 & Hl2 & Hok2 & Hr2 & Hi2 & Hne & (e & He & Hcl2) & Ho2).
    { by rewrite Ep, Hr1. }
    { unfold NUM_MAX_FILES, MAX_FD_INDEX in *. lia. }
    rewrite E2. cbn [mbind option_bind]. exists k2. split; [done|]. exists l2. split_and!; try done.
    + lia.
    + intros j Hjr. destruct (Z.eq_dec j i) as [->|Hne']; [done|]. rewrite Hne by done. apply Hj1. lia.
    + intros j Hjr. rewrite Hne by lia. apply Hlow1. lia.
    + rewrite (Hlow1 i) in He by lia. unfold MIN_FD_INDEX in Hi.
      assert (drop 2 l !! Z.to_nat (i - 2) = Some e) as He'.
      { rewrite lookup_drop, <- aget_nat, <- He. f_equal. lia. }
      replace (Z.to_nat (i + 1 - 2)) with (S (Z.to_nat (i - 2))) by lia.
      cbv zeta. rewrite (take_S_r _ _ _ He'). unfold any_open. rewrite !existsb_app. cbn [existsb].
      rewrite !orb_false_r. by eapply closes_trans.
    + by eapply only_closes_trans.
  - exists k', l'. unfold NUM_MAX_FILES in *. rewrite take_ge in Hcl by (rewrite length_drop; lia).
    split_and!; try done. intros j Hjl. apply Hlow. by left.
Qed.

Lemma upd_fd_closes k l fd e f :
  cur_fds k = Some l -> l.[fd] = Some e ->
  exists k', upd_fd (cur_pid k) fd f k = Some k' /\ cur_fds k' = Some (<[Z.to_nat fd := f e]> l) /\
    only_closes k k' /\ k_rtc k' = k_rtc k /\ read_index k' = read_index k.
Proof.
  intros Hf He. destruct (upd_fd_ok k l fd e f Hf He) as (k' & E & Hc & Ek & Hq).
  exists k'. split; [done|]. split; [done|]. split; [|by rewrite Ek].
  split_and!; try done.
  - rewrite Ek. by destruct k.
  - intros q _. by rewrite Ek.
  - by rewrite Ek.
  - by rewrite Ek.
  - intros b Eb. by eapply upd_fd_block.
Qed.

Definition no_fd : fd_t := mkFd NULL_table 0 0 0.

(** The part of [halt_helper] on the descriptors. *)
Lemma release_fds k l :
  cur_fds k = Some l -> len l = NUM_MAX_FILES -> Forall fd_ok l ->
  0 <= cur_pid k < len (process_rtc (k_rtc k)) ->
  exists k' l',
    (k1 ← upd_fd (cur_pid k) 0 (fun _ => no_fd) k; k2 ← upd_fd (cur_pid k) 1 (fun _ => no_fd) k1;
     close_all k2) = Some k' /\
    cur_fds k' = Some l' /\ len l' = NUM_MAX_FILES /\ Forall (fun e => flags e = 0) l' /\
    closes (any_open dir_opt (drop 2 l)) (any_open rtc_opt (drop 2 l)) k k' /\ only_closes k k'.
Proof.
  intros Hf Hl Hok Hrtc. unfold NUM_MAX_FILES in *.
  destruct (aget_is_Some l 0) as [e0 He0]; [lia|]. destruct (aget_is_Some l 1) as [e1 He1]; [lia|].
  destruct (upd_fd_closes k l 0 e0 (fun _ => no_fd) Hf He0) as (k1 & E1 & Hf1 & Ho1 & Er1 & Ei1).
  rewrite E1. cbn [mbind option_bind]. rewrite <- (only_closes_pid _ _ Ho1).
  destruct (upd_fd_closes k1 _ 1 e1 (fun _ => no_fd) Hf1) as (k2 & E2 & Hf2 & Ho2 & Er2 & Ei2).
  { by rewrite aget_insert_ne by lia. }
  rewrite E2. cbn [mbind option_bind].
  pose proof (only_closes_pid _ _ Ho1) as P1. pose proof (only_closes_pid _ _ Ho2) as P2.
  set (l2 := <[Z.to_nat 1 := no_fd]> _) in Hf2.
  assert (len l2 = 8) as Hl2 by (unfold l2; by rewrite !length_insert).
  destruct (close_all_ok k2 l2 Hf2 Hl2) as (k3 & l3 & E3 & Hf3 & Hl3 & Hhigh & Hlow & Hcl & Ho3).
  { apply Forall_insert; [apply Forall_insert; [done|]|]; by intros H. }
  { by rewrite P2, P1, Er2, Er1. }
  exists k3, l3. split; [done|]. split; [done|]. split; [done|]. split.
  - apply Forall_lookup_2. intros j e Hj. rewrite <- aget_nat in Hj. unfold MIN_FD_INDEX, NUM_MAX_FILES in *.
    pose proof (aget_range _ _ _ Hj). destruct (Z_lt_dec (Z.of_nat j) 2) as [Hlt|Hge].
    + rewrite Hlow in Hj by done. unfold l2 in Hj.
      assert (Z.of_nat j = 0 \/ Z.of_nat j = 1) as [Ej|Ej] by lia; rewrite Ej in Hj.
      * rewrite aget_insert_ne, aget_insert_eq in Hj by lia. by injection Hj as <-.
      * rewrite aget_insert_eq in Hj by (rewrite length_insert; lia). by injection Hj as <-.
    + destruct (Hhigh (Z.of_nat j)) as (e' & He' & Hfl); [lia|]. congruence.
  - split; [|eapply only_closes_trans; [exact Ho1|]; by eapply only_closes_trans].
    assert (drop 2 l2 = drop 2 l) as <- by (unfold l2; by destruct l as [|? [|? l] ]).
    unfold closes in *. by rewrite P2, P1, Er2, Er1, Ei2, Ei1 in Hcl.
Qed.

(** The terminal goes back to process [pid], with an empty stored line. *)
Lemma leave_terminal_eq t pid k T :
  (terminals (k_con k)).[t] = Some T -> len (terminal_buf T) = FILE_STR_LEN ->
  leave_terminal t pid k = Some (k <| k_con := (k_con k) <| terminals :=
    <[Z.to_nat t := T <| active_pid := pid |> <| terminal_buf := replicate 128 0 |>]> (terminals (k_con k)) |> |>).
Proof.
  intros HT Hl. pose proof (aget_range _ _ _ HT) as Hr. unfold leave_terminal, on_con, upd_term.
  rewrite HT. cbn [mbind option_bind]. rewrite aset_Some by done. cbn [mbind option_bind].
  destruct k as [con kb pic pag rtc img ri pb pa cp pp pm te ti td]. destruct con, T. cbn in *.
  rewrite aget_insert_eq by done. cbn.
  destruct (for_range_fill (fun _ => 0) terminal_buf 0 FILE_STR_LEN) as (l & -> & Hll & Hj);
    [unfold FILE_STR_LEN; lia|lia|]. cbn.
  rewrite aset_Some by (by rewrite length_insert). cbn. rewrite list_insert_insert_eq.
  assert (l = replicate 128 0) as ->; [|done].
  unfold FILE_STR_LEN in *. apply aget_ext; [rewrite length_replicate; lia|]. intros i Hi. rewrite Hj.
  replace ((0 <=? i) && (i <? 128)) with true by lia. rewrite aget_replicate by lia. done.
Qed.

Lemma clear_keyboard_buf_eq buf :
  len buf = KEY_BUF_SIZE -> clear_keyboard_buf buf = Some (0, replicate 128 0, 0).
Proof.
  unfold clear_keyboard_buf, KEY_BUF_SIZE. intros Hl.
  destruct (for_range_fill (fun _ => 0) buf 0 128) as (l & -> & Hll & Hj); [lia|lia|].
  cbn [mbind option_bind]. assert (l = replicate 128 0) as ->; [|done].
  apply aget_ext; [rewrite length_replicate; lia|]. intros i Hi. rewrite Hj.
  replace ((0 <=? i) && (i <? 128)) with true by lia. rewrite aget_replicate by lia. done.
Qed.

Lemma clear_if_shown k t :
  len (keyboard_buf (k_kbd k)) = KEY_BUF_SIZE ->
  exists kb, (if ts (k_con k) =? t then '(_, k) ← on_kbd clear_keyboard_buf_caller k; Some k else Some k) =
      Some (k <| k_kbd := kb |>) /\
    kb = if ts (k_con k) =? t then (k_kbd k) <| keyboard_buf := replicate 128 0 |> <| key_idx := 0 |>
         else k_kbd k.
Proof.
  intros Hl. destruct (ts (k_con k) =? t).
  - unfold on_kbd, clear_keyboard_buf_caller, on_line. rewrite clear_keyboard_buf_eq by done.
    cbn [mbind option_bind]. by eexists.
  - exists (k_kbd k). split; [by destruct k|done].
Qed.

(** A change of one block keeps the shape of the tables. *)
Lemma pcbs_length k k' c :
  (forall q, q <> c -> get_pcb q k' = get_pcb q k) ->
  is_Some (get_pcb c k) -> is_Some (get_pcb c k') -> len (pcbs k') = len (pcbs k).
Proof.
  unfold get_pcb. intros Hq [b Hb] [b' Hb']. apply aget_range in Hb, Hb'.
  destruct (Z.lt_trichotomy (len (pcbs k')) (len (pcbs k))) as [H|[H|H] ]; [|done|].
  - specialize (Hq (len (pcbs k')) ltac:(lia)).
    destruct (aget_is_Some (pcbs k) (len (pcbs k'))) as [x Hx]; [lia|].
    rewrite Hx, aget_None in Hq by lia. done.
  - specialize (Hq (len (pcbs k)) ltac:(lia)).
    destruct (aget_is_Some (pcbs k') (len (pcbs k))) as [x Hx]; [lia|].
    rewrite Hx, aget_None in Hq by lia. done.
Qed.

Lemma pcbs_Forall (P : pcb_t -> Prop) k k' c b' :
  (forall q, q <> c -> get_pcb q k' = get_pcb q k) -> get_pcb c k' = Some b' -> P b' ->
  Forall P (pcbs k) -> Forall P (pcbs k').
Proof.
  intros Hq Hb' Hp HF. apply Forall_lookup_2. intros j x Hj. rewrite <- aget_nat in Hj.
  destruct (Z.eq_dec (Z.of_nat j) c) as [E|Hne].
  - rewrite E in Hj. unfold get_pcb in Hb'. by assert (x = b') as -> by congruence.
  - specialize (Hq _ Hne). unfold get_pcb in Hq. rewrite Hq in Hj. by eapply aget_Forall.
Qed.

(** What is left when the running process ends and its parent [p], a child of
    [gp], goes on. *)
Record resumed (pt_addr pt_user_addr : Z) (k k' : kernel) (p gp vid : Z) : Prop := {
  rs_cur : cur_pid k' = p;
  rs_prev : prev_pid k' = gp;
  rs_pids : pid_array k' = <[Z.to_nat (cur_pid k) := 0]> (pid_array k);
  rs_paging : paging_ok pt_addr pt_user_addr (k_pag k') ((p + 2) * PAGE_4MB, vid);
  rs_fds : exists b', get_pcb (cur_pid k) k' = Some b' /\ len (file_descriptor_table b') = NUM_MAX_FILES /\
    Forall (fun e => flags e = 0) (file_descriptor_table b');
  rs_others : forall j, j <> cur_pid k -> get_pcb j k' = get_pcb j k /\
    (process_rtc (k_rtc k')).[j] = (process_rtc (k_rtc k)).[j];
  rs_mem : prog_mem k' = prog_mem k;
  rs_term : exists T, (terminals (k_con k)).[ta (k_con k)] = Some T /\
    terminals (k_con k') = <[Z.to_nat (ta (k_con k)) :=
      T <| active_pid := p |> <| terminal_buf := replicate 128 0 |>]> (terminals (k_con k));
  rs_line : k_kbd k' = if ts (k_con k) =? ta (k_con k)
    then (k_kbd k) <| keyboard_buf := replicate 128 0 |> <| key_idx := 0 |> else k_kbd k;
  rs_closes : exists b, get_pcb (cur_pid k) k = Some b /\
    closes (any_open dir_opt (drop 2 (file_descriptor_table b)))
      (any_open rtc_opt (drop 2 (file_descriptor_table b))) k k';
  rs_esp0 : tss_esp0 k' = top_of_stack p;
  rs_screen : vmem (k_con k') = vmem (k_con k) /\ video_mem (k_con k') = video_mem (k_con k) /\
    ts (k_con k') = ts (k_con k) /\ ta (k_con k') = ta (k_con k) /\ intr (k_con k') = true;
  rs_rest : k_img k' = k_img k /\ k_pic k' = k_pic k /\ terminal_init k' = terminal_init k /\
    term_init_done k' = term_init_done k /\ (wf_rtc (k_rtc k) -> wf_rtc (k_rtc k')) /\
    same_clock (k_rtc k) (k_rtc k');
  rs_wf : wf_procs k';
}.

Section halt.
Context (pt_addr pt_user_addr : Z).

(** [release_fds] in front of what comes next. *)
Lemma release_then {X} k l (f : kernel -> option X) :
  cur_fds k = Some l -> len l = NUM_MAX_FILES -> Forall fd_ok l ->
  0 <= cur_pid k < len (process_rtc (k_rtc k)) ->
  exists k' l',
    (k1 ← upd_fd (cur_pid k) 0 (fun _ => no_fd) k; k2 ← upd_fd (cur_pid k) 1 (fun _ => no_fd) k1;
     k3 ← close_all k2; f k3) = f k' /\
    cur_fds k' = Some l' /\ len l' = NUM_MAX_FILES /\ Forall (fun e => flags e = 0) l' /\
    closes (any_open dir_opt (drop 2 l)) (any_open rtc_opt (drop 2 l)) k k' /\ only_closes k k'.
Proof.
  intros Hf Hl Hok Hrtc. destruct (release_fds k l Hf Hl Hok Hrtc) as (k' & l' & E & H). exists k', l'. split; [|exact H].
  destruct (upd_fd (cur_pid k) 0 _ k) as [ka|]; [|discriminate E]. cbn [mbind option_bind] in *.
  destruct (upd_fd (cur_pid k) 1 _ ka) as [kb|]; [|discriminate E]. cbn [mbind option_bind] in *. by rewrite E.
Qed.

(** The control blocks keep their sizes. *)
Lemma closed_pcbs k k' b l' :
  only_closes k k' -> get_pcb (cur_pid k) k = Some b -> cur_fds k' = Some l' -> len l' = NUM_MAX_FILES ->
  let sized b := len (file_descriptor_table b) = NUM_MAX_FILES /\ len (cmd_args b) = CMD_LINE_LEN in
  Forall sized (pcbs k) -> Forall sized (pcbs k') /\ len (pcbs k') = len (pcbs k).
Proof.
  intros Ho Eb Hf Hl sized HF. pose proof (only_closes_pid _ _ Ho) as Epid. destruct Ho as (_ & Hq & _ & _ & _ & Hb).
  destruct (Hb b Eb) as (b1 & Eb1 & Hb1). destruct (cur_fds_pcb _ _ Hf) as (b2 & Eb2 & El). rewrite Epid in Eb2.
  assert (b2 = b1) as -> by congruence. split.
  - apply (pcbs_Forall _ k k' (cur_pid k) b1); try done. unfold sized. rewrite El. split; [done|].
    rewrite Hb1. cbn. apply (aget_Forall _ _ _ _ HF Eb).
  - apply (pcbs_length k k' (cur_pid k)); [done|by exists b|by exists b1].
Qed.

Lemma halt_helper_resumes k b pb l v status st :
  get_pcb (cur_pid k) k = Some b -> file_descriptor_table b = l -> Forall fd_ok l ->
  get_pcb (parent_pid b) k = Some pb ->
  wf_procs k -> len (process_rtc (k_rtc k)) = MAX_PID -> paging_ok pt_addr pt_user_addr (k_pag k) v ->
  line_sized (keyboard_buf (k_kbd k)) (key_idx (k_kbd k)) ->
  Forall (fun T => line_sized (terminal_buf T) (buf_idx T)) (terminals (k_con k)) ->
  exists k', halt_helper status st k = Some (ResumeAt (ebp b) status, k') /\
    resumed pt_addr pt_user_addr k k' (parent_pid b) (parent_pid pb) v.2.
Proof.
  intros Eb El Hok Epb [Wp Wb Wm Wf Wta Wt] Hrtc HP [Hkb _] Hlines. unfold halt_helper.
  pose proof (aget_range _ _ _ Eb) as Hpid. pose proof (aget_range _ _ _ Epb) as Hpar.
  change (pid_array (cli k)) with (pid_array k). change (cur_pid (cli k)) with (cur_pid k).
  rewrite aset_Some by lia. cbn [mbind option_bind]. set (k1 := _ <| pid_array := _ |>).
  change (get_pcb (cur_pid k) k1) with (get_pcb (cur_pid k) k). rewrite Eb. cbn [mbind option_bind].
  rewrite (proj2 (Z.eqb_neq (parent_pid b) (-1))) by lia.
  change (get_pcb (parent_pid b) k1) with (get_pcb (parent_pid b) k). rewrite Epb. cbn [mbind option_bind].
  set (k2 := _ <| prev_pid := _ |>).
  destruct (run_page_op_ok pt_addr pt_user_addr (Program (parent_pid b)) _ _ ltac:(cbn; unfold MAX_PID in *; lia) HP)
    as (P & EP & HP'). cbn [run_page_op] in EP. unfold on_pag at 1.
  change (k_pag k2) with (k_pag k). rewrite EP. cbn [mbind option_bind]. set (k3 := k2 <| k_pag := P |>).
  assert (cur_fds k3 = Some l) as Hf3.
  { unfold cur_fds. change (get_pcb (cur_pid k3) k3) with (get_pcb (cur_pid k) k).
    rewrite Eb. cbn [mbind option_bind]. by rewrite El. }
  destruct (aget_Forall _ _ _ _ Wf Eb) as [Hlen _]. rewrite El in Hlen.
  assert (0 <= cur_pid k3 < len (process_rtc (k_rtc k3))) as Hr3
    by (change (k_rtc k3) with (k_rtc k); change (cur_pid k3) with (cur_pid k); lia).
  fold no_fd. change (cur_pid k) with (cur_pid k3) at 1 2.
  match goal with |- context [close_all _ ≫= ?g] => destruct (release_then k3 l g Hf3 Hlen Hok Hr3)
    as (k4 & l4 & -> & Hf4 & Hl4 & Hfree & Hcl4 & Ho4) end.
  destruct (closed_pcbs k3 k4 b l4 Ho4 Eb Hf4 Hl4 Wf) as [HF4 HL4].
  destruct Ho4 as (Ek4 & Hq4 & Hr4 & Hw4 & Hc4 & Hb4). change (cur_pid k3) with (cur_pid k) in Hq4, Hr4, Hb4.
  set (k5 := k4 <| cur_pid := _ |>).
  assert (k_con k5 = (k_con k) <| intr := false |>) as Ec5 by (unfold k5; cbn; by rewrite Ek4).
  change (ta (k_con (cli k))) with (ta (k_con k)).
  destruct (aget_is_Some (terminals (k_con k)) (ta (k_con k))) as [T ET]; [lia|].
  destruct (aget_Forall _ _ _ _ Hlines ET) as [HTl _].
  rewrite (leave_terminal_eq _ _ k5 T) by (rewrite ?Ec5; done). cbn [mbind option_bind].
  set (k6 := k5 <| k_con := _ |>).
  assert (k_kbd k6 = k_kbd k) as Ekb by (unfold k6, k5; cbn; by rewrite Ek4).
  assert (ts (k_con k6) = ts (k_con k)) as Ets by (change (ts (k_con k6)) with (ts (k_con k5)); by rewrite Ec5).
  destruct (clear_if_shown k6 (ta (k_con k))) as (kb' & E7 & Hkb'); [by rewrite Ekb|].
  rewrite E7, Ets, Ekb in *. cbn [mbind option_bind]. eexists; split; [done|].
  assert (get_pcb (cur_pid k) k4 = (b ← get_pcb (cur_pid k4) k4; Some b)) as Eb4
    by (replace (cur_pid k4) with (cur_pid k) by (by rewrite Ek4); by destruct (get_pcb _ k4)).
  split; try done.
  - cbn. by rewrite Ek4.
  - cbn. by rewrite Ek4.
  - cbn. rewrite Ek4. exact HP'.
  - destruct (cur_fds_pcb _ _ Hf4) as (b4 & Eb4' & El4). exists b4. split; [|by rewrite El4].
    rewrite Eb4' in Eb4. exact Eb4.
  - intros j Hj. split; [exact (Hq4 j Hj)|exact (Hr4 j Hj)].
  - cbn. by rewrite Ek4.
  - exists T. split; [done|]. cbn. by rewrite Ek4.
  - exists b. split; [done|]. rewrite El. exact Hcl4.
  - cbn. rewrite Ek4. done.
  - cbn. rewrite Ek4. by split_and!.
  - split; cbn; [rewrite Ek4; cbn; by rewrite length_insert|by rewrite HL4|rewrite Ek4; exact Wm|exact HF4|rewrite Ek4; exact Wta|].
    rewrite length_insert, Ek4. exact Wt.
Qed.
End halt.

Lemma sys_execute_started A B k F command s st ino c i m entry v :
  represents (k_img k) F -> cstring command 0 s -> frame_ok st ->
  len (command_args s) < CMD_LINE_LEN -> executable F (command_name s) = Some (ino, c) ->
  ld32 c OFFSET_24 = Some entry -> wf_procs k -> paging_ok A B (k_pag k) v ->
  first_pid (pid_array k) i -> i < MAX_PID -> (prog_mem k).[i] = Some m -> len c <= len m ->
  exists k', sys_execute command st k = Some (ToUser entry (PROGRAM_VIR_ADDR + CONST_4MB - 4), k') /\
    started A B (cli k) k' st i c (command_args s) v.2.
Proof.
  intros HR Hs Hst Hargs Hexe Hentry W HP Hi Hlt Hm Hl.
  rewrite (sys_execute_checked k F command s st HR Hs Hst Hargs), Hexe.
  assert ((a_files F).[ino] = Some c) as Hc.
  { unfold executable in Hexe. destruct (find_entry F _) as [e|]; [|done]. cbn in Hexe.
    destruct ((a_files F).[a_inode e]) as [c'|] eqn:E; [|done]. cbn in Hexe. case_decide; [|done].
    by injection Hexe as <- <-. }
  destruct Hst as [Hf Ha He]. eapply (start_ok A B (cli k) F); try done.
  - apply cstring_splice; [by apply command_args_chars; apply Hs|lia].
  - by destruct W.
Qed.

(** The three base shells and, as process 3, a child of the first one. *)
Definition sample_procs (cur : Z) (pids : list Z) (P : paging) : kernel :=
  mkKernel (mkConsole [] VIDEO (replicate 3 (mkTerm 0 0 0 0 0 (replicate 128 0) 0)) 0 0 true)
    kbd_reset (I8259.i8259_init I8259.pic_reset) P sample_rtc sample_img 0
    ((fun p => mkPcb sample_fds p 0x7FDFF0 0x7FDF00 0 0 0 (replicate 128 0)) <$> [-1; -1; -1; 0; 0; 0])
    pids cur (-1) (replicate 6 (replicate 40 0)) 0 4 1.

Definition sample_frame : frame :=
  mkFrame (replicate 129 7) (replicate 128 7) [7; 7; 7; 7] null_dentry 0x7FDF00 0x7FDFF0.

Lemma sample_frame_ok : frame_ok sample_frame.
Proof. by split. Qed.

Lemma sample_procs_wf cur pids P : len pids = 6 -> wf_procs (sample_procs cur pids P).
Proof. intros Hl. split; try done. by repeat (constructor; [by split|]). Qed.

Lemma sample_lines cur pids P :
  Forall (fun T => line_sized (terminal_buf T) (buf_idx T)) (terminals (k_con (sample_procs cur pids P))).
Proof. apply (Forall_replicate _ 3). by split. Qed.

Lemma sample_fds_ok : Forall fd_ok sample_fds.
Proof. repeat constructor; unfold fd_ok; cbn; (discriminate || by intros H). Qed.

(** The program "shell" of the sample file system. *)
Definition sample_shell : list Z :=
  [127; 69; 76; 70; 1; 1; 1; 0; 0; 0; 0; 0; 0; 0; 0; 0; 2; 0; 3; 0; 1; 0; 0; 0;
   84; 128; 4; 8; 52; 0; 0; 0].

Lemma init_fds_ok : Forall fd_ok init_fds.
Proof. repeat constructor; unfold fd_ok; cbn; (discriminate || by intros H). Qed.

Lemma sample_started :
  exists P k1, sys_execute [32; 115; 104; 101; 108; 108; 32; 104; 105; 0] sample_frame
      (sample_procs 0 [1; 1; 1; 0; 0; 0] P) = Some (ToUser 0x8048054 0x83FFFFC, k1) /\
    started 0x410000 0x412000 (cli (sample_procs 0 [1; 1; 1; 0; 0; 0] P)) k1 sample_frame 3
      sample_shell [104; 105] VID_MEM_INDEX /\
    len (process_rtc (k_rtc k1)) = MAX_PID /\
    line_sized (keyboard_buf (k_kbd k1)) (key_idx (k_kbd k1)) /\
    Forall (fun T => line_sized (terminal_buf T) (buf_idx T)) (terminals (k_con k1)).
Proof.
  destruct (paging_init_ok 0x410000 0x412000) as (P & _ & HP).
  destruct (sys_execute_started _ _ (sample_procs 0 [1; 1; 1; 0; 0; 0] P) sample_fs
    [32; 115; 104; 101; 108; 108; 32; 104; 105; 0] [32; 115; 104; 101; 108; 108; 32; 104; 105] sample_frame 0
    sample_shell 3 (replicate 40 0) 0x8048054 _ sample_represents
    (cstring_intro [32; 115; 104; 101; 108; 108; 32; 104; 105] [] ltac:(repeat constructor)) sample_frame_ok
    eq_refl ltac:(vm_compute; reflexivity) eq_refl (sample_procs_wf 0 [1; 1; 1; 0; 0; 0] P eq_refl) HP)
    as (k1 & E & S).
  - split; [unfold MAX_PID; lia|]. split; [|reflexivity]. intros j p Hj.
    assert (j = 0 \/ j = 1 \/ j = 2) as [-> | [-> | ->] ] by lia; intros [= <-]; discriminate.
  - unfold MAX_PID. lia.
  - reflexivity.
  - vm_compute. discriminate.
  - exists P, k1. split; [exact E|]. split; [exact S|].
    destruct (sd_rest _ _ _ _ _ _ _ _ _ S) as (Ek & _ & Er & _).
    destruct (sd_term _ _ _ _ _ _ _ _ _ S) as (T & ET & Eterm). rewrite Ek, Er, Eterm.
    split; [reflexivity|]. split; [split; [reflexivity|cbn; unfold KEY_BUF_SIZE; lia]|].
    apply Forall_insert; [exact (sample_lines 0 [1; 1; 1; 0; 0; 0] P)|].
    exact (aget_Forall _ _ _ _ (sample_lines 0 [1; 1; 1; 0; 0; 0] P) ET).
Qed.

(** ** Properties *)

(** C23: [sys_execute] starts the program its command line names.  For a command
    whose first word names an executable file that fits its page and whose argument
    is shorter than 128 characters (a longer one is cut, and its end written past the
    array), with a process number free, the program of the lowest free number is entered at the file's
    entry point on a fresh user stack, with exactly the file's bytes in its own
    page, which is mapped at the program address; standard input and output open
    and the other descriptors closed, the rest of the command line as its
    argument, the caller as its parent (none for the three base shells), its
    kernel stack in the TSS and the running terminal switched to it.  No other
    process's block or memory, no screen, no keyboard line, nothing of the clock
    changes. *)
Theorem sys_execute_starts A B k F command s st ino c i m entry v :
  represents (k_img k) F -> cstring command 0 s -> frame_ok st ->
  len (command_args s) < CMD_LINE_LEN -> executable F (command_name s) = Some (ino, c) ->
  ld32 c OFFSET_24 = Some entry -> wf_procs k -> paging_ok A B (k_pag k) v ->
  first_pid (pid_array k) i -> i < MAX_PID -> (prog_mem k).[i] = Some m -> len c <= len m ->
  exists k', sys_execute command st k = Some (ToUser entry (PROGRAM_VIR_ADDR + CONST_4MB - 4), k') /\
    started A B (cli k) k' st i c (command_args s) v.2.
Proof. apply sys_execute_started. Qed.

(** " shell hi" becomes process 3. *)
Lemma sys_execute_starts_witness :
  exists P k', sys_execute [32; 115; 104; 101; 108; 108; 32; 104; 105; 0] sample_frame
      (sample_procs 0 [1; 1; 1; 0; 0; 0] P) = Some (ToUser 0x8048054 0x83FFFFC, k') /\
    started 0x410000 0x412000 (cli (sample_procs 0 [1; 1; 1; 0; 0; 0] P)) k' sample_frame 3
      sample_shell [104; 105] VID_MEM_INDEX.
Proof.
  destruct (paging_init_ok 0x410000 0x412000) as (P & _ & HP). exists P.
  refine (sys_execute_starts _ _ (sample_procs 0 [1; 1; 1; 0; 0; 0] P) sample_fs _ [32; 115; 104; 101; 108; 108; 32; 104; 105] _ 0
    sample_shell 3 (replicate 40 0) 0x8048054 _ sample_represents _ sample_frame_ok _ _ _
    (sample_procs_wf 0 [1; 1; 1; 0; 0; 0] P eq_refl) HP _ _ _ _).
  - apply (cstring_intro [32; 115; 104; 101; 108; 108; 32; 104; 105] []). repeat constructor.
  - vm_compute. reflexivity.
  - vm_compute. reflexivity.
  - reflexivity.
  - split; [unfold MAX_PID; lia|]. split; [|reflexivity]. intros j p Hj.
    assert (j = 0 \/ j = 1 \/ j = 2) as [-> | [-> | ->] ] by lia; intros [= <-]; discriminate.
  - unfold MAX_PID. lia.
  - reflexivity.
  - vm_compute. discriminate.
Defined.

(** [sys_execute] refuses what it cannot start, and then changes nothing but
    the interrupt flag: -1 for a name that is not in the directory and for a
    file that does not begin with the four ELF bytes.  With every process number
    taken the result is 69, and [prev_pid] is overwritten all the same. *)
Theorem sys_execute_refused k F command s st :
  represents (k_img k) F -> cstring command 0 s -> frame_ok st ->
  len (command_args s) < CMD_LINE_LEN -> wf_procs k ->
  match executable F (command_name s) with
  | None => sys_execute command st k = Some (Returned (-1), cli k)
  | Some _ => first_pid (pid_array k) MAX_PID ->
      sys_execute command st k = Some (Returned FUNNY_NUMBER,
        (cli k) <| prev_pid := if cur_pid k <=? 2 then -1 else cur_pid k |>)
  end.
Proof.
  intros HR Hs Hst Hargs W. rewrite (sys_execute_checked k F command s st HR Hs Hst Hargs).
  destruct (executable F (command_name s)) as [ [ino c]|]; [|done]. intros Hfull.
  unfold start. rewrite alloc_pid_full; [done|by destruct W|exact Hfull].
Qed.

(** There is no program "cat", and "frame0" is no program. *)
Lemma sys_execute_refused_witness :
  exists P, sys_execute [99; 97; 116; 0] sample_frame (sample_procs 0 [1; 1; 1; 0; 0; 0] P) =
      Some (Returned (-1), cli (sample_procs 0 [1; 1; 1; 0; 0; 0] P)) /\
    sys_execute [102; 114; 97; 109; 101; 48; 0] sample_frame (sample_procs 0 [1; 1; 1; 0; 0; 0] P) =
      Some (Returned (-1), cli (sample_procs 0 [1; 1; 1; 0; 0; 0] P)).
Proof.
  destruct (paging_init_ok 0x410000 0x412000) as (P & _ & HP). exists P. split.
  - apply (sys_execute_refused (sample_procs 0 [1; 1; 1; 0; 0; 0] P) sample_fs _ [99; 97; 116] _ sample_represents);
      [apply (cstring_intro [99; 97; 116] []); repeat constructor|exact sample_frame_ok|reflexivity|
       exact (sample_procs_wf 0 [1; 1; 1; 0; 0; 0] P eq_refl)].
  - apply (sys_execute_refused (sample_procs 0 [1; 1; 1; 0; 0; 0] P) sample_fs _ [102; 114; 97; 109; 101; 48] _ sample_represents);
      [apply (cstring_intro [102; 114; 97; 109; 101; 48] []); repeat constructor|exact sample_frame_ok|reflexivity|
       exact (sample_procs_wf 0 [1; 1; 1; 0; 0; 0] P eq_refl)].
Defined.

(** Halting goes back to the parent.  When a process with a parent ends,
    with any status, control returns from the parent's call of [sys_execute]
    (the frame the block remembers) with the status as its value; the parent is
    current again with its own page mapped and its own kernel stack in the TSS,
    its terminal runs it, the number of the child is free, every descriptor of
    the child is closed, the terminal's input line is empty, and no other
    process's block, memory or clock rate is any different. *)
Theorem halt_resumes_parent A B k b pb v status st :
  get_pcb (cur_pid k) k = Some b -> Forall fd_ok (file_descriptor_table b) ->
  get_pcb (parent_pid b) k = Some pb -> wf_procs k ->
  len (process_rtc (k_rtc k)) = MAX_PID -> paging_ok A B (k_pag k) v ->
  line_sized (keyboard_buf (k_kbd k)) (key_idx (k_kbd k)) ->
  Forall (fun T => line_sized (terminal_buf T) (buf_idx T)) (terminals (k_con k)) ->
  exists k', halt_helper status st k = Some (ResumeAt (ebp b) status, k') /\
    resumed A B k k' (parent_pid b) (parent_pid pb) v.2.
Proof. intros Eb Hok Epb W Hr HP Hl Hls. by eapply halt_helper_resumes. Qed.

Lemma halt_resumes_parent_witness :
  exists P k', halt_helper 7 sample_frame (sample_procs 3 [1; 1; 1; 1; 0; 0] P) =
      Some (ResumeAt 0x7FDFF0 7, k') /\
    resumed 0x410000 0x412000 (sample_procs 3 [1; 1; 1; 1; 0; 0] P) k' 0 (-1) VID_MEM_INDEX.
Proof.
  destruct (paging_init_ok 0x410000 0x412000) as (P & _ & HP). exists P.
  refine (halt_resumes_parent _ _ (sample_procs 3 [1; 1; 1; 1; 0; 0] P) _ _ _ _ _ eq_refl
    sample_fds_ok eq_refl (sample_procs_wf 3 [1; 1; 1; 1; 0; 0] P eq_refl) eq_refl HP _
    (sample_lines 3 [1; 1; 1; 1; 0; 0] P)).
  split; [reflexivity|]. cbn. unfold KEY_BUF_SIZE. lia.
Defined.

(** C24: starting a program and halting it is a call that returns.  Whatever the
    program did in between, as long as its own block still names its parent and
    frame and the process numbers and the running terminal are as it found them, the halt returns the status from the very call that
    started it, with the process numbers, the current process, its page and the
    running terminal's process as they were before the call. *)
Theorem execute_halt_returns A B k k1 k2 st st' i c arg vid b2 bp v2 status :
  started A B k k1 st i c arg vid -> 2 < i -> (pid_array k).[i] = Some 0 ->
  cur_pid k2 = i -> pid_array k2 = pid_array k1 -> ta (k_con k2) = ta (k_con k1) ->
  get_pcb i k2 = Some b2 -> parent_pid b2 = cur_pid k -> ebp b2 = st_ebp st ->
  get_pcb (cur_pid k) k2 = Some bp ->
  Forall fd_ok (file_descriptor_table b2) -> wf_procs k2 ->
  len (process_rtc (k_rtc k2)) = MAX_PID -> paging_ok A B (k_pag k2) v2 ->
  line_sized (keyboard_buf (k_kbd k2)) (key_idx (k_kbd k2)) ->
  Forall (fun T => line_sized (terminal_buf T) (buf_idx T)) (terminals (k_con k2)) ->
  exists k3, halt_helper status st' k2 = Some (ResumeAt (st_ebp st) status, k3) /\
    cur_pid k3 = cur_pid k /\ prev_pid k3 = parent_pid bp /\ pid_array k3 = pid_array k /\
    paging_ok A B (k_pag k3) ((cur_pid k + 2) * PAGE_4MB, v2.2) /\
    (active_pid <$> (terminals (k_con k3)).[ta (k_con k)]) = Some (cur_pid k) /\
    tss_esp0 k3 = top_of_stack (cur_pid k).
Proof.
  intros S Hi Hfree Ec Ep Eta Eb Epar Eebp Ebp Hok W Hr HP Hl Hls.
  destruct (halt_helper_resumes A B k2 b2 bp (file_descriptor_table b2) v2 status st') as (k3 & E & R); try done.
  { by rewrite Ec. }
  { by rewrite Epar. }
  exists k3. rewrite <- Eebp. split; [exact E|]. rewrite Epar in R. destruct R.
  split; [done|]. split; [done|]. split; [|split; [done|split; [|done] ] ].
  - rewrite rs_pids0, Ec, Ep, (sd_pids _ _ _ _ _ _ _ _ _ S), list_insert_insert_eq.
    apply list_insert_id. rewrite <- aget_nat, Z2Nat.id by lia. exact Hfree.
  - destruct rs_term0 as (T & ET & ->). pose proof (sd_rest _ _ _ _ _ _ _ _ _ S) as Hrest.
    assert (ta (k_con k1) = ta (k_con k)) as E1 by apply Hrest.
    rewrite Eta, E1 in *. rewrite aget_insert_eq by (by eapply aget_range). done.
Qed.

(** The child halts as soon as it runs. *)
Lemma execute_halt_returns_witness :
  exists P k1 k3, sys_execute [32; 115; 104; 101; 108; 108; 32; 104; 105; 0] sample_frame
      (sample_procs 0 [1; 1; 1; 0; 0; 0] P) = Some (ToUser 0x8048054 0x83FFFFC, k1) /\
    halt_helper 5 sample_frame k1 = Some (ResumeAt 0x7FDFF0 5, k3) /\
    cur_pid k3 = 0 /\ pid_array k3 = [1; 1; 1; 0; 0; 0].
Proof.
  destruct sample_started as (P & k1 & E & S & Hr & Hkb & Hls). exists P, k1.
  destruct (sd_pcb _ _ _ _ _ _ _ _ _ S) as (b & _ & Eb).
  destruct (execute_halt_returns _ _ _ k1 k1 _ sample_frame 3 _ _ _
    (new_pcb b 0 3 sample_frame [104; 105])
    (mkPcb sample_fds (-1) 0x7FDFF0 0x7FDF00 0 0 0 (replicate 128 0))
    ((3 + 2) * PAGE_4MB, VID_MEM_INDEX) 5 S)
    as (k3 & E3 & Hc & _ & Hp & _).
  - lia.
  - reflexivity.
  - exact (sd_cur _ _ _ _ _ _ _ _ _ S).
  - reflexivity.
  - reflexivity.
  - exact Eb.
  - reflexivity.
  - reflexivity.
  - destruct (sd_others _ _ _ _ _ _ _ _ _ S 0) as [H _]; [discriminate|]. exact H.
  - exact init_fds_ok.
  - exact (sd_wf _ _ _ _ _ _ _ _ _ S).
  - exact Hr.
  - exact (sd_paging _ _ _ _ _ _ _ _ _ S).
  - exact Hkb.
  - exact Hls.
  - exists k3. exact (conj E (conj E3 (conj Hc Hp))).
Defined.

(** A base shell cannot be ended: when one of the processes 0 to 2 halts, the
    shell program is started again under the same number, without a parent, on
    the same terminal.  Its descriptors are not closed on the way, so the clock
    rate it had chosen stays. *)
Theorem base_shell_restarts A B k F b status st ino c m entry v :
  represents (k_img k) F -> frame_ok st -> wf_procs k -> paging_ok A B (k_pag k) v ->
  0 <= cur_pid k <= 2 -> get_pcb (cur_pid k) k = Some b -> parent_pid b = -1 ->
  (forall j, 0 <= j <= 2 -> j <> cur_pid k -> exists p, (pid_array k).[j] = Some p /\ p <> 0) ->
  executable F [115; 104; 101; 108; 108] = Some (ino, c) -> ld32 c OFFSET_24 = Some entry ->
  (prog_mem k).[cur_pid k] = Some m -> len c <= len m ->
  exists k', halt_helper status st k = Some (ToUser entry (PROGRAM_VIR_ADDR + CONST_4MB - 4), k') /\
    cur_pid k' = cur_pid k /\ prev_pid k' = -1 /\
    pid_array k' = <[Z.to_nat (cur_pid k) := 1]> (pid_array k) /\
    (active_pid <$> (terminals (k_con k')).[ta (k_con k)]) = Some (cur_pid k) /\
    (prog_mem k').[cur_pid k] = Some (splice m 0 c) /\ k_rtc k' = k_rtc k.
Proof.
  intros HR Hst [Wp Wb Wm Wf Wta Wt] HP Hcur Eb Epar Hbusy Hexe Hentry Em Hl. unfold halt_helper.
  change (pid_array (cli k)) with (pid_array k). change (cur_pid (cli k)) with (cur_pid k).
  unfold MAX_PID in *. rewrite aset_Some by lia. cbn [mbind option_bind]. set (k1 := _ <| pid_array := _ |>).
  change (get_pcb (cur_pid k) k1) with (get_pcb (cur_pid k) k). rewrite Eb. cbn [mbind option_bind].
  rewrite Epar. cbn [Z.eqb Pos.eqb]. set (k2 := _ <| prev_pid := _ |>).
  destruct (sys_execute_started A B k2 F shell_name [115; 104; 101; 108; 108] st ino c (cur_pid k) m entry v)
    as (k' & E & S); try done.
  - apply (cstring_intro [115; 104; 101; 108; 108] []). repeat constructor.
  - split; try done. change (pid_array k2) with (<[Z.to_nat (cur_pid k) := 0]> (pid_array k)).
    by rewrite length_insert.
  - change (pid_array k2) with (<[Z.to_nat (cur_pid k) := 0]> (pid_array k)). split; [unfold MAX_PID; lia|]. split.
    + intros j p Hj. rewrite aget_insert_ne by lia. destruct (Hbusy j) as (p' & -> & Hp); [lia|lia|]. by intros [= <-].
    + intros _. apply aget_insert_eq. lia.
  - unfold MAX_PID. lia.
  - rewrite E. cbn [mbind option_bind]. exists k'. split; [done|]. destruct S.
    rewrite (proj2 (Z.leb_le (cur_pid k) 2)) in sd_prev0 by lia. split; [done|]. split; [done|]. split.
    { rewrite sd_pids0. change (pid_array (cli k2)) with (<[Z.to_nat (cur_pid k) := 0]> (pid_array k)).
      by rewrite list_insert_insert_eq. }
    split.
    { destruct sd_term0 as (T & ET & ->). change (ta (k_con (cli k2))) with (ta (k_con k)) in *.
      rewrite aget_insert_eq by (by eapply aget_range). done. }
    split; [|by destruct sd_rest0 as (_ & _ & -> & _)].
    destruct sd_image0 as (m' & Em' & ->). change (prog_mem (cli k2)) with (prog_mem k) in Em'. congruence.
Qed.

Lemma base_shell_restarts_witness :
  exists P k', halt_helper 0 sample_frame (sample_procs 1 [1; 1; 1; 0; 0; 0] P) =
      Some (ToUser 0x8048054 0x83FFFFC, k') /\ cur_pid k' = 1.
Proof.
  destruct (paging_init_ok 0x410000 0x412000) as (P & _ & HP). exists P.
  destruct (base_shell_restarts _ _ (sample_procs 1 [1; 1; 1; 0; 0; 0] P) sample_fs
    (mkPcb sample_fds (-1) 0x7FDFF0 0x7FDF00 0 0 0 (replicate 128 0)) 0 sample_frame 0 sample_shell
    (replicate 40 0) 0x8048054 _ sample_represents sample_frame_ok
    (sample_procs_wf 1 [1; 1; 1; 0; 0; 0] P eq_refl) HP) as (k' & E & Hc & _).
  - cbn. lia.
  - reflexivity.
  - reflexivity.
  - intros j Hj Hne. exists 1. split; [|discriminate].
    assert (j = 0 \/ j = 1 \/ j = 2) as [-> | [-> | ->] ] by lia; reflexivity.
  - vm_compute. reflexivity.
  - reflexivity.
  - reflexivity.
  - vm_compute. discriminate.
  - exists k'. exact (conj E Hc).
Defined.
