(* ===== verification/Scheduler.v ===== *)
(** The scheduler: [src/code/pit.c], [process_init] and the terminal numbers of
    [src/code/processes.c].

    The timer interrupt saves the stack of the running terminal's process and
    goes on with the process of the next terminal, the three in turn; the first
    ticks start the shells of the second and the third terminal. *)
From stdpp Require Import base option list numbers.
From Stdlib Require Import ZArith Lia.
From S2P Require Import Prelude LibString FileSystem Console I8259 Keyboard Paging Rtc State Terminal Desks Printf FileOps SysCall Idt Process.

Definition TOTAL_TERM : Z := 3.
Definition CURSOR_X_START : Z := 7.
Definition CURSOR_Y_START : Z := 1.
Definition CHANNEL0_PORT : Z := 0x40.
Definition MODE_REG_PORT : Z := 0x43.
Definition MODE_4_SELECT : Z := 0x34.
Definition INT_TIME_MS : Z := 30.
Definition PIT_REL_VAL : Z := INT_TIME_MS * 3579545 / 3000.
Definition LOW_BYTE_MASK : Z := 0xFF.
Definition HIGH_BYTE_SHIFT : Z := 8.

Definition pit_init (k : kernel) : kernel :=
  let p := outb MODE_4_SELECT MODE_REG_PORT (k_pic k) in
  let p := outb (Z.land PIT_REL_VAL LOW_BYTE_MASK) CHANNEL0_PORT p in
  let p := outb (Z.land (Z.shiftr PIT_REL_VAL HIGH_BYTE_SHIFT) LOW_BYTE_MASK) CHANNEL0_PORT p in
  sti ((cli k) <| k_pic := enable_irq 0 p |>).

(** The operation tables are the type [f_op_t]; what is left is the cursor. *)
Definition process_init (k : kernel) : option (Z * kernel) :=
  k ← on_con (fun c => upd_term c 0 (fun T =>
        T <| cursor_y := CURSOR_Y_START |> <| cursor_x := CURSOR_X_START |>)) k;
  Some (0, k).

Definition get_active_terminal (k : kernel) : Z := ta (k_con k).
Definition get_shown_terminal (k : kernel) : Z := ts (k_con k).

Definition set_ta (new_ta : Z) (k : kernel) : kernel :=
  if (new_ta <? 0) || (2 <? new_ta) then k else k <| k_con ::= fun c => c <| ta := new_ta |> |>.

(** How the handler ends: like [sys_execute], or on another kernel stack. *)
Inductive pit_outcome :=
| Ran (o : outcome)
| Switched (to_ebp to_esp : Z).

(** The process of the running terminal. *)
Definition active_of (k : kernel) : option Z :=
  T ← (terminals (k_con k)).[ta (k_con k)]; Some (active_pid T).

Definition save_stack (pid k_esp k_ebp : Z) : kernel -> option kernel :=
  upd_pcb pid (fun b => b <| cur_esp := k_esp |> <| cur_ebp := k_ebp |>).

(** The ticks that start the other two shells. *)
Definition start_shell (st : frame) (k : kernel) : option (pit_outcome * kernel) :=
  let t := terminal_init k in
  '(_, k) ← terminal_switch (t + 1) k;
  let k := set_ta t k in
  k ← on_con (fun c => upd_term c t (fun T => T <| base_pid := t |> <| active_pid := t |>)) k;
  let k := eoi 0 (k <| terminal_init := s32 (t + 1) |>) in
  '(o, k) ← sys_execute shell_name st k;
  Some (Ran (match o with Returned _ => Returned 0 | _ => o end),
        match o with Returned _ => sti k | _ => k end).

(** The switch to the next terminal's process. *)
Definition next_terminal (k : kernel) : option (pit_outcome * kernel) :=
  let active_term := Z.rem (get_active_terminal k + 1) TOTAL_TERM in
  let k := k <| k_con ::= fun c => c <| ta := active_term |> |> in
  active_pid ← active_of k;
  active_pcb ← get_pcb active_pid k;
  let k := set_prev_pid (parent_pid active_pcb) (set_cur_pid active_pid k) in
  k ← on_pag (map_program active_pid) k;
  k ← retarget_video k;
  let k := k <| tss_esp0 := top_of_stack active_pid |> in
  Some (Switched (cur_ebp active_pcb) (cur_esp active_pcb), sti k).

(** [k_esp] and [k_ebp] are the registers, [st] the frame of a shell's start. *)
Definition pit_handler (k_esp k_ebp : Z) (st : frame) (k : kernel) : option (pit_outcome * kernel) :=
  let k := cli k in
  active_pid ← active_of k;
  k ← save_stack active_pid k_esp k_ebp k;
  if terminal_init k <? TOTAL_TERM then start_shell st k
  else
    k ← (if terminal_init k =? TOTAL_TERM then
           '(_, k) ← terminal_switch 1 k;
           Some (k <| term_init_done := 1 |> <| terminal_init := s32 (terminal_init k + 1) |>)
         else Some k);
    next_terminal (eoi 0 k).

(** [set_active_terminal]: nothing calls it; its message is written with [putc]. *)
Definition switching_format : list Z :=   (* "Switching to pid %d" *)
  [83; 119; 105; 116; 99; 104; 105; 110; 103; 32; 116; 111; 32; 112; 105; 100; 32; 37; 100; 0].

Definition switching_message (junk : list Z) (pid : Z) (con : console) : option console :=
  '(_, con) ← printf junk switching_format [Word (u32 pid)] con;
  Some con.

Definition set_active_terminal (junk : list Z) (k_esp k_ebp active_term : Z) (k : kernel)
    : option (pit_outcome * kernel) :=
  if (active_term <? 0) || (TOTAL_TERM <=? active_term) then Some (Ran (Returned (-1)), k)
  else
    active_pid ← active_of k;
    k ← save_stack active_pid k_esp k_ebp k;
    let k := k <| k_con ::= fun c => c <| ta := active_term |> |> in
    active_pid ← active_of k;
    k ← on_con (switching_message junk active_pid) k;
    active_pcb ← get_pcb active_pid k;
    let k := set_prev_pid (parent_pid active_pcb) (set_cur_pid active_pid k) in
    k ← on_pag (map_program active_pid) k;
    let k := k <| tss_esp0 := cur_esp active_pcb |> in
    Some (Switched (cur_ebp active_pcb) (cur_esp active_pcb), k).

(** ** Lemmas *)

(** The terminals' processes: one each, with a block. *)
Definition active_pids (k : kernel) : list Z := active_pid <$> terminals (k_con k).

Record wf_sched (k : kernel) : Prop := {
  ws_terms : len (terminals (k_con k)) = NUM_TERMS;
  ws_ta : 0 <= ta (k_con k) < NUM_TERMS;
  ws_distinct : NoDup (active_pids k);
  ws_range : Forall (fun p => 0 <= p < MAX_PID) (active_pids k);
  ws_pcbs : len (pcbs k) = MAX_PID;
}.

(** The process of terminal [t], for any [t]. *)
Definition proc_of (k : kernel) (t : Z) : option Z := (active_pids k).[t].

Lemma active_of_proc k : active_of k = proc_of k (ta (k_con k)).
Proof.
  unfold active_of, proc_of, active_pids. rewrite aget_fmap.
  by destruct ((terminals (k_con k)).[ta (k_con k)]).
Qed.

Lemma proc_of_some k t : wf_sched k -> 0 <= t < NUM_TERMS ->
  exists p b, proc_of k t = Some p /\ 0 <= p < MAX_PID /\ get_pcb p k = Some b.
Proof.
  intros [Wt _ _ Wr Wb] Ht. unfold proc_of.
  destruct (aget_is_Some (active_pids k) t) as [p Ep];
    [unfold active_pids; rewrite length_fmap; lia|].
  pose proof (aget_Forall _ _ _ _ Wr Ep) as Hp. cbv beta in Hp.
  destruct (aget_is_Some (pcbs k) p) as [b Eb]; [lia|]. by exists p, b.
Qed.

Lemma proc_of_inj k t t' p :
  wf_sched k -> proc_of k t = Some p -> proc_of k t' = Some p -> t = t'.
Proof.
  intros W H H'. unfold proc_of in *. pose proof (aget_range _ _ _ H). pose proof (aget_range _ _ _ H').
  unfold aget in H, H'. destruct (Z.ltb_spec t 0), (Z.ltb_spec t' 0); try lia.
  pose proof (NoDup_lookup _ _ _ _ (ws_distinct _ W) H H'). lia.
Qed.

Definition saved (k_esp k_ebp : Z) (b : pcb_t) : pcb_t :=
  b <| cur_esp := k_esp |> <| cur_ebp := k_ebp |>.

Lemma save_stack_eq k p b k_esp k_ebp :
  get_pcb p k = Some b ->
  save_stack p k_esp k_ebp k = Some (k <| pcbs := <[Z.to_nat p := saved k_esp k_ebp b]> (pcbs k) |>).
Proof.
  intros H. unfold save_stack, upd_pcb, get_pcb in *. rewrite H. cbn [mbind option_bind].
  by rewrite aset_Some by (by eapply aget_range).
Qed.

Definition next_of (t : Z) : Z := Z.rem (t + 1) TOTAL_TERM.

Lemma next_of_range t : 0 <= t < NUM_TERMS -> 0 <= next_of t < NUM_TERMS /\ next_of t <> t.
Proof.
  unfold next_of, NUM_TERMS, TOTAL_TERM. intros H.
  assert (t = 0 \/ t = 1 \/ t = 2) as [-> | [-> | ->] ] by lia; (split; [split|]; vm_compute; congruence).
Qed.

(** The state after a tick: terminal [t] with process [a'], whose block is [b'],
    runs; [a] is the process that ran, with block [b]. *)
Definition after_tick (k : kernel) (a a' t k_esp k_ebp : Z) (b b' : pcb_t) (P : paging) : kernel :=
  mkKernel (mkConsole (vmem (k_con k)) (page_of t (ts (k_con k))) (terminals (k_con k)) (ts (k_con k)) t true)
    (k_kbd k) (send_eoi 0 (k_pic k)) P (k_rtc k) (k_img k) (read_index k)
    (<[Z.to_nat a := saved k_esp k_ebp b]> (pcbs k)) (pid_array k) a' (parent_pid b') (prog_mem k)
    (top_of_stack a') (terminal_init k) (term_init_done k).

(** The state after the second half of it, from [k]: terminal [t] runs. *)
Definition next_state (k : kernel) (a' t : Z) (b' : pcb_t) (P : paging) : kernel :=
  mkKernel (mkConsole (vmem (k_con k)) (page_of t (ts (k_con k))) (terminals (k_con k)) (ts (k_con k)) t true)
    (k_kbd k) (k_pic k) P (k_rtc k) (k_img k) (read_index k) (pcbs k) (pid_array k) a' (parent_pid b')
    (prog_mem k) (top_of_stack a') (terminal_init k) (term_init_done k).

Section tick.
Context (pt_addr pt_user_addr : Z).

Lemma next_terminal_eq k a' b' v :
  0 <= ta (k_con k) < NUM_TERMS -> paging_ok pt_addr pt_user_addr (k_pag k) v ->
  proc_of k (next_of (ta (k_con k))) = Some a' -> get_pcb a' k = Some b' -> 0 <= a' < MAX_PID ->
  exists P, let k' := next_state k a' (next_of (ta (k_con k))) b' P in
    next_terminal k = Some (Switched (cur_ebp b') (cur_esp b'), k') /\
    targets_ok pt_addr pt_user_addr k' ((a' + 2) * PAGE_4MB).
Proof.
  intros Hta HP Ha' Hb' Hr'. destruct (next_of_range _ Hta) as [Hnext _]. unfold MAX_PID in Hr'.
  unfold next_terminal. change (get_active_terminal k) with (ta (k_con k)). fold (next_of (ta (k_con k))).
  set (t := next_of (ta (k_con k))) in *. set (k2 := k <| k_con ::= _ |>).
  rewrite active_of_proc. change (proc_of k2 (ta (k_con k2))) with (proc_of k t). rewrite Ha'.
  cbn [mbind option_bind]. change (get_pcb a' k2) with (get_pcb a' k). rewrite Hb'.
  cbn [mbind option_bind]. set (k3 := set_prev_pid _ _).
  destruct (run_page_op_ok pt_addr pt_user_addr (Program a') _ _ ltac:(cbn; lia) HP) as (P1 & E1 & HP1).
  cbn [run_page_op page_view] in E1, HP1. unfold on_pag. change (k_pag k3) with (k_pag k). rewrite E1.
  cbn [mbind option_bind]. set (k4 := k3 <| k_pag := P1 |>).
  destruct (retarget_video_ok pt_addr pt_user_addr k4 _ _ Hnext HP1) as (P & ER & HT).
  cbv zeta in ER, HT. rewrite ER. cbn [mbind option_bind]. exists P. split; [done|]. exact HT.
Qed.

Lemma tick_eq k k_esp k_ebp st a b a' b' v :
  wf_sched k -> TOTAL_TERM < terminal_init k -> paging_ok pt_addr pt_user_addr (k_pag k) v ->
  proc_of k (ta (k_con k)) = Some a -> get_pcb a k = Some b ->
  proc_of k (next_of (ta (k_con k))) = Some a' -> get_pcb a' k = Some b' ->
  exists P, let k' := after_tick k a a' (next_of (ta (k_con k))) k_esp k_ebp b b' P in
    pit_handler k_esp k_ebp st k = Some (Switched (cur_ebp b') (cur_esp b'), k') /\
    targets_ok pt_addr pt_user_addr k' ((a' + 2) * PAGE_4MB).
Proof.
  intros W Hinit HP Ha Hb Ha' Hb'. pose proof (ws_ta _ W) as Hta.
  destruct (next_of_range _ Hta) as [Hnext Hne]. pose proof (aget_range _ _ _ Hb) as Hr.
  pose proof (aget_range _ _ _ Hb') as Hr'. rewrite (ws_pcbs _ W) in Hr'.
  assert (a <> a') as Haa by (intros <-; apply Hne; by eapply proc_of_inj).
  unfold pit_handler. rewrite active_of_proc. change (proc_of (cli k) (ta (k_con (cli k)))) with
    (proc_of k (ta (k_con k))). rewrite Ha. cbn [mbind option_bind].
  rewrite (save_stack_eq (cli k) a b) by done. cbn [mbind option_bind].
  change (terminal_init (_ <| pcbs := _ |>)) with (terminal_init k).
  rewrite (proj2 (Z.ltb_ge (terminal_init k) TOTAL_TERM)), (proj2 (Z.eqb_neq (terminal_init k) TOTAL_TERM))
    by lia. cbn [mbind option_bind].
  set (k1 := eoi 0 _). destruct (next_terminal_eq k1 a' b' v) as (P & E & HT); try done.
  { rewrite <- Hb'. exact (aget_insert_ne (pcbs k) a a' _ (proj1 Hr) Haa). }
  exists P. split; [exact E|exact HT].
Qed.

Lemma after_tick_wf k a a' t e f b b' P :
  wf_sched k -> 0 <= t < NUM_TERMS -> wf_sched (after_tick k a a' t e f b b' P).
Proof. intros [? ? ? ? ?] Ht. split; try done. cbn. by rewrite length_insert. Qed.

Lemma after_tick_pcb k a a' t e f b b' P q :
  get_pcb a k = Some b ->
  get_pcb q (after_tick k a a' t e f b b' P) = if q =? a then Some (saved e f b) else get_pcb q k.
Proof.
  intros H. pose proof (aget_range _ _ _ H). unfold get_pcb. cbn.
  destruct (Z.eqb_spec q a) as [->|Hne]; [by apply aget_insert_eq|]. apply aget_insert_ne; lia.
Qed.

(** A tick changes which desk is the running one, and no desk. *)
Lemma after_tick_implements k S prog a a' e f b b' P :
  implements pt_addr pt_user_addr prog k S -> 0 <= next_of (ta (k_con k)) < NUM_TERMS ->
  targets_ok pt_addr pt_user_addr (after_tick k a a' (next_of (ta (k_con k))) e f b b' P)
    ((a' + 2) * PAGE_4MB) ->
  implements pt_addr pt_user_addr ((a' + 2) * PAGE_4MB)
    (after_tick k a a' (next_of (ta (k_con k))) e f b b' P)
    (mkDesks (ds_keys S) (ds_shown S) (next_of (ds_running S)) (ds_of S)).
Proof.
  intros [ [Wc Wf Wl Wls] HT Hi Hk Hs Hr HD] Hn HT'. split; cbn [ds_keys ds_shown ds_running ds_of]; try done.
  - split; try done. destruct Wc. split; try done. by apply page_of_is_page.
  - by rewrite <- Hr.
Qed.
End tick.

(** Three terminals with the processes 0, 1 and 2. *)
Definition sample_sched (P : paging) : kernel :=
  mkKernel (mkConsole (replicate (Z.to_nat 16384) 0) TERM_2_VID
      [mkTerm 7 1 0 0 0 (replicate 128 0) 0; mkTerm 7 1 1 1 0 (replicate 128 0) 0;
       mkTerm 7 1 2 2 0 (replicate 128 0) 0] 0 1 true)
    kbd_reset (i8259_init pic_reset) P rtc_reset [] 0
    ((fun p => mkPcb sample_fds (-1) 0 0 (0x7FE000 + p) (0x7FD000 + p) 0 (replicate 128 0)) <$> [0; 1; 2; 3; 4; 5])
    [1; 1; 1; 0; 0; 0] 1 (-1) (replicate 6 []) 0 4 1.

Lemma sample_sched_wf P : wf_sched (sample_sched P).
Proof.
  split; [reflexivity|cbn; unfold NUM_TERMS; lia| | |reflexivity].
  - change (active_pids (sample_sched P)) with [0; 1; 2].
    apply (bool_decide_unpack _). vm_compute. exact I.
  - change (active_pids (sample_sched P)) with [0; 1; 2]. repeat constructor; unfold MAX_PID; lia.
Qed.

Lemma sample_sched_desks :
  exists P S, implements 0x410000 0x412000 USER_BASE (sample_sched P) S.
Proof.
  set (con := k_con (sample_sched paging_zero)).
  assert (wf_console con) as W.
  { split; try done.
    - exists 2. unfold VIDEO, PAGE_BYTES. cbn. unfold TERM_2_VID. lia.
    - cbn. repeat constructor; unfold NUM_COLS, NUM_ROWS; cbn; lia. }
  destruct (paging_init_ok 0x410000 0x412000) as (P0 & _ & HP0).
  destruct (run_page_op_ok _ _ (UserVideo 0xBA) P0 _ ltac:(cbn; lia) HP0) as (P & _ & HP).
  assert (forall t, 0 <= t < NUM_TERMS -> exists s, shows con (page_of t 0) t s) as Hs.
  { intros t Ht. apply shows_exists; [exact W|by apply page_of_is_page|exact Ht]. }
  unfold NUM_TERMS in Hs.
  destruct (Hs 0 ltac:(lia)) as [s0 H0], (Hs 1 ltac:(lia)) as [s1 H1], (Hs 2 ltac:(lia)) as [s2 H2].
  exists P, (sample_state s0 s1 s2).
  assert (line_is (replicate 128 0) 0 []) as HL by (split_and!; done).
  split; [|split; [reflexivity|exact HP]|discriminate|reflexivity|reflexivity|reflexivity|].
  - split; [exact W|exact kbd_reset_flags|by split; [reflexivity|]|].
    change (terminals (k_con (sample_sched P))) with (terminals con). cbn [con sample_sched k_con terminals].
    repeat (apply Forall_cons_2; [split; [reflexivity|]; cbn; unfold KEY_BUF_SIZE; lia|]). by apply Forall_nil_2.
  - unfold NUM_TERMS. intros t Ht.
    assert (t = 0 \/ t = 1 \/ t = 2) as [-> | [-> | ->] ] by lia;
      (split; [exists (replicate 128 0), 0; split; [reflexivity|exact HL]|]); [exact H0|exact H1|exact H2].
Qed.

(** ** Properties *)

(** C22: a timer tick is a switch between two programs that neither notices on
    its desk.  Once the three shells run, the handler, entered with any stack,
    saves the registers in the block of the running terminal's process and goes
    on with the registers saved in the block of the next terminal's process; that
    process is then the current one, its parent the previous one, its own page is
    mapped at the program address, its terminal's page is what it draws on and
    sees, its kernel stack is in the TSS, and the tick is acknowledged.  The three
    desks are as they were: only which of them is running has moved on by one. *)
Theorem tick_switches A B prog k S k_esp k_ebp st :
  implements A B prog k S -> wf_sched k -> TOTAL_TERM < terminal_init k ->
  exists a b a' b' k', proc_of k (ta (k_con k)) = Some a /\ get_pcb a k = Some b /\
    proc_of k (next_of (ta (k_con k))) = Some a' /\ get_pcb a' k = Some b' /\
    pit_handler k_esp k_ebp st k = Some (Switched (cur_ebp b') (cur_esp b'), k') /\
    cur_pid k' = a' /\ prev_pid k' = parent_pid b' /\ tss_esp0 k' = top_of_stack a' /\
    get_pcb a k' = Some (saved k_esp k_ebp b) /\
    (forall q, q <> a -> get_pcb q k' = get_pcb q k) /\ wf_sched k' /\
    implements A B ((a' + 2) * PAGE_4MB) k'
      (mkDesks (ds_keys S) (ds_shown S) (next_of (ds_running S)) (ds_of S)).
Proof.
  intros I W Hinit. destruct (next_of_range _ (ws_ta _ W)) as [Hn _].
  destruct (proc_of_some k _ W (ws_ta _ W)) as (a & b & Ha & _ & Hb).
  destruct (proc_of_some k _ W Hn) as (a' & b' & Ha' & _ & Hb').
  destruct (im_targets _ _ _ _ _ I) as [_ HP].
  destruct (tick_eq A B k k_esp k_ebp st a b a' b' _ W Hinit HP Ha Hb Ha' Hb') as (P & E & HT).
  exists a, b, a', b', (after_tick k a a' (next_of (ta (k_con k))) k_esp k_ebp b b' P).
  split_and!; try done.
  - rewrite after_tick_pcb by done. by rewrite Z.eqb_refl.
  - intros q Hq. rewrite after_tick_pcb by done. by rewrite (proj2 (Z.eqb_neq q a)).
  - by apply after_tick_wf.
  - by eapply after_tick_implements.
Qed.

Lemma tick_switches_witness :
  exists P S k', implements 0x410000 0x412000 USER_BASE (sample_sched P) S /\
    pit_handler 100 101 sample_frame (sample_sched P) = Some (Switched 0x7FE002 0x7FD002, k') /\
    cur_pid k' = 2 /\ tss_esp0 k' = 0x7FBFFC /\
    implements 0x410000 0x412000 ((2 + 2) * PAGE_4MB) k'
      (mkDesks (ds_keys S) (ds_shown S) (next_of (ds_running S)) (ds_of S)).
Proof.
  destruct sample_sched_desks as (P & S & I). exists P, S.
  destruct (tick_switches _ _ _ _ S 100 101 sample_frame I (sample_sched_wf P)
    ltac:(cbn; unfold TOTAL_TERM; lia)) as (a & b & a' & b' & k' & _ & _ & Ha' & Hb' & E & Hc & _ & He & _ & _ & _ & I').
  exists k'. assert (a' = 2) as -> by (revert Ha'; intros [= <-]; reflexivity).
  revert Hb'. intros [= <-]. exact (conj I (conj E (conj Hc (conj He I')))).
Defined.

(** C25: the scheduler is round-robin and a switch is transparent: at the third
    tick after a process was interrupted, whatever stacks the other two were
    interrupted with, it goes on with exactly the registers it was interrupted
    with, on its terminal, with its page, its screen page, its kernel stack and
    its process numbers as they were; the screens, the lines, the memory of the
    programs and the clock have not changed. *)
Theorem round_robin A B k v e0 f0 e1 f1 e2 f2 st :
  wf_sched k -> TOTAL_TERM < terminal_init k -> paging_ok A B (k_pag k) v ->
  exists a b o1 k1 o2 k2 k3, proc_of k (ta (k_con k)) = Some a /\ get_pcb a k = Some b /\
    pit_handler e0 f0 st k = Some (o1, k1) /\ pit_handler e1 f1 st k1 = Some (o2, k2) /\
    pit_handler e2 f2 st k2 = Some (Switched f0 e0, k3) /\
    ta (k_con k3) = ta (k_con k) /\ cur_pid k3 = a /\ prev_pid k3 = parent_pid b /\
    tss_esp0 k3 = top_of_stack a /\ targets_ok A B k3 ((a + 2) * PAGE_4MB) /\
    vmem (k_con k3) = vmem (k_con k) /\ terminals (k_con k3) = terminals (k_con k) /\
    ts (k_con k3) = ts (k_con k) /\ k_kbd k3 = k_kbd k /\ prog_mem k3 = prog_mem k /\ k_rtc k3 = k_rtc k.
Proof.
  intros W Hinit HP. pose proof (ws_ta _ W) as Hta. set (t0 := ta (k_con k)) in *.
  destruct (next_of_range _ Hta) as [Hn1 Hne1]. destruct (next_of_range _ Hn1) as [Hn2 Hne2].
  assert (next_of (next_of (next_of t0)) = t0) as Hcycle.
  { unfold NUM_TERMS in Hta. assert (t0 = 0 \/ t0 = 1 \/ t0 = 2) as [-> | [-> | ->] ] by lia; reflexivity. }
  assert (next_of (next_of t0) <> t0) as Hne3 by (intros E; rewrite E in Hcycle; by apply Hne1).
  destruct (proc_of_some k t0 W Hta) as (a & b & Ha & _ & Hb).
  destruct (proc_of_some k _ W Hn1) as (a1 & b1 & Ha1 & _ & Hb1).
  destruct (proc_of_some k _ W Hn2) as (a2 & b2 & Ha2 & _ & Hb2).
  assert (a1 <> a) as N1 by (intros ->; apply Hne1; by eapply proc_of_inj).
  assert (a2 <> a1) as N2 by (intros ->; apply Hne2; by eapply proc_of_inj).
  assert (a2 <> a) as N3 by (intros ->; apply Hne3; by eapply proc_of_inj).
  destruct (tick_eq A B k e0 f0 st a b a1 b1 _ W Hinit HP Ha Hb Ha1 Hb1) as (P1 & E1 & [_ HP1]).
  set (k1 := after_tick k a a1 _ e0 f0 b b1 P1) in *.
  assert (wf_sched k1) as W1 by (by apply after_tick_wf).
  destruct (tick_eq A B k1 e1 f1 st a1 b1 a2 b2 _ W1 Hinit HP1) as (P2 & E2 & [_ HP2]); try done.
  { unfold k1. rewrite after_tick_pcb by done. by rewrite (proj2 (Z.eqb_neq a1 a)). }
  { unfold k1. rewrite after_tick_pcb by done. by rewrite (proj2 (Z.eqb_neq a2 a)). }
  set (k2 := after_tick k1 a1 a2 _ e1 f1 b1 b2 P2) in *.
  assert (get_pcb a1 k1 = Some b1) as Hb11
    by (unfold k1; rewrite after_tick_pcb by done; by rewrite (proj2 (Z.eqb_neq a1 a))).
  assert (wf_sched k2) as W2 by (by apply after_tick_wf).
  destruct (tick_eq A B k2 e2 f2 st a2 b2 a (saved e0 f0 b) _ W2 Hinit HP2) as (P3 & E3 & HT3); try done.
  { unfold k2. rewrite after_tick_pcb by done. rewrite (proj2 (Z.eqb_neq a2 a1)) by done.
    unfold k1. rewrite after_tick_pcb by done. by rewrite (proj2 (Z.eqb_neq a2 a)). }
  { change (ta (k_con k2)) with (next_of (next_of t0)). rewrite Hcycle. exact Ha. }
  { unfold k2. rewrite after_tick_pcb by done. rewrite (proj2 (Z.eqb_neq a a1)) by congruence.
    unfold k1. rewrite after_tick_pcb by done. by rewrite Z.eqb_refl. }
  change (ta (k_con k2)) with (next_of (next_of t0)) in E3, HT3. rewrite Hcycle in E3, HT3.
  exists a, b. do 5 eexists. split; [done|]. split; [done|]. split; [exact E1|]. split; [exact E2|].
  split; [exact E3|]. split_and!; done.
Qed.

Lemma round_robin_witness :
  exists P o1 k1 o2 k2 k3, pit_handler 100 101 sample_frame (sample_sched P) = Some (o1, k1) /\
    pit_handler 200 201 sample_frame k1 = Some (o2, k2) /\
    pit_handler 300 301 sample_frame k2 = Some (Switched 101 100, k3) /\
    ta (k_con k3) = 1 /\ cur_pid k3 = 1.
Proof.
  destruct (paging_init_ok 0x410000 0x412000) as (P & _ & HP). exists P.
  destruct (round_robin 0x410000 0x412000 (sample_sched P) (USER_BASE, VID_MEM_INDEX) 100 101 200 201 300 301 sample_frame
    (sample_sched_wf P) ltac:(cbn; unfold TOTAL_TERM; lia) HP)
    as (a & b & o1 & k1 & o2 & k2 & k3 & Ha & _ & E1 & E2 & E3 & Et & Ec & _).
  exists o1, k1, o2, k2, k3.
  assert (a = 1) as -> by (revert Ha; intros [= <-]; reflexivity).
  exact (conj E1 (conj E2 (conj E3 (conj Et Ec)))).
Defined.
