(* ===== verification/Family.v ===== *)
(** The processes as three stacks, one per terminal.

    The kernel keeps process numbers, parents and the terminals' active processes
    in three tables.  What they stand for is simple: every terminal has a stack of
    processes, its base shell at the bottom and the process it runs on top, each
    the parent of the one above it.  [family] says that the tables stand for three
    such stacks; starting a program pushes, ending one pops, the end of a base
    shell replaces it, and a tick goes to the next stack. *)
From stdpp Require Import base option list numbers.
From Stdlib Require Import ZArith Lia.
From S2P Require Import Prelude LibString FileSystem Console Keyboard Paging Rtc State Terminal Desks FileOps SysCall Process Scheduler.

(** A process: its number, the frame of the call of [sys_execute] that started
    it, the registers saved when it was last switched away from (the stack
    pointer, then the frame pointer), and its argument. *)
Record proc := mkProc { p_pid : Z; p_frame : Z; p_ctx : Z * Z; p_args : list Z }.

(** The process's block is [b], its parent [parent]. *)
Record block_is (b : pcb_t) (p : proc) (parent : Z) : Prop := {
  bi_parent : parent_pid b = parent;
  bi_frame : ebp b = p_frame p;
  bi_ctx : (cur_esp b, cur_ebp b) = p_ctx p;
  bi_args : cstring (cmd_args b) 0 (p_args p);
  bi_fds : Forall fd_ok (file_descriptor_table b);
}.

Definition parent_of (l : list proc) : Z := match l with [] => -1 | q :: _ => p_pid q end.

(** Every process's block is in the table, its parent the next one down. *)
Fixpoint chain (pb : list pcb_t) (l : list proc) : Prop :=
  match l with
  | [] => True
  | p :: l => (exists b, pb.[p_pid p] = Some b /\ block_is b p (parent_of l)) /\ chain pb l
  end.

Definition stacks_pids (P : Z -> list proc) : list Z := p_pid <$> (P 0 ++ P 1 ++ P 2).

Record family (pb : list pcb_t) (pids active : list Z) (cur : Z) (P : Z -> list proc) (r : Z) : Prop := {
  fa_chain : forall t, 0 <= t < NUM_TERMS -> chain pb (P t);
  fa_base : forall t, 0 <= t < NUM_TERMS -> exists l f c a, P t = l ++ [mkProc t f c a];
  fa_active : forall t, 0 <= t < NUM_TERMS -> active.[t] = p_pid <$> head (P t);
  fa_cur : Some cur = p_pid <$> head (P r);
  fa_distinct : NoDup (stacks_pids P);
  fa_range : Forall (fun i => 0 <= i < MAX_PID) (stacks_pids P);
  fa_taken : forall i, 0 <= i < MAX_PID -> exists v, pids.[i] = Some v /\ (v <> 0 <-> i ∈ stacks_pids P);
  fa_running : 0 <= r < NUM_TERMS;
  fa_len : len active = NUM_TERMS;
}.

Definition upd_stack (t : Z) (l : list proc) (P : Z -> list proc) : Z -> list proc :=
  fun i => if i =? t then l else P i.

(** The lowest number no process has. *)
Definition free_pid (P : Z -> list proc) : option Z :=
  List.find (fun i => negb (existsb (Z.eqb i) (stacks_pids P))) [0; 1; 2; 3; 4; 5].

(** ** Lemmas *)

Lemma term_cases t : 0 <= t < NUM_TERMS -> t = 0 \/ t = 1 \/ t = 2.
Proof. unfold NUM_TERMS. lia. Qed.

Lemma chain_ext pb pb' l :
  (forall p, p ∈ l -> pb'.[p_pid p] = pb.[p_pid p]) -> chain pb l -> chain pb' l.
Proof.
  induction l as [|p l IH]; [done|]. intros H [ (b & Eb & Hb) Hl]. split.
  - exists b. rewrite H by by left. done.
  - apply IH; [|done]. intros q Hq. apply H. by right.
Qed.

Lemma chain_insert pb l i b :
  0 <= i -> i ∉ (p_pid <$> l) -> chain pb l -> chain (<[Z.to_nat i := b]> pb) l.
Proof.
  intros Hi Hn. apply chain_ext. intros p Hp. apply aget_insert_ne; [done|]. intros ->.
  apply Hn. by apply list_elem_of_fmap_2.
Qed.

Lemma elem_pids P i : i ∈ stacks_pids P <-> exists t, 0 <= t < NUM_TERMS /\ i ∈ (p_pid <$> P t).
Proof.
  unfold stacks_pids. rewrite !fmap_app, !elem_of_app. split.
  - intros [H|[H|H] ]; [exists 0|exists 1|exists 2]; (split; [unfold NUM_TERMS; lia|done]).
  - intros (t & Ht & H). destruct (term_cases t Ht) as [-> | [-> | ->] ]; auto.
Qed.

(** Replacing one stack changes the numbers in use by the ones of that stack. *)
Lemma stacks_perm P r l : 0 <= r < NUM_TERMS ->
  exists rest, stacks_pids P ≡ₚ (p_pid <$> P r) ++ rest /\
    stacks_pids (upd_stack r l P) ≡ₚ (p_pid <$> l) ++ rest.
Proof.
  intros Hr. unfold stacks_pids. rewrite !fmap_app.
  destruct (term_cases r Hr) as [-> | [-> | ->] ]; cbn [upd_stack Z.eqb Pos.eqb].
  - by eexists.
  - exists ((p_pid <$> P 0) ++ (p_pid <$> P 2)). split; apply Permutation_app_swap_app.
  - exists ((p_pid <$> P 0) ++ (p_pid <$> P 1)). split; rewrite (app_assoc (p_pid <$> P 0) (p_pid <$> P 1)); apply Permutation_app_comm.
Qed.

(** Who is there after a push, a pop and a replacement. *)
Lemma push_pids P r p :
  0 <= r < NUM_TERMS -> forall j, j ∈ stacks_pids (upd_stack r (p :: P r) P) <-> j = p_pid p \/ j ∈ stacks_pids P.
Proof.
  intros Hr j. destruct (stacks_perm P r (p :: P r) Hr) as (rest & Hold & Hnew).
  rewrite Hnew, Hold. cbn. by rewrite elem_of_cons.
Qed.

Lemma pop_pids P r p l :
  0 <= r < NUM_TERMS -> P r = p :: l -> NoDup (stacks_pids P) ->
  forall j, j ∈ stacks_pids (upd_stack r l P) <-> j <> p_pid p /\ j ∈ stacks_pids P.
Proof.
  intros Hr E HN j. destruct (stacks_perm P r l Hr) as (rest & Hold & Hnew). rewrite E in Hold. cbn in Hold.
  rewrite Hold in HN |- *. rewrite Hnew. pose proof (NoDup_cons_1_1 _ _ HN) as Hp. rewrite elem_of_cons.
  split; [|tauto]. intros Hj. split; [|by right]. by intros ->.
Qed.

Lemma replace_pids P r p p' l :
  0 <= r < NUM_TERMS -> P r = p :: l -> p_pid p' = p_pid p ->
  stacks_pids (upd_stack r (p' :: l) P) = stacks_pids P.
Proof.
  intros Hr E Ep. unfold stacks_pids, upd_stack.
  destruct (term_cases r Hr) as [-> | [-> | ->] ]; cbn [Z.eqb Pos.eqb]; rewrite E, !fmap_app; cbn; by rewrite Ep.
Qed.

Section family.
Context (pb : list pcb_t) (pids active : list Z) (cur : Z) (P : Z -> list proc) (r : Z).
Context (FA : family pb pids active cur P r).

Lemma family_cur : exists p l, P r = p :: l /\ p_pid p = cur.
Proof.
  pose proof (fa_cur _ _ _ _ _ _ FA) as H. destruct (P r) as [|p l]; [done|]. injection H as ->. by exists p, l.
Qed.

Lemma stack_nonempty t : 0 <= t < NUM_TERMS -> exists p l, P t = p :: l.
Proof.
  intros Ht. destruct (fa_base _ _ _ _ _ _ FA t Ht) as (l & f & c & a & ->).
  destruct l as [|p l]; by eexists _, _.
Qed.

Lemma pid_range t p : 0 <= t < NUM_TERMS -> p ∈ P t -> 0 <= p_pid p < MAX_PID.
Proof.
  intros Ht Hp. assert (p_pid p ∈ stacks_pids P) as Hin.
  { apply elem_pids. exists t. split; [done|]. by apply list_elem_of_fmap_2. }
  apply list_elem_of_lookup in Hin as [j Hj].
  exact (Forall_lookup_1 _ _ _ _ (fa_range _ _ _ _ _ _ FA) Hj).
Qed.

Lemma base_taken t : 0 <= t < NUM_TERMS -> t ∈ stacks_pids P.
Proof.
  intros Ht. apply elem_pids. exists t. split; [done|].
  destruct (fa_base _ _ _ _ _ _ FA t Ht) as (l & f & c & a & ->). rewrite fmap_app, elem_of_app. right.
  by left.
Qed.

(** The first free entry of the table is the lowest number no process has. *)
Lemma first_pid_free i : first_pid pids i -> i < MAX_PID ->
  (i ∉ stacks_pids P) /\ 2 < i.
Proof.
  intros (Hi & Hlow & Hz) Hlt. specialize (Hz Hlt).
  assert (i ∉ stacks_pids P) as Hn.
  { destruct (fa_taken _ _ _ _ _ _ FA i ltac:(lia)) as (v & Ev & Hv).
    intros H. apply Hv in H. congruence. }
  split; [done|]. destruct (Z_lt_le_dec 2 i); [done|]. exfalso. apply Hn, base_taken. unfold NUM_TERMS. lia.
Qed.

Lemma free_pid_spec :
  match free_pid P with
  | Some i => first_pid pids i /\ i < MAX_PID
  | None => first_pid pids MAX_PID
  end.
Proof.
  assert (forall i, existsb (Z.eqb i) (stacks_pids P) = true <-> i ∈ stacks_pids P) as Hex.
  { intros i. rewrite existsb_exists. setoid_rewrite list_elem_of_In. split.
    - intros (x & Hx & ->%Z.eqb_eq). done.
    - intros H. exists i. split; [done|]. apply Z.eqb_refl. }
  assert (forall i, 0 <= i < MAX_PID -> existsb (Z.eqb i) (stacks_pids P) = true ->
    forall p, pids.[i] = Some p -> p <> 0) as Hbusy.
  { intros i Hi H p Ep. apply Hex in H. destruct (fa_taken _ _ _ _ _ _ FA i Hi) as (v & Ev & Hv).
    apply Hv in H. congruence. }
  assert (forall i, 0 <= i < MAX_PID -> existsb (Z.eqb i) (stacks_pids P) = false -> pids.[i] = Some 0) as Hfree.
  { intros i Hi H. destruct (fa_taken _ _ _ _ _ _ FA i Hi) as (v & Ev & Hv).
    destruct (Z.eq_dec v 0) as [->|Hne]; [done|]. apply Hv, Hex in Hne. congruence. }
  unfold free_pid, MAX_PID in *. cbn [List.find].
  repeat match goal with
  | |- context [existsb (Z.eqb ?i) (stacks_pids P)] =>
      destruct (existsb (Z.eqb i) (stacks_pids P)) eqn:?; cbn [negb]
  end; unfold first_pid, MAX_PID; split_and?; try lia; try (intros _; by apply Hfree);
    intros j p Hj;
    (assert (j = 0 \/ j = 1 \/ j = 2 \/ j = 3 \/ j = 4 \/ j = 5) as Hjs by lia);
    destruct Hjs as [-> | [-> | [-> | [-> | [-> | ->] ] ] ] ]; try lia; by apply Hbusy.
Qed.
End family.

(** ** How the operations move the stacks *)

Section moves.
Context (pb : list pcb_t) (pids active : list Z) (cur : Z) (P : Z -> list proc) (r : Z).
Context (FA : family pb pids active cur P r).

Lemma upd_stack_eq t l : upd_stack t l P t = l.
Proof. unfold upd_stack. by rewrite Z.eqb_refl. Qed.

Lemma upd_stack_ne t l t' : t' <> t -> upd_stack t l P t' = P t'.
Proof. intros H. unfold upd_stack. by rewrite (proj2 (Z.eqb_neq _ _) H). Qed.

(** The active entries after the running terminal's stack has changed. *)
Lemma active_upd p l t : 0 <= t < NUM_TERMS ->
  (<[Z.to_nat r := p_pid p]> active).[t] = p_pid <$> head (upd_stack r (p :: l) P t).
Proof.
  intros Ht. pose proof (fa_running _ _ _ _ _ _ FA) as Hr. destruct (Z.eq_dec t r) as [->|Hne].
  - rewrite upd_stack_eq. apply aget_insert_eq. by rewrite (fa_len _ _ _ _ _ _ FA).
  - rewrite upd_stack_ne by done. rewrite aget_insert_ne by lia. apply FA. done.
Qed.

(** A new process [p] on top of the running stack. *)
Lemma family_push p b :
  p_pid p ∉ stacks_pids P -> 0 <= p_pid p < MAX_PID -> len pb = MAX_PID -> len pids = MAX_PID ->
  block_is b p cur ->
  family (<[Z.to_nat (p_pid p) := b]> pb) (<[Z.to_nat (p_pid p) := 1]> pids)
    (<[Z.to_nat r := p_pid p]> active) (p_pid p) (upd_stack r (p :: P r) P) r.
Proof.
  intros Hn Hi Hpb Hpids Hb. pose proof (fa_running _ _ _ _ _ _ FA) as Hr.
  destruct (family_cur _ _ _ _ _ _ FA) as (p0 & l0 & E0 & Ec).
  destruct (stacks_perm P r (p :: P r) Hr) as (rest & Hold & Hnew).
  assert (stacks_pids (upd_stack r (p :: P r) P) ≡ₚ p_pid p :: stacks_pids P) as HP by (by rewrite Hnew, Hold).
  assert (forall t, 0 <= t < NUM_TERMS -> chain (<[Z.to_nat (p_pid p) := b]> pb) (P t)) as Hch.
  { intros t Ht. apply chain_insert; [lia| |by apply FA]. intros H. apply Hn, elem_pids. by exists t. }
  split; try done.
  - intros t Ht. destruct (Z.eq_dec t r) as [->|Hne]; [|rewrite upd_stack_ne by done; by apply Hch].
    rewrite upd_stack_eq. split; [|by apply Hch]. exists b. split; [apply aget_insert_eq; lia|].
    rewrite E0. cbn [parent_of]. by rewrite Ec.
  - intros t Ht. destruct (fa_base _ _ _ _ _ _ FA t Ht) as (l & f & c & a & E).
    destruct (Z.eq_dec t r) as [->|Hne]; [|rewrite upd_stack_ne by done; by exists l, f, c, a].
    rewrite upd_stack_eq, E. by exists (p :: l), f, c, a.
  - intros t Ht. by apply active_upd.
  - by rewrite upd_stack_eq.
  - rewrite HP. constructor; [done|]. apply FA.
  - rewrite HP. constructor; [done|]. apply FA.
  - intros i Hir. destruct (fa_taken _ _ _ _ _ _ FA i Hir) as (v & Ev & Hv).
    destruct (Z.eq_dec i (p_pid p)) as [->|Hne].
    + exists 1. split; [apply aget_insert_eq; lia|]. rewrite HP, elem_of_cons. split; [by left|done].
    + exists v. rewrite aget_insert_ne by lia. split; [done|]. rewrite HP, elem_of_cons, Hv. split; [by right|by intros [|] ].
  - by rewrite length_insert; apply FA.
Qed.

(** The running process ends and its parent [q] goes on. *)
Lemma family_pop p q l pb' :
  P r = p :: q :: l -> len pids = MAX_PID -> (forall j, j <> p_pid p -> pb'.[j] = pb.[j]) ->
  family pb' (<[Z.to_nat (p_pid p) := 0]> pids) (<[Z.to_nat r := p_pid q]> active) (p_pid q)
    (upd_stack r (q :: l) P) r.
Proof.
  intros E Hpids Hpb. pose proof (fa_running _ _ _ _ _ _ FA) as Hr.
  destruct (stacks_perm P r (q :: l) Hr) as (rest & Hold & Hnew). rewrite E in Hold. cbn in Hold, Hnew.
  assert (stacks_pids P ≡ₚ p_pid p :: stacks_pids (upd_stack r (q :: l) P)) as HP by (by rewrite Hnew, Hold).
  pose proof (fa_distinct _ _ _ _ _ _ FA) as HD. rewrite HP in HD.
  pose proof (NoDup_cons_1_1 _ _ HD) as Hp. apply NoDup_cons_1_2 in HD.
  pose proof (fa_range _ _ _ _ _ _ FA) as HF. rewrite HP in HF. apply Forall_cons_1 in HF as [Hpr HF].
  split; try done.
  - intros t Ht. apply (chain_ext pb).
    + intros q' Hq'. apply Hpb. intros Eq. apply Hp. rewrite <- Eq. apply elem_pids.
      exists t. split; [done|]. by apply list_elem_of_fmap_2.
    + pose proof (fa_chain _ _ _ _ _ _ FA t Ht) as Hc. destruct (Z.eq_dec t r) as [->|Hne].
      * rewrite upd_stack_eq. rewrite E in Hc. apply Hc.
      * by rewrite upd_stack_ne.
  - intros t Ht. destruct (fa_base _ _ _ _ _ _ FA t Ht) as (l' & f & c & a & E').
    destruct (Z.eq_dec t r) as [->|Hne]; [|rewrite upd_stack_ne by done; by exists l', f, c, a].
    rewrite upd_stack_eq. rewrite E in E'. destruct l' as [|p' l']; [done|]. injection E' as -> E'.
    exists l', f, c, a. done.
  - intros t Ht. by apply active_upd.
  - by rewrite upd_stack_eq.
  - intros i Hir. destruct (fa_taken _ _ _ _ _ _ FA i Hir) as (v & Ev & Hv).
    rewrite HP, elem_of_cons in Hv. destruct (Z.eq_dec i (p_pid p)) as [->|Hne].
    + exists 0. split; [apply aget_insert_eq; lia|]. done.
    + exists v. rewrite aget_insert_ne by lia. split; [done|]. rewrite Hv. split; [by intros [|]|by right].
  - by rewrite length_insert; apply FA.
Qed.

(** The base shell of the running terminal is replaced. *)
Lemma family_restart p p' b :
  P r = [p] -> p_pid p' = p_pid p -> len pb = MAX_PID -> len pids = MAX_PID -> block_is b p' (-1) ->
  family (<[Z.to_nat (p_pid p) := b]> pb) (<[Z.to_nat (p_pid p) := 1]> pids)
    (<[Z.to_nat r := p_pid p]> active) (p_pid p) (upd_stack r [p'] P) r.
Proof.
  intros E Ep Hpb Hpids Hb. pose proof (fa_running _ _ _ _ _ _ FA) as Hr.
  destruct (fa_base _ _ _ _ _ _ FA r Hr) as (l & f & c & a & E').
  assert (l = [] /\ p = mkProc r f c a) as [-> Epr].
  { rewrite E in E'. destruct l as [|? [|] ]; try done. by injection E' as ->. }
  assert (p_pid p = r) as Er by (by rewrite Epr).
  destruct (stacks_perm P r [p'] Hr) as (rest & Hold & Hnew). rewrite E in Hold. cbn in Hold, Hnew.
  rewrite Ep in Hnew. assert (stacks_pids (upd_stack r [p'] P) ≡ₚ stacks_pids P) as HP by (by rewrite Hnew, Hold).
  pose proof (fa_distinct _ _ _ _ _ _ FA) as HD. rewrite Hold in HD. pose proof (NoDup_cons_1_1 _ _ HD) as Hp. apply NoDup_cons_1_2 in HD.
  unfold NUM_TERMS, MAX_PID in *.
  split; try done.
  - intros t Ht. destruct (Z.eq_dec t r) as [->|Hne].
    + rewrite upd_stack_eq. split; [|done]. exists b. rewrite Ep. split; [apply aget_insert_eq; lia|]. done.
    + rewrite upd_stack_ne by done. apply chain_insert; [lia| |by apply FA].
      intros Hin. apply Hp. assert (p_pid p ∈ stacks_pids (upd_stack r [] P)) as H.
      { apply elem_pids. exists t. rewrite upd_stack_ne by done. done. }
      destruct (stacks_perm P r [] Hr) as (rest' & Hold' & Hnew'). rewrite E in Hold'. cbn in Hold', Hnew'.
      rewrite Hnew' in H. rewrite Hold in Hold'. apply Permutation_cons_inv in Hold'. by rewrite Hold'.
  - intros t Ht. destruct (Z.eq_dec t r) as [->|Hne].
    + rewrite upd_stack_eq. destruct p' as [i f' c' a']. cbn in Ep. exists [], f', c', a'.
      cbn. by rewrite Ep, Er.
    + rewrite upd_stack_ne by done. by apply FA.
  - intros t Ht. rewrite <- Ep. by apply active_upd.
  - rewrite upd_stack_eq. cbn. by rewrite Ep.
  - rewrite HP. apply FA.
  - rewrite HP. apply FA.
  - intros i Hir. destruct (fa_taken _ _ _ _ _ _ FA i Hir) as (v & Ev & Hv).
    destruct (Z.eq_dec i (p_pid p)) as [->|Hne].
    + exists 1. split; [apply aget_insert_eq; lia|]. rewrite HP, Hold. split; [by left|done].
    + exists v. rewrite aget_insert_ne by lia. split; [done|]. by rewrite HP.
  - rewrite length_insert. apply FA.
Qed.

(** The tick: the registers of the running process are saved, the next terminal's
    process runs. *)
Lemma family_tick p l b k_esp k_ebp cur' :
  P r = p :: l -> pb.[p_pid p] = Some b ->
  Some cur' = p_pid <$> head (P (next_of r)) ->
  family (<[Z.to_nat (p_pid p) := saved k_esp k_ebp b]> pb) pids active cur'
    (upd_stack r (mkProc (p_pid p) (p_frame p) (k_esp, k_ebp) (p_args p) :: l) P) (next_of r).
Proof.
  intros E Eb Hcur. pose proof (fa_running _ _ _ _ _ _ FA) as Hr.
  destruct (next_of_range _ Hr) as [Hn Hne]. pose proof (aget_range _ _ _ Eb) as Hpr.
  set (p' := mkProc _ _ _ _).
  assert (forall t, p_pid <$> upd_stack r (p' :: l) P t = p_pid <$> P t) as Hsame.
  { intros t. destruct (Z.eq_dec t r) as [->|Ht]; [by rewrite upd_stack_eq, E|by rewrite upd_stack_ne]. }
  assert (stacks_pids (upd_stack r (p' :: l) P) = stacks_pids P) as HP.
  { unfold stacks_pids. by rewrite !fmap_app, !Hsame. }
  pose proof (fa_distinct _ _ _ _ _ _ FA) as HD.
  destruct (stacks_perm P r [] Hr) as (rest & Hold & Hnew). rewrite E in Hold. cbn in Hold, Hnew.
  rewrite Hold in HD. pose proof (NoDup_cons_1_1 _ _ HD) as Hp. apply NoDup_cons_1_2 in HD.
  split; rewrite ?HP; try apply FA; try done.
  - intros t Ht. pose proof (fa_chain _ _ _ _ _ _ FA t Ht) as Hc. destruct (Z.eq_dec t r) as [->|Htr].
    + rewrite upd_stack_eq. rewrite E in Hc. destruct Hc as [ (b0 & Eb0 & [H1 H2 H3 H4 H5]) Hc]. split.
      * exists (saved k_esp k_ebp b). split; [by apply aget_insert_eq|].
        assert (b0 = b) as -> by congruence. by split.
      * apply chain_insert; [lia| |done]. intros H. apply Hp, elem_of_app. by left.
    + rewrite upd_stack_ne by done. apply chain_insert; [lia| |done]. intros H. apply Hp.
      apply elem_of_app. right. rewrite <- Hnew. apply elem_pids. exists t. by rewrite upd_stack_ne.
  - intros t Ht. destruct (fa_base _ _ _ _ _ _ FA t Ht) as (l' & f & c & a & E').
    destruct (Z.eq_dec t r) as [->|Htr]; [|rewrite upd_stack_ne by done; by exists l', f, c, a].
    rewrite upd_stack_eq. rewrite E in E'. destruct l' as [|q l'].
    + injection E' as -> ->. by exists [], f, (k_esp, k_ebp), a.
    + injection E' as -> ->. by exists (p' :: l'), f, c, a.
  - intros t Ht. destruct (Z.eq_dec t r) as [->|Htr].
    + rewrite upd_stack_eq. cbn. rewrite (fa_active _ _ _ _ _ _ FA r Hr), E. done.
    + rewrite upd_stack_ne by done. by apply FA.
  - rewrite upd_stack_ne by done. done.
Qed.
End moves.
