(* ===== verification/System.v ===== *)
(** The whole kernel against one specification: three desks, three stacks of
    processes and a clock.

    Every way into the kernel that changes who runs or what is on a screen is an
    event: a key, a character the running program prints, a clock interrupt, a
    timer interrupt, the system calls that start and end a program, an exception.
    [spec_step] says what each does to the specification's state, and what it
    leaves to the hardware; [run_sys] is the code's entry point.  [models] relates
    the two states. *)
From stdpp Require Import base option list numbers.
From Stdlib Require Import ZArith Lia.
From S2P Require Import Prelude LibString FileSystem Console I8259 Keyboard Paging Rtc Printf Idt State Terminal Desks Frame FileOps SysCall Process Scheduler Family.

Record machine := mkMachine {
  m_desks : desks;
  m_procs : Z -> list proc;
  m_clock : Z;              (* clock interrupts counted *)
}.

Definition running (M : machine) : Z := ds_running (m_desks M).
Definition on_desks (f : desks -> desks) (M : machine) : machine :=
  mkMachine (f (m_desks M)) (m_procs M) (m_clock M).

(** ** The events and what they do *)

Inductive sys_event :=
| Input (e : event)
| Clock
| Tick (k_esp k_ebp : Z) (st : frame)
| Exec (command s : list Z) (st : frame)
| Halt (status : Z) (st : frame)
| Fault (junk : list Z) (id err_code : Z) (msg : list Z) (st : frame).

(** What is left to the hardware: nothing, the way out of [sys_execute] or of
    [halt_helper], or another kernel stack. *)
Inductive result :=
| Quiet
| Leaves (o : outcome)
| Switches (to_ebp to_esp : Z).

Definition run_sys (e : sys_event) (k : kernel) : option (result * kernel) :=
  match e with
  | Input e => k ← run_event e k; Some (Quiet, k)
  | Clock =>
      '(c, p, r) ← rtc_handler (k_con k) (k_pic k) (k_rtc k);
      Some (Quiet, k <| k_con := c |> <| k_pic := p |> <| k_rtc := r |>)
  | Tick k_esp k_ebp st =>
      '(o, k) ← pit_handler k_esp k_ebp st k;
      Some (match o with Ran o => Leaves o | Switched to_ebp to_esp => Switches to_ebp to_esp end, k)
  | Exec command _ st => '(o, k) ← sys_execute command st k; Some (Leaves o, k)
  | Halt status st => '(o, k) ← sys_halt status st k; Some (Leaves o, k)
  | Fault junk id err_code _ st => '(o, k) ← handle_exception junk id err_code st k; Some (Leaves o, k)
  end.

Fixpoint run_sys_all (es : list sys_event) (k : kernel) : option (list result * kernel) :=
  match es with
  | [] => Some ([], k)
  | e :: es => '(r, k) ← run_sys e k; '(rs, k) ← run_sys_all es k; Some (r :: rs, k)
  end.

(** Once a second the cursor appears on the shown desk, half a second later it
    goes. *)
Definition blink (count : Z) (S : desks) : desks :=
  let S := if Z.rem count MAX_VIR_FREQ =? 0
           then upd_desk (ds_shown S) (on_tty (tty_op PutCursor)) S else S in
  if (Z.rem count (Z.quot MAX_VIR_FREQ 2) =? 0) && negb (Z.rem count MAX_VIR_FREQ =? 0)
  then upd_desk (ds_shown S) (on_tty (tty_op RemCursor)) S else S.

(** A halting program takes the line being typed at its desk with it.  It does
    so cleanly only when the desk is shown: otherwise the line keeps its length
    and every character of it becomes a zero. *)
Definition wipe_line (shown : bool) (d : desk) : desk :=
  mkDesk (if shown then [] else replicate (length (d_line d)) 0) (d_tty d).

Definition shell_string : list Z := [115; 104; 101; 108; 108].

Definition entry_point (c : list Z) : Z := match ld32 c OFFSET_24 with Some e => e | None => 0 end.

Definition to_user (c : list Z) : outcome := ToUser (entry_point c) (PROGRAM_VIR_ADDR + CONST_4MB - 4).

Section spec.
Context (F : afs).

Definition new_proc (pid : Z) (st : frame) (args : list Z) : proc :=
  mkProc pid (st_ebp st) (top_of_stack pid, top_of_stack pid) args.

Definition spec_exec (s : list Z) (st : frame) (M : machine) : outcome * machine :=
  match executable F (command_name s) with
  | None => (Returned (-1), M)
  | Some (_, c) =>
      match free_pid (m_procs M) with
      | None => (Returned FUNNY_NUMBER, M)
      | Some i => (to_user c, mkMachine (m_desks M)
          (upd_stack (running M) (new_proc i st (command_args s) :: m_procs M (running M)) (m_procs M))
          (m_clock M))
      end
  end.

Definition spec_halt (status : Z) (st : frame) (M : machine) : outcome * machine :=
  let t := running M in
  match m_procs M t with
  | p :: ((_ :: _) as l) =>
      (ResumeAt (p_frame p) status, mkMachine
         (upd_desk t (wipe_line (ds_shown (m_desks M) =? t)) (m_desks M))
         (upd_stack t l (m_procs M)) (m_clock M))
  | [p] =>
      match executable F shell_string with
      | None => (Returned (-1), M)
      | Some (_, c) => (to_user c, mkMachine (m_desks M)
          (upd_stack t [new_proc (p_pid p) st []] (m_procs M)) (m_clock M))
      end
  | [] => (Returned (-1), M)
  end.

Definition spec_tick (k_esp k_ebp : Z) (M : machine) : result * machine :=
  let t := running M in
  match m_procs M t, m_procs M (next_of t) with
  | p :: l, p' :: _ =>
      (Switches (p_ctx p').2 (p_ctx p').1, mkMachine
         (mkDesks (ds_keys (m_desks M)) (ds_shown (m_desks M)) (next_of t) (ds_of (m_desks M)))
         (upd_stack t (mkProc (p_pid p) (p_frame p) (k_esp, k_ebp) (p_args p) :: l) (m_procs M))
         (m_clock M))
  | _, _ => (Quiet, M)
  end.

(** The exception's message: the shown desk's display is cleared, the program's
    own desk gets the text. *)
Definition spec_banner (msg : list Z) (err_code : Z) (S : desks) : desks :=
  upd_desk (ds_running S) (on_tty (tty_print (banner_text msg err_code)))
    (upd_desk (ds_shown S) (on_tty (tty_op ClearScreen)) S).

Definition spec_step (e : sys_event) (M : machine) : result * machine :=
  match e with
  | Input e => (Quiet, on_desks (step_desks e) M)
  | Clock => let c := s32 (m_clock M + 1) in (Quiet, mkMachine (blink c (m_desks M)) (m_procs M) c)
  | Tick k_esp k_ebp _ => spec_tick k_esp k_ebp M
  | Exec _ s st => let '(o, M) := spec_exec s st M in (Leaves o, M)
  | Halt status st => let '(o, M) := spec_halt (u8 status) st M in (Leaves o, M)
  | Fault _ _ err_code msg st =>
      let '(o, M) := spec_halt EXCEPTION_HALT st (on_desks (spec_banner msg err_code) M) in (Leaves o, M)
  end.

Fixpoint spec_steps (es : list sys_event) (M : machine) : list result * machine :=
  match es with
  | [] => ([], M)
  | e :: es => let '(r, M) := spec_step e M in let '(rs, M) := spec_steps es M in (r :: rs, M)
  end.
End spec.

Definition sys_event_ok (e : sys_event) : Prop :=
  match e with
  | Input e => event_ok e
  | Clock | Tick _ _ _ => True
  | Exec command s st => cstring command 0 s /\ frame_ok st /\ len (command_args s) < CMD_LINE_LEN
  | Halt _ st => frame_ok st
  | Fault junk id err_code msg st =>
      length junk = 64%nat /\ exception_messages.[id] = Some msg /\ is_u32 err_code /\ frame_ok st
  end.

(** ** The relation *)

Section models.
Context (pt_addr pt_user_addr : Z) (F : afs) (room : Z).
Notation implements := (implements pt_addr pt_user_addr).

(** [room] is the number of bytes a program page has for an image. *)
Record models (k : kernel) (M : machine) : Prop := {
  mo_image : represents (k_img k) F;
  mo_desks : implements ((cur_pid k + 2) * PAGE_4MB) k (m_desks M);
  mo_procs : wf_procs k;
  mo_room : Forall (fun m => room <= len m) (prog_mem k);
  mo_rtc : wf_rtc (k_rtc k);
  mo_clock : count_rtc (k_rtc k) = m_clock M;
  mo_init : TOTAL_TERM < terminal_init k;
  mo_family : family (pcbs k) (pid_array k) (active_pid <$> terminals (k_con k)) (cur_pid k)
    (m_procs M) (running M);
}.

(** Every program of the file system has an entry point and fits; one of them is
    the shell. *)
Record bootable : Prop := {
  bt_fits : forall nm ino c, executable F nm = Some (ino, c) ->
    (exists e, ld32 c OFFSET_24 = Some e) /\ len c <= room;
  bt_shell : exists ino c, executable F shell_string = Some (ino, c);
}.

(** *** Desks under changes of the processes *)

Lemma cursors_lookup (l l' : list term_t) t :
  cursor_of <$> l' = cursor_of <$> l -> cursor_of <$> l'.[t] = cursor_of <$> l.[t].
Proof. intros H. rewrite <- !aget_fmap. by rewrite H. Qed.

(** A change that moves no cursor and draws nothing keeps the displays; the lines
    have to be looked at. *)
Lemma implements_lines prog prog' k k' S S' :
  implements prog k S ->
  vmem (k_con k') = vmem (k_con k) -> video_mem (k_con k') = video_mem (k_con k) ->
  ts (k_con k') = ts (k_con k) -> ta (k_con k') = ta (k_con k) ->
  cursor_of <$> terminals (k_con k') = cursor_of <$> terminals (k_con k) ->
  term_init_done k' = term_init_done k -> keys_of (k_kbd k') = keys_of (k_kbd k) ->
  paging_ok pt_addr pt_user_addr (k_pag k') (prog', video_mem (k_con k) / PAGE_BYTES) ->
  line_sized (keyboard_buf (k_kbd k')) (key_idx (k_kbd k')) ->
  Forall (fun T => line_sized (terminal_buf T) (buf_idx T)) (terminals (k_con k')) ->
  ds_keys S' = ds_keys S -> ds_shown S' = ds_shown S -> ds_running S' = ds_running S ->
  (forall t, 0 <= t < NUM_TERMS -> d_tty (ds_of S' t) = d_tty (ds_of S t) /\
    exists buf idx, term_line k' t = Some (buf, idx) /\ line_is buf idx (d_line (ds_of S' t))) ->
  implements prog' k' S'.
Proof.
  intros [ [ [Hvm Hvid HT Hcur Hts Hta] Hfl _ _] [HT1 HT2] Hi Hk Hs Hr HD]
    Evm Evid Ets Eta Ecur Einit Ekeys HP Hl Hls Ek Es Er HL.
  assert (length (terminals (k_con k')) = length (terminals (k_con k))) as Elen.
  { pose proof (f_equal length Ecur) as H. by rewrite !length_fmap in H. }
  split.
  - split; [split| |done|done].
    + by rewrite Evm.
    + by rewrite Evid.
    + by rewrite Elen.
    + apply Forall_lookup_2. intros i T' HT'. rewrite <- aget_nat in HT'.
      pose proof (cursors_lookup _ _ (Z.of_nat i) Ecur) as H. rewrite HT' in H.
      destruct ((terminals (k_con k)).[Z.of_nat i]) as [T|] eqn:ET; [|done]. cbn in H.
      pose proof (aget_Forall _ _ _ _ Hcur ET) as Hok. unfold term_ok in *. unfold cursor_of in H.
      injection H as -> ->. done.
    + by rewrite Ets.
    + by rewrite Eta.
    + assert (flags_ok (keys_of (k_kbd k'))) as [] by (rewrite Ekeys; destruct Hfl; by split). by split.
  - split; [by rewrite Evid, Eta, Ets|]. by rewrite Evid.
  - by rewrite Einit.
  - by rewrite Ekeys, Ek.
  - by rewrite Ets, Es.
  - by rewrite Eta, Er.
  - intros t Ht. destruct (HL t Ht) as [Etty Hline]. split; [done|].
    destruct (HD t Ht) as [_ (T & ET & Hpage)]. rewrite Ets, Etty.
    pose proof (cursors_lookup _ _ t Ecur) as H. rewrite ET in H.
    destruct ((terminals (k_con k')).[t]) as [T'|] eqn:ET'; [|done]. cbn in H.
    unfold cursor_of in H. injection H as Ex Ey. exists T'. split; [done|]. by rewrite Ex, Ey, Evm.
Qed.

(** Another program runs on the running terminal. *)
Lemma implements_process prog prog' k k' S T i :
  implements prog k S -> (terminals (k_con k)).[ta (k_con k)] = Some T ->
  terminals (k_con k') = <[Z.to_nat (ta (k_con k)) := T <| active_pid := i |>]> (terminals (k_con k)) ->
  k_kbd k' = k_kbd k -> vmem (k_con k') = vmem (k_con k) -> video_mem (k_con k') = video_mem (k_con k) ->
  ts (k_con k') = ts (k_con k) -> ta (k_con k') = ta (k_con k) -> term_init_done k' = term_init_done k ->
  paging_ok pt_addr pt_user_addr (k_pag k') (prog', video_mem (k_con k) / PAGE_BYTES) ->
  implements prog' k' S.
Proof.
  intros I ET Eterm Ekb Evm Evid Ets Eta Einit HP. pose proof (aget_range _ _ _ ET) as Hr.
  pose proof (im_wf _ _ _ _ _ I) as [_ _ Hl Hls].
  apply (implements_lines prog prog' k k' S S I); try done; rewrite ?Ekb; try done.
  - rewrite Eterm, list_fmap_insert. apply list_insert_id. rewrite list_lookup_fmap.
    rewrite <- aget_nat, Z2Nat.id, ET by lia. done.
  - rewrite Eterm. apply Forall_insert; [done|]. exact (aget_Forall _ _ _ _ Hls ET).
  - intros t Ht. split; [done|]. destruct (im_desks _ _ _ _ _ I t Ht) as [ (buf & idx & HL & Hline) _].
    exists buf, idx. split; [|done]. unfold term_line in *. rewrite Ets, Ekb, Eterm.
    destruct (t =? ts (k_con k)); [done|]. destruct (Z.eq_dec (ta (k_con k)) t) as [<-|Hne].
    + rewrite aget_insert_eq by done. by rewrite ET in HL.
    + by rewrite aget_insert_ne by lia.
Qed.

(** The running terminal goes back to process [i] and loses its line. *)
Lemma implements_halted prog prog' k k' S T i :
  implements prog k S -> (terminals (k_con k)).[ta (k_con k)] = Some T ->
  terminals (k_con k') = <[Z.to_nat (ta (k_con k)) :=
    T <| active_pid := i |> <| terminal_buf := replicate 128 0 |>]> (terminals (k_con k)) ->
  k_kbd k' = (if ts (k_con k) =? ta (k_con k)
    then (k_kbd k) <| keyboard_buf := replicate 128 0 |> <| key_idx := 0 |> else k_kbd k) ->
  vmem (k_con k') = vmem (k_con k) -> video_mem (k_con k') = video_mem (k_con k) ->
  ts (k_con k') = ts (k_con k) -> ta (k_con k') = ta (k_con k) -> term_init_done k' = term_init_done k ->
  paging_ok pt_addr pt_user_addr (k_pag k') (prog', video_mem (k_con k) / PAGE_BYTES) ->
  implements prog' k' (upd_desk (ds_running S) (wipe_line (ds_shown S =? ds_running S)) S).
Proof.
  intros I ET Eterm Ekb Evm Evid Ets Eta Einit HP. pose proof (aget_range _ _ _ ET) as Hr.
  pose proof (im_wf _ _ _ _ _ I) as [_ _ Hl Hls]. pose proof (aget_Forall _ _ _ _ Hls ET) as [_ Hidx].
  rewrite <- (im_shown _ _ _ _ _ I), <- (im_running _ _ _ _ _ I).
  apply (implements_lines prog prog' k k' S _ I); try done.
  - rewrite Eterm, list_fmap_insert. apply list_insert_id. rewrite list_lookup_fmap.
    rewrite <- aget_nat, Z2Nat.id, ET by lia. done.
  - rewrite Ekb. by destruct (ts (k_con k) =? ta (k_con k)).
  - rewrite Ekb. by destruct (ts (k_con k) =? ta (k_con k)).
  - rewrite Eterm. apply Forall_insert; done.
  - intros t Ht. destruct (im_desks _ _ _ _ _ I t Ht) as [ (buf & idx & HL & Hline) _].
    split; [cbn; by destruct (t =? ta (k_con k))|]. unfold term_line in *. rewrite Ets, Ekb, Eterm.
    cbn [ds_of upd_desk]. destruct (Z.eqb_spec t (ta (k_con k))) as [->|Hne]; cbn [d_line wipe_line].
    + rewrite (Z.eqb_sym (ta (k_con k))) in HL |- *. destruct (ts (k_con k) =? ta (k_con k)).
      * exists (replicate 128 0), 0. split; [done|]. by split_and!.
      * rewrite aget_insert_eq by done. rewrite ET in HL. injection HL as <- <-.
        exists (replicate 128 0), (buf_idx T). split; [done|]. destruct Hline as (_ & Hlen & -> & _).
        unfold line_is, KEY_BUF_SIZE in *. rewrite length_replicate. split_and!; try done.
        -- apply Forall_replicate. unfold is_byte. lia.
        -- rewrite <- replicate_add. f_equal. lia.
    + rewrite aget_insert_ne by lia. exists buf, idx. split; [|done].
      destruct (Z.eqb_spec t (ts (k_con k))) as [->|]; [|done].
      by rewrite (proj2 (Z.eqb_neq _ _) Hne).
Qed.
End models.

(** *** The steps *)

Section steps.
Context (pt_addr pt_user_addr : Z) (F : afs) (room : Z).
Notation implements := (implements pt_addr pt_user_addr).
Notation models := (models pt_addr pt_user_addr F room).

(** Everything but the screens, the keyboard and the devices is as it was. *)
Lemma models_view k k' M D :
  models k M -> same_view k k' -> implements ((cur_pid k + 2) * PAGE_4MB) k' D ->
  ds_running D = running M -> models k' (mkMachine D (m_procs M) (m_clock M)).
Proof.
  intros [HR HD [Wp Wb Wm Wf Wta Wt] Hroom Hrtc Hclock Hinit HF] V I Hr.
  injection V as Ertc Eimg _ Epcbs Epids Ecur _ Emem _ Einit _ Eta Eact.
  assert (len (terminals (k_con k')) = len (terminals (k_con k))) as Elen.
  { pose proof (f_equal length Eact) as H. rewrite !length_fmap in H. lia. }
  split; cbn [m_desks m_procs m_clock]; unfold running; cbn [m_desks];
    rewrite ?Ertc, ?Eimg, ?Epcbs, ?Epids, ?Ecur, ?Emem, ?Einit, ?Eact, ?Hr; try done.
  split; rewrite ?Epcbs, ?Epids, ?Emem, ?Eta, ?Elen; done.
Qed.

Lemma models_input e k M :
  models k M -> event_ok e ->
  exists k', run_event e k = Some k' /\ models k' (on_desks (step_desks e) M).
Proof.
  intros Hm He. destruct (run_event_implements _ _ _ _ _ e (mo_desks _ _ _ _ _ _ Hm) He) as (k' & E & I).
  exists k'. split; [done|]. eapply models_view; [done|by eapply run_event_view|done|].
  unfold running. destruct e; cbn [step_desks]; [|done..]. destruct (get_key _ _) as [c keys].
  by destruct (asks_switch c keys).
Qed.

Lemma same_view_flag k (b : bool) : same_view k (k <| k_con ::= fun c => c <| intr := b |> |>).
Proof. done. Qed.

Lemma models_cli k M : models k M -> models (cli k) M.
Proof.
  intros Hm. destruct M as [D P c]. apply (models_view k (cli k) (mkMachine D P c) D Hm); [done| |done].
  apply implements_cli. apply Hm.
Qed.

Lemma models_sti k M : models k M -> models (sti k) M.
Proof.
  intros Hm. destruct M as [D P c]. apply (models_view k (sti k) (mkMachine D P c) D Hm); [done| |done].
  apply implements_sti. apply Hm.
Qed.

Lemma models_prev k M p : models k M -> models (k <| prev_pid := p |>) M.
Proof.
  intros [HR HD [Wp Wb Wm Wf Wta Wt] Hroom Hrtc Hclock Hinit HF]. split; try done.
  by destruct HD as [ [ [] ] ].
Qed.

(** The process numbers on the terminals, for the clock. *)
Lemma models_pids k M : models k M -> pids_ok (active_pid <$> terminals (k_con k)).
Proof.
  intros Hm. pose proof (mo_family _ _ _ _ _ _ Hm) as HF. pose proof (fa_len _ _ _ _ _ _ HF) as Hl.
  split; [done|]. apply Forall_lookup_2. intros t p Hp. rewrite <- aget_nat in Hp.
  pose proof (aget_range _ _ _ Hp) as Hr. rewrite Hl in Hr.
  rewrite (fa_active _ _ _ _ _ _ HF _ Hr) in Hp.
  destruct (stack_nonempty _ _ _ _ _ _ HF _ Hr) as (q & l & E). rewrite E in Hp. injection Hp as <-.
  eapply pid_range; [exact HF|exact Hr|]. rewrite E. by left.
Qed.

Lemma on_con_cursor k D o prog :
  implements prog k D -> o = PutCursor \/ o = RemCursor ->
  exists c', run_op o (k_con k) = Some c' /\ con_view c' = con_view (k_con k) /\
    implements prog (k <| k_con := c' |>) (upd_desk (ds_shown D) (on_tty (tty_op o)) D).
Proof.
  intros I Ho. destruct (on_con_shown _ _ _ k D o I) as (k' & E & I'); [by destruct Ho as [-> | ->]|].
  unfold on_con in E. destruct (run_op o (k_con k)) as [c'|] eqn:Ec; [|discriminate E].
  injection E as <-. exists c'. split; [done|]. split; [|done].
  destruct Ho as [-> | ->]; by apply put_under_cursor_keeps in Ec.
Qed.

Lemma models_clock k M :
  models k M ->
  exists k', run_sys Clock k = Some (Quiet, k') /\ models k' (spec_step F Clock M).2.
Proof.
  intros Hm. cbn [run_sys spec_step snd]. unfold rtc_handler.
  pose proof (mo_rtc _ _ _ _ _ _ Hm) as Wr.
  set (con0 := (k_con k) <| intr := false |>).
  set (r0 := (k_rtc k) <| count_rtc := s32 (count_rtc (k_rtc k) + 1) |>).
  assert (wf_rtc r0) as Wr0 by (destruct Wr; by split).
  destruct (count_terminals (active_pid <$> terminals con0) r0 Wr0 (models_pids _ _ Hm))
    as (r1 & -> & W1 & Hpr & Hcr & _). cbn [mbind option_bind].
  set (k1 := k <| k_rtc := r1 |> <| k_con := con0 |>).
  assert (implements ((cur_pid k + 2) * PAGE_4MB) k1 (m_desks M)) as I1.
  { by destruct (mo_desks _ _ _ _ _ _ Hm) as [ [ [] ] ]. }
  assert (count_rtc r1 = s32 (m_clock M + 1)) as Ec by (rewrite Hcr; unfold r0; cbn; by rewrite (mo_clock _ _ _ _ _ _ Hm)).
  rewrite Ec. unfold blink. set (c := s32 (m_clock M + 1)) in *.
  assert (exists c1, (if Z.rem c MAX_VIR_FREQ =? 0 then put_cursor con0 else Some con0) = Some c1 /\
    con_view c1 = con_view con0 /\ implements ((cur_pid k + 2) * PAGE_4MB) (k1 <| k_con := c1 |>)
      (if Z.rem c MAX_VIR_FREQ =? 0 then upd_desk (ds_shown (m_desks M)) (on_tty (tty_op PutCursor)) (m_desks M)
       else m_desks M)) as (c1 & -> & V1 & I2).
  { destruct (Z.rem c MAX_VIR_FREQ =? 0); [|by exists con0].
    destruct (on_con_cursor k1 _ PutCursor _ I1) as (c1 & E & V & I); [by left|]. by exists c1. }
  cbn [mbind option_bind].
  set (D1 := if Z.rem c MAX_VIR_FREQ =? 0 then _ else m_desks M) in *.
  set (b := (Z.rem c (Z.quot MAX_VIR_FREQ 2) =? 0) && negb (Z.rem c MAX_VIR_FREQ =? 0)).
  assert (exists c2, (if b then rem_cursor c1 else Some c1) = Some c2 /\
    con_view c2 = con_view con0 /\ implements ((cur_pid k + 2) * PAGE_4MB) (k1 <| k_con := c2 |>)
      (if b then upd_desk (ds_shown D1) (on_tty (tty_op RemCursor)) D1 else D1)) as (c2 & -> & V2 & I3).
  { destruct b; [|by exists c1].
    destruct (on_con_cursor (k1 <| k_con := c1 |>) D1 RemCursor _ I2) as (c2 & E & V & I); [by right|].
    exists c2. split; [done|]. split; [by rewrite V|done]. }
  cbn [mbind option_bind]. eexists. split; [done|].
  assert (ds_running (if b then upd_desk (ds_shown D1) (on_tty (tty_op RemCursor)) D1 else D1) = running M) as Er.
  { unfold D1, running. destruct b, (Z.rem c MAX_VIR_FREQ =? 0); done. }
  injection V2 as Eta Eact.
  destruct Hm as [HR HD [Wp Wb Wm Wf Wta Wt] Hroom Hrtc Hclock Hinit HF].
  assert (len (terminals c2) = NUM_TERMS) as Elen.
  { pose proof (f_equal length Eact) as H. rewrite !length_fmap in H. cbn in H. lia. }
  split; cbn [m_desks m_procs m_clock]; try done.
  - by destruct I3 as [ [ [] ] ].
  - split; try done. cbn. rewrite Eta. exact Wta.
  - unfold running. cbn [m_desks]. rewrite Er. cbn. rewrite Eact. exact HF.
Qed.

(** *** Starting a program *)

(** A paging state names one program page and one video page. *)
Lemma targets_video k prog : targets_ok pt_addr pt_user_addr k prog ->
  paging_ok pt_addr pt_user_addr (k_pag k) (prog, video_mem (k_con k) / PAGE_BYTES).
Proof. by intros [_ H]. Qed.

Lemma room_insert (l l' : list (list Z)) i m c :
  Forall (fun m => room <= len m) l -> l.[i] = Some m -> l'.[i] = Some (splice m 0 c) ->
  len c <= len m -> length l' = length l -> (forall j, j <> i -> l'.[j] = l.[j]) ->
  Forall (fun m => room <= len m) l'.
Proof.
  intros H Em Em' Hc Hl Hne. apply Forall_lookup_2. intros j m' Hj. rewrite <- aget_nat in Hj.
  destruct (Z.eq_dec (Z.of_nat j) i) as [<-|Hn].
  - rewrite Em' in Hj. injection Hj as <-. rewrite length_splice by lia. exact (aget_Forall _ _ _ _ H Em).
  - rewrite Hne in Hj by done. exact (aget_Forall _ _ _ _ H Hj).
Qed.

(** Tables that agree at every index but one. *)
Lemma list_upd {A} (l l' : list A) i b :
  length l' = length l -> 0 <= i < len l -> l'.[i] = Some b -> (forall j, j <> i -> l'.[j] = l.[j]) ->
  l' = <[Z.to_nat i := b]> l.
Proof.
  intros Hl Hi Eb Hne. apply aget_ext; [by rewrite length_insert|]. intros j Hj.
  destruct (Z.eq_dec j i) as [->|Hn].
  - by rewrite aget_insert_eq.
  - rewrite aget_insert_ne by lia. by apply Hne.
Qed.

Lemma init_fds_fd_ok : Forall fd_ok init_fds.
Proof. repeat constructor; unfold fd_ok; cbn; (discriminate || by intros H). Qed.

Lemma new_block b parent pid st args :
  cstring (splice (cmd_args b) 0 (args ++ [0])) 0 args ->
  block_is (new_pcb b parent pid st args) (new_proc pid st args) parent.
Proof. intros H. split; try done. apply init_fds_fd_ok. Qed.

(** The state in which a program is started, but for the process numbers. *)
Definition renumbered (k : kernel) (l : list Z) (c p : Z) : kernel :=
  (cli k) <| pid_array := l |> <| cur_pid := c |> <| prev_pid := p |>.

(** From the facts about a started program to the specification's state, for a
    process [i] whose place in the family is given. *)
Lemma models_started k k' M l cp pp i st c args P' m :
  models k M ->
  started pt_addr pt_user_addr (renumbered k l cp pp) k' st i c args (video_mem (k_con k) / PAGE_BYTES) ->
  (prog_mem k).[i] = Some m -> len c <= len m ->
  family (pcbs k') (<[Z.to_nat i := 1]> l) (<[Z.to_nat (ta (k_con k)) := i]>
    (active_pid <$> terminals (k_con k))) i P' (running M) ->
  models k' (mkMachine (m_desks M) P' (m_clock M)).
Proof.
  intros [HR HD W Hroom Hrtc Hclock Hinit _] S Em Hlen HF.
  destruct (sd_rest _ _ _ _ _ _ _ _ _ S) as (Ekb & _ & Er & Ei & _ & Evm & Evid & Ets & Eta & Eti & Etd).
  destruct (sd_term _ _ _ _ _ _ _ _ _ S) as (T & ET & Eterm).
  change (terminals (k_con (renumbered k l cp pp))) with (terminals (k_con k)) in *.
  change (ta (k_con (renumbered k l cp pp))) with (ta (k_con k)) in *.
  split; cbn [m_desks m_procs m_clock]; try done.
  - rewrite Ei. exact HR.
  - rewrite (sd_cur _ _ _ _ _ _ _ _ _ S).
    apply (implements_process pt_addr pt_user_addr ((cur_pid k + 2) * PAGE_4MB) _ k k' _ T i HD); try done.
    exact (sd_paging _ _ _ _ _ _ _ _ _ S).
  - apply S.
  - destruct (sd_image _ _ _ _ _ _ _ _ _ S) as (m' & Em' & Em2).
    change (prog_mem (renumbered k l cp pp)) with (prog_mem k) in Em'.
    assert (m' = m) as -> by congruence.
    apply (room_insert (prog_mem k) _ i m c); try done.
    + pose proof (wp_mem _ (sd_wf _ _ _ _ _ _ _ _ _ S)). pose proof (wp_mem _ W). lia.
    + intros j Hj. exact (proj2 (sd_others _ _ _ _ _ _ _ _ _ S j Hj)).
  - rewrite Er. exact Hrtc.
  - rewrite Er. exact Hclock.
  - rewrite Eti. exact Hinit.
  - rewrite (sd_pids _ _ _ _ _ _ _ _ _ S), (sd_cur _ _ _ _ _ _ _ _ _ S). unfold running. cbn [m_desks].
    fold (running M). by rewrite Eterm, list_fmap_insert.
Qed.

(** The table of blocks after a start. *)
Lemma started_pcbs k k' l cp pp i st c args vid :
  wf_procs k -> 0 <= i < MAX_PID ->
  started pt_addr pt_user_addr (renumbered k l cp pp) k' st i c args vid ->
  exists b, pcbs k' = <[Z.to_nat i := b]> (pcbs k) /\
    (len args < CMD_LINE_LEN -> Forall is_char args ->
     block_is b (new_proc i st args) (if i <=? 2 then -1 else cp)).
Proof.
  intros W Hi S. destruct (sd_pcb _ _ _ _ _ _ _ _ _ S) as (b & Eb & Eb').
  change (get_pcb i (renumbered k l cp pp)) with (get_pcb i k) in Eb.
  eexists; split.
  - apply (list_upd (pcbs k) (pcbs k') i); [|by rewrite (wp_pcbs _ W)|exact Eb'|].
    + pose proof (wp_pcbs _ (sd_wf _ _ _ _ _ _ _ _ _ S)). pose proof (wp_pcbs _ W). lia.
    + intros j Hj. exact (proj1 (sd_others _ _ _ _ _ _ _ _ _ S j Hj)).
  - intros Ha Hc. apply new_block. apply cstring_splice; [done|].
    destruct (aget_Forall _ _ _ _ (wp_pcb _ W) Eb) as [_ ->]. done.
Qed.

Lemma renumbered_cli k : renumbered k (pid_array k) (cur_pid k) (prev_pid k) = cli k.
Proof. by destruct k. Qed.

(** A program is started as process [i]. *)
Lemma models_push k M command s st ino c i :
  bootable F room -> models k M -> sys_event_ok (Exec command s st) ->
  executable F (command_name s) = Some (ino, c) -> free_pid (m_procs M) = Some i ->
  exists k' vid, sys_execute command st k = Some (to_user c, k') /\
    started pt_addr pt_user_addr (cli k) k' st i c (command_args s) vid /\ (i ∉ stacks_pids (m_procs M)) /\
    models k' (mkMachine (m_desks M)
      (upd_stack (running M) (new_proc i st (command_args s) :: m_procs M (running M)) (m_procs M)) (m_clock M)).
Proof.
  intros HB Hm (Hs & Hst & Hargs) Hexe Hfree. pose proof Hm as [HR HD W Hroom _ _ _ HF].
  pose proof (free_pid_spec _ _ _ _ _ _ HF) as Hi. rewrite Hfree in Hi. destruct Hi as [Hi Hlt].
  destruct (first_pid_free _ _ _ _ _ _ HF i Hi Hlt) as [Hn H2]. pose proof (proj1 (proj1 Hi)) as Hi0.
  destruct (bt_fits _ _ HB _ _ _ Hexe) as [ [entry Hentry] Hroom'].
  destruct (aget_is_Some (prog_mem k) i) as [m Em]; [rewrite (wp_mem _ W); lia|].
  pose proof (aget_Forall _ _ _ _ Hroom Em) as Hmr. cbv beta in Hmr.
  destruct (sys_execute_started pt_addr pt_user_addr k F command s st ino c i m entry _ HR Hs Hst Hargs Hexe
    Hentry W (targets_video _ _ (im_targets _ _ _ _ _ HD)) Hi Hlt Em ltac:(lia)) as (k' & E & S).
  exists k', (video_mem (k_con k) / PAGE_BYTES). cbn [snd] in S.
  split; [rewrite E; unfold to_user, entry_point; by rewrite Hentry|]. split; [done|]. split; [done|].
  rewrite <- renumbered_cli in S.
  destruct (started_pcbs _ _ _ _ _ _ _ _ _ _ W (conj Hi0 Hlt) S) as (b & Epcbs & Hb).
  rewrite (proj2 (Z.leb_gt i 2)) in Hb by lia.
  eapply models_started; [exact Hm|exact S|exact Em|lia|]. rewrite Epcbs.
  rewrite (im_running _ _ _ _ _ HD). fold (running M).
  apply (family_push _ _ _ _ _ _ HF (new_proc i st (command_args s))); try done; try apply W.
  apply Hb; [done|]. apply command_args_chars, Hs.
Qed.

(** Nothing is started. *)
Lemma models_refused k M command s st :
  models k M -> sys_event_ok (Exec command s st) ->
  executable F (command_name s) = None \/ free_pid (m_procs M) = None ->
  exists p, sys_execute command st k =
      Some (Returned (match executable F (command_name s) with None => -1 | _ => FUNNY_NUMBER end),
            (cli k) <| prev_pid := p |>) /\
    models ((cli k) <| prev_pid := p |>) M.
Proof.
  intros Hm (Hs & Hst & Hargs) H. pose proof Hm as [HR HD W _ _ _ _ HF].
  rewrite (sys_execute_checked k F command s st HR Hs Hst Hargs).
  destruct (executable F (command_name s)) as [ [ino c]|] eqn:Hexe.
  - destruct H as [H|H]; [done|]. pose proof (free_pid_spec _ _ _ _ _ _ HF) as Hfree. rewrite H in Hfree.
    unfold start. rewrite alloc_pid_full; [|by destruct W|exact Hfree]. cbn [mbind option_bind negb].
    eexists. split; [done|]. by apply models_prev, models_cli.
  - exists (prev_pid k). split; [by destruct k|]. by apply models_prev, models_cli.
Qed.

Lemma models_exec k M command s st :
  bootable F room -> models k M -> sys_event_ok (Exec command s st) ->
  exists k', sys_execute command st k = Some ((spec_exec F s st M).1, k') /\ models k' (spec_exec F s st M).2.
Proof.
  intros HB Hm He. unfold spec_exec. destruct (executable F (command_name s)) as [ [ino c]|] eqn:Hexe.
  - destruct (free_pid (m_procs M)) as [i|] eqn:Hfree.
    + destruct (models_push k M command s st ino c i HB Hm He Hexe Hfree) as (k' & vid & E & _ & _ & Hm'). by exists k'.
    + destruct (models_refused k M command s st Hm He) as (p & E & Hm'); [by right|]. rewrite Hexe in E. by eexists.
  - destruct (models_refused k M command s st Hm He) as (p & E & Hm'); [by left|]. rewrite Hexe in E. by eexists.
Qed.

(** *** Ending a program *)

Lemma models_lines k M : models k M ->
  line_sized (keyboard_buf (k_kbd k)) (key_idx (k_kbd k)) /\
  Forall (fun T => line_sized (terminal_buf T) (buf_idx T)) (terminals (k_con k)).
Proof. intros Hm. pose proof (im_wf _ _ _ _ _ (mo_desks _ _ _ _ _ _ Hm)) as [_ _ Hl Hls]. done. Qed.

(** The running process has a parent. *)
Lemma models_pop k M p q l status st :
  models k M -> m_procs M (running M) = p :: q :: l ->
  exists k' gp vid, halt_helper status st k = Some (ResumeAt (p_frame p) status, k') /\
    models k' (mkMachine (upd_desk (running M) (wipe_line (ds_shown (m_desks M) =? running M)) (m_desks M))
      (upd_stack (running M) (q :: l) (m_procs M)) (m_clock M)) /\
    resumed pt_addr pt_user_addr k k' (p_pid q) gp vid.
Proof.
  intros Hm E. pose proof Hm as [HR HD W Hroom Hrtc Hclock Hinit HF].
  destruct (family_cur _ _ _ _ _ _ HF) as (p0 & l0 & E0 & Ec).
  assert (p0 = p) as -> by congruence. clear E0 l0.
  pose proof (fa_chain _ _ _ _ _ _ HF _ (fa_running _ _ _ _ _ _ HF)) as Hch. rewrite E in Hch.
  destruct Hch as [ (b & Eb & Hb) [ (bq & Ebq & Hbq) _] ]. cbn [parent_of] in Hb.
  destruct (models_lines _ _ Hm) as [Hl Hls]. rewrite Ec in Eb.
  pose proof (bi_parent _ _ _ Hb) as Epar.
  destruct (halt_helper_resumes pt_addr pt_user_addr k b bq (file_descriptor_table b) _ status st Eb eq_refl
    (bi_fds _ _ _ Hb) ltac:(rewrite Epar; exact Ebq) W (wf_rates_len _ Hrtc)
    (targets_video _ _ (im_targets _ _ _ _ _ HD)) Hl Hls) as (k' & Eh & HRes).
  do 3 eexists. rewrite <- (bi_frame _ _ _ Hb). split; [done|]. rewrite Epar in *. split; [|exact HRes].
  destruct HRes as [Rcur Rprev Rpids Rpag Rfds Roth Rmem Rterm Rline Rcl Resp Rscr Rrest Rwf].
  destruct Rterm as (T & ET & Eterm). destruct Rrest as (Ei & _ & Eti & Etd & Hw & [Hc _]%same_clock_count).
  destruct Rscr as (Evm & Evid & Ets & Eta & _).
  split; cbn [m_desks m_procs m_clock]; try done.
  - by rewrite Ei.
  - rewrite Rcur.
    by apply (implements_halted pt_addr pt_user_addr ((cur_pid k + 2) * PAGE_4MB) _ k k' (m_desks M) T (p_pid q) HD).
  - by rewrite Rmem.
  - by apply Hw.
  - by rewrite Hc.
  - by rewrite Eti.
  - unfold running. cbn [m_desks upd_desk]. fold (running M).
    rewrite Rpids, Rcur, <- Ec, Eterm, list_fmap_insert. cbn [active_pid update_field].
    rewrite (im_running _ _ _ _ _ HD). fold (running M).
    apply (family_pop _ _ _ _ _ _ HF p q l _ E); [apply W|].
    intros j Hj. rewrite Ec in Hj. exact (proj1 (Roth j Hj)).
Qed.

Lemma shell_command : cstring shell_name 0 shell_string.
Proof. apply (cstring_intro shell_string []). repeat constructor. Qed.

(** The running process is a base shell. *)
Lemma models_restart k M p status st :
  bootable F room -> models k M -> frame_ok st -> m_procs M (running M) = [p] ->
  exists ino c k' l vid, executable F shell_string = Some (ino, c) /\
    halt_helper status st k = Some (to_user c, k') /\
    started pt_addr pt_user_addr (renumbered k l (-1) (-1)) k' st (p_pid p) c [] vid /\
    models k' (mkMachine (m_desks M) (upd_stack (running M) [new_proc (p_pid p) st []] (m_procs M)) (m_clock M)).
Proof.
  intros HB Hm Hst E. pose proof Hm as [HR HD W Hroom Hrtc Hclock Hinit HF].
  destruct (bt_shell _ _ HB) as (ino & c & Hexe).
  destruct (bt_fits _ _ HB _ _ _ Hexe) as [ [entry Hentry] Hroom'].
  destruct (family_cur _ _ _ _ _ _ HF) as (p0 & l0 & E0 & Ec).
  assert (p0 = p) as -> by congruence. clear E0 l0. pose proof (fa_running _ _ _ _ _ _ HF) as Hrun.
  destruct (fa_base _ _ _ _ _ _ HF _ Hrun) as (l0 & f0 & c0 & a0 & E0).
  assert (p_pid p = running M) as Ep.
  { rewrite E in E0. destruct l0 as [|? [|] ]; try done. by injection E0 as ->. }
  pose proof (fa_chain _ _ _ _ _ _ HF _ Hrun) as Hch. rewrite E in Hch.
  destruct Hch as [ (b & Eb & Hb) _]. cbn [parent_of] in Hb. pose proof (bi_parent _ _ _ Hb) as Epar.
  pose proof (wp_pids _ W) as Wp. pose proof (wp_mem _ W) as Wm. unfold NUM_TERMS in Hrun.
  destruct (aget_is_Some (prog_mem k) (p_pid p)) as [m Em]; [rewrite Wm; unfold MAX_PID; lia|].
  pose proof (aget_Forall _ _ _ _ Hroom Em) as Hmr. cbv beta in Hmr.
  assert (0 <= p_pid p < MAX_PID) as Hpr by (unfold MAX_PID; lia).
  unfold halt_helper. change (pid_array (cli k)) with (pid_array k). change (cur_pid (cli k)) with (cur_pid k).
  rewrite <- Ec. rewrite aset_Some by lia. cbn [mbind option_bind]. set (k1 := _ <| pid_array := _ |>).
  change (get_pcb (p_pid p) k1) with (pcbs k).[p_pid p]. rewrite Eb. cbn [mbind option_bind]. rewrite Epar.
  cbn [Z.eqb Pos.eqb]. set (k2 := _ <| prev_pid := _ |>).
  assert (wf_procs k2) as W2.
  { destruct W. split; try done. change (pid_array k2) with (<[Z.to_nat (p_pid p) := 0]> (pid_array k)).
    by rewrite length_insert. }
  assert (first_pid (pid_array k2) (p_pid p)) as Hfirst.
  { change (pid_array k2) with (<[Z.to_nat (p_pid p) := 0]> (pid_array k)). split; [lia|]. split.
    - intros j v Hj. rewrite aget_insert_ne by lia.
      destruct (fa_taken _ _ _ _ _ _ HF j ltac:(unfold MAX_PID in *; lia)) as (w & -> & Hw).
      intros [= <-]. apply Hw, (base_taken _ _ _ _ _ _ HF). unfold NUM_TERMS. lia.
    - intros _. apply aget_insert_eq. lia. }
  destruct (sys_execute_started pt_addr pt_user_addr k2 F shell_name shell_string st ino c (p_pid p) m entry _ HR
    shell_command Hst ltac:(reflexivity) Hexe Hentry W2 (targets_video _ _ (im_targets _ _ _ _ _ HD))
    Hfirst (proj2 Hpr) Em ltac:(lia)) as (k' & Ex & S).
  rewrite Ex. cbn [mbind option_bind].
  change (cli k2) with (renumbered k (<[Z.to_nat (p_pid p) := 0]> (pid_array k)) (-1) (-1)) in S.
  exists ino, c, k'. do 2 eexists. split; [done|].
  split; [unfold to_user, entry_point; by rewrite Hentry|]. split; [exact S|].
  destruct (started_pcbs _ _ _ _ _ _ _ _ _ _ W Hpr S) as (b' & Epcbs & Hb').
  rewrite (proj2 (Z.leb_le (p_pid p) 2)) in Hb' by lia.
  eapply models_started; [exact Hm|exact S|exact Em|lia|].
  rewrite Epcbs, list_insert_insert_eq, (im_running _ _ _ _ _ HD). fold (running M).
  apply (family_restart _ _ _ _ _ _ HF p (new_proc (p_pid p) st [])); try done; try apply W.
  apply Hb'; [done|constructor].
Qed.

Lemma models_halt k M status st :
  bootable F room -> models k M -> frame_ok st ->
  exists k', halt_helper status st k = Some ((spec_halt F status st M).1, k') /\
    (spec_halt F status st M).1 <> Returned (-1) /\ models k' (spec_halt F status st M).2.
Proof.
  intros HB Hm Hst. pose proof (mo_family _ _ _ _ _ _ Hm) as HF. unfold spec_halt.
  destruct (stack_nonempty _ _ _ _ _ _ HF _ (fa_running _ _ _ _ _ _ HF)) as (p & l & E).
  rewrite E. destruct l as [|q l].
  - destruct (models_restart k M p status st HB Hm Hst E) as (ino & c & k' & _ & _ & Hexe & Eh & _ & Hm').
    rewrite Hexe. by exists k'.
  - destruct (models_pop k M p q l status st Hm E) as (k' & _ & _ & Eh & Hm' & _).
    exists k'. split; [exact Eh|]. split; [discriminate|]. exact Hm'.
Qed.

(** *** The tick *)

Lemma models_sched k M : models k M -> wf_sched k.
Proof.
  intros [HR HD W Hroom Hrtc Hclock Hinit HF].
  pose proof (wp_terms _ W) as Wt. pose proof (fa_len _ _ _ _ _ _ HF) as Hl.
  assert (forall t, 0 <= t < NUM_TERMS -> exists p l, m_procs M t = p :: l /\
    (active_pid <$> terminals (k_con k)).[t] = Some (p_pid p)) as Htop.
  { intros t Ht. destruct (stack_nonempty _ _ _ _ _ _ HF _ Ht) as (p & l & E). exists p, l. split; [done|].
    by rewrite (fa_active _ _ _ _ _ _ HF _ Ht), E. }
  split; [done|apply W| | |apply W].
  - unfold active_pids. apply NoDup_alt. intros i j p Hi Hj. rewrite <- aget_nat in Hi, Hj.
    pose proof (aget_range _ _ _ Hi) as Ri. pose proof (aget_range _ _ _ Hj) as Rj. rewrite Hl in Ri, Rj.
    destruct (Htop _ Ri) as (pi & li & Ei & Ai). destruct (Htop _ Rj) as (pj & lj & Ej & Aj).
    destruct (Nat.eq_dec i j) as [|Hne]; [done|]. exfalso.
    pose proof (fa_distinct _ _ _ _ _ _ HF) as HN.
    destruct (stacks_perm (m_procs M) (Z.of_nat i) [] Ri) as (rest & Hold & Hnew).
    rewrite Hold, Ei in HN. cbn in HN, Hnew. pose proof (NoDup_cons_1_1 _ _ HN) as Hnin. apply Hnin.
    apply elem_of_app. right. rewrite <- Hnew. apply elem_pids. exists (Z.of_nat j). split; [done|].
    rewrite upd_stack_ne, Ej by lia. cbn. replace (p_pid pi) with (p_pid pj) by congruence. by left.
  - apply Forall_lookup_2. intros i p Hi. rewrite <- aget_nat in Hi.
    pose proof (aget_range _ _ _ Hi) as Ri. unfold active_pids in *. rewrite Hl in Ri.
    destruct (Htop _ Ri) as (q & l & E & A). assert (p = p_pid q) as -> by congruence.
    eapply pid_range; [exact HF|exact Ri|]. rewrite E. by left.
Qed.

Lemma models_tick k M k_esp k_ebp st :
  models k M ->
  exists to_ebp to_esp a a' t b b' P, let k' := after_tick k a a' t k_esp k_ebp b b' P in
    pit_handler k_esp k_ebp st k = Some (Switched to_ebp to_esp, k') /\ get_pcb a k = Some b /\
    (spec_tick k_esp k_ebp M).1 = Switches to_ebp to_esp /\ models k' (spec_tick k_esp k_ebp M).2.
Proof.
  intros Hm. pose proof (models_sched _ _ Hm) as WS. pose proof Hm as [HR HD W Hroom Hrtc Hclock Hinit HF].
  pose proof (fa_running _ _ _ _ _ _ HF) as Hrun. destruct (next_of_range _ Hrun) as [Hn _].
  pose proof (im_running _ _ _ _ _ HD) as Eta. fold (running M) in Eta.
  destruct (family_cur _ _ _ _ _ _ HF) as (p & l & E & Ec).
  destruct (stack_nonempty _ _ _ _ _ _ HF _ Hn) as (p' & l' & E').
  pose proof (fa_chain _ _ _ _ _ _ HF _ Hrun) as Hch. rewrite E in Hch. destruct Hch as [ (b & Eb & Hb) _].
  pose proof (fa_chain _ _ _ _ _ _ HF _ Hn) as Hch. rewrite E' in Hch. destruct Hch as [ (b' & Eb' & Hb') _].
  pose proof (fa_active _ _ _ _ _ _ HF _ Hrun) as Ha. rewrite E in Ha.
  pose proof (fa_active _ _ _ _ _ _ HF _ Hn) as Ha'. rewrite E' in Ha'.
  destruct (im_targets _ _ _ _ _ HD) as [_ HP].
  destruct (tick_eq pt_addr pt_user_addr k k_esp k_ebp st (p_pid p) b (p_pid p') b' _ WS Hinit HP) as (P & Et & HT);
    [by rewrite Eta|done|by rewrite Eta|done|].
  unfold spec_tick. rewrite E, E'. do 8 eexists. split; [exact Et|]. cbn [fst snd]. split; [exact Eb|].
  split; [by rewrite <- (bi_ctx _ _ _ Hb')|].
  rewrite Eta in *.
  split; cbn [m_desks m_procs m_clock]; try done.
  - pose proof (after_tick_implements pt_addr pt_user_addr k (m_desks M) _ (p_pid p) (p_pid p') k_esp k_ebp b b' P HD)
      as H. rewrite Eta in H. by apply H.
  - destruct W as [Wp Wb Wm Wf Wta Wt]. split; try done; cbn.
    + by rewrite length_insert.
    + apply Forall_insert; [done|]. exact (aget_Forall _ _ _ _ Wf Eb).
  - unfold running. cbn [m_desks ds_running]. fold (running M).
    apply (family_tick _ _ _ _ _ _ HF p l b k_esp k_ebp (p_pid p')); try done. by rewrite E'.
Qed.

(** *** Exceptions *)

Lemma on_con_print prog text : forall k S, implements prog k S ->
  exists c', run_ops (Putc <$> text) (k_con k) = Some c' /\ con_view c' = con_view (k_con k) /\
    implements prog (k <| k_con := c' |>) (upd_desk (ds_running S) (on_tty (tty_print text)) S).
Proof.
  induction text as [|c text IH]; intros k S I.
  - exists (k_con k). split; [done|]. split; [done|].
    destruct k. rewrite upd_desk_id; [exact I|]. by destruct (ds_of S (ds_running S)).
  - destruct (on_con_op _ _ _ k S (Putc c) I) as (k1 & E1 & I1 & _). unfold on_con in E1.
    destruct (run_op (Putc c) (k_con k)) as [c1|] eqn:Ec; [|discriminate E1]. injection E1 as <-.
    destruct (IH _ _ I1) as (c2 & E2 & V2 & I2). exists c2.
    cbn [fmap list_fmap run_ops]. rewrite Ec. cbn [mbind option_bind]. split; [exact E2|]. split.
    + rewrite V2. by apply putc_keeps in Ec.
    + change (op_term (Putc c) (k_con k)) with (ta (k_con k)) in I2.
      rewrite (im_running _ _ _ _ _ I) in I2. cbn [ds_running upd_desk] in I2. revert I2.
      change (k <| k_con := c1 |> <| k_con := c2 |>) with (k <| k_con := c2 |>).
      rewrite upd_desk_compose. done.
Qed.

Lemma models_banner k M junk id err_code msg :
  models k M -> length junk = 64%nat -> exception_messages.[id] = Some msg -> is_u32 err_code ->
  exists k', on_con (exception_banner junk id err_code) (cli k) = Some k' /\ same_view k k' /\
    models k' (on_desks (spec_banner msg err_code) M).
Proof.
  intros Hm Hj Hmsg He. apply models_cli in Hm. pose proof (mo_desks _ _ _ _ _ _ Hm) as HD.
  set (k0 := cli k) in *.
  destruct (on_con_shown _ _ _ k0 (m_desks M) ClearScreen HD) as (k1 & E1 & I1); [done|].
  unfold on_con in E1. destruct (run_op ClearScreen (k_con k0)) as [c1|] eqn:Ec; [|discriminate E1].
  injection E1 as <-.
  destruct (on_con_print _ (banner_text msg err_code) _ _ I1) as (c2 & E2 & V2 & I2).
  assert (exception_banner junk id err_code (k_con k0) = Some c2) as Eb.
  { apply (exception_banner_ops junk id msg err_code); try done.
    change ((k_con k0) <| intr := false |>) with (k_con k0). cbn [run_ops]. rewrite Ec.
    cbn [mbind option_bind]. exact E2. }
  unfold on_con. rewrite Eb. cbn [mbind option_bind]. eexists; split; [done|].
  assert (con_view c2 = con_view (k_con k0)) as V by (rewrite V2; by apply clear_screen_keeps in Ec).
  injection V as Eta Eact.
  match goal with |- same_view _ ?k' /\ _ => assert (same_view k0 k') as V end.
  { unfold same_view, view_of. cbn [k_con update_field]. unfold update_field. cbn [k_con]. by rewrite Eta, Eact. }
  split; [exact V|]. by apply (models_view k0 _ M _ Hm).
Qed.

(** *** All of them *)

Lemma models_step e k M :
  bootable F room -> models k M -> sys_event_ok e ->
  exists k', run_sys e k = Some ((spec_step F e M).1, k') /\ models k' (spec_step F e M).2.
Proof.
  intros HB Hm He. destruct e as [e| |k_esp k_ebp st|command s st|status st|junk id err_code msg st].
  - destruct (models_input e k M Hm He) as (k' & E & Hm'). exists k'. cbn [run_sys]. by rewrite E.
  - by apply models_clock.
  - destruct (models_tick k M k_esp k_ebp st Hm) as (x & y & a & a' & t & b & b' & P & E & _ & Es & Hm'). eexists.
    cbn [run_sys]. rewrite E. cbn [mbind option_bind spec_step]. rewrite Es. by split.
  - destruct (models_exec k M command s st HB Hm He) as (k' & E & Hm'). exists k'. cbn [run_sys].
    rewrite E. cbn [mbind option_bind spec_step]. by destruct (spec_exec F s st M).
  - destruct (models_halt k M (u8 status) st HB Hm He) as (k' & E & Hne & Hm'). exists k'.
    cbn [run_sys spec_step]. unfold sys_halt. rewrite E. cbn [mbind option_bind].
    destruct (spec_halt F (u8 status) st M) as [o M'] eqn:Eo. cbn [fst snd] in *. split; [|done].
    destruct o; [|done..]. exfalso. revert Eo Hne. unfold spec_halt, to_user. repeat case_match; congruence.
  - destruct He as (Hj & Hmsg & Hcode & Hst).
    destruct (models_banner k M junk id err_code msg Hm Hj Hmsg Hcode) as (k1 & E1 & _ & Hm1).
    destruct (models_halt k1 _ EXCEPTION_HALT st HB Hm1 Hst) as (k' & E & _ & Hm'). exists k'.
    cbn [run_sys spec_step]. unfold handle_exception. rewrite E1. cbn [mbind option_bind].
    rewrite E. cbn [mbind option_bind]. by destruct (spec_halt F EXCEPTION_HALT st _).
Qed.

Lemma models_steps es : forall k M,
  bootable F room -> models k M -> Forall sys_event_ok es ->
  exists k', run_sys_all es k = Some ((spec_steps F es M).1, k') /\ models k' (spec_steps F es M).2.
Proof.
  induction es as [|e es IH]; intros k M HB Hm Hes; [by exists k|].
  apply Forall_cons_1 in Hes as [He Hes].
  destruct (models_step e k M HB Hm He) as (k1 & E1 & Hm1). cbn [run_sys_all spec_steps].
  rewrite E1. cbn [mbind option_bind]. destruct (spec_step F e M) as [r M1]. cbn [fst snd] in *.
  destruct (IH k1 M1 HB Hm1 Hes) as (k2 & E2 & Hm2). rewrite E2. cbn [mbind option_bind].
  destruct (spec_steps F es M1) as [rs M2]. by exists k2.
Qed.
End steps.
