(* ===== verification/Files.v ===== *)
(** A process's descriptors as a finite map: what each of the open numbers from 2 on
    gives access to.  [fds_are F l m] says that the table [l] of a process control
    block stands for the map [m], the keyboard and the terminal being at 0 and 1. *)
From stdpp Require Import base option list numbers gmap.
From Stdlib Require Import ZArith Lia.
From S2P Require Import Prelude LibString FileSystem Console Keyboard Paging Rtc State Terminal FileOps SysCall Process.

Inductive stream :=
| FileAt (content : list Z) (pos : Z)
| Listing
| Clock.

#[export] Instance stream_eq_dec : EqDecision stream.
Proof. solve_decision. Defined.

(** What opening a name gives. *)
Definition found (F : afs) (nm : list Z) : option stream :=
  e ← find_entry F nm;
  if a_type e =? 0 then Some Clock
  else if a_type e =? 1 then Some Listing
  else if a_type e =? 2 then c ← (a_files F).[a_inode e]; Some (FileAt c 0)
  else None.

(** The descriptor that the next file gets. *)
Definition first_fd (m : gmap Z stream) : option Z :=
  List.find (fun fd => bool_decide (m !! fd = None)) [2; 3; 4; 5; 6; 7].

(** Something is open. *)
Definition holds (f : stream) (m : gmap Z stream) : bool :=
  existsb (fun fd => bool_decide (m !! fd = Some f)) [2; 3; 4; 5; 6; 7].

(** A number that is no descriptor: too small, too large (8 aside), or not open. *)
Definition not_open (m : gmap Z stream) (fd : Z) : Prop :=
  fd < 0 \/ 8 < fd \/ 2 <= fd < 8 /\ m !! fd = None.

Definition fd_is (F : afs) (e : fd_t) (f : stream) : Prop :=
  match f with
  | FileAt c pos => file_op_table_ptr e = file_opt /\ (a_files F).[fd_inode_num e] = Some c /\
      file_pos e = pos /\ 0 <= pos <= len c
  | Listing => file_op_table_ptr e = dir_opt
  | Clock => file_op_table_ptr e = rtc_opt
  end.

(** The table: the keyboard, the terminal, and the files of the session. *)
Definition fds_are (F : afs) (l : list fd_t) (m : gmap Z stream) : Prop :=
  len l = NUM_MAX_FILES /\
  (exists e, l.[0] = Some e /\ flags e <> 0 /\ file_op_table_ptr e = stdin_opt) /\
  (exists e, l.[1] = Some e /\ flags e <> 0 /\ file_op_table_ptr e = stdout_opt) /\
  forall fd, match m !! fd with
    | Some f => MIN_FD_INDEX <= fd <= MAX_FD_INDEX /\ exists e, l.[fd] = Some e /\ flags e <> 0 /\ fd_is F e f
    | None => MIN_FD_INDEX <= fd <= MAX_FD_INDEX -> exists e, l.[fd] = Some e /\ flags e = 0
    end.

(** ** Lemmas *)

Lemma first_fd_spec m fd : first_fd m = Some fd -> 2 <= fd < 8 /\ m !! fd = None.
Proof.
  unfold first_fd. intros [Hin Hd%bool_decide_eq_true_1]%List.find_some. split; [|done].
  cbn in Hin. lia.
Qed.

Lemma first_fd_first m fd j : first_fd m = Some fd -> 2 <= j < fd -> m !! j <> None.
Proof.
  intros H Hj. pose proof (first_fd_spec m fd H) as [Hfd _]. revert H. unfold first_fd. cbn.
  assert (j = 2 \/ j = 3 \/ j = 4 \/ j = 5 \/ j = 6) as Ej by lia.
  repeat case_bool_decide; intros [= <-]; destruct Ej as [E|[E|[E|[E|E] ] ] ]; subst j; done || lia.
Qed.

Lemma first_fd_none m fd : first_fd m = None -> 2 <= fd < 8 -> m !! fd <> None.
Proof.
  unfold first_fd. intros H Hr Hm. pose proof (List.find_none _ _ H fd) as H'. cbv beta in H'.
  rewrite bool_decide_eq_true_2 in H' by done. discriminate H'. cbn. lia.
Qed.

Section table.
Context (F : afs).

Lemma fds_are_ok l m : fds_are F l m -> len l = NUM_MAX_FILES /\ Forall fd_ok l.
Proof.
  intros (Hlen & (e0 & He0 & _ & Ht0) & (e1 & He1 & _ & Ht1) & Hm). split; [done|].
  apply Forall_lookup_2. intros i e Hi. rewrite <- aget_nat in Hi. pose proof (aget_range _ _ _ Hi) as Hr.
  specialize (Hm (Z.of_nat i)). unfold MIN_FD_INDEX, MAX_FD_INDEX, NUM_MAX_FILES, fd_ok in *.
  destruct (Z.eq_dec (Z.of_nat i) 0) as [E|]; [rewrite E in Hi; intros _; congruence|].
  destruct (Z.eq_dec (Z.of_nat i) 1) as [E|]; [rewrite E in Hi; intros _; congruence|].
  destruct (m !! Z.of_nat i) as [f|].
  - destruct Hm as (_ & e' & He' & _ & Hf). assert (e' = e) as -> by congruence. intros _.
    destruct f; cbn in Hf; [destruct Hf as [-> _]|rewrite Hf..]; done.
  - destruct (Hm ltac:(lia)) as (e' & He' & Hf). assert (e' = e) as -> by congruence. congruence.
Qed.

Lemma fds_are_upd l m m' fd e e' :
  fds_are F l m -> l.[fd] = Some e -> MIN_FD_INDEX <= fd <= MAX_FD_INDEX ->
  match m' !! fd with Some f => flags e' <> 0 /\ fd_is F e' f | None => flags e' = 0 end ->
  (forall fd', fd <> fd' -> m' !! fd' = m !! fd') ->
  fds_are F (<[Z.to_nat fd := e']> l) m'.
Proof.
  intros (Hlen & (e0 & He0 & H0) & (e1 & He1 & H1) & Hm) He Hfd He' Hm'.
  unfold MIN_FD_INDEX, MAX_FD_INDEX in *. pose proof (aget_range _ _ _ He) as Hr.
  split; [by rewrite length_insert|]. split; [exists e0; split; [by rewrite aget_insert_ne by lia|done]|].
  split; [exists e1; split; [by rewrite aget_insert_ne by lia|done]|].
  intros fd'. destruct (Z.eq_dec fd fd') as [<-|Hne].
  - rewrite aget_insert_eq by done. destruct (m' !! fd) as [f|]; [|by exists e'].
    split; [done|]. exists e'. by destruct He'.
  - rewrite Hm' by done. specialize (Hm fd'). destruct (m !! fd') as [f'|].
    + destruct Hm as (Hr' & e2 & He2 & Hrest). split; [done|]. exists e2. by rewrite aget_insert_ne by lia.
    + intros Hr'. destruct (Hm Hr') as (e2 & He2 & Hrest). exists e2. by rewrite aget_insert_ne by lia.
Qed.

Lemma fds_are_set l m fd e e' f :
  fds_are F l m -> l.[fd] = Some e -> MIN_FD_INDEX <= fd <= MAX_FD_INDEX ->
  flags e' <> 0 -> fd_is F e' f -> fds_are F (<[Z.to_nat fd := e']> l) (<[fd := f]> m).
Proof.
  intros Hl He Hfd Hfl Hf. apply (fds_are_upd l m _ fd e); try done.
  - by rewrite lookup_insert_eq.
  - intros fd' Hne. by rewrite lookup_insert_ne.
Qed.

Lemma fds_are_free l m fd e e' :
  fds_are F l m -> l.[fd] = Some e -> MIN_FD_INDEX <= fd <= MAX_FD_INDEX -> flags e' = 0 ->
  fds_are F (<[Z.to_nat fd := e']> l) (delete fd m).
Proof.
  intros Hl He Hfd Hfl. apply (fds_are_upd l m _ fd e); try done.
  - by rewrite lookup_delete_eq.
  - intros fd' Hne. by rewrite lookup_delete_ne.
Qed.

Lemma fds_are_get l m fd f :
  fds_are F l m -> m !! fd = Some f ->
  MIN_FD_INDEX <= fd <= MAX_FD_INDEX /\ fd < NUM_MAX_FILES /\ exists e, l.[fd] = Some e /\ flags e <> 0 /\ fd_is F e f.
Proof.
  intros (_ & _ & _ & Hm) E. specialize (Hm fd). rewrite E in Hm. destruct Hm as [Hr He].
  split; [done|]. split; [unfold MAX_FD_INDEX, NUM_MAX_FILES in *; lia|done].
Qed.

Lemma found_opened nm f :
  found F nm = Some f -> exists e x, find_entry F nm = Some e /\ opened (a_type e) (a_inode e) = Some x /\
    flags x = 1 /\ fd_is F x f.
Proof.
  unfold found, opened. intros H. destruct (find_entry F nm) as [e|]; [|done]. cbn [mbind option_bind] in H.
  exists e. repeat case_match; try done.
  - injection H as <-. by eexists.
  - injection H as <-. by eexists.
  - destruct ((a_files F).[a_inode e]) as [c|] eqn:Ec; [|done]. injection H as <-. eexists. split_and!; try done.
    cbn. split_and!; [done|done|lia..].
Qed.

(** The next descriptor is the first free one of the table. *)
Lemma first_fd_free l m : fds_are F l m -> first_free l (default NUM_MAX_FILES (first_fd m)).
Proof.
  intros (Hlen & _ & _ & Hm). unfold first_free, MIN_FD_INDEX, MAX_FD_INDEX, NUM_MAX_FILES in *.
  assert (forall j e, 2 <= j < 8 -> m !! j <> None -> l.[j] = Some e -> flags e <> 0) as Htaken.
  { intros j e Hj Hne He. specialize (Hm j). destruct (m !! j) as [f|]; [|done].
    destruct Hm as (_ & e' & He' & Hfl & _). congruence. }
  destruct (first_fd m) as [fd|] eqn:E; cbn [default from_option id].
  - pose proof (first_fd_spec _ _ E) as [Hr Hnone]. split; [lia|]. split.
    + intros j e Hj. apply Htaken; [lia|]. by eapply first_fd_first.
    + intros _. specialize (Hm fd). rewrite Hnone in Hm. apply Hm. lia.
  - split; [lia|]. split; [|lia]. intros j e Hj. apply Htaken; [lia|]. by apply first_fd_none.
Qed.

Lemma not_open_bad l m fd : fds_are F l m -> not_open m fd -> bad_fd l fd.
Proof.
  intros (_ & _ & _ & Hm) [Hfd|[Hfd|[Hr Hnone] ] ]; [by left|right; by left|]. right. right.
  specialize (Hm fd). rewrite Hnone in Hm. apply Hm. unfold MIN_FD_INDEX, MAX_FD_INDEX. lia.
Qed.

(** The table holds the directory or the clock if the map does. *)
Lemma any_open_holds l m t f :
  fds_are F l m -> t = dir_opt /\ f = Listing \/ t = rtc_opt /\ f = Clock -> any_open t (drop 2 l) = holds f m.
Proof.
  intros (Hlen & _ & _ & Hm) Htf. apply eq_true_iff_eq. unfold any_open, holds, is_open.
  rewrite !existsb_exists. unfold MIN_FD_INDEX, MAX_FD_INDEX, NUM_MAX_FILES in *. split.
  - intros (e & Hin & [Hfl Ht]%andb_true_iff). apply bool_decide_eq_true in Ht.
    apply list_elem_of_In, list_elem_of_lookup in Hin as [i Hi]. rewrite lookup_drop, <- aget_nat in Hi.
    pose proof (aget_range _ _ _ Hi) as Hr. exists (Z.of_nat (2 + i)). split; [cbn; lia|].
    apply bool_decide_eq_true. specialize (Hm (Z.of_nat (2 + i))).
    destruct (m !! Z.of_nat (2 + i)) as [f'|].
    + destruct Hm as (_ & e' & He' & _ & Hf'). assert (e' = e) as -> by congruence. f_equal.
      destruct f' as [c pos| |]; cbn in Hf'; [destruct Hf' as [Hf' _]|..]; destruct Htf as [ [-> ->]|[-> ->] ]; congruence.
    + destruct (Hm ltac:(lia)) as (e' & He' & Hz). assert (e' = e) as -> by congruence.
      rewrite Hz in Hfl. discriminate Hfl.
  - intros (fd & Hin & Hf%bool_decide_eq_true). specialize (Hm fd). rewrite Hf in Hm.
    destruct Hm as (Hr & e & He & Hfl & Hfe). exists e. split.
    + apply list_elem_of_In, list_elem_of_lookup. exists (Z.to_nat (fd - 2)).
      rewrite lookup_drop, <- aget_nat, <- He. f_equal. lia.
    + rewrite (proj2 (Z.eqb_neq _ 0) Hfl). apply bool_decide_eq_true.
      destruct Htf as [ [-> ->]|[-> ->] ]; exact Hfe.
Qed.

(** The fresh table. *)
Lemma init_fds_are : fds_are F init_fds ∅.
Proof.
  split; [reflexivity|]. split; [by eexists|]. split; [by eexists|]. intros fd. rewrite lookup_empty.
  unfold MIN_FD_INDEX, MAX_FD_INDEX. intros Hfd.
  assert (fd = 2 \/ fd = 3 \/ fd = 4 \/ fd = 5 \/ fd = 6 \/ fd = 7) as Hc by lia.
  exists closed_fd. by repeat (destruct Hc as [-> | Hc]; [done|]); subst.
Qed.

(** The bytes of a file are bytes of the image. *)
Lemma file_bytes img i c : represents img F -> (a_files F).[i] = Some c -> Forall is_byte c.
Proof.
  intros HR Hc. destruct (rep_file _ _ HR _ _ Hc) as (_ & _ & _ & Hb). apply Forall_lookup. intros j b Hj.
  destruct (Hb (Z.of_nat j) b) as (idx & _ & _ & _ & Hi); [by rewrite aget_nat|].
  by eapply (aget_Forall is_byte img); [apply HR|].
Qed.

End table.
