(* ===== verification/Calls.v ===== *)
(** The system calls on descriptors as a process sees them.

    [owned k m n r] is what a process has of the kernel's state [k]: the open
    numbers [m], the directory position [n] and its clock rate [r].  Each call
    changes it as it would change a finite map, and of the rest of the kernel it
    changes nothing: [own k k']. *)
From stdpp Require Import base option list numbers gmap.
From Stdlib Require Import ZArith Lia.
From S2P Require Import Prelude LibString FileSystem Console Keyboard Paging Rtc State Terminal Desks Frame FileOps SysCall Process Scheduler Family System Files.

(** The running process's block but for its descriptors. *)
Definition without_fds (b : pcb_t) : pcb_t := b <| file_descriptor_table := [] |>.
Definition cur_block (k : kernel) : option pcb_t := without_fds <$> get_pcb (cur_pid k) k.

(** ** What the calls leave alone *)

Lemma upd_fd_rest fd f k k' : upd_fd (cur_pid k) fd f k = Some k' -> cur_pid k' = cur_pid k -> cur_block k' = cur_block k.
Proof.
  intros E Ep. unfold cur_block. rewrite Ep. destruct (get_pcb (cur_pid k) k) as [b|] eqn:Eb.
  - destruct (upd_fd_block _ _ _ _ _ _ E Eb) as (b' & -> & ->). by destruct b'.
  - unfold upd_fd in E. by rewrite Eb in E.
Qed.

Lemma fop_read_files w t e b n k r b' k' :
  t = file_opt \/ t = dir_opt -> fop_read w t e b n k = Some (r, b', k') ->
  pcbs k' = pcbs k /\ cur_pid k' = cur_pid k.
Proof.
  intros Ht H. destruct Ht as [-> | ->]; cbn [fop_read] in H; unbind H; injection H as <- <- <-.
  - unfold file_read in E0. case_match; [by injection E0 as <- <- <-|]. unbind E0. by injection E0 as <- <- <-.
  - unfold dir_read in E0. unbind E0. case_match; [by injection E0 as <- <- <-|]. unbind E0. by injection E0 as <- <- <-.
Qed.

Lemma upd_fd_pid p fd f k k' : upd_fd p fd f k = Some k' -> cur_pid k' = cur_pid k.
Proof. unfold upd_fd, upd_pcb. intros H. unbind H. by injection H as <-. Qed.

Lemma same_pcbs_rest k k' : pcbs k' = pcbs k -> cur_pid k' = cur_pid k -> cur_block k' = cur_block k.
Proof. intros E1 E2. unfold cur_block, get_pcb. by rewrite E1, E2. Qed.

Lemma sys_read_rest w l fd e b n k r b' k' :
  cur_fds k = Some l -> l.[fd] = Some e -> fd < NUM_MAX_FILES ->
  file_op_table_ptr e = file_opt \/ file_op_table_ptr e = dir_opt ->
  sys_read w fd b n k = Some (r, b', k') -> cur_block k' = cur_block k.
Proof.
  intros Hfds He Hfd Ht H. unfold sys_read in H. case_match; [by injection H as <- <- <-|].
  destruct (cur_fds_pcb _ _ Hfds) as (b0 & Eb & El). rewrite Eb in H. cbn [mbind option_bind] in H.
  rewrite fd_of_table, El, He in H by lia. cbn [mbind option_bind] in H.
  case_match; [by injection H as <- <- <-|]. unbind H. injection H as <- <- <-.
  destruct (fop_read_files _ _ _ _ _ _ _ _ _ Ht E) as [Ep Ec].
  rewrite <- Ec in E0. rewrite (upd_fd_rest _ _ _ _ E0); [by apply same_pcbs_rest|by eapply upd_fd_pid].
Qed.

Lemma sys_open_rest d0 name k r k' :
  sys_open d0 name k = Some (r, k') -> cur_block k' = cur_block k.
Proof.
  unfold sys_open. intros H. unbind H. case_match; [by injection H as <- <-|]. unbind H.
  case_match; [by injection H as <- <-|].
  repeat case_match; unbind H; injection H as <- <-; try done;
    (match goal with E : upd_fd _ _ _ k = Some ?k1 |- _ =>
       pose proof (upd_fd_rest _ _ _ _ E (upd_fd_pid _ _ _ _ _ E)) as Ha; pose proof (upd_fd_pid _ _ _ _ _ E) as Hp end);
    try done.
  rewrite <- Ha. unfold fop_open, on_rtc in *. cbn in *.
  match goal with E : _ = Some (_, ?k2) |- cur_block ?k2 = _ => unfold rtc_open in E; unbind E; by injection E as <- <- end.
Qed.

Lemma sys_close_rest fd k r k' :
  sys_close fd k = Some (r, k') -> cur_pid k' = cur_pid k -> cur_block k' = cur_block k.
Proof.
  intros H Ep. unfold cur_block. rewrite Ep. destruct (get_pcb (cur_pid k) k) as [b|] eqn:Eb.
  - destruct (sys_close_block _ _ _ _ _ H Eb) as (b' & -> & ->). by destruct b'.
  - unfold sys_close in H. case_match; [by injection H as <- <-; rewrite Eb|]. by rewrite Eb in H.
Qed.

(** A call changes the running process's descriptors and clock rate, the directory
    position and the interrupt flag. *)
Record own (k k' : kernel) : Prop := {
  ow_parts : k' = k <| pcbs := pcbs k' |> <| k_rtc := k_rtc k' |> <| read_index := read_index k' |>
    <| k_con ::= fun c => c <| intr := intr (k_con k') |> |>;
  ow_others : forall q, q <> cur_pid k -> get_pcb q k' = get_pcb q k;
  ow_rates : forall q, q <> cur_pid k -> (process_rtc (k_rtc k')).[q] = (process_rtc (k_rtc k)).[q];
  ow_block : cur_block k' = cur_block k;
  ow_rtc : wf_rtc (k_rtc k) -> wf_rtc (k_rtc k');
  ow_clock : same_clock (k_rtc k) (k_rtc k');
}.

Lemma own_pid k k' : own k k' -> cur_pid k' = cur_pid k.
Proof. intros Ho. by rewrite (ow_parts _ _ Ho). Qed.

Lemma own_img k k' : own k k' -> k_img k' = k_img k.
Proof. intros Ho. by rewrite (ow_parts _ _ Ho). Qed.

Lemma own_refl k : own k k.
Proof. split; try done. by destruct k as [ [] ]. Qed.

Lemma rtc_open_wf name k r k' :
  fop_open rtc_opt name k = Some (r, k') ->
  (wf_rtc (k_rtc k) -> wf_rtc (k_rtc k')) /\ same_clock (k_rtc k) (k_rtc k').
Proof.
  unfold fop_open, on_rtc, rtc_open. intros H. unbind H. injection H as <- <-. unbind E. injection E as <- <-.
  match goal with Es : aset _ _ _ = Some _ |- _ => rename Es into E end.
  split; [|done]. intros [Wl Wr Wc Ww]. split; cbn; try done; [by rewrite (aset_length _ _ _ _ E)|].
  eapply aset_Forall; [exact Wr| |exact E]. unfold rate_ok, MIN_VIR_FREQ, MAX_VIR_FREQ. lia.
Qed.

Lemma sys_open_rtc d0 name k r k' :
  sys_open d0 name k = Some (r, k') ->
  (wf_rtc (k_rtc k) -> wf_rtc (k_rtc k')) /\ same_clock (k_rtc k) (k_rtc k').
Proof.
  unfold sys_open. intros H. unbind H. case_match; [by injection H as <- <-|]. unbind H.
  case_match; [by injection H as <- <-|].
  repeat case_match; unbind H; injection H as <- <-; try done;
    (match goal with E : upd_fd _ _ _ k = Some ?k1 |- _ => pose proof (upd_fd_rtc _ _ _ _ _ E) as Hr end);
    try (by rewrite Hr).
  rewrite <- Hr. by eapply rtc_open_wf.
Qed.

Lemma own_pcbs k k' :
  k' = k <| pcbs := pcbs k' |> <| read_index := read_index k' |> ->
  (forall q, q <> cur_pid k -> get_pcb q k' = get_pcb q k) -> cur_block k' = cur_block k -> own k k'.
Proof.
  intros E Hq Hb. split; try done; try (rewrite E; by destruct k as [ [] ]).
Qed.

Lemma only_process_own k k' :
  only_process k k' -> cur_block k' = cur_block k ->
  (wf_rtc (k_rtc k) -> wf_rtc (k_rtc k')) /\ same_clock (k_rtc k) (k_rtc k') -> own k k'.
Proof. intros (E & Hq & Hr) Hb [Hw Hc]. split; try done. rewrite E. by destruct k as [ [] ]. Qed.

(** The state of the whole kernel is as before but for who has what open. *)
Lemma chain_fds pb l i b t :
  chain pb l -> pb.[i] = Some b -> Forall fd_ok t -> chain (<[Z.to_nat i := b <| file_descriptor_table := t |>]> pb) l.
Proof.
  intros H Eb Ht. pose proof (aget_range _ _ _ Eb) as Hr. induction l as [|p l IH]; [done|].
  destruct H as [ (b' & Eb' & Hb') Hl]. split; [|by apply IH].
  destruct (Z.eq_dec i (p_pid p)) as [->|Hne].
  - exists (b <| file_descriptor_table := t |>). rewrite aget_insert_eq by done. split; [done|].
    assert (b' = b) as -> by congruence. destruct Hb'. by split.
  - exists b'. by rewrite aget_insert_ne by lia.
Qed.

Lemma models_own A B F room k k' M l :
  models A B F room k M -> own k k' -> cur_fds k' = Some l -> len l = NUM_MAX_FILES -> Forall fd_ok l ->
  models A B F room k' M.
Proof.
  intros [HR HD [Wp Wb Wm Wf Wta Wt] Hroom Hrtc Hclock Hinit HF] Ho Hl Hlen Hok.
  pose proof (own_pid _ _ Ho) as Ep. destruct Ho as [Ek Hq _ Hblk Hw [Hc _]%same_clock_count].
  destruct (cur_fds_pcb _ _ Hl) as (b' & Eb' & El). rewrite Ep in Eb'.
  unfold cur_block in Hblk. rewrite Ep, Eb' in Hblk.
  destruct (get_pcb (cur_pid k) k) as [b|] eqn:Eb; [|done].
  assert (b' = b <| file_descriptor_table := l |>) as ->.
  { destruct b, b'. cbn in El. subst. injection Hblk as -> -> -> -> -> -> ->. done. }
  assert (pcbs k' = <[Z.to_nat (cur_pid k) := b <| file_descriptor_table := l |>]> (pcbs k)) as Epcbs.
  { apply list_upd; [|by apply aget_range in Eb|done|exact Hq].
    apply Nat2Z.inj. by apply (pcbs_length k k' (cur_pid k)). }
  destruct (aget_Forall _ _ _ _ Wf Eb) as [_ Hargs].
  split; try (by rewrite Ek); try (by rewrite ?Hc; auto).
  - rewrite Ek. destruct HD as [ [ [] ] ]. by split.
  - split; try (by rewrite Ek).
    + rewrite Epcbs, length_insert. done.
    + rewrite Epcbs. by apply Forall_insert.
  - rewrite Ek at 2 3 4. cbn. rewrite Epcbs.
    destruct HF. split; try done. intros t Ht. apply chain_fds; auto.
Qed.


(** ** What a process has *)

Section owned.
Context (F : afs).

Record owned (k : kernel) (m : gmap Z stream) (n rate : Z) : Prop := {
  od_img : represents (k_img k) F;
  od_fds : exists l, cur_fds k = Some l /\ fds_are F l m;
  od_index : read_index k = n;
  od_range : 0 <= n < 4294967295;
  od_rate : (process_rtc (k_rtc k)).[cur_pid k] = Some rate;
}.

Lemma owned_pid k m n r : owned k m n r -> 0 <= cur_pid k < len (process_rtc (k_rtc k)).
Proof. intros Ho. exact (aget_range _ _ _ (od_rate _ _ _ _ Ho)). Qed.

(** From one state to the next. *)
Lemma owned_own k k' m m' n n' r r' l' :
  owned k m n r -> own k k' -> cur_fds k' = Some l' -> fds_are F l' m' -> read_index k' = n' ->
  0 <= n' < 4294967295 -> (process_rtc (k_rtc k')).[cur_pid k] = Some r' -> owned k' m' n' r'.
Proof.
  intros Hd Ho Hl Hare Hi Hx Hr. split; [|by exists l'|done|done|by rewrite (own_pid _ _ Ho)].
  rewrite (own_img _ _ Ho). apply Hd.
Qed.

Lemma owned_view k k' m n r : same_view k k' -> owned k m n r -> owned k' m n r.
Proof.
  intros V [HR (l & Hl & Hare) Hi Hx Hr]. injection V as Ertc Eimg Ei Epcbs _ Ecur _ _ _ _ _ _ _.
  split; rewrite ?Eimg, ?Ei, ?Ertc, ?Ecur; try done. exists l. split; [|done].
  unfold cur_fds, get_pcb in *. by rewrite Epcbs, Ecur.
Qed.

(** A change of an entry that is not a file's and stays what it is. *)
Lemma call_touch k m n r fd e l f :
  owned k m n r -> cur_fds k = Some l -> l.[fd] = Some e -> flags e <> 0 ->
  match m !! fd with Some (FileAt _ _) => False | Some _ => True | None => fd = 0 \/ fd = 1 end ->
  (forall e, flags (f e) = flags e /\ file_op_table_ptr (f e) = file_op_table_ptr e) ->
  exists k', upd_fd (cur_pid k) fd f k = Some k' /\ own k k' /\ owned k' m n r.
Proof.
  intros Hd Hl He Hfl Hk Hf. destruct (od_fds _ _ _ _ Hd) as (l0 & Hl0 & Hare).
  assert (l0 = l) as -> by congruence. pose proof (aget_range _ _ _ He) as Hr.
  destruct (upd_fd_ok k l fd e f Hl He) as (k' & E & Hl' & Ek & Hq). exists k'. split; [done|].
  assert (own k k') as Ho.
  { apply own_pcbs; [by rewrite Ek; destruct k|done|by eapply upd_fd_rest, upd_fd_pid]. }
  split; [done|]. destruct (Hf e) as [Efl Et].
  eapply owned_own; [exact Hd|exact Ho|exact Hl'| | |apply Hd|]; try (rewrite Ek; apply Hd).
  destruct Hare as (Hlen & H0 & H1 & Hm). split; [by rewrite length_insert|].
  assert (forall i t, (exists ei, l.[i] = Some ei /\ flags ei <> 0 /\ file_op_table_ptr ei = t) ->
    exists e', (<[Z.to_nat fd := f e]> l).[i] = Some e' /\ flags e' <> 0 /\ file_op_table_ptr e' = t) as H.
  { intros i t (ei & Hei & Hfli & Ht). destruct (Z.eq_dec fd i) as [<-|Hne].
    - exists (f e). rewrite aget_insert_eq by done. assert (ei = e) as -> by congruence. by rewrite Efl, Et.
    - exists ei. by rewrite aget_insert_ne by (apply aget_range in Hei; lia). }
  split; [by apply H|]. split; [by apply H|]. intros fd'. specialize (Hm fd').
  unfold MIN_FD_INDEX, MAX_FD_INDEX in *.
  destruct (m !! fd') as [s|] eqn:Es.
  - destruct Hm as (Hr' & e' & He' & Hfl' & Hs). split; [done|].
    destruct (Z.eq_dec fd fd') as [<-|Hne].
    + exists (f e). rewrite aget_insert_eq by done. assert (e' = e) as -> by congruence. rewrite Efl.
      split; [done|]. split; [done|]. rewrite Es in Hk. destruct s; [done|..]; cbn in *; by rewrite Et.
    + exists e'. by rewrite aget_insert_ne by lia.
  - intros Hr'. destruct (Hm Hr') as (e' & He' & Hfl'). exists e'.
    destruct (Z.eq_dec fd fd') as [<-|Hne]; [congruence|]. by rewrite aget_insert_ne by lia.
Qed.

(** *** Opening *)

(** The descriptor a name gets, the open numbers and the rate afterwards.  A name
    of a file that the disk does not have gets a number that stays closed. *)
Definition opening (nm : list Z) (m : gmap Z stream) (r : Z) : Z * gmap Z stream * Z :=
  match find_entry F nm, first_fd m with
  | Some e, Some fd =>
      match found F nm with
      | Some f => (fd, <[fd := f]> m, if a_type e =? 0 then MIN_VIR_FREQ else r)
      | None => (fd, m, r)
      end
  | _, _ => (-1, m, r)
  end.

(** An entry of a regular file names a file of the disk. *)
Definition file_exists (nm : list Z) : Prop :=
  forall e, find_entry F nm = Some e -> a_type e = 2 -> is_Some ((a_files F).[a_inode e]).

Lemma opened_found nm e x :
  find_entry F nm = Some e -> file_exists nm -> opened (a_type e) (a_inode e) = Some x ->
  exists f, found F nm = Some f /\ flags x = 1 /\ fd_is F x f.
Proof.
  intros He Hex. unfold opened, found. rewrite He. cbn [mbind option_bind].
  destruct (a_type e =? 0); [intros [= <-]; by eexists|].
  destruct (a_type e =? 1); [intros [= <-]; by eexists|].
  destruct (Z.eqb_spec (a_type e) 2) as [E2|]; [|done]. intros [= <-].
  destruct (Hex e He E2) as [c Ec]. rewrite Ec. exists (FileAt c 0). cbn. split_and!; done || lia.
Qed.

Lemma call_open k m n r d0 name nm :
  owned k m n r -> cstring name 0 nm -> file_exists nm ->
  exists k', sys_open d0 name k = Some ((opening nm m r).1.1, k') /\ own k k' /\
    owned k' (opening nm m r).1.2 n (opening nm m r).2.
Proof.
  intros Hd Hc Hex. pose proof Hd as [HR (l & Hl & Hare) Hi Hx Hr]. pose proof Hare as (Hlen & _ & _ & Hm).
  destruct (sys_open_spec k F l d0 name nm HR Hc Hl Hlen (owned_pid _ _ _ _ Hd)) as (fd & Hfree & H).
  pose proof (first_free_unique l _ _ Hlen Hfree (first_fd_free F _ _ Hare)) as ->.
  unfold opening. destruct (find_entry F nm) as [e|] eqn:Efind; [|exists k; by pose proof (own_refl k)].
  destruct (first_fd m) as [fd|] eqn:Efd; cbn [default from_option id] in H;
    [|rewrite decide_True in H by done; exists k; by pose proof (own_refl k)].
  pose proof (first_fd_spec _ _ Efd) as [Hrange Hnone].
  rewrite decide_False in H by (unfold NUM_MAX_FILES; lia).
  destruct (opened (a_type e) (a_inode e)) as [x|] eqn:Eop.
  - destruct (opened_found _ _ _ Efind Hex Eop) as (f & -> & Hfl & Hf).
    destruct H as (k' & E & Hl' & Hop & Hrate & _). exists k'. split; [done|]. cbn [fst snd].
    assert (own k k') as Ho.
    { apply only_process_own; [done|by eapply sys_open_rest|by eapply sys_open_rtc]. }
    split; [done|]. destruct Hfree as (_ & _ & Hfd). destruct (Hfd ltac:(unfold NUM_MAX_FILES; cbn; lia)) as (e0 & He0 & _).
    eapply owned_own; [exact Hd|exact Ho|exact Hl'| |by rewrite (proj1 Hop)|done|].
    + eapply fds_are_set; [exact Hare|exact He0| | |done]; [unfold MIN_FD_INDEX, MAX_FD_INDEX; lia|by rewrite Hfl].
    + rewrite Hrate, Hr. by case_match.
  - exists k. assert (found F nm = None) as ->; [|by pose proof (own_refl k)].
    unfold found. rewrite Efind. cbn [mbind option_bind]. unfold opened in Eop.
    by repeat case_match.
Qed.

(** *** Closing *)

Definition closing_index (f : stream) (n : Z) : Z := match f with Listing => 0 | _ => n end.
Definition closing_rate (f : stream) (r : Z) : Z := match f with Clock => MAX_VIR_FREQ | _ => r end.

Lemma call_close k m n r fd f :
  owned k m n r -> m !! fd = Some f ->
  exists k', sys_close fd k = Some (0, k') /\ own k k' /\
    owned k' (delete fd m) (closing_index f n) (closing_rate f r).
Proof.
  intros Hd Hfd. pose proof Hd as [HR (l & Hl & Hare) Hi Hx Hr].
  destruct (fds_are_get F _ _ _ _ Hare Hfd) as (Hrange & Hlt & e & He & Hfl & Hf).
  assert (file_op_table_ptr e = match f with FileAt _ _ => file_opt | Listing => dir_opt | Clock => rtc_opt end) as Et
    by (destruct f; cbn in Hf; [apply Hf|done..]).
  destruct (sys_close_open k l fd e Hl He Hrange (owned_pid _ _ _ _ Hd) Hfl) as (k' & E & Hl' & (Ek & Hq & Hq') & Hrate & _).
  { rewrite Et. by destruct f. }
  exists k'. split; [done|]. assert (cur_pid k' = cur_pid k) as Ep by (rewrite Ek; by destruct (file_op_table_ptr e)).
  destruct (sys_close_wf_rtc _ _ _ _ E) as [Hw Hcnt].
  assert (own k k') as Ho.
  { split; [rewrite Ek; by destruct k as [ [] ], (file_op_table_ptr e)| | |by eapply sys_close_rest|done|done].
    - intros q Hne. rewrite Hq; by destruct (file_op_table_ptr e).
    - intros q Hne. rewrite Hq'; by destruct (file_op_table_ptr e). }
  split; [done|]. eapply owned_own; [exact Hd|exact Ho|exact Hl'|by eapply fds_are_free| | |].
  - rewrite Ek, Et. by destruct f.
  - destruct f; cbn; lia.
  - rewrite Hrate, Et. by destruct f.
Qed.

(** *** Reading *)

Definition reading_file (fd : Z) (c : list Z) (pos n : Z) (m : gmap Z stream) : gmap Z stream :=
  <[fd := FileAt c (pos + Z.min n (len c - pos))]> m.

Lemma call_read_file w k m n r fd c pos buf nbytes :
  owned k m n r -> m !! fd = Some (FileAt c pos) -> 0 <= nbytes <= len buf ->
  exists k', sys_read w fd (Some buf) nbytes k =
      Some (Z.min nbytes (len c - pos), Some (splice buf 0 (slice c pos (Z.min nbytes (len c - pos)))), k') /\
    own k k' /\ owned k' (reading_file fd c pos nbytes m) n r.
Proof.
  intros Hd Hfd Hb. pose proof Hd as [HR (l & Hl & Hare) Hi Hx Hr].
  destruct (fds_are_get F _ _ _ _ Hare Hfd) as (Hrange & Hlt & e & He & Hfl & Ht & Hc & Ep & Hp).
  destruct (sys_read_file_eq w k F l fd e c buf nbytes) as (k' & E & Hl' & Ek & Hq); try done.
  { by rewrite Ep. }
  rewrite Ep in E, Hl'. exists k'. split; [done|]. assert (own k k') as Ho.
  { apply own_pcbs; [by rewrite Ek; destruct k|done|].
    eapply sys_read_rest; [exact Hl|exact He|done|by left|exact E]. }
  split; [done|]. eapply owned_own; [exact Hd|exact Ho|exact Hl'| | |done|]; [|by rewrite Ek..].
  eapply fds_are_set; [exact Hare|exact He|done|done|]. cbn. split_and!; [done|done|done|lia..].
Qed.

Lemma call_read_dir w k m n r fd buf nbytes :
  owned k m n r -> m !! fd = Some Listing -> 33 <= len buf ->
  exists v buf' k', sys_read w fd (Some buf) nbytes k = Some (v, Some buf', k') /\
    length buf' = length buf /\ own k k' /\
    match (a_entries F).[n] with
    | Some e => v = len (a_name e) /\ cstring buf' 0 (a_name e) /\ owned k' m (n + 1) r
    | None => v = 0 /\ buf' = buf /\ owned k' m n r
    end.
Proof.
  intros Hd Hfd Hb. pose proof Hd as [HR (l & Hl & Hare) Hi Hx Hr].
  destruct (fds_are_get F _ _ _ _ Hare Hfd) as (Hrange & Hlt & e & He & Hfl & Ht).
  destruct (sys_read_dir_eq w k F l fd e buf nbytes) as (v & b' & k' & i & p & E & Hlb & Hm & Hl' & Ek & Hq);
    try done; [by rewrite Hi|].
  exists v, b', k'. split; [done|]. split; [done|]. assert (own k k') as Ho.
  { apply own_pcbs; [by rewrite Ek; destruct k|done|].
    eapply sys_read_rest; [exact Hl|exact He|done|by right|exact E]. }
  split; [done|]. rewrite Hi in Hm.
  assert (forall i', i = i' -> 0 <= i' < 4294967295 -> owned k' m i' r) as H.
  { intros i' <- Hi'. eapply owned_own; [exact Hd|exact Ho|exact Hl'| | |done|]; [|by rewrite Ek..].
    eapply (fds_are_upd F l m); [exact Hare|exact He|done| |done]. rewrite Hfd. by split. }
  destruct ((a_entries F).[n]) as [x|] eqn:Ex.
  - destruct Hm as (-> & Hc & ->). split_and!; try done. apply H; [done|].
    pose proof (aget_range _ _ _ Ex). pose proof (rep_entries_max _ _ HR). unfold MAX_DIR_ENTRIES in *. lia.
  - destruct Hm as (-> & -> & ->). split_and!; try done. by apply H.
Qed.

(** The entry of the table that a call finds. *)
Lemma call_entry k l fd e :
  cur_fds k = Some l -> l.[fd] = Some e -> 0 <= fd < NUM_MAX_FILES -> flags e <> 0 ->
  (forall w buf nbytes, sys_read w fd buf nbytes k =
    ('(v, buf, k1) ← fop_read w (file_op_table_ptr e) e buf nbytes k;
     k2 ← upd_fd (cur_pid k) fd (fun e => e <| file_pos ::= fun p => u32 (p + v) |>) k1; Some (v, buf, k2))) /\
  (forall buf nbytes, sys_write fd buf nbytes k = fop_write (file_op_table_ptr e) buf nbytes k).
Proof.
  intros Hl He Hfd Hfl. destruct (cur_fds_pcb _ _ Hl) as (b & Eb & Eb2). unfold sys_read, sys_write.
  replace ((fd <? 0) || (NUM_MAX_FILES <? fd)) with false by lia. rewrite Eb. cbn [mbind option_bind].
  rewrite fd_of_table, Eb2, He by lia. cbn [mbind option_bind]. by rewrite (proj2 (Z.eqb_neq _ 0) Hfl).
Qed.

Lemma call_read_stdout w k m n r buf nbytes :
  owned k m n r -> exists k', sys_read w 1 buf nbytes k = Some (-1, buf, k') /\ own k k' /\ owned k' m n r.
Proof.
  intros Hd. pose proof Hd as [HR (l & Hl & Hare) Hi Hx Hr]. pose proof Hare as (_ & _ & (e & He & Hfl & Ht) & Hm).
  destruct (call_entry k l 1 e Hl He ltac:(unfold NUM_MAX_FILES; lia) Hfl) as [-> _]. rewrite Ht.
  cbn [fop_read invalid_read_write mbind option_bind].
  destruct (call_touch k m n r 1 e l (fun e => e <| file_pos ::= fun p => u32 (p + -1) |>) Hd Hl He Hfl)
    as (k' & -> & Ho & Hd'); [|done|].
  { specialize (Hm 1). destruct (m !! 1) as [s|]; [|by right]. destruct Hm as [Hr' _]. unfold MIN_FD_INDEX in Hr'. lia. }
  cbn [mbind option_bind]. by exists k'.
Qed.

(** *** Writing *)

(** Files and the directory cannot be written, nor can the keyboard. *)
Lemma call_write_refused k m n r fd buf nbytes :
  owned k m n r -> fd = 0 \/ (exists f, m !! fd = Some f /\ f <> Clock) ->
  sys_write fd buf nbytes k = Some (-1, k).
Proof.
  intros Hd Hfd. pose proof Hd as [HR (l & Hl & Hare) Hi Hx Hr].
  destruct Hfd as [->|(f & Hf & Hne)].
  - pose proof Hare as (_ & (e & He & Hfl & Ht) & _).
    destruct (call_entry k l 0 e Hl He ltac:(unfold NUM_MAX_FILES; lia) Hfl) as [_ ->]. by rewrite Ht.
  - destruct (fds_are_get F _ _ _ _ Hare Hf) as (Hrange & Hlt & e & He & Hfl & Hfe).
    unfold MIN_FD_INDEX in Hrange. destruct (call_entry k l fd e Hl He ltac:(lia) Hfl) as [_ ->].
    destruct f as [c pos| |]; cbn in Hfe; [destruct Hfe as [-> _]; done|by rewrite Hfe|done].
Qed.

(** The clock takes a rate of 2 to 1024 and turns interrupts on; another it
    refuses, and interrupts stay off. *)
Lemma call_write_clock k m n r fd buf nbytes w :
  owned k m n r -> wf_rtc (k_rtc k) -> m !! fd = Some Clock -> ld32 buf 0 = Some w ->
  exists k', sys_write fd (Some buf) nbytes k = Some (if decide (rate_ok (s32 w)) then 0 else -1, k') /\
    own k k' /\ intr (k_con k') = bool_decide (rate_ok (s32 w)) /\
    owned k' m n (if decide (rate_ok (s32 w)) then s32 w else r).
Proof.
  intros Hd W Hfd Hw. pose proof Hd as [HR (l & Hl & Hare) Hi Hx Hr].
  destruct (fds_are_get F _ _ _ _ Hare Hfd) as (Hrange & Hlt & e & He & Hfl & Ht).
  unfold MIN_FD_INDEX in Hrange. destruct (call_entry k l fd e Hl He ltac:(lia) Hfl) as [_ ->]. cbn in Ht. rewrite Ht.
  cbn [fop_write mbind option_bind]. unfold rtc_write_op, rtc_write. rewrite Hw. cbn [mbind option_bind].
  assert ((s32 w <? MIN_VIR_FREQ) || (MAX_VIR_FREQ <? s32 w) = bool_decide (~ rate_ok (s32 w))) as ->.
  { unfold rate_ok. case_bool_decide; lia. }
  destruct (decide (rate_ok (s32 w))) as [Hok|Hno].
  - rewrite bool_decide_eq_false_2, (bool_decide_eq_true_2 (rate_ok _)) by tauto.
    pose proof (owned_pid _ _ _ _ Hd) as Hpid. rewrite aset_Some by done. cbn [mbind option_bind].
    eexists. split; [done|]. match goal with |- own _ ?k1 /\ _ => set (k' := k1) end.
    assert (own k k') as Ho.
    { split; try done.
      - intros q Hq. cbn. by rewrite aget_insert_ne by lia.
      - intros _. destruct W. split; cbn -[Z.of_nat]; rewrite ?length_insert; try done. by apply Forall_insert. }
    split; [done|]. split; [done|]. eapply owned_own; [exact Hd|exact Ho|exact Hl|exact Hare|exact Hi|done|].
    cbn. by apply aget_insert_eq.
  - rewrite bool_decide_eq_true_2, (bool_decide_eq_false_2 (rate_ok _)) by tauto.
    eexists. split; [done|]. match goal with |- own _ ?k1 /\ _ => set (k' := k1) end.
    assert (own k k') as Ho by (split; done).
    split; [done|]. split; [done|]. eapply owned_own; [exact Hd|exact Ho|exact Hl|exact Hare|exact Hi|done|exact Hr].
Qed.

(** Numbers that are not open are refused. *)
Lemma call_refused w k m n r fd buf nbytes :
  owned k m n r -> not_open m fd ->
  sys_read w fd buf nbytes k = Some (-1, buf, k) /\ sys_write fd buf nbytes k = Some (-1, k) /\
  sys_close fd k = Some (-1, k).
Proof.
  intros Hd Hno. destruct (od_fds _ _ _ _ Hd) as (l & Hl & Hare).
  pose proof (not_open_bad F _ _ _ Hare Hno) as Hbad. destruct Hare as [Hlen _].
  destruct (cur_fds_pcb _ _ Hl) as (b & Eb & <-). by eapply bad_fd_refused.
Qed.
End owned.
