(* ===== verification/Os.v ===== *)
(** The whole kernel, system calls included, against one specification.

    [System.v] has the events that change who runs and what is on a screen.  Here
    the programs' calls on files, the directory, the clock, their arguments and
    the terminal come in between, in any order: a state [os] adds to a [machine]
    what each process has open, its clock rate and the one position in the
    directory that all of them share.  [next] says what an event or a call does to
    it and [replies] what it answers; [serves] relates it to the kernel's state.

    A read of the keyboard is a step at the moment the line is there: before that
    it changes nothing but the interrupt flag ([Interleave.read_waits]). *)
From stdpp Require Import base option list numbers gmap.
From Stdlib Require Import ZArith Lia.
From S2P Require Import Prelude LibString FileSystem Console I8259 Keyboard Paging Rtc Printf Idt State Terminal Desks Frame FileOps SysCall Process Scheduler Family System Files Calls.

Record os := mkOs {
  o_mach : machine;
  o_open : Z -> gmap Z stream;   (* by process number *)
  o_rate : Z -> Z;
  o_listed : Z;
}.

(** ** Calls *)

Inductive call :=
| Getargs (buf : list Z) (nbytes : Z)
| Open (name nm : list Z)
| Close (fd : Z)
| Read (fd : Z) (buf : list Z) (nbytes : Z)
| Write (fd : Z) (buf : list Z) (nbytes : Z)
| Vidmap (screen_start : Z).

Inductive os_event := Sys (e : sys_event) | Call (c : call).

(** What the hardware is left with, or the value in EAX and what the caller's
    buffer holds. *)
Inductive reply := Hardware (r : result) | Value (v : Z) (buf : list Z).

(** More clock interrupts than a read of the clock ever waits for. *)
Definition patience : nat := 1026.

Definition run_call (d0 : dentry_t) (c : call) (k : kernel) : option (reply * kernel) :=
  match c with
  | Getargs buf nbytes => '(v, buf, k) ← sys_getargs buf nbytes k; Some (Value v buf, k)
  | Open name _ => '(v, k) ← sys_open d0 name k; Some (Value v [], k)
  | Close fd => '(v, k) ← sys_close fd k; Some (Value v [], k)
  | Read fd buf nbytes =>
      '(v, b, k) ← sys_read (mkWorld [] [] patience) fd (Some buf) nbytes k; b ← b; Some (Value v b, k)
  | Write fd buf nbytes => '(v, k) ← sys_write fd (Some buf) nbytes k; Some (Value v buf, k)
  | Vidmap p => '(v, w, k) ← sys_vidmap p k; Some (Value v (match w with Some w => [w] | None => [] end), k)
  end.

Definition run_os (d0 : dentry_t) (e : os_event) (k : kernel) : option (reply * kernel) :=
  match e with
  | Sys e => '(r, k) ← run_sys e k; Some (Hardware r, k)
  | Call c => run_call d0 c k
  end.

Fixpoint run_os_all (d0 : dentry_t) (es : list os_event) (k : kernel) : option (list reply * kernel) :=
  match es with
  | [] => Some ([], k)
  | e :: es => '(r, k) ← run_os d0 e k; '(rs, k) ← run_os_all d0 es k; Some (r :: rs, k)
  end.

(** ** What they do *)

(** The running process. *)
Definition pid_of (M : machine) : Z := parent_of (m_procs M (running M)).
Definition args_of (M : machine) : list Z :=
  match m_procs M (running M) with p :: _ => p_args p | [] => [] end.

Definition upd_at {X} (i : Z) (x : X) (f : Z -> X) : Z -> X := fun j => if j =? i then x else f j.

Definition with_mach (M : machine) (O : os) : os := mkOs M (o_open O) (o_rate O) (o_listed O).

(** What the running process has is now this. *)
Definition with_own (m : gmap Z stream) (n rate : Z) (O : os) : os :=
  mkOs (o_mach O) (upd_at (pid_of (o_mach O)) m (o_open O)) (upd_at (pid_of (o_mach O)) rate (o_rate O)) n.

(** The clock interrupts until the counter of a terminal, which is one behind the
    kernel's count, is next a multiple of the period. *)
Definition waits_for (count rate : Z) : nat :=
  default 0%nat (List.find (fun k => Z.rem (s32 (count - 1 + Z.of_nat k)) (period rate) =? 0) (seq 1 1024)).

Section spec.
Context (F : afs).

Definition clock_step (O : os) : os := with_mach (spec_step F System.Clock (o_mach O)).2 O.

(** A program that ends closes what it has open: the directory goes back to its
    start and the clock to its full rate.  A base shell starts afresh, with its
    rate as it was. *)
Definition halted (status : Z) (st : frame) (O : os) : os :=
  let M := o_mach O in
  let i := pid_of M in
  let M' := (spec_halt F status st M).2 in
  match m_procs M (running M) with
  | _ :: _ :: _ => mkOs M' (o_open O)
      (if holds Clock (o_open O i) then upd_at i MAX_VIR_FREQ (o_rate O) else o_rate O)
      (if holds Listing (o_open O i) then 0 else o_listed O)
  | _ => mkOs M' (upd_at i ∅ (o_open O)) (o_rate O) (o_listed O)
  end.

Definition next_sys (e : sys_event) (O : os) : os :=
  let M := o_mach O in
  let O' := with_mach (spec_step F e M).2 O in
  match e with
  | Exec _ s _ =>
      match executable F (command_name s), free_pid (m_procs M) with
      | Some _, Some i => mkOs (o_mach O') (upd_at i ∅ (o_open O)) (o_rate O) (o_listed O)
      | _, _ => O'
      end
  | Halt status st => halted (u8 status) st O
  | Fault _ _ err_code msg st =>
      halted EXCEPTION_HALT st (with_mach (on_desks (spec_banner msg err_code) M) O)
  | _ => O'
  end.

Definition next_call (c : call) (O : os) : os :=
  let i := pid_of (o_mach O) in
  let m := o_open O i in
  let n := o_listed O in
  let r := o_rate O i in
  match c with
  | Getargs _ _ | Vidmap _ => O
  | Open _ nm => with_own (opening F nm m r).1.2 n (opening F nm m r).2 O
  | Close fd => match m !! fd with Some f => with_own (delete fd m) (closing_index f n) (closing_rate f r) O | None => O end
  | Read fd buf nbytes =>
      if fd =? 0 then
        with_mach (on_desks (fun D => upd_desk (ds_shown D) clear_line_of D) (o_mach O)) O
      else match m !! fd with
      | Some (FileAt c pos) => with_own (reading_file fd c pos nbytes m) n r O
      | Some Listing => with_own m (match (a_entries F).[n] with Some _ => n + 1 | None => n end) r O
      | Some Clock => Nat.iter (waits_for (m_clock (o_mach O)) r) clock_step O
      | None => O
      end
  | Write fd buf nbytes =>
      if fd =? 1 then
        with_mach (on_desks (fun D => foldl (fun D c => step_desks (Out c) D) D (take (Z.to_nat nbytes) buf)) (o_mach O)) O
      else match m !! fd, ld32 buf 0 with
      | Some Clock, Some w => if decide (rate_ok (s32 w)) then with_own m n (s32 w) O else O
      | _, _ => O
      end
  end.

Definition next (e : os_event) (O : os) : os :=
  match e with Sys e => next_sys e O | Call c => next_call c O end.

(** The answers: functions of the state but for the bytes behind a name that a
    read of the directory copies with it. *)
Definition answers (c : call) (O : os) (v : Z) (b : list Z) : Prop :=
  let i := pid_of (o_mach O) in
  let m := o_open O i in
  match c with
  | Getargs buf nbytes =>
      let args := args_of (o_mach O) in
      if decide (args <> [] /\ len args < nbytes) then v = 0 /\ b = splice buf 0 (args ++ [0]) else v = -1 /\ b = buf
  | Open _ nm => v = (opening F nm m (o_rate O i)).1.1
  | Close fd => v = match m !! fd with Some _ => 0 | None => -1 end
  | Read fd buf nbytes =>
      if fd =? 0 then
        let l := taken (d_line (ds_of (m_desks (o_mach O)) (ds_shown (m_desks (o_mach O))))) nbytes in
        v = len l /\ b = splice buf 0 l
      else match m !! fd with
      | Some (FileAt c pos) => let x := Z.min nbytes (len c - pos) in v = x /\ b = splice buf 0 (slice c pos x)
      | Some Listing =>
          match (a_entries F).[o_listed O] with
          | Some e => v = len (a_name e) /\ cstring b 0 (a_name e) /\ length b = length buf
          | None => v = 0 /\ b = buf
          end
      | Some Clock => v = 0 /\ b = buf
      | None => v = -1 /\ b = buf
      end
  | Write fd buf nbytes =>
      if fd =? 1 then v = nbytes
      else match m !! fd, ld32 buf 0 with
      | Some Clock, Some w => v = if decide (rate_ok (s32 w)) then 0 else -1
      | _, _ => v = -1
      end
  | Vidmap p =>
      if decide (0x8000000 <= p < 0x8800000) then v = 0 /\ b = [0x84B8000] else v = -1 /\ b = []
  end.

Definition replies (e : os_event) (O : os) (r : reply) : Prop :=
  match e, r with
  | Sys e, Hardware r => r = (spec_step F e (o_mach O)).1
  | Call c, Value v b => answers c O v b
  | _, _ => False
  end.

Fixpoint replies_all (es : list os_event) (O : os) (rs : list reply) : Prop :=
  match es, rs with
  | [], [] => True
  | e :: es, r :: rs => replies e O r /\ replies_all es (next e O) rs
  | _, _ => False
  end.

(** ** When a call is one a program can make

    A buffer holds what the call writes, a read of the keyboard finds a finished
    line at the desk that is shown, 8 is no descriptor, a file or the directory is
    not read with a negative size, and a pointer for vidmap that is not refused is in
    the program's own page (elsewhere in the four megabytes above it the kernel's
    store is a page fault, or changes the screen). *)
Definition call_ok (c : call) (O : os) : Prop :=
  let m := o_open O (pid_of (o_mach O)) in
  let D := m_desks (o_mach O) in
  match c with
  | Getargs buf nbytes => nbytes <= len buf
  | Open name nm => cstring name 0 nm /\ file_exists F nm
  | Close _ => True
  | Vidmap p => p < 0x8000000 \/ 0x8800000 <= p \/ p + 4 <= 0x8400000
  | Read fd buf nbytes => fd <> NUM_MAX_FILES /\ 0 <= nbytes /\
      (fd = 0 -> line_ready D = true /\ len (taken (d_line (ds_of D (ds_shown D))) nbytes) <= len buf) /\
      match m !! fd with Some (FileAt _ _) => nbytes <= len buf | Some Listing => 33 <= len buf | _ => True end
  | Write fd buf nbytes => fd <> NUM_MAX_FILES /\
      (fd = 1 -> 0 <= nbytes <= len buf /\ Forall is_byte (take (Z.to_nat nbytes) buf)) /\
      (m !! fd = Some Clock -> is_Some (ld32 buf 0))
  end.

Definition os_event_ok (e : os_event) (O : os) : Prop :=
  match e with Sys e => sys_event_ok e | Call c => call_ok c O end.

Fixpoint os_events_ok (es : list os_event) (O : os) : Prop :=
  match es with [] => True | e :: es => os_event_ok e O /\ os_events_ok es (next e O) end.

Definition after (es : list os_event) (O : os) : os := foldl (fun O e => next e O) O es.
End spec.

(** ** The relation *)

Section serves.
Context (A B : Z) (F : afs) (room : Z).
Notation implements := (implements A B).

Record serves (k : kernel) (O : os) : Prop := {
  sv_models : models A B F room k (o_mach O);
  sv_open : forall j, j ∈ stacks_pids (m_procs (o_mach O)) ->
    exists b, get_pcb j k = Some b /\ fds_are F (file_descriptor_table b) (o_open O j);
  sv_index : read_index k = o_listed O;
  sv_range : 0 <= o_listed O < 4294967295;
  sv_rates : forall j, 0 <= j < MAX_PID -> (process_rtc (k_rtc k)).[j] = Some (o_rate O j);
  sv_counts : forall t, 0 <= t < NUM_TERMS ->
    (terminal_rtc_count (k_rtc k)).[t] = Some (s32 (count_rtc (k_rtc k) - 1));
}.

Lemma upd_at_eq {X} i (x : X) f : upd_at i x f i = x.
Proof. unfold upd_at. by rewrite Z.eqb_refl. Qed.

Lemma upd_at_ne {X} i j (x : X) f : j <> i -> upd_at i x f j = f j.
Proof. intros H. unfold upd_at. by rewrite (proj2 (Z.eqb_neq _ _) H). Qed.

(** States that agree on every process are one. *)
Lemma serves_ext k O O' :
  o_mach O' = o_mach O -> (forall j, o_open O' j = o_open O j) -> (forall j, o_rate O' j = o_rate O j) ->
  o_listed O' = o_listed O -> serves k O -> serves k O'.
Proof.
  intros Em Eo Er El [Hm Ho Hi Hx Hr Hc]. split; rewrite ?Em, ?El; try done.
  - intros j Hj. rewrite Eo. by apply Ho.
  - intros j Hj. rewrite Er. by apply Hr.
Qed.

Lemma with_own_same k O :
  serves k (with_own (o_open O (pid_of (o_mach O))) (o_listed O) (o_rate O (pid_of (o_mach O))) O) -> serves k O.
Proof.
  apply serves_ext; try done; intros j; cbn; destruct (Z.eq_dec j (pid_of (o_mach O))) as [->|Hne];
    by rewrite ?upd_at_eq, ?upd_at_ne by done.
Qed.

Lemma models_me k M : models A B F room k M ->
  pid_of M = cur_pid k /\ cur_pid k ∈ stacks_pids (m_procs M) /\ 0 <= cur_pid k < MAX_PID.
Proof.
  intros Hm. pose proof (mo_family _ _ _ _ _ _ Hm) as HF. pose proof (fa_running _ _ _ _ _ _ HF) as Hr.
  destruct (family_cur _ _ _ _ _ _ HF) as (p & l & E & Ec). unfold pid_of. rewrite E. split; [exact Ec|].
  rewrite <- Ec. split.
  - apply elem_pids. exists (running M). split; [done|]. rewrite E. by left.
  - eapply pid_range; [exact HF|exact Hr|]. rewrite E. by left.
Qed.

Lemma serves_owned k O : serves k O ->
  owned F k (o_open O (pid_of (o_mach O))) (o_listed O) (o_rate O (pid_of (o_mach O))).
Proof.
  intros HS. destruct (models_me _ _ (sv_models _ _ HS)) as (-> & Hin & Hr).
  split; [apply (sv_models _ _ HS)| |by apply HS|by apply HS|by apply HS].
  destruct (sv_open _ _ HS _ Hin) as (b & Eb & Hb). exists (file_descriptor_table b). split; [|done].
  unfold cur_fds. by rewrite Eb.
Qed.

(** After a call on descriptors. *)
Lemma serves_own k k' O m n r :
  serves k O -> own k k' -> owned F k' m n r -> serves k' (with_own m n r O).
Proof.
  intros HS Ho [_ (l & Hl & Hare) Hi Hx Hr]. pose proof HS as [Hm Hop _ _ Hra Hc].
  destruct (models_me _ _ Hm) as (Eme & Hin & Hpid). pose proof (own_pid _ _ Ho) as Ep. rewrite Ep in *.
  destruct (fds_are_ok F _ _ Hare) as [Hlen Hok]. split; cbn [o_mach o_open o_rate o_listed with_own]; try done.
  - by eapply models_own.
  - intros j Hj. rewrite Eme. destruct (Z.eq_dec j (cur_pid k)) as [->|Hne].
    + rewrite upd_at_eq. destruct (cur_fds_pcb _ _ Hl) as (b & Eb & <-). rewrite Ep in Eb. by exists b.
    + rewrite upd_at_ne, (ow_others _ _ Ho) by done. by apply Hop.
  - intros j Hj. rewrite Eme. destruct (Z.eq_dec j (cur_pid k)) as [->|Hne]; [by rewrite upd_at_eq|].
    rewrite upd_at_ne, (ow_rates _ _ Ho) by done. by apply Hra.
  - destruct (same_clock_count _ _ (ow_clock _ _ Ho)) as (-> & -> & _). exact Hc.
Qed.

(** After something on the terminals. *)
Lemma serves_view k k' O D :
  serves k O -> same_view k k' -> implements ((cur_pid k + 2) * PAGE_4MB) k' D ->
  ds_running D = running (o_mach O) -> serves k' (with_mach (on_desks (fun _ => D) (o_mach O)) O).
Proof.
  intros [Hm Hop Hi Hx Hr Hc] V HD Er. pose proof (models_view A B F room k k' _ D Hm V HD Er) as Hm'.
  injection V as Ertc _ Ei Epcbs _ _ _ _ _ _ _ _ _. unfold get_pcb in *.
  split; cbn [o_mach o_open o_rate o_listed with_mach]; rewrite ?Ertc, ?Ei, ?Epcbs; try done.
  unfold get_pcb. by rewrite Epcbs.
Qed.

(** *** The clock *)

Lemma s32_add z i : s32 (s32 z + i) = s32 (z + i).
Proof.
  unfold s32. f_equal.
  replace ((z + 2147483648) mod 4294967296 - 2147483648 + i + 2147483648)
    with ((z + 2147483648) mod 4294967296 + i) by lia.
  rewrite Z.add_mod_idemp_l by lia. f_equal. lia.
Qed.

Lemma s32_range z : is_s32 (s32 z).
Proof. unfold is_s32, s32. pose proof (Z.mod_pos_bound (z + 2147483648) 4294967296 ltac:(lia)). lia. Qed.

(** The counters, one behind the count, stay one behind. *)
Lemma s32_pred_succ z : s32 (s32 (z - 1) + 1) = s32 (s32 (z + 1) - 1).
Proof. rewrite s32_add. rewrite <- (Z.add_opp_r (s32 (z + 1))), s32_add. f_equal. lia. Qed.

(** The first multiple of a period is near, wherever the counter is and even if
    it wraps around on the way. *)
Lemma multiple_from x p : 1 <= p <= 512 -> -2147483648 <= x <= 2147483136 ->
  exists i, 0 <= i < 512 /\ Z.rem (s32 (x + i)) p = 0.
Proof.
  intros Hp Hx. exists ((- x) mod p). pose proof (Z.mod_pos_bound (- x) p ltac:(lia)). split; [lia|].
  rewrite s32_small by (unfold is_s32; lia). apply Z.rem_divide; [lia|].
  pose proof (Z.div_mod (- x) p ltac:(lia)). exists (- ((- x) / p)). lia.
Qed.

Lemma waits_for_exists c p : 1 <= p <= 512 ->
  exists k, (1 <= k <= 1024)%nat /\ Z.rem (s32 (c + Z.of_nat k)) p = 0.
Proof.
  intros Hp. pose proof (s32_range (c + 1)) as Hx. unfold is_s32 in Hx.
  destruct (Z_le_dec (s32 (c + 1)) 2147483136) as [Hle|Hgt].
  - destruct (multiple_from (s32 (c + 1)) p Hp) as (i & Hi & Hm); [lia|].
    exists (Z.to_nat (1 + i)). split; [lia|]. rewrite s32_add in Hm. rewrite <- Hm. do 2 f_equal. lia.
  - destruct (multiple_from (s32 (c + 513)) p Hp) as (i & Hi & Hm).
    + replace (c + 513) with (c + 1 + 512) by lia. rewrite <- s32_add.
      generalize dependent (s32 (c + 1)). intros x Hx Hgt. unfold s32.
      rewrite (Z.mod_eq _ 4294967296) by lia.
      assert ((x + 512 + 2147483648) / 4294967296 = 1) as -> by (symmetry; apply Z.div_unique with (x + 512 - 2147483648); lia). lia.
    + exists (Z.to_nat (513 + i)). split; [lia|]. rewrite s32_add in Hm. rewrite <- Hm. do 2 f_equal. lia.
Qed.

Lemma find_first (f : nat -> bool) n : forall a k, List.find f (seq a n) = Some k ->
  forall j, (a <= j < k)%nat -> f j = false.
Proof.
  induction n as [|n IH]; intros a k H j Hj; [done|]. cbn [seq List.find] in H.
  destruct (f a) eqn:Ea; [injection H as <-; lia|]. destruct (Nat.eq_dec j a) as [->|]; [done|].
  apply (IH (S a) k H). lia.
Qed.

Lemma waits_for_spec count rate : rate_ok rate ->
  let n := waits_for count rate in
  (1 <= n <= 1024)%nat /\ Z.rem (s32 (count - 1 + Z.of_nat n)) (period rate) = 0 /\
  forall j, (1 <= j < n)%nat -> Z.rem (s32 (count - 1 + Z.of_nat j)) (period rate) <> 0.
Proof.
  intros Hr n. unfold n, waits_for. clear n.
  destruct (List.find _ (seq 1 1024)) as [k|] eqn:E; cbn [default from_option id].
  - pose proof (List.find_some _ _ E) as [Hin Hk]. apply in_seq in Hin. split; [lia|].
    split; [lia|]. intros j Hj. pose proof (find_first _ _ _ _ E j Hj) as H. cbv beta in H. lia.
  - exfalso. destruct (waits_for_exists (count - 1) (period rate) (period_range _ Hr)) as (k & Hk & Hm).
    pose proof (List.find_none _ _ E k) as H. cbv beta in H. rewrite Hm in H. discriminate H.
    apply in_seq. lia.
Qed.

(** One interrupt of the clock. *)
Lemma serves_clock k O :
  serves k O -> let t := running (o_mach O) in
  exists k', run_sys System.Clock k = Some (Quiet, k') /\ serves k' (clock_step F O) /\
    (terminal_rtc_wait (k_rtc k')).[t] =
      (if Z.rem (s32 (m_clock (o_mach O))) (period (o_rate O (pid_of (o_mach O)))) =? 0 then Some 0
       else (terminal_rtc_wait (k_rtc k)).[t]).
Proof.
  intros [Hm Hop Hi Hx Hr Hc] t. destruct (models_clock A B F room k _ Hm) as (k' & E & Hm').
  exists k'. split; [exact E|]. pose proof Hm as [HR HD W Hroom Hrtc Hclock Hinit HF].
  destruct (models_me _ _ Hm) as (Eme & Hin & Hpid).
  destruct (rtc_handler_spec (k_con k) (k_pic k) (k_rtc k) (wt_con _ (im_wf _ _ _ _ _ HD)) Hrtc
    (models_pids _ _ _ _ _ _ Hm)) as (c' & p' & r' & Eh & _ & _ & Erates & Hticked).
  cbn [run_sys] in E. rewrite Eh in E. cbn [mbind option_bind] in E. injection E as <-.
  pose proof (mo_clock _ _ _ _ _ _ Hm') as Hclock'. cbn in Hclock'.
  split; [split; cbn [o_mach o_open o_rate o_listed clock_step with_mach]; try done|].
  - intros j Hj. cbn. rewrite Erates. by apply Hr.
  - intros i Hit. cbn. rewrite Hclock'.
    destruct (Hticked i Hit) as (f & c & _ & _ & Ec & -> & _). rewrite (Hc i Hit) in Ec. injection Ec as <-.
    by rewrite s32_pred_succ, Hclock.
  - destruct (Hticked t (fa_running _ _ _ _ _ _ HF)) as (f & c & Ef & _ & Ec & _ & Hw). cbn. rewrite Hw.
    rewrite (Hc t (fa_running _ _ _ _ _ _ HF)) in Ec. injection Ec as <-. rewrite s32_add, Hclock, Z.sub_add.
    unfold rate_of in Ef. pose proof (fa_active _ _ _ _ _ _ HF _ (fa_running _ _ _ _ _ _ HF)) as Ha.
    rewrite <- (fa_cur _ _ _ _ _ _ HF) in Ha. fold t in Ha. rewrite Ha in Ef. cbn [mbind option_bind] in Ef.
    rewrite (Hr _ Hpid), <- Eme in Ef. by injection Ef as <-.
Qed.

(** The loop of [rtc_read] on the states it goes through. *)
Definition rtc_loop (t : Z) : console * pic * rtc_t -> option (flow (console * pic * rtc_t) (Z * (console * pic * rtc_t))) :=
  fun '(con, p, r) =>
    w ← (terminal_rtc_wait r).[t];
    if w =? 1 then s ← rtc_handler con p r; Some (Next s) else Some (Done (0, (con, p, r))).

Definition devices (k : kernel) : console * pic * rtc_t := (k_con k, k_pic k, k_rtc k).

Lemma clock_loop n : forall fuel k O,
  serves k O -> let t := running (o_mach O) in let r := o_rate O (pid_of (o_mach O)) in
  (terminal_rtc_wait (k_rtc k)).[t] = Some (if Nat.eqb n 0 then 0 else 1) ->
  (n <> 0%nat -> Z.rem (s32 (m_clock (o_mach O) - 1 + Z.of_nat n)) (period r) = 0) ->
  (forall j, (1 <= j < n)%nat -> Z.rem (s32 (m_clock (o_mach O) - 1 + Z.of_nat j)) (period r) <> 0) ->
  (n < fuel)%nat ->
  exists k', iterate fuel (rtc_loop t) (devices k) = Some (0, devices k') /\
    serves k' (Nat.iter n (clock_step F) O) /\
    k' = k <| k_con := k_con k' |> <| k_pic := k_pic k' |> <| k_rtc := k_rtc k' |>.
Proof.
  induction n as [|n IH]; intros [|fuel] k O HS t r Hw Hhit Hmiss Hfuel; [lia| |lia|]; rewrite iterate_S; unfold rtc_loop at 2, devices at 1;
    rewrite Hw; cbn [mbind option_bind Nat.eqb Z.eqb Pos.eqb].
  - exists k. split; [done|]. split; [done|]. by destruct k.
  - destruct (serves_clock k O HS) as (k1 & E & HS1 & Hw1). cbn [run_sys] in E.
    destruct (rtc_handler (k_con k) (k_pic k) (k_rtc k)) as [ [ [c1 p1] r1]|]; [|discriminate E].
    cbn [mbind option_bind] in E |- *. injection E as Ek1.
    assert (running (o_mach (clock_step F O)) = t) as Et.
    { cbn. unfold running, blink. cbn. by repeat case_match. }
    assert (pid_of (o_mach (clock_step F O)) = pid_of (o_mach O)) as Epid.
    { unfold pid_of. by rewrite Et. }
    assert (m_clock (o_mach (clock_step F O)) = s32 (m_clock (o_mach O) + 1)) as Ec by done.
    destruct (IH fuel k1 (clock_step F O) HS1) as (k2 & E2 & HS2 & Ek2).
    + rewrite Et. fold t in Hw1. rewrite Hw1. destruct n as [|n]; cbn [Nat.eqb].
      * specialize (Hhit ltac:(lia)). replace (m_clock (o_mach O) - 1 + Z.of_nat 1) with (m_clock (o_mach O)) in Hhit by lia.
        fold r. by rewrite Hhit.
      * specialize (Hmiss 1%nat ltac:(lia)).
        replace (m_clock (o_mach O) - 1 + Z.of_nat 1) with (m_clock (o_mach O)) in Hmiss by lia.
        fold r. by rewrite (proj2 (Z.eqb_neq _ _) Hmiss), Hw.
    + intros _. rewrite Epid, Ec. fold r. rewrite <- Z.add_sub_swap, <- Z.add_sub_assoc, s32_add.
      rewrite <- (Hhit ltac:(lia)). do 2 f_equal. lia.
    + intros j Hj. rewrite Epid, Ec. fold r. rewrite <- Z.add_sub_swap, <- Z.add_sub_assoc, s32_add.
      specialize (Hmiss (S j) ltac:(lia)). intros H. apply Hmiss. rewrite <- H. do 2 f_equal. lia.
    + lia.
    + rewrite Et in E2. exists k2. rewrite <- Ek1 in E2 at 1. split; [exact E2|]. split.
      * rewrite Nat.iter_succ_r. exact HS2.
      * rewrite Ek2, <- Ek1. by destruct k.
Qed.

(** A read of the clock. *)
Lemma serves_rtc_read k O :
  serves k O -> let r := o_rate O (pid_of (o_mach O)) in
  exists k', rtc_read_op (mkWorld [] [] patience) k = Some (0, k') /\
    serves k' (Nat.iter (waits_for (m_clock (o_mach O)) r) (clock_step F) O) /\
    pcbs k' = pcbs k /\ cur_pid k' = cur_pid k.
Proof.
  intros HS r. pose proof HS as [Hm Hop Hi Hx Hr Hc]. pose proof Hm as [HR HD [Wp Wb Wm Wf Wta Wt] Hroom Hrtc Hclock Hinit HF].
  destruct (models_me _ _ Hm) as (Eme & Hin & Hpid).
  pose proof (fa_running _ _ _ _ _ _ HF) as Hrun. unfold rtc_read_op, rtc_read, rtc_read_start.
  rewrite (im_running _ _ _ _ _ HD). fold (running (o_mach O)). set (t := running (o_mach O)) in *.
  rewrite aset_Some by (by rewrite (wf_waits _ Hrtc)). cbn [mbind option_bind].
  set (k0 := k <| k_rtc := (k_rtc k) <| terminal_rtc_wait := <[Z.to_nat t := 1]> (terminal_rtc_wait (k_rtc k)) |> |>).
  assert (serves k0 O) as HS0.
  { split; try done. split; try done.
    - by destruct HD as [ [ [] ] ].
    - destruct Hrtc. split; cbn -[Z.of_nat]; rewrite ?length_insert; done. }
  assert (rate_ok r) as Hrate.
  { unfold r. rewrite Eme. exact (aget_Forall _ _ _ _ (wf_rates _ Hrtc) (Hr _ Hpid)). }
  destruct (waits_for_spec (m_clock (o_mach O)) r Hrate) as (Hn & Hhit & Hmiss).
  destruct (clock_loop (waits_for (m_clock (o_mach O)) r) patience k0 O HS0) as (k' & E & HS' & Ek').
  - fold t. cbn [k_rtc k0 update_field]. unfold update_field. cbn [terminal_rtc_wait k_rtc].
    rewrite aget_insert_eq by (by rewrite (wf_waits _ Hrtc)).
    by destruct (waits_for (m_clock (o_mach O)) r); [lia|].
  - intros _. exact Hhit.
  - exact Hmiss.
  - unfold patience. lia.
  - exists k'. fold t in E. unfold rtc_loop, devices in E. cbn [w_ticks]. change (k_con k0) with (k_con k) in E.
    change (k_pic k0) with (k_pic k) in E. change (k_rtc k0) with ((k_rtc k) <| terminal_rtc_wait := <[Z.to_nat t := 1]> (terminal_rtc_wait (k_rtc k)) |>) in E.
    rewrite E. cbn [mbind option_bind]. split; [do 2 f_equal; exact (eq_sym Ek')|]. split; [exact HS'|by rewrite Ek'].
Qed.

(** *** The calls *)

Context (d0 : dentry_t).

(** The call [c] is served. *)
Definition call_served (c : call) (k : kernel) (O : os) : Prop :=
  exists v b k', run_call d0 c k = Some (Value v b, k') /\ answers F c O v b /\ serves k' (next_call F c O).

Lemma serves_block k O : serves k O ->
  exists b, get_pcb (cur_pid k) k = Some b /\ cstring (cmd_args b) 0 (args_of (o_mach O)).
Proof.
  intros HS. pose proof (mo_family _ _ _ _ _ _ (sv_models _ _ HS)) as HF.
  destruct (family_cur _ _ _ _ _ _ HF) as (p & l & E & Ec).
  pose proof (fa_chain _ _ _ _ _ _ HF _ (fa_running _ _ _ _ _ _ HF)) as Hch. rewrite E in Hch.
  destruct Hch as [ (b & Eb & Hb) _]. exists b. unfold args_of. rewrite E. rewrite Ec in Eb. split; [exact Eb|apply Hb].
Qed.

Lemma served_getargs k O buf nbytes : serves k O -> nbytes <= len buf -> call_served (Getargs buf nbytes) k O.
Proof.
  intros HS Hn. destruct (serves_block _ _ HS) as (b & Eb & Hc). unfold call_served. cbn [run_call answers next_call].
  rewrite (sys_getargs_eq k b _ buf nbytes Eb Hc Hn). case_decide; by do 3 eexists.
Qed.

Lemma served_open k O name nm : serves k O -> cstring name 0 nm -> file_exists F nm -> call_served (Open name nm) k O.
Proof.
  intros HS Hc Hex. destruct (call_open F k _ _ _ d0 name nm (serves_owned _ _ HS) Hc Hex) as (k' & E & Ho & Hd).
  unfold call_served. cbn [run_call answers next_call]. rewrite E. do 3 eexists. split; [done|]. split; [done|].
  by eapply serves_own.
Qed.

(** A number that the map does not have and that is not one of the first two. *)
Lemma not_open_none k O fd m : serves k O -> m = o_open O (pid_of (o_mach O)) ->
  m !! fd = None -> fd <> 0 -> fd <> 1 -> fd <> NUM_MAX_FILES -> not_open m fd.
Proof. intros HS -> E H0 H1 H8. unfold not_open, NUM_MAX_FILES in *. destruct (decide (2 <= fd < 8)); [by auto|]. lia. Qed.

Lemma served_close k O fd : serves k O -> call_served (Close fd) k O.
Proof.
  intros HS. unfold call_served. cbn [run_call answers next_call].
  destruct (o_open O (pid_of (o_mach O)) !! fd) as [f|] eqn:Ef.
  - destruct (call_close F k _ _ _ fd f (serves_owned _ _ HS) Ef) as (k' & -> & Ho & Hd).
    do 3 eexists. split; [done|]. split; [done|]. by eapply serves_own.
  - assert (sys_close fd k = Some (-1, k)) as ->; [|by do 3 eexists].
    destruct (decide (fd = 0 \/ fd = 1 \/ fd = NUM_MAX_FILES)) as [ [-> | [-> | ->] ]|Hne]; [done..|].
    apply (call_refused F (mkWorld [] [] 0) k _ _ _ fd None 0 (serves_owned _ _ HS)).
    eapply not_open_none; [exact HS|done|done|tauto..].
Qed.

(** Touching an entry leaves the state of the specification as it is. *)
Lemma serves_touch k O fd e l f :
  serves k O -> cur_fds k = Some l -> l.[fd] = Some e -> flags e <> 0 ->
  match o_open O (pid_of (o_mach O)) !! fd with Some (FileAt _ _) => False | Some _ => True | None => fd = 0 \/ fd = 1 end ->
  (forall e, flags (f e) = flags e /\ file_op_table_ptr (f e) = file_op_table_ptr e) ->
  exists k', upd_fd (cur_pid k) fd f k = Some k' /\ serves k' O.
Proof.
  intros HS Hl He Hfl Hm Hf.
  destruct (call_touch F k _ _ _ fd e l f (serves_owned _ _ HS) Hl He Hfl Hm Hf) as (k' & E & Ho & Hd).
  exists k'. split; [done|]. apply with_own_same. by eapply serves_own.
Qed.

(** The keyboard's line is there. *)
Lemma served_read_line k O buf nbytes :
  let D := m_desks (o_mach O) in
  serves k O -> 0 <= nbytes -> line_ready D = true -> len (taken (d_line (ds_of D (ds_shown D))) nbytes) <= len buf ->
  call_served (Read 0 buf nbytes) k O.
Proof.
  intros D HS Hn Hready Hb. pose proof (mo_desks _ _ _ _ _ _ (sv_models _ _ HS)) as HD.
  destruct (serves_owned _ _ HS) as [_ (l & Hl & Hare) _ _ _].
  pose proof Hare as (_ & (e & He & Hfl & Ht) & _ & Hm).
  assert (has_newline (d_line (ds_of D (ds_shown D))) = true) as Hnl.
  { unfold line_ready in Hready. by apply andb_true_iff in Hready as [? _]. }
  destruct (terminal_read_ready A B _ k D [] [] D [] buf nbytes HD) as (k1 & E1 & I1); try done.
  { cbn [until_ready]. by rewrite Hready. }
  pose proof (terminal_read_view [] [] _ _ _ _ _ _ E1) as Hv.
  pose proof (serves_view k k1 O _ HS Hv I1 eq_refl) as HS1. cbn [foldl] in HS1.
  change (serves k1 (next_call F (Read 0 buf nbytes) O)) in HS1. set (O1 := next_call F (Read 0 buf nbytes) O) in *.
  assert (cur_pid k1 = cur_pid k /\ cur_fds k1 = Some l) as [Ep Hl1].
  { injection Hv as _ _ _ Epcbs _ Ecur _ _ _ _ _ _ _. unfold cur_fds, get_pcb in *. by rewrite Epcbs, Ecur. }
  destruct (serves_touch k1 O1 0 e l (fun e => e <| file_pos ::= fun p => u32 (p + len (taken (d_line (ds_of D (ds_shown D))) nbytes)) |>)
    HS1 Hl1 He Hfl) as (k2 & E2 & HS2); [|done|].
  { change (o_open O1 (pid_of (o_mach O1))) with (o_open O (pid_of (o_mach O))). specialize (Hm 0).
    destruct (o_open O (pid_of (o_mach O)) !! 0); [|by left]. destruct Hm as [Hr _]. unfold MIN_FD_INDEX in Hr. lia. }
  unfold call_served. cbn [run_call answers].
  destruct (call_entry k l 0 e Hl He ltac:(unfold NUM_MAX_FILES; lia) Hfl) as [-> _]. rewrite Ht.
  cbn [fop_read w_irqs w_late]. change (map run_event []) with (@nil interrupt) in E1. rewrite E1.
  cbn [mbind option_bind foldl Z.eqb]. rewrite <- Ep, E2. cbn [mbind option_bind].
  do 3 eexists. split; [done|]. split; [done|]. exact HS2.
Qed.

Lemma clock_steps_own n O :
  o_open (Nat.iter n (clock_step F) O) = o_open O /\
  m_procs (o_mach (Nat.iter n (clock_step F) O)) = m_procs (o_mach O) /\
  running (o_mach (Nat.iter n (clock_step F) O)) = running (o_mach O).
Proof.
  induction n as [|n (E1 & E2 & E3)]; [done|]. cbn [Nat.iter nat_rect].
  split; [exact E1|]. split; [exact E2|]. rewrite <- E3. cbn. unfold running, blink. cbn. by repeat case_match.
Qed.

Lemma served_read_clock k O fd buf nbytes :
  serves k O -> o_open O (pid_of (o_mach O)) !! fd = Some Clock -> call_served (Read fd buf nbytes) k O.
Proof.
  intros HS Hfd. destruct (serves_owned _ _ HS) as [_ (l & Hl & Hare) _ _ _].
  destruct (fds_are_get F _ _ _ _ Hare Hfd) as (Hr & Hlt & e & He & Hfl & Ht). cbn in Ht. unfold MIN_FD_INDEX in Hr.
  destruct (serves_rtc_read k O HS) as (k1 & E1 & HS1 & Epcbs & Ep).
  set (O1 := Nat.iter _ _ O) in HS1. destruct (clock_steps_own (waits_for (m_clock (o_mach O)) (o_rate O (pid_of (o_mach O)))) O) as (Eo & Epr & Eru).
  fold O1 in Eo, Epr, Eru. assert (pid_of (o_mach O1) = pid_of (o_mach O)) as Epid by (unfold pid_of; by rewrite Epr, Eru).
  assert (cur_fds k1 = Some l) as Hl1 by (unfold cur_fds, get_pcb in *; by rewrite Epcbs, Ep).
  destruct (serves_touch k1 O1 fd e l (fun e => e <| file_pos ::= fun p => u32 (p + 0) |>) HS1 Hl1 He Hfl)
    as (k2 & E2 & HS2); [by rewrite Eo, Epid, Hfd|done|].
  unfold call_served. cbn [run_call answers next_call]. rewrite (proj2 (Z.eqb_neq fd 0)), Hfd by lia.
  destruct (call_entry k l fd e Hl He ltac:(lia) Hfl) as [-> _]. rewrite Ht. cbn [fop_read].
  rewrite E1. cbn [mbind option_bind]. rewrite <- Ep, E2. cbn [mbind option_bind]. by do 3 eexists.
Qed.

Lemma served_read k O fd buf nbytes : serves k O -> call_ok F (Read fd buf nbytes) O -> call_served (Read fd buf nbytes) k O.
Proof.
  intros HS (H8 & Hn & H0 & Hm). destruct (Z.eq_dec fd 0) as [->|Hne0].
  { destruct (H0 eq_refl) as [Hready Hb]. by apply served_read_line. }
  destruct (o_open O (pid_of (o_mach O)) !! fd) as [ [c pos| |]|] eqn:Ef.
  - unfold call_served. cbn [run_call answers next_call]. rewrite (proj2 (Z.eqb_neq fd 0) Hne0), Ef.
    destruct (call_read_file F (mkWorld [] [] patience) k _ _ _ fd c pos buf nbytes (serves_owned _ _ HS) Ef)
      as (k' & -> & Ho & Hd); [lia|]. do 3 eexists. split; [done|]. split; [done|]. by eapply serves_own.
  - unfold call_served. cbn [run_call answers next_call]. rewrite (proj2 (Z.eqb_neq fd 0) Hne0), Ef.
    destruct (call_read_dir F (mkWorld [] [] patience) k _ _ _ fd buf nbytes (serves_owned _ _ HS) Ef Hm)
      as (v & b & k' & -> & Hlb & Ho & Hd). cbn [mbind option_bind]. exists v, b, k'. split; [done|].
    destruct ((a_entries F).[o_listed O]) as [e|].
    + destruct Hd as (-> & Hc & Hd). split; [done|]. by eapply serves_own.
    + destruct Hd as (-> & -> & Hd). split; [done|]. by eapply serves_own.
  - by apply served_read_clock.
  - unfold call_served. cbn [run_call answers next_call]. rewrite (proj2 (Z.eqb_neq fd 0) Hne0), Ef.
    destruct (Z.eq_dec fd 1) as [->|Hne1].
    + destruct (call_read_stdout F (mkWorld [] [] patience) k _ _ _ (Some buf) nbytes (serves_owned _ _ HS)) as (k' & -> & Ho & Hd).
      do 3 eexists. split; [done|]. split; [done|]. apply with_own_same. by eapply serves_own.
    + assert (not_open (o_open O (pid_of (o_mach O))) fd) as Hno by (eapply not_open_none; [exact HS|done..]).
      destruct (call_refused F (mkWorld [] [] patience) k _ _ _ fd (Some buf) nbytes (serves_owned _ _ HS) Hno) as (-> & _).
      by do 3 eexists.
Qed.

Lemma served_write k O fd buf nbytes : serves k O -> call_ok F (Write fd buf nbytes) O -> call_served (Write fd buf nbytes) k O.
Proof.
  intros HS (H8 & H1 & Hc). unfold call_served. cbn [run_call answers next_call].
  destruct (serves_owned _ _ HS) as [_ (l & Hl & Hare) _ _ _].
  destruct (Z.eqb_spec fd 1) as [->|Hne1].
  { destruct (H1 eq_refl) as [Hn Hbytes]. pose proof Hare as (_ & _ & (e & He & Hfl & Ht) & _).
    destruct (terminal_write_ok A B _ buf nbytes k _ (mo_desks _ _ _ _ _ _ (sv_models _ _ HS)) Hn Hbytes) as (k' & E & I').
    destruct (call_entry k l 1 e Hl He ltac:(unfold NUM_MAX_FILES; lia) Hfl) as [_ ->]. rewrite Ht. cbn [fop_write].
    rewrite E. do 3 eexists. split; [done|]. split; [done|].
    apply (serves_view k k' O _ HS (terminal_write_view _ _ _ _ _ Hn E) I').
    generalize (take (Z.to_nat nbytes) buf). intros text. unfold running. generalize (m_desks (o_mach O)).
    induction text as [|c text IH]; intros D; [done|]. cbn [foldl]. by rewrite IH. }
  destruct (o_open O (pid_of (o_mach O)) !! fd) as [f|] eqn:Ef.
  - destruct (stream_eq_dec f Clock) as [->|Hne].
    + destruct (Hc eq_refl) as [w Hw]. rewrite Hw.
      destruct (call_write_clock F k _ _ _ fd buf nbytes w (serves_owned _ _ HS) (mo_rtc _ _ _ _ _ _ (sv_models _ _ HS)) Ef Hw)
        as (k' & -> & Ho & _ & Hd). do 3 eexists. split; [done|]. split; [done|].
      case_decide; [by eapply serves_own|]. apply with_own_same. by eapply serves_own.
    + rewrite (call_write_refused F k _ _ _ fd (Some buf) nbytes (serves_owned _ _ HS)) by (right; by exists f).
      do 3 eexists. split; [done|]. by destruct f.
  - destruct (Z.eq_dec fd 0) as [->|Hne0].
    + rewrite (call_write_refused F k _ _ _ 0 (Some buf) nbytes (serves_owned _ _ HS)) by (by left). by do 3 eexists.
    + assert (not_open (o_open O (pid_of (o_mach O))) fd) as Hno by (eapply not_open_none; [exact HS|done..]).
      destruct (call_refused F (mkWorld [] [] patience) k _ _ _ fd (Some buf) nbytes (serves_owned _ _ HS) Hno) as (_ & -> & _).
      by do 3 eexists.
Qed.

(** A pointer in the program's page is no concern of the kernel's. *)
Lemma store_pointer_own p w k : p + 4 <= 0x8400000 -> store_pointer p w k = Some k.
Proof.
  intros Hp. unfold store_pointer, PROGRAM_VIR_ADDR, CONST_4MB.
  destruct (for_range_ind (fun _ k' => k' = k) (fun i k => if p + i <? 0x8000000 + 0x400000 then Some k
    else store_video false (p + i) (u8 (Z.shiftr w (8 * i))) k) 0 4 k) as (k' & E & ->); [lia|done| |exact E].
  intros i k' Hi ->. rewrite (proj2 (Z.ltb_lt _ _)) by lia. by exists k.
Qed.

Lemma served_vidmap k O p : serves k O -> call_ok F (Vidmap p) O -> call_served (Vidmap p) k O.
Proof.
  intros HS Hok. cbn [call_ok] in Hok. unfold call_served. cbn [run_call answers next_call]. unfold sys_vidmap.
  destruct (mo_desks _ _ _ _ _ _ (sv_models _ _ HS)) as [_ [_ [HT _ _ _ _] ] _ _ _ _ _]. cbn [fst snd] in HT.
  rewrite (are_pt_user _ _ _ _ _ HT VID_MEM_INDEX) by (unfold VID_MEM_INDEX; lia).
  unfold pt_user_entry, VID_MEM_INDEX, PROGRAM_VIR_ADDR, CONST_8MB. cbn [Z.eqb Pos.eqb mbind option_bind e_p make_entry].
  change (0x8000000 + 8388608) with 0x8800000.
  destruct (Z.eqb_spec p 0) as [->|]; cbn [orb]; [by do 3 eexists|].
  case_decide as Hp.
  - replace ((p <? 0x8000000) || (0x8800000 <=? p)) with false by lia. rewrite store_pointer_own by lia.
    do 3 eexists. split; [done|]. by split.
  - replace ((p <? 0x8000000) || (0x8800000 <=? p)) with true by lia. do 3 eexists. split; [done|]. by split.
Qed.

Lemma serves_call c k O : serves k O -> call_ok F c O -> call_served c k O.
Proof.
  intros HS Hc. destruct c as [buf nbytes|name nm|fd|fd buf nbytes|fd buf nbytes|p].
  - by apply served_getargs.
  - destruct Hc. by apply served_open.
  - by apply served_close.
  - by apply served_read.
  - by apply served_write.
  - by apply served_vidmap.
Qed.

(** *** The other events *)

Context (HB : bootable F room).

(** Tables that stay as they are. *)
Lemma serves_tables k k' O M' :
  serves k O -> models A B F room k' M' ->
  (forall j, j ∈ stacks_pids (m_procs M') -> j ∈ stacks_pids (m_procs (o_mach O)) /\
     file_descriptor_table <$> get_pcb j k' = file_descriptor_table <$> get_pcb j k) ->
  k_rtc k' = k_rtc k -> read_index k' = read_index k -> serves k' (with_mach M' O).
Proof.
  intros [Hm Hop Hi Hx Hr Hc] Hm' Ht Er Ei. split; cbn [o_mach o_open o_rate o_listed with_mach];
    rewrite ?Er, ?Ei; try done.
  intros j Hj. destruct (Ht j Hj) as [Hj' E]. destruct (Hop j Hj') as (b & Eb & Hb). rewrite Eb in E.
  destruct (get_pcb j k') as [b'|]; [|done]. injection E as E. exists b'. by rewrite E.
Qed.

(** A process that starts with nothing open. *)
Lemma serves_started k k' k0 O M' i st c args vid :
  serves k O -> models A B F room k' M' -> started A B k0 k' st i c args vid ->
  pcbs k0 = pcbs k -> k_rtc k0 = k_rtc k -> read_index k0 = read_index k ->
  (forall j, j ∈ stacks_pids (m_procs M') -> j = i \/ j ∈ stacks_pids (m_procs (o_mach O))) ->
  serves k' (mkOs M' (upd_at i ∅ (o_open O)) (o_rate O) (o_listed O)).
Proof.
  intros [Hm Hop Hi Hx Hr Hc] Hm' S Epcbs Ertc Eidx Hin.
  destruct (sd_rest _ _ _ _ _ _ _ _ _ S) as (_ & _ & Er & _ & Ei & _).
  split; cbn [o_mach o_open o_rate o_listed]; rewrite ?Er, ?Ertc, ?Ei, ?Eidx; try done.
  intros j Hj. destruct (Z.eq_dec j i) as [->|Hne].
  - rewrite upd_at_eq. destruct (sd_pcb _ _ _ _ _ _ _ _ _ S) as (b & _ & Eb). eexists. split; [exact Eb|].
    apply init_fds_are.
  - rewrite upd_at_ne by done. destruct (Hin j Hj) as [|Hj']; [done|].
    rewrite (proj1 (sd_others _ _ _ _ _ _ _ _ _ S j Hne)). unfold get_pcb. rewrite Epcbs. by apply Hop.
Qed.

Lemma step_desks_running e D : ds_running (step_desks e D) = ds_running D.
Proof. destruct e as [code|c|off c]; cbn [step_desks]; [|done..]. destruct (get_key code (ds_keys D)). by case_match. Qed.

Lemma serves_halt status st k O :
  serves k O -> frame_ok st ->
  exists k', halt_helper status st k = Some ((spec_halt F status st (o_mach O)).1, k') /\
    (spec_halt F status st (o_mach O)).1 <> Returned (-1) /\ serves k' (halted F status st O).
Proof.
  intros HS Hst. pose proof HS as [Hm Hop Hi Hx Hr Hc]. destruct (models_me _ _ Hm) as (Eme & Hin & Hpid).
  pose proof (mo_family _ _ _ _ _ _ Hm) as HF. pose proof (fa_running _ _ _ _ _ _ HF) as Hrun.
  destruct (family_cur _ _ _ _ _ _ HF) as (p & l & E & Ec). unfold halted, spec_halt. rewrite E.
  destruct l as [|q l].
  - destruct (models_restart A B F room k _ p status st HB Hm Hst E) as (ino & c & k' & l' & vid & Hexe & Eh & S & Hm').
    rewrite Hexe. exists k'. split; [done|]. split; [done|]. rewrite Eme, <- Ec.
    eapply serves_started; [exact HS|exact Hm'|exact S|done..|]. cbn [snd m_procs]. intros j Hj. right.
    by rewrite (replace_pids _ _ p _ [] Hrun E) in Hj.
  - destruct (models_pop A B F room k _ p q l status st Hm E) as (k' & gp & vid & Eh & Hm' & R).
    exists k'. split; [done|]. split; [done|]. destruct (rs_closes _ _ _ _ _ _ _ R) as (b & Eb & Hidx & Hrate).
    destruct (Hop _ Hin) as (b0 & Eb0 & Hare). assert (b0 = b) as -> by congruence. rewrite Eme.
    rewrite (any_open_holds F _ _ _ Listing Hare) in Hidx by (by left).
    rewrite (any_open_holds F _ _ _ Clock Hare) in Hrate by (by right).
    destruct (rs_rest _ _ _ _ _ _ _ R) as (_ & _ & _ & _ & _ & Hclk). apply same_clock_count in Hclk as (Ecount & Ecounts & _).
    split; cbn [o_mach o_open o_rate o_listed]; try done.
    + intros j Hj. cbn [snd m_procs] in Hj.
      destruct (proj1 (pop_pids _ _ p (q :: l) Hrun E (fa_distinct _ _ _ _ _ _ HF) j) Hj) as [Hne Hj'].
      rewrite Ec in Hne. rewrite (proj1 (rs_others _ _ _ _ _ _ _ R j Hne)). by apply Hop.
    + by rewrite Hidx, Hi.
    + destruct (holds Listing _); lia.
    + intros j Hj. destruct (Z.eq_dec j (cur_pid k)) as [->|Hne].
      * rewrite Hrate. case_match; [by rewrite upd_at_eq|by apply Hr].
      * rewrite (proj2 (rs_others _ _ _ _ _ _ _ R j Hne)), Hr by done. case_match; [by rewrite upd_at_ne|done].
    + by rewrite Ecount, Ecounts.
Qed.

Lemma serves_tick k O k_esp k_ebp st :
  serves k O ->
  exists k', run_sys (Tick k_esp k_ebp st) k = Some ((spec_tick k_esp k_ebp (o_mach O)).1, k') /\
    serves k' (with_mach (spec_tick k_esp k_ebp (o_mach O)).2 O).
Proof.
  intros HS. pose proof (sv_models _ _ HS) as Hm.
  destruct (models_tick A B F room k _ k_esp k_ebp st Hm) as (x & y & a & a' & t & b & b' & P & E & Eb & Es & Hm').
  eexists. split; [cbn [run_sys]; rewrite E; cbn [mbind option_bind]; by rewrite Es|].
  eapply serves_tables; [exact HS|exact Hm'| |done|done]. intros j Hj.
  split; [|rewrite (after_tick_pcb k a a' t k_esp k_ebp b b' P j Eb); by destruct (Z.eqb_spec j a) as [->|]; [rewrite Eb|] ].
  pose proof (mo_family _ _ _ _ _ _ Hm) as HF. revert Hj. unfold spec_tick.
  destruct (family_cur _ _ _ _ _ _ HF) as (p & l & Ep & _). rewrite Ep.
  destruct (stack_nonempty _ _ _ _ _ _ HF _ (proj1 (next_of_range _ (fa_running _ _ _ _ _ _ HF)))) as (p' & l' & Ep').
  rewrite Ep'. cbn [snd m_procs]. by rewrite (replace_pids _ _ p _ l (fa_running _ _ _ _ _ _ HF) Ep).
Qed.

Lemma serves_exec k O command s st :
  serves k O -> sys_event_ok (Exec command s st) ->
  exists k', run_sys (Exec command s st) k = Some (Leaves (spec_exec F s st (o_mach O)).1, k') /\
    serves k' (next_sys F (Exec command s st) O).
Proof.
  intros HS He. pose proof (sv_models _ _ HS) as Hm. cbn [run_sys next_sys spec_step]. unfold spec_exec.
  destruct (executable F (command_name s)) as [ [ino c]|] eqn:Hexe; [destruct (free_pid (m_procs (o_mach O))) as [i|] eqn:Hfree|].
  - destruct (models_push A B F room k _ command s st ino c i HB Hm He Hexe Hfree) as (k' & vid & E & S & Hn & Hm').
    rewrite E. eexists. split; [done|]. eapply serves_started; [exact HS|exact Hm'|exact S|done..|].
    cbn [o_mach with_mach snd m_procs]. intros j. rewrite push_pids by apply (mo_family _ _ _ _ _ _ Hm). done.
  - destruct (models_refused A B F room k _ command s st Hm He) as (p & E & Hm'); [by right|]. rewrite Hexe in E.
    rewrite E. eexists. split; [done|]. by eapply serves_tables.
  - destruct (models_refused A B F room k _ command s st Hm He) as (p & E & Hm'); [by left|]. rewrite Hexe in E.
    rewrite E. eexists. split; [done|]. by eapply serves_tables.
Qed.

Lemma serves_sys e k O :
  serves k O -> sys_event_ok e ->
  exists k', run_sys e k = Some ((spec_step F e (o_mach O)).1, k') /\ serves k' (next_sys F e O).
Proof.
  intros HS He. pose proof (sv_models _ _ HS) as Hm.
  destruct e as [e| |k_esp k_ebp st|command s st|status st|junk id err_code msg st].
  - destruct (models_input A B F room e k _ Hm He) as (k' & E & Hm'). exists k'. cbn [run_sys]. rewrite E.
    split; [done|]. pose proof (run_event_view _ _ _ E) as V.
    assert (cur_pid k' = cur_pid k) as Ep by (by injection V).
    pose proof (mo_desks _ _ _ _ _ _ Hm') as HD. rewrite Ep in HD.
    apply (serves_view k k' O _ HS V HD). apply step_desks_running.
  - destruct (serves_clock k O HS) as (k' & E & HS' & _). by exists k'.
  - by apply serves_tick.
  - destruct (serves_exec k O command s st HS He) as (k' & E & HS'). exists k'. rewrite E. split; [|done].
    cbn [spec_step]. by destruct (spec_exec F s st (o_mach O)).
  - destruct (serves_halt (u8 status) st k O HS He) as (k' & E & Hne & HS'). exists k'.
    cbn [run_sys spec_step next_sys]. unfold sys_halt. rewrite E. cbn [mbind option_bind].
    destruct (spec_halt F (u8 status) st (o_mach O)) as [o M'] eqn:Eo. cbn [fst snd] in *. split; [|done].
    destruct o; [|done..]. exfalso. revert Eo Hne. unfold spec_halt, to_user. repeat case_match; congruence.
  - destruct He as (Hj & Hmsg & Hcode & Hst).
    destruct (models_banner A B F room k _ junk id err_code msg Hm Hj Hmsg Hcode) as (k1 & E1 & V & Hm1).
    assert (cur_pid k1 = cur_pid k) as Ep by (by injection V).
    pose proof (mo_desks _ _ _ _ _ _ Hm1) as HD. rewrite Ep in HD.
    pose proof (serves_view k k1 O _ HS V HD eq_refl) as HS1.
    destruct (serves_halt EXCEPTION_HALT st k1 _ HS1 Hst) as (k' & E & _ & HS'). exists k'.
    cbn [run_sys spec_step next_sys]. unfold handle_exception. rewrite E1. cbn [mbind option_bind].
    rewrite E. cbn [mbind option_bind]. split; [|exact HS'].
    assert (forall x : outcome * machine, (let '(o, M) := x in (Leaves o, M)).1 = Leaves x.1) as L by (by intros []).
    by rewrite L.
Qed.

Lemma serves_step e k O :
  serves k O -> os_event_ok F e O ->
  exists r k', run_os d0 e k = Some (r, k') /\ replies F e O r /\ serves k' (next F e O).
Proof.
  intros HS He. destruct e as [e|c].
  - destruct (serves_sys e k O HS He) as (k' & E & HS'). cbn [run_os]. rewrite E. by do 2 eexists.
  - destruct (serves_call c k O HS He) as (v & b & k' & E & Hv & HS'). cbn [run_os]. by do 2 eexists.
Qed.

Lemma serves_steps es : forall k O,
  serves k O -> os_events_ok F es O ->
  exists rs k', run_os_all d0 es k = Some (rs, k') /\ replies_all F es O rs /\ serves k' (after F es O).
Proof.
  induction es as [|e es IH]; intros k O HS Hes; [by exists [], k|]. destruct Hes as [He Hes].
  destruct (serves_step e k O HS He) as (r & k1 & E1 & Hr & HS1). cbn [run_os_all]. rewrite E1.
  cbn [mbind option_bind]. destruct (IH k1 _ HS1 Hes) as (rs & k2 & E2 & Hrs & HS2). rewrite E2.
  cbn [mbind option_bind]. by exists (r :: rs), k2.
Qed.
End serves.
