(* ===== verification/Boot.v ===== *)
(** Booting: [entry] of [src/code/kernel.c], with the multiboot structures of
    [src/code/multiboot.h] and the segment descriptors of [src/code/x86_desc.h].

    [ram] is the memory as the boot loader leaves it, indexed by address: the
    multiboot information, the module list, the memory map, the command line and
    the file system image are read from it. *)
From stdpp Require Import base option list numbers.
From Stdlib Require Import ZArith Lia Ascii String.
From S2P Require Import Prelude LibString FileSystem Console I8259 Keyboard Paging Rtc Printf Idt State Terminal Desks Frame FileOps SysCall Process Scheduler Family System.

Definition MULTIBOOT_BOOTLOADER_MAGIC : Z := 0x2BADB002.
Definition KERNEL_DS : Z := 0x18.
Definition KERNEL_TSS : Z := 0x30.
Definition KERNEL_LDT : Z := 0x38.
Definition TSS_SIZE : Z := 104.
Definition KB_IRQ : Z := 1.

(** ** The structures *)

Record seg_desc_t := mkSeg {
  seg_lim_15_00 : Z;
  base_15_00 : Z;
  base_23_16 : Z;
  seg_type : Z;
  sys : Z;
  seg_dpl : Z;
  seg_present : Z;
  seg_lim_19_16 : Z;
  avail : Z;
  reserved : Z;
  opsize : Z;
  granularity : Z;
  base_31_24 : Z;
}.

#[export] Instance eta_seg : EtaExpand seg_desc_t := fun d =>
  mkSeg (seg_lim_15_00 d) (base_15_00 d) (base_23_16 d) (seg_type d) (sys d) (seg_dpl d) (seg_present d)
    (seg_lim_19_16 d) (avail d) (reserved d) (opsize d) (granularity d) (base_31_24 d).

(** SET_LDT_PARAMS, SET_TSS_PARAMS: the same stores, each to its field's width. *)
Definition set_seg_params (addr lim : Z) (d : seg_desc_t) : seg_desc_t :=
  d <| base_31_24 := Z.shiftr (Z.land addr 0xFF000000) 24 |>
    <| base_23_16 := Z.shiftr (Z.land addr 0x00FF0000) 16 |>
    <| base_15_00 := Z.land addr 0xFFFF |>
    <| seg_lim_19_16 := Z.shiftr (Z.land lim 0x000F0000) 16 |>
    <| seg_lim_15_00 := Z.land lim 0xFFFF |>.

(** The descriptors [entry] builds from a local that starts as [d]. *)
Definition the_ldt_desc (addr lim : Z) (d : seg_desc_t) : seg_desc_t :=
  set_seg_params addr lim
    (d <| granularity := 0 |> <| opsize := 1 |> <| reserved := 0 |> <| avail := 0 |>
       <| seg_present := 1 |> <| seg_dpl := 0 |> <| sys := 0 |> <| seg_type := 2 |>).

Definition the_tss_desc (addr lim : Z) (d : seg_desc_t) : seg_desc_t :=
  set_seg_params addr lim
    (d <| granularity := 0 |> <| opsize := 0 |> <| reserved := 0 |> <| avail := 0 |>
       <| seg_lim_19_16 := Z.land TSS_SIZE 0x000F0000 mod 16 |> <| seg_present := 1 |> <| seg_dpl := 0 |>
       <| sys := 0 |> <| seg_type := 9 |> <| seg_lim_15_00 := Z.land TSS_SIZE 0x0000FFFF |>).

(** What a descriptor says. *)
Definition seg_base (d : seg_desc_t) : Z := base_31_24 d * 16777216 + base_23_16 d * 65536 + base_15_00 d.
Definition seg_limit (d : seg_desc_t) : Z := seg_lim_19_16 d * 65536 + seg_lim_15_00 d.

(** The multiboot information: the fields [entry] reads. *)
Record multiboot_info_t := mkMbi {
  mb_flags : Z;
  mem_lower : Z;
  mem_upper : Z;
  boot_device : Z;
  cmdline : Z;
  mods_count : Z;
  mods_addr : Z;
  elf_num : Z;
  elf_size : Z;
  elf_addr : Z;
  elf_shndx : Z;
  mmap_length : Z;
  mmap_addr : Z;
}.

Definition load_mbi (ram : list Z) (addr : Z) : option multiboot_info_t :=
  f ← ld32 ram addr;
  lo ← ld32 ram (addr + 4); up ← ld32 ram (addr + 8); bd ← ld32 ram (addr + 12);
  cl ← ld32 ram (addr + 16); mc ← ld32 ram (addr + 20); ma ← ld32 ram (addr + 24);
  en ← ld32 ram (addr + 28); es ← ld32 ram (addr + 32); ea ← ld32 ram (addr + 36);
  ex ← ld32 ram (addr + 40); ml ← ld32 ram (addr + 44); mm ← ld32 ram (addr + 48);
  Some (mkMbi f lo up bd cl mc ma en es ea ex ml mm).

(** CHECK_FLAG(flags, bit) *)
Definition check_flag (flags bit : Z) : bool := negb (Z.land flags (Z.shiftl 1 bit) =? 0).

(** ** The report

    [say] is a statement [printf(format, args...)]. *)
Section report.
Context (junk : list Z) (ram : list Z).

Definition say (format : list Z) (args : list arg) (con : console) : option console :=
  '(_, con) ← printf junk (format ++ [0]) args con; Some con.

Definition fmt_magic : list Z := bytes "Invalid magic number: 0x%#x" ++ [10].
Definition fmt_flags : list Z := bytes "flags = 0x%#x" ++ [10].
Definition fmt_mem : list Z := bytes "mem_lower = %uKB, mem_upper = %uKB" ++ [10].
Definition fmt_device : list Z := bytes "boot_device = 0x%#x" ++ [10].
Definition fmt_cmdline : list Z := bytes "cmdline = %s" ++ [10].
Definition fmt_mod_start : list Z := bytes "Module %d loaded at address: 0x%#x" ++ [10].
Definition fmt_mod_end : list Z := bytes "Module %d ends at address: 0x%#x" ++ [10].
Definition fmt_first : list Z := bytes "First few bytes of module:" ++ [10].
Definition fmt_byte : list Z := bytes "0x%x ".
Definition fmt_both : list Z := bytes "Both bits 4 and 5 are set." ++ [10].
Definition fmt_elf : list Z := bytes "elf_sec: num = %u, size = 0x%#x, addr = 0x%#x, shndx = 0x%#x" ++ [10].
Definition fmt_mmap : list Z := bytes "mmap_addr = 0x%#x, mmap_length = 0x%x" ++ [10].
Definition fmt_region : list Z :=
  bytes "    size = 0x%x, base_addr = 0x%#x%#x" ++ [10] ++
  bytes "    type = 0x%x,  length    = 0x%#x%#x" ++ [10].

(** One module: where it is and its first sixteen bytes. *)
Definition report_module (mod_count mod_ : Z) (con : console) : option console :=
  mod_start ← ld32 ram mod_;
  con ← say fmt_mod_start [Word (u32 mod_count); Word mod_start] con;
  mod_end ← ld32 ram (mod_ + 4);
  con ← say fmt_mod_end [Word (u32 mod_count); Word mod_end] con;
  con ← say fmt_first [] con;
  con ← for_range 0 16 (fun i con =>
          c ← ram.[u32 (mod_start + i)]; say fmt_byte [Word (u32 (s8 c))] con) con;
  say [10] [] con.

Definition report_modules (mbi : multiboot_info_t) (con : console) : option console :=
  for_range 0 (mods_count mbi) (fun i con => report_module i (mods_addr mbi + 16 * i) con) con.

(** One region of the memory map; the next entry is [size + 4] bytes on. *)
Definition report_region (mmap : Z) (con : console) : option (Z * console) :=
  size_ ← ld32 ram mmap;
  base_low ← ld32 ram (mmap + 4); base_high ← ld32 ram (mmap + 8);
  length_low ← ld32 ram (mmap + 12); length_high ← ld32 ram (mmap + 16);
  type_ ← ld32 ram (mmap + 20);
  con ← say fmt_region [Word size_; Word base_high; Word base_low; Word type_; Word length_high; Word length_low] con;
  Some (u32 (mmap + size_ + 4), con).

Definition report_map (fuel : nat) (mbi : multiboot_info_t) (con : console) : option console :=
  iterate fuel (fun '(mmap, con) =>
    if mmap <? u32 (mmap_addr mbi + mmap_length mbi)
    then s ← report_region mmap con; Some (Next s)
    else Some (Done con)) (mmap_addr mbi, con).

(** Everything [entry] prints about the boot; the result says whether it goes
    on. *)
Definition report (fuel : nat) (mbi : multiboot_info_t) (con : console) : option (bool * console) :=
  let flag := check_flag (mb_flags mbi) in
  con ← say fmt_flags [Word (mb_flags mbi)] con;
  con ← (if flag 0 then say fmt_mem [Word (mem_lower mbi); Word (mem_upper mbi)] con else Some con);
  con ← (if flag 1 then say fmt_device [Word (boot_device mbi)] con else Some con);
  con ← (if flag 2 then say fmt_cmdline [Pointer ram (cmdline mbi)] con else Some con);
  con ← (if flag 3 then report_modules mbi con else Some con);
  if flag 4 && flag 5 then con ← say fmt_both [] con; Some (false, con)
  else
    con ← (if flag 5 then say fmt_elf [Word (elf_num mbi); Word (elf_size mbi); Word (elf_addr mbi); Word (elf_shndx mbi)] con
           else Some con);
    con ← (if flag 6 then
             con ← say fmt_mmap [Word (mmap_addr mbi); Word (mmap_length mbi)] con; report_map fuel mbi con
           else Some con);
    Some (true, con).
End report.

(** ** The initialisations *)

Definition keyboard_init (k : kernel) : kernel := k <| k_pic ::= enable_irq KB_IRQ |>.

Definition file_sys_init (ram : list Z) (start_addr : Z) (k : kernel) : kernel :=
  k <| k_img := drop (Z.to_nat start_addr) ram |>.

(** What [entry] sets up outside the kernel's record. *)
Record tables := mkTables {
  t_idt : list idt_desc_t;
  t_ldt : seg_desc_t;          (* ldt_desc_ptr *)
  t_tss : seg_desc_t;          (* tss_desc_ptr *)
  ldt_segment_selector : Z;    (* of the tss *)
  ss0 : Z;
  ldtr : Z;                    (* what lldt and ltr load *)
  tr : Z;
}.

Inductive boot_result := Stopped | Started (o : outcome).

Section entry.
Context (pt_addr pt_user_addr : Z).          (* the page tables *)
Context (handler_addr : handler -> Z).       (* the entry points *)
Context (ldt ldt_size tss tss_size : Z).     (* of x86_desc.S *)

(** From the descriptors to the first program.  [mod_start] is the address of
    the file system; [prev_b] and [prev_a] are what the clock's registers hold. *)
Definition init (ram : list Z) (mod_start prev_b prev_a : Z) (st : frame) (seg0 : seg_desc_t) (T : tables)
    (k : kernel) : option (outcome * tables * kernel) :=
  let k := k <| tss_esp0 := 0x800000 |> in
  idt ← initialize_idt handler_addr (t_idt T);
  let T := mkTables idt (the_ldt_desc ldt ldt_size seg0) (the_tss_desc tss tss_size seg0)
             KERNEL_LDT KERNEL_DS KERNEL_LDT KERNEL_TSS in
  let k := k <| k_pic ::= i8259_init |> in
  let k := pit_init k in
  let k := keyboard_init k in
  '(r, p) ← rtc_init prev_b prev_a (k_rtc k) (k_pic k);
  let k := k <| k_rtc := r |> <| k_pic := p |> in
  let k := file_sys_init ram mod_start k in
  k ← on_pag (paging_init pt_addr pt_user_addr) k;
  '(_, k) ← process_init k;
  let k := k <| k_pic ::= delete_cursor |> in
  k ← on_con clear_screen k;
  '(o, k) ← sys_execute shell_name st (sti k);
  Some (o, T, k).

Definition entry (junk ram : list Z) (fuel : nat) (magic addr prev_b prev_a : Z) (st : frame)
    (seg0 : seg_desc_t) (T : tables) (k : kernel) : option (boot_result * tables * kernel) :=
  k ← on_con clear k;
  if negb (magic =? MULTIBOOT_BOOTLOADER_MAGIC) then
    k ← on_con (say junk fmt_magic [Word magic]) k; Some (Stopped, T, k)
  else
    mbi ← load_mbi ram addr;
    '(go, con) ← report junk ram fuel mbi (k_con k);
    let k := k <| k_con := con |> in
    if negb (go : bool) then Some (Stopped, T, k)
    else
      mod_start ← ld32 ram (mods_addr mbi);
      '(o, T, k) ← init ram mod_start prev_b prev_a st seg0 T k;
      Some (Started o, T, k).
End entry.

(** ** What the report says

    The text, from the format strings' rendering. *)

Fixpoint joined (l : list (option (list Z))) : option (list Z) :=
  match l with [] => Some [] | o :: l => s ← o; t ← joined l; Some (s ++ t) end.

Definition string_at (ram : list Z) (p : Z) : option (list Z) :=
  let s := until (fun c => c =? 0) (drop (Z.to_nat p) ram) in
  if (0 <=? p) && (p + len s <? len ram) then Some s else None.

Section text.
Context (ram : list Z).

Definition line (format : list Z) (vs : list value) : option (list Z) := render format None vs.

Definition module_text (i mod_ : Z) : option (list Z) :=
  mod_start ← ld32 ram mod_; mod_end ← ld32 ram (mod_ + 4);
  joined ([line fmt_mod_start [Number (u32 i); Number mod_start];
           line fmt_mod_end [Number (u32 i); Number mod_end]; line fmt_first []] ++
          ((fun j => c ← ram.[u32 (mod_start + j)]; line fmt_byte [Number (u32 (s8 c))]) <$> seqZ 0 16) ++
          [line [10] []]).

Definition modules_text (mbi : multiboot_info_t) : option (list Z) :=
  joined ((fun i => module_text i (mods_addr mbi + 16 * i)) <$> seqZ 0 (mods_count mbi)).

(** The regions from [mmap] to [stop], at most [fuel] of them less one. *)
Fixpoint regions_text (fuel : nat) (mmap stop : Z) : option (list Z) :=
  match fuel with
  | O => None
  | S fuel =>
      if mmap <? stop then
        size_ ← ld32 ram mmap;
        base_low ← ld32 ram (mmap + 4); base_high ← ld32 ram (mmap + 8);
        length_low ← ld32 ram (mmap + 12); length_high ← ld32 ram (mmap + 16);
        type_ ← ld32 ram (mmap + 20);
        joined [line fmt_region [Number size_; Number base_high; Number base_low; Number type_;
                                 Number length_high; Number length_low];
                regions_text fuel (u32 (mmap + size_ + 4)) stop]
      else Some []
  end.

Definition when (b : bool) (o : option (list Z)) : option (list Z) := if b then o else Some [].

Definition report_text (fuel : nat) (mbi : multiboot_info_t) : option (bool * list Z) :=
  let flag := check_flag (mb_flags mbi) in
  let both := flag 4 && flag 5 in
  out ← joined ([line fmt_flags [Number (mb_flags mbi)];
    when (flag 0) (line fmt_mem [Number (mem_lower mbi); Number (mem_upper mbi)]);
    when (flag 1) (line fmt_device [Number (boot_device mbi)]);
    when (flag 2) (s ← string_at ram (cmdline mbi); line fmt_cmdline [Text s]);
    when (flag 3) (modules_text mbi)] ++
    (if both then [line fmt_both []]
     else [when (flag 5) (line fmt_elf [Number (elf_num mbi); Number (elf_size mbi); Number (elf_addr mbi);
                                        Number (elf_shndx mbi)]);
           when (flag 6) (joined [line fmt_mmap [Number (mmap_addr mbi); Number (mmap_length mbi)];
                                  regions_text fuel (mmap_addr mbi) (u32 (mmap_addr mbi + mmap_length mbi))])]));
  Some (negb both, out).
End text.

(** ** Printing *)

Definition prints (f : console -> option console) (out : list Z) : Prop := forall con, f con = emit out con.

Lemma prints_seq f g o1 o2 : prints f o1 -> prints g o2 -> prints (fun con => con ← f con; g con) (o1 ++ o2).
Proof. intros Hf Hg con. rewrite Hf, emit_app. by destruct (emit o1 con); cbn [mbind option_bind]. Qed.

Lemma prints_ext f g out : (forall con, f con = g con) -> prints g out -> prints f out.
Proof. intros H Hg con. by rewrite H. Qed.

Lemma prints_none : prints Some [].
Proof. done. Qed.

Lemma joined_cons o l out : joined (o :: l) = Some out ->
  exists s t, o = Some s /\ joined l = Some t /\ out = s ++ t.
Proof. cbn. destruct o as [s|]; [|done]. destruct (joined l) as [t|]; [|done]. intros [= <-]. by exists s, t. Qed.

Lemma joined_app l1 l2 out : joined (l1 ++ l2) = Some out ->
  exists s t, joined l1 = Some s /\ joined l2 = Some t /\ out = s ++ t.
Proof.
  revert out. induction l1 as [|o l1 IH]; intros out H; [by exists [], out|].
  apply joined_cons in H as (s & t & -> & H & ->). apply IH in H as (s' & t' & E & -> & ->).
  exists (s ++ s'), t'. cbn. rewrite E. by rewrite app_assoc.
Qed.

Lemma prints_for body (text : Z -> option (list Z)) n : forall i out,
  (forall j s, i <= j < i + Z.of_nat n -> text j = Some s -> prints (body j) s) ->
  joined (text <$> seqZ i (Z.of_nat n)) = Some out -> prints (for_up n i body) out.
Proof.
  induction n as [|n IH]; intros i out Hb H.
  - cbn in H. by injection H as <-.
  - rewrite seqZ_cons in H by lia. replace (Z.pred (Z.of_nat (S n))) with (Z.of_nat n) in H by lia.
    apply joined_cons in H as (s & t & Es & Et & ->).
    apply (prints_ext _ (fun con => con ← body i con; for_up n (i + 1) body con)); [done|].
    apply prints_seq; [apply Hb; [lia|done]|]. apply IH; [|done]. intros j s' Hj. apply Hb. lia.
Qed.

Lemma string_at_cstring ram p s : Forall is_byte ram -> string_at ram p = Some s -> cstring ram p s.
Proof.
  intros Hr. unfold string_at. set (u := until _ _). destruct (_ && _) eqn:E; [|done]. intros [= <-].
  apply andb_true_iff in E as [H1 H2]. apply Z.leb_le in H1. apply Z.ltb_lt in H2.
  assert (forall i, 0 <= i -> (drop (Z.to_nat p) ram).[i] = ram.[p + i]) as Hd.
  { intros i Hi. rewrite aget_drop by done. f_equal. lia. }
  assert (forall i, 0 <= i < len u -> exists c, ram.[p + i] = Some c /\ u.[i] = Some c /\ c <> 0) as Hu.
  { intros i Hi. destruct (until_prefix _ _ i Hi) as (c & Ec & Ev & Hc). exists c.
    rewrite <- Hd by lia. split_and!; [done|done|lia]. }
  split_and!; [done| | |].
  - apply Forall_lookup_2. intros i c Hc. rewrite <- aget_nat in Hc. pose proof (aget_range _ _ _ Hc) as Hi.
    destruct (Hu _ Hi) as (c' & Ec & Ev & Hc0). assert (c' = c) as -> by congruence.
    pose proof (aget_Forall _ _ _ _ Hr Ec) as Hb. unfold is_byte, is_char in *. lia.
  - destruct (aget_is_Some ram (p + len u)) as [c Ec]; [lia|]. rewrite Ec. f_equal.
    rewrite <- Hd in Ec by lia. apply until_end in Ec. lia.
  - intros i Hi. destruct (Hu i Hi) as (c & -> & -> & _). done.
Qed.

Record mbi_ok (mbi : multiboot_info_t) : Prop := {
  mi_flags : is_u32 (mb_flags mbi);
  mi_lower : is_u32 (mem_lower mbi);
  mi_upper : is_u32 (mem_upper mbi);
  mi_device : is_u32 (boot_device mbi);
  mi_count : is_u32 (mods_count mbi);
  mi_num : is_u32 (elf_num mbi);
  mi_size : is_u32 (elf_size mbi);
  mi_addr : is_u32 (elf_addr mbi);
  mi_shndx : is_u32 (elf_shndx mbi);
  mi_length : is_u32 (mmap_length mbi);
  mi_mmap : is_u32 (mmap_addr mbi);
}.

(** Arguments that are the words of the values. *)
Ltac words := repeat (apply List.Forall2_cons; [split; [reflexivity|eauto using u32_range]|]); apply List.Forall2_nil.

Section report_prints.
Context (junk : list Z) (Hjunk : Datatypes.length junk = 64%nat) (ram : list Z) (Hram : Forall is_byte ram).

Lemma ram_word a w : ld32 ram a = Some w -> is_u32 w.
Proof. intros H. by apply ld32_range in H as [? _]. Qed.

Lemma load_mbi_ok addr mbi : load_mbi ram addr = Some mbi -> mbi_ok mbi.
Proof.
  unfold load_mbi. intros H. unbind H. injection H as <-. split; by eapply ram_word.
Qed.

Lemma say_prints format args vs out :
  forallb (fun c => (0 <? c) && (c <? 256)) format = true -> Forall2 arg_is args vs ->
  line format vs = Some out -> prints (say junk format args) out.
Proof.
  intros Hf Ha Hr con. unfold say.
  rewrite (printf_emit junk Hjunk _ format args vs out con); [|by apply cstring_intro, Forall_is_char|done|done].
  by destruct (emit out con).
Qed.

Lemma module_prints i m out :
  module_text ram i m = Some out -> prints (report_module junk ram i m) out.
Proof.
  unfold module_text. intros H. unbind H. rename z into start, z0 into end_.
  pose proof (ram_word _ _ E) as Hs. pose proof (ram_word _ _ E0) as He. pose proof (u32_range i) as Hi.
  cbn [app] in H.
  apply joined_cons in H as (o1 & r1 & H1 & H & ->). apply joined_cons in H as (o2 & r2 & H2 & H & ->).
  apply joined_cons in H as (o3 & r3 & H3 & H & ->). apply joined_app in H as (o4 & r4 & H4 & H & ->).
  apply joined_cons in H as (o5 & r5 & H5 & H & ->). injection H as <-. rewrite app_nil_r.
  apply (prints_ext _ (fun con => con ← say junk fmt_mod_start [Word (u32 i); Word start] con;
    con ← say junk fmt_mod_end [Word (u32 i); Word end_] con; con ← say junk fmt_first [] con;
    con ← for_range 0 16 (fun i con =>
          c ← ram.[u32 (start + i)]; say junk fmt_byte [Word (u32 (s8 c))] con) con;
    say junk [10] [] con)).
  { intros con. unfold report_module. rewrite E. cbn [mbind option_bind].
    destruct (say junk fmt_mod_start _ con); cbn [mbind option_bind]; [|done]. by rewrite E0. }
  apply prints_seq; [eapply say_prints; [done| |exact H1]; words|].
  apply prints_seq; [eapply say_prints; [done| |exact H2]; words|].
  apply prints_seq; [eapply say_prints; [done| |exact H3]; words|].
  apply prints_seq; [|eapply say_prints; [done| |exact H5]; words].
  unfold for_range. eapply (prints_for _ _ 16); [|exact H4].
  intros j s _ Hj. cbv beta in Hj. destruct (ram.[u32 (start + j)]) as [c|] eqn:Ec; [|done]. cbn [mbind option_bind] in Hj.
  apply (prints_ext _ (say junk fmt_byte [Word (u32 (s8 c))])); [done|].
  eapply say_prints; [done| |exact Hj]. words.
Qed.

Lemma modules_prints mbi out :
  mbi_ok mbi -> modules_text ram mbi = Some out -> prints (report_modules junk ram mbi) out.
Proof.
  intros Hm H. pose proof (mi_count _ Hm) as Hc. unfold is_u32 in Hc. unfold report_modules, for_range.
  eapply prints_for; [|rewrite Z2Nat.id, Z.sub_0_r by lia; exact H].
  intros j s _ Hj. by apply module_prints.
Qed.

Lemma regions_prints mbi fuel : forall mmap out,
  regions_text ram fuel mmap (u32 (mmap_addr mbi + mmap_length mbi)) = Some out ->
  prints (fun con => iterate fuel (fun '(mmap, con) =>
    if mmap <? u32 (mmap_addr mbi + mmap_length mbi)
    then s ← report_region junk ram mmap con; Some (Next s)
    else Some (Done con)) (mmap, con)) out.
Proof.
  induction fuel as [|fuel IH]; intros mmap out H; [done|]. cbn [regions_text] in H.
  destruct (mmap <? _) eqn:Elt.
  - unbind H. apply joined_cons in H as (s & t & Hs & H & ->). apply joined_cons in H as (t' & r & Ht & Hr & ->).
    injection Hr as <-. rewrite app_nil_r.
    match type of Hs with line _ ?vs = _ => set (vals := vs) in * end.
    set (args := (fun v => match v with Number w => Word w | Text s => Pointer s 0 end) <$> vals).
    pose proof (ram_word _ _ E). pose proof (ram_word _ _ E0). pose proof (ram_word _ _ E1).
    pose proof (ram_word _ _ E2). pose proof (ram_word _ _ E3). pose proof (ram_word _ _ E4).
    intros con. rewrite iterate_S, Elt. unfold report_region. rewrite E, E0, E1, E2, E3, E4.
    cbn [mbind option_bind].
    rewrite (say_prints fmt_region args vals s) by (done || words).
    rewrite emit_app. destruct (emit s con) as [con'|]; cbn [mbind option_bind]; [|done].
    apply (IH _ _ Ht con').
  - injection H as <-. intros con. by rewrite iterate_S, Elt.
Qed.

Lemma when_prints (b : bool) f o out :
  when b o = Some out -> (forall s, o = Some s -> prints f s) ->
  prints (fun con => if b then f con else Some con) out.
Proof. destruct b; cbn [when]; intros H Hf; [by apply Hf|]. injection H as <-. apply prints_none. Qed.

Lemma when_say (b : bool) format args vs out con :
  when b (line format vs) = Some out ->
  forallb (fun c => (0 <? c) && (c <? 256)) format = true -> Forall2 arg_is args vs ->
  (if b then say junk format args con else Some con) = emit out con.
Proof. intros H Hf Ha. apply (when_prints b _ _ _ H (fun s => say_prints format args vs s Hf Ha)). Qed.

(** The report prints its text; it says to go on unless bits 4 and 5 are both
    set. *)
Lemma report_prints fuel mbi go out con :
  mbi_ok mbi -> report_text ram fuel mbi = Some (go, out) ->
  report junk ram fuel mbi con = con ← emit out con; Some (go, con).
Proof.
  intros Hm. pose proof Hm as []. unfold report_text, report.
  destruct (joined _) as [out'|] eqn:H; [|done]. cbn [mbind option_bind]. intros [= <- <-].
  set (flag := check_flag (mb_flags mbi)) in *. cbn [app] in H.
  apply joined_cons in H as (o1 & r1 & H1 & H & ->). apply joined_cons in H as (o2 & r2 & H2 & H & ->).
  apply joined_cons in H as (o3 & r3 & H3 & H & ->). apply joined_cons in H as (o4 & r4 & H4 & H & ->).
  apply joined_cons in H as (o5 & r5 & H5 & H & ->).
  rewrite (say_prints fmt_flags [Word (mb_flags mbi)] [Number (mb_flags mbi)] o1) by (done || words).
  rewrite emit_app. destruct (emit o1 con) as [con1|]; cbn [mbind option_bind]; [|done].
  rewrite (when_say _ _ _ _ _ _ H2 eq_refl) by words.
  rewrite emit_app. destruct (emit o2 con1) as [con2|]; cbn [mbind option_bind]; [|done].
  rewrite (when_say _ _ _ _ _ _ H3 eq_refl) by words.
  rewrite emit_app. destruct (emit o3 con2) as [con3|]; cbn [mbind option_bind]; [|done].
  assert (forall s, (s ← string_at ram (cmdline mbi); line fmt_cmdline [Text s]) = Some s ->
    prints (say junk fmt_cmdline [Pointer ram (cmdline mbi)]) s) as Hcmd.
  { intros s Hs. destruct (string_at ram (cmdline mbi)) as [t|] eqn:Et; [|done]. cbn [mbind option_bind] in Hs.
    eapply say_prints; [done| |exact Hs]. constructor; [by apply string_at_cstring|constructor]. }
  pose proof (when_prints (flag 2) _ _ _ H4 Hcmd con3) as ->.
  rewrite emit_app. destruct (emit o4 con3) as [con4|]; cbn [mbind option_bind]; [|done].
  pose proof (when_prints (flag 3) _ _ _ H5 (fun s => modules_prints mbi s Hm) con4) as ->.
  rewrite emit_app. destruct (emit o5 con4) as [con5|]; cbn [mbind option_bind]; [|done].
  destruct (flag 4 && flag 5).
  - apply joined_cons in H as (o6 & r6 & H6 & H & ->). injection H as <-. rewrite app_nil_r.
    by rewrite (say_prints fmt_both [] [] o6) by (done || words).
  - apply joined_cons in H as (o6 & r6 & H6 & H & ->). apply joined_cons in H as (o7 & r7 & H7 & H & ->).
    injection H as <-. rewrite app_nil_r.
    rewrite (when_say _ _ _ _ _ _ H6 eq_refl) by words.
    rewrite emit_app. destruct (emit o6 con5) as [con6|]; cbn [mbind option_bind]; [|done].
    assert (forall s, joined [line fmt_mmap [Number (mmap_addr mbi); Number (mmap_length mbi)];
        regions_text ram fuel (mmap_addr mbi) (u32 (mmap_addr mbi + mmap_length mbi))] = Some s ->
      prints (fun con => con ← say junk fmt_mmap [Word (mmap_addr mbi); Word (mmap_length mbi)] con;
        report_map junk ram fuel mbi con) s) as Hmap.
    { intros s Hs. apply joined_cons in Hs as (a & b & Ha & Hs & ->). apply joined_cons in Hs as (c & d & Hc & Hs & ->).
      injection Hs as <-. rewrite app_nil_r. apply prints_seq; [|by apply regions_prints].
      eapply say_prints; [done| |exact Ha]. words. }
    pose proof (when_prints (flag 6) _ _ _ H7 Hmap con6) as ->. done.
Qed.
End report_prints.
