(* ===== verification/Startup.v ===== *)
(** Starting up, from the boot loader's jump to three running shells.

    [power_on] is the state the boot loader leaves; [fresh] is it while nothing
    runs yet, with the three desks a hypothetical set of page tables would give
    it; [booting n] is the state with the shells of the first [n] terminals
    running.  [entry] leads to [booting 1], a tick from [booting n] to
    [booting (n + 1)], and the third tick to a state of [models]. *)
From stdpp Require Import base option list numbers.
From Stdlib Require Import ZArith Lia.
From S2P Require Import Prelude LibString FileSystem Console I8259 Keyboard Paging Rtc Printf Idt State Terminal Desks Frame FileOps SysCall Process Scheduler Family System Boot.

Definition blank_term : term_t := mkTerm 0 0 0 0 0 (replicate 128 0) 0.

Record power_on (room : Z) (k : kernel) : Prop := {
  po_con : exists vm b, vm_ok vm /\ k_con k = mkConsole vm VIDEO (replicate 3 blank_term) 0 0 b;
  po_kbd : k_kbd k = kbd_reset;
  po_pag : k_pag k = paging_zero;
  po_rtc : k_rtc k = rtc_reset;
  po_pids : pid_array k = replicate 6 0;
  po_cur : cur_pid k = -1;
  po_pcbs : len (pcbs k) = MAX_PID;
  po_pcb : Forall (fun b => len (file_descriptor_table b) = NUM_MAX_FILES /\ len (cmd_args b) = CMD_LINE_LEN) (pcbs k);
  po_mem : len (prog_mem k) = MAX_PID;
  po_room : Forall (fun m => room <= len m) (prog_mem k);
  po_init : terminal_init k = 1;
  po_done : term_init_done k = 0;
  po_index : read_index k = 0;
}.

(** The clock after [rtc_init]. *)
Definition boot_rtc : rtc_t := rtc_reset <| process_rtc := replicate 6 MAX_VIR_FREQ |>.

Lemma boot_rtc_wf : wf_rtc boot_rtc.
Proof.
  split; try done. repeat (constructor; [unfold rate_ok, MIN_VIR_FREQ, MAX_VIR_FREQ; lia|]). constructor.
Qed.

(** [k] with the page tables [P], and as if the terminals were set up. *)
Definition shadow (P : paging) (k : kernel) : kernel := k <| k_pag := P |> <| term_init_done := 1 |>.

(** The program [p] with the registers a tick saves. *)
Definition paused (k_esp k_ebp : Z) (p : proc) : proc := mkProc (p_pid p) (p_frame p) (k_esp, k_ebp) (p_args p).

Definition upd_proc (t : Z) (p : proc) (P : Z -> proc) : Z -> proc := fun i => if i =? t then p else P i.

Section startup.
Context (pt_addr pt_user_addr : Z) (F : afs) (room : Z).
Notation implements := (implements pt_addr pt_user_addr).
Notation models := (models pt_addr pt_user_addr F room).

Record fresh (k : kernel) (D : desks) : Prop := {
  fs_desks : exists P, implements USER_BASE (shadow P k) D;
  fs_shown : ds_shown D = 0;
  fs_running : ds_running D = 0;
  fs_active : active_pid <$> terminals (k_con k) = [0; 0; 0];
  fs_pag : k_pag k = paging_zero;
  fs_rtc : k_rtc k = rtc_reset;
  fs_pids : pid_array k = replicate 6 0;
  fs_pcbs : len (pcbs k) = MAX_PID;
  fs_pcb : Forall (fun b => len (file_descriptor_table b) = NUM_MAX_FILES /\ len (cmd_args b) = CMD_LINE_LEN) (pcbs k);
  fs_mem : len (prog_mem k) = MAX_PID;
  fs_room : Forall (fun m => room <= len m) (prog_mem k);
  fs_init : terminal_init k = 1;
  fs_done : term_init_done k = 0;
  fs_index : read_index k = 0;
}.

(** Shells run on the terminals below [n]; [P] says which. *)
Record booting (n : Z) (k : kernel) (D : desks) (P : Z -> proc) : Prop := {
  bo_range : 1 <= n <= NUM_TERMS;
  bo_image : represents (k_img k) F;
  bo_desks : implements ((n + 1) * PAGE_4MB) (k <| term_init_done := 1 |>) D;
  bo_shown : ds_shown D = n - 1;
  bo_running : ds_running D = n - 1;
  bo_procs : wf_procs k;
  bo_room : Forall (fun m => room <= len m) (prog_mem k);
  bo_rtc : k_rtc k = boot_rtc;
  bo_init : terminal_init k = n;
  bo_done : term_init_done k = 0;
  bo_pids : forall i, 0 <= i < MAX_PID -> (pid_array k).[i] = Some (if i <? n then 1 else 0);
  bo_block : forall t, 0 <= t < n -> p_pid (P t) = t /\ exists b, (pcbs k).[t] = Some b /\ block_is b (P t) (-1);
  bo_active : forall t, 0 <= t < n -> (active_pid <$> terminals (k_con k)).[t] = Some t;
  bo_fds : forall t, 0 <= t < n -> file_descriptor_table <$> (pcbs k).[t] = Some init_fds;
  bo_index : read_index k = 0;
}.

(** *** Desks out of nothing *)

Lemma desks_exist prog k :
  wf_terms k -> targets_ok pt_addr pt_user_addr k prog -> term_init_done k <> 0 ->
  (forall t, 0 <= t < NUM_TERMS -> exists buf idx, term_line k t = Some (buf, idx) /\ line_is buf idx []) ->
  exists D, implements prog k D /\ ds_keys D = keys_of (k_kbd k) /\ ds_shown D = ts (k_con k) /\
    ds_running D = ta (k_con k) /\ forall t, 0 <= t < NUM_TERMS -> d_line (ds_of D t) = [].
Proof.
  intros W HT Hi HL.
  assert (forall t, 0 <= t < NUM_TERMS -> exists s, shows (k_con k) (page_of t (ts (k_con k))) t s) as Hs.
  { intros t Ht. apply shows_exists; [apply W|by apply page_of_is_page|exact Ht]. }
  destruct (Hs 0) as [s0 H0]; [unfold NUM_TERMS; lia|]. destruct (Hs 1) as [s1 H1]; [unfold NUM_TERMS; lia|].
  destruct (Hs 2) as [s2 H2]; [unfold NUM_TERMS; lia|].
  exists (mkDesks (keys_of (k_kbd k)) (ts (k_con k)) (ta (k_con k))
    (fun t => mkDesk [] (if t =? 0 then s0 else if t =? 1 then s1 else s2))).
  split; [|done]. split; try done. intros t Ht. split; [by apply HL|].
  by destruct (term_cases t Ht) as [-> | [-> | ->] ].
Qed.

(** A cursor put elsewhere makes another display of its terminal's page. *)
Lemma cursor_set prog k D t x y :
  implements prog k D -> 0 <= t < NUM_TERMS -> 0 <= x < NUM_COLS -> 0 <= y < NUM_ROWS ->
  exists s k', on_con (fun c => upd_term c t (fun T => T <| cursor_y := y |> <| cursor_x := x |>)) k = Some k' /\
    same_view k k' /\
    implements prog k' (upd_desk t (fun d => mkDesk (d_line d) s) D).
Proof.
  intros [W HT Hi Hk Hs Hr HD] Ht Hx Hy. pose proof (wt_con _ W) as [Hvm Hvid HTs Hcur Hts Hta].
  destruct (aget_is_Some (terminals (k_con k)) t) as [T ET]; [lia|].
  unfold on_con, upd_term. rewrite ET. cbn [mbind option_bind]. rewrite aset_Some by lia.
  cbn [mbind option_bind]. set (T' := T <| cursor_y := y |> <| cursor_x := x |>).
  set (k' := k <| k_con := _ |>).
  assert (wf_terms k') as W'.
  { destruct W as [_ ? ? Hls]. split; try done.
    - split; try done; cbn; [by rewrite length_insert|]. apply Forall_insert; [done|]. done.
    - cbn. apply Forall_insert; [done|]. exact (aget_Forall _ _ _ _ Hls ET). }
  destruct (shows_exists (k_con k') (page_of t (ts (k_con k))) t) as [s Es]; [apply W'|by apply page_of_is_page|done|].
  exists s, k'. split; [done|]. split.
  { unfold same_view, view_of. cbn. f_equal. rewrite list_fmap_insert. apply list_insert_id.
    rewrite list_lookup_fmap, <- aget_nat, Z2Nat.id, ET by lia. done. }
  split; try done. intros t' Ht'. destruct (HD t' Ht') as [ (buf & idx & HL & Hline) Hsh].
  unfold desk_is, term_line in *. cbn [k' k_con update_field terminals ts k_kbd ds_of upd_desk] in *.
  unfold update_field in *. cbn [k_con terminals ts k_kbd] in *.
  destruct (Z.eqb_spec t' t) as [->|Hne]; cbn [d_line d_tty].
  - split; [|exact Es]. exists buf, idx. split; [|done]. rewrite aget_insert_eq by lia.
    rewrite ET in HL. done.
  - split.
    + exists buf, idx. split; [|done]. by rewrite aget_insert_ne by lia.
    + destruct Hsh as (T0 & ET0 & Hpage). exists T0. split; [|done]. cbn. by rewrite aget_insert_ne by lia.
Qed.

(** *** From power on to the end of the report *)

Lemma power_on_fresh k :
  power_on room k ->
  exists D, fresh k D /\ ds_keys D = keys_of kbd_reset /\ forall t, 0 <= t < NUM_TERMS -> d_line (ds_of D t) = [].
Proof.
  intros [ (vm & b & Hvm & Ec) Ek Ep Er Epids Ecur Hpcbs Hpcb Hmem Hroom Einit Edone Eidx].
  destruct (paging_init_ok pt_addr pt_user_addr) as (P & _ & HP).
  assert (line_sized (replicate 128 0) 0) as Hsized by (split; [reflexivity|unfold KEY_BUF_SIZE; lia]).
  destruct (desks_exist USER_BASE (shadow P k)) as (D & I & Ekeys & Es & Er' & HL).
  - split; cbn; rewrite ?Ec, ?Ek; [| |exact Hsized|by repeat constructor].
    + split; cbn; try done; [apply is_page_VIDEO|].
      repeat (apply Forall_cons_2; [by vm_compute|]). apply Forall_nil_2.
    + exact kbd_reset_flags.
  - split; cbn; rewrite Ec; [done|]. exact HP.
  - done.
  - intros t Ht. exists (replicate 128 0), 0. split; [|by split_and!]. unfold term_line. cbn. rewrite Ec, Ek. cbn.
    by destruct (term_cases t Ht) as [-> | [-> | ->] ].
  - exists D. cbn in Ekeys, Es, Er'. rewrite Ec in Es, Er'. rewrite Ek in Ekeys. split; [|done].
    split; try done; [by exists P|by rewrite Ec].
Qed.

Lemma clear_is_clear_screen k : power_on room k -> on_con clear k = on_con clear_screen k.
Proof.
  intros [ (vm & b & Hvm & Ec) _ _ _ _ _ _ _ _ _ _ _ _]. unfold on_con, clear_screen, clear. rewrite Ec. cbn [vmem].
  destruct (for_range 0 (NUM_ROWS * NUM_COLS) _ vm); reflexivity.
Qed.

(** What keeps the processes and implements an operation on the desks keeps
    [fresh]. *)
Lemma fresh_con k D D' c :
  fresh k D -> con_view c = con_view (k_con k) ->
  (forall P, implements USER_BASE (shadow P k) D -> implements USER_BASE ((shadow P k) <| k_con := c |>) D') ->
  ds_shown D' = ds_shown D -> ds_running D' = ds_running D -> fresh (k <| k_con := c |>) D'.
Proof.
  intros [ (P & I) Hs Hr Ha Hpag Hrtc Hpids Hpcbs Hpcb Hmem Hroom Hinit Hdone Hidx] V HI Es Er.
  injection V as Eta Eact. split; try done; try congruence.
  - exists P. by apply HI.
  - cbn. congruence.
Qed.

Lemma fresh_clear k D :
  fresh k D ->
  exists k', on_con clear_screen k = Some k' /\ k_img k' = k_img k /\ k_kbd k' = k_kbd k /\ cur_pid k' = cur_pid k /\
    fresh k' (upd_desk 0 (on_tty (tty_op ClearScreen)) D).
Proof.
  intros Hf. pose proof (fs_desks _ _ Hf) as (P & I).
  destruct (on_con_shown _ _ _ (shadow P k) D ClearScreen I) as (k1 & E1 & I1); [done|].
  unfold on_con in E1. change (k_con (shadow P k)) with (k_con k) in E1. cbn [run_op] in E1.
  unfold on_con. destruct (clear_screen (k_con k)) as [c|] eqn:Ec; [|discriminate E1]. cbn [mbind option_bind].
  eexists; split; [done|]. split_and!; try done.
  apply (fresh_con k D); try done; [by apply clear_screen_keeps in Ec|].
  intros P' I'. destruct (on_con_shown _ _ _ (shadow P' k) D ClearScreen I') as (k2 & E2 & I2); [done|].
  unfold on_con in E2. change (k_con (shadow P' k)) with (k_con k) in E2. cbn [run_op] in E2. rewrite Ec in E2.
  injection E2 as <-. by rewrite (fs_shown _ _ Hf) in I2.
Qed.

Lemma fresh_print text k D :
  fresh k D ->
  exists c, emit text (k_con k) = Some c /\ fresh (k <| k_con := c |>) (upd_desk 0 (on_tty (tty_print text)) D).
Proof.
  intros Hf. pose proof (fs_desks _ _ Hf) as (P & I).
  destruct (on_con_print _ _ _ text _ _ I) as (c & E & V & _). exists c. rewrite emit_console. split; [exact E|].
  apply (fresh_con k D); try done.
  intros P' I'. destruct (on_con_print _ _ _ text _ _ I') as (c' & E' & _ & I2).
  change (k_con (shadow P' k)) with (k_con k) in E'. change (k_con (shadow P k)) with (k_con k) in E.
  assert (c' = c) as -> by congruence. by rewrite (fs_running _ _ Hf) in I2.
Qed.

(** *** The initialisations and the first shell *)

Lemma on_con_inv f k k' : on_con f k = Some k' -> exists c, f (k_con k) = Some c /\ k' = k <| k_con := c |>.
Proof. unfold on_con. destruct (f (k_con k)) as [c|]; [|done]. intros [= <-]. by exists c. Qed.

(** The next free number while booting. *)
Lemma boot_first_pid k n : 0 <= n < MAX_PID ->
  (forall i, 0 <= i < MAX_PID -> (pid_array k).[i] = Some (if i <? n then 1 else 0)) -> first_pid (pid_array k) n.
Proof.
  intros Hn Hpids. split; [lia|]. split.
  - intros j p Hj. rewrite Hpids, (proj2 (Z.ltb_lt j n)) by lia. by intros [= <-].
  - intros _. rewrite Hpids by done. by rewrite Z.ltb_irrefl.
Qed.

(** The shell of terminal [n] can be started, and is: [k] has the page tables and
    the terminal set up. *)
Lemma next_shell n prog k D P st :
  bootable F room -> frame_ok st -> 0 <= n < NUM_TERMS -> represents (k_img k) F ->
  implements prog (k <| term_init_done := 1 |>) D -> ds_shown D = n -> ds_running D = n ->
  wf_procs k -> Forall (fun m => room <= len m) (prog_mem k) -> k_rtc k = boot_rtc ->
  terminal_init k = n + 1 -> term_init_done k = 0 ->
  (forall i, 0 <= i < MAX_PID -> (pid_array k).[i] = Some (if i <? n then 1 else 0)) ->
  (forall t, 0 <= t < n -> p_pid (P t) = t /\ exists b, (pcbs k).[t] = Some b /\ block_is b (P t) (-1)) ->
  (forall t, 0 <= t < n -> (active_pid <$> terminals (k_con k)).[t] = Some t) ->
  (forall t, 0 <= t < n -> file_descriptor_table <$> (pcbs k).[t] = Some init_fds) -> read_index k = 0 ->
  exists ino c k', executable F shell_string = Some (ino, c) /\
    sys_execute shell_name st k = Some (to_user c, k') /\
    booting (n + 1) k' D (upd_proc n (new_proc n st []) P).
Proof.
  intros HB Hst Hn HR I Es Er W Hroom Hrtc Hinit Hdone Hpids Hblock Hact Hfds Hidx.
  destruct (bt_shell _ _ HB) as (ino & c & Hexe). exists ino, c. unfold NUM_TERMS in Hn.
  destruct (bt_fits _ _ HB _ _ _ Hexe) as [ [entry Hentry] Hfits].
  assert (0 <= n < MAX_PID) as Hn' by (unfold MAX_PID; lia).
  destruct (aget_is_Some (prog_mem k) n) as [m Em]; [rewrite (wp_mem _ W); lia|].
  pose proof (aget_Forall _ _ _ _ Hroom Em) as Hmr. cbv beta in Hmr.
  pose proof (boot_first_pid k n Hn' Hpids) as Hfirst.
  destruct (sys_execute_started pt_addr pt_user_addr k F shell_name shell_string st ino c n m entry _ HR
    shell_command Hst ltac:(reflexivity) Hexe Hentry W
    (targets_video _ _ (k <| term_init_done := 1 |>) _ (im_targets _ _ _ _ _ I))
    Hfirst (proj2 Hn') Em ltac:(lia)) as (k' & E & S).
  exists k'. split; [done|]. split; [rewrite E; unfold to_user, entry_point; by rewrite Hentry|].
  pose proof S as [Scur _ Spids Spag (m' & Em' & Simg) (b1 & _ & Eb1) Soth (T & ET & ETs) _ _ Srest SW].
  destruct Srest as (Ekbd & _ & Ertc & Eimg & Eri & Evm & Evid & Ets & Eta & Eti & Etd).
  rewrite <- renumbered_cli in S.
  destruct (started_pcbs _ _ _ _ _ _ _ _ _ _ _ _ W Hn' S) as (b & Epcbs & Hb).
  rewrite (proj2 (Z.leb_le n 2)) in Hb by lia.
  pose proof (im_running _ _ _ _ _ I) as Ita. cbn in Ita. rewrite Er in Ita.
  change (ta (k_con (cli _))) with (ta (k_con k)) in ET, ETs, Eta. rewrite Ita in ET, ETs, Eta.
  change (terminals (k_con (cli k))) with (terminals (k_con k)) in ET, ETs.
  split.
  - unfold NUM_TERMS. lia.
  - by rewrite Eimg.
  - replace (n + 1 + 1) with (n + 2) by lia.
    eapply (implements_process _ _ _ _ (k <| term_init_done := 1 |>) _ _ T n I); cbn; rewrite ?Ita; try done.
  - by rewrite Es; lia.
  - by rewrite Er; lia.
  - done.
  - apply (room_insert room (prog_mem k) (prog_mem k') n m' c); try done.
    + cbn in Em'. replace m' with m by congruence. lia.
    + pose proof (wp_mem _ W). pose proof (wp_mem _ SW). lia.
    + intros j Hj. exact (proj2 (Soth j Hj)).
  - by rewrite Ertc.
  - by rewrite Eti.
  - by rewrite Etd.
  - intros i Hi. rewrite Spids. cbn. destruct (Z.eq_dec n i) as [<-|Hne].
    + rewrite aget_insert_eq by (rewrite (wp_pids _ W); lia). by rewrite (proj2 (Z.ltb_lt n (n + 1))) by lia.
    + rewrite aget_insert_ne, Hpids by lia. f_equal. destruct (Z.ltb_spec i n), (Z.ltb_spec i (n + 1)); lia || done.
  - intros t Ht. unfold upd_proc. rewrite Epcbs. destruct (Z.eqb_spec t n) as [->|Hne].
    + split; [done|]. exists b. split; [apply aget_insert_eq; rewrite (wp_pcbs _ W); lia|].
      apply Hb; [done|constructor].
    + rewrite aget_insert_ne by lia. apply Hblock. lia.
  - intros t Ht. rewrite ETs, list_fmap_insert. destruct (Z.eq_dec n t) as [<-|Hne].
    + apply aget_insert_eq. rewrite length_fmap. by eapply aget_range.
    + rewrite aget_insert_ne by lia. apply Hact. lia.
  - intros t Ht. destruct (Z.eq_dec n t) as [<-|Hne]; [unfold get_pcb in Eb1; by rewrite Eb1|].
    pose proof (proj1 (Soth t (not_eq_sym Hne))) as Eo. unfold get_pcb in Eo. rewrite Eo. apply Hfds. lia.
  - by rewrite Eri.
Qed.

Lemma implements_pic prog k D f : implements prog k D -> implements prog (k <| k_pic ::= f |>) D.
Proof. by intros [ [ [] ] ]. Qed.

(** What [init] leaves in the tables outside the record: the gates the table of
    handlers asks for, and the two descriptors. *)
Definition tables_set (handler_addr : handler -> Z) (ldt ldt_size tss tss_size : Z) (seg0 : seg_desc_t) (T : tables)
    : Prop :=
  gates_are (t_idt T) (gate_of handler_addr) /\ t_ldt T = the_ldt_desc ldt ldt_size seg0 /\
  t_tss T = the_tss_desc tss tss_size seg0 /\ ldt_segment_selector T = KERNEL_LDT /\ ss0 T = KERNEL_DS /\
  ldtr T = KERNEL_LDT /\ tr T = KERNEL_TSS.

Lemma init_starts handler_addr ldt ldt_size tss tss_size ram mod_start prev_b prev_a st seg0 T k D P0 :
  fresh k D -> bootable F room -> frame_ok st -> represents (drop (Z.to_nat mod_start) ram) F ->
  t_idt T = replicate 256 zero_gate ->
  exists ino c T' k' D', executable F shell_string = Some (ino, c) /\
    init pt_addr pt_user_addr handler_addr ldt ldt_size tss tss_size ram mod_start prev_b prev_a st seg0 T k
      = Some (to_user c, T', k') /\
    tables_set handler_addr ldt ldt_size tss tss_size seg0 T' /\
    booting 1 k' D' (upd_proc 0 (new_proc 0 st []) P0) /\
    D' ≡ upd_desk 0 (fun d => mkDesk (d_line d) tty_clear) D.
Proof.
  intros Hf HB Hst HR HT. pose proof Hf as [ (P & I) Es Er Hact Hpag Hrtc Hpids Hpcbs Hpcb Hmem Hroom Hinit Hdone Hidx].
  unfold init. rewrite HT. destruct (initialize_idt_gates handler_addr) as (gates & -> & Hgates).
  cbn [mbind option_bind]. set (T' := mkTables gates _ _ _ _ _ _). set (k1 := keyboard_init _).
  change (k_rtc k1) with (k_rtc k). rewrite Hrtc.
  assert (exists p, rtc_init prev_b prev_a rtc_reset (k_pic k1) = Some (boot_rtc, p)) as (p & ->) by (eexists; reflexivity).
  cbn [mbind option_bind].
  set (k2 := file_sys_init _ _ _). unfold on_pag. change (k_pag k2) with (k_pag k). rewrite Hpag.
  destruct (paging_init_ok pt_addr pt_user_addr) as (P1 & -> & HP1). cbn [mbind option_bind].
  set (k3 := k2 <| k_pag := P1 |>).
  assert (implements USER_BASE (k3 <| term_init_done := 1 |>) D) as I3.
  { destruct I as [ [ [] ? ? ?] [HT1 HT2] Hi Hk Hs Hr' HD]. split; try done. split; [exact HT1|].
    change (video_mem (k_con (k3 <| term_init_done := 1 |>))) with (video_mem (k_con k)). 
    change (video_mem (k_con (shadow P k))) with (video_mem (k_con k)) in HT1.
    rewrite HT1, Hr', Hs, Es, Er. exact HP1. }
  destruct (cursor_set USER_BASE _ _ 0 CURSOR_X_START CURSOR_Y_START I3) as (s & k4' & E4 & V4 & I4);
    [unfold NUM_TERMS; lia|unfold NUM_COLS, CURSOR_X_START; lia|unfold NUM_ROWS, CURSOR_Y_START; lia|].
  apply on_con_inv in E4 as (c4 & E4 & ->). change (k_con (k3 <| term_init_done := 1 |>)) with (k_con k3) in E4.
  assert (process_init k3 = Some (0, k3 <| k_con := c4 |>)) as ->
    by (unfold process_init, on_con; by rewrite E4).
  cbn [mbind option_bind].
  set (k5 := k3 <| k_con := c4 |> <| k_pic ::= delete_cursor |>).
  assert (implements USER_BASE (k5 <| term_init_done := 1 |>) (upd_desk 0 (fun d => mkDesk (d_line d) s) D)) as I5
    by (exact (implements_pic _ _ _ delete_cursor I4)).
  destruct (on_con_shown _ _ _ _ _ ClearScreen I5) as (k6' & E6 & I6); [done|]. cbn [run_op] in E6.
  apply on_con_inv in E6 as (c6 & E6 & ->). change (k_con (k5 <| term_init_done := 1 |>)) with (k_con k5) in E6.
  unfold on_con. change (k_con (k3 <| k_con := c4 |> <| k_pic ::= delete_cursor |>)) with (k_con k5). rewrite E6.
  cbn [mbind option_bind].
  set (k7 := sti (k5 <| k_con := c6 |>)). set (D' := upd_desk 0 (fun d => mkDesk (d_line d) tty_clear) D).
  assert (implements USER_BASE (k7 <| term_init_done := 1 |>) D') as I7.
  { cbn [ds_shown upd_desk] in I6. rewrite Es, upd_desk_compose in I6. exact (implements_sti _ _ _ _ _ I6). }
  assert (active_pid <$> terminals (k_con k7) = [0; 0; 0]) as Hact7.
  { injection V4 as _ Eact. change (terminals (k_con k7)) with (terminals c6).
    apply clear_screen_keeps in E6. injection E6 as _ ->. rewrite <- Hact. exact Eact. }
  assert (wf_procs k7) as W7.
  { split; cbn; rewrite ?Hpids; try done; [exact (wf_ta _ (wt_con _ (im_wf _ _ _ _ _ I7)))|].
    pose proof (f_equal length Hact7) as Hl. rewrite length_fmap in Hl. cbn in Hl |- *. rewrite Hl. done. }
  destruct (next_shell 0 USER_BASE k7 D' P0 st HB Hst ltac:(unfold NUM_TERMS; lia) HR I7 Es Er W7 Hroom eq_refl Hinit
    Hdone) as (ino & c & k' & Hexe & E & HBo); [|lia|lia|lia|exact Hidx|].
  { intros i Hi. change (pid_array k7) with (pid_array k). rewrite Hpids. rewrite aget_replicate by (unfold MAX_PID in Hi; lia).
    by rewrite (proj2 (Z.ltb_ge i 0)) by lia. }
  exists ino, c, T', k', D'. split; [done|]. rewrite E. by split_and!.
Qed.

(** *** While the shells start *)

Lemma booting_out n k D P c :
  booting n k D P ->
  exists k', run_event (Out c) k = Some k' /\ booting n k' (step_desks (Out c) D) P.
Proof.
  intros [Hn HR I Es Er [Wp Wb Wm Wf Wta Wt] Hroom Hrtc Hinit Hdone Hpids Hblock Hact Hfds Hidx].
  destruct (on_con_op _ _ _ _ _ (Putc c) I) as (k' & E & I' & _). cbn [run_op] in E.
  apply on_con_inv in E as (con & E & ->). change (k_con (k <| term_init_done := 1 |>)) with (k_con k) in E.
  exists (k <| k_con := con |>). split; [cbn [run_event]; unfold on_con; by rewrite E|].
  pose proof (im_running _ _ _ _ _ I) as Ita. cbn [op_term] in I'. rewrite Ita in I'.
  apply putc_keeps in E. injection E as Eta Eact.
  assert (length (terminals con) = length (terminals (k_con k))) as El.
  { pose proof (f_equal length Eact) as H. by rewrite !length_fmap in H. }
  split; try done.
  - split; cbn; try done; [by rewrite Eta|by rewrite El].
  - cbn. by rewrite Eact.
Qed.

Definition quiet (text : list Z) : list sys_event := (fun c => Input (Out c)) <$> text.

(** The desks after a program's output. *)
Definition printed (text : list Z) (D : desks) : desks := foldl (fun D c => step_desks (Out c) D) D text.

Lemma booting_print n text : forall k D P es,
  booting n k D P ->
  exists k', run_sys_all (quiet text ++ es) k =
      ('(rs, k) ← run_sys_all es k'; Some (((fun _ => Quiet) <$> text) ++ rs, k)) /\
    booting n k' (printed text D) P.
Proof.
  induction text as [|c text IH]; intros k D P es HB.
  - exists k. split; [|done]. cbn. by destruct (run_sys_all es k) as [ [rs k']|].
  - destruct (booting_out n k D P c HB) as (k1 & E1 & HB1).
    destruct (IH k1 _ P es HB1) as (k' & E' & HB'). exists k'. split; [|exact HB'].
    cbn [quiet fmap list_fmap app run_sys_all run_sys]. rewrite E1. cbn [mbind option_bind].
    change ((fun c => Input (Out c)) <$> text) with (quiet text). rewrite E'.
    by destruct (run_sys_all es k') as [ [rs k2]|].
Qed.

(** The saved registers are those of the terminal started last. *)
Lemma booting_save n k D P k_esp k_ebp :
  booting n k D P ->
  exists b, proc_of k (ta (k_con k)) = Some (n - 1) /\ get_pcb (n - 1) k = Some b /\
    booting n (k <| pcbs := <[Z.to_nat (n - 1) := saved k_esp k_ebp b]> (pcbs k) |>) D
      (upd_proc (n - 1) (paused k_esp k_ebp (P (n - 1))) P).
Proof.
  intros [Hn HR I Es Er [Wp Wb Wm Wf Wta Wt] Hroom Hrtc Hinit Hdone Hpids Hblock Hact Hfds Hidx].
  pose proof (im_running _ _ _ _ _ I) as Ita. rewrite Er in Ita. cbn in Ita.
  destruct (Hblock (n - 1)) as (Ep & b & Eb & [B1 B2 B3 B4 B5]); [lia|]. exists b.
  split; [unfold proc_of, active_pids; rewrite Ita; apply Hact; lia|]. split; [done|].
  unfold NUM_TERMS in Hn. split; try done.
  - by destruct I as [ [ [] ] ].
  - split; try done; cbn; [by rewrite length_insert|].
    apply Forall_insert; [done|]. exact (aget_Forall _ _ _ _ Wf Eb).
  - intros t Ht. unfold upd_proc. cbn. destruct (Z.eqb_spec t (n - 1)) as [->|Hne].
    + split; [exact Ep|]. exists (saved k_esp k_ebp b). split; [apply aget_insert_eq; rewrite Wb; unfold MAX_PID; lia|].
      by split.
    + rewrite aget_insert_ne by lia. by apply Hblock.
  - intros t Ht. cbn. destruct (Z.eq_dec t (n - 1)) as [->|Hne].
    + rewrite aget_insert_eq by (rewrite Wb; unfold MAX_PID; lia). specialize (Hfds (n - 1) Ht). by rewrite Eb in Hfds.
    + rewrite aget_insert_ne by lia. by apply Hfds.
Qed.

(** The terminals after the next one is shown and made the running one. *)
Lemma booting_shown n k D P :
  booting n k D P -> n < NUM_TERMS ->
  exists k1 k2, terminal_switch (n + 1) k = Some (0, k1) /\
    on_con (fun c => upd_term c n (fun T => T <| base_pid := n |> <| active_pid := n |>)) (set_ta n k1) = Some k2 /\
    same_rest k k1 /\ same_rest k k2 /\
    implements ((n + 1) * PAGE_4MB) (k2 <| term_init_done := 1 |>) (mkDesks (ds_keys D) n n (ds_of D)) /\
    (exists T, (terminals (k_con k2)).[n] = Some T) /\
    (forall t, 0 <= t < NUM_TERMS -> (active_pid <$> terminals (k_con k2)).[t] =
      if t =? n then Some n else (active_pid <$> terminals (k_con k)).[t]).
Proof.
  intros HB Hlt. pose proof (bo_range _ _ _ _ HB) as Hn. unfold NUM_TERMS in *.
  pose proof (bo_desks _ _ _ _ HB) as I. pose proof (im_wf _ _ _ _ _ I) as [Wc Wfl Wl Wls].
  pose proof (im_targets _ _ _ _ _ I) as [HT1 HT2].
  pose proof (im_shown _ _ _ _ _ I) as Ets. pose proof (im_running _ _ _ _ _ I) as Eta.
  rewrite (bo_shown _ _ _ _ HB) in Ets. rewrite (bo_running _ _ _ _ HB) in Eta. cbn in Ets, Eta.
  cbn in HT1. rewrite Ets, Eta in HT1. unfold page_of in HT1. rewrite Z.eqb_refl in HT1.
  assert (wf_terms k) as W by (by split).
  destruct (terminal_switch_ok pt_addr pt_user_addr (n + 1) k _ _ W HT2)
    as (k1 & E1 & W1 & Hrest & Es1 & Ea1 & _ & Ek1 & Hv & Hvid); [unfold F1, F3; lia|cbn; lia|].
  rewrite (bo_done _ _ _ _ HB) in Hvid. destruct Hvid as [Ev1 Ep1].
  destruct (aget_is_Some (terminals (k_con k1)) n) as [T ET]; [rewrite (wf_terminals _ (wt_con _ W1)); unfold NUM_TERMS; lia|].
  set (T' := T <| base_pid := n |> <| active_pid := n |>).
  set (c2 := (k_con k1) <| ta := n |> <| terminals := <[Z.to_nat n := T']> (terminals (k_con k1)) |>).
  set (k2 := k1 <| k_con := c2 |>).
  exists k1, k2. split; [exact E1|].
  assert (set_ta n k1 = k1 <| k_con ::= fun c => c <| ta := n |> |>) as Ek1'.
  { unfold set_ta. replace ((n <? 0) || (2 <? n)) with false by lia. done. }
  split.
  { rewrite Ek1'. unfold on_con, upd_term. change (terminals (k_con (k1 <| k_con ::= _ |>))) with (terminals (k_con k1)).
    rewrite ET. cbn [mbind option_bind]. by rewrite aset_Some by (by eapply aget_range). }
  assert (wf_terms k2) as W2.
  { destruct W1 as [ [V1 V2 V3 V4 V5 V6] Hf1 Hl1 Hls1]. split; try done.
    - split; try done; cbn; [by rewrite length_insert| |unfold NUM_TERMS; lia].
      apply Forall_insert; [done|]. exact (aget_Forall _ _ _ _ V4 ET).
    - cbn. apply Forall_insert; [done|]. exact (aget_Forall _ _ _ _ Hls1 ET). }
  split; [done|]. split; [unfold same_rest, k2 in *; rewrite Hrest; done|]. split; [|split].
  - pose proof (implements_moved pt_addr pt_user_addr _ ((n + 1) * PAGE_4MB) _ (k2 <| term_init_done := 1 |>) D I) as HM.
    cbn in HM. rewrite Es1 in HM. replace (n + 1 - 1) with n in HM by lia. apply HM; try done; clear HM.
    + by destruct W2 as [ [] ].
    + split; cbn; rewrite Ev1, ?Es1; [|by rewrite Ep1]. unfold page_of. replace (n =? n + 1 - 1) with true by lia. exact HT1.
    + intros t Ht. destruct (Hv t Ht) as (Hp & Hl & Hc%term_cursor_of). split; [exact Hp|].
      unfold term_line in *. cbn in Hl |- *. destruct (Z.eq_dec n t) as [<-|Hne].
      * rewrite aget_insert_eq by (by eapply aget_range). rewrite <- Hl, <- Hc, ET. by destruct (n =? ts (k_con k1)).
      * rewrite aget_insert_ne by lia. by split.
  - exists T'. cbn. apply aget_insert_eq. by eapply aget_range.
  - intros t Ht. cbn. rewrite !aget_fmap. destruct (Z.eqb_spec t n) as [->|Hne].
    + rewrite aget_insert_eq by (by eapply aget_range). done.
    + rewrite aget_insert_ne by lia. destruct (Hv t Ht) as (_ & _ & Hc). unfold term_cursor in Hc.
      destruct ((terminals (k_con k1)).[t]), ((terminals (k_con k)).[t]); cbn in Hc |- *; congruence.
Qed.

(** A tick starts the next shell. *)
Lemma booting_tick n k D P k_esp k_ebp st :
  bootable F room -> frame_ok st -> booting n k D P -> n < NUM_TERMS ->
  exists ino c k', executable F shell_string = Some (ino, c) /\
    pit_handler k_esp k_ebp st k = Some (Ran (to_user c), k') /\
    booting (n + 1) k' (mkDesks (ds_keys D) n n (ds_of D))
      (upd_proc n (new_proc n st []) (upd_proc (n - 1) (paused k_esp k_ebp (P (n - 1))) P)).
Proof.
  intros HB Hst HBo Hlt. pose proof (bo_range _ _ _ _ HBo) as Hn.
  destruct (booting_save n k D P k_esp k_ebp HBo) as (b & Hproc & Hb & HBo1).
  set (k0 := k <| pcbs := _ |>) in *. set (P1 := upd_proc (n - 1) _ P) in *.
  assert (booting n (cli k0) D P1) as HBo0.
  { destruct HBo1 as [H1 H2 H3 H4 H5 [] H7 H8 H9 H10 H11 H12 H13 H14 H15]. split; try done.
    exact (implements_cli _ _ _ _ _ H3). }
  destruct (booting_shown n (cli k0) D P1 HBo0 Hlt) as (k1 & k2 & E1 & E2 & Hr1 & Hr2 & I2 & HT & Hact2).
  unfold pit_handler. rewrite active_of_proc. change (proc_of (cli k) (ta (k_con (cli k)))) with
    (proc_of k (ta (k_con k))). rewrite Hproc. cbn [mbind option_bind].
  rewrite (save_stack_eq (cli k) (n - 1) b) by done. cbn [mbind option_bind].
  change ((cli k) <| pcbs := _ |>) with (cli k0).
  rewrite (bo_init _ _ _ _ HBo0), (proj2 (Z.ltb_lt n TOTAL_TERM)) by (unfold TOTAL_TERM, NUM_TERMS in *; lia).
  unfold start_shell. rewrite (bo_init _ _ _ _ HBo0), E1. cbn [mbind option_bind]. rewrite E2. cbn [mbind option_bind].
  set (k3 := eoi 0 (k2 <| terminal_init := s32 (n + 1) |>)).
  set (D2 := mkDesks (ds_keys D) n n (ds_of D)) in *.
  destruct HBo0 as [_ HR _ _ _ [Wp Wb Wm Wf Wta Wt] Hroom Hrtc Hinit Hdone Hpids Hblock Hact Hfds Hidx].
  pose proof (im_wf _ _ _ _ _ I2) as W2.
  destruct (next_shell n ((n + 1) * PAGE_4MB) k3 D2 P1 st) as (ino & c & k' & Hexe & E & HBo'); try done.
  - unfold NUM_TERMS in *. lia.
  - unfold k3. cbn. by rewrite Hr2.
  - assert (implements ((n + 1) * PAGE_4MB) (k2 <| terminal_init := s32 (n + 1) |> <| term_init_done := 1 |>) D2) as I3
      by (by destruct I2 as [ [ [] ] ]).
    exact (implements_pic _ _ _ (send_eoi 0) I3).
  - pose proof (wf_ta _ (wt_con _ W2)) as Hta. pose proof (wf_terminals _ (wt_con _ W2)) as Hterms.
    split; [..|exact Hta|exact Hterms]; unfold k3; cbn; rewrite Hr2; assumption.
  - unfold k3. cbn. rewrite Hr2. exact Hroom.
  - unfold k3. cbn. rewrite Hr2. exact Hrtc.
  - unfold k3. cbn. apply s32_small. unfold is_s32, NUM_TERMS in *. lia.
  - unfold k3. cbn. rewrite Hr2. exact Hdone.
  - unfold k3. cbn. rewrite Hr2. exact Hpids.
  - unfold k3. cbn. rewrite Hr2. exact Hblock.
  - intros t Ht. change (terminals (k_con k3)) with (terminals (k_con k2)).
    rewrite Hact2 by (unfold NUM_TERMS in *; lia). rewrite (proj2 (Z.eqb_neq t n)) by lia. by apply Hact.
  - unfold k3. cbn. rewrite Hr2. exact Hfds.
  - unfold k3. cbn. rewrite Hr2. exact Hidx.
  - exists ino, c, k'. rewrite E. by split_and!.
Qed.

(** Three base shells are a family. *)
Lemma base_family pb pids active P :
  (forall t, 0 <= t < NUM_TERMS -> p_pid (P t) = t /\ exists b, pb.[t] = Some b /\ block_is b (P t) (-1)) ->
  (forall t, 0 <= t < NUM_TERMS -> active.[t] = Some t) -> len active = NUM_TERMS ->
  (forall i, 0 <= i < MAX_PID -> pids.[i] = Some (if i <? NUM_TERMS then 1 else 0)) ->
  family pb pids active 0 (fun t => [P t]) 0.
Proof.
  intros HP Ha Hl Hpids.
  assert (forall t, 0 <= t < NUM_TERMS -> p_pid (P t) = t) as Hpid by (intros t Ht; by apply HP).
  assert (stacks_pids (fun t => [P t]) = [0; 1; 2]) as Estacks.
  { unfold stacks_pids. cbn. rewrite !Hpid by (unfold NUM_TERMS; lia). done. }
  assert (NoDup [0; 1; 2]) as Hnd by (apply (bool_decide_unpack _); vm_compute; exact I).
  split; rewrite ?Estacks; try done.
  - intros t Ht. destruct (HP t Ht) as (Ep & b & Eb & Hb). split; [|done]. exists b. by rewrite Ep.
  - intros t Ht. destruct (P t) as [i f c a] eqn:E. specialize (Hpid t Ht). rewrite E in Hpid. cbn in Hpid. subst i.
    by exists [], f, c, a.
  - intros t Ht. rewrite Ha by done. cbn. by rewrite Hpid.
  - cbn. by rewrite Hpid by (unfold NUM_TERMS; lia).
  - repeat (constructor; [unfold MAX_PID; lia|]). constructor.
  - intros i Hi. eexists; split; [by apply Hpids|]. unfold NUM_TERMS, MAX_PID in *.
    rewrite !elem_of_cons, elem_of_nil. destruct (Z.ltb_spec i 3); lia.
Qed.

(** The tables of the three shells, the clock and the directory position are as
    they were set up. *)
Definition just_started (k : kernel) : Prop :=
  k_rtc k = boot_rtc /\ read_index k = 0 /\
  forall t, 0 <= t < NUM_TERMS -> file_descriptor_table <$> get_pcb t k = Some init_fds.

Lemma term_cursor_proc k k' t : term_cursor k' t = term_cursor k t -> proc_of k' t = proc_of k t.
Proof.
  unfold proc_of, active_pids, term_cursor. rewrite !aget_fmap. intros Hc.
  destruct ((terminals (k_con k')).[t]), ((terminals (k_con k)).[t]); cbn in Hc |- *; congruence.
Qed.

Lemma booting_last k D P k_esp k_ebp st :
  booting NUM_TERMS k D P ->
  exists k', pit_handler k_esp k_ebp st k = Some (Switched (p_ctx (P 0)).2 (p_ctx (P 0)).1, k') /\
    models k' (mkMachine (mkDesks (ds_keys D) 0 0 (ds_of D))
      (fun t => [upd_proc 2 (paused k_esp k_ebp (P 2)) P t]) 1) /\ just_started k'.
Proof.
  intros HBo. destruct (booting_save _ k D P k_esp k_ebp HBo) as (b & Hproc & Hb & HBo1).
  unfold NUM_TERMS in *. change (3 - 1) with 2 in *.
  set (k0 := k <| pcbs := _ |>) in *. set (P1 := upd_proc 2 _ P) in *.
  destruct HBo1 as [_ HR I Es Er W Hroom Hrtc Hinit Hdone Hpids Hblock Hact Hfds Hidx].
  apply implements_cli in I. pose proof (im_wf _ _ _ _ _ I) as Wt. pose proof (im_targets _ _ _ _ _ I) as [_ HT2].
  pose proof (im_shown _ _ _ _ _ I) as Ets. pose proof (im_running _ _ _ _ _ I) as Eta.
  rewrite Es in Ets. rewrite Er in Eta. cbn in Ets, Eta.
  unfold pit_handler. rewrite active_of_proc. change (proc_of (cli k) (ta (k_con (cli k)))) with
    (proc_of k (ta (k_con k))). rewrite Hproc. cbn [mbind option_bind].
  rewrite (save_stack_eq (cli k) 2 b) by done. cbn [mbind option_bind].
  change ((cli k) <| pcbs := _ |>) with (cli k0). change (terminal_init (cli k0)) with (terminal_init k0).
  rewrite Hinit. change (3 <? TOTAL_TERM) with false. change (3 =? TOTAL_TERM) with true. cbn iota.
  assert (wf_terms (cli k0)) as W0 by (by destruct Wt as [ [] ]).
  destruct (terminal_switch_ok pt_addr pt_user_addr 1 (cli k0) _ _ W0 HT2)
    as (k1 & E1 & W1 & Hrest & Es1 & Ea1 & _ & Ek1 & Hv & Hvid); [unfold F1, F3; lia|cbn; lia|].
  change (term_init_done (cli k0)) with (term_init_done k0) in Hvid. rewrite Hdone in Hvid. destruct Hvid as [Ev1 Ep1].
  rewrite E1. cbn [mbind option_bind].
  set (k2 := eoi 0 _). cbn in Ea1. rewrite Eta in Ea1.
  assert (forall t, 0 <= t < 3 -> proc_of k2 t = Some t) as Hprocs.
  { intros t Ht. rewrite <- (Hact t Ht). by apply (term_cursor_proc (cli k0) k1), Hv. }
  destruct (Hblock 0) as (Ep0 & b0 & Eb0 & Hb0); [lia|].
  assert (get_pcb 0 k2 = Some b0) as Eb0' by (rewrite <- Eb0; unfold get_pcb, k2; cbn; by rewrite Hrest).
  destruct (next_terminal_eq pt_addr pt_user_addr k2 0 b0 (4 * PAGE_4MB, video_mem (k_con k0) / PAGE_BYTES))
    as (Pg & E & HT).
  - change (ta (k_con k2)) with (ta (k_con k1)). rewrite Ea1. unfold NUM_TERMS. lia.
  - change (k_pag k2) with (k_pag k1). rewrite Ep1. exact HT2.
  - change (ta (k_con k2)) with (ta (k_con k1)). rewrite Ea1. change (next_of 2) with 0. apply Hprocs. lia.
  - exact Eb0'.
  - unfold MAX_PID. lia.
  - cbv zeta in E, HT. change (ta (k_con k2)) with (ta (k_con k1)) in E, HT. rewrite Ea1 in E, HT.
    change (next_of 2) with 0 in E, HT. set (k' := next_state k2 0 0 b0 Pg) in *.
    exists k'. split.
    { rewrite E. pose proof (bi_ctx _ _ _ Hb0) as Ec. change (P1 0) with (P 0) in Ec. by rewrite <- Ec. }
    destruct W as [Wp Wb Wm Wf _ _]. pose proof (wt_con _ W1) as [V1 V2 V3 V4 V5 V6].
    assert (pcbs k' = pcbs k0 /\ pid_array k' = pid_array k0 /\ prog_mem k' = prog_mem k0 /\ k_rtc k' = k_rtc k0 /\
      k_img k' = k_img k0 /\ read_index k' = read_index k0) as (Ekp & Eki & Ekm & Ekr & Ekim & Ekx)
      by (unfold k'; cbn; by rewrite Hrest).
    split; [|unfold just_started, get_pcb; by rewrite Ekr, Ekx, Ekp, Hrtc].
    split; cbn [m_desks m_procs m_clock]; unfold running; cbn [m_desks ds_running]; rewrite ?Ekp, ?Eki, ?Ekm, ?Ekr, ?Ekim,
      ?Hrtc; try done; try exact boot_rtc_wf.
    + pose proof (implements_moved pt_addr pt_user_addr _ ((0 + 2) * PAGE_4MB) _ k' D I) as HM.
      cbn in HM. rewrite Es1 in HM. apply HM; try done; clear HM.
      * split; [|exact (wt_flags _ W1)|exact (wt_line _ W1)|exact (wt_lines _ W1)].
        split; try done. by apply page_of_is_page.
      * intros t Ht. destruct (Hv t Ht) as (Hp & Hl & Hc%term_cursor_of). by split_and!.
    + by split; rewrite ?Ekp, ?Eki, ?Ekm.
    + unfold k', k2. cbn. rewrite Hrest. cbn. change (terminal_init k) with (terminal_init k0). by rewrite Hinit.
    + apply base_family; unfold NUM_TERMS; rewrite ?Ekp, ?Eki; try done.
      rewrite length_fmap. exact V3.
Qed.

(** *** The whole of it *)

Lemma printed_desks text : forall D, printed text D ≡ upd_desk (ds_running D) (on_tty (tty_print text)) D.
Proof.
  induction text as [|c text IH]; intros D.
  { symmetry. apply upd_desk_id. apply desk_eta. }
  change (printed (c :: text) D) with (printed text (step_desks (Out c) D)). rewrite IH.
  cbn [step_desks ds_running upd_desk]. by rewrite upd_desk_compose.
Qed.

(** The relation looks at the three desks and stacks only. *)
Lemma family_agree pb pids active cur P P' r :
  family pb pids active cur P r -> (forall t, 0 <= t < NUM_TERMS -> P' t = P t) -> family pb pids active cur P' r.
Proof.
  intros [H1 H2 H3 H4 H5 H6 H7 H8 H9] HP.
  assert (stacks_pids P' = stacks_pids P) as E.
  { unfold stacks_pids. by rewrite (HP 0), (HP 1), (HP 2) by (unfold NUM_TERMS; lia). }
  split; rewrite ?E; try done; try (intros t Ht; rewrite HP by done; auto). by rewrite HP.
Qed.

Lemma models_agree k D D' P P' c :
  models k (mkMachine D P c) -> ds_keys D' = ds_keys D -> ds_shown D' = ds_shown D -> ds_running D' = ds_running D ->
  (forall t, 0 <= t < NUM_TERMS -> ds_of D' t = ds_of D t) ->
  (forall t, 0 <= t < NUM_TERMS -> P' t = P t) -> models k (mkMachine D' P' c).
Proof.
  intros [HR [W HT Hi Hk Hs Hr HD] Wp Hroom Hrtc Hclock Hinit HF] Ek Es Er Ed EP.
  unfold running in *. cbn [m_desks m_procs m_clock] in *.
  split; unfold running; cbn [m_desks m_procs m_clock]; rewrite ?Er; try done.
  - split; try congruence. intros t Ht. rewrite Ed by done. by apply HD.
  - by eapply family_agree.
Qed.

(** The desks when all shells run: nothing typed; the first desk was cleared, the
    others had [s1] and [s2] on them; the programs have printed a text each. *)
Definition first_desks (text0 text1 text2 : list Z) (s1 s2 : tty) : desks :=
  mkDesks (keys_of kbd_reset) 0 0 (fun t => mkDesk []
    (if t =? 0 then tty_print text0 tty_clear else if t =? 1 then tty_print text1 s1 else tty_print text2 s2)).

(** The shells, each with the registers its first tick saved. *)
Definition first_procs (st0 st1 st2 : frame) (c0 c1 c2 : Z * Z) (t : Z) : list proc :=
  [if t =? 2 then mkProc 2 (st_ebp st2) c2 [] else if t =? 1 then mkProc 1 (st_ebp st1) c1 []
   else mkProc t (st_ebp st0) c0 []].

Lemma first_ticks k D st0 st1 st2 st3 c0 c1 c2 text0 text1 text2 :
  bootable F room -> frame_ok st1 -> frame_ok st2 -> booting 1 k D (upd_proc 0 (new_proc 0 st0 []) (fun t => new_proc t st0 [])) ->
  ds_keys D = keys_of kbd_reset -> (forall t, 0 <= t < NUM_TERMS -> d_line (ds_of D t) = []) -> d_tty (ds_of D 0) = tty_clear ->
  exists ino c s1 s2 k', executable F shell_string = Some (ino, c) /\
    run_sys_all (quiet text0 ++ Tick c0.1 c0.2 st1 :: quiet text1 ++ Tick c1.1 c1.2 st2 :: quiet text2 ++
      [Tick c2.1 c2.2 st3]) k =
    Some (((fun _ => Quiet) <$> text0) ++ Leaves (to_user c) :: ((fun _ => Quiet) <$> text1) ++ Leaves (to_user c) ::
      ((fun _ => Quiet) <$> text2) ++ [Switches c0.2 c0.1], k') /\
    models k' (mkMachine (first_desks text0 text1 text2 s1 s2) (first_procs st0 st1 st2 c0 c1 c2) 1) /\ just_started k'.
Proof.
  intros HB Hst1 Hst2 HBo Hkeys Hlines Htty.
  destruct (booting_print 1 text0 k D _ (Tick c0.1 c0.2 st1 :: quiet text1 ++ Tick c1.1 c1.2 st2 :: quiet text2 ++
    [Tick c2.1 c2.2 st3]) HBo) as (k1 & -> & HB1).
  destruct (booting_tick 1 k1 _ _ c0.1 c0.2 st1 HB Hst1 HB1) as (ino & c & k2 & Hexe & E2 & HB2); [unfold NUM_TERMS; lia|].
  exists ino, c. cbn [run_sys_all run_sys]. rewrite E2. cbn [mbind option_bind].
  change (1 + 1) with 2 in HB2.
  destruct (booting_print 2 text1 k2 _ _ (Tick c1.1 c1.2 st2 :: quiet text2 ++ [Tick c2.1 c2.2 st3]) HB2) as (k3 & -> & HB3).
  destruct (booting_tick 2 k3 _ _ c1.1 c1.2 st2 HB Hst2 HB3) as (ino' & c' & k4 & Hexe' & E4 & HB4); [unfold NUM_TERMS; lia|].
  rewrite Hexe in Hexe'. injection Hexe' as <- <-.
  cbn [run_sys_all run_sys]. rewrite E4. cbn [mbind option_bind]. change (2 + 1) with NUM_TERMS in HB4.
  destruct (booting_print _ text2 k4 _ _ [Tick c2.1 c2.2 st3] HB4) as (k5 & -> & HB5).
  destruct (booting_last k5 _ _ c2.1 c2.2 st3 HB5) as (k6 & E6 & HM & HJ).
  cbn [run_sys_all run_sys]. rewrite E6. cbn [mbind option_bind].
  exists (d_tty (ds_of D 1)), (d_tty (ds_of D 2)), k6. split; [done|]. split; [done|]. split; [|done].
  pose proof (printed_desks text0 D) as (K0 & _ & _ & H0). rewrite (bo_running _ _ _ _ HBo : _ = 0) in H0.
  set (D1 := mkDesks (ds_keys (printed text0 D)) 1 1 _) in HM.
  pose proof (printed_desks text1 D1) as (K1 & _ & _ & H1).
  set (D2 := mkDesks (ds_keys (printed text1 D1)) 2 2 _) in HM.
  pose proof (printed_desks text2 D2) as (K2 & _ & _ & H2).
  cbn [D1 D2 ds_keys ds_running ds_of upd_desk] in *.
  eapply models_agree; [exact HM|..]; cbn [ds_keys ds_shown ds_running ds_of first_desks]; try done; [congruence| |].
  - intros t Ht. pose proof (Hlines t Ht) as Hl. rewrite H2. cbn [ds_of]. rewrite H1. cbn [ds_of]. rewrite H0. cbn [ds_of].
    destruct (term_cases t Ht) as [-> | [-> | ->] ]; cbn; unfold on_tty; by rewrite Hl, ?Htty.
  - intros t Ht. destruct c0, c1, c2. by destruct (term_cases t Ht) as [-> | [-> | ->] ].
Qed.

(** [entry] up to the initialisations: the screen is cleared and the report
    printed. *)
Lemma entry_report handler_addr ldt ldt_size tss tss_size junk ram fuel magic addr prev_b prev_a st seg0 T k mbi go out :
  power_on room k -> Datatypes.length junk = 64%nat -> Forall is_byte ram -> magic = MULTIBOOT_BOOTLOADER_MAGIC ->
  load_mbi ram addr = Some mbi -> report_text ram fuel mbi = Some (go, out) ->
  exists D0 k', fresh k' (upd_desk 0 (on_tty (tty_print out)) (upd_desk 0 (on_tty (tty_op ClearScreen)) D0)) /\
    k_img k' = k_img k /\ ds_keys D0 = keys_of kbd_reset /\
    (forall t, 0 <= t < NUM_TERMS -> d_line (ds_of D0 t) = []) /\
    entry pt_addr pt_user_addr handler_addr ldt ldt_size tss tss_size junk ram fuel magic addr prev_b prev_a st seg0 T k =
      if go then
        mod_start ← ld32 ram (mods_addr mbi);
        '(o, T, k) ← init pt_addr pt_user_addr handler_addr ldt ldt_size tss tss_size ram mod_start prev_b prev_a st seg0 T k';
        Some (Started o, T, k)
      else Some (Stopped, T, k').
Proof.
  intros Hpo Hj Hram -> Hmbi Htext. destruct (power_on_fresh k Hpo) as (D0 & Hf & Hk & HL).
  destruct (fresh_clear k D0 Hf) as (k1 & E1 & Ei1 & _ & _ & Hf1).
  destruct (fresh_print out k1 _ Hf1) as (c & Ec & Hf2).
  exists D0, (k1 <| k_con := c |>). split; [exact Hf2|]. split; [exact Ei1|]. split; [done|]. split; [done|].
  unfold entry. rewrite (clear_is_clear_screen k Hpo), E1. cbn [mbind option_bind]. rewrite Z.eqb_refl. cbn [negb].
  rewrite Hmbi. cbn [mbind option_bind].
  rewrite (report_prints junk Hj ram Hram fuel mbi go out _ (load_mbi_ok ram Hram _ _ Hmbi) Htext), Ec.
  by destruct go.
Qed.

Lemma entry_starts handler_addr ldt ldt_size tss tss_size junk ram fuel magic addr prev_b prev_a st seg0 T k mbi out mod_start :
  power_on room k -> Datatypes.length junk = 64%nat -> Forall is_byte ram -> magic = MULTIBOOT_BOOTLOADER_MAGIC ->
  load_mbi ram addr = Some mbi -> report_text ram fuel mbi = Some (true, out) ->
  ld32 ram (mods_addr mbi) = Some mod_start -> represents (drop (Z.to_nat mod_start) ram) F ->
  bootable F room -> frame_ok st -> t_idt T = replicate 256 zero_gate ->
  exists ino c T' k' D, executable F shell_string = Some (ino, c) /\
    entry pt_addr pt_user_addr handler_addr ldt ldt_size tss tss_size junk ram fuel magic addr prev_b prev_a st seg0 T k
      = Some (Started (to_user c), T', k') /\
    tables_set handler_addr ldt ldt_size tss tss_size seg0 T' /\
    booting 1 k' D (upd_proc 0 (new_proc 0 st []) (fun t => new_proc t st [])) /\
    ds_keys D = keys_of kbd_reset /\ (forall t, 0 <= t < NUM_TERMS -> d_line (ds_of D t) = []) /\
    d_tty (ds_of D 0) = tty_clear.
Proof.
  intros Hpo Hj Hram Hmagic Hmbi Htext Hmod HR HB Hst HT.
  destruct (entry_report handler_addr ldt ldt_size tss tss_size junk ram fuel magic addr prev_b prev_a st seg0 T k mbi true
    out Hpo Hj Hram Hmagic Hmbi Htext) as (D0 & k1 & Hf & _ & Hk & HL & ->). rewrite Hmod. cbn [mbind option_bind].
  destruct (init_starts handler_addr ldt ldt_size tss tss_size ram mod_start prev_b prev_a st seg0 T k1 _
    (fun t => new_proc t st []) Hf HB Hst HR HT) as (ino & c & T' & k' & D & Hexe & -> & HT' & HBo & EK & _ & _ & ED).
  exists ino, c, T', k', D. split_and!; try done.
  - by rewrite EK.
  - intros t Ht. rewrite ED. cbn. specialize (HL t Ht). by destruct (t =? 0).
  - by rewrite ED.
Qed.
End startup.
