(* ===== verification/Kernel.v ===== *)
(** The kernel as a whole: from power on to any history of keys, output, clock and
    timer interrupts, system calls and exceptions.  The theorems put [Startup.v]
    and [System.v] together; the examples run them on a small boot image. *)
From stdpp Require Import base option list numbers gmap.
From Stdlib Require Import ZArith Lia Ascii String.
From S2P Require Import Prelude LibString FileSystem Console I8259 Keyboard Paging Rtc Printf Idt State Terminal Desks Frame FileOps SysCall Process Scheduler Family System Files Calls Os Boot Startup.

(** The three shells print [text], each is interrupted by its first tick with the
    registers [c] (stack pointer, frame pointer), and started with the frame [st]. *)
Definition boot_events (text : Z -> list Z) (c : Z -> Z * Z) (st : Z -> frame) : list sys_event :=
  quiet (text 0) ++ Tick (c 0).1 (c 0).2 (st 1) ::
  quiet (text 1) ++ Tick (c 1).1 (c 1).2 (st 2) ::
  quiet (text 2) ++ [Tick (c 2).1 (c 2).2 (st 3)].

Definition boot_results (text : Z -> list Z) (c : Z -> Z * Z) (shell : list Z) : list result :=
  ((fun _ => Quiet) <$> text 0) ++ Leaves (to_user shell) ::
  ((fun _ => Quiet) <$> text 1) ++ Leaves (to_user shell) ::
  ((fun _ => Quiet) <$> text 2) ++ [Switches (c 0).2 (c 0).1].

(** The machine then, from what the second and third page showed at first. *)
Definition boot_machine (text : Z -> list Z) (c : Z -> Z * Z) (st : Z -> frame) (s1 s2 : tty) : machine :=
  mkMachine (first_desks (text 0) (text 1) (text 2) s1 s2) (first_procs (st 0) (st 1) (st 2) (c 0) (c 1) (c 2)) 1.

(** What a wrong magic number prints. *)
Definition magic_text (magic : Z) : list Z :=
  bytes "Invalid magic number: 0x" ++ render_hex true magic ++ [10].

(** A list of process numbers, each the parent of the one in front of it. *)
Fixpoint ancestry (pb : list pcb_t) (l : list Z) : Prop :=
  match l with
  | [] => True
  | i :: l => (exists b, pb.[i] = Some b /\ parent_pid b = match l with [] => -1 | j :: _ => j end) /\ ancestry pb l
  end.

(** The process tables stand for the stacks [S] of process numbers. *)
Record process_tables (k : kernel) (S : Z -> list Z) : Prop := {
  pt_ancestry : forall t, 0 <= t < NUM_TERMS -> ancestry (pcbs k) (S t);
  pt_base : forall t, 0 <= t < NUM_TERMS -> exists l, S t = l ++ [t];
  pt_active : forall t, 0 <= t < NUM_TERMS -> (active_pid <$> terminals (k_con k)).[t] = head (S t);
  pt_current : Some (cur_pid k) = head (S (ta (k_con k)));
  pt_distinct : NoDup (S 0 ++ S 1 ++ S 2);
  pt_taken : forall i, 0 <= i < MAX_PID ->
    exists v, (pid_array k).[i] = Some v /\ (v <> 0 <-> i ∈ S 0 ++ S 1 ++ S 2);
}.

(** Typing characters at a desk. *)
Definition type_text (text : list Z) (d : desk) : desk := foldl (fun d c => type_echo c d) d text.

(** ** Lemmas *)

Lemma has_newline_zeros n l : has_newline (replicate (S n) 0 ++ l) = false.
Proof. done. Qed.

(** Typing only ever adds to a line. *)
Lemma type_text_line text : forall d, exists l, d_line (type_text text d) = d_line d ++ l.
Proof.
  unfold type_text. induction text as [|c text IH]; intros d; [exists []; symmetry; apply app_nil_r|].
  cbn [foldl]. destruct (IH (type_echo c d)) as (l & ->). unfold type_echo, type_char.
  destruct (_ || _); cbn [d_line]; [|by exists l]. exists (c :: l). by rewrite <- app_assoc.
Qed.

Lemma chain_ancestry pb l : chain pb l -> ancestry pb (p_pid <$> l).
Proof.
  induction l as [|p l IH]; [done|]. intros [ (b & Eb & Hb) Hl]. split; [|by apply IH].
  exists b. split; [done|]. rewrite (bi_parent _ _ _ Hb). by destruct l.
Qed.

Lemma models_tables A B F room k M : models A B F room k M -> process_tables k (fun t => p_pid <$> m_procs M t).
Proof.
  intros [_ HD _ _ _ _ _ HF]. pose proof (im_running _ _ _ _ _ HD) as Er.
  pose proof (fa_distinct _ _ _ _ _ _ HF) as Hd. pose proof (fa_taken _ _ _ _ _ _ HF) as Ht.
  unfold stacks_pids in *. rewrite !fmap_app in *. split; try done.
  - intros t Hr. by apply chain_ancestry, HF.
  - intros t Hr. destruct (fa_base _ _ _ _ _ _ HF t Hr) as (l & f & c & a & ->). exists (p_pid <$> l). by rewrite fmap_app.
  - intros t Hr. rewrite (fa_active _ _ _ _ _ _ HF t Hr). by destruct (m_procs M t).
  - rewrite Er. fold (running M). rewrite (fa_cur _ _ _ _ _ _ HF). by destruct (m_procs M (running M)).
Qed.

Section segments.
Context (addr lim : Z) (Ha : is_u32 addr) (Hl : 0 <= lim < 1048576) (d : seg_desc_t).

Lemma land_ones_shift a n m : 0 <= n -> 0 <= m ->
  Z.shiftr (Z.land a (Z.shiftl (Z.ones m) n)) n = a / 2 ^ n mod 2 ^ m.
Proof.
  intros Hn Hm. rewrite Z.shiftr_land, Z.shiftr_shiftl_l, Z.sub_diag, Z.shiftl_0_r by lia.
  by rewrite Z.land_ones, Z.shiftr_div_pow2 by lia.
Qed.

Lemma seg_params_base : seg_base (set_seg_params addr lim d) = addr.
Proof.
  unfold seg_base, set_seg_params. cbn [base_31_24 base_23_16 base_15_00 update_field].
  unfold update_field. cbn [base_31_24 base_23_16 base_15_00].
  pose proof (land_ones_shift addr 24 8 ltac:(lia) ltac:(lia)) as H1.
  pose proof (land_ones_shift addr 16 8 ltac:(lia) ltac:(lia)) as H2.
  pose proof (Z.land_ones addr 16 ltac:(lia)) as H3.
  change (Z.shiftl (Z.ones 8) 24) with 0xFF000000 in H1. change (Z.shiftl (Z.ones 8) 16) with 0x00FF0000 in H2.
  change (Z.ones 16) with 0xFFFF in H3. rewrite H1, H2, H3. clear H1 H2 H3.
  change (2 ^ 24) with 16777216. change (2 ^ 16) with 65536. change (2 ^ 8) with 256. unfold is_u32 in Ha.
  assert (addr / 16777216 = addr / 65536 / 256) as E by (rewrite Z.div_div by lia; reflexivity).
  pose proof (Z.div_mod addr 65536 ltac:(lia)). pose proof (Z.mod_pos_bound addr 65536 ltac:(lia)).
  pose proof (Z.div_mod (addr / 65536) 256 ltac:(lia)). pose proof (Z.mod_pos_bound (addr / 65536) 256 ltac:(lia)).
  rewrite E, (Z.mod_small (addr / 65536 / 256)) by lia. lia.
Qed.

Lemma seg_params_limit : seg_limit (set_seg_params addr lim d) = lim.
Proof.
  unfold seg_limit, set_seg_params. cbn [seg_lim_19_16 seg_lim_15_00 update_field].
  unfold update_field. cbn [seg_lim_19_16 seg_lim_15_00].
  pose proof (land_ones_shift lim 16 4 ltac:(lia) ltac:(lia)) as H1.
  pose proof (Z.land_ones lim 16 ltac:(lia)) as H3.
  change (Z.shiftl (Z.ones 4) 16) with 0x000F0000 in H1.
  change (Z.ones 16) with 0xFFFF in H3. rewrite H1, H3. clear H1 H3.
  change (2 ^ 16) with 65536. change (2 ^ 4) with 16.
  pose proof (Z.div_mod lim 65536 ltac:(lia)). pose proof (Z.mod_pos_bound lim 65536 ltac:(lia)).
  rewrite (Z.mod_small (lim / 65536)) by lia. lia.
Qed.
End segments.

(** *** A small machine *)

(** The multiboot information at 0, a module at 64, a command line at 80, one
    memory region at 96 and the file system at 128. *)
Definition sample_ram : list Z :=
  pad 64 (mjoin (le32 <$> [0x4F; 639; 64512; 0x8000FFFF; 80; 1; 64; 0; 0; 0; 0; 24; 96])) ++
  pad 16 (mjoin (le32 <$> [128; 24704])) ++
  pad 16 [113; 117; 105; 101; 116] ++
  pad 32 (mjoin (le32 <$> [20; 0x100000; 0; 0x3F00000; 0; 1])) ++
  sample_img.

Definition sample_off : kernel :=
  mkKernel (mkConsole (replicate (Z.to_nat 16384) 0) VIDEO (replicate 3 blank_term) 0 0 false)
    kbd_reset pic_reset paging_zero rtc_reset [] 0
    (replicate 6 (mkPcb (replicate 8 (mkFd null_opt 0 0 0)) 0 0 0 0 0 0 (replicate 128 0)))
    (replicate 6 0) (-1) (-1) (replicate 6 (replicate 40 0)) 0 1 0.

Definition sample_tables : tables :=
  let d := mkSeg 0 0 0 0 0 0 0 0 0 0 0 0 0 in mkTables (replicate 256 zero_gate) d d 0 0 0 0.

Lemma sample_power_on : power_on 40 sample_off.
Proof.
  split; try done; cbn.
  - by exists (replicate (Z.to_nat 16384) 0), false.
  - by repeat constructor.
  - repeat constructor; cbn; lia.
Qed.

Lemma sample_ram_image : drop (Z.to_nat 128) sample_ram = sample_img.
Proof. unfold sample_ram. rewrite !app_assoc. apply drop_app_length'. reflexivity. Qed.

Lemma bytes_ok l : forallb (fun b => (0 <=? b) && (b <? 256)) l = true -> Forall is_byte l.
Proof.
  induction l as [|b l IH]; cbn; intros H; constructor; rewrite !andb_true_iff in H.
  - unfold is_byte. destruct H; lia.
  - apply IH, H.
Qed.

Lemma sample_ram_bytes : Forall is_byte sample_ram.
Proof.
  unfold sample_ram. rewrite !Forall_app.
  split_and!; [..|exact (rep_bytes _ _ sample_represents)]; apply bytes_ok; vm_compute; reflexivity.
Qed.

Lemma sample_bootable : bootable sample_fs 40.
Proof.
  split; [|by eexists _, _].
  intros nm ino c H. unfold executable in H. destruct (find_entry sample_fs nm) as [e|]; [|done].
  cbn [mbind option_bind] in H. destruct ((a_files sample_fs).[a_inode e]) as [c'|] eqn:Ec; [|done].
  cbn [mbind option_bind] in H. case_decide as Hm; [|done]. injection H as <- <-.
  pose proof (aget_range _ _ _ Ec) as Hr. cbn in Hr.
  assert (a_inode e = 0 \/ a_inode e = 1 \/ a_inode e = 2) as [E|[E|E] ] by lia; rewrite E in Ec; injection Ec as <-;
    [|discriminate Hm..].
  split; [by eexists|cbn; lia].
Qed.

(** *** Booting *)

Lemma fresh_shows A B room k' D : fresh A B room k' D -> shows (k_con k') VIDEO 0 (d_tty (ds_of D 0)).
Proof.
  intros Hf. destruct (fs_desks _ _ _ _ _ Hf) as (P & I). pose proof (im_shown _ _ _ _ _ I) as Es.
  rewrite (fs_shown _ _ _ _ _ Hf) in Es. destruct (im_desks _ _ _ _ _ I 0) as [_ H]; [unfold NUM_TERMS; lia|].
  rewrite Es in H. exact H.
Qed.

Section boot.
Context (A B : Z) (F : afs) (room : Z) (handler_addr : handler -> Z) (ldt ldt_size tss tss_size : Z).
Context (junk ram : list Z) (fuel : nat) (addr prev_b prev_a : Z) (seg0 : seg_desc_t) (T : tables) (k : kernel).
Context (Hpo : power_on room k) (Hj : Datatypes.length junk = 64%nat).

Lemma entry_wrong_magic magic st : is_u32 magic -> magic <> MULTIBOOT_BOOTLOADER_MAGIC ->
  exists k', entry A B handler_addr ldt ldt_size tss tss_size junk ram fuel magic addr prev_b prev_a st seg0 T k
    = Some (Stopped, T, k') /\ shows (k_con k') VIDEO 0 (tty_print (magic_text magic) tty_clear).
Proof.
  intros Hm Hne. destruct (power_on_fresh A B room k Hpo) as (D0 & Hf & _).
  destruct (fresh_clear A B room k D0 Hf) as (k1 & E1 & _ & _ & _ & Hf1).
  destruct (fresh_print A B room (magic_text magic) k1 _ Hf1) as (c & Ec & Hf2).
  exists (k1 <| k_con := c |>). split; [|exact (fresh_shows _ _ _ _ _ Hf2)].
  unfold entry. rewrite (clear_is_clear_screen room k Hpo), E1. cbn [mbind option_bind].
  rewrite (proj2 (Z.eqb_neq _ _) Hne). cbn [negb]. unfold on_con.
  rewrite (say_prints junk Hj fmt_magic [Word magic] [Number magic] (magic_text magic)), Ec;
    [done|vm_compute; reflexivity|words|]. reflexivity.
Qed.
End boot.

(** Nothing open, the clock at its full rate for everyone, the directory at its
    start. *)
Definition boot_os (M : machine) : os := mkOs M (fun _ => ∅) (fun _ => MAX_VIR_FREQ) 0.

Lemma boot_serves A B F room k text c st s1 s2 :
  models A B F room k (boot_machine text c st s1 s2) -> just_started k ->
  serves A B F room k (boot_os (boot_machine text c st s1 s2)).
Proof.
  intros Hm (Er & Ei & Hfds). split; cbn [boot_os o_mach o_open o_rate o_listed]; rewrite ?Er; try done.
  - intros j Hj. assert (0 <= j < NUM_TERMS) as Hr.
    { apply elem_pids in Hj as (t & Ht & Hj). destruct (term_cases t Ht) as [-> | [-> | ->] ]; cbn in Hj;
        apply list_elem_of_singleton in Hj; unfold NUM_TERMS; lia. }
    specialize (Hfds j Hr). destruct (get_pcb j k) as [b|]; [|done]. injection Hfds as Hfds. exists b.
    split; [done|]. rewrite Hfds. apply init_fds_are.
  - intros j Hj. unfold MAX_PID in Hj. cbn. by rewrite (aget_replicate 6 MAX_VIR_FREQ) by lia.
  - intros t Ht. by destruct (term_cases t Ht) as [-> | [-> | ->] ].
Qed.

Lemma sample_boots :
  exists T' k1 k' s1 s2,
    entry 0x410000 0x412000 (fun _ => 0x400000) 0 0 0 0 (replicate 64 7) sample_ram 3 MULTIBOOT_BOOTLOADER_MAGIC 0 0 0
      sample_frame (t_ldt sample_tables) sample_tables sample_off = Some (Started (ToUser 0x8048054 0x83FFFFC), T', k1) /\
    run_sys_all (boot_events (fun _ => []) (fun t => (0x7FE000 + t, 0x7FD000 + t)) (fun _ => sample_frame)) k1
      = Some (boot_results (fun _ => []) (fun t => (0x7FE000 + t, 0x7FD000 + t)) sample_shell, k') /\
    models 0x410000 0x412000 sample_fs 40 k'
      (boot_machine (fun _ => []) (fun t => (0x7FE000 + t, 0x7FD000 + t)) (fun _ => sample_frame) s1 s2) /\
    just_started k'.
Proof.
  destruct (load_mbi sample_ram 0) as [mbi|] eqn:Hmbi; [|vm_compute in Hmbi; discriminate Hmbi].
  destruct (report_text sample_ram 3 mbi) as [ [go out]|] eqn:Htext;
    [|vm_compute in Hmbi; injection Hmbi as <-; vm_compute in Htext; discriminate Htext].
  assert (go = true) as -> by (vm_compute in Hmbi; injection Hmbi as <-; vm_compute in Htext; congruence).
  assert (ld32 sample_ram (mods_addr mbi) = Some 128) as Hmod
    by (vm_compute in Hmbi; injection Hmbi as <-; vm_compute; reflexivity).
  destruct (entry_starts 0x410000 0x412000 sample_fs 40 (fun _ => 0x400000) 0 0 0 0 (replicate 64 7) sample_ram 3
    MULTIBOOT_BOOTLOADER_MAGIC 0 0 0 sample_frame (t_ldt sample_tables) sample_tables sample_off mbi out 128
    sample_power_on eq_refl sample_ram_bytes eq_refl Hmbi Htext Hmod) as (ino & c & T' & k1 & D & Hexe & E & _ & HB & Hk & Hl & Ht);
    [rewrite sample_ram_image; exact sample_represents|exact sample_bootable|exact sample_frame_ok|done|].
  destruct (first_ticks 0x410000 0x412000 sample_fs 40 k1 D sample_frame sample_frame sample_frame sample_frame
    (0x7FE000, 0x7FD000) (0x7FE001, 0x7FD001) (0x7FE002, 0x7FD002) [] [] [] sample_bootable sample_frame_ok sample_frame_ok
    HB Hk Hl Ht) as (ino' & c' & s1 & s2 & k' & Hexe' & E' & HM).
  vm_compute in Hexe, Hexe'. injection Hexe as <- <-. injection Hexe' as <- <-.
  exists T', k1, k', s1, s2. split; [exact E|]. split; [exact E'|exact HM].
Qed.

(** A key, a character printed, a clock tick, a program started by the shell of
    the first terminal, a tick, and the end of a shell at the second. *)
Definition sample_history : list sys_event :=
  [Input (Key 0x26); Input (Out 62); System.Clock;
   Exec [115; 104; 101; 108; 108; 32; 104; 105; 0] [115; 104; 101; 108; 108; 32; 104; 105] sample_frame;
   Tick 0x7FA000 0x7FA010 sample_frame; Halt 0 sample_frame; Tick 1 2 sample_frame; Tick 3 4 sample_frame;
   Halt 300 sample_frame].

Lemma sample_history_ok : Forall sys_event_ok sample_history.
Proof.
  repeat (apply Forall_cons_2; [|]); [..|apply Forall_nil_2]; cbn [sys_event_ok event_ok];
    try exact sample_frame_ok; try exact Logic.I; try (unfold is_byte; lia).
  split; [|split; [exact sample_frame_ok|reflexivity] ].
  apply (cstring_intro [115; 104; 101; 108; 108; 32; 104; 105] []). repeat constructor.
Qed.

(** The shell of terminal 0 starts a program, an l is typed, Alt-F2 shows terminal
    1, and the program ends. *)
Definition sample_background : list sys_event :=
  [Exec [115; 104; 101; 108; 108; 32; 104; 105; 0] [115; 104; 101; 108; 108; 32; 104; 105] sample_frame;
   Input (Key 0x26); Input (Key 0x38); Input (Key 0x3C)].

Lemma sample_background_ok : Forall sys_event_ok sample_background.
Proof.
  repeat (apply Forall_cons_2; [|]); [..|apply Forall_nil_2]; cbn [sys_event_ok event_ok]; try lia.
  split; [|split; [exact sample_frame_ok|reflexivity] ].
  apply (cstring_intro [115; 104; 101; 108; 108; 32; 104; 105] []). repeat constructor.
Qed.

(** ** Properties *)

(** The kernel implements three desks, three stacks of processes and a clock.
    From any state that stands for such a machine, every sequence of events (keys
    with their editing and terminal switches, characters a program prints, clock
    and timer interrupts, programs started and ended, exceptions) runs without a
    fault, leaves to the hardware exactly what the specification says (nothing, a
    user program's entry point, the frame and value to return to, the kernel stack
    to switch to), and ends in a state that stands for the machine the
    specification computes: no event loses a process, mixes up two terminals, or
    resumes the wrong program. *)
Theorem kernel_refines A B F room k M es :
  bootable F room -> models A B F room k M -> Forall sys_event_ok es ->
  exists k', run_sys_all es k = Some ((spec_steps F es M).1, k') /\ models A B F room k' (spec_steps F es M).2.
Proof. intros HB HM Hes. exact (models_steps A B F room es k M HB HM Hes). Qed.

(** Started by the shell on terminal 0, process 3 enters the shell's code; the tick
    goes to terminal 1, whose base shell restarts; two ticks later process 3 ends
    and the first shell's call returns 300 mod 256. *)
Lemma kernel_refines_witness :
  exists k k' M, models 0x410000 0x412000 sample_fs 40 k M /\
    run_sys_all sample_history k = Some ([Quiet; Quiet; Quiet; Leaves (ToUser 0x8048054 0x83FFFFC);
      Switches 0x7FD001 0x7FE001; Leaves (ToUser 0x8048054 0x83FFFFC); Switches 0x7FD002 0x7FE002;
      Switches 0x7FA010 0x7FA000; Leaves (ResumeAt 0x7FDFF0 44)], k').
Proof.
  destruct sample_boots as (_ & _ & k & s1 & s2 & _ & _ & HM & _).
  destruct (kernel_refines _ _ _ _ k _ sample_history sample_bootable HM sample_history_ok) as (k' & E & _).
  exists k, k', (boot_machine (fun _ => []) (fun t => (0x7FE000 + t, 0x7FD000 + t)) (fun _ => sample_frame) s1 s2).
  split; [exact HM|]. rewrite E. reflexivity.
Defined.

(** C2: booting leads to three running shells.  On a machine fresh from a
    multiboot loader, with a module that is a file system holding a shell,
    [entry] reports, sets up the descriptor table, the segments, the interrupt
    controllers, the clock, the file system and the page tables, and enters the
    shell as process 0 on the first terminal; the first two timer ticks each show
    the next terminal and start its shell (processes 1 and 2), the third goes back
    to the first terminal, to the registers its shell was interrupted with.  The
    kernel then stands for a machine with three base shells, nothing typed, the
    first desk showing what its shell printed on a cleared screen, and the others
    what theirs printed over what the video memory held; no process has a file
    open, every clock rate is the highest, and the directory is at its start. *)
Theorem kernel_boots A B F room handler_addr ldt ldt_size tss tss_size junk ram fuel addr prev_b prev_a seg0 T k mbi out
    mod_start text c st :
  power_on room k -> Datatypes.length junk = 64%nat -> Forall is_byte ram ->
  load_mbi ram addr = Some mbi -> report_text ram fuel mbi = Some (true, out) ->
  ld32 ram (mods_addr mbi) = Some mod_start -> represents (drop (Z.to_nat mod_start) ram) F ->
  bootable F room -> (forall t, frame_ok (st t)) -> t_idt T = replicate 256 zero_gate ->
  exists ino shell T' k1 s1 s2 k', executable F shell_string = Some (ino, shell) /\
    entry A B handler_addr ldt ldt_size tss tss_size junk ram fuel MULTIBOOT_BOOTLOADER_MAGIC addr prev_b prev_a (st 0) seg0 T k
      = Some (Started (to_user shell), T', k1) /\
    tables_set handler_addr ldt ldt_size tss tss_size seg0 T' /\
    run_sys_all (boot_events text c st) k1 = Some (boot_results text c shell, k') /\
    serves A B F room k' (boot_os (boot_machine text c st s1 s2)).
Proof.
  intros Hpo Hj Hram Hmbi Htext Hmod HR HB Hst HT.
  destruct (entry_starts A B F room handler_addr ldt ldt_size tss tss_size junk ram fuel _ addr prev_b prev_a (st 0) seg0 T
    k mbi out mod_start Hpo Hj Hram eq_refl Hmbi Htext Hmod HR HB (Hst 0) HT)
    as (ino & shell & T' & k1 & D & Hexe & E & HT' & HBo & Hk & Hl & Ht).
  destruct (first_ticks A B F room k1 D (st 0) (st 1) (st 2) (st 3) (c 0) (c 1) (c 2) (text 0) (text 1) (text 2) HB
    (Hst 1) (Hst 2) HBo Hk Hl Ht) as (ino' & shell' & s1 & s2 & k' & Hexe' & E' & HM & HJ).
  rewrite Hexe in Hexe'. injection Hexe' as <- <-.
  exists ino, shell, T', k1, s1, s2, k'. split_and!; try done. by apply boot_serves.
Qed.

Lemma kernel_boots_witness :
  exists T' k1 s1 s2 k',
    entry 0x410000 0x412000 (fun _ => 0x400000) 0 0 0 0 (replicate 64 7) sample_ram 3 MULTIBOOT_BOOTLOADER_MAGIC 0 0 0
      sample_frame (t_ldt sample_tables) sample_tables sample_off = Some (Started (ToUser 0x8048054 0x83FFFFC), T', k1) /\
    run_sys_all (boot_events (fun _ => [62]) (fun t => (t, t + 8)) (fun _ => sample_frame)) k1 =
      Some ([Quiet; Leaves (ToUser 0x8048054 0x83FFFFC); Quiet; Leaves (ToUser 0x8048054 0x83FFFFC); Quiet; Switches 8 0], k') /\
    serves 0x410000 0x412000 sample_fs 40 k' (boot_os (boot_machine (fun _ => [62]) (fun t => (t, t + 8)) (fun _ => sample_frame) s1 s2)).
Proof.
  destruct (load_mbi sample_ram 0) as [mbi|] eqn:Hmbi; [|vm_compute in Hmbi; discriminate Hmbi].
  destruct (report_text sample_ram 3 mbi) as [ [go out]|] eqn:Htext;
    [|vm_compute in Hmbi; injection Hmbi as <-; vm_compute in Htext; discriminate Htext].
  assert (go = true) as -> by (vm_compute in Hmbi; injection Hmbi as <-; vm_compute in Htext; congruence).
  assert (ld32 sample_ram (mods_addr mbi) = Some 128) as Hmod
    by (vm_compute in Hmbi; injection Hmbi as <-; vm_compute; reflexivity).
  destruct (kernel_boots 0x410000 0x412000 sample_fs 40 (fun _ => 0x400000) 0 0 0 0 (replicate 64 7) sample_ram 3
    0 0 0 (t_ldt sample_tables) sample_tables sample_off mbi out 128 (fun _ => [62]) (fun t => (t, t + 8))
    (fun _ => sample_frame) sample_power_on eq_refl sample_ram_bytes Hmbi Htext Hmod)
    as (ino & shell & T' & k1 & s1 & s2 & k' & Hexe & E & _ & E' & HM);
    [rewrite sample_ram_image; exact sample_represents|exact sample_bootable|intros _; exact sample_frame_ok|done|].
  vm_compute in Hexe. injection Hexe as <- <-.
  exists T', k1, s1, s2, k'. split; [exact E|]. split; [exact E'|exact HM].
Defined.

(** A boot that cannot go on stops with a message on a cleared screen: with a
    wrong magic number [entry] prints it and returns; with both symbol-table bits
    set in the multiboot flags it prints its report up to there, ending with the
    complaint, and returns.  Neither touches the descriptor tables. *)
Theorem boot_stops A B room handler_addr ldt ldt_size tss tss_size junk ram fuel magic addr prev_b prev_a st seg0 T k out :
  power_on room k -> Datatypes.length junk = 64%nat -> Forall is_byte ram -> is_u32 magic ->
  (magic = MULTIBOOT_BOOTLOADER_MAGIC ->
   exists mbi, load_mbi ram addr = Some mbi /\ report_text ram fuel mbi = Some (false, out)) ->
  exists k', entry A B handler_addr ldt ldt_size tss tss_size junk ram fuel magic addr prev_b prev_a st seg0 T k
      = Some (Stopped, T, k') /\
    shows (k_con k') VIDEO 0
      (tty_print (if magic =? MULTIBOOT_BOOTLOADER_MAGIC then out else magic_text magic) tty_clear).
Proof.
  intros Hpo Hj Hram Hm Hmbi. destruct (Z.eqb_spec magic MULTIBOOT_BOOTLOADER_MAGIC) as [E|Hne];
    [|by eapply entry_wrong_magic]. destruct (Hmbi E) as (mbi & Hload & Htext).
  destruct (entry_report A B room handler_addr ldt ldt_size tss tss_size junk ram fuel magic addr prev_b prev_a
    st seg0 T k mbi false out Hpo Hj Hram E Hload Htext) as (D0 & k' & Hf & _ & _ & _ & ->).
  exists k'. split; [done|]. exact (fresh_shows A B room k' _ Hf).
Qed.

(** Flags 0x30, then the magic number 0. *)
Lemma boot_stops_witness :
  exists mbi out k1 k2,
    load_mbi (le32 0x30 ++ replicate 48 0) 0 = Some mbi /\
    report_text (le32 0x30 ++ replicate 48 0) 1 mbi = Some (false, out) /\
    entry 0 0 (fun _ => 0) 0 0 0 0 (replicate 64 7) (le32 0x30 ++ replicate 48 0) 1 MULTIBOOT_BOOTLOADER_MAGIC 0 0 0
      sample_frame (t_ldt sample_tables) sample_tables sample_off = Some (Stopped, sample_tables, k1) /\
    shows (k_con k1) VIDEO 0 (tty_print out tty_clear) /\
    entry 0 0 (fun _ => 0) 0 0 0 0 (replicate 64 7) (le32 0x30 ++ replicate 48 0) 1 0 0 0 0
      sample_frame (t_ldt sample_tables) sample_tables sample_off = Some (Stopped, sample_tables, k2) /\
    shows (k_con k2) VIDEO 0 (tty_print (magic_text 0) tty_clear).
Proof.
  destruct (load_mbi (le32 0x30 ++ replicate 48 0) 0) as [mbi|] eqn:Hmbi; [|vm_compute in Hmbi; discriminate Hmbi].
  destruct (report_text (le32 0x30 ++ replicate 48 0) 1 mbi) as [ [go out]|] eqn:Htext;
    [|vm_compute in Hmbi; injection Hmbi as <-; vm_compute in Htext; discriminate Htext].
  assert (go = false) as -> by (vm_compute in Hmbi; injection Hmbi as <-; vm_compute in Htext; congruence).
  assert (Forall is_byte (le32 0x30 ++ replicate 48 0)) as Hb by (apply bytes_ok; reflexivity).
  exists mbi, out.
  destruct (boot_stops 0 0 40 (fun _ => 0) 0 0 0 0 (replicate 64 7) (le32 0x30 ++ replicate 48 0) 1
    MULTIBOOT_BOOTLOADER_MAGIC 0 0 0 sample_frame (t_ldt sample_tables) sample_tables sample_off out
    sample_power_on eq_refl Hb ltac:(unfold is_u32, MULTIBOOT_BOOTLOADER_MAGIC; lia)
    (fun _ => ex_intro _ mbi (conj Hmbi Htext))) as (k1 & E1 & S1).
  destruct (boot_stops 0 0 40 (fun _ => 0) 0 0 0 0 (replicate 64 7) (le32 0x30 ++ replicate 48 0) 1
    0 0 0 0 sample_frame (t_ldt sample_tables) sample_tables sample_off out
    sample_power_on eq_refl Hb ltac:(unfold is_u32; lia) (fun _ => ex_intro _ mbi (conj Hmbi Htext))) as (k2 & E2 & S2).
  exists k1, k2. split; [done|]. split; [done|]. split; [exact E1|]. split; [exact S1|]. split; [exact E2|exact S2].
Defined.

(** C6: the process tables stay consistent.  After any history of the machine,
    each terminal's active process is the top of a chain of parents that ends in
    process number t, the terminal's own base shell, whose parent is -1; the
    chains of the three terminals have no process in common; exactly their members
    are marked as taken in the table of process numbers; and the current process
    is the active process of the terminal that runs. *)
Theorem process_tables_consistent A B F room k M es :
  bootable F room -> models A B F room k M -> Forall sys_event_ok es ->
  exists rs k' S, run_sys_all es k = Some (rs, k') /\ process_tables k' S.
Proof.
  intros HB HM Hes. destruct (models_steps A B F room es k M HB HM Hes) as (k' & E & HM').
  do 3 eexists. split; [exact E|]. by eapply models_tables.
Qed.

Lemma process_tables_consistent_witness :
  exists k rs k' S, run_sys_all sample_history k = Some (rs, k') /\ process_tables k' S.
Proof.
  destruct sample_boots as (_ & _ & k & s1 & s2 & _ & _ & HM & _). exists k.
  exact (process_tables_consistent _ _ _ _ k _ sample_history sample_bootable HM sample_history_ok).
Defined.

(** C34: a program that ends in the background deafens its terminal.  When a
    program with a parent halts on a terminal that is not shown, while something
    has been typed there, the parent resumes and the desk keeps the line's length
    but not its characters: they are zeros.  Whatever text is typed at that desk from
    then on, characters and newlines, however much, comes behind the zeros, where the
    reader does not look: no reader on that terminal finds a finished line in it.
    (Only rubbing the zeros out with Backspace or clearing the line with Ctrl-L would
    help.) *)
Theorem background_halt_deafens A B F room k M p q l status st keys text :
  models A B F room k M -> m_procs M (running M) = p :: q :: l -> ds_shown (m_desks M) <> running M ->
  d_line (ds_of (m_desks M) (running M)) <> [] ->
  exists k' D, run_sys (Halt status st) k = Some (Leaves (ResumeAt (p_frame p) (u8 status)), k') /\
    models A B F room k' (mkMachine D (upd_stack (running M) (q :: l) (m_procs M)) (m_clock M)) /\
    line_ready (mkDesks keys (running M) (running M) (ds_of (upd_desk (running M) (type_text text) D))) = false.
Proof.
  intros HM E Hne Hline. destruct (models_pop A B F room k M p q l (u8 status) st HM E) as (k' & _ & _ & Eh & HM' & _).
  eexists k', _. cbn [run_sys]. unfold sys_halt. rewrite Eh. cbn [mbind option_bind]. split; [done|].
  split; [exact HM'|]. unfold line_ready. cbn [ds_shown ds_running ds_of upd_desk]. rewrite Z.eqb_refl.
  rewrite (proj2 (Z.eqb_neq _ _) Hne). set (d := wipe_line false _). destruct (type_text_line text d) as (l' & ->).
  unfold d, wipe_line. cbn [d_line]. by destruct (d_line (ds_of (m_desks M) (running M))).
Qed.

Lemma background_halt_deafens_witness :
  exists k k' D, run_sys (Halt 0 sample_frame) k = Some (Leaves (ResumeAt 0x7FDFF0 0), k') /\
    line_ready (mkDesks kbd_reset 0 0 (ds_of (upd_desk 0 (type_text [108; 115; 10]) D))) = false.
Proof.
  destruct sample_boots as (_ & _ & k0 & s1 & s2 & _ & _ & HM0 & _).
  destruct (models_steps _ _ _ _ sample_background k0 _ sample_bootable HM0 sample_background_ok) as (k & _ & HM).
  destruct (background_halt_deafens _ _ _ _ k _ _ _ _ 0 sample_frame kbd_reset [108; 115; 10] HM ltac:(reflexivity)
    ltac:(discriminate) ltac:(discriminate)) as (k' & D & E & _ & HL).
  exists k, k', D. split; [exact E|exact HL].
Defined.

(** The segment descriptors [entry] builds say what they should: whatever the
    local structure held before, the LDT's and the TSS's descriptor have the given
    base address, all 32 bits of it, and limit, all 20 bits, are present system
    segments of privilege 0 and byte granularity, of types 2 (LDT) and 9 (available
    32-bit TSS). *)
Theorem boot_segments addr lim d :
  is_u32 addr -> 0 <= lim < 1048576 ->
  (forall desc, desc = the_ldt_desc addr lim d \/ desc = the_tss_desc addr lim d ->
    seg_base desc = addr /\ seg_limit desc = lim /\ seg_present desc = 1 /\ sys desc = 0 /\ seg_dpl desc = 0 /\
    granularity desc = 0) /\
  seg_type (the_ldt_desc addr lim d) = 2 /\ seg_type (the_tss_desc addr lim d) = 9.
Proof.
  intros Ha Hl. split; [|done].
  intros desc [-> | ->]; (split; [by apply seg_params_base|]); (split; [by apply seg_params_limit|done]).
Qed.

Lemma boot_segments_witness :
  let d := mkSeg 1 2 3 4 5 6 7 8 9 10 11 12 13 in
  the_tss_desc 0xC0123456 0x68 d = mkSeg 0x68 0x3456 0x12 9 0 0 1 0 0 0 0 0 0xC0 /\
  seg_base (the_tss_desc 0xC0123456 0x68 d) = 0xC0123456.
Proof.
  set (d := mkSeg 1 2 3 4 5 6 7 8 9 10 11 12 13). split; [reflexivity|].
  destruct (boot_segments 0xC0123456 0x68 d ltac:(unfold is_u32; lia) ltac:(lia)) as [H _].
  exact (proj1 (H _ (or_intror eq_refl))).
Defined.
