(* ===== verification/Stubs.v ===== *)
(** The assembly around the C code: the interrupt entries of
    [src/code/exception.S], [keyboard_link.S], [rtc_link.S], [pit_link.S] and
    [system_call_link.S], and the programs' calls of [src/syscalls/ece391syscall.S],
    on the processor of [Machine.v].

    What the C functions do to the processor is a parameter; the theorems ask of it
    that a function that comes back has left the words of its own kernel stack above
    its arguments as they were, [comes_back], and no more: a process that was put aside
    comes back with other registers, and other processes' stacks and the programs'
    memory may have changed. *)
From stdpp Require Import base option list numbers gmap.
From Stdlib Require Import ZArith Lia.
From S2P Require Import Prelude LibString Console Printf Idt Machine State SysCall Boot.

(** The C functions that the assembly calls. *)
Module Sym.
Inductive cfun :=
| handle_exception | keyboard_handler | rtc_handler | pit_handler | entry | main
| sys_halt | sys_execute | sys_read | sys_write | sys_open | sys_close | sys_getargs | sys_vidmap
| sys_sethandler | sys_sigreturn.
End Sym.

Local Notation code := (list (instr Sym.cfun)).

Section code.
(** Where the linker puts them. *)
Context (loc : Sym.cfun -> Z).

(** ** The entries *)

(** EXCEPTION(name, id) *)
Definition EXCEPTION (id : Z) : code :=
  [Pushal; Pushl (Imm (-1)); Pushl (Imm id); Call (loc Sym.handle_exception); Addl 8 ESP; Popal; Iret].

(** EXCEPTION_ERROR_CODE(name, id, err_code) *)
Definition EXCEPTION_ERROR_CODE (id err_code : Z) : code :=
  [Pushal; Pushl (Imm err_code); Pushl (Imm id); Call (loc Sym.handle_exception); Addl 8 ESP; Popal; Iret].

Definition KEYBOARD (id : Z) : code :=
  [Pushal; Pushl (Imm id); Call (loc Sym.keyboard_handler); Addl 4 ESP; Popal; Iret].

Definition RTC (id : Z) : code :=
  [Pushal; Pushl (Imm id); Call (loc Sym.rtc_handler); Addl 4 ESP; Popal; Iret].

Definition PIT : code :=
  [Pushal; Pushfl; Call (loc Sym.pit_handler); Popfl; Popal; Iret].

(** [sys_call], placed at [base]: END is its 20th instruction, INVALID_CMD its 28th. *)
Definition sys_call_entry (base : Z) : code :=
  [Pushl (Reg EBX); Pushl (Reg ECX); Pushl (Reg EDX); Pushl (Reg ESP); Pushl (Reg EBP); Pushl (Reg EDI);
   Pushl (Reg ESI);
   Cmpl SYS_MAX EAX; Jg (base + 27); Cmpl 1 EAX; Jl (base + 27);
   Movl (Imm (-4)) ESI; Pushl (Reg EDX); Pushl (Reg ECX); Pushl (Reg EBX); CallTable ESI EAX;
   Popl EBX; Popl ECX; Popl EDX;
   Popl ESI; Popl EDI; Popl EBP; Popl ESP; Popl EDX; Popl ECX; Popl EBX; Iret;
   Movl (Imm (-1)) EAX; Jmp (base + 19)].

Definition jump_table : list Sym.cfun :=
  [Sym.sys_halt; Sym.sys_execute; Sym.sys_read; Sym.sys_write; Sym.sys_open; Sym.sys_close; Sym.sys_getargs;
   Sym.sys_vidmap; Sym.sys_sethandler; Sym.sys_sigreturn].

(** The entry of each name, placed at [base]. *)
Definition entry_of (base : Z) (h : handler) : code :=
  match h with
  | divide_error => EXCEPTION 0x0
  | single_step => EXCEPTION 0x1
  | nmi => EXCEPTION 0x2
  | breakpoint => EXCEPTION 0x3
  | overflow => EXCEPTION 0x4
  | bound_range_exceeded => EXCEPTION 0x5
  | invalid_opcode => EXCEPTION 0x6
  | dna => EXCEPTION 0x7
  | double_fault => EXCEPTION_ERROR_CODE 0x8 0
  | coproc => EXCEPTION 0x9
  | invalid_tss => EXCEPTION_ERROR_CODE 0xA 0
  | snp => EXCEPTION_ERROR_CODE 0xB 0
  | ssf => EXCEPTION_ERROR_CODE 0xC 0
  | gen_prot => EXCEPTION_ERROR_CODE 0xD 0
  | page_fault => EXCEPTION_ERROR_CODE 0xE 0
  | math_fault => EXCEPTION 0x10
  | align_check => EXCEPTION_ERROR_CODE 0x11 0
  | machine_check => EXCEPTION 0x12
  | floatp_excep => EXCEPTION 0x13
  | keyboard => KEYBOARD 0x21
  | rtc => RTC 0x28
  | pit => PIT
  | Idt.sys_call => sys_call_entry base
  end.
End code.

(** ** The programs' side *)

(** DO_CALL(name,number) *)
Definition DO_CALL (number : Z) : code :=
  [Pushl (Reg EBX); Movl (Imm number) EAX; Loadl 8 ESP EBX; Loadl 12 ESP ECX; Loadl 16 ESP EDX; Int 0x80;
   Popl EBX; Ret].

Definition SYS_HALT : Z := 1.
Definition SYS_EXECUTE : Z := 2.
Definition SYS_READ : Z := 3.
Definition SYS_WRITE : Z := 4.
Definition SYS_OPEN : Z := 5.
Definition SYS_CLOSE : Z := 6.
Definition SYS_GETARGS : Z := 7.
Definition SYS_VIDMAP : Z := 8.
Definition SYS_SET_HANDLER : Z := 9.
Definition SYS_SIGRETURN : Z := 10.

(** A program's entry point: main, and ece391_halt with what it returns. *)
Definition _start (main ece391_halt : Z) : code :=
  [Call main; Pushl (Imm 0); Pushl (Imm 0); Pushl (Reg EAX); Call ece391_halt].

(** ** The whole *)

Section linked.
Context (body : Sym.cfun -> cpu -> kernel -> option (cpu * kernel)).
Context (addr : handler -> Z) (loc : Sym.cfun -> Z) (text : Z -> option (instr Sym.cfun)) (idt : list idt_desc_t).

(** The code is where the linker says, and the descriptor table set up. *)
Record linked : Prop := {
  linked_addr h : is_u32 (addr h);
  linked_entry h : code_at text (addr h) (entry_of loc (addr h) h);
  linked_body f : text (loc f) = Some (Body f);
  linked_idt : initialize_idt addr (replicate 256 zero_gate) = Some idt;
}.

Definition jumps : list Z := loc <$> jump_table.

Local Notation ends := (ends body text jumps idt KERNEL_DS tss_esp0).
Local Notation reaches := (reaches body text jumps idt KERNEL_DS tss_esp0).
Local Notation interrupt := (interrupt idt KERNEL_DS tss_esp0).
Local Notation comes_back := (comes_back body).
Local Notation left_by := (left_by body).
Local Notation kernel_top := (kernel_top tss_esp0).
Local Notation has_stack := (has_stack tss_esp0).

Context (HL : linked).

Lemma gate_facts v h : 0 <= v < 256 -> assigned handler_table v = Some h ->
  exists g, idt.[v] = Some g /\ present g = 1 /\ seg_selector g = KERNEL_CS /\ gate_target g = addr h /\
    dpl g = (if v =? SYSCALL_VEC_NUM then 3 else 0) /\ reserved3 g = (if NUM_EXCEPTIONS <=? v then 1 else 0).
Proof using HL.
  intros Hv Eh. destruct (initialize_idt_gates addr) as (l & E & Hl & Hf).
  rewrite (linked_idt HL) in E. injection E as ->. exists (gate_of addr v). split; [by apply Hf|].
  assert (present (init_gate v zero_gate) = 1) as Hp by (apply present_iff; [done|left; by eexists]).
  unfold gate_of. rewrite Eh. split; [exact Hp|]. split; [done|].
  split; [by apply set_idt_entry_target, linked_addr|done].
Qed.

(** The three devices' vectors, entries and functions. *)
Inductive device : Z -> handler -> Sym.cfun -> list Z -> Prop :=
| device_keyboard : device KEYBOARD_VEC_NUM keyboard Sym.keyboard_handler [0x21]
| device_rtc : device RTC_VEC_NUM rtc Sym.rtc_handler [0x28]
| device_pit : device PIT_VEC_NUM pit Sym.pit_handler [].

(** What all but the timer's and the system call's have in common. *)
Definition called (f : Sym.cfun) (n : Z) : code := [Call (loc f); Addl (4 * n) ESP; Popal; Iret].
Definition wrapped (f : Sym.cfun) (imms : list Z) : code := Pushal :: (Pushl ∘ Imm <$> imms) ++ called f (len imms).

Lemma wrapped_imms f imms j v : imms !! j = Some v -> wrapped f imms !! (1 + j)%nat = Some (Pushl (Imm v)).
Proof.
  intros Ev. change (((Pushl ∘ Imm <$> imms) ++ called f (len imms)) !! j = Some (Pushl (Imm v))).
  apply lookup_app_l_Some. by rewrite list_lookup_fmap, Ev.
Qed.

Lemma wrapped_called f imms j n : n = (1 + length imms + j)%nat -> wrapped f imms !! n = called f (len imms) !! j.
Proof.
  intros ->. change (((Pushl ∘ Imm <$> imms) ++ called f (len imms)) !! (length imms + j)%nat = called f (len imms) !! j).
  rewrite lookup_app_r; rewrite length_fmap; [f_equal|]; lia.
Qed.

(** From the entry, [c0] having been interrupted, back to [c0]. *)
Definition entered (c0 c : cpu) (k : kernel) (base : Z) : Prop :=
  gpr c = gpr c0 /\ dsegs c = dsegs c0 /\ gdtr c = gdtr c0 /\ rpl (cs c) = 0 /\ (rpl (cs c0) = 0 -> ss c = ss c0) /\
  eip c = base /\ frame (kernel_top c0 k) ([eip c0; cs c0; eflags c0] ++ user_words c0) (mem c0) (sp c) (mem c).

Definition resumed (c0 : cpu) (k' : kernel) (P : gmap Z Z -> Prop) (st : cpu * kernel) : Prop :=
  exists m, st = (c0 <| mem := m |>, k') /\ P m.

(** No address. *)
Definition nowhere : Z -> Prop := fun _ => False.

Lemma user_words_short c : len (user_words c) <= 2.
Proof using. unfold user_words. case_match; cbn; lia. Qed.

Lemma ends_iret base l i c0 c k k' (P : gmap Z Z -> Prop) :
  code_at text base l -> l !! i = Some Iret -> eip c = base + Z.of_nat i ->
  frame (kernel_top c0 k) ([eip c0; cs c0; eflags c0] ++ user_words c0) (mem c) (sp c) (mem c) ->
  gpr c = gpr c0 -> dsegs c = dsegs c0 -> gdtr c = gdtr c0 -> rpl (cs c) = 0 -> (rpl (cs c0) = 0 -> ss c = ss c0) ->
  P (mem c) -> ends (c, k') (resumed c0 k' P).
Proof using.
  intros Hat El Hpc HF Hg Hd Hgd Hcs Hss HP. set (c1 := c <| eip ::= Z.succ |>).
  pose proof (iret_ok tss_esp0 c0 c1 k (mem c) HF Hg Hd Hgd Hcs Hss) as E.
  apply (ends_plain _ _ _ _ _ _ base l i Hat _ c k' Hpc Iret (c0 <| mem := mem c |>, k') El).
  - intros Et. cbn [Machine.step]. rewrite Et. cbn [mbind option_bind]. fold c1. by rewrite E.
  - apply ends_now. by exists (mem c).
Qed.

(** The registers as pushal leaves them. *)
Definition pushed_regs (c : cpu) : list Z :=
  [get_reg EDI c; get_reg ESI c; get_reg EBP c; sp c; get_reg EBX c; get_reg EDX c; get_reg ECX c; get_reg EAX c].

Section wrapped.
Context (f : Sym.cfun) (imms : list Z) (base : Z) (Hat : code_at text base (wrapped f imms)).
Context (c : cpu) (k : kernel) (s : Z) (ws : list Z) (m0 : gmap Z Z) (Hpc : eip c = base).
Context (HF : frame s ws m0 (sp c) (mem c)) (Hroom : 4 * (len ws + 9 + len imms) <= s).

(** To the call: the arguments are on the stack, the first one on top. *)
Lemma wrapped_calls (Q : cpu * kernel -> Prop) :
  (forall p m, frame s (rev (u32 <$> imms) ++ pushed_regs c ++ ws) m0 p m ->
     ends (c <| eip := base + Z.of_nat (1 + length imms) |> <| sp := p |> <| mem := m |>, k) Q) ->
  ends (c, k) Q.
Proof using Hat Hpc HF Hroom.
  intros HQ.
  eapply (ends_pushal _ _ _ _ _ _ base (wrapped f imms) 0 Hat _ c k ltac:(lia) s _ m0); [done|exact HF|lia|].
  intros p m HF1. set (c1 := c <| eip ::= Z.succ |> <| sp := p |> <| mem := m |>).
  eapply (ends_imms _ _ _ _ _ _ base (wrapped f imms) _ k s m0 imms 1 c1); [done|cbn; lia| |exact HF1|rewrite !length_app; cbn; lia|].
  { apply wrapped_imms. }
  intros p2 m2 HF2. exact (HQ p2 m2 HF2).
Qed.

(** Through it, to the iret. *)
Lemma wrapped_returns r k' : comes_back s nowhere f (rev (u32 <$> imms)) k r k' ->
  ends (c, k) (fun st => exists p m fl,
    st = (c <| eip := base + Z.of_nat (4 + length imms) |> <| sp := p |> <| eflags := fl |> <| mem := m |>, k') /\
    frame s ws m p m /\ left_by s nowhere m0 f (rev (u32 <$> imms)) k k' m).
Proof using HL Hat Hpc HF Hroom.
  intros Hf. apply wrapped_calls. intros p2 m2 HF2. set (c2 := c <| eip := _ |> <| sp := p2 |> <| mem := m2 |>).
  eapply (ends_call _ _ _ _ _ _ base (wrapped f imms) _ Hat _ c2 k eq_refl s _ m0 _ (loc f) f _ r k');
    [by rewrite (wrapped_called _ _ 0) by lia|apply (linked_body HL)|exact Hf|exact HF2|
     rewrite !length_app, length_rev, length_fmap; cbn; lia|].
  intros g fl p3 m3 args' _ Hlen HF3 Hleft.
  set (c3 := c2 <| gpr := g |> <| sp := p3 |> <| eip ::= Z.succ |> <| eflags := fl |> <| mem := m3 |>).
  eapply (ends_addl _ _ _ _ _ _ base (wrapped f imms) (2 + length imms) Hat _ c3 k' ltac:(cbn; lia) (4 * len imms)).
  { by rewrite (wrapped_called _ _ 1) by lia. }
  intros fl4. set (c4 := c3 <| eip ::= Z.succ |> <| sp := _ |> <| eflags := fl4 |>).
  apply frame_drop in HF3. rewrite Hlen, length_rev, length_fmap in HF3.
  eapply (ends_popal _ _ _ _ _ _ base (wrapped f imms) (3 + length imms) Hat _ c4 k' ltac:(cbn; lia) s _ m3); [|exact HF3|].
  { by rewrite (wrapped_called _ _ 2) by lia. }
  intros p5 HF5. apply ends_now. exists p5, m3, fl4. split; [|by split]. f_equal.
  change (get_reg EAX c) with (r_eax (gpr c)). cbn. rewrite regs_eta. f_equal. lia.
Qed.
End wrapped.

Lemma wrapped_resumes f imms base c0 c k r k' :
  code_at text base (wrapped f imms) -> comes_back (kernel_top c0 k) nowhere f (rev (u32 <$> imms)) k r k' ->
  entered c0 c k base -> has_stack (14 + len imms) c0 k ->
  ends (c, k) (resumed c0 k' (left_by (kernel_top c0 k) nowhere (mem c0) f (rev (u32 <$> imms)) k k')).
Proof using HL.
  intros Hat Hf (Hg & Hd & Hgd & Hcs & Hss & Hpc & HF) (Htop & Hroom & Hmax). pose proof (user_words_short c0) as Hu.
  eapply ends_bind; [apply (wrapped_returns f imms base Hat c k _ _ _ Hpc HF ltac:(rewrite length_app; cbn; lia) r k' Hf)|].
  intros st (p & m & fl & -> & HF1 & Hleft). set (c1 := c <| eip := _ |> <| sp := p |> <| eflags := fl |> <| mem := m |>).
  apply (ends_iret base (wrapped f imms) (4 + length imms) c0 c1 k k' _ Hat); try done.
  by rewrite (wrapped_called _ _ 3) by lia.
Qed.

(** The timer's. *)
Lemma pit_resumes base c0 c k r k' :
  code_at text base (PIT loc) -> comes_back (kernel_top c0 k) nowhere Sym.pit_handler [] k r k' ->
  entered c0 c k base -> has_stack 16 c0 k ->
  ends (c, k) (resumed c0 k' (left_by (kernel_top c0 k) nowhere (mem c0) Sym.pit_handler [] k k')).
Proof using HL.
  intros Hat Hf (Hg & Hd & Hgd & Hcs & Hss & Hpc & HF) (Htop & Hroom & Hmax).
  pose proof (user_words_short c0) as Hu. set (s := kernel_top c0 k) in *.
  eapply (ends_pushal _ _ _ _ _ _ base (PIT loc) 0 Hat _ c k ltac:(lia) s _ (mem c0)); [done|exact HF|rewrite length_app; cbn; lia|].
  intros p m HF1. set (c1 := c <| eip ::= Z.succ |> <| sp := p |> <| mem := m |>).
  eapply (ends_pushfl _ _ _ _ _ _ base (PIT loc) 1 Hat _ c1 k ltac:(cbn; lia) s _ (mem c0)); [done|exact HF1|rewrite !length_app; cbn; lia|].
  intros p2 m2 fl2 HF2. set (c2 := c1 <| eip ::= Z.succ |> <| sp := p2 |> <| mem := m2 |>).
  eapply (ends_call _ _ _ _ _ _ base (PIT loc) 2 Hat _ c2 k ltac:(cbn; lia) s _ (mem c0) _ _ Sym.pit_handler [] r k');
    [done|apply (linked_body HL)|exact Hf|exact HF2|cbn; rewrite ?length_app; cbn; lia|].
  intros g fl p3 m3 args' _ Hlen HF3 Hleft. destruct args'; [|done].
  set (c3 := c2 <| gpr := g |> <| sp := p3 |> <| eip ::= Z.succ |> <| eflags := fl |> <| mem := m3 |>).
  eapply (ends_popfl _ _ _ _ _ _ base (PIT loc) 3 Hat _ c3 k' ltac:(cbn; lia) s _ m3 fl2); [done|exact HF3|].
  intros p4 HF4. set (c4 := c3 <| eip ::= Z.succ |> <| sp := p4 |> <| eflags := fl2 |>).
  eapply (ends_popal _ _ _ _ _ _ base (PIT loc) 4 Hat _ c4 k' ltac:(cbn; lia) s _ m3); [done|exact HF4|].
  intros p5 HF5. set (c5 := c4 <| eip ::= Z.succ |> <| sp := p5 |> <| gpr := _ |>).
  apply (ends_iret base (PIT loc) 5 c0 c5 k k' _ Hat); try done; [cbn; lia|].
  exact (eq_trans (regs_eta (gpr c)) Hg).
Qed.

(** ** Interrupts *)

Lemma device_assigned v h f args : device v h f args -> assigned handler_table v = Some h /\ 32 <= v < 256.
Proof using. by destruct 1. Qed.

(** From the vector to the entry. *)
Lemma enters soft v h err c k :
  0 <= v < 256 -> assigned handler_table v = Some h -> (soft = true -> v = SYSCALL_VEC_NUM \/ rpl (cs c) = 0) ->
  has_stack 6 c k ->
  exists c1, interrupt soft v err c k = Some c1 /\
    gpr c1 = gpr c /\ dsegs c1 = dsegs c /\ gdtr c1 = gdtr c /\ rpl (cs c1) = 0 /\ (rpl (cs c) = 0 -> ss c1 = ss c) /\
    eip c1 = addr h /\
    (v < NUM_EXCEPTIONS -> Z.testbit (eflags c1) IF_BIT = false) /\
    frame (kernel_top c k) (option_list err ++ [eip c; cs c; eflags c] ++ user_words c) (mem c) (sp c1) (mem c1).
Proof using HL.
  intros Hv Eh Hs Hst. destruct (gate_facts v h Hv Eh) as (g & Eg & Hp & Hsel & Ht & Hd & Hr).
  pose proof (rpl_range (cs c)) as Hr3.
  assert (soft = true -> rpl (cs c) <= dpl g) as Hsoft.
  { intros H. rewrite Hd. destruct (Hs H) as [-> | ->]; [rewrite Z.eqb_refl; lia|destruct (v =? SYSCALL_VEC_NUM); lia]. }
  destruct (interrupt_ok idt KERNEL_DS tss_esp0 soft v err g c k Eg Hp Hsoft ltac:(by rewrite Hsel) Hst) as (p & m & E & HF).
  eexists. split; [exact E|]. split_and!; try done.
  - cbn. by rewrite Hsel.
  - cbn. intros H0. by rewrite H0.
  - intros Hlt. unfold masked. cbn [eflags]. unfold NUM_EXCEPTIONS in *.
    assert (reserved3 g = 0) as -> by (rewrite Hr; destruct (Z.leb_spec 32 v); [lia|done]). by apply set_flag_eq.
Qed.

Lemma device_resumes v h f args c0 c k r k' :
  device v h f args -> comes_back (kernel_top c0 k) nowhere f args k r k' -> entered c0 c k (addr h) -> has_stack 16 c0 k ->
  ends (c, k) (resumed c0 k' (left_by (kernel_top c0 k) nowhere (mem c0) f args k k')).
Proof using HL.
  intros Hd Hf He Hs. pose proof (linked_entry HL h) as Hat. destruct Hd.
  - apply (wrapped_resumes Sym.keyboard_handler [0x21] (addr keyboard) c0 c k r k' Hat Hf He). eapply has_stack_le; [|exact Hs]. cbn. lia.
  - apply (wrapped_resumes Sym.rtc_handler [0x28] (addr rtc) c0 c k r k' Hat Hf He). eapply has_stack_le; [|exact Hs]. cbn. lia.
  - by apply (pit_resumes (addr pit) c0 c k r k').
Qed.

(** ** Exceptions *)

(** What the kernel's stack holds of the interrupted [c0]. *)
Definition kernel_words (c0 : cpu) : list Z := [eip c0; cs c0; eflags c0] ++ user_words c0.

(** The exceptions for which the processor pushes an error code. *)
Definition has_code (v : Z) : bool := bool_decide (v ∈ [8; 10; 11; 12; 13; 14; 17]).

Lemma exception_code v h base : assigned handler_table v = Some h -> v < NUM_EXCEPTIONS ->
  entry_of loc base h = wrapped Sym.handle_exception [if has_code v then 0 else -1; v].
Proof using.
  assert (Forall (fun e => e.1 < NUM_EXCEPTIONS ->
    entry_of loc base e.2 = wrapped Sym.handle_exception [if has_code e.1 then 0 else -1; e.1]) handler_table) as H.
  { unfold handler_table. repeat (constructor; [done|]). by constructor. }
  intros E Hv. rewrite Forall_forall in H. refine (H (v, h) _ Hv). clear H Hv. revert E.
  generalize handler_table. induction l as [|[w h'] l IH]; [done|]. cbn [assigned].
  destruct (Z.eqb_spec v w) as [->|]; [intros [= ->]; by left|intros E; right; by apply IH].
Qed.

(** What handle_exception is given as the error code: never the processor's. *)
Definition code_given (v : Z) : Z := u32 (if has_code v then 0 else -1).

Section exceptions.
Context (v : Z) (h : handler) (err : option Z) (c c1 : cpu) (k : kernel).
Context (Hv : 0 <= v < NUM_EXCEPTIONS) (Eh : assigned handler_table v = Some h).
Context (Hst : has_stack 20 c k) (Ei : interrupt false v err c k = Some c1).

Lemma exception_frame : eip c1 = addr h /\ Z.testbit (eflags c1) IF_BIT = false /\
  gpr c1 = gpr c /\ dsegs c1 = dsegs c /\ gdtr c1 = gdtr c /\ rpl (cs c1) = 0 /\ (rpl (cs c) = 0 -> ss c1 = ss c) /\
  frame (kernel_top c k) (option_list err ++ kernel_words c) (mem c) (sp c1) (mem c1).
Proof using HL Hv Eh Hst Ei.
  destruct (enters false v h err c k ltac:(unfold NUM_EXCEPTIONS in *; lia) Eh ltac:(done)
    (has_stack_le _ 6 20 c k ltac:(lia) Hst)) as (c' & E & Hg & Hd & Hgd & Hcs & Hss & Hpc & Hif & HF).
  rewrite Ei in E. injection E as <-. split_and!; try done. apply Hif. lia.
Qed.

Lemma exception_room : 4 * (len (option_list err ++ kernel_words c) + 9 + 2) <= kernel_top c k.
Proof using Hst Ei.
  destruct Hst as (_ & Hroom & _). pose proof (user_words_short c). unfold kernel_words.
  rewrite !length_app. destruct err; cbn; lia.
Qed.

Lemma exception_calls : ends (c1, k) (fun st => exists ret,
  eip st.1 = loc Sym.handle_exception /\ Z.testbit (eflags st.1) IF_BIT = false /\ st.2 = k /\
  frame (kernel_top c k) ([ret; u32 v; code_given v] ++ pushed_regs c1 ++ option_list err ++ kernel_words c)
    (mem c) (sp st.1) (mem st.1)).
Proof using HL Hv Eh Hst Ei.
  destruct exception_frame as (Hpc & Hif & _ & _ & _ & _ & _ & HF). pose proof (linked_entry HL h) as Hat.
  rewrite (exception_code v h _ Eh (proj2 Hv)) in Hat. pose proof exception_room as Hroom.
  apply (wrapped_calls _ _ _ Hat c1 k _ _ _ Hpc HF Hroom). intros p m HF1.
  match goal with |- ends (?x, _) _ => set (c2 := x) end.
  eapply (ends_to _ _ _ _ _ _ (addr h) _ 3 Hat _ c2 k eq_refl); [by rewrite (wrapped_called _ _ 0) by done|exact HF1| |].
  - rewrite !length_app in *. cbn in *. lia.
  - intros p2 m2 HF2. apply ends_now. exists (eip c2 + 1). by split_and!.
Qed.

End exceptions.

(** ** The system call's entry *)

Lemma table_offset n : 1 <= n <= 10 -> u32 (u32 (-4) + 4 * n) = 4 * (n - 1).
Proof using. intros Hn. unfold u32. Z.to_euclidean_division_equations. lia. Qed.

Lemma jumps_at i f : jump_table.[i] = Some f -> jumps.[i] = Some (loc f).
Proof using. intros E. unfold jumps. by rewrite aget_fmap, E. Qed.

Local Notation entry_code := (sys_call_entry (addr Idt.sys_call)).

(** What the entry saves; the pushed ESP is that of the third word. *)
Definition saved (g : regs) (s : Z) (ws : list Z) : list Z :=
  [r_esi g; r_edi g; r_ebp g; s - 4 * Z.of_nat (3 + length ws); r_edx g; r_ecx g; r_ebx g].

(** One push, pop or computation of the entry, its [n]th instruction; there is one
    stack at a time, [HF]. *)
Local Ltac keep_frame H :=
  match goal with H' : frame _ _ _ _ _ |- _ => tryif constr_eq H' H then fail else clear H' end; rename H into HF.
Local Ltac psh n :=
  eapply ends_push with (base := addr Idt.sys_call) (l := entry_code) (i := n);
    [exact (linked_entry HL Idt.sys_call)|cbn; lia|reflexivity|eassumption|cbn [length app]; lia|];
  let H := fresh "HF" in intros ? ? H; keep_frame H.
Local Ltac pp n :=
  eapply ends_pop with (base := addr Idt.sys_call) (l := entry_code) (i := n);
    [exact (linked_entry HL Idt.sys_call)|cbn; lia|reflexivity|eassumption|];
  let H := fresh "HF" in intros ? H; keep_frame H.
Local Ltac calc n instr :=
  eapply ends_plain with (base := addr Idt.sys_call) (l := entry_code) (i := n) (ins := instr);
    [exact (linked_entry HL Idt.sys_call)|cbn; lia|reflexivity
    |let E := fresh in intros E; cbn [Machine.step]; rewrite E; reflexivity|].

Section sys_call.
Context (c : cpu) (k : kernel) (s : Z) (ws : list Z) (m0 : gmap Z Z) (Q : cpu * kernel -> Prop).
Context (Hroom : 4 * (len ws + 16) <= s).

Lemma sys_call_saves : eip c = addr Idt.sys_call -> frame s ws m0 (sp c) (mem c) ->
  (forall p m, frame s (saved (gpr c) s ws ++ ws) m0 p m ->
     ends (c <| eip := addr Idt.sys_call + 7 |> <| sp := p |> <| mem := m |>, k) Q) -> ends (c, k) Q.
Proof using HL Hroom.
  intros Hpc HF HQ. psh 0%nat. psh 1%nat. psh 2%nat.
  pose proof (frame_sp _ _ _ _ _ HF) as Hesp. cbn [length] in Hesp.
  psh 3%nat. cbn in HF. rewrite Hesp in HF.
  psh 4%nat. psh 5%nat. psh 6%nat. cbn in HF.
  specialize (HQ _ _ HF). replace (addr Idt.sys_call + 7) with (Nat.iter 7 Z.succ (eip c)) in HQ by (cbn; lia). exact HQ.
Qed.

(** From END to the iret. *)
Lemma sys_call_restores g : eip c = addr Idt.sys_call + 19 -> frame s (saved g s ws ++ ws) m0 (sp c) (mem c) ->
  (forall p, frame s ws m0 p (mem c) ->
     ends (c <| eip := addr Idt.sys_call + 26 |> <| sp := p |> <| gpr := g <| r_eax := r_eax (gpr c) |> |>, k) Q) ->
  ends (c, k) Q.
Proof using HL.
  intros Hpc HF HQ. unfold saved in HF. cbn [app] in HF. pp 19%nat. pp 20%nat. pp 21%nat. pp 22%nat.
  pose proof (frame_sp _ _ _ _ _ HF) as Hesp. cbn [length] in Hesp.
  replace p2 with (s - 4 * Z.of_nat (3 + length ws)) in HF by (rewrite Hesp; lia).
  pp 23%nat. pp 24%nat. pp 25%nat.
  specialize (HQ _ HF). replace (addr Idt.sys_call + 26) with (Nat.iter 7 Z.succ (eip c)) in HQ by (cbn; lia).
  destruct g. exact HQ.
Qed.

(** The two comparisons, from the saved registers on. *)
Lemma sys_call_checks : eip c = addr Idt.sys_call + 7 -> is_u32 (r_eax (gpr c)) ->
  (forall fl, ends (c <| eip := addr Idt.sys_call +
       (if (SYS_MAX <? s32 (r_eax (gpr c))) || (s32 (r_eax (gpr c)) <? 1) then 27 else 11) |> <| eflags := fl |>, k) Q) ->
  ends (c, k) Q.
Proof using HL.
  clear Hroom. intros Hpc Ha HQ.
  calc 7%nat (@Cmpl Sym.cfun SYS_MAX EAX). calc 8%nat (@Jg Sym.cfun (addr Idt.sys_call + 27)).
  match goal with |- context [greater ?x] =>
    change (greater x) with (greater (cmp_flags (r_eax (gpr c)) (u32 SYS_MAX) (eflags c))) end.
  rewrite jump_greater by (done || apply u32_range). change (s32 (u32 SYS_MAX)) with SYS_MAX.
  destruct (SYS_MAX <? s32 (r_eax (gpr c))); cbn [orb] in HQ; [exact (HQ _)|].
  calc 9%nat (@Cmpl Sym.cfun 1 EAX). calc 10%nat (@Jl Sym.cfun (addr Idt.sys_call + 27)).
  match goal with |- context [less (eflags ?x)] =>
    change (less (eflags x)) with
      (less (cmp_flags (r_eax (gpr c)) (u32 1) (cmp_flags (r_eax (gpr c)) (u32 SYS_MAX) (eflags c)))) end.
  rewrite jump_less by (done || apply u32_range). change (s32 (u32 1)) with 1.
  destruct (s32 (r_eax (gpr c)) <? 1); [exact (HQ _)|].
  replace (addr Idt.sys_call + 11) with (Nat.iter 4 Z.succ (eip c)) in HQ by (cbn; lia). exact (HQ _).
Qed.

(** INVALID_CMD, to END. *)
Lemma sys_call_invalid : eip c = addr Idt.sys_call + 27 ->
  ends (c <| eip := addr Idt.sys_call + 19 |> <| gpr ::= fun g => g <| r_eax := u32 (-1) |> |>, k) Q -> ends (c, k) Q.
Proof using HL.
  clear Hroom. intros Hpc HQ. calc 27%nat (@Movl Sym.cfun (Imm (-1)) EAX). calc 28%nat (@Jmp Sym.cfun (addr Idt.sys_call + 19)).
  exact HQ.
Qed.

(** The arguments back into their registers, to END. *)
Lemma sys_call_drops x y z : eip c = addr Idt.sys_call + 16 -> frame s (x :: y :: z :: ws) m0 (sp c) (mem c) ->
  (forall p g, r_eax g = r_eax (gpr c) -> frame s ws m0 p (mem c) ->
     ends (c <| eip := addr Idt.sys_call + 19 |> <| gpr := g |> <| sp := p |>, k) Q) ->
  ends (c, k) Q.
Proof using HL.
  clear Hroom. intros Hpc HF HQ. pp 16%nat. pp 17%nat. pp 18%nat.
  replace (addr Idt.sys_call + 19) with (Nat.iter 3 Z.succ (eip c)) in HQ by (cbn; lia).
  set (g := (gpr c) <| r_ebx := x |> <| r_ecx := y |> <| r_edx := z |>). exact (HQ _ g eq_refl HF).
Qed.

End sys_call.

(** The call through the table, to END. *)
Lemma sys_call_valid keep c k s ws m0 Q n f r k' : eip c = addr Idt.sys_call + 11 -> r_eax (gpr c) = n -> 1 <= n ->
  jump_table.[n - 1] = Some f -> comes_back s keep f [r_ebx (gpr c); r_ecx (gpr c); r_edx (gpr c)] k r k' ->
  frame s ws m0 (sp c) (mem c) -> 4 * (len ws + 4) <= s ->
  (forall g fl p m, r_eax g = r -> frame s ws m p m ->
     left_by s keep m0 f [r_ebx (gpr c); r_ecx (gpr c); r_edx (gpr c)] k k' m ->
     ends (c <| eip := addr Idt.sys_call + 19 |> <| gpr := g |> <| eflags := fl |> <| sp := p |> <| mem := m |>, k') Q) ->
  ends (c, k) Q.
Proof using HL.
  intros Hpc Hn H1 Et Hf HF Hroom' HQ. pose proof (aget_range _ _ _ Et) as Hlt. cbn [length jump_table] in Hlt.
  calc 11%nat (@Movl Sym.cfun (Imm (-4)) ESI). psh 12%nat. psh 13%nat. psh 14%nat.
  eapply ends_call_table with (base := addr Idt.sys_call) (l := entry_code) (i := 15%nat) (s := s) (m0 := m0) (f := f)
    (args := [r_ebx (gpr c); r_ecx (gpr c); r_edx (gpr c)]);
    [exact (linked_entry HL Idt.sys_call)|cbn; lia|reflexivity| | |apply (linked_body HL)|exact Hf|exact HF|cbn [length app]; lia|].
  - match goal with |- u32 ?x mod 4 = 0 => change x with (u32 (-4) + 4 * r_eax (gpr c)) end.
    rewrite Hn, table_offset, Z.mul_comm by lia. apply Z_mod_mult.
  - match goal with |- jumps.[u32 ?x / 4] = _ => change x with (u32 (-4) + 4 * r_eax (gpr c)) end.
    rewrite Hn, table_offset by lia. rewrite (Z.mul_comm 4), Z.div_mul by lia. by apply jumps_at.
  - intros g fl p2 m3 args' Hr Hlen HF3 Hleft. destruct args' as [|x [|y [|z [|]]]]; try done.
    match goal with |- ends (?x, _) _ => set (c2 := x) end.
    assert (eip c2 = addr Idt.sys_call + 16) as Hpc2 by (cbn; lia).
    apply (sys_call_drops c2 k' s ws m3 Q x y z Hpc2 HF3). intros p3 g3 Hg3 HF4.
    exact (HQ g3 fl p3 m3 (eq_trans Hg3 Hr) HF4 Hleft).
Qed.


(** The functions of the jump table do what [entry] says of their numbers. *)
Definition calls_ok (top : Z) (keep : Z -> Prop) (entry : Z -> kernel -> option (Z * kernel)) (args : list Z) (k : kernel) : Prop :=
  forall n f v k', jump_table.[n - 1] = Some f -> entry n k = Some (v, k') -> comes_back top keep f args k (u32 v) k'.

(** What call [n] leaves of a memory [m0]: what its C function does, if there is one. *)
Definition after_call (top : Z) (keep : Z -> Prop) (m0 : gmap Z Z) (n : Z) (args : list Z) (k k' : kernel) (m : gmap Z Z) : Prop :=
  if (SYS_MAX <? n) || (n <? 1) then forall a, top <= a -> m !! a = m0 !! a
  else exists f, jump_table.[n - 1] = Some f /\ left_by top keep m0 f args k k' m.

Lemma after_call_kept top keep m0 n args k k' m a :
  after_call top keep m0 n args k k' m -> keep a -> top <= a -> m !! a = m0 !! a.
Proof using.
  unfold after_call. destruct (_ || _); [intros H _; by apply H|]. intros (f & _ & H). by eapply left_by_kept.
Qed.

Definition call_args (g : regs) : list Z := [r_ebx g; r_ecx g; r_edx g].

(** The way back from END, with [v] in EAX. *)
Lemma sys_call_back c0 c k k' v (P : gmap Z Z -> Prop) :
  eip c = addr Idt.sys_call + 19 -> r_eax (gpr c) = v ->
  frame (kernel_top c0 k) (saved (gpr c0) (kernel_top c0 k) (kernel_words c0) ++ kernel_words c0) (mem c) (sp c) (mem c) ->
  dsegs c = dsegs c0 -> gdtr c = gdtr c0 -> rpl (cs c) = 0 -> (rpl (cs c0) = 0 -> ss c = ss c0) -> P (mem c) ->
  ends (c, k') (resumed (c0 <| gpr ::= fun g => g <| r_eax := v |> |>) k' P).
Proof using HL.
  intros Hpc Ha HF Hd Hgd Hcs Hss HP.
  apply (sys_call_restores c k' _ _ (mem c) _ (gpr c0) Hpc HF). intros p HF1. rewrite Ha.
  match goal with |- Machine.ends _ _ _ _ _ _ (?x, _) _ => set (c1 := x) end.
  match goal with |- Machine.ends _ _ _ _ _ _ _ (resumed ?x _ _) => set (c0' := x) end.
  by apply (ends_iret (addr Idt.sys_call) entry_code 26 c0' c1 k k' P (linked_entry HL Idt.sys_call)).
Qed.

(** The whole entry is the C model's [sys_call] on the number in EAX, a signed one. *)
Lemma sys_call_runs keep entry c0 c k v k' :
  entered c0 c k (addr Idt.sys_call) -> is_u32 (r_eax (gpr c0)) -> has_stack 24 c0 k ->
  calls_ok (kernel_top c0 k) keep entry (call_args (gpr c0)) k ->
  SysCall.sys_call entry (s32 (r_eax (gpr c0))) k = Some (v, k') ->
  ends (c, k) (resumed (c0 <| gpr ::= fun g => g <| r_eax := u32 v |> |>) k'
    (after_call (kernel_top c0 k) keep (mem c0) (s32 (r_eax (gpr c0))) (call_args (gpr c0)) k k')).
Proof using HL.
  intros (Hg & Hd & Hgd & Hcs & Hss & Hpc & HF) Ha (Htop & Hroom & Hmax) Hcalls E.
  assert (len (kernel_words c0) <= 5) as Hws by (pose proof (user_words_short c0); unfold kernel_words; rewrite length_app; cbn; lia).
  apply (sys_call_saves c k (kernel_top c0 k) (kernel_words c0) (mem c0) _ ltac:(lia) Hpc HF). intros p m HF1.
  set (c1 := c <| eip := addr Idt.sys_call + 7 |> <| sp := p |> <| mem := m |>).
  apply (sys_call_checks c1 k _ eq_refl ltac:(cbn; by rewrite Hg)). intros fl.
  change (gpr c1) with (gpr c). rewrite Hg in *.
  unfold SysCall.sys_call in E. set (n := s32 (r_eax (gpr c0))) in *.
  assert ((SYS_MAX <? n) = false -> (n <? 1) = false -> r_eax (gpr c0) = n /\ 1 <= n <= 10) as En.
  { clear -Ha. intros E1 E2. apply Z.ltb_ge in E1, E2. unfold SYS_MAX in E1.
    subst n. unfold s32, is_u32 in *. revert E1 E2. Z.to_euclidean_division_equations. lia. }
  assert ((SYS_MAX <? n) || (n <? 1) = true -> after_call (kernel_top c0 k) keep (mem c0) n (call_args (gpr c0)) k k m) as Hinv.
  { intros Hn. unfold after_call. rewrite Hn. intros a Ht. exact (frame_above _ _ _ _ _ _ HF1 Ht). }
  destruct ((SYS_MAX <? n) || (n <? 1)) eqn:Eout.
  { assert (v = -1 /\ k' = k) as [-> ->] by (apply orb_true_iff in Eout as [Eo|Eo]; rewrite Eo in E; [|destruct (SYS_MAX <? n)]; by injection E as <- <-).
    match goal with |- ends (?x, _) _ => apply (sys_call_invalid x k _ eq_refl) end.
    match goal with |- ends (?x, _) _ => apply (sys_call_back c0 x k k) end; try done; [by eapply frame_own|by apply Hinv]. }
  clear Hinv. apply orb_false_iff in Eout as [E1 E2]. rewrite E1, E2 in E.
  destruct (En E1 E2) as [Ea Hn]. destruct (aget_is_Some jump_table (n - 1) ltac:(cbn; lia)) as (f & Ef).
  match goal with |- ends (?x, _) _ => set (c2 := x) end.
  apply (sys_call_valid keep c2 k (kernel_top c0 k) (saved (gpr c0) (kernel_top c0 k) (kernel_words c0) ++ kernel_words c0) (mem c0) _ n f (u32 v) k' eq_refl
    (eq_trans (f_equal r_eax Hg) Ea) (proj1 Hn) Ef); [|exact HF1|
    rewrite length_app; change (length (saved _ _ _)) with 7%nat; lia|].
  - change (comes_back (kernel_top c0 k) keep f (call_args (gpr c)) k (u32 v) k'). rewrite Hg. by apply (Hcalls n).
  - intros g fl4 p4 m4 Hg4 HF4 Hleft. match goal with |- ends (?x, _) _ => apply (sys_call_back c0 x k k') end; try done.
    unfold after_call. rewrite E1, E2. exists f. split; [exact Ef|]. rewrite <- Hg. exact Hleft.
Qed.

(** ** The programs' calls *)

(** [int 0x80] in user mode: the instruction does what the C model's [sys_call]
    does, and changes EAX. *)
Lemma int_runs keep entry base l i c k v k' :
  code_at text base l -> l !! i = Some (Int 0x80) -> eip c = base + Z.of_nat i ->
  is_u32 (r_eax (gpr c)) -> has_stack 24 c k -> calls_ok (kernel_top c k) keep entry (call_args (gpr c)) k ->
  SysCall.sys_call entry (s32 (r_eax (gpr c))) k = Some (v, k') ->
  ends (c, k) (resumed (c <| eip ::= Z.succ |> <| gpr ::= fun g => g <| r_eax := u32 v |> |>) k'
    (after_call (kernel_top c k) keep (mem c) (s32 (r_eax (gpr c))) (call_args (gpr c)) k k')).
Proof using HL.
  intros Hat El Hpc Ha Hst Hcalls E. set (c0 := c <| eip ::= Z.succ |>).
  destruct (enters true 0x80 Idt.sys_call None c0 k ltac:(lia) eq_refl (fun _ => or_introl eq_refl)
    (has_stack_le _ 6 24 c0 k ltac:(lia) Hst)) as (c1 & Ei & Hg & Hd & Hgd & Hcs & Hss & Hpc1 & _ & HF).
  eapply (ends_plain _ _ _ _ _ _ base l i Hat _ c k Hpc (Int 0x80)); [exact El| |].
  - intros Et. cbn [Machine.step]. rewrite Et. cbn [mbind option_bind]. fold c0. rewrite Ei. reflexivity.
  - by apply (sys_call_runs keep entry c0 c1 k v k').
Qed.

Section call.
Context (n base ret a b d : Z) (c : cpu) (k : kernel).
Context (Hat : code_at text base (DO_CALL n)) (Hpc : eip c = base).
Context (Hstack : frame (sp c + 16) [ret; a; b; d] (mem c) (sp c) (mem c)) (Huser : rpl (cs c) = 3).
Context (Hk : tss_esp0 k mod 4 = 0) (Hroom : 96 <= tss_esp0 k <= sp c - 4).

(** To the interrupt: the number and the arguments are in the registers. *)
Lemma call_loads (Q : cpu * kernel -> Prop) :
  (forall p m, frame (sp c + 16) [r_ebx (gpr c); ret; a; b; d] (mem c) p m ->
     ends (c <| eip := base + 5 |> <| gpr ::= fun g => g <| r_eax := u32 n |> <| r_ebx := a |> <| r_ecx := b |> <| r_edx := d |> |>
             <| sp := p |> <| mem := m |>, k) Q) ->
  ends (c, k) Q.
Proof using Hat Hpc Hstack Hroom.
  intros HQ.
  eapply ends_push with (base := base) (l := DO_CALL n) (i := 0%nat); [exact Hat|lia|reflexivity|exact Hstack|cbn; lia|].
  intros p m HF.
  eapply ends_plain with (base := base) (l := DO_CALL n) (i := 1%nat) (ins := Movl (Imm n) EAX); [exact Hat|cbn; lia|reflexivity| |].
  { intros E. cbn [Machine.step]. rewrite E. reflexivity. }
  eapply ends_load with (base := base) (l := DO_CALL n) (i := 2%nat) (j := 2%nat); [exact Hat|cbn; lia|reflexivity|exact HF|done|done|].
  eapply ends_load with (base := base) (l := DO_CALL n) (i := 3%nat) (j := 3%nat); [exact Hat|cbn; lia|reflexivity|exact HF|done|done|].
  eapply ends_load with (base := base) (l := DO_CALL n) (i := 4%nat) (j := 4%nat); [exact Hat|cbn; lia|reflexivity|exact HF|done|done|].
  specialize (HQ p m HF). replace (base + 5) with (Nat.iter 5 Z.succ (eip c)) in HQ by (cbn; lia). exact HQ.
Qed.

(** What the wrapper needs on the program's stack: its EBX and the return address. *)
Definition own_words (x : Z) : Prop := x = sp c - 4 \/ x = sp c.

(** The whole call: the program finds the result in EAX, and all else in the
    processor as it was, but for the registers that the calling convention gives
    away; the memory is as the kernel has left it. *)
Definition answered (v : Z) (k' : kernel) (st : cpu * kernel) : Prop :=
  exists m m0, st = (c <| gpr ::= fun g => g <| r_eax := u32 v |> <| r_ecx := b |> <| r_edx := d |> |>
                    <| sp := sp c + 4 |> <| eip := ret |> <| mem := m |>, k') /\
    (forall x, sp c <= x -> x mod 4 = 0 -> m0 !! x = mem c !! x) /\ after_call (tss_esp0 k) own_words m0 n [a; b; d] k k' m.

Lemma call_answers entry v k' : is_s32 n -> calls_ok (tss_esp0 k) own_words entry [a; b; d] k ->
  SysCall.sys_call entry n k = Some (v, k') -> ends (c, k) (answered v k').
Proof using HL Hat Hpc Hstack Huser Hk Hroom.
  intros Hn Hcalls E. apply call_loads. intros p m HF.
  match goal with |- ends (?x, _) _ => set (c1 := x) end.
  assert (kernel_top c1 k = tss_esp0 k) as Htop by (unfold Machine.kernel_top; change (cs c1) with (cs c); by rewrite Huser).
  assert (s32 (u32 n) = n) as En by (unfold s32, u32, is_s32 in *; Z.to_euclidean_division_equations; lia).
  pose proof Hstack as (_ & Hmax & _).
  eapply ends_bind.
  { apply (int_runs own_words entry base (DO_CALL n) 5 c1 k v k' Hat eq_refl eq_refl (u32_range n)); [| |].
    - split; rewrite Htop; lia.
    - rewrite Htop. exact Hcalls.
    - change (r_eax (gpr c1)) with (u32 n). by rewrite En. }
  intros st (m2 & -> & Hm2). change (r_eax (gpr c1)) with (u32 n) in Hm2. rewrite Htop, En in Hm2.
  change (call_args (gpr c1)) with [a; b; d] in Hm2. change (mem c1) with m in Hm2.
  match goal with |- ends (?x, _) _ => set (c2 := x) end.
  pose proof (frame_sp _ _ _ _ _ HF) as Ep. cbn [length] in Ep.
  assert (frame (sp c + 4) [r_ebx (gpr c); ret] m2 (sp c2) (mem c2)) as HF2.
  { destruct HF as (H4 & Hlt & _ & H0 & Hw & _). change (sp c2) with p. change (mem c2) with m2.
    split; [clear -H4; Z.to_euclidean_division_equations; lia|]. split; [lia|]. split; [cbn [length]; lia|]. split; [lia|]. split; [|done].
    assert (forall j : nat, (j < 2)%nat -> m2 !! (p + 4 * Z.of_nat j) = m !! (p + 4 * Z.of_nat j)) as Hkept.
    { intros j Hj. apply (after_call_kept _ _ _ _ _ _ _ _ _ Hm2); [unfold own_words; lia|lia]. }
    intros [|[|i] ] w Ew; [..|done]; rewrite Hkept by lia; by apply Hw. }
  eapply ends_pop with (base := base) (l := DO_CALL n) (i := 6%nat); [exact Hat|cbn; lia|reflexivity|exact HF2|].
  intros p3 HF3.
  eapply ends_ret with (base := base) (l := DO_CALL n) (i := 7%nat); [exact Hat|cbn; lia|reflexivity|exact HF3|].
  intros p4 HF4. apply ends_now. exists m2, m. split; [|split; [|exact Hm2] ].
  - apply frame_sp in HF4. rewrite HF4. cbn [length]. f_equal.
    replace (sp c + 4 - 4 * Z.of_nat 0) with (sp c + 4) by lia. unfold c2, c1. by destruct c as [ [] ].
  - intros x Hx Hx4. set (p' := u32 (p + 4 * len [r_ebx (gpr c)])).
    pose proof (frame_drop _ [r_ebx (gpr c)] _ _ _ _ HF) as HF5. fold p' in HF5. pose proof (frame_sp _ _ _ _ _ HF5) as E5. cbn [length] in E5.
    apply (frame_same _ _ _ p' _ _ x HF5); [|lia|done]. replace p' with (sp c) by lia. exact Hstack.
Qed.
End call.

End linked.
