(* ===== verification/Start.v ===== *)
(** The first instructions and the static tables: [src/code/boot.S], the
    descriptors of [src/code/x86_desc.S] and the header of
    [src/code/multiboot.h]. *)
From stdpp Require Import base option list numbers gmap.
From Stdlib Require Import ZArith Lia.
From S2P Require Import Prelude LibString Console Printf Idt Machine State SysCall Boot Kernel Stubs.

(** ** boot.S *)

Definition MULTIBOOT_HEADER_FLAGS : Z := 0x00000003.
Definition MULTIBOOT_HEADER_MAGIC : Z := 0x1BADB002.

(** The words in front of the code, by which the loader knows a kernel. *)
Definition multiboot_header : list Z :=
  [MULTIBOOT_HEADER_MAGIC; MULTIBOOT_HEADER_FLAGS; u32 (- (MULTIBOOT_HEADER_MAGIC + MULTIBOOT_HEADER_FLAGS))].

(** [start], placed at [base]; [entry] and [gdt_desc] are addresses. *)
Definition start (base entry gdt_desc : Z) : list (instr Sym.cfun) :=
  [Cli; Jmp (base + 2);
   Lgdt gdt_desc; Ljmp KERNEL_CS (base + 4);
   Movl (Imm 0x800000) ESP;
   Movw KERNEL_DS ECX; MovSeg ECX SS; MovSeg ECX DS; MovSeg ECX ES; MovSeg ECX FS; MovSeg ECX GS;
   Pushl (Reg EBX); Pushl (Reg EAX);
   Call entry;
   Hlt; Jmp (base + 14)].

(** ** x86_desc.S *)

(** A descriptor from the 64 bits of its entry. *)
Definition bits (q lo n : Z) : Z := Z.shiftr q lo mod 2 ^ n.

Definition seg_of_quad (q : Z) : seg_desc_t := {|
  seg_lim_15_00 := bits q 0 16;
  base_15_00 := bits q 16 16;
  base_23_16 := bits q 32 8;
  seg_type := bits q 40 4;
  sys := bits q 44 1;
  seg_dpl := bits q 45 2;
  seg_present := bits q 47 1;
  seg_lim_19_16 := bits q 48 4;
  avail := bits q 52 1;
  reserved := bits q 53 1;
  opsize := bits q 54 1;
  granularity := bits q 55 1;
  base_31_24 := bits q 56 8;
|}.

Definition USER_CS : Z := 0x23.
Definition USER_DS : Z := 0x2B.

(** The table as it is assembled; the last two are filled in by [entry]. *)
Definition gdt : list Z :=
  [0; 0; 0x00CF9A000000FFFF; 0x00CF92000000FFFF; 0x00CFFA000000FFFF; 0x00CFF2000000FFFF; 0; 0].

Definition gdt_limit : Z := 8 * len gdt - 1.
Definition ldt_limit : Z := 8 * 4 - 1.
Definition tss_limit : Z := 104 - 1.
Definition idt_limit : Z := 8 * NUM_VEC - 1.

(** The global table once [entry] has stored the two. *)
Definition the_gdt (tss ldt : Z) (d : seg_desc_t) : list seg_desc_t :=
  take 6 (seg_of_quad <$> gdt) ++ [the_tss_desc tss tss_limit d; the_ldt_desc ldt ldt_limit d].

(** The entry a selector chooses. *)
Definition chosen (selector : Z) (g : list seg_desc_t) : option seg_desc_t := g.[Z.shiftr selector 3].

(** A segment of all 4 gigabytes: 2^20 pages of 4 kilobytes from address 0. *)
Definition flat (type dpl : Z) (d : seg_desc_t) : Prop :=
  seg_base d = 0 /\ seg_limit d = 1048575 /\ granularity d = 1 /\ opsize d = 1 /\ sys d = 1 /\ seg_present d = 1 /\
  seg_type d = type /\ seg_dpl d = dpl.

(** ** Properties *)

(** C38: the selectors the kernel uses are of the segments it means.  The kernel's and
    the programs' code and data segments are flat, executable or writable, of the
    privilege their selector asks for; whatever [entry]'s local structure held
    before, KERNEL_TSS and KERNEL_LDT choose present system segments of types 9 (an
    available task state segment) and 2 whose base is the whole 32-bit address of
    the structure and whose limit is its last byte; and the limits loaded with the
    tables are those of 8 global and 256 interrupt entries. *)
Theorem selectors_choose tss ldt d : is_u32 tss -> is_u32 ldt ->
  (forall selector type dpl,
     (selector, type, dpl) ∈ [(KERNEL_CS, 10, 0); (KERNEL_DS, 2, 0); (USER_CS, 10, 3); (USER_DS, 2, 3)] ->
     exists s, chosen selector (the_gdt tss ldt d) = Some s /\ flat type dpl s /\ rpl selector = dpl) /\
  (forall selector type addr size,
     (selector, type, addr, size) ∈ [(KERNEL_TSS, 9, tss, TSS_SIZE); (KERNEL_LDT, 2, ldt, 32)] ->
     exists s, chosen selector (the_gdt tss ldt d) = Some s /\ seg_base s = addr /\ seg_limit s = size - 1 /\
       seg_present s = 1 /\ sys s = 0 /\ granularity s = 0 /\ seg_type s = type /\ seg_dpl s = 0) /\
  len (the_gdt tss ldt d) = len gdt /\ gdt_limit = 63 /\ idt_limit = 2047.
Proof.
  intros Ht Hl. split_and!; try done.
  - intros selector type dpl H.
    repeat (apply elem_of_cons in H as [[= -> -> ->]|H]; [by eexists|]). by apply elem_of_nil in H.
  - intros selector type addr size H.
    repeat (apply elem_of_cons in H as [[= -> -> -> ->]|H]; [|]); [..|by apply elem_of_nil in H];
      (eexists; split; [reflexivity|]); (split; [by apply seg_params_base|]); (split; [by apply seg_params_limit|done]).
Qed.

Lemma selectors_choose_witness :
  exists s, chosen KERNEL_TSS (the_gdt 0xC0123456 0x400100 (seg_of_quad (-1))) = Some s /\ seg_base s = 0xC0123456 /\ seg_limit s = 103.
Proof.
  destruct (selectors_choose 0xC0123456 0x400100 (seg_of_quad (-1)) ltac:(unfold is_u32; lia) ltac:(unfold is_u32; lia)) as (_ & H & _).
  destruct (H KERNEL_TSS 9 0xC0123456 TSS_SIZE ltac:(by left)) as (s & E & Eb & El & _). exists s. by split_and!.
Defined.

Section booting.
Context (body : Sym.cfun -> cpu -> kernel -> option (cpu * kernel)) (text : Z -> option (instr Sym.cfun)).
Context (table : list Z) (idt : list idt_desc_t).
Local Notation ends := (ends body text table idt KERNEL_DS tss_esp0).
Local Notation reaches := (reaches body text table idt KERNEL_DS tss_esp0).
Local Notation run := (run body text table idt KERNEL_DS tss_esp0).
Context (base entry gdt_desc : Z) (Hat : code_at text base (start base entry gdt_desc)).

(** An instruction of [start] that only computes. *)
Local Ltac calc n instr :=
  eapply ends_plain with (base := base) (l := start base entry gdt_desc) (i := n) (ins := instr);
    [exact Hat|cbn; lia|reflexivity|let E := fresh in intros E; cbn [Machine.step]; rewrite E; reflexivity|].

Local Ltac seg n s :=
  eapply ends_mov_seg with (base := base) (l := start base entry gdt_desc) (i := n) (r := ECX) (t := s) (v := KERNEL_DS);
    [exact Hat|cbn; lia|reflexivity|assumption|].

Definition kernel_segments (c : cpu) : Prop :=
  cs c = KERNEL_CS /\ ss c = KERNEL_DS /\ dsegs c = mkSregs KERNEL_DS KERNEL_DS KERNEL_DS KERNEL_DS.

(** The arguments and the call. *)
Lemma start_calls c k (Q : cpu * kernel -> Prop) : eip c = base + 11 -> sp c = 0x800000 ->
  (forall p m, frame 0x800000 [base + 14; r_eax (gpr c); r_ebx (gpr c)] (mem c) p m ->
     ends (c <| eip := entry |> <| sp := p |> <| mem := m |>, k) Q) ->
  ends (c, k) Q.
Proof using Hat.
  intros Hpc Hsp HQ. assert (frame 0x800000 [] (mem c) (sp c) (mem c)) as HF by (rewrite Hsp; by apply frame_nil).
  eapply ends_push with (base := base) (l := start base entry gdt_desc) (i := 11%nat);
    [exact Hat|lia|reflexivity|exact HF|cbn; lia|]. intros p1 m1 HF1.
  eapply ends_push with (base := base) (l := start base entry gdt_desc) (i := 12%nat);
    [exact Hat|cbn; lia|reflexivity|exact HF1|cbn; lia|]. intros p2 m2 HF2.
  eapply ends_to with (base := base) (l := start base entry gdt_desc) (i := 13%nat);
    [exact Hat|cbn; lia|reflexivity|exact HF2|cbn; lia|]. intros p3 m3 HF3. cbn in HF3.
  replace (Z.succ (Z.succ (eip c)) + 1) with (base + 14) in HF3 by lia. exact (HQ p3 m3 HF3).
Qed.

Lemma low_word x v : (x / 65536 * 65536 + v mod 65536) mod 65536 = v mod 65536.
Proof using. rewrite Z.add_comm, Z_mod_plus_full. by apply Z.mod_mod. Qed.

(** The segment registers, from %cx. *)
Lemma start_segments c k (Q : cpu * kernel -> Prop) : eip c = base + 6 -> r_ecx (gpr c) mod 65536 = KERNEL_DS ->
  ends (c <| eip := base + 11 |> <| ss := KERNEL_DS |> <| dsegs := mkSregs KERNEL_DS KERNEL_DS KERNEL_DS KERNEL_DS |>, k) Q ->
  ends (c, k) Q.
Proof using Hat.
  intros Hpc Hcx HQ.
  seg 6%nat SS. seg 7%nat DS. seg 8%nat ES. seg 9%nat FS. seg 10%nat GS.
  replace (base + 11) with (Nat.iter 5 Z.succ (eip c)) in HQ by (cbn; lia). exact HQ.
Qed.

Lemma start_enters c k : eip c = base ->
  ends (c, k) (fun st => eip st.1 = entry /\ kernel_segments st.1 /\ gdtr st.1 = gdt_desc /\ st.2 = k /\
    Z.testbit (eflags st.1) IF_BIT = false /\
    frame 0x800000 [base + 14; r_eax (gpr c); r_ebx (gpr c)] (mem c) (sp st.1) (mem st.1)).
Proof using Hat.
  intros Hpc. calc 0%nat (@Cli Sym.cfun). calc 1%nat (@Jmp Sym.cfun (base + 2)).
  calc 2%nat (@Lgdt Sym.cfun gdt_desc). calc 3%nat (@Ljmp Sym.cfun KERNEL_CS (base + 4)).
  calc 4%nat (@Movl Sym.cfun (Imm 0x800000) ESP). calc 5%nat (@Movw Sym.cfun KERNEL_DS ECX).
  match goal with |- ends (?x, _) _ => set (c1 := x) end.
  assert (eip c1 = base + 6) as Hpc1 by (unfold c1; cbn; lia).
  apply (start_segments c1 k _ Hpc1 (low_word (r_ecx (gpr c)) KERNEL_DS)).
  match goal with |- ends (?x, _) _ => set (c2 := x) end.
  apply (start_calls c2 k _ eq_refl eq_refl). intros p m HF. apply ends_now.
  split_and!; [done|done|done|done| |exact HF]. by apply (set_flag_eq IF_BIT false (eflags c)).
Qed.
End booting.
