(* ===== verification/Gates.v ===== *)
(** The theorems about the assembly entries and the programs' calls ([Stubs.v],
    [Start.v]), and a system put together by hand to see them at work. *)
From stdpp Require Import base option list numbers gmap.
From Stdlib Require Import ZArith Lia.
From S2P Require Import Prelude LibString FileSystem Console Paging Printf Idt Machine State SysCall Boot Kernel Stubs Start.

(** ** A linked system

    The entries are 64 instructions apart, a program's code at 0x8048000. *)

Definition all_handlers : list handler :=
  [divide_error; single_step; nmi; breakpoint; overflow; bound_range_exceeded; invalid_opcode; dna; double_fault; coproc;
   invalid_tss; snp; ssf; gen_prot; page_fault; math_fault; align_check; machine_check; floatp_excep;
   keyboard; rtc; pit; Idt.sys_call].

Definition all_functions : list Sym.cfun :=
  jump_table ++ [Sym.handle_exception; Sym.keyboard_handler; Sym.rtc_handler; Sym.pit_handler; Sym.entry; Sym.main].

#[export] Instance handler_eq_dec : EqDecision handler.
Proof. solve_decision. Defined.
#[export] Instance cfun_eq_dec : EqDecision Sym.cfun.
Proof. solve_decision. Defined.

Definition index {A} `{EqDecision A} (x : A) (l : list A) : Z :=
  match list_find (x =.) l with Some (i, _) => Z.of_nat i | None => 0 end.

Definition sample_entry (h : handler) : Z := 0x400000 + 64 * index h all_handlers.
Definition sample_loc (f : Sym.cfun) : Z := 0x410000 + index f all_functions.

Definition sample_text (user : list (instr Sym.cfun)) (a : Z) : option (instr Sym.cfun) :=
  if (0x400000 <=? a) && (a <? 0x400000 + 64 * len all_handlers) then
    h ← all_handlers.[(a - 0x400000) / 64]; (entry_of sample_loc (sample_entry h) h).[a mod 64]
  else if (0x410000 <=? a) && (a <? 0x410000 + len all_functions) then
    f ← all_functions.[a - 0x410000]; Some (Body f)
  else user.[a - 0x8048000].

Lemma handler_index h : all_handlers.[index h all_handlers] = Some h /\ 0 <= index h all_handlers < len all_handlers.
Proof. by destruct h. Qed.

Lemma function_index f : all_functions.[index f all_functions] = Some f /\ 0 <= index f all_functions < len all_functions.
Proof. by destruct f. Qed.

Lemma entry_short h base : (length (entry_of sample_loc base h) < 64)%nat.
Proof. destruct h; cbn; lia. Qed.

Lemma sample_entry_at user h : code_at (sample_text user) (sample_entry h) (entry_of sample_loc (sample_entry h) h).
Proof.
  intros i ins E. pose proof (lookup_lt_Some _ _ _ E) as Hi. pose proof (entry_short h (sample_entry h)) as Hs.
  destruct (handler_index h) as [Eh Hr]. assert (sample_entry h = 0x400000 + 64 * index h all_handlers) as Eb by done.
  unfold sample_text. set (n := index h all_handlers) in *. cbn [length all_handlers] in Hr.
  destruct (Z.leb_spec 0x400000 (sample_entry h + Z.of_nat i)); [|lia].
  destruct (Z.ltb_spec (sample_entry h + Z.of_nat i) (0x400000 + 64 * len all_handlers)); [|cbn in *; lia]. cbn [andb].
  assert ((sample_entry h + Z.of_nat i - 0x400000) / 64 = n) as -> by (Z.to_euclidean_division_equations; lia).
  rewrite Eh. cbn [mbind option_bind].
  assert ((sample_entry h + Z.of_nat i) mod 64 = Z.of_nat i) as -> by (Z.to_euclidean_division_equations; lia).
  by rewrite aget_nat.
Qed.

Lemma sample_body_at user f : sample_text user (sample_loc f) = Some (Body f).
Proof. by destruct f. Qed.

Lemma sample_user_at user : code_at (sample_text user) 0x8048000 user.
Proof.
  intros i ins E. unfold sample_text.
  destruct (Z.ltb_spec (0x8048000 + Z.of_nat i) (0x400000 + 64 * len all_handlers)); [cbn in *; lia|]. rewrite andb_false_r.
  destruct (Z.ltb_spec (0x8048000 + Z.of_nat i) (0x410000 + len all_functions)); [cbn in *; lia|]. rewrite andb_false_r.
  replace (0x8048000 + Z.of_nat i - 0x8048000) with (Z.of_nat i) by lia. by rewrite aget_nat.
Qed.

Definition sample_idt : list idt_desc_t := default [] (initialize_idt sample_entry (replicate 256 zero_gate)).

Lemma sample_linked user : linked sample_entry sample_loc (sample_text user) sample_idt.
Proof.
  split.
  - intros h. destruct (handler_index h) as [_ Hr]. cbn [length all_handlers] in Hr. unfold is_u32, sample_entry. lia.
  - apply sample_entry_at.
  - apply sample_body_at.
  - vm_compute. reflexivity.
Qed.

(** A C function that answers at once. *)
Definition answering (v : Z) (f : Sym.cfun) (c : cpu) (k : kernel) : option (cpu * kernel) :=
  '(ret, c) ← pop c; Some (c <| eip := ret |> <| gpr := mkRegs v 0 0 0 0 0 0 |> <| eflags := 0 |>, k).

Lemma answering_comes_back v top keep f args k : comes_back (answering v) top keep f args k v k.
Proof.
  intros c ret ws m0 HF. destruct (pop_ok _ _ _ _ _ HF) as (p & E & HF1). unfold answering. rewrite E.
  eexists (mkRegs v 0 0 0 0 0 0), 0, p, (mem c), args. split; [by destruct c|]. split; [done|]. split; [done|].
  split; [by eapply frame_own|done].
Qed.

(** A C function that writes the word [w] at its second argument, a buffer of the
    program, and answers. *)
Definition writing (v w : Z) (f : Sym.cfun) (c : cpu) (k : kernel) : option (cpu * kernel) :=
  buf ← load (u32 (sp c + 8)) (mem c); m ← store buf w (mem c); answering v f (c <| mem := m |>) k.

Lemma writing_comes_back v w top keep f x buf args k :
  buf mod 4 = 0 -> top <= buf -> ~ keep buf -> comes_back (writing v w) top keep f (x :: buf :: args) k v k.
Proof.
  intros Hb Ht Hk c ret ws m0 HF. unfold writing. cbn [app] in HF.
  rewrite (peek_ok _ _ _ _ _ 2 _ 8 HF eq_refl eq_refl). cbn [mbind option_bind]. unfold store. rewrite Hb. cbn [Z.eqb mbind option_bind].
  set (m := <[buf := w]> (mem c)). set (c1 := c <| mem := m |>).
  assert (frame top (ret :: (x :: buf :: args) ++ ws) m (sp c1) m) as HF1.
  { destruct HF as (H4 & Hlt & Hp & H0 & Hw & _). split_and!; try done. intros i y Ey. unfold m.
    apply lookup_lt_Some in Ey as Hi. cbn [app length] in Hi, Hp.
    rewrite lookup_insert_ne by (change (sp c1) with (sp c); lia). by apply Hw. }
  destruct (answering_comes_back v top (fun _ => False) f _ k c1 ret ws m HF1) as (g & fl & p & m' & args' & E & Hg & Hl & HF2 & _).
  rewrite E. exists g, fl, p, m', args'. unfold answering in E. destruct (pop_ok _ _ _ _ c1 HF1) as (p' & E' & _).
  rewrite E' in E. injection E as _ _ _ <-. split; [done|]. split; [done|]. split; [done|]. split; [done|].
  intros a Ha. apply lookup_insert_ne. by intros <-.
Qed.

(** A program in user mode, about to run what is at 0x8048000, its stack below the
    top of its page. *)
Definition sample_cpu : cpu :=
  mkCpu (mkRegs 1 2 3 4 5 6 7) 0x83FFFE0 0x8048000 0x202 USER_CS USER_DS (mkSregs USER_DS USER_DS USER_DS USER_DS) 0
    (list_to_map [(0x83FFFE0, 0x8048100); (0x83FFFE4, 11); (0x83FFFE8, 22); (0x83FFFEC, 33)]).

(** The same program, its buffer behind the arguments. *)
Definition sample_reader : cpu := sample_cpu <| mem := list_to_map
  [(0x83FFFE0, 0x8048100); (0x83FFFE4, 2); (0x83FFFE8, 0x83FFFF4); (0x83FFFEC, 4); (0x83FFFF4, 0)] |>.

Definition sample_process : kernel := sample_off <| tss_esp0 := 0x7FFFFC |>.

Lemma sample_has_stack n : n <= 100 -> has_stack tss_esp0 n sample_cpu sample_process.
Proof. intros H. split; [reflexivity|]. change (kernel_top tss_esp0 sample_cpu sample_process) with 0x7FFFFC. lia. Qed.

(** ** Properties *)

Section gates.
Context (body : Sym.cfun -> cpu -> kernel -> option (cpu * kernel)).
Context (addr : handler -> Z) (loc : Sym.cfun -> Z) (text : Z -> option (instr Sym.cfun)) (idt : list idt_desc_t).
Local Notation interrupt := (interrupt idt KERNEL_DS tss_esp0).
Local Notation ends := (ends body text (jumps loc) idt KERNEL_DS tss_esp0).
Local Notation reaches := (reaches body text (jumps loc) idt KERNEL_DS tss_esp0).

(** C15: an interrupt of the keyboard, the clock or the timer is invisible to the
    processor of what it interrupts, a program or the kernel.  The processor goes to
    the handler's entry in kernel mode; and when the C handler comes back, having
    left the words of its own kernel stack above its arguments alone (whatever it
    has left in the registers and in the rest of memory: a process that was put
    aside comes back after others have run), the entry ends in exactly the
    interrupted state, every register, flag, segment and the stack pointer, with
    what the handler did to the kernel.  The memory is what the handler left, called
    on a memory that was the interrupted one from the top of the kernel's stack on:
    the entries themselves write below it only. *)
Theorem interrupts_invisible v h f args c k r k' :
  linked addr loc text idt -> device v h f args -> has_stack tss_esp0 16 c k ->
  comes_back body (kernel_top tss_esp0 c k) nowhere f args k r k' ->
  exists c1 m, interrupt false v None c k = Some c1 /\ eip c1 = addr h /\ rpl (cs c1) = 0 /\
    reaches (c1, k) (c <| mem := m |>, k') /\
    exists cc cf, body f cc k = Some (cf, k') /\ mem cf = m /\ forall a, kernel_top tss_esp0 c k <= a -> mem cc !! a = mem c !! a.
Proof.
  intros HL Hd Hs Hf. destruct (device_assigned v h f args Hd) as [Eh Hv].
  destruct (enters addr loc text idt HL false v h None c k ltac:(lia) Eh ltac:(done) (has_stack_le _ 6 16 c k ltac:(lia) Hs))
    as (c1 & Ei & Hg & Hds & Hgd & Hcs & Hss & Hpc & _ & HF).
  destruct (device_resumes body addr loc text idt HL v h f args c c1 k r k' Hd Hf ltac:(by split_and!) Hs)
    as (st & HR & m & -> & cc & cf & ret & ws & HFc & Eb & Em & _).
  exists c1, m. split; [done|]. split; [done|]. split; [done|]. split; [done|]. exists cc, cf. split; [done|]. split; [done|].
  intros a Ha. by eapply frame_above.
Qed.

(** C14: what a program gets from its call library is what the C model's [sys_call]
    says.  The wrapper of any call number, run from its first instruction in user
    mode, ends behind its call with the kernel's answer in EAX and the kernel in the
    state [sys_call] leaves, the three arguments having reached the C function as its
    first three; EBX, EBP, ESI, EDI, the flags, the segments and the stack pointer
    are as they should be; a number outside 1 to 10 answers -1.  Of the C function it
    is asked that it leaves its own kernel stack above its arguments and the two
    words of the program's stack that the wrapper still needs (EBX and the return
    address); it may write anywhere else, the caller's buffers on the stack
    included: the program finds the memory as the function left it, called on a
    memory that was the program's from its stack pointer on. *)
Theorem programs_call_the_kernel entry n base ret a b d c k v k' :
  linked addr loc text idt -> code_at text base (DO_CALL n) -> eip c = base -> is_s32 n -> rpl (cs c) = 3 ->
  frame (sp c + 16) [ret; a; b; d] (mem c) (sp c) (mem c) ->
  tss_esp0 k mod 4 = 0 -> 96 <= tss_esp0 k <= sp c - 4 ->
  (forall i f v k', (jump_table).[i - 1] = Some f -> entry i k = Some (v, k') ->
     comes_back body (tss_esp0 k) (fun x => x = sp c - 4 \/ x = sp c) f [a; b; d] k (u32 v) k') ->
  SysCall.sys_call entry n k = Some (v, k') ->
  exists m, reaches (c, k) (c <| gpr ::= fun g => g <| r_eax := u32 v |> <| r_ecx := b |> <| r_edx := d |> |>
      <| sp := sp c + 4 |> <| eip := ret |> <| mem := m |>, k') /\
    if (SYS_MAX <? n) || (n <? 1) then forall x, sp c <= x -> x mod 4 = 0 -> m !! x = mem c !! x
    else exists f cc cf, jump_table.[n - 1] = Some f /\ body f cc k = Some (cf, k') /\ mem cf = m /\
      (forall i w, [a; b; d] !! i = Some w -> load (u32 (sp cc + 4 * Z.of_nat (i + 1))) (mem cc) = Some w) /\
      forall x, sp c <= x -> x mod 4 = 0 -> mem cc !! x = mem c !! x.
Proof.
  intros HL Hat Hpc Hn Hu HF Hk Hroom Hcalls E.
  destruct (call_answers body addr loc text idt HL n base ret a b d c k Hat Hpc HF Hu Hk Hroom entry v k' Hn Hcalls E)
    as (st & HR & m & m0 & -> & Hm0 & Hm). exists m. split; [exact HR|]. unfold after_call in Hm.
  destruct ((SYS_MAX <? n) || (n <? 1)).
  - intros x Hx Hx4. by rewrite Hm, Hm0 by lia.
  - destruct Hm as (f & Ef & cc & cf & ret' & ws & HFc & Eb & Em & _). exists f, cc, cf. split; [done|]. split; [done|]. split; [done|].
    split.
    + intros i w Ei. apply (peek_ok _ _ _ _ _ (i + 1) w _ HFc); [|done]. rewrite Nat.add_1_r.
      exact (lookup_app_l_Some [a; b; d] ws i w Ei).
    + intros x Hx Hx4. rewrite <- Hm0 by done. apply (frame_above _ _ _ _ _ _ HFc). lia.
Qed.

(** C16: what becomes of an exception.  From any interrupted state the processor gets
    to [handle_exception] with interrupts off, the exception's number as the first
    argument and, as the second, 0xFFFFFFFF for the exceptions without an error code
    and 0 for those with one, whatever the code is: the processor's is never passed
    on.  Above the arguments are the eight saved registers, and above those, where
    the entry's [iret] would look for the address to go on at, there is that address
    for an exception without a code, but the code for one with. *)
Theorem exceptions_lose_their_code v h err c k :
  linked addr loc text idt -> 0 <= v < NUM_EXCEPTIONS -> assigned handler_table v = Some h ->
  has_stack tss_esp0 20 c k ->
  exists c1, interrupt false v err c k = Some c1 /\
    ends (c1, k) (fun st => exists ret, eip st.1 = loc Sym.handle_exception /\ Z.testbit (eflags st.1) IF_BIT = false /\
      st.2 = k /\ load (sp st.1) (mem st.1) = Some ret /\ load (u32 (sp st.1 + 4)) (mem st.1) = Some v /\
      load (u32 (sp st.1 + 8)) (mem st.1) = Some (if has_code v then 0 else 4294967295) /\
      load (u32 (sp st.1 + 44)) (mem st.1) = Some (match err with Some e => e | None => eip c end)).
Proof.
  intros HL Hv Eh Hs. destruct (enters addr loc text idt HL false v h err c k ltac:(unfold NUM_EXCEPTIONS in *; lia) Eh
    ltac:(done) (has_stack_le _ 6 20 c k ltac:(lia) Hs)) as (c1 & Ei & _).
  exists c1. split; [exact Ei|].
  destruct (exception_calls body addr loc text idt HL v h err c c1 k Hv Eh Hs Ei) as (st & HR & ret & Hpc & Hif & Hk & HF).
  exists st. split; [exact HR|]. exists ret. split_and!; try done.
  - destruct (pop_ok _ _ _ _ _ HF) as (p & E & _). unfold pop in E. by destruct (load _ _); simplify_eq/=.
  - rewrite (peek_ok _ _ _ _ _ 1 _ 4 HF eq_refl eq_refl). f_equal. apply u32_small. unfold is_u32, NUM_EXCEPTIONS in *. lia.
  - rewrite (peek_ok _ _ _ _ _ 2 _ 8 HF eq_refl eq_refl). unfold code_given. by destruct (has_code v).
  - apply (peek_ok _ _ _ _ _ 11 _ 44 HF); [by destruct err|reflexivity].
Qed.

(** C37: from the boot loader to [entry].  The words in front of the code are a
    multiboot header: they add up to 0; and from the first instruction, whatever the
    registers hold, the processor gets to the C function with interrupts off, the
    loaded table and its kernel segments in every segment register, a stack from 8 megabytes
    down, and there the loader's EAX and EBX, the magic number and the address, as its two arguments. *)
Theorem boot_calls_entry base gdt_desc c k :
  code_at text base (start base (loc Sym.entry) gdt_desc) -> eip c = base -> text (loc Sym.entry) = Some (Body Sym.entry) ->
  u32 (foldr Z.add 0 multiboot_header) = 0 /\
  ends (c, k) (fun st => text (eip st.1) = Some (Body Sym.entry) /\ kernel_segments st.1 /\ gdtr st.1 = gdt_desc /\ st.2 = k /\
    Z.testbit (eflags st.1) IF_BIT = false /\ sp st.1 = 0x800000 - 12 /\
    load (u32 (sp st.1 + 4)) (mem st.1) = Some (r_eax (gpr c)) /\ load (u32 (sp st.1 + 8)) (mem st.1) = Some (r_ebx (gpr c))).
Proof.
  intros Hat Hpc Het. split; [reflexivity|].
  destruct (start_enters body text (jumps loc) idt base (loc Sym.entry) gdt_desc Hat c k Hpc) as (st & HR & Hpc' & Hseg & Hg & Hk & Hif & HF).
  exists st. split; [exact HR|]. rewrite Hpc'. split_and!; try done.
  - exact (frame_sp _ _ _ _ _ HF).
  - exact (peek_ok _ _ _ _ _ 1 _ 4 HF eq_refl eq_refl).
  - exact (peek_ok _ _ _ _ _ 2 _ 8 HF eq_refl eq_refl).
Qed.
End gates.

Lemma interrupts_invisible_witness :
  exists c1 m, interrupt sample_idt KERNEL_DS tss_esp0 false 0x21 None sample_cpu sample_process = Some c1 /\
    eip c1 = 0x4004C0 /\
    reaches (answering 77) (sample_text []) (jumps sample_loc) sample_idt KERNEL_DS tss_esp0 (c1, sample_process)
      (sample_cpu <| mem := m |>, sample_process).
Proof.
  destruct (interrupts_invisible (answering 77) sample_entry sample_loc (sample_text []) sample_idt 0x21 keyboard
    Sym.keyboard_handler [0x21] sample_cpu sample_process 77 sample_process (sample_linked []) device_keyboard
    (sample_has_stack 16 ltac:(lia)) (answering_comes_back 77 _ _ _ _ _)) as (c1 & m & Ei & Hpc & _ & HR & _).
  exists c1, m. split; [exact Ei|]. split; [exact Hpc|exact HR].
Defined.

(** sys_read into a buffer on the program's stack, here of one word. *)
Lemma programs_call_the_kernel_witness :
  exists m, reaches (writing 4 0x2E2E2E2E) (sample_text (DO_CALL SYS_READ)) (jumps sample_loc) sample_idt KERNEL_DS tss_esp0
    (sample_reader, sample_process)
    (mkCpu (mkRegs 4 0x83FFFF4 4 4 5 6 7) 0x83FFFE4 0x8048100 0x202 USER_CS USER_DS
       (mkSregs USER_DS USER_DS USER_DS USER_DS) 0 m, sample_process).
Proof.
  set (entry := fun (i : Z) (k : kernel) => if i =? 3 then Some (4, k) else None).
  destruct (programs_call_the_kernel (writing 4 0x2E2E2E2E) sample_entry sample_loc (sample_text (DO_CALL SYS_READ)) sample_idt
    entry SYS_READ 0x8048000 0x8048100 2 0x83FFFF4 4 sample_reader sample_process 4 sample_process) as (m & HR & _);
    [apply sample_linked|apply sample_user_at|reflexivity|unfold is_s32, SYS_READ; lia|reflexivity| |reflexivity|cbn; lia| |reflexivity|].
  - split; [reflexivity|]. split; [reflexivity|]. split; [reflexivity|]. split; [cbn; lia|]. split; [|done].
    intros [|[|[|[|i] ] ] ] w E; cbn in E; simplify_eq; reflexivity.
  - intros i f v k' _ E. unfold entry in E. destruct (i =? 3); [|discriminate E]. injection E as <- <-.
    apply writing_comes_back; [reflexivity|cbn; lia|cbn; lia].
  - exists m. exact HR.
Defined.

(** A page fault with error code 5. *)
Lemma exceptions_lose_their_code_witness :
  exists c1, interrupt sample_idt KERNEL_DS tss_esp0 false 14 (Some 5) sample_cpu sample_process = Some c1 /\
    exists st, reaches (answering 0) (sample_text []) (jumps sample_loc) sample_idt KERNEL_DS tss_esp0 (c1, sample_process) st /\
      load (u32 (sp st.1 + 4)) (mem st.1) = Some 14 /\ load (u32 (sp st.1 + 8)) (mem st.1) = Some 0 /\
      load (u32 (sp st.1 + 44)) (mem st.1) = Some 5.
Proof.
  destruct (exceptions_lose_their_code (answering 0) sample_entry sample_loc (sample_text []) sample_idt 14 page_fault (Some 5)
    sample_cpu sample_process (sample_linked []) ltac:(unfold NUM_EXCEPTIONS; lia) eq_refl
    (sample_has_stack 20 ltac:(lia))) as (c1 & Ei & (st & HR & ret & _ & _ & _ & _ & H1 & H2 & H3)).
  exists c1. split; [exact Ei|]. exists st. split; [exact HR|]. split; [exact H1|]. split; [exact H2|exact H3].
Defined.

Lemma boot_calls_entry_witness :
  u32 (foldr Z.add 0 multiboot_header) = 0 /\
  exists st, reaches (answering 0) (sample_text (start 0x8048000 (sample_loc Sym.entry) 0x400100)) (jumps sample_loc) sample_idt
    KERNEL_DS tss_esp0 (sample_cpu, sample_process) st /\ sp st.1 = 0x7FFFF4 /\ load (u32 (sp st.1 + 4)) (mem st.1) = Some 1.
Proof.
  destruct (boot_calls_entry (answering 0) sample_loc (sample_text (start 0x8048000 (sample_loc Sym.entry) 0x400100)) sample_idt
    0x8048000 0x400100 sample_cpu sample_process (sample_user_at _) eq_refl (sample_body_at _ _))
    as (H & st & HR & _ & _ & _ & _ & _ & Hsp & H1 & _).
  split; [exact H|]. exists st. split; [exact HR|]. split; [exact Hsp|exact H1].
Defined.
