(* ===== verification/Interleave.v ===== *)
(** Programs, calls and interrupts interleaved.

    [Os.v] serves any sequence of events and calls.  Here is what that says of one
    program: what happens elsewhere leaves it as it is ([elsewhere]), and a read of
    the keyboard that has to wait gets the line that is there in the end, whatever
    the other programs and the interrupts did in between ([turns_pass]). *)
From stdpp Require Import base option list numbers gmap.
From Stdlib Require Import ZArith Lia.
From S2P Require Import Prelude LibString FileSystem Console I8259 Keyboard Paging Rtc Printf Idt State Terminal Desks Frame FileOps SysCall Process Scheduler Family System Files Calls Os Boot Startup Kernel.

(** ** What the other terminals do *)

(** A process without the kernel registers of its last switch. *)
Definition seat (p : proc) : Z * Z * list Z := (p_pid p, p_frame p, p_args p).

(** Terminal [t]'s processes are as before, with what they have open and their
    clock rates. *)
Record undisturbed (t : Z) (O O' : os) : Prop := {
  ud_seats : seat <$> m_procs (o_mach O') t = seat <$> m_procs (o_mach O) t;
  ud_open : forall j, j ∈ (p_pid <$> m_procs (o_mach O) t) -> o_open O' j = o_open O j;
  ud_rate : forall j, j ∈ (p_pid <$> m_procs (o_mach O) t) -> o_rate O' j = o_rate O j;
}.

(** Not a step of the program that runs. *)
Definition from_outside (e : os_event) : bool :=
  match e with Sys (Input (Key _)) | Sys System.Clock | Sys (Tick _ _ _) => true | _ => false end.

Section elsewhere.
Context (F : afs).

(** Whenever terminal [t] has the processor, only interrupts happen. *)
Fixpoint elsewhere (t : Z) (es : list os_event) (O : os) : Prop :=
  match es with
  | [] => True
  | e :: es => (from_outside e = true \/ running (o_mach O) <> t) /\ elsewhere t es (next F e O)
  end.

(** ** A read that waits

    A turn begins when the reader's interrupts come on and is over when the
    processor is back at its terminal.  While the reader polls, a turn comes only
    after a look that found no line. *)
Fixpoint turns_pass (polling : bool) (ts : list (list os_event)) (O : os) : Prop :=
  match ts with
  | [] => True
  | es :: ts => (polling = true -> line_ready (m_desks (o_mach O)) = false) /\ os_events_ok F es O /\
      elsewhere (running (o_mach O)) es O /\ running (o_mach (after F es O)) = running (o_mach O) /\
      turns_pass polling ts (after F es O)
  end.

Definition after_turns (ts : list (list os_event)) (O : os) : os := foldl (fun O es => after F es O) O ts.
End elsewhere.

(** What happens between two looks, as the poll sees it: one change of the state. *)
Definition turn (d0 : dentry_t) (es : list os_event) : interrupt :=
  fun k => '(_, k) ← run_os_all d0 es k; Some k.

(** ** Lemmas *)

Lemma undisturbed_refl t O : undisturbed t O O.
Proof. done. Qed.

Lemma seats_pids (l l' : list proc) : seat <$> l = seat <$> l' -> p_pid <$> l = p_pid <$> l'.
Proof.
  intros H. apply (f_equal (fmap (fun s : Z * Z * list Z => s.1.1))) in H.
  by rewrite <- !list_fmap_compose in H.
Qed.

Lemma undisturbed_trans t O1 O2 O3 : undisturbed t O1 O2 -> undisturbed t O2 O3 -> undisturbed t O1 O3.
Proof.
  intros [Hs Ho Hr] [Hs' Ho' Hr']. split; [by rewrite Hs'|..]; intros j Hj.
  - rewrite Ho'; [by apply Ho|]. by rewrite (seats_pids _ _ Hs).
  - rewrite Hr'; [by apply Hr|]. by rewrite (seats_pids _ _ Hs).
Qed.

(** Only the desks, the clock or the directory's position have changed. *)
Lemma undisturbed_same t O O' :
  m_procs (o_mach O') = m_procs (o_mach O) -> o_open O' = o_open O -> o_rate O' = o_rate O -> undisturbed t O O'.
Proof. intros E1 E2 E3. split; [by rewrite E1|intros; by rewrite ?E2, ?E3..]. Qed.

(** Processes in front of the same chain of blocks are the same. *)
Lemma chain_seats pb pb' (l : list proc) : forall l' : list proc, seat <$> l' = seat <$> l -> chain pb l -> chain pb' l' ->
  forall j, j ∈ (p_pid <$> l) -> exists b b' args, pb.[j] = Some b /\ pb'.[j] = Some b' /\
    parent_pid b' = parent_pid b /\ ebp b' = ebp b /\ cstring (cmd_args b) 0 args /\ cstring (cmd_args b') 0 args.
Proof.
  induction l as [|p l IH]; intros [|p' l'] E Hc Hc' j Hj; [by apply elem_of_nil in Hj|discriminate E..|].
  cbn [fmap list_fmap] in *. injection E as Ep Ef Ea El. destruct Hc as [ (b & Eb & Hb) Hc], Hc' as [ (b' & Eb' & Hb') Hc'].
  apply elem_of_cons in Hj as [->|Hj]; [|by apply (IH l' El Hc Hc')].
  exists b, b', (p_args p). split; [done|]. split; [by rewrite <- Ep|].
  rewrite (bi_parent _ _ _ Hb), (bi_parent _ _ _ Hb'), (bi_frame _ _ _ Hb), (bi_frame _ _ _ Hb'), Ef.
  split; [|split; [done|]; split; [apply Hb|rewrite <- Ea; apply Hb'] ].
  apply seats_pids in El. destruct l as [|q l], l' as [|q' l']; try discriminate El; [done|]. by injection El.
Qed.

Lemma clock_steps_rate F n O : o_rate (Nat.iter n (clock_step F) O) = o_rate O.
Proof. induction n as [|n IH]; [done|exact IH]. Qed.

Section steps.
Context (A B : Z) (F : afs) (room : Z) (d0 : dentry_t) (HB : bootable F room).
Notation serves := (serves A B F room).

Lemma free_pid_fresh P i : free_pid P = Some i -> i ∉ stacks_pids P.
Proof.
  intros H Hin. apply List.find_some in H as [_ H]. apply negb_true_iff in H.
  assert (existsb (Z.eqb i) (stacks_pids P) = true) as E; [|congruence].
  apply existsb_exists. exists i. split; [by apply list_elem_of_In|apply Z.eqb_refl].
Qed.

(** The running process is on no other terminal. *)
Lemma pid_elsewhere k M t j : models A B F room k M -> 0 <= t < NUM_TERMS -> running M <> t ->
  j ∈ (p_pid <$> m_procs M t) -> j <> pid_of M.
Proof.
  intros Hm Ht Hne Hj ->. pose proof (mo_family _ _ _ _ _ _ Hm) as HF.
  destruct (family_cur _ _ _ _ _ _ HF) as (p & l & E & Ec). unfold pid_of in Hj. rewrite E in Hj. cbn [parent_of] in Hj.
  pose proof (pop_pids _ _ p l (fa_running _ _ _ _ _ _ HF) E (fa_distinct _ _ _ _ _ _ HF) (p_pid p)) as [H _].
  destruct H as [H _]; [|done]. apply elem_pids. exists t. split; [done|].
  by rewrite upd_stack_ne by congruence.
Qed.

Lemma undisturbed_own k O t m n r :
  serves k O -> 0 <= t < NUM_TERMS -> running (o_mach O) <> t -> undisturbed t O (with_own m n r O).
Proof.
  intros HS Ht Hne. split; [done|..]; intros j Hj; cbn; apply upd_at_ne;
    by apply (pid_elsewhere k _ t _ (sv_models _ _ _ _ _ _ HS) Ht Hne).
Qed.

Lemma halted_undisturbed k O O1 t status st :
  serves k O -> o_open O1 = o_open O -> o_rate O1 = o_rate O -> m_procs (o_mach O1) = m_procs (o_mach O) ->
  running (o_mach O1) = running (o_mach O) ->
  0 <= t < NUM_TERMS -> running (o_mach O) <> t -> undisturbed t O (halted F status st O1).
Proof.
  intros HS Eo Er Ep Erun Ht Hne.
  assert (forall j, j ∈ (p_pid <$> m_procs (o_mach O) t) -> j <> pid_of (o_mach O1)) as Hpid.
  { intros j Hj. unfold pid_of. rewrite Ep, Erun. exact (pid_elsewhere k _ t j (sv_models _ _ _ _ _ _ HS) Ht Hne Hj). }
  unfold halted, spec_halt. rewrite !Erun, !Ep.
  destruct (m_procs (o_mach O) (running (o_mach O))) as [|p [|q l] ]; split; cbn [o_mach o_open o_rate snd m_procs];
    rewrite ?Eo, ?Er, ?Ep; try done; intros;
    repeat case_match; cbn [snd m_procs]; rewrite ?Ep, ?upd_at_ne, ?upd_stack_ne by (by apply Hpid || done || congruence); done.
Qed.

(** A step from outside, or of a program elsewhere. *)
Lemma next_undisturbed k O t e :
  serves k O -> 0 <= t < NUM_TERMS -> from_outside e = true \/ running (o_mach O) <> t ->
  undisturbed t O (next F e O).
Proof.
  intros HS Ht He. assert (forall O', O' = O -> undisturbed t O O') as Hid by (by intros ? ->).
  destruct e as [ [e| |k_esp k_ebp st|command s st|status st|junk id err_code msg st]|c];
    cbn [next next_sys spec_step].
  - by apply undisturbed_same.
  - by apply undisturbed_same.
  - split; [|done..]. cbn [with_mach o_mach]. unfold spec_tick.
    destruct (m_procs (o_mach O) (running (o_mach O))) as [|p l] eqn:E; [done|].
    destruct (m_procs (o_mach O) (next_of _)); [done|]. cbn [snd m_procs].
    destruct (Z.eq_dec t (running (o_mach O))) as [->|Hne]; [by rewrite upd_stack_eq, E|by rewrite upd_stack_ne].
  - destruct He as [He|Hne]; [done|]. unfold spec_exec.
    destruct (executable F (command_name s)) as [ [ino c]|]; [|by apply undisturbed_same].
    destruct (free_pid (m_procs (o_mach O))) as [i|] eqn:Ei; [|by apply undisturbed_same].
    split; cbn [o_mach o_open o_rate with_mach snd m_procs]; [by rewrite upd_stack_ne by congruence| |done].
    intros j Hj. apply upd_at_ne. intros ->. apply (free_pid_fresh _ _ Ei). apply elem_pids. by exists t.
  - destruct He as [He|Hne]; [done|]. by eapply halted_undisturbed.
  - destruct He as [He|Hne]; [done|]. by eapply halted_undisturbed.
  - destruct He as [He|Hne]; [done|]. destruct c as [buf nbytes|name nm|fd|fd buf nbytes|fd buf nbytes|p]; cbn [next_call].
    + by apply Hid.
    + by eapply undisturbed_own.
    + destruct (_ !! fd); [by eapply undisturbed_own|by apply Hid].
    + destruct (fd =? 0); [by apply undisturbed_same|].
      destruct (_ !! fd) as [ [c pos| |]|]; [by eapply undisturbed_own|by eapply undisturbed_own| |by apply Hid].
      destruct (clock_steps_own F (waits_for (m_clock (o_mach O)) (o_rate O (pid_of (o_mach O)))) O) as (E1 & E2 & _).
      by apply undisturbed_same; [..|apply clock_steps_rate].
    + destruct (fd =? 1); [by apply undisturbed_same|].
      destruct (_ !! fd) as [ [c pos| |]|]; try (by apply Hid). destruct (ld32 buf 0); [|by apply Hid].
      case_decide; [by eapply undisturbed_own|by apply Hid].
    + by apply Hid.
Qed.

Lemma steps_undisturbed t es : 0 <= t < NUM_TERMS -> forall k O,
  serves k O -> os_events_ok F es O -> elsewhere F t es O -> undisturbed t O (after F es O).
Proof.
  intros Ht. induction es as [|e es IH]; intros k O HS Hok He; [done|]. destruct Hok as [He' Hok], He as [Hf He].
  destruct (serves_step A B F room d0 HB e k O HS He') as (r & k1 & _ & _ & HS1).
  eapply undisturbed_trans; [by eapply next_undisturbed|]. exact (IH k1 _ HS1 Hok He).
Qed.

(** The reader's terminal has the processor again, so the reader has. *)
Lemma undisturbed_pid t O O' : undisturbed t O O' -> running (o_mach O) = t -> running (o_mach O') = t ->
  pid_of (o_mach O') = pid_of (o_mach O) /\ args_of (o_mach O') = args_of (o_mach O).
Proof.
  intros [Hs _ _] Er Er'. unfold pid_of, args_of. rewrite Er, Er'.
  destruct (m_procs (o_mach O) t) as [|p l], (m_procs (o_mach O') t) as [|p' l']; try discriminate Hs; [done|].
  cbn in Hs. injection Hs as Ep _ Ea _. by split.
Qed.

Lemma serves_sti k O : serves k O -> serves (sti k) O.
Proof. intros [ [HR HD [] Hroom Hrtc Hclock Hinit HF] Ho Hi Hx Hr Hc]. split; try done. split; try done. by apply implements_sti. Qed.

Lemma serves_done_typing k O : serves k O -> done_typing k = Some (line_ready (m_desks (o_mach O))).
Proof.
  intros HS. pose proof (mo_desks _ _ _ _ _ _ (sv_models _ _ _ _ _ _ HS)) as I.
  by rewrite (done_typing_line k _ (desk_line _ _ _ k _ I)), (im_shown _ _ _ _ _ I), (im_running _ _ _ _ _ I).
Qed.

(** Turns, as interrupts. *)
Lemma turn_pass es k O :
  serves k O -> os_events_ok F es O -> elsewhere F (running (o_mach O)) es O ->
  exists k', turn d0 es k = Some k' /\ serves k' (after F es O) /\ undisturbed (running (o_mach O)) O (after F es O).
Proof.
  intros HS Hok He. destruct (serves_steps A B F room d0 HB es k O HS Hok) as (rs & k' & E & _ & HS').
  exists k'. unfold turn. rewrite E. split; [done|]. split; [done|].
  eapply steps_undisturbed; [|exact HS|done|done].
  apply (fa_running _ _ _ _ _ _ (mo_family _ _ _ _ _ _ (sv_models _ _ _ _ _ _ HS))).
Qed.

Definition turns_over (ts : list (list os_event)) (O O' : os) : Prop :=
  O' = after_turns F ts O /\ running (o_mach O') = running (o_mach O) /\ undisturbed (running (o_mach O)) O O'.

Lemma turns_over_cons es ts O O' :
  running (o_mach (after F es O)) = running (o_mach O) -> undisturbed (running (o_mach O)) O (after F es O) ->
  turns_over ts (after F es O) O' -> turns_over (es :: ts) O O'.
Proof.
  intros Hrun Hu (-> & Hrun' & Hu'). split; [done|]. rewrite Hrun in *. split; [done|].
  by eapply undisturbed_trans.
Qed.

(** The poll, turn by turn, and what slips in after it. *)
Lemma poll_turns ts : forall k O,
  serves k O -> turns_pass F true ts O -> line_ready (m_desks (o_mach (after_turns F ts O))) = true ->
  exists k', terminal_read_poll (turn d0 <$> ts) k = Some (k', []) /\ serves k' (after_turns F ts O) /\
    turns_over ts O (after_turns F ts O).
Proof.
  unfold terminal_read_poll.
  match goal with |- context [iterate _ ?b _] => set (body := b) end.
  assert (forall n k O, (length ts < n)%nat -> serves k O -> turns_pass F true ts O ->
    line_ready (m_desks (o_mach (after_turns F ts O))) = true ->
    exists k', iterate n body (k, turn d0 <$> ts) = Some (k', []) /\ serves k' (after_turns F ts O) /\
    turns_over ts O (after_turns F ts O)) as H;
    [|intros k O HS Hw Hl; apply H; [rewrite length_fmap; lia|done..] ].
  induction ts as [|es ts IH]; intros [|n] k O Hn HS Hw Hl; cbn [length] in Hn; try lia; rewrite iterate_S; unfold body at 2;
    cbn [fmap list_fmap turns_pass] in *; rewrite (serves_done_typing k O HS); cbn [mbind option_bind].
  - change (after_turns F [] O) with O in Hl. rewrite Hl. exists (sti k). split; [done|]. split; [by apply serves_sti|done].
  - destruct Hw as (-> & Hok & Hel & Hrun & Hw); [|done].
    destruct (turn_pass es (sti k) O (serves_sti _ _ HS) Hok Hel) as (k1 & -> & HS1 & Hu). cbn [mbind option_bind].
    destruct (IH n k1 (after F es O)) as (k' & E' & HS' & Hover); [lia|done..|].
    exists k'. split; [exact E'|]. split; [exact HS'|]. by eapply turns_over_cons.
Qed.

Lemma late_turns ts : forall k O,
  serves k O -> turns_pass F false ts O ->
  exists k', run_interrupts (turn d0 <$> ts) k = Some k' /\ serves k' (after_turns F ts O) /\
    turns_over ts O (after_turns F ts O).
Proof.
  induction ts as [|es ts IH]; intros k O HS Hw; [by exists k|]. destruct Hw as (_ & Hok & Hel & Hrun & Hw).
  destruct (turn_pass es k O HS Hok Hel) as (k1 & E1 & HS1 & Hu).
  destruct (IH k1 _ HS1 Hw) as (k' & E' & HS' & Hover). exists k'. split.
  - unfold run_interrupts in *. cbn [fmap list_fmap foldl mbind option_bind]. by rewrite E1.
  - split; [exact HS'|]. by eapply turns_over_cons.
Qed.

Lemma terminal_read_copy_sti b n k : terminal_read_copy b n (sti k) = terminal_read_copy b n k.
Proof. done. Qed.

(** A read that waits is one at the end of the wait. *)
Lemma read_after_turns k O ts late n0 n1 buf nbytes :
  let O1 := after_turns F ts O in let O2 := after_turns F late O1 in
  serves k O -> 0 <= nbytes -> turns_pass F true ts O -> line_ready (m_desks (o_mach O1)) = true ->
  turns_pass F false late O1 -> line_ready (m_desks (o_mach O2)) = true ->
  exists k2, serves k2 O2 /\ undisturbed (running (o_mach O)) O O2 /\
    sys_read (mkWorld (turn d0 <$> ts) (turn d0 <$> late) n0) 0 (Some buf) nbytes k
    = sys_read (mkWorld [] [] n1) 0 (Some buf) nbytes k2.
Proof.
  intros O1 O2 HS Hn Hts Hl1 Hlate Hl2.
  destruct (poll_turns ts k O HS Hts Hl1) as (k1 & E1 & HS1 & _ & Hrun1 & Hu1).
  destruct (late_turns late k1 O1 HS1 Hlate) as (k2 & E2 & HS2 & _ & Hrun2 & Hu2). fold O1 O2 in Hrun1, Hu1, Hrun2, Hu2, HS2.
  assert (undisturbed (running (o_mach O)) O O2) as Hu by (eapply undisturbed_trans; [exact Hu1|by rewrite <- Hrun1]).
  exists k2. split; [done|]. split; [done|].
  destruct (serves_owned _ _ _ _ _ _ HS) as [_ (l & Hl & Hare) _ _ _].
  destruct (serves_owned _ _ _ _ _ _ HS2) as [_ (l' & Hl' & Hare') _ _ _].
  destruct Hare as (_ & (e & He & Hfl & Ht) & _), Hare' as (_ & (e' & He' & Hfl' & Ht') & _).
  destruct (call_entry k l 0 e Hl He ltac:(unfold NUM_MAX_FILES; lia) Hfl) as [-> _].
  destruct (call_entry k2 l' 0 e' Hl' He' ltac:(unfold NUM_MAX_FILES; lia) Hfl') as [-> _]. rewrite Ht, Ht'.
  assert (cur_pid k2 = cur_pid k) as ->.
  { destruct (models_me _ _ _ _ _ _ (sv_models _ _ _ _ _ _ HS)) as (<- & _).
    destruct (models_me _ _ _ _ _ _ (sv_models _ _ _ _ _ _ HS2)) as (<- & _).
    eapply undisturbed_pid; [exact Hu|done|congruence]. }
  cbn [fop_read w_irqs w_late]. unfold terminal_read. rewrite (proj2 (Z.ltb_ge nbytes 0)), E1 by lia.
  cbn [mbind option_bind]. rewrite E2. cbn [mbind option_bind].
  assert (terminal_read_poll [] k2 = Some (sti k2, [])) as ->.
  { unfold terminal_read_poll. rewrite iterate_S, (serves_done_typing k2 O2 HS2). cbn [mbind option_bind]. by rewrite Hl2. }
  cbn [mbind option_bind run_interrupts foldl]. by rewrite terminal_read_copy_sti.
Qed.
End steps.

(** ** A sample *)

Definition sample_os (s1 s2 : tty) : os :=
  boot_os (boot_machine (fun _ => []) (fun t => (0x7FE000 + t, 0x7FD000 + t)) (fun _ => sample_frame) s1 s2).

Lemma sample_serves : exists k s1 s2, serves 0x410000 0x412000 sample_fs 40 k (sample_os s1 s2).
Proof.
  destruct sample_boots as (_ & _ & k & s1 & s2 & _ & _ & HM & HJ). exists k, s1, s2. by apply boot_serves.
Qed.

Lemma name_terminated nm : Forall is_char nm -> cstring (nm ++ [0]) 0 nm.
Proof. exact (cstring_intro nm []). Qed.

(** One condition of one call. *)
Ltac sample_condition :=
  lazymatch goal with
  | |- True => exact Logic.I
  | |- frame_ok _ => exact sample_frame_ok
  | |- cstring _ _ ?nm => apply (name_terminated nm); repeat (apply Forall_cons_2; [unfold is_char; lia|]); apply Forall_nil_2
  | |- file_exists _ _ => intros e He; injection He as <-; intros; by eexists
  | |- _ < _ \/ _ => left; reflexivity
  | |- _ <> _ => discriminate
  | |- _ <= _ => vm_compute; discriminate
  | |- _ < _ => reflexivity
  | |- _ = Some _ => reflexivity
  | |- length _ = _ => reflexivity
  | |- is_u32 _ => unfold is_u32; lia
  | |- ?x = ?y -> _ = true /\ _ => first [intros H; discriminate H|intros _; split; vm_compute; [reflexivity|discriminate] ]
  | |- ?x = ?y -> _ <= _ <= _ /\ _ => first [intros H; discriminate H|intros _; split; [cbn; lia|repeat (apply Forall_cons_2; [split; [discriminate|reflexivity]|]); apply Forall_nil_2] ]
  | |- _ = Some _ -> is_Some _ => intros _; by eexists
  | |- match _ with _ => _ end => vm_compute; first [exact Logic.I|discriminate]
  end.

Ltac sample_ok_with other :=
  cbn [os_events_ok os_event_ok sys_event_ok event_ok call_ok]; repeat match goal with |- _ /\ _ => apply conj end;
  first [other ()|sample_condition].

Ltac sample_ok := sample_ok_with ltac:(fun _ => fail).

(** The conditions on turns. *)
Ltac sample_turns :=
  cbn [turns_pass elsewhere]; sample_ok_with ltac:(fun _ =>
    lazymatch goal with
    | |- from_outside _ = true \/ _ => first [by left|right; vm_compute; discriminate]
    | |- _ = true -> line_ready _ = false => first [intros H; discriminate H|intros _; vm_compute; reflexivity]
    | |- running _ = running _ => vm_compute; reflexivity
    end).

(** The first of the answers in [H]. *)
Ltac sample_reply H :=
  lazymatch type of H with
  | replies_all _ (?e :: _) _ ?rs =>
      let r := fresh "r" in let l := fresh "l" in let Hr := fresh "Hr" in
      destruct rs as [|r l]; [destruct H|]; destruct H as [Hr H];
      lazymatch e with
      | Sys _ => destruct r as [r|]; [|destruct Hr]
      | Call _ => destruct r as [|? ?]; [destruct Hr|]
      end;
      cbn [replies answers] in Hr; vm_compute in Hr
  end.

(** The shell of the first terminal opens a file and the clock, sets its rate and
    reads the file; a timer interrupt goes to the second terminal, whose shell
    lists the directory; two more come back, and the first goes on in its file. *)
Definition sample_calls : list os_event :=
  [Call (Open [102; 114; 97; 109; 101; 48; 0] [102; 114; 97; 109; 101; 48]); Call (Open [114; 116; 99; 0] [114; 116; 99]);
   Call (Write 3 [32; 0; 0; 0] 4); Call (Read 2 [7; 7; 7; 7; 7; 7] 6);
   Sys (Tick 1 2 sample_frame); Call (Open [46; 0] [46]); Call (Close 2); Call (Close 2);
   Sys (Tick 3 4 sample_frame); Sys (Tick 5 6 sample_frame);
   Call (Read 2 [7; 7; 7; 7; 7; 7] 6); Call (Read 3 [] 4); Sys (Input (Key 0x26)); Sys (Input (Key 0x1C));
   Call (Read 0 [7; 7; 7; 7; 7; 7] 6)].

Lemma sample_calls_ok s1 s2 : os_events_ok sample_fs sample_calls (sample_os s1 s2).
Proof. unfold sample_calls. sample_ok. Qed.

(** The first shell has a file and the clock open now. *)
Lemma sample_start_ok s1 s2 : os_events_ok sample_fs (take 4 sample_calls) (sample_os s1 s2).
Proof. cbn [take sample_calls]. sample_ok. Qed.

Definition sample_open : gmap Z stream :=
  {[2 := FileAt [47; 92; 95; 47; 92; 10; 62; 32; 60; 10] 6; 3 := Files.Clock]}.

Lemma sample_opened s1 s2 : o_open (after sample_fs (take 4 sample_calls) (sample_os s1 s2)) 0 = sample_open.
Proof. vm_compute. reflexivity. Qed.

Definition sample_message : list Z := default [] (exception_messages.[0]).

(** The second terminal's shell starts a program, which opens the clock, sets its
    rate, reads the directory's first name and divides by zero. *)
Definition sample_others : list os_event :=
  [Sys (Tick 1 2 sample_frame); Sys (Exec [115; 104; 101; 108; 108; 0] [115; 104; 101; 108; 108] sample_frame);
   Call (Open [114; 116; 99; 0] [114; 116; 99]); Call (Write 2 [64; 0; 0; 0] 4); Call (Open [46; 0] [46]);
   Call (Read 3 (replicate 33 7) 33); Sys System.Clock; Sys (Input (Key 0x26)); Sys (Input (Key 0x1C));
   Sys (Fault (replicate 64 7) 0 0 sample_message sample_frame);
   Sys (Tick 3 4 sample_frame); Sys (Tick 5 6 sample_frame)].

Lemma sample_others_ok s1 s2 :
  os_events_ok sample_fs sample_others (after sample_fs (take 4 sample_calls) (sample_os s1 s2)).
Proof. unfold sample_others. sample_ok. Qed.

Lemma sample_others_elsewhere s1 s2 :
  elsewhere sample_fs 0 sample_others (after sample_fs (take 4 sample_calls) (sample_os s1 s2)).
Proof.
  unfold sample_others. cbn [elsewhere].
  repeat match goal with |- _ /\ _ => apply conj end; first [exact Logic.I|by left|right; vm_compute; discriminate].
Qed.

(** The second terminal's turn between two looks of the first's reader: it starts a
    program, which opens the directory; an l is typed meanwhile. *)
Definition sample_turn : list os_event :=
  [Sys (Tick 1 2 sample_frame); Sys (Exec [115; 104; 101; 108; 108; 0] [115; 104; 101; 108; 108] sample_frame);
   Call (Open [46; 0] [46]); Sys System.Clock; Sys (Tick 3 4 sample_frame); Sys (Input (Key 0x26)); Sys (Tick 5 6 sample_frame)].

Definition sample_wait : list (list os_event) := [ [Sys (Input (Key 0x1F))]; sample_turn; [Sys (Input (Key 0x1C))] ].

Lemma sample_wait_pass s1 s2 : turns_pass sample_fs true sample_wait (sample_os s1 s2).
Proof. unfold sample_wait, sample_turn. sample_turns. Qed.

Lemma sample_late_pass s1 s2 :
  turns_pass sample_fs false [ [Sys System.Clock] ] (after_turns sample_fs sample_wait (sample_os s1 s2)).
Proof. sample_turns. Qed.

(** ** Properties *)

(** C1: the kernel, system calls included, implements one specification: three
    desks, three stacks of processes, and for each process its open files with
    their positions, its clock rate and arguments, and one directory position that
    all share.  From any state that stands for such a system, every interleaving of
    events (keys, output, stores in the mapped page of video memory, clock and timer
    interrupts, programs started and ended, exceptions) with the calls getargs, open,
    close, read, write and vidmap of whichever program runs completes without a
    fault, answers each call and leaves each event to the hardware as the
    specification says (the bytes of the files at the process's position, the line
    typed, the names of the directory, -1 where a call is refused), and ends in a
    state that stands for the one the specification computes.  The calls are those
    of [call_ok]: the buffers are as large as what is stored in them (33 bytes for a
    name of the directory), sizes for read and for output are not negative, the
    descriptor is not 8 (the kernel takes it for one), a name that is opened is a
    string and an entry of that name that is a regular file has its inode, a read of
    the keyboard comes when its line is finished ([read_waits] for the others),
    printed bytes are bytes, the clock's rate is a whole word, and the pointer for
    vidmap is one it refuses (below the program's page or from eight megabytes above
    its start on) or in the program's own page of four megabytes: for any other
    address above that page the kernel's own store faults, or writes on the screen. *)
Theorem os_refines A B F room d0 k O es :
  bootable F room -> Os.serves A B F room k O -> os_events_ok F es O ->
  exists rs k', run_os_all d0 es k = Some (rs, k') /\ replies_all F es O rs /\ Os.serves A B F room k' (after F es O).
Proof. intros HB HS Hes. exact (serves_steps A B F room d0 HB es k O HS Hes). Qed.

(** On the booted kernel: the two reads of the file get its first six bytes and,
    after the other terminal's turn, its last four; the read of the clock waits for
    it; the read of the keyboard gets the line. *)
Lemma os_refines_witness :
  exists k k' b1 b2 b3 b4 b5 b6, run_os_all null_dentry sample_calls k =
    Some ([Value 2 b1; Value 3 b2; Value 0 b3; Value 6 [47; 92; 95; 47; 92; 10];
      Hardware (Switches 0x7FD001 0x7FE001); Value 2 b4; Value 0 b5; Value (-1) b6;
      Hardware (Switches 0x7FD002 0x7FE002); Hardware (Switches 2 1);
      Value 4 [62; 32; 60; 10; 7; 7]; Value 0 []; Hardware Quiet; Hardware Quiet; Value 2 [108; 10; 7; 7; 7; 7] ], k').
Proof.
  destruct sample_serves as (k & s1 & s2 & HS).
  destruct (os_refines _ _ _ _ null_dentry k _ sample_calls sample_bootable HS (sample_calls_ok s1 s2)) as (rs & k' & E & Hr & _).
  unfold sample_calls in Hr. repeat sample_reply Hr. destruct_and?. subst. vm_compute in Hr.
  case_match; [|destruct Hr]. subst. exists k, k'. do 6 eexists. exact E.
Defined.

(** C3: programs on other terminals cannot disturb a program.  During any history
    in which, whenever terminal t has the processor, only interrupts happen, while
    the other terminals' programs run, make calls, start programs, end or fault:
    terminal t keeps its stack of processes and its active process; each of them
    stays in the process table with the same parent, user frame pointer and
    arguments, its descriptor table still holds the same open files at the same
    positions, and its clock rate is as it was. *)
Theorem others_cannot_disturb A B F room d0 k O es t :
  bootable F room -> Os.serves A B F room k O -> os_events_ok F es O -> 0 <= t < NUM_TERMS -> elsewhere F t es O ->
  exists rs k', run_os_all d0 es k = Some (rs, k') /\
    (active_pid <$> terminals (k_con k')).[t] = (active_pid <$> terminals (k_con k)).[t] /\
    forall j, j ∈ (p_pid <$> m_procs (o_mach O) t) ->
      (process_rtc (k_rtc k')).[j] = (process_rtc (k_rtc k)).[j] /\
      exists b b' args, get_pcb j k = Some b /\ get_pcb j k' = Some b' /\
        parent_pid b' = parent_pid b /\ ebp b' = ebp b /\
        cstring (cmd_args b) 0 args /\ cstring (cmd_args b') 0 args /\
        fds_are F (file_descriptor_table b) (o_open O j) /\ fds_are F (file_descriptor_table b') (o_open O j).
Proof.
  intros HB HS Hes Ht He. destruct (serves_steps A B F room d0 HB es k O HS Hes) as (rs & k' & E & _ & HS').
  pose proof (steps_undisturbed A B F room d0 HB t es Ht k O HS Hes He) as [Hs Ho Hr].
  exists rs, k'. split; [exact E|]. pose proof HS as [Hm Hop _ _ Hra _]. pose proof HS' as [Hm' Hop' _ _ Hra' _].
  pose proof (mo_family _ _ _ _ _ _ Hm) as HF. pose proof (mo_family _ _ _ _ _ _ Hm') as HF'. split.
  { rewrite (fa_active _ _ _ _ _ _ HF t Ht), (fa_active _ _ _ _ _ _ HF' t Ht).
    destruct (m_procs (o_mach O) t), (m_procs (o_mach (after F es O)) t); try discriminate Hs; [done|].
    injection Hs as Hs. cbn. by rewrite Hs. }
  intros j Hj. assert (j ∈ stacks_pids (m_procs (o_mach O))) as Hin by (apply elem_pids; by exists t).
  assert (j ∈ stacks_pids (m_procs (o_mach (after F es O)))) as Hin'.
  { apply elem_pids. exists t. by rewrite (seats_pids _ _ Hs). }
  assert (0 <= j < MAX_PID) as Hjr by exact (proj1 (Forall_forall _ _) (fa_range _ _ _ _ _ _ HF) j Hin).
  split; [by rewrite Hra, Hra', Hr|].
  destruct (chain_seats _ _ _ _ Hs (fa_chain _ _ _ _ _ _ HF t Ht) (fa_chain _ _ _ _ _ _ HF' t Ht) j Hj)
    as (b & b' & args & Eb & Eb' & H). exists b, b', args. unfold get_pcb in *. split; [done|]. split; [done|].
  destruct H as (? & ? & ? & ?). split_and!; try done.
  - destruct (Hop j Hin) as (b0 & Eb0 & Hare). rewrite Eb in Eb0. by injection Eb0 as <-.
  - destruct (Hop' j Hin') as (b0 & Eb0 & Hare). rewrite Eb' in Eb0. injection Eb0 as <-. by rewrite <- Ho.
Qed.

(** Process 0 has a file open, six bytes in, and the clock at 32 Hz; the second
    terminal starts a program that sets its clock to 64 Hz, lists the directory and
    faults. *)
Lemma others_cannot_disturb_witness :
  exists k rs k' b', run_os_all null_dentry sample_others k = Some (rs, k') /\ get_pcb 0 k' = Some b' /\
    fds_are sample_fs (file_descriptor_table b') sample_open /\
    (process_rtc (k_rtc k')).[0] = Some 32.
Proof.
  destruct sample_serves as (k0 & s1 & s2 & HS0).
  destruct (serves_steps _ _ _ _ null_dentry sample_bootable (take 4 sample_calls) k0 _ HS0 (sample_start_ok s1 s2)) as (_ & k & _ & _ & HS).
  destruct (others_cannot_disturb _ _ _ _ null_dentry k _ sample_others 0 sample_bootable HS (sample_others_ok s1 s2))
    as (rs & k' & E & _ & H); [unfold NUM_TERMS; lia|by apply sample_others_elsewhere|].
  destruct (H 0) as (Hr & b & b' & args & _ & Eb' & _ & _ & _ & _ & _ & Hf); [by left|].
  exists k, rs, k', b'. split; [exact E|]. split; [exact Eb'|]. split; [by rewrite <- (sample_opened s1 s2)|].
  rewrite Hr. apply (sv_rates _ _ _ _ _ _ HS). unfold MAX_PID. lia.
Defined.

(** C5: a read of the keyboard that has to wait comes back with the line.  A program
    reads from descriptor 0; while it polls, any number of turns pass, each made
    up of interrupts, timer interrupts that give the processor to other programs,
    and whatever those do; the read returns when a look finds a finished line on
    the screen with the reader's terminal, and puts that line, up to its newline
    and at most [nbytes] and one more, into the buffer.  The process has not
    changed otherwise, and the system is in the state the turns and one read of
    that line lead to. *)
Theorem read_waits A B F room d0 k O ts late ticks buf nbytes :
  let O1 := after_turns F ts O in let O2 := after_turns F late O1 in
  let line := taken (d_line (ds_of (m_desks (o_mach O2)) (ds_shown (m_desks (o_mach O2))))) nbytes in
  bootable F room -> Os.serves A B F room k O -> 0 <= nbytes ->
  turns_pass F true ts O -> line_ready (m_desks (o_mach O1)) = true ->
  turns_pass F false late O1 -> line_ready (m_desks (o_mach O2)) = true -> len line <= len buf ->
  exists k', sys_read (mkWorld (turn d0 <$> ts) (turn d0 <$> late) ticks) 0 (Some buf) nbytes k =
      Some (len line, Some (splice buf 0 line), k') /\
    Os.serves A B F room k' (next F (Call (Read 0 buf nbytes)) O2) /\
    undisturbed (running (o_mach O)) O (next F (Call (Read 0 buf nbytes)) O2).
Proof.
  intros O1 O2 line HB HS Hn Hts Hl1 Hlate Hl2 Hb.
  destruct (read_after_turns A B F room d0 HB k O ts late ticks patience buf nbytes HS Hn Hts Hl1 Hlate Hl2) as (k2 & HS2 & Hu & ->).
  destruct (served_read_line A B F room d0 k2 _ buf nbytes HS2 Hn Hl2 Hb) as (v & b & k' & E & [-> ->] & HS').
  exists k'. split; [|split; [exact HS'|] ].
  - cbn [run_call] in E. destruct (sys_read _ 0 _ _ k2) as [ [ [v [b|] ] k3]|]; [|discriminate E..].
    cbn [mbind option_bind] in E. by injection E as -> -> ->.
  - eapply undisturbed_trans; [exact Hu|]. by apply undisturbed_same.
Qed.

(** The shell reads; an s is typed; the second terminal starts a program, which
    opens the directory, and an l is typed; the line is finished; a clock interrupt
    slips in. *)
Lemma read_waits_witness :
  exists k k' ticks, sys_read (mkWorld (turn null_dentry <$> sample_wait) (turn null_dentry <$> [ [Sys System.Clock] ]) ticks)
    0 (Some (replicate 8 7)) 8 k = Some (3, Some [115; 108; 10; 7; 7; 7; 7; 7], k').
Proof.
  destruct sample_serves as (k & s1 & s2 & HS).
  destruct (read_waits _ _ _ _ null_dentry k _ sample_wait [ [Sys System.Clock] ] 0 (replicate 8 7) 8 sample_bootable HS)
    as (k' & E & _ & _); [lia|apply sample_wait_pass|vm_compute; reflexivity|apply sample_late_pass|vm_compute; reflexivity|
    vm_compute; discriminate|]. exists k, k', 0%nat. exact E.
Defined.
