(* ===== verification/Typed.v ===== *)
(** What the tables of the kernel hold, as a type: a predicate on the kernel's own
    data, without the specification's state, which every history keeps. *)
From stdpp Require Import base option list numbers gmap.
From Stdlib Require Import ZArith Lia.
From S2P Require Import Prelude LibString FileSystem Console I8259 Keyboard Paging Rtc Printf Idt State Terminal Desks Frame FileOps SysCall Process Scheduler Family System Files Calls Os Boot Startup Kernel Interleave.

(** An entry of a descriptor table: the first two are the keyboard and the
    terminal; of the others, one in use has the operations of its type, and a
    regular file a position in the contents of its inode. *)
Definition entry_typed (F : afs) (i : Z) (e : fd_t) : Prop :=
  if i =? 0 then flags e <> 0 /\ file_op_table_ptr e = stdin_opt
  else if i =? 1 then flags e <> 0 /\ file_op_table_ptr e = stdout_opt
  else flags e = 0 \/ file_op_table_ptr e = rtc_opt \/ file_op_table_ptr e = dir_opt \/
    file_op_table_ptr e = file_opt /\ exists c, (a_files F).[fd_inode_num e] = Some c /\ 0 <= file_pos e <= len c.

(** A number that a process has. *)
Definition taken_pid (k : kernel) (j : Z) : Prop := 0 <= j < MAX_PID /\ exists v, (pid_array k).[j] = Some v /\ v <> 0.

Record block_typed (F : afs) (b : pcb_t) : Prop := {
  bt_table : len (file_descriptor_table b) = NUM_MAX_FILES;
  bt_entries : forall i e, (file_descriptor_table b).[i] = Some e -> entry_typed F i e;
  bt_args : exists args, cstring (cmd_args b) 0 args;
}.

Record kernel_typed (F : afs) (k : kernel) : Prop := {
  kt_current : taken_pid k (cur_pid k);
  kt_active : forall t, 0 <= t < NUM_TERMS -> exists j, (active_pid <$> terminals (k_con k)).[t] = Some j /\ taken_pid k j;
  kt_shown : 0 <= ta (k_con k) < NUM_TERMS;
  kt_blocks : forall j, taken_pid k j -> exists b, get_pcb j k = Some b /\ block_typed F b;
  kt_rates : len (process_rtc (k_rtc k)) = MAX_PID /\ Forall rate_ok (process_rtc (k_rtc k));
}.

Lemma fds_are_typed F l m i e : fds_are F l m -> l.[i] = Some e -> entry_typed F i e.
Proof.
  intros (Hlen & (e0 & He0 & H0) & (e1 & He1 & H1) & Hm) He. pose proof (aget_range _ _ _ He) as Hr. unfold entry_typed.
  destruct (Z.eqb_spec i 0) as [->|Hn0]; [congruence|]. destruct (Z.eqb_spec i 1) as [->|Hn1]; [congruence|].
  specialize (Hm i). unfold MIN_FD_INDEX, MAX_FD_INDEX, NUM_MAX_FILES in *. destruct (m !! i) as [f|].
  - destruct Hm as (_ & e' & He' & _ & Hf). assert (e' = e) as -> by congruence. right.
    destruct f as [c pos| |]; cbn in Hf; [|by right; left|by left]. destruct Hf as (? & ? & -> & ?). right. right. eauto.
  - destruct (Hm ltac:(lia)) as (e' & He' & Hf). assert (e' = e) as -> by congruence. by left.
Qed.

Section typed.
Context (A B : Z) (F : afs) (room : Z).

Lemma chain_block pb l j : chain pb l -> j ∈ (p_pid <$> l) -> exists b args, pb.[j] = Some b /\ cstring (cmd_args b) 0 args.
Proof.
  induction l as [|p l IH]; [by intros _ ?%elem_of_nil|]. intros [ (b & Eb & Hb) Hc] [->|Hj]%elem_of_cons; [|by apply IH].
  exists b. destruct Hb. eauto.
Qed.

Lemma serves_typed k O : Os.serves A B F room k O -> kernel_typed F k.
Proof.
  intros [Hm Hop _ _ _ _]. pose proof (mo_family _ _ _ _ _ _ Hm) as HF. pose proof (mo_procs _ _ _ _ _ _ Hm) as HW.
  assert (forall j, taken_pid k j <-> j ∈ stacks_pids (m_procs (o_mach O))) as Ht.
  { intros j. split.
    - intros (Hr & v & Ev & Hv). destruct (fa_taken _ _ _ _ _ _ HF j Hr) as (v' & Ev' & Hx). apply Hx. congruence.
    - intros Hj. assert (0 <= j < MAX_PID) as Hr by exact (proj1 (list.Forall_forall _ _) (fa_range _ _ _ _ _ _ HF) j Hj).
      split; [done|]. destruct (fa_taken _ _ _ _ _ _ HF j Hr) as (v & Ev & Hx). exists v. by rewrite Hx. }
  assert (forall t j, 0 <= t < NUM_TERMS -> p_pid <$> head (m_procs (o_mach O) t) = Some j -> taken_pid k j) as Hhead.
  { intros t j Hr Hj. apply Ht, elem_pids. exists t. split; [done|]. destruct (m_procs (o_mach O) t) as [|p l]; [done|].
    injection Hj as <-. by left. }
  split.
  - eapply Hhead; [exact (fa_running _ _ _ _ _ _ HF)|]. by rewrite <- (fa_cur _ _ _ _ _ _ HF).
  - intros t Hr. rewrite (fa_active _ _ _ _ _ _ HF t Hr).
    destruct (fa_base _ _ _ _ _ _ HF t Hr) as (l & f & c & a & Eb). specialize (Hhead t).
    rewrite Eb in *. destruct (l ++ [mkProc t f c a]) as [|p l'] eqn:El; [by destruct l|]. exists (p_pid p). split; [done|]. by apply Hhead.
  - apply HW.
  - intros j Hj. apply Ht in Hj. destruct (Hop j Hj) as (b & Eb & Hare). exists b. split; [done|]. split.
    + apply Hare.
    + intros i e He. by eapply fds_are_typed.
    + apply elem_pids in Hj as (t & Hr & Hj). destruct (chain_block _ _ j (fa_chain _ _ _ _ _ _ HF t Hr) Hj) as (b' & args & Eb' & Hc).
      unfold get_pcb in Eb. assert (b' = b) as -> by congruence. by exists args.
  - destruct (mo_rtc _ _ _ _ _ _ Hm). by split.
Qed.
End typed.

(** ** Properties *)

(** C4: the kernel's tables stay well typed.  After any possible history of
    interrupts, process starts and ends, faults and system calls, as [os_events_ok]
    has them - in particular no read with a negative size, which would leave a
    position of 0xFFFFFFFF behind, no descriptor 8, buffers as large as what is
    stored in them and vidmap pointers that are refused or in the program's page:
    the current process and the active process of
    each terminal have their numbers marked as taken; every number that is taken
    has a control block with eight descriptors, whose first two are the keyboard
    and the terminal and whose others are free or have the operations of a clock,
    a directory or a regular file, a file's with an inode that exists and a
    position from 0 to its length, and with arguments that end; and every process
    number has a clock rate that the clock can keep. *)
Theorem kernel_stays_typed A B F room d0 k O es :
  bootable F room -> Os.serves A B F room k O -> os_events_ok F es O ->
  exists rs k', run_os_all d0 es k = Some (rs, k') /\ kernel_typed F k'.
Proof.
  intros HB HS Hes. destruct (serves_steps A B F room d0 HB es k O HS Hes) as (rs & k' & E & _ & HS').
  exists rs, k'. split; [exact E|]. by eapply serves_typed.
Qed.

Lemma kernel_stays_typed_witness :
  exists k rs k', run_os_all null_dentry sample_calls k = Some (rs, k') /\ kernel_typed sample_fs k'.
Proof.
  destruct sample_serves as (k & s1 & s2 & HS). exists k.
  exact (kernel_stays_typed _ _ _ _ null_dentry k _ sample_calls sample_bootable HS (sample_calls_ok s1 s2)).
Defined.
