(* ===== verification/SelfTests.v ===== *)
(** The kernel's tests of itself, [src/code/tests.c].

    The calls in [launch_tests] are comments, so they never run in the kernel as it
    is; here they are, and what they would say of it.  A test ends with its result,
    or the processor raises an exception in the middle of it. *)
From stdpp Require Import base option list numbers.
From Stdlib Require Import ZArith Lia Ascii String.
From S2P Require Import Prelude LibString FileSystem Console I8259 Keyboard Paging Rtc Printf Idt State Terminal Desks FileOps SysCall Process Family System Os Boot Startup Kernel Interleave.

Definition PASS : Z := 1.
Definition FAIL : Z := 0.

Inductive test_end := Result (r : Z) | Exception (vector : Z).

Definition DIVIDE_ERROR : Z := 0.
Definition PAGE_FAULT : Z := 14.
Definition NOT_PRESENT : Z := 11.
Definition ASSERTION : Z := 15.

Definition header_format : list Z := bytes "[TEST %s] Running %s at %s:%d" ++ [10].

Section tests.
(* the stack of printf, what an operation that blocks waits for, and the tables'
   addresses *)
Context (junk : list Z) (w : world) (pt_addr pt_user_addr : Z).

(** The name of the function and the line are the preprocessor's. *)
Definition TEST_HEADER (name : string) (line : Z) (k : kernel) : option kernel :=
  on_con (say junk header_format
    [Pointer (bytes name ++ [0]) 0; Pointer (bytes name ++ [0]) 0; Pointer (bytes "tests.c" ++ [0]) 0; Word line]) k.

(** The tests that end themselves with an exception. *)
Definition raise_test (name : string) (line vector : Z) (k : kernel) : option (test_end * kernel) :=
  k ← TEST_HEADER name line k; Some (Exception vector, k).

(** [int $15], by the table in question. *)
Definition assertion_failure (idt : list idt_desc_t) : option test_end :=
  g ← idt.[ASSERTION]; Some (Exception (if present g =? 1 then ASSERTION else NOT_PRESENT)).

Definition idt_test (idt : list idt_desc_t) (k : kernel) : option (test_end * kernel) :=
  k ← TEST_HEADER "idt_test" 39 k;
  r ← iterate 11 (fun i =>
    if i <? 10 then
      g ← idt.[i];
      if (offset_15_00 g =? 0) && (offset_31_16 g =? 0) then e ← assertion_failure idt; Some (Done e)
      else Some (Next (i + 1))
    else Some (Done (Result PASS))) 0;
  Some (r, k).

Definition divide_by_zero_test : kernel -> option (test_end * kernel) := raise_test "divide_by_zero_test" 64 DIVIDE_ERROR.
Definition overflow_test : kernel -> option (test_end * kernel) := raise_test "overflow_test" 80 4.
Definition bounds_test : kernel -> option (test_end * kernel) := raise_test "bounds_test" 95 5.

(** [int $0x80] with whatever EAX holds. *)
Definition system_call_test (entry : Z -> kernel -> option (Z * kernel)) (eax : Z) (k : kernel) : option (test_end * kernel) :=
  k ← TEST_HEADER "system_call_test" 109 k;
  '(_, k) ← sys_call entry eax k; Some (Result PASS, k).

(** Reads from these addresses, one after the other. *)
Fixpoint read_all (addresses : list Z) (r : Z) (k : kernel) : test_end :=
  match addresses with
  | [] => Result r
  | a :: l => match translate pt_addr pt_user_addr (k_pag k) false a with Some _ => read_all l r k | None => Exception PAGE_FAULT end
  end.

Definition valid_addresses : list Z := [0x400000; 0x7FFFFF; 0xB8000; 0xB8FFF].
Definition invalid_addresses : list Z := [0x300000; 0x8FFFFF; 0xB7000; 0xB9FFF].

Definition paging_test_valid (k : kernel) : option (test_end * kernel) :=
  k ← TEST_HEADER "paging_test_valid" 123 k; Some (read_all valid_addresses PASS k, k).

Definition paging_test_invalid (k : kernel) : option (test_end * kernel) :=
  k ← TEST_HEADER "paging_test_invalid" 150 k; Some (read_all invalid_addresses FAIL k, k).

(** [arr] is what was on the stack. *)
Definition terminal_read_test (arr : list Z) (k : kernel) : option (test_end * kernel) :=
  k ← TEST_HEADER "terminal_read_test" 180 k;
  '(_, k) ← rtc_read_op w k;
  '(_, b, k) ← terminal_read (w_irqs w) (w_late w) (Some arr) 128 k;
  arr ← b;
  k ← on_con (putc 10) k;
  k ← on_con (fun c => '(_, c) ← puts arr 0 c; Some c) k;
  k ← on_con (putc 10) k;
  Some (Result PASS, k).

Definition terminal_write_test (k : kernel) : option (test_end * kernel) :=
  k ← TEST_HEADER "terminal_write_test" 203 k;
  '(_, k) ← terminal_write (Some (bytes "hell" ++ [10])) 5 k;
  Some (Result PASS, k).

(** The first [rounds] rounds of a loop without an end. *)
Definition rtc_read_test (rounds : nat) (k : kernel) : option kernel :=
  k ← TEST_HEADER "rtc_read_test" 218 k;
  for_range 0 (Z.of_nat rounds) (fun _ k => '(_, k) ← rtc_read_op w k; Some k) k.

(** Forty ticks. *)
Definition count_ticks (k : kernel) : option kernel :=
  for_range 0 40 (fun _ k => '(_, k) ← rtc_read_op w k; on_con (putc 49) k) k.

(** An access of the kernel at [a]: a page fault, or what is there, which is not
    modelled. *)
Definition touch (a : Z) (k : kernel) : option test_end :=
  match translate pt_addr pt_user_addr (k_pag k) false a with Some _ => None | None => Some (Exception PAGE_FAULT) end.

Definition NULL : Z := 0.

(** After the first frequency the test passes a null pointer to [rtc_write], which
    reads the frequency through it. *)
Definition rtc_write_test (k : kernel) : option (test_end * kernel) :=
  k ← TEST_HEADER "rtc_write_test" 234 k;
  k ← on_con clear_screen k;
  iterate 14 (fun '(i, k) =>
    if 0 <=? i then
      if i =? 12 then
        '(_, k) ← on_rtc (rtc_open (cur_pid k)) k;
        k ← count_ticks k;
        k ← on_con clear_screen k;
        Some (Next (i - 1, k))
      else e ← touch NULL k; Some (Done (e, k))
    else Some (Done (Result PASS, k))) (12, k).

Definition name_lengths : list Z := [1; 7; 5; 4; 6; 3; 4; 7; 8; 3; 10; 32; 2; 9; 11; 10; 5; 0; 0; 0].

Fixpoint expect_lengths (ls : list Z) (buf : list Z) (k : kernel) : option (test_end * kernel) :=
  match ls with
  | [] => Some (Result PASS, k)
  | l :: ls =>
      '(n, buf, k) ← dir_read null_dentry buf 10000 k;
      if negb (n =? l) then Some (Result FAIL, k) else expect_lengths ls buf k
  end.

Definition dir_read_test (buf : list Z) (k : kernel) : option (test_end * kernel) :=
  k ← on_con clear_screen k;
  k ← TEST_HEADER "dir_read_test" 272 k;
  expect_lengths name_lengths buf k.

Definition dir_open_close_test (k : kernel) : option (test_end * kernel) :=
  k ← TEST_HEADER "dir_open_close_test" 303 k;
  '(r, k) ← dir_open (bytes "." ++ [0]) k;
  if negb (r =? 0) then Some (Result FAIL, k)
  else
    '(r, k) ← dir_close k;
    if negb (r =? 0) then Some (Result FAIL, k)
    else
      '(r, k) ← dir_write k;
      if negb (r =? -1) then Some (Result FAIL, k) else Some (Result PASS, k).

(** [dentry_ptr] of file.c is never set: [file_open] stores the entry it has found
    through a null pointer. *)
Definition dentry_ptr : Z := NULL.

Definition file_open_or_fault (name : list Z) (k : kernel) : option (Z * kernel + test_end) :=
  '(r, _) ← read_dentry_by_name (k_img k) name null_dentry;
  if r =? 0 then e ← touch dentry_ptr k; Some (inr e) else Some (inl (r, k)).

Definition file_open_close_test (k : kernel) : option (test_end * kernel) :=
  k ← TEST_HEADER "file_open_close_test" 312 k;
  o ← file_open_or_fault (bytes "fish" ++ [0]) k;
  match o with
  | inr e => Some (e, k)
  | inl (r, k) =>
      if negb (r =? 0) then Some (Result FAIL, k)
      else
        '(r, k) ← file_close k;
        if negb (r =? 0) then Some (Result FAIL, k)
        else '(r, k) ← file_write k; Some (if negb (r =? -1) then Result FAIL else Result PASS, k)
  end.

(** [file_read] takes its descriptor for a pointer to a structure, whose second
    word is the inode's number. *)
Definition file_read_or_fault (fd : Z) (buf : list Z) (count : Z) (k : kernel) : option (Z * list Z * kernel + test_end) :=
  if count <? 0 then Some (inl (-1, buf, k)) else e ← touch (u32 (fd + 4)) k; Some (inr e).

(** [buf] is the tests' static array. *)
Definition file_read_test (buf : list Z) (k : kernel) : option (test_end * kernel) :=
  k ← TEST_HEADER "file_read_test" 321 k;
  k ← on_con clear_screen k;
  o ← file_open_or_fault (bytes "verylargetextwithverylongname.tx" ++ [0]) k;
  match o with
  | inr e => Some (e, k)
  | inl (_, k) =>
      o ← file_read_or_fault 0 buf 100000 k;
      match o with
      | inr e => Some (e, k)
      | inl (_, buf, k) => k ← on_con (fun c => '(_, c) ← puts buf 0 c; Some c) k; Some (Result PASS, k)
      end
  end.

Definition file_read_exe_test (buf : list Z) (k : kernel) : option (test_end * kernel) :=
  k ← TEST_HEADER "file_read_exe_test" 334 k;
  k ← on_con clear_screen k;
  o ← file_open_or_fault (bytes "cat" ++ [0]) k;
  match o with
  | inr e => Some (e, k)
  | inl (_, k) =>
      o ← file_read_or_fault 0 buf 100000 k;
      match o with
      | inr e => Some (e, k)
      | inl (_, buf, k) =>
          k ← for_range 0 15 (fun i k => c ← buf.[i]; on_con (putc c) k) k;
          i ← iterate (Datatypes.S (Datatypes.length buf)) (fun i => c ← buf.[i]; Some (if negb (c =? 90) then Next (i + 1) else Done i)) 15;
          k ← for_range 0 41 (fun n k => c ← buf.[i - (40 - n)]; on_con (putc c) k) k;
          Some (Result PASS, k)
      end
  end.

(** [int $0x80] for [halt]. *)
Definition syscall_jump_test (entry : Z -> kernel -> option (Z * kernel)) (k : kernel) : option (test_end * kernel) :=
  k ← TEST_HEADER "syscall_jump_test" 361 k;
  '(_, k) ← sys_call entry 1 k; Some (Result PASS, k).

Definition output_format : list Z := bytes "[TEST %s] Result = %s" ++ [10].

(** The test is the macro's second argument; an exception in it ends the whole. *)
Definition TEST_OUTPUT (name : string) (test : kernel -> option (test_end * kernel)) (k : kernel) : option (test_end * kernel) :=
  '(e, k) ← test k;
  match e with
  | Result r =>
      k ← on_con (say junk output_format
        [Pointer (bytes name ++ [0]) 0; Pointer (bytes (if negb (r =? 0) then "PASS" else "FAIL") ++ [0]) 0]) k;
      Some (e, k)
  | Exception _ => Some (e, k)
  end.
End tests.

(** All its calls are comments. *)
Definition launch_tests (k : kernel) : kernel := k.

(** ** What they would say *)

Definition header_text (name : string) (line : Z) : list Z :=
  bytes "[TEST " ++ bytes name ++ bytes "] Running " ++ bytes name ++ bytes " at " ++ bytes "tests.c" ++
  bytes ":" ++ render_signed line ++ [10].

(** The heading is printed, and then [test]. *)
Definition heading (name : string) (line : Z) (k : kernel) (test : kernel -> option (test_end * kernel)) : option (test_end * kernel) :=
  k ← on_con (emit (header_text name line)) k; test k.

(** The line that [TEST_OUTPUT] adds. *)
Definition verdict (name : string) (r : Z) : list Z :=
  bytes "[TEST " ++ bytes name ++ bytes "] Result = " ++ bytes (if negb (r =? 0) then "PASS" else "FAIL") ++ [10].

(** The lengths that [n] reads of the directory return, from the position [i] on. *)
Fixpoint lengths_from (F : afs) (n : nat) (i : Z) : list Z :=
  match n with
  | O => []
  | S n =>
      match (a_entries F).[i] with
      | Some e => len (a_name e) :: lengths_from F n (i + 1)
      | None => 0 :: lengths_from F n i
      end
  end.

(** ** Lemmas *)

Section lemmas.
Context (junk : list Z) (Hjunk : Datatypes.length junk = 64%nat).

Lemma TEST_HEADER_prints name line k :
  forallb (fun c => (0 <? c) && (c <? 256)) (bytes name) = true -> is_u32 line ->
  TEST_HEADER junk name line k = on_con (emit (header_text name line)) k.
Proof.
  intros Hn Hl. unfold TEST_HEADER, on_con. f_equal.
  assert (cstring (bytes name ++ [0]) 0 (bytes name)) as Hc by by apply (cstring_intro _ []), Forall_is_char.
  rewrite (say_prints junk Hjunk header_format _ [Text (bytes name); Text (bytes name); Text (bytes "tests.c"); Number line] (header_text name line));
    [done|vm_compute; reflexivity| |reflexivity].
  repeat (apply List.Forall2_cons; [first [exact Hc|exact (conj eq_refl Hl)|apply (cstring_intro (bytes "tests.c") []), Forall_is_char; reflexivity]|]).
  apply List.Forall2_nil.
Qed.

Lemma TEST_OUTPUT_prints name test k e k1 :
  forallb (fun c => (0 <? c) && (c <? 256)) (bytes name) = true -> test k = Some (e, k1) ->
  TEST_OUTPUT junk name test k =
    match e with
    | Result r => k ← on_con (emit (verdict name r)) k1; Some (e, k)
    | Exception _ => Some (e, k1)
    end.
Proof.
  intros Hn Ht. unfold TEST_OUTPUT. rewrite Ht. cbn [mbind option_bind]. destruct e as [r|v]; [|done]. unfold on_con. do 2 f_equal.
  assert (cstring (bytes name ++ [0]) 0 (bytes name)) as Hc by by apply (cstring_intro _ []), Forall_is_char.
  set (m := bytes (if negb (r =? 0) then "PASS" else "FAIL")).
  assert (cstring (m ++ [0]) 0 m) as Hm by (apply (cstring_intro _ []), Forall_is_char; unfold m; by destruct (r =? 0)).
  rewrite (say_prints junk Hjunk output_format _ [Text (bytes name); Text m] (verdict name r));
    [done|vm_compute; reflexivity| |reflexivity].
  repeat (apply List.Forall2_cons; [first [exact Hc|exact Hm]|]). apply List.Forall2_nil.
Qed.
End lemmas.

Lemma on_con_rest f k k' : on_con f k = Some k' ->
  k_pag k' = k_pag k /\ k_img k' = k_img k /\ read_index k' = read_index k.
Proof. unfold on_con. destruct (f (k_con k)); [|done]. by intros [= <-]. Qed.

(** Every one of the first ten gates leads somewhere. *)
Lemma gate_offsets addr i : (forall h, is_u32 (addr h) /\ addr h <> 0) -> 0 <= i < 10 ->
  (offset_15_00 (gate_of addr i) =? 0) && (offset_31_16 (gate_of addr i) =? 0) = false.
Proof.
  intros Ha Hi. assert (is_Some (assigned handler_table i)) as [h Hh].
  { apply (bool_decide_unpack _). assert (i = 0 \/ i = 1 \/ i = 2 \/ i = 3 \/ i = 4 \/ i = 5 \/ i = 6 \/ i = 7 \/ i = 8 \/ i = 9) as Hc by lia.
    by destruct Hc as [->|[->|[->|[->|[->|[->|[->|[->|[->| ->] ] ] ] ] ] ] ] ]. }
  unfold gate_of. rewrite Hh. destruct (Ha h) as [Hr Hne]. pose proof (set_idt_entry_target (addr h) (init_gate i zero_gate) Hr) as Ht.
  unfold gate_target in Ht. apply andb_false_iff. rewrite !Z.eqb_neq. lia.
Qed.

Lemma expect_lengths_ok F ls : forall buf k, represents (k_img k) F -> 0 <= read_index k -> 33 <= len buf ->
  exists k', expect_lengths ls buf k =
    Some (Result (if decide (ls = lengths_from F (Datatypes.length ls) (read_index k)) then PASS else FAIL), k').
Proof.
  induction ls as [|l ls IH]; intros buf k HR Hi Hb; [by exists k|]. cbn [expect_lengths lengths_from Datatypes.length].
  assert (forall n i, n <> l -> l :: ls <> n :: lengths_from F (Datatypes.length ls) i) as Hne by congruence.
  assert (read_index k < 4294967295 -> match (a_entries F).[read_index k] with
    | Some e => exists buf', dir_read null_dentry buf 10000 k = Some (len (a_name e), buf', k <| read_index := read_index k + 1 |>) /\
        33 <= len buf'
    | None => dir_read null_dentry buf 10000 k = Some (0, buf, k)
    end) as Hread.
  { intros Hlt. pose proof (dir_read_spec F null_dentry buf 10000 k HR ltac:(lia) Hb) as H. destruct ((a_entries F).[read_index k]); [|done].
    destruct H as (buf' & E & _ & El & _). exists buf'. split; [exact E|lia]. }
  assert (exists n buf' k', dir_read null_dentry buf 10000 k = Some (n, buf', k') /\ 33 <= len buf' /\ represents (k_img k') F /\ 0 <= read_index k' /\
    lengths_from F (Datatypes.length (l :: ls)) (read_index k) = n :: lengths_from F (Datatypes.length ls) (read_index k'))
    as (n & buf' & k' & -> & Hb' & HR' & Hi' & E).
  { cbn [Datatypes.length lengths_from]. destruct ((a_entries F).[read_index k]) as [e|] eqn:Ee.
    - pose proof (aget_range _ _ _ Ee) as Hr. pose proof (rep_entries_max _ _ HR) as Hm. unfold MAX_DIR_ENTRIES in Hm.
      destruct (Hread ltac:(lia)) as (buf' & -> & Hb'). do 3 eexists. split; [done|]. split; [exact Hb'|]. split; [exact HR|]. split; [cbn; lia|done].
    - exists 0, buf, k. split; [|by split_and!]. destruct (Z.lt_ge_cases (read_index k) 4294967295) as [Hlt|Hge]; [by apply Hread|].
      unfold dir_read. by rewrite (read_dentry_by_index_out _ _ HR _ null_dentry Ee). }
  cbn [mbind option_bind]. cbn [Datatypes.length lengths_from] in E. rewrite E.
  destruct (Z.eqb_spec n l) as [->|Hn]; cbn [negb].
  - destruct (IH buf' k' HR' Hi' Hb') as (k2 & ->). exists k2. f_equal. f_equal. f_equal.
    destruct (decide (ls = _)) as [H|H]; [rewrite decide_True by congruence|rewrite decide_False by congruence]; done.
  - exists k'. rewrite decide_False by congruence. done.
Qed.

Lemma on_con_emit_app o1 o2 k : on_con (emit (o1 ++ o2)) k = k ← on_con (emit o1) k; on_con (emit o2) k.
Proof. unfold on_con. rewrite emit_app. by destruct (emit o1 (k_con k)). Qed.

Lemma run_outs l : forall k, run_events (map Out l) k = on_con (emit l) k.
Proof.
  induction l as [|c l IH]; intros k; [by destruct k as [ [] ]|].
  change (c :: l) with ([c] ++ l) at 2. rewrite on_con_emit_app.
  assert (on_con (emit [c]) k = on_con (putc c) k) as ->.
  { unfold on_con. cbn [emit]. unfold out_char, console_output. by destruct (putc c (k_con k)). }
  cbn [map run_events run_event]. destruct (on_con (putc c) k) as [k1|]; [apply IH|done].
Qed.

Lemma terminal_write_hell k : terminal_write (Some (bytes "hell" ++ [10])) 5 k = k ← on_con (emit (bytes "hell" ++ [10])) k; Some (5, k).
Proof. rewrite terminal_write_events by (cbn; lia). by rewrite <- run_outs. Qed.

(** *** The tests, one by one *)

Section outcomes.
Context (A B : Z) (F : afs) (junk : list Z) (Hj : Datatypes.length junk = 64%nat) (k : kernel) (v : Z * Z).
Context (Hpl : tables_placed A B) (HP : paging_ok A B (k_pag k) v) (HR : represents (k_img k) F).

(** After its heading a test finds what it works on as it was. *)
Lemma after_heading name line test test' :
  forallb (fun c => (0 <? c) && (c <? 256)) (bytes name) = true -> is_u32 line ->
  (forall k', k_pag k' = k_pag k -> k_img k' = k_img k -> read_index k' = read_index k -> test k' = test' k') ->
  (k ← TEST_HEADER junk name line k; test k) = heading name line k test'.
Proof.
  intros Hn Hl Ht. rewrite (TEST_HEADER_prints junk Hj) by done. unfold heading.
  destruct (on_con _ k) as [k1|] eqn:Ek; [|done]. cbn [mbind option_bind]. destruct (on_con_rest _ _ _ Ek) as (? & ? & ?). by apply Ht.
Qed.

Ltac after_heading := apply after_heading; [reflexivity|unfold is_u32; lia|].

Lemma kernel_walk va k' : 0 <= va < 4294967296 -> k_pag k' = k_pag k ->
  translate A B (k_pag k') false va = address_map v.1 v.2 false va.
Proof. intros Hva ->. destruct HP as [HT _ _ [Hp Hm] Hv]. by apply translate_map. Qed.

Lemma name_found nm k' : forallb (fun c => (0 <? c) && (c <? 256)) (bytes nm) = true -> k_img k' = k_img k ->
  exists r d, read_dentry_by_name (k_img k') (bytes nm ++ [0]) null_dentry = Some (r, d) /\
    match find_entry F (bytes nm) with Some _ => r = 0 | None => r = -1 end.
Proof.
  intros Hn ->. pose proof (read_dentry_by_name_find _ F (bytes nm ++ [0]) (bytes nm) null_dentry HR) as H.
  specialize (H ltac:(by apply (cstring_intro _ []), Forall_is_char)). destruct (find_entry F (bytes nm)).
  - destruct H as (d & -> & _). by exists 0, d.
  - rewrite H. by eexists _, _.
Qed.

Lemma idt_test_passes addr idt :
  (forall h, is_u32 (addr h) /\ addr h <> 0) -> initialize_idt addr (replicate 256 zero_gate) = Some idt ->
  idt_test junk idt k = heading "idt_test" 39 k (fun k => Some (Result PASS, k)).
Proof.
  intros Ha Hidt. destruct (initialize_idt_gates addr) as (idt' & E & _ & Hg). assert (idt' = idt) as -> by congruence.
  unfold idt_test. after_heading. intros k' _ _ _.
  destruct (iterate_ind (fun i => 0 <= i <= 10) (fun r => r = Result PASS) (fun i => Z.to_nat (10 - i))
    (fun i => if i <? 10 then
      g ← idt.[i];
      if (offset_15_00 g =? 0) && (offset_31_16 g =? 0) then e ← assertion_failure idt; Some (Done e)
      else Some (Next (i + 1))
    else Some (Done (Result PASS))) 11) with (s := 0) as (r & -> & ->); [|lia|lia|done].
  intros i Hi'. destruct (Z.ltb_spec i 10); [|exists (Done (Result PASS)); by split].
  rewrite Hg by lia. cbn [mbind option_bind]. rewrite (gate_offsets addr i Ha ltac:(lia)). eexists. split; [done|].
  cbv beta iota. split; lia.
Qed.

Lemma paging_valid_passes :
  paging_test_valid junk A B k = heading "paging_test_valid" 123 k (fun k => Some (Result PASS, k)).
Proof.
  unfold paging_test_valid. after_heading. intros k' Hk _ _. unfold valid_addresses. cbn [read_all].
  rewrite (kernel_walk 0x400000 k'), (kernel_walk 0x7FFFFF k'), (kernel_walk 0xB8000 k'), (kernel_walk 0xB8FFF k') by (lia || exact Hk).
  reflexivity.
Qed.

Lemma paging_invalid_faults :
  paging_test_invalid junk A B k = heading "paging_test_invalid" 150 k (fun k => Some (Exception PAGE_FAULT, k)).
Proof.
  unfold paging_test_invalid. after_heading. intros k' Hk _ _. unfold invalid_addresses. cbn [read_all].
  rewrite (kernel_walk 0x300000 k') by (lia || exact Hk). reflexivity.
Qed.

Lemma terminal_write_passes :
  terminal_write_test junk k =
    heading "terminal_write_test" 203 k (fun k => k ← on_con (emit (bytes "hell" ++ [10])) k; Some (Result PASS, k)).
Proof.
  unfold terminal_write_test. after_heading. intros k' _ _ _. rewrite terminal_write_hell. by destruct (on_con _ k').
Qed.

Lemma dir_open_close_ends :
  dir_open_close_test junk k = heading "dir_open_close_test" 303 k
    (fun k => Some (Result (match find_entry F (bytes ".") with Some _ => PASS | None => FAIL end), k <| read_index := 0 |>)).
Proof.
  unfold dir_open_close_test. after_heading. intros k' _ Himg _. unfold dir_open, dir_close, dir_write. cbv zeta.
  set (k2 := k' <| read_index := 0 |>). destruct (name_found "."%string k2 eq_refl Himg) as (r & d & -> & Hr).
  destruct (find_entry F (bytes ".")); by subst r.
Qed.

Lemma dir_read_ends buf k1 :
  read_index k = 0 -> 33 <= len buf -> (k ← on_con clear_screen k; on_con (emit (header_text "dir_read_test" 272)) k) = Some k1 ->
  exists k2, dir_read_test junk buf k = Some (Result (if decide (name_lengths = lengths_from F 20 0) then PASS else FAIL), k2).
Proof.
  intros Hi Hb Hk1. unfold dir_read_test.
  destruct (on_con clear_screen k) as [k0|] eqn:E0; [|done]. cbn [mbind option_bind] in *.
  rewrite (TEST_HEADER_prints junk Hj) by (reflexivity || (unfold is_u32; lia)). rewrite Hk1. cbn [mbind option_bind].
  destruct (on_con_rest _ _ _ E0) as (_ & Himg0 & Hi0), (on_con_rest _ _ _ Hk1) as (_ & Himg1 & Hi1).
  destruct (expect_lengths_ok F name_lengths buf k1) as (k2 & ->); [by rewrite Himg1, Himg0|rewrite Hi1, Hi0, Hi; lia|done|].
  exists k2. by rewrite Hi1, Hi0, Hi.
Qed.

Lemma touch_low a k' : 0 <= a < 4096 -> k_pag k' = k_pag k -> touch A B a k' = Some (Exception PAGE_FAULT).
Proof.
  intros Ha Hk. unfold touch. rewrite (kernel_walk a k') by (lia || exact Hk). unfold address_map, KERNEL_BASE, USER_BASE, PAGE_4MB.
  repeat match goal with |- context [?x <=? ?y] => destruct (Z.leb_spec x y); [lia|] end. done.
Qed.

Lemma open_ends nm k' : forallb (fun c => (0 <? c) && (c <? 256)) (bytes nm) = true -> k_pag k' = k_pag k -> k_img k' = k_img k ->
  file_open_or_fault A B (bytes nm ++ [0]) k' =
    Some (match find_entry F (bytes nm) with Some _ => inr (Exception PAGE_FAULT) | None => inl (-1, k') end).
Proof.
  intros Hn Hk Himg. unfold file_open_or_fault. destruct (name_found nm k' Hn Himg) as (r & d & -> & Hr). cbn [mbind option_bind].
  destruct (find_entry F (bytes nm)); subst r; [|done]. cbn [Z.eqb].
  rewrite (touch_low dentry_ptr k') by (unfold dentry_ptr, NULL; lia || exact Hk). done.
Qed.

Lemma file_open_close_ends :
  file_open_close_test junk A B k = heading "file_open_close_test" 312 k
    (fun k => Some (match find_entry F (bytes "fish") with Some _ => Exception PAGE_FAULT | None => Result FAIL end, k)).
Proof.
  unfold file_open_close_test. after_heading. intros k' Hk Himg _. rewrite (open_ends "fish"%string k' eq_refl Hk Himg).
  by destruct (find_entry F (bytes "fish")).
Qed.

(** Both tests of [file_read], up to there. *)
Lemma read_ends buf nm k' (rest : list Z -> kernel -> option (test_end * kernel)) :
  forallb (fun c => (0 <? c) && (c <? 256)) (bytes nm) = true -> k_pag k' = k_pag k -> k_img k' = k_img k ->
  (o ← file_open_or_fault A B (bytes nm ++ [0]) k';
   match o with
   | inr e => Some (e, k')
   | inl (_, k) =>
       o ← file_read_or_fault A B 0 buf 100000 k;
       match o with inr e => Some (e, k) | inl (_, buf, k) => rest buf k end
   end) = Some (Exception PAGE_FAULT, k').
Proof.
  intros Hn Hk Himg. rewrite (open_ends nm k' Hn Hk Himg). cbn [mbind option_bind]. destruct (find_entry F (bytes nm)); [done|].
  unfold file_read_or_fault. cbn [Z.ltb Z.compare]. change (u32 (0 + 4)) with 4. rewrite (touch_low 4 k') by (lia || exact Hk). done.
Qed.

Lemma file_reads_fault buf :
  file_read_test junk A B buf k = heading "file_read_test" 321 k (fun k => k ← on_con clear_screen k; Some (Exception PAGE_FAULT, k)) /\
  file_read_exe_test junk A B buf k = heading "file_read_exe_test" 334 k (fun k => k ← on_con clear_screen k; Some (Exception PAGE_FAULT, k)).
Proof.
  unfold file_read_test, file_read_exe_test.
  split; after_heading; intros k' Hk Himg _; (destruct (on_con clear_screen k') as [k2|] eqn:E2; [|done]); cbn [mbind option_bind];
    destruct (on_con_rest _ _ _ E2) as (Hk2 & Himg2 & _).
  - exact (read_ends buf "verylargetextwithverylongname.tx"%string k2 _ eq_refl (eq_trans Hk2 Hk) (eq_trans Himg2 Himg)).
  - exact (read_ends buf "cat"%string k2 _ eq_refl (eq_trans Hk2 Hk) (eq_trans Himg2 Himg)).
Qed.
End outcomes.

(** ** Properties *)

(** C40: what the kernel's tests of itself would say, each after printing its
    heading.  With the table that [initialize_idt] makes the first ten gates are
    set; with the page tables at work the valid addresses are readable and the
    first of the invalid ones is not, although the last of them, 0xB9FFF, is: it is in
    a terminal's page.  Opening and closing the directory succeeds where there
    is an entry for it; reading it passes exactly when the names have the lengths
    of one particular directory.  The tests of files can never pass: [file_open]
    stores what it finds at the null pointer, where no page is mapped, or finds no
    such file, and [file_read] then loads from address 4, where none is either.  TEST_OUTPUT adds the
    verdict of a test that ends with a result. *)
Theorem self_tests A B F junk addr idt k v buf :
  Datatypes.length junk = 64%nat -> tables_placed A B -> paging_ok A B (k_pag k) v -> represents (k_img k) F ->
  (forall h, is_u32 (addr h) /\ addr h <> 0) -> initialize_idt addr (replicate 256 zero_gate) = Some idt ->
  read_index k = 0 -> 33 <= len buf ->
  idt_test junk idt k = heading "idt_test" 39 k (fun k => Some (Result PASS, k)) /\
  paging_test_valid junk A B k = heading "paging_test_valid" 123 k (fun k => Some (Result PASS, k)) /\
  paging_test_invalid junk A B k = heading "paging_test_invalid" 150 k (fun k => Some (Exception PAGE_FAULT, k)) /\
  translate A B (k_pag k) false 0xB9FFF = Some 0xB9FFF /\
  terminal_write_test junk k =
    heading "terminal_write_test" 203 k (fun k => k ← on_con (emit (bytes "hell" ++ [10])) k; Some (Result PASS, k)) /\
  dir_open_close_test junk k = heading "dir_open_close_test" 303 k
    (fun k => Some (Result (match find_entry F (bytes ".") with Some _ => PASS | None => FAIL end), k <| read_index := 0 |>)) /\
  (forall k1, (k ← on_con clear_screen k; on_con (emit (header_text "dir_read_test" 272)) k) = Some k1 ->
    exists k2, dir_read_test junk buf k = Some (Result (if decide (name_lengths = lengths_from F 20 0) then PASS else FAIL), k2)) /\
  file_open_close_test junk A B k = heading "file_open_close_test" 312 k
    (fun k => Some (match find_entry F (bytes "fish") with Some _ => Exception PAGE_FAULT | None => Result FAIL end, k)) /\
  (forall buf,
    file_read_test junk A B buf k = heading "file_read_test" 321 k (fun k => k ← on_con clear_screen k; Some (Exception PAGE_FAULT, k)) /\
    file_read_exe_test junk A B buf k = heading "file_read_exe_test" 334 k (fun k => k ← on_con clear_screen k; Some (Exception PAGE_FAULT, k))) /\
  TEST_OUTPUT junk "Paging valid test" (paging_test_valid junk A B) k = heading "paging_test_valid" 123 k
    (fun k => k ← on_con (emit (verdict "Paging valid test" PASS)) k; Some (Result PASS, k)).
Proof.
  intros Hj Hpl HP HR Ha Hidt Hi Hb. repeat match goal with |- _ /\ _ => split end.
  - by eapply idt_test_passes.
  - by eapply paging_valid_passes.
  - by eapply paging_invalid_faults.
  - rewrite (kernel_walk A B k v Hpl HP 0xB9FFF k) by (lia || done). reflexivity.
  - by apply terminal_write_passes.
  - by apply dir_open_close_ends.
  - intros k1. by apply dir_read_ends.
  - by eapply file_open_close_ends.
  - intros b. by eapply file_reads_fault.
  - assert (paging_test_valid junk A B k = heading "paging_test_valid" 123 k (fun k => Some (Result PASS, k))) as E by
      (by eapply paging_valid_passes).
    unfold heading in *.
    destruct (on_con (emit (header_text "paging_test_valid" 123)) k) as [k1|]; cbn [mbind option_bind] in *.
    + by rewrite (TEST_OUTPUT_prints junk Hj "Paging valid test" _ _ _ _ eq_refl E).
    + unfold TEST_OUTPUT. by rewrite E.
Qed.

(** On the sample system, with handlers anywhere: no entry is "fish". *)
Lemma self_tests_witness :
  exists k idt, idt_test (replicate 64 7) idt k = heading "idt_test" 39 k (fun k => Some (Result PASS, k)) /\
    paging_test_invalid (replicate 64 7) 0x410000 0x412000 k =
      heading "paging_test_invalid" 150 k (fun k => Some (Exception PAGE_FAULT, k)) /\
    file_open_close_test (replicate 64 7) 0x410000 0x412000 k = heading "file_open_close_test" 312 k (fun k => Some (Result FAIL, k)).
Proof.
  destruct sample_serves as (k & s1 & s2 & HS). pose proof (sv_models _ _ _ _ _ _ HS) as Hm.
  destruct (initialize_idt_gates sample_addr) as (idt & E & _).
  destruct (self_tests 0x410000 0x412000 sample_fs (replicate 64 7) sample_addr idt k
    ((cur_pid k + 2) * PAGE_4MB, video_mem (k_con k) / PAGE_BYTES) (replicate 33 0))
    as (H1 & _ & H3 & _ & _ & _ & _ & H8 & _).
  - reflexivity.
  - split; unfold u20; vm_compute; split_and?; done || lia.
  - exact (targets_video _ _ _ _ (im_targets _ _ _ _ _ (mo_desks _ _ _ _ _ _ Hm))).
  - exact (mo_image _ _ _ _ _ _ Hm).
  - intros h. unfold is_u32. destruct h; vm_compute; split; try split; done.
  - exact E.
  - exact (sv_index _ _ _ _ _ _ HS).
  - reflexivity.
  - exists k, idt. exact (conj H1 (conj H3 H8)).
Defined.
