(* ===== verification/User.v ===== *)
(** The user side of the system calls: the calls' interface of
    [src/syscalls/ece391syscall.h] and the support library
    [src/syscalls/ece391support.c].

    A user program is a client of the kernel, so its model is over any state with
    the system calls, [Syscalls]; what it may rely on is [FileLaws]: the kernel
    behaves like a [session], the program's own view of its files, arguments and
    output.  A buffer is an object and an offset into it. *)
From stdpp Require Import base option list numbers gmap.
From Stdlib Require Import ZArith Lia Ascii String.
From S2P Require Import Prelude LibString FileSystem Console Keyboard Rtc State Desks Idt System Files.

Class Syscalls (S : Type) := {
  ece391_getargs : list Z -> Z -> S -> option (Z * list Z * S);
  ece391_open : list Z -> S -> option (Z * S);
  ece391_read : Z -> list Z -> Z -> Z -> S -> option (Z * list Z * S);
  ece391_write : Z -> list Z -> Z -> Z -> S -> option (Z * S);
  ece391_close : Z -> S -> option (Z * S);
}.

(** The program syserr also asks for the video memory, passing an address (the second
    result is the word stored there), and makes calls by number. *)
Class RawCalls (S : Type) := {
  ece391_vidmap : Z -> S -> option (Z * option Z * S);
  call_sys : Z -> S -> option (Z * S);
}.

(** A program that has mapped the video memory stores bytes in it, at an offset from
    an address. *)
Class Screen (S : Type) := put_byte : Z -> Z -> Z -> S -> option S.

(** The shell also starts programs; the result is what the program halts with. *)
Class ExecCall (S : Type) := ece391_execute : list Z -> S -> option (Z * S).

(** ** The support library *)

Definition ece391_strlen (s : list Z) (p : Z) : option Z :=
  iterate (S (Datatypes.length s))
    (fun n => c ← s.[p + n]; Some (if c =? 0 then Done n else Next (n + 1))) 0.

(** Both strings may be in one object, as in grep. *)
Definition ece391_strcpy (m : list Z) (dst src : Z) : option (list Z) :=
  iterate (S (Datatypes.length m))
    (fun '(i, m) => c ← m.[src + i]; m ← m.[dst + i := c];
       Some (if c =? 0 then Done m else Next (i + 1, m))) (0, m).

Definition ece391_strcmp (s1 : list Z) (p1 : Z) (s2 : list Z) (p2 : Z) : option Z :=
  iterate (S (Datatypes.length s1))
    (fun i => a ← s1.[p1 + i]; b ← s2.[p2 + i];
       Some (if a =? b then if a =? 0 then Done 0 else Next (i + 1) else Done (a - b))) 0.

Definition ece391_strncmp (s1 : list Z) (p1 : Z) (s2 : list Z) (p2 n : Z) : option Z :=
  if n =? 0 then Some 0
  else
    iterate (S (Datatypes.length s1))
      (fun '(i, n) => a ← s1.[p1 + i]; b ← s2.[p2 + i];
         Some (if a =? b then
                 if a =? 0 then Done 0
                 else if u32 (n - 1) =? 0 then Done 0 else Next (i + 1, u32 (n - 1))
               else Done (a - b))) (0, n).

Definition ece391_strrev (s : list Z) (p : Z) : option (list Z) :=
  n ← ece391_strlen s p;
  if n - 1 <=? 0 then Some s
  else
    iterate (S (Datatypes.length s))
      (fun '(s, beg, end_) =>
         if beg <? end_ then
           tmp ← s.[p + end_];
           b ← s.[p + beg];
           s ← s.[p + end_ := b];
           s ← s.[p + beg := tmp];
           Some (Next (s, beg + 1, end_ - 1))
         else Some (Done s)) (s, 0, n - 1).

(** [value] is unsigned; the radix is converted to unsigned for the division. *)
Definition ece391_itoa (value : Z) (buf : list Z) (p radix : Z) : option (list Z) :=
  if value =? 0 then
    buf ← buf.[p := 48]; buf.[p + 1 := 0]
  else
    '(buf, newbuf) ← iterate 33
      (fun '(buf, newbuf, newval) =>
         if 0 <? newval then
           c ← itoa_lookup.[newval mod radix];
           buf ← buf.[newbuf := c];
           Some (Next (buf, newbuf + 1, newval / radix))
         else Some (Done (buf, newbuf))) (buf, p, value);
    buf ← buf.[newbuf := 0];
    ece391_strrev buf p.

Section support.
Context {S : Type} `{Syscalls S}.

Definition ece391_fdputs (fd : Z) (s : list Z) (p : Z) (st : S) : option S :=
  n ← ece391_strlen s p; '(_, st) ← ece391_write fd s p n st; Some st.

(** fdputs of a literal *)
Definition fdputs (fd : Z) (text : list Z) (st : S) : option S := ece391_fdputs fd (text ++ [0]) 0 st.
End support.

(** ** What a program sees *)

(** What has happened on the terminals: a key or a byte of output, a program took
    the line of the desk that is shown, or one ended and wiped its desk's line. *)
Inductive act := Happens (e : event) | LineTaken | LineWiped.

Definition step_act (D : desks) (a : act) : desks :=
  match a with
  | Happens e => step_desks e D
  | LineTaken => upd_desk (ds_shown D) clear_line_of D
  | LineWiped => upd_desk (ds_running D) (wipe_line (ds_shown D =? ds_running D)) D
  end.

(** Its argument, its open descriptors, how many names of the directory have been
    read, what happens on the terminals during its next reads of the keyboard and
    the lines they find, and what has happened on the terminals so far. *)
Record session := mkSession {
  u_args : list Z;
  u_fds : gmap Z stream;
  u_listed : Z;
  u_input : list (list act * list Z);
  u_acts : list act;
}.

Definition with_fds (f : gmap Z stream) (v : session) : session :=
  mkSession (u_args v) f (u_listed v) (u_input v) (u_acts v).
Definition with_listed (n : Z) (v : session) : session :=
  mkSession (u_args v) (u_fds v) n (u_input v) (u_acts v).

Definition outs (text : list Z) : list act := (fun c => Happens (Out c)) <$> text.

Definition wrote (text : list Z) (v : session) : session :=
  mkSession (u_args v) (u_fds v) (u_listed v) (u_input v) (u_acts v ++ outs text).

(** After stores in the page of video memory, at offsets from its start. *)
Definition pokes (l : list (Z * Z)) : list act := (fun x => Happens (Poke x.1 x.2)) <$> l.

Definition poked (l : list (Z * Z)) (v : session) : session :=
  mkSession (u_args v) (u_fds v) (u_listed v) (u_input v) (u_acts v ++ pokes l).

(** After a read of the keyboard, [acts] having happened meanwhile. *)
Definition took (acts : list act) (rest : list (list act * list Z)) (v : session) : session :=
  mkSession (u_args v) (u_fds v) (u_listed v) rest (u_acts v ++ acts ++ [LineTaken]).

(** There is a free descriptor. *)
Definition can_open (v : session) : Prop := exists fd, 2 <= fd < 8 /\ u_fds v !! fd = None.

Class FileLaws {S : Type} `{Syscalls S} (F : afs) (R : S -> session -> Prop) := {
  law_getargs s v buf nbytes : R s v -> nbytes <= len buf ->
    exists s', ece391_getargs buf nbytes s =
      (if decide (u_args v <> [] /\ len (u_args v) < nbytes)
       then Some (0, splice buf 0 (u_args v ++ [0]), s') else Some (-1, buf, s')) /\ R s' v;
  law_args s v : R s v -> Forall is_char (u_args v);
  law_open s v name nm f : R s v -> cstring name 0 nm -> found F nm = Some f ->
    match first_fd (u_fds v) with
    | Some fd => exists s', ece391_open name s = Some (fd, s') /\ R s' (with_fds (<[fd := f]> (u_fds v)) v)
    | None => exists s', ece391_open name s = Some (-1, s') /\ R s' v
    end;
  law_absent s v name nm : R s v -> cstring name 0 nm -> find_entry F nm = None ->
    exists s', ece391_open name s = Some (-1, s') /\ R s' v;
  law_file s v fd c pos : R s v -> u_fds v !! fd = Some (FileAt c pos) -> 0 <= pos <= len c /\ Forall is_byte c;
  law_read_file s v fd c pos buf off n : R s v -> u_fds v !! fd = Some (FileAt c pos) ->
    0 <= off -> 0 <= n -> off + n <= len buf ->
    exists s', ece391_read fd buf off n s =
        Some (Z.min n (len c - pos), splice buf off (slice c pos (Z.min n (len c - pos))), s') /\
      R s' (with_fds (<[fd := FileAt c (pos + Z.min n (len c - pos))]> (u_fds v)) v);
  law_read_dir s v fd buf n : R s v -> u_fds v !! fd = Some Listing -> 0 <= n -> 33 <= len buf ->
    exists r buf' s', ece391_read fd buf 0 n s = Some (r, buf', s') /\ Datatypes.length buf' = Datatypes.length buf /\
      match (a_entries F).[u_listed v] with
      | Some e => r = len (a_name e) /\ cstring buf' 0 (a_name e) /\ R s' (with_listed (u_listed v + 1) v)
      | None => r = 0 /\ R s' v
      end;
  law_line s v acts l rest : R s v -> u_input v = (acts, l) :: rest ->
    has_newline l = true /\ Forall is_byte l /\ len l <= KEY_BUF_SIZE;
  law_read_line s v acts l rest buf n : R s v -> u_input v = (acts, l) :: rest ->
    0 <= n -> len (taken l n) <= len buf ->
    exists s', ece391_read 0 buf 0 n s = Some (len (taken l n), splice buf 0 (taken l n), s') /\
      R s' (took acts rest v);
  law_write s v buf off n : R s v -> 0 <= off -> 0 <= n -> off + n <= len buf -> Forall is_byte (slice buf off n) ->
    exists s', ece391_write 1 buf off n s = Some (n, s') /\ R s' (wrote (slice buf off n) v);
  law_close s v fd f : R s v -> u_fds v !! fd = Some f -> 2 <= fd ->
    exists s', ece391_close fd s = Some (0, s') /\
      R s' (with_fds (delete fd (u_fds v)) (match f with Listing => with_listed 0 v | _ => v end));
  law_names : Forall (fun e => len (a_name e) <= 32 /\ Forall is_char (a_name e)) (a_entries F);
}.

(** What the calls refuse. *)
Class RefusalLaws {S : Type} `{Syscalls S} `{RawCalls S} (R : S -> session -> Prop) := {
  law_no_read s v fd buf off n : R s v -> not_open (u_fds v) fd ->
    exists s', ece391_read fd buf off n s = Some (-1, buf, s') /\ R s' v;
  law_no_write s v fd buf off n : R s v -> fd = 0 \/ not_open (u_fds v) fd ->
    exists s', ece391_write fd buf off n s = Some (-1, s') /\ R s' v;
  law_no_close s v fd : R s v -> fd = 0 \/ fd = 1 \/ not_open (u_fds v) fd ->
    exists s', ece391_close fd s = Some (-1, s') /\ R s' v;
  law_read_stdout s v buf off n : R s v ->
    exists s', ece391_read 1 buf off n s = Some (-1, buf, s') /\ R s' v;
  law_no_vidmap s v p : R s v -> p < 0x8000000 -> exists s', ece391_vidmap p s = Some (-1, None, s') /\ R s' v;
  law_no_call s v n : R s v -> n < 1 \/ 10 < n -> exists s', call_sys n s = Some (-1, s') /\ R s' v;
}.

(** The video page is mapped for an address in the program's own memory. *)
Class VideoLaws {S : Type} `{RawCalls S} (R : S -> session -> Prop) :=
  law_vidmap s v p : R s v -> 0x8000000 <= p <= 0x83FFFFC ->
    exists s', ece391_vidmap p s = Some (0, Some 0x84B8000, s') /\ R s' v.

(** A byte in the mapped page goes to the display of the program's terminal. *)
Class ScreenLaws {S : Type} `{Screen S} (R : S -> session -> Prop) :=
  law_poke s v off c : R s v -> 0 <= off < PAGE_BYTES ->
    exists s', put_byte USER_VIDEO off c s = Some s' /\ R s' (poked [(off, u8 c)] v).

(** What the clock promises, once it is open. *)
Class ClockLaws {S : Type} `{Syscalls S} (R : S -> session -> Prop) := {
  law_clock_rate s v fd buf n w : R s v -> u_fds v !! fd = Some Clock -> ld32 buf 0 = Some w -> rate_ok (s32 w) ->
    exists s', ece391_write fd buf 0 n s = Some (0, s') /\ R s' v;
  law_clock_wait s v fd buf n : R s v -> u_fds v !! fd = Some Clock -> 0 <= n ->
    exists s', ece391_read fd buf 0 n s = Some (0, buf, s') /\ R s' v;
}.

(** What a shell relies on besides: a command [allowed] comes to an end, and
    [executes str v r v'] says what may come of running [str] in the session [v],
    the result [r] and the session that goes on. *)
Class ExecLaws {S : Type} `{ExecCall S} (R : S -> session -> Prop)
    (allowed : list Z -> Prop) (executes : list Z -> session -> Z -> session -> Prop) :=
  law_execute s v cmd str : R s v -> cstring cmd 0 str -> len str < 128 -> allowed str ->
    exists r s' v', ece391_execute cmd s = Some (r, s') /\ executes str v r v' /\ R s' v'.

(** ** Lemmas *)

Lemma ece391_strlen_eq s p : ece391_strlen s p = strlen s p.
Proof. done. Qed.

Lemma ece391_strlen_cstring s p str : cstring s p str -> ece391_strlen s p = Some (len str).
Proof. apply strlen_cstring. Qed.

(** The character at [i], or the terminator. *)
Lemma cstring_get s p str i : cstring s p str -> 0 <= i <= len str ->
  exists c, s.[p + i] = Some c /\ (c = 0 <-> i = len str) /\ (i < len str -> str.[i] = Some c).
Proof.
  intros Hs Hi. destruct (Z.eq_dec i (len str)) as [->|Hne].
  - exists 0. split_and!; [by destruct Hs as (_ & _ & ? & _)|done|lia].
  - destruct (cstring_char s p str i Hs) as (c & Ec & Hc); [lia|]. exists c.
    split_and!; [done|unfold is_char in Hc; lia|].
    intros _. destruct Hs as (_ & _ & _ & Hi'). rewrite <- Hi' by lia. done.
Qed.

(** [strcmp] tells equal strings from different ones, and has the sign of the
    first difference. *)
Lemma ece391_strcmp_spec s1 p1 a s2 p2 b :
  cstring s1 p1 a -> cstring s2 p2 b ->
  exists r, ece391_strcmp s1 p1 s2 p2 = Some r /\ (r = 0 <-> a = b).
Proof.
  intros H1 H2. pose proof (cstring_length _ _ _ H1) as Hl1. pose proof (cstring_length _ _ _ H2) as Hl2.
  pose proof H1 as (Hp1 & Hc1 & Hz1 & Hi1). pose proof H2 as (Hp2 & Hc2 & Hz2 & Hi2).
  apply (iterate_ind (fun i => 0 <= i <= len a /\ i <= len b /\ forall j, 0 <= j < i -> a.[j] = b.[j])
    (fun r => r = 0 <-> a = b) (fun i => Z.to_nat (len a - i))); [|split_and!; [lia|lia|lia|intros; lia]|lia].
  intros i (Hia & Hib & Heq).
  destruct (cstring_get _ _ _ i H1) as (c1 & E1 & Hz1' & Hs1); [lia|]. destruct (cstring_get _ _ _ i H2) as (c2 & E2 & Hz2' & Hs2); [lia|].
  rewrite E1, E2. cbn [mbind option_bind]. destruct (Z.eqb_spec c1 c2) as [->|Hne].
  - destruct (Z.eqb_spec c2 0) as [E0|E0].
    + eexists; split; [done|]. cbv beta. split; [intros _|done].
      apply aget_ext; [lia|]. intros j Hj. apply Heq. lia.
    + eexists; split; [done|]. assert (i < len a /\ i < len b) as [Ha Hb] by lia.
      split; [|lia]. split_and!; [lia|lia|lia|]. intros j Hj. destruct (Z.eq_dec j i) as [->|]; [|apply Heq; lia].
      by rewrite Hs1, Hs2 by lia.
  - eexists; split; [done|]. cbv beta. split; [lia|]. intros ->. exfalso. apply Hne.
    destruct (Z.eq_dec i (len b)) as [Ei|Ei].
    + by rewrite (proj2 Hz1' Ei), (proj2 Hz2' Ei).
    + specialize (Hs1 ltac:(lia)). specialize (Hs2 ltac:(lia)). congruence.
Qed.

Lemma ece391_strrev_eq s p : ece391_strrev s p = strrev s p.
Proof.
  unfold ece391_strrev, strrev. change (ece391_strlen s p) with (strlen s p).
  destruct (strlen s p) as [n|]; [|done]. cbn [mbind option_bind].
  destruct (Z.leb_spec (n - 1) 0) as [Hle|]; [|done].
  rewrite iterate_S, (proj2 (Z.ltb_ge 0 (n - 1))) by lia. done.
Qed.

Lemma ece391_itoa_eq v buf p radix : ece391_itoa v buf p radix = itoa v buf p radix.
Proof.
  unfold ece391_itoa, itoa. destruct (v =? 0); [done|].
  destruct (iterate 33 _ _) as [ [b q]|]; [|done]. cbn [mbind option_bind].
  destruct (b.[q := 0]); cbn [mbind option_bind]; [|done]. apply ece391_strrev_eq.
Qed.

Lemma chars_bytes l : Forall is_char l -> Forall is_byte l.
Proof. intros H. eapply Forall_impl; [exact H|]. unfold is_char, is_byte. lia. Qed.

Lemma wrote_nil v : wrote [] v = v.
Proof. destruct v. unfold wrote, outs. cbn. by rewrite app_nil_r. Qed.

Lemma wrote_app t1 t2 v : wrote t2 (wrote t1 v) = wrote (t1 ++ t2) v.
Proof. unfold wrote, outs. cbn. by rewrite fmap_app, app_assoc. Qed.

(** A whole line, with its newline. *)
Lemma take_until l : take (Datatypes.length (until_newline l)) l = until_newline l.
Proof.
  induction l as [|c l IH]; [done|]. cbn [until_newline]. destruct (c =? 10); [done|].
  cbn [Datatypes.length take]. by rewrite IH.
Qed.

Lemma taken_line l n : has_newline l = true -> len (until_newline l) <= n -> taken l n = until_newline l ++ [10].
Proof.
  intros Hnl Hn. pose proof (until_newline_at _ Hnl) as Hat. pose proof (aget_range _ _ _ Hat).
  unfold taken. rewrite Z.min_l by lia. rewrite Nat2Z.id, Nat.add_1_r.
  rewrite (take_S_r _ _ 10), take_until; [done|]. rewrite <- aget_nat. exact Hat.
Qed.

Lemma until_newline_chars l : has_newline l = true -> Forall is_byte l -> Forall is_char (until_newline l).
Proof.
  intros Hnl H. induction H as [|c l Hc H IH]; cbn [has_newline until_newline] in *; [done|].
  destruct (Z.eqb_spec c 10) as [->|Hn]; [done|]. cbn [orb] in Hnl.
  destruct (Z.eqb_spec c 0) as [->|H0]; [done|]. constructor; [unfold is_char, is_byte in *; lia|by apply IH].
Qed.

Section laws.
Context {S : Type} {HS : Syscalls S} (F : afs) (R : S -> session -> Prop) {L : FileLaws F R}.

Lemma fdputs_ok s v obj p str :
  R s v -> cstring obj p str -> exists s', ece391_fdputs 1 obj p s = Some s' /\ R s' (wrote str v).
Proof.
  intros HR Hc. unfold ece391_fdputs. rewrite (ece391_strlen_cstring _ _ _ Hc). cbn [mbind option_bind].
  pose proof (cstring_length _ _ _ Hc). pose proof Hc as (Hp & _ & _ & Hi).
  assert (slice obj p (len str) = str) as Es.
  { assert (len (slice obj p (len str)) = len str) as El by (rewrite length_slice; lia).
    apply aget_ext; [lia|]. rewrite El. intros i Hir. rewrite aget_slice by lia. apply Hi. lia. }
  destruct (law_write s v obj p (len str) HR) as (s' & -> & HR'); [lia..| |].
  { rewrite Es. destruct Hc as (_ & Hch & _). by apply chars_bytes. }
  cbn [mbind option_bind]. exists s'. split; [done|]. by rewrite Es in HR'.
Qed.

Lemma fdputs_lit_ok s v text :
  R s v -> Forall is_char text -> exists s', fdputs 1 text s = Some s' /\ R s' (wrote text v).
Proof. intros HR Ht. apply fdputs_ok; [done|]. by apply cstring_intro. Qed.

(** A read of the keyboard with a buffer for any line. *)
Lemma read_line_ok s v acts l rest buf n :
  R s v -> u_input v = (acts, l) :: rest -> 127 <= n -> KEY_BUF_SIZE <= len buf ->
  let str := until_newline l ++ [10] in
  exists s', ece391_read 0 buf 0 n s = Some (len str, splice buf 0 str, s') /\ R s' (took acts rest v) /\
    Forall is_char str /\ len str <= KEY_BUF_SIZE.
Proof.
  intros HR Hin Hn Hbuf str. destruct (law_line s v acts l rest HR Hin) as (Hnl & Hb & Hl).
  unfold KEY_BUF_SIZE in *. pose proof (aget_range _ _ _ (until_newline_at _ Hnl)).
  assert (taken l n = str) as Et by (apply taken_line; [done|lia]).
  assert (len str <= 128) as Hs by (rewrite <- Et; unfold taken; rewrite length_take; lia).
  destruct (law_read_line s v acts l rest buf n HR Hin) as (s' & E & HR'); [lia|rewrite Et; lia|].
  rewrite Et in E. exists s'. split_and!; try done. apply Forall_app.
  split; [by apply until_newline_chars|]. repeat constructor.
Qed.

(** With a free descriptor, a file that is there is opened. *)
Lemma open_ok s v name nm f :
  R s v -> cstring name 0 nm -> found F nm = Some f -> can_open v ->
  exists fd s', ece391_open name s = Some (fd, s') /\ 2 <= fd < 8 /\ u_fds v !! fd = None /\
    R s' (with_fds (<[fd := f]> (u_fds v)) v).
Proof.
  intros HR Hc Hf (fd0 & Hr0 & Hfree). pose proof (law_open s v name nm f HR Hc Hf) as H.
  destruct (first_fd (u_fds v)) as [fd|] eqn:E; [|by apply first_fd_none with (fd := fd0) in E].
  destruct H as (s' & H & HR'). apply first_fd_spec in E as [Hr Hnone]. by exists fd, s'.
Qed.
End laws.
