(* ===== verification/Programs.v ===== *)
(** User programs of [src/syscalls/]: cat, ls, grep, shell, counter, hello and
    testprint, over any implementation of the system calls.  A program's [main] is
    a function from its uninitialised buffers and the state to its return value
    and the state; the loops that end when a call says so take fuel. *)
From stdpp Require Import base option list numbers gmap.
From Stdlib Require Import ZArith Lia Ascii String.
From S2P Require Import Prelude LibString FileSystem Idt Files User.

Definition BUFSIZE : Z := 1024.
Definition SBUFSIZE : Z := 33.

(** A message that ends with a newline. *)
Definition text_line (s : string) : list Z := bytes s ++ [10].

Section programs.
Context {S : Type} {HS : Syscalls S}.

(** ** cat *)

Definition cat_loop (fuel : nat) (fd : Z) (buf : list Z) (s : S) : option (Z * S) :=
  iterate fuel (fun '(buf, s) =>
    '(cnt, buf, s) ← ece391_read fd buf 0 1024 s;
    if cnt =? 0 then Some (Done (0, s))
    else if cnt =? -1 then s ← fdputs 1 (text_line "file read failed") s; Some (Done (3, s))
    else
      '(r, s) ← ece391_write 1 buf 0 cnt s;
      Some (if r =? -1 then Done (3, s) else Next (buf, s))) (buf, s).

Definition cat (fuel : nat) (buf : list Z) (s : S) : option (Z * S) :=
  '(r, buf, s) ← ece391_getargs buf 1024 s;
  if negb (r =? 0) then s ← fdputs 1 (text_line "could not read arguments") s; Some (3, s)
  else
    '(fd, s) ← ece391_open buf s;
    if fd =? -1 then s ← fdputs 1 (text_line "file not found") s; Some (2, s)
    else cat_loop fuel fd buf s.

(** ** ls *)

Definition ls_loop (fuel : nat) (fd : Z) (buf : list Z) (s : S) : option (Z * S) :=
  iterate fuel (fun '(buf, s) =>
    '(cnt, buf, s) ← ece391_read fd buf 0 (SBUFSIZE - 1) s;
    if cnt =? 0 then Some (Done (0, s))
    else if cnt =? -1 then s ← fdputs 1 (text_line "directory entry read failed") s; Some (Done (3, s))
    else
      buf ← buf.[cnt := 10];
      '(r, s) ← ece391_write 1 buf 0 (cnt + 1) s;
      Some (if r =? -1 then Done (3, s) else Next (buf, s))) (buf, s).

Definition ls (fuel : nat) (buf : list Z) (s : S) : option (Z * S) :=
  '(fd, s) ← ece391_open [46; 0] s;
  if fd =? -1 then s ← fdputs 1 (text_line "directory open failed") s; Some (2, s)
  else ls_loop fuel fd buf s.

(** ** testprint, hello *)

Definition testprint (s : S) : option (Z * S) :=
  s ← fdputs 1 (text_line "Hello, if this ran, the program was correct. Yay!") s; Some (0, s).

Definition hello (buf : list Z) (s : S) : option (Z * S) :=
  s ← fdputs 1 (bytes "Hi, what's your name? ") s;
  '(cnt, buf, s) ← ece391_read 0 buf 0 (BUFSIZE - 1) s;
  if cnt =? -1 then s ← fdputs 1 (text_line "Can't read name from keyboard.") s; Some (3, s)
  else
    buf ← buf.[cnt := 0];
    s ← fdputs 1 (bytes "Hello, ") s;
    s ← ece391_fdputs 1 buf 0 s;
    Some (0, s).

(** ** counter *)

Definition counter_max (c : Z) : Z :=
  if c =? 48 then 100 else if c =? 49 then 10000 else if c =? 50 then 100000 else 0.

Definition count_to (max : Z) (buf : list Z) (s : S) : option (list Z * S) :=
  for_range 0 max (fun i '(buf, s) =>
    buf ← ece391_itoa (i + 1) buf 0 10;
    s ← ece391_fdputs 1 buf 0 s;
    s ← fdputs 1 [10] s;
    Some (buf, s)) (buf, s).

Definition counter (buf : list Z) (s : S) : option (Z * S) :=
  s ← fdputs 1 (text_line "Enter the Test Number: (0): 100, (1): 10000, (2): 100000") s;
  '(cnt, buf, s) ← ece391_read 0 buf 0 (BUFSIZE - 1) s;
  if u32 cnt =? u32 (-1) then s ← fdputs 1 (text_line "Can't read the number from keyboard.") s; Some (3, s)
  else
    buf ← buf.[u32 cnt := 0];
    n ← ece391_strlen buf 0;
    c ← buf.[0];
    if (2 <? n) || ((n =? 2) && ((c <? 48) || (50 <? c))) then
      s ← fdputs 1 (text_line "Wrong Choice!") s; Some (0, s)
    else
      '(_, s) ← count_to (counter_max c) buf s; Some (0, s).

(** ** shell *)

(** One round: [Done] when the shell ends. *)
Definition shell_round {HE : ExecCall S} : list Z * S -> option (flow (list Z * S) (Z * S)) := fun '(buf, s) =>
  s ← fdputs 1 (bytes "391OS> ") s;
  '(cnt, buf, s) ← ece391_read 0 buf 0 (BUFSIZE - 1) s;
  if cnt =? -1 then s ← fdputs 1 (text_line "read from keyboard failed") s; Some (Done (3, s))
  else
    cnt ← (if 0 <? cnt then c ← buf.[cnt - 1]; Some (if c =? 10 then cnt - 1 else cnt) else Some cnt);
    buf ← buf.[cnt := 0];
    r ← ece391_strcmp buf 0 (bytes "exit" ++ [0]) 0;
    if r =? 0 then Some (Done (0, s))
    else
      c ← buf.[0];
      if c =? 0 then Some (Next (buf, s))
      else
        '(rval, s) ← ece391_execute buf s;
        s ← (if rval =? -1 then fdputs 1 (text_line "no such command") s
             else if rval =? 256 then fdputs 1 (text_line "program terminated by exception") s
             else if negb (rval =? 0) then fdputs 1 (text_line "program terminated abnormally") s
             else Some s);
        Some (Next (buf, s)).

Definition shell {HE : ExecCall S} (fuel : nat) (buf : list Z) (s : S) : option (Z * S) :=
  s ← fdputs 1 (text_line "Starting 391 Shell") s;
  iterate fuel shell_round (buf, s).

(** ** grep *)

(** The search of the line from [line_start] to [line_end]; [s] is a signed [char*]
    and [data] an array of [uint8_t]. *)
Definition grep_search (str fname data : list Z) (s_len line_start line_end : Z) (s : S) : option S :=
  iterate (Datatypes.S (Z.to_nat (line_end - line_start))) (fun check =>
    if check <? line_end then
      a ← str.[0]; c ← data.[check];
      hit ← (if s8 a =? c then r ← ece391_strncmp data check str 0 s_len; Some (r =? 0) else Some false);
      if hit : bool then
        s ← ece391_fdputs 1 fname 0 s;
        s ← fdputs 1 [58] s;
        s ← ece391_fdputs 1 data line_start s;
        s ← fdputs 1 [10] s;
        Some (Done s)
      else Some (Next (check + 1))
    else Some (Done s)) line_start.

(** The index of the first newline from [line_start] on, or [last]. *)
Definition find_line_end (data : list Z) (line_start last : Z) : option Z :=
  iterate (Datatypes.S (Z.to_nat (last - line_start))) (fun line_end =>
    if line_end <? last then c ← data.[line_end]; Some (if c =? 10 then Done line_end else Next (line_end + 1))
    else Some (Done line_end)) line_start.

(** The lines in the buffer; the result is the buffer, what is left of it, and the
    state. *)
Definition grep_lines (str fname : list Z) (s_len cnt : Z) (data : list Z) (last : Z) (s : S)
    : option (list Z * Z * S) :=
  iterate (Datatypes.S (Datatypes.S (Z.to_nat last))) (fun '(line_start, data, last, s) =>
    line_end ← find_line_end data line_start last;
    c ← data.[line_end];
    if negb (c =? 10) && negb (cnt =? 0) && negb (line_start =? 0) then
      data ← data.[line_end := 0];
      data ← ece391_strcpy data 0 line_start;
      Some (Done (data, last - line_start, s))
    else
      data ← data.[line_end := 0];
      s ← grep_search str fname data s_len line_start line_end s;
      let line_start := line_end + 1 in
      Some (if last <=? line_start then Done (data, 0, s) else Next (line_start, data, last, s)))
    (0, data, last, s).

Definition do_one_file (fuel : nat) (str fname data : list Z) (s : S) : option (Z * S) :=
  s_len ← ece391_strlen str 0;
  '(fd, s) ← ece391_open fname s;
  if fd =? -1 then s ← fdputs 1 (text_line "file open failed") s; Some (-1, s)
  else
    '(failed, s) ← iterate fuel (fun '(data, last, s) =>
      '(cnt, data, s) ← ece391_read fd data last (BUFSIZE - last) s;
      if cnt =? -1 then s ← fdputs 1 (text_line "file read failed") s; Some (Done (true, s))
      else
        '(data, last, s) ← grep_lines str fname s_len cnt data (last + cnt) s;
        Some (if cnt =? 0 then Done (false, s) else Next (data, last, s))) (data, 0, s);
    if failed : bool then Some (-1, s)
    else
      '(r, s) ← ece391_close fd s;
      if r =? -1 then s ← fdputs 1 (text_line "file close failed") s; Some (-1, s)
      else Some (0, s).

(** [data] is the uninitialised buffer of each call of [do_one_file]. *)
Definition grep_loop (file_fuel fuel : nat) (fd : Z) (search data buf : list Z) (s : S) : option (Z * S) :=
  iterate fuel (fun '(buf, s) =>
    '(cnt, buf, s) ← ece391_read fd buf 0 (SBUFSIZE - 1) s;
    if cnt =? 0 then Some (Done (0, s))
    else if cnt =? -1 then s ← fdputs 1 (text_line "directory entry read failed") s; Some (Done (3, s))
    else
      c ← buf.[0];
      if c =? 46 then Some (Next (buf, s))
      else
        buf ← buf.[cnt := 0];
        '(r, s) ← do_one_file file_fuel search buf data s;
        Some (if r =? 0 then Next (buf, s) else Done (3, s))) (buf, s).

Definition grep (file_fuel fuel : nat) (search data buf : list Z) (s : S) : option (Z * S) :=
  '(r, search, s) ← ece391_getargs search BUFSIZE s;
  if negb (r =? 0) then s ← fdputs 1 (text_line "could not read argument") s; Some (3, s)
  else
    '(fd, s) ← ece391_open [46; 0] s;
    if fd =? -1 then s ← fdputs 1 (text_line "directory open failed") s; Some (2, s)
    else grep_loop file_fuel fuel fd search data buf s.
End programs.
