(* ===== verification/Clients.v ===== *)
(** What the user programs do, proved against the interface of [User.v]: any
    system calls that keep the promises of [FileLaws] make cat print its file, ls
    the directory and counter its numbers, and the shell run its commands. *)
From stdpp Require Import base option list numbers gmap.
From Stdlib Require Import ZArith Lia Ascii String.
From S2P Require Import Prelude LibString FileSystem Keyboard Desks Idt Process Files User Programs.

Section clients.
Context {S : Type} {HS : Syscalls S} (F : afs) (R : S -> session -> Prop) {L : FileLaws F R}.

(** ** cat *)

(** The file from [pos] on is printed. *)
Lemma cat_loop_prints fuel fd c : forall s v pos buf,
  R s v -> u_fds v !! fd = Some (FileAt c pos) -> len buf = 1024 ->
  (Z.to_nat (len c - pos) < fuel)%nat ->
  exists s', cat_loop fuel fd buf s = Some (0, s') /\
    R s' (wrote (drop (Z.to_nat pos) c) (with_fds (<[fd := FileAt c (len c)]> (u_fds v)) v)).
Proof.
  induction fuel as [|fuel IH]; intros s v pos buf HR Hfd Hbuf Hfuel; [lia|].
  destruct (law_file s v fd c pos HR Hfd) as [Hpos Hbytes].
  unfold cat_loop in *. rewrite iterate_S.
  destruct (law_read_file s v fd c pos buf 0 1024 HR Hfd) as (s1 & -> & HR1); [lia..|]. cbn [mbind option_bind].
  set (m := Z.min 1024 (len c - pos)) in *.
  destruct (Z.eqb_spec m 0) as [Em|Em].
  - exists s1. split; [done|]. assert (pos = len c) as -> by lia.
    rewrite drop_ge, wrote_nil by lia. rewrite Em, Z.add_0_r in HR1. exact HR1.
  - rewrite (proj2 (Z.eqb_neq m (-1))) by lia.
    assert (len (slice c pos m) = m) as Hsl by (rewrite length_slice; lia).
    assert (len (splice buf 0 (slice c pos m)) = 1024) as Hb1 by (rewrite length_splice; lia).
    destruct (law_write s1 _ (splice buf 0 (slice c pos m)) 0 m HR1) as (s2 & -> & HR2); [lia..| |].
    { rewrite slice_splice_0 by lia. unfold slice. by apply Forall_take, Forall_drop. }
    cbn [mbind option_bind]. rewrite (proj2 (Z.eqb_neq m (-1))) by lia.
    rewrite slice_splice_0 in HR2 by lia.
    destruct (IH s2 _ (pos + m) (splice buf 0 (slice c pos m)) HR2) as (s3 & E & HR3); try lia.
    { apply lookup_insert_eq. }
    rewrite E. exists s3. split; [done|]. revert HR3. cbn [wrote with_fds u_fds u_args u_listed u_input u_acts].
    rewrite insert_insert_eq. cbn.
    replace (drop (Z.to_nat pos) c) with (slice c pos m ++ drop (Z.to_nat (pos + m)) c).
    { unfold wrote, with_fds, outs. cbn. by rewrite fmap_app, app_assoc. }
    unfold slice. replace (Z.to_nat (pos + m)) with (Z.to_nat pos + Z.to_nat m)%nat by lia.
    rewrite <- drop_drop. apply take_drop.
Qed.

(** What cat prints and returns, by its argument; a name of a directory or of the
    clock is left open. *)
Definition cat_spec (v : session) : option (Z * list Z) :=
  if decide (u_args v <> [] /\ len (u_args v) < 1024) then
    match find_entry F (u_args v), found F (u_args v) with
    | None, _ => Some (2, text_line "file not found")
    | Some _, Some (FileAt c _) => Some (0, c)
    | Some _, _ => None
    end
  else Some (3, text_line "could not read arguments").

Lemma cat_ok fuel buf s v code text :
  R s v -> can_open v -> len buf = 1024 -> cat_spec v = Some (code, text) -> (Datatypes.length text < fuel)%nat ->
  exists s' fds, cat fuel buf s = Some (code, s') /\ R s' (wrote text (with_fds fds v)).
Proof.
  intros HR Hfree Hbuf Hspec Hfuel. unfold cat_spec in Hspec. unfold cat.
  assert (forall fds, fds = u_fds v -> with_fds fds v = v) as Hsame by (intros fds ->; by destruct v).
  destruct (law_getargs s v buf 1024 HR) as (s0 & -> & HR0); [lia|]. clear HR. rename HR0 into HR. case_decide as Hargs; cbn [mbind option_bind Z.eqb negb].
  - destruct Hargs as [Hne Hlt].
    assert (cstring (splice buf 0 (u_args v ++ [0])) 0 (u_args v)) as Hc.
    { apply cstring_splice; [by eapply law_args|lia]. }
    destruct (find_entry F (u_args v)) as [e|] eqn:Ee.
    + destruct (found F (u_args v)) as [ [c p| |]|] eqn:Ef; try done. injection Hspec as <- <-.
      assert (p = 0) as ->.
      { unfold found in Ef. rewrite Ee in Ef. cbn [mbind option_bind] in Ef.
        repeat (case_match; try discriminate Ef). destruct ((a_files F).[a_inode e]); [|discriminate Ef].
        by injection Ef as <- <-. }
      destruct (open_ok F R s0 v _ _ _ HR Hc Ef Hfree) as (fd & s1 & -> & Hfd & _ & HR1). cbn [mbind option_bind].
      rewrite (proj2 (Z.eqb_neq fd (-1))) by lia.
      destruct (cat_loop_prints fuel fd c s1 _ 0 (splice buf 0 (u_args v ++ [0])) HR1) as (s2 & E & HR2).
      * apply lookup_insert_eq.
      * rewrite length_splice; [done|lia|rewrite length_app; cbn; lia].
      * lia.
      * exists s2, (<[fd := FileAt c (len c)]> (<[fd := FileAt c 0]> (u_fds v))). split; [done|].
        cbn in HR2. by rewrite drop_0 in HR2.
    + injection Hspec as <- <-. destruct (law_absent s0 v _ _ HR Hc Ee) as (sn & -> & HRn). cbn [mbind option_bind Z.eqb Pos.eqb].
      destruct (fdputs_lit_ok F R sn v (text_line "file not found") HRn) as (s1 & -> & HR1);
        [apply Forall_is_char; reflexivity|]. exists s1, (u_fds v). rewrite Hsame; done.
  - injection Hspec as <- <-.
    destruct (fdputs_lit_ok F R s0 v (text_line "could not read arguments") HR) as (s1 & -> & HR1);
      [apply Forall_is_char; reflexivity|]. exists s1, (u_fds v). rewrite Hsame; done.
Qed.

(** ** ls *)

(** The names from the [i]-th on, a line each. *)
Definition listing (i : Z) : list Z := mjoin ((fun e => a_name e ++ [10]) <$> drop (Z.to_nat i) (a_entries F)).

Lemma ls_loop_lists fuel fd : forall s v buf,
  Forall (fun e => a_name e <> []) (a_entries F) ->
  R s v -> u_fds v !! fd = Some Listing -> 0 <= u_listed v <= len (a_entries F) -> len buf = SBUFSIZE ->
  (Z.to_nat (len (a_entries F) - u_listed v) < fuel)%nat ->
  exists s', ls_loop fuel fd buf s = Some (0, s') /\
    R s' (wrote (listing (u_listed v)) (with_listed (len (a_entries F)) v)).
Proof.
  induction fuel as [|fuel IH]; intros s v buf Hne HR Hfd Hi Hbuf Hfuel; [lia|].
  unfold ls_loop in *. rewrite iterate_S. unfold SBUFSIZE in *.
  destruct (law_read_dir s v fd buf (33 - 1) HR Hfd) as (r & b1 & s1 & -> & Hl1 & Hr); [lia|lia|].
  cbn [mbind option_bind]. destruct ((a_entries F).[u_listed v]) as [e|] eqn:Ee.
  - destruct Hr as (-> & Hc & HR1). pose proof (aget_Forall _ _ _ _ Hne Ee) as Hn. cbv beta in Hn.
    pose proof (aget_Forall _ _ _ _ law_names Ee) as [H32 Hch].
    pose proof (aget_range _ _ _ Ee) as Hri.
    assert (0 < len (a_name e)) as Hpos by (destruct (a_name e); [done|cbn; lia]).
    rewrite (proj2 (Z.eqb_neq (len (a_name e)) 0)), (proj2 (Z.eqb_neq (len (a_name e)) (-1))) by lia.
    rewrite aset_Some by lia. cbn [mbind option_bind].
    set (b2 := <[Z.to_nat (len (a_name e)) := 10]> b1).
    assert (len b2 = 33) as Hl2 by (unfold b2; rewrite length_insert; lia).
    assert (slice b2 0 (len (a_name e) + 1) = a_name e ++ [10]) as Esl.
    { assert (len (slice b2 0 (len (a_name e) + 1)) = len (a_name e) + 1) as Els by (rewrite length_slice; lia).
      apply aget_ext; [rewrite length_app; cbn; lia|]. rewrite Els. intros j Hj. rewrite aget_slice by lia.
      unfold b2. destruct (Z.eq_dec j (len (a_name e))) as [->|Hjn].
      - rewrite aget_insert_eq, aget_app_r, Z.sub_diag by lia. done.
      - rewrite aget_insert_ne, aget_app_l by lia. destruct Hc as (_ & _ & _ & Hcj). apply Hcj. lia. }
    destruct (law_write s1 _ b2 0 (len (a_name e) + 1) HR1) as (s2 & -> & HR2); [lia..| |].
    { rewrite Esl. apply Forall_app. split; [by apply chars_bytes|]. repeat constructor; unfold is_byte; lia. }
    cbn [mbind option_bind].
    rewrite (proj2 (Z.eqb_neq (len (a_name e) + 1) (-1))) by lia.
    rewrite Esl in HR2.
    destruct (IH s2 _ b2 Hne HR2) as (s3 & E & HR3); try done; cbn [u_listed wrote with_listed]; [lia|lia|].
    rewrite E. exists s3. split; [done|]. cbn [u_listed wrote with_listed] in HR3.
    replace (listing (u_listed v)) with ((a_name e ++ [10]) ++ listing (u_listed v + 1)).
    { unfold wrote, with_listed, outs in *. cbn in *. by rewrite fmap_app, app_assoc. }
    unfold listing. replace (Z.to_nat (u_listed v + 1)) with (Datatypes.S (Z.to_nat (u_listed v))) by lia.
    rewrite (drop_S (a_entries F) e (Z.to_nat (u_listed v))); [done|].
    rewrite <- aget_nat, Z2Nat.id by lia. done.
  - destruct Hr as [-> HR1]. exists s1. split; [done|].
    assert (u_listed v = len (a_entries F)) as Ei.
    { destruct (Z.eq_dec (u_listed v) (len (a_entries F))) as [|Hneq]; [done|].
      destruct (aget_is_Some (a_entries F) (u_listed v)) as [? E]; [lia|congruence]. }
    unfold listing. rewrite drop_ge by lia. cbn. rewrite <- Ei, wrote_nil. by destruct v.
Qed.

Lemma ls_ok fuel buf s v :
  Forall (fun e => a_name e <> []) (a_entries F) -> found F [46] = Some Listing ->
  R s v -> can_open v -> 0 <= u_listed v <= len (a_entries F) -> len buf = SBUFSIZE ->
  (Datatypes.length (a_entries F) < fuel)%nat ->
  exists s' fds, ls fuel buf s = Some (0, s') /\
    R s' (wrote (listing (u_listed v)) (with_listed (len (a_entries F)) (with_fds fds v))).
Proof.
  intros Hne Hdot HR Hfree Hi Hbuf Hfuel. unfold ls.
  destruct (open_ok F R s v [46; 0] [46] Listing HR) as (fd & s1 & -> & Hfd & _ & HR1); try done.
  { apply (cstring_intro [46] []). by repeat constructor. }
  cbn [mbind option_bind]. rewrite (proj2 (Z.eqb_neq fd (-1))) by lia.
  destruct (ls_loop_lists fuel fd s1 _ buf Hne HR1) as (s2 & E & HR2); try done.
  { apply lookup_insert_eq. }
  { cbn. lia. }
  exists s2, (<[fd := Listing]> (u_fds v)). split; [exact E|]. exact HR2.
Qed.
(** ** testprint *)

Lemma testprint_ok s v :
  R s v -> exists s', testprint s = Some (0, s') /\
    R s' (wrote (text_line "Hello, if this ran, the program was correct. Yay!") v).
Proof.
  intros HR. unfold testprint.
  destruct (fdputs_lit_ok F R s v (text_line "Hello, if this ran, the program was correct. Yay!") HR) as (s' & -> & HR');
    [apply Forall_is_char; reflexivity|].
  by exists s'.
Qed.

(** ** hello *)

(** A line in a buffer, ended with a NUL. *)
Lemma end_line buf str :
  Forall is_char str -> len str < len buf ->
  (splice buf 0 str).[len str := 0] = Some (splice buf 0 (str ++ [0])) /\
  cstring (splice buf 0 (str ++ [0])) 0 str.
Proof. intros Hc Hl. split; [by apply end_word|by apply cstring_splice]. Qed.

Lemma hello_ok buf s v acts l rest :
  R s v -> u_input v = (acts, l) :: rest -> len buf = BUFSIZE ->
  exists s', hello buf s = Some (0, s') /\
    R s' (wrote (bytes "Hello, " ++ until_newline l ++ [10])
           (took acts rest (wrote (bytes "Hi, what's your name? ") v))).
Proof.
  intros HR Hin Hbuf. unfold hello, BUFSIZE in *.
  destruct (fdputs_lit_ok F R s v (bytes "Hi, what's your name? ") HR) as (s1 & -> & HR1); [apply Forall_is_char; reflexivity|].
  cbn [mbind option_bind].
  destruct (read_line_ok F R s1 _ acts l rest buf 1023 HR1 Hin) as (s2 & E2 & HR2 & Hc & Hl);
    [lia|unfold KEY_BUF_SIZE; lia|].
  change (1024 - 1) with 1023. rewrite E2. unfold KEY_BUF_SIZE in *. cbn [mbind option_bind].
  set (str := until_newline l ++ [10]) in *. rewrite (proj2 (Z.eqb_neq (len str) (-1))) by lia.
  destruct (end_line buf str Hc) as [-> Hcs]; [lia|]. cbn [mbind option_bind].
  destruct (fdputs_lit_ok F R s2 _ (bytes "Hello, ") HR2) as (s3 & -> & HR3); [apply Forall_is_char; reflexivity|].
  cbn [mbind option_bind].
  destruct (fdputs_ok F R s3 _ _ 0 str HR3 Hcs) as (s4 & -> & HR4). cbn [mbind option_bind].
  exists s4. split; [done|]. by rewrite wrote_app in HR4.
Qed.

(** ** counter *)

(** The numbers from 1 to [n], a line each. *)
Definition numbers (n : Z) : list Z :=
  mjoin ((fun i => numeral 10 (Z.of_nat i + 1) ++ [10]) <$> seq 0 (Z.to_nat n)).

Lemma count_to_prints buf s v n :
  R s v -> 33 <= len buf -> 0 <= n < 4294967296 ->
  exists buf' s', count_to n buf s = Some (buf', s') /\ R s' (wrote (numbers n) v).
Proof.
  intros HR Hbuf Hn. unfold count_to.
  destruct (for_range_ind (fun i '(b, s) => len b = len buf /\ R s (wrote (numbers i) v))
    (fun i '(buf, s) =>
      buf ← ece391_itoa (i + 1) buf 0 10; s ← ece391_fdputs 1 buf 0 s; s ← fdputs 1 [10] s; Some (buf, s))
    0 n (buf, s)) as ([b' s'] & E & _ & HR').
  - lia.
  - split; [done|]. by rewrite wrote_nil.
  - intros i [b s1] Hi [Hb HR1]. rewrite ece391_itoa_eq.
    destruct (itoa_splice (i + 1) b 0 10) as (b2 & -> & Hl2 & Hc & _); [unfold is_u32; lia|lia..|].
    cbn [mbind option_bind].
    destruct (fdputs_ok F R s1 _ b2 0 _ HR1 Hc) as (s2 & -> & HR2). cbn [mbind option_bind].
    destruct (fdputs_lit_ok F R s2 _ [10] HR2) as (s3 & -> & HR3); [by repeat constructor|]. cbn [mbind option_bind].
    eexists; split; [done|]. split; [lia|]. rewrite !wrote_app in HR3.
    unfold numbers in *. replace (Z.to_nat (i + 1)) with (Datatypes.S (Z.to_nat i)) by lia.
    rewrite seq_S, fmap_app, join_app. cbn. rewrite app_nil_r, Z2Nat.id by lia. exact HR3.
  - exists b', s'. by split.
Qed.

(** How far counter counts, by the line typed; [None] when it says that the
    choice is wrong. *)
Definition counter_choice (line : list Z) : option Z :=
  match line with
  | [] => Some 0
  | [c] => if c =? 48 then Some 100 else if c =? 49 then Some 10000
           else if c =? 50 then Some 100000 else None
  | _ => None
  end.

Definition counter_text (line : list Z) : list Z :=
  match counter_choice line with Some n => numbers n | None => text_line "Wrong Choice!" end.

(** The program's own tests of the line and its newline. *)
Lemma counter_test line c :
  (line ++ [10]).[0] = Some c ->
  (2 <? len (line ++ [10])) || ((len (line ++ [10]) =? 2) && ((c <? 48) || (50 <? c))) =
    match counter_choice line with Some _ => false | None => true end /\
  match counter_choice line with Some n => counter_max c = n /\ 0 <= n < 4294967296 | None => True end.
Proof.
  intros Hc. destruct line as [|d [|d' line] ].
  - by injection Hc as <-.
  - injection Hc as ->. unfold counter_choice, counter_max. cbn [app Datatypes.length].
    change (2 <? Z.of_nat 2) with false. change (Z.of_nat 2 =? 2) with true. cbn [orb andb].
    destruct (Z.eqb_spec c 48), (Z.eqb_spec c 49), (Z.eqb_spec c 50); (split; [|done || lia]); lia.
  - split; [|done]. cbn [counter_choice app Datatypes.length]. rewrite length_app. cbn [Datatypes.length].
    by rewrite (proj2 (Z.ltb_lt _ _)) by lia.
Qed.

Lemma counter_ok buf s v acts l rest :
  R s v -> u_input v = (acts, l) :: rest -> len buf = BUFSIZE ->
  exists s', counter buf s = Some (0, s') /\
    R s' (wrote (counter_text (until_newline l))
           (took acts rest (wrote (text_line "Enter the Test Number: (0): 100, (1): 10000, (2): 100000") v))).
Proof.
  intros HR Hin Hbuf. unfold counter, BUFSIZE in *.
  destruct (fdputs_lit_ok F R s v (text_line "Enter the Test Number: (0): 100, (1): 10000, (2): 100000") HR)
    as (s1 & -> & HR1); [apply Forall_is_char; reflexivity|].
  cbn [mbind option_bind].
  destruct (read_line_ok F R s1 _ acts l rest buf 1023 HR1 Hin) as (s2 & E2 & HR2 & Hc & Hl);
    [lia|unfold KEY_BUF_SIZE; lia|].
  change (1024 - 1) with 1023. rewrite E2. unfold KEY_BUF_SIZE in *. cbn [mbind option_bind].
  set (line := until_newline l) in *. set (str := line ++ [10]) in *.
  rewrite (u32_small (len str)) by (unfold is_u32; lia).
  rewrite (proj2 (Z.eqb_neq (len str) (u32 (-1)))) by (change (u32 (-1)) with 4294967295; lia).
  destruct (end_line buf str Hc) as [-> Hcs]; [lia|]. cbn [mbind option_bind].
  rewrite (ece391_strlen_cstring _ _ _ Hcs). cbn [mbind option_bind].
  destruct (aget_is_Some str 0) as [c Ec]; [unfold str; rewrite length_app; cbn [Datatypes.length]; lia|].
  pose proof Hcs as (_ & _ & _ & Hi). specialize (Hi 0). rewrite Z.add_0_l in Hi.
  rewrite Hi, Ec by (apply aget_range in Ec; lia). cbn [mbind option_bind].
  destruct (counter_test line c Ec) as [Htest Hmax]; fold str in Htest; rewrite Htest. unfold counter_text.
  destruct (counter_choice line) as [n|] eqn:En.
  - destruct Hmax as [-> Hn].
    destruct (count_to_prints (splice buf 0 (str ++ [0])) s2 _ n HR2) as (b' & s3 & -> & HR3); [|done|by exists s3].
    rewrite length_splice; [lia|lia|rewrite length_app; cbn [Datatypes.length]; lia].
  - destruct (fdputs_lit_ok F R s2 _ (text_line "Wrong Choice!") HR2) as (s3 & -> & HR3); [apply Forall_is_char; reflexivity|].
    by exists s3.
Qed.

(** ** shell *)

(** What the shell says about the result of a command. *)
Definition shell_message (r : Z) : list Z :=
  if r =? -1 then text_line "no such command"
  else if r =? 256 then text_line "program terminated by exception"
  else if negb (r =? 0) then text_line "program terminated abnormally" else [].

Section shell.
Context {HE : ExecCall S} (allowed : list Z -> Prop) (executes : list Z -> session -> Z -> session -> Prop).
Context {LE : ExecLaws R allowed executes}.

(** The session of the shell when it has read a line. *)
Definition prompted (acts : list act) (rest : list (list act * list Z)) (v : session) : session :=
  took acts rest (wrote (bytes "391OS> ") v).

Lemma message_ok r s v :
  R s v -> exists s', (if r =? -1 then fdputs 1 (text_line "no such command") s
     else if r =? 256 then fdputs 1 (text_line "program terminated by exception") s
     else if negb (r =? 0) then fdputs 1 (text_line "program terminated abnormally") s else Some s) = Some s' /\
    R s' (wrote (shell_message r) v).
Proof.
  intros HR. unfold shell_message. repeat case_match;
    try (apply (fdputs_lit_ok F R); [done|apply Forall_is_char; reflexivity]).
  exists s. by rewrite wrote_nil.
Qed.

(** A line read into the buffer, and its newline replaced. *)
Lemma line_cut buf str : len str < len buf -> Forall is_char str ->
  let b1 := splice buf 0 (str ++ [10]) in let b2 := <[Z.to_nat (len str) := 0]> b1 in
  len b1 = len buf /\ b1.[len str] = Some 10 /\ len b2 = len buf /\ cstring b2 0 str.
Proof.
  intros Hl Hc b1 b2. assert (len (str ++ [10]) = len str + 1) as Hlen by (rewrite length_app; cbn [Datatypes.length]; lia).
  assert (len b1 = len buf) as Hb1 by (unfold b1; rewrite length_splice; lia). split; [done|]. split.
  { unfold b1. rewrite aget_splice_in by lia. by rewrite Z.sub_0_r, aget_app_r, Z.sub_diag by lia. }
  split; [by unfold b2; rewrite length_insert|]. split_and!; [lia|done| |].
  - rewrite Z.add_0_l. unfold b2. apply aget_insert_eq. lia.
  - intros i Hi. rewrite Z.add_0_l. unfold b2. rewrite aget_insert_ne by lia. unfold b1.
    rewrite aget_splice_in by lia. by rewrite Z.sub_0_r, aget_app_l by lia.
Qed.

Lemma shell_round_ok buf s v acts l rest :
  R s v -> u_input v = (acts, l) :: rest -> len buf = BUFSIZE ->
  let str := until_newline l in
  str = bytes "exit" \/ allowed str ->
  if decide (str = bytes "exit") then
    exists s', shell_round (buf, s) = Some (Done (0, s')) /\ R s' (prompted acts rest v)
  else exists buf' s', shell_round (buf, s) = Some (Next (buf', s')) /\ len buf' = BUFSIZE /\
    if decide (str = []) then R s' (prompted acts rest v)
    else exists r v', executes str (prompted acts rest v) r v' /\ R s' (wrote (shell_message r) v').
Proof.
  intros HR Hin Hbuf str Hall. unfold BUFSIZE in *.
  destruct (fdputs_lit_ok F R s v (bytes "391OS> ") HR) as (s1 & E1 & HR1); [apply Forall_is_char; reflexivity|].
  destruct (read_line_ok F R s1 _ acts l rest buf 1023 HR1 Hin) as (s2 & E2 & HR2 & Hc & Hl);
    [lia|unfold KEY_BUF_SIZE; lia|].
  fold str in E2, Hc, Hl. unfold KEY_BUF_SIZE in *.
  assert (len (str ++ [10]) = len str + 1) as Hlen by (rewrite length_app; cbn [Datatypes.length]; lia).
  set (b1 := splice buf 0 (str ++ [10])) in *.
  set (b2 := <[Z.to_nat (len str) := 0]> b1).
  destruct (line_cut buf str) as (Hb1 & Hnl & Hb2 & Hcs); [lia|by apply Forall_app in Hc as [? _]|].
  fold b1 in Hb1, Hnl, Hb2, Hcs. fold b2 in Hb2, Hcs. rewrite Hbuf in Hb1, Hb2.
  destruct (ece391_strcmp_spec b2 0 str (bytes "exit" ++ [0]) 0 (bytes "exit") Hcs) as (r & Ecmp & Hr).
  { apply (cstring_intro (bytes "exit") []). apply Forall_is_char. reflexivity. }
  assert (shell_round (buf, s) =
    if r =? 0 then Some (Done (0, s2))
    else
      c ← b2.[0];
      if c =? 0 then Some (Next (b2, s2))
      else
        '(rval, s) ← ece391_execute b2 s2;
        s ← (if rval =? -1 then fdputs 1 (text_line "no such command") s
             else if rval =? 256 then fdputs 1 (text_line "program terminated by exception") s
             else if negb (rval =? 0) then fdputs 1 (text_line "program terminated abnormally") s
             else Some s);
        Some (Next (b2, s))) as ->.
  { unfold shell_round. rewrite E1. cbn [mbind option_bind]. change (BUFSIZE - 1) with 1023. rewrite E2.
    cbn [mbind option_bind]. rewrite Hlen.
    rewrite (proj2 (Z.eqb_neq _ (-1))), (proj2 (Z.ltb_lt 0 _)) by lia.
    replace (len str + 1 - 1) with (len str) by lia. fold b1. rewrite Hnl. cbn [mbind option_bind Z.eqb Pos.eqb].
    rewrite aset_Some by lia. fold b2. cbn [mbind option_bind]. by rewrite Ecmp. }
  destruct (Z.eqb_spec r 0) as [Er|Er].
  { rewrite decide_True by (by apply Hr). by exists s2. }
  destruct Hall as [Hall|Hall]; [by apply Hr in Hall|].
  rewrite decide_False by (rewrite <- Hr; done). exists b2.
  destruct Hcs as (H0 & Hchars & Hz & Hi). pose proof (conj H0 (conj Hchars (conj Hz Hi))) as Hcs.
  destruct (decide (str = [])) as [Ee|Ee].
  - exists s2. rewrite Ee in Hz. change (b2.[0] = Some 0) in Hz. by rewrite Hz.
  - destruct (aget_is_Some str 0) as [c Ec]; [by destruct str; cbn [Datatypes.length]; [|lia] |].
    pose proof (aget_Forall _ _ _ _ Hchars Ec) as Hch. specialize (Hi 0 (aget_range _ _ _ Ec)). rewrite Z.add_0_l, Ec in Hi.
    rewrite Hi.
    cbn [mbind option_bind]. rewrite (proj2 (Z.eqb_neq c 0)) by (unfold is_char in Hch; lia).
    destruct (law_execute s2 _ b2 str HR2 Hcs) as (rv & s3 & v3 & -> & Hx & HR3); [lia|done|]. cbn [mbind option_bind].
    destruct (message_ok rv s3 v3 HR3) as (s4 & -> & HR4). cbn [mbind option_bind].
    exists s4. split; [done|]. split; [done|]. by exists rv, v3.
Qed.

(** A run of the shell to its exit. *)
Inductive shell_ends : session -> session -> Prop :=
| ends_exit v acts l rest :
    u_input v = (acts, l) :: rest -> until_newline l = bytes "exit" -> shell_ends v (prompted acts rest v)
| ends_blank v acts l rest w :
    u_input v = (acts, l) :: rest -> until_newline l = [] ->
    shell_ends (prompted acts rest v) w -> shell_ends v w
| ends_command v acts l rest r v' w :
    u_input v = (acts, l) :: rest -> until_newline l <> bytes "exit" -> until_newline l <> [] ->
    executes (until_newline l) (prompted acts rest v) r v' ->
    shell_ends (wrote (shell_message r) v') w -> shell_ends v w.

(** If the commands leave the keyboard alone, the shell comes to the exit line. *)
Lemma shell_ok (lines : list (list act * list Z)) acts l rest :
  (forall str v r v', executes str v r v' -> u_input v' = u_input v) ->
  until_newline l = bytes "exit" -> Forall (fun x => until_newline x.2 <> bytes "exit" /\ allowed (until_newline x.2)) lines ->
  forall buf s v, R s v -> u_input v = lines ++ (acts, l) :: rest -> len buf = BUFSIZE ->
  exists s' w, shell (Datatypes.S (Datatypes.length lines)) buf s = Some (0, s') /\
    shell_ends (wrote (text_line "Starting 391 Shell") v) w /\ u_input w = rest /\ R s' w.
Proof.
  intros Hquiet Hexit Hlines buf s v HR Hin Hbuf. unfold shell.
  destruct (fdputs_lit_ok F R s v (text_line "Starting 391 Shell") HR) as (s1 & -> & HR1); [apply Forall_is_char; reflexivity|].
  cbn [mbind option_bind]. set (v1 := wrote _ v) in *. change (u_input v) with (u_input v1) in Hin.
  clearbody v1. clear HR s v. revert buf s1 v1 HR1 Hin Hbuf.
  induction Hlines as [|[a x] lines [Hx Hax] Hlines IH]; intros buf s v HR Hin Hbuf;
    cbn [Datatypes.length app] in *; rewrite iterate_S.
  - pose proof (shell_round_ok buf s v acts l rest HR Hin Hbuf (or_introl Hexit)) as H. cbv zeta in H.
    rewrite decide_True in H by done. destruct H as (s' & -> & HR'). cbn [mbind option_bind].
    exists s', (prompted acts rest v). split_and!; [done|by eapply ends_exit|done|done].
  - pose proof (shell_round_ok buf s v a x _ HR Hin Hbuf (or_intror Hax)) as H. cbv zeta in H. cbn [snd] in Hx.
    rewrite decide_False in H by done. destruct H as (buf' & s' & -> & Hbuf' & H). cbn [mbind option_bind].
    case_decide as Hb.
    + destruct (IH buf' s' _ H eq_refl Hbuf') as (s2 & w & E & Hw & Hr & HRw).
      exists s2, w. split_and!; [exact E|by eapply ends_blank|done|done].
    + destruct H as (r & v' & Hexe & HR').
      destruct (IH buf' s' _ HR') as (s2 & w & E & Hw & Hr & HRw); [by apply Hquiet in Hexe|done|].
      exists s2, w. split_and!; [exact E|by eapply ends_command|done|done].
Qed.
End shell.
End clients.
