(* ===== verification/SysErr.v ===== *)
(** The error tests of the system calls, [src/syscalls/ece391syserr.c], over any
    implementation of the calls, and what they print: on calls that keep
    [FileLaws] and [RefusalLaws], every test passes. *)
From stdpp Require Import base option list numbers gmap.
From Stdlib Require Import ZArith Lia Ascii String.
From S2P Require Import Prelude LibString FileSystem Keyboard Desks Idt Process Files User Programs.

Definition NEG_FD : Z := -1073741823.
Definition BIG_FD : Z := 1073741823.
Definition BIG_NUM : Z := 1073741823.
Definition NEG_NUM : Z := -1073741823.

Section tests.
Context {S : Type} {HS : Syscalls S} {HC : RawCalls S}.

(** [if (-1 != r) { fail = 2; ece391_fdputs (1, msg); }] *)
Definition expect (r : Z) (msg : string) (fail : Z) (s : S) : option (Z * S) :=
  if negb (r =? -1) then s ← fdputs 1 (text_line msg) s; Some (2, s) else Some (fail, s).

(** The end of a test. *)
Definition verdict (name : string) (fail : Z) (s : S) : option (Z * S) :=
  s ← fdputs 1 (bytes name ++ (if negb (fail =? 0) then text_line ": FAIL" else text_line ": PASS")) s;
  Some (fail, s).

(** [buf] is the uninitialised buffer of each test. *)
Definition err_neg_fd (buf : list Z) (s : S) : option (Z * S) :=
  '(r, buf, s) ← ece391_read NEG_FD buf 0 31 s;
  '(fail, s) ← expect r "read fail" 0 s;
  '(r, s) ← ece391_write NEG_FD buf 0 31 s;
  '(fail, s) ← expect r "write fail" fail s;
  '(r, s) ← ece391_close NEG_FD s;
  '(fail, s) ← expect r "close fail" fail s;
  verdict "err_neg_fd" fail s.

Definition err_big_fd (buf : list Z) (s : S) : option (Z * S) :=
  '(r, buf, s) ← ece391_read BIG_FD buf 0 31 s;
  '(fail, s) ← expect r "read fail" 0 s;
  '(r, s) ← ece391_write BIG_FD buf 0 31 s;
  '(fail, s) ← expect r "write fail" fail s;
  '(r, s) ← ece391_close BIG_FD s;
  '(fail, s) ← expect r "close fail" fail s;
  verdict "err_big_fd" fail s.

Definition err_open_lots (s : S) : option (Z * S) :=
  '(cnt, s) ← for_range 0 7 (fun _ '(cnt, s) =>
    '(r, s) ← ece391_open (bytes "." ++ [0]) s;
    Some (if r =? -1 then cnt + 1 else cnt, s)) (0, s);
  s ← for_range 2 8 (fun i s => '(_, s) ← ece391_close i s; Some s) s;
  if cnt =? 1 then s ← fdputs 1 (text_line "err_open_lots: PASS") s; Some (0, s)
  else s ← fdputs 1 (text_line "err_open_lots: FAIL") s; Some (2, s).

Definition err_open (s : S) : option (Z * S) :=
  '(r, s) ← ece391_open (bytes "helloo" ++ [0]) s;
  '(fail, s) ← expect r "'helloo' fail" 0 s;
  '(r, s) ← ece391_open (bytes "shel" ++ [0]) s;
  '(fail, s) ← expect r "'shel' fail" fail s;
  '(r, s) ← ece391_open [0] s;
  '(fail, s) ← expect r "empty string fail" fail s;
  verdict "err_open" fail s.

Definition err_unopened (buf : list Z) (s : S) : option (Z * S) :=
  '(fail, s) ← for_range 0 8 (fun i '(fail, s) =>
    '(r, s) ← ece391_close i s; expect r "close unopened or invalid fd fail" fail s) (0, s);
  '(fail, buf, s) ← for_range 2 8 (fun i '(fail, buf, s) =>
    '(r, buf, s) ← ece391_read i buf 0 31 s;
    '(fail, s) ← expect r "read from unopened fd fail" fail s; Some (fail, buf, s)) (fail, buf, s);
  '(fail, s) ← for_range 2 8 (fun i '(fail, s) =>
    '(r, s) ← ece391_write i buf 0 31 s; expect r "write to unopened fd fail" fail s) (fail, s);
  verdict "err_unopened" fail s.

Definition err_vidmap (s : S) : option (Z * S) :=
  '(r, _, s) ← ece391_vidmap 0 s;
  '(fail, s) ← expect r "Null pointer fail" 0 s;
  '(r, _, s) ← ece391_vidmap 0x400000 s;
  '(fail, s) ← expect r "Kernel pointer fail fail" fail s;
  verdict "err_vidmap" fail s.

Definition err_stdin_out (buf : list Z) (s : S) : option (Z * S) :=
  '(r, s) ← ece391_write 0 buf 0 31 s;
  '(fail, s) ← expect r "write to stdin fail" 0 s;
  '(r, buf, s) ← ece391_read 1 buf 0 31 s;
  '(fail, s) ← expect r "read from stdout fail" fail s;
  verdict "err_stdin_out" fail s.

Definition err_syscall_num (s : S) : option (Z * S) :=
  '(r, s) ← call_sys BIG_NUM s;
  '(fail, s) ← expect r "syscall 0 fail" 0 s;
  '(r, s) ← call_sys NEG_NUM s;
  '(fail, s) ← expect r "big num syscall fail" fail s;
  '(r, s) ← call_sys 0 s;
  '(fail, s) ← expect r "neg num syscall fail" fail s;
  verdict "err_syscall_num" fail s.

(** [fail += test ()], the tests in their order. *)
Definition run_tests (tests : list (S -> option (Z * S))) (s : S) : option (Z * S) :=
  foldl (fun acc test => '(fail, s) ← acc; '(r, s) ← test s; Some (fail + r, s)) (Some (0, s)) tests.

Definition all_tests (buf : list Z) : list (S -> option (Z * S)) :=
  [err_neg_fd buf; err_big_fd buf; err_open_lots; err_open; err_unopened buf; err_vidmap; err_stdin_out buf;
   err_syscall_num].

(** [buf] is main's buffer of 128 bytes, [buf32] that of the tests. *)
Definition syserr (buf buf32 : list Z) (s : S) : option (Z * S) :=
  s ← fdputs 1 (bytes "Choose from tests 1-8. 0 to run all: ") s;
  '(cnt, buf, s) ← ece391_read 0 buf 0 127 s;
  if cnt =? -1 then s ← fdputs 1 (text_line "Can't read test #") s; Some (2, s)
  else
    c ← buf.[0];
    let select := c - 48 in
    if select =? 0 then
      '(fail, s) ← run_tests (all_tests buf32) s;
      s ← fdputs 1 ([10] ++ (if negb (fail =? 0) then text_line "Overall Tests: FAIL" else text_line "Overall Tests: PASS")) s;
      Some (fail, s)
    else if select =? 1 then err_neg_fd buf32 s
    else if select =? 2 then err_big_fd buf32 s
    else if select =? 3 then err_open_lots s
    else if select =? 4 then err_open s
    else if select =? 5 then err_unopened buf32 s
    else if select =? 6 then err_vidmap s
    else if select =? 7 then err_stdin_out buf32 s
    else if select =? 8 then err_syscall_num s
    else s ← fdputs 1 (bytes "Invalid test number. Choose from tests 1-8 or 0") s; Some (0, s).
End tests.

(** ** What they print *)

Definition test_names : list string :=
  ["err_neg_fd"; "err_big_fd"; "err_open_lots"; "err_open"; "err_unopened"; "err_vidmap"; "err_stdin_out";
   "err_syscall_num"]%string.

Definition passed (name : string) : list Z := bytes name ++ text_line ": PASS".

(** By the first character of the line typed. *)
Definition syserr_text (c : Z) : list Z :=
  if c =? 48 then mjoin (passed <$> test_names) ++ [10] ++ text_line "Overall Tests: PASS"
  else match test_names !! Z.to_nat (c - 49) with
       | Some name => if 49 <=? c then passed name else bytes "Invalid test number. Choose from tests 1-8 or 0"
       | None => bytes "Invalid test number. Choose from tests 1-8 or 0"
       end.

(** The tests of open read the directory from its start again. *)
Definition syserr_listed (c : Z) (v : session) : session :=
  if decide (c = 48 \/ c = 51) then with_listed 0 v else v.

Section clients.
Context {S : Type} {HS : Syscalls S} {HC : RawCalls S} (F : afs) (R : S -> session -> Prop).
Context {L : FileLaws F R} {LR : RefusalLaws R}.

(** In a session with nothing open, the test passes; [f] is what else changes. *)
Definition passes (test : S -> option (Z * S)) (name : string) (f : session -> session) : Prop :=
  forall s v, R s v -> u_fds v = ∅ -> exists s', test s = Some (0, s') /\ R s' (wrote (passed name) (f v)).

Lemma expect_refused msg fail (s : S) : expect (-1) msg fail s = Some (fail, s).
Proof. done. Qed.

Lemma verdict_pass name s v :
  R s v -> Forall is_char (passed name) -> exists s', verdict name 0 s = Some (0, s') /\ R s' (wrote (passed name) v).
Proof.
  intros HR Hc. change (verdict name 0 s) with (s ← fdputs 1 (passed name) s; Some (0, s)). destruct (fdputs_lit_ok F R s v _ HR Hc) as (s' & -> & HR').
  by exists s'.
Qed.

Lemma neg_fd_closed m : not_open m NEG_FD.
Proof. left. unfold NEG_FD. lia. Qed.

Lemma big_fd_closed m : not_open m BIG_FD.
Proof. right. left. unfold BIG_FD. lia. Qed.

Lemma empty_closed (m : gmap Z stream) fd : m = ∅ -> 2 <= fd < 8 -> not_open m fd.
Proof. intros -> Hfd. right. right. done. Qed.

Hint Resolve neg_fd_closed big_fd_closed empty_closed : core.

(** A call that is refused, and the test of its result. *)
Ltac refused := cbn [mbind option_bind]; rewrite ?expect_refused; cbn [mbind option_bind].

(** The next call is refused by the law [law], in a state related by [HR]. *)
Ltac refuse law HR :=
  let s' := fresh "s" in let HR' := fresh "HR" in
  edestruct law as (s' & -> & HR'); [exact HR|eauto with lia..|]; clear HR; rename HR' into HR; refused.

Lemma err_neg_fd_passes buf : passes (err_neg_fd buf) "err_neg_fd" id.
Proof.
  intros s v HR _. unfold err_neg_fd. refuse law_no_read HR. refuse law_no_write HR. refuse law_no_close HR.
  apply verdict_pass; [done|]. apply Forall_is_char. reflexivity.
Qed.

Lemma err_big_fd_passes buf : passes (err_big_fd buf) "err_big_fd" id.
Proof.
  intros s v HR _. unfold err_big_fd. refuse law_no_read HR. refuse law_no_write HR. refuse law_no_close HR.
  apply verdict_pass; [done|]. apply Forall_is_char. reflexivity.
Qed.

(** A loop whose rounds leave the session as it is. *)
Lemma for_range_keeps {T} (f : S -> T) (body : Z -> T -> option T) lo hi s v :
  lo <= hi -> R s v ->
  (forall i s, lo <= i < hi -> R s v -> exists s', body i (f s) = Some (f s') /\ R s' v) ->
  exists s', for_range lo hi body (f s) = Some (f s') /\ R s' v.
Proof.
  intros Hle HR H. destruct (for_range_ind (fun _ t => exists s, t = f s /\ R s v) body lo hi (f s) Hle)
    as (t & E & s' & -> & HR'); [by exists s| |by exists s'].
  intros i t Hi (s1 & -> & HR1). destruct (H i s1 Hi HR1) as (s2 & E & HR2). exists (f s2). split; [done|]. by exists s2.
Qed.

Lemma err_unopened_passes buf : passes (err_unopened buf) "err_unopened" id.
Proof.
  intros s v HR Hm. unfold err_unopened.
  destruct (for_range_keeps (pair 0) (fun i '(fail, s) =>
    '(r, s) ← ece391_close i s; expect r "close unopened or invalid fd fail" fail s) 0 8 s v) as (s1 & -> & HR1); [lia|done| |].
  { intros i s1 Hi HR1. edestruct law_no_close as (s2 & -> & HR2); [exact HR1| |by exists s2].
    destruct (Z_lt_dec i 2); [lia|]. auto with lia. }
  cbn [mbind option_bind].
  destruct (for_range_keeps (fun s => (0, buf, s)) (fun i '(fail, buf, s) =>
    '(r, buf, s) ← ece391_read i buf 0 31 s;
    '(fail, s) ← expect r "read from unopened fd fail" fail s; Some (fail, buf, s)) 2 8 s1 v) as (s2 & -> & HR2); [lia|done| |].
  { intros i s2 Hi HR2. refuse law_no_read HR2. by eexists. }
  cbn [mbind option_bind].
  destruct (for_range_keeps (pair 0) (fun i '(fail, s) =>
    '(r, s) ← ece391_write i buf 0 31 s; expect r "write to unopened fd fail" fail s) 2 8 s2 v) as (s3 & -> & HR3); [lia|done| |].
  { intros i s3 Hi HR3. refuse law_no_write HR3. by eexists. }
  apply verdict_pass; [done|]. apply Forall_is_char. reflexivity.
Qed.

Lemma err_vidmap_passes : passes err_vidmap "err_vidmap" id.
Proof.
  intros s v HR _. unfold err_vidmap. refuse law_no_vidmap HR. refuse law_no_vidmap HR.
  apply verdict_pass; [done|]. apply Forall_is_char. reflexivity.
Qed.

Lemma err_stdin_out_passes buf : passes (err_stdin_out buf) "err_stdin_out" id.
Proof.
  intros s v HR _. unfold err_stdin_out. refuse law_no_write HR.
  destruct (law_read_stdout _ v buf 0 31 HR) as (s1 & -> & HR1). refused.
  apply verdict_pass; [done|]. apply Forall_is_char. reflexivity.
Qed.

Lemma err_syscall_num_passes : passes err_syscall_num "err_syscall_num" id.
Proof.
  intros s v HR _. unfold err_syscall_num, BIG_NUM, NEG_NUM.
  do 3 refuse law_no_call HR.
  apply verdict_pass; [done|]. apply Forall_is_char. reflexivity.
Qed.

Section opens.
Context (Hdot : found F (bytes ".") = Some Listing).
Context (Habsent : Forall (fun nm => find_entry F nm = None) [bytes "helloo"; bytes "shel"; []]).

Lemma err_open_passes : passes err_open "err_open" id.
Proof.
  intros s v HR _. unfold err_open. inversion Habsent as [|? ? H1 [|? ? H2 [|? ? H3 _] ] ]; subst.
  destruct (law_absent s v (bytes "helloo" ++ [0]) (bytes "helloo") HR) as (s1 & -> & HR1);
    [apply (cstring_intro _ []), Forall_is_char; reflexivity|exact H1|]. refused.
  destruct (law_absent s1 v (bytes "shel" ++ [0]) (bytes "shel") HR1) as (s2 & -> & HR2);
    [apply (cstring_intro _ []), Forall_is_char; reflexivity|exact H2|]. refused.
  destruct (law_absent s2 v [0] [] HR2) as (s3 & -> & HR3); [apply (cstring_intro [] []); constructor|exact H3|]. refused.
  apply verdict_pass; [done|]. apply Forall_is_char. reflexivity.
Qed.

(** The directory open at the descriptors from [a] to [b - 1]. *)
Definition lots (a b : Z) : gmap Z stream :=
  list_to_map ((fun i => (Z.of_nat i, Listing)) <$> seq (Z.to_nat a) (Z.to_nat (b - a))).

Lemma lots_next b : 2 <= b < 8 -> first_fd (lots 2 b) = Some b /\ <[b := Listing]> (lots 2 b) = lots 2 (b + 1).
Proof.
  intros Hn. assert (b = 2 \/ b = 3 \/ b = 4 \/ b = 5 \/ b = 6 \/ b = 7) as H by lia.
  destruct_or! H; subst b; split; vm_compute; reflexivity.
Qed.

Lemma lots_prev a : 2 <= a < 8 -> lots a 8 !! a = Some Listing /\ delete a (lots a 8) = lots (a + 1) 8.
Proof.
  intros Hn. assert (a = 2 \/ a = 3 \/ a = 4 \/ a = 5 \/ a = 6 \/ a = 7) as H by lia.
  destruct_or! H; subst a; split; vm_compute; reflexivity.
Qed.

Lemma lots_open s v : R s v -> u_fds v = ∅ ->
  exists s', for_range 0 7 (fun _ '(cnt, s) =>
      '(r, s) ← ece391_open (bytes "." ++ [0]) s; Some (if r =? -1 then cnt + 1 else cnt, s)) (0, s) = Some (1, s') /\
    R s' (with_fds (lots 2 8) v).
Proof.
  intros HR Hm. destruct (for_range_ind
    (fun i '(cnt, s) => cnt = (if i <? 7 then 0 else 1) /\ R s (with_fds (lots 2 (Z.min (2 + i) 8)) v))
    (fun _ '(cnt, s) => '(r, s) ← ece391_open (bytes "." ++ [0]) s; Some (if r =? -1 then cnt + 1 else cnt, s))
    0 7 (0, s)) as ([cnt s'] & E & -> & HR'); [lia| | |by exists s'].
  - split; [done|]. replace (with_fds _ v) with v; [done|]. destruct v. cbn in *. by rewrite Hm.
  - intros i [cnt s1] Hi [-> HR1].
    pose proof (law_open s1 _ (bytes "." ++ [0]) (bytes ".") Listing HR1) as H.
    assert (cstring (bytes "." ++ [0]) 0 (bytes ".")) as Hname
      by (apply (cstring_intro (bytes ".") []), Forall_is_char; reflexivity).
    specialize (H Hname Hdot). cbn [u_fds with_fds] in H.
    rewrite (proj2 (Z.ltb_lt i 7)) by lia. destruct (Z.ltb_spec (i + 1) 7) as [Hlt|Hge].
    + rewrite Z.min_l in * by lia. destruct (lots_next (2 + i)) as [Hf Hins]; [lia|].
      rewrite Hf in H. destruct H as (s2 & -> & HR2).
      cbn [mbind option_bind]. rewrite (proj2 (Z.eqb_neq _ (-1))) by lia. eexists; split; [done|].
      split; [done|]. cbn [with_fds u_args u_listed u_input u_acts] in HR2. rewrite Hins in HR2.
      by rewrite Z.add_assoc.
    + assert (i = 6) as -> by lia. change (first_fd (lots 2 (Z.min (2 + 6) 8))) with (@None Z) in H.
      destruct H as (s2 & -> & HR2). by eexists.
Qed.

Lemma lots_close s v : R s (with_fds (lots 2 8) v) -> u_fds v = ∅ ->
  exists s', for_range 2 8 (fun i s => '(_, s) ← ece391_close i s; Some s) s = Some s' /\ R s' (with_listed 0 v).
Proof.
  intros HR Hm. destruct (for_range_ind
    (fun i s => R s (with_fds (lots i 8) (if i =? 2 then v else with_listed 0 v)))
    (fun i s => '(_, s) ← ece391_close i s; Some s) 2 8 s) as (s' & E & HR'); [lia|done| |].
  - intros i s1 Hi HR1. destruct (lots_prev i Hi) as [Hget Hdel].
    destruct (law_close _ _ i Listing HR1) as (s2 & -> & HR2); [exact Hget|lia|]. cbn [mbind option_bind].
    eexists; split; [done|]. rewrite (proj2 (Z.eqb_neq (i + 1) 2)) by lia.
    cbn [with_fds u_fds] in HR2. rewrite Hdel in HR2. by destruct (i =? 2).
  - exists s'. split; [done|]. replace (with_fds _ _) with (with_listed 0 v) in HR'; [done|].
    destruct v. cbn in *. by rewrite Hm.
Qed.

Lemma err_open_lots_passes : passes err_open_lots "err_open_lots" (with_listed 0).
Proof.
  intros s v HR Hm. unfold err_open_lots. destruct (lots_open s v HR Hm) as (s1 & -> & HR1). cbn [mbind option_bind].
  destruct (lots_close s1 v HR1 Hm) as (s2 & -> & HR2). cbn [mbind option_bind Z.eqb Pos.eqb].
  destruct (fdputs_lit_ok F R s2 _ (text_line "err_open_lots: PASS") HR2) as (s3 & -> & HR3);
    [apply Forall_is_char; reflexivity|].
  by exists s3.
Qed.

(** All of them, in any order. *)
Lemma run_tests_pass (tests : list (S -> option (Z * S))) names fs :
  Forall3 passes tests names fs -> Forall (fun f => forall v, u_fds (f v) = u_fds v) fs ->
  forall s v, R s v -> u_fds v = ∅ -> exists s', run_tests tests s = Some (0, s') /\
    R s' (foldl (fun v '(name, f) => wrote (passed name) (f v)) v (zip names fs)).
Proof.
  intros H Hfs s v HR Hm. unfold run_tests. revert s v HR Hm.
  induction H as [|test name f tests names fs Ht H IH]; intros s v HR Hm; cbn [foldl zip zip_with]; [by exists s|].
  inversion Hfs as [|? ? Hf Hfs']; subst. destruct (Ht s v HR Hm) as (s1 & E & HR1).
  cbn [mbind option_bind]. rewrite E. cbn [mbind option_bind]. apply IH; [done|done|]. cbn. by rewrite Hf.
Qed.

Lemma all_tests_ok buf s v :
  R s v -> u_fds v = ∅ ->
  exists s', run_tests (all_tests buf) s = Some (0, s') /\
    R s' (wrote (mjoin (passed <$> test_names)) (with_listed 0 v)).
Proof.
  intros HR Hm.
  assert (Forall3 passes (all_tests buf) test_names [id; id; with_listed 0; id; id; id; id; id]) as H
    by (repeat constructor; auto using err_neg_fd_passes, err_big_fd_passes, err_open_lots_passes, err_open_passes,
          err_unopened_passes, err_vidmap_passes, err_stdin_out_passes, err_syscall_num_passes).
  destruct (run_tests_pass _ _ _ H ltac:(by repeat constructor) s v HR Hm) as (s' & E & HR').
  exists s'. split; [exact E|]. replace (wrote _ (with_listed 0 v)) with
    (foldl (fun v '(name, f) => wrote (passed name) (f v)) v
      (zip test_names [id; id; with_listed 0; id; id; id; id; id])); [done|].
  destruct v as [args fds listed input acts]. unfold wrote, with_listed, id. cbn [zip zip_with foldl test_names u_args u_fds u_listed u_input u_acts].
  rewrite <- !app_assoc. done.
Qed.

(** One of the tests, by its number. *)
Lemma one_test_ok test name f c s v (n : nat) :
  passes test name f -> c = 49 + Z.of_nat n -> test_names !! n = Some name -> R s v -> u_fds v = ∅ ->
  f v = syserr_listed c v ->
  exists s', test s = Some (0, s') /\ R s' (wrote (syserr_text c) (syserr_listed c v)).
Proof.
  intros Hp Ec Hn HR Hm Hf. destruct (Hp s v HR Hm) as (s' & E & HR'). exists s'. split; [exact E|].
  unfold syserr_text. rewrite (proj2 (Z.eqb_neq c 48)) by lia.
  replace (Z.to_nat (c - 49)) with n by lia. by rewrite Hn, (proj2 (Z.leb_le 49 c)), <- Hf by lia.
Qed.

Lemma syserr_invalid c : c < 48 \/ 56 < c ->
  syserr_text c = bytes "Invalid test number. Choose from tests 1-8 or 0" /\ forall v, syserr_listed c v = v.
Proof.
  intros Hc. split.
  - unfold syserr_text. rewrite (proj2 (Z.eqb_neq c 48)) by lia. destruct (Z.leb_spec 49 c); [|by case_match].
    by rewrite lookup_ge_None_2 by (cbn; lia).
  - intros v. unfold syserr_listed. by rewrite decide_False by lia.
Qed.

(** The case of the test of number [n]. *)
Ltac pick c s v n tst :=
  match goal with |- context [c - 48 =? ?k] =>
    destruct (Z.eqb_spec (c - 48) k) as [?E|?E];
      [eapply (one_test_ok _ _ _ c s v n); [apply tst|lia|reflexivity|done|done|by replace c with (48 + k) by lia]|]
  end.

Lemma syserr_ok buf buf32 s v acts l rest c :
  R s v -> u_fds v = ∅ -> u_input v = (acts, l) :: rest -> len buf = 128 ->
  (until_newline l ++ [10]).[0] = Some c ->
  exists s', syserr buf buf32 s = Some (0, s') /\
    R s' (wrote (syserr_text c) (syserr_listed c
            (took acts rest (wrote (bytes "Choose from tests 1-8. 0 to run all: ") v)))).
Proof.
  intros HR Hm Hin Hbuf Hc. unfold syserr.
  destruct (fdputs_lit_ok F R s v (bytes "Choose from tests 1-8. 0 to run all: ") HR) as (s1 & -> & HR1);
    [apply Forall_is_char; reflexivity|]. cbn [mbind option_bind].
  destruct (read_line_ok F R s1 _ acts l rest buf 127 HR1 Hin) as (s2 & E2 & HR2 & Hch & Hl);
    [lia|unfold KEY_BUF_SIZE; lia|].
  rewrite E2. cbn [mbind option_bind]. set (v2 := took _ _ _) in *.
  assert (u_fds v2 = ∅) as Hm2 by done. clearbody v2. unfold KEY_BUF_SIZE in *.
  rewrite (proj2 (Z.eqb_neq _ (-1))) by lia.
  pose proof (aget_range _ _ _ Hc) as Hr. rewrite aget_splice_in, Z.sub_0_r, Hc by lia. cbn [mbind option_bind].
  destruct (Z.eqb_spec (c - 48) 0) as [E0|E0].
  { destruct (all_tests_ok buf32 s2 v2 HR2 Hm2) as (s3 & -> & HR3). cbn [mbind option_bind Z.eqb negb].
    destruct (fdputs_lit_ok F R s3 _ ([10] ++ text_line "Overall Tests: PASS") HR3) as (s4 & E4 & HR4);
      [apply Forall_is_char; reflexivity|].
    exists s4. rewrite E4. split; [done|]. rewrite wrote_app in HR4. by replace c with 48 by lia. }
  pick c s2 v2 0%nat err_neg_fd_passes. pick c s2 v2 1%nat err_big_fd_passes. pick c s2 v2 2%nat err_open_lots_passes.
  pick c s2 v2 3%nat err_open_passes. pick c s2 v2 4%nat err_unopened_passes. pick c s2 v2 5%nat err_vidmap_passes.
  pick c s2 v2 6%nat err_stdin_out_passes. pick c s2 v2 7%nat err_syscall_num_passes.
  destruct (syserr_invalid c) as [-> ->]; [lia|].
  destruct (fdputs_lit_ok F R s2 _ (bytes "Invalid test number. Choose from tests 1-8 or 0") HR2) as (s3 & -> & HR3);
    [apply Forall_is_char; reflexivity|].
  by exists s3.
Qed.
End opens.
End clients.
