(* ===== verification/Grep.v ===== *)
(** What grep does to a file, proved against the interface of [User.v]: the buffer of
    [do_one_file] with its partial lines, the search in a line, and the program over
    a directory of text files. *)
From stdpp Require Import base option list numbers gmap.
From Stdlib Require Import ZArith Lia Ascii String.
From S2P Require Import Prelude LibString FileSystem Desks Idt Process Files User Programs.

(** ** Lines *)

(** The lines of a text; what is behind the last newline is one. *)
Fixpoint lines_of (c : list Z) : list (list Z) :=
  match c with
  | [] => [ [] ]
  | x :: c => if x =? 10 then [] :: lines_of c
              else match lines_of c with l :: ls => (x :: l) :: ls | [] => [ [x] ] end
  end.

(** [line] starts with [str], of which the first character is compared as a signed
    one: no byte of the line equals it from 128 on. *)
Definition starts (str line : list Z) : bool :=
  match str with
  | [] => false
  | a :: _ => (a <? 128) && bool_decide (take (Datatypes.length str) line = str)
  end.

(** [str] is somewhere in [line]. *)
Fixpoint occurs (str line : list Z) : bool :=
  match line with [] => false | _ :: l => starts str line || occurs str l end.

(** What grep prints for a line, and for a file. *)
Definition hit (name str line : list Z) : list Z := if occurs str line then name ++ [58] ++ line ++ [10] else [].

Definition grep_text (name str c : list Z) : list Z := mjoin (hit name str <$> lines_of c).

(** A text whose lines fit the buffer with room to spare. *)
Definition text_file (c : list Z) : Prop :=
  Forall is_char c /\ Forall (fun l => len l < BUFSIZE) (lines_of c).

#[export] Instance text_file_dec c : Decision (text_file c).
Proof. unfold text_file, is_char. apply _. Defined.

Lemma until_newline_cases q :
  (10 ∉ until_newline q) /\ (q = until_newline q /\ (10 ∉ q) \/ exists rest, q = until_newline q ++ 10 :: rest).
Proof.
  induction q as [|c q [IH1 IH2] ]; cbn [until_newline]; [split; [apply not_elem_of_nil|left; split; [done|apply not_elem_of_nil] ]|].
  destruct (Z.eqb_spec c 10) as [->|Hne].
  - split; [apply not_elem_of_nil|]. right. by exists q.
  - split; [by apply not_elem_of_cons|]. destruct IH2 as [ [E Hq]|[rest E] ].
    + left. split; [by f_equal|by apply not_elem_of_cons].
    + right. exists rest. cbn. by f_equal.
Qed.

Lemma lines_of_newline l c : 10 ∉ l -> lines_of (l ++ 10 :: c) = l :: lines_of c.
Proof.
  induction l as [|x l IH]; intros Hl; [done|]. apply not_elem_of_cons in Hl as [Hx Hl].
  cbn [app lines_of]. rewrite (proj2 (Z.eqb_neq x 10)) by congruence. by rewrite IH.
Qed.

Lemma lines_of_last l : 10 ∉ l -> lines_of l = [l].
Proof.
  induction l as [|x l IH]; intros Hl; [done|]. apply not_elem_of_cons in Hl as [Hx Hl].
  cbn [lines_of]. rewrite (proj2 (Z.eqb_neq x 10)) by congruence. by rewrite IH.
Qed.

(** The first line of what has no newline in front. *)
Lemma lines_of_first l c : 10 ∉ l -> exists l' ls, lines_of (l ++ c) = (l ++ l') :: ls.
Proof.
  intros Hl. destruct (until_newline_cases c) as [Hu [ [_ Hc]|[rest Ec] ] ].
  - exists c, []. apply lines_of_last. rewrite elem_of_app. tauto.
  - exists (until_newline c), (lines_of rest). rewrite Ec at 1. rewrite app_assoc.
    rewrite lines_of_newline; [done|]. rewrite elem_of_app. tauto.
Qed.

Lemma grep_text_newline name str l c : 10 ∉ l -> grep_text name str (l ++ 10 :: c) = hit name str l ++ grep_text name str c.
Proof. intros Hl. unfold grep_text. by rewrite lines_of_newline. Qed.

Lemma grep_text_last name str l : 10 ∉ l -> grep_text name str l = hit name str l.
Proof. intros Hl. unfold grep_text. rewrite lines_of_last by done. cbn. apply app_nil_r. Qed.

Lemma grep_text_nil name str : grep_text name str [] = [].
Proof. done. Qed.

(** ** The library *)

Lemma take_eq_iff (x y : list Z) :
  take (Datatypes.length y) x = y <-> forall j, 0 <= j < len y -> x.[j] = y.[j].
Proof.
  split.
  - intros H j Hj. rewrite <- (aget_take x j (Datatypes.length y)) by lia. by rewrite H.
  - intros H. assert (len y <= len x) as Hl.
    { destruct (Z.le_gt_cases (len y) (len x)) as [|Hgt]; [done|]. exfalso.
      destruct (aget_is_Some y (len x)) as [c Ec]; [lia|]. rewrite <- H in Ec by lia. apply aget_range in Ec. lia. }
    apply aget_ext; [rewrite length_take; lia|]. rewrite length_take. intros j Hj. rewrite aget_take by lia. apply H. lia.
Qed.

Lemma ece391_strncmp_spec s1 p1 x s2 p2 y :
  cstring s1 p1 x -> cstring s2 p2 y -> 0 < len y < 4294967296 ->
  exists r, ece391_strncmp s1 p1 s2 p2 (len y) = Some r /\ (r = 0 <-> take (Datatypes.length y) x = y).
Proof.
  intros H1 H2 Hy. pose proof (cstring_length _ _ _ H1) as Hl1. pose proof H1 as (Hp1 & _).
  unfold ece391_strncmp. rewrite (proj2 (Z.eqb_neq (len y) 0)) by lia.
  apply (iterate_ind (fun '(i, n) => 0 <= i < len y /\ i <= len x /\ n = len y - i /\ forall j, 0 <= j < i -> x.[j] = y.[j])
    (fun r => r = 0 <-> take (Datatypes.length y) x = y) (fun '(i, n) => Z.to_nat (len x - i)));
    [|split_and!; [lia|lia|lia|lia|intros; lia]|lia].
  intros [i n] (Hi & Hix & -> & Heq).
  destruct (cstring_get _ _ _ i H1) as (a & -> & Ha0 & Ha); [lia|].
  destruct (cstring_get _ _ _ i H2) as (b & -> & Hb0 & Hb); [lia|]. cbn [mbind option_bind].
  eexists; split; [done|]. specialize (Hb ltac:(lia)).
  destruct (Z.eqb_spec a b) as [->|Hab].
  - rewrite (proj2 (Z.eqb_neq b 0)) by lia. specialize (Ha ltac:(lia)).
    assert (forall j, 0 <= j < i + 1 -> x.[j] = y.[j]) as Heq'.
    { intros j Hj. destruct (Z.eq_dec j i) as [->|]; [congruence|apply Heq; lia]. }
    rewrite u32_small by (unfold is_u32; lia). destruct (Z.eqb_spec (len y - i - 1) 0).
    + split; [intros _|done]. apply take_eq_iff. intros j Hj. apply Heq'. lia.
    + split; [|lia]. split_and!; [lia..|done].
  - split; [lia|]. intros Ht. rewrite take_eq_iff in Ht. exfalso. specialize (Ht i ltac:(lia)).
    destruct (Z.eq_dec i (len x)) as [->|]; [rewrite Hb in Ht; apply aget_range in Ht; lia|].
    rewrite Ha, Hb in Ht by lia. congruence.
Qed.

(** A copy down in one buffer. *)
Lemma ece391_strcpy_down m src str :
  cstring m src str -> 0 < src -> ece391_strcpy m 0 src = Some (splice m 0 (str ++ [0])).
Proof.
  intros Hs Hsrc. pose proof (cstring_length _ _ _ Hs) as Hl. unfold ece391_strcpy.
  destruct (iterate_ind (fun '(i, m') => 0 <= i <= len str /\ m' = splice m 0 (take (Z.to_nat i) str))
    (fun m' => m' = splice m 0 (str ++ [0])) (fun '(i, _) => Z.to_nat (len str - i))
    (fun '(i, m) => c ← m.[src + i]; m ← m.[0 + i := c]; Some (if c =? 0 then Done m else Next (i + 1, m)))
    (Datatypes.S (Datatypes.length m))) with (s := (0, m)) as (r & E & ->); [| |lia|exact E].
  - intros [i m'] [Hi ->]. assert (len (take (Z.to_nat i) str) = i) as Ht by (rewrite length_take; lia).
    rewrite aget_splice_out by lia. destruct (cstring_get _ _ _ i Hs Hi) as (c & -> & Hc0 & Hc). cbn [mbind option_bind].
    rewrite aset_Some by (rewrite length_splice; lia). cbn [mbind option_bind]. eexists; split; [done|].
    pose proof (splice_app m 0 (take (Z.to_nat i) str) [c]) as E. rewrite Ht in E.
    rewrite <- splice_one, E by (rewrite ?length_splice; lia). destruct (Z.eqb_spec c 0) as [->|Hne].
    + rewrite take_ge by lia. done.
    + split; [|lia]. split; [lia|]. f_equal. replace (Z.to_nat (i + 1)) with (Datatypes.S (Z.to_nat i)) by lia.
      symmetry. apply take_S_r. specialize (Hc ltac:(lia)). rewrite <- aget_nat, Z2Nat.id by lia. exact Hc.
  - split; [lia|]. by rewrite take_0, splice_nil.
Qed.

Lemma starts_first str c l : starts str (c :: l) = true -> str.[0] = Some c.
Proof.
  destruct str as [|a str]; [done|]. cbn [starts]. intros [_ Ht%bool_decide_eq_true_1]%andb_true_iff.
  by injection Ht as <- _.
Qed.

Lemma starts_signed str c l : starts str (c :: l) = true -> c < 128.
Proof.
  destruct str as [|a str]; [done|]. cbn [starts]. intros [Ha%Z.ltb_lt Ht%bool_decide_eq_true_1]%andb_true_iff.
  by injection Ht as <- _.
Qed.

(** The signed character of [grep_search] is a byte of the text only below 128. *)
Lemma s8_eq a c : is_byte a -> 0 < c -> s8 a = c <-> a = c /\ a < 128.
Proof.
  unfold is_byte, s8. intros Ha Hc. destruct (Z.lt_ge_cases a 128).
  - rewrite Z.mod_small by lia. lia.
  - replace ((a + 128) mod 256) with (a - 128); [lia|]. apply Z.mod_unique with 1; lia.
Qed.

Section grep.
Context {S : Type} {HS : Syscalls S} (F : afs) (R : S -> session -> Prop) {L : FileLaws F R}.
Context (strobj nameobj str name : list Z) (Hstr : cstring strobj 0 str) (Hname : cstring nameobj 0 name).
Context (Hlen : len str < 4294967296).

(** ** The search in a line *)

(** The test of one position. *)
Lemma search_test data p c l :
  cstring data p (c :: l) ->
  exists a, strobj.[0] = Some a /\ data.[p] = Some c /\
    (if s8 a =? c then r ← ece391_strncmp data p strobj 0 (len str); Some (r =? 0) else Some false) =
      Some (starts str (c :: l)).
Proof.
  intros Hd. destruct (cstring_get _ _ _ 0 Hstr) as (a & Ea & Ha0 & Ha); [lia|].
  destruct (cstring_get _ _ _ 0 Hd) as (c' & Ec & _ & Hc); [cbn; lia|]. specialize (Hc ltac:(cbn; lia)). injection Hc as <-.
  rewrite Z.add_0_r in Ec. rewrite Z.add_0_l in Ea. exists a. split; [done|]. split; [done|].
  pose proof Hd as (_ & Hch & _). inversion Hch as [|? ? Hcc _]; subst. unfold is_char in Hcc.
  destruct str as [|b str'] eqn:Estr; rewrite <- ?Estr in *.
  { pose proof (proj2 Ha0 ltac:(by rewrite Estr)) as ->. rewrite Estr. change (s8 0) with 0.
    by rewrite (proj2 (Z.eqb_neq 0 c)) by lia. }
  assert (0 < len str) as Hpos by (rewrite Estr; cbn [Datatypes.length]; lia).
  assert (a = b) as <- by (specialize (Ha Hpos); rewrite Estr in Ha; by injection Ha).
  assert (is_byte a) as Hb.
  { destruct Hstr as (_ & Hs & _). rewrite Estr in Hs. inversion Hs; subst. unfold is_char, is_byte in *. lia. }
  destruct (Z.eqb_spec (s8 a) c) as [E|Hac].
  - apply s8_eq in E as [-> Hlow]; [|done|lia].
    destruct (ece391_strncmp_spec _ _ _ _ _ _ Hd Hstr) as (r & -> & Hr); [lia|]. cbn [mbind option_bind].
    f_equal. rewrite Estr. cbn [starts]. rewrite <- Estr, (proj2 (Z.ltb_lt c 128)) by done. cbn [andb].
    destruct (Z.eqb_spec r 0) as [E|E]; symmetry; [by apply bool_decide_eq_true_2, Hr|].
    apply bool_decide_eq_false_2. intros Ht. by apply E, Hr.
  - f_equal. symmetry. apply not_true_iff_false. intros H. apply Hac, s8_eq; [done|lia|].
    pose proof (starts_signed _ _ _ H). apply starts_first in H. rewrite Ha in H by lia. injection H as ->. done.
Qed.

Lemma grep_search_ok s v data a line :
  R s v -> cstring data a line ->
  exists s', grep_search strobj nameobj data (len str) a (a + len line) s = Some s' /\
    R s' (wrote (hit name str line) v).
Proof.
  intros HR Hd. unfold grep_search.
  apply (iterate_ind (fun check => a <= check <= a + len line /\ occurs str (drop (Z.to_nat (check - a)) line) = occurs str line)
    (fun s' => R s' (wrote (hit name str line) v)) (fun check => Z.to_nat (a + len line - check)));
    [|split; [lia|by rewrite Z.sub_diag]|lia].
  intros check [Hc Hocc]. unfold hit. rewrite <- Hocc.
  destruct (Z.ltb_spec check (a + len line)) as [Hlt|Hge].
  2: { rewrite drop_ge by lia. cbn [occurs]. eexists; split; [done|]. by rewrite wrote_nil. }
  pose proof (cstring_drop _ _ _ (check - a) Hd ltac:(lia)) as Hd'. rewrite Zplus_minus in Hd'.
  destruct (drop (Z.to_nat (check - a)) line) as [|c l] eqn:El.
  { apply (f_equal Datatypes.length) in El. rewrite length_drop in El. cbn in El. lia. }
  destruct (search_test data check c l Hd') as (x & -> & -> & E). cbn [mbind option_bind]. rewrite E.
  cbn [mbind option_bind occurs] in *. destruct (starts str (c :: l)); cbn [orb] in *.
  - destruct (fdputs_ok F R s v _ 0 name HR Hname) as (s1 & -> & HR1). cbn [mbind option_bind].
    destruct (fdputs_lit_ok F R s1 _ [58] HR1) as (s2 & -> & HR2); [by repeat constructor|]. cbn [mbind option_bind].
    destruct (fdputs_ok F R s2 _ _ a line HR2 Hd) as (s3 & -> & HR3). cbn [mbind option_bind].
    destruct (fdputs_lit_ok F R s3 _ [10] HR3) as (s4 & -> & HR4); [by repeat constructor|]. cbn [mbind option_bind].
    eexists; split; [done|]. by rewrite !wrote_app in HR4.
  - eexists; split; [done|]. split; [|lia]. split; [lia|]. f_equal.
    replace (Z.to_nat (check + 1 - a)) with (Z.to_nat (check - a) + 1)%nat by lia. by rewrite <- drop_drop, El.
Qed.
(** ** The lines in the buffer *)

(** [q] is in the buffer from [a] on. *)
Definition holds (data : list Z) (a : Z) (q : list Z) : Prop := forall i, 0 <= i < len q -> data.[a + i] = q.[i].

Lemma holds_drop data a q q' : holds data a (q ++ q') -> holds data (a + len q) q'.
Proof.
  intros H i Hi. rewrite <- Z.add_assoc, H by (rewrite length_app; lia). rewrite aget_app_r by lia. f_equal. lia.
Qed.

Lemma holds_take data a q q' : holds data a (q ++ q') -> holds data a q.
Proof. intros H i Hi. rewrite H by (rewrite length_app; lia). apply aget_app_l. lia. Qed.

Lemma find_line_end_ok data a q :
  holds data a q -> 0 <= a -> a + len q <= len data ->
  find_line_end data a (a + len q) = Some (a + len (until_newline q)).
Proof.
  intros H Ha Hd. unfold find_line_end.
  destruct (until_newline_cases q) as [Hu Hq]. set (u := until_newline q) in *. clearbody u.
  assert (len u <= len q) as Hlu by (destruct Hq as [ [-> _]|[rest ->] ]; rewrite ?length_app; lia).
  destruct (iterate_ind (fun p => a <= p <= a + len u) (fun r => r = a + len u) (fun p => Z.to_nat (a + len u - p))
    (fun line_end => if line_end <? a + len q then c ← data.[line_end]; Some (if c =? 10 then Done line_end else Next (line_end + 1))
      else Some (Done line_end)) (Datatypes.S (Z.to_nat (a + len q - a)))) with (s := a) as (r & E & ->);
    [|lia|lia|exact E].
  intros p Hp. destruct (Z.eq_dec p (a + len u)) as [->|Hne].
  - destruct (Z.ltb_spec (a + len u) (a + len q)) as [Hlt|]; [|by eexists].
    destruct Hq as [ [E _]|[rest E] ]; [rewrite E in Hlt; lia|].
    rewrite H, E, aget_app_r, Z.sub_diag by lia. by eexists.
  - rewrite (proj2 (Z.ltb_lt p _)) by lia. assert (q.[p - a] = u.[p - a]) as Eq.
    { destruct Hq as [ [-> _]|[rest ->] ]; [done|]. by rewrite aget_app_l by lia. }
    destruct (aget_is_Some u (p - a)) as [c Ec]; [lia|].
    assert (data.[p] = Some c) as -> by (rewrite <- Ec, <- Eq, <- (H (p - a)) by lia; f_equal; lia).
    cbn [mbind option_bind].
    eexists; split; [done|]. rewrite (proj2 (Z.eqb_neq c 10)); [split; lia|]. intros ->. apply Hu.
    unfold aget in Ec. case_match; [done|]. by eapply list_elem_of_lookup_2.
Qed.
(** The text [whole] is what is to be printed: what is not yet printed comes from
    the part [q] of the file, in the buffer from [a] on, and the part [r] behind it.
    The buffer's last byte is not a newline. *)
Record reading (v : session) (whole data : list Z) (a : Z) (q r : list Z) (s : S) : Prop := {
  rd_len : len data = BUFSIZE + 1;
  rd_in : 0 <= a /\ a + len q <= BUFSIZE;
  rd_holds : holds data a q;
  rd_chars : Forall is_char q;
  rd_short : Forall (fun l => len l < BUFSIZE) (lines_of (q ++ r));
  rd_stale : data.[BUFSIZE] <> Some 10;
  rd_out : exists t, R s (wrote t v) /\ whole = t ++ grep_text name str (q ++ r);
}.

Lemma end_line_cstring data a q :
  0 <= a -> holds data a q -> Forall is_char q -> a + len q < len data ->
  cstring (<[Z.to_nat (a + len q) := 0]> data) a q.
Proof.
  intros Ha H Hc Hl. split_and!; [done|done|apply aget_insert_eq; lia|].
  intros i Hi. rewrite aget_insert_ne by lia. by apply H.
Qed.

Lemma stale_insert data i : data.[BUFSIZE] <> Some 10 -> (<[Z.to_nat i := 0]> data).[BUFSIZE] <> Some 10.
Proof.
  intros H. unfold aget, BUFSIZE in *. cbn in *. destruct (decide (Z.to_nat i = 1024%nat)) as [->|Hne].
  - rewrite list_lookup_insert. by case_decide.
  - by rewrite list_lookup_insert_ne.
Qed.

(** A whole line is treated. *)
Lemma take_line v w data a u rest r s :
  reading v w data a (u ++ 10 :: rest) r s -> 10 ∉ u ->
  exists s', grep_search strobj nameobj (<[Z.to_nat (a + len u) := 0]> data) (len str) a (a + len u) s = Some s' /\
    reading v w (<[Z.to_nat (a + len u) := 0]> data) (a + len u + 1) rest r s'.
Proof.
  intros [Hl [Ha Hin] Hh Hc Hs Hst (t & HR & Hw)] Hu. rewrite length_app in Hin. cbn [Datatypes.length] in Hin.
  apply Forall_app in Hc as [Hcu Hcr]. apply Forall_cons in Hcr as [_ Hcr].
  destruct (grep_search_ok s _ (<[Z.to_nat (a + len u) := 0]> data) a u HR) as (s' & E & HR').
  { apply end_line_cstring; [done|by eapply holds_take|done|lia]. }
  exists s'. split; [exact E|]. rewrite <- app_assoc in Hw, Hs. cbn [app] in Hw, Hs.
  rewrite lines_of_newline in Hs by done. apply Forall_cons in Hs as [_ Hs].
  split; [by rewrite length_insert|lia| |done|done|by apply stale_insert|].
  - change (10 :: rest) with ([10] ++ rest) in Hh. rewrite app_assoc in Hh. apply holds_drop in Hh.
    rewrite length_app in Hh. cbn [Datatypes.length] in Hh. intros i Hi. rewrite aget_insert_ne by lia.
    rewrite <- (Hh i Hi). f_equal. lia.
  - exists (t ++ hit name str u). split; [by rewrite <- wrote_app|].
    by rewrite Hw, grep_text_newline, app_assoc.
Qed.

(** The end of the file is treated. *)
Lemma take_last v w data a q s :
  reading v w data a q [] s -> 10 ∉ q ->
  exists s', grep_search strobj nameobj (<[Z.to_nat (a + len q) := 0]> data) (len str) a (a + len q) s = Some s' /\
    reading v w (<[Z.to_nat (a + len q) := 0]> data) 0 [] [] s'.
Proof.
  intros [Hl [Ha Hin] Hh Hc Hs Hst (t & HR & Hw)] Hq. rewrite app_nil_r in Hw.
  destruct (grep_search_ok s _ (<[Z.to_nat (a + len q) := 0]> data) a q HR) as (s' & E & HR').
  { apply end_line_cstring; [done|done|done|lia]. }
  exists s'. split; [exact E|].
  split; [by rewrite length_insert|unfold BUFSIZE; cbn; lia|intros i Hi; cbn in Hi; lia|constructor| |by apply stale_insert|].
  - repeat constructor.
  - exists (t ++ hit name str q). split; [by rewrite <- wrote_app|]. rewrite Hw, grep_text_last by done.
    by rewrite app_nil_r.
Qed.

(** The beginning of a line is moved to the front. *)
Lemma move_down v w data a q r s :
  reading v w data a q r s -> 0 < a ->
  exists data', ece391_strcpy (<[Z.to_nat (a + len q) := 0]> data) 0 a = Some data' /\ reading v w data' 0 q r s.
Proof.
  intros [Hl [Ha Hin] Hh Hc Hs Hst Hout] Hpos. set (d := <[Z.to_nat (a + len q) := 0]> data).
  assert (len d = BUFSIZE + 1) as Hd by (unfold d; by rewrite length_insert).
  exists (splice d 0 (q ++ [0])). assert (len (q ++ [0]) = len q + 1) as Hq by (rewrite length_app; cbn; lia). split.
  - apply ece391_strcpy_down; [|done]. apply end_line_cstring; [done|done|done|lia].
  - split; [rewrite length_splice; lia|lia| |done|done| |done].
    + intros i Hi. rewrite aget_splice_in by lia. rewrite Z.sub_0_r. apply aget_app_l. lia.
    + rewrite aget_splice_out by lia. by apply stale_insert.
Qed.
(** Without a newline in the buffer the file is at its end, or the beginning of a
    line has been read and will be moved. *)
Lemma no_line_yet v w data a q r s c :
  reading v w data a q r s -> 10 ∉ q -> data.[a + len q] = Some c ->
  (a + len q < BUFSIZE -> r = []) -> c = 10 \/ a = 0 -> r = [].
Proof.
  intros [Hl [Ha Hin] _ _ Hs Hst _] Hq Hc Heof Hor.
  destruct (Z_lt_dec (a + len q) BUFSIZE) as [|Hge]; [auto|]. exfalso.
  assert (a + len q = BUFSIZE) as E by lia. destruct Hor as [->| ->]; [by rewrite E in Hc|].
  destruct (lines_of_first q r Hq) as (l' & ls & El). rewrite El in Hs. apply Forall_cons in Hs as [Hs _].
  rewrite length_app in Hs. lia.
Qed.

Lemma grep_lines_ok v w data q r s cnt :
  reading v w data 0 q r s -> (len q < BUFSIZE -> r = []) -> (cnt = 0 -> r = []) ->
  exists data' p s', grep_lines strobj nameobj (len str) cnt data (len q) s = Some (data', len p, s') /\
    reading v w data' 0 p r s' /\ (10 ∉ p) /\ len p < BUFSIZE /\ (cnt = 0 -> p = []).
Proof.
  intros Hrd Heof Hcnt.
  assert (exists x, grep_lines strobj nameobj (len str) cnt data (len q) s = Some x /\
    let '(data', n, s') := x in exists p, n = len p /\
      reading v w data' 0 p r s' /\ (10 ∉ p) /\ len p < BUFSIZE /\ (cnt = 0 -> p = [])) as H.
  2: { destruct H as ([ [data' n] s'] & E & p & -> & H). by exists data', p, s'. }
  unfold grep_lines.
  apply (iterate_ind (fun '(a, d, last, s) => last = len q /\ exists q1, reading v w d a q1 r s /\ a + len q1 = len q)
    (fun x => let '(data', n, s') := x in exists p, n = len p /\
      reading v w data' 0 p r s' /\ (10 ∉ p) /\ len p < BUFSIZE /\ (cnt = 0 -> p = []))
    (fun '(a, _, _, _) => Z.to_nat (len q + 1 - a))); [|split; [done|by exists q]|lia].
  intros [ [ [a d] last] s1] [-> (q1 & Hr1 & El)]. pose proof Hr1 as [Hl [Ha Hin] Hh Hc Hs Hst _].
  rewrite <- El. rewrite (find_line_end_ok _ _ _ Hh Ha) by lia. cbn [mbind option_bind].
  assert (forall d' s', reading v w d' 0 [] r s' -> exists p : list Z, 0 = len p /\
    reading v w d' 0 p r s' /\ (10 ∉ p) /\ len p < BUFSIZE /\ (cnt = 0 -> p = [])) as Hempty.
  { intros d' s' H. exists []. split_and!; try done. apply not_elem_of_nil. }
  destruct (until_newline_cases q1) as [Hu [ [Eu Hq1]|[rest Eu] ] ]; set (u := until_newline q1) in *; clearbody u; subst q1.
  - destruct (aget_is_Some d (a + len u)) as [c Ec]; [lia|]. rewrite Ec, aset_Some by lia. cbn [mbind option_bind].
    destruct (negb (c =? 10) && negb (cnt =? 0) && negb (a =? 0)) eqn:Econd.
    + destruct (move_down _ _ _ _ _ _ _ Hr1) as (d' & -> & Hr2); [lia|]. cbn [mbind option_bind].
      eexists; split; [done|]. exists u. split_and!; [lia|done|done|lia|lia].
    + assert (r = []) as ->.
      { destruct (Z.eq_dec cnt 0) as [E0|E0]; [by apply Hcnt|].
        eapply no_line_yet; [exact Hr1|done|exact Ec|intros; apply Heof; lia|lia]. }
      destruct (take_last _ _ _ _ _ _ Hr1 Hu) as (s2 & -> & Hr2). cbn [mbind option_bind].
      eexists; split; [done|]. rewrite (proj2 (Z.leb_le (a + len u) _)) by lia. by apply Hempty.
  - rewrite length_app in *. cbn [Datatypes.length] in *.
    assert (d.[a + len u] = Some 10) as Ec.
    { rewrite Hh, aget_app_r, Z.sub_diag by (rewrite ?length_app; cbn [Datatypes.length]; lia). done. }
    rewrite Ec, aset_Some by lia. cbn [mbind option_bind Z.eqb Pos.eqb negb andb].
    destruct (take_line _ _ _ _ _ _ _ _ Hr1 Hu) as (s2 & -> & Hr2). cbn [mbind option_bind].
    eexists; split; [done|]. match goal with |- context [?x <=? ?y] => destruct (Z.leb_spec x y) end.
    + destruct rest as [|x rest]; [|cbn [Datatypes.length] in *; lia]. apply Hempty.
      destruct Hr2. split; try done. intros i Hi. cbn in Hi. lia.
    + split; [|lia]. split; [done|]. exists rest. split; [done|lia].
Qed.
(** ** A file *)

(** The session with the file open at [pos]. *)
Definition at_file (fd : Z) (c : list Z) (pos : Z) (v : session) : session :=
  with_fds (<[fd := FileAt c pos]> (u_fds v)) v.

(** A read into the buffer behind the partial line. *)
Lemma fill_buffer v w data p s fd c pos :
  reading (at_file fd c pos v) w data 0 p (drop (Z.to_nat pos) c) s -> len p < BUFSIZE -> text_file c ->
  0 <= pos <= len c ->
  let cnt := Z.min (BUFSIZE - len p) (len c - pos) in
  exists data' s', ece391_read fd data (len p) (BUFSIZE - len p) s = Some (cnt, data', s') /\
    reading (at_file fd c (pos + cnt) v) w data' 0 (p ++ slice c pos cnt) (drop (Z.to_nat (pos + cnt)) c) s'.
Proof.
  intros [Hl [Ha Hin] Hh Hc Hs Hst (t & HR & Hw)] Hp [Htext _] Hpos cnt. unfold BUFSIZE in *.
  assert (len (slice c pos cnt) = cnt) as Hsl by (rewrite length_slice; lia).
  assert (drop (Z.to_nat pos) c = slice c pos cnt ++ drop (Z.to_nat (pos + cnt)) c) as Er.
  { unfold slice. replace (Z.to_nat (pos + cnt)) with (Z.to_nat pos + Z.to_nat cnt)%nat by lia.
    by rewrite <- drop_drop, take_drop. }
  rewrite Er, app_assoc in Hs, Hw.
  destruct (law_read_file s _ fd c pos data (len p) (1024 - len p) HR) as (s' & E & HR');
    [apply lookup_insert_eq|lia..|].
  fold cnt in E, HR'. exists (splice data (len p) (slice c pos cnt)), s'. split; [exact E|].
  split; [rewrite length_splice; unfold BUFSIZE; lia|rewrite length_app; unfold BUFSIZE; lia| | |done| |].
  - intros i Hi. rewrite length_app in Hi. destruct (Z.lt_ge_cases i (len p)) as [Hlt|Hge].
    + rewrite aget_splice_out, aget_app_l by lia. apply Hh. lia.
    + by rewrite aget_splice_in, aget_app_r by lia.
  - apply Forall_app. split; [done|]. unfold slice. by apply Forall_take, Forall_drop.
  - unfold BUFSIZE. rewrite aget_splice_out by lia. exact Hst.
  - exists t. split; [|done]. revert HR'. unfold at_file, with_fds, wrote. cbn. by rewrite insert_insert_eq.
Qed.

Lemma file_loop_ok fuel fd c v w : forall data p s pos,
  reading (at_file fd c pos v) w data 0 p (drop (Z.to_nat pos) c) s -> len p < BUFSIZE -> text_file c ->
  0 <= pos <= len c -> (Z.to_nat (len c - pos) < fuel)%nat ->
  exists s', iterate fuel (fun '(data, last, s) =>
      '(cnt, data, s) ← ece391_read fd data last (BUFSIZE - last) s;
      if cnt =? -1 then s ← fdputs 1 (text_line "file read failed") s; Some (Done (true, s))
      else
        '(data, last, s) ← grep_lines strobj nameobj (len str) cnt data (last + cnt) s;
        Some (if cnt =? 0 then Done (false, s) else Next (data, last, s))) (data, len p, s) = Some (false, s') /\
    R s' (wrote w (at_file fd c (len c) v)).
Proof.
  induction fuel as [|fuel IH]; intros data p s pos Hrd Hp Htext Hpos Hfuel; [lia|]. rewrite iterate_S.
  destruct (fill_buffer _ _ _ _ _ _ _ _ Hrd Hp Htext Hpos) as (d1 & s1 & -> & Hrd1). cbn [mbind option_bind].
  set (cnt := Z.min (BUFSIZE - len p) (len c - pos)) in *.
  rewrite (proj2 (Z.eqb_neq cnt (-1))) by lia.
  assert (len (slice c pos cnt) = cnt) as Hsl by (rewrite length_slice; lia).
  destruct (grep_lines_ok _ _ _ _ _ _ cnt Hrd1) as (d2 & p2 & s2 & E & Hrd2 & _ & Hp2 & Hcnt).
  { rewrite length_app. intros Hlt. apply drop_ge. lia. }
  { intros E0. apply drop_ge. lia. }
  rewrite length_app in E. replace (len p + cnt) with (Z.of_nat (Datatypes.length p + Datatypes.length (slice c pos cnt))) by lia.
  rewrite E. cbn [mbind option_bind]. destruct (Z.eqb_spec cnt 0) as [E0|E0].
  - exists s2. split; [done|]. destruct (rd_out _ _ _ _ _ _ _ Hrd2) as (t & HR & Hw).
    rewrite Hcnt, drop_ge in Hw by lia. cbn [app] in Hw. rewrite grep_text_nil, app_nil_r in Hw. subst t.
    by replace (pos + cnt) with (len c) in HR by lia.
  - eapply (IH d2 p2 s2 (pos + cnt)); [exact Hrd2|done|done|lia|lia].
Qed.

Lemma do_one_file_ok fuel data s v c :
  R s v -> can_open v -> found F name = Some (FileAt c 0) -> text_file c ->
  len data = BUFSIZE + 1 -> data.[BUFSIZE] <> Some 10 -> (Datatypes.length c < fuel)%nat ->
  exists s', do_one_file fuel strobj nameobj data s = Some (0, s') /\ R s' (wrote (grep_text name str c) v).
Proof.
  intros HR Hfree Hf Htext Hl Hst Hfuel. unfold do_one_file. rewrite (ece391_strlen_cstring _ _ _ Hstr).
  cbn [mbind option_bind].
  destruct (open_ok F R s v _ _ _ HR Hname Hf Hfree) as (fd & s1 & -> & Hfd & Hnone & HR1). cbn [mbind option_bind].
  rewrite (proj2 (Z.eqb_neq fd (-1))) by lia.
  destruct (file_loop_ok fuel fd c v (grep_text name str c) data [] s1 0) as (s2 & E & HR2); [|done|done|lia|lia|].
  { split; [done|done|intros i Hi; cbn in Hi; lia|constructor|apply Htext|done|].
    exists []. split; [by rewrite wrote_nil|done]. }
  change (len []) with 0 in E. rewrite E. cbn [mbind option_bind].
  destruct (law_close s2 _ fd (FileAt c (len c)) HR2) as (s3 & -> & HR3); [apply lookup_insert_eq|lia|].
  cbn [mbind option_bind Z.eqb]. exists s3. split; [done|]. revert HR3. unfold at_file, with_fds, wrote. cbn.
  by rewrite delete_insert_id by done.
Qed.
End grep.

(** ** The directory *)

(** What grep prints for an entry of the directory. *)
Definition grep_entry (F : afs) (str : list Z) (e : aentry) : list Z :=
  if decide (head (a_name e) = Some 46) then []
  else match found F (a_name e) with Some (FileAt c _) => grep_text (a_name e) str c | _ => [] end.

(** An entry that it skips or a text file that fits the fuel. *)
Definition greppable (F : afs) (fuel : nat) (e : aentry) : Prop :=
  a_name e <> [] /\
  (head (a_name e) = Some 46 \/
   match found F (a_name e) with Some (FileAt c _) => text_file c /\ (Datatypes.length c < fuel)%nat | _ => False end).

#[export] Instance greppable_dec F fuel e : Decision (greppable F fuel e).
Proof. unfold greppable. apply and_dec; [apply _|]. apply or_dec; [apply _|]. repeat case_match; apply _. Defined.

Section directory.
Context {S : Type} {HS : Syscalls S} (F : afs) (R : S -> session -> Prop) {L : FileLaws F R}.
Context (strobj str data : list Z) (Hstr : cstring strobj 0 str) (Hlen : len str < 4294967296).
Context (Hdata : len data = BUFSIZE + 1) (Hstale : data.[BUFSIZE] <> Some 10) (file_fuel : nat).
Context (Hgrep : Forall (greppable F file_fuel) (a_entries F)).

(** What is left of the directory is searched. *)
Definition grep_rest (i : Z) : list Z := mjoin (grep_entry F str <$> drop (Z.to_nat i) (a_entries F)).

(** A name that [grep_loop] reads, terminated again. *)
Lemma read_name_ok s v fd buf :
  R s v -> u_fds v !! fd = Some Listing -> len buf = SBUFSIZE ->
  match (a_entries F).[u_listed v] with
  | Some e => exists buf' s', ece391_read fd buf 0 (SBUFSIZE - 1) s = Some (len (a_name e), buf', s') /\
      len buf' = SBUFSIZE /\ cstring buf' 0 (a_name e) /\ buf'.[len (a_name e) := 0] = Some buf' /\
      R s' (with_listed (u_listed v + 1) v)
  | None => exists buf' s', ece391_read fd buf 0 (SBUFSIZE - 1) s = Some (0, buf', s') /\ R s' v
  end.
Proof.
  intros HR Hfd Hbuf. unfold SBUFSIZE in *.
  destruct (law_read_dir s v fd buf (33 - 1) HR Hfd) as (r & b1 & s1 & -> & Hl1 & Hr); [lia|lia|].
  destruct ((a_entries F).[u_listed v]) as [e|] eqn:Ee.
  - destruct Hr as (-> & Hc & HR1). exists b1, s1. split_and!; try done; [lia|].
    destruct Hc as (_ & _ & Hz & _). rewrite Z.add_0_l in Hz. pose proof (aget_range _ _ _ Hz) as Hr.
    rewrite aset_Some by done. f_equal. apply list_insert_id. rewrite <- aget_nat, Z2Nat.id by lia. done.
  - destruct Hr as (-> & HR1). by exists b1, s1.
Qed.

Lemma grep_rest_cons i e : (a_entries F).[i] = Some e -> grep_rest i = grep_entry F str e ++ grep_rest (i + 1).
Proof.
  intros Ee. pose proof (aget_range _ _ _ Ee). unfold grep_rest. rewrite (drop_S (a_entries F) e (Z.to_nat i)).
  - replace (Z.to_nat (i + 1)) with (Datatypes.S (Z.to_nat i)) by lia. done.
  - rewrite <- aget_nat, Z2Nat.id by lia. done.
Qed.

Lemma grep_loop_ok fuel fd : forall buf s v,
  R s v -> u_fds v !! fd = Some Listing -> can_open v -> len buf = SBUFSIZE -> 0 <= u_listed v <= len (a_entries F) ->
  (Z.to_nat (len (a_entries F) - u_listed v) < fuel)%nat ->
  exists s', grep_loop file_fuel fuel fd strobj data buf s = Some (0, s') /\
    R s' (wrote (grep_rest (u_listed v)) (with_listed (len (a_entries F)) v)).
Proof.
  induction fuel as [|fuel IH]; intros buf s v HR Hfd Hfree Hbuf Hi Hfuel; [lia|].
  unfold grep_loop in *. rewrite iterate_S. pose proof (read_name_ok s v fd buf HR Hfd Hbuf) as Hread.
  destruct ((a_entries F).[u_listed v]) as [e|] eqn:Ee.
  - destruct Hread as (b1 & s1 & -> & Hb1 & Hc & Hset & HR1). cbn [mbind option_bind].
    destruct (aget_Forall _ _ _ _ Hgrep Ee) as [Hne Hkind]. pose proof (aget_range _ _ _ Ee) as Hri.
    assert (0 < len (a_name e)) as Hpos by (destruct (a_name e); [done|cbn; lia]).
    rewrite (proj2 (Z.eqb_neq (len (a_name e)) 0)), (proj2 (Z.eqb_neq (len (a_name e)) (-1))) by lia.
    assert (b1.[0] = head (a_name e)) as ->.
    { destruct Hc as (_ & _ & _ & Hcj). rewrite <- (Z.add_0_l 0), Hcj by lia. by destruct (a_name e). }
    rewrite (grep_rest_cons _ _ Ee). unfold grep_entry.
    destruct (a_name e) as [|c nm] eqn:En; [done|]. cbn [head mbind option_bind] in *.
    destruct (Z.eqb_spec c 46) as [->|Hc46].
    + rewrite decide_True by done. destruct (IH b1 s1 _ HR1) as (s2 & E & HR2); try done; cbn [u_listed with_listed]; [lia|lia|].
      exists s2. by split.
    + rewrite Hset, decide_False by congruence. cbn [mbind option_bind]. destruct Hkind as [Hk|Hk]; [congruence|].
      destruct (found F (c :: nm)) as [ [f pos| |]|] eqn:Ef; try done. destruct Hk as [Htext Hff].
      assert (pos = 0) as ->.
      { unfold found in Ef. destruct (find_entry F (c :: nm)) as [e'|]; [|done]. cbn [mbind option_bind] in Ef.
        repeat case_match; try done. destruct ((a_files F).[a_inode e']); [|done]. by injection Ef as _ <-. }
      destruct (do_one_file_ok F R strobj b1 str (c :: nm) Hstr Hc Hlen file_fuel data s1 _ f HR1) as (s2 & -> & HR2);
        try done. cbn [mbind option_bind Z.eqb].
      destruct (IH b1 s2 _ HR2) as (s3 & E & HR3); try done; cbn [u_listed with_listed wrote]; [lia|lia|].
      exists s3. split; [exact E|]. revert HR3. unfold wrote, with_listed, outs. cbn. by rewrite fmap_app, app_assoc.
  - destruct Hread as (b1 & s1 & -> & HR1). cbn [mbind option_bind Z.eqb].
    exists s1. split; [done|]. assert (u_listed v = len (a_entries F)) as Ei.
    { destruct (Z.eq_dec (u_listed v) (len (a_entries F))) as [|Hneq]; [done|].
      destruct (aget_is_Some (a_entries F) (u_listed v)) as [? E]; [lia|congruence]. }
    unfold grep_rest. rewrite drop_ge by lia. cbn. rewrite <- Ei, wrote_nil. by destruct v.
Qed.
End directory.

(** Two descriptors are free: for the directory and for a file. *)
Definition can_open_two (v : session) : Prop :=
  exists a b, a <> b /\ 2 <= a < 8 /\ 2 <= b < 8 /\ u_fds v !! a = None /\ u_fds v !! b = None.

(** What grep returns and prints. *)
Definition grep_spec (F : afs) (v : session) : Z * list Z :=
  if decide (u_args v <> [] /\ len (u_args v) < BUFSIZE) then (0, grep_rest F (u_args v) (u_listed v))
  else (3, text_line "could not read argument").

Lemma grep_ok {S} {HS : Syscalls S} F (R : S -> session -> Prop) {L : FileLaws F R}
    file_fuel fuel search data buf s v :
  R s v -> can_open_two v -> found F [46] = Some Listing -> Forall (greppable F file_fuel) (a_entries F) ->
  u_listed v <= len (a_entries F) -> 0 <= u_listed v ->
  len search = BUFSIZE -> len data = BUFSIZE + 1 -> data.[BUFSIZE] <> Some 10 -> len buf = SBUFSIZE ->
  (Datatypes.length (a_entries F) < fuel)%nat ->
  let '(code, text) := grep_spec F v in
  exists s' fds n, grep file_fuel fuel search data buf s = Some (code, s') /\
    R s' (wrote text (with_listed n (with_fds fds v))).
Proof.
  intros HR (a & b & Hab & Ha & Hb & Hna & Hnb) Hdot Hgrep Hi Hi0 Hs Hd Hst Hbuf Hfuel. unfold grep_spec, grep, BUFSIZE in *.
  destruct (law_getargs s v search 1024 HR) as (s0 & -> & HR0); [lia|]. clear HR. rename HR0 into HR. case_decide as Hargs; cbn [mbind option_bind Z.eqb Pos.eqb negb].
  - pose proof (law_args s0 v HR) as Hch. destruct Hargs as [_ Hargs].
    assert (cstring (splice search 0 (u_args v ++ [0])) 0 (u_args v)) as Hcs by (apply cstring_splice; [done|lia]).
    assert (len (u_args v) < 4294967296) as Hlen by lia.
    destruct (open_ok F R s0 v [46; 0] [46] Listing HR) as (fd & s1 & -> & Hfd & Hnone & HR1); try done.
    { apply (cstring_intro [46] []). by repeat constructor. }
    { by exists a. }
    cbn [mbind option_bind]. rewrite (proj2 (Z.eqb_neq fd (-1))) by lia.
    destruct (grep_loop_ok F R (splice search 0 (u_args v ++ [0])) (u_args v) data
      Hcs Hlen Hd Hst file_fuel Hgrep fuel fd buf s1 _ HR1) as (s2 & E & HR2); try done.
    + apply lookup_insert_eq.
    + destruct (Z.eq_dec a fd) as [<-|Hne]; [exists b|exists a]; (split; [done|]); cbn; by rewrite lookup_insert_ne.
    + cbn. lia.
    + exists s2, (<[fd := Listing]> (u_fds v)), (len (a_entries F)). by split.
  - destruct (fdputs_lit_ok F R s0 v (text_line "could not read argument") HR) as (s1 & -> & HR1);
      [apply Forall_is_char; reflexivity|].
    exists s1, (u_fds v), (u_listed v). split; [done|]. by destruct v.
Qed.
