(* ===== verification/UserKernel.v ===== *)
(** The kernel keeps the promises of [User.FileLaws]: the system calls of
    [src/code/system_call.c] as the running program's [Syscalls], and the relation
    of the kernel's state to the program's session.

    A read of the keyboard waits, so the state has, besides the kernel, what
    happens during each of the reads to come: the events while the kernel polls,
    and those between its last look at the line and the copy. *)
From stdpp Require Import base option list numbers gmap.
From Stdlib Require Import ZArith Lia.
From S2P Require Import Prelude LibString FileSystem Console Keyboard Paging Rtc State Terminal Desks Frame FileOps SysCall Process Scheduler Family System Files Calls User.

Definition script : Type := list (list event * list event).

(** The state of a program that runs on the kernel. *)
Definition user_machine : Type := kernel * script.

Section instance.
Context (ticks : nat) (dentry0 : dentry_t).

Definition world_of (sc : script) : world :=
  match sc with
  | (es, late) :: _ => mkWorld (map run_event es) (map run_event late) ticks
  | [] => mkWorld [] [] ticks
  end.

(** A buffer is an object and an offset; descriptor 0 is the keyboard. *)
#[export] Instance kernel_calls : Syscalls user_machine := {
  ece391_getargs buf nbytes s := '(r, buf, k) ← sys_getargs buf nbytes s.1; Some (r, buf, (k, s.2));
  ece391_open name s := '(r, k) ← sys_open dentry0 name s.1; Some (r, (k, s.2));
  ece391_read fd buf off n s :=
    '(r, b, k) ← sys_read (world_of s.2) fd (Some (drop (Z.to_nat off) buf)) n s.1;
    b ← b;
    Some (r, take (Z.to_nat off) buf ++ b, (k, if fd =? 0 then tail s.2 else s.2));
  ece391_write fd buf off n s := '(r, k) ← sys_write fd (Some (drop (Z.to_nat off) buf)) n s.1; Some (r, (k, s.2));
  ece391_close fd s := '(r, k) ← sys_close fd s.1; Some (r, (k, s.2));
}.
End instance.

(** The video memory and the calls by number; the jump table's calls get what the
    registers hold, so they are a parameter. *)
#[export] Instance kernel_raw (entry : Z -> kernel -> option (Z * kernel)) : RawCalls user_machine := {
  ece391_vidmap p s := '(r, w, k) ← sys_vidmap p s.1; Some (r, w, (k, s.2));
  call_sys n s := '(r, k) ← sys_call entry n s.1; Some (r, (k, s.2));
}.

(** ** The session of a program *)

Definition desks_after (acts : list act) (D : desks) : desks := foldl step_act D acts.

(** The reads to come find these lines, the desks being [D] now; nobody switches
    away between the last look at a line and its copy. *)
Fixpoint scripted (D : desks) (sc : script) (ls : list (list act * list Z)) : Prop :=
  match sc, ls with
  | [], [] => True
  | (es, late) :: sc, (acts, l) :: ls =>
      Forall event_ok es /\ Forall event_ok late /\
      exists pre rest S1, es = pre ++ rest /\ until_ready es D = Some (S1, rest) /\
        acts = Happens <$> (pre ++ late) /\
        let S2 := foldl (fun S e => step_desks e S) S1 late in
        ds_shown S2 = ds_running S2 /\ l = d_line (ds_of S2 (ds_shown S2)) /\ has_newline l = true /\
        scripted (upd_desk (ds_shown S2) clear_line_of S2) sc ls
  | _, _ => False
  end.

(** The desks as far as lines go. *)
Definition same_lines (D D' : desks) : Prop :=
  ds_keys D = ds_keys D' /\ ds_shown D = ds_shown D' /\ ds_running D = ds_running D' /\
  forall t, d_line (ds_of D t) = d_line (ds_of D' t).

#[export] Instance same_lines_equivalence : Equivalence same_lines.
Proof.
  split; [by intros D|by intros D D' (? & ? & ? & ?)|].
  intros D1 D2 D3 (? & ? & ? & H) (? & ? & ? & H'). split_and!; congruence.
Qed.

(** A change of the desks that treats equal lines alike. *)
Definition on_lines (f : desk -> desk) : Prop := forall d d', d_line d = d_line d' -> d_line (f d) = d_line (f d').

Lemma type_echo_lines c : on_lines (type_echo c).
Proof. intros d d' E. unfold type_echo. rewrite E. by destruct (type_char c (d_line d')) as [ [] ]. Qed.

Lemma type_spaces_lines n : on_lines (type_spaces n).
Proof. induction n as [|n IH]; intros d d' E; [done|]. by apply IH, type_echo_lines. Qed.

Lemma key_echo_lines c keys : on_lines (key_echo c keys).
Proof.
  intros d d' E. unfold key_echo. case_match.
  - unfold ctrl_echo. case_match; [done|]. case_match; [done|]. cbn. by rewrite E.
  - case_match; [by apply type_echo_lines|]. case_match.
    + unfold rub_echo. rewrite E. by destruct (rub_char (d_line d')) as [ [] ].
    + case_match; [by apply type_spaces_lines|done].
Qed.

Lemma upd_desk_lines t f D D' : on_lines f -> same_lines D D' -> same_lines (upd_desk t f D) (upd_desk t f D').
Proof.
  intros Hf (? & ? & ? & H). split_and!; try done. intros i. cbn. destruct (i =? t); [by apply Hf|done].
Qed.

#[export] Instance step_desks_lines e : Proper (same_lines ==> same_lines) (step_desks e).
Proof.
  intros D D' H. pose proof H as (Hk & Hs & Hr & Hl). destruct e as [code|c|off c]; cbn [step_desks].
  - rewrite Hk. destruct (get_key code (ds_keys D')) as [c keys]. case_match.
    + by split_and!.
    + rewrite Hs. apply upd_desk_lines; [apply key_echo_lines|]. by split_and!.
  - rewrite Hr. apply upd_desk_lines; [by intros d d' E|done].
  - rewrite Hr. apply upd_desk_lines; [by intros d d' E|done].
Qed.

Lemma foldl_step_lines es : forall D D', same_lines D D' ->
  same_lines (foldl (fun S e => step_desks e S) D es) (foldl (fun S e => step_desks e S) D' es).
Proof. induction es as [|e es IH]; intros D D' H; [done|]. cbn [foldl]. apply IH. by rewrite H. Qed.

Lemma line_ready_lines D D' : same_lines D D' -> line_ready D = line_ready D'.
Proof. intros (Hk & Hs & Hr & Hl). unfold line_ready. by rewrite Hl, Hs, Hr. Qed.

Lemma until_ready_lines es : forall D D' S1 rest, same_lines D D' ->
  until_ready es D = Some (S1, rest) -> exists S1', until_ready es D' = Some (S1', rest) /\ same_lines S1 S1'.
Proof.
  induction es as [|e es IH]; intros D D' S1 rest H E; cbn [until_ready] in *;
    rewrite (line_ready_lines _ _ H) in E; (destruct (line_ready D'); [injection E as <- <-; by exists D'|]); [done|].
  eapply IH; [|exact E]. by rewrite H.
Qed.

Lemma until_ready_unique es pre rest D S1 :
  es = pre ++ rest -> until_ready es D = Some (S1, rest) -> S1 = foldl (fun S e => step_desks e S) D pre.
Proof.
  revert pre D. induction es as [|e es IH]; intros pre D Ees E; cbn [until_ready] in E.
  - destruct (line_ready D); [|done]. injection E as <- <-. destruct pre; [done|discriminate].
  - destruct (line_ready D).
    + injection E as <- <-. destruct pre as [|e' pre]; [done|]. exfalso.
      apply (f_equal Datatypes.length) in Ees. rewrite length_app in Ees. cbn in Ees. lia.
    + destruct pre as [|e' pre].
      * exfalso. cbn in Ees. subst rest. clear IH.
        assert (forall es D S1 l, until_ready es D = Some (S1, l) -> (Datatypes.length l <= Datatypes.length es)%nat) as H.
        { clear. induction es as [|e es IH]; intros D S1 l E; cbn [until_ready] in E;
            (destruct (line_ready D); [by injection E as <- <-|]); [done|].
          apply IH in E. cbn. lia. }
        apply H in E. cbn in E. lia.
      * injection Ees as -> ->. cbn [foldl]. by apply IH.
Qed.

Lemma scripted_lines sc : forall D D' ls, same_lines D D' -> scripted D sc ls -> scripted D' sc ls.
Proof.
  induction sc as [|[es late] sc IH]; intros D D' [|[acts l] ls] H HS; try done.
  destruct HS as (He & Hl & pre & rest & S1 & Ees & Er & Eacts & Esr & El & Hnl & HS).
  destruct (until_ready_lines _ _ _ _ _ H Er) as (S1' & Er' & H1).
  pose proof (foldl_step_lines late _ _ H1) as H2. pose proof H2 as (_ & E2 & Er2 & Hl2).
  split_and!; try done. exists pre, rest, S1'. cbv zeta. split_and!; try done.
  - by rewrite <- E2, <- Er2.
  - by rewrite El, E2, Hl2.
  - eapply IH; [|exact HS]. rewrite E2. apply upd_desk_lines; [done|exact H2].
Qed.

Lemma outs_lines text : forall D, same_lines (desks_after (outs text) D) D.
Proof.
  induction text as [|c text IH]; intros D; [done|]. cbn [outs fmap list_fmap desks_after foldl].
  etransitivity; [apply IH|]. split_and!; try done. intros t. cbn. by destruct (t =? ds_running D).
Qed.

Lemma desks_after_app a1 a2 D : desks_after (a1 ++ a2) D = desks_after a2 (desks_after a1 D).
Proof. apply foldl_app. Qed.

Lemma desks_after_running acts : forall D, ds_running (desks_after acts D) = ds_running D.
Proof.
  induction acts as [|a acts IH]; intros D; [done|]. cbn [desks_after foldl]. etransitivity; [apply IH|].
  destruct a as [ [code|c|off c]| |]; cbn [step_act step_desks]; [|done..].
  destruct (get_key code (ds_keys D)) as [c keys]. by case_match.
Qed.

Lemma desks_after_events es D : desks_after (Happens <$> es) D = foldl (fun S e => step_desks e S) D es.
Proof. unfold desks_after. by rewrite foldl_fmap. Qed.

(** Nothing is typed at the running program's desk. *)
Definition no_line (D : desks) : Prop := d_line (ds_of D (ds_running D)) = [].

Lemma no_line_lines D D' : same_lines D D' -> no_line D -> no_line D'.
Proof. intros (_ & _ & Er & Hl). unfold no_line. by rewrite Hl, Er. Qed.

(** ** The laws *)

Section laws.
Context (A B : Z) (F : afs) (room : Z) (D0 : desks) (P : Z -> list proc) (clk : Z).
Context (others : Z -> option pcb_t).
Context (ticks : nat) (dentry0 : dentry_t).

(** The kernel is in the state of the specification with these processes, the
    desks are what the session has made of [D0], the running process is the
    session's, the other processes' blocks are as given, and nothing is typed
    ahead. *)
Record runs (s : user_machine) (v : session) : Prop := {
  rn_models : models A B F room s.1 (mkMachine (desks_after (u_acts v) D0) P clk);
  rn_fds : exists l, cur_fds s.1 = Some l /\ fds_are F l (u_fds v);
  rn_args : exists b, cur_block s.1 = Some b /\ cstring (cmd_args b) 0 (u_args v);
  rn_others : forall j, j ∈ stacks_pids P -> j <> cur_pid s.1 -> get_pcb j s.1 = others j;
  rn_listed : read_index s.1 = u_listed v;
  rn_index : 0 <= u_listed v < 4294967295;
  rn_input : scripted (desks_after (u_acts v) D0) s.2 (u_input v);
  rn_line : no_line (desks_after (u_acts v) D0);
}.

Lemma rn_img s v : runs s v -> represents (k_img s.1) F.
Proof. intros HR. apply (rn_models _ _ HR). Qed.

Lemma rn_desks s v : runs s v -> implements A B ((cur_pid s.1 + 2) * PAGE_4MB) s.1 (desks_after (u_acts v) D0).
Proof. intros HR. apply (mo_desks _ _ _ _ _ _ (rn_models _ _ HR)). Qed.

Lemma runs_owned s v : runs s v -> exists r, owned F s.1 (u_fds v) (u_listed v) r.
Proof.
  intros HR. pose proof (rn_models _ _ HR) as Hm. destruct (rn_fds _ _ HR) as (l & Hl & Hare).
  destruct (cur_fds_pcb _ _ Hl) as (b & Eb & _). apply aget_range in Eb.
  destruct (aget_is_Some (process_rtc (k_rtc s.1)) (cur_pid s.1)) as [r Er].
  { by rewrite (wf_rates_len _ (mo_rtc _ _ _ _ _ _ Hm)), <- (wp_pcbs _ (mo_procs _ _ _ _ _ _ Hm)). }
  exists r. split; [by eapply rn_img|by exists l|by apply HR..|done].
Qed.

(** A call on files. *)
Lemma runs_files k k' sc v v' r :
  runs (k, sc) v -> own k k' -> owned F k' (u_fds v') (u_listed v') r ->
  u_args v' = u_args v -> u_acts v' = u_acts v -> u_input v' = u_input v ->
  runs (k', sc) v'.
Proof.
  intros [Hm Hf Ha Hoth Hl Hx Hin Hline] Ho [_ (l' & Hfds & Hare) Hi' Hx' _] Eua Euc Eui. cbn [fst snd] in *.
  destruct (fds_are_ok F _ _ Hare) as [Hlen Hok]. pose proof (own_pid _ _ Ho) as Ecur.
  split; cbn [fst snd]; rewrite ?Eua, ?Euc, ?Eui; try done.
  - by eapply models_own.
  - by exists l'.
  - by rewrite (ow_block _ _ Ho).
  - intros j Hj Hne. rewrite Ecur in Hne. rewrite (ow_others _ _ Ho) by done. by apply Hoth.
Qed.

(** A buffer and an offset. *)
Lemma take_splice_drop (buf x : list Z) off :
  0 <= off -> off + len x <= len buf ->
  take (Z.to_nat off) buf ++ splice (drop (Z.to_nat off) buf) 0 x = splice buf off x.
Proof. intros Ho Hx. unfold splice. cbn [Z.to_nat take app Nat.add]. by rewrite drop_drop. Qed.

Lemma runs_getargs s v buf nbytes :
  runs s v -> nbytes <= len buf ->
  exists s', ece391_getargs (Syscalls := kernel_calls ticks dentry0) buf nbytes s =
    (if decide (u_args v <> [] /\ len (u_args v) < nbytes)
     then Some (0, splice buf 0 (u_args v ++ [0]), s') else Some (-1, buf, s')) /\ runs s' v.
Proof.
  intros HR Hn. exists s. split; [|done]. destruct s as [k sc]. destruct (rn_args _ _ HR) as (args & Eargs & Hc). cbn [fst] in Eargs.
  unfold cur_block in Eargs. destruct (get_pcb (cur_pid k) k) as [b|] eqn:Eb; [|done]. injection Eargs as <-.
  cbn [ece391_getargs kernel_calls fst snd]. rewrite (sys_getargs_eq k b (u_args v)) by done.
  by case_decide.
Qed.

Lemma runs_opening s v name nm :
  runs s v -> cstring name 0 nm -> file_exists F nm ->
  exists s' r, ece391_open (Syscalls := kernel_calls ticks dentry0) name s = Some ((opening F nm (u_fds v) r).1.1, s') /\
    runs s' (with_fds (opening F nm (u_fds v) r).1.2 v).
Proof.
  intros HR Hc Hex. destruct s as [k sc]. destruct (runs_owned _ _ HR) as [r Hd]. cbn [fst] in Hd.
  destruct (call_open F k _ _ r dentry0 name nm Hd Hc Hex) as (k' & E & Ho & Hd').
  exists (k', sc), r. cbn [ece391_open kernel_calls fst snd]. rewrite E. split; [done|].
  by eapply runs_files.
Qed.

Lemma found_exists nm f : found F nm = Some f -> file_exists F nm.
Proof.
  unfold found, file_exists. intros H e He E2. rewrite He in H. cbn [mbind option_bind] in H. rewrite E2 in H.
  cbn in H. by destruct ((a_files F).[a_inode e]).
Qed.

Lemma runs_open s v name nm f :
  runs s v -> cstring name 0 nm -> found F nm = Some f ->
  match first_fd (u_fds v) with
  | Some fd => exists s', ece391_open (Syscalls := kernel_calls ticks dentry0) name s = Some (fd, s') /\
      runs s' (with_fds (<[fd := f]> (u_fds v)) v)
  | None => exists s', ece391_open (Syscalls := kernel_calls ticks dentry0) name s = Some (-1, s') /\ runs s' v
  end.
Proof.
  intros HR Hc Hf. destruct (runs_opening s v name nm HR Hc (found_exists _ _ Hf)) as (s' & r & E & HR').
  assert (is_Some (find_entry F nm)) as [e He] by (unfold found in Hf; by destruct (find_entry F nm)).
  unfold opening in *. rewrite He, Hf in *. destruct (first_fd (u_fds v)); cbn [fst snd] in *; exists s'; [done|].
  split; [done|]. by destruct v.
Qed.

Lemma runs_absent s v name nm :
  runs s v -> cstring name 0 nm -> find_entry F nm = None ->
  exists s', ece391_open (Syscalls := kernel_calls ticks dentry0) name s = Some (-1, s') /\ runs s' v.
Proof.
  intros HR Hc Hf. destruct (runs_opening s v name nm HR Hc) as (s' & r & E & HR'); [intros e He; congruence|].
  unfold opening in *. rewrite Hf in *. cbn [fst snd] in *. exists s'. split; [done|]. by destruct v.
Qed.

Lemma runs_file s v fd c pos :
  runs s v -> u_fds v !! fd = Some (FileAt c pos) -> 0 <= pos <= len c /\ Forall is_byte c.
Proof.
  intros HR Hfd. destruct (rn_fds _ _ HR) as (l & _ & Hare).
  destruct (fds_are_get F _ _ _ _ Hare Hfd) as (_ & _ & e & _ & _ & _ & Hc & _ & Hp).
  split; [done|]. eapply file_bytes; [apply HR|done].
Qed.

Lemma runs_read_file s v fd c pos buf off n :
  runs s v -> u_fds v !! fd = Some (FileAt c pos) -> 0 <= off -> 0 <= n -> off + n <= len buf ->
  exists s', ece391_read (Syscalls := kernel_calls ticks dentry0) fd buf off n s =
      Some (Z.min n (len c - pos), splice buf off (slice c pos (Z.min n (len c - pos))), s') /\
    runs s' (with_fds (<[fd := FileAt c (pos + Z.min n (len c - pos))]> (u_fds v)) v).
Proof.
  intros HR Hfd Ho Hn Hb. destruct s as [k sc]. destruct (runs_owned _ _ HR) as [r Hd]. cbn [fst] in Hd.
  destruct (call_read_file F (world_of ticks sc) k _ _ r fd c pos (drop (Z.to_nat off) buf) n Hd Hfd)
    as (k' & E & Hown & Hd'); [rewrite length_drop; lia|].
  destruct (od_fds _ _ _ _ _ Hd) as (l & _ & Hare).
  destruct (fds_are_get F _ _ _ _ Hare Hfd) as (Hr & _ & e & _ & _ & _ & _ & _ & Hp). unfold MIN_FD_INDEX in Hr.
  exists (k', sc). cbn [ece391_read kernel_calls fst snd]. rewrite E.
  cbn [mbind option_bind]. rewrite (proj2 (Z.eqb_neq fd 0)) by lia.
  split; [by rewrite take_splice_drop by (rewrite ?length_slice; lia)|]. by eapply runs_files.
Qed.

Lemma runs_read_dir s v fd buf n :
  runs s v -> u_fds v !! fd = Some Listing -> 33 <= len buf ->
  exists r buf' s', ece391_read (Syscalls := kernel_calls ticks dentry0) fd buf 0 n s = Some (r, buf', s') /\
    Datatypes.length buf' = Datatypes.length buf /\
    match (a_entries F).[u_listed v] with
    | Some e => r = len (a_name e) /\ cstring buf' 0 (a_name e) /\ runs s' (with_listed (u_listed v + 1) v)
    | None => r = 0 /\ runs s' v
    end.
Proof.
  intros HR Hfd Hb. destruct s as [k sc]. destruct (runs_owned _ _ HR) as [r Hd]. cbn [fst] in Hd.
  destruct (call_read_dir F (world_of ticks sc) k _ _ r fd buf n Hd Hfd Hb) as (x & b' & k' & E & Hlb & Ho & Hm).
  destruct (od_fds _ _ _ _ _ Hd) as (l & _ & Hare).
  destruct (fds_are_get F _ _ _ _ Hare Hfd) as (Hr & _). unfold MIN_FD_INDEX in Hr.
  exists x, b', (k', sc). cbn [ece391_read kernel_calls fst snd]. change (drop (Z.to_nat 0) buf) with buf.
  rewrite E. cbn [mbind option_bind]. rewrite (proj2 (Z.eqb_neq fd 0)) by lia. split; [done|]. split; [done|].
  destruct ((a_entries F).[u_listed v]) as [e|].
  - destruct Hm as (-> & Hc & Hd'). split_and!; try done. by eapply runs_files.
  - destruct Hm as (-> & _ & Hd'). split; [done|]. by eapply runs_files.
Qed.

Lemma runs_close s v fd f :
  runs s v -> u_fds v !! fd = Some f -> 2 <= fd ->
  exists s', ece391_close (Syscalls := kernel_calls ticks dentry0) fd s = Some (0, s') /\
    runs s' (with_fds (delete fd (u_fds v)) (match f with Listing => with_listed 0 v | _ => v end)).
Proof.
  intros HR Hfd _. destruct s as [k sc]. destruct (runs_owned _ _ HR) as [r Hd]. cbn [fst] in Hd.
  destruct (call_close F k _ _ r fd f Hd Hfd) as (k' & E & Ho & Hd').
  exists (k', sc). cbn [ece391_close kernel_calls fst snd]. rewrite E. split; [done|].
  eapply runs_files; [exact HR|exact Ho| |by destruct f..].
  by destruct f.
Qed.

(** A call on the terminal: the processes are as before, but for the table. *)
Lemma runs_terminal k k' sc sc' v acts ls :
  runs (k, sc) v -> same_view k k' ->
  implements A B ((cur_pid k + 2) * PAGE_4MB) k' (desks_after (u_acts v ++ acts) D0) ->
  scripted (desks_after (u_acts v ++ acts) D0) sc' ls -> no_line (desks_after (u_acts v ++ acts) D0) ->
  runs (k', sc') (mkSession (u_args v) (u_fds v) (u_listed v) ls (u_acts v ++ acts)).
Proof.
  intros [Hm Hf Ha Hoth Hl Hx Hin Hline] Hv Hd' Hin' Hline'. cbn [fst snd] in *.
  assert (cur_pid k' = cur_pid k /\ pcbs k' = pcbs k /\ read_index k' = read_index k) as (Ecur & Epcbs & Eidx)
    by (by injection Hv).
  split; cbn [fst snd u_args u_fds u_listed u_input u_acts]; try done.
  - eapply (models_view A B F room k k' _ _ Hm Hv); [exact Hd'|]. unfold running. cbn [m_desks].
    by rewrite !desks_after_running.
  - unfold cur_fds, get_pcb in *. by rewrite Ecur, Epcbs.
  - unfold cur_block, get_pcb in *. by rewrite Ecur, Epcbs.
  - unfold get_pcb in *. by rewrite Ecur, Epcbs.
  - by rewrite Eidx.
Qed.

Lemma runs_line s v acts l rest :
  runs s v -> u_input v = (acts, l) :: rest -> has_newline l = true /\ Forall is_byte l /\ len l <= KEY_BUF_SIZE.
Proof.
  intros HR Hin. pose proof (rn_input _ _ HR) as HS. rewrite Hin in HS. destruct s as [k [|[es late] sc] ]; [done|].
  destruct HS as (He & Hl & pre & rest' & S1 & -> & Er & _ & _ & El & Hnl & _). split; [done|].
  rewrite (until_ready_unique _ pre _ _ _ eq_refl Er), <- foldl_app in El. apply Forall_app in He as [Hpre _].
  destruct (run_events_implements A B _ (pre ++ late) k _ (rn_desks _ _ HR)) as (k' & _ & I').
  { by apply Forall_app. }
  apply desk_line in I' as (Hb & Hlen & _). by rewrite El.
Qed.

Lemma runs_read_line s v acts l rest buf n :
  runs s v -> u_input v = (acts, l) :: rest -> 0 <= n -> len (taken l n) <= len buf ->
  exists s', ece391_read (Syscalls := kernel_calls ticks dentry0) 0 buf 0 n s =
      Some (len (taken l n), splice buf 0 (taken l n), s') /\ runs s' (took acts rest v).
Proof.
  intros HR Hin Hn Hb. pose proof (rn_input _ _ HR) as HS. rewrite Hin in HS.
  destruct s as [k [|[es late] sc] ]; [done|]. cbn [fst snd scripted] in HS.
  destruct HS as (He & Hl & pre & rest' & S1 & Ees & Er & Eacts & Esr & El & Hnl & HS).
  destruct (rn_fds _ _ HR) as (t & Ht & Hlen & (e0 & He0 & Hfl0 & Ht0) & _ & Hm). cbn [fst] in Ht.
  destruct (terminal_read_ready A B _ k _ es late S1 rest' buf n (rn_desks _ _ HR) He Hl Er Hn)
    as (k1 & E1 & I1); [by rewrite <- El|by rewrite <- El|]. rewrite <- El in E1.
  pose proof (terminal_read_view _ _ _ _ _ _ _ _ E1) as Hv.
  assert (desks_after (u_acts v ++ acts ++ [LineTaken]) D0 =
    upd_desk (ds_shown (foldl (fun S e => step_desks e S) S1 late)) clear_line_of
      (foldl (fun S e => step_desks e S) S1 late)) as Ed.
  { rewrite !desks_after_app, Eacts, desks_after_events, foldl_app.
    by rewrite <- (until_ready_unique _ _ _ _ _ Ees Er). }
  assert (no_line (desks_after (u_acts v ++ acts ++ [LineTaken]) D0)) as Hline.
  { rewrite Ed. unfold no_line. cbn. by rewrite Esr, Z.eqb_refl. }
  rewrite <- Ed in I1, HS. pose proof (runs_terminal k k1 _ sc v _ rest HR Hv I1 HS Hline) as HR1.
  assert (cur_pid k1 = cur_pid k) as Ep by (by injection Hv).
  destruct (runs_owned _ _ HR1) as [r Hd1]. cbn [fst u_fds u_listed] in Hd1.
  assert (cur_fds k1 = Some t) as Ht1.
  { unfold cur_fds, get_pcb in *. injection Hv as _ _ _ -> _ -> _ _ _ _ _ _ _. done. }
  destruct (call_touch F k1 _ _ r 0 e0 t (fun e => e <| file_pos ::= fun p => u32 (p + len (taken l n)) |>) Hd1 Ht1 He0 Hfl0)
    as (k2 & E2 & Ho2 & Hd2); [|done|].
  { specialize (Hm 0). destruct (u_fds v !! 0) as [x|]; [|by left]. destruct Hm as [Hr _]. unfold MIN_FD_INDEX in Hr. lia. }
  exists (k2, sc). split; [|by eapply (runs_files k1)]. cbn [ece391_read kernel_calls fst snd].
  change (drop (Z.to_nat 0) buf) with buf.
  destruct (call_entry k t 0 e0 Ht He0 ltac:(unfold NUM_MAX_FILES; lia) Hfl0) as [-> _]. rewrite Ht0.
  cbn [fop_read world_of w_irqs w_late]. rewrite E1. cbn [mbind option_bind]. by rewrite <- Ep, E2.
Qed.

Lemma runs_write s v buf off n :
  runs s v -> 0 <= off -> 0 <= n -> off + n <= len buf -> Forall is_byte (slice buf off n) ->
  exists s', ece391_write (Syscalls := kernel_calls ticks dentry0) 1 buf off n s = Some (n, s') /\
    runs s' (wrote (slice buf off n) v).
Proof.
  intros HR Ho Hn Hb Hbytes. destruct s as [k sc].
  destruct (rn_fds _ _ HR) as (t & Ht & Hlen & _ & (e1 & He1 & Hfl1 & Ht1) & _). cbn [fst] in Ht.
  assert (0 <= n <= len (drop (Z.to_nat off) buf)) as Hr by (rewrite length_drop; lia).
  destruct (terminal_write_ok A B _ (drop (Z.to_nat off) buf) n k _ (rn_desks _ _ HR) Hr Hbytes) as (k' & E & I').
  pose proof (terminal_write_view _ _ _ _ _ Hr E) as Hv.
  exists (k', sc). split.
  - cbn [ece391_write kernel_calls fst snd].
    destruct (call_entry k t 1 e1 Ht He1 ltac:(unfold NUM_MAX_FILES; lia) Hfl1) as [_ ->]. rewrite Ht1.
    cbn [fop_write]. by rewrite E.
  - apply (runs_terminal k k' sc sc v (outs (slice buf off n)) (u_input v) HR Hv).
    + rewrite desks_after_app. unfold outs, desks_after at 1. rewrite foldl_fmap. exact I'.
    + rewrite desks_after_app. eapply scripted_lines; [|exact (rn_input _ _ HR)]. symmetry. apply outs_lines.
    + rewrite desks_after_app. eapply no_line_lines; [|exact (rn_line _ _ HR)]. symmetry. apply outs_lines.
Qed.

Lemma entry_names img : represents img F -> Forall (fun e => len (a_name e) <= 32 /\ Forall is_char (a_name e)) (a_entries F).
Proof.
  intros HR. apply Forall_lookup. intros i e Hi. rewrite <- aget_nat in Hi.
  destruct (rep_entry _ _ HR _ _ Hi) as ((_ & Hc & Hl & _) & _). by split.
Qed.

(** The kernel as a provider of the calls. *)
Lemma kernel_laws s v : runs s v -> FileLaws (H := kernel_calls ticks dentry0) F runs.
Proof.
  intros HR0. pose proof (rn_img _ _ HR0) as Hrep. split.
  - apply runs_getargs.
  - intros s1 v1 HR. destruct (rn_args _ _ HR) as (args & _ & _ & Hc & _). exact Hc.
  - apply runs_open.
  - apply runs_absent.
  - apply runs_file.
  - apply runs_read_file.
  - intros s1 v1 fd buf n HR1 Hfd _. by apply runs_read_dir.
  - apply runs_line.
  - apply runs_read_line.
  - apply runs_write.
  - apply runs_close.
  - by eapply entry_names.
Qed.
(** *** The refusals *)

Context (entry : Z -> kernel -> option (Z * kernel)).

Lemma runs_bad_fd s v fd w buf n :
  runs s v -> not_open (u_fds v) fd ->
  sys_read w fd buf n s.1 = Some (-1, buf, s.1) /\ sys_write fd buf n s.1 = Some (-1, s.1) /\
  sys_close fd s.1 = Some (-1, s.1).
Proof. intros HR Hno. destruct (runs_owned _ _ HR) as [r Hd]. by eapply call_refused. Qed.

Lemma runs_no_write s v fd buf off n :
  runs s v -> fd = 0 \/ not_open (u_fds v) fd ->
  exists s', ece391_write (Syscalls := kernel_calls ticks dentry0) fd buf off n s = Some (-1, s') /\ runs s' v.
Proof.
  intros HR Hfd. exists s. split; [|done]. destruct s as [k sc]. cbn [ece391_write kernel_calls fst snd]. destruct Hfd as [->|Hno].
  - destruct (runs_owned _ _ HR) as [r Hd]. by rewrite (call_write_refused F k _ _ r 0 _ n Hd) by (by left).
  - destruct (runs_bad_fd _ _ fd (world_of ticks sc) (Some (drop (Z.to_nat off) buf)) n HR Hno) as (_ & E & _).
    cbn [fst] in E. by rewrite E.
Qed.

Lemma runs_read_stdout s v buf off n :
  runs s v -> exists s', ece391_read (Syscalls := kernel_calls ticks dentry0) 1 buf off n s = Some (-1, buf, s') /\ runs s' v.
Proof.
  intros HR. destruct s as [k sc]. destruct (runs_owned _ _ HR) as [r Hd]. cbn [fst] in Hd.
  destruct (call_read_stdout F (world_of ticks sc) k _ _ r (Some (drop (Z.to_nat off) buf)) n Hd) as (k' & E & Ho & Hd').
  exists (k', sc). split; [|by eapply runs_files]. cbn [ece391_read kernel_calls fst snd]. rewrite E.
  cbn [mbind option_bind Z.eqb]. by rewrite take_drop.
Qed.

Lemma kernel_refusals s v : runs s v -> RefusalLaws (H := kernel_calls ticks dentry0) (H0 := kernel_raw entry) runs.
Proof.
  intros _. split.
  - intros s1 v' fd buf off n HR Hno. exists s1. split; [|done]. destruct s1 as [k sc].
    destruct (runs_bad_fd _ _ fd (world_of ticks sc) (Some (drop (Z.to_nat off) buf)) n HR Hno) as (E & _).
    cbn [ece391_read kernel_calls fst snd] in *. rewrite E. cbn [mbind option_bind]. rewrite take_drop.
    replace (fd =? 0) with false; [done|]. unfold not_open in Hno. lia.
  - intros s' v' fd buf off n. apply runs_no_write.
  - intros s1 v' fd HR Hfd. exists s1. split; [|done]. destruct s1 as [k sc]. cbn [ece391_close kernel_calls fst snd].
    destruct Hfd as [->|[->|Hno] ]; [done|done|].
    destruct (runs_bad_fd _ _ fd (world_of ticks sc) None 0 HR Hno) as (_ & _ & E). cbn [fst] in E. by rewrite E.
  - intros s' v' buf off n. apply runs_read_stdout.
  - intros s1 v' p HR Hp. exists s1. split; [|done]. destruct s1 as [k sc]. cbn [ece391_vidmap kernel_raw fst snd]. unfold sys_vidmap.
    destruct (rn_desks _ _ HR). destruct im_targets as [_ [HT _ _ _ _] ]. cbn [fst snd] in HT.
    rewrite (are_pt_user _ _ _ _ _ HT VID_MEM_INDEX) by (unfold VID_MEM_INDEX; lia). cbn [mbind option_bind].
    case_match; [done|]. unfold PROGRAM_VIR_ADDR. by rewrite (proj2 (Z.ltb_lt p 0x8000000) Hp).
  - intros s1 v' n HR Hn. exists s1. split; [|done]. destruct s1 as [k sc]. cbn [call_sys kernel_raw fst snd]. unfold sys_call, SYS_MAX.
    destruct (Z.ltb_spec 10 n), (Z.ltb_spec n 1); done || lia.
Qed.
End laws.
