(* ===== verification/KernelExec.v ===== *)
(** Running a command: [execute], the program, and its [halt], as one call of the
    shell.

    What a compiled program does is not in its source but in its page, so it is an
    argument here: [behave] maps the bytes of a program page to the program.  What
    is proved is everything around it: the program that runs is the one the command
    names, on a fresh descriptor table and with the rest of the command as its
    argument, and when it ends the shell goes on as it was. *)
From stdpp Require Import base option list numbers gmap.
From Stdlib Require Import ZArith Lia.
From S2P Require Import Prelude LibString FileSystem Console Keyboard Paging Rtc State Terminal Desks Frame FileOps SysCall Process Scheduler Family System Files Calls User UserKernel.

(** A program as the kernel runs it: from its page to its status. *)
Definition behaviour : Type := list Z -> user_machine -> option (Z * user_machine).

(** [st] is the kernel's stack when the shell calls, [st'] when the program ends;
    the call returns when [halt] resumes the frame it was made from. *)
#[export] Instance kernel_exec (behave : behaviour) (st st' : frame) : ExecCall user_machine := fun cmd s =>
  '(o, k) ← sys_execute cmd st s.1;
  match o with
  | Returned r => Some (r, (k, s.2))
  | ResumeAt _ _ => None
  | ToUser _ _ =>
      page ← (prog_mem k).[cur_pid k];
      '(status, s) ← behave page (k, s.2);
      '(o, k) ← sys_halt status st' s.1;
      match o with
      | ResumeAt frame_ebp eax => if frame_ebp =? st_ebp st then Some (eax, (k, s.2)) else None
      | _ => None
      end
  end.

(** ** Lemmas *)

(** The same stacks, pointwise. *)
Lemma models_stacks A B F room k D P P' c :
  (forall t, P t = P' t) -> models A B F room k (mkMachine D P c) -> models A B F room k (mkMachine D P' c).
Proof.
  intros E [HR HD W Hroom Hrtc Hclock Hinit HF]. split; try done. unfold running in *. cbn [m_desks m_procs] in *.
  assert (stacks_pids P' = stacks_pids P) as Es by (unfold stacks_pids; by rewrite !E).
  destruct HF as [H1 H2 H3 H4 H5 H6 H7 H8 H9]. split; try done; rewrite ?Es; try done.
  - intros t Ht. rewrite <- E. by apply H1.
  - intros t Ht. rewrite <- E. by apply H2.
  - intros t Ht. rewrite <- E. by apply H3.
  - by rewrite <- E.
Qed.

(** Wiping an empty line. *)
Lemma wipe_no_line D : no_line D -> same_lines D (desks_after [LineWiped] D).
Proof.
  intros H. split_and!; try done. intros t. cbn. destruct (Z.eqb_spec t (ds_running D)) as [->|]; [|done].
  unfold no_line in H. cbn. rewrite H. by case_match.
Qed.

Section exec.
Context (A B : Z) (F : afs) (room : Z) (D0 : desks) (P : Z -> list proc) (clk : Z) (others : Z -> option pcb_t).
Context (HB : bootable F room).

(** The stacks and the blocks while a program the shell has started runs. *)
Definition pushed (i : Z) (st : frame) (args : list Z) : Z -> list proc :=
  upd_stack (ds_running D0) (new_proc i st args :: P (ds_running D0)) P.

Lemma runs_running s v : runs A B F room D0 P clk others s v -> running (mkMachine (desks_after (u_acts v) D0) P clk) = ds_running D0.
Proof. intros _. unfold running. cbn. apply desks_after_running. Qed.

(** A program that ends with the directory open takes its position back to the start. *)
Definition listed_after (w : session) : Z := if holds Listing (u_fds w) then 0 else u_listed w.

(** The program's session begins. *)
Lemma child_starts k sc v cmd str st ino c i :
  runs A B F room D0 P clk others (k, sc) v -> cstring cmd 0 str -> len str < 128 -> frame_ok st ->
  executable F (command_name str) = Some (ino, c) -> free_pid P = Some i ->
  exists k1 page, sys_execute cmd st k = Some (to_user c, k1) /\
    (prog_mem k1).[cur_pid k1] = Some page /\ take (Datatypes.length c) page = c /\
    cur_pid k1 = i /\ (i ∉ stacks_pids P) /\ (forall j, j <> i -> get_pcb j k1 = get_pcb j k) /\
    runs A B F room D0 (pushed i st (command_args str)) clk (fun j => get_pcb j k1) (k1, sc)
      (mkSession (command_args str) ∅ (u_listed v) (u_input v) (u_acts v)).
Proof.
  intros HR Hs Hlen Hst Hexe Hfree. pose proof (rn_models _ _ _ _ _ _ _ _ _ _ HR) as Hm. cbn [fst] in Hm.
  pose proof Hm as [_ _ W _ _ _ _ _].
  assert (len (command_args str) < CMD_LINE_LEN) as Hargs.
  { unfold command_args, CMD_LINE_LEN. rewrite length_drop.
    destruct (drop_spaces_drop str) as (n & -> & _). rewrite length_drop. lia. }
  destruct (models_push A B F room k _ cmd str st ino c i HB Hm (conj Hs (conj Hst Hargs)) Hexe Hfree)
    as (k1' & vid & E & HS & Hn & Hm1). cbn [m_procs m_desks m_clock] in *.
  destruct (sd_image _ _ _ _ _ _ _ _ _ HS) as (m & Em & Em1).
  destruct (sd_pcb _ _ _ _ _ _ _ _ _ HS) as (b & Eb & Eb1). change (get_pcb i (cli k)) with (get_pcb i k) in Eb.
  pose proof (sd_cur _ _ _ _ _ _ _ _ _ HS) as Ec.
  exists k1', (splice m 0 c). rewrite Ec. split_and!; try done.
  - unfold splice. change (take (Z.to_nat 0) m) with (@nil Z). cbn [app]. apply take_app_length.
  - intros j Hj. exact (proj1 (sd_others _ _ _ _ _ _ _ _ _ HS j Hj)).
  - split; cbn [fst snd u_args u_fds u_listed u_input u_acts]; try done.
    + unfold pushed. rewrite (runs_running _ _ HR) in Hm1. exact Hm1.
    + exists init_fds. split; [unfold cur_fds; by rewrite Ec, Eb1|apply (init_fds_are F)].
    + exists (without_fds (new_pcb b (if i <=? 2 then -1 else cur_pid (cli k)) i st (command_args str))).
      split; [unfold cur_block; by rewrite Ec, Eb1|]. cbn. apply cstring_splice.
      * apply command_args_chars, Hs.
      * destruct (aget_Forall _ _ _ _ (wp_pcb _ W) Eb) as [_ ->]. done.
    + destruct (sd_rest _ _ _ _ _ _ _ _ _ HS) as (_ & _ & _ & _ & -> & _). exact (rn_listed _ _ _ _ _ _ _ _ _ _ HR).
    + exact (rn_index _ _ _ _ _ _ _ _ _ _ HR).
    + exact (rn_input _ _ _ _ _ _ _ _ _ _ HR).
    + exact (rn_line _ _ _ _ _ _ _ _ _ _ HR).
Qed.

(** The directory's position after the child: back at the start if it had the
    directory open. *)
Lemma child_index P' others' k2 sc2 w k3 a c d :
  runs A B F room D0 P' clk others' (k2, sc2) w -> resumed A B k2 k3 a c d -> read_index k3 = listed_after w.
Proof.
  intros HRw HRes. destruct (rs_closes _ _ _ _ _ _ _ HRes) as (b & Eb & -> & _).
  destruct (rn_fds _ _ _ _ _ _ _ _ _ _ HRw) as (t & Ht & Hare). cbn [fst] in Ht.
  unfold cur_fds in Ht. rewrite Eb in Ht. injection Ht as ->.
  rewrite (any_open_holds F _ _ _ Listing Hare) by (by left).
  unfold listed_after. by rewrite <- (rn_listed _ _ _ _ _ _ _ _ _ _ HRw).
Qed.

(** The program ends and the shell's session goes on. *)
Lemma child_ends k sc v k1 k2 sc2 w i st st' args code :
  runs A B F room D0 P clk others (k, sc) v ->
  (forall j, j <> i -> get_pcb j k1 = get_pcb j k) -> cur_pid k1 = i -> i ∉ stacks_pids P ->
  runs A B F room D0 (pushed i st args) clk (fun j => get_pcb j k1) (k2, sc2) w ->
  exists k3, sys_halt code st' k2 = Some (ResumeAt (st_ebp st) (u8 code), k3) /\
    runs A B F room D0 P clk others (k3, sc2)
      (mkSession (u_args v) (u_fds v) (listed_after w) (u_input w) (u_acts w ++ [LineWiped])).
Proof.
  intros HR Hoth Ec1 Hn HRw. pose proof (rn_models _ _ _ _ _ _ _ _ _ _ HR) as Hm.
  pose proof (rn_models _ _ _ _ _ _ _ _ _ _ HRw) as Hmw. cbn [fst] in *.
  pose proof (runs_running _ _ HR) as Er. set (r := ds_running D0) in *.
  pose proof (mo_family _ _ _ _ _ _ Hm) as HF. rewrite Er in HF. cbn [m_procs] in HF.
  pose proof (fa_running _ _ _ _ _ _ HF) as Hr.
  destruct (family_cur _ _ _ _ _ _ HF) as (q & l & E & Eq).
  assert (running (mkMachine (desks_after (u_acts w) D0) (pushed i st args) clk) = r) as Erw
    by (unfold running; apply desks_after_running).
  pose proof (mo_family _ _ _ _ _ _ Hmw) as HFw. rewrite Erw in HFw. cbn [m_procs] in HFw.
  assert (pushed i st args r = new_proc i st args :: q :: l) as Ew by (unfold pushed; fold r; by rewrite upd_stack_eq, E).
  destruct (family_cur _ _ _ _ _ _ HFw) as (p & l' & E' & Ep). rewrite Ew in E'. injection E' as <- <-. cbn in Ep.
  destruct (models_pop A B F room k2 _ (new_proc i st args) q l (u8 code) st' Hmw) as (k3 & gp & vid & Eh & Hm3 & HRes).
  { rewrite Erw. exact Ew. }
  rewrite Erw in Hm3. pose proof (rs_cur _ _ _ _ _ _ _ HRes) as Ec3.
  assert (forall j, j <> i -> get_pcb j k3 = get_pcb j k2) as Ho3.
  { intros j Hj. rewrite Ep in Hj. exact (proj1 (rs_others _ _ _ _ _ _ _ HRes j Hj)). }
  pose proof (child_index _ _ _ _ _ _ _ _ _ HRw HRes) as Hidx.
  assert (p_pid q ∈ stacks_pids P) as Hq by (apply elem_pids; exists r; split; [done|]; rewrite E; by left).
  assert (p_pid q <> i) as Hqi by congruence.
  assert (same_lines (desks_after (u_acts w) D0) (desks_after [LineWiped] (desks_after (u_acts w) D0))) as Hwipe.
  { apply wipe_no_line. exact (rn_line _ _ _ _ _ _ _ _ _ _ HRw). }
  exists k3. split.
  - unfold sys_halt. by rewrite Eh.
  - assert (forall j, j ∈ stacks_pids P -> get_pcb j k3 = get_pcb j k) as Hall.
    { intros j Hj. assert (j <> i) as Hji by congruence. rewrite Ho3 by done.
      pose proof (rn_others _ _ _ _ _ _ _ _ _ _ HRw j) as H. cbn [fst] in H.
      rewrite H; [by apply Hoth| |congruence]. apply push_pids; [done|]. by right. }
    assert (get_pcb (cur_pid k3) k3 = get_pcb (cur_pid k) k) as Ecur by (rewrite Ec3, <- Eq; by apply Hall).
    split; cbn [fst snd u_args u_fds u_listed u_input u_acts].
    + rewrite desks_after_app. eapply models_stacks; [|cbn in Hm3; unfold desks_after at 1; cbn [foldl step_act]].
      2: { rewrite desks_after_running. exact Hm3. }
      intros t. unfold upd_stack, pushed. fold r. unfold upd_stack. destruct (Z.eqb_spec t r) as [->|]; [by rewrite E|done].
    + destruct (rn_fds _ _ _ _ _ _ _ _ _ _ HR) as (t & Ht & Hare). exists t. split; [|exact Hare].
      unfold cur_fds in *. by rewrite Ecur.
    + destruct (rn_args _ _ _ _ _ _ _ _ _ _ HR) as (b & Hb & Hc). exists b. split; [|exact Hc].
      unfold cur_block in *. by rewrite Ecur.
    + intros j Hj Hne. rewrite Hall by done. apply (rn_others _ _ _ _ _ _ _ _ _ _ HR); [done|].
      cbn [fst]. rewrite Ec3 in Hne. by rewrite <- Eq.
    + done.
    + pose proof (rn_index _ _ _ _ _ _ _ _ _ _ HRw). unfold listed_after. case_match; lia.
    + rewrite desks_after_app. eapply scripted_lines; [|exact (rn_input _ _ _ _ _ _ _ _ _ _ HRw)]. exact Hwipe.
    + rewrite desks_after_app. eapply no_line_lines; [exact Hwipe|exact (rn_line _ _ _ _ _ _ _ _ _ _ HRw)].
Qed.

Lemma runs_cli k sc v :
  runs A B F room D0 P clk others (k, sc) v -> runs A B F room D0 P clk others (cli k, sc) v.
Proof. intros [Hm Hf Ha Ho Hl Hx Hin Hline]. split; try done. by apply models_cli. Qed.

Lemma runs_prev k sc v p :
  runs A B F room D0 P clk others (k, sc) v -> runs A B F room D0 P clk others (k <| prev_pid := p |>, sc) v.
Proof. intros [Hm Hf Ha Ho Hl Hx Hin Hline]. split; try done. by apply models_prev. Qed.
End exec.

(** ** Programs that behave *)

(** [does c v code v']: the program with the bytes [c], started in the session [v],
    may end with the status [code] and the session [v'].  A page that begins with
    the bytes of an executable file runs accordingly, whoever else there is, for
    the arguments that [may] be given to it. *)
Definition programs_do (A B : Z) (F : afs) (room : Z) (may : list Z -> list Z -> Prop) (does : list Z -> session -> Z -> session -> Prop)
    (behave : behaviour) : Prop :=
  forall nm ino c page D0 P clk others s v,
    executable F nm = Some (ino, c) -> take (Datatypes.length c) page = c ->
    runs A B F room D0 P clk others s v -> u_fds v = ∅ -> may c (u_args v) ->
    exists code s' v', behave page s = Some (code, s') /\ does c v code v' /\
      runs A B F room D0 P clk others s' v'.

(** The command names no program or one that may be given its arguments. *)
Definition allowed (F : afs) (may : list Z -> list Z -> Prop) (str : list Z) : Prop :=
  forall ino c, executable F (command_name str) = Some (ino, c) -> may c (command_args str).

(** What comes of a command: the program, if there is one and a process number for
    it, runs with the rest of the command as its argument and no file open; its
    status is cut to a byte, the directory position is where it left it, or at the
    start if it had the directory open, and its desk's line is wiped. *)
Definition executes (F : afs) (P : Z -> list proc) (does : list Z -> session -> Z -> session -> Prop)
    (str : list Z) (v : session) (r : Z) (v' : session) : Prop :=
  match executable F (command_name str), free_pid P with
  | None, _ => r = -1 /\ v' = v
  | Some _, None => r = FUNNY_NUMBER /\ v' = v
  | Some (_, c), Some _ =>
      exists code w, does c (mkSession (command_args str) ∅ (u_listed v) (u_input v) (u_acts v)) code w /\
        r = u8 code /\
        v' = mkSession (u_args v) (u_fds v) (listed_after w) (u_input w) (u_acts w ++ [LineWiped])
  end.

Lemma kernel_exec_laws A B F room D0 P clk others may does behave st st' :
  bootable F room -> frame_ok st -> programs_do A B F room may does behave ->
  ExecLaws (H := kernel_exec behave st st') (runs A B F room D0 P clk others)
    (allowed F may) (executes F P does).
Proof.
  intros HB Hst Hprog [k sc] v cmd str HR Hs Hlen Hall. unfold executes, ece391_execute, kernel_exec. cbn [fst snd].
  pose proof (rn_models _ _ _ _ _ _ _ _ _ _ HR) as Hm. cbn [fst] in Hm.
  assert (len (command_args str) < CMD_LINE_LEN) as Hargs.
  { unfold command_args, CMD_LINE_LEN. rewrite length_drop.
    destruct (drop_spaces_drop str) as (n & -> & _). rewrite length_drop. lia. }
  destruct (executable F (command_name str)) as [ [ino c]|] eqn:Hexe.
  - destruct (free_pid P) as [i|] eqn:Hfree.
    + destruct (child_starts A B F room D0 P clk others HB k sc v cmd str st ino c i HR Hs Hlen Hst Hexe Hfree)
        as (k1 & page & E & Epage & Hpage & Ec & Hn & Hoth & HR1).
      rewrite E. cbn [mbind option_bind to_user]. unfold to_user. rewrite Epage. cbn [mbind option_bind].
      destruct (Hprog _ _ _ page _ _ _ _ _ _ Hexe Hpage HR1 eq_refl (Hall _ _ Hexe)) as (code & [k2 sc2] & w & -> & Hdoes & HR2).
      cbn [mbind option_bind fst snd].
      destruct (child_ends A B F room D0 P clk others k sc v k1 k2 sc2 w i st st' _ code HR Hoth Ec Hn HR2)
        as (k3 & -> & HR3). cbn [mbind option_bind]. rewrite Z.eqb_refl.
      do 3 eexists. split; [done|]. split; [|exact HR3]. by exists code, w.
    + rewrite (sys_execute_checked k F cmd str st (rn_img _ _ _ _ _ _ _ _ _ _ HR) Hs Hst Hargs), Hexe.
      pose proof (free_pid_spec _ _ _ _ _ _ (mo_family _ _ _ _ _ _ Hm)) as Hpid. cbn [m_procs] in Hpid.
      rewrite Hfree in Hpid. unfold start. rewrite alloc_pid_full; [|by destruct Hm as [_ _ [] ]|exact Hpid].
      cbn [mbind option_bind negb]. do 3 eexists. split; [done|]. split; [done|]. by apply runs_prev, runs_cli.
  - rewrite (sys_execute_checked k F cmd str st (rn_img _ _ _ _ _ _ _ _ _ _ HR) Hs Hst Hargs), Hexe.
    cbn [mbind option_bind]. do 3 eexists. split; [done|]. split; [done|]. by apply runs_cli.
Qed.
