(* ===== verification/OnKernel.v ===== *)
(** The user programs on the kernel: the theorems of [Clients.v] with the
    interface discharged by [UserKernel.v]. *)
From stdpp Require Import base option list numbers gmap.
From Stdlib Require Import ZArith Lia Ascii String.
From S2P Require Import Prelude LibString FileSystem Console Keyboard Paging Rtc State Terminal Desks FileOps SysCall Idt Process Scheduler Family System Startup Kernel Files Calls User Programs Clients SysErr Grep UserKernel KernelExec.

(** What is printed goes to the running program's desk. *)
Lemma outs_desks text : forall D,
  desks_after (outs text) D ≡ upd_desk (ds_running D) (on_tty (tty_print text)) D.
Proof.
  induction text as [|c text IH]; intros D.
  - symmetry. apply upd_desk_id. apply desk_eta.
  - cbn [outs fmap list_fmap desks_after foldl step_act step_desks]. etransitivity; [apply IH|].
    cbn [ds_running upd_desk]. by rewrite upd_desk_compose.
Qed.

(** The desks of a session. *)
Definition desks_of (D0 : desks) (v : session) : desks := desks_after (u_acts v) D0.

(** The desks after a text from the running program. *)
Definition with_text (text : list Z) (D : desks) : desks := upd_desk (ds_running D) (on_tty (tty_print text)) D.

Lemma models_desks A B F room k D D' P c :
  D ≡ D' -> models A B F room k (mkMachine D P c) -> models A B F room k (mkMachine D' P c).
Proof.
  intros E [HR HD W Hroom Hrtc Hclock Hinit HF]. pose proof E as (_ & _ & Er & _).
  split; try done; cbn [m_desks m_procs m_clock] in *; [by rewrite <- E|].
  unfold running in *. cbn [m_desks] in *. by rewrite <- Er.
Qed.

Section programs.
Context (A B : Z) (F : afs) (room : Z) (D0 : desks) (P : Z -> list proc) (clk : Z) (others : Z -> option pcb_t).
Notation runs := (runs A B F room D0 P clk others).

Lemma runs_wrote s v v' text :
  runs s (wrote text v') -> u_acts v' = u_acts v ->
  models A B F room s.1 (mkMachine (with_text text (desks_of D0 v)) P clk).
Proof.
  intros HR Ev. apply (models_desks _ _ _ _ _ _ _ _ _ (outs_desks text (desks_of D0 v))).
  pose proof (rn_models _ _ _ _ _ _ _ _ _ _ HR) as Hm. cbn [u_acts wrote] in Hm.
  by rewrite desks_after_app, Ev in Hm.
Qed.
End programs.

(** ** A small system *)

(** A program with another entry point than the shell's. *)
Definition sample_cat : list Z :=
  [127; 69; 76; 70; 1; 1; 1; 0; 0; 0; 0; 0; 0; 0; 0; 0; 2; 0; 3; 0; 1; 0; 0; 0;
   96; 128; 4; 8; 52; 0; 0; 0].

Definition sample_text : list Z := [47; 92; 95; 47; 92; 10; 62; 32; 60; 10].

Definition user_fs : afs :=
  mkFs [FileSystem.mkEntry (bytes ".") 1 0; FileSystem.mkEntry (bytes "shell") 2 0; FileSystem.mkEntry (bytes "cat") 2 1; FileSystem.mkEntry (bytes "frame0") 2 2]
    [sample_shell; sample_cat; sample_text].

Lemma user_represents : represents (mkfs user_fs) user_fs.
Proof. apply fsck_sound. vm_compute. reflexivity. Qed.

Lemma user_bootable : bootable user_fs 40.
Proof.
  split; [|by eexists _, _].
  intros nm ino c H. unfold executable in H. destruct (find_entry user_fs nm) as [e|]; [|done].
  cbn [mbind option_bind] in H. destruct ((a_files user_fs).[a_inode e]) as [c'|] eqn:Ec; [|done].
  cbn [mbind option_bind] in H. case_decide as Hm; [|done]. injection H as <- <-.
  pose proof (aget_range _ _ _ Ec) as Hr. cbn in Hr.
  assert (a_inode e = 0 \/ a_inode e = 1 \/ a_inode e = 2) as [E|[E|E] ] by lia; rewrite E in Ec; injection Ec as <-.
  - split; [by eexists|cbn; lia].
  - split; [by eexists|cbn; lia].
  - discriminate Hm.
Qed.

(** The image and the open descriptors are the sample's own. *)
Lemma models_image A B F F' room k M img :
  models A B F room k M -> represents img F' -> models A B F' room (k <| k_img := img |> <| read_index := 0 |>) M.
Proof.
  intros [HR HD [Wp Wb Wm Wf Wta Wt] Hroom Hrtc Hclock Hinit HF] Himg. split; try done.
  by destruct HD as [ [ [] ] ].
Qed.

Lemma models_session A B F room k M p l sc input :
  models A B F room k M -> m_procs M (running M) = p :: l -> read_index k = 0 ->
  scripted (m_desks M) sc input -> no_line (m_desks M) ->
  exists k' others, runs A B F room (m_desks M) (m_procs M) (m_clock M) others (k', sc)
    (mkSession (p_args p) ∅ 0 input []).
Proof.
  intros Hm E Hidx Hsc Hline. pose proof (mo_family _ _ _ _ _ _ Hm) as HF.
  destruct (family_cur _ _ _ _ _ _ HF) as (p0 & l0 & E0 & Ec). assert (p0 = p) as -> by congruence.
  pose proof (fa_chain _ _ _ _ _ _ HF _ (fa_running _ _ _ _ _ _ HF)) as Hch. rewrite E in Hch.
  destruct Hch as [ (b & Eb & Hb) _]. rewrite Ec in Eb. pose proof (aget_range _ _ _ Eb) as Hr.
  set (b' := b <| file_descriptor_table := init_fds |>).
  set (k' := k <| pcbs := <[Z.to_nat (cur_pid k) := b']> (pcbs k) |>).
  assert (get_pcb (cur_pid k) k' = Some b') as Eb' by (apply aget_insert_eq; exact Hr).
  assert (cur_fds k' = Some init_fds) as Hfds by (unfold cur_fds; change (cur_pid k') with (cur_pid k); by rewrite Eb').
  assert (own k k') as Ho.
  { apply own_pcbs; [by destruct k|intros q Hq; change (get_pcb q k') with ((<[Z.to_nat (cur_pid k) := b']> (pcbs k)).[q]); by rewrite aget_insert_ne by lia|].
    unfold cur_block. change (cur_pid k') with (cur_pid k). rewrite Eb'. unfold get_pcb. by rewrite Eb. }
  destruct (fds_are_ok F _ _ (init_fds_are F)) as [Hlen Hok].
  exists k', (fun j => get_pcb j k'). destruct M as [D P c].
  split; cbn [fst snd u_args u_fds u_listed u_input u_acts m_desks m_procs m_clock desks_after foldl] in *; try done.
  - by eapply models_own.
  - exists init_fds. split; [done|apply init_fds_are].
  - rewrite (ow_block _ _ Ho). exists (without_fds b). unfold cur_block, get_pcb. rewrite Eb. split; [done|]. apply Hb.
Qed.

(** Three empty desks. *)
Definition empty_desks : desks := mkDesks (keys_of kbd_reset) 0 0 (fun _ => mkDesk [] tty_clear).

(** The shell of the first terminal, after the boot. *)
Lemma sample_runs sc input :
  scripted empty_desks sc input ->
  exists D0 P k others, runs 0x410000 0x412000 user_fs 40 D0 P 1 others (k, sc) (mkSession [] ∅ 0 input []) /\
    free_pid P = Some 3 /\ ds_running D0 = 0.
Proof.
  intros Hsc. destruct sample_boots as (_ & _ & k & s1 & s2 & _ & _ & Hm & _).
  pose proof (models_image _ _ _ user_fs _ _ _ _ Hm user_represents) as Hm'.
  destruct (models_session _ _ _ _ _ _ (mkProc 0 (st_ebp sample_frame) (0x7FE000, 0x7FD000) []) [] sc input Hm')
    as (k' & others & HR); [reflexivity|reflexivity| |reflexivity|].
  - eapply scripted_lines; [|exact Hsc]. by split_and!.
  - do 4 eexists. split; [exact HR|]. split; vm_compute; reflexivity.
Qed.

(** "cat frame0", and "exit". *)
Definition cat_keys : list event :=
  Key <$> [0x2E; 0x1E; 0x14; 0x39; 0x21; 0x13; 0x1E; 0x32; 0x12; 0x0B; 0x1C].
Definition exit_keys : list event := Key <$> [0x12; 0x2D; 0x17; 0x14; 0x1C].

(** [0] and Enter. *)
Definition zero_keys : list event := Key <$> [0x0B; 0x1C].

(** A read that finds the keys' line when the last of them is pressed. *)
Ltac typed n :=
  split; [repeat constructor; cbn; lia|]; split; [constructor|];
  eexists _, [], _; split; [symmetry; apply app_nil_r|]; split;
    [apply (until_ready_at n); [vm_compute; reflexivity|vm_compute; reflexivity|cbn; lia]|];
  split; [reflexivity|]; cbv zeta; cbn [foldl];
  split; [vm_compute; reflexivity|]; split; [vm_compute; reflexivity|]; split; [reflexivity|].

Lemma zero_typed : scripted empty_desks [(zero_keys, [])] [(Happens <$> (zero_keys ++ []), bytes "0" ++ [10])].
Proof. typed 2%nat. done. Qed.

Lemma cat_exit_typed :
  scripted empty_desks [(cat_keys, []); (exit_keys, [])]
    [(Happens <$> (cat_keys ++ []), bytes "cat frame0" ++ [10]); (Happens <$> (exit_keys ++ []), bytes "exit" ++ [10])].
Proof. typed 11%nat. typed 5%nat. done. Qed.

(** The shell has started cat. *)
Lemma sample_started_cat :
  exists D0 P k others, runs 0x410000 0x412000 user_fs 40 D0 P 1 others (k, []) (mkSession (bytes "frame0") ∅ 0 [] []) /\
    ds_running D0 = 0.
Proof.
  destruct (sample_runs [] []) as (D0 & P & k & others & HR & Hfree & Hr); [done|].
  destruct (child_starts _ _ _ _ _ _ _ _ user_bootable k [] _ (bytes "cat frame0" ++ [0]) (bytes "cat frame0")
    sample_frame 1 sample_cat 3 HR) as (k1 & page & _ & _ & _ & _ & _ & _ & HR1).
  - apply (cstring_intro (bytes "cat frame0") []). apply Forall_is_char. reflexivity.
  - reflexivity.
  - exact sample_frame_ok.
  - vm_compute. reflexivity.
  - exact Hfree.
  - assert (command_args (bytes "cat frame0") = bytes "frame0") as Ea by (vm_compute; reflexivity).
    rewrite Ea in HR1. do 4 eexists. split; [exact HR1|exact Hr].
Qed.

(** A directory of text files in the image's place, nothing being open. *)
Definition text_fs : afs :=
  mkFs [FileSystem.mkEntry (bytes ".") 1 0; FileSystem.mkEntry (bytes "notes") 2 0; FileSystem.mkEntry (bytes "todo") 2 1]
    [text_line "frame0 is a fish" ++ text_line "it swims" ++ bytes "to frame0 and frame1"; bytes "no match"].

Lemma text_represents : represents (mkfs text_fs) text_fs.
Proof. apply fsck_sound. vm_compute. reflexivity. Qed.

Lemma runs_image A B F F' room D0 P clk others k sc v img :
  runs A B F room D0 P clk others (k, sc) v -> u_fds v = ∅ -> represents img F' ->
  exists k', runs A B F' room D0 P clk others (k', sc) (with_listed 0 v).
Proof.
  intros [Hm (l & Hl & Hf) Ha Hoth _ _ Hin Hline] Hnone Himg. exists (k <| k_img := img |> <| read_index := 0 |>).
  split; cbn [fst snd u_args u_fds u_listed u_input u_acts with_listed] in *; try done.
  - by eapply models_image.
  - exists l. split; [exact Hl|]. rewrite Hnone in *. destruct Hf as (Hlen & H0 & H1 & Hm'). by split_and!.
Qed.

(** The page of a started program begins with the file, so the sample's programs
    are told apart by it. *)
Definition sample_behaviour : behaviour := fun page s =>
  if decide (take 32 page = sample_cat)
  then cat (HS := kernel_calls 0 null_dentry) 11 (replicate 1024 7) s else None.

Definition cat_frame0 (c args : list Z) : Prop := c = sample_cat /\ args = bytes "frame0".

Definition cat_does (c : list Z) (v : session) (code : Z) (v' : session) : Prop :=
  code = 0 /\ exists fds, v' = wrote sample_text (with_fds fds v).

Lemma sample_programs : programs_do 0x410000 0x412000 user_fs 40 cat_frame0 cat_does sample_behaviour.
Proof.
  intros nm ino c page D0 P clk others s v _ Hpage HR Hfds [-> Hargs]. unfold sample_behaviour.
  rewrite decide_True by done.
  pose proof (kernel_laws _ _ _ _ D0 P clk others 0 null_dentry s v HR) as L.
  destruct (cat_ok (L := L) user_fs _ 11 (replicate 1024 7) s v 0 sample_text HR) as (s' & fds & E & HR').
  - exists 2. split; [lia|]. by rewrite Hfds.
  - reflexivity.
  - unfold cat_spec. rewrite Hargs. vm_compute. reflexivity.
  - cbn. lia.
  - exists 0, s', (wrote sample_text (with_fds fds v)). split; [exact E|]. split; [|exact HR']. split; [done|]. by exists fds.
Qed.

(** The input of the sample's shell and what it comes to. *)
Definition shell_input : list (list act * list Z) :=
  [(Happens <$> (cat_keys ++ []), bytes "cat frame0" ++ [10]); (Happens <$> (exit_keys ++ []), bytes "exit" ++ [10])].

Definition shell_acts : list act :=
  outs (text_line "Starting 391 Shell") ++ outs (bytes "391OS> ") ++ (Happens <$> cat_keys) ++ [LineTaken] ++
  outs sample_text ++ [LineWiped] ++ outs (bytes "391OS> ") ++ (Happens <$> exit_keys) ++ [LineTaken].

Lemma sample_ends P v w :
  free_pid P = Some 3 -> u_input v = shell_input -> u_acts v = [] ->
  shell_ends (executes user_fs P cat_does) (wrote (text_line "Starting 391 Shell") v) w -> u_acts w = shell_acts.
Proof.
  intros Hfree Hin Hacts Hw. inversion Hw as [v0 a l r Hi Hx|v0 a l r w0 Hi Hx _|v0 a l r rv v1 w0 Hi _ _ Hexe Hw1]; subst;
    change (u_input v = (a, l) :: r) in Hi; rewrite Hin in Hi; injection Hi as <- <- <-; [discriminate Hx|discriminate Hx|].
  unfold executes in Hexe. rewrite Hfree in Hexe.
  destruct (executable user_fs _) as [ [ino c]|] eqn:Ee; [|vm_compute in Ee; discriminate Ee].
  destruct Hexe as (code & w1 & (-> & fds & ->) & -> & ->).
  inversion Hw1 as [v0 a l r Hi Hx|v0 a l r w0 Hi Hx _|v0 a l r rv v1 w0 Hi Hx _ _ _]; subst;
    cbn in Hi; injection Hi as <- <- <-; [|discriminate Hx|by destruct Hx].
  cbn [u_acts prompted took wrote with_fds]. rewrite Hacts. unfold shell_acts.
  change (shell_message (u8 0)) with (@nil Z). cbn [outs fmap list_fmap]. rewrite !app_nil_r, <- !app_assoc. done.
Qed.

(** hello, on the kernel. *)
Lemma hello_on_kernel A B F room D0 P clk others ticks dentry0 s v acts l rest buf :
  runs A B F room D0 P clk others s v -> u_input v = (acts, l) :: rest -> len buf = BUFSIZE ->
  let v' := took acts rest (wrote (bytes "Hi, what's your name? ") v) in
  exists s', hello (HS := kernel_calls ticks dentry0) buf s = Some (0, s') /\
    models A B F room s'.1
      (mkMachine (with_text (bytes "Hello, " ++ until_newline l ++ [10]) (desks_of D0 v')) P clk).
Proof.
  intros HR Hin Hbuf v'. pose proof (kernel_laws A B F room D0 P clk others ticks dentry0 s v HR) as L.
  destruct (hello_ok (L := L) F _ buf s v acts l rest HR Hin Hbuf) as (s' & E & HR').
  exists s'. split; [exact E|]. by eapply runs_wrote.
Qed.

(** ** Properties *)

(** Cat, on the kernel, prints its file.  From any state in which a program is
    running, with a free descriptor, cat ends, whatever is in its buffer; for the
    name of a regular file it returns 0 and exactly the file's bytes, read through
    the directory, the inode and the block list of the image, are printed on the
    running program's desk; for a name that is not in the directory it returns 2
    and says so, and without an argument that fits its buffer it returns 3 and says
    so.  No other desk, no process and no other part of the machine the kernel
    stands for changes, and the program's session goes on. *)
Theorem cat_on_kernel A B F room D0 P clk others ticks dentry0 s v buf code text :
  runs A B F room D0 P clk others s v -> can_open v -> len buf = 1024 -> cat_spec F v = Some (code, text) ->
  exists s' fds,
    cat (HS := kernel_calls ticks dentry0) (Datatypes.S (Datatypes.length text)) buf s = Some (code, s') /\
    models A B F room s'.1 (mkMachine (with_text text (desks_of D0 v)) P clk) /\
    runs A B F room D0 P clk others s' (wrote text (with_fds fds v)).
Proof.
  intros HR Hfree Hbuf Hspec. pose proof (kernel_laws A B F room D0 P clk others ticks dentry0 s v HR) as L.
  destruct (cat_ok (L := L) F _ (Datatypes.S (Datatypes.length text)) buf s v code text HR Hfree Hbuf Hspec)
    as (s' & fds & E & HR'); [lia|].
  exists s', fds. split; [exact E|]. split; [by eapply runs_wrote|exact HR'].
Qed.

(** cat frame0, started by the shell of the first terminal. *)
Lemma cat_on_kernel_witness :
  exists D0 P k s', cat (HS := kernel_calls 0 null_dentry) 11 (replicate 1024 7) (k, []) = Some (0, s') /\
    models 0x410000 0x412000 user_fs 40 s'.1 (mkMachine (with_text sample_text D0) P 1).
Proof.
  destruct sample_started_cat as (D0 & P & k & others & HR & _).
  destruct (cat_on_kernel _ _ _ _ _ _ _ _ 0 null_dentry _ _ (replicate 1024 7) 0 sample_text HR)
    as (s' & fds & E & I & _).
  - exists 2. split; [lia|reflexivity].
  - reflexivity.
  - vm_compute. reflexivity.
  - exists D0, P, k, s'. exact (conj E I).
Defined.

(** Ls, on the kernel, lists the directory: from any state in which a program
    is running with a free descriptor, and the directory holds an entry named "."
    for itself and no empty name, ls ends and returns 0, and what it prints on the
    running program's desk is the names of the directory from the kernel's one
    directory position on, in order, a line each, full 32-character names included;
    the position is at the end afterwards. *)
Theorem ls_on_kernel A B F room D0 P clk others ticks dentry0 s v buf :
  runs A B F room D0 P clk others s v -> can_open v -> len buf = SBUFSIZE ->
  Forall (fun e => a_name e <> []) (a_entries F) -> found F [46] = Some Listing ->
  u_listed v <= len (a_entries F) ->
  exists s' fds,
    ls (HS := kernel_calls ticks dentry0) (Datatypes.S (Datatypes.length (a_entries F))) buf s = Some (0, s') /\
    models A B F room s'.1 (mkMachine (with_text (listing F (u_listed v)) (desks_of D0 v)) P clk) /\
    runs A B F room D0 P clk others s'
      (wrote (listing F (u_listed v)) (with_listed (len (a_entries F)) (with_fds fds v))).
Proof.
  intros HR Hfree Hbuf Hne Hdot Hi. pose proof (kernel_laws A B F room D0 P clk others ticks dentry0 s v HR) as L.
  destruct (ls_ok (L := L) F _ (Datatypes.S (Datatypes.length (a_entries F))) buf s v Hne Hdot HR Hfree)
    as (s' & fds & E & HR'); [pose proof (rn_index _ _ _ _ _ _ _ _ _ _ HR); lia|done|lia|].
  exists s', fds. split; [exact E|]. split; [by eapply runs_wrote|exact HR'].
Qed.

Lemma ls_on_kernel_witness :
  exists D0 P k s', ls (HS := kernel_calls 0 null_dentry) 5 (replicate 33 7) (k, []) = Some (0, s') /\
    models 0x410000 0x412000 user_fs 40 s'.1
      (mkMachine (with_text (text_line "." ++ text_line "shell" ++ text_line "cat" ++ text_line "frame0") D0) P 1).
Proof.
  destruct (sample_runs [] []) as (D0 & P & k & others & HR & _); [done|].
  destruct (ls_on_kernel _ _ _ _ _ _ _ _ 0 null_dentry _ _ (replicate 33 7) HR) as (s' & fds & E & I & _).
  - exists 2. split; [lia|reflexivity].
  - reflexivity.
  - vm_compute. repeat constructor; discriminate.
  - vm_compute. reflexivity.
  - vm_compute. discriminate.
  - exists D0, P, k, s'. exact (conj E I).
Defined.

(** Counter, on the kernel, counts.  While the program waits for the keyboard
    anything may happen on the terminals; once its own desk is shown with a
    finished line it takes the line.  For 0, 1 or 2 it prints the decimal numerals
    from 1 to 100, 10000 or 100000 in order, a line each, nothing for the empty
    line, and says that the choice is wrong for every other line; it always ends
    and returns 0, and all of it appears on the running program's desk, whichever
    desk is on the screen. *)
Theorem counter_on_kernel A B F room D0 P clk others ticks dentry0 s v acts l rest buf :
  runs A B F room D0 P clk others s v -> u_input v = (acts, l) :: rest -> len buf = BUFSIZE ->
  let v' := took acts rest (wrote (text_line "Enter the Test Number: (0): 100, (1): 10000, (2): 100000") v) in
  exists s', counter (HS := kernel_calls ticks dentry0) buf s = Some (0, s') /\
    models A B F room s'.1 (mkMachine (with_text (counter_text (until_newline l)) (desks_of D0 v')) P clk) /\
    runs A B F room D0 P clk others s' (wrote (counter_text (until_newline l)) v').
Proof.
  intros HR Hin Hbuf v'. pose proof (kernel_laws A B F room D0 P clk others ticks dentry0 s v HR) as L.
  destruct (counter_ok (L := L) F _ buf s v acts l rest HR Hin Hbuf) as (s' & E & HR').
  exists s'. split; [exact E|]. split; [by eapply runs_wrote|exact HR'].
Qed.

Lemma counter_on_kernel_witness :
  exists D P k s', counter (HS := kernel_calls 0 null_dentry) (replicate 1024 7) (k, [(zero_keys, [])]) = Some (0, s') /\
    models 0x410000 0x412000 user_fs 40 s'.1 (mkMachine (with_text (numbers 100) D) P 1).
Proof.
  destruct (sample_runs _ _ zero_typed) as (D0 & P & k & others & HR & _).
  destruct (counter_on_kernel _ _ _ _ _ _ _ _ 0 null_dentry _ _ (Happens <$> (zero_keys ++ [])) (bytes "0" ++ [10]) []
    (replicate 1024 7) HR)
    as (s' & E & I & _); [reflexivity|reflexivity|].
  do 4 eexists. exact (conj E I).
Defined.

(** C7: the shell, on the kernel, runs commands.  Between the keyboard lines and
    the exit line, the shell prompts, takes a line, and executes it: [sys_execute]
    finds the program the command names (or the shell says that there is none, or,
    with all process numbers taken, that it ended abnormally), the program runs on
    its own process with a fresh descriptor table and the rest of the command as
    its argument, [sys_halt] resumes the very call of the shell, with the status
    cut to a byte, and the shell says when the status is not 0; the shell's
    descriptors, its argument and every other process are as they were.  It comes
    to an end, with 0, at the exit line, if the programs it starts end and leave
    the keyboard alone.  What the started programs do is a parameter. *)
Theorem shell_on_kernel A B F room D0 P clk others ticks dentry0 may does behave st st' s v lines acts l rest buf :
  runs A B F room D0 P clk others s v -> len buf = BUFSIZE ->
  bootable F room -> frame_ok st -> programs_do A B F room may does behave ->
  (forall c v code v', does c v code v' -> u_input v' = u_input v) ->
  u_input v = lines ++ (acts, l) :: rest -> until_newline l = bytes "exit" ->
  Forall (fun x => until_newline x.2 <> bytes "exit" /\ allowed F may (until_newline x.2)) lines ->
  exists s' w,
    shell (HS := kernel_calls ticks dentry0) (HE := kernel_exec behave st st')
      (Datatypes.S (Datatypes.length lines)) buf s = Some (0, s') /\
    shell_ends (executes F P does) (wrote (text_line "Starting 391 Shell") v) w /\ u_input w = rest /\
    runs A B F room D0 P clk others s' w.
Proof.
  intros HR Hbuf HB Hst Hprog Hquiet Hin Hexit Hlines.
  pose proof (kernel_laws A B F room D0 P clk others ticks dentry0 s v HR) as L.
  pose proof (kernel_exec_laws A B F room D0 P clk others may does behave st st' HB Hst Hprog) as LE.
  refine (shell_ok (L := L) F _ (LE := LE) _ _ lines acts l rest _ Hexit Hlines buf s v HR Hin Hbuf).
  intros str v0 r v' H. unfold executes in H. repeat case_match; try (by destruct H as [_ ->]).
  destruct H as (code & w & Hd & _ & ->). by apply Hquiet in Hd.
Qed.

(** "cat frame0", then "exit", at the shell of the first terminal. *)
Lemma shell_on_kernel_witness :
  exists k s' D0 P w,
    shell (HS := kernel_calls 0 null_dentry) (HE := kernel_exec sample_behaviour sample_frame sample_frame)
      2 (replicate 1024 7) (k, [(cat_keys, []); (exit_keys, [])]) = Some (0, s') /\
    u_acts w = shell_acts /\ models 0x410000 0x412000 user_fs 40 s'.1 (mkMachine (desks_of D0 w) P 1).
Proof.
  destruct (sample_runs _ _ cat_exit_typed) as (D0 & P & k & others & HR & Hfree & _).
  destruct (shell_on_kernel _ _ _ _ _ _ _ _ 0 null_dentry cat_frame0 cat_does sample_behaviour sample_frame sample_frame
    _ _ [(Happens <$> (cat_keys ++ []), bytes "cat frame0" ++ [10])] (Happens <$> (exit_keys ++ [])) (bytes "exit" ++ [10]) []
    (replicate 1024 7) HR) as (s' & w & E & Hw & _ & HR').
  - reflexivity.
  - exact user_bootable.
  - exact sample_frame_ok.
  - exact sample_programs.
  - intros c v code v' (_ & fds & ->). reflexivity.
  - reflexivity.
  - reflexivity.
  - constructor; [|constructor]. split; [discriminate|]. intros ino c Hexe. vm_compute in Hexe. by injection Hexe as _ <-.
  - exists k, s', D0, P, w. split; [exact E|]. split; [exact (sample_ends P (mkSession [] ∅ 0 shell_input []) w Hfree eq_refl eq_refl Hw)|]. exact (rn_models _ _ _ _ _ _ _ _ _ _ HR').
Defined.

(** The error tests of syserr pass on the kernel, all eight: calls on a negative
    and on a far too large descriptor, opening the directory until the descriptors
    are used up (exactly the seventh open is refused) and closing them again, names
    that are almost or not at all a file's, every call on descriptors that are not
    open, video memory for a null and for a kernel address, writing to the keyboard
    and reading from the screen, and calls whose number there is not.  For the digit
    of a test its line is printed, with PASS, for 0 all of them and the overall
    line, for any other line that the choice is wrong; the program always returns 0,
    and but for its output, the line taken and the directory position nothing is
    changed. *)
Theorem syserr_on_kernel A B F room D0 P clk others ticks dentry0 entry s v acts l rest buf buf32 c :
  runs A B F room D0 P clk others s v -> u_fds v = ∅ -> u_input v = (acts, l) :: rest -> len buf = 128 ->
  found F (bytes ".") = Some Listing ->
  Forall (fun nm => find_entry F nm = None) [bytes "helloo"; bytes "shel"; []] ->
  (until_newline l ++ [10]).[0] = Some c ->
  let v' := syserr_listed c (took acts rest (wrote (bytes "Choose from tests 1-8. 0 to run all: ") v)) in
  exists s',
    syserr (HS := kernel_calls ticks dentry0) (HC := kernel_raw entry) buf buf32 s = Some (0, s') /\
    models A B F room s'.1 (mkMachine (with_text (syserr_text c) (desks_of D0 v')) P clk) /\
    runs A B F room D0 P clk others s' (wrote (syserr_text c) v').
Proof.
  intros HR Hm Hin Hbuf Hdot Habs Hc v'.
  pose proof (kernel_laws A B F room D0 P clk others ticks dentry0 s v HR) as L.
  pose proof (kernel_refusals A B F room D0 P clk others ticks dentry0 entry s v HR) as LR.
  destruct (syserr_ok (L := L) F _ (LR := LR) Hdot Habs buf buf32 s v acts l rest c HR Hm Hin Hbuf Hc) as (s' & E & HR').
  exists s'. split; [exact E|]. split; [by eapply runs_wrote|exact HR'].
Qed.

(** All the tests, from the first terminal. *)
Lemma syserr_on_kernel_witness :
  exists D P k s',
    syserr (HS := kernel_calls 0 null_dentry) (HC := kernel_raw (fun _ _ => None)) (replicate 128 7) (replicate 32 7)
      (k, [(zero_keys, [])]) = Some (0, s') /\
    models 0x410000 0x412000 user_fs 40 s'.1 (mkMachine (with_text (syserr_text 48) D) P 1).
Proof.
  destruct (sample_runs _ _ zero_typed) as (D0 & P & k & others & HR & _).
  destruct (syserr_on_kernel _ _ _ _ _ _ _ _ 0 null_dentry (fun _ _ => None) _ _ (Happens <$> (zero_keys ++ []))
    (bytes "0" ++ [10]) [] (replicate 128 7) (replicate 32 7) 48 HR)
    as (s' & E & I & _); [reflexivity|reflexivity|reflexivity|reflexivity|repeat constructor|reflexivity|].
  do 4 eexists. exact (conj E I).
Defined.

(** C18: grep, on the kernel, prints the lines with the pattern.  For a directory of
    text files (no NUL, no line as long as the buffer) and entries named with a dot
    in front, grep ends, whatever is in its buffers, and returns 0; for each of the
    files it opens, in the order of the directory from the position on, it prints
    exactly the lines that contain its argument, the last one also without a
    newline at its end, each once, with the file's name and a colon, although it
    sees the file in pieces that end anywhere; every file is closed again.  A pattern
    whose first byte is 128 or more is in no line, as grep compares it as a signed
    character with the unsigned ones of the file.  Without an argument it says so and
    returns 3.  The byte behind the buffer, which grep
    tests without having set it, must not be a newline. *)
Theorem grep_on_kernel A B F room D0 P clk others ticks dentry0 file_fuel s v search data buf code text :
  runs A B F room D0 P clk others s v -> can_open_two v -> found F [46] = Some Listing ->
  Forall (greppable F file_fuel) (a_entries F) -> u_listed v <= len (a_entries F) ->
  len search = BUFSIZE -> len data = BUFSIZE + 1 -> data.[BUFSIZE] <> Some 10 -> len buf = SBUFSIZE ->
  grep_spec F v = (code, text) ->
  exists s' fds n,
    grep (HS := kernel_calls ticks dentry0) file_fuel (Datatypes.S (Datatypes.length (a_entries F))) search data buf s =
      Some (code, s') /\
    models A B F room s'.1 (mkMachine (with_text text (desks_of D0 v)) P clk) /\
    runs A B F room D0 P clk others s' (wrote text (with_listed n (with_fds fds v))).
Proof.
  intros HR Hfree Hdot Hgrep Hi Hs Hd Hst Hbuf Hspec.
  pose proof (kernel_laws A B F room D0 P clk others ticks dentry0 s v HR) as L.
  pose proof (grep_ok (L := L) F _ file_fuel (Datatypes.S (Datatypes.length (a_entries F))) search data buf s v) as H.
  rewrite Hspec in H. destruct H as (s' & fds & n & E & HR'); try done; [apply (rn_index _ _ _ _ _ _ _ _ _ _ HR)|lia|].
  exists s', fds, n. split; [exact E|]. split; [by eapply runs_wrote|exact HR'].
Qed.

(** "frame0" in two files. *)
Lemma grep_on_kernel_witness :
  exists D P k s',
    grep (HS := kernel_calls 0 null_dentry) 100 4 (replicate 1024 7) (replicate 1025 7) (replicate 33 7) (k, []) =
      Some (0, s') /\
    models 0x410000 0x412000 text_fs 40 s'.1
      (mkMachine (with_text (text_line "notes:frame0 is a fish" ++ text_line "notes:to frame0 and frame1") D) P 1).
Proof.
  destruct sample_started_cat as (D0 & P & k & others & HR & _).
  destruct (runs_image _ _ _ text_fs _ _ _ _ _ _ _ _ _ HR eq_refl text_represents) as (k' & HR').
  destruct (grep_on_kernel _ _ _ _ _ _ _ _ 0 null_dentry 100 _ _ (replicate 1024 7) (replicate 1025 7) (replicate 33 7)
    0 (text_line "notes:frame0 is a fish" ++ text_line "notes:to frame0 and frame1") HR') as (s' & fds & n & E & I & _).
  - exists 2, 3. by split_and!.
  - reflexivity.
  - apply (bool_decide_unpack _). vm_compute. exact Logic.I.
  - vm_compute. discriminate.
  - reflexivity.
  - reflexivity.
  - vm_compute. discriminate.
  - reflexivity.
  - vm_compute. reflexivity.
  - do 4 eexists. exact (conj E I).
Defined.
