(* ===== verification/Sigtest.v ===== *)
(** The user program sigtest, [src/syscalls/ece391sigtest.c]: it asks for handlers
    of two signals and then writes to address 0.

    The kernel has no signals: it refuses the handlers, which the program does not
    look at, and ends the program at the write.  The handlers are translated too;
    nothing calls them. *)
From stdpp Require Import base option list numbers gmap.
From Stdlib Require Import ZArith Lia Ascii String.
From S2P Require Import Prelude LibString FileSystem Console Keyboard Paging Rtc State Terminal Desks FileOps SysCall Idt Process Scheduler Family System Startup Kernel Files Calls User Programs Clients UserKernel KernelExec OnKernel.

Definition SEGFAULT : Z := 1.
Definition ALARM : Z := 3.

(** The call that asks for a handler, by its address. *)
Class SignalCalls (S : Type) := ece391_set_handler : Z -> Z -> S -> option (Z * S).

(** The two variables; [badbuf] is an address. *)
Record globals := mkGlobals { charbuf : Z; badbuf : Z }.

#[export] Instance eta_globals : EtaExpand globals := fun g => mkGlobals (charbuf g) (badbuf g).

(** How the program ends, or stops: a write to an address that is not its own. *)
Inductive ending := Returns (status : Z) | Faults (address : Z).

Section sigtest.
Context {S : Type} {HS : Syscalls S} {HG : SignalCalls S}.
(* the addresses of [charbuf] and the handlers *)
Context (charbuf_addr segfault_addr alarm_addr : Z).

Definition print_signum (signum : Z) (s : S) : option S :=
  if signum =? 0 then fdputs 1 (text_line "0") s
  else if signum =? 1 then fdputs 1 (text_line "1") s
  else if signum =? 2 then fdputs 1 (text_line "2") s
  else if signum =? 3 then fdputs 1 (text_line "3") s
  else fdputs 1 (text_line "invalid") s.

(** The second result is the word it stores over the saved EAX. *)
Definition segfault_sighandler (signum : Z) (buf : list Z) (g : globals) (s : S) : option (globals * Z * S) :=
  s ← fdputs 1 (bytes "Segfault signal handler called, signum: ") s;
  s ← print_signum signum s;
  s ← fdputs 1 (text_line "Press enter to continue...") s;
  '(_, buf, s) ← ece391_read 0 buf 0 1 s;
  let g := g <| badbuf := charbuf_addr |> in
  s ← fdputs 1 (text_line "Signal handler returning") s;
  Some (g, charbuf_addr, s).

Definition alarm_sighandler (signum : Z) (s : S) : option S :=
  s ← fdputs 1 (bytes "Alarm signal handler called, signum: ") s;
  print_signum signum s.

Definition install_handlers (s : S) : option S :=
  s ← fdputs 1 (text_line "Installing signal handlers") s;
  '(_, s) ← ece391_set_handler SEGFAULT segfault_addr s;
  '(_, s) ← ece391_set_handler ALARM alarm_addr s;
  Some s.

(** [*badbuf = 1] *)
Definition store_badbuf (g : globals) : globals + Z :=
  if badbuf g =? charbuf_addr then inl (g <| charbuf := 1 |>) else inr (badbuf g).

Definition sigtest (buf : list Z) (g : globals) (s : S) : option (ending * globals * S) :=
  '(r, buf, s) ← ece391_getargs buf BUFSIZE s;
  if negb (r =? 0) then s ← fdputs 1 (text_line "could not read argument") s; Some (Returns 3, g, s)
  else
    c ← buf.[0];
    s ← if c =? 49 then install_handlers s else Some s;
    s ← fdputs 1 (bytes "Hi, what's your name? ") s;
    '(cnt, buf, s) ← ece391_read 0 buf 0 (BUFSIZE - 1) s;
    if cnt =? -1 then s ← fdputs 1 (text_line "Can't read name from keyboard.") s; Some (Returns 3, g, s)
    else
      match store_badbuf g with
      | inr address => Some (Faults address, g, s)
      | inl g =>
          buf ← buf.[cnt := 0];
          s ← fdputs 1 (bytes "Hello, ") s;
          s ← ece391_fdputs 1 buf 0 s;
          s ← if charbuf g =? 1 then fdputs 1 (text_line "success") s else fdputs 1 (text_line "failure") s;
          Some (Returns 0, g, s)
      end.
End sigtest.

(** What the handlers' call does without signals. *)
Class NoSignals {S : Type} `{SignalCalls S} (R : S -> session -> Prop) :=
  law_set_handler s v n h : R s v -> exists s', ece391_set_handler n h s = Some (-1, s') /\ R s' v.

#[export] Instance kernel_signals : SignalCalls user_machine := fun n h s =>
  let '(r, k) := sys_sethandler n h s.1 in Some (r, (k, s.2)).

Lemma kernel_no_signals A B F room D0 P clk others : NoSignals (runs A B F room D0 P clk others).
Proof. intros [k sc] v n h HR. by exists (k, sc). Qed.

(** What it prints before it reads. *)
Definition sigtest_prompt (args : list Z) : list Z :=
  (if bool_decide (head args = Some 49) then text_line "Installing signal handlers" else []) ++ bytes "Hi, what's your name? ".

Section client.
Context {S : Type} {HS : Syscalls S} {HG : SignalCalls S} (F : afs) (R : S -> session -> Prop).
Context {L : FileLaws F R} {LN : NoSignals R}.
Context (charbuf_addr segfault_addr alarm_addr : Z).
Notation sigtest := (sigtest charbuf_addr segfault_addr alarm_addr).

Lemma install_handlers_ok s v : R s v ->
  exists s', install_handlers segfault_addr alarm_addr s = Some s' /\ R s' (wrote (text_line "Installing signal handlers") v).
Proof.
  intros HR. unfold install_handlers.
  destruct (fdputs_lit_ok F R s v (text_line "Installing signal handlers") HR) as (s1 & -> & HR1); [apply Forall_is_char; reflexivity|].
  cbn [mbind option_bind]. destruct (law_set_handler s1 _ SEGFAULT segfault_addr HR1) as (s2 & -> & HR2).
  cbn [mbind option_bind]. destruct (law_set_handler s2 _ ALARM alarm_addr HR2) as (s3 & -> & HR3). by exists s3.
Qed.

Lemma sigtest_no_args buf g s v : R s v -> u_args v = [] -> len buf = BUFSIZE ->
  exists s', sigtest buf g s = Some (Returns 3, g, s') /\ R s' (wrote (text_line "could not read argument") v).
Proof.
  intros HR Ha Hb. unfold sigtest. destruct (law_getargs s v buf BUFSIZE HR) as (s1 & -> & HR1); [lia|].
  rewrite decide_False by (rewrite Ha; tauto). cbn [mbind option_bind Z.eqb negb].
  destruct (fdputs_lit_ok F R s1 v (text_line "could not read argument") HR1) as (s2 & -> & HR2); [apply Forall_is_char; reflexivity|].
  by exists s2.
Qed.

Lemma sigtest_faults buf g s v acts l rest :
  R s v -> u_args v <> [] -> len (u_args v) < BUFSIZE -> len buf = BUFSIZE -> badbuf g <> charbuf_addr ->
  u_input v = (acts, l) :: rest ->
  exists s', sigtest buf g s = Some (Faults (badbuf g), g, s') /\ R s' (took acts rest (wrote (sigtest_prompt (u_args v)) v)).
Proof.
  intros HR Ha Hla Hb Hg Hin. unfold sigtest. destruct (law_getargs s v buf BUFSIZE HR) as (s1 & -> & HR1); [lia|].
  rewrite decide_True by done. cbn [mbind option_bind Z.eqb negb]. unfold sigtest_prompt.
  destruct (u_args v) as [|c args] eqn:Eargs; [done|]. cbn [Datatypes.length] in Hla.
  assert ((splice buf 0 ((c :: args) ++ [0])).[0] = Some c) as ->.
  { by rewrite aget_splice_in by (rewrite ?length_app; cbn [Datatypes.length]; lia). }
  cbn [mbind option_bind head]. set (buf1 := splice buf 0 ((c :: args) ++ [0])).
  assert (len buf1 = BUFSIZE) as Hb1 by (unfold buf1; rewrite length_splice by (rewrite ?length_app; cbn [Datatypes.length]; lia); done).
  assert (exists s2, (if c =? 49 then install_handlers segfault_addr alarm_addr s1 else Some s1) = Some s2 /\
    R s2 (wrote (if bool_decide (Some c = Some 49) then text_line "Installing signal handlers" else []) v)) as (s2 & -> & HR2).
  { destruct (Z.eqb_spec c 49) as [->|Hne]; [by apply install_handlers_ok|]. rewrite bool_decide_eq_false_2 by congruence.
    exists s1. by rewrite wrote_nil. }
  cbn [mbind option_bind].
  destruct (fdputs_lit_ok F R s2 _ (bytes "Hi, what's your name? ") HR2) as (s3 & -> & HR3); [apply Forall_is_char; reflexivity|].
  cbn [mbind option_bind]. rewrite wrote_app in HR3.
  destruct (read_line_ok F R s3 _ acts l rest buf1 (BUFSIZE - 1) HR3 Hin) as (s4 & -> & HR4 & _ & Hlen);
    [unfold BUFSIZE; lia|unfold KEY_BUF_SIZE, BUFSIZE in *; lia|].
  cbn [mbind option_bind]. rewrite (proj2 (Z.eqb_neq _ (-1))) by lia.
  unfold store_badbuf. rewrite (proj2 (Z.eqb_neq _ _)) by done. by exists s4.
Qed.
End client.

(** ** On the kernel *)

(** No program has anything at address 0. *)
Lemma address_0_unmapped A B F room k M : tables_placed A B -> models A B F room k M -> translate A B (k_pag k) true 0 = None.
Proof.
  intros Hpl Hm. pose proof (targets_video _ _ _ _ (im_targets _ _ _ _ _ (mo_desks _ _ _ _ _ _ Hm))) as [HT _ _ [Hp Hmod] Hv].
  by rewrite (translate_map A B Hpl _ _ _ true 0 HT) by (done || lia).
Qed.

(** ** Properties *)

(** C17: sigtest on the kernel: signals are refused and the write to address 0 is the
    program's end.  Started with an argument, sigtest prints its prompt, after a
    line about its handlers if the argument begins with 1, takes a line from the
    keyboard, and then writes to address 0, which no page of a program maps: it
    never gets to greet anybody.  The kernel's handler of the page fault (14) then
    prints its banner and resumes the shell that started the program with the
    status 256, and the kernel goes on standing for the machine without it. *)
Theorem sigtest_on_kernel A B F room D0 P clk others ticks dentry0 charbuf_addr h1 h2 s v acts l rest buf g p q ps :
  runs A B F room D0 P clk others s v -> tables_placed A B -> bootable F room ->
  u_args v <> [] -> len (u_args v) < BUFSIZE -> u_input v = (acts, l) :: rest -> len buf = BUFSIZE ->
  badbuf g = 0 -> charbuf_addr <> 0 -> P (ds_running D0) = p :: q :: ps ->
  let v' := took acts rest (wrote (sigtest_prompt (u_args v)) v) in
  exists s',
    sigtest (HS := kernel_calls ticks dentry0) charbuf_addr h1 h2 buf g s = Some (Faults 0, g, s') /\
    runs A B F room D0 P clk others s' v' /\ translate A B (k_pag s'.1) true 0 = None /\
    forall junk err_code msg st, let e := Fault junk 14 err_code msg st in sys_event_ok e ->
      exists k, run_sys e s'.1 = Some (Leaves (ResumeAt (p_frame p) EXCEPTION_HALT), k) /\
        models A B F room k (spec_step F e (mkMachine (desks_of D0 v') P clk)).2.
Proof.
  intros HR Hpl HB Ha Hla Hin Hb Hg Hc EP v'.
  pose proof (kernel_laws A B F room D0 P clk others ticks dentry0 s v HR) as L.
  pose proof (kernel_no_signals A B F room D0 P clk others) as LN.
  destruct (sigtest_faults (L := L) (LN := LN) F _ charbuf_addr h1 h2 buf g s v acts l rest HR Ha Hla Hb) as (s' & E & HR'); [congruence|done|].
  rewrite Hg in E. pose proof (rn_models _ _ _ _ _ _ _ _ _ _ HR') as Hm.
  exists s'. split; [exact E|]. split; [exact HR'|]. split; [by eapply address_0_unmapped|].
  intros junk err_code msg st e He. destruct (models_step A B F room e _ _ HB Hm He) as (k & Ek & Hmk).
  exists k. split; [|exact Hmk]. rewrite Ek. unfold e. cbn [spec_step]. unfold spec_halt, running. cbn [m_procs m_desks on_desks].
  cbn [spec_banner ds_running upd_desk]. rewrite desks_after_running. by rewrite EP.
Qed.

(** The shell of the first terminal starts a program with the argument 1. *)
Lemma sample_started_with_1 :
  exists D0 P k others p q ps,
    runs 0x410000 0x412000 user_fs 40 D0 P 1 others (k, [(zero_keys, [])])
      (mkSession (bytes "1") ∅ 0 [(Happens <$> (zero_keys ++ []), bytes "0" ++ [10])] []) /\
    P (ds_running D0) = p :: q :: ps /\ p_frame p = st_ebp sample_frame.
Proof.
  destruct (sample_runs _ _ zero_typed) as (D0 & P & k & others & HR & Hfree & Hr).
  destruct (child_starts _ _ _ _ _ _ _ _ user_bootable k _ _ (bytes "cat 1" ++ [0]) (bytes "cat 1") sample_frame 1 sample_cat 3 HR)
    as (k1 & page & _ & _ & _ & _ & _ & _ & HR1); [|reflexivity|exact sample_frame_ok|vm_compute; reflexivity|exact Hfree|].
  - apply (cstring_intro (bytes "cat 1") []). apply Forall_is_char. reflexivity.
  - destruct (family_cur _ _ _ _ _ _ (mo_family _ _ _ _ _ _ (rn_models _ _ _ _ _ _ _ _ _ _ HR))) as (q & ps & Eq & _).
    unfold running in Eq. cbn [m_procs m_desks] in Eq. rewrite desks_after_running in Eq.
    do 7 eexists. split; [exact HR1|]. unfold pushed. rewrite upd_stack_eq, Eq. done.
Qed.

Lemma sigtest_on_kernel_witness :
  exists k s' k',
    sigtest (HS := kernel_calls 0 null_dentry) 0x8049000 0x8048200 0x8048300 (replicate 1024 7) (mkGlobals 0 0) (k, [(zero_keys, [])]) =
      Some (Faults 0, mkGlobals 0 0, s') /\
    run_sys (Fault (replicate 64 7) 14 4 (default [] (exception_messages.[14])) sample_frame) s'.1 =
      Some (Leaves (ResumeAt (st_ebp sample_frame) 256), k').
Proof.
  destruct sample_started_with_1 as (D0 & P & k & others & p & q & ps & HR & EP & Ef).
  destruct (sigtest_on_kernel _ _ _ _ _ _ _ _ 0 null_dentry 0x8049000 0x8048200 0x8048300 _ _ (Happens <$> (zero_keys ++ []))
    (bytes "0" ++ [10]) [] (replicate 1024 7) (mkGlobals 0 0) p q ps HR) as (s' & E & _ & _ & H).
  - split; unfold u20; vm_compute; split_and?; done || lia.
  - exact user_bootable.
  - discriminate.
  - vm_compute. reflexivity.
  - reflexivity.
  - reflexivity.
  - reflexivity.
  - discriminate.
  - exact EP.
  - destruct (H (replicate 64 7) 4 (default [] (exception_messages.[14])) sample_frame) as (k' & Ek & _).
    + split; [reflexivity|]. split; [reflexivity|]. split; [unfold is_u32; lia|exact sample_frame_ok].
    + exists k, s', k'. split; [exact E|]. rewrite Ef in Ek. exact Ek.
Defined.
