(* ===== verification/Preempt.v ===== *)
(** The user programs under preemption.

    In [OnKernel.v] nothing happens between two calls of a program.  Here an
    adversary acts before each of them, and before each byte that the program stores
    in the page of video memory mapped for it: interrupts, timer interrupts that give the
    processor to the programs of the other terminals, and whatever those do.  It
    may choose by the number of the call and the kernel's state ([turns]); it is
    [fair] when the events are possible, the processor comes back, and nobody else
    reads the directory, whose position all programs share.

    A read of the keyboard waits, and there are turns while it does: somebody types
    the line meanwhile (a [typist]).

    The relation [lives] is the same interface as [UserKernel.runs], so the theorems
    about the programs hold as they are. *)
From stdpp Require Import base option list numbers gmap.
From Stdlib Require Import ZArith Lia.
From S2P Require Import Prelude LibString FileSystem Console Keyboard Paging Rtc State Terminal Desks Frame FileOps SysCall Process Scheduler Family System Files Calls Os Startup Kernel Interleave User UserKernel.

(** Somebody at the keyboard during one read: the turns that pass while the program
    polls, those that slip in between the poll and the copy, as it may choose by the
    kernel's state, and the line that is there in the end. *)
Record typist := mkTypist {
  waits : kernel -> list (list os_event);
  late : kernel -> list (list os_event);
  typed : list Z;
}.

(** How many calls there have been, and who will type. *)
Record pace := mkPace { call_count : nat; typists : list typist }.

Definition begin (ys : list typist) : pace := mkPace 0 ys.
Definition later (p : pace) : pace := mkPace (S (call_count p)) (typists p).

Definition live : Type := kernel * pace.

(** ** Traces

    A step is an event or a call, and whether it is the program's own. *)
Definition trace : Type := list (bool * os_event).

Definition output (e : os_event) : list Z :=
  match e with Call (Write fd buf nbytes) => if fd =? 1 then take (Z.to_nat nbytes) buf else [] | _ => [] end.

(** The characters among what happened on the terminals. *)
Definition said_by (a : act) : list Z := match a with Happens (Out c) => [c] | _ => [] end.
Definition said (acts : list act) : list Z := mjoin (said_by <$> acts).

(** The bytes among it that were stored in the page of video memory. *)
Definition drawn_by (a : act) : list (Z * Z) := match a with Happens (Poke off c) => [(off, c)] | _ => [] end.
Definition drawn_in (acts : list act) : list (Z * Z) := mjoin (drawn_by <$> acts).

Definition stores (e : os_event) : list (Z * Z) :=
  match e with Sys (Input (Poke off c)) => [(off, c)] | _ => [] end.

(** What the program itself has stored there. *)
Fixpoint drawn (tr : trace) : list (Z * Z) :=
  match tr with [] => [] | (mine, e) :: tr => (if mine : bool then stores e else []) ++ drawn tr end.

(** What the program itself has printed. *)
Fixpoint printed (tr : trace) : list Z :=
  match tr with [] => [] | (mine, e) :: tr => (if mine : bool then output e else []) ++ printed tr end.

Section instance.
Context (d0 : dentry_t) (turns : nat -> kernel -> list os_event).

(** Before each call, the others' turn. *)
Definition others_first (s : live) : option live :=
  let '(k, p) := s in k ← turn d0 (turns (call_count p) k) k; Some (k, later p).

(** What happens while the keyboard is read. *)
Definition attend (fd : Z) (k : kernel) (p : pace) : world * pace :=
  match typists p with
  | y :: l =>
      if fd =? 0 then (mkWorld (turn d0 <$> waits y k) (turn d0 <$> late y k) patience, mkPace (call_count p) l)
      else (mkWorld [] [] patience, p)
  | [] => (mkWorld [] [] patience, p)
  end.

#[export] Instance preempted_calls : Syscalls live := {
  ece391_getargs buf nbytes s :=
    '(k, i) ← others_first s; '(r, buf, k) ← sys_getargs buf nbytes k; Some (r, buf, (k, i));
  ece391_open name s := '(k, i) ← others_first s; '(r, k) ← sys_open d0 name k; Some (r, (k, i));
  ece391_read fd buf off n s :=
    '(k, i) ← others_first s;
    let '(w, i) := attend fd k i in
    '(r, b, k) ← sys_read w fd (Some (drop (Z.to_nat off) buf)) n k;
    b ← b;
    Some (r, take (Z.to_nat off) buf ++ b, (k, i));
  ece391_write fd buf off n s :=
    '(k, i) ← others_first s; '(r, k) ← sys_write fd (Some (drop (Z.to_nat off) buf)) n k; Some (r, (k, i));
  ece391_close fd s := '(k, i) ← others_first s; '(r, k) ← sys_close fd k; Some (r, (k, i));
}.

#[export] Instance preempted_raw (entry : Z -> kernel -> option (Z * kernel)) : RawCalls live := {
  ece391_vidmap p s := '(k, i) ← others_first s; '(r, w, k) ← sys_vidmap p k; Some (r, w, (k, i));
  call_sys n s := '(k, i) ← others_first s; '(r, k) ← sys_call entry n k; Some (r, (k, i));
}.

(** A store is one byte; interrupts may come between any two. *)
#[export] Instance preempted_screen : Screen live := fun base off c s =>
  '(k, i) ← others_first s; k ← run_event (Poke (base + off - USER_VIDEO) (u8 c)) k; Some (k, i).
End instance.

(** Output and the clock's blinking change nothing of it. *)
Definition steady (quiet : desks -> Prop) : Prop :=
  (forall D c, quiet D -> quiet (step_desks (Out c) D)) /\ (forall D c, quiet D -> quiet (blink c D)).

(** Not a read of the keyboard, which waits. *)
Definition reads_keyboard (c : call) : bool := match c with Read fd _ _ => fd =? 0 | _ => false end.

(** A call that does not read the keyboard leaves the desks quiet. *)
Lemma next_call_quiet F quiet c O : steady quiet -> reads_keyboard c = false ->
  quiet (m_desks (o_mach O)) -> quiet (m_desks (o_mach (next_call F c O))).
Proof.
  intros (Hout & Hblink) Hno Hq. destruct c as [buf nbytes|name nm|fd|fd buf nbytes|fd buf nbytes|p]; cbn [next_call]; try done.
  - by case_match.
  - cbn in Hno. rewrite Hno. destruct (_ !! fd) as [ [c pos| |]|]; try done.
    generalize (waits_for (m_clock (o_mach O)) (o_rate O (pid_of (o_mach O)))). intros w.
    induction w as [|w IH]; [done|by apply Hblink].
  - destruct (fd =? 1); [|by repeat case_match]. cbn. generalize (take (Z.to_nat nbytes) buf). intros text.
    generalize dependent (m_desks (o_mach O)). induction text as [|c text IH]; intros D Hq; [done|]. by apply IH, Hout.
Qed.

Section preempt.
Context (A B : Z) (F : afs) (room : Z) (HB : bootable F room) (d0 : dentry_t) (turns : nat -> kernel -> list os_event).
Context (k0 : kernel) (O0 : os) (quiet : desks -> Prop) (ys0 : list typist).
Notation serves := (serves A B F room).

(** The program's terminal and number. *)
Let t := running (o_mach O0).
Let me := pid_of (o_mach O0).

Definition fair : Prop := forall n k O, serves k O -> running (o_mach O) = t -> pid_of (o_mach O) = me ->
  os_events_ok F (turns n k) O /\ elsewhere F t (turns n k) O /\
  running (o_mach (after F (turns n k) O)) = t /\ o_listed (after F (turns n k) O) = o_listed O.

(** [quiet] is what the desks are like whenever somebody begins to type: neither the
    others nor the program's output nor the clock change that. *)
Definition calm : Prop :=
  (forall n k O, serves k O -> running (o_mach O) = t -> pid_of (o_mach O) = me ->
     quiet (m_desks (o_mach O)) -> quiet (m_desks (o_mach (after F (turns n k) O)))) /\ steady quiet.

(** The typist's turns pass, and the line is the one announced. *)
Definition attentive (y : typist) : Prop :=
  has_newline (typed y) = true /\ Forall is_byte (typed y) /\ len (typed y) <= KEY_BUF_SIZE /\
  forall k O, serves k O -> running (o_mach O) = t -> pid_of (o_mach O) = me -> quiet (m_desks (o_mach O)) ->
    let O1 := after_turns F (waits y k) O in let O2 := after_turns F (late y k) O1 in let D := m_desks (o_mach O2) in
    turns_pass F true (waits y k) O /\ line_ready (m_desks (o_mach O1)) = true /\
    turns_pass F false (late y k) O1 /\ line_ready D = true /\ d_line (ds_of D (ds_shown D)) = typed y /\
    o_listed O2 = o_listed O /\ quiet (upd_desk (ds_shown D) clear_line_of D).

(** What the program sees of the system is its session. *)
Record sees (O : os) (v : session) : Prop := {
  se_running : running (o_mach O) = t;
  se_pid : pid_of (o_mach O) = me;
  se_args : args_of (o_mach O) = u_args v;
  se_open : o_open O me = u_fds v;
  se_listed : o_listed O = u_listed v;
}.

(** The system has come from [O0] by the steps of a trace, in which the program has
    printed what its session says.  (A poll turns the interrupts on besides, so the
    history is the kernel's to the bit only if there is no typing.) *)
Record lived (k : kernel) (v : session) (tr : trace) : Prop := {
  ld_run : ys0 = [] -> exists rs, run_os_all d0 tr.*2 k0 = Some (rs, k);
  ld_serves : serves k (after F tr.*2 O0);
  ld_sees : sees (after F tr.*2 O0) v;
  ld_acts : said (u_acts v) = printed tr;
  ld_drawn : drawn_in (u_acts v) = drawn tr;
  ld_quiet : quiet (m_desks (o_mach (after F tr.*2 O0)));
}.

Definition expects (ys : list typist) : list (list act * list Z) := (fun y => ([], typed y)) <$> ys.

(** The lines the program will read are the ones that will be typed. *)
Record attended (p : pace) (v : session) : Prop := {
  at_good : Forall attentive (typists p);
  at_input : u_input v = expects (typists p);
  at_none : ys0 = [] -> typists p = [];
}.

Definition lives (s : live) (v : session) : Prop := attended s.2 v /\ exists tr, lived s.1 v tr.

(** ** Lemmas *)

Lemma run_os_all_app es1 es2 : forall k,
  run_os_all d0 (es1 ++ es2) k =
    ('(rs1, k) ← run_os_all d0 es1 k; '(rs2, k) ← run_os_all d0 es2 k; Some (rs1 ++ rs2, k)).
Proof.
  induction es1 as [|e es1 IH]; intros k; cbn [app run_os_all mbind option_bind].
  - by destruct (run_os_all d0 es2 k) as [ [] |].
  - destruct (run_os d0 e k) as [ [r k1]|]; [|done]. cbn [mbind option_bind]. rewrite IH.
    destruct (run_os_all d0 es1 k1) as [ [rs1 k2]|]; [|done]. cbn [mbind option_bind].
    by destruct (run_os_all d0 es2 k2) as [ [] |].
Qed.

Lemma after_app es1 es2 O : after F (es1 ++ es2) O = after F es2 (after F es1 O).
Proof. apply foldl_app. Qed.

Lemma printed_app tr1 tr2 : printed (tr1 ++ tr2) = printed tr1 ++ printed tr2.
Proof. induction tr1 as [|[m e] tr1 IH]; [done|]. cbn [app printed]. by rewrite IH, app_assoc. Qed.

Lemma printed_others es : printed (pair false <$> es) = [].
Proof. by induction es. Qed.

Lemma said_app a1 a2 : said (a1 ++ a2) = said a1 ++ said a2.
Proof. unfold said. by rewrite fmap_app, join_app. Qed.

Lemma said_outs text : said (outs text) = text.
Proof. induction text as [|c text IH]; [done|]. unfold said, outs in *. cbn. by f_equal. Qed.

Lemma drawn_app tr1 tr2 : drawn (tr1 ++ tr2) = drawn tr1 ++ drawn tr2.
Proof. induction tr1 as [|[m e] tr1 IH]; [done|]. cbn [app drawn]. by rewrite IH, app_assoc. Qed.

Lemma drawn_others es : drawn (pair false <$> es) = [].
Proof. by induction es. Qed.

Lemma drawn_in_app a1 a2 : drawn_in (a1 ++ a2) = drawn_in a1 ++ drawn_in a2.
Proof. unfold drawn_in. by rewrite fmap_app, join_app. Qed.

Lemma drawn_in_outs text : drawn_in (outs text) = [].
Proof. by induction text. Qed.

Lemma drawn_in_pokes l : drawn_in (pokes l) = l.
Proof. induction l as [|[off c] l IH]; [done|]. unfold drawn_in, pokes in *. cbn. by f_equal. Qed.

Lemma said_pokes l : said (pokes l) = [].
Proof. by induction l. Qed.

Lemma attended_same p p' v v' : attended p v -> typists p' = typists p -> u_input v' = u_input v -> attended p' v'.
Proof. intros [H1 H2 H3] Ep Ei. split; rewrite ?Ep, ?Ei; done. Qed.

Lemma lived_serves k v tr : lived k v tr -> exists O, serves k O /\ sees O v.
Proof. intros [_ HS Hv _ _ _]. by exists (after F tr.*2 O0). Qed.

(** The program is on its terminal's stack. *)
Lemma own_seat k O : serves k O -> running (o_mach O) = t -> pid_of (o_mach O) = me -> me ∈ (p_pid <$> m_procs (o_mach O) t).
Proof.
  intros HS <- <-. destruct (family_cur _ _ _ _ _ _ (mo_family _ _ _ _ _ _ (sv_models _ _ _ _ _ _ HS))) as (p & l & E0 & _).
  unfold pid_of. rewrite E0. by left.
Qed.

Lemma lives_first s v : fair -> calm -> lives s v ->
  exists k, others_first d0 turns s = Some (k, later s.2) /\ lives (k, later s.2) v.
Proof.
  intros Hfair (Hcalm & _) (Hin & tr & [Hrun HS Hv Hacts Hdr Hq]). destruct s as [k pc]. cbn [fst snd] in *.
  pose proof Hv as [Hr Hp Ha Ho Hl]. set (n := call_count pc). destruct (Hfair n k _ HS Hr Hp) as (Hok & He & Hback & Hli).
  destruct (serves_steps A B F room d0 HB (turns n k) k _ HS Hok) as (rs' & k' & E & _ & HS').
  assert (undisturbed t (after F tr.*2 O0) (after F (turns n k) (after F tr.*2 O0))) as Hu.
  { eapply (steps_undisturbed A B F room d0 HB); [|exact HS|done|done]. rewrite <- Hr.
    apply (fa_running _ _ _ _ _ _ (mo_family _ _ _ _ _ _ (sv_models _ _ _ _ _ _ HS))). }
  destruct (undisturbed_pid _ _ _ Hu Hr Hback) as [Hp' Ha'].
  exists k'. cbn [others_first fst snd]. fold n. unfold turn. rewrite E. split; [done|]. split; [by eapply attended_same|].
  exists (tr ++ (pair false <$> turns n k)).
  assert ((tr ++ (pair false <$> turns n k)).*2 = tr.*2 ++ turns n k) as Etr.
  { rewrite fmap_app, <- list_fmap_compose. f_equal. apply list_fmap_id. }
  split; rewrite ?Etr, ?after_app; try done.
  - intros H0. destruct (Hrun H0) as (rs & Hrs). exists (rs ++ rs'). cbn [fst].
    by rewrite run_os_all_app, Hrs; cbn [mbind option_bind]; rewrite E.
  - split; rewrite ?Hp', ?Ha', ?Hli; try done. rewrite (ud_open _ _ _ Hu); [done|]. rewrite <- Hp.
    rewrite Hp. exact (own_seat k _ HS Hr Hp).
  - by rewrite printed_app, printed_others, app_nil_r.
  - by rewrite drawn_app, drawn_others, app_nil_r.
  - exact (Hcalm n k _ HS Hr Hp Hq).
Qed.

Lemma attend_other fd k p : fd <> 0 -> attend d0 fd k p = (mkWorld [] [] patience, p).
Proof. intros Hne. unfold attend. rewrite (proj2 (Z.eqb_neq fd 0) Hne). by destruct (typists p). Qed.

(** A step of the program itself. *)
Lemma lived_step k v tr c r k' v' :
  let O := after F tr.*2 O0 in
  calm -> lived k v tr -> reads_keyboard c = false ->
  run_call d0 c k = Some (r, k') -> serves k' (next_call F c O) -> sees (next_call F c O) v' ->
  u_acts v' = u_acts v ++ outs (output (Call c)) -> lived k' v' (tr ++ [(true, Call c)]).
Proof.
  intros O Hcalm [Hrun HS Hv Hacts Hdr Hq] Hno E HS' Hv' Hacts'.
  assert ((tr ++ [(true, Call c)]).*2 = tr.*2 ++ [Call c]) as Etr by by rewrite fmap_app.
  split; rewrite ?Etr, ?after_app; try done.
  - intros H0. destruct (Hrun H0) as (rs & Hrs). exists (rs ++ [r]). rewrite run_os_all_app, Hrs.
    cbn [mbind option_bind run_os_all run_os]. by rewrite E.
  - rewrite Hacts', said_app, Hacts, printed_app, said_outs. cbn [printed]. by rewrite app_nil_r.
  - by rewrite Hacts', drawn_in_app, Hdr, drawn_in_outs, drawn_app.
  - cbn [after foldl next]. by apply next_call_quiet; [apply Hcalm|..].
Qed.

Lemma lives_call c k i v v' :
  calm -> lives (k, i) v -> reads_keyboard c = false -> (forall O, sees O v -> call_ok F c O) -> (forall O, sees O v -> sees (next_call F c O) v') ->
  u_acts v' = u_acts v ++ outs (output (Call c)) -> u_input v' = u_input v ->
  exists O r b k', sees O v /\ run_call d0 c k = Some (Value r b, k') /\ answers F c O r b /\ lives (k', i) v'.
Proof.
  intros Hcalm (Hin & tr & Hl) Hno Hok Hs Hacts Hin'. pose proof Hl as [_ HS Hv _ _ _]. cbn [fst] in *.
  destruct (serves_call A B F room d0 c k _ HS (Hok _ Hv)) as (r & b & k' & E & Hans & HS').
  exists (after F tr.*2 O0), r, b, k'. split; [done|]. split; [done|]. split; [done|].
  split; [by eapply attended_same|]. exists (tr ++ [(true, Call c)]).
  eapply lived_step; [done|exact Hl|exact Hno|exact E|exact HS'|by apply Hs|done].
Qed.

Lemma lives_owned k i v : lives (k, i) v -> exists n r, owned F k (u_fds v) n r.
Proof.
  intros (_ & tr & Hl). destruct (lived_serves _ _ _ Hl) as (O & HS & [Hr Hp Ha Ho Hi]). cbn [fst] in *.
  pose proof (serves_owned _ _ _ _ _ _ HS) as Hd. rewrite Hp, Ho in Hd. by do 2 eexists.
Qed.

Lemma sees_own O v m n r :
  sees O v -> sees (with_own m n r O) (mkSession (u_args v) m n (u_input v) (u_acts v)).
Proof. intros [Hr Hp Ha Ho Hl]. split; try done. cbn. rewrite Hp. apply upd_at_eq. Qed.

Lemma sees_acts O v acts ls : sees O v -> sees O (mkSession (u_args v) (u_fds v) (u_listed v) ls acts).
Proof. by intros []. Qed.

Lemma foldl_out_running text : forall D, ds_running (foldl (fun D c => step_desks (Out c) D) D text) = ds_running D.
Proof. induction text as [|c text IH]; intros D; [done|]. cbn [foldl]. by rewrite IH. Qed.

Lemma outs_nil (l : list act) : l = l ++ outs [].
Proof. by rewrite app_nil_r. Qed.

(** ** The laws *)

Context (Hfair : fair) (Hcalm : calm).
Notation calls := (preempted_calls d0 turns).

(** The others' turn and then the call [c]. *)
Lemma lives_turn_call c s v v' :
  lives s v -> reads_keyboard c = false -> (forall O, sees O v -> call_ok F c O) -> (forall O, sees O v -> sees (next_call F c O) v') ->
  u_acts v' = u_acts v ++ outs (output (Call c)) -> u_input v' = u_input v ->
  exists O r b k k', others_first d0 turns s = Some (k, later s.2) /\ sees O v /\
    run_call d0 c k = Some (Value r b, k') /\ answers F c O r b /\ lives (k', later s.2) v'.
Proof.
  intros Hl Hno Hok Hs Hacts Hin. destruct (lives_first s v Hfair Hcalm Hl) as (k & E & Hl1).
  destruct (lives_call c k _ v v' Hcalm Hl1 Hno Hok Hs Hacts Hin) as (O & r & b & k' & Hv & E' & Hans & Hl').
  by exists O, r, b, k, k'.
Qed.

(** The result of a read, from [run_call]. *)
Lemma run_call_read fd buf n k r b k' :
  run_call d0 (Read fd buf n) k = Some (Value r b, k') ->
  sys_read (mkWorld [] [] patience) fd (Some buf) n k = Some (r, Some b, k').
Proof.
  cbn [run_call]. destruct (sys_read _ fd _ n k) as [ [ [r' [b'|] ] k'']|]; [|done..].
  cbn [mbind option_bind]. by intros [= -> -> ->].
Qed.

Lemma call_value (x : option (Z * kernel)) (b0 : list Z) r b k' :
  ('(v, k) ← x; Some (Value v b0, k)) = Some (Value r b, k') -> x = Some (r, k') /\ b = b0.
Proof. destruct x as [ [v k]|]; [|done]. cbn [mbind option_bind]. by intros [= -> -> ->]. Qed.

Lemma lives_getargs s v buf nbytes :
  lives s v -> nbytes <= len buf ->
  exists s', ece391_getargs (Syscalls := calls) buf nbytes s =
    (if decide (u_args v <> [] /\ len (u_args v) < nbytes)
     then Some (0, splice buf 0 (u_args v ++ [0]), s') else Some (-1, buf, s')) /\ lives s' v.
Proof.
  intros Hl Hn. destruct (lives_turn_call (Getargs buf nbytes) s v v Hl eq_refl) as (O & r & b & k & k' & E & Hv & Ec & Hans & Hl');
    [done|done|apply outs_nil|done|]. exists (k', later s.2). split; [|exact Hl'].
  cbn [ece391_getargs preempted_calls]. rewrite E. cbn [mbind option_bind run_call answers] in *.
  destruct (sys_getargs buf nbytes k) as [ [ [r' b'] k'']|]; [|done]. cbn [mbind option_bind] in *.
  injection Ec as -> -> ->. rewrite (se_args _ _ Hv) in Hans. case_decide; by destruct Hans as [-> ->].
Qed.

Lemma lives_open s v name nm : lives s v -> cstring name 0 nm -> file_exists F nm ->
  exists s' r0, ece391_open (Syscalls := calls) name s = Some ((opening F nm (u_fds v) r0).1.1, s') /\
    lives s' (with_fds (opening F nm (u_fds v) r0).1.2 v).
Proof.
  intros Hl Hc Hex. destruct (lives_turn_call (Open name nm) s v (with_fds (opening F nm (u_fds v) 0).1.2 v) Hl eq_refl)
    as (O & r & b & k & k' & E & Hv & Ec & Hans & Hl'); [done| |apply outs_nil|done|].
  - intros O Hv. cbn [next_call]. rewrite (se_pid _ _ Hv), (se_open _ _ Hv).
    replace (opening F nm (u_fds v) (o_rate O me)).1.2 with (opening F nm (u_fds v) 0).1.2
      by (unfold opening; by repeat case_match).
    destruct (sees_own O v (opening F nm (u_fds v) 0).1.2 (o_listed O) (opening F nm (u_fds v) (o_rate O me)).2 Hv).
    split; try done. cbn. apply Hv.
  - exists (k', later s.2), 0. split; [|exact Hl']. cbn [ece391_open preempted_calls]. rewrite E.
    cbn [mbind option_bind run_call answers] in *. apply call_value in Ec as [-> _]. cbn [mbind option_bind].
    rewrite Hans, (se_pid _ _ Hv), (se_open _ _ Hv). unfold opening. by repeat case_match.
Qed.

Lemma lives_open_found s v name nm f :
  lives s v -> cstring name 0 nm -> found F nm = Some f ->
  match first_fd (u_fds v) with
  | Some fd => exists s', ece391_open (Syscalls := calls) name s = Some (fd, s') /\
      lives s' (with_fds (<[fd := f]> (u_fds v)) v)
  | None => exists s', ece391_open (Syscalls := calls) name s = Some (-1, s') /\ lives s' v
  end.
Proof.
  intros HR Hc Hf. destruct (lives_open s v name nm HR Hc (found_exists _ _ _ Hf)) as (s' & r & E & HR').
  assert (is_Some (find_entry F nm)) as [e He] by (unfold found in Hf; by destruct (find_entry F nm)).
  unfold opening in *. rewrite He, Hf in *. destruct (first_fd (u_fds v)); cbn [fst snd] in *; exists s'; [done|].
  split; [done|]. by destruct v.
Qed.

Lemma lives_absent s v name nm :
  lives s v -> cstring name 0 nm -> find_entry F nm = None ->
  exists s', ece391_open (Syscalls := calls) name s = Some (-1, s') /\ lives s' v.
Proof.
  intros HR Hc Hf. destruct (lives_open s v name nm HR Hc) as (s' & r & E & HR'); [intros e He; congruence|].
  unfold opening in *. rewrite Hf in *. cbn [fst snd] in *. exists s'. split; [done|]. by destruct v.
Qed.

(** The entry of an open descriptor. *)
Lemma lives_fd s v fd f : lives s v -> u_fds v !! fd = Some f ->
  2 <= fd < NUM_MAX_FILES /\ match f with FileAt c pos => 0 <= pos <= len c /\ Forall is_byte c | _ => True end.
Proof.
  destruct s as [k i]. intros Hl Hfd. destruct (lives_owned k i v Hl) as (n & r & [HR (l & _ & Hare) _ _ _]).
  destruct (fds_are_get F _ _ _ _ Hare Hfd) as (Hr & Hlt & e & _ & _ & He). split; [unfold MIN_FD_INDEX, NUM_MAX_FILES in *; lia|].
  destruct f as [c pos| |]; [|done..]. destruct He as (_ & Hc & _ & Hp). split; [done|]. by eapply file_bytes.
Qed.

Lemma lives_read_file s v fd c pos buf off n :
  lives s v -> u_fds v !! fd = Some (FileAt c pos) -> 0 <= off -> 0 <= n -> off + n <= len buf ->
  exists s', ece391_read (Syscalls := calls) fd buf off n s =
      Some (Z.min n (len c - pos), splice buf off (slice c pos (Z.min n (len c - pos))), s') /\
    lives s' (with_fds (<[fd := FileAt c (pos + Z.min n (len c - pos))]> (u_fds v)) v).
Proof.
  intros Hl Hfd Ho Hn Hb. destruct (lives_fd _ _ _ _ Hl Hfd) as [Hr [Hp _] ]. unfold NUM_MAX_FILES in Hr.
  destruct (lives_turn_call (Read fd (drop (Z.to_nat off) buf) n) s v
    (with_fds (<[fd := FileAt c (pos + Z.min n (len c - pos))]> (u_fds v)) v) Hl (proj2 (Z.eqb_neq fd 0) ltac:(lia)))
    as (O & r & b & k & k' & E & Hv & Ec & Hans & Hl'); [..|apply outs_nil|done|].
  - intros O Hv. cbn [call_ok]. rewrite (se_pid _ _ Hv), (se_open _ _ Hv), Hfd, length_drop. unfold NUM_MAX_FILES.
    split_and!; [lia|lia|intros ->; lia|lia].
  - intros O Hv. cbn [next_call]. rewrite (se_pid _ _ Hv), (se_open _ _ Hv), Hfd, (proj2 (Z.eqb_neq fd 0)) by lia.
    unfold reading_file. destruct (sees_own O v (<[fd := FileAt c (pos + Z.min n (len c - pos))]> (u_fds v)) (o_listed O) (o_rate O me) Hv).
    split; try done. apply Hv.
  - exists (k', later s.2). split; [|exact Hl']. cbn [ece391_read preempted_calls]. rewrite E. cbn [mbind option_bind]. rewrite attend_other by lia. cbn iota.
    rewrite (run_call_read _ _ _ _ _ _ _ Ec). cbn [mbind option_bind answers] in *.
    rewrite (se_pid _ _ Hv), (se_open _ _ Hv), Hfd, (proj2 (Z.eqb_neq fd 0)) in Hans by lia. destruct Hans as [-> ->].
    by rewrite take_splice_drop by (rewrite ?length_slice; lia).
Qed.

Lemma lives_read_dir s v fd buf n :
  lives s v -> u_fds v !! fd = Some Listing -> 0 <= n -> 33 <= len buf ->
  exists r buf' s', ece391_read (Syscalls := calls) fd buf 0 n s = Some (r, buf', s') /\
    Datatypes.length buf' = Datatypes.length buf /\
    match (a_entries F).[u_listed v] with
    | Some e => r = len (a_name e) /\ cstring buf' 0 (a_name e) /\ lives s' (with_listed (u_listed v + 1) v)
    | None => r = 0 /\ lives s' v
    end.
Proof.
  intros Hl Hfd Hn Hb. destruct (lives_fd _ _ _ _ Hl Hfd) as [Hr _]. unfold NUM_MAX_FILES in Hr.
  destruct (lives_turn_call (Read fd buf n) s v
    (match (a_entries F).[u_listed v] with Some _ => with_listed (u_listed v + 1) v | None => v end) Hl
    (proj2 (Z.eqb_neq fd 0) ltac:(lia)))
    as (O & r & b & k & k' & E & Hv & Ec & Hans & Hl').
  - intros O Hv. cbn [call_ok]. rewrite (se_pid _ _ Hv), (se_open _ _ Hv), Hfd. unfold NUM_MAX_FILES.
    split_and!; [lia|lia|intros ->; lia|lia].
  - intros O Hv. cbn [next_call]. rewrite (se_pid _ _ Hv), (se_open _ _ Hv), Hfd, (proj2 (Z.eqb_neq fd 0)), (se_listed _ _ Hv) by lia.
    destruct ((a_entries F).[u_listed v]).
    + destruct (sees_own O v (u_fds v) (u_listed v + 1) (o_rate O me) Hv). by split.
    + destruct (sees_own O v (u_fds v) (u_listed v) (o_rate O me) Hv). by split.
  - destruct ((a_entries F).[u_listed v]); apply outs_nil.
  - by destruct ((a_entries F).[u_listed v]).
  - exists r, b, (k', later s.2). cbn [ece391_read preempted_calls]. rewrite E. cbn [mbind option_bind]. rewrite attend_other by lia. cbn iota.
    change (drop (Z.to_nat 0) buf) with buf. change (take (Z.to_nat 0) buf) with (@nil Z).
    rewrite (run_call_read _ _ _ _ _ _ _ Ec). cbn [mbind option_bind answers app] in *. split; [done|].
    rewrite (se_pid _ _ Hv), (se_open _ _ Hv), Hfd, (proj2 (Z.eqb_neq fd 0)), (se_listed _ _ Hv) in Hans by lia.
    destruct ((a_entries F).[u_listed v]) as [e|]; [destruct Hans as (-> & Hc & Hlen)|destruct Hans as [-> ->] ]; done.
Qed.

Lemma lives_write s v buf off n :
  lives s v -> 0 <= off -> 0 <= n -> off + n <= len buf -> Forall is_byte (slice buf off n) ->
  exists s', ece391_write (Syscalls := calls) 1 buf off n s = Some (n, s') /\ lives s' (wrote (slice buf off n) v).
Proof.
  intros Hl Ho Hn Hb Hbytes.
  destruct (lives_turn_call (Write 1 (drop (Z.to_nat off) buf) n) s v (wrote (slice buf off n) v) Hl eq_refl)
    as (O & r & b & k & k' & E & Hv & Ec & Hans & Hl'); [..|done|done|].
  - intros O Hv. cbn [call_ok]. rewrite (se_pid _ _ Hv), (se_open _ _ Hv), length_drop. unfold NUM_MAX_FILES.
    split; [lia|]. split; [intros _; split; [lia|exact Hbytes]|].
    intros H. destruct (lives_fd _ _ _ _ Hl H) as [Hr _]. lia.
  - intros O [Hr Hp Ha Hop Hli]. cbn [next_call Z.eqb Pos.eqb].
    assert (forall D, D = foldl (fun D c => step_desks (Out c) D) (m_desks (o_mach O)) (take (Z.to_nat n) (drop (Z.to_nat off) buf)) ->
      ds_running D = running (o_mach O)) as Hrun by (intros D ->; apply foldl_out_running).
    split; cbn [o_mach o_open o_listed with_mach wrote u_args u_fds u_listed]; try done.
    + rewrite <- Hr. apply Hrun. done.
    + unfold pid_of in *. rewrite <- Hp. unfold running at 1. cbn [on_desks m_desks m_procs]. by rewrite (Hrun _ eq_refl).
    + unfold args_of in *. rewrite <- Ha. unfold running at 1. cbn [on_desks m_desks m_procs]. by rewrite (Hrun _ eq_refl).
  - exists (k', later s.2). split; [|exact Hl']. cbn [ece391_write preempted_calls]. rewrite E.
    cbn [mbind option_bind run_call answers Z.eqb Pos.eqb] in *. apply call_value in Ec as [-> _]. cbn [mbind option_bind].
    by rewrite Hans.
Qed.

Lemma lives_close s v fd f :
  lives s v -> u_fds v !! fd = Some f ->
  exists s', ece391_close (Syscalls := calls) fd s = Some (0, s') /\
    lives s' (with_fds (delete fd (u_fds v)) (match f with Listing => with_listed 0 v | _ => v end)).
Proof.
  intros Hl Hfd. destruct (lives_turn_call (Close fd) s v
    (with_fds (delete fd (u_fds v)) (match f with Listing => with_listed 0 v | _ => v end)) Hl eq_refl)
    as (O & r & b & k & k' & E & Hv & Ec & Hans & Hl'); [done| |by destruct f; apply outs_nil|by destruct f|].
  - intros O Hv. cbn [next_call]. rewrite (se_pid _ _ Hv), (se_open _ _ Hv), Hfd.
    destruct (sees_own O v (delete fd (u_fds v)) (closing_index f (o_listed O)) (closing_rate f (o_rate O me)) Hv).
    pose proof (se_listed _ _ Hv). by destruct f; split.
  - exists (k', later s.2). split; [|exact Hl']. cbn [ece391_close preempted_calls]. rewrite E.
    cbn [mbind option_bind run_call answers] in *. apply call_value in Ec as [-> _]. cbn [mbind option_bind].
    by rewrite Hans, (se_pid _ _ Hv), (se_open _ _ Hv), Hfd.
Qed.

(** The next line, and who types it. *)
Lemma lives_expects s v acts l rest : lives s v -> u_input v = (acts, l) :: rest ->
  exists y ys, typists s.2 = y :: ys /\ acts = [] /\ l = typed y /\ rest = expects ys /\ attentive y /\ Forall attentive ys.
Proof.
  intros ([Hgood Hin _] & _) E. rewrite Hin in E. destruct (typists s.2) as [|y ys]; [done|]. injection E as <- <- <-.
  exists y, ys. split_and!; try done; [exact (Forall_inv Hgood)|exact (Forall_inv_tail Hgood)].
Qed.

Lemma lives_line s v acts l rest : lives s v -> u_input v = (acts, l) :: rest ->
  has_newline l = true /\ Forall is_byte l /\ len l <= KEY_BUF_SIZE.
Proof. intros Hl E. destruct (lives_expects _ _ _ _ _ Hl E) as (y & ys & _ & _ & -> & _ & (H1 & H2 & H3 & _) & _). done. Qed.

Lemma after_turns_concat ts : forall O, after_turns F ts O = after F (concat ts) O.
Proof.
  induction ts as [|es ts IH]; intros O; [done|]. cbn [concat]. rewrite after_app. exact (IH (after F es O)).
Qed.

Lemma turns_pass_running p ts : forall O, turns_pass F p ts O -> running (o_mach (after_turns F ts O)) = running (o_mach O).
Proof. induction ts as [|es ts IH]; intros O H; [done|]. destruct H as (_ & _ & _ & <- & H). exact (IH _ H). Qed.

(** What the program sees after a read of the keyboard. *)
Lemma sees_read O O2 v buf n acts rest : sees O v -> undisturbed t O O2 -> running (o_mach O2) = t ->
  me ∈ (p_pid <$> m_procs (o_mach O) t) -> o_listed O2 = o_listed O -> sees (next_call F (Read 0 buf n) O2) (took acts rest v).
Proof.
  intros [Hr Hp Ha Ho Hl] Hu Hr2 Hme Hl2. destruct (undisturbed_pid _ _ _ Hu Hr Hr2) as [Hp2 Ha2].
  split; cbn [next_call Z.eqb Pos.eqb with_mach o_mach o_open o_listed took u_args u_fds u_listed].
  - exact Hr2.
  - rewrite <- Hp. exact Hp2.
  - rewrite <- Ha. exact Ha2.
  - by rewrite (ud_open _ _ _ Hu).
  - by rewrite Hl2.
Qed.

(** A read of the keyboard, whatever goes on while it waits. *)
Lemma lives_read_line s v acts l rest buf n :
  lives s v -> u_input v = (acts, l) :: rest -> 0 <= n -> len (taken l n) <= len buf ->
  exists s', ece391_read (Syscalls := calls) 0 buf 0 n s = Some (len (taken l n), splice buf 0 (taken l n), s') /\
    lives s' (took acts rest v).
Proof.
  intros Hl Hin Hn Hb. destruct (lives_first s v Hfair Hcalm Hl) as (k & E & Hl1).
  destruct (lives_expects _ _ _ _ _ Hl1 Hin) as (y & ys & Ey & -> & -> & -> & Hgood & Hgoods). cbn [snd] in Ey.
  destruct Hl1 as (Hatt & tr & Hld). pose proof Hld as [_ HS Hv Hacts Hdr Hq]. cbn [fst snd] in *. set (O := after F tr.*2 O0) in *.
  destruct Hgood as (Hnl & Hbytes & Hlen & Hy). destruct (Hy k O HS (se_running _ _ Hv) (se_pid _ _ Hv) Hq)
    as (Hts & Hl1 & Hlate & Hl2 & Hline & Hli & Hq2).
  set (O1 := after_turns F (waits y k) O) in *. set (O2 := after_turns F (late y k) O1) in *.
  destruct (read_after_turns A B F room d0 HB k O (waits y k) (late y k) patience patience buf n HS Hn Hts Hl1 Hlate Hl2)
    as (k2 & HS2 & Hu & Er).
  destruct (served_read_line A B F room d0 k2 O2 buf n HS2 Hn Hl2) as (a & b & k' & Ec & [-> ->] & HS'); [by rewrite Hline|].
  apply run_call_read in Ec. rewrite Hline in Ec.
  exists (k', mkPace (call_count (later s.2)) ys). split.
  - cbn [ece391_read preempted_calls]. rewrite E. cbn [mbind option_bind]. unfold attend. rewrite Ey. cbn [Z.eqb].
    change (drop (Z.to_nat 0) buf) with buf. change (take (Z.to_nat 0) buf) with (@nil Z).
    fold O1 in Er. rewrite Er, Ec. done.
  - split.
    + split; cbn [snd typists]; [exact Hgoods|done|]. intros H0. pose proof (at_none _ _ Hatt H0) as Hno. cbn in Ey, Hno. congruence.
    + exists (tr ++ (pair false <$> concat (waits y k) ++ concat (late y k)) ++ [(true, Call (Read 0 buf n))]). cbn [fst].
      assert (forall es : list os_event, (pair false <$> es).*2 = es) as Eo
        by (intros es; rewrite <- list_fmap_compose; apply list_fmap_id).
      assert (after F ((tr ++ (pair false <$> concat (waits y k) ++ concat (late y k)) ++ [(true, Call (Read 0 buf n))]).*2) O0 =
        next_call F (Read 0 buf n) O2) as EO.
      { rewrite (fmap_app snd), (fmap_app snd), Eo, !after_app. fold O. by rewrite <- !after_turns_concat. }
      split; rewrite ?EO; [|exact HS'| | | |exact Hq2].
      * intros H0. pose proof (at_none _ _ Hatt H0) as Hno. cbn in Ey, Hno. congruence.
      * apply (sees_read O); [exact Hv|by rewrite <- (se_running _ _ Hv)| | |exact Hli].
        -- unfold O2, O1. by rewrite (turns_pass_running false), (turns_pass_running true), (se_running _ _ Hv).
        -- exact (own_seat k O HS (se_running _ _ Hv) (se_pid _ _ Hv)).
      * rewrite !printed_app, printed_others, <- Hacts. unfold took. cbn [u_acts printed output app].
        by rewrite said_app.
      * rewrite !drawn_app, drawn_others, <- Hdr. unfold took. cbn [u_acts drawn stores app].
        by rewrite drawn_in_app.
Qed.

(** The kernel, with everything else on it, as a provider of the calls. *)
Lemma live_laws s v : lives s v -> FileLaws (H := calls) F lives.
Proof.
  intros (Hin0 & tr0 & Hl0). destruct (lived_serves _ _ _ Hl0) as (O' & HS' & _).
  pose proof (mo_image _ _ _ _ _ _ (sv_models _ _ _ _ _ _ HS')) as Hrep. split.
  - apply lives_getargs.
  - intros s1 v1 (_ & tr & Hl). destruct (lived_serves _ _ _ Hl) as (O & HS & Hv).
    destruct (serves_block A B F room s1.1 O HS) as (b & _ & Hc). rewrite (se_args _ _ Hv) in Hc. by destruct Hc as (_ & ? & _).
  - apply lives_open_found.
  - apply lives_absent.
  - intros s1 v1 fd c pos HR Hfd. by destruct (lives_fd _ _ _ _ HR Hfd).
  - apply lives_read_file.
  - apply lives_read_dir.
  - apply lives_line.
  - apply lives_read_line.
  - apply lives_write.
  - intros s1 v1 fd f HR Hfd _. by apply lives_close.
  - by eapply entry_names.
Qed.

(** A call that changes nothing but may still come after the others' turn. *)
Lemma lives_first_owned s v : lives s v ->
  exists k n r, others_first d0 turns s = Some (k, later s.2) /\ lives (k, later s.2) v /\ owned F k (u_fds v) n r.
Proof.
  intros Hl. destruct (lives_first s v Hfair Hcalm Hl) as (k & E & Hl1). destruct (lives_owned k _ v Hl1) as (n & r & Hd).
  by exists k, n, r.
Qed.

Lemma lives_clock_wait s v fd buf n :
  lives s v -> u_fds v !! fd = Some Files.Clock -> 0 <= n ->
  exists s', ece391_read (Syscalls := calls) fd buf 0 n s = Some (0, buf, s') /\ lives s' v.
Proof.
  intros Hl Hfd Hn. destruct (lives_fd _ _ _ _ Hl Hfd) as [Hr _]. unfold NUM_MAX_FILES in Hr.
  destruct (lives_turn_call (Read fd buf n) s v v Hl (proj2 (Z.eqb_neq fd 0) ltac:(lia))) as (O & r & b & k & k' & E & Hv & Ec & Hans & Hl');
    [..|apply outs_nil|done|].
  - intros O Hv. cbn [call_ok]. rewrite (se_pid _ _ Hv), (se_open _ _ Hv), Hfd. unfold NUM_MAX_FILES.
    split_and!; [lia|lia|intros ->; lia|done].
  - intros O Hv. cbn [next_call]. rewrite (se_pid _ _ Hv), (se_open _ _ Hv), Hfd, (proj2 (Z.eqb_neq fd 0)) by lia.
    destruct (clock_steps_own F (waits_for (m_clock (o_mach O)) (o_rate O me)) O) as (E1 & E2 & E3).
    destruct Hv as [Hrun Hp Ha Ho Hi]. split; [by rewrite E3| | |by rewrite E1|].
    + unfold pid_of in *. by rewrite E2, E3.
    + unfold args_of in *. by rewrite E2, E3.
    + rewrite <- Hi. generalize (waits_for (m_clock (o_mach O)) (o_rate O me)). intros w. clear.
      induction w as [|w IH]; [done|exact IH].
  - exists (k', later s.2). split; [|exact Hl']. cbn [ece391_read preempted_calls]. rewrite E. cbn [mbind option_bind]. rewrite attend_other by lia. cbn iota.
    change (drop (Z.to_nat 0) buf) with buf. change (take (Z.to_nat 0) buf) with (@nil Z).
    rewrite (run_call_read _ _ _ _ _ _ _ Ec). cbn [mbind option_bind answers app] in *.
    rewrite (se_pid _ _ Hv), (se_open _ _ Hv), Hfd, (proj2 (Z.eqb_neq fd 0)) in Hans by lia. by destruct Hans as [-> ->].
Qed.

Lemma lives_clock_rate s v fd buf n w :
  lives s v -> u_fds v !! fd = Some Files.Clock -> ld32 buf 0 = Some w -> rate_ok (s32 w) ->
  exists s', ece391_write (Syscalls := calls) fd buf 0 n s = Some (0, s') /\ lives s' v.
Proof.
  intros Hl Hfd Hw Hok. destruct (lives_fd _ _ _ _ Hl Hfd) as [Hr _]. unfold NUM_MAX_FILES in Hr.
  destruct (lives_turn_call (Write fd buf n) s v v Hl eq_refl) as (O & r & b & k & k' & E & Hv & Ec & Hans & Hl'); [..|done|].
  - intros O Hv. cbn [call_ok]. unfold NUM_MAX_FILES. split; [lia|]. split; [intros ->; lia|]. intros _. by exists w.
  - intros O Hv. cbn [next_call]. rewrite (se_pid _ _ Hv), (se_open _ _ Hv), Hfd, Hw, (proj2 (Z.eqb_neq fd 1)), decide_True by (lia || done).
    destruct (sees_own O v (u_fds v) (o_listed O) (s32 w) Hv). split; try done. apply Hv.
  - cbn [output]. rewrite (proj2 (Z.eqb_neq fd 1)) by lia. apply outs_nil.
  - exists (k', later s.2). split; [|exact Hl']. cbn [ece391_write preempted_calls]. rewrite E.
    change (drop (Z.to_nat 0) buf) with buf. cbn [mbind option_bind run_call answers] in *.
    apply call_value in Ec as [-> _]. cbn [mbind option_bind].
    rewrite (proj2 (Z.eqb_neq fd 1)), (se_pid _ _ Hv), (se_open _ _ Hv), Hfd, Hw, decide_True in Hans by (lia || done).
    by rewrite Hans.
Qed.

Lemma live_clock : ClockLaws (H := calls) lives.
Proof. split; [apply lives_clock_rate|apply lives_clock_wait]. Qed.

Lemma lives_read_stdout s v buf off n :
  lives s v -> exists s', ece391_read (Syscalls := calls) 1 buf off n s = Some (-1, buf, s') /\ lives s' v.
Proof.
  intros Hl. destruct (lives_first s v Hfair Hcalm Hl) as (k & E & Hin & tr & Hld). cbn [fst] in Hld.
  pose proof Hld as [_ HS Hv _ _ _]. set (O := after F tr.*2 O0) in *.
  destruct (call_read_stdout F (mkWorld [] [] patience) k _ _ _ (Some (drop (Z.to_nat off) buf)) n (serves_owned _ _ _ _ _ _ HS))
    as (k' & E' & Ho & Hd).
  exists (k', later s.2). cbn [ece391_read preempted_calls]. rewrite E. cbn [mbind option_bind]. rewrite attend_other by lia. cbn iota. rewrite E'.
  cbn [mbind option_bind]. rewrite take_drop. split; [done|]. split; [done|].
  exists (tr ++ [(true, Call (Read 1 (drop (Z.to_nat off) buf) n))]). cbn [fst].
  assert (next_call F (Read 1 (drop (Z.to_nat off) buf) n) O = O) as Enext.
  { cbn [next_call Z.eqb Pos.eqb]. rewrite (se_pid _ _ Hv), (se_open _ _ Hv).
    destruct (u_fds v !! 1) as [f|] eqn:Ef; [|done]. destruct (lives_fd _ _ _ _ (conj Hin (ex_intro _ tr Hld) : lives (k, later s.2) v) Ef). lia. }
  eapply lived_step; [exact Hcalm|exact Hld|reflexivity| | | |apply outs_nil]; fold O; rewrite ?Enext; [|..|exact Hv].
  - cbn [run_call]. rewrite E'. cbn [mbind option_bind]. done.
  - apply with_own_same. eapply serves_own; [exact HS|exact Ho|exact Hd].
Qed.

Lemma live_refusals entry : RefusalLaws (H := calls) (H0 := preempted_raw d0 turns entry) lives.
Proof.
  split; intros s v.
  - intros fd buf off n Hl Hno. destruct (lives_first_owned s v Hl) as (k & i & r & E & Hl1 & Hd).
    exists (k, later s.2). split; [|done]. cbn [ece391_read preempted_calls]. rewrite E. cbn [mbind option_bind].
    rewrite attend_other by (unfold not_open in Hno; lia). cbn iota.
    destruct (call_refused F (mkWorld [] [] patience) k _ _ _ fd (Some (drop (Z.to_nat off) buf)) n Hd Hno) as (-> & _).
    cbn [mbind option_bind]. by rewrite take_drop.
  - intros fd buf off n Hl Hfd. destruct (lives_first_owned s v Hl) as (k & i & r & E & Hl1 & Hd).
    exists (k, later s.2). split; [|done]. cbn [ece391_write preempted_calls]. rewrite E. cbn [mbind option_bind].
    destruct Hfd as [->|Hno]; [by rewrite (call_write_refused F k _ _ _ 0 _ n Hd) by (by left)|].
    by destruct (call_refused F (mkWorld [] [] patience) k _ _ _ fd (Some (drop (Z.to_nat off) buf)) n Hd Hno) as (_ & -> & _).
  - intros fd Hl Hfd. destruct (lives_first_owned s v Hl) as (k & i & r & E & Hl1 & Hd).
    exists (k, later s.2). split; [|done]. cbn [ece391_close preempted_calls]. rewrite E. cbn [mbind option_bind].
    destruct Hfd as [->|[->|Hno] ]; [done|done|].
    by destruct (call_refused F (mkWorld [] [] patience) k _ _ _ fd None 0 Hd Hno) as (_ & _ & ->).
  - intros buf off n. apply lives_read_stdout.
  - intros p Hl Hp. destruct (lives_turn_call (Vidmap p) s v v Hl eq_refl) as (O & r & b & k & k' & E & Hv & Ec & Hans & Hl');
      [intros ? _; by left|done|apply outs_nil|done|].
    exists (k', later s.2). split; [|exact Hl']. cbn [ece391_vidmap preempted_raw]. rewrite E.
    cbn [mbind option_bind run_call answers] in *. rewrite decide_False in Hans by lia. destruct Hans as [-> ->].
    destruct (sys_vidmap p k) as [ [ [r w] k'']|]; [|done]. cbn [mbind option_bind] in *.
    destruct w as [w|]; [congruence|]. by injection Ec as -> ->.
  - intros n Hl Hn. destruct (lives_first_owned s v Hl) as (k & i & r & E & Hl1 & Hd).
    exists (k, later s.2). split; [|done]. cbn [call_sys preempted_raw]. rewrite E. cbn [mbind option_bind].
    unfold sys_call, SYS_MAX. destruct (Z.ltb_spec 10 n), (Z.ltb_spec n 1); done || lia.
Qed.

Lemma live_video entry : VideoLaws (H := preempted_raw d0 turns entry) lives.
Proof.
  intros s v p Hl Hp. destruct (lives_turn_call (Vidmap p) s v v Hl eq_refl) as (O & r & b & k & k' & E & Hv & Ec & Hans & Hl');
    [intros ? _; cbn [call_ok]; lia|done|apply outs_nil|done|].
  exists (k', later s.2). split; [|done]. cbn [ece391_vidmap preempted_raw]. rewrite E.
  cbn [mbind option_bind run_call answers] in *. rewrite decide_True in Hans by lia. destruct Hans as [-> ->].
  destruct (sys_vidmap p k) as [ [ [r w] k'']|]; [|done]. cbn [mbind option_bind] in *.
  destruct w as [w|]; [|congruence]. by injection Ec as -> -> ->.
Qed.

(** A store in the mapped page, if that keeps the desks quiet too. *)
Lemma live_screen :
  (forall D off c, quiet D -> quiet (step_desks (Poke off c) D)) -> ScreenLaws (H := preempted_screen d0 turns) lives.
Proof.
  intros Hpoke s v off c Hl Hoff. destruct (lives_first s v Hfair Hcalm Hl) as (k & E & Hin & tr & Hld). cbn [fst snd] in *.
  pose proof Hld as [Hrun HS Hv Hacts Hdr Hq]. set (O := after F tr.*2 O0) in *. set (e := Sys (Input (Poke off (u8 c)))).
  destruct (serves_step A B F room d0 HB e k O HS) as (r & k' & Ek & _ & HS'); [by split; [|apply u8_range]|].
  exists (k', later s.2). split.
  - unfold put_byte, preempted_screen. rewrite E. cbn [mbind option_bind].
    replace (USER_VIDEO + off - USER_VIDEO) with off by lia. revert Ek. unfold e. cbn [run_os run_sys].
    destruct (run_event (Poke off (u8 c)) k) as [k1|]; [|done]. cbn [mbind option_bind]. by intros [= _ ->].
  - split; [by destruct Hin|]. exists (tr ++ [(true, e)]). cbn [fst].
    assert ((tr ++ [(true, e)]).*2 = tr.*2 ++ [e]) as Etr by by rewrite fmap_app.
    split; rewrite ?Etr, ?after_app; try done.
    + intros H0. destruct (Hrun H0) as (rs & Hrs). exists (rs ++ [r]). rewrite run_os_all_app, Hrs.
      cbn [mbind option_bind run_os_all]. by rewrite Ek.
    + by destruct Hv.
    + cbn [poked u_acts]. by rewrite said_app, Hacts, said_pokes, printed_app.
    + cbn [poked u_acts]. by rewrite drawn_in_app, Hdr, drawn_in_pokes, drawn_app.
    + by apply Hpoke.
Qed.

(** The session a program starts with: the lines that will be typed are known. *)
Definition session_typed (ys : list typist) : session :=
  mkSession (args_of (o_mach O0)) (o_open O0 me) (o_listed O0) (expects ys) [].
Definition session_of : session := session_typed [].

Lemma lives_start : serves k0 O0 -> Forall attentive ys0 -> quiet (m_desks (o_mach O0)) ->
  lives (k0, begin ys0) (session_typed ys0).
Proof. intros HS Hys Hq. split; [by split|]. exists []. by split; [exists []|..]. Qed.

(** The end of a program, in the session it has come to. *)
Lemma lives_ends s v : lives s v -> exists tr, (ys0 = [] -> exists rs, run_os_all d0 tr.*2 k0 = Some (rs, s.1)) /\
  printed tr = said (u_acts v) /\ serves s.1 (after F tr.*2 O0) /\ sees (after F tr.*2 O0) v.
Proof. intros (_ & tr & [Hrun HS Hv Hacts _ _]). by exists tr. Qed.

Lemma lives_end s v text : ys0 = [] -> lives s (wrote text v) -> u_acts v = [] ->
  exists tr rs, run_os_all d0 tr.*2 k0 = Some (rs, s.1) /\ printed tr = text /\
    serves s.1 (after F tr.*2 O0) /\ sees (after F tr.*2 O0) v.
Proof.
  intros H0 Hl Hv0. destruct (lives_ends _ _ Hl) as (tr & Hrun & Hp & HS & Hv). destruct (Hrun H0) as (rs & Hrs).
  exists tr, rs. split; [done|]. split; [|split; [done|by destruct Hv] ].
  rewrite Hp. cbn [wrote u_acts]. by rewrite Hv0, app_nil_l, said_outs.
Qed.

(** The end of a program that has only drawn. *)
Lemma lives_drew s v l : ys0 = [] -> lives s (poked l v) -> u_acts v = [] ->
  exists tr rs, run_os_all d0 tr.*2 k0 = Some (rs, s.1) /\ printed tr = [] /\ drawn tr = l /\
    serves s.1 (after F tr.*2 O0) /\ sees (after F tr.*2 O0) v.
Proof.
  intros H0 (_ & tr & [Hrun HS Hv Hacts Hdr _]) Hv0. destruct (Hrun H0) as (rs & Hrs). exists tr, rs.
  cbn [poked u_acts] in *. rewrite Hv0, app_nil_l, ?said_pokes, ?drawn_in_pokes in *.
  split_and!; try done. by destruct Hv.
Qed.
End preempt.

(** Without typing there is nothing to keep quiet. *)
Lemma nobody_types A B F room d0 turns k O : serves A B F room k O ->
  lives A B F room d0 k O (fun _ => True) [] (k, begin []) (session_of O) /\ calm A B F room turns O (fun _ => True).
Proof. intros HS. split; [|by split_and!]. by apply lives_start. Qed.

(** ** A sample *)

Lemma halted_running F status st O : running (o_mach (halted F status st O)) = running (o_mach O).
Proof.
  unfold halted, spec_halt. destruct (m_procs (o_mach O) (running (o_mach O))) as [|p [|q l] ]; [done| |done].
  by destruct (executable F shell_string) as [ [ino c]|].
Qed.

Lemma next_running F e O : match e with Sys (Tick _ _ _) => False | _ => True end ->
  running (o_mach (next F e O)) = running (o_mach O).
Proof.
  intros He. destruct e as [ [e| |k_esp k_ebp st|command s st|status st|junk id err_code msg st]|c]; cbn [next next_sys spec_step].
  - apply step_desks_running.
  - cbn. unfold running, blink. cbn. by repeat case_match.
  - done.
  - unfold spec_exec. destruct (executable F (command_name s)) as [ [ino c]|]; [|done]. by destruct (free_pid _).
  - apply halted_running.
  - rewrite halted_running. done.
  - destruct c as [buf nbytes|name nm|fd|fd buf nbytes|fd buf nbytes|p]; cbn [next_call]; [done|done|by case_match| | |done].
    + destruct (fd =? 0); [done|]. destruct (_ !! fd) as [ [c pos| |]|]; try done.
      by destruct (clock_steps_own F (waits_for (m_clock (o_mach O)) (o_rate O (pid_of (o_mach O)))) O) as (_ & _ & ->).
    + destruct (fd =? 1); [apply foldl_out_running|]. by repeat case_match.
Qed.

Definition is_tick (e : os_event) : bool := match e with Sys (Tick _ _ _) => true | _ => false end.

(** Events that do not touch the directory's position. *)
Definition no_listing (e : os_event) : bool :=
  match e with
  | Sys (Input _) | Sys System.Clock | Sys (Tick _ _ _) | Sys (Exec _ _ _)
  | Call (Getargs _ _) | Call (Open _ _) | Call (Write _ _ _) | Call (Vidmap _) => true
  | _ => false
  end.

Lemma next_listed F e O : no_listing e = true -> o_listed (next F e O) = o_listed O.
Proof.
  destruct e as [ [e| |k_esp k_ebp st|command s st|status st|junk id err_code msg st]|c]; try done.
  - intros _. cbn [next next_sys]. destruct (executable F (command_name s)) as [ [ino c]|]; [|done]. by destruct (free_pid _).
  - destruct c as [buf nbytes|name nm|fd|fd buf nbytes|fd buf nbytes|p]; try done. intros _. cbn [next next_call].
    destruct (fd =? 1); [done|]. destruct (_ !! fd) as [ [c pos| |]|]; try done. destruct (ld32 buf 0); [|done]. by case_decide.
Qed.

Lemma after_listed F es : forall O, forallb no_listing es = true -> o_listed (after F es O) = o_listed O.
Proof.
  induction es as [|e es IH]; intros O H; [done|]. cbn [forallb] in H. apply andb_true_iff in H as [He H].
  cbn [after foldl]. etransitivity; [by apply IH|]. by apply next_listed.
Qed.

Lemma quiet_elsewhere F t es : forall O, forallb (fun e => negb (is_tick e)) es = true -> running (o_mach O) <> t ->
  elsewhere F t es O /\ running (o_mach (after F es O)) = running (o_mach O).
Proof.
  induction es as [|e es IH]; intros O H Hne; [done|]. cbn [forallb] in H. apply andb_true_iff in H as [He H].
  assert (running (o_mach (next F e O)) = running (o_mach O)) as Er.
  { apply next_running. by destruct e as [ []|]. }
  destruct (IH (next F e O) H) as [Hel Hr]; [by rewrite Er|]. split; [split; [by right|done]|].
  cbn [after foldl]. etransitivity; [exact Hr|exact Er].
Qed.

Lemma elsewhere_app F t es1 es2 : forall O,
  elsewhere F t es1 O -> elsewhere F t es2 (after F es1 O) -> elsewhere F t (es1 ++ es2) O.
Proof.
  induction es1 as [|e es1 IH]; intros O H1 H2; [done|]. destruct H1 as [He H1]. split; [done|]. by apply IH.
Qed.

Lemma os_events_ok_app F es1 es2 : forall O,
  os_events_ok F (es1 ++ es2) O <-> os_events_ok F es1 O /\ os_events_ok F es2 (after F es1 O).
Proof.
  induction es1 as [|e es1 IH]; intros O; [by split; [|intros [_ H] ]|]. cbn [app os_events_ok]. rewrite IH. tauto.
Qed.

(** A tick, something on the next terminal, and two more ticks. *)
Definition round_trip (a b c : Z * Z) (st : frame) (es : list os_event) : list os_event :=
  Sys (Tick a.1 a.2 st) :: es ++ [Sys (Tick b.1 b.2 st); Sys (Tick c.1 c.2 st)].

Section round_trip.
Context (A B : Z) (F : afs) (room : Z) (d0 : dentry_t) (HB : bootable F room).
Notation serves := (serves A B F room).

Lemma tick_running k O k_esp k_ebp st : serves k O ->
  running (o_mach (next F (Sys (Tick k_esp k_ebp st)) O)) = next_of (running (o_mach O)).
Proof.
  intros HS. pose proof (mo_family _ _ _ _ _ _ (sv_models _ _ _ _ _ _ HS)) as HF.
  cbn [next next_sys spec_step with_mach o_mach]. unfold spec_tick.
  destruct (family_cur _ _ _ _ _ _ HF) as (p & l & Ep & _). rewrite Ep.
  destruct (stack_nonempty _ _ _ _ _ _ HF _ (proj1 (next_of_range _ (fa_running _ _ _ _ _ _ HF)))) as (p' & l' & Ep').
  by rewrite Ep'.
Qed.

Lemma round_trip_elsewhere k O a b c st es :
  serves k O -> os_events_ok F (round_trip a b c st es) O -> forallb (fun e => negb (is_tick e)) es = true ->
  elsewhere F (running (o_mach O)) (round_trip a b c st es) O /\
  running (o_mach (after F (round_trip a b c st es) O)) = running (o_mach O).
Proof.
  intros HS [He Hok] Hq. apply os_events_ok_app in Hok as [Hok1 [Hb _] ].
  pose proof (tick_running k O a.1 a.2 st HS) as E1. pose proof (fa_running _ _ _ _ _ _ (mo_family _ _ _ _ _ _ (sv_models _ _ _ _ _ _ HS))) as Hr.
  destruct (serves_step A B F room d0 HB _ k O HS He) as (r1 & k1 & _ & _ & HS1). set (O1 := next F (Sys (Tick a.1 a.2 st)) O) in *.
  assert (next_of (running (o_mach O)) <> running (o_mach O) /\ next_of (next_of (running (o_mach O))) <> running (o_mach O) /\
    next_of (next_of (next_of (running (o_mach O)))) = running (o_mach O)) as (Hn1 & Hn2 & Hn3).
  { destruct (term_cases _ Hr) as [-> | [-> | ->] ]; by vm_compute. }
  destruct (quiet_elsewhere F (running (o_mach O)) es O1 Hq) as [Hel E2]; [by rewrite E1|].
  destruct (serves_steps A B F room d0 HB es k1 O1 HS1 Hok1) as (rs2 & k2 & _ & _ & HS2).
  pose proof (tick_running k2 _ b.1 b.2 st HS2) as E3.
  destruct (serves_step A B F room d0 HB _ k2 _ HS2 Hb) as (r3 & k3 & _ & _ & HS3).
  pose proof (tick_running k3 _ c.1 c.2 st HS3) as E4.
  split.
  - split; [by left|]. apply elsewhere_app; [exact Hel|]. split; [by left|]. split; [by left|done].
  - unfold round_trip, after. cbn [foldl]. rewrite foldl_app. cbn [foldl]. etransitivity; [exact E4|].
    etransitivity; [exact (f_equal next_of E3)|]. by rewrite E2, E1.
Qed.
End round_trip.

(** Another shell starts a program with a clock of its own, a key is pressed; on
    every second call only the clock interrupts. *)
Definition sample_elsewhere : list os_event :=
  [Sys (Exec [115; 104; 101; 108; 108; 0] [115; 104; 101; 108; 108] sample_frame);
   Call (Open [114; 116; 99; 0] [114; 116; 99]); Call (Write 2 [64; 0; 0; 0] 4); Call (Open [46; 0] [46]);
   Call (Write 1 [62; 32; 0; 0] 2); Sys System.Clock; Sys (Input (Key 0x26)); Call (Vidmap 0)].

(** [es] on the next terminal on every second call, and else only the clock. *)
Definition turns_of (es : list os_event) (n : nat) (k : kernel) : list os_event :=
  if Nat.even n then round_trip (1, 2) (3, 4) (5, 6) sample_frame es else [Sys System.Clock].

Definition sample_turns : nat -> kernel -> list os_event := turns_of sample_elsewhere.

Lemma sample_turns_ok n k O : os_events_ok sample_fs (sample_turns n k) O.
Proof.
  unfold sample_turns, turns_of, round_trip, sample_elsewhere.
  destruct (Nat.even n); cbn [app os_events_ok os_event_ok sys_event_ok event_ok call_ok fst snd].
  - repeat match goal with |- _ /\ _ => apply conj end; try sample_condition.
  - done.
Qed.

Lemma turns_of_fair es O0 :
  (forall n k O, os_events_ok sample_fs (turns_of es n k) O) -> forallb (fun e => negb (is_tick e)) es = true ->
  forallb no_listing es = true -> fair 0x410000 0x412000 sample_fs 40 (turns_of es) O0.
Proof.
  intros Hoks Ht Hl n k O HS Hr _. pose proof (Hoks n k O) as Hok. split; [done|]. rewrite <- Hr.
  unfold turns_of in *. destruct (Nat.even n).
  - destruct (round_trip_elsewhere _ _ _ _ null_dentry sample_bootable k O _ _ _ _ _ HS Hok Ht) as [He Hr'].
    split; [exact He|]. split; [exact Hr'|]. apply after_listed. unfold round_trip. cbn [forallb no_listing andb].
    by rewrite forallb_app, Hl.
  - split; [by split; [left|]|]. split; [|done]. by apply (next_running sample_fs (Sys System.Clock) O).
Qed.

Lemma sample_turns_fair O0 : fair 0x410000 0x412000 sample_fs 40 sample_turns O0.
Proof. by apply turns_of_fair; [apply sample_turns_ok|..]. Qed.
