(* ===== verification/Pingpong.v ===== *)
(** The user program pingpong, [src/syscalls/ece391pingpong.c]: a letter that runs
    to the right wall and back, a line of the screen per tick of its clock, and
    with every round trip the next letter, forever.

    Its [main] has no end, so the model is cut off after any number of round trips;
    the theorem says what it has printed by then. *)
From stdpp Require Import base option list numbers gmap.
From Stdlib Require Import ZArith Lia Ascii String.
From S2P Require Import Prelude LibString FileSystem Rtc Idt Files User.

Definition SCREENWIDTH : Z := 79.
Definition ENDING : Z := 2.
Definition BUFMAX : Z := SCREENWIDTH + ENDING.
Definition START : Z := 1.
Definition STARTLOOP : Z := START + 1.
Definition LOOPMAX : Z := SCREENWIDTH + ENDING - ENDING - 1.   (* the macros have no parentheses *)
Definition STARTCHAR : Z := 65.
Definition ENDCHAR : Z := 90.

(** [for (i = hi; i >= lo; i--)] *)
Definition for_down {S} (lo hi : Z) (body : Z -> S -> option S) (s : S) : option S :=
  iterate (Datatypes.S (Z.to_nat (hi - lo + 1)))
    (fun '(i, s) => if lo <=? i then s ← body i s; Some (Next (i - 1, s)) else Some (Done s)) (hi, s).

Section pingpong.
Context {S : Type} {HS : Syscalls S}.

(** The uninitialised buffer with its walls. *)
Definition walls (buf : list Z) : option (list Z) :=
  buf ← for_range 0 BUFMAX (fun i buf => buf.[i := 32]) buf;
  buf ← buf.[BUFMAX - 1 := 0];
  buf ← buf.[BUFMAX - 2 := 10];
  buf ← buf.[BUFMAX - 3 := 124];
  buf.[START := 124].

(** One line, and the wait for the clock; both directions have the same body. *)
Definition pingpong_line (rtc_fd curchar j : Z) : list Z * list Z * S -> option (list Z * list Z * S) :=
  fun '(buf, garbage, s) =>
    buf ← for_range STARTLOOP LOOPMAX (fun i buf => buf.[i := 32]) buf;
    buf ← buf.[j := curchar];
    s ← ece391_fdputs 1 buf 0 s;
    '(_, garbage, s) ← ece391_read rtc_fd garbage 0 4 s;
    Some (buf, garbage, s).

Definition round (rtc_fd : Z) : Z * (list Z * list Z * S) -> option (Z * (list Z * list Z * S)) :=
  fun '(curchar, st) =>
    st ← for_range STARTLOOP LOOPMAX (pingpong_line rtc_fd curchar) st;
    st ← for_down STARTLOOP (LOOPMAX - 1) (pingpong_line rtc_fd curchar) st;
    Some (if curchar =? ENDCHAR then STARTCHAR else u8 (curchar + 1), st).

(** The first [rounds] round trips. *)
Definition pingpong (rounds : nat) (buf garbage : list Z) (s : S) : option S :=
  buf ← walls buf;
  '(rtc_fd, s) ← ece391_open (bytes "rtc" ++ [0]) s;
  '(_, s) ← ece391_write rtc_fd (le32 32) 0 4 s;
  '(_, (_, _, s)) ← for_range 0 (Z.of_nat rounds) (fun _ => round rtc_fd) (STARTCHAR, (buf, garbage, s));
  Some s.
End pingpong.

(** ** What it prints *)

(** The letter [c] in column [j]. *)
Definition court (c j : Z) : list Z :=
  [32; 124] ++ replicate (Z.to_nat (j - STARTLOOP)) 32 ++ [c] ++ replicate (Z.to_nat (LOOPMAX - 1 - j)) 32 ++ [124; 10].

(** The columns of a round trip. *)
Definition there : list Z := seqZ STARTLOOP (LOOPMAX - STARTLOOP).
Definition trip (c : Z) : list Z := mjoin (court c <$> there ++ reverse there).

Definition letter (n : nat) : Z := STARTCHAR + Z.of_nat n mod 26.
Definition trips (n : nat) : list Z := mjoin ((fun i => trip (letter i)) <$> seq 0 n).

(** ** Lemmas *)

Lemma for_down_ind {S} (P : Z -> S -> Prop) (body : Z -> S -> option S) lo hi s :
  lo <= hi + 1 -> P hi s ->
  (forall k s, lo <= k <= hi -> P k s -> exists s', body k s = Some s' /\ P (k - 1) s') ->
  exists s', for_down lo hi body s = Some s' /\ P (lo - 1) s'.
Proof.
  intros Hle Hs Hb. unfold for_down.
  destruct (iterate_ind (fun '(i, s) => lo - 1 <= i <= hi /\ P i s) (fun s => P (lo - 1) s) (fun '(i, _) => Z.to_nat (i - lo + 1))
    (fun '(i, s) => if lo <=? i then s ← body i s; Some (Next (i - 1, s)) else Some (Done s))
    (Datatypes.S (Z.to_nat (hi - lo + 1)))) with (s := (hi, s))
    as (s' & E & H); [|split; [lia|done]|lia|by exists s'].
  intros [i s1] [Hi H1]. destruct (Z.leb_spec lo i) as [Hl|Hl].
  - destruct (Hb i s1) as (s2 & -> & H2); [lia|done|]. cbn [mbind option_bind]. eexists; split; [done|]. cbv beta iota.
    split; [|lia]. split; [lia|done].
  - eexists; split; [done|]. cbv beta iota. by replace (lo - 1) with i by lia.
Qed.

(** The walls, with nothing between them. *)
Definition empty_court : list Z := [32; 124] ++ replicate 76 32 ++ [124; 10; 0].

(** Only the columns between the walls differ from it. *)
Definition in_court (buf : list Z) : Prop :=
  len buf = BUFMAX /\ forall i, i < STARTLOOP \/ LOOPMAX <= i -> buf.[i] = empty_court.[i].

Lemma empty_court_between i : STARTLOOP <= i < LOOPMAX -> empty_court.[i] = Some 32.
Proof.
  unfold STARTLOOP, START, LOOPMAX, SCREENWIDTH, ENDING, empty_court. intros Hi.
  rewrite aget_app_r by (cbn; lia). rewrite aget_app_l by (rewrite length_replicate; cbn; lia).
  apply aget_replicate. cbn. lia.
Qed.

Lemma walls_ok buf : len buf = BUFMAX -> walls buf = Some empty_court.
Proof.
  unfold BUFMAX, SCREENWIDTH, ENDING. intros Hl. unfold walls.
  destruct (for_range_fill (fun _ => 32) buf 0 BUFMAX) as (b & -> & Hlb & Hb); [unfold BUFMAX, SCREENWIDTH, ENDING; lia..|].
  assert (b = replicate 81 32) as ->; [|reflexivity].
  apply aget_ext; [rewrite length_replicate; lia|]. rewrite Hlb. intros i Hi. rewrite Hb, aget_replicate by (cbn; lia).
  unfold BUFMAX, SCREENWIDTH, ENDING. by replace ((0 <=? i) && (i <? 79 + 2)) with true by lia.
Qed.

Lemma court_clear buf : in_court buf -> for_range STARTLOOP LOOPMAX (fun i buf => buf.[i := 32]) buf = Some empty_court.
Proof.
  intros [Hl Hi]. destruct (for_range_fill (fun _ => 32) buf STARTLOOP LOOPMAX) as (b & -> & Hlb & Hb).
  - unfold STARTLOOP, START, LOOPMAX, SCREENWIDTH, ENDING. lia.
  - rewrite Hl. unfold LOOPMAX, BUFMAX, SCREENWIDTH, ENDING. lia.
  - f_equal. apply aget_ext; [apply Nat2Z.inj; rewrite Hlb; exact Hl|].
    intros i _. rewrite Hb. destruct (Z.leb_spec STARTLOOP i), (Z.ltb_spec i LOOPMAX); cbn [andb]; try (apply Hi; lia).
    by rewrite empty_court_between.
Qed.

Lemma court_letter c j : STARTLOOP <= j < LOOPMAX -> empty_court.[j := c] = Some (court c j ++ [0]).
Proof.
  unfold STARTLOOP, START, LOOPMAX, SCREENWIDTH, ENDING. intros Hj.
  assert (empty_court = ([32; 124] ++ replicate (Z.to_nat (j - 2)) 32) ++ 32 :: replicate (Z.to_nat (77 - j)) 32 ++ [124; 10; 0]) as E.
  { unfold empty_court. rewrite <- app_assoc. f_equal. rewrite app_comm_cons. change (32 :: replicate ?n 32) with (replicate (S n) 32).
    rewrite app_assoc, <- replicate_add. do 2 f_equal. lia. }
  assert (Datatypes.length ([32; 124] ++ replicate (Z.to_nat (j - 2)) 32) = Z.to_nat j) as El by (rewrite length_app, length_replicate; cbn; lia).
  rewrite aset_Some by (rewrite E, length_app, El; cbn [Datatypes.length]; lia). f_equal. rewrite E, insert_app_r_alt by lia.
  rewrite El, Nat.sub_diag. cbn [insert list_insert]. unfold court, STARTLOOP, START, LOOPMAX, SCREENWIDTH, ENDING.
  change (1 + 1) with 2. change (79 + 2 - 2 - 1 - 1) with 77. by rewrite <- !app_assoc.
Qed.

Lemma aget_empty_range (c j : Z) : STARTLOOP <= j < LOOPMAX -> 0 <= j < len empty_court.
Proof. unfold STARTLOOP, START, LOOPMAX, SCREENWIDTH, ENDING. cbn. lia. Qed.

Lemma court_in c j : STARTLOOP <= j < LOOPMAX -> in_court (court c j ++ [0]).
Proof.
  intros Hj. pose proof (court_letter c j Hj) as E. pose proof (aget_empty_range c j Hj) as Hr.
  rewrite aset_Some in E by done. assert (court c j ++ [0] = <[Z.to_nat j := c]> empty_court) as -> by congruence.
  split; [by rewrite length_insert|].
  intros i Hi. apply aget_insert_ne; lia.
Qed.

Lemma court_chars c j : is_char c -> Forall is_char (court c j).
Proof.
  intros Hc. unfold court. rewrite !Forall_app. split_and!; try (by repeat constructor);
    try (apply Forall_replicate; by unfold is_char); by apply Forall_singleton.
Qed.

Section client.
Context {S : Type} {HS : Syscalls S} (F : afs) (R : S -> session -> Prop) {L : FileLaws F R} {C : ClockLaws R}.

Lemma pingpong_line_ok fd c j buf g s v :
  R s v -> u_fds v !! fd = Some Clock -> is_char c -> STARTLOOP <= j < LOOPMAX -> in_court buf ->
  exists buf' s', pingpong_line fd c j (buf, g, s) = Some (buf', g, s') /\ in_court buf' /\ R s' (wrote (court c j) v).
Proof.
  intros HR Hfd Hc Hj Hb. unfold pingpong_line. rewrite (court_clear buf Hb). cbn [mbind option_bind].
  rewrite (court_letter c j Hj). cbn [mbind option_bind].
  destruct (fdputs_ok F R s v (court c j ++ [0]) 0 (court c j) HR) as (s1 & -> & HR1).
  { by apply (cstring_intro _ []), court_chars. }
  cbn [mbind option_bind]. destruct (law_clock_wait s1 (wrote (court c j) v) fd g 4 HR1 Hfd) as (s2 & -> & HR2); [lia|].
  cbn [mbind option_bind]. exists (court c j ++ [0]), s2. split; [done|]. split; [by apply court_in|done].
Qed.

(** The buffer is a court and the text has been printed. *)
Definition plays (v : session) (g text : list Z) (st : list Z * list Z * S) : Prop :=
  let '(buf, g', s) := st in g' = g /\ in_court buf /\ R s (wrote text v).

Lemma pingpong_line_plays fd c j g text v st :
  u_fds v !! fd = Some Clock -> is_char c -> STARTLOOP <= j < LOOPMAX -> plays v g text st ->
  exists st', pingpong_line fd c j st = Some st' /\ plays v g (text ++ court c j) st'.
Proof.
  intros Hfd Hc Hj. destruct st as [ [buf g'] s]. intros (-> & Hb & HR).
  destruct (pingpong_line_ok fd c j buf g s _ HR Hfd Hc Hj Hb) as (buf' & s' & E & Hb' & HR').
  exists (buf', g, s'). split; [done|]. split; [done|]. split; [done|]. by rewrite <- wrote_app.
Qed.

Lemma there_ok fd c g text v st :
  u_fds v !! fd = Some Clock -> is_char c -> plays v g text st ->
  exists st', for_range STARTLOOP LOOPMAX (pingpong_line fd c) st = Some st' /\
    plays v g (text ++ mjoin (court c <$> there)) st'.
Proof.
  intros Hfd Hc Hst.
  destruct (for_range_ind (fun k st => plays v g (text ++ mjoin (court c <$> seqZ STARTLOOP (k - STARTLOOP))) st)
    (pingpong_line fd c) STARTLOOP LOOPMAX st) as (st' & E & H); [done| | |by exists st'].
  - rewrite Z.sub_diag. cbn. by rewrite app_nil_r.
  - intros k st1 Hk H1. destruct (pingpong_line_plays fd c k g _ v st1 Hfd Hc Hk H1) as (st2 & E & H2).
    exists st2. split; [done|]. replace (k + 1 - STARTLOOP) with ((k - STARTLOOP) + 1) by lia.
    rewrite seqZ_app by lia. replace (STARTLOOP + (k - STARTLOOP)) with k by lia.
    change (seqZ k 1) with [k]. rewrite fmap_app, join_app, app_assoc. cbn [fmap list_fmap mjoin list_join]. by rewrite app_nil_r.
Qed.

Lemma back_ok fd c g text v st :
  u_fds v !! fd = Some Clock -> is_char c -> plays v g text st ->
  exists st', for_down STARTLOOP (LOOPMAX - 1) (pingpong_line fd c) st = Some st' /\
    plays v g (text ++ mjoin (court c <$> reverse there)) st'.
Proof.
  intros Hfd Hc Hst.
  destruct (for_down_ind (fun k st => plays v g (text ++ mjoin (court c <$> reverse (seqZ (k + 1) (LOOPMAX - 1 - k)))) st)
    (pingpong_line fd c) STARTLOOP (LOOPMAX - 1) st) as (st' & E & H); [done| | |].
  - rewrite Z.sub_diag. cbn. by rewrite app_nil_r.
  - intros k st1 Hk H1. destruct (pingpong_line_plays fd c k g _ v st1 Hfd Hc ltac:(lia) H1) as (st2 & E & H2).
    exists st2. split; [done|]. replace (k - 1 + 1) with k by lia.
    rewrite (seqZ_cons k) by lia. rewrite reverse_cons, fmap_app, join_app, app_assoc.
    replace (Z.succ k) with (k + 1) by lia. replace (Z.pred (LOOPMAX - 1 - (k - 1))) with (LOOPMAX - 1 - k) by lia.
    cbn [fmap list_fmap mjoin list_join]. by rewrite app_nil_r.
  - exists st'. split; [done|]. exact H.
Qed.

Lemma round_ok fd c g text v st :
  u_fds v !! fd = Some Clock -> is_char c -> plays v g text st ->
  exists st', round fd (c, st) = Some (if c =? ENDCHAR then STARTCHAR else u8 (c + 1), st') /\ plays v g (text ++ trip c) st'.
Proof.
  intros Hfd Hc Hst. destruct (there_ok fd c g text v st Hfd Hc Hst) as (st1 & E1 & H1).
  destruct (back_ok fd c g _ v st1 Hfd Hc H1) as (st2 & E2 & H2). exists st2. unfold round.
  rewrite E1. cbn [mbind option_bind]. rewrite E2. split; [done|].
  unfold trip. by rewrite fmap_app, join_app, app_assoc.
Qed.

Lemma letter_next n : (if letter n =? ENDCHAR then STARTCHAR else u8 (letter n + 1)) = letter (Datatypes.S n).
Proof.
  unfold letter, STARTCHAR, ENDCHAR. pose proof (Z.mod_pos_bound (Z.of_nat n) 26 ltac:(lia)) as Hr.
  pose proof (Z.div_mod (Z.of_nat n) 26 ltac:(lia)) as Hd. rewrite Nat2Z.inj_succ.
  destruct (Z.eqb_spec (65 + Z.of_nat n mod 26) 90) as [E|E].
  - rewrite <- (Z.mod_unique (Z.succ (Z.of_nat n)) 26 (Z.of_nat n / 26 + 1) 0); lia.
  - rewrite <- (Z.mod_unique (Z.succ (Z.of_nat n)) 26 (Z.of_nat n / 26) (Z.of_nat n mod 26 + 1)) by lia.
    unfold u8. rewrite Z.mod_small; lia.
Qed.

Lemma letter_char n : is_char (letter n).
Proof. unfold is_char, letter, STARTCHAR. pose proof (Z.mod_pos_bound (Z.of_nat n) 26 ltac:(lia)). lia. Qed.

Lemma pingpong_ok rounds buf g s v :
  R s v -> can_open v -> found F (bytes "rtc") = Some Clock -> len buf = BUFMAX ->
  exists fd s', pingpong rounds buf g s = Some s' /\ R s' (wrote (trips rounds) (with_fds (<[fd := Clock]> (u_fds v)) v)).
Proof.
  intros HR Hfree Hrtc Hb. unfold pingpong. rewrite (walls_ok buf Hb). cbn [mbind option_bind].
  destruct (open_ok F R s v (bytes "rtc" ++ [0]) (bytes "rtc") Clock HR) as (fd & s1 & -> & Hfd & Hnone & HR1); [|done..|].
  { apply (cstring_intro _ []), Forall_is_char. reflexivity. }
  cbn [mbind option_bind]. set (v1 := with_fds _ v) in *.
  assert (u_fds v1 !! fd = Some Clock) as Hv1 by apply lookup_insert_eq.
  destruct (law_clock_rate s1 v1 fd (le32 32) 4 32 HR1 Hv1) as (s2 & -> & HR2); [reflexivity|by vm_compute|].
  cbn [mbind option_bind].
  destruct (for_range_ind (fun i '(c, st) => c = letter (Z.to_nat i) /\ plays v1 g (trips (Z.to_nat i)) st)
    (fun _ => round fd) 0 (Z.of_nat rounds) (STARTCHAR, (empty_court, g, s2))) as ([c [ [buf' g'] s']] & E & _ & _ & _ & H).
  - lia.
  - split; [done|]. split; [done|]. split; [done|]. by rewrite wrote_nil.
  - intros i [c st] Hi [-> Hst]. destruct (round_ok fd _ g _ v1 st Hv1 (letter_char (Z.to_nat i)) Hst) as (st' & E & H').
    rewrite E. eexists; split; [done|]. replace (Z.to_nat (i + 1)) with (Datatypes.S (Z.to_nat i)) by lia.
    split; [apply letter_next|]. unfold trips. rewrite seq_S, fmap_app, join_app. cbn [fmap list_fmap mjoin list_join Nat.add].
    rewrite app_nil_r. exact H'.
  - rewrite E. cbn [mbind option_bind]. rewrite Nat2Z.id in H. by exists fd, s'.
Qed.
End client.
