(* ===== verification/Preempted.v ===== *)
(** Programs on the preempted kernel: the theorems of [Clients.v] and [Pingpong.v]
    with the interface discharged by [Preempt.v].  Between any two calls of the
    program the others act as they like; what the program itself prints, and what
    it returns, is what it would be alone. *)
From stdpp Require Import base option list numbers gmap.
From Stdlib Require Import ZArith Lia Ascii String.
From S2P Require Import Prelude LibString FileSystem Console Keyboard Paging Rtc State Terminal Desks FileOps SysCall Idt Process Scheduler Family System Files Calls Os Startup Kernel Interleave User Programs Clients UserKernel Preempt Pingpong.

(** A process of the sample system with a file's name as its argument. *)
Definition sample_started : list os_event :=
  [Sys (Exec [115; 104; 101; 108; 108; 32; 102; 114; 97; 109; 101; 48; 0]
    [115; 104; 101; 108; 108; 32; 102; 114; 97; 109; 101; 48] sample_frame)].

Lemma sample_started_ok s1 s2 : os_events_ok sample_fs sample_started (sample_os s1 s2).
Proof.
  split; [|done]. split; [|split; [exact sample_frame_ok|reflexivity] ].
  apply (name_terminated [115; 104; 101; 108; 108; 32; 102; 114; 97; 109; 101; 48]).
  repeat (apply Forall_cons_2; [unfold is_char; lia|]). apply Forall_nil_2.
Qed.

Lemma sample_cat_serves : exists k s1 s2,
  Os.serves 0x410000 0x412000 sample_fs 40 k (after sample_fs sample_started (sample_os s1 s2)).
Proof.
  destruct sample_serves as (k0 & s1 & s2 & HS0).
  destruct (serves_steps _ _ _ _ null_dentry sample_bootable sample_started k0 _ HS0 (sample_started_ok s1 s2)) as (_ & k & _ & _ & HS).
  by exists k, s1, s2.
Qed.

(** ** Properties *)

(** C8: cat is correct under preemption.  Whatever happens between its calls, keys,
    clock interrupts, timer interrupts that give the processor to other terminals,
    whose programs start others, open and read files, set clock rates, print and
    end, as long as nobody else reads the directory and the processor comes back:
    cat ends and returns 0 for the name of a regular file (2 for a name that is not
    there, 3 without an argument that fits).  The whole run is a history of the
    system in which the steps that are cat's own print exactly the file's bytes
    (or its complaint), and in the end the processor is with cat's process, which
    has the arguments and the open files it should have. *)
Theorem cat_preempted A B F room d0 turns k O buf code text :
  bootable F room -> Os.serves A B F room k O -> fair A B F room turns O ->
  can_open (session_of O) -> len buf = 1024 -> cat_spec F (session_of O) = Some (code, text) ->
  exists s' tr rs fds,
    cat (HS := preempted_calls d0 turns) (Datatypes.S (Datatypes.length text)) buf (k, begin []) = Some (code, s') /\
    run_os_all d0 tr.*2 k = Some (rs, s'.1) /\ printed tr = text /\
    Os.serves A B F room s'.1 (after F tr.*2 O) /\ sees O (after F tr.*2 O) (with_fds fds (session_of O)).
Proof.
  intros HB HS Hfair Hfree Hbuf Hspec. pose proof (nobody_types A B F room d0 turns k O HS) as (HR & Hcalm).
  pose proof (live_laws A B F room HB d0 turns k O _ _ Hfair Hcalm _ _ HR) as L.
  destruct (cat_ok (L := L) F _ (Datatypes.S (Datatypes.length text)) buf _ _ code text HR Hfree Hbuf Hspec) as (s' & fds & E & HR'); [lia|].
  destruct (lives_end A B F room d0 k O _ _ _ _ _ eq_refl HR') as (tr & rs & H1 & H2 & H3 & H4); [done|].
  exists s', tr, rs, fds. by repeat (split; [assumption|]).
Qed.

(** cat frame0, while the other terminals start programs. *)
Lemma cat_preempted_witness :
  exists k O s' tr rs, cat (HS := preempted_calls null_dentry sample_turns) 11 (replicate 1024 7) (k, begin []) = Some (0, s') /\
    run_os_all null_dentry tr.*2 k = Some (rs, s'.1) /\ printed tr = [47; 92; 95; 47; 92; 10; 62; 32; 60; 10] /\
    Os.serves 0x410000 0x412000 sample_fs 40 s'.1 (after sample_fs tr.*2 O).
Proof.
  destruct sample_cat_serves as (k & s1 & s2 & HS). set (O := after sample_fs sample_started (sample_os s1 s2)) in *.
  destruct (cat_preempted _ _ _ _ null_dentry sample_turns k O (replicate 1024 7) 0 [47; 92; 95; 47; 92; 10; 62; 32; 60; 10]
    sample_bootable HS (sample_turns_fair _)) as (s' & tr & rs & fds & E & H1 & H2 & H3 & _).
  - exists 2. split; [lia|reflexivity].
  - reflexivity.
  - vm_compute. reflexivity.
  - exists k, O, s', tr, rs. split; [exact E|]. split; [exact H1|]. split; [exact H2|exact H3].
Defined.

(** C11: pingpong plays forever, also under preemption.  With a free descriptor and a
    clock in the directory, for any number n of round trips the first n of them
    complete, whatever the others do between its calls, and the program's own
    output is exactly its animation: 152 lines for each trip, " |", the letter in
    columns 2 to 77 and back to 2, "|" and a newline, the letters from A to Z and
    again from A. *)
Theorem pingpong_preempted A B F room d0 turns k O rounds buf garbage :
  bootable F room -> Os.serves A B F room k O -> fair A B F room turns O ->
  can_open (session_of O) -> found F (bytes "rtc") = Some Files.Clock -> len buf = BUFMAX ->
  exists s' tr rs fds,
    pingpong (HS := preempted_calls d0 turns) rounds buf garbage (k, begin []) = Some s' /\
    run_os_all d0 tr.*2 k = Some (rs, s'.1) /\ printed tr = trips rounds /\
    Os.serves A B F room s'.1 (after F tr.*2 O) /\ sees O (after F tr.*2 O) (with_fds fds (session_of O)).
Proof.
  intros HB HS Hfair Hfree Hrtc Hbuf. pose proof (nobody_types A B F room d0 turns k O HS) as (HR & Hcalm).
  pose proof (live_laws A B F room HB d0 turns k O _ _ Hfair Hcalm _ _ HR) as L.
  pose proof (live_clock A B F room HB d0 turns k O (fun _ => True) [] Hfair Hcalm) as C.
  destruct (pingpong_ok (L := L) (C := C) F _ rounds buf garbage _ _ HR Hfree Hrtc Hbuf) as (fd & s' & E & HR').
  destruct (lives_end A B F room d0 k O _ _ _ _ _ eq_refl HR') as (tr & rs & H1 & H2 & H3 & H4); [done|].
  eexists s', tr, rs, _. by repeat (split; [eassumption|]).
Qed.

(** Two round trips while the other terminals start programs. *)
Lemma pingpong_preempted_witness :
  exists k s' tr rs, pingpong (HS := preempted_calls null_dentry sample_turns) 2 (replicate 81 7) [7; 7; 7; 7] (k, begin []) = Some s' /\
    run_os_all null_dentry tr.*2 k = Some (rs, s'.1) /\ printed tr = trip 65 ++ trip 66.
Proof.
  destruct sample_serves as (k & s1 & s2 & HS).
  destruct (pingpong_preempted _ _ _ _ null_dentry sample_turns k _ 2 (replicate 81 7) [7; 7; 7; 7]
    sample_bootable HS (sample_turns_fair _)) as (s' & tr & rs & fds & E & H1 & H2 & _ & _).
  - exists 2. split; [lia|reflexivity].
  - vm_compute. reflexivity.
  - reflexivity.
  - exists k, s', tr, rs. split; [exact E|]. split; [exact H1|]. rewrite H2.
    change (trips 2) with (trip 65 ++ trip 66 ++ []). by rewrite app_nil_r.
Defined.
