(* ===== verification/Typing.v ===== *)
(** Programs that read the keyboard, preempted: between any two calls the others
    act as they like, and while the program waits for its line somebody types it,
    the others having their turns meanwhile. *)
From stdpp Require Import base option list numbers gmap.
From Stdlib Require Import ZArith Lia Ascii String.
From S2P Require Import Prelude LibString FileSystem Console Keyboard Paging Rtc State Terminal Desks FileOps SysCall Idt Process Scheduler Family System Files Calls Os Startup Kernel Interleave User Programs Clients SysErr UserKernel Preempt.

(** ** A typist

    The first terminal is shown, no key is held down, and its line is [l]. *)
Definition at_line (l : list Z) (D : desks) : Prop :=
  ds_keys D = keys_of kbd_reset /\ ds_shown D = 0 /\ d_line (ds_of D 0) = l.

Lemma upd_desk_line l l' t f D : at_line l D -> (t = 0 -> d_line (f (ds_of D 0)) = l') -> (t <> 0 -> l' = l) ->
  at_line l' (upd_desk t f D).
Proof.
  intros (Hk & Hs & Hl) H0 H1. split; [exact Hk|]. split; [exact Hs|].
  unfold upd_desk. cbn [ds_of]. destruct (Z.eqb_spec 0 t) as [<-|Hne]; [by apply H0|]. rewrite H1; congruence.
Qed.

Lemma at_line_steady l : steady (at_line l).
Proof.
  split; intros D c H.
  - apply (upd_desk_line l); [done| |done]. intros _. apply H.
  - assert (forall g D, at_line l D -> at_line l (upd_desk (ds_shown D) (on_tty g) D)) as Hg.
    { intros g D' H'. apply (upd_desk_line l); [done| |done]. intros _. apply H'. }
    unfold blink. by repeat case_match; repeat apply Hg.
Qed.

(** Events that leave the line as it is. *)
Definition no_typing (e : os_event) : bool :=
  match e with
  | Sys System.Clock | Sys (Tick _ _ _) | Sys (Exec _ _ _) => true
  | Call c => negb (reads_keyboard c)
  | _ => false
  end.

Lemma next_line F l e O : no_typing e = true -> at_line l (m_desks (o_mach O)) -> at_line l (m_desks (o_mach (next F e O))).
Proof.
  intros He H. destruct e as [ [e| |k_esp k_ebp st|command s st|status st|junk id err_code msg st]|c]; try done; cbn [next next_sys spec_step].
  - by apply (at_line_steady l).
  - unfold spec_tick. repeat case_match; exact H.
  - unfold spec_exec. destruct (executable F (command_name s)) as [ [ino c]|]; [|exact H]. by destruct (free_pid _).
  - apply next_call_quiet; [apply at_line_steady| |done]. by apply negb_true_iff.
Qed.

Lemma after_line F l es : forall O, forallb no_typing es = true -> at_line l (m_desks (o_mach O)) ->
  at_line l (m_desks (o_mach (after F es O))).
Proof.
  induction es as [|e es IH]; intros O H Hl; [done|]. cbn [forallb] in H. apply andb_true_iff in H as [He H].
  apply (IH (next F e O) H). by apply next_line.
Qed.

(** A key for [c]. *)
Lemma key_line l code c D : get_key code (keys_of kbd_reset) = (c, keys_of kbd_reset) -> c <> 0 -> len l < KEY_BUF_SIZE - 1 ->
  at_line l D -> at_line (l ++ [c]) (step_desks (Key code) D).
Proof.
  intros Eg Hc Hl H. pose proof H as (Hk & Hs & Hline). cbn [step_desks]. rewrite Hk, Eg.
  assert (asks_switch c (keys_of kbd_reset) = false) as -> by (unfold asks_switch; by rewrite (proj2 (Z.eqb_neq c 0) Hc)).
  apply (upd_desk_line l); [by split_and!| |by rewrite Hs]. intros _. unfold key_echo. cbn [ds_of].
  assert (type_char c l = (0, l ++ [c])) as Et by (unfold type_char; by rewrite (proj2 (Z.ltb_lt _ _) Hl)).
  change (ctrl (keys_of kbd_reset) =? 1) with false. rewrite (proj2 (Z.eqb_neq c 0) Hc). cbn [negb].
  unfold type_echo. by rewrite Hline, Et.
Qed.

(** ** A sample *)

(** Another shell starts a program with a clock of its own; nobody types. *)
Definition sample_hushed : list os_event :=
  [Sys (Exec [115; 104; 101; 108; 108; 0] [115; 104; 101; 108; 108] sample_frame);
   Call (Open [114; 116; 99; 0] [114; 116; 99]); Call (Write 2 [64; 0; 0; 0] 4); Call (Open [46; 0] [46]);
   Call (Write 1 [62; 32; 0; 0] 2); Sys System.Clock; Call (Vidmap 0)].

Definition hushed_turn : list os_event := round_trip (1, 2) (3, 4) (5, 6) sample_frame sample_hushed.

Lemma hushed_turn_ok O : os_events_ok sample_fs hushed_turn O.
Proof.
  unfold hushed_turn, round_trip, sample_hushed. cbn [app os_events_ok os_event_ok sys_event_ok event_ok call_ok fst snd].
  repeat match goal with |- _ /\ _ => apply conj end; try sample_condition.
Qed.

Lemma hushed_fair O0 : fair 0x410000 0x412000 sample_fs 40 (turns_of sample_hushed) O0.
Proof. apply turns_of_fair; [|done|done]. intros n k O. unfold turns_of. destruct (Nat.even n); [apply hushed_turn_ok|done]. Qed.

Lemma hushed_calm O0 : calm 0x410000 0x412000 sample_fs 40 (turns_of sample_hushed) O0 (at_line []).
Proof.
  split; [|apply at_line_steady]. intros n k O _ _ _ H. unfold turns_of. by destruct (Nat.even n); apply after_line.
Qed.

(** A key is pressed, the others have a turn, and Enter is pressed; a clock interrupt
    slips in. *)
Definition sample_typist (code c : Z) : typist :=
  mkTypist (fun _ => [ [Sys (Input (Key code))]; hushed_turn; [Sys (Input (Key 0x1C))] ]) (fun _ => [ [Sys System.Clock] ]) [c; 10].

Lemma no_line_ready l D : at_line l D -> has_newline l = false -> line_ready D = false.
Proof. intros (_ & Hs & Hl) Hn. unfold line_ready. by rewrite Hs, Hl, Hn. Qed.

Lemma turns_pass_cons F es ts O : line_ready (m_desks (o_mach O)) = false -> os_events_ok F es O ->
  elsewhere F (running (o_mach O)) es O -> running (o_mach (after F es O)) = running (o_mach O) ->
  turns_pass F true ts (after F es O) -> turns_pass F true (es :: ts) O.
Proof. intros H1 H2 H3 H4 H5. by split. Qed.

Lemma entered c D : c <> 0 -> at_line [c; 10] D -> ds_running D = 0 -> line_ready D = true.
Proof.
  intros Hc (_ & Hs & Hl) Hr. unfold line_ready. rewrite Hs, Hl, Hr. cbn [has_newline].
  rewrite (proj2 (Z.eqb_neq c 0) Hc). by destruct (c =? 10).
Qed.

(** Two keys, a turn between them and one more event; the states are [O1] to [O4]. *)
Lemma key_turns F e1 es e3 e4 c O (O1 := next F e1 O) (O2 := after F es O1) (O3 := next F e3 O2) (O4 := next F e4 O3) :
  forallb from_outside [e1; e3; e4] = true -> os_event_ok F e1 O -> os_event_ok F e3 O2 -> os_event_ok F e4 O3 ->
  os_events_ok F es O1 -> elsewhere F (running (o_mach O1)) es O1 -> c <> 0 -> c <> 10 -> running (o_mach O) = 0 ->
  running (o_mach O1) = 0 -> running (o_mach O2) = 0 -> running (o_mach O3) = 0 -> running (o_mach O4) = 0 ->
  at_line [] (m_desks (o_mach O)) -> at_line [c] (m_desks (o_mach O1)) -> at_line [c] (m_desks (o_mach O2)) ->
  at_line [c; 10] (m_desks (o_mach O3)) -> at_line [c; 10] (m_desks (o_mach O4)) ->
  turns_pass F true [ [e1]; es; [e3] ] O /\ line_ready (m_desks (o_mach O3)) = true /\
  turns_pass F false [ [e4] ] O3 /\ line_ready (m_desks (o_mach O4)) = true.
Proof.
  intros Hout He1 He3 He4 Hok Hel Hc Hc10 Hr Hr1 Hr2 Hr3 Hr4 Hq Hl1 Hl2 Hl3 Hl4.
  cbn [forallb] in Hout. rewrite !andb_true_iff in Hout. destruct Hout as (Hf1 & Hf3 & Hf4 & _).
  assert (forall O', at_line [c] (m_desks (o_mach O')) -> line_ready (m_desks (o_mach O')) = false) as Hno.
  { intros O' H. apply (no_line_ready [c] _ H). cbn [has_newline]. rewrite (proj2 (Z.eqb_neq c 0)), (proj2 (Z.eqb_neq c 10)) by done. done. }
  split; [|split; [by apply (entered c)|]; split; [|by apply (entered c)] ].
  - apply turns_pass_cons; [by apply (no_line_ready [])|by split|by split; [left|]|exact (eq_trans Hr1 (eq_sym Hr))|].
    apply turns_pass_cons; [by apply Hno|exact Hok|exact Hel|exact (eq_trans Hr2 (eq_sym Hr1))|].
    apply turns_pass_cons; [by apply Hno|by split|by split; [left|]|exact (eq_trans Hr3 (eq_sym Hr2))|done].
  - split; [done|]. split; [by split|]. split; [by split; [left|]|]. split; [exact (eq_trans Hr4 (eq_sym Hr3))|done].
Qed.

Lemma sample_typist_attentive code c O0 :
  get_key code (keys_of kbd_reset) = (c, keys_of kbd_reset) -> 0 <= code < 256 -> 0 < c < 256 -> c <> 10 -> running (o_mach O0) = 0 ->
  attentive 0x410000 0x412000 sample_fs 40 O0 (at_line []) (sample_typist code c).
Proof.
  intros Eg Hcode Hc Hc10 Hr0. split; [|split; [|split; [done|]]].
  { cbn [sample_typist typed has_newline]. rewrite (proj2 (Z.eqb_neq c 0)) by lia. by destruct (c =? 10). }
  { cbn [sample_typist typed]. unfold is_byte. repeat constructor; lia. }
  intros k O HS Hr _ Hq. rewrite Hr0 in Hr. cbn [sample_typist waits late typed].
  set (e1 := Sys (Input (Key code))). set (e3 := Sys (Input (Key 0x1C))).
  assert (at_line [c] (m_desks (o_mach (next sample_fs e1 O)))) as H1.
  { apply (key_line [] code c); [done|lia|done|exact Hq]. }
  assert (running (o_mach (next sample_fs e1 O)) = 0) as Hr1 by (rewrite <- Hr; by apply next_running).
  destruct (serves_step _ _ _ _ null_dentry sample_bootable e1 k O HS Hcode) as (_ & k1 & _ & _ & HS1).
  set (O1 := next sample_fs e1 O) in *.
  destruct (round_trip_elsewhere _ _ _ _ null_dentry sample_bootable k1 O1 (1, 2) (3, 4) (5, 6) sample_frame sample_hushed HS1
    (hushed_turn_ok O1) eq_refl) as [He2 Hr2].
  assert (at_line [c] (m_desks (o_mach (after sample_fs hushed_turn O1)))) as H2 by (by apply after_line).
  fold hushed_turn in He2, Hr2. rewrite Hr1 in Hr2. set (O2 := after sample_fs hushed_turn O1) in *.
  assert (at_line [c; 10] (m_desks (o_mach (next sample_fs e3 O2)))) as H3.
  { apply (key_line [c] 0x1C 10); [reflexivity|done|done|exact H2]. }
  assert (running (o_mach (next sample_fs e3 O2)) = 0) as Hr3 by (rewrite <- Hr2; by apply next_running).
  set (O3 := next sample_fs e3 O2) in *. set (O4 := next sample_fs (Sys System.Clock) O3).
  assert (at_line [c; 10] (m_desks (o_mach O4))) as H4 by (by apply next_line).
  assert (running (o_mach O4) = 0) as Hr4 by (rewrite <- Hr3; by apply next_running).
  assert (o_listed O4 = o_listed O) as Hli.
  { etransitivity; [by apply next_listed|]. etransitivity; [by apply next_listed|]. etransitivity; [by apply after_listed|]. by apply next_listed. }
  assert (os_event_ok sample_fs e1 O /\ os_event_ok sample_fs e3 O2 /\ os_event_ok sample_fs (Sys System.Clock) O3) as (Hk1 & Hk3 & Hk4) by by split_and!.
  pose proof (key_turns sample_fs e1 hushed_turn e3 (Sys System.Clock) c O eq_refl Hk1) as T. cbv zeta in T.
  fold O1 in T. fold O2 in T. fold O3 in T. fold O4 in T.
  destruct (T Hk3 Hk4 (hushed_turn_ok O1) He2 (not_eq_sym (Z.lt_neq _ _ (proj1 Hc))) Hc10 Hr Hr1 Hr2 Hr3 Hr4 Hq H1 H2 H3 H4) as (Ht & Hd3 & Hlate & Hd4).
  pose proof H4 as (Hk & Hs & Hl). split; [exact Ht|]. split; [exact Hd3|]. split; [exact Hlate|]. split; [exact Hd4|].
  split; [|split; [exact Hli|] ].
  - change (d_line (ds_of (m_desks (o_mach O4)) (ds_shown (m_desks (o_mach O4)))) = [c; 10]). by rewrite Hs.
  - apply (upd_desk_line [c; 10]); [exact H4|done|]. intros Hne. by destruct Hne.
Qed.

(** ** Properties *)

(** C12: hello is correct while it shares the system.  The others act before each of
    its calls, and while it waits for a name somebody types a line, with turns of
    the others between the keys and between the last look and the copy.  hello
    ends and returns 0; what it prints itself is the question, and the answer with
    the characters of the line up to the newline, wherever the others' output went;
    in the end the processor is with its process, which has its arguments and
    files as before. *)
Theorem hello_preempted A B F room d0 turns k O quiet y buf :
  bootable F room -> Os.serves A B F room k O -> fair A B F room turns O -> calm A B F room turns O quiet ->
  attentive A B F room O quiet y -> quiet (m_desks (o_mach O)) -> len buf = BUFSIZE ->
  exists s' tr,
    hello (HS := preempted_calls d0 turns) buf (k, begin [y]) = Some (0, s') /\
    printed tr = bytes "Hi, what's your name? " ++ bytes "Hello, " ++ until_newline (typed y) ++ [10] /\
    Os.serves A B F room s'.1 (after F tr.*2 O) /\ sees O (after F tr.*2 O) (session_of O).
Proof.
  intros HB HS Hfair Hcalm Hy Hq Hbuf.
  pose proof (lives_start A B F room d0 k O quiet [y] HS (Forall_cons_2 _ _ _ Hy (Forall_nil_2 _)) Hq) as HR.
  pose proof (live_laws A B F room HB d0 turns k O quiet [y] Hfair Hcalm _ _ HR) as L.
  destruct (hello_ok (L := L) F _ buf _ _ [] (typed y) [] HR eq_refl Hbuf) as (s' & E & HR').
  destruct (lives_ends A B F room d0 k O quiet [y] _ _ HR') as (tr & _ & Hp & HS' & Hv).
  exists s', tr. split; [exact E|]. split; [|split; [exact HS'|by destruct Hv] ].
  rewrite Hp. cbn [wrote took u_acts session_typed]. by rewrite !said_app, !said_outs.
Qed.

(** Another shell has its turns, and somebody types h and Enter. *)
Lemma hello_preempted_witness :
  exists k O s' tr,
    hello (HS := preempted_calls null_dentry (turns_of sample_hushed)) (replicate 1024 7) (k, begin [sample_typist 0x23 104]) = Some (0, s') /\
    printed tr = bytes "Hi, what's your name? Hello, h" ++ [10] /\
    Os.serves 0x410000 0x412000 sample_fs 40 s'.1 (after sample_fs tr.*2 O).
Proof.
  destruct sample_serves as (k & s1 & s2 & HS). set (O := sample_os s1 s2) in *.
  destruct (hello_preempted _ _ _ _ null_dentry (turns_of sample_hushed) k O (at_line []) (sample_typist 0x23 104) (replicate 1024 7)
    sample_bootable HS (hushed_fair O) (hushed_calm O)) as (s' & tr & E & Hp & HS' & _).
  - by apply sample_typist_attentive.
  - split; [reflexivity|]. split; reflexivity.
  - reflexivity.
  - exists k, O, s', tr. split; [exact E|]. split; [exact Hp|exact HS'].
Defined.

(** C13: syserr's tests pass while it shares the system, typing included.  The others
    act before each of its calls, those that are refused and those that are
    not, and while the test is chosen.  For the digit of a test its line is
    printed, with PASS, for 0 all eight and the overall line, for any other line
    that the choice is wrong; the program always returns 0, and has nothing open in
    the end.  It has nothing open at the start; the directory has an entry "." for
    itself and none of the names "helloo", "shel" and "" that the tests expect to
    be absent. *)
Theorem syserr_preempted A B F room d0 turns entry k O quiet y buf buf32 c :
  bootable F room -> Os.serves A B F room k O -> fair A B F room turns O -> calm A B F room turns O quiet ->
  attentive A B F room O quiet y -> quiet (m_desks (o_mach O)) -> u_fds (session_of O) = ∅ -> len buf = 128 ->
  found F (bytes ".") = Some Listing ->
  Forall (fun nm => find_entry F nm = None) [bytes "helloo"; bytes "shel"; []] ->
  (until_newline (typed y) ++ [10]).[0] = Some c ->
  exists s' tr,
    syserr (HS := preempted_calls d0 turns) (HC := preempted_raw d0 turns entry) buf buf32 (k, begin [y]) = Some (0, s') /\
    printed tr = bytes "Choose from tests 1-8. 0 to run all: " ++ syserr_text c /\
    Os.serves A B F room s'.1 (after F tr.*2 O) /\ sees O (after F tr.*2 O) (syserr_listed c (session_of O)).
Proof.
  intros HB HS Hfair Hcalm Hy Hq Hopen Hbuf Hdot Habs Hc.
  pose proof (lives_start A B F room d0 k O quiet [y] HS (Forall_cons_2 _ _ _ Hy (Forall_nil_2 _)) Hq) as HR.
  pose proof (live_laws A B F room HB d0 turns k O quiet [y] Hfair Hcalm _ _ HR) as L.
  pose proof (live_refusals A B F room HB d0 turns k O quiet [y] Hfair Hcalm entry) as LR.
  destruct (syserr_ok (L := L) F _ (LR := LR) Hdot Habs buf buf32 _ _ [] (typed y) [] c HR Hopen eq_refl Hbuf Hc) as (s' & E & HR').
  destruct (lives_ends A B F room d0 k O quiet [y] _ _ HR') as (tr & _ & Hp & HS' & Hv).
  exists s', tr. split; [exact E|]. split; [|split; [exact HS'|] ].
  - rewrite Hp. cbn [wrote u_acts]. rewrite said_app, said_outs. f_equal.
    unfold syserr_listed. by case_decide; cbn [with_listed took wrote u_acts session_typed]; rewrite said_app, app_nil_r, app_nil_l, said_outs.
  - destruct Hv as [H1 H2 H3 H4 H5]. unfold syserr_listed in *. by case_decide; split.
Qed.

(** All the tests. *)
Lemma syserr_preempted_witness :
  exists k O s' tr,
    syserr (HS := preempted_calls null_dentry (turns_of sample_hushed)) (HC := preempted_raw null_dentry (turns_of sample_hushed) (fun _ _ => None))
      (replicate 128 7) (replicate 32 7) (k, begin [sample_typist 0x0B 48]) = Some (0, s') /\
    printed tr = bytes "Choose from tests 1-8. 0 to run all: " ++ syserr_text 48 /\
    Os.serves 0x410000 0x412000 sample_fs 40 s'.1 (after sample_fs tr.*2 O).
Proof.
  destruct sample_serves as (k & s1 & s2 & HS). set (O := sample_os s1 s2) in *.
  destruct (syserr_preempted _ _ _ _ null_dentry (turns_of sample_hushed) (fun _ _ => None) k O (at_line []) (sample_typist 0x0B 48)
    (replicate 128 7) (replicate 32 7) 48 sample_bootable HS (hushed_fair O) (hushed_calm O)) as (s' & tr & E & Hp & HS' & _).
  - by apply sample_typist_attentive.
  - split; [reflexivity|]. split; reflexivity.
  - reflexivity.
  - reflexivity.
  - reflexivity.
  - repeat constructor.
  - reflexivity.
  - exists k, O, s', tr. split; [exact E|]. split; [exact Hp|exact HS'].
Defined.
