(* ===== verification/Blink.v ===== *)
(** The blinking characters of the program fish: [src/fish/blink.S] and the
    allocator in [src/fish/fish.c].

    A blink is a character on the screen that alternates with another.  The blinks
    live in an array; those in use are linked into a list, the newest first.  A
    place in the array is free when its location is 0.

    The state is the array, the head of the list, the address of the page of video
    memory and that memory; a pointer to a blink is [None] for NULL or its index in
    the array.  The memory is anything that has byte stores, [Screen]: here a page
    for itself, in [Fish.v] the machine, whose screen others draw on as well.  What
    the blinks do to it is what their reference does to a [Canvas]: here the same
    page, or the sequence of all stores. *)
From stdpp Require Import base option list numbers.
From Stdlib Require Import ZArith Lia.
From S2P Require Import Prelude User.

Definition u16 (z : Z) : Z := z mod 65536.
Definition s16 (z : Z) : Z := (z + 32768) mod 65536 - 32768.

Record mp1_blink_struct := mkBlink {
  location : Z; on_char : Z; off_char : Z;
  on_length : Z; off_length : Z; countdown : Z; status : Z;
  next : option Z;
}.

#[export] Instance eta_blink : EtaExpand mp1_blink_struct := fun b =>
  mkBlink (location b) (on_char b) (off_char b) (on_length b) (off_length b) (countdown b) (status b) (next b).

Record blinks (V : Type) := mkBlinks {
  blink_array : list mp1_blink_struct;
  mp1_list_head : option Z;
  vmem_base_addr : Z;
  vmem : V;
}.

Arguments mkBlinks {V} _ _ _ _.
Arguments blink_array {V} _.
Arguments mp1_list_head {V} _.
Arguments vmem_base_addr {V} _.
Arguments vmem {V} _.

#[export] Instance eta_blinks V : EtaExpand (blinks V) := fun P =>
  mkBlinks (blink_array P) (mp1_list_head P) (vmem_base_addr P) (vmem P).

(** A page for itself, wherever it is mapped. *)
#[export] Instance page_screen : Screen (list Z) := fun _ off c v => v.[off := c].

(** The places in the array. *)
Definition SIZE : Z := 80 * 25.

(** A structure of zeros, as [ece391_memset] leaves it. *)
Definition no_blink : mp1_blink_struct := mkBlink 0 0 0 0 0 0 0 None.

(** One blink in the loop of [mp1_rtc_tasklet]; the new blink, and the character
    that is drawn. *)
Definition tick_blink (b : mp1_blink_struct) : mp1_blink_struct * option Z :=
  let c := u16 (countdown b - 1) in
  if 0 <? s16 c then (b <| countdown := c |>, None)
  else if Z.testbit (status b) 0
  then (b <| countdown := off_length b |> <| status ::= fun s => Z.lxor s 1 |>, Some (off_char b))
  else (b <| countdown := on_length b |> <| status ::= fun s => Z.lxor s 1 |>, Some (on_char b)).

(** The third argument of a call of [mp1_ioctl], by command. *)
Inductive ioctl := RTC_ADD (user : mp1_blink_struct) | RTC_REMOVE (loc : Z) | RTC_FIND (user : mp1_blink_struct) | RTC_SYNC (arg : Z).

Section blinking.
Context {V : Type} {HV : Screen V}.

(** ** The allocator *)

Definition mp1_malloc (P : blinks V) : option (option Z) :=
  iterate (S (Z.to_nat SIZE)) (fun i =>
    if i <? SIZE then
      b ← (blink_array P).[i]; Some (if location b =? 0 then Done (Some i) else Next (i + 1))
    else Some (Done None)) 0.

Definition put_blink (i : Z) (b : mp1_blink_struct) (P : blinks V) : option (blinks V) :=
  a ← (blink_array P).[i := b]; Some (P <| blink_array := a |>).

Definition mp1_free (i : Z) (P : blinks V) : option (blinks V) := put_blink i no_blink P.

(** ** blink.S *)

Definition mp1_poke (loc c : Z) (P : blinks V) : option (blinks V) :=
  v ← put_byte (vmem_base_addr P) (2 * loc) c (vmem P); Some (P <| vmem := v |>).

Definition mp1_rtc_tasklet (fuel : nat) (P : blinks V) : option (blinks V) :=
  iterate fuel (fun '(p, P) =>
    match p with
    | None => Some (Done P)
    | Some i =>
        b ← (blink_array P).[i];
        let '(b', c) := tick_blink b in
        P ← match c with Some c => mp1_poke (location b) c P | None => Some P end;
        P ← put_blink i b' P;
        Some (Next (next b', P))
    end) (mp1_list_head P, P).

(** The first blink of the list at a location. *)
Definition mp1_find_helper (fuel : nat) (loc : Z) (P : blinks V) : option (option Z) :=
  iterate fuel (fun p =>
    match p with
    | None => Some (Done None)
    | Some i => b ← (blink_array P).[i]; Some (if location b =? u16 loc then Done (Some i) else Next (next b))
    end) (mp1_list_head P).

Definition mp1_ioctl_add (user : mp1_blink_struct) (P : blinks V) : option (Z * blinks V) :=
  if SIZE <=? location user then Some (-1, P)
  else
    let temp := user <| status := 1 |> <| countdown := on_length user |> in
    p ← mp1_malloc P;
    match p with
    | None => Some (-1, P)
    | Some i =>
        P ← put_blink i (temp <| next := mp1_list_head P |>) P;
        let P := P <| mp1_list_head := Some i |> in
        P ← mp1_poke (location temp) (on_char temp) P;
        Some (0, P)
    end.

(** The pointer that points to [i]: the head ([None]) or some blink's next. *)
Definition find_prev (fuel : nat) (i : Z) (P : blinks V) : option (option Z) :=
  iterate fuel (fun cell =>
    p ← match cell with None => Some (mp1_list_head P) | Some q => b ← (blink_array P).[q]; Some (next b) end;
    match p with
    | Some q => Some (if q =? i then Done cell else Next (Some q))
    | None => None
    end) None.

Definition mp1_ioctl_remove (fuel : nat) (loc : Z) (P : blinks V) : option (Z * blinks V) :=
  p ← mp1_find_helper fuel loc P;
  match p with
  | None => Some (-1, P)
  | Some i =>
      cell ← find_prev fuel i P;
      b ← (blink_array P).[i];
      P ← match cell with
          | None => Some (P <| mp1_list_head := next b |>)
          | Some q => prev ← (blink_array P).[q]; put_blink q (prev <| next := next b |>) P
          end;
      P ← mp1_free i P;
      Some (0, P)
  end.

Definition mp1_ioctl_sync (fuel : nat) (arg : Z) (P : blinks V) : option (Z * blinks V) :=
  p ← mp1_find_helper fuel (Z.shiftr arg 16) P;
  match p with
  | None => Some (-1, P)
  | Some i =>
      q ← mp1_find_helper fuel (Z.land arg 0xFFFF) P;
      match q with
      | None => Some (-1, P)
      | Some j =>
          b ← (blink_array P).[i];
          b' ← (blink_array P).[j];
          let b' := b' <| on_length := on_length b |> <| off_length := off_length b |>
                       <| countdown := countdown b |> <| status := status b |> in
          P ← put_blink j b' P;
          (* [cmovl] moves when SF <> OF; [testb] has cleared both *)
          P ← mp1_poke (location b') (off_char b') P;
          Some (0, P)
      end
  end.

(** The structure of the blink found is copied to the user. *)
Definition mp1_ioctl_find (fuel : nat) (user : mp1_blink_struct) (P : blinks V) : option (Z * option mp1_blink_struct) :=
  p ← mp1_find_helper fuel (location user) P;
  match p with
  | None => Some (-1, None)
  | Some i => b ← (blink_array P).[i]; Some (0, Some b)
  end.

Definition mp1_ioctl (fuel : nat) (c : ioctl) (P : blinks V) : option (Z * blinks V) :=
  match c with
  | RTC_ADD user => mp1_ioctl_add user P
  | RTC_REMOVE loc => mp1_ioctl_remove fuel loc P
  | RTC_FIND user => '(r, _) ← mp1_ioctl_find fuel user P; Some (r, P)
  | RTC_SYNC arg => mp1_ioctl_sync fuel arg P
  end.
End blinking.

(** ** What they do

    The blinks in use, in the order of the list, without their links. *)
Definition bare (b : mp1_blink_struct) : mp1_blink_struct := b <| next := None |>.

(** What is drawn on: a character at a location. *)
Class Canvas (W : Type) := draw : Z -> Z -> W -> W.

#[export] Instance page_canvas : Canvas (list Z) := fun loc c v => <[Z.to_nat (2 * loc) := c]> v.
(** The bytes stored so far, with their offsets. *)
#[export] Instance log_canvas : Canvas (list (Z * Z)) := fun loc c v => v ++ [(2 * loc, u8 c)].

Section reference.
Context {W : Type} {HW : Canvas W}.

(** All of them tick, the newest first. *)
Definition tick_draw (v : W) (b : mp1_blink_struct) : W :=
  match (tick_blink b).2 with Some c => draw (location b) c v | None => v end.

Definition spec_tasklet (bs : list mp1_blink_struct) (v : W) : list mp1_blink_struct * W :=
  ((fun b => (tick_blink b).1) <$> bs, foldl tick_draw v bs).

Definition is_at (loc : Z) (b : mp1_blink_struct) : Prop := location b = u16 loc.

#[export] Instance is_at_dec loc b : Decision (is_at loc b).
Proof. unfold is_at. apply _. Defined.

Definition start_blink (user : mp1_blink_struct) : mp1_blink_struct :=
  bare (user <| status := 1 |> <| countdown := on_length user |>).

Definition sync_blink (b b' : mp1_blink_struct) : mp1_blink_struct :=
  b' <| on_length := on_length b |> <| off_length := off_length b |>
     <| countdown := countdown b |> <| status := status b |>.

Definition spec_ioctl (c : ioctl) (bs : list mp1_blink_struct) (v : W) : Z * list mp1_blink_struct * W :=
  match c with
  | RTC_ADD user =>
      if (SIZE <=? location user) || (SIZE <=? len bs) then (-1, bs, v)
      else (0, start_blink user :: bs, draw (location user) (on_char user) v)
  | RTC_REMOVE loc =>
      match list_find (is_at loc) bs with
      | Some (n, _) => (0, delete n bs, v)
      | None => (-1, bs, v)
      end
  | RTC_FIND user => (match list_find (is_at (location user)) bs with Some _ => 0 | None => -1 end, bs, v)
  | RTC_SYNC arg =>
      match list_find (is_at (Z.shiftr arg 16)) bs, list_find (is_at (Z.land arg 0xFFFF)) bs with
      | Some (_, b), Some (n, b') => (0, <[n := sync_blink b b']> bs, draw (location b') (off_char b') v)
      | _, _ => (-1, bs, v)
      end
  end.
End reference.

(** ** The relation *)

(** From the pointer [h] through the places [ps] to the pointer [e]. *)
Fixpoint seg (a : list mp1_blink_struct) (h e : option Z) (ps : list Z) : Prop :=
  match ps with
  | [] => h = e
  | p :: ps => h = Some p /\ exists b, a.[p] = Some b /\ seg a (next b) e ps
  end.

Record blinks_are {V} (P : blinks V) (ps : list Z) (bs : list mp1_blink_struct) : Prop := {
  ba_len : len (blink_array P) = SIZE;
  ba_seg : seg (blink_array P) (mp1_list_head P) None ps;
  ba_distinct : NoDup ps;
  ba_data : Forall2 (fun p b => bare <$> (blink_array P).[p] = Some b) ps bs;
  ba_used : forall i b, (blink_array P).[i] = Some b -> location b <> 0 <-> i ∈ ps;
  ba_locations : Forall (fun b => 0 < location b < SIZE) bs;
}.

(** ** Lemmas *)

Lemma seg_app a ps1 ps2 : forall h e, seg a h e (ps1 ++ ps2) <-> exists m, seg a h m ps1 /\ seg a m e ps2.
Proof.
  induction ps1 as [|p ps1 IH]; intros h e; cbn [app seg].
  - split; [by exists h|by intros (m & -> & H)].
  - split.
    + intros (-> & b & Eb & H). apply IH in H as (m & H1 & H2). exists m. split; [|done]. split; [done|]. by exists b.
    + intros (m & (-> & b & Eb & H1) & H2). split; [done|]. exists b. split; [done|]. apply IH. by exists m.
Qed.

(** Only the links of the places on the way matter. *)
Lemma seg_ext a a' ps : forall h e,
  (forall p, p ∈ ps -> next <$> a'.[p] = next <$> a.[p]) -> seg a h e ps -> seg a' h e ps.
Proof.
  induction ps as [|p ps IH]; intros h e Ha H; [done|]. destruct H as (-> & b & Eb & H).
  pose proof (Ha p ltac:(by left)) as E. rewrite Eb in E. destruct (a'.[p]) as [b'|] eqn:Eb'; [|done].
  injection E as E. split; [done|]. exists b'. split; [done|]. rewrite E. apply IH; [|done]. intros q Hq. apply Ha. by right.
Qed.

Lemma seg_insert a i b ps h e : i ∉ ps -> 0 <= i -> seg a h e ps -> seg (<[Z.to_nat i := b]> a) h e ps.
Proof.
  intros Hi H0. apply seg_ext. intros p Hp. rewrite aget_insert_ne; [done|lia|]. by intros ->.
Qed.

Lemma bare_location b x : bare b = x -> location b = location x.
Proof. by intros <-. Qed.

Lemma data_ext (a a' : list mp1_blink_struct) (ps : list Z) bs :
  (forall q, q ∈ ps -> a'.[q] = a.[q]) ->
  Forall2 (fun p b => bare <$> a.[p] = Some b) ps bs -> Forall2 (fun p b => bare <$> a'.[p] = Some b) ps bs.
Proof.
  intros Ha H. apply Forall2_same_length_lookup_2; [by eapply Forall2_length|]. intros i q x Hq Hx.
  rewrite Ha by by eapply list_elem_of_lookup_2. exact (Forall2_lookup_lr _ _ _ _ _ _ H Hq Hx).
Qed.

(** A place in use has its blink. *)
Lemma blinks_get {V} (P : blinks V) ps bs n p b : blinks_are P ps bs -> ps !! n = Some p -> bs !! n = Some b ->
  exists b0, (blink_array P).[p] = Some b0 /\ bare b0 = b.
Proof.
  intros HB Hp Hb. pose proof (Forall2_lookup_lr _ _ _ _ _ _ (ba_data _ _ _ HB) Hp Hb) as H. cbv beta in H.
  destruct ((blink_array P).[p]) as [b0|]; [|done]. injection H as H. by exists b0.
Qed.

(** How memory shows what has been drawn. *)
Class Drawing {V W} `{Screen V} `{Canvas W} (shown : Z -> V -> W -> Prop) :=
  law_draw base v w loc c : shown base v w -> 0 <= loc < SIZE ->
    exists v', put_byte base (2 * loc) c v = Some v' /\ shown base v' (draw loc c w).

Section drawing.
Context {V W : Type} {HV : Screen V} {HW : Canvas W} (shown : Z -> V -> W -> Prop) {HD : Drawing shown}.

Definition showing (P : blinks V) (w : W) : Prop := shown (vmem_base_addr P) (vmem P) w.

Section lemmas.
Context (P : blinks V) (ps : list Z) (bs : list mp1_blink_struct) (HB : blinks_are P ps bs).

Lemma blinks_length : length ps = length bs.
Proof. eapply Forall2_length, HB. Qed.

Lemma blinks_range p : p ∈ ps -> 0 <= p < SIZE.
Proof.
  intros Hp. apply list_elem_of_lookup_1 in Hp as [n Hn].
  destruct (lookup_lt_is_Some_2 bs n) as [b Hb]; [rewrite <- blinks_length; by eapply lookup_lt_Some|].
  destruct (blinks_get _ _ _ _ _ _ HB Hn Hb) as (b0 & E & _). apply aget_range in E. by rewrite (ba_len _ _ _ HB) in E.
Qed.

Lemma malloc_spec :
  exists r, mp1_malloc P = Some r /\
    match r with Some i => len bs < SIZE /\ 0 <= i < SIZE /\ i ∉ ps | None => SIZE <= len bs end.
Proof.
  unfold mp1_malloc.
  apply (iterate_ind (fun i => 0 <= i <= SIZE /\ forall j, 0 <= j < i -> j ∈ ps) _ (fun i => Z.to_nat (SIZE - i)));
    [|split; [unfold SIZE; lia|intros; lia]|unfold SIZE; lia].
  intros i [Hi Hall]. rewrite <- blinks_length. destruct (Z.ltb_spec i SIZE) as [Hlt|Hge].
  - destruct (aget_is_Some (blink_array P) i) as [b Eb]; [rewrite (ba_len _ _ _ HB); lia|]. rewrite Eb.
    cbn [mbind option_bind]. eexists; split; [done|]. pose proof (ba_used _ _ _ HB i b Eb) as Hu.
    destruct (Z.eqb_spec (location b) 0) as [E0|E0].
    + assert (i ∉ ps) as Hn by tauto. split; [|split; [lia|done] ]. assert (length (i :: ps) <= length (seqZ 0 SIZE))%nat as Hle.
      { apply submseteq_length, NoDup_submseteq; [apply NoDup_cons_2; [done|apply HB]|].
        intros x Hx. apply elem_of_seqZ. apply elem_of_cons in Hx as [->|Hx]; [lia|]. apply blinks_range in Hx. lia. }
      rewrite length_seqZ in Hle. cbn [length] in Hle. unfold SIZE in *. lia.
    + split; [|lia]. split; [lia|]. intros j Hj. destruct (Z.eq_dec j i) as [->|]; [by apply Hu|apply Hall; lia].
  - eexists; split; [done|]. cbv beta iota. assert (length (seqZ 0 SIZE) <= length ps)%nat as Hle.
    { apply submseteq_length, NoDup_submseteq; [apply NoDup_seqZ|]. intros x Hx. apply elem_of_seqZ in Hx. apply Hall. lia. }
    rewrite length_seqZ in Hle. unfold SIZE in *. lia.
Qed.

(** A change of one blink that keeps its link and its location. *)
Lemma blinks_update n p b0 b' :
  ps !! n = Some p -> (blink_array P).[p] = Some b0 -> next b' = next b0 -> location b' = location b0 ->
  exists P', put_blink p b' P = Some P' /\ blinks_are P' ps (<[n := bare b']> bs) /\ (forall w, showing P w -> showing P' w) /\
    mp1_list_head P' = mp1_list_head P /\ forall q, next <$> (blink_array P').[q] = next <$> (blink_array P).[q].
Proof.
  intros Hp E En El. pose proof (aget_range _ _ _ E) as Hr. unfold put_blink. rewrite aset_Some by done.
  cbn [mbind option_bind]. set (a' := <[Z.to_nat p := b']> (blink_array P)).
  assert (forall q, next <$> a'.[q] = next <$> (blink_array P).[q]) as Hnext.
  { intros q. destruct (Z.eq_dec p q) as [<-|Hne]; [unfold a'; rewrite aget_insert_eq, E by done; cbn; by rewrite En|].
    unfold a'. by rewrite aget_insert_ne by lia. }
  exists (mkBlinks a' (mp1_list_head P) (vmem_base_addr P) (vmem P)). split; [done|]. split; [|done]. destruct HB as [Hl Hs Hd Hdata Hu Hloc].
  split; cbn [blink_array mp1_list_head]; try done.
  - unfold a'. by rewrite length_insert.
  - eapply seg_ext; [|exact Hs]. intros q _. apply Hnext.
  - apply Forall2_same_length_lookup. split; [rewrite length_insert; apply blinks_length|].
    intros i q x Hq Hx. destruct (decide (i = n)) as [->|Hne].
    + rewrite list_lookup_insert_eq in Hx by (rewrite <- blinks_length; by eapply lookup_lt_Some).
      assert (q = p) as -> by congruence. injection Hx as <-. unfold a'. by rewrite aget_insert_eq.
    + rewrite list_lookup_insert_ne in Hx by done. pose proof (Forall2_lookup_lr _ _ _ _ _ _ Hdata Hq Hx) as H.
      cbv beta in H. unfold a'. rewrite aget_insert_ne; [exact H|lia|]. intros ->. apply Hne. by eapply NoDup_lookup.
  - intros i b Hb. unfold a' in Hb. destruct (Z.eq_dec p i) as [<-|Hne].
    + rewrite aget_insert_eq in Hb by done. injection Hb as <-. rewrite El. by apply Hu.
    + rewrite aget_insert_ne in Hb by lia. by apply Hu.
  - apply Forall_insert; [done|]. destruct (lookup_lt_is_Some_2 bs n) as [x Hx]; [rewrite <- blinks_length; by eapply lookup_lt_Some|].
    destruct (blinks_get P ps bs n p x) as (b1 & E1 & Hx1); [by split|done..|].
    assert (b1 = b0) as -> by congruence. pose proof (Forall_lookup_1 _ _ _ _ Hloc Hx) as H. cbv beta in H.
    rewrite <- Hx1 in H. cbn in *. by rewrite El.
Qed.

Lemma poke_spec loc c w : 0 <= loc < SIZE -> showing P w ->
  exists P', mp1_poke loc c P = Some P' /\ blinks_are P' ps bs /\ showing P' (draw loc c w) /\
    blink_array P' = blink_array P.
Proof.
  intros Hloc Hw. destruct HB as [Hl Hs Hd Hdata Hu Hlo]. unfold mp1_poke.
  destruct (law_draw _ _ w loc c Hw Hloc) as (v' & -> & Hw'). cbn [mbind option_bind].
  eexists. split; [done|]. by split.
Qed.
End lemmas.

(** Looking for a blink, from a place in the list on. *)
Lemma find_from a loc fuel : forall ps bs h,
  seg a h None ps -> Forall2 (fun p b => bare <$> a.[p] = Some b) ps bs -> (length ps < fuel)%nat ->
  iterate fuel (fun p =>
    match p with
    | None => Some (Done None)
    | Some i => b ← a.[i]; Some (if location b =? u16 loc then Done (Some i) else Next (next b))
    end) h = Some ('(n, _) ← list_find (is_at loc) bs; ps !! n).
Proof.
  induction fuel as [|fuel IH]; intros ps bs h Hs Hd Hf; [lia|]. rewrite iterate_S.
  destruct Hd as [|p b ps bs Hb Hd]; [by rewrite Hs|]. destruct Hs as (-> & b0 & Eb & Hs). rewrite Eb in Hb |- *.
  injection Hb as Hb. cbn [mbind option_bind list_find]. cbn [length] in Hf.
  subst b. case_decide as Hl; change (location b0 = u16 loc) in Hl || change (location b0 <> u16 loc) in Hl.
  - rewrite (proj2 (Z.eqb_eq _ _)) by done. done.
  - rewrite (proj2 (Z.eqb_neq _ _)) by done. rewrite (IH ps bs _ Hs Hd) by lia.
    by destruct (list_find (is_at loc) bs) as [ [n x]|].
Qed.

Section operations.
Context (P : blinks V) (ps : list Z) (bs : list mp1_blink_struct) (HB : blinks_are P ps bs).
Context (fuel : nat) (Hfuel : (length bs < fuel)%nat).

Lemma find_spec loc :
  mp1_find_helper fuel loc P = Some ('(n, _) ← list_find (is_at loc) bs; ps !! n).
Proof.
  apply (find_from (blink_array P) loc fuel ps bs); [apply HB|apply HB|]. by rewrite (blinks_length _ _ _ HB).
Qed.

Lemma found_place loc n b : list_find (is_at loc) bs = Some (n, b) ->
  bs !! n = Some b /\ exists p b0, ps !! n = Some p /\ (blink_array P).[p] = Some b0 /\ bare b0 = b /\ location b = u16 loc.
Proof.
  intros H. apply list_find_Some in H as (Hb & Hl & _). split; [done|].
  destruct (lookup_lt_is_Some_2 ps n) as [p Hp]; [rewrite (blinks_length _ _ _ HB); by eapply lookup_lt_Some|].
  destruct (blinks_get _ _ _ _ _ _ HB Hp Hb) as (b0 & E & Hbare). by exists p, b0.
Qed.

Lemma add_spec user w :
  0 < location user -> showing P w -> let '(r, bs', w') := spec_ioctl (RTC_ADD user) bs w in
  exists P' ps', mp1_ioctl_add user P = Some (r, P') /\ blinks_are P' ps' bs' /\ showing P' w'.
Proof.
  intros Hloc Hw. cbn [spec_ioctl]. unfold mp1_ioctl_add.
  destruct (Z.leb_spec SIZE (location user)) as [Hge|Hlt]; cbn [orb]; [by exists P, ps|].
  destruct (malloc_spec P ps bs HB) as (r & -> & Hr). cbn [mbind option_bind].
  destruct r as [i|]; [|rewrite (proj2 (Z.leb_le SIZE (len bs))) by lia; by exists P, ps].
  destruct Hr as (Hl & Hi & Hn). rewrite (proj2 (Z.leb_gt SIZE (len bs))) by lia.
  destruct HB as [Hlen Hs Hd Hdata Hu Hlo]. unfold put_blink. rewrite aset_Some by lia. cbn [mbind option_bind].
  set (b := user <| status := 1 |> <| countdown := on_length user |> <| next := mp1_list_head P |>).
  set (a' := <[Z.to_nat i := b]> (blink_array P)).
  assert (blinks_are (mkBlinks a' (Some i) (vmem_base_addr P) (vmem P)) (i :: ps) (start_blink user :: bs)) as HB'.
  { assert (a'.[i] = Some b) as Ei by (apply aget_insert_eq; lia).
    assert (forall q, q ∈ ps -> a'.[q] = (blink_array P).[q]) as Eq.
    { intros q Hq. apply aget_insert_ne; [lia|]. by intros ->. }
    split; cbn [blink_array mp1_list_head]; try done.
    - unfold a'. by rewrite length_insert.
    - split; [done|]. exists b. split; [done|]. eapply seg_ext; [|exact Hs]. intros q Hq. by rewrite Eq.
    - by apply NoDup_cons_2.
    - constructor; [by rewrite Ei|]. by eapply data_ext.
    - intros j x Hj. destruct (Z.eq_dec i j) as [<-|Hne].
      + rewrite Ei in Hj. injection Hj as <-. cbn. split; [by left|lia].
      + unfold a' in Hj. rewrite aget_insert_ne in Hj by lia. rewrite (Hu j x Hj), elem_of_cons.
        split; [by right|by intros [->|?] ].
    - constructor; [|done]. cbn. lia. }
  destruct (poke_spec _ _ _ HB' (location user) (on_char user) w) as (P' & E & HB'' & Hw' & _); [lia|exact Hw|].
  exists P', (i :: ps). split; [|by split].
  change (location (user <| status := 1 |> <| countdown := on_length user |>)) with (location user).
  change (on_char (user <| status := 1 |> <| countdown := on_length user |>)) with (on_char user).
  unfold update_field in *. cbn -[mp1_poke a' b] in *. rewrite E. done.
Qed.

(** The pointer to a blink, from another pointer on. *)
Lemma prev_from p ps2 e n : forall ps1 cell,
  (match cell with None => Some (mp1_list_head P) | Some q => next <$> (blink_array P).[q] end)
    = Some (match ps1 with [] => Some p | q :: _ => Some q end) ->
  seg (blink_array P) (match ps1 with [] => Some p | q :: _ => Some q end) e (ps1 ++ p :: ps2) -> p ∉ ps1 -> (length ps1 < n)%nat ->
  iterate n (fun cell =>
    p0 ← match cell with None => Some (mp1_list_head P) | Some q => b ← (blink_array P).[q]; Some (next b) end;
    match p0 with
    | Some q => Some (if q =? p then Done cell else Next (Some q))
    | None => None
    end) cell = Some (foldl (fun _ q => Some q) cell ps1).
Proof.
  induction n as [|n IH]; intros ps1 cell Hc Hs Hp Hn; [lia|]. rewrite iterate_S.
  assert (match cell with None => Some (mp1_list_head P) | Some q => b ← (blink_array P).[q]; Some (next b) end
    = Some (match ps1 with [] => Some p | q :: _ => Some q end)) as ->.
  { destruct cell as [q|]; [|done]. by destruct ((blink_array P).[q]). }
  cbn [mbind option_bind]. destruct ps1 as [|q ps1]; [by rewrite Z.eqb_refl|].
  apply not_elem_of_cons in Hp as [Hne Hp]. rewrite (proj2 (Z.eqb_neq q p)) by congruence.
  cbn [mbind option_bind].
  destruct Hs as (_ & b & Eb & Hs). cbn [length] in Hn.
  assert (next b = match ps1 with [] => Some p | q :: _ => Some q end) as Enext.
  { destruct ps1; cbn [app seg] in Hs; by destruct Hs. }
  rewrite (IH ps1 (Some q)); [|by rewrite Eb; cbn; rewrite Enext|by rewrite <- Enext|done|lia].
  done.
Qed.

(** Freeing a place that the list has gone around. *)
Lemma free_spec a1 h ps1 p ps2 :
  ps = ps1 ++ p :: ps2 -> (forall q, bare <$> a1.[q] = bare <$> (blink_array P).[q]) -> len a1 = SIZE ->
  seg a1 h None (ps1 ++ ps2) ->
  exists P', mp1_free p (mkBlinks a1 h (vmem_base_addr P) (vmem P)) = Some P' /\
    blinks_are P' (ps1 ++ ps2) (delete (length ps1) bs) /\ (forall w, showing P w -> showing P' w).
Proof.
  intros Eps Ha Hl1 Hs. pose proof (blinks_range P ps bs HB p ltac:(rewrite Eps; apply elem_of_app; right; by left)) as Hr.
  destruct HB as [Hlen _ Hd Hdata Hu Hlo]. pose proof Hd as Hd'. rewrite Eps in Hd'.
  apply list.NoDup_app in Hd' as (Hd1 & Hd12 & Hd2). apply list.NoDup_cons in Hd2 as [Hp2 Hd2].
  assert (p ∉ ps1 ++ ps2) as Hn.
  { intros H. apply elem_of_app in H as [H|H]; [|done]. apply (Hd12 p H). by left. }
  unfold mp1_free, put_blink. cbn [blink_array]. rewrite aset_Some by lia. cbn [mbind option_bind].
  set (a2 := <[Z.to_nat p := no_blink]> a1). exists (mkBlinks a2 h (vmem_base_addr P) (vmem P)). split; [done|]. split; [|done].
  assert (ps1 ++ ps2 = delete (length ps1) ps) as Edel by (by rewrite Eps, delete_middle).
  split; cbn [blink_array mp1_list_head]; try done.
  - unfold a2. by rewrite length_insert.
  - apply seg_insert; [done|lia|done].
  - apply list.NoDup_app. split; [done|]. split; [|done]. intros x Hx Hx2. apply (Hd12 x Hx). by right.
  - apply (data_ext a1); [intros q Hq; apply aget_insert_ne; [lia|by intros ->]|].
    rewrite Edel. apply Forall2_delete. eapply list.Forall2_impl; [exact Hdata|]. intros q x H. by rewrite Ha.
  - intros i x Hx. unfold a2 in Hx. destruct (Z.eq_dec p i) as [<-|Hne].
    + rewrite aget_insert_eq in Hx by lia. injection Hx as <-. cbn. split; [done|]. by intros ?%Hn.
    + rewrite aget_insert_ne in Hx by lia. pose proof (Ha i) as Hi. rewrite Hx in Hi. cbn in Hi.
      destruct ((blink_array P).[i]) as [y|] eqn:Ey; [|done]. cbn in Hi. injection Hi as El _ _ _ _ _ _.
      rewrite El, (Hu i y Ey), Eps, !elem_of_app, elem_of_cons. split; [intros [?|[->|?] ]; [by left|done|by right]|intros [?|?]; [by left|right; by right] ].
  - by apply Forall_delete.
Qed.

Lemma remove_spec loc w :
  showing P w -> let '(r, bs', w') := spec_ioctl (RTC_REMOVE loc) bs w in
  exists P' ps', mp1_ioctl_remove fuel loc P = Some (r, P') /\ blinks_are P' ps' bs' /\ showing P' w'.
Proof.
  intros Hw. cbn [spec_ioctl]. unfold mp1_ioctl_remove. rewrite find_spec.
  destruct (list_find (is_at loc) bs) as [ [n b]|] eqn:Hfind; cbn [mbind option_bind]; [|by exists P, ps].
  destruct (found_place loc n b Hfind) as (Hb & p & b0 & Hp & E & Hbare & _). rewrite Hp.
  destruct HB as [Hlen Hs Hd Hdata Hu Hlo].
  pose proof (take_drop_middle _ _ _ Hp) as Eps. set (ps1 := take n ps) in *. set (ps2 := drop (S n) ps) in *.
  rewrite <- Eps in Hd. apply list.NoDup_app in Hd as (Hd1 & Hd12 & Hd2). apply list.NoDup_cons in Hd2 as [Hp2 Hd2].
  assert (p ∉ ps1) as Hp1 by (intros H; apply (Hd12 p H); by left).
  pose proof Hs as Hs'. rewrite <- Eps in Hs'. apply seg_app in Hs' as (m & Hs1 & -> & b1 & E1 & Hs2).
  assert (b1 = b0) as -> by congruence. clear E1.
  assert (length ps1 <= length bs)%nat as Hl1.
  { unfold ps1. rewrite length_take, (blinks_length _ _ _ HB). lia. }
  assert (mp1_list_head P = match ps1 with [] => Some p | q :: _ => Some q end) as Eh.
  { destruct ps1; cbn [app seg] in Hs1; [done|by destruct Hs1 as [-> _] ]. }
  assert (find_prev fuel p P = Some (foldl (fun _ q => Some q) None ps1)) as ->.
  { apply (prev_from p ps2 None); [by rewrite Eh|by rewrite <- Eh, Eps|done|lia]. }
  cbn [mbind option_bind]. rewrite E. cbn [mbind option_bind]. pose proof (aget_range _ _ _ E) as Hpr.
  assert (bs = take n bs ++ drop n bs) as _ by (symmetry; apply take_drop).
  assert (length ps1 = n) as En.
  { unfold ps1. rewrite length_take. apply lookup_lt_Some in Hp. lia. }
  rewrite <- En. clearbody ps1 ps2. symmetry in Eps.
  destruct ps1 as [|q ps0 _] using rev_ind.
  - cbn [foldl]. cbn [app seg] in Hs1.
    destruct (free_spec (blink_array P) (next b0) [] p ps2) as (P' & E' & HB' & Ev); [done..|].
    eexists P', _. split; [|split; [exact HB'|by apply Ev] ]. cbn [mbind option_bind].
    change (P <| mp1_list_head := next b0 |>) with (mkBlinks (blink_array P) (next b0) (vmem_base_addr P) (vmem P)). by rewrite E'.
  - rewrite foldl_app. cbn [foldl]. apply seg_app in Hs1 as (m & Hs0 & -> & prev & Eq & Em). cbn [seg] in Em.
    rewrite Eq. cbn [mbind option_bind]. pose proof (aget_range _ _ _ Eq) as Hqr.
    unfold put_blink at 1. rewrite aset_Some by done. cbn [mbind option_bind].
    set (a1 := <[Z.to_nat q := prev <| next := next b0 |>]> (blink_array P)).
    apply list.NoDup_app in Hd1 as (_ & Hd0q & _). assert (q ∉ ps0) as Hq0 by (intros H; apply (Hd0q q H); by left).
    assert (q ∉ ps2) as Hq2 by (intros H; apply (Hd12 q); [apply elem_of_app; right; by left|by right]).
    destruct (free_spec a1 (mp1_list_head P) (ps0 ++ [q]) p ps2) as (P' & E' & HB' & Ev); [done| | | |].
    + intros j. unfold a1. destruct (Z.eq_dec q j) as [<-|Hne]; [by rewrite aget_insert_eq, Eq by done|].
      by rewrite aget_insert_ne by lia.
    + unfold a1. by rewrite length_insert.
    + rewrite <- app_assoc. apply seg_app. exists (Some q). split; [apply seg_insert; [done|lia|exact Hs0] |].
      split; [done|]. eexists. split; [apply aget_insert_eq; done|]. cbn [app]. apply seg_insert; [done|lia|exact Hs2].
    + eexists P', _. split; [|split; [exact HB'|by apply Ev] ].
      change (P <| blink_array := a1 |>) with (mkBlinks a1 (mp1_list_head P) (vmem_base_addr P) (vmem P)). by rewrite E'.
Qed.

Lemma in_screen n b : bs !! n = Some b -> 0 <= location b < SIZE.
Proof. intros H. pose proof (Forall_lookup_1 _ _ _ _ (ba_locations _ _ _ HB) H) as Hl. cbv beta in Hl. lia. Qed.

Lemma sync_spec arg w :
  showing P w -> let '(r, bs', w') := spec_ioctl (RTC_SYNC arg) bs w in
  exists P' ps', mp1_ioctl_sync fuel arg P = Some (r, P') /\ blinks_are P' ps' bs' /\ showing P' w'.
Proof.
  intros Hw. cbn [spec_ioctl]. unfold mp1_ioctl_sync. rewrite (find_spec (Z.shiftr arg 16)).
  destruct (list_find (is_at (Z.shiftr arg 16)) bs) as [ [n1 b1]|] eqn:H1; cbn [mbind option_bind]; [|by exists P, ps].
  destruct (found_place _ _ _ H1) as (_ & p1 & x1 & Hp1 & E1 & Hx1 & _). rewrite Hp1, (find_spec (Z.land arg 0xFFFF)).
  destruct (list_find (is_at (Z.land arg 0xFFFF)) bs) as [ [n2 b2]|] eqn:H2; cbn [mbind option_bind]; [|by exists P, ps].
  destruct (found_place _ _ _ H2) as (Hb2 & p2 & x2 & Hp2 & E2 & Hx2 & _). rewrite Hp2, E1. cbn [mbind option_bind].
  rewrite E2. cbn [mbind option_bind].
  destruct (blinks_update P ps bs HB n2 p2 x2 (sync_blink x1 x2) Hp2 E2) as (P1 & E & HB1 & Ev & _); [done..|].
  change (x2 <| on_length := on_length x1 |> <| off_length := off_length x1 |>
    <| countdown := countdown x1 |> <| status := status x1 |>) with (sync_blink x1 x2). rewrite E. cbn [mbind option_bind].
  change (location (sync_blink x1 x2)) with (location x2). change (off_char (sync_blink x1 x2)) with (off_char x2).
  assert (location x2 = location b2 /\ off_char x2 = off_char b2) as [-> ->] by (by rewrite <- Hx2).
  destruct (poke_spec P1 ps _ HB1 (location b2) (off_char b2) w) as (P2 & -> & HB2 & Hw2 & _); [by eapply in_screen|by apply Ev|].
  exists P2, ps. split; [done|]. split; [|exact Hw2].
  replace (sync_blink b1 b2) with (bare (sync_blink x1 x2)); [exact HB2|]. by rewrite <- Hx1, <- Hx2.
Qed.
End operations.

(** Ticking from a place of the list on. *)
Lemma tasklet_from ps2 : forall fuel ps1 bs1 bs2 P h w,
  showing P w -> blinks_are P (ps1 ++ ps2) (bs1 ++ bs2) -> length ps1 = length bs1 -> seg (blink_array P) h None ps2 ->
  (length ps2 < fuel)%nat ->
  exists P', iterate fuel (fun '(p, P) =>
    match p with
    | None => Some (Done P)
    | Some i =>
        b ← (blink_array P).[i];
        let '(b', c) := tick_blink b in
        P ← match c with Some c => mp1_poke (location b) c P | None => Some P end;
        P ← put_blink i b' P;
        Some (Next (next b', P))
    end) (h, P) = Some P' /\
    blinks_are P' (ps1 ++ ps2) (bs1 ++ (spec_tasklet bs2 w).1) /\ showing P' (spec_tasklet bs2 w).2.
Proof.
  induction ps2 as [|p ps2 IH]; intros [|fuel] ps1 bs1 bs2 P h w Hw HB Hl Hs Hf; cbn [length] in Hf; try lia; rewrite iterate_S.
  - pose proof (blinks_length _ _ _ HB) as Hlen. rewrite !length_app in Hlen.
    destruct bs2; [|cbn in Hlen; lia]. rewrite Hs. by exists P.
  - pose proof (blinks_length _ _ _ HB) as Hlen. rewrite !length_app in Hlen.
    destruct bs2 as [|b bs2]; [cbn in Hlen; lia|]. destruct Hs as (-> & x & Ex & Hs).
    assert ((ps1 ++ p :: ps2) !! length ps1 = Some p) as Hp by by rewrite list_lookup_middle.
    assert ((bs1 ++ b :: bs2) !! length ps1 = Some b) as Hb by by rewrite Hl, list_lookup_middle.
    destruct (blinks_get _ _ _ _ _ _ HB Hp Hb) as (x0 & E & Hx). assert (x0 = x) as -> by congruence. clear E.
    assert (0 <= location x < SIZE) as Hloc.
    { pose proof (Forall_lookup_1 _ _ _ _ (ba_locations _ _ _ HB) Hb) as H. cbv beta in H. rewrite <- Hx in H. cbn in H. lia. }
    rewrite Ex. cbn [mbind option_bind].
    assert (bare (tick_blink x).1 = (tick_blink b).1 /\ (tick_blink x).2 = (tick_blink b).2 /\
      next (tick_blink x).1 = next x /\ location (tick_blink x).1 = location x /\ location x = location b) as (Hbare & Hc & Hn & Hlo & Hlb).
    { rewrite <- Hx. unfold tick_blink. cbn. by repeat case_match. }
    rewrite (surjective_pairing (tick_blink x)). set (x' := (tick_blink x).1) in *. rewrite Hc.
    assert (exists P1, match (tick_blink b).2 with Some c => mp1_poke (location x) c P | None => Some P end = Some P1 /\
      blinks_are P1 (ps1 ++ p :: ps2) (bs1 ++ b :: bs2) /\ showing P1 (tick_draw w b) /\ blink_array P1 = blink_array P)
      as (P1 & -> & HB1 & Ev1 & Ea1).
    { unfold tick_draw. destruct (tick_blink b).2 as [c|]; [|by exists P].
      rewrite <- Hlb. exact (poke_spec P _ _ HB (location x) c w Hloc Hw). }
    cbn [mbind option_bind]. rewrite <- Ea1 in Ex, Hs.
    destruct (blinks_update P1 _ _ HB1 (length ps1) p x x' Hp Ex Hn Hlo) as (P2 & -> & HB2 & Ev2 & _ & Hnext).
    cbn [mbind option_bind].
    destruct (IH fuel (ps1 ++ [p]) (bs1 ++ [(tick_blink b).1]) bs2 P2 (next x') (tick_draw w b)) as (P' & E' & HB' & Ev').
    + by apply Ev2.
    + rewrite <- !app_assoc. cbn [app]. rewrite Hl, insert_app_r_alt, Nat.sub_diag, Hbare in HB2 by lia. exact HB2.
    + rewrite !length_app. cbn. lia.
    + rewrite Hn. eapply seg_ext; [|exact Hs]. intros q _. apply Hnext.
    + lia.
    + exists P'. split; [exact E'|]. rewrite <- !app_assoc in HB'. cbn [app] in HB'.
      split; [exact HB'|exact Ev'].
Qed.

Lemma tasklet_spec P ps bs fuel w :
  blinks_are P ps bs -> (length bs < fuel)%nat -> showing P w ->
  exists P', mp1_rtc_tasklet fuel P = Some P' /\ blinks_are P' ps (spec_tasklet bs w).1 /\
    showing P' (spec_tasklet bs w).2.
Proof.
  intros HB Hf Hw. apply (tasklet_from ps fuel [] [] bs P); [done|done|done|apply HB|]. by rewrite (blinks_length _ _ _ HB).
Qed.
End drawing.

(** *** Any sequence of calls *)

Inductive blink_step := Ioctl (c : ioctl) | Tasklet.

(** The results of the calls; a tick has none. *)
Definition run_blink {V} `{Screen V} (fuel : nat) (e : blink_step) (P : blinks V) : option (option Z * blinks V) :=
  match e with
  | Ioctl c => '(r, P) ← mp1_ioctl fuel c P; Some (Some r, P)
  | Tasklet => P ← mp1_rtc_tasklet fuel P; Some (None, P)
  end.

Fixpoint run_blinks {V} `{Screen V} (fuel : nat) (es : list blink_step) (P : blinks V)
    : option (list (option Z) * blinks V) :=
  match es with
  | [] => Some ([], P)
  | e :: es => '(r, P) ← run_blink fuel e P; '(rs, P) ← run_blinks fuel es P; Some (r :: rs, P)
  end.

Definition spec_blink {W} `{Canvas W} (e : blink_step) (s : list mp1_blink_struct * W) : option Z * (list mp1_blink_struct * W) :=
  match e with
  | Ioctl c => let '(r, bs, v) := spec_ioctl c s.1 s.2 in (Some r, (bs, v))
  | Tasklet => (None, spec_tasklet s.1 s.2)
  end.

Fixpoint spec_blinks {W} `{Canvas W} (es : list blink_step) (s : list mp1_blink_struct * W)
    : list (option Z) * (list mp1_blink_struct * W) :=
  match es with
  | [] => ([], s)
  | e :: es => let '(r, s) := spec_blink e s in let '(rs, s) := spec_blinks es s in (r :: rs, s)
  end.

(** Nothing is added at the top left corner. *)
Definition blink_ok (e : blink_step) : Prop :=
  match e with Ioctl (RTC_ADD user) => 0 < location user | _ => True end.

(** All places free, nothing in the list. *)
Definition blinks_start {V} (base : Z) (v : V) : blinks V := mkBlinks (replicate (Z.to_nat SIZE) no_blink) None base v.

Lemma blinks_start_are {V} base (v : V) : blinks_are (blinks_start base v) [] [].
Proof.
  split; cbn [blink_array mp1_list_head blinks_start]; try done.
  - constructor.
  - intros i b Hb. pose proof (aget_range _ _ _ Hb) as Hr. rewrite length_replicate in Hr.
    rewrite aget_replicate in Hb by lia. injection Hb as <-. cbn. split; [done|by intros ?%elem_of_nil].
Qed.

Lemma blinks_capacity {V} (P : blinks V) ps bs : blinks_are P ps bs -> len bs <= SIZE.
Proof.
  intros HB. rewrite <- (blinks_length _ _ _ HB). assert (length ps <= length (seqZ 0 SIZE))%nat as Hle.
  { apply submseteq_length, NoDup_submseteq; [apply HB|]. intros x Hx. apply elem_of_seqZ.
    pose proof (blinks_range _ _ _ HB x Hx). lia. }
  rewrite length_seqZ in Hle. unfold SIZE in *. lia.
Qed.

Section runs.
Context {V W : Type} {HV : Screen V} {HW : Canvas W} (shown : Z -> V -> W -> Prop) {HD : Drawing shown}.
Context (fuel : nat) (Hfuel : (Z.to_nat SIZE < fuel)%nat).
Notation showing := (showing shown).

Lemma blink_step_spec e P ps bs w :
  blinks_are P ps bs -> showing P w -> blink_ok e -> let '(r, (bs', w')) := spec_blink e (bs, w) in
  exists P' ps', run_blink fuel e P = Some (r, P') /\ blinks_are P' ps' bs' /\ showing P' w'.
Proof.
  intros HB Hw Hok. pose proof (blinks_capacity _ _ _ HB) as Hcap. assert (length bs < fuel)%nat as Hf by lia.
  destruct e as [c|]; cbn [spec_blink run_blink fst snd].
  - destruct c as [user|loc|user|arg]; cbn [mp1_ioctl].
    + pose proof (add_spec shown P ps bs HB fuel Hf user w Hok Hw) as H.
      destruct (spec_ioctl (RTC_ADD user) bs w) as [ [r bs'] w']. destruct H as (P' & ps' & -> & H). by exists P', ps'.
    + pose proof (remove_spec shown P ps bs HB fuel Hf loc w Hw) as H.
      destruct (spec_ioctl (RTC_REMOVE loc) bs w) as [ [r bs'] w']. destruct H as (P' & ps' & -> & H). by exists P', ps'.
    + cbn [spec_ioctl]. unfold mp1_ioctl_find. rewrite (find_spec P ps bs HB fuel Hf (location user)).
      destruct (list_find (is_at (location user)) bs) as [ [n b]|] eqn:Hfind; cbn [mbind option_bind]; [|by exists P, ps].
      destruct (found_place P ps bs HB _ n b Hfind) as (_ & p & b0 & -> & -> & _). by exists P, ps.
    + pose proof (sync_spec shown P ps bs HB fuel Hf arg w Hw) as H.
      destruct (spec_ioctl (RTC_SYNC arg) bs w) as [ [r bs'] w']. destruct H as (P' & ps' & -> & H). by exists P', ps'.
  - destruct (tasklet_spec shown P ps bs fuel w HB Hf Hw) as (P' & -> & HB' & Ev). cbn [spec_tasklet] in *. by exists P', ps.
Qed.

Lemma blink_steps_spec es : forall P ps bs w,
  blinks_are P ps bs -> showing P w -> Forall blink_ok es ->
  exists P' ps', run_blinks fuel es P = Some ((spec_blinks es (bs, w)).1, P') /\
    blinks_are P' ps' (spec_blinks es (bs, w)).2.1 /\ showing P' (spec_blinks es (bs, w)).2.2.
Proof.
  induction es as [|e es IH]; intros P ps bs w HB Hw Hes; [by exists P, ps|]. apply list.Forall_cons in Hes as [He Hes].
  pose proof (blink_step_spec e P ps bs w HB Hw He) as H. cbn [run_blinks spec_blinks].
  destruct (spec_blink e (bs, w)) as [r [bs' w'] ]. destruct H as (P1 & ps1 & E & HB1 & Hw1).
  rewrite E. cbn [mbind option_bind]. destruct (IH P1 ps1 bs' w' HB1 Hw1 Hes) as (P2 & ps2 & E2 & HB2 & Hw2).
  rewrite E2. cbn [mbind option_bind]. destruct (spec_blinks es (bs', w')) as [rs s]. by exists P2, ps2.
Qed.
End runs.

(** A page for itself shows itself. *)
Definition page_shown (base : Z) (v w : list Z) : Prop := v = w /\ 2 * SIZE <= len v.

#[export] Instance page_drawing : Drawing page_shown.
Proof.
  intros base v w loc c [-> Hv] Hloc. unfold put_byte, page_screen. rewrite aset_Some by lia.
  eexists. split; [done|]. split; [done|]. by rewrite length_insert.
Qed.

(** *** What is on the screen *)

Definition shows_char (b : mp1_blink_struct) : Z := if Z.testbit (status b) 0 then on_char b else off_char b.
Definition lit (v : list Z) (b : mp1_blink_struct) : Prop := v.[2 * location b] = Some (shows_char b).
Definition ticked (b : mp1_blink_struct) : mp1_blink_struct := (tick_blink b).1.

Lemma ticked_same b : location (ticked b) = location b /\ on_char (ticked b) = on_char b /\ off_char (ticked b) = off_char b /\
  on_length (ticked b) = on_length b /\ off_length (ticked b) = off_length b.
Proof. unfold ticked, tick_blink. by repeat case_match. Qed.

Lemma aget_draw_eq loc c (v : list Z) : 0 <= loc -> 2 * loc < len v -> (draw loc c v).[2 * loc] = Some c.
Proof. intros. apply aget_insert_eq. lia. Qed.

Lemma aget_draw_ne loc c (v : list Z) i : 0 <= loc -> i <> 2 * loc -> (draw loc c v).[i] = v.[i].
Proof. intros. apply aget_insert_ne; lia. Qed.

Lemma length_draw loc c (v : list Z) : length (draw loc c v) = length v.
Proof. apply length_insert. Qed.

(** A tick draws what the blink shows afterwards. *)
Lemma tick_draw_lit (v : list Z) b : 0 <= location b -> 2 * location b < len v -> lit v b -> lit (tick_draw v b) (ticked b).
Proof.
  intros H0 H1 Hl. unfold lit in *. destruct (ticked_same b) as (-> & _). unfold tick_draw, ticked, shows_char, tick_blink in *.
  destruct (0 <? s16 (u16 (countdown b - 1))); [exact Hl|].
  destruct (Z.testbit (status b) 0) eqn:Eb; cbn [fst snd]; rewrite aget_draw_eq by done.
  - change (Some (off_char b) = Some (if Z.testbit (Z.lxor (status b) 1) 0 then on_char b else off_char b)).
    by rewrite Z.lxor_spec, Eb.
  - change (Some (on_char b) = Some (if Z.testbit (Z.lxor (status b) 1) 0 then on_char b else off_char b)).
    by rewrite Z.lxor_spec, Eb.
Qed.

Lemma tick_draw_other (v : list Z) b i : 0 <= location b -> i <> 2 * location b -> (tick_draw v b).[i] = v.[i].
Proof. intros H0 Hne. unfold tick_draw. case_match; [by apply aget_draw_ne|done]. Qed.

Lemma tick_draw_length (v : list Z) b : length (tick_draw v b) = length v.
Proof. unfold tick_draw. case_match; [apply length_draw|done]. Qed.

Lemma tasklet_other bs : forall (v : list Z) i, Forall (fun b => 0 <= location b /\ i <> 2 * location b) bs ->
  (foldl tick_draw v bs).[i] = v.[i].
Proof.
  induction bs as [|b bs IH]; intros v i H; [done|]. apply list.Forall_cons in H as [ [H0 Hne] H]. cbn [foldl].
  rewrite IH by done. by apply tick_draw_other.
Qed.

Lemma tasklet_lit bs : forall v : list Z, Forall (fun b => 0 < location b < SIZE) bs -> 2 * SIZE <= len v ->
  NoDup (location <$> bs) -> Forall (lit v) bs ->
  Forall (lit (spec_tasklet bs v).2) (spec_tasklet bs v).1.
Proof.
  induction bs as [|b bs IH]; intros v Hr Hv Hd Hl; [constructor|].
  apply list.Forall_cons in Hr as [Hb Hr], Hl as [Hlb Hl]. cbn [fmap list_fmap] in Hd.
  apply list.NoDup_cons in Hd as [Hn Hd]. cbn [spec_tasklet fmap list_fmap foldl fst snd] in *.
  assert (Forall (fun x => location x <> location b) bs) as Hne.
  { apply list.Forall_forall. intros x Hx E. apply Hn. rewrite <- E. by apply list_elem_of_fmap_2. }
  constructor.
  - change (lit (foldl tick_draw (tick_draw v b) bs) (ticked b)). unfold lit. rewrite tasklet_other.
    + apply tick_draw_lit; [lia|unfold SIZE in *; lia|done].
    + rewrite (proj1 (ticked_same b)). apply list.Forall_forall. intros x Hx.
      rewrite list.Forall_forall in Hr, Hne. specialize (Hr x Hx). specialize (Hne x Hx). cbv beta in *. lia.
  - apply IH; [done|by rewrite tick_draw_length|done|]. apply list.Forall_forall. intros x Hx. unfold lit.
    rewrite list.Forall_forall in Hr, Hne, Hl. rewrite tick_draw_other; [by apply Hl|lia|].
    specialize (Hne x Hx). cbv beta in *. lia.
Qed.

(** *** When a blink is on *)

Definition times_ok (user : mp1_blink_struct) : Prop := 1 <= on_length user < 32768 /\ 1 <= off_length user < 32768.

(** The phase after [n] ticks, and whether the blink is on. *)
Definition phase (user : mp1_blink_struct) (n : nat) : Z := Z.of_nat n mod (on_length user + off_length user).
Definition is_on (user : mp1_blink_struct) (n : nat) : bool := phase user n <? on_length user.

Lemma phase_next user n : times_ok user ->
  phase user (S n) = (if phase user n + 1 =? on_length user + off_length user then 0 else phase user n + 1).
Proof.
  intros [H1 H2]. unfold phase. set (m := on_length user + off_length user).
  pose proof (Z.mod_pos_bound (Z.of_nat n) m ltac:(lia)). pose proof (Z.div_mod (Z.of_nat n) m ltac:(lia)).
  rewrite Nat2Z.inj_succ. destruct (Z.eqb_spec (Z.of_nat n mod m + 1) m).
  - symmetry. apply (Z.mod_unique _ _ (Z.of_nat n / m + 1)); lia.
  - symmetry. apply (Z.mod_unique _ _ (Z.of_nat n / m)); lia.
Qed.

(** A blink after [n] ticks. *)
Definition blink_after (user : mp1_blink_struct) (n : nat) : mp1_blink_struct :=
  mkBlink (location user) (on_char user) (off_char user) (on_length user) (off_length user)
    (if is_on user n then on_length user - phase user n else on_length user + off_length user - phase user n)
    (if is_on user n then 1 else 0) None.

Lemma ticked_after user n : times_ok user -> ticked (blink_after user n) = blink_after user (S n).
Proof.
  intros Ht. pose proof Ht as [H1 H2]. pose proof (phase_next user n Ht) as Hp. unfold blink_after, is_on. rewrite Hp.
  pose proof (Z.mod_pos_bound (Z.of_nat n) (on_length user + off_length user) ltac:(lia)) as Hm.
  change (Z.of_nat n mod (on_length user + off_length user)) with (phase user n) in Hm.
  set (p := phase user n) in *. clearbody p. unfold ticked, tick_blink. cbn [countdown status on_length off_length on_char off_char].
  assert (forall c, 1 <= c <= 32767 -> u16 (c - 1) = c - 1 /\ s16 (c - 1) = c - 1) as Hs.
  { intros c Hc. unfold u16, s16. rewrite !Z.mod_small by lia. lia. }
  destruct (Z.ltb_spec p (on_length user)) as [Hon|Hoff].
  - destruct (Hs (on_length user - p)) as [-> ->]; [lia|]. rewrite (proj2 (Z.eqb_neq (p + 1) _)) by lia.
    destruct (Z.ltb_spec 0 (on_length user - p - 1)).
    + rewrite (proj2 (Z.ltb_lt (p + 1) _)) by lia. cbn. unfold update_field. cbn. f_equal. lia.
    + rewrite (proj2 (Z.ltb_ge (p + 1) _)) by lia. cbn. unfold update_field. cbn. f_equal. lia.
  - destruct (Hs (on_length user + off_length user - p)) as [-> ->]; [lia|].
    destruct (Z.ltb_spec 0 (on_length user + off_length user - p - 1)).
    + rewrite (proj2 (Z.eqb_neq (p + 1) _)), (proj2 (Z.ltb_ge (p + 1) _)) by lia. cbn. unfold update_field. cbn. f_equal. lia.
    + rewrite (proj2 (Z.eqb_eq (p + 1) _)), (proj2 (Z.ltb_lt 0 _)) by lia. cbn. unfold update_field. cbn. f_equal. lia.
Qed.

Lemma start_after user : times_ok user -> start_blink user = blink_after user 0.
Proof.
  intros [H1 H2]. unfold blink_after, is_on, phase. rewrite Z.mod_0_l by lia. rewrite (proj2 (Z.ltb_lt 0 _)) by lia.
  by rewrite Z.sub_0_r.
Qed.

Lemma blink_after_shows user n : shows_char (blink_after user n) = if is_on user n then on_char user else off_char user.
Proof. unfold shows_char, blink_after. cbn. by destruct (is_on user n). Qed.

(** Adding blinks at places of their own. *)
Lemma adds_lit users : forall bs (v : list Z),
  2 * SIZE <= len v -> Forall (fun u => 0 < location u < SIZE) users -> Forall times_ok users ->
  NoDup (location <$> reverse users ++ bs) -> Forall (fun b => 0 < location b < SIZE) bs -> Forall (lit v) bs ->
  len bs + len users <= SIZE ->
  let '(bs', v') := (spec_blinks (Ioctl ∘ RTC_ADD <$> users) (bs, v)).2 in
  bs' = ((fun u => blink_after u 0) <$> reverse users) ++ bs /\ Forall (lit v') bs' /\ length v' = length v.
Proof.
  induction users as [|u users IH]; intros bs v Hv Hloc Ht Hd Hbs Hl Hcap; [done|].
  apply list.Forall_cons in Hloc as [Hu Hloc], Ht as [Hut Ht]. cbn [length] in Hcap.
  cbn [fmap list_fmap spec_blinks spec_blink compose fst snd spec_ioctl].
  rewrite (proj2 (Z.leb_gt SIZE (location u))), (proj2 (Z.leb_gt SIZE (len bs))) by lia. cbn [orb].
  rewrite (start_after u Hut). rewrite reverse_cons in Hd |- *.
  rewrite <- app_assoc in Hd. cbn [app] in Hd. rewrite fmap_app in Hd. cbn [fmap list_fmap] in Hd.
  pose proof Hd as Hd'. apply list.NoDup_app in Hd' as (_ & _ & Hd').
  apply list.NoDup_cons in Hd' as [Hn _].
  specialize (IH (blink_after u 0 :: bs) (draw (location u) (on_char u) v)).
  destruct (spec_blinks (Ioctl ∘ RTC_ADD <$> users) (blink_after u 0 :: bs, draw (location u) (on_char u) v)) as [rs [bs' v'] ].
  cbn [snd] in *. destruct IH as (Eb & Hl' & Ev); [by rewrite length_draw|done|done| | | | |].
  - rewrite fmap_app. exact Hd.
  - by constructor.
  - constructor.
    + unfold lit. rewrite blink_after_shows. change (location (blink_after u 0)) with (location u).
      rewrite aget_draw_eq by (unfold SIZE in *; lia). pose proof (blink_after_shows u 0) as E.
      unfold is_on, phase. rewrite Z.mod_0_l by (destruct Hut; lia). rewrite (proj2 (Z.ltb_lt 0 _)) by (destruct Hut; lia). done.
    + apply list.Forall_forall. intros x Hx. unfold lit. rewrite list.Forall_forall in Hl.
      rewrite aget_draw_ne; [by apply Hl|lia|]. intros E. apply Hn.
      replace (location u) with (location x) by lia. by apply list_elem_of_fmap_2.
  - cbn [length]. lia.
  - split; [by rewrite Eb, fmap_app, <- app_assoc|]. split; [done|]. by rewrite Ev, length_draw.
Qed.

Lemma ticks_lit users n : forall m (v : list Z),
  let bs := (fun u => blink_after u m) <$> users in
  2 * SIZE <= len v -> Forall (fun u => 0 < location u < SIZE) users -> Forall times_ok users ->
  NoDup (location <$> users) -> Forall (lit v) bs ->
  let '(bs', v') := (spec_blinks (replicate n Tasklet) (bs, v)).2 in
  bs' = (fun u => blink_after u (n + m)) <$> users /\ Forall (lit v') bs'.
Proof.
  induction n as [|n IH]; intros m v bs Hv Hloc Ht Hd Hl; [done|].
  assert (location <$> bs = location <$> users) as Eloc by (unfold bs; by rewrite <- list_fmap_compose).
  assert (Forall (fun b => 0 < location b < SIZE) bs) as Hloc' by (apply Forall_fmap; exact Hloc).
  cbn [replicate spec_blinks spec_blink fst snd].
  assert ((spec_tasklet bs v).1 = (fun u => blink_after u (S m)) <$> users) as E1.
  { unfold spec_tasklet, bs. cbn [fst]. rewrite <- list_fmap_compose. apply list_fmap_ext. intros i u Hu. cbn.
    apply ticked_after. by eapply Forall_lookup_1. }
  pose proof (tasklet_lit bs v Hloc' Hv ltac:(by rewrite Eloc) Hl) as Hl1.
  assert (2 * SIZE <= len (spec_tasklet bs v).2) as Hv1.
  { unfold spec_tasklet. cbn [snd]. clear - Hv. revert v Hv. induction bs as [|b bs IH]; intros v Hv; [done|].
    cbn [foldl]. apply IH. by rewrite tick_draw_length. }
  destruct (spec_tasklet bs v) as [bs1 v1]. cbn [fst snd] in *. subst bs1.
  specialize (IH (S m) _ Hv1 Hloc Ht Hd Hl1).
  destruct (spec_blinks (replicate n Tasklet) ((fun u => blink_after u (S m)) <$> users, v1)) as [rs [bs' v'] ].
  cbn [snd] in *. by rewrite Nat.add_succ_r in IH.
Qed.

Lemma spec_blinks_app {W} `{Canvas W} es1 es2 : forall s : list mp1_blink_struct * W,
  (spec_blinks (es1 ++ es2) s).2 = (spec_blinks es2 (spec_blinks es1 s).2).2.
Proof.
  induction es1 as [|e es1 IH]; intros s; [done|]. cbn [app spec_blinks]. destruct (spec_blink e s) as [r s1].
  specialize (IH s1). destruct (spec_blinks (es1 ++ es2) s1), (spec_blinks es1 s1). exact IH.
Qed.

(** An addition while the first place says that it is free. *)
Lemma add_at_corner user (P : blinks (list Z)) b :
  (blink_array P).[0] = Some b -> location b = 0 -> 2 * SIZE <= len (vmem P) -> 0 <= location user < SIZE ->
  exists P', mp1_ioctl_add user P = Some (0, P') /\
    exists b', (blink_array P').[0] = Some b' /\ location b' = location user /\ mp1_list_head P' = Some 0 /\
      next b' = mp1_list_head P /\ length (vmem P') = length (vmem P).
Proof.
  intros Eb H0 Hv Hu. pose proof (aget_range _ _ _ Eb) as Hr. unfold mp1_ioctl_add.
  rewrite (proj2 (Z.leb_gt SIZE (location user))) by lia.
  assert (mp1_malloc P = Some (Some 0)) as ->.
  { unfold mp1_malloc. rewrite iterate_S. change (0 <? SIZE) with true. cbv iota. rewrite Eb. cbn [mbind option_bind]. by rewrite H0. }
  cbn [mbind option_bind]. unfold put_blink. rewrite aset_Some by done. cbn [mbind option_bind].
  unfold mp1_poke, put_byte, page_screen. change (vmem (_ <| mp1_list_head := _ |>)) with (vmem P).
  change (location (user <| status := 1 |> <| countdown := on_length user |>)) with (location user).
  rewrite aset_Some by lia. cbn [mbind option_bind]. eexists. split; [done|]. eexists.
  split; [apply aget_insert_eq; exact Hr|]. split; [done|]. split; [done|]. split; [done|]. apply length_insert.
Qed.

(** A list that begins with a circle of one. *)
Lemma circle_never_ends fuel : forall (P : blinks (list Z)) b, (blink_array P).[0] = Some b -> next b = Some 0 ->
  0 <= location b < SIZE -> mp1_list_head P = Some 0 -> mp1_rtc_tasklet fuel P = None.
Proof.
  unfold mp1_rtc_tasklet. induction fuel as [|fuel IH]; intros P b Eb Hn Hloc Hh; [done|]. rewrite iterate_S, Hh, Eb.
  cbn [mbind option_bind]. destruct (tick_blink b) as [b' c] eqn:Et.
  assert (next b' = Some 0 /\ location b' = location b) as [Hn' Hl'].
  { replace b' with (tick_blink b).1 by by rewrite Et. unfold tick_blink. by repeat case_match. }
  pose proof (aget_range _ _ _ Eb) as Hr.
  destruct (match c with Some c => mp1_poke (location b) c P | None => Some P end) as [P1|] eqn:E1; [|done].
  assert (blink_array P1 = blink_array P /\ mp1_list_head P1 = mp1_list_head P) as [Ea Eh].
  { destruct c; [|by injection E1 as <-]. unfold mp1_poke in E1. destruct (put_byte _ _ _ _); [|done]. by injection E1 as <-. }
  cbn [mbind option_bind].
  assert (put_blink 0 b' P1 = Some (mkBlinks (<[Z.to_nat 0 := b']> (blink_array P)) (mp1_list_head P1) (vmem_base_addr P1) (vmem P1))) as ->
    by (unfold put_blink; by rewrite Ea, aset_Some).
  cbn [mbind option_bind]. rewrite Hn', Eh, Hh.
  specialize (IH (mkBlinks (<[Z.to_nat 0 := b']> (blink_array P)) (Some 0) (vmem_base_addr P1) (vmem P1)) b').
  cbn [blink_array mp1_list_head] in IH. rewrite aget_insert_eq in IH by done. rewrite Hl' in IH.
  specialize (IH eq_refl Hn' Hloc eq_refl).
  exact IH.
Qed.

(** ** Properties *)

(** C10: the blinking characters of fish are what they should be.  From the cleared
    array, any sequence of additions (not at the top left corner), removals,
    synchronisations, searches and ticks ends, never leaves the array of 2000
    places, its list or the page of video memory, and does and answers what the
    same sequence does on a list of blinks: an addition puts the blink in front
    and draws it, or is refused with -1 when its place is off the screen or all
    places are taken; a removal takes the newest blink at a place out of the list,
    wherever in it, and frees its place for others; a tick counts every blink down
    and toggles those that are due.  Allocation and list never disagree. *)
Theorem blinks_refine fuel base (v : list Z) es :
  (Z.to_nat SIZE < fuel)%nat -> 2 * SIZE <= len v -> Forall blink_ok es ->
  exists P ps, run_blinks fuel es (blinks_start base v) = Some ((spec_blinks es ([], v)).1, P) /\
    blinks_are P ps (spec_blinks es ([], v)).2.1 /\ vmem P = (spec_blinks es ([], v)).2.2 /\ 2 * SIZE <= len (vmem P).
Proof.
  intros Hf Hv Hes. pose proof (blinks_start_are base v) as HB.
  destruct (blink_steps_spec page_shown fuel Hf es (blinks_start base v) [] [] v HB) as (P & ps & E & HB' & Hw & Hl);
    [by split|done|]. by exists P, ps.
Qed.

(** Two blinks are added, one twice as fast as the other; two ticks; the first is
    removed, a blink takes its place, one that is not there is not removed. *)
Definition sample_blink (loc on off : Z) : mp1_blink_struct := mkBlink loc 73 77 on off 9 9 (Some 7).
Definition sample_steps : list blink_step :=
  [Ioctl (RTC_ADD (sample_blink 540 2 2)); Ioctl (RTC_ADD (sample_blink 40 1 1)); Tasklet; Tasklet;
   Ioctl (RTC_SYNC (Z.lor (Z.shiftl 40 16) 540)); Ioctl (RTC_REMOVE 540); Ioctl (RTC_REMOVE 540);
   Ioctl (RTC_ADD (sample_blink 5 1 1)); Ioctl (RTC_FIND (sample_blink 40 1 1)); Ioctl (RTC_ADD (sample_blink 2000 1 1))].

Lemma blinks_refine_witness :
  exists P ps, run_blinks 2001 sample_steps (blinks_start 0x84B8000 (replicate 4096 0)) =
      Some ([Some 0; Some 0; None; None; Some 0; Some 0; Some (-1); Some 0; Some 0; Some (-1)], P) /\
    blinks_are P ps [start_blink (sample_blink 5 1 1); start_blink (sample_blink 40 1 1)].
Proof.
  destruct (blinks_refine 2001 0x84B8000 (replicate 4096 0) sample_steps) as (P & ps & E & HB & _);
    [unfold SIZE; lia|rewrite length_replicate; unfold SIZE; lia|repeat constructor|].
  exists P, ps. split; [exact E|exact HB].
Defined.

(** A blink keeps its time.  Blinks with lengths from 1 to 32767, each at a
    place of its own, are added; after any number n of ticks, whatever the lengths
    of the others, the video memory shows each with its first character for
    [on_length] ticks, then with its second for [off_length], and so on. *)
Theorem blink_schedule fuel base (v : list Z) users n :
  (Z.to_nat SIZE < fuel)%nat -> 2 * SIZE <= len v ->
  Forall (fun u => 0 < location u < SIZE) users -> Forall times_ok users -> NoDup (location <$> users) ->
  exists rs P, run_blinks fuel ((Ioctl ∘ RTC_ADD <$> users) ++ replicate n Tasklet) (blinks_start base v) = Some (rs, P) /\
    forall u, u ∈ users ->
      (vmem P).[2 * location u] =
        Some (if Z.of_nat n mod (on_length u + off_length u) <? on_length u then on_char u else off_char u).
Proof.
  intros Hf Hv Hloc Ht Hd. set (es := (Ioctl ∘ RTC_ADD <$> users) ++ replicate n Tasklet).
  destruct (blink_steps_spec page_shown fuel Hf es (blinks_start base v) [] [] v (blinks_start_are base v)) as (P & ps & E & _ & Ev & _).
  { by split. }
  { apply Forall_app. split; [|by apply Forall_replicate]. apply Forall_fmap. eapply list.Forall_impl; [exact Hloc|].
    intros u Hu. cbn in *. lia. }
  exists (spec_blinks es ([], v)).1, P. split; [exact E|]. rewrite Ev. clear E Ev P ps.
  assert (NoDup (location <$> reverse users)) as Hdr by (by rewrite (reverse_Permutation users)).
  assert (len users <= SIZE) as Hcap.
  { assert (length (location <$> users) <= length (seqZ 0 SIZE))%nat as Hle.
    { apply submseteq_length, NoDup_submseteq; [done|]. intros x Hx. apply elem_of_seqZ.
      apply list_elem_of_fmap_1 in Hx as (u & -> & Hu). rewrite list.Forall_forall in Hloc. specialize (Hloc u Hu). cbv beta in Hloc. lia. }
    rewrite length_fmap, length_seqZ in Hle. unfold SIZE in *. lia. }
  pose proof (adds_lit users [] v Hv Hloc Ht) as H. rewrite app_nil_r in H.
  specialize (H Hdr ltac:(constructor) ltac:(constructor) ltac:(cbn; lia)).
  unfold es. rewrite spec_blinks_app. destruct (spec_blinks (Ioctl ∘ RTC_ADD <$> users) ([], v)) as [rs1 [bs1 v1] ].
  cbn [snd] in *. destruct H as (-> & Hl & Ev1). rewrite app_nil_r in *.
  pose proof (ticks_lit (reverse users) n 0 v1 ltac:(rewrite Ev1; exact Hv) ltac:(by apply Forall_reverse) ltac:(by apply Forall_reverse) Hdr Hl) as H.
  destruct (spec_blinks (replicate n Tasklet) _) as [rs2 [bs2 v2] ]. cbn [snd] in *. destruct H as [-> Hl2].
  intros u Hu. rewrite list.Forall_forall in Hl2. rewrite Nat.add_0_r in Hl2.
  specialize (Hl2 (blink_after u n)). unfold lit in Hl2. rewrite blink_after_shows in Hl2. apply Hl2.
  apply (list_elem_of_fmap_2 (fun u => blink_after u n)). by apply elem_of_reverse.
Qed.

(** Four ticks of an I that is on for 7 and an M for 6, and of a faster one. *)
Lemma blink_schedule_witness :
  exists rs P, run_blinks 2001 ((Ioctl ∘ RTC_ADD <$> [sample_blink 540 7 6; sample_blink 40 1 2]) ++ replicate 8 Tasklet)
      (blinks_start 0x84B8000 (replicate 4096 0)) = Some (rs, P) /\ (vmem P).[1080] = Some 77 /\ (vmem P).[80] = Some 77.
Proof.
  destruct (blink_schedule 2001 0x84B8000 (replicate 4096 0) [sample_blink 540 7 6; sample_blink 40 1 2] 8)
    as (rs & P & E & H); [unfold SIZE; lia|rewrite length_replicate; unfold SIZE; lia|..|].
  - repeat constructor.
  - repeat constructor; cbn; lia.
  - apply NoDup_cons_2; [|apply NoDup_cons_2; [by intros ?%elem_of_nil|constructor] ]. intros ?%list_elem_of_singleton. discriminate.
  - exists rs, P. split; [exact E|]. split; [exact (H (sample_blink 540 7 6) ltac:(by left))|exact (H (sample_blink 40 1 2) ltac:(right; by left))].
Defined.

(** C35: a blink at the top left corner breaks the list.  [mp1_ioctl_add] accepts
    location 0, but the allocator takes location 0 for a free place: the next
    blink is put on top of it, and its link then points to itself.  From then on
    [mp1_rtc_tasklet] never ends. *)
Theorem corner_blink_loops fuel base (v : list Z) user user' :
  2 * SIZE <= len v -> location user = 0 -> 0 <= location user' < SIZE ->
  exists P1 P2, mp1_ioctl_add user (blinks_start base v) = Some (0, P1) /\ mp1_ioctl_add user' P1 = Some (0, P2) /\
    mp1_rtc_tasklet fuel P2 = None.
Proof.
  intros Hv H0 Hu. destruct (add_at_corner user (blinks_start base v) no_blink) as (P1 & E1 & b1 & Eb1 & Hl1 & Hh1 & _ & Hv1);
    [done|done|exact Hv|rewrite H0; unfold SIZE; lia|].
  destruct (add_at_corner user' P1 b1) as (P2 & E2 & b2 & Eb2 & Hl2 & Hh2 & Hn2 & _);
    [done|congruence|by rewrite Hv1|exact Hu|].
  exists P1, P2. split; [done|]. split; [done|]. eapply circle_never_ends; [exact Eb2|by rewrite Hn2|by rewrite Hl2|done].
Qed.

Lemma corner_blink_loops_witness :
  exists P1 P2, mp1_ioctl_add (sample_blink 0 7 6) (blinks_start 0x84B8000 (replicate 4096 0)) = Some (0, P1) /\
    mp1_ioctl_add (sample_blink 540 7 6) P1 = Some (0, P2) /\ mp1_rtc_tasklet 1000 P2 = None.
Proof.
  apply (corner_blink_loops 1000 0x84B8000 (replicate 4096 0) (sample_blink 0 7 6) (sample_blink 540 7 6)).
  - rewrite length_replicate. unfold SIZE. lia.
  - reflexivity.
  - cbn. unfold SIZE. lia.
Defined.
