(* ===== verification/Fish.v ===== *)
(** The user program fish, [src/fish/fish.c]: two frames of an aquarium, text files,
    are put on the screen as blinking characters, which the ticks of the clock
    animate; then one more blink is added, synchronised with another and removed.

    The blinks are [Blink.v]'s; the files, the clock and the video page are asked
    for with system calls.  The page is the machine's memory: what is stored there is
    on the display of the program's terminal, on which the kernel draws too. *)
From stdpp Require Import base option list numbers gmap.
From Stdlib Require Import ZArith Lia Ascii String.
From S2P Require Import Prelude LibString FileSystem Console Rtc State Desks Idt Files User Blink.

Definition WAIT : Z := 100.
Definition file0 : list Z := bytes "frame0.txt" ++ [0].
Definition file1 : list Z := bytes "frame1.txt" ++ [0].

Section fish.
Context {S : Type} {HS : Syscalls S} {HC : RawCalls S} {HV : Screen S}.
(* [&vmem_base_addr], the loops' fuel, and what is in a structure on the stack *)
Context (vmem_var : Z) (fuel : nat) (junk : mp1_blink_struct).

(** The blinks with a screen to draw on, and without. *)
Definition with_screen {V V' : Type} (v : V') (P : blinks V) : blinks V' :=
  mkBlinks (blink_array P) (mp1_list_head P) (vmem_base_addr P) v.

Definition ioctl_on (c : ioctl) (P : blinks unit) (s : S) : option (Z * blinks unit * S) :=
  '(r, P) ← mp1_ioctl fuel c (with_screen s P); Some (r, with_screen tt P, vmem P).

Definition tasklet_on (P : blinks unit) (s : S) : option (blinks unit * S) :=
  P ← mp1_rtc_tasklet fuel (with_screen s P); Some (with_screen tt P, vmem P).

Definition mp1_set_video_mode (P : blinks unit) (s : S) : option (Z * blinks unit * S) :=
  '(r, w, s) ← ece391_vidmap vmem_var s;
  let P := match w with Some w => P <| vmem_base_addr := w |> | None => P end in
  Some (if r =? -1 then 0 else vmem_base_addr P, P, s).

(** One character of a frame, unless its line has ended. *)
Definition read_char (fd : Z) : Z * Z * S -> option (Z * Z * S) := fun '(c, eof, s) =>
  if negb (c =? 10) then
    '(num_bytes, b, s) ← ece391_read fd [c] 0 1 s;
    c ← b.[0];
    Some (if num_bytes =? 0 then (10, 1, s) else (c, eof, s))
  else Some (c, eof, s).

Definition frame_blink (loc c0 c1 : Z) : mp1_blink_struct :=
  junk <| on_length := 15 |> <| off_length := 15 |> <| on_char := c0 |> <| off_char := c1 |> <| location := u16 loc |>.

(** The inner loop: a line of the screen. *)
Definition add_row (fd0 fd1 row : Z) (c0 c1 eof0 eof1 : Z) (P : blinks unit) (s : S)
    : option (Z * Z * blinks unit * S) :=
  iterate fuel (fun '(c0, c1, eof0, eof1, col, P, s) =>
    '(c0, eof0, s) ← read_char fd0 (c0, eof0, s);
    '(c1, eof1, s) ← read_char fd1 (c1, eof1, s);
    if (c0 =? 10) && (c1 =? 10) then Some (Done (eof0, eof1, P, s))
    else
      '(P, s) ← if (negb (c0 =? 32) && negb (c0 =? 10)) || (negb (c1 =? 32) && negb (c1 =? 10)) then
            '(_, P, s) ← ioctl_on (RTC_ADD (frame_blink (row * 80 + col + 40)
              (if c0 =? 10 then 32 else c0) (if c1 =? 10 then 32 else c1))) P s;
            Some (P, s)
          else Some (P, s);
      Some (Next (c0, c1, eof0, eof1, col + 1, P, s))) (c0, c1, eof0, eof1, 0, P, s).

(** The end of a row: a file at its end is closed, again and again. *)
Definition end_row (fd eof : Z) (s : S) : option (Z * S) :=
  if negb (eof =? 0) then '(_, s) ← ece391_close fd s; Some (10, s) else Some (48, s).

(** [inl] is [ece391_halt]. *)
Definition add_frames (f0 f1 : list Z) (P : blinks unit) (s : S) : option (Z + blinks unit * S) :=
  '(fd0, s) ← ece391_open f0 s;
  if fd0 <? 0 then Some (inl (-1))
  else
    '(fd1, s) ← ece391_open f1 s;
    if fd1 <? 0 then Some (inl (-1))
    else
      iterate fuel (fun '(row, c0, c1, eof0, eof1, P, s) =>
        if (eof0 =? 0) || (eof1 =? 0) then
          '(eof0, eof1, P, s) ← add_row fd0 fd1 row c0 c1 eof0 eof1 P s;
          '(c0, s) ← end_row fd0 eof0 s;
          '(c1, s) ← end_row fd1 eof1 s;
          Some (Next (row + 1, c0, c1, eof0, eof1, P, s))
        else Some (Done (inr (P, s)))) (0, 48, 48, 0, 0, P, s).

(** A hundred ticks of the clock. *)
Definition wait_ticks (rtc_fd : Z) : blinks unit * list Z * S -> option (blinks unit * list Z * S) :=
  for_range 0 WAIT (fun _ '(P, garbage, s) =>
    '(_, garbage, s) ← ece391_read rtc_fd garbage 0 4 s;
    '(P, s) ← tasklet_on P s;
    Some (P, garbage, s)).

Definition im_blink : mp1_blink_struct :=
  junk <| on_char := 73 |> <| off_char := 77 |> <| on_length := 7 |> <| off_length := 6 |> <| location := 6 * 80 + 60 |>.

(** [P] holds what was in the array before it is cleared. *)
Definition fish (garbage : list Z) (P : blinks unit) (s : S) : option (Z * blinks unit * S) :=
  let P := P <| blink_array := replicate (Z.to_nat SIZE) no_blink |> in
  '(page, P, s) ← mp1_set_video_mode P s;
  if page =? 0 then Some (-1, P, s)
  else
    '(rtc_fd, s) ← ece391_open (bytes "rtc" ++ [0]) s;
    r ← add_frames file0 file1 P s;
    match r with
    | inl status => Some (status, P, s)
    | inr (P, s) =>
        '(_, s) ← ece391_write rtc_fd (le32 32) 0 4 s;
        '(P, garbage, s) ← wait_ticks rtc_fd (P, garbage, s);
        '(_, P, s) ← ioctl_on (RTC_ADD im_blink) P s;
        '(P, garbage, s) ← wait_ticks rtc_fd (P, garbage, s);
        '(_, P, s) ← ioctl_on (RTC_SYNC (Z.lor (Z.shiftl 40 16) (6 * 80 + 60))) P s;
        '(P, garbage, s) ← wait_ticks rtc_fd (P, garbage, s);
        '(_, P, s) ← ioctl_on (RTC_REMOVE (6 * 80 + 60)) P s;
        '(P, garbage, s) ← wait_ticks rtc_fd (P, garbage, s);
        '(_, s) ← ece391_close rtc_fd s;
        Some (0, P, s)
    end.
End fish.

(** ** What it shows *)

(** A line of each file, the shorter one filled up with spaces. *)
Definition pairs (l0 l1 : list Z) : list (Z * Z) :=
  zip (l0 ++ replicate (Datatypes.length l1 - Datatypes.length l0) 32) (l1 ++ replicate (Datatypes.length l0 - Datatypes.length l1) 32).

(** A blink for every place where either file has something to see. *)
Fixpoint row_blinks (junk : mp1_blink_struct) (loc : Z) (l : list (Z * Z)) : list mp1_blink_struct :=
  match l with
  | [] => []
  | (x, y) :: l =>
      (if (x =? 32) && (y =? 32) then [] else [frame_blink junk loc x y]) ++ row_blinks junk (loc + 1) l
  end.

Fixpoint lines (t : list Z) : list (list Z) :=
  match t with
  | [] => [ [] ]
  | c :: t => if c =? 10 then [] :: lines t else match lines t with l :: ls => (c :: l) :: ls | [] => [] end
  end.

Fixpoint frame_blinks (junk : mp1_blink_struct) (n : nat) (row : Z) (ls0 ls1 : list (list Z)) : list mp1_blink_struct :=
  match n with
  | O => []
  | Datatypes.S n => row_blinks junk (row * 80 + 40) (pairs (default [] (head ls0)) (default [] (head ls1))) ++
      frame_blinks junk n (row + 1) (tail ls0) (tail ls1)
  end.

(** All blinks of two frames. *)
Definition frames (junk : mp1_blink_struct) (t0 t1 : list Z) : list mp1_blink_struct :=
  frame_blinks junk (Nat.max (Datatypes.length (lines t0)) (Datatypes.length (lines t1))) 0 (lines t0) (lines t1).

Definition fish_steps (junk : mp1_blink_struct) (t0 t1 : list Z) : list blink_step :=
  (Ioctl ∘ RTC_ADD <$> frames junk t0 t1) ++ replicate (Z.to_nat WAIT) Tasklet ++
  [Ioctl (RTC_ADD (im_blink junk))] ++ replicate (Z.to_nat WAIT) Tasklet ++
  [Ioctl (RTC_SYNC (Z.lor (Z.shiftl 40 16) (6 * 80 + 60)))] ++ replicate (Z.to_nat WAIT) Tasklet ++
  [Ioctl (RTC_REMOVE (6 * 80 + 60))] ++ replicate (Z.to_nat WAIT) Tasklet.

(** ** Lemmas *)

(** The line that a text begins with, and what is behind its newline. *)
Fixpoint after_line (t : list Z) : option (list Z) :=
  match t with [] => None | c :: t => if c =? 10 then Some t else after_line t end.

Lemma lines_cons t : lines t = until_newline t :: match after_line t with Some t' => lines t' | None => [] end.
Proof.
  induction t as [|c t IH]; [done|]. cbn [lines until_newline after_line]. destruct (c =? 10); [done|].
  rewrite IH. done.
Qed.

Lemma after_line_length t t' : after_line t = Some t' -> (Datatypes.length t' < Datatypes.length t)%nat.
Proof.
  induction t as [|c t IH]; [done|]. cbn [after_line Datatypes.length]. destruct (c =? 10); [intros [= <-]; lia|].
  intros H. specialize (IH H). lia.
Qed.

Lemma pairs_nil : pairs [] [] = [].
Proof. done. Qed.

Definition glyph (l : list Z) : Z := default 32 (head l).

Lemma pairs_step l0 l1 : l0 <> [] \/ l1 <> [] -> pairs l0 l1 = (glyph l0, glyph l1) :: pairs (tail l0) (tail l1).
Proof.
  intros H. destruct l0 as [|x l0], l1 as [|y l1]; [by destruct H| | |done]; unfold pairs, glyph; cbn [head tail default from_option id Datatypes.length app].
  - rewrite !Nat.sub_0_r. done.
  - rewrite !Nat.sub_0_r. done.
Qed.

(** How far a frame is: in a line, with this text to come; at the end of a line;
    at the end of the file. *)
Inductive side := Reading (t : list Z) | Ended (t : list Z) | Eof.

Definition advance (sd : side) : side :=
  match sd with
  | Reading [] => Eof
  | Reading (c :: t) => if c =? 10 then Ended t else Reading t
  | sd => sd
  end.

Definition line_left (sd : side) : list Z := match sd with Reading t => until_newline t | _ => [] end.
Definition line_end (sd : side) : side :=
  match sd with Reading t => match after_line t with Some t' => Ended t' | None => Eof end | sd => sd end.

Lemma advance_line sd : line_left (advance sd) = tail (line_left sd) /\ line_end (advance sd) = line_end sd /\
  (line_left sd = [] -> advance sd = line_end sd).
Proof.
  destruct sd as [ [|c t]| |]; try done. cbn [advance line_left line_end until_newline after_line].
  destruct (c =? 10); done.
Qed.

(** The two flags that stand for it, with the last character read. *)
Definition flags_are (sd : side) (c eof : Z) : Prop :=
  match sd with Reading _ => c <> 10 /\ eof = 0 | Ended _ => c = 10 /\ eof = 0 | Eof => c = 10 /\ eof = 1 end.

(** The descriptor that stands for it. *)
Definition fd_at (f : gmap Z stream) (fd : Z) (sd : side) : Prop :=
  match sd with
  | Reading t | Ended t => exists c pos, f !! fd = Some (FileAt c pos) /\ t = drop (Z.to_nat pos) c
  | Eof => f !! fd = None \/ exists c pos, f !! fd = Some (FileAt c pos)
  end.

(** What an advance leaves in the character. *)
Definition read_of (sd : side) : Z := match sd with Reading (c :: _) => c | _ => 10 end.

Lemma read_of_glyph sd : (read_of sd =? 10) = bool_decide (line_left sd = []) /\
  (if read_of sd =? 10 then 32 else read_of sd) = glyph (line_left sd) /\
  negb (read_of sd =? 32) && negb (read_of sd =? 10) = negb (glyph (line_left sd) =? 32).
Proof.
  destruct sd as [ [|c t]| |]; try done. cbn [read_of line_left until_newline]. destruct (Z.eqb_spec c 10) as [->|Hne]; [done|].
  rewrite bool_decide_eq_false_2 by done. cbn [negb]. by rewrite andb_true_r.
Qed.

Section client.
Context {S : Type} {HS : Syscalls S} {HC : RawCalls S} (F : afs) (R : S -> session -> Prop).
Context {HV : Screen S} {L : FileLaws F R} {LC : ClockLaws R} {LR : RefusalLaws R} {LV : VideoLaws R} {LS : ScreenLaws R}.

Lemma fd_at_insert f fd fd' x sd : fd' <> fd -> fd_at (<[fd' := x]> f) fd sd <-> fd_at f fd sd.
Proof. intros H. unfold fd_at. by rewrite !lookup_insert_ne by done. Qed.

Lemma read_char_ok fd sd c eof s v :
  R s v -> fd_at (u_fds v) fd sd -> flags_are sd c eof ->
  exists eof' s' f', read_char fd (c, eof, s) = Some (read_of sd, eof', s') /\
    R s' (with_fds f' v) /\ fd_at f' fd (advance sd) /\ flags_are (advance sd) (read_of sd) eof' /\
    forall fd', fd' <> fd -> f' !! fd' = u_fds v !! fd'.
Proof.
  intros HR Hfd Hc. assert (with_fds (u_fds v) v = v) as Hv by by destruct v.
  destruct sd as [t|t|]; cbn [flags_are] in Hc; destruct Hc as [Hc ->].
  - destruct Hfd as (txt & pos & Hfd & ->). destruct (law_file s v fd txt pos HR Hfd) as [Hp _].
    unfold read_char. rewrite (proj2 (Z.eqb_neq c 10)) by done. cbn [negb].
    destruct (law_read_file s v fd txt pos [c] 0 1 HR Hfd) as (s1 & -> & HR1); [lia|lia|done|].
    cbn [mbind option_bind]. destruct (drop (Z.to_nat pos) txt) as [|x t] eqn:Ed.
    + assert (pos = len txt) as -> by (apply (f_equal Datatypes.length) in Ed; rewrite length_drop in Ed; cbn in Ed; lia).
      rewrite Z.sub_diag. change (Z.min 1 0) with 0. eexists 1, s1, _. split; [done|]. split; [exact HR1|].
      split; [right; eexists _, _; apply lookup_insert_eq|]. split; [done|]. intros fd' Hne. by apply lookup_insert_ne.
    + assert (pos < len txt) as Hlt by (apply (f_equal Datatypes.length) in Ed; rewrite length_drop in Ed; cbn in Ed; lia).
      rewrite Z.min_l in * by lia.
      assert (slice txt pos 1 = [x]) as -> by (unfold slice; by rewrite Ed).
      eexists 0, s1, _. split; [done|]. split; [exact HR1|].
      assert (t = drop (Z.to_nat (pos + 1)) txt) as Et.
      { replace (Z.to_nat (pos + 1)) with (1 + Z.to_nat pos)%nat by lia. rewrite Nat.add_comm, <- drop_drop, Ed. done. }
      split; [|split; [cbn [advance read_of]; by destruct (Z.eqb_spec x 10)|intros fd' Hne; by apply lookup_insert_ne] ].
      cbn [advance]. destruct (x =? 10); eexists _, _; (split; [apply lookup_insert_eq|done]).
  - unfold read_char. subst c. cbn [Z.eqb Pos.eqb negb]. exists 0, s, (u_fds v). by rewrite Hv.
  - unfold read_char. subst c. cbn [Z.eqb Pos.eqb negb]. exists 1, s, (u_fds v). by rewrite Hv.
Qed.

(** *** The blinks so far *)

Context (vmem_var : Z) (fuel : nat) (junk : mp1_blink_struct) (Hfuel : (Z.to_nat SIZE < fuel)%nat).

(** The blinks and the stores of the reference after the steps [es] from nothing. *)
Definition reference (es : list blink_step) : list mp1_blink_struct * list (Z * Z) := (spec_blinks es ([], [])).2.

Lemma reference_snoc es e : reference (es ++ [e]) = (spec_blink e (reference es)).2.
Proof.
  unfold reference. rewrite spec_blinks_app. cbn [spec_blinks]. by destruct (spec_blink e (spec_blinks es ([], [])).2).
Qed.

(** The steps [es] have led to [P] and [s]. *)
Definition did (es : list blink_step) (P : blinks unit) : Prop :=
  vmem_base_addr P = USER_VIDEO /\ exists ps, blinks_are P ps (reference es).1.

(** The session [v] with what the steps have drawn. *)
Definition drawing (es : list blink_step) (v : session) : session := poked (reference es).2 v.

Lemma drawing_nil v : drawing [] v = v.
Proof. unfold drawing, poked. cbn. rewrite app_nil_r. by destruct v. Qed.

Definition screen_shown (v : session) (base : Z) (s : S) (l : list (Z * Z)) : Prop :=
  base = USER_VIDEO /\ R s (poked l v).

#[local] Instance screen_drawing v : Drawing (screen_shown v).
Proof.
  intros base s l loc c [-> HR] Hloc. unfold SIZE in Hloc.
  destruct (law_poke s _ (2 * loc) c HR) as (s' & E & HR'); [unfold PAGE_BYTES; lia|].
  exists s'. split; [exact E|]. split; [done|]. revert HR'. unfold draw, log_canvas, poked, pokes. cbn [u_args u_fds u_listed u_input u_acts].
  by rewrite fmap_app, app_assoc.
Qed.

Lemma with_screen_are (s : S) (P : blinks unit) ps bs : blinks_are P ps bs -> blinks_are (with_screen s P) ps bs.
Proof. by intros []. Qed.

Lemma without_screen_are (P : blinks S) ps bs : blinks_are P ps bs -> blinks_are (with_screen tt P) ps bs.
Proof. by intros []. Qed.

Lemma did_step es e P s v : did es P -> R s (drawing es v) -> blink_ok e ->
  exists r Q, run_blink fuel e (with_screen s P) = Some (r, Q) /\
    did (es ++ [e]) (with_screen tt Q) /\ R (vmem Q) (drawing (es ++ [e]) v).
Proof.
  intros (Hb & ps & HB) HR He.
  pose proof (blink_step_spec (screen_shown v) fuel Hfuel e _ ps _ (reference es).2 (with_screen_are s _ _ _ HB)) as H.
  specialize (H ltac:(by split) He). rewrite <- surjective_pairing in H. unfold did, drawing. rewrite reference_snoc.
  destruct (spec_blink e (reference es)) as [r [bs' l'] ]. destruct H as (Q & ps' & E & HB' & Hb' & HR').
  exists r, Q. split; [exact E|]. split; [|exact HR']. split; [exact Hb'|]. exists ps'. by apply without_screen_are.
Qed.

Lemma did_ioctl es c P s v : did es P -> R s (drawing es v) -> blink_ok (Ioctl c) ->
  exists r P' s', ioctl_on fuel c P s = Some (r, P', s') /\ did (es ++ [Ioctl c]) P' /\ R s' (drawing (es ++ [Ioctl c]) v).
Proof.
  intros Hd HR Hc. destruct (did_step es (Ioctl c) P s v Hd HR Hc) as (r & Q & E & Hd' & HR'). cbn [run_blink] in E.
  unfold ioctl_on. destruct (mp1_ioctl fuel c (with_screen s P)) as [ [r' Q1]|]; [|done]. injection E as <- <-.
  exists r', (with_screen tt Q1), (vmem Q1). by split.
Qed.

Lemma did_tick es P s v : did es P -> R s (drawing es v) ->
  exists P' s', tasklet_on fuel P s = Some (P', s') /\ did (es ++ [Tasklet]) P' /\ R s' (drawing (es ++ [Tasklet]) v).
Proof.
  intros Hd HR. destruct (did_step es Tasklet P s v Hd HR I) as (r & Q & E & Hd' & HR'). cbn [run_blink] in E.
  unfold tasklet_on. destruct (mp1_rtc_tasklet fuel (with_screen s P)) as [Q1|]; [|done]. injection E as <- <-.
  exists (with_screen tt Q1), (vmem Q1). by split.
Qed.

(** The additions can be made. *)
Definition adds (us : list mp1_blink_struct) : list blink_step := Ioctl ∘ RTC_ADD <$> us.
Definition addable (us : list mp1_blink_struct) : Prop := Forall (fun u => 0 < location u) us.

(** *** A row *)

Lemma add_row_ok fd0 fd1 row n : forall sd0 sd1 c0 c1 eof0 eof1 col es P s v,
  fd0 <> fd1 -> R s (drawing es v) -> did es P ->
  fd_at (u_fds v) fd0 sd0 -> fd_at (u_fds v) fd1 sd1 -> flags_are sd0 c0 eof0 -> flags_are sd1 c1 eof1 ->
  (Datatypes.length (line_left sd0) + Datatypes.length (line_left sd1) < n)%nat ->
  addable (row_blinks junk (row * 80 + col + 40) (pairs (line_left sd0) (line_left sd1))) ->
  exists eof0' eof1' P' s' f',
    iterate n (fun '(c0, c1, eof0, eof1, col, P, s) =>
      '(c0, eof0, s) ← read_char fd0 (c0, eof0, s);
      '(c1, eof1, s) ← read_char fd1 (c1, eof1, s);
      if (c0 =? 10) && (c1 =? 10) then Some (Done (eof0, eof1, P, s))
      else
        '(P, s) ← if (negb (c0 =? 32) && negb (c0 =? 10)) || (negb (c1 =? 32) && negb (c1 =? 10)) then
              '(_, P, s) ← ioctl_on fuel (RTC_ADD (frame_blink junk (row * 80 + col + 40)
                (if c0 =? 10 then 32 else c0) (if c1 =? 10 then 32 else c1))) P s;
              Some (P, s)
            else Some (P, s);
        Some (Next (c0, c1, eof0, eof1, col + 1, P, s))) (c0, c1, eof0, eof1, col, P, s)
      = Some (eof0', eof1', P', s') /\
    let es' := es ++ adds (row_blinks junk (row * 80 + col + 40) (pairs (line_left sd0) (line_left sd1))) in
    R s' (drawing es' (with_fds f' v)) /\ did es' P' /\
    fd_at f' fd0 (line_end sd0) /\ fd_at f' fd1 (line_end sd1) /\
    flags_are (line_end sd0) 10 eof0' /\ flags_are (line_end sd1) 10 eof1' /\
    forall fd, fd <> fd0 -> fd <> fd1 -> f' !! fd = u_fds v !! fd.
Proof.
  induction n as [|n IH]; intros sd0 sd1 c0 c1 eof0 eof1 col es P s v Hne HR Hd H0 H1 Hc0 Hc1 Hn Hadd; [lia|].
  rewrite iterate_S.
  destruct (read_char_ok fd0 sd0 c0 eof0 s _ HR H0 Hc0) as (e0 & s1 & f1 & -> & HR1 & Ha0 & Hg0 & Ho1).
  cbn [mbind option_bind].
  destruct (read_char_ok fd1 sd1 c1 eof1 s1 _ HR1) as (e1 & s2 & f2 & -> & HR2 & Ha1 & Hg1 & Ho2); [|done|].
  { cbn [u_fds with_fds]. unfold fd_at in *. by rewrite !Ho1 by congruence. }
  cbn [mbind option_bind u_fds with_fds] in *.
  assert (fd_at f2 fd0 (advance sd0)) as Ha0' by (unfold fd_at in *; by rewrite !Ho2 by done).
  destruct (read_of_glyph sd0) as (E0 & G0 & V0), (read_of_glyph sd1) as (E1 & G1 & V1).
  destruct (advance_line sd0) as (At0 & Ae0 & An0), (advance_line sd1) as (At1 & Ae1 & An1).
  assert (forall fd, fd <> fd0 -> fd <> fd1 -> f2 !! fd = u_fds v !! fd) as Ho by (intros fd ? ?; by rewrite Ho2, Ho1).
  rewrite V0, V1, G0, G1. destruct (decide (line_left sd0 = [] /\ line_left sd1 = [])) as [ [El0 El1]|Hl].
  - assert (read_of sd0 = 10 /\ read_of sd1 = 10) as [R0 R1] by (split; apply Z.eqb_eq; by rewrite ?E0, ?E1, ?El0, ?El1).
    rewrite R0, R1 in *. exists e0, e1, P, s2, f2. rewrite El0, El1, pairs_nil.
    cbn [row_blinks adds fmap list_fmap]. rewrite app_nil_r, <- An0, <- An1 by done. done.
  - assert ((read_of sd0 =? 10) && (read_of sd1 =? 10) = false) as ->.
    { rewrite E0, E1. apply andb_false_iff. destruct (decide (line_left sd0 = [])); [right|left]; apply bool_decide_eq_false_2; tauto. }
    rewrite (pairs_step (line_left sd0)) in Hadd |- * by (destruct (decide (line_left sd0 = [])); tauto).
    cbn [row_blinks] in Hadd |- *. set (g0 := glyph (line_left sd0)) in *. set (g1 := glyph (line_left sd1)) in *.
    apply Forall_app in Hadd as [Hadd1 Hadd2]. rewrite <- At0, <- At1 in Hadd2 |- *.
    set (us := if (g0 =? 32) && (g1 =? 32) then [] else [frame_blink junk (row * 80 + col + 40) g0 g1]) in *.
    assert (exists P1 s3, (if negb (g0 =? 32) || negb (g1 =? 32)
        then '(_, P, s) ← ioctl_on fuel (RTC_ADD (frame_blink junk (row * 80 + col + 40) g0 g1)) P s2; Some (P, s)
        else Some (P, s2)) = Some (P1, s3) /\
      did (es ++ adds us) P1 /\ R s3 (drawing (es ++ adds us) (with_fds f2 v))) as (P1 & s3 & -> & Hd1 & HR3).
    { unfold us in *. rewrite <- negb_andb. destruct ((g0 =? 32) && (g1 =? 32)); cbn [negb].
      - exists P, s2. cbn. by rewrite app_nil_r.
      - destruct (did_ioctl es (RTC_ADD (frame_blink junk (row * 80 + col + 40) g0 g1)) P s2 (with_fds f2 v) Hd HR2)
          as (r & P1 & s3 & -> & Hd1 & HR3).
        { by apply list.Forall_cons in Hadd1 as [? _]. }
        by exists P1, s3. }
    cbn [mbind option_bind]. replace (row * 80 + col + 40 + 1) with (row * 80 + (col + 1) + 40) in Hadd2 |- * by lia.
    destruct (IH (advance sd0) (advance sd1) (read_of sd0) (read_of sd1) e0 e1 (col + 1) (es ++ adds us) P1 s3 (with_fds f2 v)
      Hne HR3 Hd1 Ha0' Ha1 Hg0 Hg1) as (e0' & e1' & P' & s' & f' & E & HR' & Hd' & Hf0 & Hf1 & Hx0 & Hx1 & Ho'); [|done|].
    { rewrite At0, At1. assert (forall l : list Z, Datatypes.length (tail l) <= Datatypes.length l)%nat as Htl by (intros []; cbn; lia).
      destruct (decide (line_left sd0 = [])) as [El|El].
      - destruct (line_left sd1) as [|y l1]; [tauto|]. pose proof (Htl (line_left sd0)). cbn [tail Datatypes.length] in *. lia.
      - destruct (line_left sd0) as [|x l0]; [done|]. pose proof (Htl (line_left sd1)). cbn [tail Datatypes.length] in *. lia. }
    exists e0', e1', P', s', f'. split; [exact E|]. unfold adds in *. rewrite fmap_app, app_assoc. cbv zeta.
    split; [exact HR'|]. split; [exact Hd'|]. rewrite Ae0, Ae1 in *. split_and!; try done.
    intros fd Hfd0 Hfd1. rewrite Ho' by done. by apply Ho.
Qed.

(** *** All rows *)

(** At the start of a row: what is left of the file, if it has not ended. *)
Definition side_of (o : option (list Z)) : side := match o with Some t => Reading t | None => Eof end.
Definition lines_of (o : option (list Z)) : list (list Z) := match o with Some t => lines t | None => [] end.
Definition row_after (o : option (list Z)) : option (list Z) := o ≫= after_line.

Lemma lines_of_step o : line_left (side_of o) = default [] (head (lines_of o)) /\ lines_of (row_after o) = tail (lines_of o).
Proof. destruct o as [t|]; [|done]. cbn [side_of line_left lines_of row_after mbind option_bind]. rewrite lines_cons. by destruct (after_line t). Qed.

Lemma end_row_ok fd o eof s v :
  R s v -> 2 <= fd < 8 -> fd_at (u_fds v) fd (line_end (side_of o)) -> flags_are (line_end (side_of o)) 10 eof ->
  exists c s' f', end_row fd eof s = Some (c, s') /\ R s' (with_fds f' v) /\
    fd_at f' fd (side_of (row_after o)) /\ flags_are (side_of (row_after o)) c eof /\
    (row_after o = None -> f' !! fd = None) /\ forall fd', fd' <> fd -> f' !! fd' = u_fds v !! fd'.
Proof.
  intros HR Hr Hfd Hc. assert (with_fds (u_fds v) v = v) as Hv by by destruct v.
  assert (line_end (side_of o) = match row_after o with Some t => Ended t | None => Eof end) as El.
  { destruct o as [t|]; [|done]. cbn [side_of line_end row_after mbind option_bind]. by destruct (after_line t). }
  rewrite El in *. unfold end_row. destruct (row_after o) as [t|]; cbn [side_of] in *; destruct Hc as [_ ->].
  - cbn [Z.eqb negb]. exists 48, s, (u_fds v). rewrite Hv. by split_and!.
  - cbn [Z.eqb negb]. destruct Hfd as [Hnone|(c & pos & Hfd)].
    + destruct (law_no_close s v fd HR) as (s1 & -> & HR1); [right; right; right; right; by split|].
      exists 10, s1, (u_fds v). rewrite Hv. split_and!; try done. by left.
    + destruct (law_close s v fd (FileAt c pos) HR Hfd) as (s1 & -> & HR1); [lia|].
      exists 10, s1, (delete fd (u_fds v)). split_and!; try done; [left; apply lookup_delete_eq|intros _; apply lookup_delete_eq|].
      intros fd' Hne. by apply lookup_delete_ne.
Qed.

Definition texts_length (o0 o1 : option (list Z)) : nat := Datatypes.length (default [] o0) + Datatypes.length (default [] o1).

Lemma until_newline_length t : (Datatypes.length (until_newline t) <= Datatypes.length t)%nat.
Proof. induction t as [|c t IH]; [done|]. cbn [until_newline]. destruct (c =? 10); cbn [Datatypes.length]; lia. Qed.

Lemma line_left_length o : (Datatypes.length (line_left (side_of o)) <= Datatypes.length (default [] o))%nat.
Proof. destruct o as [t|]; [apply until_newline_length|done]. Qed.

Lemma row_after_length o : (Datatypes.length (default [] (row_after o)) <= Datatypes.length (default [] o))%nat.
Proof.
  destruct o as [t|]; [|done]. cbn [row_after mbind option_bind default from_option id].
  destruct (after_line t) as [t'|] eqn:E; [|cbn; lia]. apply after_line_length in E. cbn. lia.
Qed.

Lemma rows_ok fd0 fd1 (Hne : fd0 <> fd1) (Hr0 : 2 <= fd0 < 8) (Hr1 : 2 <= fd1 < 8) n : forall m row o0 o1 c0 c1 eof0 eof1 es P s v,
  n = Nat.max (Datatypes.length (lines_of o0)) (Datatypes.length (lines_of o1)) -> (n < m)%nat -> (texts_length o0 o1 < fuel)%nat ->
  R s (drawing es v) -> did es P -> fd_at (u_fds v) fd0 (side_of o0) -> fd_at (u_fds v) fd1 (side_of o1) ->
  flags_are (side_of o0) c0 eof0 -> flags_are (side_of o1) c1 eof1 ->
  (o0 = None -> u_fds v !! fd0 = None) -> (o1 = None -> u_fds v !! fd1 = None) ->
  addable (frame_blinks junk n row (lines_of o0) (lines_of o1)) ->
  exists P' s' f',
    iterate m (fun '(row, c0, c1, eof0, eof1, P, s) =>
        if (eof0 =? 0) || (eof1 =? 0) then
          '(eof0, eof1, P, s) ← add_row fuel junk fd0 fd1 row c0 c1 eof0 eof1 P s;
          '(c0, s) ← end_row fd0 eof0 s;
          '(c1, s) ← end_row fd1 eof1 s;
          Some (Next (row + 1, c0, c1, eof0, eof1, P, s))
        else Some (Done (@inr Z _ (P, s)))) (row, c0, c1, eof0, eof1, P, s) = Some (inr (P', s')) /\
    let es' := es ++ adds (frame_blinks junk n row (lines_of o0) (lines_of o1)) in
    R s' (drawing es' (with_fds f' v)) /\ did es' P' /\
    f' !! fd0 = None /\ f' !! fd1 = None /\ forall fd, fd <> fd0 -> fd <> fd1 -> f' !! fd = u_fds v !! fd.
Proof.
  induction n as [|n IH]; intros [|m] row o0 o1 c0 c1 eof0 eof1 es P s v En Hm Hf HR Hd H0 H1 Hc0 Hc1 Hn0 Hn1 Hadd; try lia;
    rewrite iterate_S.
  - destruct o0 as [t0|]; [cbn [lines_of] in En; rewrite lines_cons in En; cbn [Datatypes.length] in En; lia|].
    destruct o1 as [t1|]; [cbn [lines_of] in En; rewrite (lines_cons t1) in En; cbn [Datatypes.length] in En; lia|].
    destruct Hc0 as [_ ->], Hc1 as [_ ->]. cbn [Z.eqb orb mbind option_bind]. exists P, s, (u_fds v).
    cbn [frame_blinks adds fmap list_fmap]. rewrite app_nil_r. cbv zeta.
    split; [done|]. split; [by destruct v|]. by split_and!; auto.
  - assert ((eof0 =? 0) || (eof1 =? 0) = true) as ->.
    { destruct o0 as [t0|]; [by destruct Hc0 as [_ ->]|]. destruct o1 as [t1|]; [|cbn in En; lia].
      destruct Hc1 as [_ ->]. apply orb_true_r. }
    cbn [frame_blinks] in Hadd |- *. apply Forall_app in Hadd as [Hadd1 Hadd2].
    destruct (lines_of_step o0) as [L0 T0], (lines_of_step o1) as [L1 T1]. rewrite <- L0, <- L1 in *. rewrite <- T0, <- T1 in *.
    pose proof (line_left_length o0). pose proof (line_left_length o1). unfold texts_length in Hf.
    replace (row * 80 + 40) with (row * 80 + 0 + 40) in * by lia.
    destruct (add_row_ok fd0 fd1 row fuel (side_of o0) (side_of o1) c0 c1 eof0 eof1 0 es P s v Hne HR Hd H0 H1 Hc0 Hc1)
      as (e0 & e1 & P1 & s1 & f1 & E & HR1 & Hd1 & G0 & G1 & X0 & X1 & Ho1); [lia|exact Hadd1|].
    assert (add_row fuel junk fd0 fd1 row c0 c1 eof0 eof1 P s = Some (e0, e1, P1, s1)) as -> by exact E.
    cbn [mbind option_bind].
    destruct (end_row_ok fd0 o0 e0 s1 _ HR1 Hr0 G0 X0) as (c0' & s2 & f2 & -> & HR2 & K0 & Y0 & Z0 & Ho2).
    cbn [mbind option_bind u_fds with_fds drawing poked] in *.
    destruct (end_row_ok fd1 o1 e1 s2 _ HR2 Hr1) as (c1' & s3 & f3 & -> & HR3 & K1 & Y1 & Z1 & Ho3); [|exact X1|].
    { cbn [u_fds with_fds]. unfold fd_at in *. by rewrite !Ho2 by done. }
    cbn [mbind option_bind u_fds with_fds drawing poked] in *.
    assert (n = Nat.max (Datatypes.length (lines_of (row_after o0))) (Datatypes.length (lines_of (row_after o1)))) as En'.
    { rewrite T0, T1. destruct (lines_of o0), (lines_of o1); cbn [tail Datatypes.length] in *; lia. }
    assert (texts_length (row_after o0) (row_after o1) < fuel)%nat as Hf'.
    { unfold texts_length. pose proof (row_after_length o0). pose proof (row_after_length o1). lia. }
    destruct (IH m (row + 1) (row_after o0) (row_after o1) c0' c1' e0 e1 _ P1 s3 (with_fds f3 v) En' ltac:(lia) Hf' HR3 Hd1)
      as (P' & s' & f' & E' & HR' & Hd' & F0 & F1 & Ho'); try done.
    + cbn [u_fds with_fds]. unfold fd_at in *. by rewrite !Ho3 by done.
    + cbn [u_fds with_fds]. intros Hx. rewrite Ho3 by done. by apply Z0.
    + exists P', s', f'. split; [exact E'|]. unfold adds. rewrite fmap_app, app_assoc. cbv zeta.
      split; [exact HR'|]. split; [exact Hd'|]. split; [done|]. split; [done|]. intros fd Hfd0 Hfd1.
      rewrite Ho' by done. cbn [u_fds with_fds]. by rewrite Ho3, Ho2, Ho1.
Qed.

(** The texts of the two files. *)
Context (t0 t1 : list Z) (H0 : found F (bytes "frame0.txt") = Some (FileAt t0 0)) (H1 : found F (bytes "frame1.txt") = Some (FileAt t1 0)).
Context (Hlong : (Datatypes.length t0 + Datatypes.length t1 + 1 < fuel)%nat) (Hadd : addable (frames junk t0 t1)).

Lemma lines_length t : (Datatypes.length (lines t) <= Datatypes.length t + 1)%nat.
Proof.
  induction t as [|c t IH]; [done|]. cbn [lines]. destruct (c =? 10); [cbn [Datatypes.length]; lia|].
  destruct (lines t); cbn [Datatypes.length] in *; lia.
Qed.

Lemma name_ok str : forallb (fun c => (0 <? c) && (c <? 256)) (bytes str) = true -> cstring (bytes str ++ [0]) 0 (bytes str).
Proof. intros H. by apply (cstring_intro _ []), Forall_is_char. Qed.

Lemma add_frames_ok es P s v rtc_fd :
  R s (drawing es v) -> did es P -> u_fds v = {[ rtc_fd := Clock ]} -> 2 <= rtc_fd < 8 ->
  let es' := es ++ adds (frames junk t0 t1) in
  exists P' s', add_frames fuel junk file0 file1 P s = Some (inr (P', s')) /\ R s' (drawing es' v) /\ did es' P'.
Proof.
  intros HR Hd Hfds Hrtc.
  assert (exists a b, a <> rtc_fd /\ b <> rtc_fd /\ a <> b /\ 2 <= a < 8 /\ 2 <= b < 8) as (a & b & Ha & Hb & Hab & Hra & Hrb).
  { destruct (decide (rtc_fd = 2)) as [->|H2]; [exists 3, 4; lia|]. destruct (decide (rtc_fd = 3)) as [->|H3]; [exists 2, 4; lia|].
    exists 2, 3. lia. }
  destruct (open_ok F R s _ file0 _ _ HR (name_ok "frame0.txt" eq_refl) H0) as (fd0 & s1 & E0 & Hr0 & Hn0 & HR1).
  { exists a. split; [done|]. cbn [drawing poked u_fds]. rewrite Hfds. by apply lookup_singleton_ne. }
  destruct (open_ok F R s1 _ file1 _ _ HR1 (name_ok "frame1.txt" eq_refl) H1) as (fd1 & s2 & E1 & Hr1 & Hn1 & HR2).
  { unfold can_open. cbn [u_fds with_fds drawing poked]. destruct (decide (a = fd0)) as [->|Hne].
    - exists b. split; [done|]. rewrite lookup_insert_ne by done. rewrite Hfds. by apply lookup_singleton_ne.
    - exists a. split; [done|]. rewrite lookup_insert_ne by done. rewrite Hfds. by apply lookup_singleton_ne. }
  cbn [u_fds with_fds drawing poked] in Hn0, Hn1.
  assert (fd0 <> fd1) as Hne by (intros ->; by rewrite lookup_insert_eq in Hn1).
  rewrite lookup_insert_ne in Hn1 by done.
  unfold add_frames. rewrite E0. cbn [mbind option_bind]. rewrite (proj2 (Z.ltb_ge fd0 0)) by lia.
  rewrite E1. cbn [mbind option_bind]. rewrite (proj2 (Z.ltb_ge fd1 0)) by lia.
  assert (Nat.max (Datatypes.length (lines t0)) (Datatypes.length (lines t1)) < fuel)%nat as Hm.
  { pose proof (lines_length t0). pose proof (lines_length t1). lia. }
  assert (texts_length (Some t0) (Some t1) < fuel)%nat as Hf by (unfold texts_length; cbn; lia).
  lazymatch type of HR2 with R _ (with_fds ?f _) => change (R s2 (drawing es (with_fds f v))) in HR2 end.
  destruct (rows_ok fd0 fd1 Hne Hr0 Hr1 _ fuel 0 (Some t0) (Some t1) 48 48 0 0 es P s2 _ eq_refl Hm Hf HR2 Hd)
    as (P' & s' & f' & E & HR' & Hd' & F0 & F1 & Ho); cbn [u_fds with_fds side_of flags_are fd_at drawing poked]; try done.
  - exists t0, 0. rewrite lookup_insert_ne by done. by rewrite lookup_insert_eq.
  - exists t1, 0. by rewrite lookup_insert_eq.
  - exists P', s'. split; [exact E|]. split; [|exact Hd'].
    assert (f' = u_fds v) as ->.
    { apply map_eq. intros fd. destruct (decide (fd = fd0)) as [->|N0]; [by rewrite F0, Hn0|].
      destruct (decide (fd = fd1)) as [->|N1]; [by rewrite F1, Hn1|]. rewrite Ho by done. cbn [u_fds with_fds].
      by rewrite !lookup_insert_ne by done. }
    by destruct v.
Qed.

Lemma wait_ticks_ok rtc_fd garbage es P s v :
  R s (drawing es v) -> did es P -> u_fds v !! rtc_fd = Some Clock ->
  let es' := es ++ replicate (Z.to_nat WAIT) Tasklet in
  exists P' s', wait_ticks fuel rtc_fd (P, garbage, s) = Some (P', garbage, s') /\ R s' (drawing es' v) /\ did es' P'.
Proof.
  intros HR Hd Hfd. unfold wait_ticks.
  destruct (for_range_ind (fun k '(P, g, s) => g = garbage /\ R s (drawing (es ++ replicate (Z.to_nat k) Tasklet) v) /\
      did (es ++ replicate (Z.to_nat k) Tasklet) P)
    (fun _ '(P, garbage, s) => '(_, garbage, s) ← ece391_read rtc_fd garbage 0 4 s; '(P, s) ← tasklet_on fuel P s; Some (P, garbage, s))
    0 WAIT (P, garbage, s)) as ([ [P' g'] s'] & E & -> & HR' & Hd').
  - done.
  - split; [done|]. cbn [replicate Z.to_nat]. by rewrite app_nil_r.
  - intros k [ [P1 g1] s1] Hk (-> & HR1 & Hd1). destruct (law_clock_wait s1 (drawing _ v) rtc_fd garbage 4 HR1 Hfd) as (s2 & -> & HR2); [lia|].
    cbn [mbind option_bind]. destruct (did_tick _ P1 s2 v Hd1 HR2) as (P2 & s3 & -> & Hd2 & HR3). cbn [mbind option_bind].
    eexists; split; [done|]. split; [done|]. replace (Z.to_nat (k + 1)) with (Datatypes.S (Z.to_nat k)) by lia.
    rewrite replicate_S_end, app_assoc. by split.
  - by exists P', s'.
Qed.

(** From nothing open, to nothing open. *)
Lemma fish_ok garbage P s v :
  R s v -> u_fds v = ∅ -> found F (bytes "rtc") = Some Clock -> 0x8000000 <= vmem_var <= 0x83FFFFC ->
  mp1_list_head P = None ->
  exists P' s', fish vmem_var fuel junk garbage P s = Some (0, P', s') /\
    R s' (drawing (fish_steps junk t0 t1) v) /\ did (fish_steps junk t0 t1) P'.
Proof.
  intros HR Hfds Hrtc Hvar Hh. unfold fish, mp1_set_video_mode.
  destruct (law_vidmap s v vmem_var HR Hvar) as (s1 & -> & HR1). cbn [mbind option_bind].
  change (0 =? -1) with false. cbv iota.
  set (P1 := P <| blink_array := replicate (Z.to_nat SIZE) no_blink |> <| vmem_base_addr := 0x84B8000 |>).
  change (vmem_base_addr P1) with 0x84B8000. change (0x84B8000 =? 0) with false. cbv iota.
  assert (did [] P1) as Hd.
  { split; [done|]. exists []. unfold P1. destruct P as [a h b []]. cbn in Hh. subst h. apply blinks_start_are. }
  destruct (open_ok F R s1 v _ _ _ HR1 (name_ok "rtc" eq_refl) Hrtc) as (fd & s2 & -> & Hfd & _ & HR2).
  { exists 2. split; [lia|]. by rewrite Hfds. }
  cbn [mbind option_bind]. rewrite Hfds in HR2.
  set (v1 := with_fds _ v) in *. clearbody P1.
  assert (R s2 (drawing [] v1)) as HR2' by by rewrite drawing_nil.
  destruct (add_frames_ok [] _ s2 v1 fd HR2' Hd) as (P3 & s3 & -> & HR3 & Hd3); [done|done|]. cbn [mbind option_bind app] in *.
  assert (u_fds v1 !! fd = Some Clock) as Hck by apply lookup_insert_eq.
  destruct (law_clock_rate s3 (drawing _ v1) fd (le32 32) 4 32 HR3 Hck) as (s4 & -> & HR4); [reflexivity|by vm_compute|].
  cbn [mbind option_bind].
  destruct (wait_ticks_ok fd garbage _ _ s4 v1 HR4 Hd3 Hck) as (P5 & s5 & -> & HR5 & Hd5). cbn [mbind option_bind].
  destruct (did_ioctl _ (RTC_ADD (im_blink junk)) _ _ v1 Hd5 HR5) as (r6 & P6 & s6 & -> & Hd6 & HR6); [done|]. cbn [mbind option_bind].
  destruct (wait_ticks_ok fd garbage _ _ s6 v1 HR6 Hd6 Hck) as (P7 & s7 & -> & HR7 & Hd7). cbn [mbind option_bind].
  destruct (did_ioctl _ (RTC_SYNC (Z.lor (Z.shiftl 40 16) (6 * 80 + 60))) _ _ v1 Hd7 HR7) as (r8 & P8 & s8 & -> & Hd8 & HR8); [done|].
  cbn [mbind option_bind].
  destruct (wait_ticks_ok fd garbage _ _ s8 v1 HR8 Hd8 Hck) as (P9 & s9 & -> & HR9 & Hd9). cbn [mbind option_bind].
  destruct (did_ioctl _ (RTC_REMOVE (6 * 80 + 60)) _ _ v1 Hd9 HR9) as (r10 & P10 & s10 & -> & Hd10 & HR10); [done|]. cbn [mbind option_bind].
  destruct (wait_ticks_ok fd garbage _ _ s10 v1 HR10 Hd10 Hck) as (P11 & s11 & -> & HR11 & Hd11). cbn [mbind option_bind].
  destruct (law_close s11 (drawing _ v1) fd Clock HR11 Hck) as (s12 & -> & HR12); [lia|]. cbn [mbind option_bind].
  exists P11, s12. split; [done|].
  assert (fish_steps junk t0 t1 = (((((((adds (frames junk t0 t1) ++ replicate (Z.to_nat WAIT) Tasklet) ++ [Ioctl (RTC_ADD (im_blink junk))]) ++
    replicate (Z.to_nat WAIT) Tasklet) ++ [Ioctl (RTC_SYNC (Z.lor (Z.shiftl 40 16) (6 * 80 + 60)))]) ++ replicate (Z.to_nat WAIT) Tasklet) ++
    [Ioctl (RTC_REMOVE (6 * 80 + 60))]) ++ replicate (Z.to_nat WAIT) Tasklet)) as ->
    by (unfold fish_steps, adds; by rewrite <- !app_assoc).
  split; [|exact Hd11]. revert HR12. unfold v1, drawing, poked, with_fds. cbn [u_args u_fds u_listed u_input u_acts].
  rewrite delete_insert_id by done. by rewrite <- Hfds.
Qed.
End client.
