(* ===== verification/Aquarium.v ===== *)
(** fish on the preempted kernel: [Fish.v] with the interface discharged by
    [Preempt.v], and the reference of [Blink.v] for what its blinks do. *)
From stdpp Require Import base option list numbers gmap.
From Stdlib Require Import ZArith Lia Ascii String.
From S2P Require Import Prelude LibString FileSystem Console Keyboard Paging Rtc State Terminal Desks FileOps SysCall Idt Process Scheduler Family System Files Calls Os Startup Kernel Interleave User Clients Preempt Preempted Blink Fish.

(** All locations are positive. *)
Definition addable_b (us : list mp1_blink_struct) : bool := forallb (fun u => 0 <? location u) us.

Lemma addable_b_ok us : addable_b us = true -> addable us.
Proof. intros H. apply list.Forall_forall. intros u Hu. unfold addable_b in H. rewrite forallb_forall in H.
  apply Z.ltb_lt, H. by apply list_elem_of_In. Qed.

(** ** Properties *)

(** C9: fish is correct under preemption.  Started with nothing open, a clock and
    two frames that can be added in the directory and the page pointer in the
    program's own page, fish ends and returns 0, whatever the others do between
    its calls and its stores: the page is mapped, both files are read line by line to
    their ends and closed, the clock is opened, set, waited for 400 times and closed.
    Nothing is printed and nothing stays open.  Its blinks in the end, and all the
    bytes it has stored in the mapped page, each with its offset and in their order,
    are those of the reference for these steps: each place where either file has a
    character other than a space is added, with the two characters, row by row, the
    shorter line or file filled up with spaces; then 100 ticks, one more blink, 100
    ticks, its synchronisation, 100 ticks, its removal and 100 ticks.  The whole run
    is a history of the system, in which each of these stores goes to the display of
    fish's terminal, shown or not, between whatever the kernel draws there (echo,
    cursor) and the others do: the displays in the end are what all these steps, in
    this order, make of them. *)
Theorem fish_preempted A B F room d0 turns entry k O vmem_var fuel junk garbage P t0 t1 :
  bootable F room -> Os.serves A B F room k O -> fair A B F room turns O -> u_fds (session_of O) = ∅ ->
  found F (bytes "rtc") = Some Files.Clock ->
  found F (bytes "frame0.txt") = Some (FileAt t0 0) -> found F (bytes "frame1.txt") = Some (FileAt t1 0) ->
  0x8000000 <= vmem_var <= 0x83FFFFC -> mp1_list_head P = None ->
  (Z.to_nat SIZE < fuel)%nat -> (Datatypes.length t0 + Datatypes.length t1 + 1 < fuel)%nat ->
  addable (frames junk t0 t1) ->
  exists P' ps s' tr rs,
    fish (HS := preempted_calls d0 turns) (HC := preempted_raw d0 turns entry) (HV := preempted_screen d0 turns)
      vmem_var fuel junk garbage P (k, begin []) = Some (0, P', s') /\
    blinks_are P' ps (reference (fish_steps junk t0 t1)).1 /\
    drawn tr = (reference (fish_steps junk t0 t1)).2 /\
    run_os_all d0 tr.*2 k = Some (rs, s'.1) /\ printed tr = [] /\
    Os.serves A B F room s'.1 (after F tr.*2 O) /\ sees O (after F tr.*2 O) (session_of O).
Proof.
  intros HB HS Hfair Hopen Hrtc Hf0 Hf1 Hvar Hh Hfuel Hlong Hadd. pose proof (nobody_types A B F room d0 turns k O HS) as (HR & Hcalm).
  pose proof (live_laws A B F room HB d0 turns k O _ _ Hfair Hcalm _ _ HR) as L.
  pose proof (live_clock A B F room HB d0 turns k O (fun _ => True) [] Hfair Hcalm) as LC.
  pose proof (live_refusals A B F room HB d0 turns k O (fun _ => True) [] Hfair Hcalm entry) as LR.
  pose proof (live_video A B F room HB d0 turns k O (fun _ => True) [] Hfair Hcalm entry) as LV.
  pose proof (live_screen A B F room HB d0 turns k O (fun _ => True) [] Hfair Hcalm (fun _ _ _ _ => I)) as LS.
  destruct (fish_ok (L := L) (LC := LC) (LR := LR) (LV := LV) (LS := LS) F _ vmem_var fuel junk Hfuel t0 t1 Hf0 Hf1 Hlong Hadd
    garbage P _ _ HR Hopen Hrtc Hvar Hh) as (P' & s' & E & HR' & _ & ps & HB').
  destruct (lives_drew A B F room d0 k O _ _ _ _ _ eq_refl HR') as (tr & rs & H1 & H2 & H3 & H4 & H5); [done|].
  exists P', ps, s', tr, rs. by split_and!.
Qed.

(** The sample's frames, while the other terminals start programs: after 400 ticks
    the stores have left the first frame on a blank page, and the removed blink's I. *)
Definition sample_t0 : list Z := [47; 92; 95; 47; 92; 10; 62; 32; 60; 10].
Definition sample_t1 : list Z := [45; 32; 45; 32; 45; 10; 10; 95].

Definition page_after (l : list (Z * Z)) : list Z :=
  foldl (fun p x => <[Z.to_nat x.1 := x.2]> p) (replicate 4096 32) l.

Lemma fish_preempted_witness :
  exists k P' s' tr rs,
    fish (HS := preempted_calls null_dentry sample_turns) (HC := preempted_raw null_dentry sample_turns (fun _ _ => None))
      (HV := preempted_screen null_dentry sample_turns)
      0x8049000 2001 no_blink [7; 7; 7; 7] (mkBlinks [] None 0 tt) (k, begin []) = Some (0, P', s') /\
    ((fun i => (page_after (drawn tr)).[2 * i]) <$> [40; 41; 42; 43; 44; 120; 121; 122; 200; 540]) =
      Some <$> [47; 92; 95; 47; 92; 62; 32; 60; 32; 73] /\
    run_os_all null_dentry tr.*2 k = Some (rs, s'.1) /\ printed tr = [].
Proof.
  destruct sample_serves as (k & s1 & s2 & HS).
  destruct (fish_preempted _ _ _ _ null_dentry sample_turns (fun _ _ => None) k _ 0x8049000 2001 no_blink [7; 7; 7; 7]
    (mkBlinks [] None 0 tt) sample_t0 sample_t1 sample_bootable HS (sample_turns_fair _))
    as (P' & ps & s' & tr & rs & E & _ & Hp & H1 & H2 & _).
  - reflexivity.
  - reflexivity.
  - reflexivity.
  - reflexivity.
  - lia.
  - reflexivity.
  - unfold SIZE. lia.
  - cbn. lia.
  - apply addable_b_ok. vm_compute. reflexivity.
  - exists k, P', s', tr, rs. split; [exact E|]. split; [|split; [exact H1|exact H2] ].
    rewrite Hp. vm_compute. reflexivity.
Defined.
