(* ===== verification/Emulate.v ===== *)
(** The programs' system calls on a Linux host: [src/syscalls/ece391emulate.c] (the
    same file is in fish/).  The C library and the host's own calls are parameters,
    a [Libc]; what the file does with them is the model: the command line cut into
    words, the arguments joined again, and a directory's names as the kernel gives
    them. *)
From stdpp Require Import base option list numbers.
From Stdlib Require Import ZArith Lia Ascii String.
From S2P Require Import Prelude LibString FileSystem Console Printf Idt State FileOps SysCall Process User.

(** How a child ended: the status that wait stores. *)
Inductive wait_status := Exited (code : Z) | Signaled (sig : Z).

(** What the file calls.  The four system calls give the word in EAX; [execv] is a
    child's whole run, [None] when the program could not be started and execv came
    back; [mmap] gives the address of low memory, all ones when it fails. *)
Class Libc (S : Type) := {
  opendir : list Z -> S -> option (Z * S);
  open : list Z -> Z -> S -> option (Z * S);
  readdir : Z -> S -> option (option (list Z) * S);
  closedir : Z -> S -> option (Z * S);
  close : Z -> S -> option (Z * S);
  fork : S -> option (Z * S);
  execv : list Z -> list (list Z) -> S -> option (option wait_status * S);
  mmap : Z -> S -> option (Z * S);
  perror : list Z -> S -> option S;
  int_read : Z -> list Z -> Z -> Z -> S -> option (Z * list Z * S);
  int_write : Z -> list Z -> Z -> Z -> S -> option (Z * S);
  int_open : list Z -> Z -> S -> option (Z * S);
  int_close : Z -> S -> option (Z * S);
}.

(** The file's static variables; what is at [start_esp], the arguments from the
    program's name on, each an object; and the host. *)
Record emu (S : Type) := mkEmu {
  dir_fd : Z;
  dir : Z;
  mem_fd : Z;
  argv : list (list Z);
  host : S;
}.
Arguments mkEmu {S}. Arguments dir_fd {S}. Arguments dir {S}. Arguments mem_fd {S}. Arguments argv {S}. Arguments host {S}.

#[export] Instance eta_emu {S} : EtaExpand (emu S) := fun E => mkEmu (dir_fd E) (dir E) (mem_fd E) (argv E) (host E).

(** What a program starts with. *)
Definition emu_start {S} (args : list (list Z)) (h : S) : emu S := mkEmu (-1) 0 (-1) args h.

Definition O_RDONLY : Z := 0.
Definition O_RDWR : Z := 2.

(** The wrappers' test: an answer above 0xFFFFC000 is an error. *)
Definition checked (eax : Z) : Z := if 0xFFFFC000 <? eax then -1 else s32 eax.

(** ** Strings *)

(** strcpy between objects; fish's copy of the support library. *)
Definition strcpy_between (dst : list Z) (d : Z) (src : list Z) (p : Z) : option (list Z) :=
  iterate (S (Datatypes.length src))
    (fun '(i, dst) => c ← src.[p + i]; dst ← dst.[d + i := c];
       Some (if c =? 0 then Done dst else Next (i + 1, dst))) (0, dst).

(** The scan to a character that [stop]s. *)
Definition scan_to (stop : Z -> bool) (buf : list Z) (scan : Z) : option Z :=
  iterate (S (Datatypes.length buf))
    (fun scan => c ← buf.[scan]; Some (if stop c then Done scan else Next (scan + 1))) scan.

Definition word_end (c : Z) : bool := (c =? 0) || (c =? 32) || (c =? 10).

(** ** execute *)

(** A round of the loop that cuts [buf] from [scan] on: the next word's address is
    added to [args]. *)
Definition parse_word (st : list Z * Z * list Z) : option (flow (list Z * Z * list Z) (list Z * list Z)) :=
  let '(buf, scan, args) := st in
  scan ← scan_to (fun c => negb (c =? 32)) buf scan;
  c ← buf.[scan];
  if (c =? 0) || (c =? 10) then buf ← buf.[scan := 0]; Some (Done (buf, args))
  else
    let args := args ++ [scan] in
    scan ← scan_to word_end buf scan;
    c ← buf.[scan];
    if negb (c =? 0) then buf ← buf.[scan := 0]; Some (Next (buf, scan + 1, args))
    else Some (Next (buf, scan, args)).

Definition parse_args (buf : list Z) (scan : Z) (args : list Z) : option (list Z * list Z) :=
  iterate (S (Datatypes.length buf)) parse_word (buf, scan, args).

(** The string at an address. *)
Definition string_from (buf : list Z) (p : Z) : option (list Z) := n ← ece391_strlen buf p; Some (slice buf p n).

(** The command line in the local arrays, [junk] of 1026 bytes and 1024 pointers. *)
Definition split_command (junk command : list Z) : option (list Z * list Z) :=
  buf ← junk.[0 := 46];
  buf ← buf.[1 := 47];
  buf ← strcpy_between buf 2 command 0;
  scan ← scan_to word_end buf 2;
  c ← buf.[scan];
  '(buf, args) ← (if negb (c =? 0) then buf ← buf.[scan := 0]; parse_args buf (scan + 1) [0] else Some (buf, [0]));
  if 1024 <=? len args then None else Some (buf, args).

Section calls.
Context {H : Type} `{Libc H}.

(** [status0] is what the local variable holds before wait stores to it. *)
Definition linux_execute (junk : list Z) (status0 : wait_status) (command : list Z) (E : emu H) : option (Z * emu H) :=
  n ← ece391_strlen command 0;
  if 1023 <? n then Some (-1, E)
  else
    '(buf, args) ← split_command junk command;
    path ← string_from buf 0;
    words ← mapM (string_from buf) args;
    '(pid, h) ← fork (host E);
    '(status, h) ← (if pid =? -1 then Some (status0, h)
                    else '(r, h) ← execv path words h; Some (default (Signaled 9) r, h));
    Some (match status with
          | Exited code => code
          | Signaled sig => if 9 =? sig then -1 else 256
          end, E <| host := h |>).

(** ** getargs *)

(** A round of its loop, after the loop the address reached, the room left and the
    buffer, or, for -1, the buffer. *)
Definition getargs_word (args : list (list Z)) (st : Z * Z * Z * list Z)
    : option (flow (Z * Z * Z * list Z) (list Z + Z * Z * list Z)) :=
  let '(idx, p, nbytes, buf) := st in
  let argc := len args in
  if idx <? argc then
    s ← args.[idx];
    n ← ece391_strlen s 0;
    if nbytes <? n then Some (Done (inl buf))
    else
      buf ← strcpy_between buf p s 0;
      if argc <=? idx + 1 then Some (Done (inr (p + n, nbytes - n, buf)))
      else if nbytes - n <? 1 then Some (Done (inl buf))
      else buf ← buf.[p + n := 32]; Some (Next (idx + 1, p + n + 1, nbytes - n - 1, buf))
  else Some (Done (inr (p, nbytes, buf))).

Definition linux_getargs (buf : list Z) (nbytes : Z) (E : emu H) : option (Z * list Z) :=
  r ← iterate (S (Datatypes.length (argv E))) (getargs_word (argv E)) (1, 0, nbytes, buf);
  match r with
  | inl buf => Some (-1, buf)
  | inr (p, nbytes, buf) =>
      if nbytes <? 1 then Some (-1, buf) else buf ← buf.[p := 0]; Some (0, buf)
  end.

(** ** Files and the directory *)

Definition linux_open (filename : list Z) (E : emu H) : option (Z * emu H) :=
  r ← ece391_strcmp filename 0 (bytes "." ++ [0]) 0;
  if r =? 0 then
    '(d, h) ← opendir (bytes "." ++ [0]) (host E);
    '(fd, h) ← open (bytes "/dev/null" ++ [0]) O_RDONLY h;
    Some (fd, E <| dir := d |> <| dir_fd := fd |> <| host := h |>)
  else '(eax, h) ← int_open filename O_RDONLY (host E); Some (checked eax, E <| host := h |>).

(** The copy of a name, [name] with its terminator: what is returned, the buffer. *)
Definition copy_d_name (name buf : list Z) (nbytes : Z) : option (Z * list Z) :=
  r ← iterate (S (Datatypes.length name))
    (fun '(copied, buf) =>
       c ← name.[copied];
       if c =? 0 then Some (Done (inr (copied, buf)))
       else
         buf ← buf.[copied := c];
         if copied + 1 =? nbytes then Some (Done (inl (nbytes, buf)))
         else if 32 =? copied + 1 then Some (Done (inl (32, buf)))
         else Some (Next (copied + 1, buf))) (0, buf);
  match r with
  | inl r => Some r
  | inr (copied, buf) =>
      iterate 34
        (fun '(copied, buf) =>
           if (copied <? nbytes) && (copied <? 32) then buf ← buf.[copied := 0]; Some (Next (copied + 1, buf))
           else Some (Done (copied, buf))) (copied, buf)
  end.

Definition on_dir (fd : Z) (E : emu H) : bool := negb ((dir E =? 0) || negb (dir_fd E =? fd)).

Definition linux_read (fd : Z) (buf : list Z) (off nbytes : Z) (E : emu H) : option (Z * list Z * emu H) :=
  if negb (on_dir fd E) then
    '(eax, buf, h) ← int_read fd buf off nbytes (host E); Some (checked eax, buf, E <| host := h |>)
  else
    '(de, h) ← readdir (dir E) (host E);
    match de with
    | None => Some (0, buf, E <| host := h |>)
    | Some name =>
        '(r, b) ← copy_d_name name (drop (Z.to_nat off) buf) nbytes;
        Some (r, take (Z.to_nat off) buf ++ b, E <| host := h |>)
    end.

Definition linux_write (fd : Z) (buf : list Z) (off nbytes : Z) (E : emu H) : option (Z * emu H) :=
  if negb (on_dir fd E) then
    '(eax, h) ← int_write fd buf off nbytes (host E); Some (checked eax, E <| host := h |>)
  else Some (-1, E).

Definition linux_close (fd : Z) (E : emu H) : option (Z * emu H) :=
  if negb (on_dir fd E) then '(eax, h) ← int_close fd (host E); Some (checked eax, E <| host := h |>)
  else
    '(_, h) ← closedir (dir E) (host E);
    '(_, h) ← close (dir_fd E) h;
    Some (0, E <| dir := 0 |> <| dir_fd := -1 |> <| host := h |>).

(** The second result is the word stored at [screen_start]. *)
Definition linux_vidmap (E : emu H) : option (Z * option Z * emu H) :=
  E ← (if mem_fd E =? -1 then
         '(fd, h) ← open (bytes "/dev/mem" ++ [0]) O_RDWR (host E); Some (E <| mem_fd := fd |> <| host := h |>)
       else Some E);
  '(image, h) ← mmap (mem_fd E) (host E);
  let E := E <| host := h |> in
  if image =? 0xFFFFFFFF then
    h ← perror (bytes "mmap low memory" ++ [0]) (host E); Some (-1, None, E <| host := h |>)
  else Some (0, Some (u32 (image + 0xb8000)), E).
End calls.

(** ** Lemmas on the strings *)

Lemma strcpy_between_eq dst d src p : strcpy_between dst d src p = strcpy dst d src p.
Proof.
  unfold strcpy_between, strcpy. apply iterate_ext. intros [i b]. destruct (src.[p + i]) as [c|]; [|done]. cbn [mbind option_bind].
  destruct (Z.eqb_spec c 0) as [->|]; cbn [negb]; by destruct (b.[d + i := _]).
Qed.

Lemma scan_to_spec stop s p str : cstring s p str -> stop 0 = true ->
  scan_to stop s p = Some (p + len (until stop str)).
Proof.
  intros Hs H0. pose proof (cstring_length _ _ _ Hs) as Hl. pose proof (until_length stop str) as Hu.
  pose proof Hs as (Hp & _). unfold scan_to.
  destruct (iterate_ind (fun q => p <= q <= p + len (until stop str)) (fun r => r = p + len (until stop str))
    (fun q => Z.to_nat (p + len (until stop str) - q))
    (fun scan => c ← s.[scan]; Some (if stop c then Done scan else Next (scan + 1))) (S (Datatypes.length s))) with (s := p)
    as (r & E & ->); [|lia|lia|exact E].
  intros q Hq. destruct (cstring_get _ _ _ (q - p) Hs) as (c & Ec & Hc0 & Hc); [lia|].
  replace (p + (q - p)) with q in Ec by lia. rewrite Ec. cbn [mbind option_bind]. eexists. split; [done|].
  destruct (Z.eq_dec q (p + len (until stop str))) as [->|Hne].
  - assert (stop c = true) as ->; [|done]. destruct (Z.eq_dec (len (until stop str)) (len str)) as [El|Hlt].
    + by rewrite (proj2 Hc0) by lia.
    + apply (until_end stop str). rewrite <- Hc by lia. f_equal. lia.
  - destruct (until_prefix stop str (q - p)) as (c' & Ec' & _ & Hst); [lia|]. rewrite Hc in Ec' by lia.
    injection Ec' as ->. rewrite Hst. lia.
Qed.

Lemma string_from_spec s p str : cstring s p str -> string_from s p = Some str.
Proof.
  intros Hs. unfold string_from. rewrite (ece391_strlen_cstring _ _ _ Hs). cbn [mbind option_bind]. f_equal.
  destruct Hs as (Hp & _ & Hz & Hi). pose proof (aget_range _ _ _ Hz). apply aget_ext; [rewrite length_slice; lia|].
  intros i Hr. rewrite length_slice in Hr by lia. rewrite aget_slice by lia. apply Hi. lia.
Qed.

(** ** The words of a command line

    A word ends at a space or a newline; a newline behind spaces ends the line. *)
Fixpoint words (n : nat) (s : list Z) : list (list Z) :=
  match n with
  | O => []
  | S n =>
      let r := drop_spaces s in
      match r with
      | [] => []
      | c :: _ => if c =? 10 then [] else until word_end r :: words n (drop (Datatypes.length (until word_end r) + 1) r)
      end
  end.

Definition command_words (s : list Z) : list (list Z) :=
  let w := until word_end s in w :: words (Datatypes.length s) (drop (Datatypes.length w + 1) s).

(** The addresses [args] in [buf] are of the words [ws], which end at [scan] at the
    latest; only NULs are stored from there on. *)
Definition words_at (buf : list Z) (scan : Z) (args : list Z) (ws : list (list Z)) : Prop :=
  Forall2 (fun a w => cstring buf a w /\ a + len w <= scan) args ws.

Lemma words_at_kept buf scan args ws q buf' scan' :
  words_at buf scan args ws -> buf.[q := 0] = Some buf' -> scan <= q -> scan <= scan' -> words_at buf' scan' args ws.
Proof.
  intros HF E Hq Hs. eapply Forall2_impl; [|exact HF]. intros a w [Hw Hl]. split; [|lia].
  destruct (Z.eq_dec (a + len w) q) as [<-|Hne]; [|eapply cstring_apart; [exact Hw|exact E|lia]].
  pose proof (cstring_cut _ _ _ (len w) _ Hw ltac:(lia) E) as HC. by rewrite take_ge in HC by lia.
Qed.

Lemma words_at_later buf scan args ws scan' : words_at buf scan args ws -> scan <= scan' -> words_at buf scan' args ws.
Proof. intros HF Hs. eapply Forall2_impl; [|exact HF]. intros a w [Hw Hl]. split; [done|lia]. Qed.

Lemma until_not_space s : drop (Datatypes.length (until (fun c => negb (c =? 32)) s)) s = drop_spaces s.
Proof. induction s as [|c s IH]; [done|]. cbn. destruct (c =? 32); [exact IH|done]. Qed.

Lemma take_until_stop stop l : take (Datatypes.length (until stop l)) l = until stop l.
Proof. induction l as [|c l IH]; [done|]. cbn. destruct (stop c); [done|]. cbn. by rewrite IH. Qed.

(** The word at the front of a string, cut off where it ends. *)
Lemma cut_word buf p r : cstring buf p r ->
  let w := until word_end r in
  scan_to word_end buf p = Some (p + len w) /\
  exists c, buf.[p + len w] = Some c /\
    ((c = 0 /\ w = r) \/
     (c <> 0 /\ exists buf', buf.[p + len w := 0] = Some buf' /\ Datatypes.length buf' = Datatypes.length buf /\ cstring buf' p w /\
        cstring buf' (p + len w + 1) (drop (Datatypes.length w + 1) r))).
Proof.
  intros Hr w. pose proof (until_length word_end r : len w <= len r) as Hw. pose proof (cstring_length _ _ _ Hr) as Hl.
  pose proof Hr as (Hp & _). split; [by apply scan_to_spec|].
  pose proof (take_until_stop word_end r : take (Datatypes.length w) r = w) as Ew.
  destruct (cstring_get _ _ _ (len w) Hr) as (c & Ec & Hc0 & Hc); [lia|]. exists c. split; [done|].
  destruct (Z.eq_dec c 0) as [->|Hne].
  - left. split; [done|]. rewrite <- Ew, take_ge; [done|]. lia.
  - right. split; [done|]. destruct (aget_range _ _ _ Ec) as [H0 H1].
    eexists. split; [by apply aset_Some|]. split; [by rewrite length_insert|].
    pose proof (aset_Some buf (p + len w) 0 ltac:(lia)) as E. split.
    + pose proof (cstring_cut _ _ _ (len w) _ Hr ltac:(lia) E) as HC. by rewrite Nat2Z.id, Ew in HC.
    + assert (len w + 1 <= len r) as Hlt by lia.
      pose proof (cstring_drop _ _ _ (len w + 1) Hr ltac:(lia)) as HD.
      replace (Z.to_nat (len w + 1)) with (Datatypes.length w + 1)%nat in HD by lia. rewrite Z.add_assoc in HD.
      eapply cstring_apart; [exact HD|exact E|lia].
Qed.

Lemma parse_word_spec buf scan s args ws : cstring buf scan s -> words_at buf scan args ws ->
  let r := drop_spaces s in
  if match r with [] => true | c :: _ => c =? 10 end
  then exists buf', parse_word (buf, scan, args) = Some (Done (buf', args)) /\ words_at buf' (len buf) args ws
  else exists buf' scan' a, parse_word (buf, scan, args) = Some (Next (buf', scan', args ++ [a])) /\
    Datatypes.length buf' = Datatypes.length buf /\ cstring buf' scan' (drop (Datatypes.length (until word_end r) + 1) r) /\
    words_at buf' scan' (args ++ [a]) (ws ++ [until word_end r]).
Proof.
  intros Hs HF r. pose proof (cstring_length _ _ _ Hs) as Hl. pose proof Hs as (H0 & _).
  set (n := len (until (fun c => negb (c =? 32)) s)).
  pose proof (until_length (fun c => negb (c =? 32)) s : n <= len s) as Hn.
  unfold parse_word. rewrite (scan_to_spec _ _ _ _ Hs eq_refl). fold n. cbn [mbind option_bind].
  assert (cstring buf (scan + n) r) as Hr.
  { unfold r. rewrite <- until_not_space. pose proof (cstring_drop _ _ _ n Hs ltac:(lia)) as HD.
    unfold n in HD. by rewrite Nat2Z.id in HD. }
  assert (words_at buf (scan + n) args ws) as HF1 by (eapply words_at_later; [exact HF|lia]).
  generalize dependent (scan + n). intros p Hr HF1. clear HF Hs Hl H0 n Hn scan. pose proof (cstring_length _ _ _ Hr) as Hl.
  pose proof Hr as (Hp & Hch & _).
  destruct (cstring_get _ _ _ 0 Hr) as (c & Ec & Hc0 & Hc); [lia|]. rewrite Z.add_0_r in Ec. rewrite Ec. cbn [mbind option_bind].
  assert ((c =? 0) || (c =? 10) = match r with [] => true | c :: _ => c =? 10 end) as ->.
  { destruct r as [|d r]; [by rewrite (proj2 Hc0)|]. specialize (Hc ltac:(cbn; lia)). injection Hc as <-.
    pose proof (Forall_inv Hch) as Hd. unfold is_char in Hd. by rewrite (proj2 (Z.eqb_neq d 0)) by lia. }
  destruct (match r with [] => true | c :: _ => c =? 10 end).
  - pose proof (aset_Some buf p 0 ltac:(lia)) as E. rewrite E. cbn [mbind option_bind]. eexists. split; [reflexivity|].
    apply (words_at_kept _ _ _ _ _ _ _ HF1 E); lia.
  - destruct (cut_word _ _ _ Hr) as (-> & e & Ee & HE). cbn [mbind option_bind]. rewrite Ee. cbn [mbind option_bind].
    destruct HE as [[-> Ew]|(Hne & buf' & E & Hlen & Hw & Hrest)].
    + cbn. eexists buf, _, p. split; [reflexivity|]. split; [done|]. rewrite Ew, drop_ge by lia. split.
      * pose proof (cstring_drop _ _ _ (len r) Hr ltac:(lia)) as HD. by rewrite drop_ge in HD by lia.
      * apply Forall2_app; [by eapply words_at_later; [exact HF1|lia]|]. constructor; [|constructor]. by split.
    + rewrite (proj2 (Z.eqb_neq e 0) Hne). cbn [negb]. rewrite E. cbn [mbind option_bind].
      eexists buf', _, p. split; [reflexivity|]. split; [done|]. split; [exact Hrest|].
      apply Forall2_app; [apply (words_at_kept _ _ _ _ _ _ _ HF1 E); lia|]. constructor; [|constructor]. split; [done|lia].
Qed.

Lemma parse_loop_spec n : forall fuel buf scan s args ws,
  (Datatypes.length s <= n)%nat -> (n < fuel)%nat -> cstring buf scan s -> words_at buf scan args ws ->
  exists buf' args', iterate fuel parse_word (buf, scan, args) = Some (buf', args ++ args') /\
    Forall2 (cstring buf') (args ++ args') (ws ++ words n s).
Proof.
  assert (forall buf scan args ws, words_at buf scan args ws -> Forall2 (cstring buf) args ws) as Hend.
  { intros buf scan args ws HF. eapply Forall2_impl; [|exact HF]. by intros a w [Hw _]. }
  induction n as [|n IH]; intros fuel buf scan s args ws Hn Hf Hs HF; (destruct fuel as [|fuel]; [lia|]);
    pose proof (parse_word_spec buf scan s args ws Hs HF) as HP; cbn [words]; rewrite iterate_S.
  - destruct s; [|cbn in Hn; lia]. cbn [drop_spaces] in HP. cbv beta iota zeta in HP. destruct HP as (buf' & -> & HF'). exists buf', []. cbn. rewrite !app_nil_r. eauto.
  - destruct (drop_spaces_drop s) as (j & Ej & Hj & _). pose proof (f_equal Datatypes.length Ej) as Hr. rewrite length_drop in Hr.
    revert HP. destruct (drop_spaces s) as [|c r]; cbv beta iota zeta; [|destruct (c =? 10)]; intros HP.
    + destruct HP as (buf' & -> & HF'). exists buf', []. cbn. rewrite !app_nil_r. eauto.
    + destruct HP as (buf' & -> & HF'). exists buf', []. cbn. rewrite !app_nil_r. eauto.
    + destruct HP as (buf' & scan' & a & -> & Hlen & Hs' & HF'). cbn [mbind option_bind].
      edestruct (IH fuel buf' scan') as (b2 & a2 & E & H2); [|lia|exact Hs'|exact HF'|]; [rewrite length_drop; cbn [Datatypes.length] in *; lia|].
      exists b2, (a :: a2). rewrite <- !app_assoc in *. by split.
Qed.

(** The buffer after the copy of the command. *)
Lemma dotted junk s : len junk = 1026 -> len s <= 1023 -> Forall is_char s ->
  cstring (splice (<[Z.to_nat 1 := 47]> (<[Z.to_nat 0 := 46]> junk)) 2 (s ++ [0])) 0 (46 :: 47 :: s).
Proof.
  intros Hj Hl Hch. set (b0 := <[Z.to_nat 1 := 47]> (<[Z.to_nat 0 := 46]> junk)). set (b1 := splice b0 2 (s ++ [0])).
  assert (len b0 = 1026) as Hb0 by (unfold b0; rewrite !length_insert; done).
  assert (len (s ++ [0]) = len s + 1) as Hls by (rewrite length_app; cbn; lia).
  assert (forall j, 0 <= j -> j < len s + 1 -> b1.[2 + j] = (s ++ [0]).[j]) as Hb.
  { intros j H0 H1. unfold b1. rewrite aget_splice_in by lia. f_equal. lia. }
  split_and!; [lia|repeat (constructor; [done|]); exact Hch| |].
  - replace (0 + len (46 :: 47 :: s)) with (2 + len s) by (cbn [Datatypes.length]; lia). rewrite Hb by lia.
    by rewrite aget_app_r, Z.sub_diag by lia.
  - intros i Hi. cbn [Datatypes.length] in Hi. rewrite Z.add_0_l, !aget_cons.
    destruct (Z.eqb_spec i 0) as [->|Hi0]; [unfold b1; rewrite aget_splice_out by lia; unfold b0;
      rewrite aget_insert_ne, aget_insert_eq by (rewrite ?length_insert; lia); done|].
    destruct (Z.eqb_spec (i - 1) 0) as [Hi1|Hi1]; [replace i with 1 by lia; unfold b1; rewrite aget_splice_out by lia; unfold b0;
      rewrite aget_insert_eq by (rewrite ?length_insert; lia); done|].
    replace i with (2 + (i - 1 - 1)) at 1 by lia. rewrite Hb by lia. apply aget_app_l. lia.
Qed.

Lemma words_count n : forall s, (Datatypes.length (words n s) <= Datatypes.length s)%nat.
Proof.
  induction n as [|n IH]; intros s; cbn [words]; [cbn; lia|].
  destruct (drop_spaces_drop s) as (j & Ej & _). pose proof (f_equal Datatypes.length Ej) as Hr. rewrite length_drop in Hr.
  destruct (drop_spaces s) as [|c r]; [cbn; lia|]. destruct (c =? 10); [cbn; lia|]. cbn [Datatypes.length].
  specialize (IH (drop (Datatypes.length (until word_end (c :: r)) + 1) (c :: r))). rewrite length_drop in IH. cbn [Datatypes.length] in *. lia.
Qed.

(** The whole command line, of at most 1023 characters: the first word behind ./ and
    the others. *)
Lemma split_command_spec junk command s : len junk = 1026 -> cstring command 0 s -> len s <= 1023 ->
  exists buf args, split_command junk command = Some (buf, 0 :: args) /\
    Forall2 (cstring buf) (0 :: args) (match command_words s with w :: ws => (46 :: 47 :: w) :: ws | [] => [] end).
Proof.
  intros Hj Hs Hl. unfold split_command. rewrite (aset_Some junk 0 46) by lia. cbn [mbind option_bind].
  rewrite (aset_Some _ 1 47) by (rewrite length_insert; lia). cbn [mbind option_bind].
  set (b0 := <[Z.to_nat 1 := 47]> (<[Z.to_nat 0 := 46]> junk)).
  assert (len b0 = 1026) as Hb0 by (unfold b0; rewrite !length_insert; done).
  rewrite strcpy_between_eq, (strcpy_cstring _ _ _ _ _ Hs) by lia. cbn [mbind option_bind].
  set (b1 := splice b0 2 (s ++ [0])).
  assert (len b1 = 1026) as Hb1 by (unfold b1; rewrite length_splice; [done|lia|rewrite length_app; cbn; lia]).
  assert (cstring b1 0 (46 :: 47 :: s)) as H1 by (apply dotted; [done|lia|apply Hs]).
  pose proof (cstring_drop _ _ _ 2 H1 ltac:(cbn; lia)) as H2. cbn in H2.
  destruct (cut_word b1 2 s H2) as (-> & c & Ec & HE). cbn [mbind option_bind]. rewrite Ec. cbn [mbind option_bind].
  unfold command_words. set (w := until word_end s) in *.
  destruct HE as [[-> Ew]|(Hne & b2 & E & Hlen & Hw & Hrest)].
  - cbn. eexists b1, []. split; [done|]. rewrite Ew, drop_ge by lia. destruct s; (constructor; [exact H1|constructor]).
  - rewrite (proj2 (Z.eqb_neq c 0) Hne). cbn [negb]. rewrite E. cbn [mbind option_bind].
    assert (cstring b2 0 (46 :: 47 :: w)) as H3.
    { pose proof (cstring_cut _ _ _ (2 + len w) b2 H1) as HC. cbn [Datatypes.length] in HC. rewrite Z.add_0_l in HC.
      pose proof (until_length word_end s : len w <= len s). specialize (HC ltac:(lia) E).
      replace (Z.to_nat (2 + len w)) with (S (S (Datatypes.length w))) in HC by lia. cbn [take] in HC.
      by rewrite (take_until_stop word_end s : take (Datatypes.length w) s = w) in HC. }
    pose proof (cstring_length _ _ _ Hrest) as Hlr. rewrite length_drop in Hlr.
    edestruct (parse_loop_spec (Datatypes.length s) (S (Datatypes.length b2)) b2 (2 + len w + 1)) as (b3 & args & E3 & HF);
      [| |exact Hrest| |]; [rewrite length_drop; lia|lia|constructor; [split; [exact H3|]|constructor]; cbn [Datatypes.length]; lia|].
    unfold parse_args. rewrite E3. cbn [mbind option_bind].
    pose proof (Forall2_length HF) as Hn. pose proof (words_count (Datatypes.length s) (drop (Datatypes.length w + 1) s)) as Hc.
    rewrite length_drop in Hc. cbn [app Datatypes.length] in Hn.
    cbn [app Datatypes.length]. destruct (Z.leb_spec 1024 (Z.of_nat (S (Datatypes.length args)))); [lia|]. exists b3, args. split; [done|exact HF].
Qed.

(** ** The arguments joined *)

Fixpoint join (ws : list (list Z)) : list Z :=
  match ws with
  | [] => []
  | w :: ws => match ws with [] => w | _ => w ++ 32 :: join ws end
  end.

Lemma join_cons w w' ws : join (w :: w' :: ws) = w ++ 32 :: join (w' :: ws).
Proof. done. Qed.

(** The terminator replaced. *)
Lemma last_replaced buf u c q : len u < len buf -> q = len u ->
  (splice buf 0 (u ++ [0])).[q := c] = Some (splice buf 0 (u ++ [c])).
Proof.
  intros Hu ->. assert (forall d, splice buf 0 (u ++ [d]) = <[Z.to_nat (len u) := d]> (splice buf 0 u)) as Hd.
  { intros d. rewrite <- (splice_app buf 0 u [d]), Z.add_0_l by lia. apply splice_one. rewrite length_splice; lia. }
  rewrite aset_Some by (rewrite length_splice; rewrite ?length_app; cbn; lia). by rewrite !Hd, list_insert_insert_eq.
Qed.

Section getargs.
Context (args : list (list Z)) (buf : list Z) (nbytes : Z) (Hroom : nbytes <= len buf).

Lemma aget_Forall2 {A B} (P : A -> B -> Prop) l1 l2 i b : Forall2 P l1 l2 -> l2.[i] = Some b -> exists a, l1.[i] = Some a /\ P a b.
Proof using.
  intros HF. unfold aget. destruct (i <? 0); [done|]. intros E.
  destruct (Forall2_lookup_r _ _ _ _ _ HF E) as (a & Ea & Hp). by exists a.
Qed.

Lemma getargs_word_at idx p n b o w : args.[idx] = Some o -> cstring o 0 w ->
  getargs_word args (idx, p, n, b) =
    if n <? len w then Some (Done (inl b))
    else b ← strcpy_between b p o 0;
      if len args <=? idx + 1 then Some (Done (inr (p + len w, n - len w, b)))
      else if n - len w <? 1 then Some (Done (inl b))
      else b ← b.[p + len w := 32]; Some (Next (idx + 1, p + len w + 1, n - len w - 1, b)).
Proof using.
  clear Hroom. intros E Ho. pose proof (aget_range _ _ _ E). unfold getargs_word. rewrite (proj2 (Z.ltb_lt idx (len args))), E by lia.
  cbn [mbind option_bind]. by rewrite (ece391_strlen_cstring _ _ _ Ho).
Qed.

Lemma getargs_word_end idx p n b : len args <= idx -> getargs_word args (idx, p, n, b) = Some (Done (inr (p, n, b))).
Proof using. clear Hroom. intros H. unfold getargs_word. by rewrite (proj2 (Z.ltb_ge idx (len args))) by lia. Qed.

(** From argument [idx] on, the text [t] being in the buffer. *)
Lemma getargs_loop ws : forall fuel done_ t,
  Forall2 (fun o w => cstring o 0 w) args (done_ ++ ws) -> ws <> [] -> (Datatypes.length ws < fuel)%nat ->
  len t <= nbytes -> (len t + len (join ws) < nbytes \/ nbytes < len buf) ->
  exists r, iterate fuel (getargs_word args) (len done_, len t, nbytes - len t, splice buf 0 t) = Some r /\
    match r with
    | inl _ => nbytes <= len t + len (join ws)
    | inr (p, room, b) => p = len t + len (join ws) /\ room = nbytes - p /\ 0 <= room /\ b = splice buf 0 (t ++ join ws ++ [0])
    end.
Proof using Hroom.
  induction ws as [|w ws IH]; intros fuel done_ t HF Hne Hf Ht Hfit; [done|]. destruct fuel as [|fuel]; [cbn in Hf; lia|].
  rewrite iterate_S.
  pose proof (Forall2_length HF) as Hlen. rewrite length_app in Hlen. cbn [Datatypes.length] in Hlen, Hf.
  destruct (aget_Forall2 _ _ _ (len done_) w HF) as (o & Eo & Ho); [by rewrite aget_app_r, Z.sub_diag by lia|].
  rewrite (getargs_word_at _ _ _ _ _ _ Eo Ho).
  assert (len w <= len (join (w :: ws))) as Hw by (cbn [join]; destruct ws; [lia|rewrite length_app; lia]).
  destruct (Z.ltb_spec (nbytes - len t) (len w)) as [Hlt|Hge]; [eexists; split; [reflexivity|]; cbn beta iota; lia|].
  assert (len (splice buf 0 t) = len buf) as Hsp by (rewrite length_splice; lia).
  rewrite strcpy_between_eq, (strcpy_cstring _ _ _ _ _ Ho) by lia. cbn [mbind option_bind].
  assert (splice (splice buf 0 t) (len t) (w ++ [0]) = splice buf 0 (t ++ w ++ [0])) as Es by
    (rewrite <- (splice_app buf 0 t) by lia; by rewrite Z.add_0_l).
  rewrite Es. destruct (Z.leb_spec (len args) (len done_ + 1)) as [Hlast|Hmore].
  - destruct ws; [|cbn in Hlen; lia]. eexists. split; [reflexivity|]. cbn [join]. split_and!; try done; lia.
  - destruct ws as [|w' ws]; [cbn in Hlen; lia|].
    destruct (Z.ltb_spec (nbytes - len t - len w) 1) as [Hlt|Hge1].
    { eexists. split; [reflexivity|]. rewrite join_cons, length_app. cbn [Datatypes.length]. lia. }
    rewrite (app_assoc t w [0]), (last_replaced buf (t ++ w)) by (rewrite ?length_app in *; cbn; lia). cbn [mbind option_bind].
    destruct (IH fuel (done_ ++ [w]) (t ++ w ++ [32])) as (r & E & Hr).
    + by rewrite <- app_assoc.
    + done.
    + lia.
    + rewrite !length_app. cbn. lia.
    + rewrite join_cons, !length_app in Hfit. rewrite !length_app in *. cbn [Datatypes.length] in *. lia.
    + exists r. split.
      * rewrite <- E, <- app_assoc. f_equal. repeat apply (f_equal2 pair); try done; rewrite !length_app; cbn [Datatypes.length]; lia.
      * rewrite join_cons. rewrite !length_app in *. cbn [Datatypes.length] in *. destruct r as [b|[ [p room] b] ]; [lia|].
        destruct Hr as (-> & -> & H0 & ->). split_and!; [lia|lia|lia|]. by rewrite <- !app_assoc.
Qed.
End getargs.

(** [getargs] on every program: the arguments, joined by single spaces, if they fit. *)
Lemma linux_getargs_spec {H} (E : emu H) prog ws buf nbytes :
  Forall2 (fun o w => cstring o 0 w) (argv E) (prog :: ws) -> 0 <= nbytes <= len buf ->
  len (join ws) < nbytes \/ nbytes < len buf ->
  exists buf', linux_getargs buf nbytes E =
    Some (if len (join ws) <? nbytes then (0, splice buf 0 (join ws ++ [0])) else (-1, buf')).
Proof.
  intros HF Hn Hfit. pose proof (Forall2_length HF) as Hlen. cbn [Datatypes.length] in Hlen. unfold linux_getargs.
  assert (forall p room b, p = len (join ws) -> room = nbytes - p -> 0 <= room ->
    b.[p := 0] = Some (splice buf 0 (join ws ++ [0])) \/ room < 1 ->
    exists buf', (if room <? 1 then Some (-1, b) else b ← b.[p := 0]; Some (0, b)) =
      Some (if len (join ws) <? nbytes then (0, splice buf 0 (join ws ++ [0])) else (-1, buf'))) as Hend.
  { intros p room b -> -> H0 Hb. exists b. destruct (Z.ltb_spec (nbytes - len (join ws)) 1), (Z.ltb_spec (len (join ws)) nbytes); try lia; [done|].
    destruct Hb as [-> |]; [done|lia]. }
  destruct (decide (ws = [])) as [->|Hne].
  - rewrite iterate_S, getargs_word_end by (rewrite Hlen; cbn; lia). cbn [mbind option_bind].
    apply Hend; cbn; try lia. destruct (Z.ltb_spec nbytes 1); [by right|left].
    rewrite aset_Some by lia. by rewrite splice_one by lia.
  - destruct (getargs_loop (argv E) buf nbytes ltac:(lia) ws (S (Datatypes.length (argv E))) [prog] [] HF Hne ltac:(lia)
      ltac:(cbn; lia) ltac:(cbn; lia)) as (r & Er & Hr).
    rewrite splice_nil in Er. cbn [Datatypes.length] in Er. rewrite Z.sub_0_r in Er. change (Z.of_nat 1) with 1 in Er.
    change (Z.of_nat 0) with 0 in Er. rewrite Er. cbn [mbind option_bind].
    destruct r as [b|[ [p room] b] ].
    + exists b. cbn [Datatypes.length] in Hr. destruct (Z.ltb_spec (len (join ws)) nbytes); [lia|done].
    + destruct Hr as (-> & -> & H0 & ->). cbn [Datatypes.length app] in *. apply Hend; try lia.
      destruct (Z.le_gt_cases (len buf) (len (join ws))); [right; lia|left].
      apply last_replaced; lia.
Qed.

(** A copy to an object that has room for the characters only. *)
Lemma strcpy_overruns src w dst : cstring src 0 w -> len w = len dst -> strcpy_between dst 0 src 0 = None.
Proof.
  intros Hs Hl. unfold strcpy_between. generalize (S (Datatypes.length src)) as fuel.
  enough (forall fuel i dst, len w = len dst -> 0 <= i <= len w ->
    iterate fuel (fun '(i, dst) => c ← src.[0 + i]; dst ← dst.[0 + i := c];
      Some (if c =? 0 then Done dst else Next (i + 1, dst))) (i, dst) = None) as HN by (intros fuel; apply HN; [done|lia]).
  clear dst Hl.
  induction fuel as [|fuel IH]; intros i dst Hl Hi; [done|]. rewrite iterate_S.
  destruct (cstring_get _ _ _ i Hs Hi) as (c & -> & Hc0 & _). cbn [mbind option_bind]. rewrite Z.add_0_l.
  destruct (Z.eq_dec i (len w)) as [->|Hne]; [by rewrite aset_None by lia|].
  rewrite aset_Some by lia. cbn [mbind option_bind]. rewrite (proj2 (Z.eqb_neq c 0)) by lia.
  apply IH; [by rewrite length_insert|lia].
Qed.

(** One argument of exactly the buffer's size: strcpy stores its terminator behind
    the buffer, before the test that refuses it. *)
Lemma getargs_overruns {H} (E : emu H) prog w buf :
  Forall2 (fun o w => cstring o 0 w) (argv E) [prog; w] -> len w = len buf -> linux_getargs buf (len buf) E = None.
Proof.
  intros HF Hl. unfold linux_getargs. rewrite iterate_S.
  destruct (aget_Forall2 _ _ _ 1 w HF eq_refl) as (o & Eo & Ho). rewrite (getargs_word_at _ _ _ _ _ _ _ Eo Ho).
  destruct (Z.ltb_spec (len buf) (len w)); [lia|]. by rewrite (strcpy_overruns _ _ _ Ho Hl).
Qed.

(** ** Command lines whose words stand one space apart *)

(** A word, for both parsers. *)
Definition is_word (w : list Z) : Prop := w <> [] /\ Forall (fun c => is_char c /\ c <> 32 /\ c <> 10) w.

Lemma word_not_end c : is_char c /\ c <> 32 /\ c <> 10 -> word_end c = false /\ is_sep c = false /\ (c =? 10) = false /\ (c =? 32) = false.
Proof. unfold word_end, is_sep, is_char. intros (H & H1 & H2). rewrite !orb_false_iff, !Z.eqb_neq. lia. Qed.

Lemma until_word stop w r : (forall c, is_char c /\ c <> 32 /\ c <> 10 -> stop c = false) -> stop 32 = true -> is_word w ->
  until stop (w ++ 32 :: r) = w /\ until stop w = w.
Proof.
  intros Hstop Hsp [_ HF]. induction HF as [|c w Hc HF IH]; cbn; [by rewrite Hsp|]. rewrite (Hstop c Hc).
  by destruct IH as [-> ->].
Qed.

Lemma join_word w ws : exists r, join (w :: ws) = w ++ r /\ ((ws = [] /\ r = []) \/ (ws <> [] /\ r = 32 :: join ws)).
Proof. destruct ws as [|w' ws]; [exists []|exists (32 :: join (w' :: ws))]; [rewrite app_nil_r|]; eauto. Qed.

Lemma join_drop_spaces w ws : is_word w -> drop_spaces (join (w :: ws)) = join (w :: ws).
Proof.
  intros [Hne HF]. destruct (join_word w ws) as (r & -> & _). destruct w as [|c w]; [done|]. cbn.
  by destruct (word_not_end c (Forall_inv HF)) as (_ & _ & _ & ->).
Qed.

Lemma until_join stop w ws : (forall c, is_char c /\ c <> 32 /\ c <> 10 -> stop c = false) -> stop 32 = true -> is_word w ->
  until stop (join (w :: ws)) = w /\ drop (Datatypes.length w + 1) (join (w :: ws)) = join ws.
Proof.
  intros Hstop Hsp Hw. destruct (join_word w ws) as (r & -> & [[-> ->]|[_ ->]]).
  - rewrite app_nil_r. split; [apply (until_word stop w []); done|]. by rewrite drop_ge by lia.
  - split; [by apply until_word|]. rewrite drop_app_ge by lia. by replace (Datatypes.length w + 1 - Datatypes.length w)%nat with 1%nat by lia.
Qed.

Lemma words_join ws : forall n, Forall is_word ws -> (Datatypes.length ws <= n)%nat -> words n (join ws) = ws.
Proof.
  induction ws as [|w ws IH]; intros n HF Hn; [by destruct n|]. destruct n as [|n]; [cbn in Hn; lia|].
  pose proof (Forall_inv HF) as Hw. cbn [words]. rewrite (join_drop_spaces w ws Hw).
  destruct (until_join word_end w ws ltac:(apply word_not_end) eq_refl Hw) as [-> ->].
  rewrite (IH n (Forall_inv_tail HF)) by (cbn in Hn; lia).
  destruct (join_word w ws) as (r & -> & _). destruct Hw as [Hne HFw]. destruct w as [|c w]; [done|]. cbn [app].
  by destruct (word_not_end c (Forall_inv HFw)) as (_ & _ & -> & _).
Qed.

Lemma join_length ws : Forall is_word ws -> (Datatypes.length ws <= Datatypes.length (join ws))%nat.
Proof.
  induction ws as [|w ws IH]; intros HF; [cbn; lia|]. specialize (IH (Forall_inv_tail HF)).
  destruct (Forall_inv HF) as [Hne _]. destruct (join_word w ws) as (r & -> & [[-> ->]|[_ ->]]);
    rewrite length_app; destruct w; try done; cbn [Datatypes.length] in *; lia.
Qed.

Lemma join_chars ws : Forall is_word ws -> Forall is_char (join ws).
Proof.
  induction ws as [|w ws IH]; intros HF; [constructor|]. destruct (Forall_inv HF) as [_ Hw].
  assert (Forall is_char w) by (eapply Forall_impl; [|exact Hw]; by intros c []).
  destruct (join_word w ws) as (r & -> & [[-> ->]|[_ ->]]); apply Forall_app; (split; [done|]); constructor; [done|].
  by apply IH, (Forall_inv_tail HF).
Qed.

Lemma command_words_join w ws : Forall is_word (w :: ws) -> command_words (join (w :: ws)) = w :: ws.
Proof.
  intros HF. unfold command_words. destruct (until_join word_end w ws ltac:(apply word_not_end) eq_refl (Forall_inv HF)) as [-> ->].
  f_equal. apply words_join; [exact (Forall_inv_tail HF)|]. pose proof (join_length _ HF). cbn [Datatypes.length] in *. lia.
Qed.

(** The kernel's parser on them. *)
Lemma kernel_words_join w ws : Forall is_word (w :: ws) -> len w <= 128 ->
  command_name (join (w :: ws)) = w /\ command_args (join (w :: ws)) = join ws.
Proof.
  intros HF Hl. unfold command_args, command_name. rewrite (join_drop_spaces w ws (Forall_inv HF)).
  destruct (until_join is_sep w ws ltac:(intros c Hc; by apply word_not_end) eq_refl (Forall_inv HF)) as [-> E].
  rewrite take_ge by (unfold FILE_STR_LEN; lia). by split.
Qed.

(** ** A name from the directory *)

(** What a read of [m] bytes at most stores: the name, cut or filled up with NULs. *)
Definition padded (nm : list Z) (m : Z) : list Z := take (Z.to_nat m) (nm ++ replicate (Z.to_nat m) 0).

Lemma padded_length nm m : 0 <= m -> len (padded nm m) = m.
Proof. intros Hm. unfold padded. rewrite length_take, length_app, length_replicate. lia. Qed.

Lemma store_next buf (u : list Z) c : len u < len buf -> (splice buf 0 u).[len u := c] = Some (splice buf 0 (u ++ [c])).
Proof.
  intros Hu. rewrite aset_Some by (rewrite length_splice; lia). f_equal.
  rewrite <- (splice_app buf 0 u [c]), Z.add_0_l by lia. symmetry. apply splice_one. rewrite length_splice; lia.
Qed.

Section naming.
Context (name nm buf : list Z) (nbytes : Z) (Hname : cstring name 0 nm) (Hn : 1 <= nbytes) (Hbuf : Z.min nbytes 32 <= len buf).

(** The characters of the name. *)
Lemma copy_chars : exists r,
  iterate (S (Datatypes.length name))
    (fun '(copied, buf) =>
       c ← name.[copied];
       if c =? 0 then Some (Done (inr (copied, buf)))
       else
         buf ← buf.[copied := c];
         if copied + 1 =? nbytes then Some (Done (inl (nbytes, buf)))
         else if 32 =? copied + 1 then Some (Done (inl (32, buf)))
         else Some (Next (copied + 1, buf))) (0, buf) = Some r /\
  match r with
  | inl (m, b) => m = Z.min nbytes 32 /\ m <= len nm /\ b = splice buf 0 (take (Z.to_nat m) nm)
  | inr (m, b) => m = len nm /\ m < Z.min nbytes 32 /\ b = splice buf 0 nm
  end.
Proof using Hname Hn Hbuf.
  pose proof (cstring_length _ _ _ Hname) as Hl.
  apply (iterate_ind (fun '(i, b) => 0 <= i <= len nm /\ i < Z.min nbytes 32 /\ b = splice buf 0 (take (Z.to_nat i) nm))
    _ (fun '(i, _) => Z.to_nat (len nm - i))); [|split_and!; try lia; by rewrite take_0, splice_nil|lia].
  intros [i b] (Hi & Him & ->). destruct (cstring_get _ _ _ i Hname Hi) as (c & Ec & Hc0 & Hc). rewrite Z.add_0_l in Ec.
  rewrite Ec. cbn [mbind option_bind]. destruct (Z.eqb_spec c 0) as [->|Hne].
  { eexists. split; [reflexivity|]. rewrite (take_ge nm) by lia. split_and!; [lia|lia|done]. }
  assert (i < len nm) as Hlt by lia. specialize (Hc Hlt).
  assert (len (take (Z.to_nat i) nm) = i) as Ht by (rewrite length_take; lia).
  pose proof (store_next buf (take (Z.to_nat i) nm) c ltac:(lia)) as Es. rewrite Ht in Es. rewrite Es. cbn [mbind option_bind].
  rewrite <- (take_snoc nm i c) by (done || lia).
  destruct (Z.eqb_spec (i + 1) nbytes) as [E1|E1]; [|destruct (Z.eqb_spec 32 (i + 1)) as [E2|E2]]; eexists; (split; [reflexivity|]).
  - replace (i + 1) with nbytes by lia. split_and!; [lia|lia|done].
  - replace (i + 1) with 32 by lia. split_and!; [lia|lia|done].
  - split; [|lia]. split_and!; try lia. done.
Qed.

Lemma copy_d_name_spec : copy_d_name name buf nbytes = Some (Z.min nbytes 32, splice buf 0 (padded nm (Z.min nbytes 32))).
Proof using Hname Hn Hbuf.
  unfold copy_d_name. destruct copy_chars as (r & -> & Hr). cbn [mbind option_bind]. set (m := Z.min nbytes 32) in *.
  destruct r as [ [m' b]|[m' b] ].
  - destruct Hr as (-> & Hm & ->). unfold padded. by rewrite take_app_le by lia.
  - destruct Hr as (-> & Hm & ->).
    destruct (iterate_ind (fun '(i, b) => len nm <= i <= m /\ b = splice buf 0 (nm ++ replicate (Z.to_nat (i - len nm)) 0))
      (fun r => r = (m, splice buf 0 (padded nm m))) (fun '(i, _) => Z.to_nat (m - i))
      (fun '(copied, buf) =>
         if (copied <? nbytes) && (copied <? 32) then buf ← buf.[copied := 0]; Some (Next (copied + 1, buf))
         else Some (Done (copied, buf))) 34) with (s := (len nm, splice buf 0 nm)) as (r & E & ->); [| | |exact E].
    + intros [i b] [Hi ->]. assert (len (nm ++ replicate (Z.to_nat (i - len nm)) 0) = i) as Hl by (rewrite length_app, length_replicate; lia).
      destruct (Z.eq_dec i m) as [->|Hne].
      * assert ((m <? nbytes) && (m <? 32) = false) as -> by lia. eexists. split; [reflexivity|]. f_equal. f_equal.
        unfold padded. rewrite take_app_ge by lia. f_equal. rewrite take_replicate. f_equal. lia.
      * assert ((i <? nbytes) && (i <? 32) = true) as -> by lia. pose proof (store_next buf _ 0 ltac:(rewrite Hl; lia)) as Es.
        rewrite Hl in Es. rewrite Es. cbn [mbind option_bind]. eexists. split; [reflexivity|]. split; [|lia]. split; [lia|].
        rewrite <- app_assoc. f_equal. f_equal. replace (Z.to_nat (i + 1 - len nm)) with (S (Z.to_nat (i - len nm))) by lia.
        by rewrite replicate_S_end.
    + split; [lia|]. by rewrite Z.sub_diag, app_nil_r.
    + lia.
Qed.
End naming.

(** ** Properties *)

Lemma strings_from buf args ws : Forall2 (cstring buf) args ws -> mapM (string_from buf) args = Some ws.
Proof. intros HF. apply mapM_Some_2. eapply Forall2_impl; [|exact HF]. apply string_from_spec. Qed.

(** What the child is started with. *)
Lemma linux_execute_eq {H} `{!Libc H} junk st0 command s (E : emu H) w ws :
  len junk = 1026 -> cstring command 0 s -> len s <= 1023 -> command_words s = w :: ws ->
  linux_execute junk st0 command E =
    ('(pid, h) ← fork (host E);
     '(status, h) ← (if pid =? -1 then Some (st0, h)
                     else '(r, h) ← execv (46 :: 47 :: w) ((46 :: 47 :: w) :: ws) h; Some (default (Signaled 9) r, h));
     Some (match status with Exited code => code | Signaled sig => if 9 =? sig then -1 else 256 end, E <| host := h |>)).
Proof.
  intros Hj Hs Hl Hw. destruct (split_command_spec junk command s Hj Hs Hl) as (buf & args & Ec & HF). rewrite Hw in HF.
  unfold linux_execute. rewrite (ece391_strlen_cstring _ _ _ Hs). cbn [mbind option_bind].
  rewrite (proj2 (Z.ltb_ge 1023 (len s))), Ec by lia. cbn [mbind option_bind].
  rewrite (strings_from _ _ _ HF). inversion HF as [|? ? ? ? H0]; subst. by rewrite (string_from_spec _ _ _ H0).
Qed.

(** C19: The emulation gives a program the same arguments as the kernel.  For a command
    line of words that stand one space apart - at most 1023 characters, the name at most
    128 - execute cuts it into the words and starts the first of them, behind "./", with
    all of them; the child's getargs joins them again, and what it stores in the
    program's buffer is, byte for byte, what the kernel's [sys_getargs] stores there from
    the argument string that the kernel's parser leaves.  The name is the kernel's name,
    too.  Execute answers the child's code, -1 if the program could not be started or
    was killed by signal 9, and 256 for any other signal.  The buffer has room for the
    arguments and the NUL behind them (with less the kernel stores nothing and answers
    -1, while the emulation stores what fits, or a byte too many).  With that room the
    one difference is that without arguments the kernel's call fails, and the
    emulation's gives the empty string. *)
Theorem emulated_arguments {H} `{!Libc H} prog ws junk st0 command (E : emu H) h1 h2 pid r args (h : H) buf nbytes k b :
  let s := join (prog :: ws) in
  Forall is_word (prog :: ws) -> cstring command 0 s -> len s <= 1023 -> len prog <= 128 -> len junk = 1026 ->
  fork (host E) = Some (pid, h1) -> pid <> -1 ->
  execv (bytes "./" ++ prog) ((bytes "./" ++ prog) :: ws) h1 = Some (r, h2) ->
  Forall2 (fun o w => cstring o 0 w) args ((bytes "./" ++ prog) :: ws) ->
  get_pcb (cur_pid k) k = Some b -> cstring (cmd_args b) 0 (command_args s) ->
  nbytes <= len buf -> len (join ws) < nbytes ->
  command_name s = prog /\
  linux_execute junk st0 command E =
    Some (match r with Some (Exited code) => code | Some (Signaled sig) => if sig =? 9 then -1 else 256 | None => -1 end,
          E <| host := h2 |>) /\
  linux_getargs buf nbytes (emu_start args h) = Some (0, splice buf 0 (join ws ++ [0])) /\
  sys_getargs buf nbytes k = Some (if decide (ws = []) then (-1, buf, k) else (0, splice buf 0 (join ws ++ [0]), k)).
Proof.
  intros s HW Hs Hl Hp Hj Ef Hpid Ee HF Eb Hk Hn Hfit. destruct (kernel_words_join _ _ HW Hp) as [En Ea]. split; [done|].
  split; [|split].
  - rewrite (linux_execute_eq junk st0 command s E prog ws Hj Hs Hl (command_words_join _ _ HW)), Ef. cbn [mbind option_bind].
    rewrite (proj2 (Z.eqb_neq _ _) Hpid). change (46 :: 47 :: prog) with (bytes "./" ++ prog). rewrite Ee. cbn [mbind option_bind]. f_equal. f_equal.
    destruct r as [ [code|sig] |]; [done| |done]. cbn. by rewrite Z.eqb_sym.
  - destruct (linux_getargs_spec (emu_start args h) _ ws buf nbytes HF ltac:(lia) ltac:(lia)) as (b' & ->).
    by rewrite (proj2 (Z.ltb_lt _ _) Hfit).
  - fold s in Ea. rewrite Ea in Hk. rewrite (sys_getargs_eq _ _ _ _ _ Eb Hk Hn). destruct (decide (ws = [])) as [->|Hne].
    + rewrite decide_False; [done|]. by intros [Hne _].
    + rewrite decide_True; [done|]. split; [|done]. intros Ej. pose proof (join_length ws (Forall_inv_tail HW)) as Hjl.
      rewrite Ej in Hjl. destruct ws; [done|cbn in Hjl; lia].
Qed.

(** [n] reads in a row into the same buffer: each one's answer, and as many bytes. *)
Fixpoint reads {A} (read : list Z -> A -> option (Z * list Z * A)) (n : nat) (buf : list Z) (s : A)
    : option (list (Z * list Z) * A) :=
  match n with
  | O => Some ([], s)
  | S n =>
      '(r, buf, s) ← read buf s;
      '(l, s) ← reads read n buf s;
      Some ((r, take (Z.to_nat r) buf) :: l, s)
  end.

Lemma reads_S {A} (read : list Z -> A -> option (Z * list Z * A)) n buf s : reads read (S n) buf s =
  ('(r, buf, s) ← read buf s; '(l, s) ← reads read n buf s; Some ((r, take (Z.to_nat r) buf) :: l, s)).
Proof. done. Qed.

(** The C library's directory streams: [stream d h l] says that the names [l] are left
    in the stream [d]. *)
Class DirLaws {H} `{!Libc H} (stream : Z -> H -> list (list Z) -> Prop) := {
  readdir_next : forall d h nm l, stream d h (nm :: l) ->
    exists name h', readdir d h = Some (Some name, h') /\ cstring name 0 nm /\ stream d h' l;
  readdir_end : forall d h, stream d h [] -> exists h', readdir d h = Some (None, h') /\ stream d h' [];
  closedir_ends : forall d h, is_Some (closedir d h);
  close_ends : forall fd h, is_Some (close fd h);
}.

Lemma take_splice_0 (buf u : list Z) : len u <= len buf -> take (Datatypes.length u) (splice buf 0 u) = u.
Proof.
  intros Hu. pose proof (slice_splice_0 buf u (len u) eq_refl) as E. unfold slice in E. by rewrite drop_0, Nat2Z.id in E.
Qed.

(** A read of the directory. *)
Lemma linux_read_name {H} `{!Libc H} (E : emu H) fd buf nbytes name nm h' : on_dir fd E = true -> 1 <= nbytes -> 32 <= len buf ->
  readdir (dir E) (host E) = Some (Some name, h') -> cstring name 0 nm ->
  linux_read fd buf 0 nbytes E =
    Some (Z.min nbytes 32, splice buf 0 (padded nm (Z.min nbytes 32)), E <| host := h' |>).
Proof.
  intros Hd Hn Hb Er Hc. unfold linux_read. rewrite Hd, Er. cbn [negb mbind option_bind].
  rewrite drop_0, (copy_d_name_spec name nm buf nbytes Hc Hn) by lia. done.
Qed.

Lemma linux_reads_names {H} `{!Libc H} stream `{!DirLaws stream} fd nbytes names : forall (E : emu H) buf,
  on_dir fd E = true -> 1 <= nbytes -> 32 <= len buf -> stream (dir E) (host E) names ->
  exists h', reads (fun buf => linux_read fd buf 0 nbytes) (S (Datatypes.length names)) buf E =
    Some (((fun nm => (Z.min nbytes 32, padded nm (Z.min nbytes 32))) <$> names) ++ [(0, [])], E <| host := h' |>).
Proof.
  induction names as [|nm names IH]; intros E buf Hd Hn Hb Hs; cbn [Datatypes.length]; rewrite reads_S.
  - destruct (readdir_end _ _ Hs) as (h' & Er & _). exists h'. unfold linux_read. by rewrite Hd, Er.
  - destruct (readdir_next _ _ _ _ Hs) as (name & h' & Er & Hc & Hs').
    rewrite (linux_read_name E fd buf nbytes name nm h' Hd Hn Hb Er Hc). cbn [mbind option_bind].
    pose proof (padded_length nm (Z.min nbytes 32) ltac:(lia)) as Hpl.
    destruct (IH (E <| host := h' |>) (splice buf 0 (padded nm (Z.min nbytes 32)))) as (h2 & E2);
      [done|done|rewrite length_splice; lia|exact Hs'|].
    exists h2. rewrite E2. cbn [mbind option_bind fmap list_fmap app]. repeat f_equal.
    pose proof (take_splice_0 buf (padded nm (Z.min nbytes 32)) ltac:(lia)) as Et.
    by replace (Z.to_nat (Z.min nbytes 32)) with (Datatypes.length (padded nm (Z.min nbytes 32))) by lia.
Qed.

Lemma take_cstring buf s : cstring buf 0 s -> take (Datatypes.length s) buf = s.
Proof.
  intros Hs. pose proof (string_from_spec _ _ _ Hs) as E. unfold string_from in E. rewrite (ece391_strlen_cstring _ _ _ Hs) in E.
  injection E as E. unfold slice in E. by rewrite drop_0, Nat2Z.id in E.
Qed.

(** The kernel's reads of its directory. *)
Lemma kernel_reads_names F d0 nbytes : forall n k buf,
  represents (k_img k) F -> 0 <= read_index k -> 33 <= len buf -> read_index k + Z.of_nat n = len (a_entries F) ->
  exists k', reads (fun buf => dir_read d0 buf nbytes) (S n) buf k =
    Some (((fun e => (len (a_name e), a_name e)) <$> drop (Z.to_nat (read_index k)) (a_entries F)) ++ [(0, [])], k').
Proof.
  induction n as [|n IH]; intros k buf HR Hi Hb Hn; pose proof (rep_entries_max _ _ HR) as Hmax; unfold MAX_DIR_ENTRIES in Hmax;
    pose proof (dir_read_spec F d0 buf nbytes k HR ltac:(lia) Hb) as HD; rewrite reads_S.
  - rewrite (aget_None (a_entries F) (read_index k)) in HD by lia. exists k. rewrite HD, drop_ge by lia. done.
  - destruct (aget_is_Some (a_entries F) (read_index k)) as [e Ee]; [lia|]. rewrite Ee in HD.
    destruct HD as (buf' & Ed & Hc & Hl & _).
    set (k1 := k <| read_index := read_index k + 1 |>) in Ed. assert (read_index k1 = read_index k + 1) as Hk1 by done.
    destruct (IH k1 buf') as (k' & E2); [exact HR|lia|lia|lia|]. rewrite Hk1 in E2. exists k'.
    rewrite Ed. cbn [mbind option_bind]. rewrite E2. cbn [mbind option_bind]. rewrite Nat2Z.id, (take_cstring _ _ Hc).
    unfold aget in Ee. destruct (read_index k <? 0) eqn:Ep; [done|].
    rewrite (drop_S _ _ _ Ee). cbn [fmap list_fmap app]. repeat f_equal. lia.
Qed.

(** C20: A program that lists the directory sees the same files on Linux as on the
    kernel.  On a host whose directory holds the names of the kernel's image, opening
    "." and reading the descriptor gives, one read each, every name in the order of the
    directory and then 0; the kernel's reads of its directory do the same.  A name comes
    with its length from the kernel, and from the emulation cut or filled up with NULs
    to the size asked for, 32 at most.  Writing the descriptor is refused, and closing
    it puts the emulation back where it started. *)
Theorem emulated_directory {H} `{!Libc H} stream `{!DirLaws stream} filename (E : emu H) d fd h1 h2 F k d0 buf nbytes :
  represents (k_img k) F -> read_index k = 0 ->
  cstring filename 0 (bytes ".") -> opendir (bytes "." ++ [0]) (host E) = Some (d, h1) -> d <> 0 ->
  open (bytes "/dev/null" ++ [0]) O_RDONLY h1 = Some (fd, h2) -> stream d h2 (a_name <$> a_entries F) ->
  1 <= nbytes -> 33 <= len buf ->
  exists E1 E2 E3 k', linux_open filename E = Some (fd, E1) /\
    reads (fun buf => linux_read fd buf 0 nbytes) (S (Datatypes.length (a_entries F))) buf E1 =
      Some (((fun e => (Z.min nbytes 32, padded (a_name e) (Z.min nbytes 32))) <$> a_entries F) ++ [(0, [])], E2) /\
    reads (fun buf => dir_read d0 buf nbytes) (S (Datatypes.length (a_entries F))) buf k =
      Some (((fun e => (len (a_name e), a_name e)) <$> a_entries F) ++ [(0, [])], k') /\
    linux_write fd buf 0 nbytes E2 = Some (-1, E2) /\
    linux_close fd E2 = Some (0, E3) /\ E3 = E <| dir := 0 |> <| dir_fd := -1 |> <| host := host E3 |>.
Proof.
  intros HR Hi Hf Eo Hd En Hs Hn Hb.
  assert (exists E1, linux_open filename E = Some (fd, E1) /\ E1 = E <| dir := d |> <| dir_fd := fd |> <| host := h2 |>) as (E1 & Ee & ->).
  { assert (cstring (bytes "." ++ [0]) 0 (bytes ".")) as Hdot by (apply (cstring_intro (bytes ".") []); by repeat constructor).
    destruct (ece391_strcmp_spec _ _ _ _ _ _ Hf Hdot) as (r & Er & Hr). unfold linux_open. rewrite Er. cbn [mbind option_bind].
    rewrite (proj2 Hr eq_refl), Eo. cbn [Z.eqb mbind option_bind]. rewrite En. by eexists. }
  set (E1 := E <| dir := d |> <| dir_fd := fd |> <| host := h2 |>).
  assert (forall h, on_dir fd (E1 <| host := h |>) = true) as Hon.
  { intros h. unfold on_dir. cbn. by rewrite (proj2 (Z.eqb_neq d 0) Hd), Z.eqb_refl. }
  destruct (linux_reads_names stream fd nbytes _ E1 buf (Hon h2) Hn ltac:(lia) Hs) as (h3 & E3).
  rewrite length_fmap, <- list_fmap_compose in E3.
  destruct (kernel_reads_names F d0 nbytes (Datatypes.length (a_entries F)) k buf HR ltac:(lia) Hb ltac:(lia)) as (k' & Ek).
  rewrite Hi, drop_0 in Ek.
  destruct (closedir_ends d h3) as [ [r4 h4] E4], (close_ends fd h4) as [ [r5 h5] E5].
  exists E1, (E1 <| host := h3 |>), (E <| dir := 0 |> <| dir_fd := -1 |> <| host := h5 |>), k'.
  split_and!; [exact Ee|exact E3|exact Ek| | |done].
  - unfold linux_write. by rewrite (Hon h3).
  - unfold linux_close. rewrite (Hon h3). cbn [negb dir dir_fd host]. unfold E1 at 1 2. cbn. rewrite E4. cbn. by rewrite E5.
Qed.

(** ** A host

    Its state is the names left in the one directory stream; the program run by execv
    ends with 3, and low memory is not mapped. *)
#[local] Instance sample_host : Libc (list (list Z)) := {|
  opendir _ l := Some (16, l);
  open _ _ l := Some (7, l);
  readdir _ l := Some (match l with [] => (None, []) | nm :: l => (Some (nm ++ [0]), l) end);
  closedir _ _ := Some (0, []);
  close _ l := Some (0, l);
  fork l := Some (100, l);
  execv _ _ l := Some (Some (Exited 3), l);
  mmap _ l := Some (0xFFFFFFFF, l);
  perror _ l := Some l;
  int_read _ b _ _ l := Some (0xFFFFFFF7, b, l);
  int_write _ _ _ n l := Some (n, l);
  int_open _ _ l := Some (0xFFFFFFFE, l);
  int_close _ l := Some (0, l);
|}.

(** The stream's names are strings. *)
Definition sample_stream (d : Z) (h l : list (list Z)) : Prop := h = l /\ Forall (Forall is_char) l.

#[local] Instance sample_laws : DirLaws sample_stream.
Proof.
  constructor.
  - intros d h nm l [-> HF]. eexists _, l. split; [reflexivity|]. split; [apply (cstring_intro nm []), (Forall_inv HF)|].
    split; [done|exact (Forall_inv_tail HF)].
  - intros d h [-> _]. eexists. split; [reflexivity|]. by repeat constructor.
  - by eexists.
  - by eexists.
Defined.

(** "cat frame0" and "cat" alone. *)
Lemma emulated_arguments_witness :
  let junk := replicate 1026 9 in
  (exists E', linux_execute junk (Exited 0) (bytes "cat frame0" ++ [0]) (emu_start [] ([] : list (list Z))) = Some (3, E') /\
    linux_getargs (replicate 8 9) 8 (emu_start [bytes "./cat" ++ [0]; bytes "frame0" ++ [0] ] ([] : list (list Z))) = Some (0, bytes "frame0" ++ [0; 9]) /\
    sys_getargs (replicate 8 9) 8 sample_user = Some (0, bytes "frame0" ++ [0; 9], sample_user)) /\
  linux_getargs [9; 9] 2 (emu_start [bytes "./cat" ++ [0] ] ([] : list (list Z))) = Some (0, [0; 9]) /\
  sys_getargs [9; 9] 2 sample_user_dir = Some (-1, [9; 9], sample_user_dir).
Proof.
  assert (forall w, (w = bytes "cat" \/ w = bytes "frame0") -> is_word w) as HW by
    (intros w [-> | ->]; (split; [done|]); repeat (constructor; [split; [by compute|split; discriminate]|]); constructor).
  assert (forall s, Forall is_char s -> cstring (s ++ [0]) 0 s) as HC by (intros s; apply (cstring_intro s [])).
  split.
  - destruct (emulated_arguments (bytes "cat") [bytes "frame0"] (replicate 1026 9) (Exited 0) (bytes "cat frame0" ++ [0])
      (emu_start [] []) [] [] 100 (Some (Exited 3)) [bytes "./cat" ++ [0]; bytes "frame0" ++ [0] ] [] (replicate 8 9) 8
      sample_user (mkPcb sample_fds (-1) 0 0 0 0 0 [102; 114; 97; 109; 101; 48; 0; 0])) as (_ & E1 & E2 & E3);
      [| |vm_compute; discriminate|vm_compute; discriminate|reflexivity|reflexivity|lia|reflexivity| |reflexivity| |vm_compute; discriminate|reflexivity|].
    + constructor; [by apply HW; left|]. constructor; [by apply HW; right|constructor].
    + apply HC. by repeat constructor.
    + constructor; [apply HC; by repeat constructor|]. constructor; [apply HC; by repeat constructor|constructor].
    + apply (cstring_intro (bytes "frame0") [0]). by repeat constructor.
    + eexists. split; [exact E1|]. split; [exact E2|exact E3].
  - destruct (emulated_arguments (bytes "cat") [] (replicate 1026 9) (Exited 0) (bytes "cat" ++ [0])
      (emu_start [] []) [] [] 100 (Some (Exited 3)) [bytes "./cat" ++ [0] ] [] [9; 9] 2
      sample_user_dir (mkPcb (<[2%nat := mkFd dir_opt 0 0 1]> sample_fds) (-1) 0 0 0 0 0 (replicate 128 0))) as (_ & E1 & E2 & E3);
      [| |vm_compute; discriminate|vm_compute; discriminate|reflexivity|reflexivity|lia|reflexivity| |reflexivity| |vm_compute; discriminate|reflexivity|].
    + constructor; [by apply HW; left|constructor].
    + apply HC. by repeat constructor.
    + constructor; [apply HC; by repeat constructor|constructor].
    + apply (cstring_intro [] (replicate 127 0)). constructor.
    + split; [exact E2|exact E3].
Defined.

(** The sample image's directory, 40 bytes at a time. *)
Lemma emulated_directory_witness :
  let k := sample_user in
  exists E1 E2 E3 k', linux_open (bytes "." ++ [0]) (emu_start [] (a_name <$> a_entries sample_fs)) = Some (7, E1) /\
    reads (fun buf => linux_read 7 buf 0 40) (S (Datatypes.length (a_entries sample_fs))) (replicate 40 9) E1 =
      Some (((fun e => (32, padded (a_name e) 32)) <$> a_entries sample_fs) ++ [(0, [])], E2) /\
    reads (fun buf => dir_read null_dentry buf 40) (S (Datatypes.length (a_entries sample_fs))) (replicate 40 9) k =
      Some (((fun e => (len (a_name e), a_name e)) <$> a_entries sample_fs) ++ [(0, [])], k') /\
    linux_close 7 E2 = Some (0, E3) /\ dir E3 = 0.
Proof.
  destruct (emulated_directory sample_stream (bytes "." ++ [0]) (emu_start [] (a_name <$> a_entries sample_fs)) 16 7
    (a_name <$> a_entries sample_fs) (a_name <$> a_entries sample_fs) sample_fs sample_user null_dentry (replicate 40 9) 40)
    as (E1 & E2 & E3 & k' & H1 & H2 & H3 & _ & H5 & H6);
    [exact sample_represents|reflexivity| |reflexivity|lia|reflexivity| |lia|cbn; lia|].
  - apply (cstring_intro (bytes ".") []). by repeat constructor.
  - split; [reflexivity|]. by repeat constructor.
  - exists E1, E2, E3, k'. split; [exact H1|]. split; [exact H2|]. split; [exact H3|]. split; [exact H5|]. by rewrite H6.
Defined.
